(* ===== verification/_CoqProject ===== *)
-Q . S2P
Prelude.v
CString.v
BitField.v
CdmaSms.v
RilEvent.v
AtTok.v
Base64.v
SmsPdu.v
Fcp.v
AtLine.v
AtChannel.v
Request.v
SmsHandlers.v
CallControl.v
Crc.v
Ring.v
Frame.v
BasicFrame.v
AdvFrame.v
MuxState.v
Logic.v
WriteFrame.v
FrameList.v
FlowControl.v
Channel.v
Boot.v
Watchdog.v
Receive.v
Threads.v
Main.v
System.v
ThreadQueue.v
Vibrator.v
Lights.v
Power.v
CFloat.v
Nmea.v
Calendar.v
NmeaReader.v
NmeaSentences.v
GpsMsg.v
Epo.v
