(* ===== verification/Prelude.v ===== *)
(** * A verified model of the device code of the Meizu MX4

    The repository is the device tree of the Meizu MX4 ("arale").  This development is about
    the parts of it that carry logic of their own: the multiplexer daemon between modem
    and telephony stack (src/mtk/gsm0710muxd/src), the RIL daemon that talks to the modem
    over it (src/mtk/ril/mtk-ril: the AT layer, short messages and call control;
    src/mtk/ril/librilmtk: the event loop), the message coding of the CDMA RIL
    (src/mtk/ril/c2k/c2k-ril/sms.c), the GPS HAL (src/mtk/gps/hal/gps_mtk_aosp.c), and the
    HALs and the vibrator daemon written for the device (src/liblights, src/power,
    src/immvibe).

    ** How the programs work

    The multiplexer.  [main] handles the options, allocates the buffers and calls
    [watchdog] every five seconds.  [watchdog] is the state machine: it opens the device
    ([open_serial_device]), starts the modem's multiplexer with AT commands
    ([start_muxer]), allocates the channels ([c_alloc_channel]), reopens pseudo terminals
    and closes everything down.  Threads do the work: [poll_thread_serial] reads the modem
    into the ring buffer [serial.in_buf]; [assemble_frame_thread] takes frames out of it
    ([extract_frames]) and writes their payload to pseudo terminals or handles control
    frames; one [poll_thread] per channel reads a pseudo terminal and sends frames
    ([write_frame]); and [retry_write_pty_thread] writes what a full pseudo terminal did not
    take.

    The AT layer.  Each RIL channel has one of these pseudo terminals open.  A reader thread
    ([readerLoop]) cuts the bytes into lines ([readline]) and sorts them ([processLine]):
    intermediate lines and the final response of the pending command, or unsolicited lines
    for a handler.  [at_send_command_full] sends a command and waits for its response; the
    request handlers take the response apart with the tokenizer of at_tok.c, the FCP parser
    and base64.c.

    The request layer.  A request of the framework is served by a handler that sends AT
    commands, reads their answers and completes the request once with its token
    (ril_sms.c, ril_cc.c); a line the modem sends on its own is reported as an unsolicited
    response.  An incoming short message is reported and the next one held back until the
    framework acknowledges it.  The event loop of librilmtk ([ril_event_loop]) waits for
    descriptors and timers and calls the functions of those that are ready or due.  The
    CDMA RIL packs a message into a PDU of type-length-value parameters and unpacks it.

    The GPS HAL.  A thread reads NMEA bytes of the receiver's daemon; the reader collects
    them into sentences, parses these and calls back with sentences, satellites and
    locations.  Requests of assisted GPS are packed into messages of 1024 bytes and sent to
    the daemon.  The EPO thread downloads an orbit prediction in pieces and joins them in
    EPOHAL.DAT.

    The device daemons.  The vibrator daemon takes requests from a socket, puts them in a
    message queue and plays them in a worker thread.  The lights HAL turns colours into
    values of sysfs files, with one LED for notifications and buttons.  The power HAL
    parses hint data and switches the double-tap gesture.

    ** Files

    - [Prelude]: bytes and machine words as [Z], lists with [Z] indices, [memcpy], hint
      databases and tactics.
    - [CString]: C strings and the C library functions on them.
    - The AT layer: [AtTok] (at_tok.c), [Base64] (base64.c), [Fcp] (usim_fcp_parser.c and
      [makeSimRspFromUsimFcp] of ril_sim.c), [AtLine] (the line reader of atchannels.c),
      [AtChannel] (the rest of atchannels.c).
    - The request layer: [Request] (responses on a heap, AT commands, completions; the class
      [Modem] that the AT layer discharges with [channel_modem]), [SmsPdu] (the checks of
      PDUs in ril_sms.c), [SmsHandlers] (the requests and events of ril_sms.c),
      [CallControl] (ril_cc.c), [RilEvent] (ril_event.cpp).
    - The CDMA RIL: [BitField] and [CdmaSms] (c2k-ril/sms.c).
    - [Crc]: [frame_calc_crc] and its table.
    - [Ring]: [GSM0710_Buffer]; pointers are offsets into the 4096-byte array, counters are
      unsigned 32-bit; [wf_buffer] is the invariant, [contents] the abstraction.
    - [Frame]: constants, [GSM0710_Frame], the fields [write_frame] builds.
    - [BasicFrame]: [gsm0710_base_buffer_get_frame] and a parser on byte lists it refines.
    - [AdvFrame]: escaping and [gsm0710_advanced_buffer_get_frame].
    - [MuxState]: the structs [Channel] and [Serial], the file-scope variables, the channel
      table, the environment and the monad of the handlers.
    - [Logic]: a weakest precondition for that monad and relations that handlers keep.
    - [WriteFrame]: [write_frame], [handle_channel_data].
    - [FrameList]: the pending-frame list of a channel on an explicit heap.
    - [FlowControl]: the functions [_fc_*] of gsm0710muxd_fc.c.
    - [Channel]: logical channels and their pseudo terminals.
    - [Boot]: the AT dialogue, [open_serial_device], [start_muxer].
    - [Watchdog]: [close_devices], [shutdown_devices], [signal_treatment], [watchdog].
    - [Receive]: [handle_command], [extract_frames], the assembly and the retry thread.
    - [Threads]: the reading threads.
    - [Main]: options and [main].
    - [System]: an AT command over the multiplexer, both programs together.
    - [ThreadQueue] (threadqueue.c), [Vibrator] (the rest of src/immvibe), [Lights]
      (lights.c) and [Power] (src/power).
    - The GPS HAL (all of gps_mtk_aosp.c): [CFloat] (floating-point numbers and [strtod]),
      [Nmea] (tokenizer and numbers), [Calendar] (the calendar and [GpsToUtcTime]),
      [NmeaReader] (the reader and its loop), [NmeaSentences] (whole sentences, from bytes to
      callbacks), [GpsMsg] (messages to the daemon), [Epo] (orbit prediction files).

    ** How the code is modelled

    Integers are [Z] with the wrap-around of their C type written out; bytes are [Z] below
    256; C strings are lists without the terminator.

    A handler of the multiplexer is a function of the process state [Mux] (serial device,
    [channellist], options, file-scope variables, heap, [errno]) that ends normally, in a
    fatal assertion, in [exit], in undefined behaviour, or without fuel ([Res]).  Undefined
    behaviour is an index outside [channellist] or another array, a use of [NULL] or of a
    freed object, or an overflow of a heap buffer.  A [Channel *] is its index, a frame or
    list node an address of the heap; a freed object is absent.  Two things are not the
    daemon's and are parameters: the operating system ([Os]: the result of each system
    call, from a state of its own) and what the other threads do while this one waits
    ([Others], run where a thread blocks on a condition variable or takes the lock of a
    frame list).  A theorem states what it needs of them as a class ([AcceptingOs],
    [ProgressOs], [WorkingOs], [ReadingOs], [SteadyOthers], [IdleOthers]), and its witness
    gives an instance.  Every system call, signal and failed assertion goes to the trace;
    [wire] reads off it what a descriptor was sent.

    The AT layer and the device daemons are pure functions and explicit state: what [read],
    [write], [send] and the like do next is a list of events ([rx_event], [wr_event],
    [client_event], ...).  A command on an AT channel waits with its mutex released; what
    happens there - lines handled by the reader, other threads, wake-ups, the time-out, in
    any order - is a list of [wait_event]s.  The FCP parser has results of its own for a
    read outside the buffer, a failed assertion and an endless loop ([res]).  The threads
    that share the message queue of the vibrator daemon are a step relation
    ([ThreadQueue.step]); its properties are invariants of the reachable states.

    A request handler is a computation on the heap of AT responses, the list of its actions
    and the variables of its module ([Request]); it ends normally, in undefined behaviour
    (NULL, a freed object, a double free) or, where a command is never answered, stopped.
    The answers come through the class [Modem], so that the theorems hold for every modem
    and the instance connects them with the AT channels.  Requests passed to the closed part
    of the library are parameters.  The event loop works on a heap of events in two linked
    rings; the time, the result of [select] and the calls a callback makes are inputs.

    In the CDMA RIL and the GPS HAL [None] is an access outside an array.  What
    <hardware/gps.h> defines and the source does not is the class [GpsHw]; callbacks, clock,
    time zone (a fixed offset) and properties are in [GpsEnv]; [double] and [float] are the
    formats of the Standard Library's [SpecFloat].  The directory of the prediction files
    is a [gmap], the network a list of results, and [getEpoUrl] a parameter.

    The build is that of the device: [MUX_ANDROID], [__CCMNI_SUPPORT__],
    [__MUXD_FLOWCONTROL__], modem 1, two SIMs, a 32-bit ABI; [Config] keeps the production
    switch, the video-telephony switch and the number of SIMs of the multiplexer as
    parameters, [RilEnv] the switches of the RIL.

    ** What the theorems show

    - Transport: the FCS is the CRC-8 of the standard and detects any change of one byte;
      the ring buffer is a bounded FIFO queue; the readers refine parsers on byte lists,
      terminate, resynchronise, leave room in the buffer, and return exactly the frames
      that were sent, also when a stream is cut at any byte.
    - End to end: what an application writes arrives at the peer in frames whose payloads
      concatenate to it; what the modem sends arrives at the right pseudo terminals, in
      order; and an AT command goes over the multiplexer and its answer comes back as
      exactly the fields the modem sent ([System.at_command_over_mux]).
    - AT layer: the line reader returns the lines of a stream however it is cut and stores
      only inside its buffer; a command collects exactly the lines its type takes, in
      every interleaving; the shape of a response is an invariant; time-outs, prompts and
      the channel map; the tokenizer, base64 and the FCP parser against specifications,
      with round trips, bounds and termination.
    - Flow control: the pending-frame list is a FIFO queue, the cache respects the high
      watermark, a stalled frame is kept and written by the retry thread, MSC commands
      switch the sender.
    - Life cycle: the channel table is consistent for every configuration, initialisation
      resets every slot, all configured ports are opened in order, setup completes with
      the last answer, the state machine moves along its edges, shutdown leaves no channel
      in use, options are checked.
    - Device daemons: the message queue delivers every message once and in order, loses no
      wake-up and no node; vibration requests are played as asked; the preferences survive
      migration and restart; LED, LCD and button light show what was asked last; the
      metadata parser stores the last values and stays inside its arrays.
    - Request layer: every short-message and call request is completed exactly once, every
      AT response is freed once and nothing undefined happens, whatever the modem answers;
      incoming messages are reported one at a time until acknowledged; the PDU checks
      accept exactly the well-formed messages and packing stays in its buffer; the calls
      the modem lists are the calls reported.  A round of the event loop calls exactly what
      is due, earliest first, and a timer once, whatever other callbacks do.
    - CDMA messages: encoding and decoding are a round trip, and decoding ends on every PDU.
    - GPS: every line of at most 128 bytes reaches the callback unchanged and once however
      the stream is cut, and no array is left on any stream; a set of GSV sentences and an
      RMC sentence give the satellites and the location they print; [GpsToUtcTime] is linear
      in the GPS time; an assisted-GPS request that fits is read back unchanged; a
      prediction file expires exactly at its end, and its pieces are joined in order.
    - Defects, each as a lemma or theorem on the code as it is, next to the correctness
      results of the same function: among others a cached frame used after it was freed, a
      list freed twice, [memstr] and [chatCmux] missing answers, an endless search in the
      FCP parser for a length of 254, a ninth PIN that fails an assertion, a byte behind
      the line buffer, a PDU sent twice, a request lost when it is cut; in the
      GPS HAL a line that fills the buffer and takes the next one with it, satellites of a
      set that are never reported or counted again, a configuration value that loses its
      last character, and strings that overflow the message to the daemon.

    ** Bounds and fuel

    Loops without a structural argument take fuel and report it when it is used up.
    [handle_channel_data], the frame readers, [memstr], the list operations, [readline], the
    base64 loops, the FCP searches and the metadata parser compute enough fuel themselves
    (bytes plus retries, bytes waiting, nodes of the heap, length of the text), which is
    proved where it is not evident ([channel_data_terminates],
    [adv_reader_total_and_refines], [clean_loop_spec], [readline_safe], [queries_end],
    [free_list_spec], [metadata_total]).  For the FCP search fuel runs out exactly where the
    code loops for ever.  Theorems about loops that depend on the environment ask for fuel
    above the number of frames, bytes or messages handled and then prove a normal end.
    Threads that run for ever take their number of rounds.  The decoder of CDMA messages
    moves a 16-bit index, so its loop is shown to end for PDUs below 65280 bytes.  In the
    GPS HAL the tokenizer and [fgets] take the bytes of the text as fuel, [gps_years] the
    days, the calendar 140 years (a [time_t] of 32 bits needs fewer); the safety theorem
    of the reader is for streams of up to [SENTENCE_LIMIT], four million, bytes, because the
    code adds to the number of satellites, an [int], without a check.

    ** What is not modelled

    Log output and [syslogdump] (but for the two log statements whose arguments are
    undefined), the usage text, failure of [malloc] in the multiplexer,
    [reset_cntx_and_terminate_threads] (empty), the unit-test build [__MUX_UT__], the
    build for modem 2, the terminal attributes of devices, and preemption between blocking
    points.

    Of the RIL: opening the PPP and data channels, the other request handlers (SIM,
    network, data, supplementary services), which are of the same kind as those modelled,
    the parcels and the framework socket.  Of the CDMA RIL: everything but sms.c.

    Of the GPS HAL: sessions and their condition variables, the [epoll] loop around the
    reader, measurements and navigation messages, the AT test mode (compiled out), the
    retries and the Wi-Fi trigger of the EPO thread, and the messages from the
    daemon other than the texts of a notification.

    The other parts of the device tree (audio amplifier, Wi-Fi and Bluetooth libraries,
    strongSwan, C++ extensions, prebuilt and generated files) are third-party or glue over
    closed libraries. *)
From stdpp Require Export base list numbers option strings gmap.

#[global] Open Scope Z_scope.

(** * Machine integers *)

(** [unsigned char], [unsigned int] and [unsigned long] (the daemon is built
    for a 32-bit ABI) are kept as [Z] with the wrap-around written out. *)
Definition u8 (x : Z) : Z := x mod 256.
Definition u32 (x : Z) : Z := x mod 4294967296.

Definition is_byte (b : Z) : Prop := 0 <= b < 256.

#[global] Instance is_byte_dec b : Decision (is_byte b).
Proof. unfold is_byte. apply _. Defined.

(** [~ m] on an [unsigned char] operand promoted to [int]: clearing the bits of
    a mask. *)
Definition clear_bits (x m : Z) : Z := Z.land x (Z.lnot m).

Lemma u8_byte x : is_byte (u8 x).
Proof. unfold u8, is_byte. apply Z.mod_pos_bound. lia. Qed.

Lemma u8_id x : is_byte x -> u8 x = x.
Proof. unfold u8, is_byte. intros. apply Z.mod_small. lia. Qed.

Lemma u32_id x : 0 <= x < 4294967296 -> u32 x = x.
Proof. unfold u32. intros. apply Z.mod_small. lia. Qed.

(** A decidable statement about bytes is settled by evaluating it on all 256
    values. *)
Definition all_bytes : list Z := seqZ 0 256.

Lemma is_byte_elem b : is_byte b <-> b ∈ all_bytes.
Proof. unfold is_byte, all_bytes. rewrite elem_of_seqZ. lia. Qed.

Lemma byte_forall (P : Z -> bool) :
  forallb P all_bytes = true -> forall b, is_byte b -> P b = true.
Proof.
  rewrite forallb_forall. intros H b Hb. apply H.
  apply list_elem_of_In, is_byte_elem, Hb.
Qed.

Lemma byte_forall2 (P : Z -> Z -> bool) :
  forallb (fun a => forallb (P a) all_bytes) all_bytes = true ->
  forall a b, is_byte a -> is_byte b -> P a b = true.
Proof.
  intros H a b Ha Hb. apply byte_forall; [|done].
  exact (byte_forall (fun a => forallb (P a) all_bytes) H a Ha).
Qed.

(** * Lists addressed by C integers *)

(** The number of elements as a C [int]. *)
Definition zlen {A} (l : list A) : Z := Z.of_nat (length l).

(** [ztake n l] is the first [n] elements, none when [n] is negative. *)
Definition ztake {A} (n : Z) (l : list A) : list A := take (Z.to_nat n) l.
Definition zdrop {A} (n : Z) (l : list A) : list A := drop (Z.to_nat n) l.

(** Reading a byte array at an offset.  The offsets the models use are proved
    to be in range where they are used. *)
Definition byte_at (l : list Z) (i : Z) : Z := nth (Z.to_nat i) l 0.

(** [memcpy(dst + off, src, |src|)] on an array of fixed size. *)
Definition memcpy_at (dst : list Z) (off : Z) (src : list Z) : list Z :=
  ztake off dst ++ src ++ zdrop (off + zlen src) dst.

Arguments zlen : simpl never.
Arguments ztake : simpl never.
Arguments zdrop : simpl never.
Arguments byte_at : simpl never.
Arguments memcpy_at : simpl never.
Arguments u8 : simpl never.
Arguments u32 : simpl never.

Lemma zlen_nonneg {A} (l : list A) : 0 <= zlen l.
Proof. unfold zlen. lia. Qed.

Lemma zlen_app {A} (l k : list A) : zlen (l ++ k) = zlen l + zlen k.
Proof. unfold zlen. rewrite length_app. lia. Qed.

Lemma zlen_cons {A} (x : A) l : zlen (x :: l) = 1 + zlen l.
Proof. unfold zlen. cbn. lia. Qed.

Lemma zlen_nil {A} : zlen (@nil A) = 0.
Proof. reflexivity. Qed.

Lemma zlen_ztake {A} n (l : list A) : 0 <= n <= zlen l -> zlen (ztake n l) = n.
Proof. unfold zlen, ztake. rewrite length_take. lia. Qed.

Lemma zlen_ztake_min {A} n (l : list A) : 0 <= n -> zlen (ztake n l) = n `min` zlen l.
Proof. unfold zlen, ztake. rewrite length_take. lia. Qed.

Lemma zlen_zdrop {A} n (l : list A) : 0 <= n <= zlen l -> zlen (zdrop n l) = zlen l - n.
Proof. unfold zlen, zdrop. rewrite length_drop. lia. Qed.

Lemma zlen_memcpy_at dst off src :
  0 <= off -> off + zlen src <= zlen dst -> zlen (memcpy_at dst off src) = zlen dst.
Proof.
  intros. unfold memcpy_at. pose proof (zlen_nonneg src).
  rewrite !zlen_app, zlen_ztake, zlen_zdrop by lia. lia.
Qed.

Lemma zlen_insert {A} n (x : A) l : zlen (<[n := x]> l) = zlen l.
Proof. unfold zlen. by rewrite length_insert. Qed.

Lemma ztake_all {A} n (l : list A) : zlen l <= n -> ztake n l = l.
Proof. unfold zlen, ztake. intros. apply take_ge. lia. Qed.

Lemma ztake_zdrop {A} n (l : list A) : ztake n l ++ zdrop n l = l.
Proof. apply take_drop. Qed.

Lemma ztake_split {A} c n (l : list A) :
  0 <= c <= n -> ztake n l = ztake c l ++ ztake (n - c) (zdrop c l).
Proof. intros. unfold ztake, zdrop. rewrite take_take_drop. f_equal. lia. Qed.

Lemma ztake_app_length {A} (l k : list A) : ztake (zlen l) (l ++ k) = l.
Proof. unfold ztake, zlen. rewrite Nat2Z.id. apply take_app_length. Qed.

Lemma ztake_app_eq {A} n (l k : list A) : zlen l = n -> ztake n (l ++ k) = l.
Proof. intros <-. apply ztake_app_length. Qed.

Lemma zdrop_app_length {A} (l k : list A) : zdrop (zlen l) (l ++ k) = k.
Proof. unfold zdrop, zlen. rewrite Nat2Z.id. apply drop_app_length. Qed.

Lemma zdrop_zdrop {A} m n (l : list A) :
  0 <= m -> 0 <= n -> zdrop m (zdrop n l) = zdrop (n + m) l.
Proof. intros. unfold zdrop. rewrite drop_drop. f_equal. lia. Qed.

Lemma memcpy_at_nil d : memcpy_at d 0 [] = d.
Proof. reflexivity. Qed.

Lemma byte_at_lookup l i : 0 <= i < zlen l -> l !! Z.to_nat i = Some (byte_at l i).
Proof.
  unfold zlen, byte_at. intros H.
  destruct (lookup_lt_is_Some_2 l (Z.to_nat i)) as [x Hx]; [lia|].
  rewrite Hx. f_equal. symmetry. apply nth_lookup_Some with (d := 0) in Hx. exact Hx.
Qed.

Lemma zdrop_cons l n :
  0 <= n < zlen l -> zdrop n l = byte_at l n :: zdrop (n + 1) l.
Proof.
  intros H. unfold zdrop. rewrite (drop_S _ _ _ (byte_at_lookup l n H)).
  do 2 f_equal. lia.
Qed.

Lemma byte_at_app_length l x k : byte_at (l ++ x :: k) (zlen l) = x.
Proof.
  unfold byte_at, zlen. rewrite Nat2Z.id, app_nth2 by lia.
  rewrite Nat.sub_diag. reflexivity.
Qed.

Lemma byte_at_zdrop l i j :
  0 <= i -> 0 <= j -> byte_at (zdrop i l) j = byte_at l (i + j).
Proof.
  intros. unfold byte_at, zdrop. rewrite !nth_lookup, lookup_drop.
  repeat f_equal. lia.
Qed.

Lemma Forall_ztake {A} (P : A -> Prop) n l : Forall P l -> Forall P (ztake n l).
Proof. apply Forall_take. Qed.

Lemma Forall_zdrop {A} (P : A -> Prop) n l : Forall P l -> Forall P (zdrop n l).
Proof. apply Forall_drop. Qed.

Lemma byte_at_Forall l i : Forall is_byte l -> is_byte (byte_at l i).
Proof.
  intros H. unfold byte_at. rewrite nth_lookup.
  destruct (l !! Z.to_nat i) eqn:E; simpl.
  - exact (Forall_lookup_1 _ _ _ _ H E).
  - unfold is_byte. lia.
Qed.

(** * Automation *)

Create HintDb mux discriminated.
#[export] Hint Resolve u8_byte zlen_nonneg Forall_ztake Forall_zdrop byte_at_Forall : mux.

(** Boolean tests of the code become propositions. *)
Ltac reflect_bools :=
  repeat match goal with
  | H : (_ && _)%bool = true |- _ => apply andb_true_iff in H; destruct H
  | H : (_ || _)%bool = false |- _ => apply orb_false_iff in H; destruct H
  | H : negb _ = true |- _ => apply negb_true_iff in H
  | H : negb _ = false |- _ => apply negb_false_iff in H
  | H : (_ =? _) = true |- _ => apply Z.eqb_eq in H
  | H : (_ =? _) = false |- _ => apply Z.eqb_neq in H
  | H : (_ <? _) = true |- _ => apply Z.ltb_lt in H
  | H : (_ <? _) = false |- _ => apply Z.ltb_ge in H
  | H : (_ <=? _) = true |- _ => apply Z.leb_le in H
  | H : (_ <=? _) = false |- _ => apply Z.leb_gt in H
  | H : bool_decide _ = true |- _ => apply bool_decide_eq_true in H
  | H : bool_decide _ = false |- _ => apply bool_decide_eq_false in H
  end.

(** Case split on the condition of a conditional in the goal. *)
Ltac case_if :=
  match goal with
  | |- context [if ?c then _ else _] =>
      let E := fresh "E" in destruct c eqn:E
  end; reflect_bools.

(** Settle a statement about one byte [b] by evaluating all 256 cases. *)
Ltac byte_cases b :=
  match goal with
  | H : is_byte b |- ?G =>
      let P := eval pattern b in G in
      match P with
      | ?F _ =>
          let f := constr:(fun x : Z => bool_decide (F x)) in
          let H' := fresh in
          pose proof (byte_forall f (eq_refl true <: forallb f all_bytes = true) b H) as H';
          exact (bool_decide_eq_true_1 _ H')
      end
  end.

(** Settle a statement about two bytes by evaluating all 65536 cases. *)
Ltac byte_cases2 a b :=
  match goal with
  | Ha : is_byte a, Hb : is_byte b |- ?G =>
      let P := eval pattern a, b in G in
      match P with
      | ?F _ _ =>
          let f := constr:(fun x y : Z =>
            bool_decide ltac:(let t := eval cbv beta in (F x y) in exact t)) in
          let H' := fresh in
          pose proof (byte_forall2 f
            (eq_refl true <: forallb (fun x => forallb (f x) all_bytes) all_bytes = true)
            a b Ha Hb) as H';
          exact (bool_decide_eq_true_1 _ H')
      end
  end.

(** A decidable statement about constants. *)
Ltac decide_closed := apply (bool_decide_unpack _); vm_compute; exact I.

(** Lengths of concatenations, with the length of the empty list as a number. *)
Ltac zlist :=
  repeat (rewrite zlen_app || rewrite zlen_cons);
  repeat match goal with |- context [@zlen ?A []] => change (@zlen A []) with 0 end.
