(* ===== verification/CString.v ===== *)
(** C strings and the functions of <string.h>, <ctype.h> and <stdlib.h> that the RIL
    daemon (src/mtk/ril/mtk-ril) applies to them, with [strStartsWith] of misc.c.

    A C string is the list of its bytes without the terminator, a [char *] that may be
    NULL an [option] of it.  [char] is unsigned on ARM and [long] has 32 bits.  [strsep]
    overwrites the delimiter by a terminator; as the token and the remaining string do
    not overlap, both are plain values here. *)
From Stdlib Require Import Ascii String.
From S2P Require Import Prelude.

(** The bytes of a C string, without the terminator. *)
Definition bytes_of (s : string) : list Z :=
  map (fun a => Z.of_N (N_of_ascii a)) (list_ascii_of_string s).

(** A byte that can occur inside a string. *)
Definition is_char (c : Z) : Prop := 0 < c < 256.

#[global] Instance is_char_dec c : Decision (is_char c).
Proof. unfold is_char. apply _. Defined.

(** The string at the beginning of an array. *)
Fixpoint cstr (s : list Z) : list Z :=
  match s with
  | c :: s' => if c =? 0 then [] else c :: cstr s'
  | [] => []
  end.

Definition no_nul (s : list Z) : Prop := Forall (fun c => c <> 0) s.

(** * Character classes *)

Definition isspace (c : Z) : bool := (c =? 32) || ((9 <=? c) && (c <=? 13)).

(** [strchr(s, c)] for [c] other than the terminator: the suffix that starts with [c]. *)
Fixpoint strchr (s : list Z) (c : Z) : option (list Z) :=
  match s with
  | [] => None
  | x :: s' => if x =? c then Some s else strchr s' c
  end.

(** [strsep(&p, "c")] with one delimiter: the token and the new value of [p]. *)
Fixpoint strsep (s : list Z) (c : Z) : list Z * option (list Z) :=
  match s with
  | [] => ([], None)
  | x :: s' =>
      if x =? c then ([], Some s')
      else let '(tok, rest) := strsep s' c in (x :: tok, rest)
  end.

(** misc.c: 1 if [line] starts with [prefix]. *)
Fixpoint strStartsWith (line prefix : list Z) : bool :=
  match line, prefix with
  | x :: line', y :: prefix' => if negb (x =? y) then false else strStartsWith line' prefix'
  | _, [] => true
  | _, _ :: _ => false
  end.

(** [strstr(s, sub) != NULL]. *)
Fixpoint strstr (s sub : list Z) : bool :=
  strStartsWith s sub || match s with [] => false | _ :: s' => strstr s' sub end.

(** * Numbers *)

Definition LONG_MAX : Z := 2147483647.
Definition LONG_MIN : Z := -2147483648.
Definition ULONG_MAX : Z := 4294967295.

(** The value of a character as a digit below [base]. *)
Definition digit_of (base c : Z) : option Z :=
  let d := if (48 <=? c) && (c <=? 57) then c - 48
           else if (65 <=? c) && (c <=? 90) then c - 55
           else if (97 <=? c) && (c <=? 122) then c - 87
           else base in
  if d <? base then Some d else None.

(** Digits accumulated from the left: the value, whether there was any digit, the rest. *)
Fixpoint scan_digits (base acc : Z) (any : bool) (s : list Z) : Z * bool * list Z :=
  match s with
  | [] => (acc, any, [])
  | c :: s' =>
      match digit_of base c with
      | Some d => scan_digits base (acc * base + d) true s'
      | None => (acc, any, s)
      end
  end.

Fixpoint skip_spaces (s : list Z) : list Z :=
  match s with
  | c :: s' => if isspace c then skip_spaces s' else s
  | [] => []
  end.

(** An optional sign. *)
Definition scan_sign (s : list Z) : bool * list Z :=
  match s with
  | c :: s' => if c =? 45 then (true, s') else if c =? 43 then (false, s') else (false, s)
  | [] => (false, [])
  end.

(** An optional [0x] in base 16, taken only when a hexadecimal digit follows. *)
Definition skip_0x (base : Z) (s : list Z) : list Z :=
  match s with
  | z :: x :: d :: s' =>
      if (base =? 16) && (z =? 48) && ((x =? 120) || (x =? 88))
         && bool_decide (is_Some (digit_of 16 d))
      then d :: s' else s
  | _ => s
  end.

(** What [strtol] and [strtoul] read: sign, magnitude, and whether there was a number
    ([end != s]). *)
Definition scan_number (base : Z) (s : list Z) : bool * Z * bool :=
  let '(neg, s1) := scan_sign (skip_spaces s) in
  let '(v, any, _) := scan_digits base 0 false (skip_0x base s1) in
  (neg, v, any).

(** The value saturates at the bounds of [long]. *)
Definition strtol (base : Z) (s : list Z) : Z * bool :=
  let '(neg, v, any) := scan_number base s in
  ((if neg then Z.max LONG_MIN (- v) else Z.min LONG_MAX v), any).

(** The value saturates at [ULONG_MAX]; a sign negates it modulo 2^32. *)
Definition strtoul (base : Z) (s : list Z) : Z * bool :=
  let '(neg, v, any) := scan_number base s in
  ((if ULONG_MAX <? v then ULONG_MAX else if neg then u32 (- v) else v), any).

(** The conversion to [int] of an [unsigned long] or [long]. *)
Definition int_of (x : Z) : Z :=
  let y := u32 x in if 2147483648 <=? y then y - 4294967296 else y.

(** The number a property text stands for, or a default: what the examples take for
    [property_get_int32] of libcutils. *)
Definition parse_int32 (p : option (list Z)) (d : Z) : Z :=
  match p with
  | None => d
  | Some t => let '(v, any) := strtol 10 t in if any : bool then v else d
  end.

(** [%d] of [printf]. *)
Fixpoint dec_fuel (k : nat) (n : Z) : list Z :=
  match k with
  | O => []
  | S k' => if n <? 10 then [48 + n] else dec_fuel k' (n / 10) ++ [48 + n mod 10]
  end.

Definition dec (n : Z) : list Z :=
  if n <? 0 then 45 :: dec_fuel 10 (- n) else dec_fuel 10 n.

Arguments digit_of : simpl never.
Arguments skip_0x : simpl never.

(** * Lemmas *)

Definition is_int (x : Z) : Prop := -2147483648 <= x <= 2147483647.

Lemma int_of_range x : is_int (int_of x).
Proof.
  unfold is_int, int_of, u32. pose proof (Z.mod_pos_bound x 4294967296).
  case_if; lia.
Qed.

Lemma int_of_id x : is_int x -> int_of x = x.
Proof.
  unfold is_int, int_of, u32. intros. destruct (Z_lt_le_dec x 0).
  - rewrite <-(Z.mod_add _ 1) by lia. rewrite Z.mod_small by lia. case_if; lia.
  - rewrite Z.mod_small by lia. case_if; lia.
Qed.

Lemma cstr_app P junk : no_nul P -> cstr (P ++ 0 :: junk) = P.
Proof.
  induction 1 as [|c P Hc _ IH]; [done|]. cbn. case_if; [done|]. by rewrite IH.
Qed.

Lemma strsep_app s c rest : (c ∉ s) -> strsep (s ++ c :: rest) c = (s, Some rest).
Proof.
  induction s as [|x s IH]; intros H; cbn.
  - by rewrite Z.eqb_refl.
  - rewrite not_elem_of_cons in H. destruct H as [H1 H2].
    destruct (x =? c) eqn:E; reflect_bools; [congruence|]. by rewrite IH.
Qed.

Lemma strsep_none s c : (c ∉ s) -> strsep s c = (s, None).
Proof.
  induction s as [|x s IH]; intros H; cbn; [done|].
  rewrite not_elem_of_cons in H. destruct H as [H1 H2].
  destruct (x =? c) eqn:E; reflect_bools; [congruence|]. by rewrite IH.
Qed.

(** The token never contains the delimiter, and token and rest make up the string. *)
Lemma strsep_split s c tok r :
  strsep s c = (tok, r) ->
  (c ∉ tok) /\ s = match r with Some rest => tok ++ c :: rest | None => tok end.
Proof.
  revert tok r. induction s as [|x s IH]; cbn; intros tok r H.
  { injection H as <- <-. split; [apply not_elem_of_nil|done]. }
  destruct (x =? c) eqn:E; reflect_bools.
  - injection H as <- <-. subst. split; [apply not_elem_of_nil|done].
  - destruct (strsep s c) as [tok' r'] eqn:E'. injection H as <- <-.
    destruct (IH _ _ eq_refl) as [Hn ->]. split.
    + rewrite not_elem_of_cons. split; [congruence|done].
    + by destruct r'.
Qed.

Lemma strchr_app s c rest : (c ∉ s) -> strchr (s ++ c :: rest) c = Some (c :: rest).
Proof.
  induction s as [|x s IH]; intros H; cbn.
  - by rewrite Z.eqb_refl.
  - rewrite not_elem_of_cons in H. destruct H as [H1 H2].
    destruct (x =? c) eqn:E; reflect_bools; [congruence|]. by apply IH.
Qed.

Lemma strchr_none s c : (c ∉ s) <-> strchr s c = None.
Proof.
  induction s as [|x s IH]; cbn; [split; [done|intros _; apply not_elem_of_nil]|].
  rewrite not_elem_of_cons, IH. destruct (x =? c) eqn:E; reflect_bools.
  - subst. split; [intros []|]; done.
  - split; [intros []; done|intros; split; congruence].
Qed.

Lemma strStartsWith_spec line prefix :
  strStartsWith line prefix = true <-> exists rest, line = prefix ++ rest.
Proof.
  revert prefix. induction line as [|x line IH]; intros [|y prefix]; cbn.
  - split; [by exists []|done].
  - split; [done|]. intros [r H]. discriminate.
  - split; [by eexists|done].
  - destruct (x =? y) eqn:E; reflect_bools; cbn; subst.
    + rewrite IH. split; intros [r H]; exists r; [by subst|by injection H].
    + split; [done|]. intros [r H]. congruence.
Qed.

Lemma strStartsWith_app prefix rest : strStartsWith (prefix ++ rest) prefix = true.
Proof. apply strStartsWith_spec. by exists rest. Qed.

(** ** Printing and reading numbers *)

Lemma digit_of_dec n : 0 <= n < 10 -> digit_of 10 (48 + n) = Some n.
Proof.
  intros H. unfold digit_of.
  replace ((48 <=? 48 + n) && (48 + n <=? 57)) with true
    by (symmetry; apply andb_true_iff; split; apply Z.leb_le; lia).
  cbn zeta. replace (48 + n - 48) with n by lia. by case_if; [|lia].
Qed.

Lemma scan_digits_dec k n acc any rest :
  0 <= n < 10 ^ Z.of_nat k -> (0 < k)%nat ->
  exists m, scan_digits 10 acc any (dec_fuel k n ++ rest) = scan_digits 10 (acc * m + n) true rest.
Proof.
  revert n acc any rest. induction k as [|k IH]; intros n acc any rest H Hk; [lia|].
  cbn [dec_fuel]. case_if.
  - exists 10. cbn [app scan_digits]. by rewrite digit_of_dec by lia.
  - destruct k as [|k']; [cbn in H; lia|].
    assert (Hr : 0 <= n / 10 < 10 ^ Z.of_nat (S k')).
    { rewrite (Nat2Z.inj_succ (S k')), Z.pow_succ_r in H by lia.
      split; [apply Z.div_pos; lia|apply Z.div_lt_upper_bound; lia]. }
    destruct (IH (n / 10) acc any ([48 + n mod 10] ++ rest) Hr ltac:(lia)) as [m Hm].
    exists (m * 10). rewrite <-app_assoc, Hm. cbn [app scan_digits].
    rewrite digit_of_dec by (apply Z.mod_pos_bound; lia).
    f_equal. pose proof (Z.div_mod n 10). lia.
Qed.

Lemma dec_fuel_head k n :
  0 <= n -> (0 < k)%nat -> exists d s, dec_fuel k n = d :: s /\ 48 <= d <= 57.
Proof.
  revert n. induction k as [|k IH]; intros n Hn Hk; [lia|]. cbn [dec_fuel]. case_if.
  - by exists (48 + n), []; split; [|lia].
  - destruct k as [|k'].
    + exists (48 + n mod 10), []. split; [done|]. pose proof (Z.mod_pos_bound n 10). lia.
    + destruct (IH (n / 10)) as (d & s & -> & Hd); [apply Z.div_pos; lia|lia|].
      by exists d, (s ++ [48 + n mod 10]).
Qed.

Lemma dec_fuel_digits k n : 0 <= n -> Forall (fun c => 48 <= c <= 57) (dec_fuel k n).
Proof.
  revert n. induction k as [|k IH]; intros n Hn; cbn [dec_fuel]; [constructor|].
  case_if; [by repeat constructor; lia|].
  apply Forall_app. split; [apply IH, Z.div_pos; lia|].
  pose proof (Z.mod_pos_bound n 10). repeat constructor; lia.
Qed.

(** The characters of a printed number. *)
Lemma dec_chars n : Forall (fun c => c = 45 \/ 48 <= c <= 57) (dec n).
Proof.
  unfold dec. case_if.
  - constructor; [by left|]. eapply Forall_impl; [apply dec_fuel_digits; lia|]. cbn. lia.
  - eapply Forall_impl; [apply dec_fuel_digits; lia|]. cbn. lia.
Qed.

Lemma dec_not_in n c : c <> 45 -> ~ (48 <= c <= 57) -> (c ∉ dec n).
Proof.
  intros H1 H2 H. pose proof (dec_chars n) as Hd. rewrite Forall_forall in Hd. specialize (Hd c H). cbn in Hd. lia.
Qed.

(** Characters behind a number end it. *)
Definition no_digit (s : list Z) : Prop :=
  match s with c :: _ => digit_of 10 c = None | [] => True end.

Lemma scan_digits_stop acc rest : no_digit rest -> scan_digits 10 acc true rest = (acc, true, rest).
Proof. destruct rest as [|c rest]; [done|]. cbn. by intros ->. Qed.

Lemma skip_0x_dec s : skip_0x 10 s = s.
Proof. unfold skip_0x. by destruct s as [|? [|? [|? ?]]]. Qed.

Lemma scan_number_dec n rest :
  is_int n -> no_digit rest -> scan_number 10 (dec n ++ rest) = (n <? 0, Z.abs n, true).
Proof.
  unfold is_int, scan_number, dec. intros H Hrest.
  assert (Hs : forall m, 0 <= m <= 2147483648 ->
     scan_digits 10 0 false (skip_0x 10 (dec_fuel 10 m ++ rest)) = (m, true, rest)).
  { intros m Hm. rewrite skip_0x_dec.
    destruct (scan_digits_dec 10 m 0 false rest) as [w Hw]; [cbn; lia|lia|].
    rewrite Hw. by apply scan_digits_stop. }
  destruct (n <? 0) eqn:E; reflect_bools.
  - cbn [app skip_spaces]. change (isspace 45) with false. cbn [scan_sign]. cbn [Z.eqb Pos.eqb].
    rewrite Hs by lia. repeat f_equal; lia.
  - destruct (dec_fuel_head 10 n) as (d & s & Hd & Hr); [lia|lia|].
    assert (skip_spaces (dec_fuel 10 n ++ rest) = dec_fuel 10 n ++ rest) as ->.
    { rewrite Hd. cbn [app skip_spaces]. unfold isspace.
      replace ((d =? 32) || (9 <=? d) && (d <=? 13)) with false; [done|].
      symmetry. apply orb_false_iff. split; [apply Z.eqb_neq; lia|].
      apply andb_false_iff. right. apply Z.leb_gt. lia. }
    assert (scan_sign (dec_fuel 10 n ++ rest) = (false, dec_fuel 10 n ++ rest)) as ->.
    { rewrite Hd. cbn [app scan_sign]. do 2 (case_if; [lia|]). done. }
    rewrite Hs by lia. repeat f_equal; lia.
Qed.

(** Reading back a printed [int]. *)
Lemma strtol_dec n : is_int n -> strtol 10 (dec n) = (n, true).
Proof.
  intros H. unfold strtol. rewrite <-(app_nil_r (dec n)), scan_number_dec by done. unfold is_int, LONG_MIN, LONG_MAX in *.
  f_equal. case_if; lia.
Qed.

Lemma scan_digits_nonneg base acc any s :
  0 <= acc -> 0 <= base -> 0 <= (scan_digits base acc any s).1.1.
Proof.
  revert acc any. induction s as [|c s IH]; intros acc any Ha Hb; cbn [scan_digits]; [done|].
  destruct (digit_of base c) as [d|] eqn:E; [|done]. apply IH; [|done].
  unfold digit_of in E. repeat case_match; reflect_bools; simplify_eq; lia || nia.
Qed.

(** [strtol] always yields a [long], [strtoul] an [unsigned long]. *)
Lemma strtol_range base s : 0 <= base -> is_int (strtol base s).1.
Proof.
  intros Hb. unfold strtol, scan_number. destruct (scan_sign _) as [neg s1].
  pose proof (scan_digits_nonneg base 0 false (skip_0x base s1)).
  destruct (scan_digits _ _ _ _) as [[v any] r]. cbn [fst] in *.
  unfold is_int, LONG_MIN, LONG_MAX. case_if; lia.
Qed.
