(* ===== verification/BitField.v ===== *)
(** Bit fields in byte arrays (src/mtk/ril/c2k/c2k-ril/sms.c: [putuint8], [putuint16],
    [getuint8], and the mask tables of sms.h).

    The functions address bits from the most significant bit of the first byte.  An access
    outside the array or a table is undefined behaviour and gives [None].  The
    specification sees the array as its list of bits ([bits]): writing replaces a slice,
    reading evaluates one. *)
From S2P Require Import Prelude.

(** * Arrays *)

Definition arr_get (data : list Z) (i : Z) : option Z :=
  if i <? 0 then None else data !! Z.to_nat i.

Definition arr_set (data : list Z) (i v : Z) : option (list Z) :=
  if (0 <=? i) && (i <? zlen data) then Some (<[Z.to_nat i := v]> data) else None.

(** * The code *)

Definition u16 (x : Z) : Z := x mod 65536.

(** sms.h *)
Definition _valueMask : list Z :=
  [0; 1; 3; 7; 15; 31; 63; 127; 255; 511; 1023; 2047; 4095; 8191; 16383; 32767; 65535].

Definition _bitValueMask : list Z := [255; 127; 63; 31; 15; 7; 3; 1].

Definition _saveTopMask : list Z := [0; 128; 192; 224; 240; 248; 252; 254].

(** [startBit] is an [unsigned short], [numBits] and [value] are [unsigned char]. *)
Definition putuint8 (data : list Z) (startBit numBits value : Z) : option (list Z) :=
  let startByteIndex := u8 (Z.shiftr startBit 3) in
  let startBitIndex := u8 (Z.land startBit 7) in
  let bitsIn2ndByte := startBitIndex + numBits - 8 in
  if 0 <? bitsIn2ndByte then
    mask ← arr_get _saveTopMask startBitIndex;
    b ← arr_get data startByteIndex;
    let b1 := u8 (Z.land b mask) in
    let b2 := u8 (Z.lor b1 (Z.land (Z.lnot mask) (Z.shiftr value bitsIn2ndByte))) in
    data1 ← arr_set data startByteIndex b2;
    mask2 ← arr_get _saveTopMask (u8 bitsIn2ndByte);
    c ← arr_get data1 (startByteIndex + 1);
    let c1 := u8 (Z.land c (Z.lnot mask2)) in
    let c2 := u8 (Z.lor c1 (Z.shiftl value (8 - bitsIn2ndByte))) in
    arr_set data1 (startByteIndex + 1) c2
  else
    let lowBitsSave1stByte := - bitsIn2ndByte in
    vm ← arr_get _valueMask numBits;
    let mask := u8 (Z.shiftl vm lowBitsSave1stByte) in
    b ← arr_get data startByteIndex;
    let temp := u8 (Z.land b (Z.lnot mask)) in
    arr_set data startByteIndex
      (u8 (Z.lor temp (Z.land mask (Z.shiftl value lowBitsSave1stByte)))).

(** [value] is an [unsigned short]; [numBits] is at least 8. *)
Definition putuint16 (data : list Z) (startBit numBits value : Z) : option (list Z) :=
  let numBits1 := u8 (numBits - 8) in
  data1 ← putuint8 data startBit 8 (u8 (Z.shiftr value numBits1));
  vm ← arr_get _valueMask numBits1;
  putuint8 data1 (u16 (startBit + 8)) numBits1 (u8 (Z.land value vm)).

Definition getuint8 (data : list Z) (startBit numBits : Z) : option Z :=
  let startByteIndex := u8 (Z.shiftr startBit 3) in
  let startBitIndex := u8 (Z.land startBit 7) in
  b ← arr_get data startByteIndex;
  m ← arr_get _bitValueMask startBitIndex;
  let value := u8 (Z.land b m) in
  let bitsIn2ndByte := numBits + startBitIndex - 8 in
  if 0 <? bitsIn2ndByte then
    c ← arr_get data (startByteIndex + 1);
    Some (u8 (Z.lor (Z.shiftl value bitsIn2ndByte) (Z.shiftr c (8 - bitsIn2ndByte))))
  else Some (Z.shiftr value (- bitsIn2ndByte)).

(** * Bits *)

(** The low [n] bits of a number, the most significant one first. *)
Fixpoint vbits (n : nat) (v : Z) : list bool :=
  match n with
  | O => []
  | S n' => Z.testbit v (Z.of_nat n') :: vbits n' v
  end.

(** The bits of an array, in the order the functions number them. *)
Definition bits (data : list Z) : list bool := data ≫= vbits 8.

(** The number a list of bits stands for. *)
Fixpoint bval (l : list bool) : Z :=
  match l with
  | [] => 0
  | b :: l' => Z.b2z b * 2 ^ zlen l' + bval l'
  end.

Lemma length_vbits n v : length (vbits n v) = n.
Proof. induction n; cbn; congruence. Qed.

Lemma bits_app l k : bits (l ++ k) = bits l ++ bits k.
Proof. apply bind_app. Qed.

Lemma bits_cons b l : bits (b :: l) = vbits 8 b ++ bits l.
Proof. reflexivity. Qed.

Lemma length_bits data : length (bits data) = (8 * length data)%nat.
Proof.
  induction data as [|b data IH]; [done|].
  rewrite bits_cons, length_app, length_vbits, IH. cbn [length]. lia.
Qed.

Lemma bval_bound l : 0 <= bval l < 2 ^ zlen l.
Proof.
  induction l as [|b l IH]; cbn [bval]; [change (zlen []) with 0; lia|].
  rewrite zlen_cons, Z.pow_add_r by (pose proof (zlen_nonneg l); lia).
  destruct b; cbn [Z.b2z]; lia.
Qed.

Lemma bval_vbits n v : bval (vbits n v) = v mod 2 ^ Z.of_nat n.
Proof.
  induction n as [|n IH]; [by rewrite Z.mod_1_r|].
  cbn [vbits bval]. rewrite IH. unfold zlen. rewrite length_vbits, Nat2Z.inj_succ.
  rewrite Z.testbit_spec', Z.pow_succ_r, (Z.mul_comm 2), Z.rem_mul_r by lia. lia.
Qed.

Lemma vbits_app m n v : vbits (m + n) v = vbits m (Z.shiftr v (Z.of_nat n)) ++ vbits n v.
Proof.
  induction m as [|m IH]; [done|]. cbn [vbits Nat.add app]. rewrite <-IH.
  f_equal. rewrite Z.shiftr_spec by lia. f_equal. lia.
Qed.

Lemma vbits_ext n v w : v mod 2 ^ Z.of_nat n = w mod 2 ^ Z.of_nat n -> vbits n v = vbits n w.
Proof.
  intros H. assert (Hb : forall m, (m <= n)%nat -> vbits m v = vbits m w).
  { induction m as [|m IH]; intros Hm; [done|]. cbn. rewrite IH by lia. f_equal.
    rewrite <-(Z.mod_pow2_bits_low v (Z.of_nat n)), H by lia.
    apply Z.mod_pow2_bits_low. lia. }
  by apply Hb.
Qed.

Lemma vbits_bval l : vbits (length l) (bval l) = l.
Proof.
  induction l as [|b l IH]; [done|]. cbn [length vbits bval]. f_equal.
  - pose proof (bval_bound l). unfold zlen in *. apply Z.b2z_inj.
    rewrite Z.testbit_spec', Z.add_comm, Z.div_add by lia.
    rewrite Z.div_small by lia. by destruct b.
  - transitivity (vbits (length l) (bval l)); [|done]. apply vbits_ext.
    unfold zlen. rewrite Z.add_comm. apply Z.mod_add. lia.
Qed.

(** Bytes are determined by their bits. *)
Lemma bits_inj l k : Forall is_byte l -> Forall is_byte k -> bits l = bits k -> l = k.
Proof.
  revert k. induction l as [|b l IH]; intros [|c k] Hl Hk H; try done.
  rewrite !bits_cons in H. apply app_inj_1 in H as [H1 H2]; [|by rewrite !length_vbits].
  inversion Hl; inversion Hk; subst. f_equal; [|by apply IH].
  apply (f_equal bval) in H1. rewrite !bval_vbits in H1. unfold is_byte in *.
  by rewrite !Z.mod_small in H1 by (cbn; lia).
Qed.

(** * The functions on one or two bytes *)

Lemma testbit_u8 x j : 0 <= j < 8 -> Z.testbit (u8 x) j = Z.testbit x j.
Proof. intros. unfold u8. change 256 with (2 ^ 8). apply Z.mod_pow2_bits_low. lia. Qed.

(** Evaluates the bits of a combination of masks and shifts at known positions. *)
Ltac eval_bits :=
  repeat first [rewrite testbit_u8 by lia | rewrite Z.lor_spec | rewrite Z.land_spec
               | rewrite Z.lnot_spec by lia | rewrite Z.shiftl_spec by lia
               | rewrite Z.shiftr_spec by lia];
  repeat match goal with
  | |- context [Z.testbit ?x ?j] =>
      let j' := eval vm_compute in j in progress change (Z.testbit x j) with (Z.testbit x j')
  end;
  repeat match goal with
  | |- context [Z.testbit (Zpos ?x) ?j] =>
      let b := eval vm_compute in (Z.testbit (Zpos x) j) in
      change (Z.testbit (Zpos x) j) with b
  | |- context [Z.testbit 0 ?j] => change (Z.testbit 0 j) with false
  | |- context [Z.testbit ?x (Zneg ?j)] => change (Z.testbit x (Zneg j)) with false
  end;
  cbn [andb orb negb]; rewrite ?andb_true_r, ?andb_false_r, ?orb_false_r, ?orb_true_r.

(** A number below 8 by cases. *)
Lemma lt8_cases (P : nat -> Prop) :
  P 0%nat -> P 1%nat -> P 2%nat -> P 3%nat -> P 4%nat -> P 5%nat -> P 6%nat -> P 7%nat ->
  forall r, (r < 8)%nat -> P r.
Proof. intros ???????? r Hr. do 8 (destruct r as [|r]; [done|]). lia. Qed.

Ltac split_bits := repeat match goal with |- _ :: _ = _ :: _ => apply f_equal2 end.

Ltac by_lt8 := refine (lt8_cases _ _ _ _ _ _ _ _ _).

(** The new value of the byte when the field lies inside it. *)
Lemma put_in_byte b v r n :
  (r < 8)%nat -> (n < 8)%nat -> (r + S n <= 8)%nat ->
  exists vm, arr_get _valueMask (Z.of_nat (S n)) = Some vm /\
    let low := 8 - Z.of_nat r - Z.of_nat (S n) in
    let mask := u8 (Z.shiftl vm low) in
    vbits 8 (u8 (Z.lor (u8 (Z.land b (Z.lnot mask))) (Z.land mask (Z.shiftl v low)))) =
    take r (vbits 8 b) ++ vbits (S n) v ++ drop (r + S n) (vbits 8 b).
Proof.
  intros Hr Hn. revert r Hr n Hn. by_lt8; by_lt8; intros H; try lia; eexists; (split; [reflexivity|]);
    cbv zeta; cbn [vbits take drop app Nat.add]; split_bits; eval_bits; reflexivity.
Qed.

(** The new values of both bytes when the field spans two. *)
Lemma put_in_two b c v r n :
  (r < 8)%nat -> (n < 8)%nat -> (8 < r + S n)%nat ->
  exists mask mask2,
    let k := Z.of_nat r + Z.of_nat (S n) - 8 in
    arr_get _saveTopMask (Z.of_nat r) = Some mask /\
    arr_get _saveTopMask (u8 k) = Some mask2 /\
    vbits 8 (u8 (Z.lor (u8 (Z.land b mask)) (Z.land (Z.lnot mask) (Z.shiftr v k)))) ++
    vbits 8 (u8 (Z.lor (u8 (Z.land c (Z.lnot mask2))) (Z.shiftl v (8 - k)))) =
    take r (vbits 8 b) ++ vbits (S n) v ++ drop (r + S n - 8) (vbits 8 c).
Proof.
  intros Hr Hn. revert r Hr n Hn. by_lt8; by_lt8; intros H; try lia; do 2 eexists; cbv zeta;
    (split; [reflexivity|]; split; [reflexivity|]);
    cbn [vbits take drop app Nat.add Nat.sub]; split_bits; eval_bits; reflexivity.
Qed.

(** * The functions on arrays *)

Lemma arr_get_mid pre b post i : i = zlen pre -> arr_get (pre ++ b :: post) i = Some b.
Proof.
  intros ->. unfold arr_get, zlen. case_if; [lia|]. by rewrite Nat2Z.id, list_lookup_middle.
Qed.

Lemma arr_set_mid pre b post i v :
  i = zlen pre -> arr_set (pre ++ b :: post) i v = Some (pre ++ v :: post).
Proof.
  intros ->. unfold arr_set. pose proof (zlen_nonneg pre). pose proof (zlen_nonneg post).
  case_if.
  - unfold zlen. by rewrite Nat2Z.id, insert_app_r_alt, Nat.sub_diag by lia.
  - apply andb_false_iff in E as [E|E]; reflect_bools; [lia|].
    rewrite zlen_app, zlen_cons in E. lia.
Qed.

(** Byte and bit index of a position. *)
Lemma bit_index s :
  (s < 2048)%nat ->
  u8 (Z.shiftr (Z.of_nat s) 3) = Z.of_nat (s / 8) /\ u8 (Z.land (Z.of_nat s) 7) = Z.of_nat (s mod 8).
Proof.
  intros Hs. rewrite Z.shiftr_div_pow2 by lia. change 7 with (Z.ones 3). rewrite Z.land_ones by lia.
  change (2 ^ 3) with (Z.of_nat 8). rewrite <-Nat2Z.inj_div, <-Nat2Z.inj_mod.
  pose proof (Nat.Div0.div_lt_upper_bound s 8 256). pose proof (Nat.mod_upper_bound s 8).
  rewrite !u8_id by (unfold is_byte; lia). done.
Qed.

Lemma split_at (data : list Z) i :
  (i < length data)%nat ->
  exists pre b post, data = pre ++ b :: post /\ length pre = i.
Proof.
  intros H. destruct (lookup_lt_is_Some_2 data i H) as [b Hb].
  exists (take i data), b, (drop (S i) data). split; [by rewrite take_drop_middle|].
  rewrite length_take. lia.
Qed.

Lemma take_bits_mid pre r l :
  take (8 * length pre + r) (bits pre ++ l) = bits pre ++ take r l.
Proof. rewrite take_app, length_bits, take_ge by (rewrite length_bits; lia). do 2 f_equal. lia. Qed.

Lemma drop_bits_mid pre r l : drop (8 * length pre + r) (bits pre ++ l) = drop r l.
Proof. rewrite drop_app, length_bits, drop_ge by (rewrite length_bits; lia). cbn [app]. f_equal. lia. Qed.

(** [putuint8] replaces a slice of the bits. *)
Lemma putuint8_spec data s n v :
  (1 <= n <= 8)%nat -> (s + n <= 8 * length data)%nat -> (s < 2048)%nat ->
  exists data', putuint8 data (Z.of_nat s) (Z.of_nat n) v = Some data' /\
    length data' = length data /\
    bits data' = take s (bits data) ++ vbits n v ++ drop (s + n) (bits data) /\
    (Forall is_byte data -> Forall is_byte data').
Proof.
  intros Hn Hlen Hs. unfold putuint8. destruct (bit_index s Hs) as [-> ->].
  pose proof (Nat.div_mod_eq s 8) as Hdm. pose proof (Nat.mod_upper_bound s 8).
  set (i := (s / 8)%nat) in *. set (r := (s mod 8)%nat) in *.
  destruct (split_at data i) as (pre & b & post & -> & Hi); [lia|].
  destruct n as [|n]; [lia|]. rewrite Hdm, <-Hi. rewrite length_app in Hlen. cbn [length] in Hlen.
  rewrite bits_app, bits_cons, <-Nat.add_assoc, take_bits_mid, drop_bits_mid.
  rewrite (arr_get_mid pre b post (Z.of_nat (length pre)) eq_refl).
  case_if.
  - destruct post as [|c post]; [cbn [length] in *; lia|].
    destruct (put_in_two b c v r n) as (m & m2 & Hm & Hm2 & Hbits); [lia..|]. cbv zeta in *.
    rewrite Hm. cbn [mbind option_bind]. rewrite (arr_set_mid pre b (c :: post)) by done.
    cbn [mbind option_bind]. rewrite Hm2. cbn [mbind option_bind].
    rewrite (cons_middle _ pre), app_assoc.
    rewrite (arr_get_mid (pre ++ _) c post) by (rewrite zlen_app; unfold zlen; cbn; lia).
    cbn [mbind option_bind]. rewrite arr_set_mid by (rewrite zlen_app; unfold zlen; cbn; lia).
    eexists. split; [done|]. split; [rewrite !length_app; cbn; lia|]. split.
    + rewrite !bits_app, !bits_cons, app_nil_r, <-!app_assoc, (app_assoc (vbits 8 _)).
      rewrite Hbits, !take_app_le by (rewrite length_vbits; lia).
      rewrite drop_app_ge by (rewrite length_vbits; lia). rewrite length_vbits.
      rewrite drop_app_le by (rewrite length_vbits; lia). by rewrite <-!app_assoc.
    + rewrite !Forall_app, !Forall_cons. intros (? & ? & ? & ?). auto using u8_byte.
  - destruct (put_in_byte b v r n) as (vm & Hvm & Hbits); [lia..|]. cbv zeta in *.
    rewrite Hvm. cbn [mbind option_bind].
    replace (- (Z.of_nat r + Z.of_nat (S n) - 8)) with (8 - Z.of_nat r - Z.of_nat (S n)) by lia.
    rewrite arr_set_mid by done. eexists. split; [done|].
    split; [rewrite !length_app; cbn; lia|]. split.
    + rewrite bits_app, bits_cons, Hbits, take_app_le by (rewrite length_vbits; lia).
      rewrite drop_app_le by (rewrite length_vbits; lia). by rewrite <-!app_assoc.
    + rewrite !Forall_app, !Forall_cons. intros (? & ? & ?). auto using u8_byte.
Qed.

(** The value [getuint8] computes from one byte or two. *)
Lemma get_from_byte b r n :
  is_byte b -> (r < 8)%nat -> (n < 8)%nat -> (r + S n <= 8)%nat ->
  exists m, arr_get _bitValueMask (Z.of_nat r) = Some m /\
    Z.shiftr (u8 (Z.land b m)) (8 - Z.of_nat r - Z.of_nat (S n)) =
    bval (take (S n) (drop r (vbits 8 b))).
Proof.
  intros Hb Hr Hn. revert r Hr n Hn. by_lt8; by_lt8; intros H; try lia; eexists;
    (split; [reflexivity|]); clear H; byte_cases b.
Qed.

Lemma get_high b r :
  is_byte b -> (r < 8)%nat ->
  exists m, arr_get _bitValueMask (Z.of_nat r) = Some m /\
    u8 (Z.land b m) = bval (drop r (vbits 8 b)).
Proof.
  intros Hb Hr. revert r Hr. by_lt8; eexists; (split; [reflexivity|]); byte_cases b.
Qed.

Lemma get_low c k :
  is_byte c -> (k < 8)%nat ->
  Z.shiftr c (8 - Z.of_nat k) = bval (take k (vbits 8 c)).
Proof. intros Hc Hk. revert k Hk. by_lt8; byte_cases c. Qed.

Lemma bval_app l k : bval (l ++ k) = bval l * 2 ^ zlen k + bval k.
Proof.
  induction l as [|b l IH]; [done|]. cbn [app bval].
  pose proof (zlen_nonneg l). pose proof (zlen_nonneg k).
  rewrite IH, zlen_app, Z.pow_add_r by lia. lia.
Qed.

(** Shifting makes room for the second part. *)
Lemma lor_shift x y k : 0 <= k -> 0 <= y < 2 ^ k -> Z.lor (Z.shiftl x k) y = x * 2 ^ k + y.
Proof.
  intros Hk Hy. assert (Hl : Z.land (Z.shiftl x k) y = 0).
  { rewrite <-(Z.mod_small y (2 ^ k)), <-Z.land_ones by lia.
    apply Z.bits_inj'. intros j Hj.
    rewrite !Z.land_spec, Z.shiftl_spec, Z.testbit_ones_nonneg, Z.bits_0 by lia.
    destruct (Z.ltb_spec j k); [by rewrite Z.testbit_neg_r by lia|].
    by rewrite !andb_false_r. }
  rewrite <-Z.lxor_lor, <-Z.add_nocarry_lxor by done. by rewrite Z.shiftl_mul_pow2.
Qed.

(** [getuint8] evaluates a slice of the bits. *)
Lemma getuint8_spec data s n :
  Forall is_byte data -> (1 <= n <= 8)%nat -> (s + n <= 8 * length data)%nat -> (s < 2048)%nat ->
  getuint8 data (Z.of_nat s) (Z.of_nat n) = Some (bval (take n (drop s (bits data)))).
Proof.
  intros Hbytes Hn Hlen Hs. unfold getuint8. destruct (bit_index s Hs) as [-> ->].
  pose proof (Nat.div_mod_eq s 8) as Hdm. pose proof (Nat.mod_upper_bound s 8).
  set (i := (s / 8)%nat) in *. set (r := (s mod 8)%nat) in *.
  destruct (split_at data i) as (pre & b & post & -> & Hi); [lia|].
  apply Forall_app in Hbytes as [_ [Hb Hpost]%Forall_cons].
  destruct n as [|n]; [lia|]. rewrite Hdm, <-Hi. rewrite length_app in Hlen. cbn [length] in Hlen.
  rewrite bits_app, bits_cons, drop_bits_mid.
  rewrite (arr_get_mid pre b post (Z.of_nat (length pre)) eq_refl). cbn [mbind option_bind].
  rewrite drop_app_le by (rewrite length_vbits; lia).
  case_if.
  - destruct (get_high b r) as (m & -> & Hv); [done|lia|]. cbn [mbind option_bind]. rewrite Hv.
    destruct post as [|c post]; [cbn [length] in *; lia|].
    apply Forall_cons in Hpost as [Hc _].
    rewrite (cons_middle _ pre), app_assoc.
    rewrite (arr_get_mid (pre ++ _) c post) by (rewrite zlen_app; unfold zlen; cbn; lia).
    cbn [mbind option_bind]. f_equal.
    set (k := (r + S n - 8)%nat).
    replace (Z.of_nat (S n) + Z.of_nat r - 8) with (Z.of_nat k) by lia.
    rewrite get_low by (done || lia). rewrite bits_cons.
    assert (Hld : length (drop r (vbits 8 b)) = (8 - r)%nat) by (rewrite length_drop, length_vbits; lia).
    assert (Hlc : length (take k (vbits 8 c)) = k) by (rewrite length_take, length_vbits; lia).
    rewrite take_app_ge by lia. rewrite Hld. replace (S n - (8 - r))%nat with k by lia.
    rewrite take_app_le by (rewrite length_vbits; lia).
    pose proof (bval_bound (drop r (vbits 8 b) ++ take k (vbits 8 c))) as Hbd.
    pose proof (bval_bound (take k (vbits 8 c))) as Hbc.
    assert (Hzc : zlen (take k (vbits 8 c)) = Z.of_nat k) by (unfold zlen; by rewrite Hlc).
    unfold zlen in Hbd at 1. rewrite length_app, Hld, Hlc in Hbd. rewrite Hzc in Hbc.
    rewrite lor_shift by lia. rewrite <-Hzc, <-bval_app. apply u8_id. unfold is_byte.
    split; [lia|]. eapply Z.lt_le_trans; [apply Hbd|]. change 256 with (2 ^ 8). apply Z.pow_le_mono_r; lia.
  - destruct (get_from_byte b r n) as (m & -> & Hv); [done|lia..|]. cbn [mbind option_bind].
    f_equal.
    replace (- (Z.of_nat (S n) + Z.of_nat r - 8)) with (8 - Z.of_nat r - Z.of_nat (S n)) by lia.
    rewrite Hv. by rewrite take_app_le by (rewrite length_drop, length_vbits; lia).
Qed.

(** * Writing and reading a stream of fields *)

(** Writing behind the fields already written. *)
Lemma put_next data done v n rest :
  bits data = done ++ rest -> (1 <= n <= 8)%nat -> (n <= length rest)%nat ->
  (length done < 2048)%nat ->
  exists data', putuint8 data (Z.of_nat (length done)) (Z.of_nat n) v = Some data' /\
    length data' = length data /\ bits data' = (done ++ vbits n v) ++ drop n rest /\
    (Forall is_byte data -> Forall is_byte data').
Proof.
  intros Hb Hn Hr Hd. assert (Hl : (length done + length rest = 8 * length data)%nat)
    by (rewrite <-length_app, <-Hb; apply length_bits).
  destruct (putuint8_spec data (length done) n v) as (data' & H1 & H2 & H3 & H4); [lia..|].
  exists data'. do 2 (split; [done|]). split; [|done].
  rewrite H3, Hb, take_app_length, drop_app_add. by rewrite app_assoc.
Qed.

(** Reading the field behind those already read. *)
Lemma get_next data done v n rest :
  Forall is_byte data -> bits data = done ++ vbits n v ++ rest -> (1 <= n <= 8)%nat ->
  (length done < 2048)%nat ->
  getuint8 data (Z.of_nat (length done)) (Z.of_nat n) = Some (v mod 2 ^ Z.of_nat n).
Proof.
  intros Hby Hb Hn Hd.
  assert (Hl : (length done + (n + length rest) = 8 * length data)%nat).
  { rewrite <-(length_vbits n v), <-!length_app, <-Hb. apply length_bits. }
  rewrite getuint8_spec by (done || lia). rewrite Hb, drop_app_length.
  rewrite take_app_le, take_ge, bval_vbits by (rewrite length_vbits; lia). done.
Qed.

Lemma putuint16_next data done v rest :
  bits data = done ++ rest -> (16 <= length rest)%nat -> (length done < 2040)%nat ->
  exists data', putuint16 data (Z.of_nat (length done)) 16 v = Some data' /\
    length data' = length data /\ bits data' = (done ++ vbits 16 v) ++ drop 16 rest /\
    (Forall is_byte data -> Forall is_byte data').
Proof.
  intros Hb Hr Hd. unfold putuint16. change (u8 (16 - 8)) with 8.
  destruct (put_next data done (u8 (Z.shiftr v 8)) 8 rest) as (d1 & H1 & H2 & H3 & H4); [done|lia..|].
  change (Z.of_nat 8) with 8 in H1. rewrite H1. cbn [mbind option_bind].
  change (arr_get _valueMask 8) with (Some 255). cbn [mbind option_bind].
  destruct (put_next d1 (done ++ vbits 8 (u8 (Z.shiftr v 8))) (u8 (Z.land v 255)) 8 (drop 8 rest))
    as (d2 & G1 & G2 & G3 & G4); [done|lia|rewrite length_drop; lia|rewrite length_app, length_vbits; lia|].
  rewrite length_app, length_vbits in G1. change (Z.of_nat 8) with 8 in G1.
  replace (u16 (Z.of_nat (length done) + 8)) with (Z.of_nat (length done + 8))
    by (unfold u16; rewrite Z.mod_small; lia).
  exists d2. split; [done|]. split; [congruence|]. split; [|auto].
  rewrite G3, drop_drop, (vbits_app 8 8), !app_assoc.
  rewrite (vbits_ext 8 (u8 (Z.shiftr v 8)) (Z.shiftr v (Z.of_nat 8))),
    (vbits_ext 8 (u8 (Z.land v 255)) v); [done|..]; unfold u8.
  - change 255 with (Z.ones 8). rewrite Z.land_ones by lia. by rewrite !Z.mod_mod by lia.
  - by rewrite Z.mod_mod by lia.
Qed.

Arguments putuint8 : simpl never.
Arguments putuint16 : simpl never.
Arguments getuint8 : simpl never.
Arguments vbits : simpl never.
Arguments bits : simpl never.

(** * Fields do not disturb each other *)

(** What [putuint8] wrote is what [getuint8] reads back from the same field, truncated to
    its width, and every field that does not overlap keeps its value. *)
Theorem field_isolated (data : list Z) (s n : nat) (v : Z) :
  Forall is_byte data -> (1 <= n <= 8)%nat -> (s + n <= 8 * length data)%nat -> (s < 2048)%nat ->
  exists data', putuint8 data (Z.of_nat s) (Z.of_nat n) v = Some data' /\
    length data' = length data /\ Forall is_byte data' /\
    getuint8 data' (Z.of_nat s) (Z.of_nat n) = Some (v mod 2 ^ Z.of_nat n) /\
    forall t m, (1 <= m <= 8)%nat -> (t + m <= 8 * length data)%nat -> (t < 2048)%nat ->
      (t + m <= s \/ s + n <= t)%nat ->
      getuint8 data' (Z.of_nat t) (Z.of_nat m) = getuint8 data (Z.of_nat t) (Z.of_nat m).
Proof.
  intros Hby Hn Hlen Hs. destruct (putuint8_spec data s n v) as (d & H1 & H2 & H3 & H4); [done..|].
  assert (Hts : length (take s (bits data)) = s) by (rewrite length_take, length_bits; lia).
  exists d. split_and!; [done|done|auto|..].
  - rewrite <-Hts at 1. eapply get_next; [by auto| |done|lia]. exact H3.
  - intros t m Hm Ht Ht2 Hdis. rewrite !getuint8_spec by (auto || lia). rewrite H3. do 2 f_equal.
    destruct Hdis.
    + rewrite drop_app_le, take_app_le by (rewrite ?length_drop; lia).
      rewrite <-(take_drop s (bits data)) at 2.
      by rewrite drop_app_le, take_app_le by (rewrite ?length_drop; lia).
    + rewrite app_assoc, drop_app_ge by (rewrite length_app, length_vbits; lia).
      rewrite length_app, length_vbits, Hts, drop_drop. do 2 f_equal. lia.
Qed.

Lemma field_isolated_witness :
  exists d, putuint8 [255; 0; 170] 6 5 9 = Some d /\ getuint8 d 6 5 = Some 9 /\
            getuint8 d 11 8 = getuint8 [255; 0; 170] 11 8.
Proof.
  destruct (field_isolated [255; 0; 170] 6 5 9) as (d & H1 & _ & _ & H2 & H3);
    [repeat constructor; decide_closed|lia|cbn; lia|lia|].
  exists d. split; [exact H1|]. split; [exact H2|]. apply (H3 11%nat 8%nat); cbn; lia.
Defined.
