(* ===== verification/CdmaSms.v ===== *)
(** Short messages of the CDMA RIL (src/mtk/ril/c2k/c2k-ril/sms.c).

    The file turns a [RIL_CDMA_SMS_Message] of the framework into a PDU of type-length-value
    parameters, in hexadecimal, and takes such a PDU apart again.  Arrays have the size of
    the code; an access outside of one is undefined behaviour and gives [None].  A pointer
    into an array is the array and an offset ([at_offset]).

    The specification describes a PDU as a list of parameters ([param]); the encoder
    produces such a list and the decoder folds its meaning over a message. *)
From Stdlib Require Import String.
From S2P Require Import Prelude CString BitField.

(** * Data (ril_cdma_sms.h, via-ril.h) *)

Definition RIL_CDMA_SMS_ADDRESS_MAX : Z := 36.
Definition RIL_CDMA_SMS_SUBADDRESS_MAX : Z := 36.
Definition RIL_CDMA_SMS_BEARER_DATA_MAX : Z := 255.

Definition RIL_CDMA_SMS_TELESERVICE_ID : Z := 0.
Definition RIL_CDMA_SMS_SERVICE_CAT : Z := 1.
Definition RIL_CDMA_SMS_ORIG_ADDR : Z := 2.
Definition RIL_CDMA_SMS_ORIG_SUBADDR : Z := 3.
Definition RIL_CDMA_SMS_DEST_ADDR : Z := 4.
Definition RIL_CDMA_SMS_DEST_SUBADDR : Z := 5.
Definition RIL_CDMA_SMS_BEARER_RPLY_OPT : Z := 6.
Definition RIL_CDMA_SMS_CAUSE_CODE : Z := 7.
Definition RIL_CDMA_SMS_BEARER_DATA : Z := 8.

Record RIL_CDMA_SMS_Address := mkAddress {
  digit_mode : Z;
  number_mode : Z;
  number_type : Z;
  number_plan : Z;
  number_of_digits : Z;
  digits : list Z
}.

Record RIL_CDMA_SMS_Subaddress := mkSubaddress {
  subaddressType : Z;
  odd : Z;
  sub_number_of_digits : Z;
  sub_digits : list Z
}.

Record RIL_CDMA_SMS_Message := mkMessage {
  uTeleserviceID : Z;
  bIsServicePresent : Z;
  uServicecategory : Z;
  sAddress : RIL_CDMA_SMS_Address;
  sSubAddress : RIL_CDMA_SMS_Subaddress;
  uBearerDataLen : Z;
  aBearerData : list Z
}.

Definition set_teleservice (v : Z) (m : RIL_CDMA_SMS_Message) : RIL_CDMA_SMS_Message :=
  mkMessage v (bIsServicePresent m) (uServicecategory m) (sAddress m) (sSubAddress m)
    (uBearerDataLen m) (aBearerData m).

Definition set_address (a : RIL_CDMA_SMS_Address) (m : RIL_CDMA_SMS_Message) : RIL_CDMA_SMS_Message :=
  mkMessage (uTeleserviceID m) (bIsServicePresent m) (uServicecategory m) a (sSubAddress m)
    (uBearerDataLen m) (aBearerData m).

Definition set_subaddress (a : RIL_CDMA_SMS_Subaddress) (m : RIL_CDMA_SMS_Message) : RIL_CDMA_SMS_Message :=
  mkMessage (uTeleserviceID m) (bIsServicePresent m) (uServicecategory m) (sAddress m) a
    (uBearerDataLen m) (aBearerData m).

Definition set_bearer (n : Z) (d : list Z) (m : RIL_CDMA_SMS_Message) : RIL_CDMA_SMS_Message :=
  mkMessage (uTeleserviceID m) (bIsServicePresent m) (uServicecategory m) (sAddress m)
    (sSubAddress m) n d.

(** [memcpy] of the first [n] bytes of [src] to offset [off] of [dst]. *)
Definition memcpy (dst : list Z) (off : Z) (src : list Z) (n : Z) : option (list Z) :=
  if (0 <=? n) && (n <=? zlen src) && (0 <=? off) && (off + n <=? zlen dst)
  then Some (memcpy_at dst off (ztake n src)) else None.

(** A function applied to the array from [base + off] on. *)
Definition at_offset {A} (base : list Z) (off : Z) (f : list Z -> option (A * list Z))
  : option (A * list Z) :=
  if (0 <=? off) && (off <=? zlen base) then
    '(a, tl) ← f (zdrop off base); Some (a, ztake off base ++ tl)
  else None.

(** * Encoding *)

(** [NUM_BYTES] of sms.h. *)
Definition NUM_BYTES (bitCount : Z) : Z :=
  if negb (bitCount mod 8 =? 0) then bitCount / 8 + 1 else bitCount / 8.

Definition MakeTeleSrvId (data : list Z) (teleserviceId : Z) : option (Z * list Z) :=
  data ← putuint8 data 0 8 0;
  data ← putuint8 data 8 8 2;
  data ← putuint16 data 16 16 (u16 teleserviceId);
  Some (4, data).

(** The loop over the digits: [n] fields of [size] bits are copied. *)
Fixpoint copy_fields (n : nat) (size : Z) (from : list Z) (getBit : Z) (to : list Z) (putBit : Z)
  : option (Z * list Z) :=
  match n with
  | O => Some (putBit, to)
  | S n' =>
      byte ← getuint8 from getBit size;
      to ← putuint8 to putBit size byte;
      copy_fields n' size from (u16 (getBit + size)) to (u16 (putBit + size))
  end.

(** The fields in front of the digits: the size of a digit, the position behind them, the
    array. *)
Definition make_address_header (data : list Z) (addr : RIL_CDMA_SMS_Address)
  : option (Z * Z * list Z) :=
  let startBit := 16 in
  data ← putuint8 data startBit 1 (u8 (digit_mode addr));
  let startBit := startBit + 1 in
  data ← putuint8 data startBit 1 (u8 (number_mode addr));
  let startBit := startBit + 1 in
  '(size, startBit, data) ←
    (if negb (digit_mode addr =? 0) then
       data ← putuint8 data startBit 3 (u8 (number_type addr));
       let startBit := startBit + 3 in
       if number_mode addr =? 0 then
         data ← putuint8 data startBit 4 (u8 (number_plan addr));
         Some (8, startBit + 4, data)
       else Some (8, startBit, data)
     else Some (4, startBit, data));
  data ← putuint8 data startBit 8 (number_of_digits addr);
  Some (size, startBit + 8, data).

Definition MakeAddress (data : list Z) (addr : RIL_CDMA_SMS_Address) (MoSmsMsg : Z)
  : option (Z * list Z) :=
  data ← putuint8 data 0 8 (if MoSmsMsg =? 1 then 4 else 2);
  '(size, startBit, data) ← make_address_header data addr;
  '(startBit, data) ← copy_fields (Z.to_nat (number_of_digits addr)) size (digits addr) 0 data startBit;
  let totalLength := u8 (NUM_BYTES startBit) in
  let result := u8 (totalLength * 8 - startBit) in
  data ← (if negb (result =? 0) then putuint8 data startBit result 0 else Some data);
  data ← putuint8 data 8 8 (u8 (totalLength - 2));
  Some (totalLength, data).

(** [*nlength] is returned with the array. *)
Definition RILCdmaSmsPdu (SmsMsg : RIL_CDMA_SMS_Message) (PduP : list Z) (nlength : Z)
  : option (Z * list Z) :=
  PduP ← arr_set PduP nlength 0;
  let nlength := u8 (nlength + 1) in
  '(k, PduP) ← at_offset PduP nlength (fun d => MakeTeleSrvId d (uTeleserviceID SmsMsg));
  let nlength := u8 (nlength + k) in
  '(k, PduP) ← at_offset PduP nlength (fun d => MakeAddress d (sAddress SmsMsg) 1);
  Some (u8 (nlength + k), PduP).

(** [char] is unsigned on ARM. *)
Definition ConvertChar (value : Z) : Z :=
  if value <=? 9 then u8 (value + 48)
  else if (10 <=? value) && (value <=? 15) then u8 (value + 87)
  else value.

Fixpoint convert_ascii_loop (n : nat) (i : Z) (pdu strPdu : list Z) : option (list Z) :=
  match n with
  | O => Some strPdu
  | S n' =>
      b ← arr_get pdu i;
      strPdu ← arr_set strPdu (i * 2) (ConvertChar (Z.shiftr (Z.land 240 b) 4));
      strPdu ← arr_set strPdu (i * 2 + 1) (ConvertChar (Z.land 15 b));
      convert_ascii_loop n' (i + 1) pdu strPdu
  end.

Definition ConvertAscii (pdu : list Z) (length : Z) (strPdu : list Z) : option (list Z) :=
  if length <=? 0 then Some strPdu else convert_ascii_loop (Z.to_nat length) 0 pdu strPdu.

(** The loop that packs two digits into a byte; [DTMF] is an array of [signed char], of which
    only the eight bits matter. *)
Fixpoint pack_digits (fuel : nat) (i n : Z) (ds DTMF : list Z) : option (list Z) :=
  match fuel with
  | O => Some DTMF
  | S fuel' =>
      if i <? n then
        d ← arr_get ds i;
        DTMF ← arr_set DTMF (i / 2) (u8 d);
        e ← arr_get ds (i + 1);
        DTMF ← arr_set DTMF (i / 2) (u8 (Z.lor (Z.shiftl d 4) e));
        pack_digits fuel' (i + 2) n ds DTMF
      else Some DTMF
  end.

(** The reply option and the bearer data behind the address; [length] counts the bytes in
    front of the bearer data parameter. *)
Definition append_params (pdu : list Z) (length : Z) (bearer : list Z) (n : Z)
  : option (Z * list Z) :=
  pdu ← arr_set pdu length 6; let length := u8 (length + 1) in
  pdu ← arr_set pdu length 1; let length := u8 (length + 1) in
  pdu ← arr_set pdu length 0; let length := u8 (length + 1) in
  pdu ← arr_set pdu length 8;
  pdu ← arr_set pdu (length + 1) (u8 n);
  pdu ← memcpy pdu (2 + length) bearer n;
  Some (length, pdu).

(** The result code, [*s_pdu], [*s_number] and the changed message. *)
Definition RILEncodeCdmaSmsPdu (p_message : RIL_CDMA_SMS_Message)
  : option (Z * list Z * list Z * RIL_CDMA_SMS_Message) :=
  let a := sAddress p_message in
  let n := number_of_digits a in
  s_number ← memcpy (repeat 0 (Z.to_nat (n + 1))) 0 (digits a) n;
  let pdu := repeat 0 255 in
  let strPdu := repeat 0 511 in
  let adjust := if n mod 2 =? 0 then 0 else 1 in
  let dtmf_len := u8 (n / 2 + adjust) in
  DTMF ← pack_digits (Z.to_nat n) 0 n (digits a) (repeat 0 (Z.to_nat dtmf_len));
  ds ← memcpy (digits a) 0 (repeat 0 (Z.to_nat n)) n;
  ds ← memcpy ds 0 DTMF dtmf_len;
  let a := mkAddress 0 (number_mode a) (number_type a) (number_plan a) n ds in
  let m := set_address a p_message in
  '(length, pdu) ← RILCdmaSmsPdu m pdu 0;
  '(length, pdu) ← append_params pdu length (aBearerData m) (uBearerDataLen m);
  let total := length + 2 + uBearerDataLen m in
  strPdu ← ConvertAscii pdu total strPdu;
  let s := cstr strPdu in
  if zlen s <=? total * 2 then Some (0, s, cstr s_number, m) else None.

(** * Decoding *)

(** The result is stored in an [unsigned char]; -1 becomes 255. *)
Definition ConvertNum (c : Z) : Z :=
  if (48 <=? c) && (c <=? 57) then c - 48
  else if (97 <=? c) && (c <=? 102) then c - 87
  else if (65 <=? c) && (c <=? 70) then c - 55
  else 255.

(** [pdu] is a string: reading its terminator gives 0, reading behind it nothing. *)
Definition str_get (s : list Z) (i : Z) : option Z := arr_get (s ++ [0]) i.

Fixpoint convert_byte_loop (n : nat) (i : Z) (pdu bytePdu : list Z) : option (list Z) :=
  match n with
  | O => Some bytePdu
  | S n' =>
      c ← str_get pdu (2 * i);
      bytePdu ← arr_set bytePdu i (ConvertNum c);
      d ← str_get pdu (2 * i + 1);
      bytePdu ← arr_set bytePdu i (u8 (Z.lor (Z.shiftl (ConvertNum c) 4) (ConvertNum d)));
      convert_byte_loop n' (i + 1) pdu bytePdu
  end.

Definition ConvertByte (pdu bytePdu : list Z) (len : Z) : option (list Z) :=
  if negb (zlen pdu / 2 =? len) then Some bytePdu
  else convert_byte_loop (Z.to_nat len) 0 pdu bytePdu.

(** [-1] for an invalid digit, as the [char] 255. *)
Definition RILNumDTMFToChar (DtmfDigit : Z) : Z :=
  if (1 <=? DtmfDigit) && (DtmfDigit <=? 9) then DtmfDigit + 48
  else if (DtmfDigit =? 0) || (DtmfDigit =? 10) then 48
  else if DtmfDigit =? 11 then 42
  else if DtmfDigit =? 12 then 35
  else if DtmfDigit =? 13 then 80
  else if DtmfDigit =? 14 then 84
  else 255.

Definition RILNumCharToDTMF (Digit : Z) : Z :=
  if Digit =? 48 then 10
  else if (49 <=? Digit) && (Digit <=? 57) then Digit - 48
  else if Digit =? 42 then 11
  else if Digit =? 35 then 12
  else if Digit =? 80 then 13
  else if Digit =? 84 then 14
  else 10.

(** The loop that turns packed digits into characters. *)
Fixpoint ascii_loop (fuel : nat) (i n : Z) (ds AsciiNum : list Z) : option (list Z) :=
  match fuel with
  | O => Some AsciiNum
  | S fuel' =>
      if i <? (n + 1) / 2 then
        b ← arr_get ds i;
        AsciiNum ← arr_set AsciiNum (i * 2) (RILNumDTMFToChar (Z.shiftr b 4));
        AsciiNum ← (if i * 2 + 1 <? n
                    then arr_set AsciiNum (i * 2 + 1) (RILNumDTMFToChar (Z.land b 15))
                    else Some AsciiNum);
        ascii_loop fuel' (i + 1) n ds AsciiNum
      else Some AsciiNum
  end.

(** The fields in front of the digits: modes, type, plan, count, the size of a digit and the
    position behind them. *)
Definition extract_header (BytePdu : list Z) (Address : RIL_CDMA_SMS_Address)
  : option (Z * Z * Z * Z * Z * Z * Z) :=
  let startBit := 0 in
  dm ← getuint8 BytePdu startBit 1; let startBit := startBit + 1 in
  nm ← getuint8 BytePdu startBit 1; let startBit := startBit + 1 in
  '(nt, np, size, startBit) ←
    (if negb (dm =? 0) then
       if negb (nm =? 0) then
         nt ← getuint8 BytePdu startBit 3;
         Some (nt, number_plan Address, 8, startBit + 3)
       else
         nt ← getuint8 BytePdu startBit 3; let startBit := startBit + 3 in
         np ← getuint8 BytePdu startBit 4;
         Some (nt, np, 8, startBit + 4)
     else Some (number_type Address, number_plan Address, 4, startBit));
  n ← getuint8 BytePdu startBit 8;
  Some (dm, nm, nt, np, n, size, startBit + 8).

Definition RILCdmaSmsExtractAddress (BytePdu : list Z) (Address : RIL_CDMA_SMS_Address)
  : option (Z * RIL_CDMA_SMS_Address) :=
  '(dm, nm, nt, np, n, size, startBit) ← extract_header BytePdu Address;
  '(_, ds) ← copy_fields (Z.to_nat n) size BytePdu startBit (digits Address) 0;
  let startBit := u16 (startBit + n * size) in
  '(dm, ds) ←
    (if dm =? 0 then
       AsciiNum ← ascii_loop (Z.to_nat n) 0 n ds (repeat 0 (Z.to_nat (n + 1)));
       ds ← memcpy ds 0 AsciiNum n;
       Some (1, ds)
     else Some (dm, ds));
  Some (u8 (NUM_BYTES startBit), mkAddress dm nm nt np n ds).

Fixpoint sub_digits_loop (n : nat) (i startBit : Z) (BytePdu ds : list Z) : option (Z * list Z) :=
  match n with
  | O => Some (startBit, ds)
  | S n' =>
      b ← getuint8 BytePdu startBit 8;
      ds ← arr_set ds i b;
      sub_digits_loop n' (i + 1) (u16 (startBit + 8)) BytePdu ds
  end.

Definition RILCdmaSmsExtractSubaddress (BytePdu : list Z) (addr : RIL_CDMA_SMS_Subaddress)
  : option (Z * RIL_CDMA_SMS_Subaddress) :=
  ty ← getuint8 BytePdu 0 3;
  od ← getuint8 BytePdu 3 1;
  n ← getuint8 BytePdu 4 8;
  '(startBit, ds) ← sub_digits_loop (Z.to_nat n) 0 12 BytePdu (sub_digits addr);
  Some (u8 (NUM_BYTES startBit), mkSubaddress ty od n ds).

(** The body of the loop for one parameter whose value starts at [index].  The count that
    the extraction functions return is compared and the result ignored. *)
Definition process_param (bytePdu : list Z) (paramId paramLen index : Z) (m : RIL_CDMA_SMS_Message)
  : option RIL_CDMA_SMS_Message :=
  if paramId =? RIL_CDMA_SMS_TELESERVICE_ID then
    if negb (paramLen =? 2) then Some m
    else
      hi ← arr_get bytePdu index;
      lo ← arr_get bytePdu (index + 1);
      Some (set_teleservice (Z.lor (Z.shiftl hi 8) lo) m)
  else if paramId =? RIL_CDMA_SMS_SERVICE_CAT then Some m
  else if (paramId =? RIL_CDMA_SMS_DEST_ADDR) || (paramId =? RIL_CDMA_SMS_ORIG_ADDR) then
    '(_, a) ← RILCdmaSmsExtractAddress (zdrop index bytePdu) (sAddress m);
    Some (set_address a m)
  else if (paramId =? RIL_CDMA_SMS_ORIG_SUBADDR) || (paramId =? RIL_CDMA_SMS_DEST_SUBADDR) then
    '(_, a) ← RILCdmaSmsExtractSubaddress (zdrop index bytePdu) (sSubAddress m);
    Some (set_subaddress a m)
  else if paramId =? RIL_CDMA_SMS_BEARER_RPLY_OPT then Some m
  else if (paramId =? RIL_CDMA_SMS_CAUSE_CODE) || (paramId =? RIL_CDMA_SMS_BEARER_DATA) then
    d ← memcpy (aBearerData m) 0 (zdrop index bytePdu) paramLen;
    Some (set_bearer paramLen d m)
  else Some m.

(** Without fuel the loop has not ended. *)
Inductive outcome :=
| Decoded (m : RIL_CDMA_SMS_Message)
| Crash
| NoFuel.

Fixpoint process_loop (fuel : nat) (bytePdu : list Z) (length index : Z) (m : RIL_CDMA_SMS_Message)
  : outcome :=
  if index <? length then
    match fuel with
    | O => NoFuel
    | S fuel' =>
        match arr_get bytePdu index, arr_get bytePdu (u16 (index + 1)) with
        | Some paramId, Some paramLen =>
            let index := u16 (index + 2) in
            match process_param bytePdu paramId paramLen index m with
            | Some m' => process_loop fuel' bytePdu length (u16 (index + paramLen)) m'
            | None => Crash
            end
        | _, _ => Crash
        end
    end
  else Decoded m.

(** [length] is an [unsigned short]. *)
Definition ProcessCdmaIncomingSms (fuel : nat) (bytePdu : list Z) (length : Z)
    (p_message : RIL_CDMA_SMS_Message) : outcome :=
  match arr_get bytePdu 0 with
  | None => Crash
  | Some _ => process_loop fuel bytePdu length 1 p_message
  end.

(** * Specification *)

(** The bits of an address parameter. *)
Definition addr_header (a : RIL_CDMA_SMS_Address) : list bool :=
  vbits 1 (digit_mode a) ++ vbits 1 (number_mode a) ++
  (if negb (digit_mode a =? 0) then
     vbits 3 (number_type a) ++ (if number_mode a =? 0 then vbits 4 (number_plan a) else [])
   else []) ++
  vbits 8 (number_of_digits a).

Definition digit_size (a : RIL_CDMA_SMS_Address) : nat := if digit_mode a =? 0 then 4 else 8.

Definition digit_bits (a : RIL_CDMA_SMS_Address) : list bool :=
  take (Z.to_nat (number_of_digits a) * digit_size a) (bits (digits a)).

Definition addr_bits (a : RIL_CDMA_SMS_Address) : list bool := addr_header a ++ digit_bits a.

(** Octets of a bit string, filled up with zeros. *)
Definition octets (l : list bool) : nat := ((length l + 7) / 8)%nat.

Definition pad (l : list bool) : list bool := l ++ replicate (8 * octets l - length l) false.

Fixpoint pack (n : nat) (l : list bool) : list Z :=
  match n with
  | O => []
  | S n' => bval (take 8 l) :: pack n' (drop 8 l)
  end.

Definition pack_all (l : list bool) : list Z := pack (octets l) (pad l).

Record addr_ok (a : RIL_CDMA_SMS_Address) : Prop := {
  ok_digit_mode : digit_mode a = 0 \/ digit_mode a = 1;
  ok_number_mode : number_mode a = 0 \/ number_mode a = 1;
  ok_type : 0 <= number_type a < 8;
  ok_plan : 0 <= number_plan a < 16;
  ok_count : 0 <= number_of_digits a <= RIL_CDMA_SMS_ADDRESS_MAX;
  ok_length : zlen (digits a) = RIL_CDMA_SMS_ADDRESS_MAX;
  ok_bytes : Forall is_byte (digits a)
}.

Lemma octets_spec l : (8 * octets l - 7 <= length l <= 8 * octets l)%nat.
Proof.
  unfold octets. pose proof (Nat.div_mod_eq (length l + 7) 8).
  pose proof (Nat.mod_upper_bound (length l + 7) 8). lia.
Qed.

Lemma length_pad l : length (pad l) = (8 * octets l)%nat.
Proof. unfold pad. pose proof (octets_spec l). rewrite length_app, length_replicate. lia. Qed.

Lemma length_pack n l : length (pack n l) = n.
Proof. revert l. induction n as [|n IH]; intros; cbn; [done|]. by rewrite IH. Qed.

Lemma bits_pack n l : length l = (8 * n)%nat -> bits (pack n l) = l.
Proof.
  revert l. induction n as [|n IH]; intros l Hl; [by destruct l|].
  cbn [pack]. rewrite bits_cons, IH by (rewrite length_drop; lia).
  replace 8%nat with (length (take 8 l)) at 1 by (rewrite length_take; lia).
  by rewrite vbits_bval, take_drop.
Qed.

Lemma pack_bytes n l : Forall is_byte (pack n l).
Proof.
  revert l. induction n as [|n IH]; intros l; cbn [pack]; constructor; [|done].
  pose proof (bval_bound (take 8 l)). unfold is_byte, zlen in *. split; [lia|].
  eapply Z.lt_le_trans; [apply H|]. change 256 with (2 ^ 8). apply Z.pow_le_mono_r; [lia|].
  rewrite length_take. lia.
Qed.

Lemma NUM_BYTES_octets (l : list bool) :
  NUM_BYTES (Z.of_nat (length l)) = Z.of_nat (octets l).
Proof.
  unfold NUM_BYTES. pose proof (octets_spec l). set (n := length l) in *.
  pose proof (Z.div_mod (Z.of_nat n) 8). pose proof (Z.mod_pos_bound (Z.of_nat n) 8).
  case_if; lia.
Qed.

(** ** Copying digits *)

Lemma copy_fields_spec n size from gdone gbits to pdone prest :
  (size = 4 \/ size = 8)%nat -> Forall is_byte from ->
  bits from = gdone ++ gbits -> bits to = pdone ++ prest ->
  (n * size <= length gbits)%nat -> (n * size <= length prest)%nat ->
  (length gdone + n * size < 2048)%nat -> (length pdone + n * size < 2048)%nat ->
  exists to', copy_fields n (Z.of_nat size) from (Z.of_nat (length gdone)) to (Z.of_nat (length pdone))
      = Some (Z.of_nat (length pdone + n * size), to') /\ length to' = length to /\
    bits to' = (pdone ++ take (n * size) gbits) ++ drop (n * size) prest /\
    (Forall is_byte to -> Forall is_byte to').
Proof.
  intros Hsz Hby. revert gdone gbits to pdone prest.
  induction n as [|n IH]; intros gdone gbits to pdone prest Hg Hp Hgl Hpl Hg2 Hp2.
  { exists to. cbn [copy_fields]. rewrite Nat.mul_0_l, Nat.add_0_r, take_0, drop_0, app_nil_r.
    by split_and!. }
  cbn [copy_fields]. rewrite Nat.mul_succ_l in *.
  rewrite getuint8_spec by (try done; try lia;
    rewrite <-(length_bits from), Hg, length_app; lia).
  cbn [mbind option_bind]. rewrite Hg, drop_app_length.
  assert (Hlt : length (take size gbits) = size) by (rewrite length_take; lia).
  destruct (put_next to pdone (bval (take size gbits)) size prest) as (to1 & E1 & L1 & B1 & F1); [done|lia..|].
  rewrite E1. cbn [mbind option_bind].
  destruct (IH (gdone ++ take size gbits) (drop size gbits) to1 (pdone ++ take size gbits) (drop size prest))
    as (to' & E2 & L2 & B2 & F2); rewrite ?length_app, ?length_drop, ?Hlt; try lia.
  { by rewrite <-app_assoc, take_drop. }
  { rewrite B1. rewrite <-Hlt at 1. by rewrite vbits_bval. }
  rewrite !length_app, Hlt in E2. exists to'. unfold u16. rewrite !Z.mod_small by lia.
  rewrite <-!Nat2Z.inj_add, E2. split; [do 2 f_equal; lia|].
  split; [congruence|]. split; [|auto].
  rewrite B2, drop_drop, <-!app_assoc. f_equal. rewrite app_assoc. f_equal; [|f_equal; lia].
  rewrite (Nat.add_comm (n * size)). apply take_take_drop.
Qed.

(** ** The address parameter *)

Lemma put_field d done s nz n v rest :
  bits d = done ++ rest -> s = Z.of_nat (length done) -> nz = Z.of_nat n -> (1 <= n <= 8)%nat ->
  (n <= length rest)%nat -> (length done < 2048)%nat ->
  exists d', putuint8 d s nz v = Some d' /\ length d' = length d /\
    bits d' = (done ++ vbits n v) ++ drop n rest /\ (Forall is_byte d -> Forall is_byte d').
Proof. intros H -> -> ???. by apply put_next. Qed.

Lemma get_field d done s nz n v rest :
  Forall is_byte d -> bits d = done ++ vbits n v ++ rest -> s = Z.of_nat (length done) ->
  nz = Z.of_nat n -> (1 <= n <= 8)%nat -> (length done < 2048)%nat -> 0 <= v < 2 ^ Z.of_nat n ->
  getuint8 d s nz = Some v.
Proof.
  intros Hb H -> -> ?? Hv. erewrite get_next by done. by rewrite Z.mod_small.
Qed.

Ltac bitlen := rewrite ?length_app, ?length_drop, ?length_vbits; cbn [length]; lia.

(** Runs the next [putuint8] of the goal on an array whose bits are known. *)
Ltac put n :=
  lazymatch goal with
  | H : bits ?d = ?dn ++ ?rest |- context [putuint8 ?d ?s ?nz ?v] =>
      let d' := fresh "d" in let E := fresh "E" in let L := fresh "L" in
      let B := fresh "B" in let F := fresh "F" in
      destruct (put_field d dn s nz n v rest H) as (d' & E & L & B & F);
      [bitlen|reflexivity|lia|bitlen|bitlen|];
      rewrite E; cbn [mbind option_bind]; clear H E
  end.

Ltac known_bits := lazymatch goal with H : bits ?d = _ |- context [bits ?d] => rewrite H end.

Lemma vbits_u8 n v : (n <= 8)%nat -> vbits n (u8 v) = vbits n v.
Proof.
  induction n as [|n IH]; intros Hn; [done|]. unfold vbits; fold vbits.
  by rewrite IH, testbit_u8 by lia.
Qed.

Lemma vbits_zero n : vbits n 0 = replicate n false.
Proof.
  induction n as [|n IH]; [done|]. unfold vbits; fold vbits. rewrite Z.testbit_0_l. cbn. by f_equal.
Qed.

Lemma length_addr_header a : (10 <= length (addr_header a) <= 17)%nat.
Proof.
  unfold addr_header. rewrite !length_app, !length_vbits. case_if; [|cbn; lia].
  rewrite length_app, length_vbits. case_if; rewrite ?length_vbits; cbn; lia.
Qed.

Lemma length_digit_bits a :
  addr_ok a -> length (digit_bits a) = (Z.to_nat (number_of_digits a) * digit_size a)%nat.
Proof.
  intros []. unfold digit_bits. rewrite length_take, length_bits. unfold zlen, RIL_CDMA_SMS_ADDRESS_MAX in *.
  unfold digit_size. case_if; lia.
Qed.

Lemma digit_size_48 a : digit_size a = 4%nat \/ digit_size a = 8%nat.
Proof. unfold digit_size. case_if; auto. Qed.

Lemma length_addr_bits a : addr_ok a -> (length (addr_bits a) <= 305)%nat.
Proof.
  intros H. unfold addr_bits. rewrite length_app, length_digit_bits by done.
  pose proof (length_addr_header a). destruct H. unfold RIL_CDMA_SMS_ADDRESS_MAX in *.
  destruct (digit_size_48 a) as [-> | ->]; lia.
Qed.

Ltac by_bits Hdm Hnm :=
  known_bits; rewrite !vbits_u8 by lia; rewrite ?Hdm, ?Hnm, ?length_app, ?length_vbits, !drop_drop, <-!app_assoc;
  reflexivity.

(** The header of an address, written from bit 16 on. *)
Lemma make_header data a H16 rest :
  addr_ok a -> length H16 = 16%nat -> bits data = H16 ++ rest ->
  (length (addr_header a) <= length rest)%nat ->
  exists d, make_address_header data a =
    Some (Z.of_nat (digit_size a), 16 + Z.of_nat (length (addr_header a)), d) /\
    length d = length data /\
    bits d = (H16 ++ addr_header a) ++ drop (length (addr_header a)) rest /\
    (Forall is_byte data -> Forall is_byte d).
Proof.
  intros [Hdm Hnm _ _ _ _ _] HH Hb Hr. pose proof (length_addr_header a).
  unfold make_address_header, addr_header, digit_size in *. cbn zeta. cbn [Z.add Pos.add].
  put 1%nat. put 1%nat.
  destruct Hdm as [Hdm|Hdm]; rewrite !Hdm in *; cbn [Z.eqb negb] in *.
  - cbn [mbind option_bind]. put 8%nat. eexists.
    split; [rewrite ?length_app, ?length_vbits; reflexivity|].
    split; [congruence|]. split; [|auto]. by_bits Hdm Hnm.
  - put 3%nat. destruct Hnm as [Hnm|Hnm]; rewrite !Hnm in *; cbn [Z.eqb Pos.eqb mbind option_bind] in *;
      rewrite !length_app, !length_vbits in Hr; cbn [length] in Hr.
    + put 4%nat. put 8%nat. eexists. split; [rewrite ?length_app, ?length_vbits; reflexivity|].
      split; [congruence|]. split; [|auto 7]. by_bits Hdm Hnm.
    + put 8%nat. eexists. split; [rewrite ?length_app, ?length_vbits; reflexivity|].
      split; [congruence|]. split; [|auto]. by_bits Hdm Hnm.
Qed.

Lemma octets_app16 H l : length H = 16%nat -> octets (H ++ l) = (2 + octets l)%nat.
Proof.
  intros HH. pose proof (octets_spec (H ++ l)). pose proof (octets_spec l).
  rewrite length_app in *. lia.
Qed.

Lemma bits_drop n l : bits (drop n l) = drop (8 * n) (bits l).
Proof.
  revert l. induction n as [|n IH]; intros l; [by rewrite Nat.mul_0_r, !drop_0|].
  destruct l as [|b l]; [by rewrite !drop_nil|].
  cbn [drop]. rewrite IH, bits_cons. rewrite drop_app_ge by (rewrite length_vbits; lia).
  rewrite length_vbits. f_equal. lia.
Qed.

Lemma MakeAddress_spec data a mo :
  addr_ok a -> Forall is_byte data -> (2 + octets (addr_bits a) <= length data)%nat ->
  MakeAddress data a mo =
  Some (Z.of_nat (2 + octets (addr_bits a)),
    (if mo =? 1 then 4 else 2) :: Z.of_nat (octets (addr_bits a)) :: pack_all (addr_bits a) ++
    drop (2 + octets (addr_bits a)) data).
Proof.
  intros Ha Hby Hlen. unfold MakeAddress. set (k := octets (addr_bits a)) in *.
  pose proof (octets_spec (addr_bits a)) as Hk. fold k in Hk.
  pose proof (length_addr_bits a Ha) as Hl. pose proof (length_addr_header a) as Hh.
  pose proof (length_digit_bits a Ha) as Hd. pose proof (digit_size_48 a) as Hsz.
  assert (Hab : length (addr_bits a) = (length (addr_header a) + length (digit_bits a))%nat)
    by apply length_app.
  assert (Hn : 0 <= number_of_digits a <= 36) by apply Ha.
  assert (Hlb := length_bits data). assert (Hb : bits data = [] ++ bits data) by done.
  set (id := if mo =? 1 then 4 else 2). put 8%nat. cbn [app] in B.
  set (R := drop 8 (bits data)) in *.
  assert (HR : length R = (8 * length data - 8)%nat) by (unfold R; rewrite length_drop; lia).
  destruct (make_header d a (vbits 8 id ++ take 8 R) (drop 8 R)) as (d1 & E1 & L1 & B1 & F1);
    [done|rewrite length_app, length_take, length_vbits; lia
    |by rewrite <-app_assoc, take_drop|rewrite length_drop, HR; lia|].
  rewrite E1. cbn [mbind option_bind].
  set (H16 := vbits 8 id ++ take 8 R) in *.
  assert (HH16 : length H16 = 16%nat) by (unfold H16; rewrite length_app, length_take, length_vbits; lia).
  destruct (copy_fields_spec (Z.to_nat (number_of_digits a)) (digit_size a) (digits a) []
    (bits (digits a)) d1 (H16 ++ addr_header a) (drop (length (addr_header a)) (drop 8 R)))
    as (d2 & E2 & L2 & B2 & F2); rewrite ?length_app, ?length_drop, ?length_bits; try done; try lia.
  { apply Ha. }
  { destruct Ha. unfold zlen, RIL_CDMA_SMS_ADDRESS_MAX in *. destruct Hsz as [-> | ->]; lia. }
  { rewrite <-Hd. cbn. lia. }
  rewrite length_app, HH16 in E2. cbn [length] in E2. rewrite Nat2Z.inj_add in E2.
  change (Z.of_nat 16) with 16 in E2. change (Z.of_nat 0) with 0 in E2.
  rewrite E2. cbn [mbind option_bind].
  fold (digit_bits a) in B2. rewrite <-(app_assoc H16) in B2. fold (addr_bits a) in B2.
  rewrite !drop_drop, <-Hd in B2. rewrite <-Hd, <-Nat.add_assoc, <-Hab.
  assert (Hpos : (16 + length (addr_bits a))%nat = length (H16 ++ addr_bits a))
    by (rewrite length_app; lia).
  rewrite Hpos, NUM_BYTES_octets, octets_app16 by done. fold k.
  assert (Hu : u8 (Z.of_nat (2 + k)) = Z.of_nat (2 + k)) by (apply u8_id; unfold is_byte; lia).
  rewrite Hu.
  replace (u8 (Z.of_nat (2 + k) * 8 - Z.of_nat (length (H16 ++ addr_bits a))))
    with (Z.of_nat (8 * k - length (addr_bits a)))
    by (symmetry; rewrite <-Hpos; unfold u8; rewrite Z.mod_small; lia).
  set (pd := (8 * k - length (addr_bits a))%nat) in *.
  set (R2 := drop _ R) in B2. assert (HR2 : (pd <= length R2)%nat)
    by (unfold R2; rewrite length_drop; lia).
  assert (Hpad : exists d3, (if negb (Z.of_nat pd =? 0)
      then putuint8 d2 (Z.of_nat (length (H16 ++ addr_bits a))) (Z.of_nat pd) 0 else Some d2) = Some d3
      /\ length d3 = length data /\ bits d3 = H16 ++ pad (addr_bits a) ++ drop pd R2 /\ Forall is_byte d3).
  { unfold pad. fold k pd. case_if.
    - destruct (put_next d2 (H16 ++ addr_bits a) 0 pd R2) as (d3 & G1 & G2 & G3 & G4); [done|lia..|].
      exists d3. split; [done|]. split; [congruence|]. split; [|auto].
      by rewrite G3, vbits_zero, <-!app_assoc.
    - exists d2. split; [done|]. split; [congruence|]. split; [|auto].
      assert (pd = 0%nat) as -> by lia.
      cbn [replicate]. rewrite B2, app_nil_r, drop_0.
      by rewrite app_assoc. }
  destruct Hpad as (d3 & -> & L3 & B3 & F3). cbn [mbind option_bind].
  destruct (putuint8_spec d3 8 8 (u8 (Z.of_nat (2 + k) - 2))) as (d4 & G1 & G2 & G3 & G4); [lia..|].
  change (Z.of_nat 8) with 8 in G1. rewrite G1. cbn [mbind option_bind]. do 2 f_equal.
  apply bits_inj; [by auto|..].
  { rewrite !Forall_cons. split; [unfold id, is_byte; case_if; lia|].
    split; [unfold is_byte; lia|]. apply Forall_app. split; [apply pack_bytes|by apply Forall_drop]. }
  rewrite G3, B3, !bits_cons, bits_app. unfold pack_all.
  rewrite bits_pack by apply length_pad. unfold H16 at 1.
  rewrite <-app_assoc, take_app_le, take_ge by (rewrite length_vbits; lia). f_equal.
  f_equal; [f_equal; unfold u8; rewrite Z.mod_small; lia|].
  change (8 + 8)%nat with 16%nat. rewrite <-HH16 at 1. rewrite drop_app_length. f_equal.
  unfold R2, R. rewrite bits_drop, !drop_drop. f_equal. lia.
Qed.

(** ** Digits *)

(** The [i]-th digit of an array with two digits per byte. *)
Definition nibble_at (ds : list Z) (i : Z) : Z :=
  if i mod 2 =? 0 then Z.shiftr (byte_at ds (i / 2)) 4 else Z.land (byte_at ds (i / 2)) 15.

Lemma nibble_bits ds (i : nat) :
  Forall is_byte ds -> (i < 2 * length ds)%nat ->
  nibble_at ds (Z.of_nat i) = bval (take 4 (drop (4 * i) (bits ds))).
Proof.
  intros Hby Hi. pose proof (Nat.div_mod_eq i 2) as Hdm. pose proof (Nat.mod_upper_bound i 2).
  destruct (split_at ds (i / 2)) as (pre & b & post & -> & Hl); [lia|].
  apply Forall_app in Hby as [_ [Hb _]%Forall_cons].
  unfold nibble_at. change 2 with (Z.of_nat 2). rewrite <-Nat2Z.inj_mod, <-Nat2Z.inj_div.
  rewrite <-Hl. change (Z.of_nat (length pre)) with (zlen pre). rewrite byte_at_app_length.
  rewrite bits_app, bits_cons.
  replace (4 * i)%nat with (8 * length pre + 4 * (i mod 2))%nat by lia.
  rewrite drop_bits_mid. assert (i mod 2 = 0 \/ i mod 2 = 1)%nat as [E | E] by lia; rewrite E; cbn [Nat.mul Nat.add].
  - rewrite drop_0, take_app_le by (rewrite length_vbits; lia). cbn [Z.of_nat Z.eqb]. byte_cases b.
  - rewrite drop_app_le, take_app_le by (rewrite ?length_drop, length_vbits; lia).
    cbn [Z.of_nat Z.eqb Pos.eqb Pos.of_succ_nat]. byte_cases b.
Qed.

Definition nibbles (ds : list Z) (n : Z) : list Z := map (nibble_at ds) (seqZ 0 n).

Lemma seqZ_snoc n : 0 <= n -> seqZ 0 (n + 1) = seqZ 0 n ++ [n].
Proof. intros. rewrite seqZ_app by lia. done. Qed.

Lemma zlen_nibbles ds n : 0 <= n -> zlen (nibbles ds n) = n.
Proof. intros. unfold zlen, nibbles. rewrite length_map, length_seqZ. lia. Qed.

Lemma nibbles_snoc ds n : 0 <= n -> nibbles ds (n + 1) = nibbles ds n ++ [nibble_at ds n].
Proof. intros. unfold nibbles. by rewrite seqZ_snoc, map_app. Qed.

(** The two digits of one byte. *)
Lemma nibble_even ds i : 0 <= i -> nibble_at ds (i * 2) = Z.shiftr (byte_at ds i) 4.
Proof. intros. unfold nibble_at. rewrite Z.mod_mul, Z.div_mul by lia. done. Qed.

Lemma nibble_odd ds i : 0 <= i -> nibble_at ds (i * 2 + 1) = Z.land (byte_at ds i) 15.
Proof.
  intros. unfold nibble_at. rewrite Z.add_comm, Z.mod_add, Z.div_add by lia. done.
Qed.

Lemma arr_get_in l i : 0 <= i < zlen l -> arr_get l i = Some (byte_at l i).
Proof. intros. unfold arr_get. case_if; [lia|]. by apply byte_at_lookup. Qed.

Lemma repeat_cons {A} (x : A) n : 0 < n -> repeat x (Z.to_nat n) = x :: repeat x (Z.to_nat (n - 1)).
Proof. intros. by replace (Z.to_nat n) with (S (Z.to_nat (n - 1))) by lia. Qed.

(** Writing at the end of what was written. *)
Lemma arr_set_end l i v n :
  i = zlen l -> 0 < n ->
  arr_set (l ++ repeat 0 (Z.to_nat n)) i v = Some ((l ++ [v]) ++ repeat 0 (Z.to_nat (n - 1))).
Proof. intros -> Hn. rewrite repeat_cons, arr_set_mid, <-app_assoc by done. done. Qed.

Lemma ascii_loop_spec fuel i n ds :
  zlen ds = 36 -> 0 <= i -> 0 <= n <= 36 -> i * 2 <= n + 1 -> (Z.to_nat (n - i) <= fuel)%nat ->
  let w := Z.min (i * 2) n in
  ascii_loop fuel i n ds (map RILNumDTMFToChar (nibbles ds w) ++ repeat 0 (Z.to_nat (n + 1 - w))) =
  Some (map RILNumDTMFToChar (nibbles ds n) ++ [0]).
Proof.
  intros Hd. revert i. induction fuel as [|fuel IH]; intros i Hi Hn H2 Hf w; subst w; cbn [ascii_loop].
  { rewrite Z.min_r by lia. replace (n + 1 - n) with 1 by lia. done. }
  case_if.
  - assert (i * 2 + 1 <= n) by (pose proof (Z.div_mod (n + 1) 2); pose proof (Z.mod_pos_bound (n + 1) 2); lia).
    rewrite Z.min_l by lia. rewrite arr_get_in by lia. cbn [mbind option_bind].
    set (f := RILNumDTMFToChar) in *.
    assert (Hl : forall m, 0 <= m -> zlen (map f (nibbles ds m)) = m).
    { intros m Hm. unfold zlen. rewrite length_map. by apply zlen_nibbles. }
    assert (Hs : forall m, 0 <= m -> map f (nibbles ds m) ++ [f (nibble_at ds m)] = map f (nibbles ds (m + 1))).
    { intros m Hm. by rewrite nibbles_snoc, map_app. }
    rewrite arr_set_end, <-nibble_even, Hs by (rewrite ?Hl; lia). cbn [mbind option_bind].
    specialize (IH (i + 1) ltac:(lia) Hn). destruct (Z.ltb_spec (i * 2 + 1) n).
    + rewrite arr_set_end, <-nibble_odd, Hs by (rewrite ?Hl; lia). cbn [mbind option_bind].
      rewrite <-IH by lia. rewrite Z.min_l by lia.
      replace ((i + 1) * 2) with (i * 2 + 1 + 1) by lia. do 4 f_equal. lia.
    + cbn [mbind option_bind]. rewrite <-IH by lia. rewrite Z.min_r by lia.
      assert (n = i * 2 + 1) as -> by lia. do 4 f_equal. lia.
  - assert (n <= i * 2) by (pose proof (Z.div_mod (n + 1) 2); pose proof (Z.mod_pos_bound (n + 1) 2); lia).
    rewrite Z.min_r by lia. by replace (n + 1 - n) with 1 by lia.
Qed.

(** ** Reading the address parameter *)

(** What the receiver stores for a sent address [a] over the old address [b]: DTMF digits
    become characters. *)
Definition received_digits (a : RIL_CDMA_SMS_Address) : list Z :=
  if digit_mode a =? 0 then map RILNumDTMFToChar (nibbles (digits a) (number_of_digits a))
  else ztake (number_of_digits a) (digits a).

Definition received (a b : RIL_CDMA_SMS_Address) : RIL_CDMA_SMS_Address :=
  mkAddress 1 (number_mode a)
    (if digit_mode a =? 0 then number_type b else number_type a)
    (if (digit_mode a =? 0) || negb (number_mode a =? 0) then number_plan b else number_plan a)
    (number_of_digits a) (received_digits a ++ zdrop (number_of_digits a) (digits b)).

Lemma bits_take n l : bits (take n l) = take (8 * n) (bits l).
Proof.
  revert l. induction n as [|n IH]; intros l; [by rewrite Nat.mul_0_r, !take_0|].
  destruct l as [|b l]; [by rewrite !take_nil|].
  cbn [take]. rewrite bits_cons, IH, bits_cons. rewrite take_app_ge by (rewrite length_vbits; lia).
  rewrite length_vbits. do 2 f_equal. lia.
Qed.

(** Runs the next [getuint8] on an array whose bits are known from the start. *)
Ltac get dn s n v :=
  erewrite (get_field _ dn s (Z.of_nat n) n v);
  [cbn [mbind option_bind]|done|known_bits; rewrite <-?app_assoc; reflexivity|bitlen|reflexivity|lia|bitlen|cbn; lia].

Lemma extract_header_spec a b data rest :
  addr_ok a -> Forall is_byte data -> bits data = addr_header a ++ rest ->
  exists nt np, extract_header data b =
    Some (digit_mode a, number_mode a, nt, np, number_of_digits a, Z.of_nat (digit_size a),
          Z.of_nat (length (addr_header a))) /\
    nt = number_type (received a b) /\ np = number_plan (received a b).
Proof.
  intros [Hdm Hnm Ht Hp Hn _ _] Hby Hb. unfold RIL_CDMA_SMS_ADDRESS_MAX in Hn.
  unfold extract_header, received, addr_header, digit_size in *. cbn zeta. cbn [Z.add Pos.add].
  cbn [number_type number_plan].
  get (@nil bool) 0 1%nat (digit_mode a). get (vbits 1 (digit_mode a)) 1 1%nat (number_mode a).
  destruct Hdm as [Hdm|Hdm]; rewrite !Hdm in *; cbn [Z.eqb negb orb] in *.
  - cbn [mbind option_bind]. get (vbits 1 0 ++ vbits 1 (number_mode a)) 2 8%nat (number_of_digits a).
    do 2 eexists. split; [rewrite ?length_app, ?length_vbits; reflexivity|done].
  - destruct Hnm as [Hnm|Hnm]; rewrite !Hnm in *; cbn [Z.eqb Pos.eqb negb] in *.
    + get (vbits 1 1 ++ vbits 1 0) 2 3%nat (number_type a).
      get (vbits 1 1 ++ vbits 1 0 ++ vbits 3 (number_type a)) 5 4%nat (number_plan a).
      get (vbits 1 1 ++ vbits 1 0 ++ vbits 3 (number_type a) ++ vbits 4 (number_plan a)) 9 8%nat (number_of_digits a).
      do 2 eexists. split; [rewrite ?length_app, ?length_vbits; reflexivity|done].
    + get (vbits 1 1 ++ vbits 1 1) 2 3%nat (number_type a).
      get (vbits 1 1 ++ vbits 1 1 ++ vbits 3 (number_type a)) 5 8%nat (number_of_digits a).
      do 2 eexists. split; [rewrite ?length_app, ?length_vbits; reflexivity|done].
Qed.

Lemma memcpy_spec dst src n :
  0 <= n <= zlen src -> n <= zlen dst -> memcpy dst 0 src n = Some (ztake n src ++ zdrop n dst).
Proof.
  intros H1 H2. unfold memcpy. case_if.
  - f_equal. unfold memcpy_at. cbn [Z.add]. rewrite zlen_ztake by lia. done.
  - rewrite !andb_false_iff in E. destruct E as [[[E|E]|E]|E]; reflect_bools; lia.
Qed.

(** An address with room for the digits. *)
Definition buf_ok (b : RIL_CDMA_SMS_Address) : Prop :=
  zlen (digits b) = RIL_CDMA_SMS_ADDRESS_MAX /\ Forall is_byte (digits b).

(** The digits behind the copy: the copied ones, then the old ones. *)
Lemma copied_digits a b ds :
  addr_ok a -> buf_ok b -> Forall is_byte ds -> length ds = length (digits b) ->
  bits ds = digit_bits a ++ drop (Z.to_nat (number_of_digits a) * digit_size a) (bits (digits b)) ->
  if digit_mode a =? 0 then
    nibbles ds (number_of_digits a) = nibbles (digits a) (number_of_digits a) /\
    zdrop (number_of_digits a) ds = zdrop (number_of_digits a) (digits b)
  else ds = ztake (number_of_digits a) (digits a) ++ zdrop (number_of_digits a) (digits b).
Proof.
  intros Ha Hb Hds Hl Hbits. pose proof (length_digit_bits a Ha) as Hlen.
  destruct Ha as [_ _ _ _ Hn Hla Hba], Hb as [Hlb Hbb].
  unfold digit_bits, digit_size in *. set (n := number_of_digits a) in *.
  unfold zlen, RIL_CDMA_SMS_ADDRESS_MAX in *. case_if.
  - split.
    + unfold nibbles. apply map_ext_in. intros i Hi%list_elem_of_In%elem_of_seqZ.
      replace i with (Z.of_nat (Z.to_nat i)) by lia. rewrite !nibble_bits by (done || lia).
      rewrite Hbits, drop_app_le, take_app_le by (rewrite ?length_drop, Hlen; lia).
      rewrite <-(take_drop (Z.to_nat n * 4) (bits (digits a))) at 2.
      by rewrite drop_app_le, take_app_le by (rewrite ?length_drop, Hlen; lia).
    + apply bits_inj; [by apply Forall_drop..|]. unfold zdrop. rewrite !bits_drop, Hbits.
      rewrite drop_app_ge by lia. rewrite Hlen, drop_drop. f_equal. lia.
  - apply bits_inj; [done|apply Forall_app; split; [by apply Forall_take|by apply Forall_drop]|].
    unfold ztake, zdrop. rewrite bits_app, bits_take, bits_drop, Hbits. f_equal; f_equal; lia.
Qed.

Lemma ExtractAddress_spec a b tl :
  addr_ok a -> buf_ok b -> Forall is_byte tl ->
  RILCdmaSmsExtractAddress (pack_all (addr_bits a) ++ tl) b =
  Some (Z.of_nat (octets (addr_bits a)), received a b).
Proof.
  intros Ha Hb Htl. set (data := pack_all (addr_bits a) ++ tl).
  assert (Hby : Forall is_byte data) by (apply Forall_app; split; [apply pack_bytes|done]).
  assert (Hbits : exists rest, bits data = addr_header a ++ digit_bits a ++ rest).
  { eexists. unfold data, pack_all. rewrite bits_app, bits_pack by apply length_pad.
    unfold pad. rewrite <-app_assoc. unfold addr_bits at 1. by rewrite <-app_assoc. }
  destruct Hbits as [rest Hbits].
  destruct (extract_header_spec a b data (digit_bits a ++ rest)) as (nt & np & E & -> & ->); [done..|].
  unfold RILCdmaSmsExtractAddress. rewrite E. cbn [mbind option_bind].
  pose proof (length_digit_bits a Ha) as Hd. pose proof (length_addr_bits a Ha) as Hl.
  pose proof (length_addr_header a) as Hh. pose proof (octets_spec (addr_bits a)) as Hoc.
  assert (Hab : length (addr_bits a) = (length (addr_header a) + length (digit_bits a))%nat) by apply length_app.
  assert (Hn : 0 <= number_of_digits a <= 36) by apply Ha. assert (Hlb := proj1 Hb).
  unfold zlen, RIL_CDMA_SMS_ADDRESS_MAX in Hlb.
  destruct (copy_fields_spec (Z.to_nat (number_of_digits a)) (digit_size a) data (addr_header a)
    (digit_bits a ++ rest) (digits b) [] (bits (digits b))) as (ds & E2 & L2 & B2 & F2);
    rewrite ?length_app, ?length_bits; try done; try lia; try apply digit_size_48.
  { destruct (digit_size_48 a) as [-> | ->]; lia. }
  { rewrite <-Hd. cbn. lia. }
  change (Z.of_nat (length [])) with 0 in E2. rewrite E2. cbn [mbind option_bind].
  cbn [app] in B2. rewrite take_app_le, take_ge in B2 by lia.
  pose proof (copied_digits a b ds Ha Hb (F2 (proj2 Hb)) L2 B2) as Hc.
  replace (u16 (Z.of_nat (length (addr_header a)) + number_of_digits a * Z.of_nat (digit_size a)))
    with (Z.of_nat (length (addr_bits a))) by (unfold u16; rewrite Z.mod_small; lia).
  rewrite NUM_BYTES_octets, u8_id by (unfold is_byte; lia).
  unfold received, received_digits. destruct (digit_mode a =? 0) eqn:Edm; reflect_bools.
  - destruct Hc as [Hc1 Hc2]. set (n := number_of_digits a) in *.
    pose proof (ascii_loop_spec (Z.to_nat n) 0 n ds) as Hasc. cbv zeta in Hasc.
    rewrite Z.min_l in Hasc by lia. change (nibbles ds (0 * 2)) with (@nil Z) in Hasc.
    replace (n + 1 - 0 * 2) with (n + 1) in Hasc by lia. cbn [map app] in Hasc.
    rewrite Hasc by (unfold zlen; lia). cbn [mbind option_bind].
    rewrite memcpy_spec by (try (unfold zlen; lia); rewrite zlen_app; unfold zlen; rewrite length_map;
      fold (zlen (nibbles ds n)); rewrite zlen_nibbles; cbn; lia).
    cbn [mbind option_bind]. rewrite Hc2, Hc1. do 3 f_equal.
    rewrite ztake_app_eq; [done|]. unfold zlen. rewrite length_map. apply zlen_nibbles. lia.
  - cbn [mbind option_bind]. rewrite Hc. destruct (ok_digit_mode a Ha) as [H1|H1]; [lia|].
    rewrite H1. reflexivity.
Qed.

(** ** Subaddresses *)

Definition sub_bits (s : RIL_CDMA_SMS_Subaddress) : list bool :=
  vbits 3 (subaddressType s) ++ vbits 1 (odd s) ++ vbits 8 (sub_number_of_digits s) ++
  bits (ztake (sub_number_of_digits s) (sub_digits s)).

Record sub_ok (s : RIL_CDMA_SMS_Subaddress) : Prop := {
  sok_type : 0 <= subaddressType s < 8;
  sok_odd : 0 <= odd s < 2;
  sok_count : 0 <= sub_number_of_digits s <= RIL_CDMA_SMS_SUBADDRESS_MAX;
  sok_length : zlen (sub_digits s) = RIL_CDMA_SMS_SUBADDRESS_MAX;
  sok_bytes : Forall is_byte (sub_digits s)
}.

Definition received_sub (s b : RIL_CDMA_SMS_Subaddress) : RIL_CDMA_SMS_Subaddress :=
  mkSubaddress (subaddressType s) (odd s) (sub_number_of_digits s)
    (ztake (sub_number_of_digits s) (sub_digits s) ++
     zdrop (sub_number_of_digits s) (sub_digits b)).

Lemma sub_digits_loop_spec data hd body rest pre old :
  Forall is_byte data -> Forall is_byte body -> bits data = hd ++ bits body ++ rest ->
  (length hd + 8 * length body < 2048)%nat -> length body = length old ->
  forall post, sub_digits_loop (length body) (zlen pre) (Z.of_nat (length hd)) data (pre ++ old ++ post) =
  Some (Z.of_nat (length hd + 8 * length body), pre ++ body ++ post).
Proof.
  intros Hd. revert hd pre old. induction body as [|b body IH]; intros hd pre old Hb Hbits Hlen Hold post.
  { destruct old; [|done]. cbn [sub_digits_loop length]. do 3 f_equal. lia. }
  destruct old as [|o old]; [done|]. apply Forall_cons in Hb as [Hb1 Hb2].
  cbn [sub_digits_loop length] in *. rewrite bits_cons, <-app_assoc in Hbits.
  rewrite (get_field data hd _ 8 8 b (bits body ++ rest)) by (done || lia || (unfold is_byte in *; cbn; lia)).
  cbn [mbind option_bind app]. rewrite arr_set_mid by done. cbn [mbind option_bind].
  specialize (IH (hd ++ vbits 8 b) (pre ++ [b]) old Hb2). rewrite length_app, length_vbits, zlen_app in IH.
  replace (u16 (Z.of_nat (length hd) + 8)) with (Z.of_nat (length hd + 8))
    by (unfold u16; rewrite Z.mod_small; lia).
  change (zlen [b]) with 1 in IH. change (b :: old ++ post) with ([b] ++ old ++ post).
  rewrite (app_assoc pre), IH; [|by rewrite <-!app_assoc|lia..].
  rewrite <-app_assoc. do 3 f_equal. lia.
Qed.

Lemma ExtractSubaddress_spec s b tl :
  sub_ok s -> sub_ok b -> Forall is_byte tl ->
  RILCdmaSmsExtractSubaddress (pack_all (sub_bits s) ++ tl) b =
  Some (Z.of_nat (octets (sub_bits s)), received_sub s b).
Proof.
  intros [Ht Ho Hn Hl Hb] [_ _ _ Hlb Hbb] Htl. unfold RIL_CDMA_SMS_SUBADDRESS_MAX in *.
  set (data := pack_all (sub_bits s) ++ tl). set (n := sub_number_of_digits s) in *.
  assert (Hby : Forall is_byte data) by (apply Forall_app; split; [apply pack_bytes|done]).
  assert (Hlt : length (ztake n (sub_digits s)) = Z.to_nat n)
    by (apply Nat2Z.inj; fold (zlen (ztake n (sub_digits s))); rewrite zlen_ztake; lia).
  assert (Hbits : exists rest, bits data = vbits 3 (subaddressType s) ++ vbits 1 (odd s) ++ vbits 8 n ++
      bits (ztake n (sub_digits s)) ++ rest).
  { eexists. unfold data, pack_all. rewrite bits_app, bits_pack by apply length_pad.
    unfold pad. rewrite <-app_assoc. unfold sub_bits at 1. by rewrite <-!app_assoc. }
  destruct Hbits as [rest Hbits]. unfold RILCdmaSmsExtractSubaddress.
  get (@nil bool) 0 3%nat (subaddressType s). get (vbits 3 (subaddressType s)) 3 1%nat (odd s).
  get (vbits 3 (subaddressType s) ++ vbits 1 (odd s)) 4 8%nat n.
  pose proof (sub_digits_loop_spec data (vbits 3 (subaddressType s) ++ vbits 1 (odd s) ++ vbits 8 n)
    (ztake n (sub_digits s)) rest [] (ztake n (sub_digits b))) as Hloop.
  rewrite !length_app, !length_vbits, Hlt in Hloop.
  change (zlen []) with 0 in Hloop. cbn [app Nat.add] in Hloop. change (Z.of_nat 12) with 12 in Hloop.
  specialize (Hloop Hby ltac:(by apply Forall_ztake) ltac:(by rewrite Hbits, <-!app_assoc) ltac:(lia)
    ltac:(apply Nat2Z.inj; fold (zlen (ztake n (sub_digits b))); rewrite zlen_ztake; lia)
    (zdrop n (sub_digits b))).
  rewrite ztake_zdrop in Hloop. rewrite Hloop. cbn [mbind option_bind].
  assert (Hsb : length (sub_bits s) = (12 + 8 * Z.to_nat n)%nat)
    by (unfold sub_bits; fold n; rewrite !length_app, !length_vbits, length_bits, Hlt; done).
  pose proof (octets_spec (sub_bits s)). cbn [Nat.add] in Hsb. rewrite <-Hsb, NUM_BYTES_octets, u8_id
    by (unfold is_byte; lia). done.
Qed.

(** ** PDUs as lists of parameters *)

Inductive param :=
| PTele (id : Z)
| PAddr (dest : bool) (a : RIL_CDMA_SMS_Address)
| PSub (dest : bool) (s : RIL_CDMA_SMS_Subaddress)
| PCause (d : list Z)
| PBearer (d : list Z)
| PIgnored (id : Z) (d : list Z).

Definition param_id (p : param) : Z :=
  match p with
  | PTele _ => RIL_CDMA_SMS_TELESERVICE_ID
  | PAddr dest _ => if dest then RIL_CDMA_SMS_DEST_ADDR else RIL_CDMA_SMS_ORIG_ADDR
  | PSub dest _ => if dest then RIL_CDMA_SMS_DEST_SUBADDR else RIL_CDMA_SMS_ORIG_SUBADDR
  | PCause _ => RIL_CDMA_SMS_CAUSE_CODE
  | PBearer _ => RIL_CDMA_SMS_BEARER_DATA
  | PIgnored id _ => id
  end.

Definition param_body (p : param) : list Z :=
  match p with
  | PTele id => [id / 256; id mod 256]
  | PAddr _ a => pack_all (addr_bits a)
  | PSub _ s => pack_all (sub_bits s)
  | PCause d | PBearer d | PIgnored _ d => d
  end.

Definition encode_param (p : param) : list Z :=
  param_id p :: zlen (param_body p) :: param_body p.

Definition param_ok (p : param) : Prop :=
  match p with
  | PTele id => 0 <= id < 65536
  | PAddr _ a => addr_ok a
  | PSub _ s => sub_ok s
  | PCause d | PBearer d => Forall is_byte d /\ zlen d <= 255
  | PIgnored id d =>
      Forall is_byte d /\ zlen d <= 255 /\ is_byte id /\ (id ∉ [0; 2; 3; 4; 5; 7; 8])
  end.

(** The meaning of a parameter.  A cause code is taken for bearer data, as the code falls
    through to the next case. *)
Definition apply_param (m : RIL_CDMA_SMS_Message) (p : param) : RIL_CDMA_SMS_Message :=
  match p with
  | PTele id => set_teleservice id m
  | PAddr _ a => set_address (received a (sAddress m)) m
  | PSub _ s => set_subaddress (received_sub s (sSubAddress m)) m
  | PCause d | PBearer d => set_bearer (zlen d) (d ++ zdrop (zlen d) (aBearerData m)) m
  | PIgnored _ _ => m
  end.

(** A message whose arrays have their sizes. *)
Definition msg_ok (m : RIL_CDMA_SMS_Message) : Prop :=
  buf_ok (sAddress m) /\ sub_ok (sSubAddress m) /\
  zlen (aBearerData m) = RIL_CDMA_SMS_BEARER_DATA_MAX.

Lemma DTMFToChar_byte x : 0 <= x < 16 -> is_byte (RILNumDTMFToChar x).
Proof. intros. unfold RILNumDTMFToChar, is_byte. repeat case_if; lia. Qed.

Lemma nibble_range ds i : Forall is_byte ds -> 0 <= nibble_at ds i < 16.
Proof.
  intros H. pose proof (byte_at_Forall ds (i / 2) H) as Hb. unfold nibble_at, is_byte in *. case_if.
  - rewrite Z.shiftr_div_pow2 by lia. change (2 ^ 4) with 16. split.
    + apply Z.div_pos; lia.
    + apply Z.div_lt_upper_bound; lia.
  - change 15 with (Z.ones 4). rewrite Z.land_ones by lia. apply Z.mod_pos_bound. lia.
Qed.

Lemma received_digits_ok a :
  addr_ok a -> zlen (received_digits a) = number_of_digits a /\ Forall is_byte (received_digits a).
Proof.
  intros []. unfold received_digits. unfold RIL_CDMA_SMS_ADDRESS_MAX in *. case_if.
  - split; [unfold zlen; rewrite length_map; apply zlen_nibbles; lia|].
    apply Forall_map, Forall_map, Forall_forall. intros i _. cbn. by apply DTMFToChar_byte, nibble_range.
  - split; [apply zlen_ztake; lia|by apply Forall_ztake].
Qed.

Lemma received_ok a b : addr_ok a -> buf_ok b -> buf_ok (received a b).
Proof.
  intros Ha [Hl Hb]. destruct (received_digits_ok a Ha) as [H1 H2]. destruct Ha.
  unfold buf_ok, received. cbn [digits]. unfold RIL_CDMA_SMS_ADDRESS_MAX in *. split.
  - rewrite zlen_app, zlen_zdrop by lia. lia.
  - apply Forall_app. split; [done|by apply Forall_zdrop].
Qed.

Lemma received_sub_ok s b : sub_ok s -> sub_ok b -> sub_ok (received_sub s b).
Proof.
  intros [] [_ _ _ Hl Hb]. unfold RIL_CDMA_SMS_SUBADDRESS_MAX in *. unfold received_sub.
  split; cbn [subaddressType odd sub_number_of_digits sub_digits]; try done.
  - rewrite zlen_app, zlen_ztake, zlen_zdrop by lia. done || (unfold RIL_CDMA_SMS_SUBADDRESS_MAX; lia).
  - apply Forall_app. split; [by apply Forall_ztake|by apply Forall_zdrop].
Qed.

Lemma apply_param_ok p m : param_ok p -> msg_ok m -> msg_ok (apply_param m p).
Proof.
  intros Hp (Ha & Hs & Hb). unfold RIL_CDMA_SMS_BEARER_DATA_MAX in *.
  destruct p as [id|dest a|dest s|d|d|id d]; cbn [apply_param param_ok] in *; try done.
  - split; [by apply received_ok|done].
  - split; [done|]. split; [by apply received_sub_ok|done].
  - do 2 (split; [done|]). cbn [aBearerData set_bearer].
    rewrite zlen_app, zlen_zdrop by (pose proof (zlen_nonneg d); lia). unfold RIL_CDMA_SMS_BEARER_DATA_MAX. lia.
  - do 2 (split; [done|]). cbn [aBearerData set_bearer].
    rewrite zlen_app, zlen_zdrop by (pose proof (zlen_nonneg d); lia). unfold RIL_CDMA_SMS_BEARER_DATA_MAX. lia.
Qed.

Lemma zlen_pack_all l : zlen (pack_all l) = Z.of_nat (octets l).
Proof. unfold zlen, pack_all. by rewrite length_pack. Qed.

(** The bytes of a parameter are bytes, and the length fits into one. *)
Lemma encode_param_ok p : param_ok p -> Forall is_byte (encode_param p) /\ zlen (param_body p) <= 255.
Proof.
  intros Hp. assert (Hb : Forall is_byte (param_body p) /\ zlen (param_body p) <= 255 /\ is_byte (param_id p)).
  { destruct p as [id|dest a|dest s|d|d|id d]; cbn [param_body param_id param_ok] in *.
    - split_and!; [|unfold zlen; cbn; lia|decide_closed].
      repeat constructor; unfold is_byte.
      + apply Z.div_pos; lia.
      + apply Z.div_lt_upper_bound; lia.
      + apply Z.mod_pos_bound. lia.
      + apply Z.mod_pos_bound. lia.
    - pose proof (length_addr_bits a Hp). pose proof (octets_spec (addr_bits a)).
      split_and!; [apply pack_bytes|rewrite zlen_pack_all; lia|destruct dest; decide_closed].
    - assert (length (sub_bits s) <= 300)%nat.
      { destruct Hp. unfold RIL_CDMA_SMS_SUBADDRESS_MAX in *. unfold sub_bits.
        rewrite !length_app, !length_vbits, length_bits. unfold ztake. rewrite length_take. lia. }
      pose proof (octets_spec (sub_bits s)).
      split_and!; [apply pack_bytes|rewrite zlen_pack_all; lia|destruct dest; decide_closed].
    - split_and!; [apply Hp|apply Hp|decide_closed].
    - split_and!; [apply Hp|apply Hp|decide_closed].
    - destruct Hp as (? & ? & ? & ?). auto. }
  destruct Hb as (H1 & H2 & H3). split; [|done]. unfold encode_param. rewrite !Forall_cons.
  split_and!; [done|unfold is_byte; pose proof (zlen_nonneg (param_body p)); lia|done].
Qed.

Lemma zdrop_app_eq {A} n (l k : list A) : zlen l = n -> zdrop n (l ++ k) = k.
Proof. intros <-. apply zdrop_app_length. Qed.

Lemma process_param_spec p m pre tl :
  param_ok p -> msg_ok m -> Forall is_byte tl ->
  process_param (pre ++ param_body p ++ tl) (param_id p) (zlen (param_body p)) (zlen pre) m =
  Some (apply_param m p).
Proof.
  intros Hp (Ha & Hs & Hb) Htl. unfold process_param. unfold RIL_CDMA_SMS_BEARER_DATA_MAX in *.
  destruct p as [id|dest a|dest s|d|d|id d]; cbn [param_id param_body apply_param param_ok] in *.
  - change (zlen [id / 256; id mod 256]) with 2. cbn [Z.eqb negb Pos.eqb app].
    change (RIL_CDMA_SMS_TELESERVICE_ID =? RIL_CDMA_SMS_TELESERVICE_ID) with true. cbn match.
    rewrite (arr_get_mid pre _ _ (zlen pre) eq_refl). cbn [mbind option_bind].
    rewrite (cons_middle _ pre), app_assoc, arr_get_mid by (by rewrite zlen_app). cbn [mbind option_bind].
    do 2 f_equal. pose proof (Z.mod_pos_bound id 256). rewrite lor_shift by (cbn; lia).
    pose proof (Z.div_mod id 256 ltac:(lia)). change (2 ^ 8) with 256. lia.
  - rewrite zdrop_app_length. destruct dest; cbn [Z.eqb Pos.eqb orb];
      rewrite ExtractAddress_spec by done; done.
  - rewrite zdrop_app_length. destruct dest; cbn [Z.eqb Pos.eqb orb];
      rewrite ExtractSubaddress_spec by done; done.
  - rewrite zdrop_app_length. cbn [Z.eqb Pos.eqb orb]. pose proof (zlen_nonneg d). pose proof (zlen_nonneg tl).
    rewrite memcpy_spec by (rewrite ?zlen_app; lia). cbn. by rewrite ztake_app_length.
  - rewrite zdrop_app_length. cbn [Z.eqb Pos.eqb orb]. pose proof (zlen_nonneg d). pose proof (zlen_nonneg tl).
    rewrite memcpy_spec by (rewrite ?zlen_app; lia). cbn. by rewrite ztake_app_length.
  - destruct Hp as (_ & _ & _ & Hid). rewrite !not_elem_of_cons in Hid.
    repeat (case_if; [try done|]); try done; exfalso;
      rewrite ?orb_true_iff, ?Z.eqb_eq in *;
      unfold RIL_CDMA_SMS_TELESERVICE_ID, RIL_CDMA_SMS_DEST_ADDR, RIL_CDMA_SMS_ORIG_ADDR,
        RIL_CDMA_SMS_ORIG_SUBADDR, RIL_CDMA_SMS_DEST_SUBADDR, RIL_CDMA_SMS_CAUSE_CODE,
        RIL_CDMA_SMS_BEARER_DATA in *; lia.
Qed.

Lemma process_loop_spec ps m pre fuel :
  Forall param_ok ps -> msg_ok m -> Forall is_byte pre -> (length ps <= fuel)%nat ->
  let data := pre ++ (ps ≫= encode_param) in
  zlen data < 65280 ->
  process_loop fuel data (zlen data) (zlen pre) m = Decoded (fold_left apply_param ps m).
Proof.
  revert m pre fuel. induction ps as [|p ps IH]; intros m pre fuel Hps Hm Hpre Hf data Hl.
  { destruct fuel; cbn [process_loop fold_left]; subst data; cbn [mbind list_bind];
      rewrite app_nil_r, Z.ltb_irrefl; done. }
  apply Forall_cons in Hps as [Hp Hps]. destruct fuel as [|fuel]; cbn [length] in Hf; [lia|].
  pose proof (encode_param_ok p Hp) as [Hb Hlb]. set (tl := ps ≫= encode_param).
  assert (Htl : Forall is_byte tl).
  { apply Forall_bind. eapply Forall_impl; [done|]. intros q Hq. by apply encode_param_ok. }
  assert (Hdata : data = pre ++ param_id p :: zlen (param_body p) :: param_body p ++ tl) by done.
  assert (Hz : zlen data = zlen pre + 2 + zlen (param_body p) + zlen tl)
    by (rewrite Hdata, zlen_app, !zlen_cons, zlen_app; lia).
  pose proof (zlen_nonneg pre). pose proof (zlen_nonneg (param_body p)). pose proof (zlen_nonneg tl).
  cbn [process_loop fold_left]. case_if; [|lia].
  assert (Hu : forall x, 0 <= x < 65536 -> u16 x = x) by (intros; apply Z.mod_small; lia).
  set (pre2 := (pre ++ [param_id p]) ++ [zlen (param_body p)]).
  assert (Hd2 : data = pre2 ++ param_body p ++ tl) by (unfold pre2; rewrite Hdata, <-!app_assoc; done).
  assert (Hz2 : zlen pre2 = zlen pre + 2) by (unfold pre2; rewrite !zlen_app; unfold zlen; cbn; lia).
  assert (G1 : arr_get data (zlen pre) = Some (param_id p)) by (rewrite Hdata; by apply arr_get_mid).
  assert (G2 : arr_get data (zlen pre + 1) = Some (zlen (param_body p))).
  { rewrite Hdata, (cons_middle _ pre), app_assoc. apply arr_get_mid. by rewrite zlen_app. }
  assert (G3 : process_param data (param_id p) (zlen (param_body p)) (zlen pre + 2) m = Some (apply_param m p)).
  { rewrite Hd2, <-Hz2. by apply process_param_spec. }
  rewrite !Hu, G1, G2, G3, Hu by lia.
  specialize (IH (apply_param m p) (pre2 ++ param_body p) fuel Hps (apply_param_ok p m Hp Hm)).
  fold tl in IH. rewrite <-app_assoc, <-Hd2, zlen_app, Hz2 in IH. apply IH; [|lia|lia].
  unfold encode_param in Hb. rewrite !Forall_cons in Hb. unfold pre2.
  destruct Hb as (? & ? & ?). rewrite !Forall_app. split_and!; try done; by constructor.
Qed.

(** ** Hexadecimal text *)

Definition hex_byte (b : Z) : list Z := [ConvertChar (Z.shiftr (Z.land 240 b) 4); ConvertChar (Z.land 15 b)].

Definition hexs (l : list Z) : list Z := l ≫= hex_byte.

Lemma zlen_hexs l : zlen (hexs l) = 2 * zlen l.
Proof. induction l as [|b l IH]; [done|]. change (hexs (b :: l)) with (hex_byte b ++ hexs l).
  rewrite zlen_app, zlen_cons, IH. change (zlen (hex_byte b)) with 2. lia. Qed.

Lemma hexs_snoc l b : hexs (l ++ [b]) = (hexs l ++ [ConvertChar (Z.shiftr (Z.land 240 b) 4)]) ++ [ConvertChar (Z.land 15 b)].
Proof. unfold hexs. rewrite bind_app, <-app_assoc. done. Qed.

Lemma hex_byte_chars b : is_byte b -> Forall (fun c => c <> 0) (hex_byte b).
Proof.
  intros Hb. assert (H : forallb (fun c => negb (c =? 0)) (hex_byte b) = true) by byte_cases b.
  apply Forall_forall. intros c Hc. rewrite forallb_forall in H.
  specialize (H c (proj1 (list_elem_of_In _ _) Hc)). by reflect_bools.
Qed.

Lemma hexs_no_nul l : Forall is_byte l -> no_nul (hexs l).
Proof. intros H. apply Forall_bind. eapply Forall_impl; [done|]. apply hex_byte_chars. Qed.

Lemma ascii_convert_spec pre l post n :
  Forall is_byte l -> 2 * zlen l <= n ->
  convert_ascii_loop (length l) (zlen pre) (pre ++ l ++ post) (hexs pre ++ repeat 0 (Z.to_nat n)) =
  Some (hexs (pre ++ l) ++ repeat 0 (Z.to_nat (n - 2 * zlen l))).
Proof.
  revert pre n. induction l as [|b l IH]; intros pre n Hl Hn.
  { cbn [convert_ascii_loop length]. rewrite app_nil_r. do 3 f_equal. change (zlen []) with 0. f_equal. lia. }
  apply Forall_cons in Hl as [Hb Hl]. rewrite zlen_cons in *. pose proof (zlen_nonneg l).
  cbn [convert_ascii_loop length app]. rewrite arr_get_mid by done. cbn [mbind option_bind].
  rewrite arr_set_end by (rewrite ?zlen_hexs; lia). cbn [mbind option_bind].
  rewrite arr_set_end by (rewrite ?zlen_app, ?zlen_hexs; change (zlen [_]) with 1; lia).
  cbn [mbind option_bind]. rewrite <-hexs_snoc. specialize (IH (pre ++ [b]) (n - 1 - 1) Hl ltac:(lia)).
  rewrite zlen_app, <-!app_assoc in IH. change (zlen [b]) with 1 in IH. cbn [app] in IH. rewrite IH.
  do 4 f_equal. lia.
Qed.

Lemma ConvertNum_hex b :
  is_byte b -> u8 (Z.lor (Z.shiftl (ConvertNum (ConvertChar (Z.shiftr (Z.land 240 b) 4))) 4)
                        (ConvertNum (ConvertChar (Z.land 15 b)))) = b.
Proof. intros Hb. byte_cases b. Qed.

Lemma convert_byte_spec pre l s n :
  Forall is_byte l -> s = hexs (pre ++ l) -> n = zlen l ->
  convert_byte_loop (length l) (zlen pre) s (pre ++ repeat 0 (Z.to_nat n)) = Some (pre ++ l).
Proof.
  revert pre n. induction l as [|b l IH]; intros pre n Hl Hs Hn; subst n.
  { done. }
  apply Forall_cons in Hl as [Hb Hl]. rewrite zlen_cons. pose proof (zlen_nonneg l).
  cbn [convert_byte_loop length]. unfold str_get.
  assert (Hs2 : s ++ [0] = hexs pre ++ ConvertChar (Z.shiftr (Z.land 240 b) 4) :: ConvertChar (Z.land 15 b) :: hexs l ++ [0]).
  { subst s. unfold hexs. rewrite bind_app, <-app_assoc. done. }
  rewrite Hs2, (arr_get_mid (hexs pre) _ _ (2 * zlen pre)) by (rewrite zlen_hexs; lia). cbn [mbind option_bind].
  rewrite arr_set_end by lia. cbn [mbind option_bind].
  rewrite (cons_middle _ (hexs pre)), app_assoc, arr_get_mid by (rewrite zlen_app, zlen_hexs; change (zlen [_]) with 1; lia).
  cbn [mbind option_bind]. rewrite <-app_assoc. cbn [app]. rewrite arr_set_mid by done.
  cbn [mbind option_bind]. rewrite ConvertNum_hex by done.
  specialize (IH (pre ++ [b]) (zlen l) Hl). rewrite zlen_app, <-!app_assoc in IH.
  change (zlen [b]) with 1 in IH. cbn [app] in IH. replace (1 + zlen l - 1) with (zlen l) by lia.
  apply IH; [done|done].
Qed.

Lemma ConvertByte_hexs l : Forall is_byte l -> ConvertByte (hexs l) (repeat 0 (length l)) (zlen l) = Some l.
Proof.
  intros Hl. unfold ConvertByte. rewrite zlen_hexs, Z.mul_comm, Z.div_mul, Z.eqb_refl by lia. cbn [negb].
  pose proof (convert_byte_spec [] l (hexs l) (zlen l) Hl eq_refl eq_refl) as H.
  unfold zlen in *. rewrite Nat2Z.id in *. exact H.
Qed.

(** ** The encoder *)

Lemma MakeTeleSrvId_spec data id :
  Forall is_byte data -> (4 <= length data)%nat ->
  MakeTeleSrvId data id = Some (4, encode_param (PTele (u16 id)) ++ drop 4 data).
Proof.
  intros Hby Hl. unfold MakeTeleSrvId. assert (Hlb := length_bits data).
  assert (Hb : bits data = [] ++ bits data) by done. put 8%nat. cbn [app] in B. put 8%nat.
  destruct (putuint16_next d0 (vbits 8 0 ++ vbits 8 2) (u16 id) (drop 8 (drop 8 (bits data))))
    as (d2 & E2 & L2 & B2 & F2); [done|rewrite !length_drop; lia|rewrite length_app, !length_vbits; lia|].
  rewrite length_app, !length_vbits in E2. change (Z.of_nat (8 + 8)) with 16 in E2. rewrite E2.
  cbn [mbind option_bind]. do 2 f_equal.
  assert (Hid : 0 <= u16 id < 65536) by (apply Z.mod_pos_bound; lia).
  apply bits_inj; [by auto|apply Forall_app; split; [by apply (encode_param_ok (PTele (u16 id)))|by apply Forall_drop]|].
  rewrite B2, bits_app, bits_drop, !drop_drop. f_equal. rewrite <-!app_assoc.
  unfold encode_param. cbn [param_body]. rewrite !bits_cons. change (bits []) with (@nil bool).
  rewrite (vbits_app 8 8), app_nil_r, Z.shiftr_div_pow2 by lia.
  change (zlen [u16 id / 256; u16 id mod 256]) with 2. change (2 ^ Z.of_nat 8) with 256. do 3 f_equal.
  apply vbits_ext. by rewrite Z.mod_mod by lia.
Qed.

Lemma at_offset_app {A} l r n (f : list Z -> option (A * list Z)) :
  n = zlen l -> at_offset (l ++ r) n f = '(a, t) ← f r; Some (a, l ++ t).
Proof.
  intros ->. unfold at_offset. pose proof (zlen_nonneg l). pose proof (zlen_nonneg r).
  case_if; [by rewrite zdrop_app_length, ztake_app_length|].
  apply andb_false_iff in E as [E|E]; reflect_bools; rewrite ?zlen_app in *; lia.
Qed.

Lemma drop_repeat {A} (x : A) n k : drop n (repeat x k) = repeat x (k - n).
Proof. revert k. induction n as [|n IH]; intros [|k]; cbn; auto. Qed.

Lemma zeros_bytes n : Forall is_byte (repeat 0 n).
Proof. induction n; cbn; constructor; [decide_closed|done]. Qed.

(** Two digits per byte; the digit behind the last one fills up the last byte. *)
Definition packed_byte (ds : list Z) (k : Z) : Z :=
  u8 (Z.lor (Z.shiftl (byte_at ds (2 * k)) 4) (byte_at ds (2 * k + 1))).

Definition packed (ds : list Z) (k : Z) : list Z := map (packed_byte ds) (seqZ 0 k).

Lemma zlen_packed ds k : 0 <= k -> zlen (packed ds k) = k.
Proof. intros. unfold zlen, packed. rewrite length_map, length_seqZ. lia. Qed.

Lemma packed_snoc ds k : 0 <= k -> packed ds (k + 1) = packed ds k ++ [packed_byte ds k].
Proof. intros. unfold packed. by rewrite seqZ_snoc, map_app. Qed.

Lemma packed_bytes ds k : Forall is_byte (packed ds k).
Proof. apply Forall_map, Forall_forall. intros. apply u8_byte. Qed.

Lemma pack_digits_spec fuel k n ds :
  zlen ds = 36 -> 0 <= n <= 36 -> 0 <= k <= (n + 1) / 2 -> (Z.to_nat (n - k) <= fuel)%nat ->
  pack_digits fuel (2 * k) n ds (packed ds k ++ repeat 0 (Z.to_nat ((n + 1) / 2 - k))) =
  Some (packed ds ((n + 1) / 2)).
Proof.
  intros Hd Hn. pose proof (Z.div_mod (n + 1) 2 ltac:(lia)). pose proof (Z.mod_pos_bound (n + 1) 2).
  revert k. induction fuel as [|fuel IH]; intros k Hk Hf; cbn [pack_digits].
  { assert (k = (n + 1) / 2) as -> by lia. by rewrite Z.sub_diag, app_nil_r. }
  case_if.
  - rewrite (arr_get_in ds (2 * k)) by lia. cbn [mbind option_bind].
    rewrite (Z.mul_comm 2), Z.div_mul by lia. rewrite arr_set_end by (rewrite ?zlen_packed; lia).
    cbn [mbind option_bind]. rewrite arr_get_in by lia. cbn [mbind option_bind].
    rewrite <-app_assoc. cbn [app]. rewrite arr_set_mid by (rewrite zlen_packed; lia).
    cbn [mbind option_bind]. rewrite (cons_middle _ (packed ds k)), app_assoc.
    rewrite (Z.mul_comm k 2). fold (packed_byte ds k). rewrite <-packed_snoc by lia.
    replace (2 * k + 2) with (2 * (k + 1)) by lia. rewrite <-Z.sub_add_distr. apply IH; lia.
  - assert (k = (n + 1) / 2) as -> by lia. by rewrite Z.sub_diag, app_nil_r.
Qed.

Lemma byte_at_map_seqZ f n k tl : 0 <= k < n -> byte_at (map f (seqZ 0 n) ++ tl) k = f k.
Proof.
  intros H. unfold byte_at. rewrite nth_lookup, lookup_app_l by (rewrite length_map, length_seqZ; lia).
  rewrite list_lookup_fmap, lookup_seqZ_lt by lia. cbn. f_equal. lia.
Qed.

Lemma two_nibbles d e :
  0 <= d < 16 -> 0 <= e < 16 ->
  Z.shiftr (u8 (Z.lor (Z.shiftl d 4) e)) 4 = d /\ Z.land (u8 (Z.lor (Z.shiftl d 4) e)) 15 = e.
Proof.
  intros Hd He. rewrite lor_shift by (cbn; lia). change (2 ^ 4) with 16.
  rewrite u8_id by (unfold is_byte; lia). change 15 with (Z.ones 4).
  rewrite Z.shiftr_div_pow2, Z.land_ones by lia. change (2 ^ 4) with 16.
  rewrite (Z.add_comm (d * 16)), Z.div_add, Z.mod_add, Z.div_small, Z.mod_small by lia. lia.
Qed.

Lemma nibbles_packed ds n tl :
  0 <= n <= 36 -> zlen ds = 36 -> Forall (fun d => 0 <= d < 16) (ztake (n + 1) ds) ->
  nibbles (packed ds ((n + 1) / 2) ++ tl) n = ztake n ds.
Proof.
  intros Hn Hl Hd. assert (Hb : forall j, 0 <= j <= n -> j < 36 -> 0 <= byte_at ds j < 16).
  { intros j Hj Hj2. rewrite Forall_lookup in Hd. apply (Hd (Z.to_nat j)).
    unfold ztake. rewrite lookup_take_lt by lia. apply byte_at_lookup. lia. }
  apply list_eq. intros i. unfold nibbles, ztake. destruct (decide (i < Z.to_nat n)%nat) as [Hi|Hi].
  2:{ rewrite !lookup_ge_None_2; [done|rewrite length_take; lia|rewrite length_map, length_seqZ; lia]. }
  rewrite lookup_take_lt, list_lookup_fmap, lookup_seqZ_lt by lia. cbn [fmap option_fmap option_map].
  replace (0 + Z.of_nat i) with (Z.of_nat i) by lia.
  rewrite <-(Nat2Z.id i) at 2. rewrite byte_at_lookup by lia. f_equal.
  set (j := Z.of_nat i) in *. pose proof (Z.div_mod j 2 ltac:(lia)). pose proof (Z.mod_pos_bound j 2).
  pose proof (Z.div_mod (n + 1) 2 ltac:(lia)). pose proof (Z.mod_pos_bound (n + 1) 2).
  unfold nibble_at, packed. rewrite byte_at_map_seqZ by lia. unfold packed_byte.
  destruct (two_nibbles (byte_at ds (2 * (j / 2))) (byte_at ds (2 * (j / 2) + 1))) as [Hev Hod];
    [apply Hb; lia..|].
  case_if; [rewrite Hev|rewrite Hod]; f_equal; lia.
Qed.

(** A message the framework may send: digits are DTMF codes, also the one behind the last
    (the encoder reads it when the number of digits is odd), and the PDU fits. *)
Record sendable (m : RIL_CDMA_SMS_Message) : Prop := {
  s_tele : 0 <= uTeleserviceID m < 65536;
  s_mode : number_mode (sAddress m) = 0 \/ number_mode (sAddress m) = 1;
  s_type : 0 <= number_type (sAddress m) < 8;
  s_plan : 0 <= number_plan (sAddress m) < 16;
  s_count : 0 <= number_of_digits (sAddress m) <= 36;
  s_length : zlen (digits (sAddress m)) = 36;
  s_bytes : Forall is_byte (digits (sAddress m));
  s_dtmf : Forall (fun d => 0 <= d < 16)
             (ztake (number_of_digits (sAddress m) + 1) (digits (sAddress m)));
  s_bearer : zlen (aBearerData m) = 255 /\ Forall is_byte (aBearerData m);
  s_fits : 0 <= uBearerDataLen m /\
           14 + (4 * number_of_digits (sAddress m) + 1) / 8 + uBearerDataLen m <= 255
}.

(** The address as it is encoded: packed digits, then what the array held. *)
Definition sent_address (m : RIL_CDMA_SMS_Message) : RIL_CDMA_SMS_Address :=
  let a := sAddress m in
  let n := number_of_digits a in
  mkAddress 0 (number_mode a) (number_type a) (number_plan a) n
    (packed (digits a) ((n + 1) / 2) ++ zdrop ((n + 1) / 2) (repeat 0 (Z.to_nat n) ++ zdrop n (digits a))).

Definition sent_params (m : RIL_CDMA_SMS_Message) : list param :=
  [PTele (uTeleserviceID m); PAddr true (sent_address m);
   PIgnored RIL_CDMA_SMS_BEARER_RPLY_OPT [0]; PBearer (ztake (uBearerDataLen m) (aBearerData m))].

Lemma zlen_repeat {A} (x : A) n : 0 <= n -> zlen (repeat x (Z.to_nat n)) = n.
Proof. intros. unfold zlen. rewrite repeat_length. lia. Qed.

Lemma sent_address_ok m : sendable m -> addr_ok (sent_address m).
Proof.
  intros []. pose proof (Z.div_mod (number_of_digits (sAddress m) + 1) 2 ltac:(lia)).
  pose proof (Z.mod_pos_bound (number_of_digits (sAddress m) + 1) 2).
  set (n := number_of_digits (sAddress m)) in *.
  split; cbn [sent_address digit_mode number_mode number_type number_plan number_of_digits digits];
    unfold RIL_CDMA_SMS_ADDRESS_MAX; auto.
  - fold n. assert (Hz : zlen (repeat 0 (Z.to_nat n) ++ zdrop n (digits (sAddress m))) = 36)
      by (rewrite zlen_app, zlen_repeat, zlen_zdrop by lia; lia).
    rewrite zlen_app, zlen_packed, zlen_zdrop by lia. lia.
  - apply Forall_app. split; [apply packed_bytes|].
    apply Forall_zdrop, Forall_app. split; [apply zeros_bytes|by apply Forall_zdrop].
Qed.

(** The size of the address parameter. *)
Lemma sent_octets m :
  sendable m -> Z.of_nat (octets (addr_bits (sent_address m))) =
                2 + (4 * number_of_digits (sAddress m) + 1) / 8.
Proof.
  intros H. pose proof (octets_spec (addr_bits (sent_address m))) as Ho.
  assert (Hl : length (addr_bits (sent_address m)) =
               (10 + Z.to_nat (number_of_digits (sAddress m)) * 4)%nat).
  { unfold addr_bits. rewrite length_app, length_digit_bits by (by apply sent_address_ok).
    unfold addr_header, digit_size. cbn [sent_address digit_mode Z.eqb negb app number_of_digits].
    rewrite !length_app, !length_vbits. cbn [length]. lia. }
  destruct H. pose proof (Z.div_mod (4 * number_of_digits (sAddress m) + 1) 8 ltac:(lia)).
  pose proof (Z.mod_pos_bound (4 * number_of_digits (sAddress m) + 1) 8). lia.
Qed.

Lemma sent_params_ok m : sendable m -> Forall param_ok (sent_params m).
Proof.
  intros H. pose proof (sent_address_ok m H) as Ha. destruct H, s_bearer0, s_fits0.
  pose proof (Z.div_pos (4 * number_of_digits (sAddress m) + 1) 8 ltac:(lia) ltac:(lia)).
  unfold sent_params. rewrite !Forall_cons. cbn [param_ok].
  split; [done|]. split; [done|]. split; [|split; [|constructor]].
  - split_and!; [repeat constructor; decide_closed|decide_closed..].
  - split; [by apply Forall_ztake|rewrite zlen_ztake; lia].
Qed.

Lemma RILCdmaSmsPdu_spec m a :
  0 <= uTeleserviceID m < 65536 -> addr_ok a -> sAddress m = a ->
  let out := 0 :: encode_param (PTele (uTeleserviceID m)) ++ encode_param (PAddr true a) in
  zlen out <= 255 ->
  RILCdmaSmsPdu m (repeat 0 255) 0 = Some (zlen out, out ++ repeat 0 (Z.to_nat (255 - zlen out))).
Proof.
  intros Hid Ha Heq out Hout. unfold RILCdmaSmsPdu. rewrite Heq.
  set (T := encode_param (PTele (uTeleserviceID m))) in *. set (A := encode_param (PAddr true a)) in *.
  assert (HA : zlen A = Z.of_nat (2 + octets (addr_bits a)))
    by (unfold A, encode_param; cbn [param_body]; rewrite !zlen_cons, zlen_pack_all; lia).
  assert (Hlo : zlen out = 5 + zlen A) by (unfold out; rewrite zlen_cons, zlen_app; change (zlen T) with 4; lia).
  change (arr_set (repeat 0 255) 0 0) with (Some ([0] ++ repeat 0 254)). cbn [mbind option_bind].
  change (u8 (0 + 1)) with 1. rewrite at_offset_app by done.
  rewrite MakeTeleSrvId_spec by (apply zeros_bytes || (rewrite repeat_length; lia)).
  cbn [mbind option_bind]. replace (u16 (uTeleserviceID m)) with (uTeleserviceID m)
    by (unfold u16; rewrite Z.mod_small; lia).
  fold T. rewrite drop_repeat, app_assoc. change (u8 (1 + 4)) with 5. rewrite at_offset_app by done.
  rewrite MakeAddress_spec by (done || apply zeros_bytes || (rewrite repeat_length; lia)).
  cbn [mbind option_bind]. rewrite <-HA, u8_id by (unfold is_byte; lia). rewrite Hlo.
  do 2 f_equal. rewrite drop_repeat. change (1 =? 1) with true. cbn match.
  unfold out. cbn [app]. rewrite <-!app_assoc. do 2 f_equal. rewrite HA.
  unfold A, encode_param. cbn [param_body param_id app]. rewrite zlen_pack_all. do 4 f_equal. lia.
Qed.

Definition pdu_of (ps : list param) : list Z := 0 :: (ps ≫= encode_param).

Lemma zlen_pdu_of m :
  sendable m ->
  zlen (pdu_of (sent_params m)) =
  14 + (4 * number_of_digits (sAddress m) + 1) / 8 + uBearerDataLen m.
Proof.
  intros H. pose proof (sent_octets m H) as Ho. destruct H, s_bearer0, s_fits0.
  pose proof (Z.div_pos (4 * number_of_digits (sAddress m) + 1) 8 ltac:(lia) ltac:(lia)).
  unfold pdu_of, sent_params, encode_param. cbn [mbind list_bind param_body].
  zlist. rewrite zlen_pack_all, zlen_ztake by lia. lia.
Qed.

(** The parameters written behind the address. *)
Lemma append_bearer out n len d :
  zlen out = n -> 0 <= len <= zlen d -> len <= 255 -> n + 5 + len <= 255 -> 
  append_params (out ++ repeat 0 (Z.to_nat (255 - n))) n d len =
  Some (n + 3, (out ++ [6; 1; 0; 8; len] ++ ztake len d) ++ repeat 0 (Z.to_nat (250 - n - len))).
Proof.
  intros Hn Hlen H255 Hfit. pose proof (zlen_nonneg out).
  assert (Hu : forall x, 0 <= x < 256 -> u8 x = x) by (intros; apply u8_id; done).
  unfold append_params. cbv zeta. rewrite (Hu (n + 1)), (Hu (n + 1 + 1)), (Hu (n + 1 + 1 + 1)), (Hu len) by lia.
  rewrite arr_set_end by lia. cbn [mbind option_bind].
  do 4 (rewrite arr_set_end by (rewrite ?zlen_app; change (zlen [_]) with 1; rewrite ?zlen_app; unfold zlen in *; cbn [length]; lia);
        cbn [mbind option_bind]).
  unfold memcpy. case_if.
  2:{ rewrite !andb_false_iff in E. exfalso.
      destruct E as [[[E|E]|E]|E]; reflect_bools; try lia.
      rewrite !zlen_app, zlen_repeat in E by lia. unfold zlen in *; cbn [length] in *; lia. }
  cbn [mbind option_bind]. f_equal. f_equal; [lia|]. unfold memcpy_at. rewrite zlen_ztake by lia.
  rewrite ztake_app_eq by (rewrite !zlen_app; unfold zlen in *; cbn [length]; lia).
  rewrite <-!app_assoc. cbn [app]. do 7 f_equal.
  change (6 :: 1 :: 0 :: 8 :: len :: ?l) with ([6; 1; 0; 8; len] ++ l). rewrite app_assoc.
  rewrite <-zdrop_zdrop, zdrop_app_eq by (rewrite ?zlen_app; unfold zlen in *; cbn [length]; lia).
  unfold zdrop. rewrite drop_repeat. f_equal. lia.
Qed.

Lemma ConvertAscii_spec l n m :
  Forall is_byte l -> zlen l = n -> 0 < n -> 2 * n <= m ->
  ConvertAscii (l ++ repeat 0 (Z.to_nat (255 - n))) n (repeat 0 (Z.to_nat m)) =
  Some (hexs l ++ repeat 0 (Z.to_nat (m - 2 * n))).
Proof.
  intros Hl Hn Hpos Hm. unfold ConvertAscii. case_if; [lia|]. subst n.
  pose proof (ascii_convert_spec [] l (repeat 0 (Z.to_nat (255 - zlen l))) m Hl Hm) as H.
  replace (Z.to_nat (zlen l)) with (length l) by (unfold zlen; lia). exact H.
Qed.

(** Half of the digits, rounded up, as the code computes it. *)
Lemma dtmf_len n : 0 <= n <= 36 -> u8 (n / 2 + (if n mod 2 =? 0 then 0 else 1)) = (n + 1) / 2.
Proof.
  intros Hn. pose proof (Z.div_mod n 2 ltac:(lia)). pose proof (Z.div_mod (n + 1) 2 ltac:(lia)).
  pose proof (Z.mod_pos_bound n 2). pose proof (Z.mod_pos_bound (n + 1) 2).
  rewrite u8_id; [case_if; lia|unfold is_byte; case_if; lia].
Qed.

Lemma pdu_bytes ps : Forall param_ok ps -> Forall is_byte (pdu_of ps).
Proof.
  intros Hps. constructor; [decide_closed|]. apply Forall_bind. eapply Forall_impl; [done|].
  intros p Hp. by apply encode_param_ok.
Qed.

Lemma pdu_assembled m :
  0 <= uBearerDataLen m <= zlen (aBearerData m) ->
  (0 :: encode_param (PTele (uTeleserviceID m)) ++ encode_param (PAddr true (sent_address m))) ++
  [6; 1; 0; 8; uBearerDataLen m] ++ ztake (uBearerDataLen m) (aBearerData m) = pdu_of (sent_params m).
Proof.
  intros H. unfold pdu_of, sent_params. cbn [mbind list_bind]. rewrite app_nil_r. cbn [app].
  rewrite <-app_assoc. unfold encode_param at 5 6. cbn [param_body param_id].
  by rewrite zlen_ztake by lia.
Qed.

(** The encoder produces the hexadecimal text of the message's parameters. *)
Lemma encode_spec m :
  sendable m ->
  RILEncodeCdmaSmsPdu m =
  Some (0, hexs (pdu_of (sent_params m)),
        cstr (ztake (number_of_digits (sAddress m)) (digits (sAddress m)) ++ [0]),
        set_address (sent_address m) m).
Proof.
  intros H. pose proof (zlen_pdu_of m H) as Hz. pose proof (sent_params_ok m H) as Hps.
  pose proof (sent_address_ok m H) as Ha. pose proof (sent_octets m H) as Hoc. pose proof H as [].
  destruct s_bearer0 as [Hbl Hbb], s_fits0 as [Hb0 Hfit].
  unfold RILEncodeCdmaSmsPdu. set (n := number_of_digits (sAddress m)) in *. set (ds := digits (sAddress m)) in *.
  pose proof (Z.div_pos (4 * n + 1) 8 ltac:(lia) ltac:(lia)).
  rewrite (memcpy_spec (repeat 0 (Z.to_nat (n + 1)))) by (rewrite ?zlen_repeat; lia).
  cbn [mbind option_bind].
  pose proof (Z.div_mod (n + 1) 2 ltac:(lia)). pose proof (Z.mod_pos_bound (n + 1) 2).
  rewrite dtmf_len by done. pose proof (pack_digits_spec (Z.to_nat n) 0 n ds s_length0 s_count0) as Hpk.
  change (packed ds 0) with (@nil Z) in Hpk. change (2 * 0) with 0 in Hpk. rewrite !Z.sub_0_r in Hpk.
  cbn [app] in Hpk. rewrite Hpk by lia. cbn [mbind option_bind].
  rewrite memcpy_spec by (rewrite ?zlen_repeat; lia). cbn [mbind option_bind].
  rewrite (ztake_all n (repeat 0 (Z.to_nat n))) by (rewrite zlen_repeat; lia).
  rewrite memcpy_spec by (rewrite ?zlen_packed, ?zlen_app, ?zlen_repeat, ?zlen_zdrop; lia).
  cbn [mbind option_bind]. rewrite (ztake_all ((n + 1) / 2) (packed _ _)) by (rewrite zlen_packed; lia).
  change (mkAddress 0 _ _ _ n _) with (sent_address m).
  set (out := 0 :: encode_param (PTele (uTeleserviceID m)) ++ encode_param (PAddr true (sent_address m))).
  assert (Hout : zlen out = 7 + Z.of_nat (octets (addr_bits (sent_address m)))).
  { unfold out, encode_param. cbn [param_body]. zlist. rewrite zlen_pack_all. lia. }
  rewrite (RILCdmaSmsPdu_spec _ (sent_address m)) by (done || (cbn [uTeleserviceID set_address]; fold out; lia)).
  cbn [mbind option_bind uTeleserviceID set_address]. fold out.
  cbn [aBearerData uBearerDataLen set_address]. rewrite append_bearer by lia. cbn [mbind option_bind].
  pose proof (pdu_assembled m ltac:(lia)) as Hpdu. fold out in Hpdu. rewrite Hpdu.
  pose proof (pdu_bytes _ Hps) as Hby.
  replace (zlen out + 3 + 2 + uBearerDataLen m) with (zlen (pdu_of (sent_params m))) by lia.
  replace (250 - zlen out - uBearerDataLen m) with (255 - zlen (pdu_of (sent_params m))) by lia.
  change 511%nat with (Z.to_nat 511). rewrite ConvertAscii_spec by (done || lia).
  cbn [mbind option_bind].
  replace (Z.to_nat (511 - 2 * zlen (pdu_of (sent_params m)))) with
    (S (Z.to_nat (510 - 2 * zlen (pdu_of (sent_params m))))) by lia.
  cbn [repeat]. rewrite cstr_app by (by apply hexs_no_nul). rewrite zlen_hexs.
  case_if; [|lia]. do 4 f_equal. unfold zdrop. rewrite drop_repeat.
  replace (Z.to_nat (n + 1) - Z.to_nat n)%nat with 1%nat by lia. done.
Qed.

(** * Round trip and termination *)

Lemma received_sent m b :
  sendable m -> received (sent_address m) b =
  mkAddress 1 (number_mode (sAddress m)) (number_type b) (number_plan b) (number_of_digits (sAddress m))
    (map RILNumDTMFToChar (ztake (number_of_digits (sAddress m)) (digits (sAddress m))) ++
     zdrop (number_of_digits (sAddress m)) (digits b)).
Proof.
  intros []. unfold received, received_digits. cbn [sent_address digit_mode number_mode number_of_digits digits Z.eqb orb].
  by rewrite nibbles_packed by done.
Qed.

(** C7: what [RILEncodeCdmaSmsPdu] makes of a message is decoded by [ConvertByte] and
    [ProcessCdmaIncomingSms] to the same teleservice, the dialled number in characters and the
    same bearer data; everything else of the receiving structure stays. *)
Theorem cdma_sms_roundtrip (m r : RIL_CDMA_SMS_Message) (fuel : nat) :
  sendable m -> msg_ok r -> (4 <= fuel)%nat ->
  exists text bytes number m',
    RILEncodeCdmaSmsPdu m = Some (0, text, number, m') /\
    ConvertByte text (repeat 0 (Z.to_nat (zlen text / 2))) (zlen text / 2) = Some bytes /\
    ProcessCdmaIncomingSms fuel bytes (zlen text / 2) r =
    Decoded (mkMessage (uTeleserviceID m) (bIsServicePresent r) (uServicecategory r)
      (mkAddress 1 (number_mode (sAddress m)) (number_type (sAddress r)) (number_plan (sAddress r))
         (number_of_digits (sAddress m))
         (map RILNumDTMFToChar (ztake (number_of_digits (sAddress m)) (digits (sAddress m))) ++
          zdrop (number_of_digits (sAddress m)) (digits (sAddress r))))
      (sSubAddress r) (uBearerDataLen m)
      (ztake (uBearerDataLen m) (aBearerData m) ++ zdrop (uBearerDataLen m) (aBearerData r))).
Proof.
  intros Hm Hr Hf. pose proof (sent_params_ok m Hm) as Hps. pose proof (zlen_pdu_of m Hm) as Hz.
  pose proof Hm as []. destruct s_bearer0, s_fits0.
  pose proof (Z.div_pos (4 * number_of_digits (sAddress m) + 1) 8 ltac:(lia) ltac:(lia)).
  set (P := pdu_of (sent_params m)) in *. exists (hexs P), P. do 2 eexists.
  split; [by apply encode_spec|].
  rewrite zlen_hexs, Z.mul_comm, Z.div_mul by lia.
  replace (Z.to_nat (zlen P)) with (length P) by (unfold zlen; lia).
  split; [by apply ConvertByte_hexs, pdu_bytes|].
  unfold ProcessCdmaIncomingSms. change (arr_get P 0) with (Some 0). cbn match.
  pose proof (process_loop_spec (sent_params m) r [0] fuel Hps Hr) as Hl. cbv zeta in Hl.
  change (zlen [0]) with 1 in Hl. change ([0] ++ (sent_params m ≫= encode_param)) with P in Hl.
  rewrite Hl; [|repeat constructor; decide_closed|done|lia].
  cbn [sent_params fold_left apply_param]. unfold set_teleservice, set_address, set_bearer.
  cbn [uTeleserviceID bIsServicePresent uServicecategory sAddress sSubAddress uBearerDataLen aBearerData].
  by rewrite received_sent, zlen_ztake by (done || lia).
Qed.

Definition zero_message : RIL_CDMA_SMS_Message :=
  mkMessage 0 0 0 (mkAddress 0 0 0 0 0 (repeat 0 36)) (mkSubaddress 0 0 0 (repeat 0 36)) 0 (repeat 0 255).

Lemma zero_message_ok : msg_ok zero_message.
Proof.
  split; [split; [reflexivity|apply (zeros_bytes 36)]|].
  split; [split; cbn; try (unfold RIL_CDMA_SMS_SUBADDRESS_MAX; lia); [reflexivity|apply (zeros_bytes 36)]|reflexivity].
Qed.

(** A message to "12*" with two bytes of bearer data. *)
Definition example_message : RIL_CDMA_SMS_Message :=
  mkMessage 4098 0 0 (mkAddress 1 0 0 0 3 ([1; 2; 11] ++ repeat 0 33))
    (mkSubaddress 0 0 0 (repeat 0 36)) 2 ([170; 85] ++ repeat 0 253).

Lemma example_sendable : sendable example_message.
Proof.
  split; cbn -[ztake zlen repeat]; try lia; try reflexivity; try (by left).
  - decide_closed.
  - decide_closed.
  - split; [reflexivity|decide_closed].
  - decide_closed.
Qed.

Lemma cdma_sms_roundtrip_witness :
  exists text bytes number m',
    RILEncodeCdmaSmsPdu example_message = Some (0, text, number, m') /\
    ConvertByte text (repeat 0 (Z.to_nat (zlen text / 2))) (zlen text / 2) = Some bytes /\
    match ProcessCdmaIncomingSms 4 bytes (zlen text / 2) zero_message with
    | Decoded r => uTeleserviceID r = 4098 /\ ztake 3 (digits (sAddress r)) = [49; 50; 42] /\
                   ztake 2 (aBearerData r) = [170; 85]
    | _ => False
    end.
Proof.
  destruct (cdma_sms_roundtrip example_message zero_message 4 example_sendable zero_message_ok)
    as (t & b & n & m' & H1 & H2 & H3); [lia|].
  exists t, b, n, m'. split; [exact H1|]. split; [exact H2|]. rewrite H3.
  clear. split; [reflexivity|]. split; reflexivity.
Defined.

(** C35: The loop over the parameters ends on every PDU whose length cannot make the 16-bit
    index wrap around. *)
Theorem incoming_sms_ends (fuel : nat) (bytePdu : list Z) (length : Z) (m : RIL_CDMA_SMS_Message) :
  Forall is_byte bytePdu -> 0 <= length < 65280 -> (Z.to_nat length <= fuel)%nat ->
  ProcessCdmaIncomingSms fuel bytePdu length m <> NoFuel.
Proof.
  intros Hb Hl Hf. unfold ProcessCdmaIncomingSms. destruct (arr_get bytePdu 0); [|done].
  assert (Hgo : forall fuel index m, 0 <= index -> (Z.to_nat (length - index) <= fuel)%nat ->
    process_loop fuel bytePdu length index m <> NoFuel).
  { clear fuel Hf m. induction fuel as [|fuel IH]; intros index m Hi Hf; cbn [process_loop]; case_if; try done; [lia|].
    destruct (arr_get bytePdu index) as [id|]; [|done].
    destruct (arr_get bytePdu (u16 (index + 1))) as [len|] eqn:El; [|done].
    destruct (process_param _ _ _ _ _) as [m'|]; [|done].
    assert (Hlen : is_byte len).
    { unfold arr_get in El. destruct (_ <? 0) in El; [done|]. exact (Forall_lookup_1 _ _ _ _ Hb El). }
    unfold is_byte in Hlen. assert (Hu : forall x, 0 <= x < 65536 -> u16 x = x) by (intros; apply Z.mod_small; lia).
    rewrite (Hu (index + 2)), Hu by lia. apply IH; lia. }
  apply Hgo; lia.
Qed.

Lemma incoming_sms_ends_witness :
  ProcessCdmaIncomingSms 300 (repeat 9 300) 300 zero_message <> NoFuel.
Proof. apply incoming_sms_ends; [decide_closed|lia|cbn; lia]. Defined.

(** * Defects *)

(** A cause code behind the bearer data overwrites it: its case has no [break]. *)
Lemma cause_code_overwrites_bearer m d c :
  apply_param (apply_param m (PBearer d)) (PCause c) =
  set_bearer (zlen c) (c ++ zdrop (zlen c) (d ++ zdrop (zlen d) (aBearerData m))) m.
Proof. reflexivity. Qed.

(** An address of an incoming message with more digits than the structure has room for is
    written behind it. *)
Lemma long_address_overflows :
  ProcessCdmaIncomingSms 10 ([0; 2; 39] ++ [129; 18; 160] ++ repeat 0 36) 42 zero_message = Crash.
Proof. vm_compute. reflexivity. Qed.

(** A parameter cut off at the end is read behind the array. *)
Lemma truncated_pdu_overreads : ProcessCdmaIncomingSms 10 [0; 8; 4; 1; 2] 5 zero_message = Crash.
Proof. vm_compute. reflexivity. Qed.

(** 255 bytes of bearer data are a valid message, and the PDU overflows its array. *)
Lemma long_message_overflows :
  RILEncodeCdmaSmsPdu (set_bearer 255 (repeat 1 255) example_message) = None.
Proof. vm_compute. reflexivity. Qed.

(** * AT lines *)

Definition COLON_ : Z := 58.
Definition COMMA_ : Z := 44.

Definition atoi (s : list Z) : Z := (strtol 10 s).1.

(** The tokens [strtok] returns one after the other. *)
Fixpoint strtok_all (seps : list Z) (s : list Z) : list (list Z) :=
  match s with
  | [] => []
  | c :: s' =>
      if bool_decide (c ∈ seps) then strtok_all seps s'
      else
        match s' with
        | [] => [[c]]
        | d :: _ =>
            if bool_decide (d ∈ seps) then [c] :: strtok_all seps s'
            else match strtok_all seps s' with
                 | t :: ts => (c :: t) :: ts
                 | [] => [[c]]
                 end
        end
  end.

(** [Seps]. *)
Definition delims : list Z := [COLON_; COMMA_].

(** The loop: [rest] are the tokens [strtok(NULL, ...)] has still to return, [out] is
    [*length] and [*SmsPdu] where they were set.  [None] is [atoi] or [strlen] of NULL. *)
Fixpoint parse_tokens (rest : list (list Z)) (Index : Z) (out : option Z * option (list Z))
  : option (option Z * option (list Z)) :=
  let step (Token : option (list Z)) : option (option Z * option (list Z)) :=
    out ← (if Index =? 2 then t ← Token; Some (Some (u16 (atoi t * 2)), out.2) else Some out);
    if Index =? 3 then t ← Token; Some (out.1, Some (ztake (u16 (zlen t)) t)) else Some out in
  match rest with
  | [] => step None
  | t :: rest' => out ← step (Some t); parse_tokens rest' (Index + 1) out
  end.

Definition ParseSmsAtString (SmsAtStr : list Z) : option (option Z * option (list Z)) :=
  match strtok_all delims SmsAtStr with
  | [] => Some (None, None)
  | _ :: rest => parse_tokens rest 0 (None, None)
  end.

(** Without a comma the search runs behind the string. *)
Definition RetrieveIndex (s : list Z) : option Z :=
  s' ← strchr s COMMA_; Some (atoi (tail s')).

(** [*str] when a delimited text was found; [None] inside for the length 0. *)
Definition RetrieveStr (s : list Z) (bgn nd : Z) : option (option (list Z)) :=
  s' ← strchr s bgn;
  let '(text, rest) := strsep (tail s') nd in
  match rest with
  | None => Some None
  | Some _ => Some (if bool_decide (text = []) then None else Some text)
  end.

Definition RetrievePDUStr (s : list Z) (bgn nd : Z) : option (option (list Z)) := RetrieveStr s bgn nd.

(** ** Tokens *)

Definition plain (t : list Z) : Prop := t <> [] /\ Forall (fun c => c ∉ delims) t.

Lemma strtok_plain t rest :
  plain t -> (exists c r, rest = c :: r /\ (c ∈ delims)) \/ rest = [] ->
  strtok_all delims (t ++ rest) = t :: strtok_all delims rest.
Proof.
  intros [Hne Ht] Hr. revert Hne. induction Ht as [|c t Hc Ht IH]; [done|]. intros _.
  cbn [app strtok_all]. rewrite bool_decide_false by done. destruct t as [|d t].
  - cbn [app]. destruct Hr as [(x & r & -> & Hx)| ->]; [|done]. by rewrite bool_decide_true.
  - apply Forall_cons in Ht as [Hd _]. cbn [app]. rewrite bool_decide_false by done.
    change (d :: t ++ rest) with ((d :: t) ++ rest). by rewrite IH.
Qed.

Lemma strtok_skip c s : (c ∈ delims) -> strtok_all delims (c :: s) = strtok_all delims s.
Proof. intros H. cbn [strtok_all]. by rewrite bool_decide_true. Qed.

(** [ParseSmsAtString] takes length and PDU from a complete new-message line. *)
Theorem parse_new_sms (head dev index pdu : list Z) (n : Z) :
  plain head -> plain dev -> plain index -> plain pdu -> 0 <= n < 32768 -> zlen pdu < 65536 ->
  ParseSmsAtString (head ++ COLON_ :: dev ++ COMMA_ :: index ++ COMMA_ :: dec n ++ COMMA_ :: pdu) =
  Some (Some (2 * n), Some pdu).
Proof.
  intros Hh Hd Hi Hp Hn Hl. unfold ParseSmsAtString.
  assert (HC : COLON_ ∈ delims) by decide_closed. assert (HM : COMMA_ ∈ delims) by decide_closed.
  assert (Hdn : plain (dec n)).
  { split.
    - unfold dec. case_if; [done|]. destruct (dec_fuel_head 10 n) as (? & ? & -> & _); [lia|lia|done].
    - eapply Forall_impl; [apply dec_chars|]. intros c Hc Hin. unfold delims, COLON_, COMMA_ in Hin.
      rewrite !elem_of_cons in Hin. destruct Hin as [->|[->|[]%not_elem_of_nil]]; lia. }
  rewrite (strtok_plain head), strtok_skip by (by eauto 6).
  rewrite (strtok_plain dev), strtok_skip by (by eauto 6).
  rewrite (strtok_plain index), strtok_skip by (by eauto 6).
  rewrite (strtok_plain (dec n)), strtok_skip by (by eauto 6).
  rewrite <-(app_nil_r pdu), strtok_plain, app_nil_r by (by eauto). cbn [strtok_all].
  change (parse_tokens _ 0 _)
    with (Some (Some (u16 (atoi (dec n) * 2)), Some (ztake (u16 (zlen pdu)) pdu))). unfold atoi.
  rewrite strtol_dec by (unfold is_int; lia). cbn [fst]. unfold u16.
  rewrite !Z.mod_small by (pose proof (zlen_nonneg pdu); lia). rewrite ztake_all by lia.
  by rewrite Z.mul_comm.
Qed.

Lemma parse_new_sms_witness :
  ParseSmsAtString (bytes_of "+CMT: ME,3,12,0002100A"%string) = Some (Some 24, Some (bytes_of "0002100A"%string)).
Proof.
  apply (parse_new_sms (bytes_of "+CMT"%string) (bytes_of " ME"%string) (bytes_of "3"%string) (bytes_of "0002100A"%string) 12).
  all: try (split; [discriminate|decide_closed]); try lia; decide_closed.
Defined.

(** A line with two or three fields makes the code read through NULL. *)
Lemma short_line_reads_null :
  ParseSmsAtString (bytes_of "+CMT: ME,3"%string) = None /\
  ParseSmsAtString (bytes_of "+CMT: ME,3,12"%string) = None.
Proof. split; reflexivity. Qed.
