(* ===== verification/RilEvent.v ===== *)
(** The event loop of librilmtk (src/mtk/ril/librilmtk/ril_event.cpp).

    The loop waits in [select] for descriptors and for the earliest timer, moves what is
    due to a list of pending events and calls the functions of these.  Events are objects of
    a heap, linked into two circular doubly linked lists with sentinels ([timer_list],
    [pending_list]); watched descriptors are in a table of sixteen pointers.

    An event is its address; a use of NULL or of an address without an object gives [None].
    The time of [getNow] and the result of [select] are inputs.  What a callback does is a
    parameter: the calls of the interface ([op]) it makes.  The two rings are described by
    the lists of their nodes ([ring]). *)
From stdpp Require Import sorting.
From S2P Require Import Prelude.

(** * Data *)

Definition MAX_FD_EVENTS : nat := 16.

(** [struct timeval]: seconds and microseconds. *)
Definition timeval : Type := Z * Z.

Record ril_event := mkEvent {
  next : Z;
  prev : Z;
  fd : Z;
  index : Z;
  persist : bool;
  timeout : timeval;
  func : Z
}.

Definition NULL : Z := 0.

(** The addresses of the two sentinels. *)
Definition TIMER_LIST : Z := 1.
Definition PENDING_LIST : Z := 2.

Abbreviation heap := (gmap Z ril_event).

Definition set_next (v : Z) (e : ril_event) : ril_event :=
  mkEvent v (prev e) (fd e) (index e) (persist e) (timeout e) (func e).
Definition set_prev (v : Z) (e : ril_event) : ril_event :=
  mkEvent (next e) v (fd e) (index e) (persist e) (timeout e) (func e).
Definition set_fd (v : Z) (e : ril_event) : ril_event :=
  mkEvent (next e) (prev e) v (index e) (persist e) (timeout e) (func e).
Definition set_index (v : Z) (e : ril_event) : ril_event :=
  mkEvent (next e) (prev e) (fd e) v (persist e) (timeout e) (func e).
Definition set_timeout (v : timeval) (e : ril_event) : ril_event :=
  mkEvent (next e) (prev e) (fd e) (index e) (persist e) v (func e).

(** The file-scope variables; [fired] records the calls of [firePending]. *)
Record Loop := mkLoop {
  objs : heap;
  watch_table : list (option Z);
  readFds : gset Z;
  nfds : Z;
  fired : list Z
}.

Definition with_objs (h : heap) (s : Loop) : Loop :=
  mkLoop h (watch_table s) (readFds s) (nfds s) (fired s).

(** Writing through a pointer. *)
Definition upd (a : Z) (f : ril_event -> ril_event) (h : heap) : option heap :=
  e ← h !! a; Some (<[a := f e]> h).

(** * Time *)

Definition timeradd (a b : timeval) : timeval :=
  let sec := a.1 + b.1 in
  let usec := a.2 + b.2 in
  if 1000000 <=? usec then (sec + 1, usec - 1000000) else (sec, usec).

Definition timersub (a b : timeval) : timeval :=
  let sec := a.1 - b.1 in
  let usec := a.2 - b.2 in
  if usec <? 0 then (sec - 1, usec + 1000000) else (sec, usec).

(** [timercmp(a, b, <)]. *)
Definition timer_lt (a b : timeval) : bool :=
  if a.1 =? b.1 then a.2 <? b.2 else a.1 <? b.1.

(** * Lists *)

Definition zero_event : ril_event := mkEvent 0 0 0 0 false (0, 0) 0.

Definition init_list (l : Z) (h : heap) : heap :=
  <[l := mkEvent l l (-1) 0 false (0, 0) 0]> h.

Definition addToList (ev list : Z) (h : heap) : option heap :=
  h ← upd ev (set_next list) h;
  l ← h !! list;
  h ← upd ev (set_prev (prev l)) h;
  h ← upd (prev l) (set_next ev) h;
  upd list (set_prev ev) h.

Definition removeFromList (ev : Z) (h : heap) : option heap :=
  e ← h !! ev;
  h ← upd (next e) (set_prev (prev e)) h;
  e ← h !! ev;
  h ← upd (prev e) (set_next (next e)) h;
  h ← upd ev (set_next NULL) h;
  upd ev (set_prev NULL) h.

(** * Watched descriptors *)

(** [FD_SET], [FD_CLR] and [FD_ISSET] index a bit field of [FD_SETSIZE] bits. *)
Definition FD_SETSIZE : Z := 1024.
Definition fd_in_set (f : Z) : bool := (0 <=? f) && (f <? FD_SETSIZE).

(** The largest descriptor in the table, at least 0. *)
Fixpoint max_fd (h : heap) (n : Z) (t : list (option Z)) : option Z :=
  match t with
  | [] => Some n
  | None :: t' => max_fd h n t'
  | Some a :: t' =>
      e ← h !! a;
      max_fd h (if n <? fd e then fd e else n) t'
  end.

Definition removeWatch (ev : Z) (i : nat) (s : Loop) : option Loop :=
  let table := <[i := None]> (watch_table s) in
  h ← upd ev (set_index (-1)) (objs s);
  e ← h !! ev;
  guard (fd_in_set (fd e));;
  let fds := readFds s ∖ {[fd e]} in
  n ← (if fd e + 1 =? nfds s then m ← max_fd h 0 table; Some (m + 1) else Some (nfds s));
  Some (mkLoop h table fds n (fired s)).

Definition ril_event_init (s : Loop) : Loop :=
  mkLoop (init_list PENDING_LIST (init_list TIMER_LIST (objs s)))
    (repeat None MAX_FD_EVENTS) ∅ (nfds s) (fired s).

Definition ril_event_set (ev fd : Z) (persist : bool) (func : Z) (s : Loop) : option Loop :=
  h ← upd ev (fun _ => mkEvent 0 0 fd (-1) persist (0, 0) func) (objs s);
  Some (with_objs h s).

(** The first free slot. *)
Fixpoint free_slot (t : list (option Z)) : option nat :=
  match t with
  | [] => None
  | None :: _ => Some 0%nat
  | Some _ :: t' => S <$> free_slot t'
  end.

(** Without a free slot the event is not added, and nothing is reported. *)
Definition ril_event_add (ev : Z) (s : Loop) : option Loop :=
  match free_slot (watch_table s) with
  | None => Some s
  | Some i =>
      h ← upd ev (set_index (Z.of_nat i)) (objs s);
      e ← h !! ev;
      guard (fd_in_set (fd e));;
      Some (mkLoop h (<[i := Some ev]> (watch_table s)) ({[fd e]} ∪ readFds s)
              (if nfds s <=? fd e then fd e + 1 else nfds s) (fired s))
  end.

Definition ril_event_del (ev : Z) (s : Loop) : option Loop :=
  e ← objs s !! ev;
  if (index e <? 0) || (Z.of_nat MAX_FD_EVENTS <=? index e) then Some s
  else removeWatch ev (Z.to_nat (index e)) s.

(** * Timers *)

(** The walk to the first event that is not earlier. *)
Fixpoint find_place (fuel : nat) (t : timeval) (list : Z) (h : heap) : option Z :=
  l ← h !! list;
  if timer_lt (timeout l) t && negb (list =? TIMER_LIST) then
    match fuel with
    | O => None
    | S fuel' => find_place fuel' t (next l) h
    end
  else Some list.

(** [tv] is not NULL; with NULL nothing happens. *)
Definition ril_timer_add (ev : Z) (tv : option timeval) (now : timeval) (s : Loop) : option Loop :=
  match tv with
  | None => Some s
  | Some tv =>
      t ← objs s !! TIMER_LIST;
      let list := next t in
      h ← upd ev (set_fd (-1)) (objs s);
      h ← upd ev (set_timeout (timeradd now tv)) h;
      place ← find_place (size h) (timeradd now tv) list h;
      h ← addToList ev place h;
      Some (with_objs h s)
  end.

Fixpoint timeouts_loop (fuel : nat) (now : timeval) (tev : Z) (h : heap) : option heap :=
  if tev =? TIMER_LIST then Some h
  else
    e ← h !! tev;
    if timer_lt (timeout e) now then
      match fuel with
      | O => None
      | S fuel' =>
          let nxt := next e in
          h ← removeFromList tev h;
          h ← addToList tev PENDING_LIST h;
          timeouts_loop fuel' now nxt h
      end
    else Some h.

Definition processTimeouts (now : timeval) (s : Loop) : option Loop :=
  t ← objs s !! TIMER_LIST;
  h ← timeouts_loop (size (objs s)) now (next t) (objs s);
  Some (with_objs h s).

(** [None] inside for the result -1: no timer. *)
Definition calcNextTimeout (now : timeval) (s : Loop) : option (option timeval) :=
  t ← objs s !! TIMER_LIST;
  if next t =? TIMER_LIST then Some None
  else
    e ← objs s !! next t;
    Some (Some (if timer_lt now (timeout e) then timersub (timeout e) now else (0, 0))).

(** * Descriptors that are ready *)

(** From slot [i] on, with [k] slots left and [n] ready descriptors not yet found. *)
Fixpoint readies_loop (k i : nat) (rfds : gset Z) (n : Z) (s : Loop) : option Loop :=
  match k with
  | O => Some s
  | S k' =>
      if 0 <? n then
        slot ← watch_table s !! i;
        match slot with
        | None => readies_loop k' (S i) rfds n s
        | Some rev =>
            e ← objs s !! rev;
            guard (fd_in_set (fd e));;
            if bool_decide (fd e ∈ rfds) then
              h ← addToList rev PENDING_LIST (objs s);
              let s := with_objs h s in
              s ← (if persist e then Some s else removeWatch rev i s);
              readies_loop k' (S i) rfds (n - 1) s
            else readies_loop k' (S i) rfds n s
        end
      else Some s
  end.

Definition processReadReadies (rfds : gset Z) (n : Z) (s : Loop) : option Loop :=
  readies_loop MAX_FD_EVENTS 0 rfds n s.

(** * Calling the events *)

(** What a callback can do with the event loop. *)
Inductive op :=
| OpSet (ev fd : Z) (persist : bool) (func : Z)
| OpAdd (ev : Z)
| OpTimer (ev : Z) (tv now : timeval)
| OpDel (ev : Z).

Definition run_op (o : op) (s : Loop) : option Loop :=
  match o with
  | OpSet ev fd persist func => ril_event_set ev fd persist func s
  | OpAdd ev => ril_event_add ev s
  | OpTimer ev tv now => ril_timer_add ev (Some tv) now s
  | OpDel ev => ril_event_del ev s
  end.

Fixpoint run_ops (os : list op) (s : Loop) : option Loop :=
  match os with
  | [] => Some s
  | o :: os' => s ← run_op o s; run_ops os' s
  end.

Section Callbacks.
Context (callback : Z -> list op).

Fixpoint fire_loop (fuel : nat) (ev : Z) (s : Loop) : option Loop :=
  if ev =? PENDING_LIST then Some s
  else
    match fuel with
    | O => None
    | S fuel' =>
        e ← objs s !! ev;
        h ← removeFromList ev (objs s);
        let s := mkLoop h (watch_table s) (readFds s) (nfds s) (fired s ++ [ev]) in
        s ← run_ops (callback ev) s;
        fire_loop fuel' (next e) s
    end.

Definition firePending (s : Loop) : option Loop :=
  p ← objs s !! PENDING_LIST;
  fire_loop (size (objs s)) (next p) s.

(** * The loop *)

(** What [select] returns: the ready descriptors, or an error number. *)
Inductive selected :=
| Ready (fds : gset Z)
| SelectError (errno : Z).

Definition EINTR : Z := 4.
Definition EBADF : Z := 9.

(** The state to go on with, or that the function returned; then [report] says whether it
    set the properties that make the modem restart. *)
Inductive round :=
| Continue (s : Loop)
| Return (report : bool).

(** After an error the watched descriptors are taken out of the set one after the other
    until [select] (here [again], which gives an error number or nothing) accepts it.  The
    result is the last error number: a successful call leaves [errno] alone. *)
Fixpoint retry_select (again : gset Z -> option Z) (h : heap) (t : list (option Z)) (rfds : gset Z)
    (errno : Z) : option Z :=
  match t with
  | [] => Some errno
  | None :: t' => retry_select again h t' rfds errno
  | Some rev :: t' =>
      e ← h !! rev;
      guard (fd_in_set (fd e));;
      if bool_decide (fd e ∈ rfds) then
        let rfds := rfds ∖ {[fd e]} in
        match again rfds with
        | None => Some errno
        | Some err => retry_select again h t' rfds err
        end
      else retry_select again h t' rfds errno
  end.

Definition loop_round (again : gset Z -> option Z) (sel : selected) (now : timeval) (s : Loop) : option round :=
  match sel with
  | Ready rfds =>
      s ← processTimeouts now s;
      s ← processReadReadies rfds (Z.of_nat (size rfds)) s;
      s ← firePending s;
      Some (Continue s)
  | SelectError errno =>
      if errno =? EINTR then Some (Continue s)
      else
        err ← retry_select again (objs s) (watch_table s) (readFds s) errno;
        Some (Return (err =? EBADF))
  end.

Fixpoint ril_event_loop (again : gset Z -> option Z) (rounds : list (selected * timeval)) (s : Loop) : option round :=
  match rounds with
  | [] => Some (Continue s)
  | (sel, now) :: rounds' =>
      r ← loop_round again sel now s;
      match r with
      | Continue s' => ril_event_loop again rounds' s'
      | Return report => Some (Return report)
      end
  end.
End Callbacks.

(** * Links *)

Definition nx (h : heap) (a : Z) : option Z := next <$> h !! a.
Definition pv (h : heap) (a : Z) : option Z := prev <$> h !! a.

(** Everything of an event but its links. *)
Definition data (e : ril_event) : Z * Z * bool * timeval * Z :=
  (fd e, index e, persist e, timeout e, func e).

Definition same_data (h h' : heap) : Prop := forall x, data <$> h' !! x = data <$> h !! x.

#[global] Instance same_data_preorder : PreOrder same_data.
Proof. split; [done|]. intros h1 h2 h3 H12 H23 x. by rewrite H23. Qed.

Lemma upd_alter a f h : is_Some (h !! a) -> upd a f h = Some (alter f a h).
Proof.
  intros [e He]. unfold upd. rewrite He. cbn. f_equal. apply map_eq. intros x.
  destruct (decide (x = a)) as [->|Hx].
  - by rewrite lookup_insert_eq, lookup_alter_eq, He.
  - by rewrite lookup_insert_ne, lookup_alter_ne by done.
Qed.

Lemma is_Some_alter a f (h : heap) x : is_Some (alter f a h !! x) <-> is_Some (h !! x).
Proof.
  destruct (decide (x = a)) as [->|Hx].
  - rewrite lookup_alter_eq. apply fmap_is_Some.
  - by rewrite lookup_alter_ne.
Qed.

(** A field that the update leaves alone. *)
Lemma field_alter {A} (g : ril_event -> A) a f (h : heap) x :
  (forall e, g (f e) = g e) -> g <$> alter f a h !! x = g <$> h !! x.
Proof.
  intros Hf. destruct (decide (x = a)) as [->|Hx].
  - rewrite lookup_alter_eq. destruct (h !! a); cbn; [by rewrite Hf|done].
  - by rewrite lookup_alter_ne.
Qed.

Lemma field_set {A} (g : ril_event -> A) a f v (h : heap) x :
  is_Some (h !! a) -> (forall e, g (f e) = v) ->
  g <$> alter f a h !! x = if decide (x = a) then Some v else g <$> h !! x.
Proof.
  intros [e He] Hf. destruct (decide (x = a)) as [->|Hx].
  - rewrite lookup_alter_eq, He. cbn. by rewrite Hf.
  - by rewrite lookup_alter_ne.
Qed.

Lemma nx_set_next a v h x :
  is_Some (h !! a) -> nx (alter (set_next v) a h) x = if decide (x = a) then Some v else nx h x.
Proof. intros. by apply field_set. Qed.

Lemma pv_set_prev a v h x :
  is_Some (h !! a) -> pv (alter (set_prev v) a h) x = if decide (x = a) then Some v else pv h x.
Proof. intros. by apply field_set. Qed.

Lemma nx_set_prev a v h x : nx (alter (set_prev v) a h) x = nx h x.
Proof. by apply field_alter. Qed.

Lemma pv_set_next a v h x : pv (alter (set_next v) a h) x = pv h x.
Proof. by apply field_alter. Qed.

Lemma nx_is_Some h a b : nx h a = Some b -> is_Some (h !! a).
Proof. unfold nx. destruct (h !! a); [by eexists|done]. Qed.

Lemma pv_is_Some h a b : pv h a = Some b -> is_Some (h !! a).
Proof. unfold pv. destruct (h !! a); [by eexists|done]. Qed.

Ltac dom_tac := rewrite ?is_Some_alter; eauto using nx_is_Some, pv_is_Some.

(** What [addToList] does to the links. *)
Lemma addToList_links ev b p h :
  is_Some (h !! ev) -> ev <> b -> pv h b = Some p -> is_Some (h !! p) -> p <> ev ->
  exists h', addToList ev b h = Some h' /\ dom h' = dom h /\ same_data h h' /\
    (forall x, nx h' x = if decide (x = ev) then Some b else if decide (x = p) then Some ev else nx h x) /\
    (forall x, pv h' x = if decide (x = ev) then Some p else if decide (x = b) then Some ev else pv h x).
Proof.
  intros Hev Hne Hb Hp Hpe. unfold addToList. rewrite upd_alter by done. cbn [mbind option_bind].
  rewrite lookup_alter_ne by done. unfold pv in Hb. destruct (h !! b) as [eb|] eqn:Eb; [|done].
  cbn in Hb. injection Hb as Hb. cbn [mbind option_bind]. rewrite Hb.
  rewrite !upd_alter by (rewrite ?is_Some_alter; eauto). cbn [mbind option_bind].
  rewrite !upd_alter by (rewrite ?is_Some_alter; eauto). cbn [mbind option_bind].
  rewrite !upd_alter by (rewrite ?is_Some_alter; eauto).
  eexists. split; [done|]. split; [by rewrite !dom_alter_L|]. split.
  { intros x. by rewrite !field_alter. }
  split; intros x.
  - rewrite nx_set_prev, nx_set_next, nx_set_prev, nx_set_next by (rewrite ?is_Some_alter; eauto).
    repeat case_decide; congruence.
  - rewrite pv_set_prev, pv_set_next, pv_set_prev, pv_set_next by (rewrite ?is_Some_alter; eauto).
    repeat case_decide; congruence.
Qed.

(** What [removeFromList] does to the links. *)
Lemma removeFromList_links ev n p h :
  nx h ev = Some n -> pv h ev = Some p -> n <> ev -> p <> ev -> is_Some (h !! n) -> is_Some (h !! p) ->
  exists h', removeFromList ev h = Some h' /\ dom h' = dom h /\ same_data h h' /\
    (forall x, nx h' x = if decide (x = ev) then Some NULL else if decide (x = p) then Some n else nx h x) /\
    (forall x, pv h' x = if decide (x = ev) then Some NULL else if decide (x = n) then Some p else pv h x).
Proof.
  intros Hn Hp Hne Hpe Hsn Hsp. unfold removeFromList, nx, pv in *.
  destruct (h !! ev) as [e|] eqn:Ee; [|done]. cbn in Hn, Hp. injection Hn as Hn. injection Hp as Hp.
  cbn [mbind option_bind]. rewrite Hn, Hp, upd_alter by done. cbn [mbind option_bind].
  rewrite lookup_alter_ne, Ee by done. cbn [mbind option_bind]. rewrite Hn, Hp.
  rewrite !upd_alter by (rewrite ?is_Some_alter; eauto). cbn [mbind option_bind].
  rewrite !upd_alter by (rewrite ?is_Some_alter; eauto). cbn [mbind option_bind].
  rewrite !upd_alter by (rewrite ?is_Some_alter; eauto).
  eexists. split; [done|]. split; [by rewrite !dom_alter_L|]. split.
  { intros x. by rewrite !field_alter. }
  fold (nx h). fold (pv h). split; intros x.
  - fold (nx (alter (set_prev NULL) ev (alter (set_next NULL) ev (alter (set_next n) p (alter (set_prev p) n h)))) x).
    rewrite nx_set_prev, !nx_set_next, nx_set_prev by (rewrite ?is_Some_alter; eauto).
    repeat case_decide; unfold nx; congruence.
  - fold (pv (alter (set_prev NULL) ev (alter (set_next NULL) ev (alter (set_next n) p (alter (set_prev p) n h)))) x).
    rewrite pv_set_prev, !pv_set_next, pv_set_prev by (rewrite ?is_Some_alter; eauto).
    repeat case_decide; unfold pv; congruence.
Qed.

(** * Rings *)

(** The nodes [l] lie between [a] and [z]. *)
Fixpoint chain (h : heap) (a : Z) (l : list Z) (z : Z) : Prop :=
  match l with
  | [] => nx h a = Some z /\ pv h z = Some a
  | b :: l' => nx h a = Some b /\ pv h b = Some a /\ chain h b l' z
  end.

Definition ring (h : heap) (s : Z) (l : list Z) : Prop := NoDup (s :: l) /\ chain h s l s.

(** The node in front of the end of a chain from [a] through [l]. *)
Definition back (a : Z) (l : list Z) : Z := default a (last l).

Lemma back_cons a b l : back a (b :: l) = back b l.
Proof. unfold back. rewrite last_cons. by destruct (last l). Qed.

Lemma back_elem a l : back a l ∈ a :: l.
Proof.
  revert a. induction l as [|b l IH]; intros a; [by left|]. rewrite back_cons. right. apply IH.
Qed.

Lemma chain_app h a l1 b l2 z : chain h a (l1 ++ b :: l2) z <-> chain h a l1 b /\ chain h b l2 z.
Proof.
  revert a. induction l1 as [|c l1 IH]; intros a; cbn [app chain]; [tauto|]. rewrite IH. tauto.
Qed.

Lemma chain_back h a l z : chain h a l z -> nx h (back a l) = Some z /\ pv h z = Some (back a l).
Proof.
  revert a. induction l as [|b l IH]; intros a; [done|]. intros (_ & _ & H). rewrite back_cons. by apply IH.
Qed.

Lemma chain_dom h a l z x : chain h a l z -> x ∈ a :: l -> is_Some (h !! x).
Proof.
  revert a. induction l as [|b l IH]; intros a H Hx.
  - destruct H as [H _]. apply list_elem_of_singleton in Hx as ->. by eapply nx_is_Some.
  - destruct H as (H1 & H2 & H3). apply elem_of_cons in Hx as [->|Hx]; [by eapply nx_is_Some|by eapply IH].
Qed.

(** Changing the links of other nodes, and where the chain ends. *)
Lemma chain_retarget h h' a l z z' :
  chain h a l z -> NoDup (a :: l) ->
  (forall x, x ∈ a :: l -> x <> back a l -> nx h' x = nx h x) ->
  (forall x, x ∈ l -> pv h' x = pv h x) ->
  nx h' (back a l) = Some z' -> pv h' z' = Some (back a l) -> chain h' a l z'.
Proof.
  revert a. induction l as [|b l IH]; intros a H Hnd Hn Hp H1 H2; [done|].
  rewrite back_cons in *. destruct H as (Ha & Hb & H). apply NoDup_cons in Hnd as [Hnin Hnd].
  cbn [chain]. split_and!.
  - rewrite Hn; [done|by left|]. intros ->. apply Hnin. apply back_elem.
  - rewrite Hp; [done|by left].
  - apply IH; try done.
    + intros x Hx. apply Hn. by right.
    + intros x Hx. apply Hp. by right.
Qed.

Lemma chain_ext h h' a l z :
  chain h a l z -> (forall x, x ∈ a :: l -> nx h' x = nx h x) ->
  (forall x, x ∈ z :: l -> pv h' x = pv h x) -> chain h' a l z.
Proof.
  revert a. induction l as [|b l IH]; intros a H Hn Hp; cbn [chain] in *.
  - rewrite Hn, Hp by (by left). done.
  - destruct H as (H1 & H2 & H3). rewrite Hn, Hp by set_solver. split_and!; [done..|].
    apply IH; set_solver.
Qed.

(** The first node of a list, or the sentinel. *)
Definition front (s : Z) (l : list Z) : Z := default s (head l).

Lemma ring_front h s l : ring h s l -> nx h s = Some (front s l).
Proof. intros [_ H]. destruct l; apply H. Qed.

(** Rings without a common node do not see each other's changes. *)
Definition links_kept (h h' : heap) (l : list Z) : Prop :=
  forall x, x ∉ l -> nx h' x = nx h x /\ pv h' x = pv h x.

Lemma ring_frame h h' s l k :
  ring h s l -> links_kept h h' k -> (forall x, x ∈ s :: l -> x ∉ k) -> ring h' s l.
Proof.
  intros [Hnd H] Hk Hd. split; [done|]. apply (chain_ext h); [done|..];
    intros x Hx; apply Hk, Hd; set_solver.
Qed.

(** Membership of nodes, from the hypotheses about lists of nodes only. *)
Ltac mem :=
  repeat match goal with
  | H : context [nx] |- _ => clear H
  | H : context [pv] |- _ => clear H
  | H : context [chain] |- _ => clear H
  | H : context [same_data] |- _ => clear H
  | H : dom _ = _ |- _ => clear H
  | H : is_Some _ |- _ => clear H
  | H : _ = Some _ |- _ => clear H
  end; set_solver.

(** [addToList] in front of [l2]. *)
Lemma ring_insert h s l1 l2 ev :
  ring h s (l1 ++ l2) -> is_Some (h !! ev) -> ev ∉ s :: l1 ++ l2 ->
  exists h', addToList ev (front s l2) h = Some h' /\ ring h' s (l1 ++ ev :: l2) /\
    same_data h h' /\ dom h' = dom h /\ links_kept h h' (ev :: s :: l1 ++ l2).
Proof.
  intros [Hnd Hc] Hev Hnin. set (b := front s l2). set (p := back s l1).
  assert (Hc1 : chain h s l1 b) by (destruct l2; [by rewrite app_nil_r in Hc|by apply chain_app in Hc as [? _]]).
  destruct (chain_back h s l1 b Hc1) as [Hpn Hpp]. fold p in Hpn, Hpp.
  assert (Hp : p ∈ s :: l1) by apply back_elem.
  assert (Hb : b ∈ s :: l2) by (unfold b, front; destruct l2; cbn; mem).
  destruct (addToList_links ev b p h) as (h' & E & Hdom & Hdat & Hnx & Hpv);
    [done|mem|done|by eapply nx_is_Some|mem|].
  apply NoDup_cons in Hnd as [Hs Hnd]. apply NoDup_app in Hnd as (Hn1 & Hdis & Hn2).
  exists h'. split; [done|]. split_and!; [|done|done|].
  - split.
    { apply NoDup_cons. split; [mem|]. apply NoDup_app.
      split; [done|]. split; [mem|]. apply NoDup_cons. split; [mem|done]. }
    apply chain_app. split.
    + apply (chain_retarget h h' s l1 b ev); [done|apply NoDup_cons; mem|..].
      * intros x Hx Hxp. rewrite Hnx, !decide_False by mem. done.
      * intros x Hx. assert (x <> b) by (unfold b, front; destruct l2; cbn; mem).
        rewrite Hpv, !decide_False by mem. done.
      * fold p. rewrite Hnx, decide_False, decide_True by mem. done.
      * fold p. rewrite Hpv, decide_True by done. done.
    + destruct l2 as [|c l2]; cbn [chain].
      * rewrite Hnx, Hpv, decide_True, decide_False, decide_True by mem. done.
      * change b with c in *. apply chain_app in Hc as [_ Hc2].
        rewrite Hnx, Hpv, decide_True, decide_False, decide_True by mem. split_and!; [done..|].
        apply NoDup_cons in Hn2 as [? ?].
        apply (chain_ext h); [done|..]; intros x Hx.
        -- rewrite Hnx, !decide_False; [done| |intros ->; clear -Hx Hnin; set_solver].
           intros ->. apply elem_of_cons in Hp as [Hp|Hp]; [|by apply (Hdis p)].
           apply Hs, elem_of_app. right. by rewrite <- Hp.
        -- rewrite Hpv, !decide_False; [done|intros ->; clear -Hx Hs H; set_solver
             |intros ->; clear -Hx Hnin; set_solver].
  - intros x Hx. rewrite Hnx, Hpv, !decide_False by mem. done.
Qed.

(** [removeFromList] of a node. *)
Lemma ring_remove h s l1 ev l2 :
  ring h s (l1 ++ ev :: l2) ->
  exists h', removeFromList ev h = Some h' /\ ring h' s (l1 ++ l2) /\
    same_data h h' /\ dom h' = dom h /\ links_kept h h' (s :: l1 ++ ev :: l2).
Proof.
  intros [Hnd Hc]. pose proof Hc as Hc0. apply chain_app in Hc as [Hc1 Hc2].
  destruct (chain_back h s l1 ev Hc1) as [_ Hpp]. set (p := back s l1) in *. set (n := front s l2).
  assert (Hnn : nx h ev = Some n) by (destruct l2; apply Hc2).
  assert (Hp : p ∈ s :: l1) by apply back_elem.
  assert (Hn : n ∈ s :: l2) by (unfold n, front; destruct l2; cbn; mem).
  apply NoDup_cons in Hnd as [Hs Hnd]. apply NoDup_app in Hnd as (Hn1 & Hdis & Hn2).
  apply NoDup_cons in Hn2 as [He Hn2].
  destruct (removeFromList_links ev n p h) as (h' & E & Hdom & Hdat & Hnx & Hpv);
    [done|done|mem|mem|eapply chain_dom; [exact Hc0|mem]
    |eapply chain_dom; [exact Hc0|mem]|].
  exists h'. split; [done|]. split_and!; [|done|done|].
  - split.
    { apply NoDup_cons. split; [mem|]. apply NoDup_app. split; [done|]. split; [mem|done]. }
    assert (Hch : chain h' s l1 n).
    { apply (chain_retarget h h' s l1 ev n); [done|apply NoDup_cons; mem|..].
      - intros x Hx Hxp. rewrite Hnx, !decide_False by mem. done.
      - intros x Hx. assert (x <> n) by (unfold n, front; destruct l2; cbn; mem).
        rewrite Hpv, !decide_False by mem. done.
      - fold p. rewrite Hnx, decide_False, decide_True by mem. done.
      - fold p. rewrite Hpv, decide_False, decide_True by mem. done. }
    destruct l2 as [|c l2]; [by rewrite app_nil_r|]. change n with c in *.
    apply chain_app. split; [done|]. destruct Hc2 as (_ & _ & Hc2).
    apply NoDup_cons in Hn2 as [? ?].
    apply (chain_ext h); [done|..]; intros x Hx.
    + rewrite Hnx, !decide_False; [done| |intros ->; clear -Hx He; set_solver].
      intros ->. apply elem_of_cons in Hp as [Hp|Hp]; [|apply (Hdis p); [done|by right]].
      apply Hs, elem_of_app. right. right. by rewrite <- Hp.
    + rewrite Hpv, !decide_False; [done|intros ->; clear -Hx Hs H; set_solver|intros ->; clear -Hx Hs He; set_solver].
  - intros x Hx. rewrite Hnx, Hpv, !decide_False by mem. done.
Qed.

(** * The invariant *)

Definition fdO (h : heap) (a : Z) : option Z := fd <$> h !! a.
Definition idxO (h : heap) (a : Z) : option Z := index <$> h !! a.
Definition persistO (h : heap) (a : Z) : option bool := persist <$> h !! a.
Definition timeoutO (h : heap) (a : Z) : option timeval := timeout <$> h !! a.

(** When the event is due. *)
Definition deadline (h : heap) (a : Z) : timeval := default (0, 0) (timeoutO h a).

Definition tle (a b : timeval) : Prop := timer_lt b a = false.

(** The timers [T] and the pending events [P] are two separate rings, and the timers are
    in the order of their deadlines. *)
Record links_ok (h : heap) (T P : list Z) : Prop := {
  lk_timer : ring h TIMER_LIST T;
  lk_pending : ring h PENDING_LIST P;
  lk_disj : forall x, x ∈ T -> x ∉ P;
  lk_pos : forall x, x ∈ T ++ P -> 2 < x;
  lk_sorted : StronglySorted (fun a b => tle (deadline h a) (deadline h b)) T
}.

(** The table and the [index] fields describe each other; watched descriptors are
    different, can be in an [fd_set], are below [nfds], and are those of [readFds]. *)
Record table_ok (s : Loop) : Prop := {
  tb_length : length (watch_table s) = MAX_FD_EVENTS;
  tb_slot : forall i a, watch_table s !! i = Some (Some a) ->
    2 < a /\ idxO (objs s) a = Some (Z.of_nat i) /\
    exists f, fdO (objs s) a = Some f /\ 0 <= f < FD_SETSIZE /\ f < nfds s;
  tb_index : forall a i, 2 < a -> idxO (objs s) a = Some i ->
    i = -1 \/ (0 <= i /\ watch_table s !! Z.to_nat i = Some (Some a));
  tb_fds : forall f, f ∈ readFds s <->
    exists i a, watch_table s !! i = Some (Some a) /\ fdO (objs s) a = Some f;
  tb_inj : forall i j a b f, watch_table s !! i = Some (Some a) -> watch_table s !! j = Some (Some b) ->
    fdO (objs s) a = Some f -> fdO (objs s) b = Some f -> i = j
}.

Record wf (s : Loop) (T P : list Z) : Prop := {
  wf_links : links_ok (objs s) T P;
  wf_table : table_ok s;
  wf_timers : forall a, a ∈ T -> idxO (objs s) a = Some (-1)
}.

(** ** Data is not changed by the links *)

Lemma same_data_fields h h' : same_data h h' ->
  (forall x, fdO h' x = fdO h x) /\ (forall x, idxO h' x = idxO h x) /\
  (forall x, persistO h' x = persistO h x) /\ (forall x, deadline h' x = deadline h x).
Proof.
  intros H. unfold deadline, fdO, idxO, persistO, timeoutO.
  split_and!; intros x; specialize (H x); destruct (h !! x), (h' !! x); cbn in *;
    unfold data in *; congruence.
Qed.

Lemma table_ok_data s h : table_ok s -> same_data (objs s) h -> table_ok (with_objs h s).
Proof.
  intros [H1 H2 H3 H4 H5] Hd. apply same_data_fields in Hd as (Hf & Hi & _).
  split; cbn; [done|..].
  - intros i a Ha. rewrite Hf, Hi. by apply H2.
  - intros a i. rewrite Hi. apply H3.
  - intros f. rewrite H4. by setoid_rewrite Hf.
  - intros i j a b f. rewrite !Hf. apply H5.
Qed.

Lemma sorted_data h h' T : (forall x, deadline h' x = deadline h x) ->
  StronglySorted (fun a b => tle (deadline h a) (deadline h b)) T ->
  StronglySorted (fun a b => tle (deadline h' a) (deadline h' b)) T.
Proof.
  intros Hd. induction 1 as [|a T HT IH Ha]; constructor; [done|].
  eapply Forall_impl; [exact Ha|]. intros b. by rewrite !Hd.
Qed.

Lemma ring_dom h s l x : ring h s l -> x ∈ s :: l -> is_Some (h !! x).
Proof. intros [_ H] Hx. by eapply chain_dom. Qed.

Lemma NULL_not_linked h s l x : ring h s l -> 0 < s -> (forall y, y ∈ l -> 0 < y) -> nx h x = Some NULL -> x ∉ s :: l.
Proof.
  intros [Hnd H] Hs Hl Hx Hin.
  assert (Hg : forall a l', chain h a l' s -> (forall y, y ∈ l' -> 0 < y) -> x ∈ a :: l' -> False).
  { clear -Hs Hx. intros a l'. revert a. induction l' as [|b l' IH]; intros a Hc Hp Hin.
    - apply list_elem_of_singleton in Hin as ->. destruct Hc as [Hc _]. unfold NULL in *. rewrite Hc in Hx.
      injection Hx. lia.
    - destruct Hc as (Ha & _ & Hc). apply elem_of_cons in Hin as [->|Hin].
      + rewrite Ha in Hx. injection Hx as ->. specialize (Hp NULL). unfold NULL in Hp.
        assert (0 < 0) by (apply Hp; by left). lia.
      + apply (IH b); [done| |done]. intros y Hy. apply Hp. by right. }
  by apply (Hg s l).
Qed.

(** ** Moving the first timer to the pending events *)

Lemma move_timer h a T P : links_ok h (a :: T) P ->
  exists h1 h2, removeFromList a h = Some h1 /\ addToList a PENDING_LIST h1 = Some h2 /\
    links_ok h2 T (P ++ [a]) /\ same_data h h2 /\ dom h2 = dom h.
Proof.
  intros [HT HP Hd Hpos Hs]. pose proof (ring_dom _ _ _ a HT ltac:(set_solver)) as Ha.
  destruct (ring_remove h TIMER_LIST [] a T HT) as (h1 & E1 & R1 & D1 & M1 & K1).
  assert (Ha2 : 2 < a) by (apply Hpos; set_solver).
  assert (HP1 : ring h1 PENDING_LIST P).
  { eapply ring_frame; [exact HP|exact K1|]. intros x Hx Hx'. cbn in Hx'.
    apply elem_of_cons in Hx as [->|Hx]; apply elem_of_cons in Hx' as [Hx'|Hx']; try done.
    - apply (Z.lt_irrefl 2). apply Hpos. set_solver.
    - subst. assert (2 < TIMER_LIST) by (apply Hpos; set_solver). unfold TIMER_LIST in *. lia.
    - by apply (Hd x). }
  rewrite <- (app_nil_r P) in HP1.
  assert (HaP : a ∉ PENDING_LIST :: P ++ []).
  { rewrite app_nil_r. intros [->|Hx]%elem_of_cons; [unfold PENDING_LIST in *; lia|]. apply (Hd a); [by left|done]. }
  destruct (ring_insert h1 PENDING_LIST P [] a HP1) as (h2 & E2 & R2 & D2 & M2 & K2); [|done|].
  { apply elem_of_dom. rewrite M1. by apply elem_of_dom. }
  exists h1, h2. split; [done|]. split; [done|]. split.
  2:{ split; [by etransitivity|congruence]. }
  assert (Hdis : forall x, x ∈ T -> x ∉ P ++ [a]).
  { intros x Hx [Hx'|Hx']%elem_of_app; [apply (Hd x); [by right|done]|].
    apply list_elem_of_singleton in Hx' as ->. destruct HT as [Hnd _]. apply NoDup_cons in Hnd as [_ Hnd].
    apply NoDup_cons in Hnd as [? _]. done. }
  split; [|done|done|..].
  - eapply ring_frame; [exact R1|exact K2|]. intros x Hx Hx'. rewrite app_nil_r in Hx'. cbn in Hx.
    apply elem_of_cons in Hx as [->|Hx].
    + apply elem_of_cons in Hx' as [Hx'|Hx']; [unfold TIMER_LIST in *; lia|].
      apply elem_of_cons in Hx' as [Hx'|Hx']; [done|].
      assert (2 < TIMER_LIST) by (apply Hpos; set_solver). unfold TIMER_LIST in *. lia.
    + apply elem_of_cons in Hx' as [->|Hx']; [apply (Hdis a); set_solver|].
      apply elem_of_cons in Hx' as [->|Hx'].
      * assert (2 < PENDING_LIST) by (apply Hpos; set_solver). unfold PENDING_LIST in *. lia.
      * apply (Hdis x); set_solver.
  - intros x Hx. apply Hpos. set_solver.
  - assert (D : same_data h h2) by (by etransitivity). apply same_data_fields in D as (_ & _ & _ & D).
    apply (sorted_data h); [done|]. by inversion Hs.
Qed.

(** ** The order of times *)

Lemma timer_lt_spec a b : timer_lt a b = true <-> a.1 < b.1 \/ (a.1 = b.1 /\ a.2 < b.2).
Proof. unfold timer_lt. destruct (Z.eqb_spec a.1 b.1); rewrite Z.ltb_lt; lia. Qed.

Lemma tle_spec a b : tle a b <-> a.1 < b.1 \/ (a.1 = b.1 /\ a.2 <= b.2).
Proof. unfold tle. rewrite <- not_true_iff_false, timer_lt_spec. lia. Qed.

(** The timers before time [t], and the others. *)
Fixpoint until (h : heap) (t : timeval) (T : list Z) : list Z :=
  match T with
  | [] => []
  | a :: T' => if timer_lt (deadline h a) t then a :: until h t T' else []
  end.

Fixpoint from (h : heap) (t : timeval) (T : list Z) : list Z :=
  match T with
  | [] => []
  | a :: T' => if timer_lt (deadline h a) t then from h t T' else T
  end.

Lemma until_from h t T : until h t T ++ from h t T = T.
Proof. induction T as [|a T IH]; cbn; [done|]. destruct (timer_lt _ _); cbn; [by rewrite IH|done]. Qed.

Lemma deadline_data h h' t T : (forall x, deadline h' x = deadline h x) ->
  until h' t T = until h t T /\ from h' t T = from h t T.
Proof.
  intros H. induction T as [|a T [IH1 IH2]]; cbn; [done|]. rewrite H, IH1, IH2. done.
Qed.

Lemma deadline_lookup h a e : h !! a = Some e -> deadline h a = timeout e.
Proof. intros H. unfold deadline, timeoutO. by rewrite H. Qed.

(** ** Due timers *)

Lemma timeouts_loop_spec now T : forall fuel h P,
  links_ok h T P -> (length T <= fuel)%nat ->
  exists h', timeouts_loop fuel now (front TIMER_LIST T) h = Some h' /\
    links_ok h' (from h now T) (P ++ until h now T) /\ same_data h h' /\ dom h' = dom h.
Proof.
  induction T as [|a T IH]; intros fuel h P Hl Hf.
  - exists h. destruct fuel; cbn; rewrite app_nil_r; done.
  - pose proof (lk_pos _ _ _ Hl a ltac:(set_solver)) as Ha.
    pose proof (ring_dom _ _ _ a (lk_timer _ _ _ Hl) ltac:(set_solver)) as [e He].
    destruct fuel as [|fuel]; [cbn in Hf; lia|]. cbn [timeouts_loop front head default from_option id].
    replace (a =? TIMER_LIST) with false by (symmetry; apply Z.eqb_neq; unfold TIMER_LIST; lia).
    rewrite He. cbn [mbind option_bind until from]. rewrite (deadline_lookup h a e He).
    destruct (timer_lt (timeout e) now) eqn:E.
    2:{ exists h. rewrite app_nil_r. done. }
    destruct (move_timer h a T P Hl) as (h1 & h2 & -> & E2 & Hl2 & Hd2 & Hm2). cbn [mbind option_bind].
    rewrite E2. cbn [mbind option_bind].
    pose proof (lk_timer _ _ _ Hl) as [_ Hc].
    assert (Hn : next e = front TIMER_LIST T).
    { destruct Hc as (_ & _ & Hc). assert (Hx : nx h a = Some (front TIMER_LIST T)) by (destruct T; apply Hc).
      unfold nx in Hx. rewrite He in Hx. by injection Hx. }
    rewrite Hn. destruct (IH fuel h2 (P ++ [a]) Hl2) as (h' & -> & Hl' & Hd' & Hm'); [cbn in Hf; lia|].
    exists h'. split; [done|]. pose proof (same_data_fields _ _ Hd2) as (_ & _ & _ & Hdl).
    destruct (deadline_data h h2 now T Hdl) as [Hu Hfr]. rewrite Hu, Hfr, <- app_assoc in Hl'.
    split; [exact Hl'|]. split; [by etransitivity|congruence].
Qed.

(** A ring has no more nodes than the heap. *)
Lemma ring_size h s l : ring h s l -> (length l <= size h)%nat.
Proof.
  intros H. pose proof (proj1 H) as Hnd. apply NoDup_cons in Hnd as [_ Hnd].
  rewrite <- (size_dom (D:=gset Z) h), <- (size_list_to_set (C:=gset Z) l Hnd).
  apply subseteq_size. intros x Hx. apply elem_of_list_to_set in Hx. apply elem_of_dom.
  eapply ring_dom; [exact H|by right].
Qed.

Lemma wf_with_objs s T P h T' P' : wf s T P -> same_data (objs s) h -> links_ok h T' P' ->
  (forall a, a ∈ T' -> a ∈ T) -> wf (with_objs h s) T' P'.
Proof.
  intros [H1 H2 H3] Hd Hl HT. split; [done|by apply table_ok_data|].
  intros a Ha. cbn. apply same_data_fields in Hd as (_ & -> & _). auto.
Qed.

(** Exactly the timers whose deadline has passed become pending, in the order of their
    deadlines. *)
Lemma processTimeouts_spec now s T P : wf s T P ->
  exists s', processTimeouts now s = Some s' /\ wf s' (from (objs s) now T) (P ++ until (objs s) now T) /\
    same_data (objs s) (objs s') /\ watch_table s' = watch_table s /\ readFds s' = readFds s /\ fired s' = fired s.
Proof.
  intros H. pose proof (wf_links _ _ _ H) as Hl. unfold processTimeouts.
  pose proof (ring_front _ _ _ (lk_timer _ _ _ Hl)) as Hf. unfold nx in Hf.
  destruct (objs s !! TIMER_LIST) as [t|]; [|done]. cbn in Hf. injection Hf as Hf. cbn [mbind option_bind]. rewrite Hf.
  destruct (timeouts_loop_spec now T (size (objs s)) (objs s) P Hl) as (h' & -> & Hl' & Hd & Hm).
  { apply (ring_size _ TIMER_LIST). apply Hl. }
  cbn. exists (with_objs h' s). split; [done|]. split; [|done]. apply (wf_with_objs s T P); try done.
  intros a Ha. rewrite <- (until_from (objs s) now T). apply elem_of_app. by right.
Qed.

(** ** Removing a watch *)

Lemma max_fd_spec h t : (forall b, Some b ∈ t -> is_Some (h !! b)) -> forall n,
  exists m, max_fd h n t = Some m /\ n <= m /\ forall b f, Some b ∈ t -> fdO h b = Some f -> f <= m.
Proof.
  induction t as [|[a|] t IH]; intros Ht n.
  - exists n. split_and!; [done|lia|]. intros b f Hb. by apply not_elem_of_nil in Hb.
  - destruct (Ht a ltac:(by left)) as [e He]. cbn [max_fd]. rewrite He. cbn [mbind option_bind].
    destruct (IH ltac:(intros b Hb; apply Ht; by right) (if n <? fd e then fd e else n)) as (m & -> & Hm & Hb).
    exists m. destruct (Z.ltb_spec n (fd e)); (split_and!; [done|lia|]); intros b f Hin Hf;
      (apply elem_of_cons in Hin as [[= ->]|Hin]; [|by eapply Hb]); unfold fdO in Hf; rewrite He in Hf; cbn in Hf;
      injection Hf; lia.
  - destruct (IH ltac:(intros b Hb; apply Ht; by right) n) as (m & E & Hm & Hb). exists m. cbn [max_fd].
    split_and!; [done|done|]. intros b f [?|Hin]%elem_of_cons; [done|]. by apply Hb.
Qed.

Lemma fd_in_set_spec f : Is_true (fd_in_set f) <-> 0 <= f < FD_SETSIZE.
Proof. unfold fd_in_set. rewrite andb_True, !Is_true_true, Z.leb_le, Z.ltb_lt. done. Qed.

(** What an update of the index changes. *)
Lemma idxO_set_index a v h x :
  is_Some (h !! a) -> idxO (alter (set_index v) a h) x = if decide (x = a) then Some v else idxO h x.
Proof. intros. by apply field_set. Qed.

Lemma fdO_set_index a v h x : fdO (alter (set_index v) a h) x = fdO h x.
Proof. by apply field_alter. Qed.

Lemma fdO_is_Some h a f : fdO h a = Some f -> is_Some (h !! a).
Proof. unfold fdO. destruct (h !! a); [by eexists|done]. Qed.

Lemma slot_elem {A} (t : list A) x : x ∈ t <-> exists i, t !! i = Some x.
Proof. apply list_elem_of_lookup. Qed.

Lemma removeWatch_spec a i s f :
  table_ok s -> watch_table s !! i = Some (Some a) -> fdO (objs s) a = Some f ->
  exists s', removeWatch a i s = Some s' /\ table_ok s' /\ objs s' = alter (set_index (-1)) a (objs s) /\
    watch_table s' = <[i := None]> (watch_table s) /\ readFds s' = readFds s ∖ {[f]} /\ fired s' = fired s.
Proof.
  intros Ht Hi Hf. destruct (tb_slot s Ht i a Hi) as (Ha & Hx & f' & Hf' & Hfr & Hfn).
  assert (f' = f) as -> by congruence. pose proof (fdO_is_Some _ _ _ Hf) as He.
  assert (Hil : (i < length (watch_table s))%nat) by (by eapply lookup_lt_Some).
  unfold removeWatch. rewrite upd_alter by done. cbn [mbind option_bind].
  set (h := alter (set_index (-1)) a (objs s)). set (t := <[i := None]> (watch_table s)).
  assert (Hsl : forall j b, t !! j = Some (Some b) -> j <> i /\ watch_table s !! j = Some (Some b)).
  { intros j b Hj. unfold t in Hj. destruct (decide (j = i)) as [->|].
    - rewrite list_lookup_insert_eq in Hj by done. done.
    - by rewrite list_lookup_insert_ne in Hj by done. }
  assert (Hsl' : forall j b, j <> i -> watch_table s !! j = Some (Some b) -> t !! j = Some (Some b)).
  { intros j b Hj Hb. unfold t. by rewrite list_lookup_insert_ne. }
  assert (Hfh : forall x, fdO h x = fdO (objs s) x) by (intros; apply fdO_set_index).
  assert (Hpres : forall b, Some b ∈ t -> is_Some (h !! b)).
  { intros b [j Hj]%slot_elem. apply Hsl in Hj as [_ Hj]. destruct (tb_slot s Ht j b Hj) as (_ & _ & g & Hg & _).
    unfold h. rewrite is_Some_alter. by eapply fdO_is_Some. }
  assert (Hnew : forall n, (forall j b g, t !! j = Some (Some b) -> fdO h b = Some g -> g < n) ->
    table_ok (mkLoop h t (readFds s ∖ {[f]}) n (fired s))).
  { intros n Hn. split; cbn.
    - unfold t. rewrite length_insert. apply Ht.
    - intros j b Hj. pose proof (Hn j b). apply Hsl in Hj as Hj'. destruct Hj' as [Hji Hj'].
      destruct (tb_slot s Ht j b Hj') as (Hb & Hbx & g & Hg & Hgr & _).
      assert (b <> a) by (intros ->; rewrite Hx in Hbx; injection Hbx; lia).
      split; [done|]. split; [unfold h; rewrite idxO_set_index, decide_False by done; done|].
      exists g. rewrite Hfh. split_and!; [done|lia|lia|]. apply (Hn j b); [done|by rewrite Hfh].
    - intros b j Hb Hbj. unfold h in Hbj. rewrite idxO_set_index in Hbj by done.
      case_decide as E; [injection Hbj as <-; by left|].
      destruct (tb_index s Ht b j Hb Hbj) as [?|[Hj0 Hj]]; [by left|right]. split; [done|].
      apply Hsl'; [|done]. intros Hij. subst i. congruence.
    - intros g. rewrite elem_of_difference, elem_of_singleton, (tb_fds s Ht). split.
      + intros [(j & b & Hj & Hg) Hne]. exists j, b. rewrite Hfh. split; [|done]. apply Hsl'; [|done].
        intros ->. congruence.
      + intros (j & b & Hj & Hg). rewrite Hfh in Hg. apply Hsl in Hj as [Hji Hj]. split; [eauto|].
        intros ->. apply Hji. by eapply (tb_inj s Ht).
    - intros j k b c g Hj Hk. rewrite !Hfh. apply Hsl in Hj as [_ Hj]. apply Hsl in Hk as [_ Hk].
      by apply (tb_inj s Ht). }
  assert (Hlk : exists e', h !! a = Some e' /\ fd e' = f).
  { pose proof Hf as Hf2. rewrite <- Hfh in Hf2. unfold fdO in Hf2. destruct (h !! a) as [e'|]; [|done].
    exists e'. split; [done|]. by injection Hf2. }
  destruct Hlk as (e' & -> & Hfe). cbn [mbind option_bind]. rewrite Hfe.
  rewrite option_guard_True by (by apply fd_in_set_spec). cbn [mbind option_bind].
  destruct (f + 1 =? nfds s).
  - destruct (max_fd_spec h t Hpres 0) as (m & -> & _ & Hm). cbn [mbind option_bind].
    eexists. split; [done|]. split; [|done]. apply Hnew. intros j b g Hj Hg.
    enough (g <= m) by lia. apply (Hm b); [|done]. apply slot_elem. eauto.
  - cbn [mbind option_bind]. eexists. split; [done|]. split; [|done]. apply Hnew. intros j b g Hj Hg.
    apply Hsl in Hj as [_ Hj]. destruct (tb_slot s Ht j b Hj) as (_ & _ & g' & Hg' & _ & Hn).
    rewrite Hfh in Hg. assert (g' = g) as -> by congruence. done.
Qed.

(** ** Ready descriptors *)

Definition is_ready (h : heap) (rfds : gset Z) (a : Z) : bool :=
  match fdO h a with Some f => bool_decide (f ∈ rfds) | None => false end.

(** The watched events whose descriptor is ready, in the order of the table. *)
Definition ready (h : heap) (rfds : gset Z) (t : list (option Z)) : list Z :=
  filter (fun a => is_ready h rfds a) (omap id t).

(** The table without the ready events that are not persistent. *)
Definition unwatched (h : heap) (rfds : gset Z) (t : list (option Z)) : list (option Z) :=
  map (fun slot => match slot with
       | Some a => if is_ready h rfds a && negb (default true (persistO h a)) then None else Some a
       | None => None
       end) t.

(** Everything but links and index. *)
Definition same_attrs (h h' : heap) : Prop :=
  forall x, fdO h' x = fdO h x /\ persistO h' x = persistO h x /\ deadline h' x = deadline h x.

#[global] Instance same_attrs_preorder : PreOrder same_attrs.
Proof.
  split; [done|]. intros h1 h2 h3 H12 H23 x. destruct (H12 x) as (<- & <- & <-). apply H23.
Qed.

Lemma same_data_attrs h h' : same_data h h' -> same_attrs h h'.
Proof. intros (H1 & _ & H2 & H3)%same_data_fields x. auto. Qed.

Lemma set_index_attrs a v h : same_attrs h (alter (set_index v) a h).
Proof.
  intros x. unfold fdO, persistO, deadline, timeoutO. rewrite !field_alter by done. done.
Qed.

Lemma ready_attrs h h' rfds t : same_attrs h h' ->
  ready h' rfds t = ready h rfds t /\ unwatched h' rfds t = unwatched h rfds t.
Proof.
  intros H. assert (Hr : forall a, is_ready h' rfds a = is_ready h rfds a).
  { intros a. unfold is_ready. by rewrite (proj1 (H a)). }
  split.
  - unfold ready. apply list_filter_iff. intros a. by rewrite Hr.
  - unfold unwatched. apply map_ext. intros [a|]; [|done]. destruct (H a) as (_ & -> & _). by rewrite Hr.
Qed.

(** Links stay when only an index changes. *)
Lemma links_set_index a v h T P : links_ok h T P -> links_ok (alter (set_index v) a h) T P.
Proof.
  intros [H1 H2 H3 H4 H5]. pose proof (set_index_attrs a v h) as Ha.
  assert (Hk : links_kept h (alter (set_index v) a h) []).
  { intros x _. split; by apply field_alter. }
  split; [by eapply ring_frame; eauto; set_solver|by eapply ring_frame; eauto; set_solver|done|done|].
  apply (sorted_data h); [|done]. intros x. apply Ha.
Qed.

(** Appending an event to the pending events. *)
Lemma add_pending h a T P : links_ok h T P -> is_Some (h !! a) -> 2 < a -> a ∉ T -> a ∉ P ->
  exists h', addToList a PENDING_LIST h = Some h' /\ links_ok h' T (P ++ [a]) /\ same_data h h'.
Proof.
  intros [HT HP Hd Hpos Hs] Ha Ha2 HaT HaP. pose proof HP as HP0. rewrite <- (app_nil_r P) in HP.
  destruct (ring_insert h PENDING_LIST P [] a HP) as (h' & E & R & D & M & K); [done| |].
  { rewrite app_nil_r. intros [->|?]%elem_of_cons; [unfold PENDING_LIST in *; lia|done]. }
  exists h'. split; [done|]. split; [|done]. rewrite app_nil_r in K. split; [|done|..].
  - eapply ring_frame; [exact HT|exact K|]. intros x [->|Hx]%elem_of_cons.
    + rewrite !elem_of_cons. intros [?|[?|Hx]]; [unfold TIMER_LIST in *; lia|done|].
      assert (2 < TIMER_LIST) by (apply Hpos; set_solver). unfold TIMER_LIST in *. lia.
    + rewrite !elem_of_cons. intros [->|[->|Hx']]; [done| |by apply (Hd x)].
      assert (2 < PENDING_LIST) by (apply Hpos; set_solver). unfold PENDING_LIST in *. lia.
  - intros x Hx. rewrite elem_of_app, list_elem_of_singleton. intros [?| ->]; [by apply (Hd x)|done].
  - intros x. rewrite !elem_of_app, list_elem_of_singleton. intros [?|[?| ->]]; [..|done]; apply Hpos; set_solver.
  - apply (sorted_data h); [|done]. intros x. by apply same_data_attrs.
Qed.

Lemma wf_timer_unwatched s T P i a : wf s T P -> watch_table s !! i = Some (Some a) -> a ∉ T.
Proof.
  intros H Hi Ha. destruct (tb_slot s (wf_table _ _ _ H) i a Hi) as (_ & Hx & _).
  rewrite (wf_timers _ _ _ H a Ha) in Hx. injection Hx. lia.
Qed.

(** One ready event: it becomes pending, and is no longer watched unless it is persistent. *)
Lemma ready_one s T P i a e rfds :
  wf s T P -> watch_table s !! i = Some (Some a) -> objs s !! a = Some e -> a ∉ P ->
  is_ready (objs s) rfds a = true ->
  exists h s', addToList a PENDING_LIST (objs s) = Some h /\
    (if persist e then Some (with_objs h s) else removeWatch a i (with_objs h s)) = Some s' /\
    wf s' T (P ++ [a]) /\ same_attrs (objs s) (objs s') /\ fired s' = fired s /\
    watch_table s' = (if persist e then watch_table s else <[i := None]> (watch_table s)) /\
    (forall x, x <> a -> idxO (objs s') x = idxO (objs s) x) /\
    (exists j, idxO (objs s') a = Some j /\ j <= Z.of_nat i).
Proof.
  intros H Hi He HaP Hr. pose proof (wf_timer_unwatched _ _ _ _ _ H Hi) as HaT.
  destruct (tb_slot s (wf_table _ _ _ H) i a Hi) as (Ha & Hx & f & Hf & _).
  destruct (add_pending (objs s) a T P) as (h & E & Hl & Hd); [by apply H|by eexists|done..|].
  pose proof (same_data_fields _ _ Hd) as (Hfd & Hix & _).
  assert (Hw : wf (with_objs h s) T (P ++ [a])) by (by apply (wf_with_objs s T P)).
  exists h. destruct (persist e).
  - exists (with_objs h s). split; [done|]. split; [done|]. split; [done|]. split; [by apply same_data_attrs|].
    split_and!; [done|done| |]; cbn; [auto|]. rewrite Hix, Hx. eauto with lia.
  - destruct (removeWatch_spec a i (with_objs h s) f) as (s' & E' & Ht & Ho & Hwt & _ & Hfi); [by apply Hw|done| |].
    { cbn. by rewrite Hfd. }
    assert (Hsome : is_Some (h !! a)) by (apply (fdO_is_Some h a f); by rewrite Hfd).
    exists s'. split; [done|]. split; [done|]. cbn in Ho, Hwt, Hfi.
    split; [|split; [|split_and!; [done|done|..]]].
    + split; [rewrite Ho; by apply links_set_index|done|].
      intros x HxT. rewrite Ho, idxO_set_index by done. case_decide as Ex; [done|]. rewrite Hix. by apply H.
    + rewrite Ho. etransitivity; [by apply same_data_attrs|apply set_index_attrs].
    + intros x Hxa. rewrite Ho, idxO_set_index, decide_False, Hix by done. done.
    + exists (-1). rewrite Ho, idxO_set_index, decide_True by done. split; [done|lia].
Qed.

Lemma ready_cons h rfds slot t : ready h rfds (slot :: t) =
  match slot with
  | Some a => if is_ready h rfds a then a :: ready h rfds t else ready h rfds t
  | None => ready h rfds t
  end.
Proof.
  unfold ready. destruct slot as [a|]; [|done]. cbn [omap list_omap id]. rewrite filter_cons.
  destruct (is_ready h rfds a); [by rewrite decide_True|by rewrite decide_False by (intros [])].
Qed.

Lemma ready_nil_unwatched h rfds t : ready h rfds t = [] -> unwatched h rfds t = t.
Proof.
  induction t as [|[a|] t IH]; intros H; [done|..]; rewrite ready_cons in H; cbn [unwatched map].
  - destruct (is_ready h rfds a) eqn:E; [done|]. cbn [andb]. f_equal. by apply IH.
  - f_equal. by apply IH.
Qed.

Lemma drop_S_lookup {A} (t : list A) i x : t !! i = Some x -> drop i t = x :: drop (S i) t.
Proof. intros H. apply drop_S. done. Qed.

Lemma readies_loop_spec rfds : forall k i s T P,
  wf s T P -> (i + k = MAX_FD_EVENTS)%nat ->
  (forall x, x ∈ P -> exists j, idxO (objs s) x = Some j /\ j < Z.of_nat i) ->
  exists s', readies_loop k i rfds (zlen (ready (objs s) rfds (drop i (watch_table s)))) s = Some s' /\
    wf s' T (P ++ ready (objs s) rfds (drop i (watch_table s))) /\
    same_attrs (objs s) (objs s') /\ fired s' = fired s /\
    watch_table s' = take i (watch_table s) ++ unwatched (objs s) rfds (drop i (watch_table s)).
Proof.
  induction k as [|k IH]; intros i s T P H Hik HP; pose proof (tb_length s (wf_table _ _ _ H)) as Hlen.
  - rewrite drop_ge by lia. exists s. cbn. rewrite !app_nil_r, take_ge by lia. done.
  - destruct (watch_table s !! i) as [slot|] eqn:Hi; [|apply lookup_ge_None in Hi; lia].
    pose proof (drop_S_lookup _ _ _ Hi) as Hdrop. cbn [readies_loop].
    destruct (ready (objs s) rfds (drop i (watch_table s))) as [|r R] eqn:ER.
    { exists s. rewrite ready_nil_unwatched, take_drop, app_nil_r by done. done. }
    rewrite <- ER. destruct (Z.ltb_spec 0 (zlen (ready (objs s) rfds (drop i (watch_table s))))) as [_|Hbad];
      [|rewrite ER, zlen_cons in Hbad; pose proof (zlen_nonneg R); lia].
    clear r R ER. rewrite Hi. cbn [mbind option_bind]. rewrite Hdrop, ready_cons.
    assert (Htake : forall (t : list (option Z)) x, t !! i = Some x -> take i t ++ [x] = take (S i) t)
      by (intros t x Hx; symmetry; by apply take_S_r).
    destruct slot as [a|].
    2:{ destruct (IH (S i) s T P) as (s' & E & Hw & Ha & Hf & Hwt); [done|lia| |].
        { intros x Hx. destruct (HP x Hx) as (j & ? & ?). exists j. split; [done|lia]. }
        exists s'. split_and!; try done. rewrite Hwt. cbn [unwatched map].
        by rewrite <- (Htake _ _ Hi), <- app_assoc. }
    destruct (tb_slot s (wf_table _ _ _ H) i a Hi) as (Ha & Hx & f & Hf & Hfr & _).
    pose proof Hf as Hf0. unfold fdO in Hf0. destruct (objs s !! a) as [e|] eqn:He; [|done].
    cbn in Hf0. injection Hf0 as Hf0. cbn [mbind option_bind]. rewrite Hf0.
    rewrite option_guard_True by (by apply fd_in_set_spec). cbn [mbind option_bind].
    assert (Hr : is_ready (objs s) rfds a = bool_decide (f ∈ rfds)) by (unfold is_ready; by rewrite Hf).
    assert (Hpe : persistO (objs s) a = Some (persist e)) by (unfold persistO; by rewrite He).
    rewrite <- Hr. destruct (is_ready (objs s) rfds a) eqn:Er.
    + assert (HaP : a ∉ P).
      { intros HaP. destruct (HP a HaP) as (j & Hj & ?). rewrite Hx in Hj. injection Hj. lia. }
      destruct (ready_one s T P i a e rfds) as (h & s1 & -> & E1 & Hw1 & Ha1 & Hf1 & Hwt1 & Hi1 & Hi1'); try done.
      cbn [mbind option_bind]. rewrite E1. cbn [mbind option_bind].
      assert (Hd1 : drop (S i) (watch_table s1) = drop (S i) (watch_table s)).
      { rewrite Hwt1. destruct (persist e); [done|]. by rewrite drop_insert_lt by lia. }
      destruct (IH (S i) s1 T (P ++ [a])) as (s' & E & Hw & Ha' & Hf' & Hwt); [done|lia| |].
      { intros x [Hx'|Hx']%elem_of_app.
        - assert (x <> a) by (intros ->; done). rewrite Hi1 by done. destruct (HP x Hx') as (j & ? & ?).
          exists j. split; [done|lia].
        - apply list_elem_of_singleton in Hx' as ->. destruct Hi1' as (j & ? & ?). exists j. split; [done|lia]. }
      destruct (ready_attrs (objs s) (objs s1) rfds (drop (S i) (watch_table s)) Ha1) as [Hrd Hun].
      rewrite Hd1, Hrd in E, Hw. rewrite Hd1, Hun in Hwt. rewrite <- app_assoc in Hw.
      exists s'. rewrite zlen_cons. replace (1 + _ - 1) with (zlen (ready (objs s) rfds (drop (S i) (watch_table s)))) by lia.
      split_and!; [done|done|by etransitivity|congruence|]. rewrite Hwt, Hwt1.
      cbn [unwatched map]. rewrite Er, Hpe. cbn [default from_option id andb].
      destruct (persist e); cbn [negb].
      * by rewrite <- (Htake _ _ Hi), <- app_assoc.
      * rewrite <- (Htake (<[i:=None]> (watch_table s)) None) by (apply list_lookup_insert_eq; lia).
        by rewrite take_insert_ge, <- app_assoc by lia.
    + destruct (IH (S i) s T P) as (s' & E & Hw & Ha' & Hf' & Hwt); [done|lia| |].
      { intros x Hx'. destruct (HP x Hx') as (j & ? & ?). exists j. split; [done|lia]. }
      exists s'. split_and!; try done. rewrite Hwt. cbn [unwatched map]. rewrite Er. cbn [andb].
      by rewrite <- (Htake _ _ Hi), <- app_assoc.
Qed.

(** ** How many descriptors are ready *)

Definition fds_of (h : heap) (t : list (option Z)) : gset Z :=
  list_to_set (omap (fun slot => slot ≫= fdO h) t).

Lemma elem_fds_of h t f : f ∈ fds_of h t <-> exists i a, t !! i = Some (Some a) /\ fdO h a = Some f.
Proof.
  unfold fds_of. rewrite elem_of_list_to_set, list_elem_of_omap. split.
  - intros ([a|] & Hin & Hf); [|done]. apply slot_elem in Hin as [i Hi]. eauto.
  - intros (i & a & Hi & Hf). exists (Some a). split; [apply slot_elem; eauto|done].
Qed.

Lemma ready_size h rfds t :
  (forall i j a b f, t !! i = Some (Some a) -> t !! j = Some (Some b) ->
    fdO h a = Some f -> fdO h b = Some f -> i = j) ->
  size (rfds ∩ fds_of h t) = length (ready h rfds t).
Proof.
  induction t as [|slot t IH]; intros Hinj.
  - unfold fds_of. cbn. by rewrite intersection_empty_r_L, size_empty.
  - assert (Hinj' : forall i j a b f, t !! i = Some (Some a) -> t !! j = Some (Some b) ->
      fdO h a = Some f -> fdO h b = Some f -> i = j).
    { intros i j a b f Hi Hj Ha Hb. specialize (Hinj (S i) (S j) a b f Hi Hj Ha Hb). lia. }
    specialize (IH Hinj'). rewrite ready_cons. unfold fds_of. cbn [omap list_omap].
    destruct slot as [a|]; [|exact IH]. cbn [mbind option_bind]. unfold is_ready.
    destruct (fdO h a) as [f|] eqn:Ef; [|exact IH]. cbn [list_to_set foldr]. fold (fds_of h t).
    assert (Hf : f ∉ fds_of h t).
    { intros (j & b & Hj & Hb)%elem_fds_of. specialize (Hinj O (S j) a b f eq_refl Hj Ef Hb). done. }
    rewrite intersection_union_l_L. case_bool_decide as Hin.
    + replace (rfds ∩ {[f]}) with ({[f]} : gset Z) by set_solver.
      rewrite size_union, size_singleton, IH by set_solver. done.
    + replace (rfds ∩ {[f]}) with (∅ : gset Z) by set_solver. by rewrite union_empty_l_L, IH.
Qed.

(** When [select] reports descriptors of its argument, their number is that of the ready events. *)
Lemma ready_count s rfds : table_ok s -> rfds ⊆ readFds s ->
  Z.of_nat (size rfds) = zlen (ready (objs s) rfds (watch_table s)).
Proof.
  intros Ht Hs. unfold zlen. f_equal. rewrite <- ready_size by apply Ht. f_equal.
  apply set_eq. intros f. rewrite elem_of_intersection, elem_fds_of, <- (tb_fds s Ht). set_solver.
Qed.

Lemma processReadReadies_spec rfds s T P :
  wf s T P -> rfds ⊆ readFds s -> (forall x, x ∈ P -> idxO (objs s) x = Some (-1)) ->
  exists s', processReadReadies rfds (Z.of_nat (size rfds)) s = Some s' /\
    wf s' T (P ++ ready (objs s) rfds (watch_table s)) /\ same_attrs (objs s) (objs s') /\
    fired s' = fired s /\ watch_table s' = unwatched (objs s) rfds (watch_table s).
Proof.
  intros H Hr HP. unfold processReadReadies. rewrite (ready_count s) by (done || apply H).
  destruct (readies_loop_spec rfds MAX_FD_EVENTS 0 s T P H eq_refl) as (s' & E & Hw & Ha & Hf & Hwt).
  { intros x Hx. exists (-1). split; [by apply HP|lia]. }
  rewrite drop_0 in *. exists s'. done.
Qed.

(** ** Adding timers *)

Lemma find_place_spec t h P T0 : forall Ta fuel,
  links_ok h (Ta ++ T0) P -> (length T0 <= fuel)%nat ->
  find_place fuel t (front TIMER_LIST T0) h = Some (front TIMER_LIST (from h t T0)).
Proof.
  induction T0 as [|a T0 IH]; intros Ta fuel Hl Hf.
  - destruct (ring_dom _ _ _ TIMER_LIST (lk_timer _ _ _ Hl) ltac:(by left)) as [e He].
    destruct fuel; cbn [find_place front head default from_option id from]; rewrite He; cbn [mbind option_bind];
      by rewrite Z.eqb_refl, andb_false_r.
  - assert (Ha : a ∈ Ta ++ a :: T0) by set_solver.
    destruct (ring_dom _ _ _ a (lk_timer _ _ _ Hl) ltac:(by right)) as [e He].
    pose proof (lk_pos _ _ _ Hl a ltac:(set_solver)) as Ha2.
    destruct fuel as [|fuel]; [cbn in Hf; lia|]. cbn [find_place front head default from_option id from].
    rewrite He. cbn [mbind option_bind]. rewrite (deadline_lookup h a e He).
    replace (a =? TIMER_LIST) with false by (symmetry; apply Z.eqb_neq; unfold TIMER_LIST; lia).
    rewrite andb_true_r. destruct (timer_lt (timeout e) t); [|done].
    assert (Hn : next e = front TIMER_LIST T0).
    { pose proof (lk_timer _ _ _ Hl) as [_ Hc]. apply chain_app in Hc as [_ Hc].
      assert (Hx : nx h a = Some (front TIMER_LIST T0)) by (destruct T0; apply Hc).
      unfold nx in Hx. rewrite He in Hx. by injection Hx. }
    rewrite Hn. apply (IH (Ta ++ [a])); [by rewrite <- app_assoc|cbn in Hf; lia].
Qed.

(** ** Calls on an event that is not in use *)

(** The event is in no list and not watched. *)
Definition idle (s : Loop) (ev : Z) : bool :=
  match objs s !! ev with
  | Some e => (2 <? ev) && (next e =? NULL) && (index e =? -1)
  | None => false
  end.

Lemma idle_spec s T P ev : wf s T P -> idle s ev = true ->
  2 < ev /\ is_Some (objs s !! ev) /\ idxO (objs s) ev = Some (-1) /\ (ev ∉ TIMER_LIST :: T) /\
  (ev ∉ PENDING_LIST :: P) /\ forall i, watch_table s !! i <> Some (Some ev).
Proof.
  intros H Hi. unfold idle in Hi. destruct (objs s !! ev) as [e|] eqn:He; [|done].
  apply andb_prop in Hi as [Hi Hx]. apply andb_prop in Hi as [Hp Hn].
  apply Z.ltb_lt in Hp. apply Z.eqb_eq in Hn, Hx.
  assert (Hix : idxO (objs s) ev = Some (-1)) by (unfold idxO; rewrite He; cbn; by rewrite Hx).
  assert (Hnx : nx (objs s) ev = Some NULL) by (unfold nx; rewrite He; cbn; by rewrite Hn).
  destruct (wf_links _ _ _ H) as [HT HP _ Hpos _].
  split_and!; [done|by eexists|done|..].
  - eapply NULL_not_linked; [exact HT|done| |done]. intros y Hy. specialize (Hpos y). set_solver by lia.
  - eapply NULL_not_linked; [exact HP|done| |done]. intros y Hy. specialize (Hpos y). set_solver by lia.
  - intros i Hs. destruct (tb_slot s (wf_table _ _ _ H) i ev Hs) as (_ & Hj & _). rewrite Hix in Hj. injection Hj. lia.
Qed.

(** The invariant does not see a change of an event that is not in use. *)
Lemma wf_idle_change s T P ev h : wf s T P -> idle s ev = true ->
  (forall x, x <> ev -> h !! x = objs s !! x) -> idxO h ev = Some (-1) -> wf (with_objs h s) T P.
Proof.
  intros H Hi Hx Hev. destruct (idle_spec s T P ev H Hi) as (Hp & _ & _ & HT & HP & Hw).
  destruct H as [[H1 H2 H3 H4 H5] [G1 G2 G3 G4 G5] Hti].
  assert (Hk : links_kept (objs s) h [ev]).
  { intros x Hxe. unfold nx, pv. rewrite !Hx by set_solver. done. }
  assert (Hne : forall i a, watch_table s !! i = Some (Some a) -> a <> ev).
  { intros i a Ha ->. by apply (Hw i). }
  assert (Hfd : forall x, x <> ev -> fdO h x = fdO (objs s) x) by (intros; unfold fdO; by rewrite Hx).
  split; [split|split|]; cbn; try done.
  - eapply ring_frame; [exact H1|exact Hk|]. set_solver.
  - eapply ring_frame; [exact H2|exact Hk|]. set_solver.
  - assert (Hd : forall x, x ∈ T -> deadline h x = deadline (objs s) x).
    { intros x HxT. unfold deadline, timeoutO. rewrite Hx; [done|]. intros ->. set_solver. }
    clear -H5 Hd. induction H5 as [|a T HT IH Ha]; constructor.
    + apply IH. intros x Hx. apply Hd. by right.
    + apply Forall_forall. intros b Hb. rewrite !Hd by (by left || by right). by eapply Forall_forall in Ha.
  - intros i a Ha. pose proof (Hne i a Ha). rewrite Hfd by done. unfold idxO. rewrite Hx by done. by apply G2.
  - intros a i Ha Hai. destruct (decide (a = ev)) as [->|Hne']; [left; congruence|].
    unfold idxO in Hai. rewrite Hx in Hai by done. by apply G3.
  - intros f. rewrite G4. split; intros (i & a & Hia & Hf); exists i, a; (split; [done|]);
      [rewrite Hfd by eauto|rewrite Hfd in Hf by eauto]; done.
  - intros i j a b f Hia Hjb Ha Hb. rewrite Hfd in Ha, Hb by eauto. by eapply G5.
  - intros a Ha. unfold idxO. rewrite Hx; [by apply Hti|]. intros ->. set_solver.
Qed.

(** A sorted list stays sorted when an event is put in front of the first that is not earlier. *)
Lemma sorted_insert h t T ev :
  StronglySorted (fun a b => tle (deadline h a) (deadline h b)) T -> deadline h ev = t ->
  StronglySorted (fun a b => tle (deadline h a) (deadline h b)) (until h t T ++ ev :: from h t T).
Proof.
  intros Hs Ht. induction Hs as [|a T HT IH Ha]; cbn [until from app].
  - repeat constructor.
  - destruct (timer_lt (deadline h a) t) eqn:E; cbn [app].
    + constructor; [done|]. rewrite Forall_app, Forall_cons. pose proof (until_from h t T) as Hu.
      rewrite <- Hu, Forall_app in Ha. destruct Ha as [Ha1 Ha2]. split_and!; [done| |done].
      apply timer_lt_spec in E. apply tle_spec. rewrite Ht. lia.
    + assert (Hea : tle (deadline h ev) (deadline h a)) by (rewrite Ht; exact E).
      constructor; [by constructor|]. constructor; [done|]. eapply Forall_impl; [exact Ha|]. intros b Hb.
      cbn in Hb. apply tle_spec in Hea, Hb. apply tle_spec. lia.
Qed.

(** Inserting an event into the list of timers. *)
Lemma insert_timer h T P ev t :
  links_ok h T P -> is_Some (h !! ev) -> 2 < ev -> ev ∉ TIMER_LIST :: T -> ev ∉ PENDING_LIST :: P ->
  deadline h ev = t ->
  exists h', addToList ev (front TIMER_LIST (from h t T)) h = Some h' /\
    links_ok h' (until h t T ++ ev :: from h t T) P /\ same_data h h'.
Proof.
  intros [HT HP Hd Hpos Hs] Hev Hp HevT HevP Ht.
  assert (HuT : forall x, x ∈ until h t T ++ ev :: from h t T <-> x = ev \/ x ∈ T).
  { intros x. rewrite <- (until_from h t T) at 3. rewrite !elem_of_app, elem_of_cons. tauto. }
  destruct (ring_insert h TIMER_LIST (until h t T) (from h t T) ev) as (h' & E & R & D & M & K);
    rewrite ?until_from; try done.
  rewrite until_from in K. exists h'. split; [done|]. split; [|done].
  apply same_data_fields in D as (_ & _ & _ & D). split; [done|..].
  - eapply ring_frame; [exact HP|exact K|]. intros x Hx. rewrite !elem_of_cons. intros [->|[->|HxT]]; [done| |].
    + apply elem_of_cons in Hx as [?|Hx]; [done|]. assert (2 < TIMER_LIST) by (apply Hpos; set_solver).
      unfold TIMER_LIST in *. lia.
    + apply elem_of_cons in Hx as [->|Hx]; [|by apply (Hd x)].
      assert (2 < PENDING_LIST) by (apply Hpos; set_solver). unfold PENDING_LIST in *. lia.
  - intros x. rewrite HuT. intros [->|Hx]; [set_solver|by apply Hd].
  - intros x. rewrite elem_of_app, HuT. intros [[->|Hx]|Hx]; [done|..]; apply Hpos; set_solver.
  - apply (sorted_data h); [done|]. by apply sorted_insert.
Qed.

Lemma ril_timer_add_spec ev tv now s T P : wf s T P -> idle s ev = true ->
  let t := timeradd now tv in
  exists s', ril_timer_add ev (Some tv) now s = Some s' /\
    wf s' (until (objs s) t T ++ ev :: from (objs s) t T) P /\ fired s' = fired s /\
    deadline (objs s') ev = t /\ (forall x, x <> ev -> deadline (objs s') x = deadline (objs s) x) /\
    watch_table s' = watch_table s /\ readFds s' = readFds s.
Proof.
  intros H Hi t. destruct (idle_spec s T P ev H Hi) as (Hp & Hsome & Hix & HT & HP & Hw).
  set (h := alter (set_timeout t) ev (alter (set_fd (-1)) ev (objs s))).
  assert (Hx : forall x, x <> ev -> h !! x = objs s !! x)
    by (intros x Hx; unfold h; by rewrite !lookup_alter_ne by done).
  assert (Hixh : idxO h ev = Some (-1)) by (unfold h, idxO; by rewrite !field_alter).
  assert (Hdl : deadline h ev = t).
  { unfold deadline, timeoutO, h. rewrite (field_set _ _ _ t); [by rewrite decide_True|by rewrite is_Some_alter|done]. }
  assert (Hdx : forall x, x <> ev -> deadline h x = deadline (objs s) x)
    by (intros x Hne; unfold deadline, timeoutO; by rewrite Hx).
  assert (Hwh : wf (with_objs h s) T P) by (by apply (wf_idle_change s T P ev)).
  assert (Huf : until h t T = until (objs s) t T /\ from h t T = from (objs s) t T).
  { assert (HxT : forall x, x ∈ T -> deadline h x = deadline (objs s) x) by (intros x HxT; apply Hdx; set_solver).
    clear -HxT. induction T as [|a T IH]; cbn; [done|]. rewrite HxT by (by left).
    destruct IH as [-> ->]; [|done]. intros x Hx. apply HxT. by right. }
  destruct Huf as [Hu Hf].
  destruct (insert_timer h T P ev t) as (h' & E & Hl & Hd); try done; [by apply Hwh|unfold h; by rewrite !is_Some_alter|].
  pose proof (ring_front _ _ _ (lk_timer _ _ _ (wf_links _ _ _ H))) as Hfr. unfold nx in Hfr.
  unfold ril_timer_add. destruct (objs s !! TIMER_LIST) as [e|]; [|done]. cbn in Hfr. injection Hfr as Hfr.
  cbn [mbind option_bind]. rewrite !upd_alter by (rewrite ?is_Some_alter; done). cbn [mbind option_bind].
  rewrite upd_alter by (by rewrite is_Some_alter). cbn [mbind option_bind]. fold t h. rewrite Hfr.
  rewrite (find_place_spec t h P T []); [|by apply Hwh|apply (ring_size _ TIMER_LIST); apply Hwh].
  cbn [mbind option_bind]. rewrite E. cbn [mbind option_bind].
  exists (with_objs h' s). rewrite Hu, Hf in Hl. pose proof (same_data_fields _ _ Hd) as (_ & Hidx' & _ & Hdl').
  split; [done|]. split.
  { split; [done|exact (table_ok_data (with_objs h s) h' (wf_table _ _ _ Hwh) Hd)|]. cbn. intros x Hx'. rewrite Hidx'.
    assert (x = ev \/ x ∈ T) as [->|HxT]; [|done|by apply (wf_timers _ _ _ Hwh)].
    rewrite <- (until_from (objs s) t T). set_solver. }
  cbn. split_and!; [done|by rewrite Hdl'| |done|done]. intros x Hne. by rewrite Hdl', Hdx.
Qed.

(** ** Adding and deleting watches *)

Lemma free_slot_spec t i : free_slot t = Some i -> t !! i = Some None.
Proof.
  revert i. induction t as [|[a|] t IH]; intros i Hi; cbn in Hi; [done| |by injection Hi as <-].
  destruct (free_slot t) as [j|]; [|done]. cbn in Hi. injection Hi as <-. cbn. by apply IH.
Qed.

Definition fd_of (s : Loop) (ev : Z) : Z := default (-1) (fdO (objs s) ev).

Lemma watch_added s i ev f :
  table_ok s -> watch_table s !! i = Some None -> 2 < ev -> fdO (objs s) ev = Some f ->
  0 <= f < FD_SETSIZE -> f ∉ readFds s -> (forall j, watch_table s !! j <> Some (Some ev)) ->
  table_ok (mkLoop (alter (set_index (Z.of_nat i)) ev (objs s)) (<[i := Some ev]> (watch_table s))
    ({[f]} ∪ readFds s) (if nfds s <=? f then f + 1 else nfds s) (fired s)).
Proof.
  intros [H1 H2 H3 H4 H5] Hi Hp Hf Hr Hnew Hw. pose proof (fdO_is_Some _ _ _ Hf) as Hsome.
  assert (Hil : (i < length (watch_table s))%nat) by (by eapply lookup_lt_Some).
  assert (Hsl : forall j b, <[i := Some ev]> (watch_table s) !! j = Some (Some b) <->
    (j = i /\ b = ev) \/ (j <> i /\ watch_table s !! j = Some (Some b))).
  { intros j b. destruct (decide (j = i)) as [->|Hne].
    - rewrite list_lookup_insert_eq by done. split; [intros [= ->]; by left|]. by intros [[_ ->]|[? _]].
    - rewrite list_lookup_insert_ne by done. split; [by right|]. by intros [[? _]|[_ ?]]. }
  split; cbn.
  - by rewrite length_insert.
  - intros j b [[-> ->]|[Hj Hb]]%Hsl; rewrite fdO_set_index, idxO_set_index by done.
    + rewrite decide_True by done. split_and!; [done|done|]. exists f. split; [done|]. destruct (Z.leb_spec (nfds s) f); lia.
    + rewrite decide_False by (intros ->; by apply (Hw j)). destruct (H2 j b Hb) as (? & ? & g & ? & ? & ?).
      split_and!; [done|done|]. exists g. split; [done|]. destruct (Z.leb_spec (nfds s) f); lia.
  - intros a j Ha Hj. rewrite idxO_set_index in Hj by done. case_decide as E.
    + injection Hj as <-. right. split; [lia|]. rewrite Nat2Z.id. apply Hsl. by left.
    + destruct (H3 a j Ha Hj) as [?|[? Hs]]; [by left|right]. split; [done|]. apply Hsl. right. split; [|done].
      intros Heq. rewrite Heq, Hi in Hs. done.
  - intros g. rewrite elem_of_union, elem_of_singleton, H4. split.
    + intros [->|(j & a & Hj & Ha)].
      * exists i, ev. rewrite fdO_set_index. split; [apply Hsl; by left|done].
      * exists j, a. rewrite fdO_set_index. split; [|done]. apply Hsl. right. split; [|done]. intros ->. congruence.
    + intros (j & a & [[-> ->]|[Hj Ha]]%Hsl & Hg); rewrite fdO_set_index in Hg; [left; congruence|right; eauto].
  - assert (Hno : forall j b, watch_table s !! j = Some (Some b) -> fdO (objs s) b <> Some f).
    { intros j b Hj Hb. apply Hnew, H4. eauto. }
    intros j k a b g [[-> ->]|[Hj Ha]]%Hsl [[-> ->]|[Hk Hb]]%Hsl; rewrite !fdO_set_index; intros Hga Hgb.
    + done.
    + exfalso. apply (Hno k b); [done|]. congruence.
    + exfalso. apply (Hno j a); [done|]. congruence.
    + by eapply H5.
Qed.

Lemma ril_event_add_spec ev s T P :
  wf s T P -> idle s ev = true -> fd_in_set (fd_of s ev) = true -> fd_of s ev ∉ readFds s ->
  exists s', ril_event_add ev s = Some s' /\ wf s' T P /\ fired s' = fired s /\
    (free_slot (watch_table s) <> None -> fd_of s ev ∈ readFds s').
Proof.
  intros H Hi Hfd Hnew. destruct (idle_spec s T P ev H Hi) as (Hp & Hsome & Hix & HT & HP & Hw).
  unfold ril_event_add. destruct (free_slot (watch_table s)) as [i|] eqn:Ei.
  2:{ exists s. split_and!; try done. }
  assert (Hf : fdO (objs s) ev = Some (fd_of s ev)).
  { unfold fd_of, fdO. destruct Hsome as [e ->]. done. }
  assert (Hr : 0 <= fd_of s ev < FD_SETSIZE) by (apply fd_in_set_spec; by rewrite Hfd).
  rewrite upd_alter by done. cbn [mbind option_bind].
  pose proof (watch_added s i ev (fd_of s ev) (wf_table _ _ _ H) (free_slot_spec _ _ Ei) Hp Hf Hr Hnew Hw) as Ht.
  assert (Hlk : exists e, alter (set_index (Z.of_nat i)) ev (objs s) !! ev = Some e /\ fd e = fd_of s ev).
  { pose proof (fdO_set_index ev (Z.of_nat i) (objs s) ev) as Hg. rewrite Hf in Hg. unfold fdO in Hg.
    destruct (alter _ _ _ !! ev) as [e|]; [|done]. exists e. split; [done|]. by injection Hg. }
  destruct Hlk as (e & -> & Hfe). cbn [mbind option_bind]. rewrite Hfe.
  rewrite option_guard_True by (by rewrite Hfd). cbn [mbind option_bind].
  eexists. split; [done|]. split; [|split; [done|cbn; set_solver]].
  split; [apply links_set_index; apply H|exact Ht|]. cbn. intros a Ha.
  rewrite idxO_set_index, decide_False by (done || (intros ->; set_solver)). by apply H.
Qed.

Lemma ril_event_del_spec ev s T P : wf s T P -> 2 < ev -> is_Some (objs s !! ev) ->
  exists s', ril_event_del ev s = Some s' /\ wf s' T P /\ fired s' = fired s.
Proof.
  intros H Hp [e He]. unfold ril_event_del. rewrite He. cbn [mbind option_bind].
  destruct ((index e <? 0) || _) eqn:E; [exists s; done|]. apply orb_false_iff in E as [E1 E2].
  apply Z.ltb_ge in E1. assert (Hx : idxO (objs s) ev = Some (index e)) by (unfold idxO; by rewrite He).
  destruct (tb_index s (wf_table _ _ _ H) ev (index e) Hp Hx) as [?|[_ Hs]]; [lia|].
  destruct (removeWatch_spec ev _ s (fd e) (wf_table _ _ _ H) Hs) as (s' & E' & Ht & Ho & _ & _ & Hf).
  { unfold fdO. by rewrite He. }
  exists s'. split; [done|]. split; [|done]. split; [rewrite Ho; apply links_set_index; apply H|done|].
  intros a Ha. rewrite Ho, idxO_set_index by (by eexists). case_decide; [done|]. by apply H.
Qed.

Lemma ril_event_set_spec ev f p fn s T P : wf s T P -> idle s ev = true ->
  exists s', ril_event_set ev f p fn s = Some s' /\ wf s' T P /\ fired s' = fired s.
Proof.
  intros H Hi. destruct (idle_spec s T P ev H Hi) as (_ & Hsome & _).
  unfold ril_event_set. rewrite upd_alter by done. cbn [mbind option_bind].
  eexists. split; [done|]. split; [|done]. apply (wf_idle_change s T P ev); try done.
  - intros x Hx. by rewrite lookup_alter_ne.
  - unfold idxO. rewrite (field_set _ _ _ (-1)) by done. by rewrite decide_True.
Qed.

(** * Callbacks *)

(** A callback uses the interface as it is meant: it sets, adds or times only events that
    are not in use, and watches only descriptors that are not watched yet. *)
Definition op_ok (o : op) (s : Loop) : bool :=
  match o with
  | OpSet ev _ _ _ | OpTimer ev _ _ => idle s ev
  | OpAdd ev => idle s ev && fd_in_set (fd_of s ev) && negb (bool_decide (fd_of s ev ∈ readFds s))
  | OpDel ev => (2 <? ev) && bool_decide (is_Some (objs s !! ev))
  end.

Fixpoint ops_ok (os : list op) (s : Loop) : bool :=
  match os with
  | [] => true
  | o :: os' => op_ok o s && match run_op o s with Some s' => ops_ok os' s' | None => false end
  end.

(** The timers stay with their deadlines. *)
Definition timers_kept (s s' : Loop) (T T' : list Z) : Prop :=
  forall a, a ∈ T -> a ∈ T' /\ deadline (objs s') a = deadline (objs s) a.

Lemma timers_kept_trans s1 s2 s3 T1 T2 T3 :
  timers_kept s1 s2 T1 T2 -> timers_kept s2 s3 T2 T3 -> timers_kept s1 s3 T1 T3.
Proof. intros H1 H2 a [Ha <-]%H1. by apply H2. Qed.

Lemma deadline_set_index a v h x : deadline (alter (set_index v) a h) x = deadline h x.
Proof. apply set_index_attrs. Qed.

(** The timers after a call. *)
Definition op_timers (o : op) (s : Loop) (T : list Z) : list Z :=
  match o with
  | OpTimer ev tv now => let t := timeradd now tv in until (objs s) t T ++ ev :: from (objs s) t T
  | _ => T
  end.

Fixpoint ops_timers (os : list op) (s : Loop) (T : list Z) : list Z :=
  match os with
  | [] => T
  | o :: os' => match run_op o s with Some s' => ops_timers os' s' (op_timers o s T) | None => T end
  end.

Lemma run_op_spec o s T P : wf s T P -> op_ok o s = true ->
  exists s', run_op o s = Some s' /\ wf s' (op_timers o s T) P /\ fired s' = fired s /\
    timers_kept s s' T (op_timers o s T).
Proof.
  intros H Ho. destruct o as [ev f p fn|ev|ev tv now|ev]; cbn [run_op op_ok op_timers] in *.
  - destruct (ril_event_set_spec ev f p fn s T P H Ho) as (s' & E & Hw & Hf). exists s'. split_and!; try done.
    destruct (idle_spec s T P ev H Ho) as (_ & Hsome & _ & HT & _). unfold ril_event_set in E.
    rewrite upd_alter in E by done. injection E as <-. intros a Ha. split; [done|]. cbn.
    unfold deadline, timeoutO. rewrite lookup_alter_ne; [done|]. intros ->. set_solver.
  - apply andb_prop in Ho as [Ho Hn]. apply andb_prop in Ho as [Hi Hfd]. apply negb_true_iff, bool_decide_eq_false in Hn.
    destruct (ril_event_add_spec ev s T P H Hi Hfd Hn) as (s' & E & Hw & Hf & _). exists s'. split_and!; try done.
    destruct (idle_spec s T P ev H Hi) as (_ & Hsome & _). unfold ril_event_add in E.
    destruct (free_slot _); [|by injection E as <-]. rewrite upd_alter in E by done. cbn [mbind option_bind] in E.
    destruct (alter _ _ _ !! ev) as [e|]; [|done]. cbn [mbind option_bind] in E.
    destruct (guard _); [|done]. injection E as <-. intros a Ha. split; [done|]. apply deadline_set_index.
  - destruct (ril_timer_add_spec ev tv now s T P H Ho) as (s' & E & Hw & Hf & _ & Hd & _).
    exists s'. split; [done|]. split; [done|]. split; [done|]. intros a Ha.
    destruct (idle_spec s T P ev H Ho) as (_ & _ & _ & HT & _).
    rewrite Hd by (intros ->; set_solver). split; [|done].
    rewrite <- (until_from (objs s) (timeradd now tv) T) in Ha. set_solver.
  - apply andb_prop in Ho as [Hp Hs]. apply Z.ltb_lt in Hp. apply bool_decide_eq_true in Hs.
    destruct (ril_event_del_spec ev s T P H Hp Hs) as (s' & E & Hw & Hf). exists s'. split_and!; try done.
    destruct Hs as [e He]. unfold ril_event_del in E. rewrite He in E. cbn [mbind option_bind] in E.
    destruct (_ || _); [by injection E as <-|]. unfold removeWatch in E. rewrite upd_alter in E by (by eexists).
    cbn [mbind option_bind] in E. destruct (alter _ _ _ !! ev) as [e'|]; [|done]. cbn [mbind option_bind] in E.
    destruct (guard _); [|done]. cbn [mbind option_bind] in E.
    intros a Ha. split; [done|]. destruct (_ =? _); [destruct (max_fd _ _ _); [|done]|]; injection E as <-;
      apply deadline_set_index.
Qed.

Lemma run_ops_spec os s T P : wf s T P -> ops_ok os s = true ->
  exists s', run_ops os s = Some s' /\ wf s' (ops_timers os s T) P /\ fired s' = fired s /\
    timers_kept s s' T (ops_timers os s T).
Proof.
  revert s T. induction os as [|o os IH]; intros s T H Ho; [exists s; done|].
  cbn [ops_ok run_ops ops_timers] in *. apply andb_prop in Ho as [Ho Hos].
  destruct (run_op_spec o s T P H Ho) as (s1 & E & H1 & Hf1 & Hk1). rewrite E in *. cbn [mbind option_bind].
  destruct (IH s1 _ H1 Hos) as (s2 & -> & H2 & Hf2 & Hk2). exists s2.
  split_and!; [done|done|congruence|]. by eapply timers_kept_trans.
Qed.

(** ** Calling the pending events *)

Lemma take_pending s T a P : wf s T (a :: P) ->
  exists h, removeFromList a (objs s) = Some h /\
    wf (mkLoop h (watch_table s) (readFds s) (nfds s) (fired s ++ [a])) T P /\ same_data (objs s) h.
Proof.
  intros H. destruct (wf_links _ _ _ H) as [HT HP Hd Hpos Hs].
  destruct (ring_remove (objs s) PENDING_LIST [] a P HP) as (h & E & R & D & M & K).
  exists h. split; [done|]. split; [|done].
  assert (Hl : links_ok h T P).
  { split; [|done|..].
    - eapply ring_frame; [exact HT|exact K|]. cbn [app]. intros x [->|Hx]%elem_of_cons; rewrite elem_of_cons.
      + intros [?|Hx]; [done|]. assert (2 < TIMER_LIST) by (apply Hpos; set_solver). unfold TIMER_LIST in *. lia.
      + intros [->|Hx']; [|by apply (Hd x)]. assert (2 < PENDING_LIST) by (apply Hpos; set_solver).
        unfold PENDING_LIST in *. lia.
    - intros x Hx Hx'. apply (Hd x); [done|by right].
    - intros x Hx. apply Hpos. set_solver.
    - apply (sorted_data (objs s)); [|done]. intros x. by apply same_data_attrs. }
  pose proof (wf_with_objs s T (a :: P) h T P H D Hl ltac:(auto)) as [G1 [F1 F2 F3 F4 F5] G3].
  split; [done| |done]. by split.
Qed.

(** The timers whose deadline has passed. *)
Definition due (h : heap) (now : timeval) (T : list Z) : list Z :=
  filter (fun a => timer_lt (deadline h a) now) T.

Lemma until_due h now T : StronglySorted (fun a b => tle (deadline h a) (deadline h b)) T ->
  until h now T = due h now T.
Proof.
  intros Hs. induction Hs as [|a T HT IH Ha]; [done|]. cbn [until]. unfold due in *. rewrite filter_cons.
  destruct (timer_lt (deadline h a) now) eqn:E.
  - rewrite decide_True by done. by rewrite IH.
  - rewrite decide_False by (intros []). rewrite <- IH. destruct T as [|b T]; [done|]. cbn [until].
    apply Forall_cons in Ha as [Hb _]. apply tle_spec in Hb.
    replace (timer_lt (deadline h b) now) with false; [done|]. symmetry. apply not_true_iff_false.
    apply not_true_iff_false in E. rewrite timer_lt_spec in *. lia.
Qed.

(** What is due and what is ready is queued. *)
Lemma round_queues rfds now s T : wf s T [] -> rfds ⊆ readFds s ->
  exists s1, processTimeouts now s ≫= processReadReadies rfds (Z.of_nat (size rfds)) = Some s1 /\
    wf s1 (from (objs s) now T) (due (objs s) now T ++ ready (objs s) rfds (watch_table s)) /\
    fired s1 = fired s /\ watch_table s1 = unwatched (objs s) rfds (watch_table s) /\ same_attrs (objs s) (objs s1).
Proof.
  intros H Hr. rewrite <- until_due by apply H.
  destruct (processTimeouts_spec now s T [] H) as (s1 & -> & H1 & Hd1 & Hw1 & Hr1 & Hf1). cbn [mbind option_bind app].
  cbn [app] in H1. destruct (same_data_fields _ _ Hd1) as (_ & Hi1 & _).
  destruct (processReadReadies_spec rfds s1 _ _ H1) as (s2 & -> & H2 & Ha2 & Hf2 & Hw2).
  { by rewrite Hr1. }
  { intros x Hx. rewrite Hi1. apply H. rewrite <- (until_from (objs s) now T). set_solver. }
  destruct (ready_attrs (objs s) (objs s1) rfds (watch_table s) (same_data_attrs _ _ Hd1)) as [Hrd Hun].
  rewrite Hw1, Hrd in H2. rewrite Hw1, Hun in Hw2. exists s2. split_and!; [done|done|congruence|done|].
  etransitivity; [by apply same_data_attrs|done].
Qed.

Section Fire.
Context (callback : Z -> list op).

(** Every callback that [fire_loop] calls keeps to the interface. *)
Fixpoint fire_ok (fuel : nat) (ev : Z) (s : Loop) : bool :=
  if ev =? PENDING_LIST then true
  else
    match fuel, objs s !! ev, removeFromList ev (objs s) with
    | S fuel', Some e, Some h =>
        let s := mkLoop h (watch_table s) (readFds s) (nfds s) (fired s ++ [ev]) in
        ops_ok (callback ev) s &&
        match run_ops (callback ev) s with Some s' => fire_ok fuel' (next e) s' | None => false end
    | _, _, _ => false
    end.

Definition pending_ok (s : Loop) : bool :=
  match objs s !! PENDING_LIST with
  | Some p => fire_ok (size (objs s)) (next p) s
  | None => false
  end.

Lemma fire_loop_spec P : forall fuel s T, wf s T P ->
  fire_ok fuel (front PENDING_LIST P) s = true ->
  exists s' T', fire_loop callback fuel (front PENDING_LIST P) s = Some s' /\ wf s' T' [] /\
    fired s' = fired s ++ P /\ timers_kept s s' T T'.
Proof.
  induction P as [|a P IH]; intros fuel s T H Hok.
  - exists s, T. rewrite app_nil_r. destruct fuel; done.
  - pose proof (wf_links _ _ _ H) as Hl. pose proof (lk_pos _ _ _ Hl a ltac:(set_solver)) as Ha.
    destruct (ring_dom _ _ _ a (lk_pending _ _ _ Hl) ltac:(set_solver)) as [e He].
    destruct (take_pending s T a P H) as (h & E & Hw & Hd).
    assert (Hn : next e = front PENDING_LIST P).
    { pose proof (lk_pending _ _ _ Hl) as [_ Hc]. destruct Hc as (_ & _ & Hc).
      assert (Hx : nx (objs s) a = Some (front PENDING_LIST P)) by (destruct P; apply Hc).
      unfold nx in Hx. rewrite He in Hx. by injection Hx. }
    cbn [front head default from_option id] in *.
    assert (Hne : (a =? PENDING_LIST) = false) by (apply Z.eqb_neq; unfold PENDING_LIST; lia).
    destruct fuel as [|fuel]; cbn [fire_loop fire_ok] in *; rewrite Hne in *; [done|].
    rewrite He, E in *. cbn [mbind option_bind]. apply andb_prop in Hok as [Ho Hok].
    set (s1 := mkLoop h _ _ _ _) in *.
    destruct (run_ops_spec (callback a) s1 T P Hw Ho) as (s2 & E2 & H2 & Hf2 & Hk2).
    rewrite E2 in *. cbn [mbind option_bind]. rewrite Hn in *.
    destruct (IH fuel s2 _ H2 Hok) as (s3 & T3 & -> & H3 & Hf3 & Hk3).
    exists s3, T3. split; [done|]. split; [done|]. split.
    + rewrite Hf3, Hf2. unfold s1. cbn. by rewrite <- app_assoc.
    + assert (Hk1 : timers_kept s s1 T T).
      { intros x Hx. split; [done|]. unfold s1. cbn. by apply same_data_attrs. }
      eapply timers_kept_trans; [exact Hk1|]. eapply timers_kept_trans; [exact Hk2|exact Hk3].
Qed.

Lemma firePending_spec s T P : wf s T P -> pending_ok s = true ->
  exists s' T', firePending callback s = Some s' /\ wf s' T' [] /\ fired s' = fired s ++ P /\ timers_kept s s' T T'.
Proof.
  intros H Hok. unfold firePending, pending_ok in *.
  pose proof (ring_front _ _ _ (lk_pending _ _ _ (wf_links _ _ _ H))) as Hf. unfold nx in Hf.
  destruct (objs s !! PENDING_LIST) as [p|]; [|done]. cbn in Hf. injection Hf as Hf.
  cbn [mbind option_bind]. rewrite Hf in *. by apply fire_loop_spec.
Qed.

(** ** Rounds of the loop *)

(** The callbacks of a round keep to the interface, and [select] reports descriptors it was
    asked about. *)
Definition round_ok (sel : selected) (now : timeval) (s : Loop) : bool :=
  match sel with
  | Ready rfds =>
      bool_decide (rfds ⊆ readFds s) &&
      match processTimeouts now s ≫= processReadReadies rfds (Z.of_nat (size rfds)) with
      | Some s1 => pending_ok s1
      | None => false
      end
  | SelectError errno => errno =? EINTR
  end.

Definition round_fires (sel : selected) (now : timeval) (s : Loop) (T : list Z) : list Z :=
  match sel with
  | Ready rfds => due (objs s) now T ++ ready (objs s) rfds (watch_table s)
  | SelectError _ => []
  end.

Lemma elem_due h now T a : a ∈ due h now T <-> timer_lt (deadline h a) now = true /\ a ∈ T.
Proof. unfold due. rewrite list_elem_of_filter. by rewrite Is_true_true. Qed.

Lemma elem_ready h rfds t a : a ∈ ready h rfds t -> exists i, t !! i = Some (Some a).
Proof.
  unfold ready. rewrite list_elem_of_filter, list_elem_of_omap. intros (_ & [b|] & Hin & Hb); [|done].
  cbn in Hb. injection Hb as ->. by apply slot_elem.
Qed.

Lemma option_bind_assoc {A B C} (x : option A) (g : A -> option B) (k : B -> option C) :
  x ≫= (fun a => g a ≫= k) = (x ≫= g) ≫= k.
Proof. by destruct x. Qed.

Lemma loop_round_ready again rfds now s : loop_round callback again (Ready rfds) now s =
  (processTimeouts now s ≫= processReadReadies rfds (Z.of_nat (size rfds))) ≫=
  fun s1 => firePending callback s1 ≫= fun s2 => Some (Continue s2).
Proof. exact (option_bind_assoc _ _ _). Qed.

Lemma round_spec again sel now s T : wf s T [] -> round_ok sel now s = true ->
  exists s' T', loop_round callback again sel now s = Some (Continue s') /\ wf s' T' [] /\
    fired s' = fired s ++ round_fires sel now s T /\
    forall a, a ∈ T -> a ∉ round_fires sel now s T -> a ∈ T' /\ deadline (objs s') a = deadline (objs s) a.
Proof.
  intros H Hok. destruct sel as [rfds|errno]; cbn [round_ok round_fires] in *.
  2:{ exists s, T. cbn [loop_round]. rewrite Hok, app_nil_r. done. }
  rewrite loop_round_ready. apply andb_prop in Hok as [Hr Hok]. apply bool_decide_eq_true in Hr.
  destruct (round_queues rfds now s T H Hr) as (s1 & E1 & H1 & Hf1 & _ & Ha1). rewrite E1 in Hok |- *.
  destruct (firePending_spec s1 _ _ H1 Hok) as (s2 & T2 & E2 & H2 & Hf2 & Hk2).
  cbn [mbind option_bind]. rewrite E2. cbn [mbind option_bind].
  exists s2, T2. split; [done|]. split; [done|]. split; [congruence|]. intros a Ha Hn.
  assert (Haf : a ∈ from (objs s) now T).
  { rewrite <- (until_from (objs s) now T) in Ha. rewrite until_due in Ha by apply H. set_solver. }
  destruct (Hk2 a Haf) as [? ->]. split; [done|]. apply Ha1.
Qed.

(** All rounds of a run are as [round_ok] says. *)
Fixpoint rounds_ok (again : gset Z -> option Z) (rounds : list (selected * timeval)) (s : Loop) : bool :=
  match rounds with
  | [] => true
  | (sel, now) :: rounds' =>
      round_ok sel now s &&
      match loop_round callback again sel now s with
      | Some (Continue s') => rounds_ok again rounds' s'
      | _ => false
      end
  end.

(** Until its deadline has passed a timer waits and is not called. *)
Lemma timer_waits again rounds2 ev d : forall rounds s T,
  wf s T [] -> ev ∈ T -> deadline (objs s) ev = d -> rounds_ok again (rounds ++ rounds2) s = true ->
  Forall (fun r => timer_lt d r.2 = false) rounds ->
  exists s' T' l, ril_event_loop callback again rounds s = Some (Continue s') /\ wf s' T' [] /\ ev ∈ T' /\
    deadline (objs s') ev = d /\ fired s' = fired s ++ l /\ (ev ∉ l) /\ rounds_ok again rounds2 s' = true.
Proof.
  induction rounds as [|[sel now] rounds IH]; intros s T H Hev Hd Hok Hall.
  - exists s, T, []. rewrite app_nil_r. split_and!; try done. apply not_elem_of_nil.
  - cbn [app rounds_ok] in Hok. apply andb_prop in Hok as [Hr Hok]. apply Forall_cons in Hall as [Hn Hall]. cbn in Hn.
    assert (Hnf : ev ∉ round_fires sel now s T).
    { destruct sel as [rfds|]; [|apply not_elem_of_nil]. cbn [round_fires]. rewrite elem_of_app, elem_due, Hd.
      intros [[? _]|(i & Hi)%elem_ready]; [congruence|]. by apply (wf_timer_unwatched _ _ _ _ _ H Hi). }
    destruct (round_spec again sel now s T H Hr) as (s1 & T1 & E & H1 & Hf1 & Hk). rewrite E in Hok.
    destruct (Hk ev Hev Hnf) as [Hev1 Hd1]. rewrite Hd in Hd1.
    destruct (IH s1 T1 H1 Hev1 Hd1 Hok Hall) as (s2 & T2 & l & E2 & H2 & Hev2 & Hd2 & Hf2 & Hl & Hok2).
    exists s2, T2, (round_fires sel now s T ++ l). cbn [ril_event_loop]. rewrite E. cbn [mbind option_bind].
    split_and!; try done; [by rewrite Hf2, Hf1, app_assoc|set_solver].
Qed.

Lemma loop_app again rounds1 rounds2 s s1 : ril_event_loop callback again rounds1 s = Some (Continue s1) ->
  ril_event_loop callback again (rounds1 ++ rounds2) s = ril_event_loop callback again rounds2 s1.
Proof.
  revert s. induction rounds1 as [|[sel now] r IH]; intros s E; cbn in *; [by injection E as ->|].
  destruct (loop_round callback again sel now s) as [[s'|]|]; cbn in *; [by apply IH|done..].
Qed.
End Fire.

(** * Theorems *)



(** Before any event is known the tables are empty. *)
Lemma wf_init s : (forall a i, 2 < a -> idxO (objs s) a = Some i -> i = -1) -> nfds s = 0 ->
  wf (ril_event_init s) [] [].
Proof.
  intros Hi Hn. assert (Hnone : forall i (a : Z), repeat None MAX_FD_EVENTS !! i <> Some (Some a)).
  { intros i a E. apply list_elem_of_lookup_2, list_elem_of_In, repeat_spec in E. done. }
  split; [split|split|]; cbn [ril_event_init objs watch_table readFds nfds].
  - split; [apply NoDup_singleton|]. split; unfold nx, pv, init_list;
      by rewrite lookup_insert_ne, lookup_insert_eq by done.
  - split; [apply NoDup_singleton|]. split; unfold nx, pv, init_list; by rewrite lookup_insert_eq.
  - intros x Hx. by apply not_elem_of_nil in Hx.
  - intros x Hx. by apply not_elem_of_nil in Hx.
  - constructor.
  - done.
  - intros i a E. by apply Hnone in E.
  - intros a i Ha E. left. apply (Hi a); [done|]. unfold idxO, init_list in *.
    rewrite !lookup_insert_ne in E by (unfold PENDING_LIST, TIMER_LIST; lia). done.
  - intros f. split; [set_solver|]. intros (i & a & E & _). by apply Hnone in E.
  - intros i j a b f E. by apply Hnone in E.
  - intros a Ha. by apply not_elem_of_nil in Ha.
Qed.

Definition normal (t : timeval) : Prop := 0 <= t.2 < 1000000.

Lemma timersub_normal a b : normal a -> normal b -> timer_lt b a = true ->
  normal (timersub a b) /\ 0 <= (timersub a b).1 /\ timeradd b (timersub a b) = a.
Proof.
  destruct a as [sa ua], b as [sb ub]. unfold normal, timersub, timeradd. rewrite timer_lt_spec. cbn. intros Ha Hb Hlt.
  destruct (Z.ltb_spec (ua - ub) 0); cbn; (split_and!; [lia|lia|lia|]).
  - destruct (Z.leb_spec 1000000 (ub + (ua - ub + 1000000))); f_equal; lia.
  - destruct (Z.leb_spec 1000000 (ub + (ua - ub))); f_equal; lia.
Qed.

Lemma calcNextTimeout_first now s a T P : wf s (a :: T) P ->
  let d := deadline (objs s) a in
  calcNextTimeout now s = Some (Some (if timer_lt now d then timersub d now else (0, 0))).
Proof.
  intros H. pose proof (wf_links _ _ _ H) as Hl.
  pose proof (ring_front _ _ _ (lk_timer _ _ _ Hl)) as Hf. unfold nx in Hf.
  unfold calcNextTimeout. destruct (objs s !! TIMER_LIST) as [t|]; [|done]. cbn in Hf. injection Hf as Hf.
  cbn [mbind option_bind]. rewrite Hf. pose proof (lk_pos _ _ _ Hl a ltac:(set_solver)) as Hp.
  replace (a =? TIMER_LIST) with false by (symmetry; apply Z.eqb_neq; unfold TIMER_LIST; lia).
  destruct (ring_dom _ _ _ a (lk_timer _ _ _ Hl) ltac:(set_solver)) as [e He]. rewrite He. cbn [mbind option_bind].
  by rewrite (deadline_lookup _ _ _ He).
Qed.

(** [calcNextTimeout] lets [select] sleep exactly until the earliest deadline: no timer is
    earlier than the first one, the time returned is a proper time value, added to the present
    time it gives that deadline, and it is zero when the deadline has been reached. *)
Theorem sleeps_until_first_deadline now s a T P :
  wf s (a :: T) P -> normal now -> normal (deadline (objs s) a) ->
  exists r, calcNextTimeout now s = Some (Some r) /\ 0 <= r.1 /\ normal r /\
    (tle now (deadline (objs s) a) -> timeradd now r = deadline (objs s) a) /\
    (tle (deadline (objs s) a) now -> r = (0, 0)) /\
    forall b, b ∈ T -> tle (deadline (objs s) a) (deadline (objs s) b).
Proof.
  intros H Hnow Ha. pose proof (wf_links _ _ _ H) as Hl. rewrite (calcNextTimeout_first now s a T P H).
  set (d := deadline (objs s) a) in *.
  assert (Hs : forall b, b ∈ T -> tle d (deadline (objs s) b)).
  { pose proof (lk_sorted _ _ _ Hl) as Hs. inversion Hs as [|? ? _ Hall]. subst. intros b Hb.
    by eapply Forall_forall in Hall. }
  destruct (timer_lt now d) eqn:E.
  - destruct (timersub_normal d now Ha Hnow E) as (H1 & H2 & H3). eexists. split; [done|]. split_and!; try done.
    intros Hle. unfold tle in Hle. congruence.
  - eexists. split; [done|]. split_and!; try done. intros Hle. unfold tle in *.
    apply not_true_iff_false in E, Hle. rewrite timer_lt_spec in E, Hle. unfold timeradd. cbn.
    destruct now as [sn un], d as [sd ud]. cbn in *. unfold normal in Hnow. cbn in Hnow.
    destruct (Z.leb_spec 1000000 (un + 0)); f_equal; lia.
Qed.

(** * A run *)

(** Three events: 10 and 12 are timers, 11 watches descriptor 5.  The callback of 11 watches
    its descriptor again. *)
Definition ex_start : Loop :=
  mkLoop (<[10 := mkEvent 0 0 (-1) (-1) false (0, 0) 100]>
          (<[11 := mkEvent 0 0 5 (-1) false (0, 0) 101]>
           (<[12 := mkEvent 0 0 (-1) (-1) false (0, 0) 102]> ∅))) [] ∅ 0 [].

Definition ex_ops : list op :=
  [OpTimer 10 (1, 500000) (20, 0); OpAdd 11; OpTimer 12 (1, 0) (20, 0)].

Definition ex_callback (ev : Z) : list op := if ev =? 11 then [OpAdd 11] else [].

Definition ex_state : Loop := default ex_start (run_ops ex_ops (ril_event_init ex_start)).

Lemma ex_wf : wf ex_state [12; 10] [].
Proof.
  assert (H : wf (ril_event_init ex_start) [] []).
  { apply wf_init; [|done]. intros a i Ha Hi. unfold ex_start, idxO in Hi. cbn [objs] in Hi.
    destruct (decide (a = 10)) as [->|]; [by injection Hi|]. rewrite lookup_insert_ne in Hi by done.
    destruct (decide (a = 11)) as [->|]; [by injection Hi|]. rewrite lookup_insert_ne in Hi by done.
    destruct (decide (a = 12)) as [->|]; [by injection Hi|]. by rewrite lookup_insert_ne in Hi. }
  destruct (run_ops_spec ex_ops _ [] [] H) as (s' & E & Hw & _); [by vm_compute|].
  unfold ex_state. rewrite E. cbn [default from_option id].
  replace [12; 10] with (ops_timers ex_ops (ril_event_init ex_start) []) by (by vm_compute). done.
Qed.

Definition ex_rounds : list (selected * timeval) := [(Ready {[5]}, (20, 700000)); (SelectError EINTR, (21, 0))].


(** The callbacks of the run keep to the interface, and the run calls 12 and then 11. *)
Example ex_round :
  match loop_round ex_callback (fun _ => None) (Ready {[5]}) (21, 1) ex_state with
  | Some (Continue s) => fired s = [12; 11] /\ readFds s = {[5]}
  | _ => False
  end.
Proof. vm_compute. split; reflexivity. Qed.


Lemma sleeps_until_first_deadline_witness :
  exists r, calcNextTimeout (20, 400000) ex_state = Some (Some r) /\ 0 <= r.1 /\ normal r /\
    (tle (20, 400000) (deadline (objs ex_state) 12) -> timeradd (20, 400000) r = deadline (objs ex_state) 12) /\
    (tle (deadline (objs ex_state) 12) (20, 400000) -> r = (0, 0)) /\
    forall b, b ∈ [10] -> tle (deadline (objs ex_state) 12) (deadline (objs ex_state) b).
Proof.
  apply (sleeps_until_first_deadline (20, 400000) ex_state 12 [10] []).
  - apply ex_wf.
  - split; vm_compute; congruence.
  - split; vm_compute; congruence.
Defined.

(** * Where the code is not what its comments say *)

(** At its deadline a timer is not due yet, although nothing is left to wait for: the loop
    comes back at once, until the clock has moved on. *)
Lemma deadline_not_due a s T P : wf s (a :: T) P ->
  calcNextTimeout (deadline (objs s) a) s = Some (Some (0, 0)) /\ until (objs s) (deadline (objs s) a) (a :: T) = [].
Proof.
  intros H. assert (Hirr : forall t, timer_lt t t = false).
  { intros t. apply not_true_iff_false. rewrite timer_lt_spec. lia. }
  split; [|cbn [until]; by rewrite Hirr]. by rewrite (calcNextTimeout_first _ s a T P H), Hirr.
Qed.

(** [ril_event_del] leaves a timer in its list: it is still called. *)
Lemma del_keeps_timer ev s T P : wf s T P -> ev ∈ T -> ril_event_del ev s = Some s.
Proof.
  intros H Hev. pose proof (wf_timers _ _ _ H ev Hev) as Hi. unfold idxO in Hi. unfold ril_event_del.
  destruct (objs s !! ev) as [e|]; [|done]. cbn in *. injection Hi as ->. done.
Qed.

(** With a full table an event is dropped without notice. *)
Lemma full_table_drops ev s : free_slot (watch_table s) = None -> ril_event_add ev s = Some s.
Proof. intros H. unfold ril_event_add. by rewrite H. Qed.

(** An event that the callback of an earlier event of the same round deletes is still called. *)
Example deleted_event_is_called :
  let s := default ex_start (run_ops (OpSet 11 5 true 101 :: ex_ops) (ril_event_init ex_start)) in
  match loop_round (fun ev => if ev =? 12 then [OpDel 11] else []) (fun _ => None) (Ready {[5]}) (21, 1) s with
  | Some (Continue s') => fired s' = [12; 11] /\ readFds s = {[5]} /\ readFds s' = ∅
  | _ => False
  end.
Proof. vm_compute. split_and!; reflexivity. Qed.

(** After [select] failed the loop ends even when it succeeds without the damaged descriptor. *)
Example recovered_select_ends_loop :
  loop_round ex_callback (fun _ => None) (SelectError EBADF) (21, 1) ex_state = Some (Return true).
Proof. vm_compute. reflexivity. Qed.
