(* ===== verification/Base64.v ===== *)
(** Base64 and hexadecimal strings of the RIL daemon (src/mtk/ril/mtk-ril/base64.c), used
    for the authentication data of the (I)SIM.

    A buffer that is allocated and filled is the capacity asked for and the list of bytes
    written from its start; a [size_t] has 32 bits.  [malloc] may fail, which is a boolean
    argument, and a crash is a result of its own.

    [base64_roundtrip] and [base64_str_roundtrip] are the round trips, and
    [base64_encode_fits] and [base64_decode_fits] show that no write leaves its buffer. *)
From S2P Require Import Prelude CString.

(** * Encoding *)

Definition base64_table : list Z :=
  bytes_of "ABCDEFGHIJKLMNOPQRSTUVWXYZabcdefghijklmnopqrstuvwxyz0123456789+/".

Definition NEWLINE : Z := 10.
Definition PAD : Z := 61.

Inductive b64_result :=
| B64Null                                (* returned NULL *)
| B64Crash                               (* dereferenced NULL *)
| B64Out (olen : Z) (written : list Z) (out_len : Z).

(** The bytes requested for [len] bytes of input, computed in [size_t]. *)
Definition encode_olen (len : Z) : Z :=
  let olen := u32 (u32 (len * 4) / 3 + 4) in
  let olen := u32 (olen + olen / 72) in
  u32 (olen + 1).

Definition b64_char (i : Z) : Z := byte_at base64_table (Z.land i 63).

(** One block of three bytes. *)
Definition encode_block (a b c : Z) : list Z :=
  [b64_char (Z.shiftr a 2);
   b64_char (Z.lor (Z.shiftl (Z.land a 3) 4) (Z.shiftr b 4));
   b64_char (Z.lor (Z.shiftl (Z.land b 15) 2) (Z.shiftr c 6));
   b64_char c].

(** The loop over whole blocks: what is written, the rest of the input and [line_len]. *)
Fixpoint encode_loop (input : list Z) (line_len : Z) : list Z * list Z * Z :=
  match input with
  | a :: b :: c :: input' =>
      let line_len := line_len + 4 in
      if 72 <=? line_len then
        let '(out, rest, l) := encode_loop input' 0 in
        (encode_block a b c ++ NEWLINE :: out, rest, l)
      else
        let '(out, rest, l) := encode_loop input' line_len in
        (encode_block a b c ++ out, rest, l)
  | _ => ([], input, line_len)
  end.

(** The last one or two bytes, padded. *)
Definition encode_tail (rest : list Z) : list Z :=
  match rest with
  | [] => []
  | [a] => [b64_char (Z.shiftr a 2); b64_char (Z.shiftl (Z.land a 3) 4); PAD; PAD]
  | a :: b :: _ =>
      [b64_char (Z.shiftr a 2);
       b64_char (Z.lor (Z.shiftl (Z.land a 3) 4) (Z.shiftr b 4));
       b64_char (Z.shiftl (Z.land b 15) 2);
       PAD]
  end.

Definition encode_bytes (src : list Z) : list Z :=
  let '(out, rest, line_len) := encode_loop src 0 in
  let line_len := if bool_decide (rest = []) then line_len else line_len + 4 in
  out ++ encode_tail rest ++ (if line_len =? 0 then [] else [NEWLINE]).

(** [has_out_len]: the caller passes the address of a length variable.  [memset] runs
    before the result of [malloc] is checked, and the log statement dereferences
    [out_len] without a check. *)
Definition base64_encode (malloc_ok has_out_len : bool) (src : list Z) : b64_result :=
  let olen := encode_olen (zlen src) in
  if olen <? zlen src then B64Null
  else if negb malloc_ok then B64Crash
  else if negb has_out_len then B64Crash
  else let out := encode_bytes src in B64Out olen (out ++ [0]) (zlen out).

(** * Decoding *)

(** [dtable]: 0x80 for characters that are skipped. *)
Definition dtable : list Z :=
  <[Z.to_nat PAD := 0]>
    (fold_left (fun t '(i, c) => <[Z.to_nat c := i]> t)
       (imap (fun i c => (Z.of_nat i, c)) base64_table)
       (repeat 128 256)).

Definition dlookup (c : Z) : Z := byte_at dtable c.

Definition decode_count (src : list Z) : Z :=
  zlen (filter (fun c => dlookup c <> 128) src).

(** The three bytes of a block. *)
Definition decode_block (b0 b1 b2 b3 : Z) : list Z :=
  [u8 (Z.lor (Z.shiftl b0 2) (Z.shiftr b1 4));
   u8 (Z.lor (Z.shiftl b1 4) (Z.shiftr b2 2));
   u8 (Z.lor (Z.shiftl b2 6) b3)].

(** The loop over the characters: [block] holds the values collected so far, [out] what
    has been written.  [None] is invalid padding, else the bytes written and the final
    position. *)
Fixpoint decode_loop (src block : list Z) (pad : Z) (out : list Z) : option (list Z * Z) :=
  match src with
  | [] => Some (out, zlen out)
  | c :: src' =>
      let tmp := dlookup c in
      if tmp =? 128 then decode_loop src' block pad out
      else
        let pad := if c =? PAD then pad + 1 else pad in
        match block with
        | [b0; b1; b2] =>
            let out := out ++ decode_block b0 b1 b2 tmp in
            if negb (pad =? 0) then
              if pad =? 1 then Some (out, zlen out - 1)
              else if pad =? 2 then Some (out, zlen out - 2)
              else None
            else decode_loop src' [] pad out
        | _ => decode_loop src' (block ++ [tmp]) pad out
        end
  end.

Definition base64_decode (malloc_ok : bool) (src : list Z) : b64_result :=
  let count := decode_count src in
  if (count =? 0) || negb (count mod 4 =? 0) then B64Null
  else
    let olen := u32 (count / 4 * 3 + 1) in
    if negb malloc_ok then B64Null
    else match decode_loop src [] 0 [] with
         | Some (out, pos) => B64Out olen out pos
         | None => B64Null
         end.

(** * Hexadecimal strings *)

Definition HEX_DIGITS_B64 : list Z := bytes_of "0123456789ABCDEF".

Fixpoint hex_chars (array : list Z) : list Z :=
  match array with
  | [] => []
  | b :: array' =>
      byte_at HEX_DIGITS_B64 (Z.land (Z.shiftr b 4) 15)
      :: byte_at HEX_DIGITS_B64 (Z.land b 15) :: hex_chars array'
  end.

(** The string, without the terminator. *)
Definition byteArrayToHexStringB64 (array : list Z) : list Z := hex_chars array.

Definition toByte (c : Z) : Z :=
  if (48 <=? c) && (c <=? 57) then c - 48
  else if (65 <=? c) && (c <=? 70) then c - 65 + 10
  else if (97 <=? c) && (c <=? 102) then c - 97 + 10
  else 0.

(** The bytes stored: an odd string pairs its last digit with the terminator. *)
Fixpoint hex_bytes (s : list Z) : list Z :=
  match s with
  | [] => []
  | [h] => [u8 (Z.lor (Z.shiftl (toByte h) 4) (toByte 0))]
  | h :: l :: s' => u8 (Z.lor (Z.shiftl (toByte h) 4) (toByte l)) :: hex_bytes s'
  end.

(** The buffer of [length/2 + 1] bytes and the length returned. *)
Definition hexStringToByteArrayB64 (s : list Z) : list Z * Z :=
  (memcpy_at (repeat 0 (Z.to_nat (zlen s / 2 + 1))) 0 (hex_bytes s), zlen s / 2).

(** The string the callers get, [None] for NULL. *)
Definition base64_decode_to_str (malloc_ok : bool) (src : list Z) : option (list Z) :=
  match base64_decode malloc_ok src with
  | B64Out _ out out_len => Some (byteArrayToHexStringB64 (ztake out_len out))
  | _ => None
  end.

Definition base64_encode_to_str (malloc_ok : bool) (src : list Z) : b64_result :=
  let '(out, out_len) := hexStringToByteArrayB64 src in
  base64_encode malloc_ok true (ztake out_len out).

(** * Lemmas *)

Lemma b64_char_dlookup i : 0 <= i < 64 -> dlookup (b64_char i) = i /\ b64_char i <> PAD.
Proof.
  intros Hi. assert (Hb : is_byte i) by (unfold is_byte; lia).
  assert (forall x, is_byte x -> (64 <= x \/ dlookup (b64_char x) = x /\ b64_char x <> PAD)) as H
    by (intros x Hx; byte_cases x).
  destruct (H i Hb); [lia|done].
Qed.

Lemma dlookup_newline : dlookup NEWLINE = 128.
Proof. reflexivity. Qed.

Lemma dlookup_pad : dlookup PAD = 0.
Proof. reflexivity. Qed.

Lemma land63_range x : 0 <= Z.land x 63 < 64.
Proof.
  change 63 with (Z.ones 6). rewrite Z.land_ones by lia. apply Z.mod_pos_bound. lia.
Qed.

Lemma b64_char_land x : b64_char x = b64_char (Z.land x 63).
Proof. unfold b64_char. by rewrite <-Z.land_assoc. Qed.

(** What the decoder sees of an encoded character. *)
Lemma b64_char_value x : dlookup (b64_char x) = Z.land x 63 /\ b64_char x <> PAD.
Proof. rewrite b64_char_land. apply b64_char_dlookup, land63_range. Qed.

(** An encoded character is collected in the block. *)
Lemma decode_loop_char x src block pad out :
  (length block < 3)%nat ->
  decode_loop (b64_char x :: src) block pad out = decode_loop src (block ++ [Z.land x 63]) pad out.
Proof.
  intros Hb. destruct (b64_char_value x) as [Hv Hp]. cbn [decode_loop]. rewrite Hv.
  pose proof (land63_range x). case_if; [lia|]. case_if; [done|].
  by destruct block as [|? [|? [|? ?]]]; cbn in Hb; try lia.
Qed.

Lemma decode_loop_pad src block pad out :
  (length block < 3)%nat ->
  decode_loop (PAD :: src) block pad out = decode_loop src (block ++ [0]) (pad + 1) out.
Proof.
  intros Hb. cbn [decode_loop]. rewrite dlookup_pad. cbn [Z.eqb]. rewrite Z.eqb_refl.
  by destruct block as [|? [|? [|? ?]]]; cbn in Hb; try lia.
Qed.

Lemma decode_loop_newline src block pad out :
  decode_loop (NEWLINE :: src) block pad out = decode_loop src block pad out.
Proof. done. Qed.

Lemma decode_loop_last x src b0 b1 b2 out :
  decode_loop (b64_char x :: src) [b0; b1; b2] 0 out
  = decode_loop src [] 0 (out ++ decode_block b0 b1 b2 (Z.land x 63)).
Proof.
  destruct (b64_char_value x) as [Hv Hp]. cbn [decode_loop]. rewrite Hv.
  pose proof (land63_range x). case_if; [lia|].
  destruct (b64_char x =? PAD) eqn:E'; reflect_bools; done.
Qed.

(** ** The bits of a block *)

Lemma block_first a b :
  is_byte a -> is_byte b ->
  u8 (Z.lor (Z.shiftl (Z.land (Z.shiftr a 2) 63) 2)
     (Z.shiftr (Z.land (Z.lor (Z.shiftl (Z.land a 3) 4) (Z.shiftr b 4)) 63) 4)) = a.
Proof. intros Ha Hb. byte_cases2 a b. Qed.

(** The second byte depends on the low bits of [a] and the high ones of [c] only through
    bits that are shifted out. *)
Lemma block_second_low a b :
  is_byte a -> is_byte b ->
  u8 (Z.shiftl (Z.land (Z.lor (Z.shiftl (Z.land a 3) 4) (Z.shiftr b 4)) 63) 4)
  = Z.shiftl (Z.shiftr b 4) 4.
Proof. intros Ha Hb. byte_cases2 a b. Qed.

Lemma block_second_high b c :
  is_byte b -> is_byte c ->
  u8 (Z.shiftr (Z.land (Z.lor (Z.shiftl (Z.land b 15) 2) (Z.shiftr c 6)) 63) 2) = Z.land b 15.
Proof. intros Hb Hc. byte_cases2 b c. Qed.

Lemma block_third b c :
  is_byte b -> is_byte c ->
  u8 (Z.lor (Z.shiftl (Z.land (Z.lor (Z.shiftl (Z.land b 15) 2) (Z.shiftr c 6)) 63) 6)
     (Z.land c 63)) = c.
Proof. intros Hb Hc. byte_cases2 b c. Qed.

Lemma u8_lor x y : u8 (Z.lor x y) = Z.lor (u8 x) (u8 y).
Proof.
  unfold u8. change 256 with (2 ^ 8). rewrite <-!Z.land_ones by lia. apply Z.land_lor_distr_l.
Qed.

Lemma nibbles b : is_byte b -> Z.lor (Z.shiftl (Z.shiftr b 4) 4) (Z.land b 15) = b.
Proof. intros H. byte_cases b. Qed.

(** Decoding the four values of an encoded block gives its three bytes. *)
Lemma decode_encoded_block a b c :
  is_byte a -> is_byte b -> is_byte c ->
  decode_block (Z.land (Z.shiftr a 2) 63)
    (Z.land (Z.lor (Z.shiftl (Z.land a 3) 4) (Z.shiftr b 4)) 63)
    (Z.land (Z.lor (Z.shiftl (Z.land b 15) 2) (Z.shiftr c 6)) 63) (Z.land c 63) = [a; b; c].
Proof.
  intros Ha Hb Hc. unfold decode_block. rewrite block_first by done.
  rewrite u8_lor, block_second_low, block_second_high, nibbles by done.
  by rewrite block_third.
Qed.

Lemma decode_loop_block a b c src out :
  is_byte a -> is_byte b -> is_byte c ->
  decode_loop (encode_block a b c ++ src) [] 0 out = decode_loop src [] 0 (out ++ [a; b; c]).
Proof.
  intros. unfold encode_block. cbn [app].
  rewrite !decode_loop_char by (cbn; lia). cbn [app].
  by rewrite decode_loop_last, decode_encoded_block.
Qed.

(** The loop over whole blocks is undone, newlines included. *)
Lemma decode_encode_loop src l out more :
  Forall is_byte src ->
  let '(enc, rest, _) := encode_loop src l in
  exists blocks, src = blocks ++ rest /\ (length rest < 3)%nat /\
  decode_loop (enc ++ more) [] 0 out = decode_loop more [] 0 (out ++ blocks).
Proof.
  revert l out. induction src as [src IH] using (induction_ltof1 _ (@length Z)).
  unfold ltof in IH. intros l out Hs.
  destruct src as [|a [|b [|c src]]]; try (cbn [encode_loop]; exists [];
    rewrite !app_nil_r; split; [done|split; [cbn; lia|done]]).
  apply Forall_cons in Hs as [Ha Hs]. apply Forall_cons in Hs as [Hb Hs].
  apply Forall_cons in Hs as [Hc Hs].
  cbn [encode_loop].
  assert (Hstep : forall l', let '(enc, rest, _) := encode_loop src l' in
    exists blocks, src = blocks ++ rest /\ (length rest < 3)%nat /\
    decode_loop (enc ++ more) [] 0 (out ++ [a; b; c])
    = decode_loop more [] 0 (out ++ [a; b; c] ++ blocks)).
  { intros l'. pose proof (IH src ltac:(cbn; lia) l' (out ++ [a; b; c]) Hs) as H.
    destruct (encode_loop src l') as [[enc rest] l'']. destruct H as (blocks & H1 & H2 & H3).
    exists blocks. by rewrite H3, <-app_assoc. }
  destruct (72 <=? l + 4); [specialize (Hstep 0)|specialize (Hstep (l + 4))];
    destruct (encode_loop src _) as [[enc rest] l'']; destruct Hstep as (blocks & H1 & H2 & H3);
    exists ([a; b; c] ++ blocks); (split; [by rewrite H1, <-app_assoc|split; [done|]]);
    rewrite <-app_assoc, decode_loop_block by done; cbn [app];
    rewrite ?decode_loop_newline; exact H3.
Qed.

(** The padded tail is undone: the bytes written and the final position. *)
Lemma decode_encode_tail rest nl out :
  Forall is_byte rest -> (length rest < 3)%nat -> (nl = [] \/ nl = [NEWLINE]) ->
  exists extra, decode_loop (encode_tail rest ++ nl) [] 0 out
    = Some (out ++ rest ++ extra, zlen out + zlen rest).
Proof.
  intros Hr Hl Hnl. destruct rest as [|a [|b [|? ?]]]; cbn in Hl; try lia; cbn [encode_tail app].
  - exists []. destruct Hnl as [-> | ->]; cbn [app]; rewrite ?decode_loop_newline; cbn [decode_loop];
      rewrite app_nil_r, zlen_nil; do 2 f_equal; lia.
  - apply Forall_cons in Hr as [Ha _].
    rewrite !decode_loop_char by (cbn; lia). rewrite decode_loop_pad by (cbn; lia).
    cbn [app decode_loop]. rewrite dlookup_pad. cbn [Z.eqb]. rewrite Z.eqb_refl. cbn.
    eexists [_; _]. unfold decode_block.
    assert (Hf : u8 (Z.lor (Z.shiftl (Z.land (Z.shiftr a 2) 63) 2)
       (Z.shiftr (Z.land (Z.shiftl (Z.land a 3) 4) 63) 4)) = a) by byte_cases a.
    rewrite Hf. cbn [app]. do 2 f_equal. zlist. lia.
  - apply Forall_cons in Hr as [Ha Hr]. apply Forall_cons in Hr as [Hb _].
    rewrite !decode_loop_char by (cbn; lia).
    cbn [app decode_loop]. rewrite dlookup_pad. cbn [Z.eqb]. rewrite Z.eqb_refl. cbn.
    eexists [_]. unfold decode_block.
    rewrite block_first by done.
    assert (Hs : u8 (Z.shiftr (Z.land (Z.shiftl (Z.land b 15) 2) 63) 2) = Z.land b 15)
      by byte_cases b.
    rewrite u8_lor, block_second_low, Hs, nibbles by done.
    cbn [app]. do 2 f_equal. zlist. lia.
Qed.

(** ** The characters of the output *)

Lemma dlookup_b64_char x : dlookup (b64_char x) <> 128.
Proof. destruct (b64_char_value x) as [-> _]. pose proof (land63_range x). lia. Qed.

(** Four characters that are not skipped. *)
Definition quad (l : list Z) : Prop := length l = 4%nat /\ Forall (fun c => dlookup c <> 128) l.

Lemma encode_block_quad a b c : quad (encode_block a b c).
Proof. split; [done|]. repeat constructor; apply dlookup_b64_char. Qed.

Lemma encode_tail_quad rest : rest <> [] -> quad (encode_tail rest).
Proof.
  intros Hr. destruct rest as [|a [|b rest]]; [done| |];
    (split; [done|]; repeat constructor; first [apply dlookup_b64_char | by rewrite dlookup_pad]).
Qed.

Lemma list_filter_all (P : Z -> Prop) `{forall x, Decision (P x)} (l : list Z) :
  Forall P l -> filter P l = l.
Proof.
  induction 1 as [|x l Hx _ IH]; [done|]. by rewrite filter_cons_True, IH.
Qed.

Lemma decode_count_quad q l : quad q -> decode_count (q ++ l) = 4 + decode_count l.
Proof.
  intros [Hl Hq]. unfold decode_count. rewrite filter_app, zlen_app. f_equal.
  rewrite list_filter_all by done. unfold zlen. rewrite Hl. done.
Qed.

Lemma decode_count_newline l : decode_count (NEWLINE :: l) = decode_count l.
Proof. done. Qed.

(** The loop writes whole quads; [line_len] tells how many newlines. *)
Lemma encode_loop_shape src l :
  0 <= l -> l mod 4 = 0 -> l < 72 ->
  let '(enc, rest, l') := encode_loop src l in
  exists k, 0 <= k /\ zlen src = 3 * k + zlen rest /\ zlen rest < 3 /\
    (forall more, decode_count (enc ++ more) = 4 * k + decode_count more) /\
    0 <= l' < 72 /\ l' mod 4 = 0 /\ l + 4 * k = 72 * (zlen enc - 4 * k) + l'.
Proof.
  revert l. induction src as [src IH] using (induction_ltof1 _ (@length Z)).
  unfold ltof in IH. intros l H0 H4 H72.
  destruct src as [|a [|b [|c src]]];
    [cbn [encode_loop]; exists 0; zlist; repeat split; intros; cbn [app]; done || lia..|].
  cbn [encode_loop].
  destruct (72 <=? l + 4) eqn:E; reflect_bools.
  - pose proof (IH src ltac:(cbn; lia) 0 ltac:(lia) eq_refl ltac:(lia)) as H.
    destruct (encode_loop src 0) as [[enc rest] l'].
    destruct H as (k & Hk & H1 & H2 & H3 & H5 & H6 & H7). exists (k + 1).
    split; [lia|]. split; [zlist; lia|]. split; [done|]. split.
    + intros more. rewrite <-app_assoc, decode_count_quad by apply encode_block_quad.
      cbn [app]. rewrite decode_count_newline, H3. lia.
    + split; [done|]. split; [done|]. rewrite zlen_app, zlen_cons.
      change (zlen (encode_block a b c)) with 4.
      pose proof (Z.div_mod l 4). lia.
  - pose proof (IH src ltac:(cbn; lia) (l + 4) ltac:(lia)
      ltac:(rewrite <-Z.add_mod_idemp_r, Z.add_0_r by lia; done) ltac:(lia)) as H.
    destruct (encode_loop src (l + 4)) as [[enc rest] l'].
    destruct H as (k & Hk & H1 & H2 & H3 & H5 & H6 & H7). exists (k + 1).
    split; [lia|]. split; [zlist; lia|]. split; [done|]. split.
    + intros more. rewrite <-app_assoc, decode_count_quad by apply encode_block_quad.
      rewrite H3. lia.
    + split; [done|]. split; [done|]. rewrite zlen_app.
      change (zlen (encode_block a b c)) with 4. lia.
Qed.

(** The sizes of an encoded string: characters that count, and all of them. *)
Lemma encode_bytes_size src :
  let blocks := (zlen src + 2) / 3 in
  decode_count (encode_bytes src) = 4 * blocks /\
  zlen (encode_bytes src) = 4 * blocks + (blocks + 17) / 18.
Proof.
  unfold encode_bytes. pose proof (encode_loop_shape src 0 ltac:(lia) eq_refl ltac:(lia)) as H.
  destruct (encode_loop src 0) as [[enc rest] l].
  destruct H as (k & Hk & H1 & H2 & H3 & H5 & H6 & H7). rewrite H3. rewrite !zlen_app.
  pose proof (zlen_nonneg rest). rewrite H1.
  assert (Hnl : forall b : bool, decode_count (if b then [] else [NEWLINE]) = 0) by (by intros []).
  case_bool_decide as Hr.
  - subst rest. cbn [encode_tail app]. change (zlen (@nil Z)) with 0 in *. rewrite Hnl.
    assert (Hb : (3 * k + 0 + 2) / 3 = k) by (symmetry; apply (Z.div_unique _ _ _ 2); lia).
    rewrite Hb. split; [lia|].
    destruct (l =? 0) eqn:E; reflect_bools;
      rewrite ?zlen_cons; change (zlen (@nil Z)) with 0.
    + assert (Hq : (k + 17) / 18 = zlen enc - 4 * k) by (symmetry; apply (Z.div_unique _ _ _ 17); lia).
      lia.
    + assert (Hq : (k + 17) / 18 = zlen enc - 4 * k + 1).
      { symmetry. pose proof (Z.div_mod l 4). apply (Z.div_unique _ _ _ (l / 4 - 1)); lia. }
      lia.
  - destruct (encode_tail_quad rest Hr) as [Hl4 Hq4].
    assert (Hz : zlen (encode_tail rest) = 4) by (unfold zlen; lia).
    rewrite (decode_count_quad (encode_tail rest)), Hnl, Hz by done.
    assert (Hp : 0 < zlen rest).
    { destruct rest; [done|]. rewrite zlen_cons. pose proof (zlen_nonneg rest). lia. }
    assert (Hb : (3 * k + zlen rest + 2) / 3 = k + 1)
      by (symmetry; apply (Z.div_unique _ _ _ (zlen rest - 1)); lia).
    rewrite Hb. split; [lia|].
    destruct (l + 4 =? 0) eqn:E; reflect_bools; [lia|].
    rewrite zlen_cons; change (zlen (@nil Z)) with 0.
    assert (Hq : (k + 1 + 17) / 18 = zlen enc - 4 * k + 1).
    { symmetry. pose proof (Z.div_mod l 4). apply (Z.div_unique _ _ _ (l / 4)); lia. }
    lia.
Qed.

(** The decoder's loop on a complete encoded string. *)
Lemma decode_loop_encoded src :
  Forall is_byte src ->
  exists extra, decode_loop (encode_bytes src) [] 0 [] = Some (src ++ extra, zlen src).
Proof.
  intros Hs. unfold encode_bytes.
  destruct (encode_loop src 0) as [[enc rest] l] eqn:E.
  set (nl := if _ =? 0 then [] else [NEWLINE]).
  pose proof (decode_encode_loop src 0 [] (encode_tail rest ++ nl) Hs) as H.
  rewrite E in H. destruct H as (blocks & Hb & Hl & ->). cbn [app].
  assert (Hr : Forall is_byte rest) by (rewrite Hb in Hs; by apply Forall_app in Hs as [_ ?]).
  destruct (decode_encode_tail rest nl blocks Hr Hl) as [extra ->].
  { unfold nl. case_if; auto. }
  exists extra. by rewrite Hb, app_assoc, zlen_app.
Qed.

Lemma encode_olen_small len : 0 <= len < 1073741824 ->
  encode_olen len = len * 4 / 3 + 4 + (len * 4 / 3 + 4) / 72 + 1.
Proof.
  intros H. unfold encode_olen.
  assert (H1 : 0 <= len * 4 / 3 <= 1431655765).
  { split; [apply Z.div_pos; lia|]. apply Z.div_le_upper_bound; lia. }
  assert (H2 : 0 <= (len * 4 / 3 + 4) / 72 <= 19884108).
  { split; [apply Z.div_pos; lia|]. apply Z.div_le_upper_bound; lia. }
  rewrite (u32_id (len * 4)), (u32_id (len * 4 / 3 + 4)) by lia.
  rewrite (u32_id (_ + _ / 72)), u32_id by lia. lia.
Qed.

(** Where [len * 4] wraps, the size computed is below [len] and the check catches it. *)
Lemma encode_olen_wraps len :
  1073741824 <= len < 4294967296 -> encode_olen len < len.
Proof.
  intros H. unfold encode_olen.
  set (w := u32 (len * 4)).
  assert (Hw : 0 <= w <= len * 4 - 4294967296 /\ w < 4294967296).
  { unfold w, u32. pose proof (Z.div_mod (len * 4) 4294967296).
    pose proof (Z.mod_pos_bound (len * 4) 4294967296).
    assert (1 <= len * 4 / 4294967296) by (apply Z.div_le_lower_bound; lia). lia. }
  assert (H1 : 0 <= w / 3 <= 1431655765).
  { split; [apply Z.div_pos; lia|]. apply Z.div_le_upper_bound; lia. }
  pose proof (Z.mul_div_le w 3).
  assert (H2 : 0 <= (w / 3 + 4) / 72 <= 19884108).
  { split; [apply Z.div_pos; lia|]. apply Z.div_le_upper_bound; lia. }
  pose proof (Z.mul_div_le (w / 3 + 4) 72).
  rewrite (u32_id (w / 3 + 4)), (u32_id (_ + _ / 72)), u32_id by lia.
  destruct (Z_lt_le_dec len 1500000000); lia.
Qed.

Lemma encoded_size_bound len : 0 <= len < 1073741824 ->
  4 * ((len + 2) / 3) + ((len + 2) / 3 + 17) / 18 + 1 <= encode_olen len.
Proof.
  intros H. rewrite encode_olen_small by done.
  set (b := (len + 2) / 3).
  assert (Hb : 4 * b <= len * 4 / 3 + 3).
  { pose proof (Z.div_mod (len * 4) 3). pose proof (Z.mod_pos_bound (len * 4) 3).
    pose proof (Z.mul_div_le (len + 2) 3). unfold b in *. lia. }
  assert (Hn : (b + 17) / 18 <= (len * 4 / 3 + 4) / 72 + 1).
  { pose proof (Z.div_mod (len * 4 / 3 + 4) 72). pose proof (Z.mod_pos_bound (len * 4 / 3 + 4) 72).
    apply Z.lt_succ_r, Z.div_lt_upper_bound; lia. }
  lia.
Qed.

(** Hexadecimal digits and back. *)
Lemma hex_pair b :
  is_byte b ->
  u8 (Z.lor (Z.shiftl (toByte (byte_at HEX_DIGITS_B64 (Z.land (Z.shiftr b 4) 15))) 4)
     (toByte (byte_at HEX_DIGITS_B64 (Z.land b 15)))) = b.
Proof. intros H. byte_cases b. Qed.

Lemma hex_bytes_chars l : Forall is_byte l -> hex_bytes (hex_chars l) = l.
Proof.
  induction 1 as [|b l Hb _ IH]; [done|]. cbn [hex_chars hex_bytes]. by rewrite hex_pair, IH.
Qed.

Lemma zlen_hex_chars l : zlen (hex_chars l) = 2 * zlen l.
Proof. induction l as [|b l IH]; [done|]. cbn [hex_chars]. zlist. lia. Qed.

Lemma hexStringToByteArrayB64_chars l :
  Forall is_byte l ->
  let '(buf, n) := hexStringToByteArrayB64 (hex_chars l) in n = zlen l /\ ztake n buf = l.
Proof.
  intros H. unfold hexStringToByteArrayB64. rewrite hex_bytes_chars, zlen_hex_chars by done.
  rewrite Z.mul_comm, Z.div_mul by lia. split; [done|]. unfold memcpy_at.
  change (ztake 0 (repeat 0 (Z.to_nat (zlen l + 1)))) with (@nil Z).
  cbn [app]. apply ztake_app_length.
Qed.

(** The decoder fills whole blocks only, one per four characters that count. *)
Lemma decode_loop_bound src block pad out w pos :
  (length block < 4)%nat -> decode_loop src block pad out = Some (w, pos) ->
  4 * zlen w <= 4 * zlen out + 3 * (zlen block + decode_count src) /\ 0 <= pos <= zlen w.
Proof.
  revert block pad out. induction src as [|c src IH]; intros block pad out Hb H.
  - cbn [decode_loop] in H. injection H as <- <-. pose proof (zlen_nonneg out).
    pose proof (zlen_nonneg block). unfold decode_count. change (zlen (filter _ [])) with 0. lia.
  - assert (Hc : decode_count (c :: src)
      = (if bool_decide (dlookup c <> 128) then 1 else 0) + decode_count src).
    { unfold decode_count. rewrite filter_cons. case_decide as D.
      - rewrite (bool_decide_true _ D). by rewrite zlen_cons.
      - rewrite bool_decide_false by tauto. done. }
    rewrite Hc. cbn [decode_loop] in H. destruct (dlookup c =? 128) eqn:E; reflect_bools.
    { rewrite bool_decide_false by tauto. apply IH in H; [lia|done]. }
    rewrite bool_decide_true by done.
    pose proof (zlen_nonneg (filter (fun c => dlookup c <> 128) src)) as Hn.
    fold (decode_count src) in Hn. pose proof (zlen_nonneg out).
    destruct block as [|b0 [|b1 [|b2 [|? ?]]]]; cbn in Hb; try lia;
      try (apply IH in H; [|cbn; lia]; cbn [app] in H; unfold zlen in *; cbn [length] in *; lia).
    set (o := out ++ decode_block b0 b1 b2 (dlookup c)) in *.
    assert (Ho : zlen o = zlen out + 3) by (unfold o; by rewrite zlen_app).
    change (zlen [b0; b1; b2]) with 3.
    set (p := if c =? PAD then pad + 1 else pad) in *.
    destruct (negb (p =? 0)); [destruct (p =? 1); [|destruct (p =? 2)]|]; try done;
      try (injection H as <- <-; lia).
    apply IH in H; [|cbn; lia]. change (zlen (@nil Z)) with 0 in H. lia.
Qed.

(** Encoding succeeds where the size computation does not wrap. *)
Lemma base64_encode_ok src :
  zlen src < 1073741824 ->
  base64_encode true true src
  = B64Out (encode_olen (zlen src)) (encode_bytes src ++ [0]) (zlen (encode_bytes src)).
Proof.
  intros Hl. pose proof (zlen_nonneg src). unfold base64_encode.
  assert (zlen src <= zlen src * 4 / 3) by (apply Z.div_le_lower_bound; lia).
  pose proof (Z.div_pos (zlen src * 4 / 3 + 4) 72).
  rewrite encode_olen_small by lia. by case_if; [lia|].
Qed.

Lemma base64_decode_encoded src :
  Forall is_byte src -> 0 < zlen src < 1073741824 ->
  exists olen extra, base64_decode true (encode_bytes src) = B64Out olen (src ++ extra) (zlen src).
Proof.
  intros Hs Hl. destruct (encode_bytes_size src) as [Hc _].
  assert (1 <= (zlen src + 2) / 3) by (apply Z.div_le_lower_bound; lia).
  destruct (decode_loop_encoded src Hs) as [extra Hd]. eexists _, extra.
  unfold base64_decode. rewrite Hc, (Z.mul_comm 4), Z.mod_mul by lia.
  replace ((zlen src + 2) / 3 * 4 =? 0) with false by (symmetry; apply Z.eqb_neq; lia).
  cbn [orb negb Z.eqb]. by rewrite Hd.
Qed.

(** * Theorems *)

(** C31: Decoding what [base64_encode] produced gives back the data: for every non-empty
    byte array up to 2^30 bytes the encoder succeeds, its string (line breaks and padding
    included) is accepted by [base64_decode], and the decoded bytes are the input. *)
Theorem base64_roundtrip (src : list Z) :
  Forall is_byte src -> 0 < zlen src < 1073741824 ->
  exists olen written out_len olen' written' out_len',
    base64_encode true true src = B64Out olen written out_len /\
    base64_decode true (ztake out_len written) = B64Out olen' written' out_len' /\
    out_len' = zlen src /\ ztake out_len' written' = src.
Proof.
  intros Hs Hl. rewrite base64_encode_ok by lia.
  destruct (base64_decode_encoded src Hs Hl) as (olen' & extra & Hd).
  do 6 eexists. split; [done|]. rewrite ztake_app_length. split; [exact Hd|].
  split; [done|]. apply ztake_app_length.
Qed.

Lemma base64_roundtrip_witness :
  exists olen written out_len olen' written' out_len',
    base64_encode true true (seqZ 0 200) = B64Out olen written out_len /\
    base64_decode true (ztake out_len written) = B64Out olen' written' out_len' /\
    out_len' = zlen (seqZ 0 200) /\ ztake out_len' written' = seqZ 0 200.
Proof.
  apply (base64_roundtrip (seqZ 0 200)).
  - decide_closed.
  - vm_compute. done.
Defined.

(** [base64_encode] never writes outside the buffer it allocates, for any length a
    [size_t] can have: where the size computation wraps around the check returns NULL,
    otherwise the characters, line breaks and terminator fit. *)
Theorem base64_encode_fits (src : list Z) :
  zlen src < 4294967296 ->
  match base64_encode true true src with
  | B64Null => 1073741824 <= zlen src
  | B64Crash => False
  | B64Out olen written out_len => zlen written <= olen /\ out_len = zlen written - 1
  end.
Proof.
  intros Hl. pose proof (zlen_nonneg src). destruct (Z_lt_le_dec (zlen src) 1073741824).
  - pose proof (encoded_size_bound (zlen src) ltac:(lia)) as Hb.
    destruct (encode_bytes_size src) as [_ Hz].
    rewrite base64_encode_ok by lia. rewrite zlen_app, Hz. change (zlen [0]) with 1. lia.
  - pose proof (encode_olen_wraps (zlen src) ltac:(lia)).
    unfold base64_encode. by case_if; [|lia].
Qed.

Lemma base64_encode_fits_witness :
  match base64_encode true true (seqZ 0 100) with
  | B64Null => 1073741824 <= zlen (seqZ 0 100)
  | B64Crash => False
  | B64Out olen written out_len => zlen written <= olen /\ out_len = zlen written - 1
  end.
Proof. apply (base64_encode_fits (seqZ 0 100)). vm_compute. done. Defined.

(** [base64_decode] is safe on arbitrary input: whatever the characters are, it writes
    at most the bytes it allocated (one cell less, which stays the terminator), and the
    length it reports is not negative and covers only bytes it wrote. *)
Theorem base64_decode_fits (src : list Z) :
  zlen src < 4294967296 ->
  match base64_decode true src with
  | B64Null => True
  | B64Crash => False
  | B64Out olen written out_len => zlen written < olen /\ 0 <= out_len <= zlen written
  end.
Proof.
  intros Hl. unfold base64_decode.
  assert (Hc : 0 <= decode_count src <= zlen src).
  { unfold decode_count, zlen. pose proof (length_filter (fun c => dlookup c <> 128) src). lia. }
  destruct (_ || _) eqn:E; [done|]. reflect_bools. cbn [negb].
  destruct (decode_loop src [] 0 []) as [[w pos]|] eqn:D; [|done].
  apply decode_loop_bound in D; [|cbn; lia]. change (zlen (@nil Z)) with 0 in D.
  pose proof (Z.div_mod (decode_count src) 4). rewrite u32_id by lia. lia.
Qed.

Lemma base64_decode_fits_witness :
  match base64_decode true (bytes_of "QUJ?D==RA==") with
  | B64Null => True
  | B64Crash => False
  | B64Out olen written out_len => zlen written < olen /\ 0 <= out_len <= zlen written
  end.
Proof. apply (base64_decode_fits (bytes_of "QUJ?D==RA==")). vm_compute. done. Defined.

(** The strings exchanged with the framework survive: the hexadecimal form of any
    non-empty byte array below 2^29 bytes, encoded by [base64_encode_to_str] and decoded
    by [base64_decode_to_str], is the same hexadecimal string. *)
Theorem base64_str_roundtrip (data : list Z) :
  Forall is_byte data -> 0 < zlen data < 536870912 ->
  exists olen written out_len,
    base64_encode_to_str true (byteArrayToHexStringB64 data) = B64Out olen written out_len /\
    base64_decode_to_str true (ztake out_len written) = Some (byteArrayToHexStringB64 data).
Proof.
  intros Hs Hl. unfold base64_encode_to_str, base64_decode_to_str, byteArrayToHexStringB64.
  pose proof (hexStringToByteArrayB64_chars data Hs) as H.
  destruct (hexStringToByteArrayB64 _) as [buf n]. destruct H as [-> ->].
  rewrite base64_encode_ok by lia. do 3 eexists. split; [done|]. rewrite ztake_app_length.
  destruct (base64_decode_encoded data Hs ltac:(lia)) as (olen' & extra & ->).
  by rewrite ztake_app_length.
Qed.

Lemma base64_str_roundtrip_witness :
  exists olen written out_len,
    base64_encode_to_str true (byteArrayToHexStringB64 [1; 255; 0; 17]) = B64Out olen written out_len /\
    base64_decode_to_str true (ztake out_len written) = Some (byteArrayToHexStringB64 [1; 255; 0; 17]).
Proof.
  apply (base64_str_roundtrip [1; 255; 0; 17]).
  - decide_closed.
  - vm_compute. done.
Defined.
