(* ===== verification/SmsPdu.v ===== *)
(** The checks the RIL daemon makes on GSM short messages (src/mtk/ril/mtk-ril/ril_sms.c,
    ril_sms.h): first octet, protocol identifier, data coding scheme and lengths of a
    message to send and of a received one, the service-centre address in front of a message,
    and the table of cell-broadcast identifiers.

    A PDU is a string of hexadecimal digits; [pdu_array] is the array of [int] the checks make
    of it.  Reading behind this array gives [None].  An abstract message ([Submit],
    [Deliver]) with its encoding says what the checks are meant to accept:
    [submit_check_exact] and [deliver_check_exact] show that they accept exactly that. *)
From S2P Require Import Prelude CString Base64.

(** * Constants (ril_sms.h) *)

Definition MAX_SMSC_LENGTH : Z := 11.
Definition MAX_TPDU_LENGTH : Z := 164.
Definition TPDU_MAX_TPDU_SIZE : Z := 175.
Definition TPDU_MAX_ADDR_LEN : Z := 11.
Definition TPDU_ONE_MSG_OCTET : Z := 140.

Definition TPDU_MTI_BITS : Z := 3.
Definition TPDU_MTI_DELIVER : Z := 0.
Definition TPDU_MTI_SUBMIT : Z := 1.
Definition TPDU_MTI_UNSPECIFIED : Z := 2.
Definition TPDU_MTI_RESERVED : Z := 3.
Definition TPDU_VPF_BITS : Z := 24.
Definition TPDU_VPF_NOT_PRESENT : Z := 0.
Definition TPDU_VPF_RELATIVE : Z := 2.

Definition TPDU_PID_DEFAULT_PID : Z := 0.
Definition TPDU_PID_CHECK : Z := 192.
Definition TPDU_PID_RESERVED : Z := 128.

Definition TPDU_DCS_CODING1 : Z := 192.
Definition TPDU_DCS_CODING2 : Z := 240.
Definition TPDU_DCS_RESERVE_BIT : Z := 8.
Definition TPDU_DCS_ALPHABET_CHECK : Z := 12.
Definition TPDU_DCS_COMPRESS_CHECK : Z := 32.

Definition SMS_ENCODING_7BIT : Z := 0.
Definition SMS_ENCODING_8BIT : Z := 1.
Definition SMS_ENCODING_16BIT : Z := 2.
Definition SMS_ENCODING_UNKNOWN : Z := 3.
Definition SMS_MESSAGE_CLASS_UNSPECIFIED : Z := 4.

Definition TPDU_NO_ERROR : Z := 0.
Definition TPDU_MSG_LEN_EXCEEDED : Z := 6.

(** * Operations *)

Fixpoint hexCharToDecInt_loop (hex : list Z) (length : nat) (value : Z) : Z :=
  match length, hex with
  | S length', c :: hex' =>
      if (48 <=? c) && (c <=? 57) then hexCharToDecInt_loop hex' length' (value * 16 + (c - 48))
      else if (65 <=? c) && (c <=? 70) then hexCharToDecInt_loop hex' length' (value * 16 + (c - 65 + 10))
      else if (97 <=? c) && (c <=? 102) then hexCharToDecInt_loop hex' length' (value * 16 + (c - 97 + 10))
      else -1
  | _, _ => value
  end.

Definition rild_sms_hexCharToDecInt (hex : list Z) (length : nat) : Z := hexCharToDecInt_loop hex length 0.

Definition rild_sms_fo_check (fo : Z) : bool :=
  if TPDU_MTI_RESERVED <=? Z.land fo TPDU_MTI_BITS then false
  else if negb (Z.shiftr (Z.land fo TPDU_VPF_BITS) 3 =? TPDU_VPF_NOT_PRESENT) &&
          negb (Z.shiftr (Z.land fo TPDU_VPF_BITS) 3 =? TPDU_VPF_RELATIVE) then false
  else true.

Definition rild_sms_pid_check (pid : Z) : bool :=
  if negb (pid =? TPDU_PID_DEFAULT_PID) then
    negb ((Z.land pid TPDU_PID_CHECK =? TPDU_PID_CHECK) || (Z.land pid TPDU_PID_CHECK =? TPDU_PID_RESERVED))
  else true.

Definition rild_sms_dcs_check (dcs : Z) : bool :=
  if dcs =? 0 then true
  else
    let coding_group := u8 (Z.land dcs 240) in
    if Z.land dcs TPDU_DCS_CODING2 =? TPDU_DCS_CODING2 then
      negb (Z.land dcs TPDU_DCS_RESERVE_BIT =? TPDU_DCS_RESERVE_BIT)
    else if Z.land dcs TPDU_DCS_CODING1 =? 0 then
      if Z.land dcs TPDU_DCS_ALPHABET_CHECK =? TPDU_DCS_ALPHABET_CHECK then false
      else negb (Z.land dcs TPDU_DCS_COMPRESS_CHECK =? TPDU_DCS_COMPRESS_CHECK)
    else if Z.land coding_group 192 =? 128 then false
    else if (coding_group =? 192) || (coding_group =? 208) || (coding_group =? 224) then
      negb (Z.land dcs 4 =? 4)
    else true.

(** Alphabet, message class, compression. *)
Definition rild_sms_decode_dcs (dcs : Z) : Z * Z * bool :=
  if dcs =? 0 then (SMS_ENCODING_7BIT, SMS_MESSAGE_CLASS_UNSPECIFIED, false)
  else if dcs =? 132 then (SMS_ENCODING_16BIT, SMS_MESSAGE_CLASS_UNSPECIFIED, false)
  else
    let coding_group := u8 (Z.shiftr dcs 4) in
    let '(alphabet_type, msg_class, is_compress) :=
      if coding_group =? 15 then
        if Z.land dcs 8 =? 8 then (SMS_ENCODING_UNKNOWN, SMS_MESSAGE_CLASS_UNSPECIFIED, false)
        else (Z.shiftr (Z.land dcs 4) 2, Z.land dcs 3, false)
      else if Z.lor coding_group 7 =? 7 then
        (Z.land (Z.shiftr dcs 2) 3,
         (if Z.land dcs 16 =? 16 then Z.land dcs 3 else SMS_MESSAGE_CLASS_UNSPECIFIED),
         Z.shiftr (Z.land coding_group 2) 1 =? 1)
      else if Z.land coding_group 12 =? 8 then (SMS_ENCODING_7BIT, SMS_MESSAGE_CLASS_UNSPECIFIED, false)
      else if (Z.land coding_group 15 =? 12) || (Z.land coding_group 15 =? 13) || (Z.land coding_group 15 =? 14) then
        ((if Z.land coding_group 15 =? 14 then SMS_ENCODING_16BIT else SMS_ENCODING_7BIT),
         SMS_MESSAGE_CLASS_UNSPECIFIED, false)
      else (SMS_ENCODING_7BIT, SMS_MESSAGE_CLASS_UNSPECIFIED, false) in
    ((if alphabet_type =? SMS_ENCODING_UNKNOWN then SMS_ENCODING_7BIT else alphabet_type), msg_class, is_compress).

Definition rild_sms_is_len_in8bit (dcs : Z) : bool :=
  let '(alphabet_type, _, is_compress) := rild_sms_decode_dcs dcs in
  is_compress || (alphabet_type =? SMS_ENCODING_8BIT) || (alphabet_type =? SMS_ENCODING_16BIT).

Definition rild_sms_msg_len_in_octet (dcs len : Z) : Z :=
  if rild_sms_is_len_in8bit dcs then u32 len else u32 (Z.quot (len * 7 + 7) 8).

(** [int pdu_array[pdu_len/2]], filled from the digits. *)
Definition pdu_array (pdu : list Z) : list Z :=
  map (fun i => rild_sms_hexCharToDecInt (drop (2 * i) pdu) 2) (seq 0 (length pdu / 2)).

(** An element of the array, if there is one. *)
Definition elem (a : list Z) (i : Z) : option Z := if i <? 0 then None else a !! Z.to_nat i.

(** The result and [*error_cause]. *)
Definition rild_sms_submit_pdu_check (pdu : list Z) : option (bool * Z) :=
  let pdu_len := zlen pdu in
  if (TPDU_MAX_TPDU_SIZE <? pdu_len / 2) || (pdu_len =? 0) then Some (false, TPDU_MSG_LEN_EXCEEDED)
  else
    let a := pdu_array pdu in
    sca ← elem a 0;
    if TPDU_MAX_ADDR_LEN <? sca then Some (false, TPDU_NO_ERROR)
    else
      let off := u8 (1 + sca) in
      fo ← elem a off;
      if negb (Z.land fo TPDU_MTI_BITS =? TPDU_MTI_SUBMIT) then Some (false, TPDU_NO_ERROR)
      else if negb (rild_sms_fo_check fo) then Some (false, TPDU_NO_ERROR)
      else
        let off := u8 (off + 2) in
        da ← elem a off;
        if (TPDU_MAX_ADDR_LEN - 1) * 2 <? da then Some (false, TPDU_NO_ERROR)
        else
          let off := u8 (off + (1 + 1 + Z.quot (da + 1) 2)) in
          pid ← elem a off;
          if negb (rild_sms_pid_check pid) then Some (false, TPDU_NO_ERROR)
          else
            let off := u8 (off + 1) in
            dcs ← elem a off;
            if negb (rild_sms_dcs_check dcs) then Some (false, TPDU_NO_ERROR)
            else
              let off := if Z.shiftr (Z.land fo TPDU_VPF_BITS) 3 =? TPDU_VPF_RELATIVE
                         then u8 (off + 2) else u8 (off + 1) in
              x ← elem a off;
              let udl := u8 x in
              let off := u8 (off + 1) in
              let user_data_len := u8 (rild_sms_msg_len_in_octet dcs udl) in
              if (TPDU_ONE_MSG_OCTET <? user_data_len) || negb (user_data_len =? pdu_len / 2 - off)
              then Some (false, TPDU_MSG_LEN_EXCEEDED)
              else Some (true, TPDU_NO_ERROR).

Definition rild_sms_deliver_pdu_check (pdu : list Z) : option (bool * Z) :=
  let pdu_len := zlen pdu in
  if (TPDU_MAX_TPDU_SIZE <? pdu_len / 2) || (pdu_len =? 0) then Some (false, TPDU_MSG_LEN_EXCEEDED)
  else
    let a := pdu_array pdu in
    sca ← elem a 0;
    if TPDU_MAX_ADDR_LEN <? sca then Some (false, TPDU_NO_ERROR)
    else
      let off := 1 + sca in
      fo ← elem a off;
      if negb (Z.land fo TPDU_MTI_BITS =? TPDU_MTI_DELIVER) &&
         negb (Z.land fo TPDU_MTI_BITS =? TPDU_MTI_UNSPECIFIED) then Some (false, TPDU_NO_ERROR)
      else
        let off := off + 1 in
        oa ← elem a off;
        if (TPDU_MAX_ADDR_LEN - 1) * 2 <? oa then Some (false, TPDU_NO_ERROR)
        else
          let off := if 0 <? Z.rem oa 2 then off + (1 + 1 + Z.quot (oa + 1) 2)
                     else off + (1 + 1 + Z.quot oa 2) in
          let off := off + 1 in
          dcs ← elem a off;
          let off := off + (1 + 7) in
          x ← elem a off;
          let udl := u8 x in
          let off := off + 1 in
          let user_data_len := u8 (rild_sms_msg_len_in_octet dcs udl) in
          if (TPDU_ONE_MSG_OCTET <? user_data_len) || negb (user_data_len =? pdu_len / 2 - off)
          then Some (false, TPDU_MSG_LEN_EXCEEDED)
          else Some (true, TPDU_NO_ERROR).

(** Setting [table[j]] for [j] from [begin], [n] times. *)
Fixpoint set_range (n : nat) (j maximum_id : Z) (table : list Z) : list Z :=
  match n with
  | O => table
  | S n' => set_range n' (j + 1) maximum_id (if j <? maximum_id then <[Z.to_nat j := 1]> table else table)
  end.

Definition INT_MAX : Z := 2147483647.

(** The loop over the characters, the terminator included; [None] when [value] overflows. *)
Fixpoint id_loop (s : list Z) (begin value maximum_id : Z) (table : list Z) : option (Z * list Z) :=
  match s with
  | [] => Some (0, table)
  | c :: s' =>
      if c =? 32 then id_loop s' begin value maximum_id table
      else if (c =? 44) || (c =? 0) then
        let begin := if begin =? -1 then value else value + 1 in
        id_loop s' (-1) 0 maximum_id (set_range (Z.to_nat (value - begin + 1)) begin maximum_id table)
      else if c =? 45 then id_loop s' value 0 maximum_id table
      else if (48 <=? c) && (c <=? 57) then
        if INT_MAX <? value * 10 + c then None
        else id_loop s' begin (value * 10 + c - 48) maximum_id table
      else Some (-1, table)
  end.

(** The result and the table. *)
Definition rild_sms_getIDTable (id_string : list Z) (maximum_id : Z) : option (Z * list Z) :=
  let table := repeat 0 (Z.to_nat maximum_id) in
  if zlen id_string =? 0 then Some (0, table) else id_loop (id_string ++ [0]) (-1) 0 maximum_id table.

(** [sprintf] of address and message into the buffer; the result is the length in octets of
    the message or -1, and the buffer's string. *)
Definition rild_sms_packPDU (smsc tpdu : option (list Z)) (check : bool) : option (Z * list Z) :=
  let bad_smsc := match smsc with
    | None => false
    | Some s => negb (zlen s mod 2 =? 0) || (zlen s <? 2) || (MAX_SMSC_LENGTH <? zlen s / 2 - 1)
    end in
  if bad_smsc then Some (-1, [])
  else
    match tpdu with
    | None => Some (-1, [])
    | Some tpdu =>
        if negb (zlen tpdu mod 2 =? 0) then Some (-1, [])
        else
          let len := zlen tpdu / 2 in
          if MAX_TPDU_LENGTH <? len then Some (-1, [])
          else
            let pdu := default (bytes_of "00") smsc ++ tpdu in
            if check then
              '(ok, _) ← rild_sms_submit_pdu_check pdu;
              if (ok : bool) then Some (len, pdu) else Some (-1, pdu)
            else Some (len, pdu)
    end.

Definition rild_sms_checkReceivedPDU (length : Z) (pdu : list Z) (check : bool) : option Z :=
  let pdu_length := zlen pdu in
  if pdu_length <? 2 then Some (-1)
  else
    let sca_length := rild_sms_hexCharToDecInt pdu 2 in
    if sca_length <? 0 then Some (-1)
    else if check then
      '(ok, _) ← rild_sms_deliver_pdu_check pdu;
      if (ok : bool) then Some 0 else Some (-1)
    else Some 0.

Definition hexCharToInt (c : Z) : Z :=
  if (48 <=? c) && (c <=? 57) then c - 48
  else if (65 <=? c) && (c <=? 70) then c - 65 + 10
  else if (97 <=? c) && (c <=? 102) then c - 97 + 10
  else 0.

(** The bytes for the digits [in], at most [outLength] of them; the array [in] is a string
    with its terminator, and reading behind it gives [None]. *)
Fixpoint hexString_loop (n : nat) (digits : list Z) : option (list Z) :=
  match n with
  | O => Some []
  | S n' =>
      match digits with
      | h :: l :: digits' =>
          rest ← hexString_loop n' digits';
          Some (u8 (Z.lor (Z.shiftl (hexCharToInt h) 4) (hexCharToInt l)) :: rest)
      | _ => None
      end
  end.

Definition hexStringToBytes (digits : list Z) (inLength : Z) (out : list Z) (outLength : Z) : option (list Z) :=
  if negb (inLength =? outLength * 2) then Some out
  else
    bytes ← hexString_loop (Z.to_nat outLength) (digits ++ [0]);
    Some (memcpy_at out 0 bytes).

(** * Messages *)

(** A message to send, as its parts: service-centre address, first octet, reference,
    destination (number of digits, type, digits), protocol identifier, data coding scheme,
    validity period, number of characters and user data. *)
Record Submit := mkSubmit {
  sb_sca : list Z; sb_fo : Z; sb_mr : Z; sb_da_len : Z; sb_toa : Z; sb_da : list Z;
  sb_pid : Z; sb_dcs : Z; sb_vp : option Z; sb_udl : Z; sb_ud : list Z
}.

Definition encode_submit (m : Submit) : list Z :=
  zlen (sb_sca m) :: sb_sca m ++
  sb_fo m :: sb_mr m :: sb_da_len m :: sb_toa m :: sb_da m ++
  sb_pid m :: sb_dcs m :: match sb_vp m with Some v => [v] | None => [] end ++
  sb_udl m :: sb_ud m.

(** Octets of [udl] characters. *)
Definition octets (dcs udl : Z) : Z := if rild_sms_is_len_in8bit dcs then udl else (7 * udl + 7) / 8.

(** Bits 4 and 3 of the first octet: 0 without validity period, 2 with one of an octet. *)
Definition validity_format (fo : Z) : Z := (fo / 8) mod 4.

(** The coding groups the daemon lets through. *)
Definition dcs_supported (dcs : Z) : bool :=
  let group := dcs / 16 in
  if group <? 2 then negb ((dcs / 4) mod 4 =? 3)
  else if group <? 4 then false
  else if group <? 8 then true
  else if group <? 12 then false
  else if group <? 15 then (dcs / 4) mod 2 =? 0
  else (dcs / 8) mod 2 =? 0.

Record submit_ok (m : Submit) : Prop := {
  so_sca : zlen (sb_sca m) <= 11;
  so_mti : sb_fo m mod 4 = 1;
  so_vp : match sb_vp m with None => validity_format (sb_fo m) = 0 | Some _ => validity_format (sb_fo m) = 2 end;
  so_da_len : sb_da_len m <= 20;
  so_da : zlen (sb_da m) = (sb_da_len m + 1) / 2;
  so_pid : sb_pid m < 128;
  so_dcs : dcs_supported (sb_dcs m) = true;
  so_ud : zlen (sb_ud m) = octets (sb_dcs m) (sb_udl m);
  so_ud_max : zlen (sb_ud m) <= 140;
  so_size : zlen (encode_submit m) <= 175
}.

(** A received message; the time stamp has seven octets. *)
Record Deliver := mkDeliver {
  dl_sca : list Z; dl_fo : Z; dl_oa_len : Z; dl_toa : Z; dl_oa : list Z;
  dl_pid : Z; dl_dcs : Z; dl_scts : list Z; dl_udl : Z; dl_ud : list Z
}.

Definition encode_deliver (m : Deliver) : list Z :=
  zlen (dl_sca m) :: dl_sca m ++
  dl_fo m :: dl_oa_len m :: dl_toa m :: dl_oa m ++
  dl_pid m :: dl_dcs m :: dl_scts m ++
  dl_udl m :: dl_ud m.

Record deliver_ok (m : Deliver) : Prop := {
  do_sca : zlen (dl_sca m) <= 11;
  do_mti : dl_fo m mod 4 = 0 \/ dl_fo m mod 4 = 2;
  do_oa_len : dl_oa_len m <= 20;
  do_oa : zlen (dl_oa m) = (dl_oa_len m + 1) / 2;
  do_scts : zlen (dl_scts m) = 7;
  do_ud : zlen (dl_ud m) = octets (dl_dcs m) (dl_udl m);
  do_ud_max : zlen (dl_ud m) <= 140;
  do_size : zlen (encode_deliver m) <= 175
}.

(** * The array of octets *)

Lemma hexCharToDecInt_pair b rest : is_byte b ->
  rild_sms_hexCharToDecInt (byte_at HEX_DIGITS_B64 (Z.land (Z.shiftr b 4) 15)
    :: byte_at HEX_DIGITS_B64 (Z.land b 15) :: rest) 2 = b.
Proof.
  intros Hb. unfold rild_sms_hexCharToDecInt.
  enough (H : (hexCharToDecInt_loop [byte_at HEX_DIGITS_B64 (Z.land (Z.shiftr b 4) 15);
    byte_at HEX_DIGITS_B64 (Z.land b 15)] 2 0 =? b) = true).
  { apply Z.eqb_eq in H. rewrite <- H at 3. cbn [hexCharToDecInt_loop]. repeat case_if; try done; destruct rest; done. }
  revert b Hb. apply (byte_forall (fun b => hexCharToDecInt_loop [byte_at HEX_DIGITS_B64 (Z.land (Z.shiftr b 4) 15);
    byte_at HEX_DIGITS_B64 (Z.land b 15)] 2 0 =? b)). vm_compute. reflexivity.
Qed.

Lemma pdu_array_hex l : Forall is_byte l -> pdu_array (hex_chars l) = l.
Proof.
  unfold pdu_array. intros H.
  replace (length (hex_chars l) / 2)%nat with (length l).
  2:{ pose proof (zlen_hex_chars l) as Hz. unfold zlen in Hz. replace (length (hex_chars l)) with (length l * 2)%nat by lia.
      by rewrite Nat.div_mul. }
  assert (Hg : forall k, map (fun i => rild_sms_hexCharToDecInt (drop (2 * i) (hex_chars (k ++ l))) 2)
    (seq (length k) (length l)) = l).
  { induction H as [|b l Hb Hl IH]; intros k; [done|]. cbn [length seq map]. f_equal.
    - replace (drop (2 * length k) (hex_chars (k ++ b :: l))) with (hex_chars (b :: l)).
      { cbn [hex_chars]. by apply hexCharToDecInt_pair. }
      clear. induction k as [|x k IH]; [done|].
      replace (2 * length (x :: k))%nat with (S (S (2 * length k))) by (cbn; lia). exact IH.
    - specialize (IH (k ++ [b])). rewrite <- app_assoc in IH. cbn [app] in IH.
      rewrite length_app in IH. cbn [length] in IH. replace (length k + 1)%nat with (S (length k)) in IH by lia. exact IH. }
  exact (Hg []).
Qed.

(** ** Reading the array *)

Lemma elem_split a i x : elem a i = Some x -> exists pre post, a = pre ++ x :: post /\ zlen pre = i.
Proof.
  unfold elem. destruct (Z.ltb_spec i 0); [done|]. intros Hx. exists (take (Z.to_nat i) a), (drop (S (Z.to_nat i)) a).
  split; [symmetry; by apply take_drop_middle|]. apply lookup_lt_Some in Hx. unfold zlen. rewrite length_take. lia.
Qed.

Lemma elem_app pre l k : 0 <= k -> elem (pre ++ l) (zlen pre + k) = elem l k.
Proof.
  intros Hk. unfold elem, zlen. destruct (Z.ltb_spec (Z.of_nat (length pre) + k) 0); [lia|].
  destruct (Z.ltb_spec k 0); [lia|]. rewrite lookup_app_r by lia. f_equal. lia.
Qed.

Lemma elem_at pre x post i : i = zlen pre -> elem (pre ++ x :: post) i = Some x.
Proof. intros ->. rewrite <- (Z.add_0_r (zlen pre)), elem_app by lia. done. Qed.

(** ** The bit tests in arithmetic *)

Lemma land_3 b : is_byte b -> Z.land b 3 = b mod 4.
Proof. intros _. exact (Z.land_ones b 2 ltac:(lia)). Qed.

Lemma vpf_bits b : Z.shiftr (Z.land b TPDU_VPF_BITS) 3 = validity_format b.
Proof.
  unfold validity_format. change (b / 8) with (b / 2 ^ 3). rewrite <- Z.shiftr_div_pow2 by lia.
  change 4 with (2 ^ 2). rewrite <- Z.land_ones by lia. rewrite Z.shiftr_land. done.
Qed.

Lemma pid_check_spec b : is_byte b -> rild_sms_pid_check b = (b <? 128).
Proof.
  intros Hb. apply eqb_prop. revert b Hb. apply (byte_forall (fun b => Bool.eqb (rild_sms_pid_check b) (b <? 128))).
  vm_compute. reflexivity.
Qed.

Lemma dcs_check_spec b : is_byte b -> rild_sms_dcs_check b = dcs_supported b.
Proof.
  intros Hb. apply eqb_prop. revert b Hb. apply (byte_forall (fun b => Bool.eqb (rild_sms_dcs_check b) (dcs_supported b))).
  vm_compute. reflexivity.
Qed.

Lemma fo_check_spec b : is_byte b -> Z.land b TPDU_MTI_BITS = 1 ->
  rild_sms_fo_check b = (validity_format b =? 0) || (validity_format b =? 2).
Proof.
  intros Hb H. unfold rild_sms_fo_check. rewrite vpf_bits, H. cbn. unfold TPDU_VPF_NOT_PRESENT, TPDU_VPF_RELATIVE.
  destruct (validity_format b =? 0), (validity_format b =? 2); done.
Qed.

Lemma user_data_len_spec dcs udl : is_byte udl ->
  u8 (rild_sms_msg_len_in_octet dcs (u8 udl)) = octets dcs udl.
Proof.
  intros Hu. rewrite (u8_id udl) by done. unfold rild_sms_msg_len_in_octet, octets, is_byte in *.
  destruct (rild_sms_is_len_in8bit dcs).
  - rewrite u32_id by lia. apply u8_id. done.
  - replace (udl * 7 + 7) with (7 * udl + 7) by lia. rewrite Z.quot_div_nonneg by lia.
    rewrite u32_id by (split; [apply Z.div_pos; lia|apply Z.div_lt_upper_bound; lia]).
    apply u8_id. split; [apply Z.div_pos; lia|apply Z.div_lt_upper_bound; lia].
Qed.

Lemma zlen_half_hex l : zlen (hex_chars l) / 2 = zlen l.
Proof. rewrite zlen_hex_chars, Z.mul_comm. by apply Z.div_mul. Qed.

Lemma hex_empty l : (zlen (hex_chars l) =? 0) = (zlen l =? 0).
Proof. rewrite zlen_hex_chars. destruct (Z.eqb_spec (zlen l) 0), (Z.eqb_spec (2 * zlen l) 0); lia. Qed.

Lemma elem_next pre l i x : elem (pre ++ l) i = Some x -> zlen pre <= i ->
  exists mid post, l = mid ++ x :: post /\ zlen mid = i - zlen pre.
Proof.
  intros H Hi. replace i with (zlen pre + (i - zlen pre)) in H by lia. rewrite elem_app in H by lia.
  apply elem_split in H as (mid & post & -> & Hm). eauto.
Qed.

(** * What the checks accept *)

(** The element behind [pre] of the array [a]. *)
Lemma elem_behind pre x post a i : a = pre ++ x :: post -> i = zlen pre -> elem a i = Some x.
Proof. intros -> ->. by apply elem_at. Qed.

Ltac behind pre :=
  eapply (elem_behind pre); [repeat (progress cbn [app] || rewrite <- app_assoc); reflexivity|zlist; lia].

Lemma submit_check_accepts m : Forall is_byte (encode_submit m) -> submit_ok m ->
  rild_sms_submit_pdu_check (hex_chars (encode_submit m)) = Some (true, TPDU_NO_ERROR).
Proof.
  intros Hb [H1 H2 H3 H4 H5 H6 H7 H8 H9 H10]. unfold rild_sms_submit_pdu_check.
  rewrite hex_empty, zlen_half_hex, pdu_array_hex by done.
  destruct (Z.ltb_spec TPDU_MAX_TPDU_SIZE (zlen (encode_submit m))); [unfold TPDU_MAX_TPDU_SIZE in *; lia|].
  destruct m as [sca fo mr dal toa da pid dcs vp udl ud]. unfold encode_submit in *.
  cbn [sb_sca sb_fo sb_mr sb_da_len sb_toa sb_da sb_pid sb_dcs sb_vp sb_udl sb_ud] in *.
  set (v := match vp with Some v => [v] | None => [] end) in *.
  repeat rewrite ?Forall_cons, ?Forall_app in Hb. destruct Hb as (_ & _ & Hfo & _ & Hdal & _ & _ & Hpid & Hdcs & _ & Hudl & _).
  set (a := zlen sca :: _) in *. pose proof (zlen_nonneg sca). pose proof (zlen_nonneg da). unfold is_byte in Hdal.
  assert (Hz : (zlen a =? 0) = false) by (apply Z.eqb_neq; unfold a; rewrite zlen_cons; pose proof (zlen_nonneg (sca ++ fo :: mr :: dal :: toa :: da ++ pid :: dcs :: v ++ udl :: ud)); lia).
  rewrite Hz. cbn [orb].
  assert (E0 : elem a 0 = Some (zlen sca)) by (unfold a; behind (@nil Z)).
  assert (E1 : elem a (1 + zlen sca) = Some fo) by (unfold a; behind (zlen sca :: sca)).
  assert (E2 : elem a (1 + zlen sca + 2) = Some dal) by (unfold a; behind (zlen sca :: sca ++ [fo; mr])).
  assert (E3 : elem a (1 + zlen sca + 2 + (1 + 1 + (dal + 1) / 2)) = Some pid)
    by (unfold a; rewrite <- H5; behind (zlen sca :: sca ++ [fo; mr; dal; toa] ++ da)).
  assert (E4 : elem a (1 + zlen sca + 2 + (1 + 1 + (dal + 1) / 2) + 1) = Some dcs)
    by (unfold a; rewrite <- H5; behind (zlen sca :: sca ++ [fo; mr; dal; toa] ++ da ++ [pid])).
  assert (E5 : elem a (1 + zlen sca + 2 + (1 + 1 + (dal + 1) / 2) + (2 + zlen v)) = Some udl)
    by (unfold a; rewrite <- H5; behind (zlen sca :: sca ++ [fo; mr; dal; toa] ++ da ++ [pid; dcs] ++ v)).
  assert (Hd : (dal + 1) / 2 < 11) by (apply Z.div_lt_upper_bound; lia).
  rewrite E0. cbn [mbind option_bind]. unfold TPDU_MAX_ADDR_LEN.
  destruct (Z.ltb_spec 11 (zlen sca)); [lia|]. rewrite (u8_id (1 + zlen sca)) by (unfold is_byte; lia).
  rewrite E1. cbn [mbind option_bind].
  assert (Hmti : Z.land fo TPDU_MTI_BITS = 1) by (unfold TPDU_MTI_BITS; rewrite land_3 by done; done).
  rewrite fo_check_spec, Hmti by done. cbn [Z.eqb negb TPDU_MTI_SUBMIT Pos.eqb].
  assert (Hvf : (validity_format fo =? 0) || (validity_format fo =? 2) = true) by (destruct vp; rewrite H3; done).
  rewrite Hvf. cbn [negb]. rewrite (u8_id (1 + zlen sca + 2)) by (unfold is_byte; lia). rewrite E2. cbn [mbind option_bind].
  destruct (Z.ltb_spec ((11 - 1) * 2) dal); [lia|]. rewrite Z.quot_div_nonneg by lia.
  rewrite (u8_id (1 + zlen sca + 2 + _)) by (unfold is_byte; lia). rewrite E3. cbn [mbind option_bind].
  rewrite pid_check_spec by done. destruct (Z.ltb_spec pid 128); [|lia]. cbn [negb].
  rewrite (u8_id (1 + zlen sca + 2 + (1 + 1 + (dal + 1) / 2) + 1)) by (unfold is_byte; lia). rewrite E4. cbn [mbind option_bind].
  rewrite dcs_check_spec, H7 by done. cbn [negb]. rewrite vpf_bits.
  assert (Hvl : zlen v = if validity_format fo =? TPDU_VPF_RELATIVE then 1 else 0)
    by (unfold v; destruct vp; rewrite H3; done).
  set (off := if _ =? TPDU_VPF_RELATIVE then u8 _ else _).
  assert (Hoff : off = 1 + zlen sca + 2 + (1 + 1 + (dal + 1) / 2) + (2 + zlen v)).
  { unfold off. rewrite Hvl. destruct (validity_format fo =? TPDU_VPF_RELATIVE); rewrite u8_id by (unfold is_byte; lia); lia. }
  rewrite Hoff, E5. cbn [mbind option_bind]. rewrite user_data_len_spec, <- H8 by done.
  assert (Hvm : 0 <= zlen v <= 1) by (rewrite Hvl; destruct (validity_format fo =? TPDU_VPF_RELATIVE); lia).
  rewrite (u8_id (1 + zlen sca + 2 + (1 + 1 + (dal + 1) / 2) + (2 + zlen v) + 1)) by (unfold is_byte; lia).
  unfold TPDU_ONE_MSG_OCTET.
  destruct (Z.ltb_spec 140 (zlen ud)); [lia|]. cbn [orb].
  replace (zlen a - _) with (zlen ud) by (unfold a; zlist; lia). by rewrite Z.eqb_refl.
Qed.

Lemma zlen_split_last {A} (l : list A) n : zlen l = n + 1 -> 0 <= n -> exists x l', l = x :: l' /\ zlen l' = n.
Proof. destruct l as [|x l']; rewrite ?zlen_cons; [rewrite zlen_nil; lia|]. intros H _. exists x, l'. split; [done|lia]. Qed.

(** The length of a list that is one element or none. *)
Lemma zlen_option {A} (l : list A) (b : bool) : zlen l = (if b then 1 else 0) ->
  l = match (if b then head l else None) with Some x => [x] | None => [] end /\ (b = true -> is_Some (head l)).
Proof.
  destruct b; intros H.
  - destruct l as [|x [|y l]]; zlist; cbn; [by rewrite zlen_nil in H|eauto|].
    rewrite !zlen_cons in H. pose proof (zlen_nonneg l). lia.
  - destruct l as [|x l]; [done|]. rewrite zlen_cons in H. pose proof (zlen_nonneg l). lia.
Qed.

Lemma zlen_0_nil {A} (l : list A) : zlen l = 0 -> l = [].
Proof. destruct l; [done|]. rewrite zlen_cons. pose proof (zlen_nonneg l). lia. Qed.

(** From an element of [pre ++ r] found behind [pre], what lies before it in [r]. *)
Tactic Notation "next_elem" hyp(H) constr(pre) constr(r) ident(mid) ident(post) ident(Hm) :=
  match type of H with
  | elem ?a _ = _ => replace a with (pre ++ r) in H by (repeat (progress cbn [app] || rewrite <- app_assoc); reflexivity)
  end;
  apply elem_next in H as (mid & post & -> & Hm); [|zlist; lia];
  repeat (rewrite zlen_app in Hm || rewrite zlen_cons in Hm || rewrite zlen_nil in Hm).

Lemma submit_check_sound b e : Forall is_byte b ->
  rild_sms_submit_pdu_check (hex_chars b) = Some (true, e) -> exists m, submit_ok m /\ b = encode_submit m.
Proof.
  intros Hb. unfold rild_sms_submit_pdu_check. rewrite hex_empty, zlen_half_hex, pdu_array_hex by done.
  destruct (_ || _) eqn:Elen; [done|]. apply orb_false_iff in Elen as [Emax _]. apply Z.ltb_ge in Emax.
  destruct (elem b 0) as [sca|] eqn:E0; [|done]. cbn [mbind option_bind].
  apply elem_split in E0 as (pre & r & -> & Hp). destruct pre; [|rewrite zlen_cons in Hp; pose proof (zlen_nonneg pre); lia].
  clear Hp. cbn [app] in *. apply Forall_cons in Hb as [Hsca Hb]. unfold TPDU_MAX_ADDR_LEN.
  destruct (Z.ltb_spec 11 sca); [done|]. unfold is_byte in Hsca. rewrite (u8_id (1 + sca)) by (unfold is_byte; lia).
  destruct (elem (sca :: r) (1 + sca)) as [fo|] eqn:E1; [|done]. cbn [mbind option_bind].
  next_elem E1 [sca] r A r2 HS. apply Forall_app in Hb as [HbS Hb]. apply Forall_cons in Hb as [Hfo Hb].
  destruct (negb (Z.land fo TPDU_MTI_BITS =? TPDU_MTI_SUBMIT)) eqn:Emti; [done|].
  apply negb_false_iff, Z.eqb_eq in Emti. rewrite fo_check_spec by done.
  destruct (negb (_ || _)) eqn:Evf; [done|]. apply negb_false_iff in Evf.
  rewrite (u8_id (1 + sca + 2)) by (unfold is_byte; lia).
  destruct (elem _ (1 + sca + 2)) as [dal|] eqn:E2; [|done]. cbn [mbind option_bind].
  next_elem E2 (sca :: A ++ [fo]) r2 M r3 HM.
  destruct (zlen_split_last M 0) as (mr & M' & -> & ->%zlen_0_nil); [lia|lia|]. clear HM. cbn [app] in *.
  apply Forall_cons in Hb as [_ Hb]. apply Forall_cons in Hb as [Hdal Hb]. unfold is_byte in Hdal.
  destruct (Z.ltb_spec ((11 - 1) * 2) dal); [done|]. rewrite Z.quot_div_nonneg by lia.
  assert (Hd : 0 <= (dal + 1) / 2 < 11) by (split; [apply Z.div_pos; lia|apply Z.div_lt_upper_bound; lia]).
  set (d := (dal + 1) / 2) in *. rewrite (u8_id (1 + sca + 2 + _)) by (unfold is_byte; lia).
  destruct (elem _ (1 + sca + 2 + (1 + 1 + d))) as [pid|] eqn:E3; [|done]. cbn [mbind option_bind].
  next_elem E3 (sca :: A ++ [fo; mr; dal]) r3 D r4 HD.
  destruct (zlen_split_last D d) as (toa & da & -> & Hda); [lia|lia|]. clear HD. cbn [app] in *.
  apply Forall_cons in Hb as [_ Hb]. apply Forall_app in Hb as [_ Hb]. apply Forall_cons in Hb as [Hpid Hb].
  rewrite pid_check_spec by done. destruct (Z.ltb_spec pid 128); cbn [negb]; [|done].
  rewrite (u8_id (1 + sca + 2 + (1 + 1 + d) + 1)) by (unfold is_byte; lia).
  destruct (elem _ (1 + sca + 2 + (1 + 1 + d) + 1)) as [dcs|] eqn:E4; [|done]. cbn [mbind option_bind].
  next_elem E4 (sca :: A ++ [fo; mr; dal; toa] ++ da ++ [pid]) r4 Q r5 HQ.
  assert (Q = []) as -> by (apply zlen_0_nil; lia). clear HQ. cbn [app] in *.
  apply Forall_cons in Hb as [Hdcs Hb]. rewrite dcs_check_spec by done.
  destruct (dcs_supported dcs) eqn:Edcs; cbn [negb]; [|done]. rewrite vpf_bits.
  set (rel := validity_format fo =? TPDU_VPF_RELATIVE) in *. set (nv := if rel then 1 else 0).
  set (off := if rel then u8 _ else _).
  assert (Hoff : off = 1 + sca + 2 + (1 + 1 + d) + (2 + nv))
    by (unfold off, nv; destruct rel; rewrite u8_id by (unfold is_byte; lia); lia).
  assert (Hnv : 0 <= nv <= 1) by (unfold nv; destruct rel; lia). rewrite Hoff.
  destruct (elem _ (1 + sca + 2 + (1 + 1 + d) + (2 + nv))) as [udl|] eqn:E5; [|done]. cbn [mbind option_bind].
  next_elem E5 (sca :: A ++ [fo; mr; dal; toa] ++ da ++ [pid; dcs]) r5 V ud HV.
  apply Forall_app in Hb as [_ Hb]. apply Forall_cons in Hb as [Hudl Hb]. rewrite user_data_len_spec by done.
  rewrite (u8_id (_ + (2 + nv) + 1)) by (unfold is_byte; lia). unfold TPDU_ONE_MSG_OCTET.
  destruct (Z.ltb_spec 140 (octets dcs udl)) as [|Hmax]; cbn [orb]; [done|].
  destruct (Z.eqb_spec (octets dcs udl) (zlen (sca :: A ++ fo :: mr :: dal :: toa :: da ++ pid :: dcs :: V ++ udl :: ud) -
    (1 + sca + 2 + (1 + 1 + d) + (2 + nv) + 1))) as [Hud|]; cbn [negb]; [|done]. intros _.
  destruct (zlen_option V rel) as [HVeq Hhd]; [unfold nv in *; lia|].
  assert (Hsl : zlen A = sca) by lia.
  exists (mkSubmit A fo mr dal toa da pid dcs (if rel then head V else None) udl ud).
  assert (Henc : sca :: A ++ fo :: mr :: dal :: toa :: da ++ pid :: dcs :: V ++ udl :: ud =
    encode_submit (mkSubmit A fo mr dal toa da pid dcs (if rel then head V else None) udl ud)).
  { unfold encode_submit. cbn. rewrite <- HVeq, Hsl. done. }
  split; [|exact Henc]. split; cbn [sb_sca sb_fo sb_mr sb_da_len sb_toa sb_da sb_pid sb_dcs sb_vp sb_udl sb_ud]; try done.
  - lia.
  - unfold TPDU_MTI_BITS in Emti. rewrite land_3 in Emti by done. exact Emti.
  - destruct rel eqn:Er.
    + destruct (Hhd eq_refl) as [x ->]. unfold rel in Er. by apply Z.eqb_eq in Er.
    + apply orb_prop in Evf as [Hv|Hv]; [by apply Z.eqb_eq in Hv|]. unfold rel, TPDU_VPF_RELATIVE in Er. congruence.
  - rewrite Hud. zlist. lia.
  - rewrite Hud in Hmax. revert Hmax. zlist. lia.
  - rewrite <- Henc. unfold TPDU_MAX_TPDU_SIZE in *. lia.
Qed.

(** Both branches of the code skip the same number of octets. *)
Lemma address_octets off oa : 0 <= oa ->
  (if 0 <? Z.rem oa 2 then off + (1 + 1 + Z.quot (oa + 1) 2) else off + (1 + 1 + Z.quot oa 2)) =
  off + (1 + 1 + (oa + 1) / 2).
Proof.
  intros H. rewrite Z.rem_mod_nonneg, !Z.quot_div_nonneg by lia. destruct (Z.ltb_spec 0 (oa mod 2)); [done|].
  f_equal. f_equal. pose proof (Z.mod_pos_bound oa 2). replace (oa + 1) with (1 + oa / 2 * 2).
  - rewrite Z.div_add by lia. done.
  - pose proof (Z.div_mod oa 2). lia.
Qed.

Lemma list_snoc (l : list Z) n : zlen l = n + 1 -> 0 <= n -> exists l' x, l = l' ++ [x] /\ zlen l' = n.
Proof.
  intros H Hn. induction l as [|x l' _] using rev_ind; [rewrite zlen_nil in H; lia|].
  exists l', x. split; [done|]. rewrite zlen_app, zlen_cons, zlen_nil in H. lia.
Qed.

Lemma deliver_check_accepts m : Forall is_byte (encode_deliver m) -> deliver_ok m ->
  rild_sms_deliver_pdu_check (hex_chars (encode_deliver m)) = Some (true, TPDU_NO_ERROR).
Proof.
  intros Hb [H1 H2 H3 H4 H5 H6 H7 H8]. unfold rild_sms_deliver_pdu_check.
  rewrite hex_empty, zlen_half_hex, pdu_array_hex by done.
  destruct (Z.ltb_spec TPDU_MAX_TPDU_SIZE (zlen (encode_deliver m))); [unfold TPDU_MAX_TPDU_SIZE in *; lia|].
  destruct m as [sca fo oal toa oa pid dcs scts udl ud]. unfold encode_deliver in *.
  cbn [dl_sca dl_fo dl_oa_len dl_toa dl_oa dl_pid dl_dcs dl_scts dl_udl dl_ud] in *.
  repeat rewrite ?Forall_cons, ?Forall_app in Hb. destruct Hb as (_ & _ & Hfo & Hoal & _ & _ & _ & _ & _ & Hudl & _).
  set (a := zlen sca :: _) in *. pose proof (zlen_nonneg sca). pose proof (zlen_nonneg oa). unfold is_byte in Hoal.
  assert (Hz : (zlen a =? 0) = false) by (apply Z.eqb_neq; unfold a; zlist; pose proof (zlen_nonneg ud); lia).
  rewrite Hz. cbn [orb].
  assert (E0 : elem a 0 = Some (zlen sca)) by (unfold a; behind (@nil Z)).
  assert (E1 : elem a (1 + zlen sca) = Some fo) by (unfold a; behind (zlen sca :: sca)).
  assert (E2 : elem a (1 + zlen sca + 1) = Some oal) by (unfold a; behind (zlen sca :: sca ++ [fo])).
  assert (E3 : elem a (1 + zlen sca + 1 + (1 + 1 + zlen oa) + 1) = Some dcs)
    by (unfold a; behind (zlen sca :: sca ++ [fo; oal; toa] ++ oa ++ [pid])).
  assert (E4 : elem a (1 + zlen sca + 1 + (1 + 1 + zlen oa) + 1 + (1 + 7)) = Some udl)
    by (unfold a; behind (zlen sca :: sca ++ [fo; oal; toa] ++ oa ++ [pid; dcs] ++ scts)).
  rewrite E0. cbn [mbind option_bind]. unfold TPDU_MAX_ADDR_LEN. destruct (Z.ltb_spec 11 (zlen sca)); [lia|].
  rewrite E1. cbn [mbind option_bind]. unfold TPDU_MTI_BITS, TPDU_MTI_DELIVER, TPDU_MTI_UNSPECIFIED. rewrite land_3 by done.
  replace (negb (fo mod 4 =? 0) && negb (fo mod 4 =? 2)) with false by (destruct H2 as [-> | ->]; done).
  rewrite E2. cbn [mbind option_bind]. destruct (Z.ltb_spec ((11 - 1) * 2) oal); [lia|].
  rewrite address_octets, <- H4 by lia. rewrite E3. cbn [mbind option_bind]. rewrite E4. cbn [mbind option_bind].
  rewrite user_data_len_spec, <- H6 by done. unfold TPDU_ONE_MSG_OCTET. destruct (Z.ltb_spec 140 (zlen ud)); [lia|]. cbn [orb].
  replace (zlen a - _) with (zlen ud) by (unfold a; zlist; lia). by rewrite Z.eqb_refl.
Qed.

Lemma deliver_check_sound b e : Forall is_byte b ->
  rild_sms_deliver_pdu_check (hex_chars b) = Some (true, e) -> exists m, deliver_ok m /\ b = encode_deliver m.
Proof.
  intros Hb. unfold rild_sms_deliver_pdu_check. rewrite hex_empty, zlen_half_hex, pdu_array_hex by done.
  destruct (_ || _) eqn:Elen; [done|]. apply orb_false_iff in Elen as [Emax _]. apply Z.ltb_ge in Emax.
  destruct (elem b 0) as [sca|] eqn:E0; [|done]. cbn [mbind option_bind].
  apply elem_split in E0 as (pre & r & -> & ->%zlen_0_nil). cbn [app] in *.
  apply Forall_cons in Hb as [Hsca Hb]. unfold TPDU_MAX_ADDR_LEN. destruct (Z.ltb_spec 11 sca); [done|]. unfold is_byte in Hsca.
  destruct (elem (sca :: r) (1 + sca)) as [fo|] eqn:E1; [|done]. cbn [mbind option_bind].
  next_elem E1 [sca] r A r2 HS. apply Forall_app in Hb as [HbS Hb]. apply Forall_cons in Hb as [Hfo Hb].
  unfold TPDU_MTI_BITS, TPDU_MTI_DELIVER, TPDU_MTI_UNSPECIFIED. rewrite land_3 by done.
  destruct (negb _ && negb _) eqn:Emti; [done|].
  destruct (elem _ (1 + sca + 1)) as [oal|] eqn:E2; [|done]. cbn [mbind option_bind].
  next_elem E2 (sca :: A ++ [fo]) r2 M r3 HM. assert (M = []) as -> by (apply zlen_0_nil; lia). clear HM. cbn [app] in *.
  apply Forall_cons in Hb as [Hoal Hb]. unfold is_byte in Hoal. destruct (Z.ltb_spec ((11 - 1) * 2) oal); [done|].
  rewrite address_octets by lia. assert (Hd : 0 <= (oal + 1) / 2) by (apply Z.div_pos; lia). set (d := (oal + 1) / 2) in *.
  destruct (elem _ (1 + sca + 1 + (1 + 1 + d) + 1)) as [dcs|] eqn:E3; [|done]. cbn [mbind option_bind].
  next_elem E3 (sca :: A ++ [fo; oal]) r3 D r4 HD.
  destruct (zlen_split_last D (d + 1)) as (toa & D1 & -> & HD1); [lia|lia|]. clear HD.
  destruct (list_snoc D1 d HD1 Hd) as (oa & pid & -> & Hoa). 
  cbn [app] in *. apply Forall_cons in Hb as [_ Hb]. rewrite <- app_assoc in Hb, Emax |- *. cbn [app] in *.
  apply Forall_app in Hb as [_ Hb]. apply Forall_cons in Hb as [_ Hb]. apply Forall_cons in Hb as [Hdcs Hb].
  destruct (elem _ (1 + sca + 1 + (1 + 1 + d) + 1 + (1 + 7))) as [udl|] eqn:E4; [|done]. cbn [mbind option_bind].
  next_elem E4 (sca :: A ++ [fo; oal; toa] ++ oa ++ [pid; dcs]) r4 V ud HV.
  apply Forall_app in Hb as [_ Hb]. apply Forall_cons in Hb as [Hudl Hb]. rewrite user_data_len_spec by done.
  unfold TPDU_ONE_MSG_OCTET. destruct (Z.ltb_spec 140 (octets dcs udl)) as [|Hmax]; cbn [orb]; [done|].
  destruct (Z.eqb_spec (octets dcs udl) (zlen (sca :: A ++ fo :: oal :: toa :: oa ++ pid :: dcs :: V ++ udl :: ud) -
    (1 + sca + 1 + (1 + 1 + d) + 1 + (1 + 7) + 1))) as [Hud|]; cbn [negb]; [|done]. intros _.
  assert (Hsl : zlen A = sca) by lia. exists (mkDeliver A fo oal toa oa pid dcs V udl ud).
  assert (Henc : sca :: A ++ fo :: oal :: toa :: oa ++ pid :: dcs :: V ++ udl :: ud =
    encode_deliver (mkDeliver A fo oal toa oa pid dcs V udl ud)) by (unfold encode_deliver; cbn; by rewrite Hsl).
  split; [|exact Henc]. split; cbn [dl_sca dl_fo dl_oa_len dl_toa dl_oa dl_pid dl_dcs dl_scts dl_udl dl_ud]; try done.
  - lia.
  - destruct (Z.eqb_spec (fo mod 4) 0); [by left|]. destruct (Z.eqb_spec (fo mod 4) 2); [by right|done].
  - lia.
  - rewrite Hud. zlist. lia.
  - rewrite Hud in Hmax. revert Hmax. zlist. lia.
Qed.


(** "hellohello" to +46708251358, without validity period. *)
Definition ex_submit : Submit :=
  mkSubmit [] 1 0 11 145 [100; 7; 40; 21; 83; 248] 0 0 None 10 [232; 50; 155; 253; 70; 151; 217; 236; 55].


Example ex_submit_passes :
  rild_sms_packPDU None (Some (tail (tail (hex_chars (encode_submit ex_submit))))) true =
  Some (22, hex_chars (encode_submit ex_submit)).
Proof. vm_compute. reflexivity. Qed.

(** ** Bounds *)

Lemma hexCharToDecInt_range pdu : -1 <= rild_sms_hexCharToDecInt pdu 2 < 256.
Proof.
  unfold rild_sms_hexCharToDecInt. destruct pdu as [|c [|d pdu]]; cbn [hexCharToDecInt_loop]; [lia|..];
    repeat case_if; cbn [hexCharToDecInt_loop]; try lia; destruct pdu; cbn [hexCharToDecInt_loop]; lia.
Qed.

Lemma pdu_array_elem pdu i : 0 <= i < zlen pdu / 2 -> exists x, elem (pdu_array pdu) i = Some x /\ -1 <= x < 256.
Proof.
  intros Hi. unfold elem. destruct (Z.ltb_spec i 0); [lia|]. unfold pdu_array.
  assert (Hl : (Z.to_nat i < length pdu / 2)%nat).
  { unfold zlen in Hi. change 2 with (Z.of_nat 2) in Hi. rewrite <- Nat2Z.inj_div in Hi. lia. }
  rewrite list_lookup_fmap, lookup_seq_lt by done. cbn. eexists. split; [done|apply hexCharToDecInt_range].
Qed.

(** A PDU of thirty octets is long enough for everything the submit check reads. *)
Lemma submit_check_reads pdu : 30 <= zlen pdu / 2 -> exists r, rild_sms_submit_pdu_check pdu = Some r.
Proof.
  intros Hl. unfold rild_sms_submit_pdu_check. case_if; [eauto|].
  assert (Hrd : forall i, 0 <= i < 30 -> exists x, elem (pdu_array pdu) i = Some x /\ -1 <= x < 256)
    by (intros i Hi; apply pdu_array_elem; lia).
  destruct (Hrd 0) as (sca & -> & Hsca); [lia|]. cbn [mbind option_bind]. unfold TPDU_MAX_ADDR_LEN. case_if; [eauto|].
  rewrite (u8_id (1 + sca)) by (unfold is_byte; lia). destruct (Hrd (1 + sca)) as (fo & -> & _); [lia|]. cbn [mbind option_bind].
  case_if; [eauto|]. case_if; [eauto|]. rewrite (u8_id (1 + sca + 2)) by (unfold is_byte; lia).
  destruct (Hrd (1 + sca + 2)) as (da & -> & Hda); [lia|]. cbn [mbind option_bind]. case_if; [eauto|].
  rewrite Z.quot_div_nonneg by lia.
  assert (Hd : 0 <= (da + 1) / 2 < 11) by (split; [apply Z.div_pos; lia|apply Z.div_lt_upper_bound; lia]).
  rewrite (u8_id (1 + sca + 2 + _)) by (unfold is_byte; lia).
  destruct (Hrd (1 + sca + 2 + (1 + 1 + (da + 1) / 2))) as (pid & -> & _); [lia|]. cbn [mbind option_bind]. case_if; [eauto|].
  rewrite (u8_id (1 + sca + 2 + (1 + 1 + (da + 1) / 2) + 1)) by (unfold is_byte; lia).
  destruct (Hrd (1 + sca + 2 + (1 + 1 + (da + 1) / 2) + 1)) as (dcs & -> & _); [lia|]. cbn [mbind option_bind]. case_if; [eauto|].
  set (off := if _ =? TPDU_VPF_RELATIVE then _ else _).
  assert (Hoff : 0 <= off < 30).
  { unfold off. destruct (_ =? TPDU_VPF_RELATIVE); rewrite u8_id by (unfold is_byte; lia); lia. }
  destruct (Hrd off) as (udl & -> & _); [done|]. cbn [mbind option_bind]. case_if; eauto.
Qed.

(** The size of the callers' buffers. *)
Definition PDU_BUFFER : Z := (MAX_SMSC_LENGTH + MAX_TPDU_LENGTH + 1) * 2 + 1.

(** C36: [rild_sms_packPDU] never writes behind the buffer of its callers, whatever strings it is
    given; when it succeeds the buffer holds the service-centre address (00 for none) and
    the message, the result is the message's length in octets, and with [check] the
    message passed the submit check.  With a message of thirty octets or more the check
    reads only what is there. *)
Theorem packPDU_fits smsc tpdu check :
  (forall n pdu, rild_sms_packPDU smsc tpdu check = Some (n, pdu) ->
    zlen pdu + 1 <= PDU_BUFFER /\
    (0 <= n -> exists t, tpdu = Some t /\ pdu = default (bytes_of "00") smsc ++ t /\ zlen t = 2 * n /\
      (check = true -> exists e, rild_sms_submit_pdu_check pdu = Some (true, e)))) /\
  (match tpdu with Some t => 60 <= zlen t | None => True end -> rild_sms_packPDU smsc tpdu check <> None).
Proof.
  unfold rild_sms_packPDU. set (bad := match smsc with None => _ | Some _ => _ end).
  destruct bad eqn:Ebad; [split; [intros n pdu [= <- <-]|]; done|].
  assert (Hs : 2 <= zlen (default (bytes_of "00") smsc) <= 24).
  { destruct smsc as [s|]; [|by vm_compute]. unfold bad in Ebad. reflect_bools. unfold MAX_SMSC_LENGTH in *. cbn.
    pose proof (Z.div_mod (zlen s) 2). lia. }
  destruct tpdu as [t|]; [|split; [intros n pdu [= <- <-]|]; done].
  case_if; [split; [intros n pdu [= <- <-]|]; done|]. unfold MAX_TPDU_LENGTH.
  case_if; [split; [intros n pdu [= <- <-]|]; done|].
  assert (Ht : zlen t = 2 * (zlen t / 2)) by (pose proof (Z.div_mod (zlen t) 2); lia).
  set (pdu := default _ smsc ++ t).
  assert (Hfit : zlen pdu + 1 <= PDU_BUFFER) by (unfold pdu, PDU_BUFFER, MAX_SMSC_LENGTH, MAX_TPDU_LENGTH; zlist; lia).
  destruct check.
  - split.
    + intros n p Ep. destruct (rild_sms_submit_pdu_check pdu) as [[[] e]|] eqn:Ec; [| |done]; cbn in Ep; injection Ep as <- <-.
      * split; [done|]. intros _. exists t. eauto.
      * split; [done|]. intros ?. lia.
    + intros Hl. destruct (submit_check_reads pdu) as [[ok e] ->]; [|by destruct ok].
      apply Z.div_le_lower_bound; [lia|]. unfold pdu. zlist. lia.
  - split; [|done]. intros n p [= <- <-]. split; [done|]. intros _. exists t. done.
Qed.

Lemma packPDU_fits_witness :
  let t := hex_chars (repeat 1 30) in
  (forall n pdu, rild_sms_packPDU None (Some t) true = Some (n, pdu) ->
    zlen pdu + 1 <= PDU_BUFFER /\
    (0 <= n -> exists t', Some t = Some t' /\ pdu = default (bytes_of "00") None ++ t' /\ zlen t' = 2 * n /\
      (true = true -> exists e, rild_sms_submit_pdu_check pdu = Some (true, e)))) /\
  (60 <= zlen t -> rild_sms_packPDU None (Some t) true <> None).
Proof. apply (packPDU_fits None (Some (hex_chars (repeat 1 30))) true). Defined.

(** Digits read back as octets. *)
Lemma hexStringToBytes_chars l out : Forall is_byte l -> zlen out = zlen l ->
  hexStringToBytes (hex_chars l) (zlen (hex_chars l)) out (zlen l) = Some l.
Proof.
  intros Hl Ho. unfold hexStringToBytes. rewrite zlen_hex_chars, (Z.mul_comm 2), Z.eqb_refl. cbn [negb].
  assert (H : forall rest, hexString_loop (length l) (hex_chars l ++ rest) = Some l).
  { clear Ho. intros rest. induction Hl as [|b l Hb Hl IH]; [done|]. cbn [length hex_chars app hexString_loop].
    rewrite IH. cbn [mbind option_bind]. f_equal. f_equal. exact (hex_pair b Hb). }
  unfold zlen at 1. rewrite Nat2Z.id, H. cbn [mbind option_bind]. f_equal.
  unfold memcpy_at. rewrite Z.add_0_l. change (ztake 0 out) with (@nil Z). cbn [app].
  rewrite <- Ho. unfold zdrop, zlen. by rewrite Nat2Z.id, drop_all, app_nil_r.
Qed.

(** * Where the checks read too far *)

(** An empty message is refused only after its first octet was read behind the array. *)
Lemma empty_message_reads_behind : rild_sms_packPDU None (Some []) true = None.
Proof. vm_compute. reflexivity. Qed.

(** The length in a broadcast's header is not checked against the digits that came with it. *)
Lemma broadcast_length_overreads :
  rild_sms_checkReceivedPDU 88 (bytes_of "0000") false = Some 0 /\
  hexStringToBytes (bytes_of "00") (88 * 2) (repeat 0 88) 88 = None.
Proof. vm_compute. split; reflexivity. Qed.

(** * Cell-broadcast identifiers *)

(** An entry of the list of identifiers: one, or a range, which the code ignores. *)
Inductive id_item := One (n : Z) | Range (a b : Z).

Definition print_item (x : id_item) : list Z :=
  match x with One n => dec n | Range a b => dec a ++ 45 :: dec b end.

Fixpoint print_items (l : list id_item) : list Z :=
  match l with
  | [] => []
  | [x] => print_item x
  | x :: l' => print_item x ++ 44 :: print_items l'
  end.

Definition small (n : Z) : Prop := 0 <= n <= 65535.

Definition item_ok (x : id_item) : Prop :=
  match x with One n => small n | Range a b => small a /\ small b end.

Lemma id_digits k n rest begin maximum table : 0 <= n < 10 ^ Z.of_nat k -> (0 < k)%nat -> n <= 65535 ->
  id_loop (dec_fuel k n ++ rest) begin 0 maximum table = id_loop rest begin n maximum table.
Proof.
  revert n rest. induction k as [|k IH]; intros n rest Hn Hk Hm; [lia|]. cbn [dec_fuel].
  assert (Hdig : forall v d, 0 <= v <= 65535 -> 0 <= d <= 9 -> id_loop ([48 + d] ++ rest) begin v maximum table =
    id_loop rest begin (v * 10 + d) maximum table).
  { intros v d Hv Hd. cbn [app id_loop]. destruct (Z.eqb_spec (48 + d) 32), (Z.eqb_spec (48 + d) 44),
      (Z.eqb_spec (48 + d) 0), (Z.eqb_spec (48 + d) 45); try lia. cbn [orb].
    destruct (Z.leb_spec 48 (48 + d)), (Z.leb_spec (48 + d) 57); try lia. cbn [andb].
    unfold INT_MAX. destruct (Z.ltb_spec 2147483647 (v * 10 + (48 + d))); [lia|]. f_equal. lia. }
  case_if.
  - rewrite Hdig by lia. f_equal.
  - destruct k as [|k']; [cbn in Hn; lia|].
    rewrite <- app_assoc, IH.
    + pose proof (Z.mod_pos_bound n 10). assert (0 <= n / 10) by (apply Z.div_pos; lia).
      assert (n / 10 <= 65535) by (apply Z.div_le_upper_bound; lia). rewrite Hdig by lia.
      f_equal. pose proof (Z.div_mod n 10). lia.
    + rewrite (Nat2Z.inj_succ (S k')), Z.pow_succ_r in Hn by lia.
      split; [apply Z.div_pos; lia|apply Z.div_lt_upper_bound; lia].
    + lia.
    + apply Z.div_le_upper_bound; lia.
Qed.

Lemma id_number n rest begin maximum table : small n ->
  id_loop (dec n ++ rest) begin 0 maximum table = id_loop rest begin n maximum table.
Proof.
  unfold small. intros H. unfold dec. case_if; [lia|]. apply id_digits; [|lia|lia]. cbn. lia.
Qed.

(** The entry for a single identifier. *)
Definition set_item (maximum : Z) (x : id_item) (table : list Z) : list Z :=
  match x with
  | One n => if n <? maximum then <[Z.to_nat n := 1]> table else table
  | Range _ _ => table
  end.

Lemma id_item_read x c rest maximum table : item_ok x -> c = 44 \/ c = 0 ->
  id_loop (print_item x ++ c :: rest) (-1) 0 maximum table = id_loop rest (-1) 0 maximum (set_item maximum x table).
Proof.
  intros Hx Hc. destruct x as [n|a b]; cbn [print_item set_item].
  - rewrite id_number by done. cbn [id_loop].
    replace (c =? 32) with false by (destruct Hc as [-> | ->]; done).
    replace ((c =? 44) || (c =? 0)) with true by (destruct Hc as [-> | ->]; done).
    cbn [Z.eqb Pos.eqb]. replace (Z.to_nat (n - n + 1)) with 1%nat by lia. done.
  - destruct Hx as [Ha Hb]. rewrite <- app_assoc. rewrite id_number by done. cbn [app].
    replace (id_loop (45 :: dec b ++ c :: rest) (-1) a maximum table) with (id_loop (dec b ++ c :: rest) a 0 maximum table) by done.
    rewrite id_number by done. cbn [id_loop].
    replace (c =? 32) with false by (destruct Hc as [-> | ->]; done).
    replace ((c =? 44) || (c =? 0)) with true by (destruct Hc as [-> | ->]; done).
    unfold small in *. destruct (Z.eqb_spec a (-1)); [lia|].
    replace (Z.to_nat (b - (b + 1) + 1)) with 0%nat by lia. done.
Qed.

Lemma id_items_read l maximum : Forall item_ok l -> l <> [] -> forall table,
  id_loop (print_items l ++ [0]) (-1) 0 maximum table = Some (0, fold_left (fun t x => set_item maximum x t) l table).
Proof.
  induction 1 as [|x l Hx Hl IH]; [done|]. intros _ table. destruct l as [|y l].
  - cbn [print_items]. rewrite id_item_read by (auto || by right). done.
  - change (print_items (x :: y :: l)) with (print_item x ++ 44 :: print_items (y :: l)).
    rewrite <- app_assoc. cbn [app]. rewrite id_item_read by (auto || by left). by rewrite IH.
Qed.

Lemma set_items_lookup l maximum j : Forall item_ok l -> 0 <= j < maximum -> forall table, zlen table = maximum ->
  (exists v, fold_left (fun t x => set_item maximum x t) l table !! Z.to_nat j = Some v /\
    (v = 1 <-> One j ∈ l \/ table !! Z.to_nat j = Some 1)).
Proof.
  intros Hl Hj. induction Hl as [|x l Hx Hl IH]; intros table Ht; cbn [fold_left].
  - destruct (table !! Z.to_nat j) as [v|] eqn:E; [|apply lookup_ge_None in E; unfold zlen in Ht; lia].
    exists v. split; [done|]. split; [intros ->; by right|]. intros [Hin|Hv]; [by apply not_elem_of_nil in Hin|congruence].
  - assert (Hz : zlen (set_item maximum x table) = maximum).
    { destruct x as [n|]; cbn [set_item]; [|done]. case_if; [|done]. by rewrite zlen_insert. }
    destruct (IH _ Hz) as (v & E & Hv). exists v. split; [done|]. rewrite Hv, elem_of_cons.
    destruct x as [n|a b]; cbn [set_item].
    + destruct (Z.ltb_spec n maximum).
      * destruct (decide (n = j)) as [->|Hne].
        -- rewrite list_lookup_insert_eq by (unfold zlen in Ht; lia). tauto.
        -- cbn in Hx. unfold small in Hx. rewrite list_lookup_insert_ne by lia. split; [tauto|]. intros [[[= ?]|?]|?]; [lia|tauto..].
      * split; [tauto|]. intros [[[= ?]|?]|?]; [lia|tauto..].
    + split; [tauto|]. by intros [[?|?]|?]; [|tauto..].
Qed.

(** On a list of identifiers and ranges [rild_sms_getIDTable] succeeds, and the table marks
    exactly the single identifiers below the limit. *)
Lemma getIDTable_marks l maximum : Forall item_ok l -> 0 <= maximum ->
  exists table, rild_sms_getIDTable (print_items l) maximum = Some (0, table) /\ zlen table = maximum /\
    forall j, 0 <= j < maximum -> (table !! Z.to_nat j = Some 1 <-> One j ∈ l).
Proof.
  intros Hl Hm. unfold rild_sms_getIDTable. set (t0 := repeat 0 (Z.to_nat maximum)).
  assert (Hz : zlen t0 = maximum) by (unfold t0, zlen; rewrite repeat_length; lia).
  assert (H0 : forall j : nat, t0 !! j <> Some 1).
  { intros j E. apply list_elem_of_lookup_2, list_elem_of_In, repeat_spec in E. done. }
  destruct l as [|x l].
  - exists t0. split_and!; try done. intros j Hj. split; [intros E; by apply H0 in E|]. intros E. by apply not_elem_of_nil in E.
  - assert (Hne : (zlen (print_items (x :: l)) =? 0) = false).
    { apply Z.eqb_neq. intros E. apply zlen_0_nil in E.
      apply Forall_cons in Hl as [Hx _]. assert (Hnil : print_item x = []).
      { destruct l; [done|]. by apply app_eq_nil in E as [? _]. }
      destruct x as [n|a b]; cbn in Hnil; [|by apply app_eq_nil in Hnil as [_ ?]].
      cbn in Hx. unfold small, dec in *. revert Hnil. case_if; [lia|].
      destruct (dec_fuel_head 10 n) as (d & s & -> & _); [lia|lia|done]. }
    rewrite Hne, id_items_read by done. eexists. split; [done|].
    assert (Hlen : forall l t, zlen t = maximum -> zlen (fold_left (fun t x => set_item maximum x t) l t) = maximum).
    { clear. induction l as [|[n|] l IH]; intros t Ht; cbn; [done|..]; apply IH; [|done].
      destruct (n <? maximum); [by rewrite zlen_insert|done]. }
    split; [by apply Hlen|]. intros j Hj. destruct (set_items_lookup (x :: l) maximum j Hl Hj t0 Hz) as (v & -> & Hv).
    split.
    + intros [= ->]. destruct (proj1 Hv eq_refl) as [?|E]; [done|]. by apply H0 in E.
    + intros Hin. f_equal. apply Hv. by left.
Qed.
