(* ===== verification/Fcp.v ===== *)
(** The parser of USIM file control parameters (src/mtk/ril/mtk-ril/usim_fcp_parser.c) and
    its client [makeSimRspFromUsimFcp] of ril_sim.c, which turns the answer of a USIM to a
    SELECT or STATUS command into the GET RESPONSE format of a SIM.

    The input buffer is the list of its allocated bytes and a pointer into it an offset.
    Every read is checked: the result type distinguishes a value, a failed [assert], an
    access outside the buffer (or through NULL), and a loop that did not end.

    [fcp_search_finds_first] relates the search to a list of data objects,
    [pin_status_matches_spec] and [sim_response_from_fcp] are the results for the PIN status
    and for the whole conversion, [queries_end] is about termination. *)
From S2P Require Import Prelude CString Base64.

(** * Results *)

Inductive res (A : Type) :=
| Ok (a : A)
| AssertFailed
| BadAccess
| Diverges.
Arguments Ok {A} a.
Arguments AssertFailed {A}.
Arguments BadAccess {A}.
Arguments Diverges {A}.

#[global] Instance res_ret : MRet res := fun A a => Ok a.
#[global] Instance res_bind : MBind res := fun A B f m =>
  match m with
  | Ok a => f a
  | AssertFailed => AssertFailed
  | BadAccess => BadAccess
  | Diverges => Diverges
  end.

(** Reading one byte of the buffer. *)
Definition rd (buf : list Z) (p : Z) : res Z :=
  if (0 <=? p) && (p <? zlen buf) then Ok (byte_at buf p) else BadAccess.

(** Reading [n] bytes, as [memcpy] does. *)
Definition rd_n (buf : list Z) (p n : Z) : res (list Z) :=
  if (n =? 0) || ((0 <=? p) && (p + n <=? zlen buf)) then Ok (ztake n (zdrop p buf)) else BadAccess.

Definition u16 (x : Z) : Z := x mod 65536.

(** * Tags and structures *)

Inductive usim_fcp_tag_enum :=
| FCP_FILE_DES_T | FCP_FILE_ID_T | FCP_DF_NAME_T | FCP_PROPRIETARY_T | FCP_LIFE_CYCLE_T
| FCP_SEC_ATTRIBUTE_QUERY | FCP_SEC_COMPACT_T | FCP_SEC_EXPANDED_T | FCP_SEC_REF_T
| FCP_PIN_DO_T | FCP_TOTAL_FILE_SIZE_T | FCP_FILE_SIZE_T | FCP_SFI_T.

Definition tag_value (t : usim_fcp_tag_enum) : Z :=
  match t with
  | FCP_FILE_DES_T => 0x82
  | FCP_FILE_ID_T => 0x83
  | FCP_DF_NAME_T => 0x84
  | FCP_PROPRIETARY_T => 0xA5
  | FCP_LIFE_CYCLE_T => 0x8A
  | FCP_SEC_ATTRIBUTE_QUERY => 0xFF
  | FCP_SEC_COMPACT_T => 0x8C
  | FCP_SEC_EXPANDED_T => 0xAB
  | FCP_SEC_REF_T => 0x8B
  | FCP_PIN_DO_T => 0xC6
  | FCP_TOTAL_FILE_SIZE_T => 0x81
  | FCP_FILE_SIZE_T => 0x80
  | FCP_SFI_T => 0x88
  end.

Inductive usim_fcp_proprietary_info_tag_enum :=
| PROP_UICC_CHAR_T | PROP_APP_PWR_T | PROP_MIN_APP_CLK_T | PROP_AVAIL_MEM_T.

Definition prop_tag_value (t : usim_fcp_proprietary_info_tag_enum) : Z :=
  match t with
  | PROP_UICC_CHAR_T => 0x80
  | PROP_APP_PWR_T => 0x81
  | PROP_MIN_APP_CLK_T => 0x82
  | PROP_AVAIL_MEM_T => 0x83
  end.

Definition FCP_TEMP_T : Z := 0x62.
Definition PIN_PS_DO_T : Z := 0x90.
Definition PIN_USAGE_QUALIFIER_T : Z := 0x95.
Definition PIN_KEY_REF_T : Z := 0x83.

Record usim_file_descriptor_struct := FileDescriptor {
  fd : Z; data_coding : Z; rec_len : Z; num_rec : Z }.

Record usim_file_identifier_struct := FileIdentifier { file_id : Z }.

Record usim_df_name_struct := DfName { df_length : Z; df_name : list Z }.

Record usim_proprietary_information_struct := Proprietary {
  do_flag : Z; char_byte : Z; supp_volt_class : Z; app_pwr_consump : Z;
  pwr_ref_freq : Z; app_min_freq : Z; available_mem_bytes : Z }.

Record usim_life_cycle_status_integer_struct := LifeCycle { life_cycle_status : Z }.

Record usim_security_attributes_struct := SecurityAttributes { sec_do_flag : Z }.

Record usim_pin_status_temp_do_struct := PinStatus { pin_flag : Z; enabled_pin_flag : Z }.

Record usim_total_file_size_struct := TotalFileSize { tot_file_size : Z }.

Record usim_file_size_struct := FileSize { file_size : Z }.

Inductive sfi_usage_enum := SFI_NOT_SUPPORT | SFI_FILE_ID | SFI_PROP_ID.

Record usim_short_file_identifier_struct := Sfi { sfi_usage : sfi_usage_enum; sfi_prop : Z }.

(** * Searching a data object *)

(** The loop of [fcp_tlv_search_tag]: the length of the value and a pointer to it, or 0
    and NULL.  [tag_len] is an [unsigned char]. *)
Fixpoint tlv_search (fuel : nat) (buf : list Z) (p len tag : Z) : res (Z * option Z) :=
  match fuel with
  | O => Diverges
  | S fuel' =>
      if negb (0 <? len) then Ok (0, None)
      else
        l ← rd buf (p + 1);
        let tag_len := u8 (l + 2) in
        t ← rd buf p;
        if t =? tag then v ← rd buf (p + 2 - 1); Ok (v, Some (p + 2))
        else tlv_search fuel' buf (p + tag_len) (if len <=? tag_len then 0 else len - tag_len) tag
  end.

(** Every round but one with [tag_len = 0] makes [len] smaller. *)
Definition fcp_tlv_search_tag (buf : list Z) (in_ptr len : Z) (tag : usim_fcp_tag_enum)
  : res (Z * option Z) :=
  tlv_search (S (Z.to_nat len)) buf in_ptr len (tag_value tag).

(** [len] is an [unsigned short] that wraps below 0.  The pointer grows in every round. *)
Fixpoint prop_search (fuel : nat) (buf : list Z) (p len tag : Z) : res (Z * option Z) :=
  match fuel with
  | O => Diverges
  | S fuel' =>
      if negb (0 <? len) then Ok (0, None)
      else
        t ← rd buf p;
        if t =? tag then v ← rd buf (p + 2 - 1); Ok (v, Some (p + 2))
        else l ← rd buf (p + 1); prop_search fuel' buf (p + (l + 2)) (u16 (len - (l + 2))) tag
  end.

Definition prop_info_tlv_search_tag (buf : list Z) (in_ptr len : Z)
    (tag : usim_fcp_proprietary_info_tag_enum) : res (Z * option Z) :=
  prop_search (S (length buf)) buf in_ptr len (prop_tag_value tag).

(** * Queries *)

(** Each query gets the structure its caller passes and returns TRUE or FALSE with the
    structure as it leaves it. *)
Definition fcp_file_descriptor_query (buf : list Z) (in_ptr len : Z)
    (q : usim_file_descriptor_struct) : res (bool * usim_file_descriptor_struct) :=
  '(value_len, out_ptr) ← fcp_tlv_search_tag buf in_ptr len FCP_FILE_DES_T;
  match out_ptr with
  | None => Ok (false, q)
  | Some o =>
      if negb ((value_len =? 2) || (value_len =? 5)) then Ok (false, q)
      else
        b0 ← rd buf o;
        b1 ← rd buf (o + 1);
        if value_len =? 5 then
          b2 ← rd buf (o + 2); b3 ← rd buf (o + 3); b4 ← rd buf (o + 4);
          Ok (true, FileDescriptor b0 b1 (u16 (Z.lor (Z.shiftl b2 8) b3)) b4)
        else Ok (true, FileDescriptor b0 b1 0 0)
  end.

Definition fcp_file_identifier_query (buf : list Z) (in_ptr len : Z)
    (q : usim_file_identifier_struct) : res (bool * usim_file_identifier_struct) :=
  '(value_len, out_ptr) ← fcp_tlv_search_tag buf in_ptr len FCP_FILE_ID_T;
  match out_ptr with
  | Some o =>
      if negb (value_len =? 2) then AssertFailed
      else b0 ← rd buf o; b1 ← rd buf (o + 1);
           Ok (true, FileIdentifier (u16 (Z.lor (Z.shiftl b0 8) b1)))
  | None => Ok (false, FileIdentifier 0)
  end.

Definition fcp_df_name_query (buf : list Z) (in_ptr len : Z)
    (q : usim_df_name_struct) : res (bool * usim_df_name_struct) :=
  '(value_len, out_ptr) ← fcp_tlv_search_tag buf in_ptr len FCP_DF_NAME_T;
  if 16 <? value_len then AssertFailed
  else
    let name := repeat 0 16 in
    match out_ptr with
    | Some o => v ← rd_n buf o value_len; Ok (true, DfName value_len (memcpy_at name 0 v))
    | None => Ok (false, DfName 0 name)
    end.

(** The bytes of a number, most significant first, added to [acc] with [|=]:
    [acc |= ptr[n - i - 1] << i * 8] for [i] from 0. *)
Fixpoint or_bytes (k : nat) (buf : list Z) (p n i acc : Z) : res Z :=
  match k with
  | O => Ok acc
  | S k' =>
      b ← rd buf (p + (n - i - 1));
      or_bytes k' buf p n (i + 1) (Z.lor acc (u32 (Z.shiftl b (i * 8))))
  end.

(** The four objects looked for in the proprietary template at [o]. *)
Definition query_uicc_char (buf : list Z) (o value_len : Z)
    (q : usim_proprietary_information_struct) : res usim_proprietary_information_struct :=
  '(n, p) ← prop_info_tlv_search_tag buf o value_len PROP_UICC_CHAR_T;
  if n =? 0 then Ok q
  else if negb (n =? 1) then AssertFailed
  else b ← rd buf (default 0 p);
       Ok (Proprietary (Z.lor (do_flag q) 1) b (supp_volt_class q) (app_pwr_consump q)
             (pwr_ref_freq q) (app_min_freq q) (available_mem_bytes q)).

Definition query_app_pwr (buf : list Z) (o value_len : Z)
    (q : usim_proprietary_information_struct) : res usim_proprietary_information_struct :=
  '(n, p) ← prop_info_tlv_search_tag buf o value_len PROP_APP_PWR_T;
  if n =? 0 then Ok q
  else if negb (n =? 3) then AssertFailed
  else b0 ← rd buf (default 0 p);
       b1 ← rd buf (default 0 p + 1);
       b2 ← rd buf (default 0 p + 2);
       Ok (Proprietary (Z.lor (do_flag q) 2) (char_byte q) b0 b1 b2 (app_min_freq q)
             (available_mem_bytes q)).

(** The byte stored is read through [out_ptr], not [prop_ptr]. *)
Definition query_min_app_clk (buf : list Z) (o value_len : Z)
    (q : usim_proprietary_information_struct) : res usim_proprietary_information_struct :=
  '(n, p) ← prop_info_tlv_search_tag buf o value_len PROP_MIN_APP_CLK_T;
  if n =? 0 then Ok q
  else if negb (n =? 1) then AssertFailed
  else b ← rd buf o;
       Ok (Proprietary (Z.lor (do_flag q) 4) (char_byte q) (supp_volt_class q)
             (app_pwr_consump q) (pwr_ref_freq q) b (available_mem_bytes q)).

Definition query_avail_mem (buf : list Z) (o value_len : Z)
    (q : usim_proprietary_information_struct) : res usim_proprietary_information_struct :=
  '(n, p) ← prop_info_tlv_search_tag buf o value_len PROP_AVAIL_MEM_T;
  if n =? 0 then Ok q
  else if 4 <? n then AssertFailed
  else m ← or_bytes (Z.to_nat n) buf (default 0 p) n 0 (available_mem_bytes q);
       Ok (Proprietary (Z.lor (do_flag q) 8) (char_byte q) (supp_volt_class q)
             (app_pwr_consump q) (pwr_ref_freq q) (app_min_freq q) m).

Definition fcp_proprietary_info_query (buf : list Z) (in_ptr len : Z)
    (q : usim_proprietary_information_struct) : res (bool * usim_proprietary_information_struct) :=
  let q := Proprietary 0 0 0 0 0 0 0 in
  '(value_len, out_ptr) ← fcp_tlv_search_tag buf in_ptr len FCP_PROPRIETARY_T;
  match out_ptr with
  | None => Ok (false, q)
  | Some o =>
      if value_len =? 0 then Ok (false, q)
      else
        q ← query_uicc_char buf o value_len q;
        q ← query_app_pwr buf o value_len q;
        q ← query_min_app_clk buf o value_len q;
        q ← query_avail_mem buf o value_len q;
        Ok (true, q)
  end.

Definition fcp_life_cycle_query (buf : list Z) (in_ptr len : Z)
    (q : usim_life_cycle_status_integer_struct) : res (bool * usim_life_cycle_status_integer_struct) :=
  '(value_len, out_ptr) ← fcp_tlv_search_tag buf in_ptr len FCP_LIFE_CYCLE_T;
  match out_ptr with
  | Some o => if value_len =? 1 then b ← rd buf o; Ok (true, LifeCycle b) else AssertFailed
  | None => AssertFailed
  end.

Definition fcp_security_attribute_query (buf : list Z) (in_ptr len : Z)
    (q : usim_security_attributes_struct) : res (bool * usim_security_attributes_struct) :=
  Ok (false, q).

(** The mask of a key reference, [None] in the default case. *)
Definition pin_mask (key : Z) : option Z :=
  if key =? 0x01 then Some 0x00000001
  else if key =? 0x02 then Some 0x00000004
  else if key =? 0x03 then Some 0x00000010
  else if key =? 0x04 then Some 0x00000040
  else if key =? 0x05 then Some 0x00000100
  else if key =? 0x06 then Some 0x00000400
  else if key =? 0x07 then Some 0x00001000
  else if key =? 0x08 then Some 0x00004000
  else if key =? 0x81 then Some 0x00000002
  else if key =? 0x82 then Some 0x00000008
  else if key =? 0x83 then Some 0x00000020
  else if key =? 0x84 then Some 0x00000080
  else if key =? 0x85 then Some 0x00000200
  else if key =? 0x86 then Some 0x00000800
  else if key =? 0x87 then Some 0x00002000
  else if key =? 0x88 then Some 0x00008000
  else if key =? 0x0A then Some 0x00010000
  else if key =? 0x0B then Some 0x00020000
  else if key =? 0x0C then Some 0x00040000
  else if key =? 0x0D then Some 0x00080000
  else if key =? 0x0E then Some 0x00100000
  else if key =? 0x8A then Some 0x00200000
  else if key =? 0x8B then Some 0x00400000
  else if key =? 0x8C then Some 0x00800000
  else if key =? 0x8D then Some 0x01000000
  else if key =? 0x8E then Some 0x02000000
  else if key =? 0x11 then Some 0x80000000
  else None.

(** One key reference: [ps] is [pin_ps_do_ptr], [None] before a PS_DO was seen. *)
Definition pin_key_ref (buf : list Z) (tag : Z) (ps : option Z) (count : Z)
    (q : usim_pin_status_temp_do_struct) : res usim_pin_status_temp_do_struct :=
  key ← rd buf (tag + 2);
  match pin_mask key with
  | None => Ok q
  | Some m =>
      b ← match ps with Some p => rd buf (p + count / 8) | None => BadAccess end;
      Ok (PinStatus (Z.lor (pin_flag q) m)
            (if negb (Z.land b (Z.shiftr 0x80 (count mod 8)) =? 0)
             then Z.lor (enabled_pin_flag q) m else enabled_pin_flag q))
  end.

(** The loop over the PIN status template. *)
Fixpoint pin_loop (fuel : nat) (buf : list Z) (tag value_len : Z) (ps : option Z) (count : Z)
    (q : usim_pin_status_temp_do_struct) : res usim_pin_status_temp_do_struct :=
  match fuel with
  | O => Diverges
  | S fuel' =>
      if negb (0 <? value_len) then Ok q
      else
        length ← rd buf (tag + 1);
        t ← rd buf tag;
        let next ps count q :=
          pin_loop fuel' buf (tag + (length + 2)) (u16 (value_len - (length + 2))) ps count q in
        if t =? PIN_PS_DO_T then next (Some (tag + 2)) count q
        else if t =? PIN_USAGE_QUALIFIER_T then next ps count q
        else if t =? PIN_KEY_REF_T then
          if length <=? count / 8 then AssertFailed
          else q ← pin_key_ref buf tag ps count q; next ps (u8 (count + 1)) q
        else AssertFailed
  end.

Definition fcp_pin_status_do_query (buf : list Z) (in_ptr len : Z)
    (q : usim_pin_status_temp_do_struct) : res (bool * usim_pin_status_temp_do_struct) :=
  '(value_len, out_ptr) ← fcp_tlv_search_tag buf in_ptr len FCP_PIN_DO_T;
  match out_ptr with
  | Some o => q ← pin_loop (S (length buf)) buf o value_len None 0 q; Ok (true, q)
  | None => Ok (false, PinStatus 0 (enabled_pin_flag q))
  end.

Definition fcp_total_file_size_query (buf : list Z) (in_ptr len : Z)
    (q : usim_total_file_size_struct) : res (bool * usim_total_file_size_struct) :=
  '(value_len, out_ptr) ← fcp_tlv_search_tag buf in_ptr len FCP_TOTAL_FILE_SIZE_T;
  match out_ptr with
  | Some o =>
      if 4 <? value_len then AssertFailed
      else s ← or_bytes (Z.to_nat value_len) buf o value_len 0 (tot_file_size q);
           Ok (true, TotalFileSize s)
  | None => Ok (false, TotalFileSize 0)
  end.

Definition fcp_file_size_query (buf : list Z) (in_ptr len : Z)
    (q : usim_file_size_struct) : res (bool * usim_file_size_struct) :=
  '(value_len, out_ptr) ← fcp_tlv_search_tag buf in_ptr len FCP_FILE_SIZE_T;
  match out_ptr with
  | Some o =>
      if negb (value_len =? 2) then AssertFailed
      else b0 ← rd buf o; b1 ← rd buf (o + 1);
           Ok (true, FileSize (u16 (Z.lor (Z.shiftl b0 8) b1)))
  | None => Ok (false, FileSize 0)
  end.

Definition fcp_sfi_query (buf : list Z) (in_ptr len : Z)
    (q : usim_short_file_identifier_struct) : res (bool * usim_short_file_identifier_struct) :=
  '(value_len, out_ptr) ← fcp_tlv_search_tag buf in_ptr len FCP_SFI_T;
  match out_ptr with
  | Some o =>
      if value_len =? 0 then Ok (true, Sfi SFI_NOT_SUPPORT (sfi_prop q))
      else if negb (value_len =? 1) then AssertFailed
      else b ← rd buf o; Ok (true, Sfi SFI_PROP_ID b)
  | None => Ok (true, Sfi SFI_FILE_ID (sfi_prop q))
  end.

(** The structure the caller passes for a tag ([void *filled_struct_ptr]). *)
Definition struct_of (tag : usim_fcp_tag_enum) : Type :=
  match tag with
  | FCP_FILE_DES_T => usim_file_descriptor_struct
  | FCP_FILE_ID_T => usim_file_identifier_struct
  | FCP_DF_NAME_T => usim_df_name_struct
  | FCP_PROPRIETARY_T => usim_proprietary_information_struct
  | FCP_LIFE_CYCLE_T => usim_life_cycle_status_integer_struct
  | FCP_SEC_ATTRIBUTE_QUERY => usim_security_attributes_struct
  | FCP_PIN_DO_T => usim_pin_status_temp_do_struct
  | FCP_TOTAL_FILE_SIZE_T => usim_total_file_size_struct
  | FCP_FILE_SIZE_T => usim_file_size_struct
  | FCP_SFI_T => usim_short_file_identifier_struct
  | FCP_SEC_COMPACT_T | FCP_SEC_EXPANDED_T | FCP_SEC_REF_T => unit
  end.

(** The query function of a tag; the default case is a failed assertion. *)
Definition query_of (tag : usim_fcp_tag_enum)
  : list Z -> Z -> Z -> struct_of tag -> res (bool * struct_of tag) :=
  match tag with
  | FCP_FILE_DES_T => fcp_file_descriptor_query
  | FCP_FILE_ID_T => fcp_file_identifier_query
  | FCP_DF_NAME_T => fcp_df_name_query
  | FCP_PROPRIETARY_T => fcp_proprietary_info_query
  | FCP_LIFE_CYCLE_T => fcp_life_cycle_query
  | FCP_SEC_ATTRIBUTE_QUERY => fcp_security_attribute_query
  | FCP_PIN_DO_T => fcp_pin_status_do_query
  | FCP_TOTAL_FILE_SIZE_T => fcp_total_file_size_query
  | FCP_FILE_SIZE_T => fcp_file_size_query
  | FCP_SFI_T => fcp_sfi_query
  | FCP_SEC_COMPACT_T | FCP_SEC_EXPANDED_T | FCP_SEC_REF_T => fun _ _ _ _ => AssertFailed
  end.

Definition usim_fcp_query_tag (buf : list Z) (len : Z) (tag : usim_fcp_tag_enum)
    (q : struct_of tag) : res (bool * struct_of tag) :=
  value_len ← rd buf 1;
  t ← rd buf 0;
  if (len =? 0) || negb (t =? FCP_TEMP_T) then AssertFailed
  else query_of tag buf 2 value_len q.

(** * Hexadecimal strings and the conversion *)

(** The buffer has [length/2] bytes only: the last digit of an odd string is written
    behind it. *)
Definition hexStringToByteArray (s : list Z) : res (list Z * Z) :=
  if zlen s mod 2 =? 0 then Ok (hex_bytes s, zlen s / 2) else BadAccess.

Definition byteArrayToHexString (array : list Z) : list Z := hex_chars array.

Definition IS_DF_ADF (x : Z) : bool := Z.land 0x38 x =? 0x38.
Definition IS_TRANSPARENT_EF (x : Z) : bool := Z.land 0x07 x =? 0x01.
Definition IS_LINEAR_FIXED_EF (x : Z) : bool := Z.land 0x07 x =? 0x02.
Definition IS_CYCLIC_EF (x : Z) : bool := Z.land 0x07 x =? 0x06.

Definition GET_RESPONSE_EF_SIZE_BYTES : Z := 15.
Definition RESPONSE_DATA_FILE_SIZE_1 : nat := 2.
Definition RESPONSE_DATA_FILE_SIZE_2 : nat := 3.
Definition RESPONSE_DATA_FILE_TYPE : nat := 6.
Definition RESPONSE_DATA_STRUCTURE : nat := 13.
Definition RESPONSE_DATA_RECORD_LENGTH : nat := 14.
Definition TYPE_DF : Z := 2.
Definition TYPE_EF : Z := 4.
Definition EF_TYPE_TRANSPARENT : Z := 0.
Definition EF_TYPE_LINEAR_FIXED : Z := 1.
Definition EF_TYPE_CYCLIC : Z := 3.

(** The bytes of an elementary file's response. *)
Definition ef_response (rsp : list Z) (d : usim_file_descriptor_struct) (size : Z) : list Z :=
  let rsp := <[RESPONSE_DATA_FILE_TYPE := TYPE_EF]> rsp in
  let rsp := <[RESPONSE_DATA_FILE_SIZE_1 := Z.shiftr (Z.land size 0xFF00) 8]> rsp in
  let rsp := <[RESPONSE_DATA_FILE_SIZE_2 := Z.land size 0xFF]> rsp in
  if IS_LINEAR_FIXED_EF (fd d) then
    <[RESPONSE_DATA_RECORD_LENGTH := u8 (rec_len d)]>
      (<[RESPONSE_DATA_STRUCTURE := EF_TYPE_LINEAR_FIXED]> rsp)
  else if IS_TRANSPARENT_EF (fd d) then <[RESPONSE_DATA_STRUCTURE := EF_TYPE_TRANSPARENT]> rsp
  else if IS_CYCLIC_EF (fd d) then
    <[RESPONSE_DATA_RECORD_LENGTH := u8 (rec_len d)]>
      (<[RESPONSE_DATA_STRUCTURE := EF_TYPE_CYCLIC]> rsp)
  else rsp.

(** The string that replaces [*simResponse], [None] for NULL. *)
Definition makeSimRspFromUsimFcp (simResponse : list Z) : res (option (list Z)) :=
  '(fcpByte, n) ← hexStringToByteArray simResponse;
  let fcpLen := u16 n in
  let simRspByte := repeat 0 (Z.to_nat GET_RESPONSE_EF_SIZE_BYTES) in
  '(found, d) ← usim_fcp_query_tag fcpByte fcpLen FCP_FILE_DES_T (FileDescriptor 0 0 0 0);
  if negb found then Ok None
  else if IS_DF_ADF (fd d) then
    Ok (Some (byteArrayToHexString (<[RESPONSE_DATA_FILE_TYPE := TYPE_DF]> simRspByte)))
  else
    '(sized, s) ← usim_fcp_query_tag fcpByte fcpLen FCP_FILE_SIZE_T (FileSize 0);
    if negb sized then Ok None
    else Ok (Some (byteArrayToHexString (ef_response simRspByte d (file_size s)))).

Arguments u16 : simpl never.
Arguments rd : simpl never.
Arguments tag_value : simpl never.

(** * Data objects *)

(** A BER-TLV object with a one-byte length: its tag and value. *)
Abbreviation tlv := (Z * list Z)%type.

Definition tlv_bytes (o : tlv) : list Z := o.1 :: zlen o.2 :: o.2.

Definition tlvs_bytes (l : list tlv) : list Z := concat (map tlv_bytes l).

(** The first object with a tag: where its value starts, counted from [off], and the
    value. *)
Fixpoint find_tlv (tag : Z) (l : list tlv) (off : Z) : option (Z * list Z) :=
  match l with
  | [] => None
  | (t, v) :: l' => if t =? tag then Some (off + 2, v) else find_tlv tag l' (off + (zlen v + 2))
  end.

(** Its value only. *)
Definition tlv_value (tag : Z) (l : list tlv) : option (list Z) := snd <$> find_tlv tag l 0.

(** What the search functions return for it. *)
Definition found (r : option (Z * list Z)) : Z * option Z :=
  match r with Some (o, v) => (zlen v, Some o) | None => (0, None) end.

(** No length needs the second form of BER, and none wraps [tag_len]. *)
Definition tlv_ok (o : tlv) : Prop := zlen o.2 <= 253.

(** ** Lemmas on reading *)

Lemma rd_in buf i : 0 <= i < zlen buf -> rd buf i = Ok (byte_at buf i).
Proof.
  intros H. unfold rd. destruct (_ && _) eqn:E; [done|].
  apply andb_false_iff in E as [E | E]; reflect_bools; lia.
Qed.

Lemma rd_out buf i : zlen buf <= i -> rd buf i = BadAccess.
Proof.
  intros H. unfold rd. destruct (_ && _) eqn:E; [|done]. reflect_bools. lia.
Qed.

Lemma rd_cases buf i :
  rd buf i = BadAccess \/ 0 <= i < zlen buf /\ rd buf i = Ok (byte_at buf i).
Proof. unfold rd. destruct (_ && _) eqn:E; [right|by left]. reflect_bools. done. Qed.

(** A value inside a buffer, at an offset. *)
Definition value_at (buf : list Z) (o : Z) (v : list Z) : Prop :=
  exists pre post, buf = pre ++ v ++ post /\ zlen pre = o.

Lemma value_at_rd buf o v i :
  value_at buf o v -> 0 <= i < zlen v -> rd buf (o + i) = Ok (byte_at v i).
Proof.
  intros (pre & post & -> & <-) Hi. pose proof (zlen_nonneg pre). pose proof (zlen_nonneg post).
  rewrite rd_in by (rewrite !zlen_app; lia). f_equal.
  rewrite <-byte_at_zdrop by lia. rewrite zdrop_app_length. unfold byte_at.
  apply app_nth1. unfold zlen in Hi. lia.
Qed.

Lemma value_at_app_l buf o v w : value_at buf o (v ++ w) -> value_at buf o v.
Proof.
  intros (pre & post & -> & Hp). exists pre, (w ++ post). by rewrite <-app_assoc.
Qed.

Lemma value_at_app_r buf o v w : value_at buf o (v ++ w) -> value_at buf (o + zlen v) w.
Proof.
  intros (pre & post & -> & Hp). exists (pre ++ v), post. split.
  - by rewrite <-!app_assoc.
  - rewrite zlen_app. lia.
Qed.

Lemma tlvs_bytes_cons t v l :
  tlvs_bytes ((t, v) :: l) = [t; zlen v] ++ v ++ tlvs_bytes l.
Proof. done. Qed.

Lemma zlen_tlvs_cons t v l : zlen (tlvs_bytes ((t, v) :: l)) = 2 + zlen v + zlen (tlvs_bytes l).
Proof. rewrite tlvs_bytes_cons, !zlen_app. change (zlen [t; zlen v]) with 2. lia. Qed.

(** The first object of a sequence in the buffer: tag, length, value and the rest. *)
Lemma value_at_tlv buf p t v l :
  value_at buf p (tlvs_bytes ((t, v) :: l)) ->
  rd buf p = Ok t /\ rd buf (p + 1) = Ok (zlen v) /\ value_at buf (p + 2) v /\
  value_at buf (p + (zlen v + 2)) (tlvs_bytes l).
Proof.
  rewrite tlvs_bytes_cons. intros H.
  pose proof (value_at_app_l _ _ _ _ H) as Hh. apply value_at_app_r in H.
  change (zlen [t; zlen v]) with 2 in H.
  assert (H2 : zlen [t; zlen v] = 2) by done.
  split; [|split; [|split]].
  - rewrite <-(Z.add_0_r p). by rewrite (value_at_rd _ _ _ 0 Hh) by lia.
  - by rewrite (value_at_rd _ _ _ 1 Hh) by lia.
  - by apply value_at_app_l in H.
  - apply value_at_app_r in H. replace (p + (zlen v + 2)) with (p + 2 + zlen v) by lia. done.
Qed.

(** ** The searches find the first object *)

Lemma tlv_search_finds fuel buf p tag l :
  value_at buf p (tlvs_bytes l) -> Forall tlv_ok l -> (length l < fuel)%nat ->
  tlv_search fuel buf p (zlen (tlvs_bytes l)) tag = Ok (found (find_tlv tag l p)).
Proof.
  revert fuel p. induction l as [|[t v] l IH]; intros [|fuel] p Hv Hok Hf; cbn in Hf; try lia.
  - done.
  - apply value_at_tlv in Hv as (Ht & Hl & Hv & Hrest). apply Forall_cons in Hok as [Hlen Hok].
    unfold tlv_ok in Hlen. cbn [snd] in Hlen.
    pose proof (zlen_nonneg v). pose proof (zlen_nonneg (tlvs_bytes l)).
    rewrite zlen_tlvs_cons. cbn [tlv_search]. case_if; [lia|].
    rewrite Hl. cbn [mbind res_bind]. rewrite Ht. cbn [mbind res_bind find_tlv].
    destruct (t =? tag).
    + replace (p + 2 - 1) with (p + 1) by lia. by rewrite Hl.
    + assert (u8 (zlen v + 2) = zlen v + 2) as -> by (unfold u8; apply Z.mod_small; lia).
      rewrite <-IH with (fuel := fuel) by (done || lia). f_equal. case_if; lia.
Qed.

Lemma prop_search_finds fuel buf p tag l :
  value_at buf p (tlvs_bytes l) -> zlen (tlvs_bytes l) < 65536 -> (length l < fuel)%nat ->
  prop_search fuel buf p (zlen (tlvs_bytes l)) tag = Ok (found (find_tlv tag l p)).
Proof.
  revert fuel p. induction l as [|[t v] l IH]; intros [|fuel] p Hv Hok Hf; cbn in Hf; try lia.
  - done.
  - apply value_at_tlv in Hv as (Ht & Hl & Hv & Hrest).
    pose proof (zlen_nonneg v). pose proof (zlen_nonneg (tlvs_bytes l)).
    rewrite zlen_tlvs_cons in *. cbn [prop_search]. case_if; [lia|].
    rewrite Ht. cbn [mbind res_bind find_tlv]. destruct (t =? tag).
    + replace (p + 2 - 1) with (p + 1) by lia. by rewrite Hl.
    + rewrite Hl. cbn [mbind res_bind].
      assert (u16 (2 + zlen v + zlen (tlvs_bytes l) - (zlen v + 2)) = zlen (tlvs_bytes l)) as ->
        by (unfold u16; rewrite Z.mod_small; lia).
      apply IH; [done|lia|lia].
Qed.

Lemma find_tlv_value_at buf p tag l o v :
  value_at buf p (tlvs_bytes l) -> find_tlv tag l p = Some (o, v) -> value_at buf o v.
Proof.
  revert p. induction l as [|[t w] l IH]; intros p Hv Hf; [done|].
  apply value_at_tlv in Hv as (_ & _ & Hv & Hrest). cbn [find_tlv] in Hf.
  destruct (t =? tag); [by injection Hf as <- <-|]. by eapply IH.
Qed.

(** The value found does not depend on where the sequence starts. *)
Lemma find_tlv_value tag l p : snd <$> find_tlv tag l p = tlv_value tag l.
Proof.
  unfold tlv_value. generalize 0. revert p. induction l as [|[t v] l IH]; intros p p'; [done|].
  cbn [find_tlv]. destruct (t =? tag); [done|]. apply IH.
Qed.

Lemma tlv_value_small tag l v : Forall tlv_ok l -> tlv_value tag l = Some v -> zlen v <= 253.
Proof.
  intros Hok. unfold tlv_value. generalize 0.
  induction Hok as [|[t w] l Hw _ IH]; intros z H; [done|]. cbn [find_tlv] in H.
  destruct (t =? tag); [|by eapply IH]. by injection H as <-.
Qed.

Lemma tlvs_ok_small l : zlen (tlvs_bytes l) <= 255 -> Forall tlv_ok l.
Proof.
  induction l as [|[t v] l IH]; intros H; [constructor|]. rewrite zlen_tlvs_cons in H.
  pose proof (zlen_nonneg v). pose proof (zlen_nonneg (tlvs_bytes l)).
  constructor; [unfold tlv_ok; cbn; lia|apply IH; lia].
Qed.

Lemma length_tlvs l : Z.of_nat (length l) <= zlen (tlvs_bytes l).
Proof.
  induction l as [|[t v] l IH]; [done|]. rewrite zlen_tlvs_cons. cbn [length].
  pose proof (zlen_nonneg v). lia.
Qed.

(** The search of [fcp_tlv_search_tag] on a well-formed sequence: either the tag does not
    occur, or the value found is the first one with the tag and can be read. *)
Lemma fcp_search_cases buf p l tag :
  value_at buf p (tlvs_bytes l) -> Forall tlv_ok l ->
  match tlv_value (tag_value tag) l with
  | None => fcp_tlv_search_tag buf p (zlen (tlvs_bytes l)) tag = Ok (0, None)
  | Some v => exists o, fcp_tlv_search_tag buf p (zlen (tlvs_bytes l)) tag = Ok (zlen v, Some o) /\
      value_at buf o v
  end.
Proof.
  intros Hv Hok. unfold fcp_tlv_search_tag. pose proof (length_tlvs l).
  rewrite tlv_search_finds by (done || lia).
  rewrite <-(find_tlv_value _ _ p). destruct (find_tlv _ l p) as [[o v]|] eqn:E; cbn; [|done].
  exists o. split; [done|]. by eapply find_tlv_value_at.
Qed.

(** * Numbers *)

Lemma lor_shift_add x b n : 0 <= n -> 0 <= x < 2 ^ n -> 0 <= b ->
  Z.lor x (Z.shiftl b n) = x + b * 2 ^ n.
Proof.
  intros Hn Hx Hb. rewrite <-Z.shiftl_mul_pow2 by lia.
  assert (Hz : Z.land x (Z.shiftl b n) = 0).
  { apply Z.bits_inj'. intros k Hk. rewrite Z.land_spec, Z.bits_0.
    destruct (Z_lt_le_dec k n).
    - rewrite Z.shiftl_spec_low by lia. apply andb_false_r.
    - destruct (Z.eq_dec x 0) as [-> | Hx0]; [by rewrite Z.bits_0|].
      rewrite (Z.bits_above_log2 x k); [done|lia|].
      apply Z.log2_lt_pow2; [lia|]. eapply Z.lt_le_trans; [apply Hx|].
      apply Z.pow_le_mono_r; lia. }
  rewrite <-Z.lxor_lor by done. symmetry. by apply Z.add_nocarry_lxor.
Qed.

(** A big-endian number. *)
Definition be (v : list Z) : Z := fold_left (fun acc b => acc * 256 + b) v 0.

Lemma be16 hi lo : is_byte hi -> is_byte lo -> u16 (Z.lor (Z.shiftl hi 8) lo) = hi * 256 + lo.
Proof.
  unfold is_byte. intros. rewrite Z.lor_comm, lor_shift_add by (change (2 ^ 8) with 256; lia).
  change (2 ^ 8) with 256. unfold u16. rewrite Z.mod_small; lia.
Qed.

Lemma byte_at_app_r l r i : zlen l <= i -> byte_at (l ++ r) i = byte_at r (i - zlen l).
Proof.
  intros. unfold byte_at, zlen in *. rewrite app_nth2 by lia. f_equal. lia.
Qed.

(** [or_bytes] adds the last [k] bytes of the value to the [i] low bytes collected. *)
Lemma or_bytes_be buf p v w :
  value_at buf p (v ++ w) -> Forall is_byte (v ++ w) -> zlen (v ++ w) <= 4 ->
  or_bytes (length v) buf p (zlen (v ++ w)) (zlen w) (be w) = Ok (be (v ++ w)).
Proof.
  revert w. induction v as [|b v IH] using rev_ind; intros w Hv Hb Hl; [done|].
  rewrite <-app_assoc in *. cbn [app] in *.
  rewrite length_app, Nat.add_1_r. cbn [or_bytes].
  pose proof (zlen_nonneg v). pose proof (zlen_nonneg w).
  assert (Hlen : zlen (v ++ b :: w) = zlen v + 1 + zlen w) by (zlist; lia).
  rewrite (value_at_rd buf p (v ++ b :: w)) by (done || lia). cbn [mbind res_bind].
  replace (zlen (v ++ b :: w) - zlen w - 1) with (zlen v) by lia.
  rewrite byte_at_app_length.
  assert (Hwb : Forall is_byte (b :: w)) by (by apply Forall_app in Hb as [_ ?]).
  apply Forall_cons in Hwb as [Hbb Hw].
  assert (Hbe : Z.lor (be w) (u32 (Z.shiftl b (zlen w * 8))) = be (b :: w)).
  { clear -Hbb Hw Hlen Hl H. unfold is_byte in Hbb.
    destruct w as [|w1 [|w2 [|w3 [|? ?]]]]; unfold zlen in *; cbn [length] in *; try lia;
      repeat (match goal with Hx : Forall is_byte (_ :: _) |- _ =>
        apply Forall_cons in Hx as [? Hx] end); unfold is_byte in *;
      unfold be; cbn [fold_left];
      match goal with |- context [Z.shiftl b ?e] =>
        let n := eval vm_compute in e in
        let m := eval vm_compute in (2 ^ n) in
        change e with n; unfold u32; rewrite Z.mod_small
          by (rewrite Z.shiftl_mul_pow2 by lia; change (2 ^ n) with m; lia);
        rewrite lor_shift_add by (change (2 ^ n) with m; lia); change (2 ^ n) with m
      end; lia. }
  rewrite Hbe. replace (zlen w + 1) with (zlen (b :: w)) by (zlist; lia).
  by apply IH.
Qed.

Lemma or_bytes_value buf p v :
  value_at buf p v -> Forall is_byte v -> zlen v <= 4 ->
  or_bytes (Z.to_nat (zlen v)) buf p (zlen v) 0 0 = Ok (be v).
Proof.
  intros Hv Hb Hl. pose proof (or_bytes_be buf p v []) as H. rewrite app_nil_r in H.
  replace (Z.to_nat (zlen v)) with (length v) by (unfold zlen; lia). by apply H.
Qed.

(** * Specifications of the queries on a well-formed template *)

Definition descriptor_spec (l : list tlv) : option usim_file_descriptor_struct :=
  match tlv_value 0x82 l with
  | Some [b0; b1] => Some (FileDescriptor b0 b1 0 0)
  | Some [b0; b1; b2; b3; b4] => Some (FileDescriptor b0 b1 (b2 * 256 + b3) b4)
  | _ => None
  end.

Definition tlvs_byte (l : list tlv) : Prop := Forall (fun o => is_byte o.1 /\ Forall is_byte o.2) l.

Lemma tlv_value_bytes tag l v : tlvs_byte l -> tlv_value tag l = Some v -> Forall is_byte v.
Proof.
  unfold tlv_value. generalize 0. induction l as [|[t w] l IH]; intros o Hb H; [done|].
  apply Forall_cons in Hb as [[_ Hw] Hb]. cbn [find_tlv] in H.
  destruct (t =? tag); [by injection H as <-|]. by eapply IH.
Qed.

Section WellFormed.
Context (buf : list Z) (p : Z) (l : list tlv).
Context (Hat : value_at buf p (tlvs_bytes l)) (Hok : Forall tlv_ok l) (Hbytes : tlvs_byte l).

Lemma descriptor_query_spec q :
  fcp_file_descriptor_query buf p (zlen (tlvs_bytes l)) q
  = match descriptor_spec l with Some d => Ok (true, d) | None => Ok (false, q) end.
Proof using Hat Hok Hbytes.
  pose proof (fcp_search_cases buf p l FCP_FILE_DES_T Hat Hok) as H.
  change (tag_value FCP_FILE_DES_T) with 0x82 in H.
  unfold fcp_file_descriptor_query, descriptor_spec.
  destruct (tlv_value 0x82 l) as [v|] eqn:Ev; [|by rewrite H].
  destruct H as (o & -> & Ho). cbn [mbind res_bind].
  pose proof (tlv_value_bytes _ _ _ Hbytes Ev) as Hb.
  destruct v as [|b0 [|b1 [|b2 [|b3 [|b4 [|b5 v]]]]]]; try done.
  - assert (H2 : zlen [b0; b1] = 2) by done. rewrite H2. cbn [negb orb Z.eqb Pos.eqb].
    rewrite <-(Z.add_0_r o) at 1. by rewrite !(value_at_rd _ _ _ _ Ho) by lia.
  - assert (H5 : zlen [b0; b1; b2; b3; b4] = 5) by done. rewrite H5. cbn [negb orb Z.eqb Pos.eqb].
    rewrite <-(Z.add_0_r o) at 1. rewrite !(value_at_rd _ _ _ _ Ho) by lia.
    cbn [mbind res_bind].
    change (byte_at [b0; b1; b2; b3; b4] 2) with b2. change (byte_at [b0; b1; b2; b3; b4] 3) with b3.
    rewrite be16; [done| |]; rewrite !Forall_cons in Hb; tauto.
  - assert (H6 : 6 <= zlen (b0 :: b1 :: b2 :: b3 :: b4 :: b5 :: v))
      by (zlist; pose proof (zlen_nonneg v); lia).
    case_if; [done|].
    apply orb_true_iff in E as [E | E]; reflect_bools; lia.
Qed.

Lemma file_size_query_spec q :
  fcp_file_size_query buf p (zlen (tlvs_bytes l)) q
  = match tlv_value 0x80 l with
    | None => Ok (false, FileSize 0)
    | Some [s1; s2] => Ok (true, FileSize (s1 * 256 + s2))
    | Some _ => AssertFailed
    end.
Proof using Hat Hok Hbytes.
  pose proof (fcp_search_cases buf p l FCP_FILE_SIZE_T Hat Hok) as H.
  change (tag_value FCP_FILE_SIZE_T) with 0x80 in H. unfold fcp_file_size_query.
  destruct (tlv_value 0x80 l) as [v|] eqn:Ev; [|by rewrite H].
  destruct H as (o & -> & Ho). cbn [mbind res_bind].
  pose proof (tlv_value_bytes _ _ _ Hbytes Ev) as Hb.
  destruct v as [|s1 [|s2 [|s3 v]]]; try done.
  - assert (H2 : zlen [s1; s2] = 2) by done. rewrite H2. cbn [negb Z.eqb Pos.eqb].
    rewrite <-(Z.add_0_r o) at 1. rewrite !(value_at_rd _ _ _ _ Ho) by lia. cbn [mbind res_bind].
    change (byte_at [s1; s2] 0) with s1. change (byte_at [s1; s2] 1) with s2.
    rewrite !Forall_cons in Hb. rewrite be16 by tauto. done.
  - assert (3 <= zlen (s1 :: s2 :: s3 :: v)) by (zlist; pose proof (zlen_nonneg v); lia).
    case_if; [done|]. lia.
Qed.

(** The proprietary data of the template. *)
Lemma search_value tag v :
  tlv_value (tag_value tag) l = Some v ->
  exists o, fcp_tlv_search_tag buf p (zlen (tlvs_bytes l)) tag = Ok (zlen v, Some o) /\
    value_at buf o v.
Proof using Hat Hok.
  intros Hv. pose proof (fcp_search_cases buf p l tag Hat Hok) as H. by rewrite Hv in H.
Qed.
End WellFormed.

(** ** Proprietary information *)

Lemma value_at_length buf o v : value_at buf o v -> (length v <= length buf)%nat.
Proof. intros (pre & post & -> & _). rewrite !length_app. lia. Qed.

Lemma prop_search_cases buf o props tag :
  value_at buf o (tlvs_bytes props) -> zlen (tlvs_bytes props) <= 255 ->
  match tlv_value (prop_tag_value tag) props with
  | None => prop_info_tlv_search_tag buf o (zlen (tlvs_bytes props)) tag = Ok (0, None)
  | Some v => exists p,
      prop_info_tlv_search_tag buf o (zlen (tlvs_bytes props)) tag = Ok (zlen v, Some p) /\
      value_at buf p v
  end.
Proof.
  intros Hv Hl. unfold prop_info_tlv_search_tag. pose proof (length_tlvs props).
  pose proof (value_at_length _ _ _ Hv).
  rewrite prop_search_finds by (done || lia || (unfold zlen in *; lia)).
  rewrite <-(find_tlv_value _ _ o). destruct (find_tlv _ props o) as [[p v]|] eqn:E; cbn; [|done].
  exists p. split; [done|]. by eapply find_tlv_value_at.
Qed.

(** What the four steps make of the objects of the proprietary template: an absent or
    empty object is skipped, one of the wrong length fails an assertion. *)
Definition uicc_char_spec (props : list tlv) (q : usim_proprietary_information_struct) :=
  match tlv_value 0x80 props with
  | None | Some [] => Ok q
  | Some [b] =>
      Ok (Proprietary (Z.lor (do_flag q) 1) b (supp_volt_class q) (app_pwr_consump q)
            (pwr_ref_freq q) (app_min_freq q) (available_mem_bytes q))
  | Some _ => AssertFailed
  end.

Definition app_pwr_spec (props : list tlv) (q : usim_proprietary_information_struct) :=
  match tlv_value 0x81 props with
  | None | Some [] => Ok q
  | Some [b0; b1; b2] =>
      Ok (Proprietary (Z.lor (do_flag q) 2) (char_byte q) b0 b1 b2 (app_min_freq q)
            (available_mem_bytes q))
  | Some _ => AssertFailed
  end.

(** The minimum clock frequency is not the value of its object but the first byte of the
    template. *)
Definition min_app_clk_spec (props : list tlv) (q : usim_proprietary_information_struct) :=
  match tlv_value 0x82 props with
  | None | Some [] => Ok q
  | Some [_] =>
      Ok (Proprietary (Z.lor (do_flag q) 4) (char_byte q) (supp_volt_class q)
            (app_pwr_consump q) (pwr_ref_freq q) (byte_at (tlvs_bytes props) 0)
            (available_mem_bytes q))
  | Some _ => AssertFailed
  end.

Definition avail_mem_spec (props : list tlv) (q : usim_proprietary_information_struct) :=
  match tlv_value 0x83 props with
  | None | Some [] => Ok q
  | Some v =>
      if 4 <? zlen v then AssertFailed
      else Ok (Proprietary (Z.lor (do_flag q) 8) (char_byte q) (supp_volt_class q)
                 (app_pwr_consump q) (pwr_ref_freq q) (app_min_freq q) (be v))
  end.

Definition prop_spec (props : list tlv) : res usim_proprietary_information_struct :=
  q ← uicc_char_spec props (Proprietary 0 0 0 0 0 0 0);
  q ← app_pwr_spec props q;
  q ← min_app_clk_spec props q;
  avail_mem_spec props q.

Section Proprietary.
Context (buf : list Z) (o : Z) (props : list tlv).
Context (Hat : value_at buf o (tlvs_bytes props)) (Hlen : zlen (tlvs_bytes props) <= 255).
Context (Hbytes : tlvs_byte props).

Lemma query_uicc_char_spec q :
  query_uicc_char buf o (zlen (tlvs_bytes props)) q = uicc_char_spec props q.
Proof using Hat Hlen.
  unfold query_uicc_char, uicc_char_spec.
  pose proof (prop_search_cases buf o props PROP_UICC_CHAR_T Hat Hlen) as H.
  cbn [prop_tag_value] in H. destruct (tlv_value 0x80 props) as [v|]; [|by rewrite H].
  destruct H as (p & -> & Hp). cbn [mbind res_bind from_option id].
  destruct v as [|b [|c v]]; [done| |].
  - rewrite <-(Z.add_0_r p). by rewrite (value_at_rd _ _ _ 0 Hp) by (zlist; lia).
  - pose proof (zlen_nonneg v). assert (2 <= zlen (b :: c :: v)) by (zlist; lia).
    case_if; [lia|]. case_if; [done|lia].
Qed.

Lemma query_app_pwr_spec q :
  query_app_pwr buf o (zlen (tlvs_bytes props)) q = app_pwr_spec props q.
Proof using Hat Hlen.
  unfold query_app_pwr, app_pwr_spec.
  pose proof (prop_search_cases buf o props PROP_APP_PWR_T Hat Hlen) as H.
  cbn [prop_tag_value] in H. destruct (tlv_value 0x81 props) as [v|]; [|by rewrite H].
  destruct H as (p & -> & Hp). cbn [mbind res_bind from_option id].
  destruct v as [|b0 [|b1 [|b2 [|b3 v]]]]; try done.
  - rewrite <-(Z.add_0_r p) at 1. by rewrite !(value_at_rd _ _ _ _ Hp) by (zlist; lia).
  - pose proof (zlen_nonneg v). assert (4 <= zlen (b0 :: b1 :: b2 :: b3 :: v)) by (zlist; lia).
    case_if; [lia|]. case_if; [done|lia].
Qed.

Lemma query_min_app_clk_spec q :
  props <> [] ->
  query_min_app_clk buf o (zlen (tlvs_bytes props)) q = min_app_clk_spec props q.
Proof using Hat Hlen Hbytes.
  intros Hne. unfold query_min_app_clk, min_app_clk_spec.
  pose proof (prop_search_cases buf o props PROP_MIN_APP_CLK_T Hat Hlen) as H.
  cbn [prop_tag_value] in H. destruct (tlv_value 0x82 props) as [v|]; [|by rewrite H].
  destruct H as (p & -> & Hp). cbn [mbind res_bind from_option id].
  destruct v as [|b [|c v]]; [done| |].
  - change (zlen [b]) with 1. cbn [Z.eqb Pos.eqb negb]. rewrite <-(Z.add_0_r o).
    rewrite (value_at_rd _ _ _ 0 Hat); [done|].
    destruct props as [|[t w] props']; [done|]. rewrite zlen_tlvs_cons.
    pose proof (zlen_nonneg w). pose proof (zlen_nonneg (tlvs_bytes props')). lia.
  - pose proof (zlen_nonneg v). assert (2 <= zlen (b :: c :: v)) by (zlist; lia).
    case_if; [lia|]. case_if; [done|lia].
Qed.

Lemma query_avail_mem_spec q :
  available_mem_bytes q = 0 ->
  query_avail_mem buf o (zlen (tlvs_bytes props)) q = avail_mem_spec props q.
Proof using Hat Hlen Hbytes.
  intros Hq. unfold query_avail_mem, avail_mem_spec.
  pose proof (prop_search_cases buf o props PROP_AVAIL_MEM_T Hat Hlen) as H.
  cbn [prop_tag_value] in H. destruct (tlv_value 0x83 props) as [v|] eqn:Ev; [|by rewrite H].
  pose proof (tlv_value_bytes _ _ _ Hbytes Ev) as Hb.
  destruct H as (p & -> & Hp). cbn [mbind res_bind from_option id].
  destruct v as [|b v]; [done|]. pose proof (zlen_nonneg v).
  assert (1 <= zlen (b :: v)) by (zlist; lia).
  case_if; [lia|]. case_if; [done|]. rewrite Hq, or_bytes_value by done. done.
Qed.
End Proprietary.

(** [|=] never changes the memory size before the last step. *)
Lemma prop_steps_mem props q q' :
  available_mem_bytes q = 0 ->
  (uicc_char_spec props q = Ok q' \/ app_pwr_spec props q = Ok q' \/
   min_app_clk_spec props q = Ok q') -> available_mem_bytes q' = 0.
Proof.
  unfold uicc_char_spec, app_pwr_spec, min_app_clk_spec.
  intros Hq [H | [H | H]]; repeat case_match; try done; by injection H as <-.
Qed.

Lemma proprietary_query_spec buf p l props q :
  value_at buf p (tlvs_bytes l) -> Forall tlv_ok l -> tlvs_byte props ->
  tlv_value 0xA5 l = Some (tlvs_bytes props) -> props <> [] ->
  fcp_proprietary_info_query buf p (zlen (tlvs_bytes l)) q
  = (q ← prop_spec props; Ok (true, q)).
Proof.
  intros Hat Hok Hb Hv Hne.
  destruct (search_value buf p l Hat Hok FCP_PROPRIETARY_T _ Hv) as (o & Hs & Ho).
  pose proof (tlv_value_small _ _ _ Hok Hv) as Hlen.
  assert (Hpos : 0 < zlen (tlvs_bytes props)).
  { destruct props as [|[t w] props']; [done|]. rewrite zlen_tlvs_cons.
    pose proof (zlen_nonneg w). pose proof (zlen_nonneg (tlvs_bytes props')). lia. }
  unfold fcp_proprietary_info_query, prop_spec. rewrite Hs. cbn [mbind res_bind].
  case_if; [lia|].
  rewrite query_uicc_char_spec by (done || lia).
  destruct (uicc_char_spec props _) as [q1| | |] eqn:E1; cbn [mbind res_bind]; try done.
  assert (M1 : available_mem_bytes q1 = 0)
    by (eapply (prop_steps_mem props (Proprietary 0 0 0 0 0 0 0)); [done|eauto]).
  rewrite query_app_pwr_spec by (done || lia).
  destruct (app_pwr_spec props q1) as [q2| | |] eqn:E2; cbn [mbind res_bind]; try done.
  assert (M2 : available_mem_bytes q2 = 0) by (eapply prop_steps_mem; [exact M1|eauto]).
  rewrite query_min_app_clk_spec by (done || lia).
  destruct (min_app_clk_spec props q2) as [q3| | |] eqn:E3; cbn [mbind res_bind]; try done.
  assert (M3 : available_mem_bytes q3 = 0) by (eapply prop_steps_mem; [exact M2|eauto]).
  by rewrite query_avail_mem_spec by (done || lia).
Qed.

(** ** PIN status *)

(** A key reference, with an optional usage qualifier in front. *)
Definition key_tlvs (k : option Z * Z) : list tlv :=
  match k.1 with
  | Some u => [(PIN_USAGE_QUALIFIER_T, [u]); (PIN_KEY_REF_T, [k.2])]
  | None => [(PIN_KEY_REF_T, [k.2])]
  end.

(** The PIN status template: the PS_DO with one bit per key, then the keys. *)
Definition pin_template (ps : list Z) (keys : list (option Z * Z)) : list tlv :=
  (PIN_PS_DO_T, ps) :: concat (map key_tlvs keys).

(** A known key sets its bit in [pin_flag], and in [enabled_pin_flag] when its bit of the
    PS_DO, counted from the most significant one, is set. *)
Definition key_spec (ps : list Z) (i : Z) (key : Z) (q : usim_pin_status_temp_do_struct)
  : usim_pin_status_temp_do_struct :=
  match pin_mask key with
  | None => q
  | Some m =>
      PinStatus (Z.lor (pin_flag q) m)
        (if Z.testbit (byte_at ps (i / 8)) (7 - i mod 8)
         then Z.lor (enabled_pin_flag q) m else enabled_pin_flag q)
  end.

Fixpoint keys_spec (ps : list Z) (i : Z) (keys : list (option Z * Z))
    (q : usim_pin_status_temp_do_struct) : usim_pin_status_temp_do_struct :=
  match keys with
  | [] => q
  | k :: keys' => keys_spec ps (i + 1) keys' (key_spec ps i k.2 q)
  end.

Lemma status_bit b i : is_byte b -> 0 <= i < 8 ->
  negb (Z.land b (Z.shiftr 0x80 i) =? 0) = Z.testbit b (7 - i).
Proof.
  intros Hb Hi.
  assert (i = 0 \/ i = 1 \/ i = 2 \/ i = 3 \/ i = 4 \/ i = 5 \/ i = 6 \/ i = 7) as Hc by lia.
  destruct Hc as [-> | [-> | [-> | [-> | [-> | [-> | [-> | ->]]]]]]]; byte_cases b.
Qed.

(** One object of the template is skipped by adding its length. *)
Lemma pin_loop_next value_len n :
  0 <= n -> n + 2 <= value_len -> value_len < 65536 ->
  u16 (value_len - (n + 2)) = value_len - (n + 2).
Proof. intros. unfold u16. apply Z.mod_small. lia. Qed.

Section PinStatus.
Context (buf : list Z) (ps_ptr : Z) (ps : list Z).
Context (Hps : value_at buf ps_ptr ps) (Hpsb : Forall is_byte ps) (Hpsn : ps <> []).

Lemma pin_key_ref_spec tag key i q :
  rd buf (tag + 2) = Ok key -> 0 <= i < 8 ->
  pin_key_ref buf tag (Some ps_ptr) i q = Ok (key_spec ps i key q).
Proof using Hps Hpsb Hpsn.
  intros Hk Hi. unfold pin_key_ref, key_spec. rewrite Hk. cbn [mbind res_bind].
  destruct (pin_mask key) as [m|]; [|done].
  rewrite Z.div_small, Z.mod_small by lia.
  assert (0 < zlen ps) by (destruct ps; [done|zlist; pose proof (zlen_nonneg l); lia]).
  rewrite (value_at_rd _ _ _ 0 Hps) by lia. cbn [mbind res_bind].
  rewrite status_bit by (auto with mux). done.
Qed.

(** The loop over the keys; the ninth key fails the assertion. *)
Lemma pin_loop_keys fuel p keys i q :
  value_at buf p (tlvs_bytes (concat (map key_tlvs keys))) ->
  zlen (tlvs_bytes (concat (map key_tlvs keys))) < 65536 ->
  (length (concat (map key_tlvs keys)) < fuel)%nat -> 0 <= i <= 8 ->
  pin_loop fuel buf p (zlen (tlvs_bytes (concat (map key_tlvs keys)))) (Some ps_ptr) i q
  = if i + zlen keys <=? 8 then Ok (keys_spec ps i keys q) else AssertFailed.
Proof using Hps Hpsb Hpsn.
  revert fuel p i q. induction keys as [|[u key] keys IH]; intros fuel p i q Hv Hl Hf Hi.
  { destruct fuel; [cbn in Hf; lia|]. cbn [map concat keys_spec pin_loop].
    change (zlen (tlvs_bytes [])) with 0. cbn [negb Z.ltb Z.compare]. zlist.
    destruct (i + 0 <=? 8) eqn:E; reflect_bools; [done|lia]. }
  assert (Hkey : forall fuel p, 
    value_at buf p (tlvs_bytes ((PIN_KEY_REF_T, [key]) :: concat (map key_tlvs keys))) ->
    zlen (tlvs_bytes ((PIN_KEY_REF_T, [key]) :: concat (map key_tlvs keys))) < 65536 ->
    (S (length (concat (map key_tlvs keys))) < fuel)%nat ->
    pin_loop fuel buf p
      (zlen (tlvs_bytes ((PIN_KEY_REF_T, [key]) :: concat (map key_tlvs keys)))) (Some ps_ptr) i q
    = if i + zlen ((u, key) :: keys) <=? 8 then Ok (keys_spec ps i ((u, key) :: keys) q)
      else AssertFailed).
  { clear Hv Hl Hf fuel p. intros [|fuel] p Hv Hl Hf; [lia|].
    apply value_at_tlv in Hv as (Ht & Hn & Hval & Hrest). change (zlen [key]) with 1 in *.
    rewrite zlen_tlvs_cons in *. change (zlen [key]) with 1 in *.
    pose proof (zlen_nonneg (tlvs_bytes (concat (map key_tlvs keys)))).
    cbn [pin_loop]. case_if; [lia|]. rewrite Hn. cbn [mbind res_bind]. rewrite Ht.
    cbn [mbind res_bind].
    change (PIN_KEY_REF_T =? PIN_PS_DO_T) with false.
    change (PIN_KEY_REF_T =? PIN_USAGE_QUALIFIER_T) with false. cbv iota.
    rewrite Z.eqb_refl. pose proof (zlen_nonneg keys).
    destruct (1 <=? i / 8) eqn:E8; reflect_bools.
    { assert (i = 8) as -> by (pose proof (Z.mul_div_le i 8); lia).
      rewrite zlen_cons. case_if; [lia|done]. }
    assert (i <> 8) by (intros ->; change (8 / 8) with 1 in E8; lia).
    rewrite (pin_key_ref_spec p key) by
      (rewrite <-(Z.add_0_r (p + 2)); by rewrite (value_at_rd _ _ _ 0 Hval) by done) || lia.
    cbn [mbind res_bind]. rewrite pin_loop_next by lia.
    replace (2 + 1 + zlen (tlvs_bytes (concat (map key_tlvs keys))) - (1 + 2))
      with (zlen (tlvs_bytes (concat (map key_tlvs keys)))) by lia.
    assert (u8 (i + 1) = i + 1) as -> by (unfold u8; apply Z.mod_small; lia).
    rewrite IH by (done || lia). cbn [keys_spec snd]. rewrite zlen_cons.
    replace (i + (1 + zlen keys)) with (i + 1 + zlen keys) by lia. done. }
  destruct u as [u|]; cbn [map concat key_tlvs fst snd app] in *.
  - destruct fuel as [|fuel]; [cbn in Hf; lia|].
    apply value_at_tlv in Hv as (Ht & Hn & _ & Hrest). change (zlen [u]) with 1 in *.
    rewrite (zlen_tlvs_cons PIN_USAGE_QUALIFIER_T) in *. change (zlen [u]) with 1 in *.
    set (rest := (PIN_KEY_REF_T, [key]) :: _) in *.
    pose proof (zlen_nonneg (tlvs_bytes rest)).
    cbn [pin_loop]. case_if; [lia|]. rewrite Hn. cbn [mbind res_bind]. rewrite Ht.
    cbn [mbind res_bind]. change (PIN_USAGE_QUALIFIER_T =? PIN_PS_DO_T) with false.
    rewrite Z.eqb_refl. cbv iota. rewrite pin_loop_next by lia.
    replace (2 + 1 + zlen (tlvs_bytes rest) - (1 + 2)) with (zlen (tlvs_bytes rest)) by lia.
    apply Hkey; [done|lia|cbn in Hf; lia].
  - apply Hkey; [done|done|cbn in Hf; lia].
Qed.
End PinStatus.

(** ** Whole templates *)

(** An FCP template: its tag, a one-byte length and the data objects. *)
Definition fcp_template (l : list tlv) : list Z :=
  FCP_TEMP_T :: zlen (tlvs_bytes l) :: tlvs_bytes l.

Lemma template_at l extra : value_at (fcp_template l ++ extra) 2 (tlvs_bytes l).
Proof. by exists [FCP_TEMP_T; zlen (tlvs_bytes l)], extra. Qed.

Lemma query_tag_template l extra len tag q :
  len <> 0 ->
  usim_fcp_query_tag (fcp_template l ++ extra) len tag q
  = query_of tag (fcp_template l ++ extra) 2 (zlen (tlvs_bytes l)) q.
Proof.
  intros Hlen. assert (2 <= zlen (fcp_template l ++ extra)).
  { unfold fcp_template. zlist. pose proof (zlen_nonneg (tlvs_bytes l)).
    pose proof (zlen_nonneg extra). lia. }
  unfold usim_fcp_query_tag. rewrite !rd_in by lia. cbn [mbind res_bind].
  change (byte_at (fcp_template l ++ extra) 0) with FCP_TEMP_T.
  change (byte_at (fcp_template l ++ extra) 1) with (zlen (tlvs_bytes l)).
  rewrite Z.eqb_refl. case_if; [|done].
  apply orb_true_iff in E as [E | E]; reflect_bools; done.
Qed.

(** What [makeSimRspFromUsimFcp] should make of the objects of a template: the 15 bytes of
    a GET RESPONSE with the file size, the type, the structure of an elementary file and
    the low byte of its record length. *)
Definition sim_rsp_spec (l : list tlv) : res (option (list Z)) :=
  match descriptor_spec l with
  | None => Ok None
  | Some d =>
      if IS_DF_ADF (fd d) then Ok (Some [0; 0; 0; 0; 0; 0; 2; 0; 0; 0; 0; 0; 0; 0; 0])
      else
        match tlv_value 0x80 l with
        | None => Ok None
        | Some [s1; s2] =>
            let rest k r := Ok (Some [0; 0; s1; s2; 0; 0; 4; 0; 0; 0; 0; 0; 0; k; r]) in
            if IS_LINEAR_FIXED_EF (fd d) then rest 1 (u8 (rec_len d))
            else if IS_CYCLIC_EF (fd d) then rest 3 (u8 (rec_len d))
            else rest 0 0
        | Some _ => AssertFailed
        end
  end.

Lemma size_bytes s1 s2 :
  is_byte s1 -> is_byte s2 ->
  Z.shiftr (Z.land (s1 * 256 + s2) 0xFF00) 8 = s1 /\ Z.land (s1 * 256 + s2) 0xFF = s2.
Proof. intros H1 H2. byte_cases2 s1 s2. Qed.

Lemma ef_response_spec d s1 s2 :
  is_byte s1 -> is_byte s2 ->
  ef_response (repeat 0 15) d (s1 * 256 + s2)
  = let rest k r := [0; 0; s1; s2; 0; 0; 4; 0; 0; 0; 0; 0; 0; k; r] in
    if IS_LINEAR_FIXED_EF (fd d) then rest 1 (u8 (rec_len d))
    else if IS_CYCLIC_EF (fd d) then rest 3 (u8 (rec_len d))
    else rest 0 0.
Proof.
  intros H1 H2. unfold ef_response. destruct (size_bytes s1 s2 H1 H2) as [-> ->].
  destruct (IS_LINEAR_FIXED_EF (fd d)); [done|].
  unfold IS_TRANSPARENT_EF, IS_CYCLIC_EF.
  destruct (Z.land 7 (fd d) =? 1) eqn:E1; [|by destruct (Z.land 7 (fd d) =? 6)].
  apply Z.eqb_eq in E1. by rewrite E1.
Qed.

(** ** Termination *)

(** The only step that does not shorten the search is a length of 254. *)
Lemma tlv_search_ends fuel buf p len tag :
  Forall is_byte buf -> (254 ∉ buf) -> 0 <= len -> (Z.to_nat len < fuel)%nat ->
  tlv_search fuel buf p len tag <> Diverges.
Proof.
  intros Hb Hn. revert p len. induction fuel as [|fuel IH]; intros p len Hl Hf; [lia|].
  cbn [tlv_search]. case_if; [done|].
  destruct (rd_cases buf (p + 1)) as [-> | [Hi ->]]; [done|]. cbn [mbind res_bind].
  destruct (rd_cases buf p) as [-> | [_ ->]]; [done|]. cbn [mbind res_bind].
  destruct (_ =? tag).
  - by destruct (rd_cases buf (p + 2 - 1)) as [-> | [_ ->]].
  - assert (Hl254 : byte_at buf (p + 1) <> 254).
    { intros E'. apply Hn. rewrite <-E'. apply list_elem_of_lookup.
      exists (Z.to_nat (p + 1)). by apply byte_at_lookup. }
    pose proof (byte_at_Forall buf (p + 1) Hb) as Hbyte. unfold is_byte in Hbyte.
    assert (1 <= u8 (byte_at buf (p + 1) + 2)).
    { unfold u8. destruct (Z_lt_le_dec (byte_at buf (p + 1) + 2) 256).
      - rewrite Z.mod_small by lia. lia.
      - replace (byte_at buf (p + 1)) with 255 by lia. done. }
    apply IH; case_if; lia.
Qed.

Lemma prop_search_ends fuel buf p len tag :
  Forall is_byte buf -> 0 <= p -> (Z.to_nat (zlen buf - p) < fuel)%nat ->
  prop_search fuel buf p len tag <> Diverges.
Proof.
  intros Hb. revert p len. induction fuel as [|fuel IH]; intros p len Hp Hf; [lia|].
  cbn [prop_search]. case_if; [done|].
  destruct (rd_cases buf p) as [-> | [_ ->]]; [done|]. cbn [mbind res_bind].
  destruct (_ =? tag).
  - by destruct (rd_cases buf (p + 2 - 1)) as [-> | [_ ->]].
  - destruct (rd_cases buf (p + 1)) as [-> | [Hi ->]]; [done|]. cbn [mbind res_bind].
    pose proof (byte_at_Forall buf (p + 1) Hb) as Hbyte. unfold is_byte in Hbyte. apply IH; lia.
Qed.

Lemma pin_loop_ends fuel buf p len ps count q :
  Forall is_byte buf -> 0 <= p -> (Z.to_nat (zlen buf - p) < fuel)%nat ->
  pin_loop fuel buf p len ps count q <> Diverges.
Proof.
  intros Hb. revert p len ps count q. induction fuel as [|fuel IH]; intros p len ps count q Hp Hf; [lia|].
  cbn [pin_loop]. case_if; [done|].
  destruct (rd_cases buf (p + 1)) as [-> | [Hi ->]]; [done|]. cbn [mbind res_bind].
  destruct (rd_cases buf p) as [-> | [_ ->]]; [done|]. cbn [mbind res_bind].
  pose proof (byte_at_Forall buf (p + 1) Hb) as Hbyte. unfold is_byte in Hbyte.
  assert (Hnext : forall len ps count q,
    pin_loop fuel buf (p + (byte_at buf (p + 1) + 2)) len ps count q <> Diverges)
    by (intros; apply IH; lia).
  destruct (_ =? PIN_PS_DO_T); [done|]. destruct (_ =? PIN_USAGE_QUALIFIER_T); [done|].
  destruct (_ =? PIN_KEY_REF_T); [|done]. destruct (_ <=? _); [done|].
  unfold pin_key_ref. destruct (rd_cases buf (p + 2)) as [-> | [_ ->]]; [done|].
  cbn [mbind res_bind]. destruct (pin_mask _) as [m|]; cbn [mbind res_bind]; [|done].
  destruct ps as [s|]; [|done].
  destruct (rd_cases buf (s + count / 8)) as [-> | [_ ->]]; cbn [mbind res_bind]; [done|].
  apply Hnext.
Qed.

(** Sequencing keeps termination. *)
Lemma bind_ends {A B} (m : res A) (f : A -> res B) :
  m <> Diverges -> (forall a, m = Ok a -> f a <> Diverges) -> (m ≫= f) <> Diverges.
Proof. intros Hm Hf. destruct m; cbn; [by apply Hf|done..]. Qed.

Lemma rd_ends buf i : rd buf i <> Diverges.
Proof. by destruct (rd_cases buf i) as [-> | [_ ->]]. Qed.

Lemma rd_n_ends buf i n : rd_n buf i n <> Diverges.
Proof. unfold rd_n. by case_if. Qed.

Lemma or_bytes_ends k buf p n i acc : or_bytes k buf p n i acc <> Diverges.
Proof.
  revert i acc. induction k as [|k IH]; intros i acc; [done|]. cbn [or_bytes].
  apply bind_ends; [apply rd_ends|]. intros. apply IH.
Qed.

Section Ends.
Context (buf : list Z) (Hb : Forall is_byte buf) (Hn : (254 ∉ buf)).

Lemma fcp_search_ends p len tag : 0 <= len -> fcp_tlv_search_tag buf p len tag <> Diverges.
Proof using Hb Hn. intros. apply tlv_search_ends; [done..|lia]. Qed.

(** A value is found behind its tag and length, inside the buffer. *)
Lemma tlv_search_pos fuel p len tag n o :
  0 <= p -> tlv_search fuel buf p len tag = Ok (n, Some o) -> 0 <= o.
Proof using Hb.
  revert p len. induction fuel as [|fuel IH]; intros p len Hp H; [done|].
  cbn [tlv_search] in H. case_match; [done|].
  destruct (rd_cases buf (p + 1)) as [E | [Hi E]]; rewrite E in H; [done|]. cbn [mbind res_bind] in H.
  destruct (rd_cases buf p) as [E' | [_ E']]; rewrite E' in H; [done|]. cbn [mbind res_bind] in H.
  destruct (_ =? tag).
  - destruct (rd_cases buf (p + 2 - 1)) as [E2 | [_ E2]]; rewrite E2 in H; [done|].
    cbn in H. injection H as _ <-. lia.
  - eapply IH; [|exact H]. pose proof (u8_byte (byte_at buf (p + 1) + 2)) as Hu.
    unfold is_byte in Hu. lia.
Qed.

Lemma prop_info_ends o len tag : 0 <= o -> prop_info_tlv_search_tag buf o len tag <> Diverges.
Proof using Hb. intros. apply prop_search_ends; [done..|unfold zlen; lia]. Qed.

(** No query loops. *)
Lemma query_of_ends tag p len q : 0 <= p -> 0 <= len -> query_of tag buf p len q <> Diverges.
Proof using Hb Hn.
  intros Hp Hl.
  assert (Hs : forall t, fcp_tlv_search_tag buf p len t <> Diverges)
    by (intros; by apply fcp_search_ends).
  destruct tag; cbn [query_of]; try done.
  all: unfold fcp_file_descriptor_query, fcp_file_identifier_query, fcp_df_name_query,
    fcp_proprietary_info_query, fcp_life_cycle_query, fcp_pin_status_do_query,
    fcp_total_file_size_query, fcp_file_size_query, fcp_sfi_query,
    query_uicc_char, query_app_pwr, query_min_app_clk, query_avail_mem.
  all: apply bind_ends; [apply Hs|]; intros [n [o|]] Ho;
    [unfold fcp_tlv_search_tag in Ho; apply tlv_search_pos in Ho; [|done]|clear Ho].
  all: repeat (first [done | apply rd_ends | apply rd_n_ends | apply or_bytes_ends
    | by apply prop_info_ends
    | apply pin_loop_ends; [done|done|unfold zlen; lia]
    | apply bind_ends; [|intros] | case_if | case_match]).
Qed.
End Ends.

Lemma search_stuck buf p len tag t :
  0 < len -> rd buf p = Ok t -> t <> tag -> rd buf (p + 1) = Ok 254 ->
  forall fuel, tlv_search fuel buf p len tag = Diverges.
Proof.
  intros Hl Ht Hne Hlen fuel. induction fuel as [|fuel IH]; [done|]. cbn [tlv_search].
  case_if; [lia|]. rewrite Hlen. cbn [mbind res_bind]. rewrite Ht. cbn [mbind res_bind].
  case_if; [done|]. change (u8 (254 + 2)) with 0. rewrite Z.add_0_r.
  case_if; [lia|]. by rewrite Z.sub_0_r.
Qed.

(** * Theorems *)

(** C26: [fcp_tlv_search_tag] implements a lookup in a list of data objects: on a buffer
    that holds, from [in_ptr], the encoding of objects of at most 253 bytes, it returns
    the length of the first value with the tag and a pointer to exactly this value, or 0
    and NULL when no object has the tag.  It reads nothing outside these objects. *)
Theorem fcp_search_finds_first (pre post : list Z) (l : list tlv) (tag : usim_fcp_tag_enum) :
  Forall tlv_ok l ->
  let buf := pre ++ tlvs_bytes l ++ post in
  match tlv_value (tag_value tag) l with
  | None => fcp_tlv_search_tag buf (zlen pre) (zlen (tlvs_bytes l)) tag = Ok (0, None)
  | Some v => exists o,
      fcp_tlv_search_tag buf (zlen pre) (zlen (tlvs_bytes l)) tag = Ok (zlen v, Some o) /\
      ztake (zlen v) (zdrop o buf) = v /\ zlen pre + 2 <= o /\
      o + zlen v <= zlen pre + zlen (tlvs_bytes l)
  end.
Proof.
  intros Hok buf.
  assert (Hat : value_at buf (zlen pre) (tlvs_bytes l)) by (by exists pre, post).
  unfold fcp_tlv_search_tag. pose proof (length_tlvs l). rewrite tlv_search_finds by (done || lia).
  rewrite <-(find_tlv_value _ _ (zlen pre)).
  destruct (find_tlv (tag_value tag) l (zlen pre)) as [[o v]|] eqn:E; cbn; [|done].
  exists o. split; [done|]. split.
  - destruct (find_tlv_value_at _ _ _ _ _ _ Hat E) as (a & b & -> & <-).
    by rewrite zdrop_app_length, ztake_app_length.
  - clear -E. revert E. generalize (zlen pre). induction l as [|[t w] l IH]; intros p E; [done|].
    rewrite zlen_tlvs_cons. cbn [find_tlv] in E. pose proof (zlen_nonneg w).
    pose proof (zlen_nonneg (tlvs_bytes l)). destruct (t =? _).
    + injection E as <- <-. lia.
    + apply IH in E. lia.
Qed.

Definition example_fcp : list tlv :=
  [(0x82, [0x42; 0x21; 0; 28; 3]); (0x83, [0x6F; 0x3B]); (0x8A, [5]); (0x80, [0; 84]); (0x88, [])].

Lemma fcp_search_finds_first_witness :
  let buf := [9; 9] ++ tlvs_bytes example_fcp ++ [7] in
  match tlv_value (tag_value FCP_FILE_SIZE_T) example_fcp with
  | None => fcp_tlv_search_tag buf (zlen [9; 9]) (zlen (tlvs_bytes example_fcp)) FCP_FILE_SIZE_T
            = Ok (0, None)
  | Some v => exists o,
      fcp_tlv_search_tag buf (zlen [9; 9]) (zlen (tlvs_bytes example_fcp)) FCP_FILE_SIZE_T
      = Ok (zlen v, Some o) /\
      ztake (zlen v) (zdrop o buf) = v /\ zlen [9; 9] + 2 <= o /\
      o + zlen v <= zlen [9; 9] + zlen (tlvs_bytes example_fcp)
  end.
Proof.
  apply (fcp_search_finds_first [9; 9] [7] example_fcp FCP_FILE_SIZE_T).
  apply tlvs_ok_small. vm_compute. done.
Defined.

(** C27: From the answer of a USIM to the SIM format: for every FCP template of
    well-formed objects, given as a hexadecimal string (possibly followed by other bytes),
    [makeSimRspFromUsimFcp] returns the hexadecimal form of the 15-byte GET RESPONSE that
    [sim_rsp_spec] describes - file size, type, structure and record length taken from
    the right objects - and NULL exactly when the descriptor, or the size of an elementary
    file, is missing; a size of another length than 2 fails an assertion. *)
Theorem sim_response_from_fcp (l : list tlv) (extra : list Z) :
  zlen (tlvs_bytes l) <= 255 -> tlvs_byte l -> Forall is_byte extra -> zlen extra < 65000 ->
  makeSimRspFromUsimFcp (byteArrayToHexString (fcp_template l ++ extra))
  = match sim_rsp_spec l with
    | Ok (Some rsp) => Ok (Some (byteArrayToHexString rsp))
    | Ok None => Ok None
    | r => r
    end.
Proof.
  intros Hlen Hb Hx Hxl. set (buf := fcp_template l ++ extra).
  assert (Hbuf : Forall is_byte buf).
  { unfold buf, fcp_template. apply Forall_app; split; [|done].
    pose proof (zlen_nonneg (tlvs_bytes l)).
    constructor; [done|]. constructor; [unfold is_byte; lia|]. clear -Hb Hlen.
    induction l as [|[t v] l IH]; [constructor|]. rewrite zlen_tlvs_cons in Hlen.
    pose proof (zlen_nonneg v). pose proof (zlen_nonneg (tlvs_bytes l)).
    apply Forall_cons in Hb as [[Ht Hv] Hb]. rewrite tlvs_bytes_cons. cbn [app].
    constructor; [done|]. constructor; [unfold is_byte; lia|]. apply Forall_app. split; [done|].
    apply IH; [lia|done]. }
  pose proof (zlen_nonneg extra). pose proof (zlen_nonneg (tlvs_bytes l)).
  assert (Hz : zlen buf = 2 + zlen (tlvs_bytes l) + zlen extra)
    by (unfold buf, fcp_template; zlist; lia).
  unfold makeSimRspFromUsimFcp, hexStringToByteArray, byteArrayToHexString.
  rewrite zlen_hex_chars, Z.mul_comm, Z.mod_mul, Z.div_mul, hex_bytes_chars by (done || lia).
  cbn [Z.eqb mbind res_bind]. unfold u16. rewrite Z.mod_small by lia.
  pose proof (tlvs_ok_small l Hlen) as Hok. pose proof (template_at l extra) as Hat.
  unfold buf in *. rewrite !query_tag_template by lia. cbn [query_of].
  rewrite (descriptor_query_spec _ _ _ Hat Hok Hb). unfold sim_rsp_spec.
  destruct (descriptor_spec l) as [d|]; cbn [mbind res_bind negb]; [|done].
  destruct (IS_DF_ADF (fd d)); [done|].
  rewrite (file_size_query_spec _ _ _ Hat Hok Hb).
  destruct (tlv_value 0x80 l) as [[|s1 [|s2 [|s3 v]]]|] eqn:Ev; cbn [mbind res_bind negb]; try done.
  pose proof (tlv_value_bytes _ _ _ Hb Ev) as Hs. rewrite !Forall_cons in Hs.
  cbn [file_size]. change (Z.to_nat GET_RESPONSE_EF_SIZE_BYTES) with 15%nat.
  rewrite ef_response_spec by tauto. cbv zeta.
  by destruct (IS_LINEAR_FIXED_EF (fd d)); [|destruct (IS_CYCLIC_EF (fd d))].
Qed.

Lemma sim_response_from_fcp_witness :
  makeSimRspFromUsimFcp (byteArrayToHexString (fcp_template example_fcp ++ [0x90; 0]))
  = match sim_rsp_spec example_fcp with
    | Ok (Some rsp) => Ok (Some (byteArrayToHexString rsp))
    | Ok None => Ok None
    | r => r
    end.
Proof.
  apply (sim_response_from_fcp example_fcp [0x90; 0]).
  - vm_compute. done.
  - decide_closed.
  - decide_closed.
  - vm_compute. done.
Defined.

(** The PIN status query on a well-formed template: the flags of exactly the known key
    references are set, and the enabled flags of those whose bit in the PS_DO is set, in
    order.  Because the number of keys is checked against the length of a key reference
    instead of that of the PS_DO, a ninth key fails the assertion, however long the PS_DO
    is. *)
Theorem pin_status_matches_spec (l : list tlv) (extra ps : list Z) (keys : list (option Z * Z))
    (len : Z) (q : usim_pin_status_temp_do_struct) :
  Forall tlv_ok l -> tlv_value 0xC6 l = Some (tlvs_bytes (pin_template ps keys)) ->
  Forall is_byte ps -> ps <> [] -> len <> 0 ->
  usim_fcp_query_tag (fcp_template l ++ extra) len FCP_PIN_DO_T q
  = if zlen keys <=? 8 then Ok (true, keys_spec ps 0 keys q) else AssertFailed.
Proof.
  intros Hok Hv Hps Hne Hlen. rewrite query_tag_template by done. cbn [query_of].
  destruct (search_value _ 2 l (template_at l extra) Hok FCP_PIN_DO_T _ Hv) as (o & Hs & Ho).
  pose proof (tlv_value_small _ _ _ Hok Hv) as H253.
  unfold fcp_pin_status_do_query. rewrite Hs. cbn [mbind res_bind].
  set (buf := fcp_template l ++ extra) in *.
  pose proof (value_at_length _ _ _ Ho) as Hlb.
  pose proof (length_tlvs (pin_template ps keys)) as Hlt.
  assert (Hfuel : (length (pin_template ps keys) <= length buf)%nat)
    by (unfold zlen in Hlt; lia).
  unfold pin_template in *. apply value_at_tlv in Ho as (Ht & Hn & Hval & Hrest).
  rewrite zlen_tlvs_cons in *. set (rest := concat (map key_tlvs keys)) in *.
  pose proof (zlen_nonneg ps). pose proof (zlen_nonneg (tlvs_bytes rest)).
  cbn [length] in Hfuel. cbn [pin_loop]. case_if; [lia|]. rewrite Hn. cbn [mbind res_bind].
  rewrite Ht. cbn [mbind res_bind]. rewrite Z.eqb_refl, pin_loop_next by lia.
  replace (2 + zlen ps + zlen (tlvs_bytes rest) - (zlen ps + 2)) with (zlen (tlvs_bytes rest)) by lia.
  unfold rest in *. rewrite (pin_loop_keys buf (o + 2) ps) by (done || lia).
  rewrite Z.add_0_l. by destruct (zlen keys <=? 8).
Qed.

Definition example_pin : list tlv :=
  [(0x84, [0xA0; 0; 0; 0; 0x87]);
   (0xC6, tlvs_bytes (pin_template [0xA0] [(None, 1); (Some 8, 0x81); (None, 0x0A)]))].

Lemma pin_status_matches_spec_witness :
  usim_fcp_query_tag (fcp_template example_pin ++ []) 30 FCP_PIN_DO_T (PinStatus 0 0)
  = if zlen [(None, 1); (Some 8, 0x81); (None, 0x0A)] <=? 8
    then Ok (true, keys_spec [0xA0] 0 [(None, 1); (Some 8, 0x81); (None, 0x0A)] (PinStatus 0 0))
    else AssertFailed.
Proof.
  apply (pin_status_matches_spec example_pin [] [0xA0] [(None, 1); (Some 8, 0x81); (None, 0x0A)] 30).
  - apply tlvs_ok_small. vm_compute. done.
  - reflexivity.
  - decide_closed.
  - done.
  - done.
Defined.

(** The proprietary information of a template: each object present with the right
    length sets its flag and fields, one of another length fails an assertion, and an
    absent one leaves its fields zero.  The minimum clock frequency that is stored is not
    the value of its object but the first byte of the template, the tag of whatever object
    comes first. *)
Theorem proprietary_matches_spec (l : list tlv) (extra : list Z) (props : list tlv) (len : Z)
    (q : usim_proprietary_information_struct) :
  Forall tlv_ok l -> tlvs_byte props -> tlv_value 0xA5 l = Some (tlvs_bytes props) ->
  props <> [] -> len <> 0 ->
  usim_fcp_query_tag (fcp_template l ++ extra) len FCP_PROPRIETARY_T q
  = (q ← prop_spec props; Ok (true, q)).
Proof.
  intros Hok Hb Hv Hne Hlen. rewrite query_tag_template by done. cbn [query_of].
  apply proprietary_query_spec; [apply template_at|done..].
Qed.

Definition example_props : list tlv := [(0x80, [0x71]); (0x82, [0x14]); (0x83, [1; 2])].

Lemma proprietary_matches_spec_witness :
  usim_fcp_query_tag (fcp_template [(0xA5, tlvs_bytes example_props)] ++ []) 14 FCP_PROPRIETARY_T
    (Proprietary 0 0 0 0 0 0 0)
  = (q ← prop_spec example_props; Ok (true, q)).
Proof.
  apply (proprietary_matches_spec [(0xA5, tlvs_bytes example_props)] [] example_props 14).
  - apply tlvs_ok_small. vm_compute. done.
  - decide_closed.
  - reflexivity.
  - done.
  - done.
Defined.

(** On a buffer without the byte 254 every query returns, whatever the buffer holds
    and however long its caller says it is.  A length byte of 254 is necessary for a hang
    and, behind any other tag, sufficient: [tag_len] wraps to 0 and the search never
    moves. *)
Theorem queries_end (buf : list Z) (len : Z) (tag : usim_fcp_tag_enum) (q : struct_of tag) :
  Forall is_byte buf ->
  ((254 ∉ buf) -> usim_fcp_query_tag buf len tag q <> Diverges) /\
  (forall p n t, 0 < n -> rd buf p = Ok t -> t <> tag_value tag -> rd buf (p + 1) = Ok 254 ->
   forall fuel, tlv_search fuel buf p n (tag_value tag) = Diverges).
Proof.
  intros Hb. split.
  - intros Hn. unfold usim_fcp_query_tag. apply bind_ends; [apply rd_ends|]. intros n E.
    apply bind_ends; [apply rd_ends|]. intros t _. case_if; [done|].
    apply query_of_ends; [done|done|lia|].
    destruct (rd_cases buf 1) as [E' | [_ E']]; rewrite E' in E; [done|]. injection E as <-.
    apply (byte_at_Forall buf 1 Hb).
  - intros p n t. apply search_stuck.
Qed.

Lemma queries_end_witness :
  ((254 ∉ fcp_template example_fcp) ->
   usim_fcp_query_tag (fcp_template example_fcp) 20 FCP_SFI_T (Sfi SFI_FILE_ID 0) <> Diverges) /\
  (forall p n t, 0 < n -> rd (fcp_template example_fcp) p = Ok t -> t <> tag_value FCP_SFI_T ->
   rd (fcp_template example_fcp) (p + 1) = Ok 254 ->
   forall fuel, tlv_search fuel (fcp_template example_fcp) p n (tag_value FCP_SFI_T) = Diverges).
Proof. apply (queries_end (fcp_template example_fcp) 20 FCP_SFI_T (Sfi SFI_FILE_ID 0)). decide_closed. Defined.
