(* ===== verification/AtLine.v ===== *)
(** The line reader of an AT channel ([findNextEOL] and [readline] of
    src/mtk/ril/mtk-ril/atchannels.c).

    The state is the part of [RILChannelCtx] the reader uses: the array [ATBuffer] of
    8193 bytes, the offset [ATBufferCur] points to, and [readCount].  A pointer into the
    array is an offset and a string read through it the suffix of the array.  The device
    is the list of what the next [read] calls meet: data (delivered as far as it fits),
    an interrupted call, an error; the end of the list is the end of the file.

    [readline_stream] shows that the lines of a byte stream are returned however the
    stream is cut into reads. *)
From S2P Require Import Prelude CString.

Definition MAX_AT_RESPONSE : Z := 8 * 1024.

Definition CR : Z := 13.
Definition LF : Z := 10.

Definition is_eol (c : Z) : bool := (c =? CR) || (c =? LF).

Record LineBuf := mkLineBuf {
  ATBuffer : list Z;
  ATBufferCur : Z;
  readCount : Z
}.

(** * The device *)

Inductive rx_event :=
| RxData (bs : list Z)
| RxEintr
| RxError.

Inductive rx_result :=
| RxCount (bs : list Z)     (* [count = |bs|], 0 at the end of the file *)
| RxInterrupted
| RxFailed.

(** [read(fd, p, n)]. *)
Definition read_fd (n : Z) (rx : list rx_event) : rx_result * list rx_event :=
  match rx with
  | [] => (RxCount [], [])
  | RxData bs :: rx' =>
      if zlen bs <=? n then (RxCount bs, rx')
      else (RxCount (ztake n bs), RxData (zdrop n bs) :: rx')
  | RxEintr :: rx' => (RxInterrupted, rx')
  | RxError :: rx' => (RxFailed, rx')
  end.

(** The loop that repeats an interrupted call. *)
Fixpoint read_retry (n : Z) (rx : list rx_event) : rx_result * list rx_event :=
  match rx with
  | RxEintr :: rx' => read_retry n rx'
  | _ => read_fd n rx
  end.

(** * The reader *)

(** The number of leading newlines a cursor skips. *)
Fixpoint skip_newlines (s : list Z) : Z :=
  match s with
  | c :: s' => if is_eol c then 1 + skip_newlines s' else 0
  | [] => 0
  end.

Fixpoint find_eol (s : list Z) : option Z :=
  match s with
  | [] => None
  | c :: s' => if c =? 0 then None else if is_eol c then Some 0 else Z.succ <$> find_eol s'
  end.

(** The SMS prompt, with its terminator. *)
Definition at_prompt (s : list Z) : bool :=
  match s with
  | c0 :: c1 :: c2 :: _ => (c0 =? 62) && (c1 =? 32) && (c2 =? 0)
  | _ => false
  end.

(** The offset of the end of the line, from the cursor. *)
Definition findNextEOL (s : list Z) : option Z :=
  if at_prompt s then Some 2 else find_eol s.

Inductive line_result :=
| LLine (line : list Z) (b : LineBuf) (rx : list rx_event)
| LNull (b : LineBuf) (rx : list rx_event)
| LOverflow (b : LineBuf)     (* a write outside [ATBuffer] *)
| LNoFuel.

(** Writing [bs] at an offset. *)
Definition put (buf : list Z) (off : Z) (bs : list Z) : option (list Z) :=
  if (0 <=? off) && (off + zlen bs <=? zlen buf) then Some (memcpy_at buf off bs) else None.

(** A full line is in the buffer: terminate it, return it and move the cursor behind it. *)
Definition finish_line (b : LineBuf) (p_eol : Z) (rx : list rx_event) : line_result :=
  match put (ATBuffer b) p_eol [0] with
  | None => LOverflow b
  | Some buf =>
      let ret := cstr (zdrop (ATBufferCur b) buf) in
      if at_prompt (zdrop (ATBufferCur b) buf) then
        match put buf (p_eol + 1) [0] with
        | None => LOverflow b
        | Some buf => LLine ret (mkLineBuf buf (p_eol + 1) (readCount b)) rx
        end
      else LLine ret (mkLineBuf buf (p_eol + 1) (readCount b)) rx
  end.

(** The loop that reads until there is a full line; [p_read] is where the next byte goes. *)
Fixpoint read_loop (fuel : nat) (b : LineBuf) (p_read : Z) (rx : list rx_event) : line_result :=
  match fuel with
  | O => LNoFuel
  | S fuel' =>
      let '(b, p_read) :=
        if 0 =? MAX_AT_RESPONSE - p_read
        then (mkLineBuf (memcpy_at (ATBuffer b) 0 [0]) 0 (readCount b), 0)
        else (b, p_read) in
      match read_retry (MAX_AT_RESPONSE - p_read) rx with
      | (RxCount bs, rx') =>
          if 0 <? zlen bs then
            match put (ATBuffer b) p_read (bs ++ [0]) with
            | None => LOverflow b
            | Some buf =>
                let cur := ATBufferCur b + skip_newlines (zdrop (ATBufferCur b) buf) in
                let b := mkLineBuf buf cur (readCount b + zlen bs) in
                match findNextEOL (zdrop cur buf) with
                | Some e => finish_line b (cur + e) rx'
                | None => read_loop fuel' b (p_read + zlen bs) rx'
                end
            end
          else LNull b rx'
      | (_, rx') => LNull b rx'
      end
  end.

(** What is left to read, and enough rounds for it. *)
Definition rx_data (rx : list rx_event) : list Z :=
  concat (map (fun e => match e with RxData bs => bs | _ => [] end) rx).

Definition rx_fuel (rx : list rx_event) : nat := S (length (rx_data rx) + length rx).

Definition readline (b : LineBuf) (rx : list rx_event) : line_result :=
  if byte_at (ATBuffer b) (ATBufferCur b) =? 0 then
    read_loop (rx_fuel rx) (mkLineBuf (memcpy_at (ATBuffer b) 0 [0]) 0 (readCount b)) 0 rx
  else
    let cur := ATBufferCur b + skip_newlines (zdrop (ATBufferCur b) (ATBuffer b)) in
    let b := mkLineBuf (ATBuffer b) cur (readCount b) in
    match findNextEOL (zdrop cur (ATBuffer b)) with
    | Some e => finish_line b (cur + e) rx
    | None =>
        let s := cstr (zdrop cur (ATBuffer b)) in
        read_loop (rx_fuel rx)
          (mkLineBuf (memcpy_at (ATBuffer b) 0 (s ++ [0])) 0 (readCount b)) (zlen s) rx
    end.

(** A channel after [initRILChannels]. *)
Definition init_buf : LineBuf := mkLineBuf (repeat 0 (Z.to_nat (MAX_AT_RESPONSE + 1))) 0 0.

(** [n] calls. *)
Fixpoint read_lines (n : nat) (b : LineBuf) (rx : list rx_event)
  : option (list (list Z) * LineBuf * list rx_event) :=
  match n with
  | O => Some ([], b, rx)
  | S n' =>
      match readline b rx with
      | LLine l b1 rx1 =>
          '(ls, b2, rx2) ← read_lines n' b1 rx1; Some (l :: ls, b2, rx2)
      | _ => None
      end
  end.

Arguments init_buf : simpl never.

(** * The buffer holds a string *)

(** [rep b P]: the cursor points to the string [P]. *)
Definition rep (b : LineBuf) (P : list Z) : Prop :=
  zlen (ATBuffer b) = MAX_AT_RESPONSE + 1 /\ 0 <= ATBufferCur b /\
  exists junk, zdrop (ATBufferCur b) (ATBuffer b) = P ++ 0 :: junk.

Lemma rep_length b P : rep b P -> ATBufferCur b + zlen P <= MAX_AT_RESPONSE.
Proof.
  intros (Hl & Hc & junk & Hd). apply (f_equal zlen) in Hd.
  rewrite zlen_app, zlen_cons in Hd. pose proof (zlen_nonneg junk). pose proof (zlen_nonneg P).
  destruct (Z_le_gt_dec (ATBufferCur b) (MAX_AT_RESPONSE + 1)).
  - rewrite zlen_zdrop in Hd by lia. lia.
  - unfold zdrop, zlen in *. rewrite length_drop in Hd. lia.
Qed.

Lemma memcpy_at_split buf off bs :
  0 <= off -> off + zlen bs <= zlen buf ->
  exists junk, zdrop off (memcpy_at buf off bs) = bs ++ junk /\
    ztake off (memcpy_at buf off bs) = ztake off buf.
Proof.
  intros H0 H1. pose proof (zlen_nonneg bs). exists (zdrop (off + zlen bs) buf). unfold memcpy_at.
  assert (Hz : zlen (ztake off buf) = off) by (apply zlen_ztake; lia). split.
  - rewrite <-Hz at 1. by rewrite zdrop_app_length.
  - rewrite <-Hz at 1. by rewrite ztake_app_length.
Qed.

Lemma zdrop_split {A} (l : list A) c n : 0 <= c <= n ->
  zdrop c l = zdrop c (ztake n l) ++ zdrop n l.
Proof.
  intros H. unfold zdrop, ztake. rewrite <-(take_drop (Z.to_nat n) l) at 1.
  rewrite drop_app. f_equal. rewrite length_take.
  destruct (decide (Z.to_nat n <= length l)%nat).
  - replace (Z.to_nat c - _)%nat with 0%nat by lia. done.
  - rewrite (drop_ge l (Z.to_nat n)) by lia. apply drop_nil.
Qed.

(** Appending read data to the string of the buffer. *)
Lemma rep_append b P bs :
  rep b P -> ATBufferCur b + zlen P + zlen bs <= MAX_AT_RESPONSE ->
  exists buf, put (ATBuffer b) (ATBufferCur b + zlen P) (bs ++ [0]) = Some buf /\
    forall n, rep (mkLineBuf buf (ATBufferCur b) n) (P ++ bs).
Proof.
  intros Hr Hs. pose proof (zlen_nonneg P). pose proof (zlen_nonneg bs).
  destruct Hr as (Hl & Hc & junk & Hd).
  set (off := ATBufferCur b + zlen P).
  assert (Hz : zlen (bs ++ [0]) = zlen bs + 1) by (rewrite zlen_app; done).
  exists (memcpy_at (ATBuffer b) off (bs ++ [0])). split.
  - unfold put. rewrite Hz, Hl. destruct (_ && _) eqn:E; [done|].
    apply andb_false_iff in E as [E | E]; reflect_bools; lia.
  - intros n. unfold rep. cbn. split; [rewrite zlen_memcpy_at; lia|]. split; [done|].
    destruct (memcpy_at_split (ATBuffer b) off (bs ++ [0])) as (junk' & Hd' & Ht'); [lia|lia|].
    exists junk'. rewrite (zdrop_split _ (ATBufferCur b) off) by lia.
    rewrite Hd', Ht', <-!app_assoc. f_equal.
    assert (Hd2 : zdrop (ATBufferCur b) (ATBuffer b)
      = zdrop (ATBufferCur b) (ztake off (ATBuffer b)) ++ zdrop off (ATBuffer b))
      by (apply zdrop_split; lia).
    rewrite Hd in Hd2. apply (f_equal (ztake (zlen P))) in Hd2.
    rewrite ztake_app_length, ztake_app_eq in Hd2; [done|].
    rewrite zlen_zdrop; rewrite zlen_ztake; lia.
Qed.

(** Moving the cursor over a prefix of the string. *)
Lemma rep_advance b P Q n :
  rep b (P ++ Q) -> rep (mkLineBuf (ATBuffer b) (ATBufferCur b + zlen P) n) Q.
Proof.
  intros (Hl & Hc & junk & Hd). pose proof (zlen_nonneg P). unfold rep. cbn.
  split; [done|]. split; [lia|]. exists junk.
  rewrite <-zdrop_zdrop, Hd, <-app_assoc by lia. apply zdrop_app_length.
Qed.

(** Compaction: the string is moved to the start of the array. *)
Lemma rep_compact b P n :
  zlen (ATBuffer b) = MAX_AT_RESPONSE + 1 -> zlen P <= MAX_AT_RESPONSE ->
  rep (mkLineBuf (memcpy_at (ATBuffer b) 0 (P ++ [0])) 0 n) P.
Proof.
  intros Hl HP. assert (zlen (P ++ [0]) = zlen P + 1) by (rewrite zlen_app; done).
  unfold rep. cbn. split; [rewrite zlen_memcpy_at; lia|]. split; [lia|].
  destruct (memcpy_at_split (ATBuffer b) 0 (P ++ [0])) as (junk & Hd & _); [lia|lia|].
  exists junk. by rewrite Hd, <-app_assoc.
Qed.

(** ** Newlines *)

Definition newlines (s : list Z) : Prop := Forall (fun c => is_eol c = true) s.
Definition plain (s : list Z) : Prop := Forall (fun c => is_eol c = false /\ c <> 0) s.

Lemma skip_newlines_app s r :
  newlines s -> match r with c :: _ => is_eol c = false | [] => True end ->
  skip_newlines (s ++ r) = zlen s.
Proof.
  intros Hs Hr. induction Hs as [|c s Hc _ IH]; cbn [app skip_newlines].
  - destruct r as [|c r]; cbn [skip_newlines]; [done|]. by rewrite Hr.
  - rewrite Hc, IH, zlen_cons. done.
Qed.

Lemma find_eol_plain s c r : plain s -> is_eol c = true -> find_eol (s ++ c :: r) = Some (zlen s).
Proof.
  intros Hs Hc. induction Hs as [|x s [Hx Hx0] _ IH]; cbn [app find_eol].
  - rewrite Hc. unfold is_eol, CR, LF in Hc.
    apply orb_true_iff in Hc as [Hc | Hc]; reflect_bools; subst; done.
  - rewrite Hx, IH. cbn. rewrite zlen_cons. case_if; [done|]. f_equal. lia.
Qed.

Lemma find_eol_none s r : plain s -> find_eol (s ++ 0 :: r) = None.
Proof.
  induction 1 as [|x s [Hx Hx0] _ IH]; cbn; [done|]. rewrite Hx, IH. by case_if.
Qed.

(** A line that does not start like the prompt. *)
Definition not_prompt (l : list Z) : Prop := strStartsWith l [62; 32] = false.

Lemma at_prompt_none s r :
  not_prompt s -> at_prompt (s ++ 0 :: r) = false.
Proof.
  unfold not_prompt, at_prompt. destruct s as [|a [|b s]]; cbn.
  - by destruct r as [|x [|y r]].
  - intros _. destruct (a =? 62); [|by destruct r]. by destruct r.
  - intros H. destruct (a =? 62); [|by destruct (s ++ 0 :: r)]. cbn in *.
    destruct (b =? 32); [by destruct s|]. by destruct (s ++ 0 :: r).
Qed.

Lemma not_prompt_prefix s t : not_prompt (s ++ t) -> not_prompt s.
Proof.
  unfold not_prompt. destruct s as [|a [|b s]]; cbn; [done| |].
  - by destruct (a =? 62).
  - destruct (a =? 62); cbn; [|done]. destruct (b =? 32); cbn; [|done]. by destruct s, t.
Qed.

(** ** Reading from the device *)

Definition rx_ok (rx : list rx_event) : Prop :=
  Forall (fun e => match e with
                   | RxData bs => bs <> [] /\ no_nul bs
                   | RxEintr => True
                   | RxError => False
                   end) rx.

Lemma read_retry_spec n rx :
  0 < n -> rx_ok rx ->
  (rx_data rx = [] /\ read_retry n rx = (RxCount [], [])) \/
  exists bs rx', read_retry n rx = (RxCount bs, rx') /\ 0 < zlen bs <= n /\ no_nul bs /\
    rx_data rx = bs ++ rx_data rx' /\ rx_ok rx' /\ (rx_fuel rx' < rx_fuel rx)%nat.
Proof.
  intros Hn Hok. induction Hok as [|e rx He Hrx IH]; [by left|].
  destruct e as [bs| |]; [|clear He|done].
  - right. destruct He as [Hne Hnul]. cbn [read_retry read_fd].
    assert (Hp : 0 < zlen bs).
    { destruct bs; [done|]. rewrite zlen_cons. pose proof (zlen_nonneg bs). lia. }
    unfold rx_fuel, rx_data. cbn [map concat length]. case_if.
    + exists bs, rx. split; [done|]. split; [lia|]. repeat split; try done.
      rewrite length_app. lia.
    + exists (ztake n bs), (RxData (zdrop n bs) :: rx). split; [done|].
      rewrite zlen_ztake by lia. split; [lia|]. split; [by apply Forall_ztake|].
      cbn [map concat length]. split; [by rewrite app_assoc, ztake_zdrop|].
      assert (Hd : zlen (zdrop n bs) = zlen bs - n) by (apply zlen_zdrop; lia). split.
      * constructor; [|done]. split; [|by apply Forall_zdrop].
        intros E'. rewrite E' in Hd. change (zlen (@nil Z)) with 0 in Hd. lia.
      * unfold zlen in Hd. rewrite !length_app. lia.
  - cbn [read_retry]. destruct IH as [[Hd Hr] | (bs & rx' & Hr & Hl & Hnul & Hd & Hok' & Hf)].
    + left. done.
    + right. exists bs, rx'. split; [done|]. repeat split; try done; try lia.
      unfold rx_fuel in *. cbn. unfold rx_data in *. cbn. lia.
Qed.

(** ** Returning a line *)

Lemma put_one buf off :
  0 <= off < zlen buf ->
  put buf off [0] = Some (memcpy_at buf off [0]) /\
  zlen (memcpy_at buf off [0]) = zlen buf /\
  zdrop (off + 1) (memcpy_at buf off [0]) = zdrop (off + 1) buf /\
  (forall c, 0 <= c <= off -> zdrop c (memcpy_at buf off [0])
     = zdrop c (ztake off buf) ++ 0 :: zdrop (off + 1) buf).
Proof.
  intros H. assert (H1 : zlen [0] = 1) by done. split; [|split; [|split]].
  - unfold put. rewrite H1. destruct (_ && _) eqn:E; [done|].
    apply andb_false_iff in E as [E | E]; reflect_bools; lia.
  - apply zlen_memcpy_at; lia.
  - unfold memcpy_at. rewrite H1, app_assoc.
    assert (Hz : zlen (ztake off buf ++ [0]) = off + 1) by (rewrite zlen_app, zlen_ztake; lia).
    rewrite <-Hz at 1. by rewrite zdrop_app_length.
  - intros c Hc. unfold memcpy_at. rewrite H1. cbn [app].
    assert (Hz : zlen (ztake off buf) = off) by (apply zlen_ztake; lia).
    unfold zdrop at 1. rewrite drop_app. f_equal. unfold zlen in Hz.
    replace (Z.to_nat c - _)%nat with 0%nat by lia. done.
Qed.

Lemma rep_middle b P Q junk :
  zdrop (ATBufferCur b) (ATBuffer b) = P ++ Q ++ junk -> 0 <= ATBufferCur b ->
  ATBufferCur b + zlen P <= zlen (ATBuffer b) ->
  zdrop (ATBufferCur b) (ztake (ATBufferCur b + zlen P) (ATBuffer b)) = P /\
  zdrop (ATBufferCur b + zlen P) (ATBuffer b) = Q ++ junk.
Proof.
  intros Hd Hc Hl. pose proof (zlen_nonneg P). split.
  - assert (H2 : zdrop (ATBufferCur b) (ATBuffer b)
      = zdrop (ATBufferCur b) (ztake (ATBufferCur b + zlen P) (ATBuffer b))
        ++ zdrop (ATBufferCur b + zlen P) (ATBuffer b)) by (apply zdrop_split; lia).
    rewrite Hd in H2. apply (f_equal (ztake (zlen P))) in H2.
    rewrite ztake_app_length, ztake_app_eq in H2; [done|].
    rewrite zlen_zdrop; rewrite zlen_ztake; lia.
  - rewrite <-zdrop_zdrop, Hd by lia. apply zdrop_app_length.
Qed.

Lemma plain_no_nul s : plain s -> no_nul s.
Proof. intros H. eapply Forall_impl; [exact H|]. by intros ? []. Qed.

Lemma finish_line_spec b line e rest rx :
  rep b (line ++ e :: rest) -> plain line -> not_prompt line ->
  exists b', finish_line b (ATBufferCur b + zlen line) rx = LLine line b' rx /\ rep b' rest.
Proof.
  intros Hr Hpl Hnp. pose proof (rep_length _ _ Hr) as Hlen. destruct Hr as (Hl & Hc & junk & Hd).
  rewrite zlen_app, zlen_cons in Hlen. pose proof (zlen_nonneg line). pose proof (zlen_nonneg rest).
  set (off := ATBufferCur b + zlen line) in *.
  destruct (put_one (ATBuffer b) off) as (Hp & Hz & Hafter & Hbefore); [lia|].
  rewrite <-app_assoc in Hd. cbn [app] in Hd.
  destruct (rep_middle b line [e] (rest ++ 0 :: junk)) as [Hm Hm']; [done|done|lia|].
  fold off in Hm, Hm'. unfold finish_line. rewrite Hp.
  rewrite (Hbefore (ATBufferCur b)) by lia. rewrite Hm.
  rewrite at_prompt_none, cstr_app by (done || by apply plain_no_nul).
  eexists. split; [done|]. unfold rep. cbn. split; [lia|]. split; [lia|].
  exists junk. rewrite Hafter, <-zdrop_zdrop, Hm' by lia. done.
Qed.

(** ** The loop *)

(** A prefix of separators and line: either all inside the separators, or up to a part of
    the line. *)
Lemma prefix_cases (P S sep line tl : list Z) :
  P ++ S = sep ++ line ++ tl ->
  (exists s2, sep = P ++ s2 /\ S = s2 ++ line ++ tl) \/
  (exists l1 l2, P = sep ++ l1 /\ line = l1 ++ l2 /\ S = l2 ++ tl /\ l1 <> []) \/
  (exists t1, P = sep ++ line ++ t1 /\ t1 <> [] /\ tl = t1 ++ S).
Proof.
  intros H. apply app_eq_app in H as [k [[H1 H2] | [H1 H2]]].
  - symmetry in H2. apply app_eq_app in H2 as [j [[H3 H4] | [H3 H4]]].
    + destruct (decide (j = [])) as [-> | Hj].
      * rewrite app_nil_r in H3. subst k. cbn in H4. subst tl.
        destruct (decide (line = [])) as [-> | Hne].
        -- left. exists []. rewrite !app_nil_r in *. done.
        -- right. left. exists line, []. rewrite app_nil_r. done.
      * right. right. exists j. subst. done.
    + destruct (decide (k = [])) as [-> | Hk].
      * left. exists []. rewrite app_nil_r in *. subst. done.
      * right. left. exists k, j. subst. done.
  - left. exists k. subst. done.
Qed.

Lemma plain_head l junk :
  plain l -> match l ++ 0 :: junk with c :: _ => is_eol c = false | [] => True end.
Proof. destruct 1 as [|c l [Hc _] _]; [done|]. cbn. exact Hc. Qed.

(** Scanning a buffer with a complete line behind its cursor, and one without. *)
Lemma scan_line b sep line e rest :
  rep b (sep ++ line ++ e :: rest) -> newlines sep -> plain line -> line <> [] ->
  not_prompt line -> is_eol e = true ->
  skip_newlines (zdrop (ATBufferCur b) (ATBuffer b)) = zlen sep /\
  findNextEOL (zdrop (ATBufferCur b + zlen sep) (ATBuffer b)) = Some (zlen line).
Proof.
  intros (Hl & Hc & junk & Hd) Hs Hp Hne Hnp He. pose proof (zlen_nonneg sep).
  rewrite <-zdrop_zdrop, Hd by lia. rewrite <-!app_assoc. cbn [app]. rewrite zdrop_app_length. split.
  - apply skip_newlines_app; [done|]. destruct Hp as [|c line [Hc' _] _]; [done|]. exact Hc'.
  - unfold findNextEOL. assert (at_prompt (line ++ e :: rest ++ 0 :: junk) = false) as ->.
    { unfold not_prompt in Hnp. destruct line as [|a [|c line]]; [done| |]; cbn in *.
      - assert ((e =? 32) = false) as ->.
        { unfold is_eol, CR, LF in He.
          apply orb_true_iff in He as [He | He]; reflect_bools; by subst. }
        destruct (a =? 62); by destruct (rest ++ 0 :: junk).
      - destruct (a =? 62); [|by destruct (line ++ e :: rest ++ 0 :: junk)]. cbn in *.
        destruct (c =? 32); [by destruct line|]. by destruct (line ++ e :: rest ++ 0 :: junk). }
    by apply find_eol_plain.
Qed.

Lemma scan_partial b sep part :
  rep b (sep ++ part) -> newlines sep -> plain part -> not_prompt part ->
  skip_newlines (zdrop (ATBufferCur b) (ATBuffer b)) = zlen sep /\
  findNextEOL (zdrop (ATBufferCur b + zlen sep) (ATBuffer b)) = None.
Proof.
  intros (Hl & Hc & junk & Hd) Hs Hp Hnp. pose proof (zlen_nonneg sep).
  rewrite <-zdrop_zdrop, Hd by lia. rewrite <-!app_assoc, zdrop_app_length. split.
  - apply skip_newlines_app; [done|]. by apply plain_head.
  - unfold findNextEOL. rewrite at_prompt_none by done. by apply find_eol_none.
Qed.

(** What the loop does after a read: [b1] holds the new bytes, [p_read] is behind them. *)
Definition scan (fuel : nat) (b1 : LineBuf) (p_read : Z) (rx : list rx_event) : line_result :=
  let cur := ATBufferCur b1 + skip_newlines (zdrop (ATBufferCur b1) (ATBuffer b1)) in
  let b := mkLineBuf (ATBuffer b1) cur (readCount b1) in
  match findNextEOL (zdrop cur (ATBuffer b1)) with
  | Some e => finish_line b (cur + e) rx
  | None => read_loop fuel b p_read rx
  end.

(** One round of the loop while there is data and room for it. *)
Lemma read_step fuel b P rx :
  rep b P -> rx_ok rx -> ATBufferCur b + zlen P < MAX_AT_RESPONSE -> rx_data rx <> [] ->
  exists bs b1 rx', rep b1 (P ++ bs) /\ ATBufferCur b1 = ATBufferCur b /\
    rx_data rx = bs ++ rx_data rx' /\ rx_ok rx' /\ (rx_fuel rx' < rx_fuel rx)%nat /\
    read_loop (S fuel) b (ATBufferCur b + zlen P) rx
    = scan fuel b1 (ATBufferCur b + zlen (P ++ bs)) rx'.
Proof.
  intros Hr Hok Hroom Hne. cbn [read_loop]. destruct (0 =? _) eqn:E0; reflect_bools; [lia|].
  destruct (read_retry_spec (MAX_AT_RESPONSE - (ATBufferCur b + zlen P)) rx)
    as [[Hd _] | (bs & rx' & -> & Hb & Hnul & Hd & Hok' & Hf')]; [lia|done|done|].
  destruct (0 <? zlen bs) eqn:Eb; reflect_bools; [|lia].
  destruct (rep_append b P bs Hr) as (buf & -> & Hr'); [lia|].
  exists bs, (mkLineBuf buf (ATBufferCur b) (readCount b + zlen bs)), rx'.
  split; [apply Hr'|]. do 4 (split; [done|]). by rewrite zlen_app, Z.add_assoc.
Qed.

(** Without a complete line the loop goes on with the cursor behind the separators. *)
Lemma scan_goes_on fuel b sep part rx :
  rep b (sep ++ part) -> newlines sep -> plain part -> not_prompt part ->
  exists b2, rep b2 part /\ ATBufferCur b2 = ATBufferCur b + zlen sep /\
    scan fuel b (ATBufferCur b + zlen (sep ++ part)) rx
    = read_loop fuel b2 (ATBufferCur b2 + zlen part) rx.
Proof.
  intros Hr Hs Hp Hnp. destruct (scan_partial b sep part) as [Hk Hn]; try done.
  exists (mkLineBuf (ATBuffer b) (ATBufferCur b + zlen sep) (readCount b)).
  split; [by apply rep_advance|]. split; [done|]. unfold scan. rewrite Hk, Hn.
  by rewrite zlen_app, Z.add_assoc.
Qed.

Lemma scan_returns fuel b sep line e rest p_read rx :
  rep b (sep ++ line ++ e :: rest) -> newlines sep -> plain line -> line <> [] ->
  not_prompt line -> is_eol e = true ->
  exists b', scan fuel b p_read rx = LLine line b' rx /\ rep b' rest.
Proof.
  intros Hr Hs Hp Hne Hnp He. destruct (scan_line b sep line e rest) as [Hk Hn]; try done.
  unfold scan. rewrite Hk, Hn. eapply finish_line_spec; [|done..].
  by apply (rep_advance b sep).
Qed.

(** The loop returns the first line of what is pending and still to come. *)
Lemma read_loop_line fuel b P rx sep line e rest :
  rep b P -> rx_ok rx -> P ++ rx_data rx = sep ++ line ++ e :: rest ->
  newlines sep -> plain line -> line <> [] -> not_prompt line -> is_eol e = true ->
  (rx_fuel rx <= fuel)%nat -> ATBufferCur b + zlen sep + zlen line + 1 <= MAX_AT_RESPONSE ->
  zlen P <= zlen sep + zlen line ->
  exists b' P' rx', read_loop fuel b (ATBufferCur b + zlen P) rx = LLine line b' rx' /\
    rep b' P' /\ rx_ok rx' /\ P' ++ rx_data rx' = rest.
Proof.
  revert b P rx sep. induction fuel as [|fuel IH];
    intros b P rx sep Hr Hok Hdata Hs Hp Hne Hnp He Hf Hspace HP; [unfold rx_fuel in Hf; lia|].
  assert (Hz : zlen (@nil Z) = 0) by done.
  destruct (read_step fuel b P rx) as (bs & b1 & rx' & Hr1 & Hc1 & Hd & Hok' & Hf' & ->); try done.
  { lia. }
  { intros Hd. rewrite Hd, app_nil_r in Hdata. rewrite Hdata, !zlen_app, zlen_cons in HP.
    pose proof (zlen_nonneg rest). lia. }
  rewrite Hd, app_assoc in Hdata. rewrite <-Hc1.
  destruct (prefix_cases _ _ _ _ _ Hdata) as [(s2 & Hsep & Hrest) | [(l1 & l2 & HP1 & Hline & Hrest & _)
    | (t1 & HP1 & Ht1 & Hrest)]].
  - rewrite Hsep in Hs, Hspace. apply Forall_app in Hs as [Hs1 Hs2]. rewrite zlen_app in Hspace.
    destruct (scan_goes_on fuel b1 (P ++ bs) [] rx') as (b2 & Hr2 & Hc2 & Hgo); try done;
      [by rewrite app_nil_r|constructor|]. rewrite app_nil_r in Hgo. rewrite Hgo.
    pose proof (zlen_nonneg s2). pose proof (zlen_nonneg line).
    by apply (IH _ [] rx' s2); try done; lia.
  - rewrite HP1 in *. destruct (scan_goes_on fuel b1 sep l1 rx') as (b2 & Hr2 & Hc2 & ->); try done.
    { rewrite Hline in Hp. by apply Forall_app in Hp as [? _]. }
    { rewrite Hline in Hnp. by eapply not_prompt_prefix. }
    assert (zlen line = zlen l1 + zlen l2) by (by rewrite Hline, zlen_app). pose proof (zlen_nonneg l2).
    apply (IH _ l1 rx' []); try done; [|constructor|lia..].
    rewrite Hrest, Hline. cbn [app]. by rewrite <-app_assoc.
  - destruct t1 as [|e' t1]; [done|]. injection Hrest as <- Hrest. rewrite HP1 in *.
    destruct (scan_returns fuel b1 sep line e t1 (ATBufferCur b1 + zlen (sep ++ line ++ e :: t1)) rx')
      as (b' & -> & Hr'); try done.
    by exists b', t1, rx'.
Qed.

(** At the end of the file an incomplete line is not returned. *)
Lemma read_loop_eof fuel b P rx sep part :
  rep b P -> rx_ok rx -> P ++ rx_data rx = sep ++ part ->
  newlines sep -> plain part -> not_prompt part ->
  (rx_fuel rx <= fuel)%nat -> ATBufferCur b + zlen sep + zlen part < MAX_AT_RESPONSE ->
  exists b', read_loop fuel b (ATBufferCur b + zlen P) rx = LNull b' [].
Proof.
  revert b P rx sep. induction fuel as [|fuel IH];
    intros b P rx sep Hr Hok Hdata Hs Hp Hnp Hf Hspace; [unfold rx_fuel in Hf; lia|].
  assert (Hz : zlen (@nil Z) = 0) by done.
  assert (Hlen : zlen P + zlen (rx_data rx) = zlen sep + zlen part)
    by (by rewrite <-!zlen_app, Hdata).
  pose proof (zlen_nonneg (rx_data rx)).
  destruct (decide (rx_data rx = [])) as [He | Hne].
  { cbn [read_loop]. destruct (0 =? _) eqn:E0; reflect_bools; [lia|].
    destruct (read_retry_spec (MAX_AT_RESPONSE - (ATBufferCur b + zlen P)) rx)
      as [[_ ->] | (bs & rx' & _ & Hb & _ & Hd & _)]; [lia|done|by exists b|].
    rewrite Hd in He. apply app_eq_nil in He as [-> _]. lia. }
  destruct (read_step fuel b P rx) as (bs & b1 & rx' & Hr1 & Hc1 & Hd & Hok' & Hf' & ->); try done.
  { lia. }
  rewrite Hd, app_assoc in Hdata. rewrite <-Hc1. rewrite <-(app_nil_r part) in Hdata.
  destruct (prefix_cases _ _ _ _ _ Hdata) as [(s2 & Hsep & Hrest) | [(l1 & l2 & HP1 & Hline & Hrest & _)
    | (t1 & HP1 & Ht1 & Hrest)]].
  - rewrite Hsep in Hs, Hspace. apply Forall_app in Hs as [Hs1 Hs2]. rewrite zlen_app in Hspace.
    destruct (scan_goes_on fuel b1 (P ++ bs) [] rx') as (b2 & Hr2 & Hc2 & Hgo); try done;
      [by rewrite app_nil_r|constructor|]. rewrite app_nil_r in Hgo, Hrest. rewrite Hgo.
    by apply (IH _ [] rx' s2); try done; lia.
  - rewrite HP1 in *. rewrite app_nil_r in Hrest.
    destruct (scan_goes_on fuel b1 sep l1 rx') as (b2 & Hr2 & Hc2 & ->); try done.
    { rewrite Hline in Hp. by apply Forall_app in Hp as [? _]. }
    { rewrite Hline in Hnp. by eapply not_prompt_prefix. }
    apply (IH _ l1 rx' []); try done; [by rewrite Hrest|constructor|lia..].
  - symmetry in Hrest. by apply app_eq_nil in Hrest as [-> _].
Qed.

(** ** One call *)

Lemma rep_first b P : rep b P -> no_nul P ->
  (byte_at (ATBuffer b) (ATBufferCur b) =? 0) = bool_decide (P = []).
Proof.
  intros (Hl & Hc & junk & Hd) Hn. rewrite <-(Z.add_0_r (ATBufferCur b)), <-byte_at_zdrop, Hd by lia.
  destruct Hn as [|c P Hc' _]; [done|]. change (byte_at ((c :: P) ++ 0 :: junk) 0) with c.
  rewrite bool_decide_false by done. by apply Z.eqb_neq.
Qed.

(** A call on an empty buffer starts reading at the beginning of the array. *)
Lemma readline_empty b rx :
  rep b [] -> exists b0, rep b0 [] /\ ATBufferCur b0 = 0 /\
    readline b rx = read_loop (rx_fuel rx) b0 (ATBufferCur b0 + zlen (@nil Z)) rx.
Proof.
  intros Hr. exists (mkLineBuf (memcpy_at (ATBuffer b) 0 [0]) 0 (readCount b)).
  split; [apply (rep_compact b []); [apply Hr|done]|]. split; [done|].
  unfold readline. rewrite (rep_first b [] Hr (Forall_nil_2 _)). done.
Qed.

(** A call with an incomplete line moves it to the beginning. *)
Lemma readline_partial b sep part rx :
  rep b (sep ++ part) -> newlines sep -> plain part -> not_prompt part ->
  exists b0, rep b0 part /\ ATBufferCur b0 = 0 /\
    readline b rx = read_loop (rx_fuel rx) b0 (ATBufferCur b0 + zlen part) rx.
Proof.
  intros Hr Hs Hp Hnp.
  assert (Hn : no_nul (sep ++ part)).
  { apply Forall_app. split; [|by apply plain_no_nul]. eapply Forall_impl; [exact Hs|].
    intros c Hc ->. discriminate. }
  destruct (decide (sep ++ part = [])) as [E | Hne].
  { apply app_eq_nil in E as [-> ->]. by apply readline_empty. }
  destruct (scan_partial b sep part) as [Hk Hnone]; try done.
  pose proof (rep_length _ _ Hr) as Hlen. rewrite zlen_app in Hlen. pose proof (zlen_nonneg sep).
  assert (Hc : cstr (zdrop (ATBufferCur b + zlen sep) (ATBuffer b)) = part).
  { destruct Hr as (_ & Hc & junk & Hd). rewrite <-zdrop_zdrop, Hd, <-app_assoc by lia.
    rewrite zdrop_app_length. apply cstr_app. by apply plain_no_nul. }
  exists (mkLineBuf (memcpy_at (ATBuffer b) 0 (part ++ [0])) 0 (readCount b)).
  pose proof Hr as (Hl & Hcur & _).
  split; [apply (rep_compact b part); [done|lia]|]. split; [done|].
  unfold readline. rewrite (rep_first b _ Hr Hn), bool_decide_false by done.
  cbv zeta. cbn [ATBuffer readCount]. by rewrite Hk, Hnone, Hc.
Qed.

Lemma readline_line b P rx sep line e rest :
  rep b P -> no_nul P -> rx_ok rx -> P ++ rx_data rx = sep ++ line ++ e :: rest ->
  newlines sep -> plain line -> line <> [] -> not_prompt line -> is_eol e = true ->
  zlen sep + zlen line + 1 <= MAX_AT_RESPONSE ->
  exists b' P' rx', readline b rx = LLine line b' rx' /\
    rep b' P' /\ rx_ok rx' /\ P' ++ rx_data rx' = rest.
Proof.
  intros Hr Hn Hok Hdata Hs Hp Hne Hnp He Hspace. assert (Hz : zlen (@nil Z) = 0) by done.
  destruct (prefix_cases _ _ _ _ _ Hdata) as [(s2 & Hsep & Hrest) | [(l1 & l2 & HP & Hline & Hrest & _)
    | (t1 & HP & Ht1 & Hrest)]].
  - rewrite Hsep in Hs, Hspace. apply Forall_app in Hs as [Hs1 Hs2]. rewrite zlen_app in Hspace.
    pose proof (zlen_nonneg P). pose proof (zlen_nonneg s2). pose proof (zlen_nonneg line).
    destruct (readline_partial b P [] rx) as (b0 & Hr0 & Hc0 & ->); try done;
      [by rewrite app_nil_r|constructor|].
    apply (read_loop_line _ b0 [] rx s2 line e rest); try done; lia.
  - subst P. destruct (readline_partial b sep l1 rx) as (b0 & Hr0 & Hc0 & ->); try done.
    { rewrite Hline in Hp. by apply Forall_app in Hp as [? _]. }
    { rewrite Hline in Hnp. by eapply not_prompt_prefix. }
    assert (zlen line = zlen l1 + zlen l2) by (by rewrite Hline, zlen_app).
    pose proof (zlen_nonneg l2). pose proof (zlen_nonneg sep).
    apply (read_loop_line _ b0 l1 rx [] line e rest); try done; [|constructor|lia..].
    rewrite Hrest, Hline. cbn [app]. by rewrite <-app_assoc.
  - destruct t1 as [|e' t1]; [done|]. injection Hrest as <- Hrest. rewrite HP in *.
    destruct (scan_line b sep line e t1) as [Hk Hf]; try done.
    pose proof (rep_advance b sep _ (readCount b) Hr) as Hr2.
    destruct (finish_line_spec _ line e t1 rx Hr2) as (b' & Hfin & Hr'); try done.
    exists b', t1, rx. split; [|done].
    unfold readline. rewrite (rep_first b _ Hr Hn), bool_decide_false.
    { cbv zeta. cbn [ATBuffer readCount]. by rewrite Hk, Hf. }
    intros E. apply app_eq_nil in E as [_ E]. apply app_eq_nil in E as [E _]. done.
Qed.

Lemma readline_eof b P rx sep part :
  rep b P -> no_nul P -> rx_ok rx -> P ++ rx_data rx = sep ++ part ->
  newlines sep -> plain part -> not_prompt part -> zlen sep + zlen part < MAX_AT_RESPONSE ->
  exists b', readline b rx = LNull b' [].
Proof.
  intros Hr Hn Hok Hdata Hs Hp Hnp Hspace. assert (Hz : zlen (@nil Z) = 0) by done.
  rewrite <-(app_nil_r part) in Hdata.
  destruct (prefix_cases _ _ _ _ _ Hdata) as [(s2 & Hsep & Hrest) | [(l1 & l2 & HP & Hline & Hrest & _)
    | (t1 & HP & Ht1 & Hrest)]].
  - rewrite Hsep in Hs, Hspace. apply Forall_app in Hs as [Hs1 Hs2]. rewrite zlen_app in Hspace.
    pose proof (zlen_nonneg P).
    destruct (readline_partial b P [] rx) as (b0 & Hr0 & Hc0 & ->); try done;
      [by rewrite app_nil_r|constructor|].
    rewrite app_nil_r in Hrest.
    apply (read_loop_eof _ b0 [] rx s2 part); try done; lia.
  - subst P. destruct (readline_partial b sep l1 rx) as (b0 & Hr0 & Hc0 & ->); try done.
    { rewrite Hline in Hp. by apply Forall_app in Hp as [? _]. }
    { rewrite Hline in Hnp. by eapply not_prompt_prefix. }
    pose proof (zlen_nonneg sep). rewrite app_nil_r in Hrest.
    apply (read_loop_eof _ b0 l1 rx [] part); try done; [by rewrite Hrest|constructor|lia].
  - symmetry in Hrest. by apply app_eq_nil in Hrest as [-> _].
Qed.

(** * Streams of lines *)

(** A line on the wire: newlines in front of it, its text, and the character that ends it. *)
Record wire_line := WireLine { w_sep : list Z; w_text : list Z; w_eol : Z }.

Definition wire (w : wire_line) : list Z := w_sep w ++ w_text w ++ [w_eol w].

(** The line fits the buffer and does not look like the SMS prompt. *)
Definition wire_ok (w : wire_line) : Prop :=
  newlines (w_sep w) /\ plain (w_text w) /\ w_text w <> [] /\ not_prompt (w_text w) /\
  is_eol (w_eol w) = true /\ zlen (w_sep w) + zlen (w_text w) + 1 <= MAX_AT_RESPONSE.

(** An unfinished line at the end. *)
Definition tail_ok (sep part : list Z) : Prop :=
  newlines sep /\ plain part /\ not_prompt part /\ zlen sep + zlen part < MAX_AT_RESPONSE.

Definition stream (ws : list wire_line) (sep part : list Z) : list Z :=
  concat (map wire ws) ++ sep ++ part.

Lemma newlines_no_nul s : newlines s -> no_nul s.
Proof. intros H. eapply Forall_impl; [exact H|]. intros c Hc ->. discriminate. Qed.

Lemma stream_no_nul ws sep part : Forall wire_ok ws -> tail_ok sep part -> no_nul (stream ws sep part).
Proof.
  intros Hw (Hs & Hp & _ & _). unfold stream, no_nul.
  rewrite !Forall_app. split; [|split; [by apply newlines_no_nul|by apply plain_no_nul]].
  induction Hw as [|w ws (H1 & H2 & _ & _ & H5 & _) _ IH]; [constructor|].
  cbn [map concat]. apply Forall_app. split; [|done]. unfold wire.
  rewrite !Forall_app. split; [by apply newlines_no_nul|]. split; [by apply plain_no_nul|].
  constructor; [|constructor]. intros E. rewrite E in H5. discriminate.
Qed.

Lemma read_lines_stream ws sep part b P rx :
  rep b P -> rx_ok rx -> Forall wire_ok ws -> tail_ok sep part ->
  P ++ rx_data rx = stream ws sep part ->
  exists b' rx' b'', read_lines (length ws) b rx = Some (map w_text ws, b', rx') /\
    readline b' rx' = LNull b'' [].
Proof.
  intros Hr Hok Hw Ht. revert b P rx Hr Hok. induction Hw as [|w ws Hw Hws IH]; intros b P rx Hr Hok Hd.
  - pose proof (stream_no_nul [] sep part ltac:(constructor) Ht) as Hn. rewrite <-Hd in Hn.
    apply Forall_app in Hn as [Hn _]. destruct Ht as (Hs & Hp & Hnp & Hl).
    destruct (readline_eof b P rx sep part) as [b'' Hb]; try done.
    by exists b, rx, b''.
  - assert (Hall : Forall wire_ok (w :: ws)) by (by constructor).
    pose proof (stream_no_nul _ _ _ Hall Ht) as Hn. rewrite <-Hd in Hn.
    apply Forall_app in Hn as [Hn _]. pose proof Hw as (H1 & H2 & H3 & H4 & H5 & H6).
    destruct (readline_line b P rx (w_sep w) (w_text w) (w_eol w) (stream ws sep part))
      as (b1 & P1 & rx1 & Hl & Hr1 & Hok1 & Hd1); try done.
    { rewrite Hd. unfold stream, wire. cbn [map concat]. by rewrite <-!app_assoc. }
    destruct (IH b1 P1 rx1 Hr1 Hok1 Hd1) as (b' & rx' & b'' & Hrl & Hnull).
    exists b', rx', b''. split; [|done]. cbn [length read_lines map]. by rewrite Hl, Hrl.
Qed.

Lemma init_rep : rep init_buf [].
Proof. by split; [vm_compute|split; [|eexists (repeat 0 (Z.to_nat MAX_AT_RESPONSE)); vm_compute]]. Qed.

(** * Safety on arbitrary input *)

(** There is a terminator at or behind the cursor, inside the array. *)
Definition buf_inv (b : LineBuf) : Prop :=
  zlen (ATBuffer b) = MAX_AT_RESPONSE + 1 /\ 0 <= ATBufferCur b /\
  exists k, ATBufferCur b <= k <= MAX_AT_RESPONSE /\ byte_at (ATBuffer b) k = 0.

(** What a call may do: return a line or NULL and keep the invariant, or write one byte
    behind the array when the SMS prompt ends exactly with it. *)
Definition safe_result (r : line_result) : Prop :=
  match r with
  | LLine _ b _ | LNull b _ => buf_inv b
  | LOverflow b =>
      ATBufferCur b = MAX_AT_RESPONSE - 2 /\ at_prompt (zdrop (ATBufferCur b) (ATBuffer b)) = true
  | LNoFuel => False
  end.

Lemma skip_newlines_bound s k : 0 <= k < zlen s -> byte_at s k = 0 -> 0 <= skip_newlines s <= k.
Proof.
  revert k. induction s as [|c s IH]; intros k Hk H0; [change (zlen (@nil Z)) with 0 in Hk; lia|].
  cbn [skip_newlines]. destruct (is_eol c) eqn:E; [|lia]. rewrite zlen_cons in Hk.
  destruct (Z.eq_dec k 0) as [-> | Hk0].
  { change (byte_at (c :: s) 0) with c in H0. subst c. discriminate. }
  assert (Hb : byte_at s (k - 1) = 0).
  { rewrite <-H0. unfold byte_at. replace (Z.to_nat k) with (S (Z.to_nat (k - 1))) by lia. done. }
  pose proof (IH (k - 1) ltac:(lia) Hb). lia.
Qed.

Lemma find_eol_bound s k e :
  0 <= k < zlen s -> byte_at s k = 0 -> find_eol s = Some e -> 0 <= e < k.
Proof.
  revert k e. induction s as [|c s IH]; intros k e Hk H0 He; [done|].
  cbn [find_eol] in He. rewrite zlen_cons in Hk. destruct (c =? 0) eqn:E; reflect_bools; [done|].
  destruct (Z.eq_dec k 0) as [-> | Hk0]; [by change (byte_at (c :: s) 0) with c in H0|].
  destruct (is_eol c); [injection He as <-; lia|].
  assert (Hb : byte_at s (k - 1) = 0).
  { rewrite <-H0. unfold byte_at. replace (Z.to_nat k) with (S (Z.to_nat (k - 1))) by lia. done. }
  destruct (find_eol s) as [e'|] eqn:Ee; [|done]. injection He as <-.
  pose proof (IH (k - 1) e' ltac:(lia) Hb eq_refl). lia.
Qed.

(** Where the terminator is, seen from the cursor. *)
Lemma zdrop_terminator buf cur k :
  zlen buf = MAX_AT_RESPONSE + 1 -> 0 <= cur <= k -> k <= MAX_AT_RESPONSE -> byte_at buf k = 0 ->
  0 <= k - cur < zlen (zdrop cur buf) /\ byte_at (zdrop cur buf) (k - cur) = 0.
Proof.
  intros Hl Hc Hk H0. rewrite zlen_zdrop by lia. split; [lia|].
  rewrite byte_at_zdrop by lia. by replace (cur + (k - cur)) with k by lia.
Qed.

Lemma byte_at_put_after buf off k :
  0 <= off < k -> off < zlen buf -> byte_at (memcpy_at buf off [0]) k = byte_at buf k.
Proof.
  intros H H'. destruct (put_one buf off) as (_ & _ & Hd & _); [lia|].
  replace k with (off + 1 + (k - off - 1)) by lia.
  rewrite <-!byte_at_zdrop, Hd by lia. done.
Qed.

Lemma byte_at_put_here buf off : 0 <= off < zlen buf -> byte_at (memcpy_at buf off [0]) off = 0.
Proof.
  intros H. destruct (put_one buf off) as (_ & _ & _ & Hb); [lia|].
  rewrite <-(Z.add_0_r off) at 2. rewrite <-byte_at_zdrop, (Hb off) by lia.
  unfold zdrop at 1. rewrite drop_ge; [done|]. unfold ztake. rewrite length_take. lia.
Qed.

Lemma put_same buf off : 0 <= off < zlen buf -> byte_at buf off = 0 -> memcpy_at buf off [0] = buf.
Proof.
  intros H H0. unfold memcpy_at. change (zlen [0]) with 1. rewrite <-(ztake_zdrop off buf) at 3.
  f_equal. rewrite (zdrop_cons buf off) by lia. by rewrite H0.
Qed.

Lemma at_prompt_bytes s : at_prompt s = true -> 3 <= zlen s /\ byte_at s 2 = 0.
Proof.
  destruct s as [|a [|b [|c r]]]; try done. cbn [at_prompt]. intros H. reflect_bools. subst.
  rewrite !zlen_cons. pose proof (zlen_nonneg r). split; [lia|done].
Qed.

(** Terminating a line found by the scan. *)
Lemma finish_line_safe b e rx :
  buf_inv b -> findNextEOL (zdrop (ATBufferCur b) (ATBuffer b)) = Some e ->
  safe_result (finish_line b (ATBufferCur b + e) rx).
Proof.
  intros (Hl & Hc & k & Hk & H0) He.
  destruct (zdrop_terminator _ (ATBufferCur b) k Hl) as [Hkb Hkz]; [lia|lia|done|].
  unfold findNextEOL in He. unfold finish_line.
  destruct (at_prompt (zdrop (ATBufferCur b) (ATBuffer b))) eqn:Ep.
  - injection He as <-. destruct (at_prompt_bytes _ Ep) as [H3 H2].
    rewrite zlen_zdrop in H3 by lia. rewrite byte_at_zdrop in H2 by lia.
    destruct (put_one (ATBuffer b) (ATBufferCur b + 2)) as (-> & _); [lia|].
    rewrite put_same, Ep by (done || lia).
    destruct (Z_le_gt_dec (ATBufferCur b + 3) MAX_AT_RESPONSE).
    + destruct (put_one (ATBuffer b) (ATBufferCur b + 2 + 1)) as (-> & Hz' & _ & _); [lia|].
      split; [cbn; lia|]. cbn. split; [lia|]. exists (ATBufferCur b + 2 + 1). split; [lia|].
      apply byte_at_put_here. lia.
    + unfold put. destruct (_ && _) eqn:E; [reflect_bools; change (zlen [0]) with 1 in *; lia|].
      cbn. split; [lia|done].
  - pose proof (find_eol_bound _ _ _ Hkb Hkz He).
    destruct (put_one (ATBuffer b) (ATBufferCur b + e)) as (-> & Hz & _); [lia|].
    set (buf := memcpy_at _ _ _) in *. case_if.
    + destruct (put_one buf (ATBufferCur b + e + 1)) as (-> & Hz' & _); [lia|].
      split; [cbn; lia|]. cbn. split; [lia|]. exists (ATBufferCur b + e + 1). split; [lia|].
      apply byte_at_put_here. lia.
    + split; [cbn; lia|]. cbn. split; [lia|]. exists k. split; [lia|].
      unfold buf. by rewrite byte_at_put_after by lia.
Qed.

Lemma read_retry_general n rx bs rx' :
  0 <= n -> read_retry n rx = (RxCount bs, rx') -> 0 < zlen bs ->
  zlen bs <= n /\ (rx_fuel rx' < rx_fuel rx)%nat.
Proof.
  intros Hn. induction rx as [|e rx IH]; intros H Hb.
  { cbn in H. injection H as <- <-. change (zlen (@nil Z)) with 0 in Hb. lia. }
  destruct e as [d| |]; cbn [read_retry read_fd] in H; [| |done].
  - unfold rx_fuel, rx_data. cbn [map concat length].
    destruct (zlen d <=? n) eqn:E; reflect_bools.
    + injection H as <- <-. split; [lia|]. rewrite length_app. unfold zlen in *. lia.
    + injection H as <- <-. rewrite zlen_ztake in * by lia. split; [lia|].
      cbn [map concat length]. rewrite !length_app.
      assert (Hd : zlen (zdrop n d) = zlen d - n) by (apply zlen_zdrop; lia).
      unfold zlen in *. lia.
  - destruct (IH H Hb) as [? Hf]. split; [done|]. unfold rx_fuel, rx_data in *. cbn in *. lia.
Qed.

(** Scanning keeps the invariant of the loop. *)
Lemma scan_safe fuel b p_read rx :
  zlen (ATBuffer b) = MAX_AT_RESPONSE + 1 -> 0 <= ATBufferCur b <= p_read ->
  p_read <= MAX_AT_RESPONSE -> byte_at (ATBuffer b) p_read = 0 ->
  (forall b', zlen (ATBuffer b') = MAX_AT_RESPONSE + 1 -> 0 <= ATBufferCur b' <= p_read ->
     byte_at (ATBuffer b') p_read = 0 -> safe_result (read_loop fuel b' p_read rx)) ->
  safe_result (scan fuel b p_read rx).
Proof.
  intros Hl Hc Hp H0 Hloop. unfold scan.
  destruct (zdrop_terminator _ (ATBufferCur b) p_read Hl) as [Hkb Hkz]; [lia|lia|done|].
  pose proof (skip_newlines_bound _ _ Hkb Hkz).
  set (cur := ATBufferCur b + _). set (b2 := mkLineBuf (ATBuffer b) cur (readCount b)).
  destruct (findNextEOL (zdrop cur (ATBuffer b))) as [e|] eqn:E.
  - apply (finish_line_safe b2); [|done]. split; [done|]. cbn. split; [lia|].
    exists p_read. split; [lia|done].
  - apply Hloop; cbn; [done|lia|done].
Qed.

Lemma read_loop_safe fuel b p_read rx :
  zlen (ATBuffer b) = MAX_AT_RESPONSE + 1 -> 0 <= ATBufferCur b <= p_read ->
  p_read <= MAX_AT_RESPONSE -> byte_at (ATBuffer b) p_read = 0 -> (rx_fuel rx <= fuel)%nat ->
  safe_result (read_loop fuel b p_read rx).
Proof.
  revert b p_read rx. induction fuel as [|fuel IH]; intros b p_read rx Hl Hc Hp H0 Hf;
    [unfold rx_fuel in Hf; lia|].
  cbn [read_loop]. assert (Hmax : 0 < MAX_AT_RESPONSE) by done.
  (* the buffer after a possible reset *)
  set (st := if 0 =? MAX_AT_RESPONSE - p_read then _ else _).
  assert (Hst : zlen (ATBuffer st.1) = MAX_AT_RESPONSE + 1 /\ 0 <= ATBufferCur st.1 <= st.2 /\
    st.2 < MAX_AT_RESPONSE /\ byte_at (ATBuffer st.1) st.2 = 0).
  { unfold st. case_if; cbn [fst snd ATBuffer ATBufferCur].
    - destruct (put_one (ATBuffer b) 0) as (_ & Hz & _); [lia|].
      split; [lia|]. split; [lia|]. split; [done|]. apply byte_at_put_here. lia.
    - split; [done|]. split; [done|]. split; [lia|done]. }
  destruct st as [b0 p0]. cbn [fst snd] in Hst. destruct Hst as (Hl0 & Hc0 & Hp0 & H00).
  assert (Hinv : buf_inv b0) by (split; [done|split; [lia|exists p0; split; [lia|done]]]).
  destruct (read_retry (MAX_AT_RESPONSE - p0) rx) as [[bs| |] rx'] eqn:Er; try done.
  destruct (0 <? zlen bs) eqn:Eb; reflect_bools; [|done].
  destruct (read_retry_general (MAX_AT_RESPONSE - p0) rx bs rx') as [Hb Hf']; [lia|done|done|].
  assert (Hz : zlen (bs ++ [0]) = zlen bs + 1) by (rewrite zlen_app; done).
  assert (Hput : put (ATBuffer b0) p0 (bs ++ [0]) = Some (memcpy_at (ATBuffer b0) p0 (bs ++ [0]))).
  { unfold put. rewrite Hz, Hl0. destruct (_ && _) eqn:E; [done|].
    apply andb_false_iff in E as [E | E]; reflect_bools; lia. }
  rewrite Hput. set (buf := memcpy_at _ _ _).
  apply (scan_safe fuel (mkLineBuf buf (ATBufferCur b0) (readCount b0 + zlen bs)) (p0 + zlen bs) rx');
    cbn [ATBuffer ATBufferCur].
  - unfold buf. rewrite zlen_memcpy_at; lia.
  - lia.
  - lia.
  - destruct (memcpy_at_split (ATBuffer b0) p0 (bs ++ [0])) as (junk & Hd & _); [lia|lia|].
    rewrite <-byte_at_zdrop by lia. fold buf in Hd. rewrite Hd, <-app_assoc. apply byte_at_app_length.
  - intros b' Hl' Hc' H0'. apply IH; [done|done|lia|done|lia].
Qed.

Lemma cstr_bound s k : 0 <= k < zlen s -> byte_at s k = 0 -> zlen (cstr s) <= k.
Proof.
  revert k. induction s as [|c s IH]; intros k Hk H0; [change (zlen (@nil Z)) with 0 in Hk; lia|].
  cbn [cstr]. rewrite zlen_cons in Hk. destruct (c =? 0) eqn:E; reflect_bools.
  { change (zlen (@nil Z)) with 0. lia. }
  destruct (Z.eq_dec k 0) as [-> | Hk0]; [by change (byte_at (c :: s) 0) with c in H0|].
  assert (Hb : byte_at s (k - 1) = 0).
  { rewrite <-H0. unfold byte_at. replace (Z.to_nat k) with (S (Z.to_nat (k - 1))) by lia. done. }
  rewrite zlen_cons. pose proof (IH (k - 1) ltac:(lia) Hb). lia.
Qed.

(** * Theorems *)

(** C15: The reader returns exactly the lines of the byte stream, in order and without
    their line ends, however [read] cuts the stream into pieces and however often it is
    interrupted, for lines that fit the buffer with the newlines in front of them and do
    not start like the SMS prompt; at the end of the file it returns NULL and an
    unfinished line is dropped. *)
Theorem readline_stream (ws : list wire_line) (sep part : list Z) (rx : list rx_event) :
  Forall wire_ok ws -> tail_ok sep part -> rx_ok rx -> rx_data rx = stream ws sep part ->
  exists b' rx' b'', read_lines (length ws) init_buf rx = Some (map w_text ws, b', rx') /\
    readline b' rx' = LNull b'' [].
Proof.
  intros Hw Ht Hok Hd. by apply (read_lines_stream ws sep part init_buf [] rx init_rep).
Qed.

Definition example_lines : list wire_line :=
  [WireLine [CR; LF] (bytes_of "+CREG: 1") CR; WireLine [LF; CR; LF] (bytes_of "OK") CR].

Lemma readline_stream_witness :
  exists b' rx' b'',
    read_lines (length example_lines) init_buf
      [RxData [CR]; RxEintr; RxData (LF :: bytes_of "+CR"); RxData (bytes_of "EG: 1");
       RxData ([CR; LF; CR; LF] ++ bytes_of "OK" ++ [CR]); RxData [LF]]
    = Some (map w_text example_lines, b', rx') /\ readline b' rx' = LNull b'' [].
Proof.
  apply (readline_stream example_lines [LF] []).
  - repeat constructor; vm_compute; done.
  - repeat constructor; vm_compute; done.
  - repeat constructor; done.
  - reflexivity.
Defined.

(** C34: Whatever the modem sends - binary data, lines longer than the buffer, errors,
    interruptions - a call of [readline] ends, and every byte it stores lies in
    [ATBuffer] with a terminator left at or behind the cursor; the one exception is an
    SMS prompt that ends exactly with the buffer, where one byte is written behind it. *)
Theorem readline_safe (b : LineBuf) (rx : list rx_event) :
  buf_inv b -> safe_result (readline b rx).
Proof.
  intros (Hl & Hc & k & Hk & H0). unfold readline. case_if.
  - destruct (put_one (ATBuffer b) 0) as (_ & Hz & _); [lia|].
    apply read_loop_safe; cbn [ATBuffer ATBufferCur]; [lia|lia|done| |done].
    apply byte_at_put_here. lia.
  - destruct (zdrop_terminator _ (ATBufferCur b) k Hl) as [Hkb Hkz]; [lia|lia|done|].
    pose proof (skip_newlines_bound _ _ Hkb Hkz).
    set (cur := ATBufferCur b + _). cbv zeta. cbn [ATBuffer readCount].
    destruct (findNextEOL (zdrop cur (ATBuffer b))) as [e|] eqn:Ee.
    + apply (finish_line_safe (mkLineBuf (ATBuffer b) cur (readCount b))); [|done].
      split; [done|]. cbn. split; [lia|]. exists k. split; [lia|done].
    + destruct (zdrop_terminator _ cur k Hl) as [Hkb' Hkz']; [lia|lia|done|].
      pose proof (cstr_bound _ _ Hkb' Hkz'). set (s := cstr _) in *. pose proof (zlen_nonneg s).
      assert (Hz : zlen (s ++ [0]) = zlen s + 1) by (rewrite zlen_app; done).
      apply read_loop_safe; cbn [ATBuffer ATBufferCur]; [rewrite zlen_memcpy_at; lia|lia|lia| |done].
      destruct (memcpy_at_split (ATBuffer b) 0 (s ++ [0])) as (junk & Hd & _); [lia|lia|].
      change (zdrop 0 ?l) with l in Hd. rewrite Hd, <-app_assoc. apply byte_at_app_length.
Qed.

Lemma readline_safe_witness :
  safe_result (readline init_buf [RxData [CR; 0; 255; 62; 32]; RxEintr; RxError]).
Proof.
  apply (readline_safe init_buf [RxData [CR; 0; 255; 62; 32]; RxEintr; RxError]).
  split; [vm_compute; done|]. split; [vm_compute; done|]. exists 0. split; vm_compute; done.
Defined.

(** A read that fills the array and ends with the prompt makes the second call write
    behind it. *)
Lemma prompt_at_buffer_end :
  match readline init_buf [RxData (repeat 65 (Z.to_nat 8189) ++ [CR; 62; 32])] with
  | LLine _ b rx => match readline b rx with LOverflow _ => true | _ => false end
  | _ => false
  end = true.
Proof. vm_compute. reflexivity. Qed.
