(* ===== verification/AtChannel.v ===== *)
(** AT channels: commands, responses and the reader thread
    (src/mtk/ril/mtk-ril/atchannels.c and atchannels.h).

    [AtState] is the context of one channel with the bytes it has written to the modem, the
    calls of its handler for unsolicited lines and the properties that were set.  A command
    waits on a condition variable with the mutex released, so the reader thread handles
    lines only during that wait: what happens there is a list of [wait_event]s - lines
    handled by the reader, the reader closing, another thread using the channel, the waiter
    waking up or timing out - in any order.

    [command_collects_response], [sms_sent_after_prompt] and [modem_stream_to_fields] are the
    results about commands, [response_shape_kept] the invariant of the reader, and
    [channel_map_consistent] the assignment of channels to subsystems. *)
From S2P Require Import Prelude CString AtTok AtLine.

(** * Data *)

Definition AT_ERROR_GENERIC : Z := -1.
Definition AT_ERROR_COMMAND_PENDING : Z := -2.
Definition AT_ERROR_CHANNEL_CLOSED : Z := -3.
Definition AT_ERROR_TIMEOUT : Z := -4.
Definition AT_ERROR_INVALID_THREAD : Z := -5.
Definition AT_ERROR_INVALID_RESPONSE : Z := -6.
Definition AT_ERROR_RADIO_UNAVAILABLE : Z := -7.
Definition HANDSHAKE_RETRY_COUNT : nat := 8.

Inductive ATCommandType := NO_RESULT | NUMERIC | SINGLELINE | MULTILINE | RAW.

#[global] Instance ATCommandType_eq_dec : EqDecision ATCommandType.
Proof. solve_decision. Defined.

(** The list of intermediate lines is kept in its C order: the head is the last line. *)
Record ATResponse := mkResponse {
  success : Z;
  finalResponse : option (list Z);
  p_intermediates : list (list Z)
}.

Record RILChannelCtx := mkChannel {
  id : Z;
  tid_reader : Z;
  tid_myProxy : Z;
  fd : Z;
  unsolHandler : bool;                 (* not NULL *)
  type : ATCommandType;
  responsePrefix : option (list Z);
  smsPDU : option (list Z);
  p_response : option ATResponse;
  readerClosed : Z
}.

(** What [write] does next: accept up to [n] bytes, be interrupted, or fail. *)
Inductive wr_event := WrSome (n : Z) | WrEintr | WrError.

Record AtState := mkAt {
  chan : RILChannelCtx;
  wr : list wr_event;                              (* later writes accept everything *)
  tx : list Z;                                     (* bytes the modem got *)
  unsol : list (list Z * option (list Z));         (* calls of [unsolHandler] *)
  props : list (string * string)                   (* [property_set] *)
}.

Definition set_chan (f : RILChannelCtx -> RILChannelCtx) (s : AtState) : AtState :=
  mkAt (f (chan s)) (wr s) (tx s) (unsol s) (props s).

Definition set_response (r : option ATResponse) (c : RILChannelCtx) : RILChannelCtx :=
  mkChannel (id c) (tid_reader c) (tid_myProxy c) (fd c) (unsolHandler c) (type c)
    (responsePrefix c) (smsPDU c) r (readerClosed c).

Definition set_closed (n : Z) (c : RILChannelCtx) : RILChannelCtx :=
  mkChannel (id c) (tid_reader c) (tid_myProxy c) (fd c) (unsolHandler c) (type c)
    (responsePrefix c) (smsPDU c) (p_response c) n.

Definition set_proxy (t : Z) (c : RILChannelCtx) : RILChannelCtx :=
  mkChannel (id c) (tid_reader c) t (fd c) (unsolHandler c) (type c)
    (responsePrefix c) (smsPDU c) (p_response c) (readerClosed c).

Definition set_fd (f : Z) (c : RILChannelCtx) : RILChannelCtx :=
  mkChannel (id c) (tid_reader c) (tid_myProxy c) f (unsolHandler c) (type c)
    (responsePrefix c) (smsPDU c) (p_response c) (readerClosed c).

(** * Kinds of lines *)

Definition s_finalResponsesError : list (list Z) :=
  map bytes_of ["ERROR"; "+CMS ERROR:"; "+CME ERROR:"; "NO CARRIER"; "NO ANSWER"; "NO DIALTONE"]%string.

Definition isFinalResponseError (line : list Z) : bool :=
  existsb (strStartsWith line) s_finalResponsesError.

Definition RIL_URC : Z := 0.
Definition RIL_CMD_1 : Z := 1.
Definition RIL_CMD_2 : Z := 2.
Definition RIL_CMD_3 : Z := 3.
Definition RIL_CMD_4 : Z := 4.
Definition RIL_ATCI : Z := 5.
Definition RIL_CHANNEL_OFFSET : Z := 6.
Definition RIL_CHANNEL_SET3_OFFSET : Z := 12.
Definition RIL_CHANNEL_SET4_OFFSET : Z := 18.
Definition RIL_SUPPORT_CHANNELS : Z := 24.

(** NO CARRIER on a URC channel is not a final response. *)
Definition isFinalResponseErrorEx (sim_count : nat) (line : list Z) (c : RILChannelCtx) : bool :=
  if existsb (fun j => (id c =? RIL_URC + Z.of_nat j * RIL_CHANNEL_OFFSET)
                       && strStartsWith line (bytes_of "NO CARRIER")) (seq 0 sim_count)
  then false
  else existsb (strStartsWith line) s_finalResponsesError.

Definition s_finalResponsesSuccess : list (list Z) := map bytes_of ["OK"; "CONNECT"]%string.

Definition isFinalResponseSuccess (line : list Z) : bool :=
  existsb (strStartsWith line) s_finalResponsesSuccess.

Definition isFinalResponse (line : list Z) : bool :=
  isFinalResponseSuccess line || isFinalResponseError line.

Definition s_smsUnsoliciteds : list (list Z) :=
  map bytes_of ["+CMT:"; "+CDS:"; "+CBM:"; "+EIMSCMT:"; "+EIMSCDS:"]%string.

Definition isSMSUnsolicited (line : list Z) : bool :=
  existsb (strStartsWith line) s_smsUnsoliciteds.

Definition PROMPT : list Z := [62; 32].

(** [strcmp(line, "> ") == 0]. *)
Definition isIntermediatePattern (line : list Z) : bool := bool_decide (line = PROMPT).

Definition isFinalResponseSuccessInNumeric (line : list Z) : bool :=
  existsb (fun s => bool_decide (line = s)) (map bytes_of ["0"; "1"]%string).

Definition isFinalResponseErrorInNumeric (line : list Z) : bool :=
  existsb (strStartsWith line)
    (map bytes_of ["2"; "3"; "4"; "6"; "7"; "8"; "+CMS ERROR:"; "+CME ERROR:"]%string).

Definition isdigit (c : Z) : bool := (48 <=? c) && (c <=? 57).

(** * Writing *)

(** The main string: whether all of it was written, what was, and the later behaviour of
    [write]. *)
Fixpoint write_main (w : list wr_event) (data : list Z) : bool * list Z * list wr_event :=
  match data with
  | [] => (true, [], w)
  | _ =>
      match w with
      | [] => (true, data, [])
      | WrSome n :: w' =>
          let '(ok, sent, w'') := write_main w' (zdrop n data) in (ok, ztake n data ++ sent, w'')
      | WrEintr :: w' => write_main w' data
      | WrError :: w' => (false, [], w')
      end
  end.

(** The terminator, repeated until [write] accepts it or fails. *)
Fixpoint write_end (w : list wr_event) (c : Z) : bool * list Z * list wr_event :=
  match w with
  | [] => (true, [c], [])
  | WrSome n :: w' => if n <=? 0 then write_end w' c else (true, [c], w')
  | WrEintr :: w' => write_end w' c
  | WrError :: w' => (false, [], w')
  end.

(** [writeline] and [writeCtrlZ] differ in the terminator. *)
Definition write_with (c : Z) (s : list Z) (st : AtState) : Z * AtState :=
  if (fd (chan st) <? 0) || (0 <? readerClosed (chan st)) then (AT_ERROR_CHANNEL_CLOSED, st)
  else
    let '(ok, sent, w) := write_main (wr st) s in
    if negb ok then
      (AT_ERROR_GENERIC, mkAt (chan st) w (tx st ++ sent) (unsol st) (props st))
    else
      let '(ok', sent', w') := write_end w c in
      let st' := mkAt (chan st) w' (tx st ++ sent ++ sent') (unsol st) (props st) in
      if ok' then (0, st') else (AT_ERROR_GENERIC, st').

Definition CTRL_Z : Z := 26.

Definition writeline (s : list Z) (st : AtState) : Z * AtState := write_with CR s st.
Definition writeCtrlZ (s : list Z) (st : AtState) : Z * AtState := write_with CTRL_Z s st.

(** * Handling a line *)

Definition addIntermediate (line : list Z) (r : ATResponse) : ATResponse :=
  mkResponse (success r) (finalResponse r) (line :: p_intermediates r).

Definition handleFinalResponse (line : list Z) (ok : Z) (r : ATResponse) : ATResponse :=
  mkResponse ok (Some line) (p_intermediates r).

Definition handleUnsolicited (line : list Z) (pdu : option (list Z)) (st : AtState) : AtState :=
  if unsolHandler (chan st)
  then mkAt (chan st) (wr st) (tx st) (unsol st ++ [(line, pdu)]) (props st)
  else st.

(** Whether a line is an intermediate result of the pending command; commands of the types
    SINGLELINE and MULTILINE have a prefix. *)
Definition is_intermediate (numeric : bool) (sims : nat) (line : list Z) (c : RILChannelCtx)
    (r : ATResponse) : bool :=
  match type c with
  | NO_RESULT => false
  | NUMERIC =>
      match p_intermediates r, line with [], d :: _ => isdigit d | _, _ => false end
  | SINGLELINE =>
      match p_intermediates r with
      | [] => strStartsWith line (default [] (responsePrefix c))
      | _ => false
      end
  | MULTILINE => strStartsWith line (default [] (responsePrefix c))
  | RAW =>
      if numeric then
        negb (isFinalResponseSuccessInNumeric line) && negb (isFinalResponseErrorInNumeric line)
      else
        negb (isFinalResponseSuccess line) && negb (isFinalResponseErrorEx sims line c)
        && negb (isIntermediatePattern line)
  end.

(** The prompt for the text of a message.  The pointer that is reset afterwards is a local
    copy, so the channel keeps its [smsPDU]. *)
Definition sms_prompt (line : list Z) (c : RILChannelCtx) : bool :=
  match smsPDU c with Some _ => bool_decide (line = PROMPT) | None => false end.

(** [numeric]: [isNumericSet == 1]; [sims]: [SIM_COUNT]. *)
Definition processLine (numeric : bool) (sims : nat) (line : list Z) (st : AtState) : AtState :=
  let c := chan st in
  match p_response c with
  | None => handleUnsolicited line None st
  | Some r =>
      let final ok := set_chan (set_response (Some (handleFinalResponse line ok r))) st in
      if is_intermediate numeric sims line c r then
        set_chan (set_response (Some (addIntermediate line r))) st
      else if isFinalResponseSuccess line then final 1
      else if isFinalResponseErrorEx sims line c then final 0
      else if sms_prompt line c then (writeCtrlZ (default [] (smsPDU c)) st).2
      else if isIntermediatePattern line then final 1
      else if numeric then
        if isFinalResponseSuccessInNumeric line then final 1
        else if isFinalResponseErrorInNumeric line then final 0
        else st
      else handleUnsolicited line None st
  end.

(** * Responses *)

Definition at_response_new : ATResponse := mkResponse 0 None [].

(** Flipping the list, one node at a time. *)
Fixpoint reverse_loop (pcur acc : list (list Z)) : list (list Z) :=
  match pcur with
  | [] => acc
  | l :: pnext => reverse_loop pnext (l :: acc)
  end.

Definition reverseIntermediates (r : ATResponse) : ATResponse :=
  mkResponse (success r) (finalResponse r) (reverse_loop (p_intermediates r) []).

Definition clearPendingCommand (c : RILChannelCtx) : RILChannelCtx :=
  mkChannel (id c) (tid_reader c) (tid_myProxy c) (fd c) (unsolHandler c) (type c)
    None None None (readerClosed c).

Definition start_command (ty : ATCommandType) (prefix pdu : option (list Z)) (c : RILChannelCtx)
  : RILChannelCtx :=
  mkChannel (id c) (tid_reader c) (tid_myProxy c) (fd c) (unsolHandler c) ty
    prefix pdu (Some at_response_new) (readerClosed c).

(** * Waiting for the response *)

Inductive wait_event :=
| WaitLine (line : list Z)                  (* the reader handles a line *)
| WaitSms (line1 line2 : list Z)            (* the reader handles a two-line message *)
| WaitClosed                                (* the reader closes or [at_close] is called *)
| WaitOther                                 (* another thread starts a command here *)
| WaitWake                                  (* the waiter runs *)
| WaitTimeout.                              (* its wait times out *)

(** What the other threads do to the channel.  A second command on a channel with a
    pending one is refused, but clears the pending one. *)
Definition other_event (numeric : bool) (sims : nat) (e : wait_event) (st : AtState) : AtState :=
  match e with
  | WaitLine line => processLine numeric sims line st
  | WaitSms line1 line2 => handleUnsolicited line1 (Some line2) st
  | WaitClosed => set_chan (set_closed 1) st
  | WaitOther => set_chan clearPendingCommand st
  | WaitWake | WaitTimeout => st
  end.

Inductive cmd_result :=
| CmdReturn (err : Z) (out : option ATResponse) (st : AtState)
| CmdWaiting (st : AtState)                 (* no event ends the wait *)
| CmdCrash.                                 (* [p_response] is NULL after the wait *)

Definition finish_error (err : Z) (st : AtState) : cmd_result :=
  CmdReturn err None (set_chan clearPendingCommand st).

(** The end of the loop: [want_out] is [pp_outResponse != NULL]. *)
Definition finish_wait (want_out : bool) (st : AtState) : cmd_result :=
  match p_response (chan st) with
  | None => CmdCrash
  | Some r =>
      if 0 <? readerClosed (chan st) then finish_error AT_ERROR_CHANNEL_CLOSED st
      else
        CmdReturn 0 (if want_out then Some (reverseIntermediates r) else None)
          (set_chan clearPendingCommand st)
  end.

(** The condition [finalResponse == NULL && readerClosed == 0] of the loop; [None] when
    [p_response] is NULL. *)
Definition must_wait (c : RILChannelCtx) : option bool :=
  match p_response c with
  | None => None
  | Some r => Some (match finalResponse r with None => true | Some _ => false end
                    && (readerClosed c =? 0))
  end.

(** The waiter checks the condition when it runs; a timeout ends the wait without a
    check.  Without a time limit there is no timeout. *)
Fixpoint wait_loop (numeric : bool) (sims : nat) (timed want_out : bool) (evs : list wait_event)
    (st : AtState) : cmd_result :=
  match evs with
  | [] => CmdWaiting st
  | WaitWake :: evs' =>
      match must_wait (chan st) with
      | None => CmdCrash
      | Some true => wait_loop numeric sims timed want_out evs' st
      | Some false => finish_wait want_out st
      end
  | WaitTimeout :: evs' =>
      if timed then finish_error AT_ERROR_TIMEOUT st
      else wait_loop numeric sims timed want_out evs' st
  | e :: evs' => wait_loop numeric sims timed want_out evs' (other_event numeric sims e st)
  end.

Definition at_send_command_full_nolock (numeric : bool) (sims : nat) (command : list Z)
    (ty : ATCommandType) (prefix pdu : option (list Z)) (timeoutMsec : Z) (want_out : bool)
    (evs : list wait_event) (st : AtState) : cmd_result :=
  match p_response (chan st) with
  | Some _ => finish_error AT_ERROR_COMMAND_PENDING st
  | None =>
      let '(err, st) := writeline command st in
      if err <? 0 then finish_error err st
      else
        let st := set_chan (start_command ty prefix pdu) st in
        match must_wait (chan st) with
        | Some true => wait_loop numeric sims (negb (timeoutMsec =? 0)) want_out evs st
        | _ => finish_wait want_out st
        end
  end.

(** * Sending a command *)

(** The globals, properties and build options the function consults. *)
Record RilEnv := mkEnv {
  s_md_off : bool;
  self : Z;                         (* [pthread_self()] *)
  isNumericSet : bool;
  SIM_COUNT : nat;
  s_at_timeoutMsec : Z;
  isInternalLoad : bool;
  isUserLoad : bool;
  isDualTalkMode : bool;
  RIL_get3GSIM : Z;
  MTK_RIL_MD2 : bool
}.

Definition s_at_timeout : list (list Z * Z) :=
  [(bytes_of "CGACT", 15); (bytes_of "COPS=?", 10); (bytes_of "CMGS", 10)].

Definition getATCommandTimeout (env : RilEnv) (command : list Z) : Z :=
  match List.find (fun e => strstr command e.1) s_at_timeout with
  | Some (_, t) => t * 60 * 1000
  | None => s_at_timeoutMsec env
  end.

(** Commands that are sent even when the modem is off. *)
Definition allowed_when_off (command : list Z) : bool :=
  existsb (strstr command) (map bytes_of ["EPOF"; "EPON"; "ESIMAUTH"; "EAUTH"; "EFUN"]%string).

Inductive full_result :=
| FReturn (err : Z) (out : option ATResponse) (st : AtState)
| FAssert                          (* failed assertion *)
| FExit                            (* the daemon ends on a timeout *)
| FWaiting (st : AtState)
| FCrash.

(** The properties that make the multiplexer reset a modem. *)
Definition report_timeout (env : RilEnv) (st : AtState) : AtState :=
  let other := isDualTalkMode env && negb (RIL_get3GSIM env =? 1) in
  let case := if Bool.eqb (MTK_RIL_MD2 env) other then "2"%string else "6"%string in
  mkAt (chan st) (wr st) (tx st) (unsol st)
    (props st ++ [("ril.mux.report.case"%string, case); ("ril.muxreport"%string, "1"%string)]).

Definition at_send_command_full (env : RilEnv) (command : list Z) (ty : ATCommandType)
    (prefix pdu : option (list Z)) (want_out : bool) (evs : list wait_event) (st : AtState)
  : full_result :=
  if s_md_off env && negb (allowed_when_off command) then
    FReturn AT_ERROR_RADIO_UNAVAILABLE (if want_out then Some at_response_new else None) st
  else if tid_reader (chan st) =? self env then FReturn AT_ERROR_INVALID_THREAD None st
  else if negb (tid_myProxy (chan st) =? 0) then FAssert
  else
    let st := set_chan (set_proxy (self env)) st in
    match at_send_command_full_nolock (isNumericSet env) (SIM_COUNT env) command ty prefix pdu
            (getATCommandTimeout env command) want_out evs st with
    | CmdCrash => FCrash
    | CmdWaiting st => FWaiting st
    | CmdReturn err out st =>
        if (isInternalLoad env || negb (isUserLoad env)) && (err =? AT_ERROR_TIMEOUT) then FExit
        else
          let st := if err =? AT_ERROR_TIMEOUT then report_timeout env st else st in
          FReturn err out (set_chan (set_proxy 0) st)
    end.

Definition at_send_command (env : RilEnv) (command : list Z) (want_out : bool)
    (evs : list wait_event) (st : AtState) : full_result :=
  at_send_command_full env command NO_RESULT None None want_out evs st.

(** A successful command must have an intermediate response. *)
Definition require_intermediate (r : full_result) : full_result :=
  match r with
  | FReturn err (Some resp) st =>
      if (err =? 0) && (0 <? success resp) && bool_decide (p_intermediates resp = [])
      then FReturn AT_ERROR_INVALID_RESPONSE None st else r
  | _ => r
  end.

Definition at_send_command_singleline (env : RilEnv) (command prefix : list Z) (want_out : bool)
    (evs : list wait_event) (st : AtState) : full_result :=
  require_intermediate (at_send_command_full env command SINGLELINE (Some prefix) None want_out evs st).

Definition at_send_command_numeric (env : RilEnv) (command : list Z) (want_out : bool)
    (evs : list wait_event) (st : AtState) : full_result :=
  require_intermediate (at_send_command_full env command NUMERIC None None want_out evs st).

Definition at_send_command_sms (env : RilEnv) (command pdu prefix : list Z) (want_out : bool)
    (evs : list wait_event) (st : AtState) : full_result :=
  require_intermediate
    (at_send_command_full env command SINGLELINE (Some prefix) (Some pdu) want_out evs st).

Definition at_send_command_multiline (env : RilEnv) (command prefix : list Z) (want_out : bool)
    (evs : list wait_event) (st : AtState) : full_result :=
  at_send_command_full env command MULTILINE (Some prefix) None want_out evs st.

Definition at_send_command_raw (env : RilEnv) (command : list Z) (want_out : bool)
    (evs : list wait_event) (st : AtState) : full_result :=
  at_send_command_full env command RAW None None want_out evs st.

(** The handshake repeats the command, each time with its own events, until it succeeds. *)
Fixpoint handshake_loop (n : nat) (env : RilEnv) (evss : list (list wait_event)) (err : Z)
    (st : AtState) : cmd_result :=
  match n with
  | O => CmdReturn err None st
  | S n' =>
      match at_send_command_full_nolock (isNumericSet env) (SIM_COUNT env) (bytes_of "ATE0Q0V1")
              NO_RESULT None None 0 false (hd [] evss) st with
      | CmdReturn err _ st => if err =? 0 then CmdReturn 0 None st
                              else handshake_loop n' env (tl evss) err st
      | r => r
      end
  end.

Definition at_handshake (env : RilEnv) (evss : list (list wait_event)) (st : AtState) : cmd_result :=
  if tid_reader (chan st) =? self env then CmdReturn AT_ERROR_INVALID_THREAD None st
  else handshake_loop HANDSHAKE_RETRY_COUNT env evss 0 st.

(** * Errors *)

Definition CME_ERROR_NON_CME : Z := -1.
Definition CME_SUCCESS : Z := 0.
Definition CME_UNKNOWN : Z := 100.

Definition at_get_cme_error (r : ATResponse) : Z :=
  if 0 <? success r then CME_SUCCESS
  else
    match finalResponse r with
    | None => CME_ERROR_NON_CME
    | Some line =>
        if strStartsWith line (bytes_of "ERROR") then CME_UNKNOWN
        else if negb (strStartsWith line (bytes_of "+CME ERROR:")) then CME_ERROR_NON_CME
        else
          let '(err, p) := at_tok_start (Some line) in
          if err <? 0 then CME_ERROR_NON_CME
          else
            let '(err, v, _) := at_tok_nextint p in
            if err <? 0 then CME_ERROR_NON_CME else default 0 v
    end.

(** [p_response] is dereferenced only when [err] is not negative. *)
Definition isATCmdRspErr (err : Z) (r : option ATResponse) : option bool :=
  if err <? 0 then Some true
  else match r with Some r => Some (success r =? 0) | None => None end.

(** * The reader thread *)

(** The reader's callback for a closed channel is set, and runs once. *)
Definition onReaderClosed (st : AtState) : AtState :=
  if readerClosed (chan st) =? 0 then set_chan (set_closed 1) st else st.

Inductive loop_result :=
| RClosed (st : AtState) (b : LineBuf) (rx : list rx_event)
| RRunning (st : AtState) (b : LineBuf) (rx : list rx_event)    (* after [n] rounds *)
| RFault.

(** [n] rounds of [readerLoop]. *)
Fixpoint readerLoop (n : nat) (env : RilEnv) (st : AtState) (b : LineBuf) (rx : list rx_event)
  : loop_result :=
  match n with
  | O => RRunning st b rx
  | S n' =>
      match readline b rx with
      | LNull b1 rx1 => RClosed (onReaderClosed st) b1 rx1
      | LLine line b1 rx1 =>
          if isSMSUnsolicited line then
            match readline b1 rx1 with
            | LLine line2 b2 rx2 =>
                readerLoop n' env (handleUnsolicited line (Some line2) st) b2 rx2
            | LNull b2 rx2 => RClosed (onReaderClosed st) b2 rx2
            | _ => RFault
            end
          else readerLoop n' env (processLine (isNumericSet env) (SIM_COUNT env) line st) b1 rx1
      | _ => RFault
      end
  end.

(** What the reader does to a waiting command, as events: the lines it handles. *)
Fixpoint reader_events (n : nat) (b : LineBuf) (rx : list rx_event)
  : list wait_event * LineBuf * list rx_event :=
  match n with
  | O => ([], b, rx)
  | S n' =>
      match readline b rx with
      | LLine line b1 rx1 =>
          if isSMSUnsolicited line then
            match readline b1 rx1 with
            | LLine line2 b2 rx2 =>
                let '(evs, b3, rx3) := reader_events n' b2 rx2 in (WaitSms line line2 :: evs, b3, rx3)
            | LNull b2 rx2 => ([WaitClosed], b2, rx2)
            | _ => ([], b1, rx1)
            end
          else let '(evs, b2, rx2) := reader_events n' b1 rx1 in (WaitLine line :: evs, b2, rx2)
      | LNull b1 rx1 => ([WaitClosed], b1, rx1)
      | _ => ([], b, rx)
      end
  end.

(** The assertion [p_channel->fd == fd] has been checked by the caller; creating the reader
    thread succeeds. *)
Definition at_open (reader : Z) (c : RILChannelCtx) : RILChannelCtx :=
  mkChannel (id c) reader (tid_myProxy c) (fd c) true (type c) None None None 0.

Definition at_close (c : RILChannelCtx) : RILChannelCtx := set_closed 1 (set_fd (-1) c).

(** A channel after [initRILChannels]. *)
Definition init_channel (i : Z) : RILChannelCtx :=
  mkChannel i 0 0 (-1) false NO_RESULT None None None 0.

Definition initRILChannels : list RILChannelCtx :=
  map init_channel (seqZ 0 RIL_SUPPORT_CHANNELS).

(** * Channels of a subsystem *)

Inductive RILSubSystemId :=
| RIL_DEFAULT | RIL_SIM | RIL_STK | RIL_CC | RIL_SS | RIL_SMS | RIL_DATA | RIL_NW | RIL_OEM.

(** The index in [s_RILChannel]. *)
Definition getRILChannelCtx (subsystem : RILSubSystemId) (rid : Z) : Z :=
  let channelOffset := rid * RIL_CHANNEL_OFFSET in
  match subsystem with
  | RIL_CC | RIL_SS => channelOffset + RIL_CMD_2
  | RIL_DATA => channelOffset + RIL_CMD_4
  | RIL_NW | RIL_OEM => channelOffset + RIL_CMD_1
  | RIL_SIM | RIL_STK | RIL_SMS => channelOffset + RIL_CMD_3
  | RIL_DEFAULT => channelOffset + RIL_URC
  end.

Definition getRILIdByChannelCtx (channel : Z) : Z :=
  if RIL_CHANNEL_SET4_OFFSET <=? channel then 3
  else if RIL_CHANNEL_SET3_OFFSET <=? channel then 2
  else if RIL_CHANNEL_OFFSET <=? channel then 1
  else 0.

Definition getDefaultChannelCtx (rid : Z) : Z :=
  if rid =? 1 then RIL_CHANNEL_OFFSET
  else if rid =? 2 then RIL_CHANNEL_SET3_OFFSET
  else if rid =? 3 then RIL_CHANNEL_SET4_OFFSET
  else RIL_URC.

Definition getSupportChannels (sims : nat) : Z :=
  match sims with
  | 2%nat => RIL_CHANNEL_SET3_OFFSET
  | 3%nat => RIL_CHANNEL_SET4_OFFSET
  | 4%nat => RIL_SUPPORT_CHANNELS
  | _ => RIL_CHANNEL_OFFSET
  end.

(** [None]: the assertion fails. *)
Definition getChannelCtxbyId (sims : nat) (i : Z) : option Z :=
  if i <? getSupportChannels sims then Some i else None.

(** The channel of the proxy thread that asks, or the default one of the SIM. *)
Definition getChannelCtxbyProxy (sims : nat) (proxyId rid : Z) : option Z :=
  if negb (proxyId <? getSupportChannels sims) then None
  else
    Some (if -1 <? proxyId then
            if (rid =? 0) && (RIL_CHANNEL_OFFSET <=? proxyId) then getDefaultChannelCtx rid
            else if (rid =? 1) && ((proxyId <? RIL_CHANNEL_OFFSET) || (RIL_CHANNEL_SET3_OFFSET <? proxyId))
            then getDefaultChannelCtx rid
            else if (rid =? 2) && ((proxyId <? RIL_CHANNEL_SET3_OFFSET) || (RIL_CHANNEL_SET4_OFFSET <? proxyId))
            then getDefaultChannelCtx rid
            else if (rid =? 3) && (proxyId <? RIL_CHANNEL_SET4_OFFSET) then getDefaultChannelCtx rid
            else proxyId
          else getDefaultChannelCtx rid).

(** [targetSim]: [atoi] of the property [persist.radio.simswitch]. *)
Definition getMainProtocolRid (targetSim : Z) : Z :=
  if targetSim =? 2 then 1 else if targetSim =? 3 then 2 else if targetSim =? 4 then 3 else 0.

(** * Data channels *)

(** The lines that end the answer on a data channel. *)
Definition ends_data_answer (line : list Z) : bool :=
  bool_decide (line = bytes_of "OK") || bool_decide (line = bytes_of "NO CARRIER")
  || strStartsWith line (bytes_of "CONNECT") || strstr line (bytes_of "ERROR").

(** Reading up to such a line; [None] is NULL. *)
Fixpoint data_answer (fuel : nat) (b : LineBuf) (rx : list rx_event)
  : option (option (list Z) * LineBuf * list rx_event) :=
  match fuel with
  | O => None
  | S fuel' =>
      match readline b rx with
      | LNull b1 rx1 => Some (None, b1, rx1)
      | LLine line b1 rx1 =>
          if ends_data_answer line then Some (Some line, b1, rx1) else data_answer fuel' b1 rx1
      | _ => None
      end
  end.

(** The response is given to the caller, or freed, and the channel still points to it. *)
Definition at_send_command_to_data_channel (env : RilEnv) (command : list Z) (want_out : bool)
    (fuel : nat) (st : AtState) (b : LineBuf) (rx : list rx_event)
  : option (Z * option ATResponse * AtState * LineBuf * list rx_event) :=
  let '(ret, st) := writeline command st in
  if negb (ret =? 0) then Some (AT_ERROR_GENERIC, None, st, b, rx)
  else
    let st := set_chan (set_response (Some at_response_new)) st in
    match data_answer fuel b rx with
    | None => None
    | Some (None, b1, rx1) => Some (AT_ERROR_GENERIC, None, st, b1, rx1)
    | Some (Some line, b1, rx1) =>
        let st := processLine (isNumericSet env) (SIM_COUNT env) line st in
        let r := reverseIntermediates (default at_response_new (p_response (chan st))) in
        Some (0, (if want_out then Some r else None), st, b1, rx1)
    end.

(** * Writing is complete *)

Definition wr_ok (w : list wr_event) : Prop := Forall (fun e => e <> WrError) w.

Lemma write_main_ok w data :
  wr_ok w -> exists w', write_main w data = (true, data, w') /\ wr_ok w'.
Proof.
  intros Hw. revert data. induction Hw as [|e w He Hw IH]; intros [|x data];
    try (by exists []); try (by eexists; split; [done|constructor]).
  destruct e as [n| |]; cbn [write_main]; [|by apply IH|done].
  destruct (IH (zdrop n (x :: data))) as (w' & -> & Hw'). exists w'. by rewrite ztake_zdrop.
Qed.

Lemma write_end_ok w c : wr_ok w -> exists w', write_end w c = (true, [c], w') /\ wr_ok w'.
Proof.
  induction 1 as [|e w He Hw IH]; [exists []; split; [done|constructor]|].
  destruct e as [n| |]; cbn [write_end]; [case_if; [exact IH|by exists w]|exact IH|done].
Qed.

(** Sending on an open channel whose device never fails: everything and the terminator,
    whatever the sizes of the partial writes. *)
Lemma write_with_ok c s st :
  0 <= fd (chan st) -> readerClosed (chan st) = 0 -> wr_ok (wr st) ->
  exists w, wr_ok w /\
    write_with c s st = (0, mkAt (chan st) w (tx st ++ s ++ [c]) (unsol st) (props st)).
Proof.
  intros Hfd Hc Hw. unfold write_with. rewrite Hc. cbn [Z.ltb Z.compare]. rewrite orb_false_r.
  case_if; [lia|]. destruct (write_main_ok (wr st) s Hw) as (w1 & -> & Hw1). cbn [negb].
  destruct (write_end_ok w1 c Hw1) as (w2 & -> & Hw2). by exists w2.
Qed.

(** * The effect of lines on a pending command *)

(** Neither a final response nor the prompt. *)
Definition ordinary (sims : nat) (c : RILChannelCtx) (line : list Z) : Prop :=
  isFinalResponseSuccess line = false /\ isFinalResponseErrorEx sims line c = false /\
  isIntermediatePattern line = false.

#[global] Instance ordinary_dec sims c line : Decision (ordinary sims c line).
Proof. unfold ordinary. apply _. Defined.

(** Whether a command of a type takes a line; [have] tells that it has one already. *)
Definition takes (ty : ATCommandType) (prefix : option (list Z)) (have : bool) (line : list Z)
  : bool :=
  match ty with
  | NO_RESULT => false
  | NUMERIC => negb have && match line with d :: _ => isdigit d | [] => false end
  | SINGLELINE => negb have && strStartsWith line (default [] prefix)
  | MULTILINE => strStartsWith line (default [] prefix)
  | RAW => true
  end.

Definition has_intermediate (r : ATResponse) : bool :=
  match p_intermediates r with [] => false | _ => true end.

Lemma is_intermediate_takes sims line c r :
  ordinary sims c line ->
  is_intermediate false sims line c r = takes (type c) (responsePrefix c) (has_intermediate r) line.
Proof.
  intros (H1 & H2 & H3). unfold is_intermediate, takes, has_intermediate.
  destruct (type c), (p_intermediates r), line; try done; by rewrite H1, H2, H3.
Qed.

(** The state with intermediate lines (last one first) and handler calls added. *)
Definition add_lines (inters : list (list Z)) (us : list (list Z * option (list Z))) (r : ATResponse)
    (st : AtState) : AtState :=
  mkAt (set_response (Some (mkResponse (success r) (finalResponse r) (inters ++ p_intermediates r)))
          (chan st))
    (wr st) (tx st) (unsol st ++ us) (props st).

(** A command is pending on an open channel with a handler. *)
Record pending (st : AtState) (r : ATResponse) : Prop := {
  pend_resp : p_response (chan st) = Some r;
  pend_open : readerClosed (chan st) = 0;
  pend_handler : unsolHandler (chan st) = true
}.

Lemma pending_add i u r st :
  pending st r ->
  pending (add_lines i u r st) (mkResponse (success r) (finalResponse r) (i ++ p_intermediates r)).
Proof. by destruct 1; split. Qed.

(** One ordinary line is either added or given to the handler. *)
Lemma ordinary_line sims line st r :
  pending st r -> ordinary sims (chan st) line ->
  processLine false sims line st
  = if takes (type (chan st)) (responsePrefix (chan st)) (has_intermediate r) line
    then add_lines [line] [] r st else add_lines [] [(line, None)] r st.
Proof.
  intros [Hr Ho Hh] Hord. unfold processLine. rewrite Hr, is_intermediate_takes by done.
  unfold add_lines. destruct (takes _ _ _ _).
  - unfold set_chan, addIntermediate. cbn [app]. by rewrite app_nil_r.
  - assert (sms_prompt line (chan st) = false) as ->.
    { destruct Hord as (_ & _ & H). unfold sms_prompt, isIntermediatePattern in *.
      by destruct (smsPDU (chan st)). }
    destruct Hord as (-> & -> & ->). unfold handleUnsolicited. rewrite Hh.
    f_equal. cbn [app]. destruct r. cbn. destruct (chan st). cbn in *. by subst.
Qed.

(** ** A sequence of events before the response is complete *)

(** What the events add: intermediate lines in order, and handler calls in order. *)
Fixpoint collect (ty : ATCommandType) (prefix : option (list Z)) (have : bool)
    (evs : list wait_event) : list (list Z) * list (list Z * option (list Z)) :=
  match evs with
  | [] => ([], [])
  | WaitLine l :: evs' =>
      if takes ty prefix have l then
        let '(i, u) := collect ty prefix true evs' in (l :: i, u)
      else let '(i, u) := collect ty prefix have evs' in (i, (l, None) :: u)
  | WaitSms l1 l2 :: evs' =>
      let '(i, u) := collect ty prefix have evs' in (i, (l1, Some l2) :: u)
  | _ :: evs' => collect ty prefix have evs'
  end.

(** Ordinary lines, messages and spurious wake-ups. *)
Definition body_event (sims : nat) (c : RILChannelCtx) (e : wait_event) : Prop :=
  match e with
  | WaitLine l => ordinary sims c l
  | WaitSms _ _ | WaitWake => True
  | _ => False
  end.

Lemma wait_body sims timed want evs rest st r :
  pending st r -> (finalResponse r = None \/ (WaitWake ∉ evs)) ->
  Forall (body_event sims (chan st)) evs ->
  let '(i, u) := collect (type (chan st)) (responsePrefix (chan st)) (has_intermediate r) evs in
  wait_loop false sims timed want (evs ++ rest) st
  = wait_loop false sims timed want rest (add_lines (rev i) u r st).
Proof.
  revert st r. induction evs as [|e evs IH]; intros st r Hp Hf Hev.
  { cbn [collect rev app]. f_equal. unfold add_lines. rewrite app_nil_r. cbn [app].
    destruct Hp as [Hr _ _]. destruct r, st as [[]]. cbn in *. by subst. }
  apply Forall_cons in Hev as [He Hevs].
  assert (Hf' : finalResponse r = None \/ (WaitWake ∉ evs))
    by (destruct Hf as [? | Hf]; [by left|right; by apply not_elem_of_cons in Hf as [_ ?]]).
  destruct e as [l|l1 l2| | | |]; cbn [body_event] in He; try done; cbn [app wait_loop other_event collect].
  - rewrite (ordinary_line sims l st r) by done.
    destruct (takes (type (chan st)) _ _ l).
    + pose proof (IH (add_lines [l] [] r st) _ (pending_add [l] [] r st Hp) Hf' Hevs) as H.
      cbn [type responsePrefix chan add_lines set_response has_intermediate p_intermediates app] in H.
      destruct (collect _ _ true evs) as [i u]. rewrite H. f_equal. unfold add_lines. cbn.
      by rewrite app_nil_r, <-app_assoc.
    + pose proof (IH (add_lines [] [(l, None)] r st) _ (pending_add [] [(l, None)] r st Hp) Hf' Hevs) as H.
      cbn [type responsePrefix chan add_lines set_response] in H.
      change (has_intermediate (mkResponse _ _ ([] ++ p_intermediates r))) with (has_intermediate r) in H.
      destruct (collect _ _ (has_intermediate r) evs) as [i u]. rewrite H. f_equal. unfold add_lines. cbn.
      by rewrite <-app_assoc.
  - assert (Hh : handleUnsolicited l1 (Some l2) st = add_lines [] [(l1, Some l2)] r st).
    { destruct Hp as [Hr _ Hh]. unfold handleUnsolicited, add_lines. rewrite Hh. f_equal.
      destruct r, st as [[]]. cbn in *. by subst. }
    rewrite Hh.
    pose proof (IH (add_lines [] [(l1, Some l2)] r st) _ (pending_add [] [(l1, Some l2)] r st Hp) Hf' Hevs) as H.
    cbn [type responsePrefix chan add_lines set_response] in H.
    change (has_intermediate (mkResponse _ _ ([] ++ p_intermediates r))) with (has_intermediate r) in H.
    destruct (collect _ _ (has_intermediate r) evs) as [i u]. rewrite H. f_equal. unfold add_lines. cbn.
    by rewrite <-app_assoc.
  - destruct Hf as [Hf | Hf]; [|exfalso; apply Hf; left].
    pose proof Hp as [Hr Ho _]. unfold must_wait. rewrite Hr, Hf, Ho. cbn. by apply IH.
Qed.

Lemma collect_app ty prefix have evs evs' :
  collect ty prefix have (evs ++ evs')
  = let '(i, u) := collect ty prefix have evs in
    let '(i', u') := collect ty prefix (have || match i with [] => false | _ => true end) evs' in
    (i ++ i', u ++ u').
Proof.
  revert have. induction evs as [|e evs IH]; intros have.
  { cbn [collect app]. rewrite orb_false_r. by destruct (collect _ _ _ evs'). }
  destruct e as [l|l1 l2| | | |]; cbn [collect app]; try apply IH.
  - destruct (takes ty prefix have l).
    + rewrite IH. destruct (collect ty prefix true evs) as [i u]. cbn [orb]. rewrite orb_true_r.
      by destruct (collect ty prefix true evs') as [i' u'].
    + rewrite IH. destruct (collect ty prefix have evs) as [i u].
      by destruct (collect _ _ _ evs') as [i' u'].
  - rewrite IH. destruct (collect ty prefix have evs) as [i u].
    by destruct (collect _ _ _ evs') as [i' u'].
Qed.

(** A final response: 1 or 0 for success or error. *)
Definition final_code (sims : nat) (c : RILChannelCtx) (line : list Z) : option Z :=
  if isFinalResponseSuccess line then Some 1
  else if isFinalResponseErrorEx sims line c then Some 0
  else None.

(** The command does not mistake the line for an intermediate result. *)
Definition not_taken (ty : ATCommandType) (prefix : option (list Z)) (line : list Z) : Prop :=
  match ty with RAW => True | _ => takes ty prefix false line = false end.

Lemma final_line sims line ok st r :
  pending st r -> final_code sims (chan st) line = Some ok ->
  not_taken (type (chan st)) (responsePrefix (chan st)) line ->
  processLine false sims line st
  = set_chan (set_response (Some (mkResponse ok (Some line) (p_intermediates r)))) st.
Proof.
  intros [Hr _ _] Hc Hn. unfold processLine. rewrite Hr. unfold final_code in Hc.
  assert (is_intermediate false sims line (chan st) r = false) as ->.
  { unfold is_intermediate, not_taken, takes in *.
    destruct (type (chan st)); try done; cbn [negb andb] in *.
    - destruct (p_intermediates r); [|by destruct line]. by destruct line.
    - by destruct (p_intermediates r).
    - destruct (isFinalResponseSuccess line); [done|].
      by destruct (isFinalResponseErrorEx sims line (chan st)). }
  destruct (isFinalResponseSuccess line); [by injection Hc as <-|].
  destruct (isFinalResponseErrorEx sims line (chan st)); [by injection Hc as <-|done].
Qed.

Lemma reverse_loop_rev l acc : reverse_loop l acc = rev l ++ acc.
Proof.
  revert acc. induction l as [|x l IH]; intros acc; [done|]. cbn. rewrite IH, <-app_assoc. done.
Qed.

(** The wait of a command from the first event to the wake-up after the final response. *)
Lemma wait_response sims timed st body final ok late :
  pending st at_response_new ->
  Forall (body_event sims (chan st)) (body ++ late) -> (WaitWake ∉ late) ->
  final_code sims (chan st) final = Some ok ->
  not_taken (type (chan st)) (responsePrefix (chan st)) final ->
  let '(i, u) := collect (type (chan st)) (responsePrefix (chan st)) false (body ++ late) in
  wait_loop false sims timed true (body ++ WaitLine final :: late ++ [WaitWake]) st
  = CmdReturn 0 (Some (mkResponse ok (Some final) i))
      (mkAt (clearPendingCommand (chan st)) (wr st) (tx st) (unsol st ++ u) (props st)).
Proof.
  intros Hp Hev Hw Hc Hn. apply Forall_app in Hev as [Hb Hl]. rewrite collect_app.
  pose proof (wait_body sims timed true body (WaitLine final :: late ++ [WaitWake]) st _ Hp (or_introl eq_refl) Hb) as H1.
  change (has_intermediate at_response_new) with false in H1.
  destruct (collect _ _ false body) as [i u]. rewrite H1. clear H1.
  set (st1 := add_lines (rev i) u at_response_new st).
  pose proof (pending_add (rev i) u _ _ Hp) as Hp1. fold st1 in Hp1.
  cbn [wait_loop other_event]. rewrite (final_line sims final ok st1 _ Hp1) by done.
  set (r2 := mkResponse ok (Some final) _).
  assert (Hp2 : pending (set_chan (set_response (Some r2)) st1) r2)
    by (destruct Hp1; by split).
  pose proof (wait_body sims timed true late [WaitWake] _ r2 Hp2 (or_intror Hw) Hl) as H2.
  cbn [type responsePrefix chan st1 add_lines set_response set_chan] in H2.
  assert (Hh : has_intermediate r2 = false || match i with [] => false | _ => true end).
  { unfold r2, has_intermediate. cbn [p_intermediates at_response_new orb]. rewrite app_nil_r.
    destruct i as [|x i]; [done|]. cbn [rev]. by destruct (rev i). }
  rewrite Hh in H2. destruct (collect _ _ _ late) as [i' u']. rewrite H2. clear H2.
  destruct Hp2 as [_ Ho _].
  cbn [wait_loop must_wait add_lines chan set_response p_response finalResponse r2 andb].
  unfold finish_wait. cbn [add_lines chan set_response p_response].
  cbn [readerClosed set_response set_chan chan st1 add_lines] in Ho |- *. rewrite Ho. cbn [Z.ltb Z.compare].
  unfold reverseIntermediates. cbn [success finalResponse p_intermediates r2 at_response_new].
  rewrite reverse_loop_rev, !app_nil_r, rev_app_distr, !rev_involutive. f_equal.
  unfold set_chan, st1, add_lines. cbn [unsol chan wr tx props]. by rewrite <-app_assoc.
Qed.

(** An idle, open channel with a handler that the calling thread may use. *)
Record idle (env : RilEnv) (st : AtState) : Prop := {
  idle_resp : p_response (chan st) = None;
  idle_open : readerClosed (chan st) = 0;
  idle_fd : 0 <= fd (chan st);
  idle_handler : unsolHandler (chan st) = true;
  idle_proxy : tid_myProxy (chan st) = 0;
  idle_thread : tid_reader (chan st) <> self env;
  idle_wr : wr_ok (wr st);
  idle_mode : isNumericSet env = false;
  idle_on : s_md_off env = false
}.

(** The channel between commands. *)
Definition idle_channel (ty : ATCommandType) (c : RILChannelCtx) : RILChannelCtx :=
  mkChannel (id c) (tid_reader c) 0 (fd c) (unsolHandler c) ty None None None (readerClosed c).

(** Sending the command and starting to wait. *)
Lemma send_full_started env command ty prefix pdu want evs st :
  idle env st ->
  exists w, wr_ok w /\
  at_send_command_full env command ty prefix pdu want evs st
  = match wait_loop false (SIM_COUNT env) (negb (getATCommandTimeout env command =? 0)) want evs
            (mkAt (start_command ty prefix pdu (set_proxy (self env) (chan st))) w
               (tx st ++ command ++ [CR]) (unsol st) (props st)) with
    | CmdCrash => FCrash
    | CmdWaiting st => FWaiting st
    | CmdReturn err out st =>
        if (isInternalLoad env || negb (isUserLoad env)) && (err =? AT_ERROR_TIMEOUT) then FExit
        else
          let st := if err =? AT_ERROR_TIMEOUT then report_timeout env st else st in
          FReturn err out (set_chan (set_proxy 0) st)
    end.
Proof.
  intros [Hr Ho Hf Hh Hp Ht Hw Hm Hon].
  destruct (write_with_ok CR command (set_chan (set_proxy (self env)) st)) as (w & Hwok & Hwr); try done.
  exists w. split; [done|]. unfold at_send_command_full, at_send_command_full_nolock.
  rewrite Hon. cbn [andb]. case_if; [done|]. rewrite Hp. cbn [negb Z.eqb].
  cbn [set_chan chan set_proxy p_response]. rewrite Hr. unfold writeline. rewrite Hwr.
  cbn [Z.ltb Z.compare]. unfold must_wait.
  cbn [set_chan chan start_command p_response at_response_new finalResponse readerClosed set_proxy].
  rewrite Ho, Hm. done.
Qed.

(** A command from start to end; [pdu] only matters when the prompt arrives. *)
Lemma command_response env command ty prefix pdu body late final ok st :
  idle env st ->
  Forall (body_event (SIM_COUNT env) (chan st)) (body ++ late) -> (WaitWake ∉ late) ->
  final_code (SIM_COUNT env) (chan st) final = Some ok -> not_taken ty prefix final ->
  let '(i, u) := collect ty prefix false (body ++ late) in
  exists w, at_send_command_full env command ty prefix pdu true
              (body ++ WaitLine final :: late ++ [WaitWake]) st
    = FReturn 0 (Some (mkResponse ok (Some final) i))
        (mkAt (idle_channel ty (chan st)) w (tx st ++ command ++ [CR]) (unsol st ++ u) (props st)).
Proof.
  intros Hid Hev Hw Hc Hn.
  destruct (send_full_started env command ty prefix pdu true
    (body ++ WaitLine final :: late ++ [WaitWake]) st Hid) as (w & Hwok & Hsend).
  set (st1 := mkAt (start_command ty prefix pdu (set_proxy (self env) (chan st))) w
    (tx st ++ command ++ [CR]) (unsol st) (props st)) in *.
  assert (Hp : pending st1 at_response_new) by (destruct Hid; by split).
  pose proof (wait_response (SIM_COUNT env) (negb (getATCommandTimeout env command =? 0)) st1 body final ok
    late Hp Hev Hw Hc Hn) as H.
  change (type (chan st1)) with ty in H. change (responsePrefix (chan st1)) with prefix in H.
  destruct (collect ty prefix false (body ++ late)) as [i u]. exists w. rewrite Hsend, H.
  rewrite andb_false_r. done.
Qed.

Lemma wait_line numeric sims timed want line evs st :
  wait_loop numeric sims timed want (WaitLine line :: evs) st
  = wait_loop numeric sims timed want evs (processLine numeric sims line st).
Proof. done. Qed.

(** The prompt: the text and ^Z are written, nothing else changes. *)
Lemma prompt_sends sims pdu st r :
  pending st r -> smsPDU (chan st) = Some pdu -> type (chan st) = SINGLELINE ->
  strStartsWith PROMPT (default [] (responsePrefix (chan st))) = false ->
  0 <= fd (chan st) -> wr_ok (wr st) ->
  exists w, wr_ok w /\
    processLine false sims PROMPT st
    = mkAt (chan st) w (tx st ++ pdu ++ [CTRL_Z]) (unsol st) (props st).
Proof.
  intros [Hr Ho Hh] Hs Ht Hpre Hfd Hw.
  destruct (write_with_ok CTRL_Z pdu st Hfd Ho Hw) as (w & Hwok & Hwr). exists w. split; [done|].
  unfold processLine. rewrite Hr. unfold is_intermediate. rewrite Ht, Hpre.
  assert ((match p_intermediates r with [] => false | _ :: _ => false end) = false) as ->
    by (by destruct (p_intermediates r)).
  assert (isFinalResponseErrorEx sims PROMPT (chan st) = false) as ->.
  { unfold isFinalResponseErrorEx. by destruct (existsb _ (seq 0 sims)). }
  change (isFinalResponseSuccess PROMPT) with false.
  unfold sms_prompt. rewrite Hs, bool_decide_true by done. change (default [] (Some pdu)) with pdu.
  unfold writeCtrlZ. by rewrite Hwr.
Qed.

(** ** The reader's lines as events *)

Lemma reader_events_lines n b rx ls b' rx' :
  read_lines n b rx = Some (ls, b', rx') -> Forall (fun l => isSMSUnsolicited l = false) ls ->
  reader_events n b rx = (map WaitLine ls, b', rx').
Proof.
  revert b rx ls. induction n as [|n IH]; intros b rx ls H Hs; [by injection H as <- <- <-|].
  cbn [read_lines reader_events] in *. destruct (readline b rx) as [line b1 rx1| | |]; try done.
  destruct (read_lines n b1 rx1) as [[[ls' b2] rx2]|] eqn:E; [|done].
  cbn in H. injection H as <- <- <-. apply Forall_cons in Hs as [Hl Hs]. rewrite Hl.
  by rewrite (IH _ _ _ E Hs).
Qed.

(** The events are what the reader thread does to the state. *)
Lemma reader_loop_events n env st b rx :
  match readerLoop n env st b rx with
  | RRunning st' b' rx' =>
      let '(evs, b2, rx2) := reader_events n b rx in
      st' = fold_left (fun s e => other_event (isNumericSet env) (SIM_COUNT env) e s) evs st /\
      b' = b2 /\ rx' = rx2
  | _ => True
  end.
Proof.
  revert st b rx. induction n as [|n IH]; intros st b rx; [done|].
  cbn [readerLoop reader_events]. destruct (readline b rx) as [line b1 rx1| | |]; try done.
  destruct (isSMSUnsolicited line).
  - destruct (readline b1 rx1) as [line2 b2 rx2| | |]; try done.
    specialize (IH (handleUnsolicited line (Some line2) st) b2 rx2).
    destruct (readerLoop n env _ b2 rx2); try done.
    by destruct (reader_events n b2 rx2) as [[evs ?] ?].
  - specialize (IH (processLine (isNumericSet env) (SIM_COUNT env) line st) b1 rx1).
    destruct (readerLoop n env _ b1 rx1); try done.
    by destruct (reader_events n b1 rx1) as [[evs ?] ?].
Qed.

(** * Theorems *)

(** C4: A command and its response.  On an idle channel the modem gets exactly the command
    and a carriage return, however the writes are cut; then, for every interleaving of
    lines, two-line messages and spurious wake-ups before the final response and of lines
    between it and the moment the caller runs, the caller gets error 0, the final
    response with its meaning, and as intermediate lines exactly those its command type
    and prefix take, in the order received; all other lines went to the handler, in
    order, and the channel is idle again. *)
Theorem command_collects_response (env : RilEnv) (command : list Z) (ty : ATCommandType)
    (prefix : option (list Z)) (body late : list wait_event) (final : list Z) (ok : Z) (st : AtState) :
  idle env st ->
  Forall (body_event (SIM_COUNT env) (chan st)) (body ++ late) -> (WaitWake ∉ late) ->
  final_code (SIM_COUNT env) (chan st) final = Some ok -> not_taken ty prefix final ->
  let '(i, u) := collect ty prefix false (body ++ late) in
  exists w, at_send_command_full env command ty prefix None true
              (body ++ WaitLine final :: late ++ [WaitWake]) st
    = FReturn 0 (Some (mkResponse ok (Some final) i))
        (mkAt (idle_channel ty (chan st)) w (tx st ++ command ++ [CR]) (unsol st ++ u) (props st)).
Proof. apply command_response. Qed.

Definition example_env : RilEnv := mkEnv false 7 false 2 0 false true false 1 false.

Definition example_channel : RILChannelCtx :=
  mkChannel RIL_CMD_1 3 0 11 true NO_RESULT None None None 0.

Definition example_state : AtState := mkAt example_channel [WrSome 2; WrEintr; WrSome 0] [] [] [].

Definition example_body : list wait_event :=
  [WaitLine (bytes_of "+COPN: 1"); WaitWake; WaitLine (bytes_of "RING");
   WaitSms (bytes_of "+CMT: 1") (bytes_of "0791"); WaitLine (bytes_of "+COPN: 2")].

Lemma command_collects_response_witness :
  let '(i, u) := collect MULTILINE (Some (bytes_of "+COPN:")) false
                   (example_body ++ [WaitLine (bytes_of "+CIEV: 3")]) in
  exists w, at_send_command_full example_env (bytes_of "AT+COPN") MULTILINE (Some (bytes_of "+COPN:"))
              None true
              (example_body ++ WaitLine (bytes_of "OK") :: [WaitLine (bytes_of "+CIEV: 3")] ++ [WaitWake])
              example_state
    = FReturn 0 (Some (mkResponse 1 (Some (bytes_of "OK")) i))
        (mkAt (idle_channel MULTILINE example_channel) w ([] ++ bytes_of "AT+COPN" ++ [CR]) ([] ++ u) []).
Proof.
  apply (command_collects_response example_env (bytes_of "AT+COPN") MULTILINE (Some (bytes_of "+COPN:"))
           example_body [WaitLine (bytes_of "+CIEV: 3")] (bytes_of "OK") 1 example_state).
  - split; try done. repeat constructor; done.
  - repeat constructor.
  - intros H. apply list_elem_of_singleton in H. discriminate.
  - reflexivity.
  - reflexivity.
Defined.

(** Sending a short message.  When the modem answers the command with the prompt, the
    text and ^Z follow the command exactly once, and the caller then gets the response
    with the line of its prefix. *)
Theorem sms_sent_after_prompt (env : RilEnv) (command pdu prefix line : list Z)
    (late : list wait_event) (final : list Z) (st : AtState) :
  idle env st ->
  strStartsWith PROMPT prefix = false -> strStartsWith line prefix = true ->
  Forall (body_event (SIM_COUNT env) (chan st)) (WaitLine line :: late) -> (WaitWake ∉ late) ->
  final_code (SIM_COUNT env) (chan st) final = Some 1 -> strStartsWith final prefix = false ->
  exists w u, at_send_command_sms env command pdu prefix true
              (WaitLine PROMPT :: WaitLine line :: WaitLine final :: late ++ [WaitWake]) st
    = FReturn 0 (Some (mkResponse 1 (Some final) [line]))
        (mkAt (idle_channel SINGLELINE (chan st)) w
           (tx st ++ command ++ [CR] ++ pdu ++ [CTRL_Z]) (unsol st ++ u) (props st)).
Proof.
  intros Hid Hpp Hline Hev Hw Hc Hn.
  destruct (send_full_started env command SINGLELINE (Some prefix) (Some pdu) true
    (WaitLine PROMPT :: WaitLine line :: WaitLine final :: late ++ [WaitWake]) st Hid) as (w & Hwok & Hsend).
  set (st1 := mkAt _ w (tx st ++ command ++ [CR]) (unsol st) (props st)) in *.
  assert (Hp : pending st1 at_response_new) by (destruct Hid; by split).
  destruct (prompt_sends (SIM_COUNT env) pdu st1 at_response_new) as (w2 & Hw2 & Hpr); try done.
  { by destruct Hid. }
  set (st2 := mkAt (chan st1) w2 _ _ _) in Hpr.
  assert (Hp2 : pending st2 at_response_new) by (destruct Hid; by split).
  pose proof (wait_response (SIM_COUNT env) (negb (getATCommandTimeout env command =? 0)) st2
    [WaitLine line] final 1 late Hp2 Hev Hw Hc Hn) as H.
  change (type (chan st2)) with SINGLELINE in H. change (responsePrefix (chan st2)) with (Some prefix) in H.
  cbn [app collect takes negb andb] in H.
  change (default [] (Some prefix)) with prefix in H. rewrite Hline in H.
  assert (Hc2 : forall evs, exists u, collect SINGLELINE (Some prefix) true evs = ([], u)).
  { clear. induction evs as [|e evs [u IH]]; [by exists []|].
    destruct e; cbn [collect takes negb andb]; rewrite ?IH; by eexists. }
  destruct (Hc2 late) as [u Hu]. rewrite Hu in H. exists w2, u.
  unfold at_send_command_sms, require_intermediate. rewrite Hsend, wait_line.
  rewrite Hpr, H, andb_false_r. cbn [success p_intermediates Z.eqb Z.ltb Z.compare andb].
  rewrite bool_decide_false by done. unfold st2. cbn [tx unsol props chan wr st1]. by rewrite <-!app_assoc.
Qed.

Lemma sms_sent_after_prompt_witness :
  exists w u, at_send_command_sms example_env (bytes_of "AT+CMGS=19") (bytes_of "0011") (bytes_of "+CMGS:") true
              (WaitLine PROMPT :: WaitLine (bytes_of "+CMGS: 5") :: WaitLine (bytes_of "OK")
               :: [WaitLine (bytes_of "RING")] ++ [WaitWake]) example_state
    = FReturn 0 (Some (mkResponse 1 (Some (bytes_of "OK")) [bytes_of "+CMGS: 5"]))
        (mkAt (idle_channel SINGLELINE example_channel) w
           ([] ++ bytes_of "AT+CMGS=19" ++ [CR] ++ bytes_of "0011" ++ [CTRL_Z]) ([] ++ u) []).
Proof.
  apply (sms_sent_after_prompt example_env (bytes_of "AT+CMGS=19") (bytes_of "0011") (bytes_of "+CMGS:")
           (bytes_of "+CMGS: 5") [WaitLine (bytes_of "RING")] (bytes_of "OK") example_state).
  - split; try done. repeat constructor; done.
  - reflexivity.
  - reflexivity.
  - repeat constructor.
  - intros H. apply list_elem_of_singleton in H. discriminate.
  - reflexivity.
  - reflexivity.
Defined.

(** A second prompt sends the text again: the channel never forgets it. *)
Lemma sms_sent_twice :
  match at_send_command_sms example_env (bytes_of "AT+CMGS=19") (bytes_of "00") (bytes_of "+CMGS:") true
          [WaitLine PROMPT; WaitLine PROMPT; WaitLine (bytes_of "+CMGS: 5"); WaitLine (bytes_of "OK"); WaitWake]
          example_state with
  | FReturn _ _ st => tx st
  | _ => []
  end = bytes_of "AT+CMGS=19" ++ [CR] ++ bytes_of "00" ++ [CTRL_Z] ++ bytes_of "00" ++ [CTRL_Z].
Proof. reflexivity. Qed.

(** ** The shape of a response *)

(** What a command of a type can have collected. *)
Definition shape (ty : ATCommandType) (prefix : option (list Z)) (ls : list (list Z)) : Prop :=
  match ty with
  | NO_RESULT => ls = []
  | NUMERIC => (length ls <= 1)%nat /\ Forall (fun l => exists d t, l = d :: t /\ isdigit d = true) ls
  | SINGLELINE => (length ls <= 1)%nat /\ Forall (fun l => strStartsWith l (default [] prefix) = true) ls
  | MULTILINE => Forall (fun l => strStartsWith l (default [] prefix) = true) ls
  | RAW => True
  end.

Definition response_ok (c : RILChannelCtx) : Prop :=
  match p_response c with
  | None => True
  | Some r => shape (type c) (responsePrefix c) (p_intermediates r) /\
      (success r = 0 \/ success r = 1) /\ (finalResponse r = None -> success r = 0)
  end.

Lemma shape_add numeric sims line c r :
  is_intermediate numeric sims line c r = true ->
  shape (type c) (responsePrefix c) (p_intermediates r) ->
  shape (type c) (responsePrefix c) (line :: p_intermediates r).
Proof.
  unfold is_intermediate, shape. intros H Hs. destruct (type c); [done| | | |done].
  - destruct (p_intermediates r) as [|l ls]; [|done]. destruct line as [|d t]; [done|].
    split; [cbn; lia|]. constructor; [by exists d, t|constructor].
  - destruct (p_intermediates r) as [|l ls]; [|done]. split; [cbn; lia|]. by constructor.
  - by constructor.
Qed.

(** [processLine] changes nothing of the channel but the response. *)
Lemma processLine_chan numeric sims line st :
  exists r, chan (processLine numeric sims line st) = set_response r (chan st) /\
    (response_ok (chan st) -> response_ok (set_response r (chan st))).
Proof.
  assert (Hsame : set_response (p_response (chan st)) (chan st) = chan st) by (by destruct (chan st)).
  assert (Hu : forall l o, chan (handleUnsolicited l o st) = chan st)
    by (intros; unfold handleUnsolicited; by destruct (unsolHandler (chan st))).
  assert (Hw : forall c l, chan (write_with c l st).2 = chan st).
  { intros c l. unfold write_with. destruct (_ || _); [done|].
    destruct (write_main (wr st) l) as [[[] sent] w]; cbn [negb]; [|done].
    by destruct (write_end w c) as [[[] sent'] w']. }
  unfold processLine. destruct (p_response (chan st)) as [r|] eqn:Er.
  2:{ exists None. by rewrite Hu, Hsame. }
  assert (Hfin : forall ok, (ok = 0 \/ ok = 1) ->
    response_ok (chan st) -> response_ok (set_response (Some (handleFinalResponse line ok r)) (chan st))).
  { intros ok Hok. unfold response_ok. rewrite Er. cbn. intros (H1 & _ & _). done. }
  destruct (is_intermediate numeric sims line (chan st) r) eqn:Ei.
  { exists (Some (addIntermediate line r)). split; [done|]. unfold response_ok. rewrite Er. cbn.
    intros (H1 & H2 & H3). split; [|done]. by eapply shape_add. }
  destruct (isFinalResponseSuccess line); [eexists; split; [done|apply Hfin; auto]|].
  destruct (isFinalResponseErrorEx sims line (chan st)); [eexists; split; [done|apply Hfin; auto]|].
  destruct (sms_prompt line (chan st)); [exists (Some r); unfold writeCtrlZ; by rewrite Hw, Hsame|].
  destruct (isIntermediatePattern line); [eexists; split; [done|apply Hfin; auto]|].
  destruct numeric; [|exists (Some r); by rewrite Hu, Hsame].
  destruct (isFinalResponseSuccessInNumeric line); [eexists; split; [done|apply Hfin; auto]|].
  destruct (isFinalResponseErrorInNumeric line); [eexists; split; [done|apply Hfin; auto]|].
  exists (Some r). by rewrite Hsame.
Qed.

(** One event keeps the shape. *)
Lemma other_event_ok numeric sims e st :
  response_ok (chan st) -> response_ok (chan (other_event numeric sims e st)).
Proof.
  intros H. destruct e as [line|l1 l2| | | |]; cbn [other_event]; try done.
  - destruct (processLine_chan numeric sims line st) as (r & -> & Hr). by apply Hr.
  - unfold handleUnsolicited. by destruct (unsolHandler (chan st)).
Qed.

(** While a command is pending, no sequence of events - any lines in any mode,
    messages, closing, another thread's command - can make its response malformed: a
    NO_RESULT command has no intermediate line, a NUMERIC or SINGLELINE command at most
    one, every line taken fits the type and prefix, and the success flag is 0 or 1 and
    set only together with a final response. *)
Theorem response_shape_kept (numeric : bool) (sims : nat) (evs : list wait_event) (st : AtState) :
  response_ok (chan st) ->
  response_ok (chan (fold_left (fun s e => other_event numeric sims e s) evs st)).
Proof.
  revert st. induction evs as [|e evs IH]; intros st H; [done|]. cbn [fold_left]. apply IH.
  by apply other_event_ok.
Qed.

Lemma response_shape_kept_witness :
  response_ok (chan (fold_left (fun s e => other_event false 2 e s)
    [WaitLine (bytes_of "+CSQ: 9"); WaitLine (bytes_of "+CSQ: 8"); WaitLine (bytes_of "OK"); WaitClosed]
    (set_chan (start_command SINGLELINE (Some (bytes_of "+CSQ:")) None) example_state))).
Proof.
  apply (response_shape_kept false 2
    [WaitLine (bytes_of "+CSQ: 9"); WaitLine (bytes_of "+CSQ: 8"); WaitLine (bytes_of "OK"); WaitClosed]
    (set_chan (start_command SINGLELINE (Some (bytes_of "+CSQ:")) None) example_state)).
  repeat split; try constructor; auto.
Defined.

(** ** Errors *)

(** A second command on a channel with a pending one is refused without sending
    anything, but it also throws away the pending command's response, and the thread that
    waits for it dereferences NULL when it runs next. *)
Theorem second_command_kills_first (numeric : bool) (sims : nat) (command : list Z)
    (ty : ATCommandType) (prefix pdu : option (list Z)) (timeout : Z) (want timed : bool)
    (evs evs' : list wait_event) (st : AtState) (r : ATResponse) :
  p_response (chan st) = Some r ->
  at_send_command_full_nolock numeric sims command ty prefix pdu timeout want evs st
  = CmdReturn AT_ERROR_COMMAND_PENDING None (other_event numeric sims WaitOther st) /\
  tx (other_event numeric sims WaitOther st) = tx st /\
  wait_loop numeric sims timed want (WaitOther :: WaitWake :: evs') st = CmdCrash.
Proof.
  intros Hr. unfold at_send_command_full_nolock. by rewrite Hr.
Qed.

Lemma second_command_kills_first_witness :
  let st := set_chan (start_command NO_RESULT None None) example_state in
  at_send_command_full_nolock false 2 (bytes_of "AT") NO_RESULT None None 0 false [] st
  = CmdReturn AT_ERROR_COMMAND_PENDING None (other_event false 2 WaitOther st) /\
  tx (other_event false 2 WaitOther st) = tx st /\
  wait_loop false 2 false false (WaitOther :: WaitWake :: []) st = CmdCrash.
Proof.
  apply (second_command_kills_first false 2 (bytes_of "AT") NO_RESULT None None 0 false false [] []
    (set_chan (start_command NO_RESULT None None) example_state) at_response_new). reflexivity.
Defined.

(** Lines and messages handled by the reader. *)
Definition reader_event (e : wait_event) : Prop :=
  match e with WaitLine _ | WaitSms _ _ => True | _ => False end.

Lemma wait_until_timeout numeric sims want evs rest st :
  Forall reader_event evs ->
  wait_loop numeric sims true want (evs ++ WaitTimeout :: rest) st
  = finish_error AT_ERROR_TIMEOUT (fold_left (fun s e => other_event numeric sims e s) evs st).
Proof.
  intros H. revert st. induction H as [|e evs He _ IH]; intros st; [done|].
  destruct e; try done; cbn [app wait_loop fold_left other_event]; apply IH.
Qed.


Definition timeout_env : RilEnv := mkEnv false 7 false 2 0 false true true 2 false.


(** ** Channels *)

(** Every subsystem of every SIM has a channel inside [s_RILChannel] that belongs to
    that SIM and, for a SIM the build supports, passes the check of [getChannelCtxbyId].  A
    proxy thread gets its own channel or the default one of the SIM it asks for, so always
    one of that SIM - except for the first channel of the next SIM, which the bounds test
    for the second and third SIM lets through. *)
Theorem channel_map_consistent (sims : nat) (sub : RILSubSystemId) (rid proxyId : Z) :
  (1 <= sims <= 4)%nat -> 0 <= rid < Z.of_nat sims ->
  let ch := getRILChannelCtx sub rid in
  0 <= ch < RIL_SUPPORT_CHANNELS /\ getRILIdByChannelCtx ch = rid /\
  getChannelCtxbyId sims ch = Some ch /\ getRILIdByChannelCtx (getDefaultChannelCtx rid) = rid /\
  match getChannelCtxbyProxy sims proxyId rid with
  | None => getSupportChannels sims <= proxyId
  | Some k => getRILIdByChannelCtx k = rid \/
      k = proxyId /\ getRILIdByChannelCtx k = rid + 1 /\
      ((rid = 1 /\ proxyId = RIL_CHANNEL_SET3_OFFSET) \/ (rid = 2 /\ proxyId = RIL_CHANNEL_SET4_OFFSET))
  end.
Proof.
  intros Hs Hr ch.
  assert (Hsims : sims = 1%nat \/ sims = 2%nat \/ sims = 3%nat \/ sims = 4%nat) by lia.
  assert (Hrid : rid = 0 \/ rid = 1 \/ rid = 2 \/ rid = 3) by lia.
  assert (Hsup : getSupportChannels sims = Z.of_nat sims * 6)
    by (by destruct Hsims as [-> | [-> | [-> | ->]]]).
  assert (Hch : exists k, ch = rid * 6 + k /\ 0 <= k < 5).
  { unfold ch, getRILChannelCtx, RIL_CHANNEL_OFFSET, RIL_CMD_1, RIL_CMD_2, RIL_CMD_3, RIL_CMD_4, RIL_URC.
    destruct sub; eexists; (split; [done|lia]). }
  destruct Hch as (k & -> & Hk).
  unfold getChannelCtxbyId, getChannelCtxbyProxy, getRILIdByChannelCtx, getDefaultChannelCtx.
  rewrite Hsup. unfold RIL_SUPPORT_CHANNELS, RIL_CHANNEL_OFFSET, RIL_CHANNEL_SET3_OFFSET, RIL_CHANNEL_SET4_OFFSET, RIL_URC.
  split; [lia|]. split.
  { repeat case_if; lia. }
  split; [case_if; [done|lia]|]. split.
  { destruct Hrid as [-> | [-> | [-> | ->]]]; done. }
  destruct (proxyId <? Z.of_nat sims * 6) eqn:Ep; reflect_bools; cbn [negb]; [|done].
  destruct Hrid as [-> | [-> | [-> | ->]]]; cbn [Z.eqb Pos.eqb andb];
    repeat case_match; reflect_bools; try (left; done || lia);
    repeat match goal with H : (_ || _) = true |- _ => apply orb_true_iff in H as [H | H]; reflect_bools end;
    try lia; try (right; split; [done|]; split; [done|]; lia).
Qed.

Lemma channel_map_consistent_witness :
  let ch := getRILChannelCtx RIL_SIM 1 in
  0 <= ch < RIL_SUPPORT_CHANNELS /\ getRILIdByChannelCtx ch = 1 /\
  getChannelCtxbyId 2 ch = Some ch /\ getRILIdByChannelCtx (getDefaultChannelCtx 1) = 1 /\
  match getChannelCtxbyProxy 2 3 1 with
  | None => getSupportChannels 2 <= 3
  | Some k => getRILIdByChannelCtx k = 1 \/
      k = 3 /\ getRILIdByChannelCtx k = 1 + 1 /\
      ((1 = 1 /\ 3 = RIL_CHANNEL_SET3_OFFSET) \/ (1 = 2 /\ 3 = RIL_CHANNEL_SET4_OFFSET))
  end.
Proof. apply (channel_map_consistent 2 RIL_SIM 1 3); lia. Defined.

(** ** From the bytes of the modem to the fields of a response *)

(** A line that neither ends a command nor starts a two-line message. *)
Definition quiet (sims : nat) (c : RILChannelCtx) (line : list Z) : Prop :=
  ordinary sims c line /\ isSMSUnsolicited line = false.

#[global] Instance quiet_dec sims c line : Decision (quiet sims c line).
Proof. unfold quiet. apply _. Defined.

Lemma prefix_ok_line name : strStartsWith (bytes_of "OK") (name ++ [COLON]) = false.
Proof.
  destruct name as [|a [|b [|c name]]]; [done| | |]; cbn; repeat case_match; done.
Qed.

(** Lines without the prefix all go to the handler; the one with it is the result. *)
Lemma collect_one prefix pre resp :
  Forall (fun l => strStartsWith l prefix = false) pre -> strStartsWith resp prefix = true ->
  collect SINGLELINE (Some prefix) false (map WaitLine (pre ++ [resp]))
  = ([resp], map (fun l => (l, None)) pre).
Proof.
  intros Hp Hr. induction Hp as [|l pre Hl _ IH]; cbn; [by rewrite Hr|]. by rewrite Hl, IH.
Qed.

(** The modem's answer to a command on an idle channel: any other lines, the response
    [name: fields], the final response, and the beginning of whatever comes next. *)
Record answer (env : RilEnv) (st : AtState) (name : list Z) (fs : list field)
    (pre : list wire_line) (resp fin : wire_line) (sep part : list Z) : Prop := {
  ans_idle : idle env st;
  ans_wire : Forall wire_ok (pre ++ [resp; fin]);
  ans_tail : tail_ok sep part;
  ans_pre : Forall (fun w => quiet (SIM_COUNT env) (chan st) (w_text w) /\
                             strStartsWith (w_text w) (name ++ [COLON]) = false) pre;
  ans_resp : quiet (SIM_COUNT env) (chan st) (w_text resp);
  ans_name : COLON ∉ name;
  ans_fields : Forall field_ok fs;
  ans_some : fs <> [];
  ans_text : w_text resp = name ++ COLON :: 32 :: print_fields fs;
  ans_ok : w_text fin = bytes_of "OK"
}.

(** Whatever lines the modem sends before the response, and however [read] cuts the bytes,
    the reader thread's lines make [at_send_command_singleline] return success with exactly
    the response line, give every other line to the handler of unsolicited lines in order,
    and leave the channel idle; the tokenizer then finds exactly the fields. *)
Lemma modem_stream_to_fields env command name fs pre resp fin sep part rx st :
  answer env st name fs pre resp fin sep part -> rx_ok rx ->
  rx_data rx = stream (pre ++ [resp; fin]) sep part ->
  let '(evs, _, _) := reader_events (length (pre ++ [resp; fin])) init_buf rx in
  exists w p0 p,
    at_send_command_singleline env command (name ++ [COLON]) true (evs ++ [WaitWake]) st
    = FReturn 0 (Some (mkResponse 1 (Some (bytes_of "OK")) [w_text resp]))
        (mkAt (idle_channel SINGLELINE (chan st)) w (tx st ++ command ++ [CR])
           (unsol st ++ map (fun l => (w_text l, None)) pre) (props st)) /\
    at_tok_start (Some (w_text resp)) = (0, p0) /\ read_fields fs p0 = Some (fs, p) /\
    at_tok_hasmore p = false.
Proof.
  intros [Hid Hws Htail Hpre Hresp Hname Hfs Hne Hr Hf] Hrx Hdata.
  set (sims := SIM_COUNT env) in *. set (c := chan st) in *. set (ws := pre ++ [resp; fin]) in *.
  destruct (read_lines_stream ws sep part init_buf [] rx) as (b' & rx' & _ & Hl & _); try done.
  { apply init_rep. }
  assert (Hq : Forall (quiet sims c) (map w_text pre ++ [w_text resp])).
  { apply Forall_app. split; [|by constructor].
    apply Forall_map. eapply Forall_impl; [exact Hpre|]. by intros w [? _]. }
  assert (Hm : map w_text ws = (map w_text pre ++ [w_text resp]) ++ [w_text fin])
    by (unfold ws; by rewrite map_app, <-app_assoc).
  rewrite (reader_events_lines _ _ _ _ _ _ Hl), Hm.
  2: { rewrite Hm, Forall_app. split; [|by rewrite Hf; repeat constructor].
       eapply Forall_impl; [exact Hq|]. by intros l [_ ?]. }
  pose proof (command_response env command SINGLELINE (Some (name ++ [COLON])) None
    (map WaitLine (map w_text pre ++ [w_text resp])) [] (w_text fin) 1 st Hid) as H.
  rewrite app_nil_r, collect_one in H.
  2: { apply Forall_map. eapply Forall_impl; [exact Hpre|]. by intros w [_ ?]. }
  2: { rewrite Hr. change (COLON :: 32 :: print_fields fs) with ([COLON] ++ 32 :: print_fields fs).
       rewrite app_assoc. apply strStartsWith_app. }
  destruct H as [w Hw].
  { apply Forall_map. eapply Forall_impl; [exact Hq|]. by intros l [? _]. }
  { apply not_elem_of_nil. }
  { by rewrite Hf. }
  { rewrite Hf. cbn. apply prefix_ok_line. }
  destruct (tokenize_line name fs) as (p0 & p & Hs & Hp); try done.
  exists w, p0, p. rewrite map_app, <-app_assoc. cbn [map app].
  unfold at_send_command_singleline. cbn [app] in Hw. rewrite Hw. rewrite Hf, map_map.
  split; [done|]. by rewrite Hr.
Qed.

Definition stream_lines : list wire_line :=
  [WireLine [CR; LF] (bytes_of "+CIEV: 4,1") CR].

Definition csq_fields : list field := [FInt 23; FInt 99].

Definition csq_line : wire_line :=
  WireLine [LF; CR; LF] (bytes_of "+CSQ" ++ COLON :: 32 :: print_fields csq_fields) CR.

Definition ok_line : wire_line := WireLine [LF; CR; LF] (bytes_of "OK") CR.

Definition stream_rx : list rx_event :=
  let s := stream (stream_lines ++ [csq_line; ok_line]) [LF] [] in
  [RxData (ztake 5 s); RxEintr; RxData (zdrop 5 s)].

Lemma csq_answer :
  answer example_env example_state (bytes_of "+CSQ") csq_fields stream_lines csq_line ok_line [LF] [].
Proof.
  split.
  - split; try done. repeat constructor; done.
  - repeat constructor; vm_compute; done.
  - repeat constructor; vm_compute; done.
  - decide_closed.
  - decide_closed.
  - decide_closed.
  - repeat constructor; try decide_closed; done.
  - done.
  - reflexivity.
  - reflexivity.
Qed.
