(* ===== verification/Request.v ===== *)
(** What the request handlers of the RIL daemon (src/mtk/ril/mtk-ril/ril_sms.c, ril_cc.c)
    run on: objects of type [ATResponse] on the heap, AT commands and their answers, the
    calls back into the framework.

    A handler is a computation on a [World]: the live responses by address, everything it
    did ([acts]) and the module's variables.  Dereferencing NULL or an object that was
    freed, and freeing an object twice, is [Undefined]; a command that is never answered
    (the daemon ends or still waits) makes the handler [Stopped].

    The answers come from an interface, the class [Modem]: what the AT layer promises to the
    handlers.  The instance [channel_modem] discharges it with the channels of AtChannel. *)
From S2P Require Import Prelude CString AtTok AtLine AtChannel.

(** * Answers of the AT layer *)

(** What a command does with [*pp_outResponse]. *)
Inductive out_write :=
| Kept                           (* not written *)
| SetNull
| SetNew (r : ATResponse).       (* a new response *)

Record reply := mkReply { rp_err : Z; rp_out : out_write }.

(** Whether a command asks for no, one or any number of intermediate lines, with what prefix:
    [at_send_command], [at_send_command_singleline], [at_send_command_multiline]. *)
Inductive command_kind := NoLine | OneLine (prefix : list Z) | Lines (prefix : list Z).

Definition one_line (k : command_kind) : Prop := match k with OneLine _ => True | _ => False end.

(** A command that returns 0 has stored a response, one with an intermediate line when it
    was successful and one line was asked for.  A failed command may store an unsuccessful one. *)
Definition reply_ok (kind : command_kind) (r : reply) : Prop :=
  rp_err r <= 0 /\
  match rp_out r with
  | SetNew resp =>
      0 <= success resp /\
      (rp_err r = 0 -> one_line kind -> 0 < success resp -> p_intermediates resp <> [])
  | _ => rp_err r < 0
  end.

Definition RIL_E_SUCCESS : Z := 0.
Definition RIL_E_GENERIC_FAILURE : Z := 2.

(** * Worlds *)

(** What is visible of a handler: commands, completed requests, messages to the framework and
    callbacks put on a timer. *)
Inductive act (D : Type) :=
| Cmd (command : list Z) (kind : command_kind)
| Complete (t e : Z) (data : D)
| Unsol (id : Z) (data : D) (rid : Z)
| Timer (name : string) (rid : Z).
Arguments Cmd {D}.
Arguments Complete {D}.
Arguments Unsol {D}.
Arguments Timer {D}.

Record World (D G : Type) := mkWorld {
  live : gmap Z ATResponse;
  fresh : Z;
  acts : list (act D);
  glob : G
}.
Arguments mkWorld {D G}.
Arguments live {D G}.
Arguments fresh {D G}.
Arguments acts {D G}.
Arguments glob {D G}.

Inductive outcome (D G A : Type) :=
| Done (a : A) (w : World D G)
| Stopped
| Undefined.
Arguments Done {D G A}.
Arguments Stopped {D G A}.
Arguments Undefined {D G A}.

Definition M (D G A : Type) : Type := World D G -> outcome D G A.

Definition bind {D G A B} (m : M D G A) (k : A -> M D G B) : M D G B :=
  fun w => match m w with Done a w' => k a w' | Stopped => Stopped | Undefined => Undefined end.

Definition ret {D G A} (a : A) : M D G A := fun w => Done a w.

Declare Scope req_scope.
Delimit Scope req_scope with req.
Notation "'let*' x := m 'in' k" := (bind m (fun x => k)) (at level 10, x pattern, m at level 100, k at level 200) : req_scope.
Notation "m ;; k" := (bind m (fun _ => k)) : req_scope.
Open Scope req_scope.

(** The answer to a command depends on all that happened before.  [None]: no answer. *)
Class Modem (D : Type) := {
  answer : list (act D) -> list Z -> command_kind -> option reply;
  answer_ok : forall h command kind r, answer h command kind = Some r -> reply_ok kind r
}.

(** The modem answers every command. *)
Definition answers D {H : Modem D} : Prop := forall h command kind, answer h command kind <> None.

Section Ops.
Context {D G : Type} `{Modem D}.

Definition do_act (a : act D) : M D G unit :=
  fun w => Done tt (mkWorld (live w) (fresh w) (acts w ++ [a]) (glob w)).

Definition RIL_onRequestComplete (t e : Z) (data : D) : M D G unit := do_act (Complete t e data).

Definition RIL_onUnsolicitedResponseSocket (id : Z) (data : D) (rid : Z) : M D G unit := do_act (Unsol id data rid).

Definition get_glob : M D G G := fun w => Done (glob w) w.
Definition put_glob (g : G) : M D G unit := fun w => Done tt (mkWorld (live w) (fresh w) (acts w) g).

Definition undefined {A} : M D G A := fun _ => Undefined.

(** A value, or undefined behaviour. *)
Definition defined {A} (x : option A) : M D G A :=
  match x with Some a => ret a | None => undefined end.

(** [p_response->...]. *)
Definition deref (p : Z) : M D G ATResponse :=
  fun w => match live w !! p with Some r => Done r w | None => Undefined end.

(** A command with [&p_response], whose present value is [p]: the result and the new value. *)
Definition at_send (command : list Z) (kind : command_kind) (p : Z) : M D G (Z * Z) :=
  fun w =>
    match answer (acts w) command kind with
    | None => Stopped
    | Some r =>
        let acts' := acts w ++ [Cmd command kind] in
        match rp_out r with
        | Kept => Done (rp_err r, p) (mkWorld (live w) (fresh w) acts' (glob w))
        | SetNull => Done (rp_err r, 0) (mkWorld (live w) (fresh w) acts' (glob w))
        | SetNew resp =>
            Done (rp_err r, fresh w) (mkWorld (<[fresh w := resp]> (live w)) (fresh w + 1) acts' (glob w))
        end
    end.

(** A command with NULL for the response, which the AT layer then frees itself. *)
Definition at_send_no_out (command : list Z) (kind : command_kind) : M D G Z :=
  fun w =>
    match answer (acts w) command kind with
    | None => Stopped
    | Some r => Done (rp_err r) (mkWorld (live w) (fresh w) (acts w ++ [Cmd command kind]) (glob w))
    end.

Definition at_response_free (p : Z) : M D G unit :=
  fun w =>
    if p =? 0 then Done tt w
    else match live w !! p with
         | Some _ => Done tt (mkWorld (delete p (live w)) (fresh w) (acts w) (glob w))
         | None => Undefined
         end.

(** [err < 0 || p_response->success == 0] and the variants of this test. *)
Definition failed (err p : Z) : M D G bool :=
  if err <? 0 then ret true else let* r := deref p in ret (success r =? 0).

Definition failed_le (err p : Z) : M D G bool :=
  if err <? 0 then ret true else let* r := deref p in ret (success r <=? 0).

(** [p_response->p_intermediates->line]. *)
Definition first_line (p : Z) : M D G (list Z) :=
  let* r := deref p in
  match p_intermediates r with
  | line :: _ => ret line
  | [] => undefined
  end.

(** * Reasoning *)

(** Addresses: NULL is none, and new ones are new. *)
Record world_ok (w : World D G) : Prop := {
  wo_fresh : 0 < fresh w;
  wo_live : forall a r, live w !! a = Some r -> 0 < a < fresh w
}.

Definition wp {A} (m : M D G A) (Q : A -> World D G -> Prop) (w : World D G) : Prop :=
  match m w with
  | Done a w' => Q a w'
  | Stopped => ~ answers D
  | Undefined => False
  end.

Lemma wp_ret {A} (a : A) Q w : Q a w -> wp (ret a) Q w.
Proof. done. Qed.

Lemma wp_bind {A B} (m : M D G A) (k : A -> M D G B) Q w :
  wp m (fun a w' => wp (k a) Q w') w -> wp (bind m k) Q w.
Proof. unfold wp, bind. destruct (m w); done. Qed.

Lemma wp_consequence {A} (m : M D G A) Q Q' w : wp m Q w -> (forall a w', Q a w' -> Q' a w') -> wp m Q' w.
Proof. unfold wp. destruct (m w); auto. Qed.

(** ** Rules for the operations *)

Lemma wp_act a Q w :
  Q tt (mkWorld (live w) (fresh w) (acts w ++ [a]) (glob w)) -> wp (do_act a) Q w.
Proof. done. Qed.

Lemma wp_get Q w : Q (glob w) w -> wp get_glob Q w.
Proof. done. Qed.

Lemma wp_put g Q w : Q tt (mkWorld (live w) (fresh w) (acts w) g) -> wp (put_glob g) Q w.
Proof. done. Qed.

Lemma wp_deref p r Q w : live w !! p = Some r -> Q r w -> wp (deref p) Q w.
Proof. unfold wp, deref. by intros ->. Qed.

Lemma wp_send_no_out command kind Q w :
  (forall err, err <= 0 -> Q err (mkWorld (live w) (fresh w) (acts w ++ [Cmd command kind]) (glob w))) ->
  wp (at_send_no_out command kind) Q w.
Proof.
  intros HQ. unfold wp, at_send_no_out. destruct (answer (acts w) command kind) as [r|] eqn:E.
  - apply HQ. apply (answer_ok _ _ _ _ E).
  - intros Ha. by apply (Ha (acts w) command kind).
Qed.

(** A command when [p_response] is NULL: it fails and stores nothing, or it stores a
    response. *)
Lemma wp_send command kind Q w : world_ok w ->
  (forall err, err < 0 -> Q (err, 0) (mkWorld (live w) (fresh w) (acts w ++ [Cmd command kind]) (glob w))) ->
  (forall err a r, err <= 0 -> 0 <> a -> live w !! a = None -> 0 <= success r ->
    (err = 0 -> one_line kind -> 0 < success r -> p_intermediates r <> []) ->
    Q (err, a) (mkWorld (<[a := r]> (live w)) (fresh w + 1) (acts w ++ [Cmd command kind]) (glob w))) ->
  wp (at_send command kind 0) Q w.
Proof.
  intros [Hf Hl] HQ1 HQ2. unfold wp, at_send. destruct (answer (acts w) command kind) as [r|] eqn:E.
  2:{ intros Ha. by apply (Ha (acts w) command kind). }
  destruct (answer_ok _ _ _ _ E) as [Herr Hr]. destruct (rp_out r) as [| |resp]; [by apply HQ1..|].
  destruct Hr as [Hs Hi]. apply HQ2; try done; [lia|].
  destruct (live w !! fresh w) as [r'|] eqn:E'; [|done]. apply Hl in E'. lia.
Qed.

(** A command whose pointer still holds an earlier value: that value, NULL or a new response. *)
Lemma wp_send_any command kind p Q w : world_ok w ->
  (forall err q, err < 0 -> q = p \/ q = 0 ->
    Q (err, q) (mkWorld (live w) (fresh w) (acts w ++ [Cmd command kind]) (glob w))) ->
  (forall err a r w', err <= 0 -> 0 <> a -> live w !! a = None -> 0 <= success r -> world_ok w' ->
    w' = mkWorld (<[a := r]> (live w)) (fresh w + 1) (acts w ++ [Cmd command kind]) (glob w) -> Q (err, a) w') ->
  wp (at_send command kind p) Q w.
Proof.
  intros [Hf Hl] HQ1 HQ2. unfold wp, at_send. destruct (answer (acts w) command kind) as [r|] eqn:E.
  2:{ intros Ha. by apply (Ha (acts w) command kind). }
  destruct (answer_ok _ _ _ _ E) as [Herr Hr]. destruct (rp_out r) as [| |resp]; [apply HQ1; by auto..|].
  destruct Hr as [Hs Hi]. eapply HQ2; try done; [lia| |].
  - destruct (live w !! fresh w) as [r'|] eqn:E'; [|done]. apply Hl in E'. lia.
  - split; cbn; [lia|]. intros a r'. rewrite lookup_insert_Some. intros [[<- _]|[_ Ha]]; [lia|]. apply Hl in Ha. lia.
Qed.

Lemma world_ok_same w w' : world_ok w -> live w' = live w -> fresh w <= fresh w' -> world_ok w'.
Proof. intros [H1 H2] El Hf. split; [lia|]. intros a r. rewrite El. intros Ha. apply H2 in Ha. lia. Qed.

(** Every command gets a final response. *)
Definition answered : Prop := forall h command kind r, answer h command kind = Some r -> rp_err r = 0.

(** Then a command stores a response, whatever the pointer was. *)
Lemma wp_send_answered command kind p Q w : world_ok w -> answered ->
  (forall a r, 0 <> a -> live w !! a = None -> 0 <= success r ->
    (one_line kind -> 0 < success r -> p_intermediates r <> []) ->
    Q (0, a) (mkWorld (<[a := r]> (live w)) (fresh w + 1) (acts w ++ [Cmd command kind]) (glob w))) ->
  wp (at_send command kind p) Q w.
Proof.
  intros [Hf Hl] Hans HQ. unfold wp, at_send. destruct (answer (acts w) command kind) as [r|] eqn:E.
  2:{ intros Ha. by apply (Ha (acts w) command kind). }
  pose proof (Hans _ _ _ _ E) as He. destruct (answer_ok _ _ _ _ E) as [_ Hr]. rewrite He in *.
  destruct (rp_out r) as [| |resp]; [lia..|]. destruct Hr as [Hs Hi]. apply HQ; [lia| |done|auto].
  destruct (live w !! fresh w) as [r'|] eqn:E'; [|done]. apply Hl in E'. lia.
Qed.

Lemma world_ok_later w f l g : world_ok w -> fresh w <= f -> world_ok (mkWorld (live w) f l g).
Proof. intros [H1 H2] Hf. split; cbn; [lia|]. intros a r Ha. apply H2 in Ha. lia. Qed.

Lemma wp_free_null Q w : Q tt w -> wp (at_response_free 0) Q w.
Proof. done. Qed.

Lemma wp_free a r h f l g Q : 0 <> a -> h !! a = None ->
  Q tt (mkWorld h f l g) -> wp (at_response_free a) Q (mkWorld (<[a := r]> h) f l g).
Proof.
  intros Ha Hn HQ. unfold wp, at_response_free. cbn. destruct (Z.eqb_spec a 0); [lia|].
  rewrite lookup_insert_eq, delete_insert_id by done. exact HQ.
Qed.

Lemma wp_failed err p Q w :
  (err < 0 -> Q true w) ->
  (err = 0 -> exists r, live w !! p = Some r /\ (success r = 0 -> Q true w) /\ (success r <> 0 -> Q false w)) ->
  err <= 0 -> wp (failed err p) Q w.
Proof.
  intros H1 H2 He. unfold failed. destruct (Z.ltb_spec err 0); [by apply wp_ret, H1|].
  destruct (H2 ltac:(lia)) as (r & Hr & Ht & Hfa). apply wp_bind, (wp_deref p r); [done|]. apply wp_ret.
  destruct (Z.eqb_spec (success r) 0); auto.
Qed.

Lemma wp_failed_le err p Q w :
  (err < 0 -> Q true w) ->
  (err = 0 -> exists r, live w !! p = Some r /\ (success r <= 0 -> Q true w) /\ (0 < success r -> Q false w)) ->
  err <= 0 -> wp (failed_le err p) Q w.
Proof.
  intros H1 H2 He. unfold failed_le. destruct (Z.ltb_spec err 0); [by apply wp_ret, H1|].
  destruct (H2 ltac:(lia)) as (r & Hr & Ht & Hfa). apply wp_bind, (wp_deref p r); [done|]. apply wp_ret.
  destruct (Z.leb_spec (success r) 0); auto.
Qed.

Lemma wp_first_line p r Q w :
  live w !! p = Some r -> p_intermediates r <> [] -> (forall line, Q line w) -> wp (first_line p) Q w.
Proof. intros Hr Hl HQ. apply wp_bind, (wp_deref p r); [done|]. destruct (p_intermediates r); [done|]. apply wp_ret, HQ. Qed.

(** ** What a handler owes its caller *)

(** The requests completed. *)
Definition completions (l : list (act D)) : list Z :=
  omap (fun a => match a with Complete t _ _ => Some t | _ => None end) l.

(** A request is completed exactly once, every response is freed, and nothing undefined
    happens, whatever the modem answers. *)
Definition serves (t : Z) (m : M D G unit) : Prop :=
  forall w, world_ok w ->
    wp m (fun _ w' => world_ok w' /\ live w' = live w /\ exists l, acts w' = acts w ++ l /\ completions l = [t]) w.

(** The same without a request. *)
Definition harmless (m : M D G unit) : Prop :=
  forall w, world_ok w ->
    wp m (fun _ w' => world_ok w' /\ live w' = live w /\ exists l, acts w' = acts w ++ l /\ completions l = []) w.
End Ops.

(** ** Partial correctness *)

Section Wlp.
Context {D G : Type} `{Modem D}.

(** [Q] holds if the handler returns. *)
Definition wlp {A} (m : M D G A) (Q : A -> World D G -> Prop) (w : World D G) : Prop :=
  match m w with Done a w' => Q a w' | _ => True end.

Lemma wlp_bind {A B} (m : M D G A) (k : A -> M D G B) Q w :
  wlp m (fun a w' => wlp (k a) Q w') w -> wlp (bind m k) Q w.
Proof. unfold wlp, bind. destruct (m w); done. Qed.

Lemma wlp_ret {A} (a : A) Q w : Q a w -> wlp (ret a) Q w.
Proof. done. Qed.

Lemma wlp_undefined {A} Q w : wlp (@undefined D G A) Q w.
Proof. done. Qed.

Lemma wlp_defined {A} (x : option A) Q w : (forall a, x = Some a -> Q a w) -> wlp (defined x) Q w.
Proof. intros HQ. destruct x; [by apply HQ|done]. Qed.

Lemma wlp_act a Q w : Q tt (mkWorld (live w) (fresh w) (acts w ++ [a]) (glob w)) -> wlp (do_act a) Q w.
Proof. done. Qed.

Lemma wlp_get Q w : Q (glob w) w -> wlp get_glob Q w.
Proof. done. Qed.

Lemma wlp_put g Q w : Q tt (mkWorld (live w) (fresh w) (acts w) g) -> wlp (put_glob g) Q w.
Proof. done. Qed.

Lemma wlp_send command kind p Q w :
  (forall err p' h f, Q (err, p') (mkWorld h f (acts w ++ [Cmd command kind]) (glob w))) ->
  wlp (at_send command kind p) Q w.
Proof.
  intros HQ. unfold wlp, at_send. destruct (answer (acts w) command kind) as [r|]; [|done].
  destruct (rp_out r); apply HQ.
Qed.

Lemma wlp_send_no_out command kind Q w :
  (forall err, Q err (mkWorld (live w) (fresh w) (acts w ++ [Cmd command kind]) (glob w))) ->
  wlp (at_send_no_out command kind) Q w.
Proof. intros HQ. unfold wlp, at_send_no_out. destruct (answer _ _ _); [apply HQ|done]. Qed.

Lemma wlp_free p Q w : (forall h, Q tt (mkWorld h (fresh w) (acts w) (glob w))) -> wlp (at_response_free p) Q w.
Proof.
  intros HQ. unfold wlp, at_response_free. destruct (p =? 0); [destruct w; apply HQ|]. destruct (live w !! p); [apply HQ|done].
Qed.

Lemma wlp_failed err p Q w : (forall b, Q b w) -> wlp (failed err p) Q w.
Proof.
  intros HQ. unfold wlp, failed, bind, deref. destruct (err <? 0); [apply HQ|]. destruct (live w !! p); [apply HQ|done].
Qed.
End Wlp.

Ltac wlp_step :=
  cbv zeta; cbn beta iota delta [live fresh acts glob];
  lazymatch goal with
  | |- wlp (bind _ _) _ _ => apply wlp_bind
  | |- wlp (ret _) _ _ => apply wlp_ret
  | |- wlp undefined _ _ => apply wlp_undefined
  | |- wlp (defined _) _ _ => apply wlp_defined; intros ? ?
  | |- wlp (do_act _) _ _ => apply wlp_act
  | |- wlp (RIL_onRequestComplete _ _ _) _ _ => apply wlp_act
  | |- wlp (RIL_onUnsolicitedResponseSocket _ _ _) _ _ => apply wlp_act
  | |- wlp get_glob _ _ => apply wlp_get
  | |- wlp (put_glob _) _ _ => apply wlp_put
  | |- wlp (at_send_no_out _ _) _ _ => apply wlp_send_no_out; intros ?
  | |- wlp (at_send _ _ _) _ _ => apply wlp_send; intros ? ? ? ?
  | |- wlp (failed _ _) _ _ => apply wlp_failed; intros ?
  | |- wlp (at_response_free _) _ _ => apply wlp_free; intros ?
  | |- wlp (if ?c then _ else _) _ _ => destruct c eqn:?; try discriminate
  | |- wlp (match ?x with _ => _ end) _ _ => destruct x eqn:?; try discriminate
  end.

(** ** Automation *)

Ltac world_tac := cbn [live fresh acts glob]; first [assumption | apply world_ok_later; [assumption|cbn; lia]].

(** One step of a handler. *)
Ltac wp_step :=
  cbv zeta; cbn beta iota delta [live fresh acts glob];
  lazymatch goal with
  | |- wp (bind _ _) _ _ => apply wp_bind
  | |- wp (ret _) _ _ => apply wp_ret
  | |- wp (do_act _) _ _ => apply wp_act
  | |- wp (RIL_onRequestComplete _ _ _) _ _ => apply wp_act
  | |- wp (RIL_onUnsolicitedResponseSocket _ _ _) _ _ => apply wp_act
  | |- wp get_glob _ _ => apply wp_get
  | |- wp (put_glob _) _ _ => apply wp_put
  | |- wp (at_send_no_out _ _) _ _ => apply wp_send_no_out; intros ? ?
  | |- wp (at_send _ _ 0) _ _ => apply wp_send; [world_tac|intros ? ?|intros ? ? ? ? ? ? ? ?]
  | |- wp (failed _ _) _ _ =>
      apply wp_failed; [intros ?|intros ?; first [exfalso; lia|eexists; split; [cbn; apply lookup_insert_eq|split; intros ?]]|lia]
  | |- wp (failed_le _ _) _ _ =>
      apply wp_failed_le; [intros ?|intros ?; first [exfalso; lia|eexists; split; [cbn; apply lookup_insert_eq|split; intros ?]]|lia]
  | |- wp (deref _) _ _ => eapply wp_deref; [cbn; apply lookup_insert_eq|]
  | |- wp (at_response_free 0) _ _ => apply wp_free_null
  | |- wp (at_response_free _) _ _ => apply wp_free; [done|done|]
  | |- wp (first_line _) _ _ =>
      eapply wp_first_line; [cbn; apply lookup_insert_eq|match goal with Hi : context [p_intermediates _ <> []] |- _ => apply Hi; solve [lia|done] end|intros ?]
  | |- wp (if ?c then _ else _) _ _ => destruct c eqn:?; try discriminate
  | |- wp (match ?x with _ => _ end) _ _ => destruct x eqn:?
  | |- wp (?f _ _ _ _) _ _ => unfold f
  | |- wp (?f _ _ _) _ _ => unfold f
  end.

(** What is left at the end of a handler. *)
Ltac wp_end :=
  cbn; split; [world_tac|split; [done|eexists; split; [by rewrite <- ?app_assoc|done]]].

Ltac wp_auto := repeat wp_step; wp_end.

(** * The AT layer keeps its promise *)

(** What [at_send_command] and [at_send_command_singleline] do to [*pp_outResponse]: only the
    check for an intermediate line stores NULL. *)
Definition reply_of (err : Z) (out : option ATResponse) : reply :=
  mkReply err
    match out with
    | Some r => SetNew r
    | None => if err =? AT_ERROR_INVALID_RESPONSE then SetNull else Kept
    end.

(** A response that was stored, or a failure. *)
Definition result_ok (err : Z) (out : option ATResponse) : Prop :=
  match out with
  | Some r => err = 0 /\ 0 <= success r \/ err < 0 /\ success r = 0
  | None => err < 0
  end.

Lemma finish_wait_ok st err out st' :
  response_ok (chan st) -> finish_wait true st = CmdReturn err out st' -> result_ok err out.
Proof.
  unfold finish_wait, response_ok. destruct (p_response (chan st)) as [r|]; [|done]. intros (_ & Hs & _).
  destruct (_ <? _); intros [= <- <- _]; cbn; [done|]. left. split; [done|]. destruct Hs as [-> | ->]; lia.
Qed.

Lemma wait_loop_ok numeric sims timed evs : forall st err out st',
  response_ok (chan st) -> wait_loop numeric sims timed true evs st = CmdReturn err out st' -> result_ok err out.
Proof.
  induction evs as [|e evs IH]; intros st err out st' Hok E; [done|].
  assert (Hother : forall e', response_ok (chan (other_event numeric sims e' st))) by (intros; by apply other_event_ok).
  destruct e as [line|l1 l2| | | |]; cbn [wait_loop] in E; try (by eapply IH; [apply Hother|exact E]).
  - destruct (must_wait (chan st)) as [[]|]; [by eapply IH|by eapply finish_wait_ok|done].
  - destruct timed; [|by eapply IH]. unfold finish_error in E. by injection E as <- <- _.
Qed.

Lemma write_with_err c s st : (write_with c s st).1 <= 0.
Proof.
  unfold write_with. destruct (_ || _); [done|]. destruct (write_main (wr st) s) as [[[] sent] w]; cbn [negb]; [|done].
  by destruct (write_end w c) as [[[] sent'] w'].
Qed.

Lemma nolock_ok numeric sims command ty prefix pdu timeout evs st err out st' :
  at_send_command_full_nolock numeric sims command ty prefix pdu timeout true evs st = CmdReturn err out st' ->
  result_ok err out.
Proof.
  unfold at_send_command_full_nolock. destruct (p_response (chan st)); [by intros [= <- <- _]|].
  unfold writeline. destruct (write_with CR command st) as [werr st1] eqn:Ew.
  destruct (Z.ltb_spec werr 0); [by intros [= <- <- _]|].
  set (st2 := set_chan _ st1). assert (Hok : response_ok (chan st2)).
  { unfold st2, response_ok. cbn. split_and!; [|by left|done]. destruct ty; cbn; try done; (split; [lia|constructor]). }
  destruct (must_wait (chan st2)) as [[]|]; intros E; [by eapply wait_loop_ok|by eapply finish_wait_ok..].
Qed.

Lemma full_ok env command ty prefix pdu evs st err out st' :
  at_send_command_full env command ty prefix pdu true evs st = FReturn err out st' -> result_ok err out.
Proof.
  unfold at_send_command_full. destruct (_ && _); [intros [= <- <- _]; by right|].
  destruct (_ =? _); [by intros [= <- <- _]|]. destruct (negb _); [done|].
  destruct (at_send_command_full_nolock _ _ _ _ _ _ _ _ _ _) as [err1 out1 st1| |] eqn:E; [|done|done].
  destruct ((_ || _) && _); [done|]. intros [= <- <- _]. by eapply nolock_ok.
Qed.

Lemma singleline_ok env command prefix evs st err out st' :
  at_send_command_singleline env command prefix true evs st = FReturn err out st' ->
  reply_ok (OneLine prefix) (reply_of err out).
Proof.
  unfold at_send_command_singleline, require_intermediate.
  destruct (at_send_command_full _ _ _ _ _ _ _ _) as [err1 out1 st1| | | |] eqn:E; try done.
  apply full_ok in E. destruct out1 as [r|].
  - destruct ((err1 =? 0) && (0 <? success r) && bool_decide (p_intermediates r = [])) eqn:Eb; intros [= <- <- _]; [done|].
    unfold reply_ok. cbn. destruct E as [[-> Hs]|[He Hs]]; (split; [lia|]).
    + split; [lia|]. intros _ _ Hp Hn. rewrite bool_decide_eq_true_2 in Eb by done.
      replace (0 <? success r) with true in Eb by (symmetry; by apply Z.ltb_lt). done.
    + split; [lia|]. intros. lia.
  - intros [= <- <- _]. unfold reply_ok. cbn. destruct (err1 =? _); cbn in *; lia.
Qed.

Lemma other_kind_ok env command ty prefix evs st err out st' kind : ~ one_line kind ->
  at_send_command_full env command ty prefix None true evs st = FReturn err out st' -> reply_ok kind (reply_of err out).
Proof.
  intros Hk E. apply full_ok in E. unfold reply_ok. cbn. destruct out as [r|].
  - destruct E as [[-> Hs]|[He Hs]]; (split; [lia|]); split; try lia; done.
  - destruct (err =? _); cbn in *; lia.
Qed.

(** A modem behind a channel: every command runs on the channel as the ones before it left
    it, with the events of [sched] for it. *)
Section Channel.
Context {D : Type} (env : RilEnv) (sched : nat -> list wait_event) (start : AtState).

Definition channel_result (n : nat) (command : list Z) (kind : command_kind) (st : AtState) : full_result :=
  match kind with
  | NoLine => at_send_command env command true (sched n) st
  | OneLine prefix => at_send_command_singleline env command prefix true (sched n) st
  | Lines prefix => at_send_command_multiline env command prefix true (sched n) st
  end.

(** The number of commands of the history from [n] on, and the channel after them. *)
Fixpoint channel_after (n : nat) (h : list (act D)) (st : AtState) : nat * AtState :=
  match h with
  | [] => (n, st)
  | Cmd command kind :: h' =>
      match channel_result n command kind st with
      | FReturn _ _ st' => channel_after (S n) h' st'
      | _ => (n, st)
      end
  | _ :: h' => channel_after n h' st
  end.

Definition channel_answer (h : list (act D)) (command : list Z) (kind : command_kind) : option reply :=
  let '(n, st) := channel_after 0 h start in
  match channel_result n command kind st with
  | FReturn err out _ => Some (reply_of err out)
  | _ => None
  end.

#[local] Instance channel_modem : Modem D.
Proof.
  refine {| answer := channel_answer |}. intros h command kind r. unfold channel_answer, channel_result.
  destruct (channel_after 0 h start) as [n st]. destruct kind as [|p|p].
  - destruct (at_send_command env command true (sched n) st) as [err out st'| | | |] eqn:E; try done.
    intros [= <-]. eapply other_kind_ok; [by intros []|exact E].
  - destruct (at_send_command_singleline env command p true (sched n) st) as [err out st'| | | |] eqn:E; try done.
    intros [= <-]. by eapply singleline_ok.
  - destruct (at_send_command_multiline env command p true (sched n) st) as [err out st'| | | |] eqn:E; try done.
    intros [= <-]. eapply other_kind_ok; [by intros []|exact E].
Defined.
End Channel.
