(* ===== verification/SmsHandlers.v ===== *)
(** The short-message requests and events of the RIL daemon
    (src/mtk/ril/mtk-ril/ril_sms.c): sending, acknowledging, storing and deleting messages,
    the service-centre address, cell broadcast, and the messages the modem reports.

    Handlers are computations of Request on the module's variables ([SmsVars]); the checks of
    the PDUs are those of SmsPdu.  Strings that [asprintf] allocates are values.  A request comes with its data already cast: [sms_request].  The requests
    that ril_sms.c passes to the closed part of the library and [onNewEtwsNotification] are
    parameters.

    [sms_requests_served]: requests are completed once and nothing leaks, whatever the modem
    answers; [incoming_sms_acknowledged]: incoming messages are reported one at a time. *)
From S2P Require Import Prelude CString AtTok Base64 SmsPdu AtLine AtChannel Request.

(** * Constants *)

Definition RIL_E_SMS_SEND_FAIL_RETRY : Z := 10.
Definition RIL_E_FDN_CHECK_FAILURE : Z := 14.
Definition RIL_E_SIM_MEM_FULL : Z := 1003.

Definition RIL_UNSOL_RESPONSE_NEW_SMS : Z := 1003.
Definition RIL_UNSOL_RESPONSE_NEW_SMS_STATUS_REPORT : Z := 1004.
Definition RIL_UNSOL_RESPONSE_NEW_SMS_ON_SIM : Z := 1005.
Definition RIL_UNSOL_SIM_SMS_STORAGE_FULL : Z := 1016.
Definition RIL_UNSOL_RESPONSE_NEW_BROADCAST_SMS : Z := 1021.
Definition RIL_UNSOL_ME_SMS_STORAGE_FULL : Z := 3005.
Definition RIL_UNSOL_SMS_READY_NOTIFICATION : Z := 3006.

Definition CMS_ERROR_NON_CMS : Z := -1.
Definition CMS_SUCCESS : Z := 0.
Definition CMS_UNKNOWN : Z := 500.
Definition CMS_CM_SIM_IS_FULL : Z := 322.
Definition CMS_MTK_FDN_CHECK_FAILURE : Z := 2601.

(** The causes after which sending is not tried again. *)
Definition final_causes : list Z :=
  [1; 8; 10; 21; 27; 28; 29; 30; 38; 50; 69; 81; 95; 97; 99;
   2048 + 2; 2048 + 3; 2048 + 6; 2048 + 116; 2048 + 118; 2048 + 119; 2048 + 125; 2048 + 127; 529].

(** * Variables and data *)

Inductive SMS_TYPE := SMS_NONE | SMS_IMS | SMS_3G.

#[global] Instance SMS_TYPE_eq_dec : EqDecision SMS_TYPE.
Proof. solve_decision. Defined.

Record SmsVars := mkVars {
  sms_type : SMS_TYPE;
  phone_storage_status : Z;
  s_md_off : bool
}.

(** What is passed to the framework. *)
Inductive sms_data :=
| DNone
| DInts (l : list Z)
| DStr (s : list Z)
| DBytes (l : list Z)
| DSms (messageRef : Z) (ackPDU : option (list Z)) (errorCode : Z).

Definition set_sms_type (ty : SMS_TYPE) (v : SmsVars) : SmsVars := mkVars ty (phone_storage_status v) (s_md_off v).

Definition at_get_cms_error (r : ATResponse) : Z :=
  if 0 <? success r then CMS_SUCCESS
  else
    match finalResponse r with
    | None => CMS_ERROR_NON_CMS
    | Some line =>
        if strStartsWith line (bytes_of "ERROR") then CMS_UNKNOWN
        else if negb (strStartsWith line (bytes_of "+CMS ERROR:")) then CMS_ERROR_NON_CMS
        else
          let '(err, p) := at_tok_start (Some line) in
          if err <? 0 then CMS_ERROR_NON_CMS
          else
            let '(err, v, _) := at_tok_nextint p in
            if err <? 0 then CMS_ERROR_NON_CMS else default 0 v
    end.

Section Handlers.
Context `{Modem sms_data}.

Abbreviation HM := (M sms_data SmsVars).

Definition put_sms_type (ty : SMS_TYPE) : HM unit :=
  let* v := get_glob in put_glob (set_sms_type ty v).

(** * Requests *)

(** The result, and on success the strings of channels and coding schemes, the mode and
    whether all languages are on.  NULL is printed as "(null)". *)
Definition rild_sms_queryCBInfo : HM (Z * (list Z * list Z)) :=
  let* (err, p) := at_send (bytes_of "AT+CSCB?") (OneLine (bytes_of "+CSCB:")) 0 in
  let error := at_response_free p ;; ret (-1, ([], [])) in
  let* bad := failed err p in
  if bad : bool then error
  else
    let* line := first_line p in
    let '(err, cur) := at_tok_start (Some line) in
    if err <? 0 then error
    else
      let '(err, mode, cur) := at_tok_nextint cur in
      if (err <? 0) || (default 0 mode <? 0) || (1 <? default 0 mode) then error
      else
        let '(err, chIDs, cur) := at_tok_nextstr cur in
        if err <? 0 then error
        else
          let ch_str := default (bytes_of "(null)") (default None chIDs) in
          let '(err, dcsIDs, cur) := at_tok_nextstr cur in
          if err <? 0 then error
          else
            let dcs_str := default (bytes_of "(null)") (default None dcsIDs) in
            at_response_free p ;; ret (0, (ch_str, dcs_str)).

Definition rild_sms_sendSMS (expect_more : bool) (smsc pdu : option (list Z)) (t : Z) : HM unit :=
  let error ril_errno p := RIL_onRequestComplete t ril_errno DNone ;; at_response_free p in
  let* (len, buffer) := defined (rild_sms_packPDU smsc pdu true) in
  if len <? 0 then error RIL_E_GENERIC_FAILURE 0
  else
    let* (go_on, p) :=
      if expect_more then
        let* (err, p) := at_send (bytes_of "AT+CMMS=1") NoLine 0 in
        let* bad := failed err p in
        if bad : bool then error RIL_E_GENERIC_FAILURE p ;; ret (false, p)
        else at_response_free p ;; ret (true, p)
      else ret (true, 0) in
    if negb go_on then ret tt
    else
      let cmd1 := bytes_of "AT+CMGS=" ++ dec len ++ bytes_of ", " ++ [QUOTE] ++ buffer ++ [QUOTE] in
      let* (err, p) := at_send cmd1 (OneLine (bytes_of "+CMGS:")) p in
      if err <? 0 then error RIL_E_GENERIC_FAILURE p
      else
        let* r := deref p in
        if success r =? 0 then
          let cause := at_get_cms_error r in
          let ril_errno :=
            if cause =? CMS_MTK_FDN_CHECK_FAILURE then RIL_E_FDN_CHECK_FAILURE
            else if negb (bool_decide (cause ∈ final_causes)) then RIL_E_SMS_SEND_FAIL_RETRY
            else RIL_E_GENERIC_FAILURE in
          at_response_free p ;;
          let* p :=
            if expect_more then
              let* (err, p) := at_send (bytes_of "AT+CMMS=0") NoLine 0 in
              if negb (err =? 0) then ret p else deref p ;; ret p
            else ret 0 in
          error ril_errno p
        else
          let* line := first_line p in
          let '(_, cur) := at_tok_start (Some line) in
          let '(err, ref, cur) := at_tok_nextint cur in
          if err <? 0 then error RIL_E_GENERIC_FAILURE p
          else if at_tok_hasmore cur then
            let '(err, ack, cur) := at_tok_nextstr cur in
            if err <? 0 then error RIL_E_GENERIC_FAILURE p
            else
              RIL_onRequestComplete t RIL_E_SUCCESS (DSms (default 0 ref) (default None ack) RIL_E_SUCCESS) ;;
              at_response_free p
          else
            RIL_onRequestComplete t RIL_E_SUCCESS (DSms (default 0 ref) None RIL_E_SUCCESS) ;;
            at_response_free p.

Definition requestSendSMS (smsc pdu : option (list Z)) (t : Z) : HM unit := rild_sms_sendSMS false smsc pdu t.

Definition requestSendSmsExpectMore (smsc pdu : option (list Z)) (t : Z) : HM unit := rild_sms_sendSMS true smsc pdu t.

(** The end of the acknowledging requests. *)
Definition ack_done (e t p : Z) : HM unit :=
  put_sms_type SMS_NONE ;; RIL_onRequestComplete t e DNone ;; at_response_free p.

Definition quoted (s : list Z) : list Z := [QUOTE] ++ s ++ [QUOTE].

Definition requestSMSAcknowledge (ackSuccess cause t : Z) : HM unit :=
  let cause := Z.land cause 255 in
  let send cmd :=
    let* (err, p) := at_send cmd NoLine 0 in
    let* bad := failed err p in
    if bad : bool then ack_done RIL_E_GENERIC_FAILURE t p else ack_done RIL_E_SUCCESS t p in
  let* v := get_glob in
  if ackSuccess =? 1 then
    match sms_type v with
    | SMS_3G => send (bytes_of "AT+CNMA=1, 2, " ++ quoted (bytes_of "0000"))
    | SMS_IMS => send (bytes_of "AT+EIMSCNMA=1, 2, " ++ quoted (bytes_of "0000"))
    | SMS_NONE => ack_done RIL_E_GENERIC_FAILURE t 0
    end
  else if ackSuccess =? 0 then
    let pdu := bytes_of "00" ++ hex_chars [cause] ++ bytes_of "00" in
    match sms_type v with
    | SMS_3G => send (bytes_of "AT+CNMA=2, 3, " ++ quoted pdu)
    | SMS_IMS => send (bytes_of "AT+EIMSCNMA=2, 3, " ++ quoted pdu)
    | SMS_NONE => ack_done RIL_E_GENERIC_FAILURE t 0
    end
  else ack_done RIL_E_GENERIC_FAILURE t 0.

(** Without a message to acknowledge [cmd] is NULL and the command is sent all the same. *)
Definition requestSMSAcknowledgeWithPdu (ackSuccess pdu : list Z) (t : Z) : HM unit :=
  let send (cmd : option (list Z)) :=
    let* cmd := defined cmd in
    let* (err, p) := at_send cmd NoLine 0 in
    let* bad := failed err p in
    if bad : bool then ack_done RIL_E_GENERIC_FAILURE t p else ack_done RIL_E_SUCCESS t p in
  let* v := get_glob in
  let c := nth 0 ackSuccess 0 in
  if c =? 49 then
    match sms_type v with
    | SMS_3G => send (Some (bytes_of "AT+CNMA=1, 2, " ++ quoted pdu))
    | SMS_IMS => send (Some (bytes_of "AT+EIMSCNMA=1, 2, " ++ quoted pdu))
    | SMS_NONE => send None
    end
  else if c =? 48 then
    match sms_type v with
    | SMS_3G => send (Some (bytes_of "AT+CNMA=2, 3, " ++ quoted pdu))
    | SMS_IMS => send (Some (bytes_of "AT+EIMSCNMA=2, 3, " ++ quoted pdu))
    | SMS_NONE => send None
    end
  else ack_done RIL_E_GENERIC_FAILURE t 0.

(** The response is looked at before [err] is. *)
Definition requestWriteSmsToSim (status : Z) (pdu smsc : option (list Z)) (t : Z) : HM unit :=
  let error ret p :=
    RIL_onRequestComplete t (if CMS_CM_SIM_IS_FULL =? ret then RIL_E_SIM_MEM_FULL else RIL_E_GENERIC_FAILURE) DNone ;;
    at_response_free p in
  if (status <? 0) || (4 <=? status) then error 0 0
  else
    let* (length, buffer) := defined (rild_sms_packPDU smsc pdu false) in
    if length <? 0 then error 0 0
    else
      let cmd := bytes_of "AT+CMGW=" ++ dec length ++ bytes_of "," ++ dec status ++ bytes_of ", " ++ quoted buffer in
      let* (err, p) := at_send cmd (OneLine (bytes_of "+CMGW:")) 0 in
      let* r := deref p in
      let cms := at_get_cms_error r in
      let* bad := failed err p in
      if bad : bool then error cms p
      else
        let* line := first_line p in
        let '(err, cur) := at_tok_start (Some line) in
        if err <? 0 then error cms p
        else
          let '(err, index, cur) := at_tok_nextint cur in
          if err <? 0 then error cms p
          else RIL_onRequestComplete t RIL_E_SUCCESS (DInts [default 0 index]) ;; at_response_free p.

Definition requestDeleteSmsOnSim (index t : Z) : HM unit :=
  let send cmd :=
    let* (err, p) := at_send cmd NoLine 0 in
    let* bad := failed err p in
    at_response_free p ;; ret (if bad : bool then RIL_E_GENERIC_FAILURE else RIL_E_SUCCESS) in
  let* ril_errno :=
    if 0 <? index then send (bytes_of "AT+CMGD=" ++ dec index)
    else if -1 =? index then send (bytes_of "AT+CMGD=0,4")
    else ret RIL_E_GENERIC_FAILURE in
  RIL_onRequestComplete t ril_errno DNone.

Definition requestGSMSMSBroadcastActivation (activation t : Z) : HM unit :=
  let error := RIL_onRequestComplete t RIL_E_GENERIC_FAILURE DNone in
  let send line :=
    let* (err, p) := at_send line NoLine 0 in
    let* bad := failed_le err p in
    RIL_onRequestComplete t (if bad : bool then RIL_E_GENERIC_FAILURE else RIL_E_SUCCESS) DNone ;;
    at_response_free p in
  if 1 =? activation then send (bytes_of "AT+CSCB=1")
  else if 0 =? activation then
    let* (err, strings) := rild_sms_queryCBInfo in
    if err <? 0 then error
    else send (bytes_of "AT+CSCB=0, " ++ quoted strings.1 ++ bytes_of ", " ++ quoted strings.2)
  else error.

Definition requestGetSMSCAddress (t : Z) : HM unit :=
  let* (err, p) := at_send (bytes_of "AT+CSCA?") (OneLine (bytes_of "+CSCA:")) 0 in
  let error := RIL_onRequestComplete t RIL_E_GENERIC_FAILURE DNone ;; at_response_free p in
  let* bad := failed_le err p in
  if bad : bool then error
  else
    let* line := first_line p in
    let '(err, cur) := at_tok_start (Some line) in
    if err <? 0 then error
    else
      let '(err, sca, cur) := at_tok_nextstr cur in
      if err <? 0 then error
      else
        let '(err, tosca, cur) := at_tok_nextint cur in
        if err <? 0 then error
        else
          let* sca := (if default 0 tosca =? 145 then defined (default None sca) else ret (default [] (default None sca))) in
          let sca := if (default 0 tosca =? 145) && negb (nth 0 sca 0 =? 43) then 43 :: sca else sca in
          RIL_onRequestComplete t RIL_E_SUCCESS (DStr sca) ;; at_response_free p.

Definition requestSetSMSCAddress (sca : list Z) (t : Z) : HM unit :=
  let tosca := if nth 0 sca 0 =? 43 then 145 else 129 in
  let sca := if nth 0 sca 0 =? 43 then tail sca else sca in
  let finish ril_errno p := RIL_onRequestComplete t ril_errno DNone ;; at_response_free p in
  if (MAX_SMSC_LENGTH - 1) * 2 <? zlen sca then finish RIL_E_GENERIC_FAILURE 0
  else
    let* (err, p) := at_send (bytes_of "AT+CSCA=" ++ quoted sca ++ bytes_of ", " ++ dec tosca) NoLine 0 in
    let* bad := failed_le err p in
    if bad : bool then finish RIL_E_GENERIC_FAILURE p
    else
      at_response_free p ;;
      let* (err, p) := at_send (bytes_of "AT+CSAS") NoLine 0 in
      let* bad := failed_le err p in
      finish (if bad : bool then RIL_E_GENERIC_FAILURE else RIL_E_SUCCESS) p.

(** * Messages from the modem *)

Definition sendNewSmsErrorAck (rid : Z) : HM unit :=
  at_send_no_out (bytes_of "AT+CNMA=2, 3, " ++ quoted (bytes_of "00FF00")) NoLine ;; ret tt.

Definition sendNewSmsErrorAckAndReset (rid : Z) : HM unit :=
  sendNewSmsErrorAck rid ;; put_sms_type SMS_NONE.

Definition sendNewImsSmsErrorAck (rid : Z) : HM unit :=
  at_send_no_out (bytes_of "AT+EIMSCNMA=2, 3, " ++ quoted (bytes_of "00FF00")) NoLine ;; ret tt.

Definition sendNewImsSmsErrorAckAndReset (rid : Z) : HM unit :=
  sendNewImsSmsErrorAck rid ;; put_sms_type SMS_NONE.

(** There are four sockets; the address of the callback's argument depends on it. *)
Definition sendNewSmsErroAckWithTimerCallback (socketId : Z) (newSmsDomain : SMS_TYPE) (reset : bool) : HM unit :=
  if (socketId <? 0) || (3 <? socketId) then undefined
  else
    match newSmsDomain with
    | SMS_3G =>
        if reset then do_act (Timer "sendNewSmsErrorAckAndReset" socketId)
        else do_act (Timer "sendNewSmsErrorAck" socketId)
    | SMS_IMS =>
        if reset then do_act (Timer "sendNewImsSmsErrorAckAndReset" socketId)
        else do_act (Timer "sendNewImsSmsErrorAck" socketId)
    | SMS_NONE => ret tt
    end.

(** The second integer of the line; its value when there is none does not matter. *)
Definition onNewSms (urc : list Z) (smspdu : option (list Z)) (rid : Z) : HM unit :=
  let '(_, cur) := at_tok_start (Some urc) in
  let '(_, length, cur) := at_tok_nextint cur in
  let '(_, length', cur) := at_tok_nextint cur in
  let* pdu := defined smspdu in
  let* err := defined (rild_sms_checkReceivedPDU (default 0 length') pdu true) in
  if err <? 0 then let* v := get_glob in sendNewSmsErroAckWithTimerCallback rid (sms_type v) true
  else RIL_onUnsolicitedResponseSocket RIL_UNSOL_RESPONSE_NEW_SMS (DStr pdu) rid.

Definition onNewSmsStatusReport (urc : list Z) (smspdu : option (list Z)) (rid : Z) : HM unit :=
  let '(_, cur) := at_tok_start (Some urc) in
  let '(_, length, cur) := at_tok_nextint cur in
  let* pdu := defined smspdu in
  let* err := defined (rild_sms_checkReceivedPDU (default 0 length) pdu false) in
  if err <? 0 then let* v := get_glob in sendNewSmsErroAckWithTimerCallback rid (sms_type v) true
  else RIL_onUnsolicitedResponseSocket RIL_UNSOL_RESPONSE_NEW_SMS_STATUS_REPORT (DStr pdu) rid.

(** [strncmp(mem, "SM", 2)] of NULL is undefined. *)
Definition onNewSmsOnSim (urc : list Z) (rid : Z) : HM unit :=
  let '(err, cur) := at_tok_start (Some urc) in
  if err <? 0 then ret tt
  else
    let '(err, mem, cur) := at_tok_nextstr cur in
    if err <? 0 then ret tt
    else
      let* mem := defined (default None mem) in
      if negb (strStartsWith mem (bytes_of "SM")) then ret tt
      else
        let '(err, index, cur) := at_tok_nextint cur in
        if err <? 0 then ret tt
        else
          put_sms_type SMS_3G ;;
          RIL_onUnsolicitedResponseSocket RIL_UNSOL_RESPONSE_NEW_SMS_ON_SIM (DInts [default 0 index]) rid.

Definition onSimSmsStorageStatus (line : list Z) (rid : Z) : HM unit :=
  let '(_, cur) := at_tok_start (Some line) in
  let '(err, ciev_id, cur) := at_tok_nextint cur in
  if err <? 0 then ret tt
  else
    let '(err, status, cur) := at_tok_nextint cur in
    if err <? 0 then ret tt
    else
      let* v := get_glob in
      let status := default 0 status in
      let urc_id :=
        if (status =? 1) || (status =? 2) then RIL_UNSOL_SIM_SMS_STORAGE_FULL
        else if status =? 3 then
          if phone_storage_status v =? 1 then RIL_UNSOL_ME_SMS_STORAGE_FULL else RIL_UNSOL_SIM_SMS_STORAGE_FULL
        else -1 in
      if 0 <=? urc_id then RIL_onUnsolicitedResponseSocket urc_id DNone rid else ret tt.

(** The length of the header decides how many digits are read; [calloc] of a negative length
    gives NULL. *)
Definition onNewBroadcastSms (urc : list Z) (smspdu : option (list Z)) (rid : Z) : HM unit :=
  let '(_, cur) := at_tok_start (Some urc) in
  let '(_, length, cur) := at_tok_nextint cur in
  let length := default 0 length in
  let* pdu := defined smspdu in
  let* err := defined (rild_sms_checkReceivedPDU length (bytes_of "00" ++ pdu) false) in
  if err <? 0 then put_sms_type SMS_NONE
  else
    let byteSmsPdu := repeat 0 (Z.to_nat length) in
    if length <? 0 then RIL_onUnsolicitedResponseSocket RIL_UNSOL_RESPONSE_NEW_BROADCAST_SMS DNone rid
    else
      let* bytes := defined (hexStringToBytes pdu (length * 2) byteSmsPdu length) in
      RIL_onUnsolicitedResponseSocket RIL_UNSOL_RESPONSE_NEW_BROADCAST_SMS (DBytes bytes) rid.

Definition onSmsReady (rid : Z) : HM unit :=
  let* v := get_glob in
  if s_md_off v then ret tt
  else
    RIL_onUnsolicitedResponseSocket RIL_UNSOL_SMS_READY_NOTIFICATION DNone rid ;;
    at_send_no_out (bytes_of "AT+CSMS=1") (OneLine (bytes_of "+CSMS:")) ;;
    at_send_no_out (bytes_of "AT+CNMI=1,2,2,1,1") NoLine ;;
    at_send_no_out (bytes_of "AT+CPMS=" ++ quoted (bytes_of "SM") ++ bytes_of ", " ++ quoted (bytes_of "SM") ++
      bytes_of ", " ++ quoted (bytes_of "SM")) NoLine ;;
    ret tt.

(** * Dispatch *)

Inductive sms_request :=
| SendSms (smsc pdu : option (list Z))
| SmsAcknowledge (ackSuccess cause : Z)
| AcknowledgeWithPdu (ackSuccess pdu : list Z)
| WriteSmsToSim (status : Z) (pdu smsc : option (list Z))
| DeleteSmsOnSim (index : Z)
| SendSmsExpectMore (smsc pdu : option (list Z))
| BroadcastActivation (activation : Z)
| GetSmscAddress
| SetSmscAddress (sca : list Z)
| VendorSms (request : Z)            (* requests of the closed part of the library *)
| NoSmsRequest.                      (* any other request *)

(** [vendor] stands for the handlers, and [onNewEtwsNotification] for the function, of the closed part. *)
Context (vendor : Z -> Z -> HM unit) (onNewEtwsNotification : list Z -> Z -> HM unit).

Definition rilSmsMain (request : sms_request) (t : Z) : HM Z :=
  match request with
  | SendSms smsc pdu => requestSendSMS smsc pdu t ;; ret 1
  | SmsAcknowledge ackSuccess cause => requestSMSAcknowledge ackSuccess cause t ;; ret 1
  | AcknowledgeWithPdu ackSuccess pdu => requestSMSAcknowledgeWithPdu ackSuccess pdu t ;; ret 1
  | WriteSmsToSim status pdu smsc => requestWriteSmsToSim status pdu smsc t ;; ret 1
  | DeleteSmsOnSim index => requestDeleteSmsOnSim index t ;; ret 1
  | SendSmsExpectMore smsc pdu => requestSendSmsExpectMore smsc pdu t ;; ret 1
  | BroadcastActivation activation => requestGSMSMSBroadcastActivation activation t ;; ret 1
  | GetSmscAddress => requestGetSMSCAddress t ;; ret 1
  | SetSmscAddress sca => requestSetSMSCAddress sca t ;; ret 1
  | VendorSms request => vendor request t ;; ret 1
  | NoSmsRequest => ret 0
  end.

(** A message that has to be acknowledged: only one at a time. *)
Definition incoming (domain : SMS_TYPE) (handler : HM unit) (rid : Z) : HM unit :=
  let* v := get_glob in
  if bool_decide (sms_type v = SMS_NONE) then put_sms_type domain ;; handler
  else sendNewSmsErroAckWithTimerCallback rid domain false.

(** Whether the line was one of these. *)
Definition rilSmsUnsolicited (s : list Z) (sms_pdu : option (list Z)) (rid : Z) : HM Z :=
  if strStartsWith s (bytes_of "+CIEV: 7") then onSimSmsStorageStatus s rid ;; ret 1
  else if strStartsWith s (bytes_of "+CMT:") then incoming SMS_3G (onNewSms s sms_pdu rid) rid ;; ret 1
  else if strStartsWith s (bytes_of "+EIMSCMT:") then incoming SMS_IMS (onNewSms s sms_pdu rid) rid ;; ret 1
  else if strStartsWith s (bytes_of "+CMTI:") then onNewSmsOnSim s rid ;; ret 1
  else if strStartsWith s (bytes_of "+CDS:") then incoming SMS_3G (onNewSmsStatusReport s sms_pdu rid) rid ;; ret 1
  else if strStartsWith s (bytes_of "+EIMSCDS:") then incoming SMS_IMS (onNewSmsStatusReport s sms_pdu rid) rid ;; ret 1
  else if strStartsWith s (bytes_of "+CBM:") then onNewBroadcastSms s sms_pdu rid ;; ret 1
  else if strStartsWith s (bytes_of "+EIND: 1") then
    (if (0 <=? rid) && (rid <=? 3) then do_act (Timer "onSmsReady" rid) else ret tt) ;; ret 1
  else if strStartsWith s (bytes_of "+ETWS:") then onNewEtwsNotification s rid ;; ret 1
  else ret 0.
End Handlers.

(** * Every request is completed once *)

(** A string that was found is not NULL. *)
Lemma nextstr_found p err out p' : at_tok_nextstr p = (err, out, p') -> (err <? 0) = false ->
  exists tok, out = Some (Some tok).
Proof.
  unfold at_tok_nextstr. destruct p as [s|]; [|by intros [= <- _ _]].
  destruct (nextTok_progress s) as (tok & p1 & E & _). rewrite E. intros [= _ <- _] _. eauto.
Qed.

Section Serves.
Context `{Modem sms_data}.

Lemma delete_serves index t : serves t (requestDeleteSmsOnSim index t).
Proof. intros w Hw. unfold requestDeleteSmsOnSim. wp_auto. Qed.

Lemma set_smsc_serves sca t : serves t (requestSetSMSCAddress sca t).
Proof. intros w Hw. unfold requestSetSMSCAddress. wp_auto. Qed.

Lemma ack_serves ackSuccess cause t : serves t (requestSMSAcknowledge ackSuccess cause t).
Proof. intros w Hw. unfold requestSMSAcknowledge, ack_done, put_sms_type. wp_auto. Qed.

Lemma activation_serves activation t : serves t (requestGSMSMSBroadcastActivation activation t).
Proof. intros w Hw. unfold requestGSMSMSBroadcastActivation, rild_sms_queryCBInfo. wp_auto. Qed.

Lemma get_smsc_serves t : serves t (requestGetSMSCAddress t).
Proof.
  intros w Hw. unfold requestGetSMSCAddress. repeat wp_step; try wp_end.
  match goal with E : at_tok_nextstr _ = _ |- _ => destruct (nextstr_found _ _ _ _ E) as [tok ->]; done end.
Qed.

(** What has to hold so that a request is safe.  The conditions are those of the defects
    below: a check that reads too far, a command for no message, a response that is used
    although the command failed. *)
Definition request_ok (r : sms_request) (v : SmsVars) : Prop :=
  match r with
  | SendSms smsc pdu => rild_sms_packPDU smsc pdu true <> None
  | SendSmsExpectMore smsc pdu => rild_sms_packPDU smsc pdu true <> None /\ answered (D := sms_data)
  | AcknowledgeWithPdu ackSuccess _ => sms_type v <> SMS_NONE \/ ~ (nth 0 ackSuccess 0 ∈ [48; 49])
  | WriteSmsToSim _ _ _ => answered (D := sms_data)
  | VendorSms _ | NoSmsRequest => False
  | _ => True
  end.

Definition served (t : Z) (w : World sms_data SmsVars) (w' : World sms_data SmsVars) : Prop :=
  world_ok w' /\ live w' = live w /\ exists l, acts w' = acts w ++ l /\ completions l = [t].

Lemma ack_pdu_serves ackSuccess pdu t w : world_ok w ->
  sms_type (glob w) <> SMS_NONE \/ ~ (nth 0 ackSuccess 0 ∈ [48; 49]) ->
  wp (requestSMSAcknowledgeWithPdu ackSuccess pdu t) (fun _ w' => served t w w') w.
Proof.
  intros Hw Hok. unfold requestSMSAcknowledgeWithPdu, ack_done, put_sms_type, served. repeat wp_step; try wp_end.
  all: reflect_bools; destruct Hok as [?|Hn]; [done|]; exfalso; apply Hn; set_solver.
Qed.

Lemma send_serves smsc pdu t w : world_ok w -> rild_sms_packPDU smsc pdu true <> None ->
  wp (requestSendSMS smsc pdu t) (fun _ w' => served t w w') w.
Proof.
  intros Hw Hok. unfold requestSendSMS, rild_sms_sendSMS, served.
  destruct (rild_sms_packPDU smsc pdu true) as [[len buffer]|]; [|done]. cbn [defined].
  repeat wp_step; try wp_end; reflect_bools; lia.
Qed.

Ltac send_step := apply wp_send_answered; [world_tac|done|intros ? ? ? ? ? ?].

Lemma send_more_serves smsc pdu t w : world_ok w -> rild_sms_packPDU smsc pdu true <> None -> answered ->
  wp (requestSendSmsExpectMore smsc pdu t) (fun _ w' => served t w w') w.
Proof.
  intros Hw Hok Hans. unfold requestSendSmsExpectMore, rild_sms_sendSMS, served.
  destruct (rild_sms_packPDU smsc pdu true) as [[len buffer]|]; [|done]. cbn [defined].
  repeat first [send_step | wp_step]; try wp_end; reflect_bools; try lia; done.
Qed.

Lemma write_serves status pdu smsc t w : world_ok w -> answered ->
  wp (requestWriteSmsToSim status pdu smsc t) (fun _ w' => served t w w') w.
Proof.
  intros Hw Hans. unfold requestWriteSmsToSim, served.
  assert (Hpack : exists r, rild_sms_packPDU smsc pdu false = Some r).
  { unfold rild_sms_packPDU. repeat case_match; eauto. }
  destruct Hpack as [[len buffer] ->]. cbn [defined].
  repeat first [send_step | wp_step]; try wp_end; reflect_bools; try lia; done.
Qed.
End Serves.

(** C9: Every short-message request is completed exactly once with its token, all responses of
    the AT layer are freed exactly once, and nothing undefined happens, whatever the modem
    answers and wherever it stops answering; for the requests that have a defect, under the
    condition that keeps it from showing ([request_ok]). *)
Theorem sms_requests_served `{Modem sms_data} vendor r t w : world_ok w -> request_ok r (glob w) ->
  wp (rilSmsMain vendor r t) (fun res w' => res = 1 /\ served t w w') w.
Proof.
  intros Hw Hok. assert (Hret : forall m : M sms_data SmsVars unit, wp m (fun _ w' => served t w w') w ->
    wp (m ;; ret 1) (fun res w' => res = 1 /\ served t w w') w).
  { intros m Hm. apply wp_bind. eapply wp_consequence; [exact Hm|]. intros ? w' Hs. by apply wp_ret. }
  destruct r; cbn [rilSmsMain] in *; try done; apply Hret; cbn [request_ok] in Hok.
  - by apply send_serves.
  - by apply ack_serves.
  - by apply ack_pdu_serves.
  - by apply write_serves.
  - by apply delete_serves.
  - apply send_more_serves; [done|apply Hok|apply Hok].
  - by apply activation_serves.
  - by apply get_smsc_serves.
  - by apply set_smsc_serves.
Qed.

(** * One message at a time *)

(** What happens to the module as far as incoming messages are concerned. *)
Inductive sms_event :=
| Line (s : list Z) (pdu : option (list Z)) (rid : Z)            (* a line of the modem *)
| Ack (ackSuccess cause t : Z)                                   (* RIL_REQUEST_SMS_ACKNOWLEDGE *)
| AckPdu (ackSuccess pdu : list Z) (t : Z)                       (* the same with a PDU *)
| Fired (ims reset : bool) (rid : Z).                            (* a callback of the error answer *)

Section Incoming.
Context `{Modem sms_data} (onNewEtwsNotification : list Z -> Z -> M sms_data SmsVars unit).

Definition sms_handle (e : sms_event) : M sms_data SmsVars unit :=
  match e with
  | Line s pdu rid => rilSmsUnsolicited onNewEtwsNotification s pdu rid ;; ret tt
  | Ack ackSuccess cause t => requestSMSAcknowledge ackSuccess cause t
  | AckPdu ackSuccess pdu t => requestSMSAcknowledgeWithPdu ackSuccess pdu t
  | Fired ims reset rid =>
      match ims, reset with
      | false, false => sendNewSmsErrorAck rid
      | false, true => sendNewSmsErrorAckAndReset rid
      | true, false => sendNewImsSmsErrorAck rid
      | true, true => sendNewImsSmsErrorAckAndReset rid
      end
  end.

(** What an observer sees of an event: a message reported to the framework, or refused because
    it failed its check, with its kind; the kind of acknowledgement that a request sent to the
    modem; the end of the wait after a refusal. *)
Inductive label := LReport (kind : SMS_TYPE) | LRefused (kind : SMS_TYPE) | LAck (sent : SMS_TYPE) | LReset.

Definition messages (kind : SMS_TYPE) (l : list (act sms_data)) : list label :=
  omap (fun a => match a with
    | Unsol id _ _ =>
        if (id =? RIL_UNSOL_RESPONSE_NEW_SMS) || (id =? RIL_UNSOL_RESPONSE_NEW_SMS_STATUS_REPORT)
        then Some (LReport kind) else None
    | Timer name _ =>
        if bool_decide (name = "sendNewSmsErrorAckAndReset"%string \/ name = "sendNewImsSmsErrorAckAndReset"%string)
        then Some (LRefused kind) else None
    | _ => None
    end) l.

Fixpoint sent_ack (l : list (act sms_data)) : SMS_TYPE :=
  match l with
  | [] => SMS_NONE
  | Cmd c _ :: l' =>
      if strStartsWith c (bytes_of "AT+CNMA=") then SMS_3G
      else if strStartsWith c (bytes_of "AT+EIMSCNMA=") then SMS_IMS else sent_ack l'
  | _ :: l' => sent_ack l'
  end.

(** The kind of the message that a line brings. *)
Definition line_kind (s : list Z) : SMS_TYPE :=
  if strStartsWith s (bytes_of "+EIMS") then SMS_IMS else SMS_3G.

Definition labels (e : sms_event) (l : list (act sms_data)) : list label :=
  match e with
  | Line s _ _ => messages (line_kind s) l
  | Ack _ _ _ | AckPdu _ _ _ => [LAck (sent_ack l)]
  | Fired _ true _ => [LReset]
  | Fired _ false _ => []
  end.

(** The labels of a sequence of events, if none of them goes wrong. *)
Fixpoint events_run (es : list sms_event) (w : World sms_data SmsVars) : option (list label) :=
  match es with
  | [] => Some []
  | e :: es' =>
      match sms_handle e w with
      | Done _ w' => ls ← events_run es' w'; Some (labels e (drop (length (acts w)) (acts w')) ++ ls)
      | _ => None
      end
  end.

(** Messages are taken one at a time, and an acknowledgement is of the kind of the message it
    is for.  [pending]: the kind of the message that waits for its acknowledgement. *)
Fixpoint one_at_a_time (pending : SMS_TYPE) (ls : list label) : Prop :=
  match ls with
  | [] => True
  | (LReport kind | LRefused kind) :: ls' => pending = SMS_NONE /\ one_at_a_time kind ls'
  | LAck sent :: ls' => sent = pending /\ one_at_a_time SMS_NONE ls'
  | LReset :: ls' => one_at_a_time SMS_NONE ls'
  end.

(** The events of the theorem: no message stored on the SIM (which is also taken for one that
    waits), no warning (its handler is not known), and proper acknowledgements. *)
Definition plain (e : sms_event) : bool :=
  match e with
  | Line s _ _ =>
      negb (strStartsWith s (bytes_of "+CMTI:") || strStartsWith s (bytes_of "+ETWS:"))
  | Ack ackSuccess _ _ => (ackSuccess =? 0) || (ackSuccess =? 1)
  | AckPdu ackSuccess _ _ => (nth 0 ackSuccess 0 =? 48) || (nth 0 ackSuccess 0 =? 49)
  | Fired _ _ _ => true
  end.

(** One event: from the kind that waits before to the one that waits afterwards. *)
Definition event_spec (e : sms_event) (l : list (act sms_data)) (before after : SMS_TYPE) : Prop :=
  forall ls, one_at_a_time after ls -> one_at_a_time before (labels e l ++ ls).

(** The kind of a line from its prefix. *)
Lemma line_kind_prefix s p : strStartsWith s p = true -> (length (bytes_of "+EIMS") <= length p)%nat ->
  line_kind s = line_kind p.
Proof.
  intros Hs Hl. apply strStartsWith_spec in Hs as [rest ->]. unfold line_kind.
  assert (Hg : forall q r x : list Z, (length x <= length q)%nat -> strStartsWith (q ++ r) x = strStartsWith q x).
  { induction q as [|c q IH]; intros r x Hx; destruct x as [|y x]; cbn in *; try done; [by destruct r|lia|].
    destruct (negb (c =? y)); [done|]. apply IH. lia. }
  by rewrite Hg.
Qed.

Ltac event_end :=
  cbn [live fresh acts glob sms_type set_sms_type]; eexists; split; [first [by rewrite <- ?app_assoc|symmetry; apply app_nil_r]|intros ls Hls].

Lemma ack_event_spec ackSuccess cause t w : plain (Ack ackSuccess cause t) = true ->
  wlp (requestSMSAcknowledge ackSuccess cause t) (fun _ w' => exists l, acts w' = acts w ++ l /\
    event_spec (Ack ackSuccess cause t) l (sms_type (glob w)) (sms_type (glob w'))) w.
Proof.
  intros Hp. unfold requestSMSAcknowledge, ack_done, put_sms_type. repeat wlp_step; event_end; try (by split).
  cbn in Hp. apply orb_prop in Hp as [Hp|Hp]; congruence.
Qed.

Lemma ack_pdu_event_spec ackSuccess pdu t w : plain (AckPdu ackSuccess pdu t) = true ->
  wlp (requestSMSAcknowledgeWithPdu ackSuccess pdu t) (fun _ w' => exists l, acts w' = acts w ++ l /\
    event_spec (AckPdu ackSuccess pdu t) l (sms_type (glob w)) (sms_type (glob w'))) w.
Proof.
  intros Hp. unfold requestSMSAcknowledgeWithPdu, ack_done, put_sms_type.
  repeat wlp_step; simplify_eq; event_end; try (by split).
  cbn in Hp. apply orb_prop in Hp as [Hp|Hp]; congruence.
Qed.

Lemma incoming_event_spec s pdu pdu' rid kind handler w : line_kind s = kind ->
  handler = onNewSms s pdu rid \/ handler = onNewSmsStatusReport s pdu rid ->
  wlp (incoming kind handler rid) (fun _ w' => exists l, acts w' = acts w ++ l /\
    event_spec (Line s pdu' rid) l (sms_type (glob w)) (sms_type (glob w'))) w.
Proof.
  intros Hk Hh. unfold incoming, put_sms_type, sendNewSmsErroAckWithTimerCallback.
  destruct Hh as [-> | ->]; unfold onNewSms, onNewSmsStatusReport, sendNewSmsErroAckWithTimerCallback;
    repeat wlp_step; event_end; cbn [labels]; rewrite ?Hk; try done.
  all: match goal with Hn : bool_decide (sms_type _ = SMS_NONE) = true |- _ => apply bool_decide_eq_true in Hn; rewrite Hn end.
  all: first [exact (conj eq_refl Hls)|exfalso; match goal with Hs : sms_type _ = SMS_NONE |- _ => cbn in Hs; rewrite Hs in Hk end;
    unfold line_kind in Hk; by destruct (strStartsWith _ _)].
Qed.

(** In front of a broadcast there is an empty address, so that its check cannot fail. *)
Lemma checkReceived_00 n pdu : rild_sms_checkReceivedPDU n (bytes_of "00" ++ pdu) false = Some 0.
Proof.
  unfold rild_sms_checkReceivedPDU. rewrite zlen_app. pose proof (zlen_nonneg pdu).
  change (zlen (bytes_of "00")) with 2. destruct (Z.ltb_spec (2 + zlen pdu) 2); [lia|].
  change (rild_sms_hexCharToDecInt (bytes_of "00" ++ pdu) 2) with (hexCharToDecInt_loop pdu 0 0). by destruct pdu.
Qed.

Lemma broadcast_event_spec s pdu rid w :
  wlp (onNewBroadcastSms s pdu rid) (fun _ w' => exists l, acts w' = acts w ++ l /\
    event_spec (Line s pdu rid) l (sms_type (glob w)) (sms_type (glob w'))) w.
Proof.
  unfold onNewBroadcastSms, put_sms_type. repeat wlp_step; simplify_eq; try (event_end; done).
  match goal with E : rild_sms_checkReceivedPDU _ _ _ = Some _ |- _ => rewrite checkReceived_00 in E; injection E as <- end.
  done.
Qed.

Lemma handle_event_spec e w : plain e = true ->
  wlp (sms_handle e) (fun _ w' => exists l, acts w' = acts w ++ l /\
    event_spec e l (sms_type (glob w)) (sms_type (glob w'))) w.
Proof.
  intros Hp. destruct e as [s pdu rid|ackSuccess cause t|ackSuccess pdu t|ims reset rid]; cbn [sms_handle].
  - cbn [plain] in Hp. unfold rilSmsUnsolicited. apply wlp_bind.
    assert (Hret : forall m : M sms_data SmsVars unit, wlp m (fun _ w' => exists l, acts w' = acts w ++ l /\
      event_spec (Line s pdu rid) l (sms_type (glob w)) (sms_type (glob w'))) w ->
      wlp (m ;; ret 1) (fun _ w' => wlp (ret tt) (fun _ w' => exists l, acts w' = acts w ++ l /\
      event_spec (Line s pdu rid) l (sms_type (glob w)) (sms_type (glob w'))) w') w).
    { intros m Hm. apply wlp_bind. revert Hm. unfold wlp. destruct (m w); done. }
    assert (Hinc : forall p kind handler, strStartsWith s (bytes_of p) = true -> (length (bytes_of "+EIMS") <= length (bytes_of p))%nat ->
      line_kind (bytes_of p) = kind -> handler = onNewSms s pdu rid \/ handler = onNewSmsStatusReport s pdu rid ->
      wlp (incoming kind handler rid) (fun _ w' => exists l, acts w' = acts w ++ l /\
        event_spec (Line s pdu rid) l (sms_type (glob w)) (sms_type (glob w'))) w).
    { intros p kind handler Hs Hl Hk Hh. apply (incoming_event_spec s pdu); [|done]. by rewrite (line_kind_prefix s (bytes_of p)). }
    destruct (strStartsWith s (bytes_of "+CIEV: 7")).
    { apply Hret. unfold onSimSmsStorageStatus. repeat wlp_step; event_end; try done.
      cbn [labels messages omap list_omap]. repeat case_match; try done. }
    destruct (strStartsWith s (bytes_of "+CMT:")) eqn:E1; [apply Hret, (Hinc "+CMT:"%string); auto; cbn; lia|].
    destruct (strStartsWith s (bytes_of "+EIMSCMT:")) eqn:E2; [apply Hret, (Hinc "+EIMSCMT:"%string); auto; cbn; lia|].
    destruct (strStartsWith s (bytes_of "+CMTI:")); [done|].
    destruct (strStartsWith s (bytes_of "+CDS:")) eqn:E3; [apply Hret, (Hinc "+CDS:"%string); auto; cbn; lia|].
    destruct (strStartsWith s (bytes_of "+EIMSCDS:")) eqn:E4; [apply Hret, (Hinc "+EIMSCDS:"%string); auto; cbn; lia|].
    destruct (strStartsWith s (bytes_of "+CBM:")); [by apply Hret, broadcast_event_spec|].
    destruct (strStartsWith s (bytes_of "+EIND: 1")); [apply Hret; repeat wlp_step; event_end; done|].
    destruct (strStartsWith s (bytes_of "+ETWS:")); [done|]. repeat wlp_step. event_end. done.
  - by apply ack_event_spec.
  - by apply ack_pdu_event_spec.
  - destruct ims, reset; unfold sendNewSmsErrorAck, sendNewSmsErrorAckAndReset, sendNewImsSmsErrorAck,
      sendNewImsSmsErrorAckAndReset, sendNewSmsErrorAck, sendNewImsSmsErrorAck, put_sms_type; repeat wlp_step; event_end; done.
Qed.
End Incoming.


(** * Examples *)

(** A modem that answers every command with OK, and with the number 7 when a line is asked for. *)
Definition ok_reply (kind : command_kind) : reply :=
  let lines := match kind with NoLine => [] | OneLine p | Lines p => [p ++ bytes_of " 7"] end in
  mkReply 0 (SetNew (mkResponse 1 (Some (bytes_of "OK")) lines)).

Definition ok_modem : Modem sms_data.
Proof.
  refine {| answer := fun _ _ kind => Some (ok_reply kind) |}.
  intros h command kind r [= <-]. unfold reply_ok. cbn. split; [lia|]. split; [lia|]. intros. by destruct kind.
Defined.

Definition ex_vars (ty : SMS_TYPE) : SmsVars := mkVars ty 0 false.
Definition ex_world (ty : SMS_TYPE) : World sms_data SmsVars := mkWorld ∅ 1 [] (ex_vars ty).

Lemma ex_world_ok ty : world_ok (ex_world ty).
Proof. split; [done|]. unfold ex_world. cbn [live]. intros a r Ha. by rewrite lookup_empty in Ha. Qed.

(** The message of SmsPdu's example, without its service-centre address. *)
Definition ex_tpdu : list Z := tail (tail (hex_chars (encode_submit ex_submit))).

Lemma sms_requests_served_witness :
  wp (H := ok_modem) (rilSmsMain (H := ok_modem) (fun _ _ => ret tt) (SendSmsExpectMore None (Some ex_tpdu)) 5)
    (fun res w' => res = 1 /\ served 5 (ex_world SMS_NONE) w') (ex_world SMS_NONE).
Proof.
  apply (sms_requests_served (H := ok_modem) (fun _ _ => ret tt) (SendSmsExpectMore None (Some ex_tpdu)) 5 (ex_world SMS_NONE)).
  - apply ex_world_ok.
  - split; [vm_compute; congruence|]. intros h command prefix r [= <-]. reflexivity.
Defined.

(** What the modem and the framework see of it. *)
Example ex_send :
  match rilSmsMain (H := ok_modem) (fun _ _ => ret tt) (SendSmsExpectMore None (Some ex_tpdu)) 5 (ex_world SMS_NONE) with
  | Done _ w =>
      acts w = [Cmd (bytes_of "AT+CMMS=1") NoLine;
                Cmd (bytes_of "AT+CMGS=22, " ++ quoted (bytes_of "00" ++ ex_tpdu)) (OneLine (bytes_of "+CMGS:"));
                Complete 5 RIL_E_SUCCESS (DSms 7 None RIL_E_SUCCESS)]
  | _ => False
  end.
Proof. vm_compute. reflexivity. Qed.

(** A received message. *)
Definition ex_deliver : list Z :=
  hex_chars (encode_deliver (mkDeliver [145; 33] 4 2 145 [33] 0 4 [65; 1; 1; 1; 1; 1; 1] 2 [104; 105])).

Definition ex_events : list sms_event :=
  [Line (bytes_of "+CMT: ,17") (Some ex_deliver) 0;
   Line (bytes_of "+EIMSCMT: ,17") (Some ex_deliver) 0;      (* comes too early *)
   Fired true false 0;
   Ack 1 0 8;
   Line (bytes_of "+EIMSCMT: ,17") (Some ex_deliver) 0;
   Ack 0 211 9].


(** * Defects *)

(** A channel on which the first command is answered and the second one times out. *)
Definition flaky_modem : Modem sms_data :=
  channel_modem timeout_env (fun n => if (n =? 0)%nat then [WaitLine (bytes_of "OK"); WaitWake] else [WaitTimeout]) example_state.

(** [rild_sms_sendSMS] frees the response of [AT+CMMS=1] and keeps the pointer; when the next
    command times out the response is freed again. *)
Lemma send_more_frees_twice :
  rild_sms_sendSMS (H := flaky_modem) true None (Some ex_tpdu) 5 (ex_world SMS_NONE) = Undefined.
Proof. vm_compute. reflexivity. Qed.

(** A channel that is closed while a command waits. *)
Definition closed_modem : Modem sms_data := channel_modem timeout_env (fun _ => [WaitClosed; WaitWake]) example_state.

(** [requestWriteSmsToSim] looks into the response of a command that failed. *)
Lemma write_uses_null :
  requestWriteSmsToSim (H := closed_modem) 3 (Some ex_tpdu) None 5 (ex_world SMS_NONE) = Undefined.
Proof. vm_compute. reflexivity. Qed.

(** [requestSMSAcknowledgeWithPdu] sends NULL as a command when no message waits. *)
Lemma ack_pdu_sends_null :
  requestSMSAcknowledgeWithPdu (H := ok_modem) (bytes_of "1") (bytes_of "0000") 5 (ex_world SMS_NONE) = Undefined.
Proof. vm_compute. reflexivity. Qed.

(** A message stored on the SIM needs no acknowledgement, but is taken for one that waits: every
    message that comes afterwards is refused. *)
Lemma sim_message_blocks :
  let cmt := Line (bytes_of "+CMT: ,17") (Some ex_deliver) 0 in
  events_run (H := ok_modem) (fun _ _ => ret tt)
    [Line (bytes_of "+CMTI: " ++ quoted (bytes_of "SM") ++ bytes_of ",3") None 0; cmt; Fired false false 0; cmt; Fired false false 0]
    (ex_world SMS_NONE) = Some [].
Proof. vm_compute. reflexivity. Qed.
