(* ===== verification/CallControl.v ===== *)
(** Call control of the RIL daemon (src/mtk/ril/mtk-ril/ril_cc.c): the list of current calls,
    dialling, hanging up, holding and joining calls, the cause of a failed call, the caller's
    name and number, and the ring.

    Handlers are computations of Request on the module's variables ([CcVars]).  Character
    arrays are the strings they hold; [strcpy] and [sprintf] into an array that is too small
    are undefined.  Requests and answers of the IMS service go through functions of their own:
    [cc_data] records which.  [sleep] does nothing here.  MTK_VT3G324M_SUPPORT is off
    (src/BoardConfigCommon.mk).  The requests and lines that ril_cc.c passes to the closed part
    of the library are parameters.

    [cc_requests_served]: requests are completed once and nothing undefined happens;
    [clcc_calls_reported]: the calls that the modem lists are the calls that are reported, with
    the names that were announced; [cc_lines_safe]: lines of the modem keep the caches intact;
    [ring_announces_call]: what a ring reports. *)
From S2P Require Import Prelude CString AtTok AtLine AtChannel Request.

(** * Constants and data *)

Definition RIL_E_CANCELLED : Z := 7.

Definition RIL_UNSOL_RESPONSE_CALL_STATE_CHANGED : Z := 1001.
Definition RIL_UNSOL_CALL_RING : Z := 1018.
Definition RIL_UNSOL_CRSS_NOTIFICATION : Z := 3041.
Definition RIL_UNSOL_CALL_INFO_INDICATION : Z := 3049.

Definition MAX_CNAP_LENGTH : Z := 81.
Definition MAX_GSMCALL_CONNECTIONS : Z := 7.
Definition IMS_RIL_SOCKET_1 : Z := 5.

Definition CALL_FAIL_CALL_BARRED : Z := 240.
Definition CALL_FAIL_FDN_BLOCKED : Z := 241.
Definition CALL_FAIL_IMSI_UNKNOWN_IN_VLR : Z := 242.
Definition CALL_FAIL_IMEI_NOT_ACCEPTED : Z := 243.
Definition CALL_FAIL_ERROR_UNSPECIFIED : Z := 65535.

Inductive RIL_CallState :=
| RIL_CALL_ACTIVE
| RIL_CALL_HOLDING
| RIL_CALL_DIALING
| RIL_CALL_ALERTING
| RIL_CALL_INCOMING
| RIL_CALL_WAITING.

#[global] Instance RIL_CallState_eq_dec : EqDecision RIL_CallState.
Proof. solve_decision. Defined.

(** The fields that are never written stay 0. *)
Record RIL_Call := mkCall {
  state : RIL_CallState;
  index : Z;
  toa : Z;
  isMpty : Z;
  isMT : Z;
  isVoice : Z;
  number : option (list Z);
  name : list Z
}.

(** After [memset]. *)
Definition zero_call : RIL_Call := mkCall RIL_CALL_ACTIVE 0 0 0 0 0 None [].

Definition set_state s c := mkCall s (index c) (toa c) (isMpty c) (isMT c) (isVoice c) (number c) (name c).
Definition set_index x c := mkCall (state c) x (toa c) (isMpty c) (isMT c) (isVoice c) (number c) (name c).
Definition set_toa x c := mkCall (state c) (index c) x (isMpty c) (isMT c) (isVoice c) (number c) (name c).
Definition set_isMpty x c := mkCall (state c) (index c) (toa c) x (isMT c) (isVoice c) (number c) (name c).
Definition set_isMT x c := mkCall (state c) (index c) (toa c) (isMpty c) x (isVoice c) (number c) (name c).
Definition set_isVoice x c := mkCall (state c) (index c) (toa c) (isMpty c) (isMT c) x (number c) (name c).
Definition set_number x c := mkCall (state c) (index c) (toa c) (isMpty c) (isMT c) (isVoice c) x (name c).
Definition set_name x c := mkCall (state c) (index c) (toa c) (isMpty c) (isMT c) (isVoice c) (number c) x.

Record RIL_CrssNotification := mkCrss {
  crss_code : Z;
  crss_type : Z;
  crss_number : option (list Z);
  crss_alphaid : option (list Z);
  crss_cli_validity : Z
}.

Inductive payload :=
| PNone
| PCalls (calls : list RIL_Call)
| PCause (cause_code : Z) (vendor_cause : option (list Z))
| PCrss (n : RIL_CrssNotification)
| PCpi (data : list (option (list Z))).

Record cc_data := mkData { via_ims : bool; data : payload }.

Inductive dispatch_flg := GSM | IMS.
Inductive volte_call_state := none | mo | mt | multi | conf | pending_mo.
Inductive DIAL_SOURCE := GSMPHONE | IMSPHONE.

#[global] Instance dispatch_flg_eq_dec : EqDecision dispatch_flg.
Proof. solve_decision. Defined.
#[global] Instance volte_call_state_eq_dec : EqDecision volte_call_state.
Proof. solve_decision. Defined.
#[global] Instance DIAL_SOURCE_eq_dec : EqDecision DIAL_SOURCE.
Proof. solve_decision. Defined.

(** The caches of caller names have their own record. *)
Record NameCache := mkNames {
  cachedCnap : list Z;
  cachedClccName : list (list Z)
}.

Record CcVars := mkCc {
  setupCpiData : list (option (list Z));
  callWaiting : Z;
  hasReceivedRing : bool;
  inCallNumber : Z;
  inDTMF : bool;
  isRecvECPI0 : bool;
  names : NameCache;
  bUseLocalCallFailCause : Z;
  dialLastError : Z;
  dispatch_flag : dispatch_flg;
  call_state : volte_call_state;
  dial_source : DIAL_SOURCE;
  isReplaceRequest : bool
}.

Definition set_names n v := mkCc (setupCpiData v) (callWaiting v) (hasReceivedRing v) (inCallNumber v) (inDTMF v)
  (isRecvECPI0 v) n (bUseLocalCallFailCause v) (dialLastError v) (dispatch_flag v) (call_state v) (dial_source v)
  (isReplaceRequest v).
Definition set_cpi data received v := mkCc data (callWaiting v) (hasReceivedRing v) (inCallNumber v) (inDTMF v)
  received (names v) (bUseLocalCallFailCause v) (dialLastError v) (dispatch_flag v) (call_state v) (dial_source v)
  (isReplaceRequest v).
Definition set_local_cause b e v := mkCc (setupCpiData v) (callWaiting v) (hasReceivedRing v) (inCallNumber v) (inDTMF v)
  (isRecvECPI0 v) (names v) b e (dispatch_flag v) (call_state v) (dial_source v) (isReplaceRequest v).
Definition set_dispatch d s src v := mkCc (setupCpiData v) (callWaiting v) (hasReceivedRing v) (inCallNumber v) (inDTMF v)
  (isRecvECPI0 v) (names v) (bUseLocalCallFailCause v) (dialLastError v) d s src (isReplaceRequest v).
Definition set_ringing waiting ring v := mkCc (setupCpiData v) waiting ring (inCallNumber v) (inDTMF v)
  (isRecvECPI0 v) (names v) (bUseLocalCallFailCause v) (dialLastError v) (dispatch_flag v) (call_state v) (dial_source v)
  (isReplaceRequest v).

(** * Pure parts *)

Definition clccStateToRILState (state : Z) : option RIL_CallState :=
  match state with
  | 0 => Some RIL_CALL_ACTIVE
  | 1 => Some RIL_CALL_HOLDING
  | 2 => Some RIL_CALL_DIALING
  | 3 => Some RIL_CALL_ALERTING
  | 4 => Some RIL_CALL_INCOMING
  | 5 => Some RIL_CALL_WAITING
  | _ => None
  end.

Definition strcpy (size : Z) (src : list Z) : option (list Z) := if zlen src + 1 <=? size then Some src else None.

(** [snprintf] of a string: at most [size - 1] characters. *)
Definition snprintf (size : Z) (src : list Z) : list Z := take (Z.to_nat (size - 1)) src.

Definition in_range (i : Z) : bool := (1 <=? i) && (i <=? MAX_GSMCALL_CONNECTIONS).

(** The slot of a call in the cache; the index is in range. *)
Definition slot (i : Z) : nat := Z.to_nat (i - 1).

(** An incoming call takes the name that was announced. *)
Definition cache_name (c : RIL_Call) (n : NameCache) : option NameCache :=
  if (bool_decide (state c = RIL_CALL_INCOMING) || bool_decide (state c = RIL_CALL_WAITING)) && in_range (index c) then
    let cleared := <[slot (index c) := []]> (cachedClccName n) in
    if 0 <? zlen (cachedCnap n) then
      s ← strcpy MAX_CNAP_LENGTH (cachedCnap n);
      Some (mkNames [] (<[slot (index c) := s]> cleared))
    else Some (mkNames (cachedCnap n) cleared)
  else Some n.

Definition fill_name (n : NameCache) (c : RIL_Call) : option RIL_Call :=
  if in_range (index c) then
    let cached := nth (slot (index c)) (cachedClccName n) [] in
    if 0 <? zlen cached then s ← strcpy MAX_CNAP_LENGTH cached; Some (set_name s c) else Some c
  else Some c.

(** [strspn(s, "+*#0123456789") == strlen(s)]. *)
Definition dialable (s : list Z) : bool :=
  forallb (fun c => bool_decide (c ∈ bytes_of "+*#0123456789")) s.

Definition clear_names : NameCache := mkNames [] (repeat [] (Z.to_nat MAX_GSMCALL_CONNECTIONS)).

Definition translate_cause (cause : Z) : Z :=
  if cause =? 10 then CALL_FAIL_CALL_BARRED
  else if cause =? 2600 then CALL_FAIL_FDN_BLOCKED
  else if cause =? 2052 then CALL_FAIL_IMSI_UNKNOWN_IN_VLR
  else if cause =? 2053 then CALL_FAIL_IMEI_NOT_ACCEPTED
  else if ((127 <? cause) && negb (cause =? 2165) && negb (cause =? 380)) || (cause <=? 0)
  then CALL_FAIL_ERROR_UNSPECIFIED
  else cause.

(** * Requests *)

Section Handlers.
Context `{Modem cc_data}.
(** [RequestInfo.socket_id] of a token, and [isSimulateIms]. *)
Context (socket_of : Z -> Z) (isSimulateIms : Z -> bool).

Abbreviation HM := (M cc_data CcVars).

Definition IMS_isRilRequestFromIms (t : Z) : bool := if t =? 0 then false else socket_of t =? IMS_RIL_SOCKET_1.

Definition plain (p : payload) : cc_data := mkData false p.

(** The framework's way and the one of the IMS service. *)
Definition complete (t e : Z) (p : payload) : HM unit := RIL_onRequestComplete t e (plain p).
Definition IMS_RIL_onRequestComplete (t e : Z) (p : payload) : HM unit := RIL_onRequestComplete t e (mkData true p).

Definition complete_for (t e : Z) (p : payload) : HM unit :=
  if IMS_isRilRequestFromIms t then IMS_RIL_onRequestComplete t e p else complete t e p.

Definition update (f : CcVars -> CcVars) : HM unit := let* v := get_glob in put_glob (f v).

Definition clearCnap : HM unit := update (set_names clear_names).

(** The result and the call.  What was written before an error stays in the call. *)
Definition callFromCLCCLine (line : list Z) (c : RIL_Call) : HM (Z * RIL_Call) :=
  let '(err, cur) := at_tok_start (Some line) in
  if err <? 0 then ret (-1, c)
  else
  let '(err, v, cur) := at_tok_nextint cur in
  let c := set_index (default (index c) v) c in
  if err <? 0 then ret (-1, c)
  else
  let '(err, v, cur) := at_tok_nextbool cur true in
  let c := set_isMT (default (isMT c) v) c in
  if err <? 0 then ret (-1, c)
  else
  let '(err, v, cur) := at_tok_nextint cur in
  if err <? 0 then ret (-1, c)
  else
  match clccStateToRILState (default 0 v) with
  | None => ret (-1, c)
  | Some s =>
      let c := set_state s c in
      let* g := get_glob in
      let* n := defined (cache_name c (names g)) in
      put_glob (set_names n g) ;;
      let* c := defined (fill_name n c) in
      let '(err, v, cur) := at_tok_nextint cur in
      if err <? 0 then ret (-1, c)
      else
      let mode := default 0 v in
      let c := set_isVoice (if mode =? 0 then 1 else 0) c in
      if 20 <=? mode then ret (-1, c)
      else
      let '(err, v, cur) := at_tok_nextbool cur true in
      let c := set_isMpty (default (isMpty c) v) c in
      if err <? 0 then ret (-1, c)
      else if at_tok_hasmore cur then
        let '(err, v, cur) := at_tok_nextstr cur in
        let c := set_number (default (number c) v) c in
        if err <? 0 then ret (0, c)
        else
        let c := match number c with
                 | Some s => if dialable s then c else set_number None c
                 | None => c
                 end in
        let '(err, v, cur) := at_tok_nextint cur in
        let c := set_toa (default (toa c) v) c in
        if err <? 0 then ret (-1, c) else ret (0, c)
      else ret (0, c)
  end.

(** [slot] is the structure [p_calls[countValidCalls]], with a new name for every line. *)
Fixpoint clcc_loop (lines : list (list Z)) (slot : RIL_Call) (valid : list RIL_Call) : HM (list RIL_Call) :=
  match lines with
  | [] => ret valid
  | line :: lines' =>
      let* (err, c) := callFromCLCCLine line (set_name [] slot) in
      if negb (err =? 0) then clcc_loop lines' c valid
      else clcc_loop lines' zero_call (valid ++ [c])
  end.

(** [p0]: the pointer [p_response], which is not initialised. *)
Definition requestGetCurrentCalls (p0 t : Z) : HM unit :=
  let* (err, p) := at_send (bytes_of "AT+CLCC") (Lines (bytes_of "+CLCC:")) p0 in
  if p =? 0 then clearCnap ;; complete t RIL_E_GENERIC_FAILURE PNone
  else
    let* bad := (if negb (err =? 0) then ret true else let* r := deref p in ret (success r =? 0)) in
    if bad : bool then clearCnap ;; complete t RIL_E_GENERIC_FAILURE PNone ;; at_response_free p
    else
      let* r := deref p in
      let* calls := clcc_loop (p_intermediates r) zero_call [] in
      (if (length calls =? 0)%nat then clearCnap else ret tt) ;;
      complete t RIL_E_SUCCESS (PCalls calls) ;;
      at_response_free p.

(** The parts of [requestDial]: the domain of the call, the command, the call itself. *)
Definition dial_mode : HM Z :=
  let* g := get_glob in
  let '(cmd, flag) :=
    if bool_decide (dial_source g = IMSPHONE) then (bytes_of "AT+EVADSMOD=0", IMS)
    else (bytes_of "AT+EVADSMOD=1", GSM) in
  let* (err, p) := at_send cmd NoLine 0 in
  failed err p ;;
  update (fun v => set_dispatch flag (call_state v) (dial_source v) v) ;;
  ret p.

(** [None]: the number is too long.  NULL is printed as "(null)"; [strlen] of it is undefined. *)
Definition dial_command (address : option (list Z)) (clir : list Z) (isEmergency : bool) : HM (option (list Z)) :=
  if isEmergency then
    let* g := get_glob in
    (match nth 0 (setupCpiData g) None with
     | Some id =>
         if isRecvECPI0 g then
           put_glob (set_cpi (repeat None 9) false g) ;;
           at_send_no_out (bytes_of "AT+CHLD=1" ++ id) NoLine ;; ret tt
         else ret tt
     | None => ret tt
     end) ;;
    ret (Some (bytes_of "ATDE" ++ clir ++ default (bytes_of "(null)") address ++ bytes_of ";"))
  else
    let* number := defined address in
    if 40 <? zlen number then ret None
    else ret (Some (bytes_of "ATD" ++ clir ++ number ++ bytes_of ";")).

Definition dial_failed (v : CcVars) : CcVars :=
  if bool_decide (call_state v = pending_mo) then
    if inCallNumber v =? 0 then set_dispatch GSM none GSMPHONE v
    else set_dispatch (dispatch_flag v) none (dial_source v) v
  else v.

Definition dial_send (cmd : list Z) (p t : Z) : HM unit :=
  let* (err, p) := at_send cmd NoLine p in
  update (set_local_cause 0 0) ;;
  let* bad := failed err p in
  if bad : bool then
    update dial_failed ;;
    complete_for t RIL_E_GENERIC_FAILURE PNone ;;
    at_response_free p
  else
    complete_for t RIL_E_SUCCESS PNone ;;
    at_response_free p.

Definition requestDial (address : option (list Z)) (clir : Z) (isEmergency : bool) (t : Z) : HM unit :=
  let clir := if clir =? 1 then bytes_of "#31#" else if clir =? 2 then bytes_of "*31#" else [] in
  let* p := dial_mode in
  let* cmd := dial_command address clir isEmergency in
  match cmd with
  | None =>
      complete_for t RIL_E_CANCELLED PNone ;;
      at_response_free p ;;
      update (set_local_cause 1 28)
  | Some cmd => dial_send cmd p t
  end.

Definition requestHangup (line t : Z) : HM unit :=
  at_send_no_out (bytes_of "AT+CHLD=1" ++ dec line) NoLine ;;
  complete_for t RIL_E_SUCCESS PNone.

Definition requestHangupWaitingOrBackground (t : Z) : HM unit :=
  at_send_no_out (bytes_of "AT+CHLD=0") NoLine ;;
  complete t RIL_E_SUCCESS PNone.

Definition requestHangupForegroundResumeBackground (t : Z) : HM unit :=
  at_send_no_out (bytes_of "AT+CHLD=1") (Lines (bytes_of "NO CARRIER")) ;;
  complete t RIL_E_SUCCESS PNone.

Definition requestSwitchWaitingOrHoldingAndActive (t : Z) : HM unit :=
  let* g := get_glob in
  if inDTMF g then complete_for t RIL_E_CANCELLED PNone
  else
    let* (err, p) := at_send (bytes_of "AT+CHLD=2") NoLine 0 in
    let* bad := failed err p in
    if bad : bool then complete t RIL_E_GENERIC_FAILURE PNone ;; at_response_free p
    else complete_for t RIL_E_SUCCESS PNone ;; at_response_free p.

Definition requestAnswer (t : Z) : HM unit :=
  at_send_no_out (bytes_of "ATA") NoLine ;;
  complete_for t RIL_E_SUCCESS PNone.

Definition requestConference (t : Z) : HM unit :=
  let* g := get_glob in
  if inDTMF g then complete t RIL_E_CANCELLED PNone
  else
    let* (err, p) := at_send (bytes_of "AT+CHLD=3") NoLine 0 in
    let* bad := failed err p in
    if bad : bool then complete_for t RIL_E_GENERIC_FAILURE PNone ;; at_response_free p
    else complete_for t RIL_E_SUCCESS PNone ;; at_response_free p.

Definition requestUdub (t : Z) : HM unit :=
  at_send_no_out (bytes_of "ATH") NoLine ;;
  complete t RIL_E_SUCCESS PNone.

(** [cmd] has 12 characters. *)
Definition requestSeparateConnection (party t : Z) : HM unit :=
  let* g := get_glob in
  if inDTMF g then complete t RIL_E_CANCELLED PNone
  else if (0 <? party) && (party <? 10) then
    let* cmd := defined (strcpy 12 (bytes_of "AT+CHLD=2" ++ dec party)) in
    let* (err, p) := at_send cmd NoLine 0 in
    let* bad := failed err p in
    if bad : bool then at_response_free p ;; complete t RIL_E_GENERIC_FAILURE PNone
    else complete t RIL_E_SUCCESS PNone ;; at_response_free p
  else complete t RIL_E_GENERIC_FAILURE PNone.

Definition requestExplicitCallTransfer (t : Z) : HM unit :=
  let* g := get_glob in
  if inDTMF g then complete t RIL_E_CANCELLED PNone
  else
    let* (err, p) := at_send (bytes_of "AT+CHLD=4") NoLine 0 in
    let* bad := failed err p in
    if bad : bool then complete t RIL_E_GENERIC_FAILURE PNone ;; at_response_free p
    else complete t RIL_E_SUCCESS PNone ;; at_response_free p.

Definition requestLastCallFailCause (t : Z) : HM unit :=
  let finish cause vendor p :=
    complete_for t RIL_E_SUCCESS (PCause (translate_cause cause) vendor) ;; at_response_free p in
  let error p := complete_for t RIL_E_GENERIC_FAILURE PNone ;; at_response_free p in
  let* g := get_glob in
  if bUseLocalCallFailCause g =? 1 then finish (dialLastError g) None 0
  else
    let* (err, p) := at_send (bytes_of "AT+CEER") (OneLine (bytes_of "+CEER:")) 0 in
    let* bad := failed err p in
    if bad : bool then error p
    else
      let* line := first_line p in
      let '(err, cur) := at_tok_start (Some line) in
      if err <? 0 then error p
      else
        let '(err, cause, cur) := at_tok_nextint cur in
        if err <? 0 then error p
        else
          let '(err, vendor, cur) := at_tok_nextstr cur in
          if err <? 0 then error p
          else finish (default 0 cause) (default None vendor) p.

Definition requestDtmf (c t : Z) : HM unit :=
  at_send_no_out (cstr (bytes_of "AT+VTS=" ++ [c])) NoLine ;;
  complete_for t RIL_E_SUCCESS PNone.

(** * Lines of the modem *)

(** [%s] of NULL prints "(null)". *)
Definition onCnapNotification (s : list Z) (rid : Z) : HM unit :=
  let '(err, cur) := at_tok_start (Some s) in
  if err <? 0 then ret tt
  else
    let '(err, name, cur) := at_tok_nextstr cur in
    if err <? 0 then ret tt
    else
      let '(err, validity, cur) := at_tok_nextstr cur in
      if err <? 0 then ret tt
      else
        update (fun v => set_names (mkNames (snprintf (MAX_CNAP_LENGTH - 1) (default (bytes_of "(null)") (default None name)))
                                            (cachedClccName (names v))) v).

(** The number and the type have to be there; the rest is taken as far as it can be read. *)
Definition onCrssNotification (s : list Z) (code rid : Z) : HM unit :=
  let '(err, cur) := at_tok_start (Some s) in
  if err <? 0 then ret tt
  else
    let '(err, number, cur) := at_tok_nextstr cur in
    if err <? 0 then ret tt
    else
      let '(err, type, cur) := at_tok_nextint cur in
      if err <? 0 then ret tt
      else
        let '(alphaid, validity) :=
          (if at_tok_hasmore cur then
             let '(_, _, cur) := at_tok_nextstr cur in
             let '(_, _, cur) := at_tok_nextint cur in
             if at_tok_hasmore cur then
               let '(_, alphaid, cur) := at_tok_nextstr cur in
               let '(_, validity, cur) := at_tok_nextint cur in
               (default None alphaid, default 0 validity)
             else (None, 0)
           else (None, 0)) in
        let n := mkCrss code (default 0 type) (default None number) alphaid validity in
        RIL_onUnsolicitedResponseSocket RIL_UNSOL_CRSS_NOTIFICATION (mkData (isSimulateIms rid) (PCrss n)) rid.

(** A ring before the call was announced with [+ECPI: 0] is skipped; the first one after it
    reports the call. *)
Definition onRing (rid : Z) : HM unit :=
  let* v := get_glob in
  if negb (isRecvECPI0 v) then ret tt
  else
    put_glob (set_ringing (callWaiting v) true v) ;;
    let* v := get_glob in
    let ims := bool_decide (dispatch_flag v = IMS) in
    (match nth 0 (setupCpiData v) None with
     | Some _ =>
         (if negb ims then
            RIL_onUnsolicitedResponseSocket RIL_UNSOL_RESPONSE_CALL_STATE_CHANGED (plain PNone) rid
          else
            RIL_onUnsolicitedResponseSocket RIL_UNSOL_CALL_INFO_INDICATION (mkData true (PCpi (setupCpiData v))) rid) ;;
         put_glob (set_cpi (repeat None 9) (isRecvECPI0 v) v)
     | None => ret tt
     end) ;;
    if ims then RIL_onUnsolicitedResponseSocket RIL_UNSOL_CALL_RING (mkData true PNone) rid
    else if negb (isReplaceRequest v) then RIL_onUnsolicitedResponseSocket RIL_UNSOL_CALL_RING (plain PNone) rid
    else ret tt.

(** * Dispatch *)

Inductive cc_request :=
| GetCurrentCalls
| Dial (address : option (list Z)) (clir : Z)
| Hangup (line : Z)
| HangupWaitingOrBackground
| HangupForegroundResumeBackground
| SwitchWaitingOrHoldingAndActive
| Answer
| Conference
| Udub
| SeparateConnection (party : Z)
| ExplicitCallTransfer
| LastCallFailCause
| Dtmf (c : Z)
| EmergencyDial (address : option (list Z)) (clir : Z)
| VendorCc (request : Z)             (* requests of the closed part of the library *)
| NoCcRequest.                       (* any other request *)

(** [vendor] and [vendor_line] stand for the functions of the closed part. *)
Context (vendor : Z -> Z -> HM unit) (vendor_line : string -> list Z -> Z -> HM unit).

Definition rilCcMain (p0 : Z) (request : cc_request) (t : Z) : HM Z :=
  match request with
  | GetCurrentCalls => requestGetCurrentCalls p0 t ;; ret 1
  | Dial address clir => requestDial address clir false t ;; ret 1
  | Hangup line => requestHangup line t ;; ret 1
  | HangupWaitingOrBackground => requestHangupWaitingOrBackground t ;; ret 1
  | HangupForegroundResumeBackground => requestHangupForegroundResumeBackground t ;; ret 1
  | SwitchWaitingOrHoldingAndActive => requestSwitchWaitingOrHoldingAndActive t ;; ret 1
  | Answer => requestAnswer t ;; ret 1
  | Conference => requestConference t ;; ret 1
  | Udub => requestUdub t ;; ret 1
  | SeparateConnection party => requestSeparateConnection party t ;; ret 1
  | ExplicitCallTransfer => requestExplicitCallTransfer t ;; ret 1
  | LastCallFailCause => requestLastCallFailCause t ;; ret 1
  | Dtmf c => requestDtmf c t ;; ret 1
  | EmergencyDial address clir => requestDial address clir true t ;; ret 1
  | VendorCc request => vendor request t ;; ret 1
  | NoCcRequest => ret 0
  end.

(** The lines of the closed part, in the order in which they are looked for, each with the
    result: the line of an emergency category is handled and yet reported as not handled. *)
Definition vendor_lines : list (string * list string * Z) :=
  [("onCallProgressInfoCallStateChange", ["+ECPI"], 1); ("onSpeechInfo", ["+ESPEECH"], 1);
   ("onIncomingCallIndication", ["+EAIC"], 1); ("onCipherIndication", ["+ECIPH"], 1);
   ("onImsVopsSupport", ["+CIREPI"], 1); ("onEmbSupport", ["+CNEMIU"], 1);
   ("onEmergencyCallServiceCategoryIndication", ["+CEN1"; "+CEN2"], 0);
   ("onVoLteEconfSrvccIndication", ["+ECONFSRVCC"], 1); (EmptyString, ["+ECONFCHECK"], 1);
   ("onVoLteEconfResultIndication", ["+ECONF"], 1); ("onEpcNetworkFeatureInfoSupport", ["+EEMCINFO"], 1);
   ("onSrvccStateNotify", ["+CIREPH"], 1); ("onSpeechCodecInfo", ["+EVOCD"], 1);
   ("onSsacBarringInfo", ["+ESSAC"], 1); ("onSipCallProgressIndicator", ["+ESIPCPI"], 1);
   ("onAdsReport", ["+EVADSREP"], 1); ("onEmergencyBearerSupportInfo", ["+CNEMS1"], 1);
   ("onCallModeChangeIndicator", ["+EIMSCMODE"], 1); ("onVideoCapabilityIndicator", ["+EIMSVCAP"], 1)]%string.

Fixpoint vendor_dispatch (table : list (string * list string * Z)) (s : list Z) (rid : Z) : HM Z :=
  match table with
  | [] => ret 0
  | (handler, prefixes, result) :: table' =>
      if existsb (fun p => strStartsWith s (bytes_of p)) prefixes then
        (if String.eqb handler EmptyString then ret tt else vendor_line handler s rid) ;; ret result
      else vendor_dispatch table' s rid
  end.

(** Whether the line was one of these. *)
Definition rilCcUnsolicited (s : list Z) (rid : Z) : HM Z :=
  if strStartsWith s (bytes_of "RING") || strStartsWith s (bytes_of "+CRING") then onRing rid ;; ret 1
  else if strStartsWith s (bytes_of "+CCWA:") then
    update (fun v => set_ringing 1 (hasReceivedRing v) v) ;; onCrssNotification s 0 rid ;; ret 1
  else if strStartsWith s (bytes_of "+CDIP:") then onCrssNotification s 1 rid ;; ret 1
  else if strStartsWith s (bytes_of "+CLIP:") then onCrssNotification s 2 rid ;; ret 1
  else if strStartsWith s (bytes_of "+COLP:") then onCrssNotification s 3 rid ;; ret 1
  else if strStartsWith s (bytes_of "+CNAP:") then onCnapNotification s rid ;; ret 1
  else vendor_dispatch vendor_lines s rid.
End Handlers.

(** * The caches *)

(** A statement about a small range, case by case. *)
Lemma by_range (P : Z -> Prop) lo n z : Forall P (seqZ lo n) -> lo <= z < lo + n -> P z.
Proof. rewrite Forall_forall. intros Hall Hz. apply Hall, elem_of_seqZ. lia. Qed.

(** The caches hold what fits into them. *)
Record cc_ok (v : CcVars) : Prop := {
  co_cnap : zlen (cachedCnap (names v)) < MAX_CNAP_LENGTH;
  co_names : Forall (fun s => zlen s < MAX_CNAP_LENGTH) (cachedClccName (names v));
  co_count : zlen (cachedClccName (names v)) = MAX_GSMCALL_CONNECTIONS;
  co_cpi : zlen (setupCpiData v) = 9
}.

Lemma strcpy_fits size s : zlen s < size -> strcpy size s = Some s.
Proof. intros H. unfold strcpy. by rewrite (proj2 (Z.leb_le _ _)) by lia. Qed.

(** [cc_ok] depends on the caches and the length of [setupCpiData] alone. *)
Lemma cc_ok_same v v' : cc_ok v -> names v' = names v -> setupCpiData v' = setupCpiData v -> cc_ok v'.
Proof. intros [] E1 E2. split; by rewrite ?E1, ?E2. Qed.

Lemma cc_ok_cpi v b : cc_ok v -> cc_ok (set_cpi (repeat None 9) b v).
Proof. intros []. by split. Qed.

Lemma cc_ok_clear v : cc_ok v -> cc_ok (set_names clear_names v).
Proof. intros []. split; cbn; try done. by repeat constructor. Qed.

Lemma cc_ok_names v n : cc_ok v -> zlen (cachedCnap n) < MAX_CNAP_LENGTH ->
  Forall (fun s => zlen s < MAX_CNAP_LENGTH) (cachedClccName n) ->
  zlen (cachedClccName n) = MAX_GSMCALL_CONNECTIONS -> cc_ok (set_names n v).
Proof. intros []. by split. Qed.

Lemma in_range_slot i : in_range i = true -> (slot i < 7)%nat.
Proof. unfold in_range, slot, MAX_GSMCALL_CONNECTIONS. intros. reflect_bools. lia. Qed.

(** The first part of a line: the announced name is moved to the call's slot. *)
Lemma cache_name_ok c v : cc_ok v -> exists n, cache_name c (names v) = Some n /\ cc_ok (set_names n v).
Proof.
  intros Hv. pose proof Hv as [Hc Hn Hl _]. unfold cache_name.
  destruct (_ && in_range (index c)); [|eexists; split; [done|by apply cc_ok_names]].
  destruct (0 <? zlen (cachedCnap (names v))).
  - rewrite strcpy_fits by done. eexists. split; [done|]. apply cc_ok_names; cbn; [done|done| |].
    + by repeat apply Forall_insert.
    + unfold zlen. by rewrite !length_insert.
  - eexists. split; [done|]. apply cc_ok_names; cbn; [done|done| |].
    + by apply Forall_insert.
    + unfold zlen. by rewrite length_insert.
Qed.

Lemma nth_fits l k : Forall (fun s : list Z => zlen s < MAX_CNAP_LENGTH) l -> zlen (nth k l []) < MAX_CNAP_LENGTH.
Proof.
  intros Hl. destruct (Nat.ltb_spec k (length l)); [|by rewrite nth_overflow by lia].
  rewrite List.Forall_forall in Hl. apply Hl, nth_In. lia.
Qed.

Lemma fill_name_ok c n v : cc_ok (set_names n v) -> exists c', fill_name n c = Some c'.
Proof.
  intros [_ Hn _ _]. unfold fill_name. destruct (in_range _); [|eauto]. destruct (0 <? _); [|eauto].
  rewrite strcpy_fits by (by apply nth_fits). eauto.
Qed.

(** * Every request is completed once *)

Section Serves.
Context `{Modem cc_data} (socket_of : Z -> Z).

Abbreviation W := (World cc_data CcVars).

Lemma wp_defined {A} (x : option A) a Q (w : W) : x = Some a -> Q a w -> wp (defined x) Q w.
Proof. by intros ->. Qed.

(** Only the caches change while a line is read. *)
Definition names_only (w w' : W) : Prop :=
  live w' = live w /\ fresh w' = fresh w /\ acts w' = acts w /\ cc_ok (glob w') /\ setupCpiData (glob w') = setupCpiData (glob w).

Lemma wp_line line c Q w : cc_ok (glob w) -> (forall r w', names_only w w' -> Q r w') ->
  wp (callFromCLCCLine line c) Q w.
Proof.
  intros Hv HQ. assert (Hsame : names_only w w) by (by unfold names_only).
  unfold callFromCLCCLine. repeat (wp_step; try (by apply HQ));
  match goal with E : cache_name ?c' _ = _ |- _ => destruct (cache_name_ok c' (glob w) Hv) as (n' & En & Hok) end;
  simplify_eq; try (by apply HQ; unfold names_only; cbn).
  match goal with E : fill_name _ ?c' = None |- _ => destruct (fill_name_ok c' _ _ Hok); congruence end.
Qed.

Lemma names_only_trans w w1 w2 : names_only w w1 -> names_only w1 w2 -> names_only w w2.
Proof. unfold names_only. intros (-> & -> & -> & _ & <-) (? & ? & ? & ? & ?). done. Qed.

Lemma wp_clcc lines : forall c valid Q w, cc_ok (glob w) -> (forall r w', names_only w w' -> Q r w') ->
  wp (clcc_loop lines c valid) Q w.
Proof.
  induction lines as [|line lines IH]; intros c valid Q w Hv HQ; cbn [clcc_loop].
  - apply wp_ret, HQ. by unfold names_only.
  - apply wp_bind, wp_line; [done|]. intros [err c'] w1 Hw1.
    assert (Hgo : forall r w', names_only w1 w' -> Q r w') by (intros; by eapply HQ, names_only_trans).
    destruct (negb _); apply IH; try done; apply Hw1.
Qed.

(** A request that is completed exactly once, with what it leaves on the heap. *)
Definition cc_served (t : Z) (leak : bool) (w w' : W) : Prop :=
  world_ok w' /\ cc_ok (glob w') /\
  (if leak then live w ⊆ live w' else live w' = live w) /\
  exists l, acts w' = acts w ++ l /\ completions l = [t].

Lemma dec_digit n : 0 < n < 10 -> zlen (dec n) = 1.
Proof. intros Hn. apply (by_range (fun n => zlen (dec n) = 1) 1 9); [decide_closed|lia]. Qed.

Lemma separate_fits party : 0 < party < 10 ->
  strcpy 12 (bytes_of "AT+CHLD=2" ++ dec party) = Some (bytes_of "AT+CHLD=2" ++ dec party).
Proof. intros Hp. apply strcpy_fits. rewrite zlen_app, dec_digit by done. done. Qed.
End Serves.

Ltac world_same := match goal with Hw : world_ok _ |- _ => apply (world_ok_same _ _ Hw); [reflexivity|cbn; lia] end.

Ltac cc_glob :=
  cbn [glob];
  first [ assumption
        | eapply cc_ok_same; [eassumption|done|done]
        | by apply cc_ok_clear ].

Ltac cc_end :=
  lazymatch goal with |- _ = _ /\ _ => split; [done|] | _ => idtac end;
  unfold cc_served; cbn [live fresh acts glob];
  split; [world_tac|split; [cc_glob|split; [done|eexists; split; [by rewrite <- ?app_assoc|done]]]].

Ltac cc_auto := unfold complete_for, complete, IMS_RIL_onRequestComplete, clearCnap, update; repeat wp_step; try cc_end.

Section Served.
Context `{Modem cc_data} (socket_of : Z -> Z).

(** What has to hold so that a request is safe: the pointer that [requestGetCurrentCalls] does
    not initialise is NULL or gets a value, and the address of a call is not NULL. *)
Definition cc_request_ok (p0 : Z) (r : cc_request) : Prop :=
  match r with
  | GetCurrentCalls => p0 = 0 \/ answered (D := cc_data)
  | Dial address _ => address <> None
  | VendorCc _ | NoCcRequest => False
  | _ => True
  end.

(** The requests that leave a response on the heap. *)
Definition leaks (r : cc_request) : bool :=
  match r with Dial _ _ | EmergencyDial _ _ => true | _ => false end.

Definition simple (r : cc_request) : Prop :=
  match r with GetCurrentCalls | Dial _ _ | EmergencyDial _ _ | VendorCc _ | NoCcRequest => False | _ => True end.

Lemma simple_served vendor p0 r t (w : World cc_data CcVars) : simple r -> world_ok w -> cc_ok (glob w) ->
  wp (rilCcMain socket_of vendor p0 r t) (fun res w' => res = 1 /\ cc_served t false w w') w.
Proof.
  intros Hs Hw Hv. destruct r; try done; cbn [rilCcMain].
  all: unfold requestHangup, requestHangupWaitingOrBackground, requestHangupForegroundResumeBackground,
    requestSwitchWaitingOrHoldingAndActive, requestAnswer, requestConference, requestUdub, requestSeparateConnection,
    requestExplicitCallTransfer, requestLastCallFailCause, requestDtmf; cc_auto.
  all: reflect_bools; rewrite separate_fits in * by done; done.
Qed.

(** The end of [requestGetCurrentCalls], with a response. *)
Lemma calls_served_at a r t err w :
  world_ok w -> cc_ok (glob w) -> 0 <> a -> live w !! a = None ->
  wp (let* bad := (if negb (err =? 0) then ret true else let* r := deref a in ret (success r =? 0)) in
      if bad : bool then clearCnap ;; complete t RIL_E_GENERIC_FAILURE PNone ;; at_response_free a
      else
        let* r := deref a in
        let* calls := clcc_loop (p_intermediates r) zero_call [] in
        (if (length calls =? 0)%nat then clearCnap else ret tt) ;;
        complete t RIL_E_SUCCESS (PCalls calls) ;;
        at_response_free a)
    (fun _ w' => cc_served t false w w')
    (mkWorld (<[a := r]> (live w)) (fresh w + 1) (acts w ++ [Cmd (bytes_of "AT+CLCC") (Lines (bytes_of "+CLCC:"))]) (glob w)).
Proof.
  intros Hw Hv Ha Hn. cc_auto.
  apply wp_clcc; [done|]. intros calls w' (Hl & Hf & Hac & Hok & Hcpi). destruct w' as [l f ac g]. cbn in *. subst l f ac.
  repeat wp_step; cc_end.
Qed.

Lemma calls_served p0 t (w : World cc_data CcVars) : world_ok w -> cc_ok (glob w) ->
  p0 = 0 \/ answered -> wp (requestGetCurrentCalls p0 t) (fun _ w' => cc_served t false w w') w.
Proof.
  intros Hw Hv Hp. unfold requestGetCurrentCalls. apply wp_bind.
  assert (Hnew : forall err a r, 0 <> a -> live w !! a = None ->
    wp (if a =? 0 then clearCnap ;; complete t RIL_E_GENERIC_FAILURE PNone else _) (fun _ w' => cc_served t false w w') _)
    by (intros err a r Ha Hn; rewrite (proj2 (Z.eqb_neq a 0)) by lia; by apply (calls_served_at a r t err)).
  destruct Hp as [-> | Hans].
  - apply wp_send; [done| |auto]. intros err Herr. cc_auto.
  - apply wp_send_answered; [done|done|]. auto.
Qed.

(** Nothing was completed yet. *)
Definition quiet (w w' : World cc_data CcVars) : Prop :=
  world_ok w' /\ cc_ok (glob w') /\ exists l, acts w' = acts w ++ l /\ completions l = [].

Lemma wp_dial_mode Q (w : World cc_data CcVars) : world_ok w -> cc_ok (glob w) ->
  (forall w', quiet w w' -> live w' = live w -> Q 0 w') ->
  (forall p r w', quiet w w' -> 0 <> p -> live w !! p = None -> live w' = <[p := r]> (live w) -> Q p w') ->
  wp dial_mode Q w.
Proof.
  intros Hw Hv H0 Hp. unfold dial_mode, update. apply wp_bind, wp_get.
  destruct (if bool_decide (dial_source (glob w) = IMSPHONE) then _ else _) as [cmd flag].
  apply wp_bind, wp_send_any; [done|intros err q Herr [-> | ->]|intros err p r w' Herr Hp0 Hn Hs Hw' ->]; repeat wp_step.
  1-2: apply H0; [|done].
  3-5: eapply Hp; [|done..].
  all: split; [cbn; world_same|split; [cc_glob|by eexists]].
Qed.

Lemma wp_dial_command address clir emergency Q (w : World cc_data CcVars) : world_ok w -> cc_ok (glob w) ->
  emergency = true \/ address <> None ->
  (forall cmd w', quiet w w' -> live w' = live w -> Q cmd w') ->
  wp (dial_command address clir emergency) Q w.
Proof.
  intros Hw Hv Ha HQ.
  assert (Hsame : forall cmd, Q cmd w).
  { intros cmd. apply HQ; [|done]. split; [done|]. split; [done|]. exists []. by rewrite app_nil_r. }
  unfold dial_command. repeat (wp_step; try apply Hsame).
  - apply HQ; [|done]. split; [cbn; world_same|]. split; [by apply cc_ok_cpi|by eexists].
  - by destruct Ha.
Qed.

(** The end of a request that was quiet until now. *)
Lemma served_later t leak d e (w w1 : World cc_data CcVars) h f g l :
  quiet w w1 -> completions l = [] -> world_ok (mkWorld h f (acts w1 ++ l ++ [Complete t e d]) g) -> cc_ok g ->
  (if leak : bool then live w ⊆ h else h = live w) ->
  cc_served t leak w (mkWorld h f (acts w1 ++ l ++ [Complete t e d]) g).
Proof.
  intros (_ & _ & k & Hk & Hc) Hl Hw Hg Hh. split; [done|]. split; [done|]. split; [done|].
  exists (k ++ l ++ [Complete t e d]). cbn. rewrite Hk, <- app_assoc. split; [done|].
  unfold completions in *. by rewrite !omap_app, Hc, Hl.
Qed.

Lemma wp_free_any p Q (w : World cc_data CcVars) :
  (p = 0 /\ Q tt w \/
   p <> 0 /\ (exists r, live w !! p = Some r) /\ Q tt (mkWorld (delete p (live w)) (fresh w) (acts w) (glob w))) ->
  wp (at_response_free p) Q w.
Proof.
  unfold wp, at_response_free. intros [[-> HQ]|(Hp & [r Hr] & HQ)]; [done|].
  rewrite (proj2 (Z.eqb_neq p 0)) by done. by rewrite Hr.
Qed.

Lemma subseteq_delete (h k : gmap Z ATResponse) p : h ⊆ k -> h !! p = None -> h ⊆ delete p k.
Proof.
  intros Hs Hp. apply map_subseteq_spec. intros i x Hi. rewrite lookup_delete_ne by congruence. by eapply lookup_weaken.
Qed.

Lemma world_ok_delete p (w : World cc_data CcVars) (l : list (act cc_data)) (g : CcVars) :
  world_ok w -> world_ok (mkWorld (delete p (live w)) (fresh w) l g).
Proof. intros [H1 H2]. split; [done|]. intros a r. cbn. rewrite lookup_delete_Some. intros [_ Ha]. by eapply H2. Qed.

Lemma cc_ok_failed v : cc_ok v -> cc_ok (dial_failed (set_local_cause 0 0 v)).
Proof. intros Hv. unfold dial_failed. repeat case_match; by eapply cc_ok_same. Qed.

(** The call: [p] is NULL or a response that the call may leave behind. *)
Lemma wp_dial_send cmd p t (w w1 : World cc_data CcVars) : quiet w w1 -> live w ⊆ live w1 ->
  (p = 0 \/ live w !! p = None /\ exists r, live w1 !! p = Some r) ->
  wp (dial_send socket_of cmd p t) (fun _ w' => cc_served t true w w') w1.
Proof.
  intros Hq Hsub Hp. pose proof Hq as (Hw & Hv & _). pose proof (cc_ok_failed _ Hv) as Hf.
  assert (Hl : cc_ok (set_local_cause 0 0 (glob w1))) by (by apply (cc_ok_same (glob w1))).
  unfold dial_send, complete_for, complete, IMS_RIL_onRequestComplete, update.
  apply wp_bind, wp_send_any; [done|intros err q Herr Hq0|intros err a r w' Herr Ha Hn Hs Hw' ->].
  - assert (Hq1 : q = 0 \/ live w !! q = None /\ exists r, live w1 !! q = Some r) by (destruct Hq0 as [-> | ->]; auto).
    apply wp_bind, wp_bind, wp_get, wp_put, wp_bind. unfold failed. rewrite (proj2 (Z.ltb_lt err 0)) by done. apply wp_ret.
    apply wp_bind, wp_bind, wp_get, wp_put, wp_bind. destruct (IMS_isRilRequestFromIms socket_of t); apply wp_act, wp_free_any.
    all: cbn [live fresh acts glob]; rewrite <- app_assoc.
    all: destruct Hq1 as [-> | (Hn & r & Hr)]; [left|right; destruct (wo_live _ Hw _ _ Hr)].
    all: split_and!; eauto; try lia; apply (served_later t true); try done; cbn; try world_same; try by apply world_ok_delete.
    all: by apply subseteq_delete.
  - assert (Hh : live w ⊆ live w1) by done. repeat wp_step.
    all: rewrite <- app_assoc; apply (served_later t true); try done; cbn; world_same.
Qed.

Lemma quiet_trans w w1 w2 : quiet w w1 -> quiet w1 w2 -> quiet w w2.
Proof.
  intros (_ & _ & l & Hl & Hc) (H1 & H2 & l' & Hl' & Hc'). split; [done|]. split; [done|]. exists (l ++ l').
  rewrite Hl', Hl, <- app_assoc. split; [done|]. unfold completions in *. by rewrite omap_app, Hc, Hc'.
Qed.

(** After the command has been chosen. *)
Lemma wp_dial_rest cmd p t (w w1 : World cc_data CcVars) : quiet w w1 -> live w ⊆ live w1 ->
  (p = 0 \/ live w !! p = None /\ exists r, live w1 !! p = Some r) ->
  wp (match cmd with
      | None => complete_for socket_of t RIL_E_CANCELLED PNone ;; at_response_free p ;; update (set_local_cause 1 28)
      | Some cmd => dial_send socket_of cmd p t
      end) (fun _ w' => cc_served t true w w') w1.
Proof.
  intros Hq Hsub Hp. destruct cmd as [cmd|]; [by apply wp_dial_send|]. pose proof Hq as (Hw & Hv & _).
  assert (Hl : cc_ok (set_local_cause 1 28 (glob w1))) by (by apply (cc_ok_same (glob w1))).
  unfold complete_for, complete, IMS_RIL_onRequestComplete, update. apply wp_bind.
  destruct (IMS_isRilRequestFromIms socket_of t); apply wp_act, wp_bind, wp_free_any; cbn [live fresh acts glob].
  all: destruct Hp as [-> | (Hn & r & Hr)]; [left|right; destruct (wo_live _ Hw _ _ Hr)]; split_and!; eauto; try lia.
  all: apply wp_bind, wp_get, wp_put, (served_later t true _ _ w w1 _ _ _ []); try done; cbn; try world_same;
    solve [by apply world_ok_delete|by apply subseteq_delete].
Qed.

Lemma dial_served address clir emergency t (w : World cc_data CcVars) : world_ok w -> cc_ok (glob w) ->
  emergency = true \/ address <> None ->
  wp (requestDial socket_of address clir emergency t) (fun _ w' => cc_served t true w w') w.
Proof.
  intros Hw Hv Ha. unfold requestDial. cbv zeta.
  apply wp_bind, wp_dial_mode; [done|done|intros w1 Hq1 Hl1|intros p r w1 Hq1 Hp Hn Hl1];
    apply wp_bind, wp_dial_command; try apply Hq1; try done; intros cmd w2 Hq2 Hl2;
    (apply wp_dial_rest; [by eapply quiet_trans|rewrite Hl2, Hl1|]).
  - done.
  - by left.
  - by apply insert_subseteq.
  - right. split; [done|]. exists r. rewrite Hl2, Hl1. apply lookup_insert_eq.
Qed.
End Served.


(** * The list of calls *)

(** A call of the modem: index, direction, state, mode, whether it belongs to a conference, and
    the number with its type. *)
Record clcc := mkClcc {
  cl_index : Z;
  cl_isMT : Z;
  cl_state : Z;
  cl_mode : Z;
  cl_isMpty : Z;
  cl_address : option (list Z * Z)
}.

Definition clcc_ok (c : clcc) : Prop :=
  is_int (cl_index c) /\ (cl_isMT c = 0 \/ cl_isMT c = 1) /\ 0 <= cl_state c <= 5 /\ is_int (cl_mode c) /\
  (cl_isMpty c = 0 \/ cl_isMpty c = 1) /\
  match cl_address c with Some (number, toa) => (QUOTE ∉ number) /\ is_int toa | None => True end.

Definition clcc_fields (c : clcc) : list field :=
  [FInt (cl_index c); FInt (cl_isMT c); FInt (cl_state c); FInt (cl_mode c); FInt (cl_isMpty c)] ++
  match cl_address c with Some (number, toa) => [FStr number; FInt toa] | None => [] end.

(** [+CLCC: 1,0,2,0,0,"+18005551212",145] *)
Definition clcc_line (c : clcc) : list Z := bytes_of "+CLCC" ++ COLON :: 32 :: print_fields (clcc_fields c).

(** Whether a call rings and can take the announced name. *)
Definition takes_name (c : clcc) : bool := (4 <=? cl_state c) && in_range (cl_index c).

Definition call_of (c : clcc) (name : list Z) : RIL_Call :=
  mkCall (default RIL_CALL_ACTIVE (clccStateToRILState (cl_state c))) (cl_index c)
    (from_option snd 0 (cl_address c)) (cl_isMpty c) (cl_isMT c) (if cl_mode c =? 0 then 1 else 0)
    ('(number, _) ← cl_address c; if dialable number then Some number else None) name.

(** The calls that are reported: [announced] is the name of the last [+CNAP], [known] the names
    of the calls.  Calls of the IMS service (mode 20 and above) are left out. *)
Fixpoint reported (announced : list Z) (known : Z -> list Z) (cs : list clcc) : list RIL_Call :=
  match cs with
  | [] => []
  | c :: cs' =>
      let known' := if takes_name c then fun i => if i =? cl_index c then announced else known i else known in
      let rest := reported (if takes_name c then [] else announced) known' cs' in
      if 20 <=? cl_mode c then rest
      else call_of c (if in_range (cl_index c) then known' (cl_index c) else []) :: rest
  end.

(** ** Reading a line *)

Definition cursor_at (fs : list field) : cursor := match fs with [] => None | _ => Some (print_fields fs) end.

Lemma nextint_field n fs : is_int n -> at_tok_nextint (cursor_at (FInt n :: fs)) = (0, Some n, cursor_at fs).
Proof.
  intros Hn. unfold cursor_at at 1. rewrite print_fields_cons. fold (cursor_at fs).
  pose proof (read_field_print (FInt n) (cursor_at fs) Hn) as Hr. cbn [read_field print_field behind] in *.
  destruct (at_tok_nextint _) as [[err v] p]. destruct err; try done. destruct v as [v|]; try done. congruence.
Qed.

Lemma nextint_blank n fs : is_int n -> at_tok_nextint (Some (32 :: print_fields (FInt n :: fs))) = (0, Some n, cursor_at fs).
Proof.
  intros Hn. rewrite <- nextint_field by done. unfold cursor_at, at_tok_nextint, at_tok_nextint_base, nextTok.
  by rewrite skipWhiteSpace_blank.
Qed.

Lemma nextbool_field n fs : n = 0 \/ n = 1 -> at_tok_nextbool (cursor_at (FInt n :: fs)) true = (0, Some n, cursor_at fs).
Proof.
  intros Hn. unfold at_tok_nextbool. rewrite nextint_field by (unfold is_int; lia). by destruct Hn as [-> | ->].
Qed.

Lemma nextstr_field s f fs : (QUOTE ∉ s) ->
  at_tok_nextstr (cursor_at (FStr s :: f :: fs)) = (0, Some (Some s), cursor_at (f :: fs)).
Proof.
  intros Hs. unfold cursor_at at 1. rewrite print_fields_cons. 
  pose proof (read_field_print (FStr s) (cursor_at (f :: fs)) Hs) as Hr. cbn [read_field print_field behind cursor_at] in *.
  destruct (at_tok_nextstr _) as [[err v] p]. destruct err; try done. destruct v as [[v|]|]; try done. congruence.
Qed.

Lemma hasmore_field f fs : field_ok f -> at_tok_hasmore (cursor_at (f :: fs)) = true.
Proof.
  intros Hf. unfold cursor_at. rewrite print_fields_cons. destruct f as [n|s|s]; cbn [print_field field_ok] in *.
  - by destruct (dec_head n) as (c & s & -> & _).
  - done.
  - destruct s; [by destruct Hf|done].
Qed.

(** ** The caches *)

Definition cache_rel (announced : list Z) (known : Z -> list Z) (n : NameCache) : Prop :=
  cachedCnap n = announced /\ forall i, in_range i = true -> nth (slot i) (cachedClccName n) [] = known i.

Lemma nth_insert_eq k (l : list (list Z)) s : (k < length l)%nat -> nth k (<[k := s]> l) [] = s.
Proof. intros Hk. rewrite nth_lookup, list_lookup_insert_eq by done. done. Qed.

Lemma nth_insert_ne j k (l : list (list Z)) s : j <> k -> nth k (<[j := s]> l) [] = nth k l [].
Proof. intros Hk. by rewrite !nth_lookup, list_lookup_insert_ne. Qed.

Lemma slot_inj i j : in_range i = true -> in_range j = true -> slot i = slot j -> i = j.
Proof. unfold in_range, slot. intros. reflect_bools. lia. Qed.

Lemma ringing_state z s : clccStateToRILState z = Some s ->
  bool_decide (s = RIL_CALL_INCOMING) || bool_decide (s = RIL_CALL_WAITING) = (4 <=? z).
Proof.
  intros E. assert (0 <= z <= 5) as Hz.
  { destruct z as [|p|p]; [lia| |done]. do 3 (destruct p; try done); lia. }
  revert s E. apply (by_range (fun z => forall s, clccStateToRILState z = Some s ->
    bool_decide (s = RIL_CALL_INCOMING) || bool_decide (s = RIL_CALL_WAITING) = (4 <=? z)) 0 6); [|lia].
  repeat constructor; by intros ? [= <-].
Qed.

Lemma state_known z : 0 <= z <= 5 -> exists s, clccStateToRILState z = Some s.
Proof. intros Hz. apply (by_range (fun z => exists s, clccStateToRILState z = Some s) 0 6); [repeat constructor; by eexists|lia]. Qed.

(** What a line does to the caches. *)
Definition after_call (c : clcc) (announced : list Z) (known : Z -> list Z) (n : NameCache) : Prop :=
  cache_rel (if takes_name c then [] else announced)
    (if takes_name c then fun i => if i =? cl_index c then announced else known i else known) n.

Lemma cache_name_rel c0 c v announced known : cc_ok v -> cache_rel announced known (names v) ->
  index c0 = cl_index c -> clccStateToRILState (cl_state c) = Some (state c0) ->
  exists n, cache_name c0 (names v) = Some n /\ cc_ok (set_names n v) /\ after_call c announced known n.
Proof.
  intros Hv [Ha Hk] Hi Hs. destruct (cache_name_ok c0 v Hv) as (n & En & Hn). exists n. split; [done|]. split; [done|].
  revert En. unfold cache_name, after_call, takes_name. rewrite (ringing_state _ _ Hs), Hi.
  destruct ((4 <=? cl_state c) && in_range (cl_index c)) eqn:Et; [|by intros [= <-]].
  apply andb_true_iff in Et as [_ Hr]. pose proof (in_range_slot _ Hr) as Hsl.
  assert (Hlen : length (cachedClccName (names v)) = 7%nat) by (pose proof (co_count _ Hv) as Hc; unfold zlen, MAX_GSMCALL_CONNECTIONS in Hc; lia).
  assert (Hgo : forall s, s = announced -> cache_rel [] (fun i => if i =? cl_index c then announced else known i)
    (mkNames [] (<[slot (cl_index c) := s]> (cachedClccName (names v))))).
  { intros s ->. split; [done|]. intros i Hir. cbn [cachedClccName]. destruct (Z.eqb_spec i (cl_index c)) as [-> | Hne].
    - apply nth_insert_eq. lia.
    - rewrite nth_insert_ne; [by apply Hk|]. intros E. by apply Hne, slot_inj. }
  destruct (Z.ltb_spec 0 (zlen (cachedCnap (names v)))) as [Hz|Hz].
  - rewrite strcpy_fits by apply Hv. cbn [mbind option_bind]. intros [= <-]. rewrite list_insert_insert_eq. by apply Hgo.
  - intros [= <-]. rewrite Ha in *. destruct announced as [|x l]; [by apply Hgo|]. rewrite zlen_cons in Hz. unfold zlen in Hz. lia.
Qed.

Lemma fill_name_rel c0 c v n announced known : cc_ok (set_names n v) -> after_call c announced known n ->
  index c0 = cl_index c -> name c0 = [] ->
  fill_name n c0 = Some (set_name (if in_range (cl_index c) then
    (if takes_name c then announced else known (cl_index c)) else []) c0).
Proof.
  intros Hn Ha Hi He. unfold fill_name. rewrite Hi.
  assert (Hkeep : set_name [] c0 = c0) by (destruct c0; cbn in *; by subst).
  destruct (in_range (cl_index c)) eqn:Er; [|by rewrite Hkeep].
  assert (Hnth : nth (slot (cl_index c)) (cachedClccName n) [] = if takes_name c then announced else known (cl_index c)).
  { destruct Ha as [_ Hk]. rewrite (Hk _ Er). destruct (takes_name c); [|done]. by rewrite Z.eqb_refl. }
  pose proof (nth_fits _ (slot (cl_index c)) (co_names _ Hn)) as Hf. cbn [names set_names] in Hf. rewrite Hnth in *.
  destruct (Z.ltb_spec 0 (zlen (if takes_name c then announced else known (cl_index c)))) as [Hz|Hz].
  - by rewrite strcpy_fits.
  - destruct (if takes_name c then announced else known (cl_index c)) as [|x l]; [by rewrite Hkeep|].
    rewrite zlen_cons in Hz. unfold zlen in Hz. lia.
Qed.

Section Reported.
Context `{Modem cc_data}.

(** The two ends of a line: left out, or a call. *)
Definition line_result (c : clcc) (name : list Z) (r : Z * RIL_Call) : Prop :=
  if 20 <=? cl_mode c then r.1 = -1 /\ number r.2 = None /\ toa r.2 = 0
  else r = (0, call_of c name).

Lemma read_line c c0 (w : World cc_data CcVars) announced known :
  clcc_ok c -> cc_ok (glob w) -> cache_rel announced known (names (glob w)) ->
  number c0 = None -> toa c0 = 0 -> name c0 = [] ->
  exists n r, callFromCLCCLine (clcc_line c) c0 w = Done r (mkWorld (live w) (fresh w) (acts w) (set_names n (glob w))) /\
    cc_ok (set_names n (glob w)) /\ after_call c announced known n /\
    line_result c (if in_range (cl_index c) then (if takes_name c then announced else known (cl_index c)) else []) r.
Proof.
  intros (Hi & Hmt & Hs & Hm & Hp & Ha) Hv Hrel Hnum Htoa Hname.
  unfold callFromCLCCLine, clcc_line, clcc_fields. rewrite at_tok_start_prefix by decide_closed. cbn [app].
  change (0 <? 0) with false. cbv iota. rewrite nextint_blank by done. change (0 <? 0) with false. cbv iota zeta.
  rewrite nextbool_field by done. change (0 <? 0) with false. cbv iota zeta.
  rewrite nextint_field by (unfold is_int; lia). change (0 <? 0) with false. cbv iota zeta.
  destruct (state_known _ Hs) as [s Es]. change (default 0 (Some (cl_state c))) with (cl_state c).
  rewrite Es.
  set (c1 := set_state s (set_isMT (cl_isMT c) (set_index (cl_index c) c0))).
  change (set_state s _) with c1.
  destruct (cache_name_rel c1 c (glob w) announced known Hv Hrel eq_refl Es) as (n & En & Hn & Hafter).
  pose proof (fill_name_rel c1 c (glob w) n announced known Hn Hafter eq_refl Hname) as Ef.
  set (nm := if in_range (cl_index c) then _ else _) in *. exists n.
  unfold bind, get_glob, put_glob. rewrite En. cbn [defined ret]. rewrite Ef. cbn [defined ret glob live fresh acts].
  rewrite nextint_field by done. change (0 <? 0) with false. cbv iota zeta. change (default 0 (Some (cl_mode c))) with (cl_mode c).
  unfold line_result. destruct (20 <=? cl_mode c).
  { eexists. split; [reflexivity|]. by cbn. }
  rewrite nextbool_field by done. change (0 <? 0) with false. cbv iota zeta.
  unfold call_of. rewrite Es. destruct c0 as [st ix to mp mt' iv nu na]. cbn in Hnum, Htoa, Hname. subst nu to na.
  destruct (cl_address c) as [[num ty]|]; cbn [app].
  - rewrite hasmore_field, nextstr_field by apply Ha. change (0 <? 0) with false. cbv iota zeta.
    rewrite nextint_field by apply Ha. cbn. destruct (dialable num); eexists; done.
  - eexists. done.
Qed.

Lemma read_lines cs : forall c0 valid (w : World cc_data CcVars) announced known,
  Forall clcc_ok cs -> cc_ok (glob w) -> cache_rel announced known (names (glob w)) -> number c0 = None -> toa c0 = 0 ->
  exists n, clcc_loop (map clcc_line cs) c0 valid w =
      Done (valid ++ reported announced known cs) (mkWorld (live w) (fresh w) (acts w) (set_names n (glob w))) /\
    cc_ok (set_names n (glob w)).
Proof.
  induction cs as [|c cs IH]; intros c0 valid w announced known Hcs Hv Hrel Hnum Htoa; cbn [map clcc_loop reported].
  - exists (names (glob w)). rewrite app_nil_r. destruct w as [l f a g]. by destruct g.
  - apply Forall_cons in Hcs as [Hc Hcs].
    destruct (read_line c (set_name [] c0) w announced known Hc Hv Hrel Hnum Htoa eq_refl) as (n & r & E & Hn & Ha & Hr).
    pose proof (fun c' v => IH c' v (mkWorld (live w) (fresh w) (acts w) (set_names n (glob w))) _ _ Hcs Hn Ha) as IH'.
    unfold bind. rewrite E. unfold line_result in Hr. destruct (20 <=? cl_mode c).
    + destruct r as [err c1]. destruct Hr as (Herr & Hnum1 & Htoa1). cbn in Herr, Hnum1, Htoa1. subst err. by apply IH'.
    + subst r. destruct (IH' zero_call (valid ++ [call_of c (if in_range (cl_index c) then
        (if takes_name c then announced else known (cl_index c)) else [])]) eq_refl eq_refl) as (n' & E' & Hn').
      exists n'. split; [|done]. cbn. rewrite E', <- app_assoc. cbn. do 4 f_equal.
      destruct (takes_name c); [|done]. by rewrite Z.eqb_refl.
Qed.
End Reported.


(** * Lines of the modem *)

(** The lines that ril_cc.c handles itself. *)
Definition ring_line (s : list Z) : bool := strStartsWith s (bytes_of "RING") || strStartsWith s (bytes_of "+CRING").

Definition own_line (s : list Z) : bool :=
  ring_line s || existsb (fun p => strStartsWith s (bytes_of p)) ["+CCWA:"; "+CDIP:"; "+CLIP:"; "+COLP:"; "+CNAP:"]%string.

Section Lines.
Context `{Modem cc_data} (isSimulateIms : Z -> bool) (vendor_line : string -> list Z -> Z -> M cc_data CcVars unit).

(** Nothing but messages to the framework. *)
Definition cc_heard (w w' : World cc_data CcVars) : Prop :=
  live w' = live w /\ world_ok w' /\ cc_ok (glob w') /\
  exists l, acts w' = acts w ++ l /\ Forall (fun a => match a with Unsol _ _ _ => True | _ => False end) l.

Lemma heard_same (w : World cc_data CcVars) : world_ok w -> cc_ok (glob w) -> cc_heard w w.
Proof. intros Hw Hv. split; [done|]. split; [done|]. split; [done|]. exists []. by rewrite app_nil_r. Qed.

Lemma cnap_fits s v : cc_ok v -> cc_ok (set_names (mkNames (snprintf (MAX_CNAP_LENGTH - 1) s) (cachedClccName (names v))) v).
Proof.
  intros Hv. pose proof Hv as []. apply cc_ok_names; try done. cbn. unfold snprintf, MAX_CNAP_LENGTH, zlen.
  rewrite length_take. lia.
Qed.

Ltac heard_end :=
  cbn [live fresh acts glob]; first
    [ by apply heard_same
    | split; [done|]; split; [world_same|]; split;
      [first [cc_glob | by apply cnap_fits | apply cc_ok_cpi; cc_glob]
      |first [exists []; split; [by rewrite app_nil_r|constructor] | eexists; split; [by rewrite <- ?app_assoc|by repeat constructor]]] ].

Lemma cnap_heard s rid w : world_ok w -> cc_ok (glob w) -> wp (onCnapNotification s rid) (fun _ w' => cc_heard w w') w.
Proof. intros Hw Hv. unfold onCnapNotification, update. repeat wp_step; heard_end. Qed.

Lemma crss_heard s code rid w : world_ok w -> cc_ok (glob w) ->
  wp (onCrssNotification isSimulateIms s code rid) (fun _ w' => cc_heard w w') w.
Proof. intros Hw Hv. unfold onCrssNotification. repeat wp_step; heard_end. Qed.

Lemma ring_heard rid w : world_ok w -> cc_ok (glob w) -> wp (onRing rid) (fun _ w' => cc_heard w w') w.
Proof. intros Hw Hv. unfold onRing. repeat wp_step; heard_end. Qed.
End Lines.

(** Every line that call control handles itself is handled without undefined behaviour: the
    caches of caller names and the call's set-up data stay intact, however long the name of a
    [+CNAP] is and whatever fields a line lacks; no command is sent and no request is completed. *)
Theorem cc_lines_safe `{Modem cc_data} isSimulateIms vendor_line s rid (w : World cc_data CcVars) :
  world_ok w -> cc_ok (glob w) -> own_line s = true ->
  wp (rilCcUnsolicited isSimulateIms vendor_line s rid) (fun res w' => res = 1 /\ cc_heard w w') w.
Proof.
  intros Hw Hv Ho. assert (Hret : forall m : M cc_data CcVars unit, wp m (fun _ w' => cc_heard w w') w ->
    wp (m ;; ret 1) (fun res w' => res = 1 /\ cc_heard w w') w).
  { intros m Hm. apply wp_bind. eapply wp_consequence; [exact Hm|]. intros ? w' Hs. by apply wp_ret. }
  unfold own_line, ring_line in Ho. unfold rilCcUnsolicited. cbn [existsb] in Ho.
  destruct (strStartsWith s (bytes_of "RING") || strStartsWith s (bytes_of "+CRING")); [by apply Hret, ring_heard|].
  destruct (strStartsWith s (bytes_of "+CCWA:")).
  { apply wp_bind, wp_bind, wp_get, wp_put, wp_bind. eapply wp_consequence; [apply crss_heard|].
    - world_same.
    - by apply (cc_ok_same (glob w)).
    - intros ? w' Hs. by apply wp_ret. }
  repeat match goal with |- wp (if strStartsWith s ?p then _ else _) _ _ =>
    destruct (strStartsWith s p); [apply Hret; first [by apply crss_heard|by apply cnap_heard]|] end.
  done.
Qed.

(** The lines of the ringing, one after the other. *)
Fixpoint run_rings `{Modem cc_data} isSimulateIms vendor_line (lines : list (list Z)) (rid : Z) : M cc_data CcVars unit :=
  match lines with
  | [] => ret tt
  | s :: lines' => rilCcUnsolicited isSimulateIms vendor_line s rid ;; run_rings isSimulateIms vendor_line lines' rid
  end.

(** A call on the GSM side has been announced and is still there. *)
Definition rings (v : CcVars) : Prop := isRecvECPI0 v = true /\ dispatch_flag v = GSM /\ isReplaceRequest v = false.

Section Rings.
Context `{Modem cc_data} (isSimulateIms : Z -> bool) (vendor_line : string -> list Z -> Z -> M cc_data CcVars unit).

Lemma one_ring s rid (w : World cc_data CcVars) : ring_line s = true -> rings (glob w) ->
  exists w', rilCcUnsolicited isSimulateIms vendor_line s rid w = Done 1 w' /\ rings (glob w') /\
    nth 0 (setupCpiData (glob w')) None = None /\
    acts w' = acts w ++
      match nth 0 (setupCpiData (glob w)) None with
      | Some _ => [Unsol RIL_UNSOL_RESPONSE_CALL_STATE_CHANGED (plain PNone) rid]
      | None => []
      end ++ [Unsol RIL_UNSOL_CALL_RING (plain PNone) rid].
Proof.
  intros Hs (Hr & Hd & Hn). unfold rilCcUnsolicited. unfold ring_line in Hs. rewrite Hs.
  unfold onRing, bind, get_glob, put_glob. rewrite Hr. cbn. rewrite Hd, Hn.
  destruct (nth 0 (setupCpiData (glob w)) None) eqn:E; cbn; (eexists; split; [reflexivity|]); cbn.
  - by rewrite <- app_assoc.
  - done.
Qed.

Lemma more_rings lines rid : forall w : World cc_data CcVars, Forall (fun s => ring_line s = true) lines -> rings (glob w) ->
  nth 0 (setupCpiData (glob w)) None = None ->
  exists w', run_rings isSimulateIms vendor_line lines rid w = Done tt w' /\
    acts w' = acts w ++ replicate (length lines) (Unsol RIL_UNSOL_CALL_RING (plain PNone) rid).
Proof.
  induction lines as [|s lines IH]; intros w Hl Hr Hn; cbn [run_rings].
  - exists w. by rewrite app_nil_r.
  - apply Forall_cons in Hl as [Hs Hl]. destruct (one_ring s rid w Hs Hr) as (w1 & E & Hr1 & Hn1 & Ha).
    destruct (IH w1 Hl Hr1 Hn1) as (w' & E' & Ha'). exists w'. unfold bind. rewrite E. split; [done|].
    rewrite Ha', Ha, Hn. cbn. by rewrite <- app_assoc.
Qed.
End Rings.

(** However often an announced call rings, with RING or +CRING, the framework hears of the new
    call exactly once, before the first ring, and then of every ring: one
    RIL_UNSOL_RESPONSE_CALL_STATE_CHANGED and as many RIL_UNSOL_CALL_RING as there were lines. *)
Theorem ring_announces_call `{Modem cc_data} isSimulateIms vendor_line s lines rid (w : World cc_data CcVars) :
  Forall (fun s => ring_line s = true) (s :: lines) -> rings (glob w) -> nth 0 (setupCpiData (glob w)) None <> None ->
  exists w', run_rings isSimulateIms vendor_line (s :: lines) rid w = Done tt w' /\
    acts w' = acts w ++ Unsol RIL_UNSOL_RESPONSE_CALL_STATE_CHANGED (plain PNone) rid ::
      replicate (length (s :: lines)) (Unsol RIL_UNSOL_CALL_RING (plain PNone) rid).
Proof.
  intros Hl Hr Hn. apply Forall_cons in Hl as [Hs Hl].
  destruct (one_ring isSimulateIms vendor_line s rid w Hs Hr) as (w1 & E & Hr1 & Hn1 & Ha).
  destruct (more_rings isSimulateIms vendor_line lines rid w1 Hl Hr1 Hn1) as (w' & E' & Ha').
  exists w'. cbn [run_rings]. unfold bind. rewrite E. split; [done|]. rewrite Ha', Ha, <- app_assoc.
  by destruct (nth 0 (setupCpiData (glob w)) None).
Qed.

(** * Examples *)

Definition ex_calls : list clcc :=
  [mkClcc 1 1 0 0 0 (Some (bytes_of "+18005551212", 145));     (* active *)
   mkClcc 2 1 5 0 0 (Some (bytes_of "NOT AVAILABLE", 129));    (* waiting, no number *)
   mkClcc 3 0 1 20 0 None].                                    (* of the IMS service *)

Definition ex_response (lines : list (list Z)) : ATResponse := mkResponse 1 (Some (bytes_of "OK")) lines.

Definition list_modem (lines : list (list Z)) : Modem cc_data.
Proof.
  refine {| answer := fun _ _ kind =>
    Some (mkReply 0 (SetNew (ex_response match kind with OneLine _ => [bytes_of "+CEER: 17"] | _ => lines end))) |}.
  intros h command kind r [= <-]. unfold reply_ok. cbn. split; [lia|]. split; [lia|]. intros. by destruct kind.
Defined.

Definition ex_names : NameCache := mkNames (bytes_of "ALICE") (bytes_of "BOB" :: repeat [] 6).

Definition ex_cc (ring : bool) : CcVars :=
  mkCc (Some (bytes_of "1") :: repeat None 8) 0 false 0 false ring ex_names 0 0 GSM none GSMPHONE false.

Definition cc_world (ring : bool) : World cc_data CcVars := mkWorld ∅ 1 [] (ex_cc ring).

Lemma cc_world_ok ring : world_ok (cc_world ring).
Proof. split; [done|]. unfold cc_world. cbn [live]. intros a r Ha. by rewrite lookup_empty in Ha. Qed.

Lemma ex_cc_ok ring : cc_ok (ex_cc ring).
Proof. split; [done| |done|done]. by repeat constructor. Qed.



Lemma cc_lines_safe_witness :
  wp (H := list_modem []) (rilCcUnsolicited (fun _ => false) (fun _ _ _ => ret tt) (bytes_of "+CNAP: CAROL,0") 0)
    (fun res w' => res = 1 /\ cc_heard (cc_world true) w') (cc_world true).
Proof.
  apply (cc_lines_safe (H := list_modem []) (fun _ => false) (fun _ _ _ => ret tt) (bytes_of "+CNAP: CAROL,0") 0 (cc_world true)).
  - apply cc_world_ok.
  - apply ex_cc_ok.
  - reflexivity.
Defined.

Lemma ring_announces_call_witness :
  exists w', run_rings (H := list_modem []) (fun _ => false) (fun _ _ _ => ret tt)
      [bytes_of "RING"; bytes_of "+CRING: VOICE"] 0 (cc_world true) = Done tt w' /\
    acts w' = [Unsol 1001 (plain PNone) 0; Unsol 1018 (plain PNone) 0; Unsol 1018 (plain PNone) 0].
Proof.
  apply (ring_announces_call (H := list_modem []) (fun _ => false) (fun _ _ _ => ret tt) (bytes_of "RING") [bytes_of "+CRING: VOICE"] 0 (cc_world true)).
  - repeat constructor.
  - repeat split.
  - discriminate.
Defined.

(** * Defects *)

(** [requestDial] leaves the response of AT+EVADSMOD behind: it is live after the request. *)
Lemma dial_leaks :
  match requestDial (H := list_modem []) (fun _ => 0) (Some (bytes_of "110")) 0 false 5 (cc_world true) with
  | Done _ w' => live w' !! 1 = Some (ex_response [])
  | _ => False
  end.
Proof. vm_compute. reflexivity. Qed.

(** A channel that is closed while a command waits. *)
Definition closed_channel : Modem cc_data := channel_modem timeout_env (fun _ => [WaitClosed; WaitWake]) example_state.

(** [requestGetCurrentCalls] frees whatever its uninitialised pointer holds when the command fails. *)
Lemma calls_free_garbage : requestGetCurrentCalls (H := closed_channel) 4711 5 (cc_world true) = Undefined.
Proof. vm_compute. reflexivity. Qed.

(** The number of a line that was not valid is reported for the next call. *)
Lemma stale_number_reported :
  match requestGetCurrentCalls (H := list_modem [bytes_of "+CLCC: 1,0,0,0,0,110,x"; bytes_of "+CLCC: 2,0,0,0,0"]) 0 5 (cc_world true) with
  | Done _ w' => last (acts w') = Some (Complete 5 RIL_E_SUCCESS (plain (PCalls
      [mkCall RIL_CALL_ACTIVE 2 0 0 0 1 (Some (bytes_of "110")) []])))
  | _ => False
  end.
Proof. vm_compute. reflexivity. Qed.

(** A [+CNAP] without a validity is ignored. *)
Lemma short_cnap_ignored :
  onCnapNotification (bytes_of "+CNAP: CAROL") 0 (cc_world true) = Done tt (cc_world true).
Proof. vm_compute. reflexivity. Qed.

(** A request of the IMS service to switch calls that fails is answered to the framework. *)
Lemma ims_switch_answered_elsewhere :
  match requestSwitchWaitingOrHoldingAndActive (H := closed_channel) (fun _ => IMS_RIL_SOCKET_1) 5 (cc_world true) with
  | Done _ w' => last (acts w') = Some (Complete 5 RIL_E_GENERIC_FAILURE (plain PNone))
  | _ => False
  end.
Proof. vm_compute. reflexivity. Qed.

(** The line of an emergency category is handled and yet reported as unknown. *)
Lemma emergency_line_unknown :
  rilCcUnsolicited (fun _ => false) (fun _ _ _ => ret tt) (bytes_of "+CEN1: 1") 0 (cc_world true) = Done 0 (cc_world true).
Proof. vm_compute. reflexivity. Qed.
