(* ===== verification/Crc.v ===== *)
(** * The frame check sequence of GSM 07.10 ([frame_calc_crc], [r_crctable])

    The table of src/mtk/gsm0710muxd/src/gsm0710muxd.c, the checksum the writer
    puts after the header, and the running checksum of the readers.  The
    table is shown to be the reflected CRC-8 of polynomial 0x07, and the
    receiver's test (remainder 0xCF) to accept exactly the bytes the writer
    computes. *)
From S2P Require Import Prelude.

Definition r_crctable : list Z :=
  [ 0x00; 0x91; 0xE3; 0x72; 0x07; 0x96; 0xE4; 0x75; 0x0E; 0x9F; 0xED;
    0x7C; 0x09; 0x98; 0xEA; 0x7B; 0x1C; 0x8D; 0xFF; 0x6E; 0x1B; 0x8A;
    0xF8; 0x69; 0x12; 0x83; 0xF1; 0x60; 0x15; 0x84; 0xF6; 0x67; 0x38;
    0xA9; 0xDB; 0x4A; 0x3F; 0xAE; 0xDC; 0x4D; 0x36; 0xA7; 0xD5; 0x44;
    0x31; 0xA0; 0xD2; 0x43; 0x24; 0xB5; 0xC7; 0x56; 0x23; 0xB2; 0xC0;
    0x51; 0x2A; 0xBB; 0xC9; 0x58; 0x2D; 0xBC; 0xCE; 0x5F; 0x70; 0xE1;
    0x93; 0x02; 0x77; 0xE6; 0x94; 0x05; 0x7E; 0xEF; 0x9D; 0x0C; 0x79;
    0xE8; 0x9A; 0x0B; 0x6C; 0xFD; 0x8F; 0x1E; 0x6B; 0xFA; 0x88; 0x19;
    0x62; 0xF3; 0x81; 0x10; 0x65; 0xF4; 0x86; 0x17; 0x48; 0xD9; 0xAB;
    0x3A; 0x4F; 0xDE; 0xAC; 0x3D; 0x46; 0xD7; 0xA5; 0x34; 0x41; 0xD0;
    0xA2; 0x33; 0x54; 0xC5; 0xB7; 0x26; 0x53; 0xC2; 0xB0; 0x21; 0x5A;
    0xCB; 0xB9; 0x28; 0x5D; 0xCC; 0xBE; 0x2F; 0xE0; 0x71; 0x03; 0x92;
    0xE7; 0x76; 0x04; 0x95; 0xEE; 0x7F; 0x0D; 0x9C; 0xE9; 0x78; 0x0A;
    0x9B; 0xFC; 0x6D; 0x1F; 0x8E; 0xFB; 0x6A; 0x18; 0x89; 0xF2; 0x63;
    0x11; 0x80; 0xF5; 0x64; 0x16; 0x87; 0xD8; 0x49; 0x3B; 0xAA; 0xDF;
    0x4E; 0x3C; 0xAD; 0xD6; 0x47; 0x35; 0xA4; 0xD1; 0x40; 0x32; 0xA3;
    0xC4; 0x55; 0x27; 0xB6; 0xC3; 0x52; 0x20; 0xB1; 0xCA; 0x5B; 0x29;
    0xB8; 0xCD; 0x5C; 0x2E; 0xBF; 0x90; 0x01; 0x73; 0xE2; 0x97; 0x06;
    0x74; 0xE5; 0x9E; 0x0F; 0x7D; 0xEC; 0x99; 0x08; 0x7A; 0xEB; 0x8C;
    0x1D; 0x6F; 0xFE; 0x8B; 0x1A; 0x68; 0xF9; 0x82; 0x13; 0x61; 0xF0;
    0x85; 0x14; 0x66; 0xF7; 0xA8; 0x39; 0x4B; 0xDA; 0xAF; 0x3E; 0x4C;
    0xDD; 0xA6; 0x37; 0x45; 0xD4; 0xA1; 0x30; 0x42; 0xD3; 0xB4; 0x25;
    0x57; 0xC6; 0xB3; 0x22; 0x50; 0xC1; 0xBA; 0x2B; 0x59; 0xC8; 0xBD;
    0x2C; 0x5E; 0xCF ].

(** One step of the running checksum: [fcs = r_crctable[fcs ^ b]]. *)
Definition crc_step (fcs b : Z) : Z := byte_at r_crctable (Z.lxor fcs b).

(** The loop of [frame_calc_crc] (and of the readers, which start at 0xFF). *)
Definition crc_run (fcs : Z) (input : list Z) : Z := foldl crc_step fcs input.

(** [frame_calc_crc(input, length)]: the bytes are the first [length] ones. *)
Definition frame_calc_crc (input : list Z) (length : Z) : Z :=
  0xFF - crc_run 0xFF (ztake length input).

(** The receiver's test on the FCS byte. *)
Definition fcs_ok (fcs b : Z) : bool := crc_step fcs b =? 0xCF.

Arguments crc_step : simpl never.
Arguments fcs_ok : simpl never.

(** ** The table against the bitwise definition *)

(** One bit of the reflected CRC-8 with polynomial x^8+x^2+x+1 (0x07, reversed
    0xE0). *)
Definition crc_bit (c : Z) : Z :=
  if Z.odd c then Z.lxor (Z.shiftr c 1) 0xE0 else Z.shiftr c 1.

Definition crc_byte_bitwise (fcs b : Z) : Z := Nat.iter 8 crc_bit (Z.lxor fcs b).

(** The checksum with no table. *)
Definition crc_reference (input : list Z) : Z :=
  Z.lxor 0xFF (foldl crc_byte_bitwise 0xFF input).

Lemma lxor_byte a b : is_byte a -> is_byte b -> is_byte (Z.lxor a b).
Proof.
  unfold is_byte. intros Ha Hb. split.
  - apply Z.lxor_nonneg. lia.
  - destruct (decide (Z.lxor a b = 0)) as [->|Hn]; [lia|].
    assert (0 < Z.lxor a b).
    { pose proof (proj2 (Z.lxor_nonneg a b)). lia. }
    apply Z.log2_lt_pow2 with (b := 8); [done|].
    pose proof (Z.log2_lxor a b). pose proof (Z.log2_le_mono a 255).
    pose proof (Z.log2_le_mono b 255). change (Z.log2 255) with 7 in *. lia.
Qed.

Lemma crc_step_byte fcs b : is_byte fcs -> is_byte b -> is_byte (crc_step fcs b).
Proof. intros. apply byte_at_Forall. vm_compute. repeat constructor; discriminate. Qed.

#[export] Hint Resolve lxor_byte crc_step_byte : mux.

Lemma crc_run_byte fcs l : is_byte fcs -> Forall is_byte l -> is_byte (crc_run fcs l).
Proof.
  intros Hf Hl. revert fcs Hf. induction Hl; intros; simpl; eauto with mux.
Qed.

Lemma table_is_bitwise c : is_byte c -> byte_at r_crctable c = Nat.iter 8 crc_bit c.
Proof. intros H. byte_cases c. Qed.

Lemma crc_step_bitwise fcs b :
  is_byte fcs -> is_byte b -> crc_step fcs b = crc_byte_bitwise fcs b.
Proof. intros. apply table_is_bitwise. auto with mux. Qed.

Lemma crc_run_bitwise fcs l :
  is_byte fcs -> Forall is_byte l -> crc_run fcs l = foldl crc_byte_bitwise fcs l.
Proof.
  intros Hf Hl. revert fcs Hf. induction Hl as [|b l Hb Hl IH]; intros; simpl; [done|].
  rewrite <- crc_step_bitwise by done. apply IH. auto with mux.
Qed.

Lemma complement_byte c : is_byte c -> 0xFF - c = Z.lxor 0xFF c.
Proof. intros H. byte_cases c. Qed.

(** ** What the receiver's test accepts *)

(** The table is a permutation: distinct running values stay distinct. *)
Lemma table_inj a b :
  is_byte a -> is_byte b -> byte_at r_crctable a = byte_at r_crctable b -> a = b.
Proof.
  intros Ha Hb E.
  set (f := fun x y => implb (byte_at r_crctable x =? byte_at r_crctable y) (x =? y)).
  set (g := fun x => forallb (f x) all_bytes).
  pose proof (byte_forall g (eq_refl true <: forallb g all_bytes = true) a Ha) as H.
  pose proof (byte_forall (f a) H b Hb) as H'. unfold f in H'.
  rewrite E, Z.eqb_refl in H'. simpl in H'. by apply Z.eqb_eq.
Qed.

Lemma crc_step_inj_l a b x :
  is_byte a -> is_byte b -> is_byte x -> crc_step a x = crc_step b x -> a = b.
Proof.
  intros Ha Hb Hx E. apply table_inj in E; auto with mux.
  apply (f_equal (fun v => Z.lxor v x)) in E.
  rewrite !Z.lxor_assoc, Z.lxor_nilpotent, !Z.lxor_0_r in E. done.
Qed.

Lemma crc_run_inj a b l :
  is_byte a -> is_byte b -> Forall is_byte l -> crc_run a l = crc_run b l -> a = b.
Proof.
  intros Ha Hb Hl. revert a b Ha Hb.
  induction Hl as [|x l Hx Hl IH]; intros a b Ha Hb E; simpl in *; [done|].
  apply (crc_step_inj_l a b x); auto. apply IH; auto with mux.
Qed.

Lemma fcs_ok_spec fcs b : is_byte fcs -> is_byte b -> fcs_ok fcs b = true <-> b = 0xFF - fcs.
Proof.
  intros Hf Hb. unfold fcs_ok. rewrite Z.eqb_eq. split.
  - intros E. assert (0xCF = byte_at r_crctable 0xFF) as HC by reflexivity.
    unfold crc_step in E. rewrite HC in E.
    apply table_inj in E; [|auto with mux|unfold is_byte; lia].
    apply (f_equal (Z.lxor fcs)) in E.
    rewrite <- Z.lxor_assoc, Z.lxor_nilpotent, Z.lxor_0_l in E.
    rewrite E, Z.lxor_comm. symmetry. apply complement_byte. done.
  - intros ->. unfold crc_step. rewrite complement_byte by done.
    rewrite (Z.lxor_comm 0xFF fcs), <- Z.lxor_assoc, Z.lxor_nilpotent. reflexivity.
Qed.

Lemma calc_crc_accepted input len :
  Forall is_byte input ->
  fcs_ok (crc_run 0xFF (ztake len input)) (frame_calc_crc input len) = true.
Proof.
  intros H.
  assert (is_byte (crc_run 0xFF (ztake len input))) as B
    by (apply crc_run_byte; [unfold is_byte; lia | auto with mux]).
  apply fcs_ok_spec; [done| |done].
  unfold frame_calc_crc, is_byte in *. lia.
Qed.

(** ** Properties *)

(** C38: The table-driven [frame_calc_crc] computes the reflected CRC-8 of GSM 07.10
    (polynomial x^8+x^2+x+1, initial value 0xFF, complemented) of the first [len]
    bytes, as the bit-by-bit definition does. *)
Theorem frame_crc_is_bitwise input len :
  Forall is_byte input -> frame_calc_crc input len = crc_reference (ztake len input).
Proof.
  intros H. unfold frame_calc_crc, crc_reference.
  assert (is_byte 0xFF) by (unfold is_byte; lia).
  rewrite complement_byte by (apply crc_run_byte; auto with mux).
  by rewrite crc_run_bitwise by auto with mux.
Qed.

Lemma frame_crc_is_bitwise_witness :
  Forall is_byte [0x03; 0xEF; 0x0B] /\ frame_calc_crc [0x03; 0xEF; 0x0B] 3 = 0x18.
Proof.
  assert (Forall is_byte [0x03; 0xEF; 0x0B]) as H by decide_closed.
  split; [exact H|]. rewrite (frame_crc_is_bitwise _ 3 H). reflexivity.
Defined.

(** The check sequence detects every corruption of a single protected byte: a
    header that differs in one byte from the one the FCS was computed on is rejected
    by the receiver's test, whatever precedes and follows that byte. *)
Theorem fcs_detects_one_byte p x y q :
  Forall is_byte (p ++ x :: q) -> is_byte y -> x <> y ->
  fcs_ok (crc_run 0xFF (p ++ y :: q))
         (frame_calc_crc (p ++ x :: q) (zlen (p ++ x :: q))) = false.
Proof.
  intros H Hy Hne. apply not_true_is_false. intros E.
  pose proof H as Hx. apply Forall_app in H as [Hp H]. apply Forall_cons in H as [Hb Hq].
  assert (is_byte 0xFF) as HF by (unfold is_byte; lia).
  assert (is_byte (crc_run 0xFF (p ++ x :: q)) /\ is_byte (crc_run 0xFF (p ++ y :: q))) as [B1 B2].
  { split; apply crc_run_byte; auto. apply Forall_app; auto. }
  unfold frame_calc_crc in E. rewrite ztake_all in E by lia.
  apply fcs_ok_spec in E; [|done|unfold is_byte in *; lia].
  assert (crc_run 0xFF (p ++ x :: q) = crc_run 0xFF (p ++ y :: q)) as E2 by lia.
  unfold crc_run in E2. rewrite !foldl_app in E2. cbn [foldl] in E2.
  assert (is_byte (foldl crc_step 0xFF p)) as Bp by (by apply crc_run_byte).
  apply crc_run_inj in E2; auto with mux. apply table_inj in E2; auto with mux.
  apply (f_equal (Z.lxor (foldl crc_step 0xFF p))) in E2.
  rewrite <- !Z.lxor_assoc, Z.lxor_nilpotent, !Z.lxor_0_l in E2. done.
Qed.

Lemma fcs_detects_one_byte_witness :
  Forall is_byte ([0x03] ++ 0xEF :: [0x0B]) /\
  fcs_ok (crc_run 0xFF ([0x03] ++ 0xFF :: [0x0B]))
         (frame_calc_crc ([0x03] ++ 0xEF :: [0x0B]) (zlen ([0x03] ++ 0xEF :: [0x0B]))) = false.
Proof.
  assert (Forall is_byte ([0x03] ++ 0xEF :: [0x0B])) as H by decide_closed.
  split; [exact H|]. apply (fcs_detects_one_byte [0x03] 0xEF 0xFF [0x0B] H).
  - split; [discriminate|reflexivity].
  - discriminate.
Defined.
