(* ===== verification/Ring.v ===== *)
(** * The re-assembly buffer ([GSM0710_Buffer])

    The ring buffer of src/mtk/gsm0710muxd/src/gsm0710muxd.h between the thread
    that reads the serial device and the thread that assembles frames, with
    [gsm0710_buffer_init], [gsm0710_buffer_write] and the macros
    [gsm0710_buffer_inc], [gsm0710_buffer_length], [gsm0710_buffer_free].
    Pointers into [data] are offsets from its start ([endp] is the constant
    offset [GSM0710_BUFFER_SIZE]).  The mutexes and condition variables of the
    struct are not fields here: the thread protocol is in Threads.v.

    The abstract specification is a FIFO of bytes, [contents]; [wf_buffer] is
    the representation invariant. *)
From S2P Require Import Prelude.
From Stdlib Require Import Zify.

#[local] Ltac Zify.zify_post_hook ::= Z.to_euclidean_division_equations.

Definition GSM0710_BUFFER_SIZE : Z := 4096.

Record GSM0710_Buffer := mkBuffer {
  data : list Z (* bytes of the ring, GSM0710_BUFFER_SIZE of them *);
  readp : Z (* readp - data *);
  writep : Z (* writep - data *);
  datacount : Z (* unsigned int *);
  newdataready : bool;
  input_sleeping : bool;
  flag_found : bool;
  received_count : Z (* unsigned long *);
  dropped_count : Z (* unsigned long *);
  adv_data : list Z (* GSM0710_BUFFER_SIZE bytes *);
  adv_length : Z (* unsigned int *);
  adv_found_esc : bool
}.

Definition set_data (v : list Z) (b : GSM0710_Buffer) : GSM0710_Buffer :=
  mkBuffer v (readp b) (writep b) (datacount b) (newdataready b) (input_sleeping b) (flag_found b) (received_count b) (dropped_count b) (adv_data b) (adv_length b) (adv_found_esc b).
Definition set_readp (v : Z) (b : GSM0710_Buffer) : GSM0710_Buffer :=
  mkBuffer (data b) v (writep b) (datacount b) (newdataready b) (input_sleeping b) (flag_found b) (received_count b) (dropped_count b) (adv_data b) (adv_length b) (adv_found_esc b).
Definition set_writep (v : Z) (b : GSM0710_Buffer) : GSM0710_Buffer :=
  mkBuffer (data b) (readp b) v (datacount b) (newdataready b) (input_sleeping b) (flag_found b) (received_count b) (dropped_count b) (adv_data b) (adv_length b) (adv_found_esc b).
Definition set_datacount (v : Z) (b : GSM0710_Buffer) : GSM0710_Buffer :=
  mkBuffer (data b) (readp b) (writep b) v (newdataready b) (input_sleeping b) (flag_found b) (received_count b) (dropped_count b) (adv_data b) (adv_length b) (adv_found_esc b).
Definition set_newdataready (v : bool) (b : GSM0710_Buffer) : GSM0710_Buffer :=
  mkBuffer (data b) (readp b) (writep b) (datacount b) v (input_sleeping b) (flag_found b) (received_count b) (dropped_count b) (adv_data b) (adv_length b) (adv_found_esc b).
Definition set_input_sleeping (v : bool) (b : GSM0710_Buffer) : GSM0710_Buffer :=
  mkBuffer (data b) (readp b) (writep b) (datacount b) (newdataready b) v (flag_found b) (received_count b) (dropped_count b) (adv_data b) (adv_length b) (adv_found_esc b).
Definition set_flag_found (v : bool) (b : GSM0710_Buffer) : GSM0710_Buffer :=
  mkBuffer (data b) (readp b) (writep b) (datacount b) (newdataready b) (input_sleeping b) v (received_count b) (dropped_count b) (adv_data b) (adv_length b) (adv_found_esc b).
Definition set_received_count (v : Z) (b : GSM0710_Buffer) : GSM0710_Buffer :=
  mkBuffer (data b) (readp b) (writep b) (datacount b) (newdataready b) (input_sleeping b) (flag_found b) v (dropped_count b) (adv_data b) (adv_length b) (adv_found_esc b).
Definition set_dropped_count (v : Z) (b : GSM0710_Buffer) : GSM0710_Buffer :=
  mkBuffer (data b) (readp b) (writep b) (datacount b) (newdataready b) (input_sleeping b) (flag_found b) (received_count b) v (adv_data b) (adv_length b) (adv_found_esc b).
Definition set_adv_data (v : list Z) (b : GSM0710_Buffer) : GSM0710_Buffer :=
  mkBuffer (data b) (readp b) (writep b) (datacount b) (newdataready b) (input_sleeping b) (flag_found b) (received_count b) (dropped_count b) v (adv_length b) (adv_found_esc b).
Definition set_adv_length (v : Z) (b : GSM0710_Buffer) : GSM0710_Buffer :=
  mkBuffer (data b) (readp b) (writep b) (datacount b) (newdataready b) (input_sleeping b) (flag_found b) (received_count b) (dropped_count b) (adv_data b) v (adv_found_esc b).
Definition set_adv_found_esc (v : bool) (b : GSM0710_Buffer) : GSM0710_Buffer :=
  mkBuffer (data b) (readp b) (writep b) (datacount b) (newdataready b) (input_sleeping b) (flag_found b) (received_count b) (dropped_count b) (adv_data b) (adv_length b) v.

(** A zeroed [data] or [adv_data] array. *)
Definition zero_data : list Z := replicate (Z.to_nat GSM0710_BUFFER_SIZE) 0.
Arguments zero_data : simpl never.

(** [calloc] plus the pointer set-up of [gsm0710_buffer_init]. *)
Definition gsm0710_buffer_init : GSM0710_Buffer :=
  mkBuffer zero_data 0 0 0 false false false 0 0 zero_data 0 false.

Definition gsm0710_buffer_length (b : GSM0710_Buffer) : Z := datacount b.

(** [GSM0710_BUFFER_SIZE - buf->datacount] in [unsigned int] arithmetic. *)
Definition gsm0710_buffer_free (b : GSM0710_Buffer) : Z :=
  u32 (GSM0710_BUFFER_SIZE - datacount b).

(** [gsm0710_buffer_inc(readp, datacount)]: the macro works on any pair of a
    pointer into the ring and a count. *)
Definition gsm0710_buffer_inc (readp datacount : Z) : Z * Z :=
  let readp := readp + 1 in
  let datacount := u32 (datacount - 1) in
  ((if readp =? GSM0710_BUFFER_SIZE then 0 else readp), datacount).

Arguments gsm0710_buffer_inc : simpl never.

(** The macro on [buf->readp], [buf->datacount], as the readers use it. *)
Definition buffer_advance (b : GSM0710_Buffer) : GSM0710_Buffer :=
  let '(r, d) := gsm0710_buffer_inc (readp b) (datacount b) in
  set_datacount d (set_readp r b).

(** [gsm0710_buffer_write(buf, input, length)] with [length] the number of bytes
    of [input] the caller passes; returns the number of bytes taken. *)
Definition gsm0710_buffer_write (b : GSM0710_Buffer) (input : list Z) (length : Z)
    : Z * GSM0710_Buffer :=
  let c := GSM0710_BUFFER_SIZE - writep b in
  let length := Z.min length (gsm0710_buffer_free b) in
  let b :=
    if c <? length then
      let d := memcpy_at (data b) (writep b) (ztake c input) in
      let d := memcpy_at d 0 (ztake (length - c) (zdrop c input)) in
      set_writep (length - c) (set_data d b)
    else
      let d := memcpy_at (data b) (writep b) (ztake length input) in
      let w := writep b + length in
      set_writep (if w =? GSM0710_BUFFER_SIZE then 0 else w) (set_data d b) in
  let b := set_datacount (u32 (datacount b + length)) b in
  (length, set_newdataready true b).

Arguments buffer_advance : simpl never.
Arguments gsm0710_buffer_write : simpl never.

(** ** Representation invariant and abstraction *)

Record wf_buffer (b : GSM0710_Buffer) : Prop := {
  wf_data_len : zlen (data b) = GSM0710_BUFFER_SIZE;
  wf_data_bytes : Forall is_byte (data b);
  wf_readp : 0 <= readp b < GSM0710_BUFFER_SIZE;
  wf_datacount : 0 <= datacount b <= GSM0710_BUFFER_SIZE;
  wf_writep : writep b = (readp b + datacount b) mod GSM0710_BUFFER_SIZE;
  wf_adv_len : zlen (adv_data b) = GSM0710_BUFFER_SIZE;
  wf_adv_bytes : Forall is_byte (adv_data b);
  wf_adv_length : 0 <= adv_length b <= GSM0710_BUFFER_SIZE
}.

(** The [n] bytes of the ring that start at offset [r]. *)
Definition window (d : list Z) (r n : Z) : list Z := ztake n (zdrop r (d ++ d)).

(** The bytes waiting in the buffer, oldest first. *)
Definition contents (b : GSM0710_Buffer) : list Z :=
  window (data b) (readp b) (datacount b).

(** ** Lemmas on windows *)

Section windows.
Context (d : list Z) (Hd : zlen d = GSM0710_BUFFER_SIZE).

Lemma window_lookup r n i :
  0 <= r < GSM0710_BUFFER_SIZE -> 0 <= n <= GSM0710_BUFFER_SIZE -> 0 <= i < n ->
  window d r n !! Z.to_nat i = d !! Z.to_nat ((r + i) mod GSM0710_BUFFER_SIZE).
Proof using Hd.
  unfold window, ztake, zdrop, GSM0710_BUFFER_SIZE, zlen in *. intros.
  rewrite lookup_take_lt, lookup_drop by lia.
  destruct (decide (r + i < 4096)).
  - rewrite lookup_app_l by lia. f_equal. lia.
  - rewrite lookup_app_r by lia. f_equal. lia.
Qed.

Lemma window_len r n :
  0 <= r < GSM0710_BUFFER_SIZE -> 0 <= n <= GSM0710_BUFFER_SIZE -> zlen (window d r n) = n.
Proof using Hd.
  unfold window, GSM0710_BUFFER_SIZE in *. intros.
  apply zlen_ztake. rewrite zlen_zdrop; rewrite zlen_app; lia.
Qed.

Lemma window_ext r n l :
  0 <= r < GSM0710_BUFFER_SIZE -> 0 <= n <= GSM0710_BUFFER_SIZE -> zlen l = n ->
  (forall i, 0 <= i < n ->
     l !! Z.to_nat i = d !! Z.to_nat ((r + i) mod GSM0710_BUFFER_SIZE)) ->
  window d r n = l.
Proof using Hd.
  intros Hr Hn Hl H. pose proof (window_len r n Hr Hn) as Hw.
  apply list_eq. intros k. destruct (decide (Z.of_nat k < n)).
  - rewrite <- (Nat2Z.id k), window_lookup, H by lia. done.
  - rewrite !lookup_ge_None_2 by (unfold zlen in *; lia). done.
Qed.

(** Reading the byte under the pointer and moving on pops the window. *)
Lemma window_inc r n :
  0 <= r < GSM0710_BUFFER_SIZE -> 0 < n <= GSM0710_BUFFER_SIZE ->
  let '(r', n') := gsm0710_buffer_inc r n in
  window d r n = byte_at d r :: window d r' n' /\
  0 <= r' < GSM0710_BUFFER_SIZE /\ n' = n - 1.
Proof using Hd.
  intros Hr Hn. unfold gsm0710_buffer_inc.
  rewrite u32_id by (unfold GSM0710_BUFFER_SIZE in *; lia).
  assert (0 <= (if r + 1 =? GSM0710_BUFFER_SIZE then 0 else r + 1) < GSM0710_BUFFER_SIZE)
    by (case_if; unfold GSM0710_BUFFER_SIZE in *; lia).
  split_and!; [|lia|lia|done].
  apply window_ext; [lia|lia| |].
  - rewrite zlen_cons, window_len by lia. lia.
  - intros i Hi. destruct (decide (i = 0)) as [->|].
    + simpl. rewrite Z.add_0_r, Z.mod_small by lia. rewrite byte_at_lookup by lia. done.
    + replace (Z.to_nat i) with (S (Z.to_nat (i - 1))) by lia. simpl.
      rewrite window_lookup by lia. do 2 f_equal.
      unfold GSM0710_BUFFER_SIZE in *. case_if; lia.
Qed.

(** The two-part copy of a payload that wraps around. *)
Lemma window_split r n e :
  0 <= r < GSM0710_BUFFER_SIZE -> 0 <= n <= GSM0710_BUFFER_SIZE ->
  e = GSM0710_BUFFER_SIZE - r -> e < n ->
  window d r n = ztake e (zdrop r d) ++ ztake (n - e) d.
Proof using Hd.
  unfold GSM0710_BUFFER_SIZE in *. intros. subst e. unfold window, ztake, zdrop, zlen in *.
  rewrite drop_app_le by lia. rewrite take_app_ge by (rewrite length_drop; lia).
  rewrite length_drop. f_equal; [|f_equal; lia].
  rewrite take_ge; [done|]. rewrite length_drop. lia.
Qed.

Lemma window_straight r n :
  0 <= r < GSM0710_BUFFER_SIZE -> 0 <= n <= GSM0710_BUFFER_SIZE - r ->
  window d r n = ztake n (zdrop r d).
Proof using Hd.
  unfold GSM0710_BUFFER_SIZE in *. intros. unfold window, ztake, zdrop, zlen in *.
  rewrite drop_app_le by lia. rewrite take_app_le by (rewrite length_drop; lia). done.
Qed.

(** Taking [k] bytes off a window. *)
Lemma window_app r n k :
  0 <= r < GSM0710_BUFFER_SIZE -> 0 <= k <= n -> n <= GSM0710_BUFFER_SIZE ->
  window d r n = window d r k ++ window d ((r + k) mod GSM0710_BUFFER_SIZE) (n - k).
Proof using Hd.
  intros. assert (0 <= (r + k) mod GSM0710_BUFFER_SIZE < GSM0710_BUFFER_SIZE)
    by (apply Z.mod_pos_bound; done).
  apply window_ext; [lia|lia| |].
  - rewrite zlen_app, !window_len by lia. lia.
  - intros i Hi. destruct (decide (i < k)).
    + rewrite lookup_app_l, window_lookup; [done|lia..|].
      pose proof (window_len r k). unfold zlen in *. lia.
    + pose proof (window_len r k ltac:(lia) ltac:(lia)) as L. unfold zlen in L.
      rewrite lookup_app_r by lia.
      replace (Z.to_nat i - length (window d r k))%nat with (Z.to_nat (i - k)) by lia.
      rewrite window_lookup by lia. do 2 f_equal.
      unfold GSM0710_BUFFER_SIZE in *. lia.
Qed.

End windows.

Lemma memcpy_lookup dst off src i :
  0 <= off -> off + zlen src <= zlen dst -> 0 <= i ->
  memcpy_at dst off src !! Z.to_nat i =
  if decide (off <= i < off + zlen src) then src !! Z.to_nat (i - off) else dst !! Z.to_nat i.
Proof.
  intros. unfold memcpy_at, ztake, zdrop, zlen in *.
  destruct (decide (i < off)).
  - rewrite decide_False by lia.
    rewrite lookup_app_l by (rewrite length_take; lia). by rewrite lookup_take_lt by lia.
  - rewrite lookup_app_r by (rewrite length_take; lia). rewrite length_take.
    case_decide.
    + rewrite lookup_app_l by lia. f_equal. lia.
    + rewrite lookup_app_r by lia. rewrite lookup_drop. f_equal. lia.
Qed.

Lemma memcpy_bytes dst off src :
  Forall is_byte dst -> Forall is_byte src -> Forall is_byte (memcpy_at dst off src).
Proof. intros. unfold memcpy_at. rewrite !Forall_app. auto with mux. Qed.

#[export] Hint Resolve memcpy_bytes : mux.

(** ** The buffer as a FIFO *)

Lemma contents_len b : wf_buffer b -> zlen (contents b) = datacount b.
Proof. intros []. apply window_len; lia. Qed.

Lemma Forall_window d r n : Forall is_byte d -> Forall is_byte (window d r n).
Proof. intros. unfold window. apply Forall_ztake, Forall_zdrop, Forall_app; done. Qed.

Lemma contents_bytes b : wf_buffer b -> Forall is_byte (contents b).
Proof. intros []. by apply Forall_window. Qed.

Lemma contents_nil b : wf_buffer b -> datacount b = 0 -> contents b = [].
Proof. intros H E. pose proof (contents_len b H). apply nil_length_inv. unfold zlen in *. lia. Qed.

Lemma zero_data_bytes : Forall is_byte zero_data.
Proof. apply Forall_replicate. unfold is_byte. lia. Qed.

Lemma buffer_init_wf : wf_buffer gsm0710_buffer_init.
Proof.
  split; simpl; auto using zero_data_bytes; unfold GSM0710_BUFFER_SIZE; lia.
Qed.

(** [buffer_advance] pops one byte. *)
Lemma buffer_advance_spec b :
  wf_buffer b -> 0 < datacount b ->
  wf_buffer (buffer_advance b) /\
  contents b = byte_at (data b) (readp b) :: contents (buffer_advance b) /\
  datacount (buffer_advance b) = datacount b - 1.
Proof.
  intros [] Hd. pose proof (window_inc (data b) wf_data_len0 (readp b) (datacount b)) as H.
  unfold buffer_advance, contents.
  destruct (gsm0710_buffer_inc (readp b) (datacount b)) as [r d] eqn:E.
  destruct H as (Hw & Hr & ->); [lia..|].
  split_and!; simpl; [|done|done].
  constructor; simpl; auto; [lia|].
  rewrite wf_writep0. unfold gsm0710_buffer_inc in E. injection E as <- _.
  unfold GSM0710_BUFFER_SIZE in *. case_if; lia.
Qed.

(** Bytes written into free space do not disturb the bytes already waiting, and
    are read back after them. *)
Lemma window_write d r n w src1 src2 :
  zlen d = GSM0710_BUFFER_SIZE -> 0 <= r < GSM0710_BUFFER_SIZE ->
  0 <= n -> n + zlen src1 + zlen src2 <= GSM0710_BUFFER_SIZE ->
  w = (r + n) mod GSM0710_BUFFER_SIZE ->
  (src2 <> [] -> w + zlen src1 = GSM0710_BUFFER_SIZE) ->
  w + zlen src1 <= GSM0710_BUFFER_SIZE ->
  window (memcpy_at (memcpy_at d w src1) 0 src2) r (n + zlen src1 + zlen src2)
  = window d r n ++ src1 ++ src2.
Proof.
  intros Hd Hr Hn Hfit Hw H2 H1.
  pose proof (zlen_nonneg src1). pose proof (zlen_nonneg src2).
  assert (0 <= w < GSM0710_BUFFER_SIZE) as Hwb by (subst w; apply Z.mod_pos_bound; done).
  assert (zlen (memcpy_at d w src1) = GSM0710_BUFFER_SIZE) as L1
    by (rewrite zlen_memcpy_at; lia).
  assert (zlen (memcpy_at (memcpy_at d w src1) 0 src2) = GSM0710_BUFFER_SIZE) as L2
    by (rewrite zlen_memcpy_at; lia).
  assert (zlen src2 = 0 \/ w + zlen src1 = GSM0710_BUFFER_SIZE) as H2'
    by (destruct src2; [by left|right; by apply H2]).
  apply (window_ext _ L2); [lia|lia| |].
  { rewrite !zlen_app, window_len by lia. lia. }
  intros i Hi. pose proof (window_len d Hd r n ltac:(lia) ltac:(lia)) as Lw. unfold zlen in Lw.
  assert (0 <= (r + i) mod GSM0710_BUFFER_SIZE) by (apply Z.mod_pos_bound; done).
  rewrite !memcpy_lookup by lia. unfold GSM0710_BUFFER_SIZE in *.
  destruct (decide (i < n)).
  { rewrite lookup_app_l, window_lookup by (unfold GSM0710_BUFFER_SIZE; lia).
    rewrite !decide_False by lia. done. }
  rewrite lookup_app_r by lia.
  replace (Z.to_nat i - length (window d r n))%nat with (Z.to_nat (i - n)) by lia.
  destruct (decide (i - n < zlen src1)).
  - rewrite decide_False, decide_True by lia.
    rewrite lookup_app_l by (unfold zlen in *; lia). f_equal. lia.
  - rewrite decide_True by lia. rewrite lookup_app_r by (unfold zlen in *; lia).
    f_equal. unfold zlen in *. lia.
Qed.

(** The two copies of a write that wraps at distance [c] from the end. *)
Lemma ztake_wrap {A} c n (l : list A) :
  0 < c -> 0 <= n <= zlen l ->
  ztake n l = ztake (Z.min c n) l ++ ztake (n - c) (zdrop c l) /\
  zlen (ztake (Z.min c n) l) = Z.min c n /\
  zlen (ztake (n - c) (zdrop c l)) = n - Z.min c n.
Proof.
  intros Hc Hn. rewrite (zlen_ztake (Z.min c n)) by lia.
  destruct (decide (c < n)).
  - rewrite Z.min_l by lia. rewrite zlen_ztake by (rewrite zlen_zdrop; lia).
    rewrite <- ztake_split by lia. done.
  - rewrite Z.min_r by lia.
    replace (ztake (n - c) (zdrop c l)) with (@nil A)
      by (unfold ztake; replace (Z.to_nat (n - c)) with 0%nat by lia; done).
    rewrite app_nil_r, zlen_nil. split_and!; [done|done|lia].
Qed.

(** Both branches of [gsm0710_buffer_write] amount to two [memcpy]s. *)
Lemma buffer_write_eq b input len :
  wf_buffer b -> 0 <= len <= zlen input ->
  let n := Z.min len (GSM0710_BUFFER_SIZE - datacount b) in
  let c := GSM0710_BUFFER_SIZE - writep b in
  let d := memcpy_at (memcpy_at (data b) (writep b) (ztake (Z.min c n) input))
             0 (ztake (n - c) (zdrop c input)) in
  gsm0710_buffer_write b input len =
  (n, set_newdataready true (set_datacount (datacount b + n)
        (set_writep ((writep b + n) mod GSM0710_BUFFER_SIZE) (set_data d b)))).
Proof.
  intros [Wd Wb Wr Wc Ww Wa Wab Wal] Hlen n c d.
  unfold gsm0710_buffer_write, gsm0710_buffer_free. fold c.
  assert (0 <= writep b < GSM0710_BUFFER_SIZE) by (rewrite Ww; apply Z.mod_pos_bound; done).
  rewrite (u32_id (GSM0710_BUFFER_SIZE - datacount b))
    by (unfold GSM0710_BUFFER_SIZE in *; lia).
  fold n. assert (0 <= n) by (unfold n, GSM0710_BUFFER_SIZE in *; lia).
  destruct (Z.ltb_spec c n) as [Hc|Hc].
  - subst d. rewrite Z.min_l by lia. simpl.
    rewrite u32_id by (unfold n, GSM0710_BUFFER_SIZE in *; lia).
    do 4 f_equal. unfold c, n, GSM0710_BUFFER_SIZE in *. lia.
  - subst d. rewrite Z.min_r by lia.
    replace (ztake (n - c) (zdrop c input)) with (@nil Z)
      by (unfold ztake; replace (Z.to_nat (n - c)) with 0%nat by lia; done).
    rewrite memcpy_at_nil. simpl.
    rewrite u32_id by (unfold n, GSM0710_BUFFER_SIZE in *; lia).
    do 4 f_equal. unfold c, n, GSM0710_BUFFER_SIZE in *. case_if; lia.
Qed.

(** The specification of [gsm0710_buffer_write]: it appends as much of the input
    as fits, and touches neither the reader's pointer nor its flags. *)
Lemma buffer_write_spec b input len :
  wf_buffer b -> Forall is_byte input -> 0 <= len <= zlen input ->
  let '(n, b') := gsm0710_buffer_write b input len in
  n = Z.min len (GSM0710_BUFFER_SIZE - datacount b) /\
  wf_buffer b' /\ contents b' = contents b ++ ztake n input /\
  readp b' = readp b /\ flag_found b' = flag_found b /\ newdataready b' = true.
Proof.
  intros W Hin Hlen. rewrite buffer_write_eq by done.
  destruct W as [Wd Wb Wr Wc Ww Wa Wab Wal].
  set (n := Z.min len (GSM0710_BUFFER_SIZE - datacount b)).
  set (c := GSM0710_BUFFER_SIZE - writep b).
  assert (0 <= writep b < GSM0710_BUFFER_SIZE) by (rewrite Ww; apply Z.mod_pos_bound; done).
  destruct (ztake_wrap c n input) as (Es & L1 & L2); [lia..|].
  set (s1 := ztake (Z.min c n) input) in *. set (s2 := ztake (n - c) (zdrop c input)) in *.
  assert (Forall is_byte s1 /\ Forall is_byte s2) as [B1 B2] by (subst s1 s2; auto with mux).
  pose proof (window_write (data b) (readp b) (datacount b) (writep b) s1 s2) as HW.
  split_and!; try done.
  - constructor; simpl; try done; auto with mux.
    + rewrite !zlen_memcpy_at; rewrite ?zlen_memcpy_at; lia.
    + lia.
    + rewrite Ww. unfold GSM0710_BUFFER_SIZE. lia.
  - unfold contents; simpl. rewrite Es, <- HW; try done; try lia.
    + f_equal. lia.
    + intros X. assert (zlen s2 <> 0) by (destruct s2; [done|rewrite zlen_cons; pose proof (zlen_nonneg s2); lia]). lia.
Qed.

(** ** Histories of operations *)

(** What the two threads do to the buffer: append what was read from the device,
    consume one byte. *)
Inductive RingOp := RWrite (input : list Z) | RConsume.

(** The code: the bytes consumed, and the buffer. *)
Fixpoint run_ring (b : GSM0710_Buffer) (ops : list RingOp) : list Z * GSM0710_Buffer :=
  match ops with
  | [] => ([], b)
  | RWrite input :: ops => run_ring (snd (gsm0710_buffer_write b input (zlen input))) ops
  | RConsume :: ops =>
      if 0 <? gsm0710_buffer_length b then
        let '(out, b') := run_ring (buffer_advance b) ops in
        (byte_at (data b) (readp b) :: out, b')
      else run_ring b ops
  end.

(** The specification: a queue of at most [GSM0710_BUFFER_SIZE] bytes. *)
Fixpoint run_bounded_queue (q : list Z) (ops : list RingOp) : list Z * list Z :=
  match ops with
  | [] => ([], q)
  | RWrite input :: ops => run_bounded_queue (q ++ ztake (GSM0710_BUFFER_SIZE - zlen q) input) ops
  | RConsume :: ops =>
      match q with
      | [] => run_bounded_queue [] ops
      | x :: q => let '(out, q') := run_bounded_queue q ops in (x :: out, q')
      end
  end.

Definition op_bytes (o : RingOp) : Prop :=
  match o with RWrite input => Forall is_byte input | RConsume => True end.

(** C37: The ring buffer shared by the reading and the assembling thread is a bounded
    FIFO queue: whatever the sequence of writes (of any size, wrapping or not) and of
    single-byte reads, the bytes read are those of a queue of capacity 4096 that keeps
    what fits, and the pointer, counter and array invariants hold at the end. *)
Theorem ring_is_fifo b ops :
  wf_buffer b -> Forall op_bytes ops ->
  let '(out, b') := run_ring b ops in
  let '(out', q') := run_bounded_queue (contents b) ops in
  out = out' /\ wf_buffer b' /\ contents b' = q'.
Proof.
  intros W H. revert b W. induction H as [|[input|] ops Hin H IH]; intros b W; cbn [run_ring run_bounded_queue]; [done|..].
  - pose proof (buffer_write_spec b input (zlen input) W Hin ltac:(pose proof (zlen_nonneg input); lia)) as S.
    destruct (gsm0710_buffer_write b input (zlen input)) as [n b1].
    destruct S as (Hn & W1 & C1 & _). cbn [snd].
    specialize (IH b1 W1). rewrite C1 in IH. rewrite (contents_len b W).
    replace (ztake (GSM0710_BUFFER_SIZE - datacount b) input) with (ztake n input); [exact IH|].
    destruct (Z.min_spec (zlen input) (GSM0710_BUFFER_SIZE - datacount b)) as [[? E]|[? E]];
      rewrite E in Hn; subst n; [|done]. rewrite !ztake_all by lia. done.
  - unfold gsm0710_buffer_length. pose proof (contents_len b W) as L.
    destruct (Z.ltb_spec 0 (datacount b)) as [Hd|Hd].
    + destruct (buffer_advance_spec b W Hd) as (W1 & C1 & _). rewrite C1.
      specialize (IH _ W1). destruct (run_ring (buffer_advance b) ops) as [out b'].
      destruct (run_bounded_queue (contents (buffer_advance b)) ops) as [out' q'].
      by destruct IH as (-> & ? & ?).
    + assert (contents b = []) as E.
      { apply contents_nil; [done|]. pose proof (wf_datacount b W). lia. }
      specialize (IH b W). rewrite E in *. exact IH.
Qed.

Lemma ring_is_fifo_witness :
  Forall op_bytes [RWrite [1; 2]; RConsume; RWrite [3]; RConsume; RConsume; RConsume] /\
  fst (run_ring gsm0710_buffer_init
         [RWrite [1; 2]; RConsume; RWrite [3]; RConsume; RConsume; RConsume]) = [1; 2; 3].
Proof.
  assert (Forall op_bytes [RWrite [1; 2]; RConsume; RWrite [3]; RConsume; RConsume; RConsume]) as H.
  { repeat (apply Forall_cons; split); try done; decide_closed. }
  split; [exact H|].
  pose proof (ring_is_fifo gsm0710_buffer_init _ buffer_init_wf H) as R.
  destruct (run_ring gsm0710_buffer_init _) as [out b'].
  replace (contents gsm0710_buffer_init) with (@nil Z) in R by reflexivity.
  exact (proj1 R).
Defined.
