(* ===== verification/Frame.v ===== *)
(** * Frames, constants and the basic-option encoding

    The constants of src/mtk/gsm0710muxd/src/gsm0710muxd.h, [GSM0710_Frame], the
    classification macros of gsm0710muxd.c, and the header and trailer that
    [write_frame] builds for the basic option. *)
From S2P Require Import Prelude Crc.

Definition GSM0710_FRAME_FLAG : Z := 0xF9.
Definition GSM0710_FRAME_ADV_FLAG : Z := 0x7E.
Definition GSM0710_FRAME_ADV_ESC : Z := 0x7D.
Definition GSM0710_FRAME_ADV_ESC_COPML : Z := 0x20.
Definition GSM0710_FRAME_ADV_ESCAPED_SYMS : list Z :=
  [GSM0710_FRAME_ADV_FLAG; GSM0710_FRAME_ADV_ESC; 0x11; 0x91; 0x13; 0x93].

Definition GSM0710_PF : Z := 0x10.
Definition GSM0710_CR : Z := 0x02.
Definition GSM0710_EA : Z := 0x01.

Definition GSM0710_TYPE_SABM : Z := 0x2F.
Definition GSM0710_TYPE_UA : Z := 0x63.
Definition GSM0710_TYPE_DM : Z := 0x0F.
Definition GSM0710_TYPE_DISC : Z := 0x43.
Definition GSM0710_TYPE_UIH : Z := 0xEF.
Definition GSM0710_TYPE_UI : Z := 0x03.

Definition GSM0710_CONTROL_PN : Z := Z.lor 0x80 GSM0710_EA.
Definition GSM0710_CONTROL_CLD : Z := Z.lor 0xC0 GSM0710_EA.
Definition GSM0710_CONTROL_PSC : Z := Z.lor 0x40 GSM0710_EA.
Definition GSM0710_CONTROL_TEST : Z := Z.lor 0x20 GSM0710_EA.
Definition GSM0710_CONTROL_MSC : Z := Z.lor 0xE0 GSM0710_EA.
Definition GSM0710_CONTROL_NSC : Z := Z.lor 0x10 GSM0710_EA.

Definition GSM0710_SIGNAL_FC : Z := 0x02.
Definition GSM0710_SIGNAL_RTC : Z := 0x04.
Definition GSM0710_SIGNAL_RTR : Z := 0x08.
Definition GSM0710_SIGNAL_DV : Z := 0x80.

(** [channel] and [control] are [unsigned char]; [flength] (the field [length])
    is the number of bytes of [fdata] (the field [data]). *)
Record GSM0710_Frame := mkFrame {
  channel : Z;
  control : Z;
  flength : Z;
  fdata : list Z
}.

#[global] Instance frame_eq_dec : EqDecision GSM0710_Frame.
Proof. solve_decision. Defined.

Definition GSM0710_COMMAND_IS (type command : Z) : bool :=
  clear_bits type GSM0710_CR =? command.
Definition GSM0710_FRAME_IS (type : Z) (frame_control : Z) : bool :=
  clear_bits frame_control GSM0710_PF =? type.
Definition GSM0710_DECODE_ADDRESS (byte : Z) : Z := Z.shiftr (Z.land byte 252) 2.

(** [prefix[1]]: EA and C/R set, then the DLCI; the result is stored in an
    [unsigned char]. *)
Definition address_field (channel : Z) : Z :=
  u8 (Z.lor (Z.lor GSM0710_EA GSM0710_CR) (Z.shiftl (Z.land 63 (u8 channel)) 2)).

(** [prefix[3]] and [prefix[4]] of the basic option: one byte with the EA bit up to
    127, two bytes above. *)
Definition length_field (length : Z) : list Z :=
  if 127 <? length then
    [u8 (Z.shiftl (Z.land 0x007F length) 1); u8 (Z.shiftr (Z.land 0x7F80 length) 7)]
  else [u8 (Z.lor 1 (Z.shiftl length 1))].

(** The bytes the FCS of the basic option covers: [prefix + 1]. *)
Definition basic_header (channel type length : Z) : list Z :=
  address_field channel :: type :: length_field length.

(** [prefix], [prefix_length] of them. *)
Definition basic_prefix (channel type length : Z) : list Z :=
  GSM0710_FRAME_FLAG :: basic_header channel type length.

Definition basic_postfix (channel type length : Z) : list Z :=
  let h := basic_header channel type length in
  [frame_calc_crc h (zlen h); GSM0710_FRAME_FLAG].

(** What one successful basic-option [write_frame] puts on the wire. *)
Definition basic_frame (channel type : Z) (input : list Z) : list Z :=
  basic_prefix channel type (zlen input) ++ input ++ basic_postfix channel type (zlen input).

Arguments basic_header : simpl never.
Arguments basic_postfix : simpl never.

(** ** Facts about the fields *)

Lemma basic_frame_cons ch ty input rest :
  basic_frame ch ty input ++ rest =
  GSM0710_FRAME_FLAG :: (basic_header ch ty (zlen input) ++ input ++
                         basic_postfix ch ty (zlen input) ++ rest).
Proof. unfold basic_frame, basic_prefix. rewrite <- !app_assoc. reflexivity. Qed.

Lemma address_decode ch :
  0 <= ch < 64 -> GSM0710_DECODE_ADDRESS (address_field ch) = ch.
Proof.
  intros H. assert (is_byte ch) as B by (unfold is_byte; lia).
  enough (forall c, is_byte c -> c < 64 -> GSM0710_DECODE_ADDRESS (address_field c) = c) by (apply H0; [done|lia]).
  clear. intros c B. byte_cases c.
Qed.

Lemma address_not_flag ch : is_byte ch -> address_field ch <> GSM0710_FRAME_FLAG.
Proof. intros H. byte_cases ch. Qed.

Lemma address_byte ch : is_byte (address_field ch).
Proof. apply u8_byte. Qed.

Lemma length_field_short len :
  0 <= len <= 127 -> length_field len = [2 * len + 1].
Proof.
  intros H. unfold length_field. destruct (Z.ltb_spec 127 len); [lia|]. f_equal.
  assert (is_byte len) as B by (unfold is_byte; lia).
  enough (forall c, is_byte c -> c <= 127 -> u8 (Z.lor 1 (Z.shiftl c 1)) = 2 * c + 1)
    by (apply H1; [done|lia]).
  clear. intros c B. byte_cases c.
Qed.

Lemma length_field_long len :
  128 <= len <= 32767 -> length_field len = [2 * (len mod 128); len / 128].
Proof.
  intros H. unfold length_field. destruct (Z.ltb_spec 127 len); [|lia].
  assert (Z.land 0x007F len = len mod 128) as E1.
  { rewrite Z.land_comm. change 0x007F with (Z.ones 7). rewrite Z.land_ones by lia. done. }
  assert (Z.land 0x7F80 len = 128 * (len / 128)) as E2.
  { apply Z.bits_inj_iff. intros k. rewrite Z.land_spec.
    replace (128 * (len / 128)) with (Z.shiftl (Z.shiftr len 7) 7)
      by (rewrite Z.shiftl_mul_pow2, Z.shiftr_div_pow2 by lia; apply Z.mul_comm).
    change 0x7F80 with (Z.shiftl (Z.ones 8) 7).
    destruct (Z.lt_ge_cases k 0); [rewrite !Z.testbit_neg_r by lia; done|].
    destruct (Z.lt_ge_cases k 7).
    - rewrite !Z.shiftl_spec_low by lia. done.
    - rewrite !Z.shiftl_spec, Z.shiftr_spec by lia.
      replace (k - 7 + 7) with k by lia.
      destruct (Z.lt_ge_cases k 15).
      + rewrite Z.ones_spec_low by lia. done.
      + rewrite Z.ones_spec_high by lia. symmetry.
        apply Z.bits_above_log2; [lia|].
        apply Z.lt_le_trans with 15; [|lia]. apply Z.log2_lt_pow2; lia. }
  rewrite E1, E2. unfold u8.
  rewrite Z.shiftl_mul_pow2, Z.shiftr_div_pow2 by lia.
  change (2 ^ 1) with 2. change (2 ^ 7) with 128.
  pose proof (Z.mod_pos_bound len 128 ltac:(lia)).
  rewrite (Z.mul_comm 128), Z.div_mul by lia.
  assert (0 <= len / 128 < 256)
    by (split; [apply Z.div_pos; lia | apply Z.div_lt_upper_bound; lia]).
  rewrite (Z.mul_comm _ 2), (Z.mod_small (2 * _)), (Z.mod_small (len / 128)) by lia. done.
Qed.

Lemma length_field_bytes len : 0 <= len -> Forall is_byte (length_field len).
Proof. intros. unfold length_field. case_if; repeat constructor; apply u8_byte. Qed.

Lemma basic_header_bytes ch ty len :
  is_byte ty -> 0 <= len -> Forall is_byte (basic_header ch ty len).
Proof.
  intros. unfold basic_header. constructor; [apply u8_byte|].
  constructor; [done|]. by apply length_field_bytes.
Qed.

Lemma frame_calc_crc_byte l n : Forall is_byte l -> is_byte (frame_calc_crc l n).
Proof.
  intros. unfold frame_calc_crc.
  assert (is_byte (crc_run 0xFF (ztake n l))) by
    (apply crc_run_byte; [unfold is_byte; lia|auto with mux]).
  unfold is_byte in *. lia.
Qed.

#[export] Hint Resolve address_byte length_field_bytes basic_header_bytes frame_calc_crc_byte : mux.
