(* ===== verification/BasicFrame.v ===== *)
(** * Reading basic-option frames ([gsm0710_base_buffer_get_frame])

    The reader that runs in the frame-assembly thread: it looks for a start
    flag, parses the header through the wrap-around of the ring, checks the
    FCS and the end flag, and drops corrupt frames by moving the read pointer
    and trying again, at most [MAX_RESYNC_GET_FRAME_COUNT] times.

    [n1] gives [channellist[ch].negotiated_N1], [None] when [ch] is outside the
    array.  Allocation is taken to succeed.

    The abstract specification [spec_parse] works on the plain list of waiting
    bytes; [base_parse_refines] relates the ring code to it. *)
From S2P Require Import Prelude Crc Ring Frame.
From Stdlib Require Import Zify.

#[local] Ltac Zify.zify_post_hook ::= Z.to_euclidean_division_equations.

Definition MAX_RESYNC_GET_FRAME_COUNT : nat := 3.

(** ** The code *)

(** Find start flag. *)
Fixpoint find_start_flag (fuel : nat) (b : GSM0710_Buffer) : GSM0710_Buffer :=
  match fuel with
  | O => b
  | S fuel =>
      if negb (flag_found b) && (0 <? gsm0710_buffer_length b) then
        let b := if byte_at (data b) (readp b) =? GSM0710_FRAME_FLAG
                 then set_flag_found true b else b in
        find_start_flag fuel (buffer_advance b)
      else b
  end.

(** Skip empty frames. *)
Fixpoint skip_flags (fuel : nat) (flag : Z) (b : GSM0710_Buffer) : GSM0710_Buffer :=
  match fuel with
  | O => b
  | S fuel =>
      if (0 <? gsm0710_buffer_length b) && (byte_at (data b) (readp b) =? flag) then
        skip_flags fuel flag (buffer_advance b)
      else b
  end.

(** The header fields and the local cursor ([local_readp], [local_datacount],
    [length_needed], [fcs]) after they are read. *)
Record Header := mkHeader {
  h_channel : Z;
  h_control : Z;
  h_length : Z;
  h_fcs : Z;
  h_readp : Z;
  h_datacount : Z;
  h_needed : Z
}.

Definition parse_header (d : list Z) (rp dc : Z) : Header :=
  let fcs := 0xFF in
  let length_needed := 5 in
  let channel := GSM0710_DECODE_ADDRESS (byte_at d rp) in
  let fcs := crc_step fcs (byte_at d rp) in
  let '(rp, dc) := gsm0710_buffer_inc rp dc in
  let length_needed := length_needed - 1 in
  let control := byte_at d rp in
  let fcs := crc_step fcs (byte_at d rp) in
  let '(rp, dc) := gsm0710_buffer_inc rp dc in
  let length_needed := length_needed - 1 in
  let length := Z.shiftr (Z.land (byte_at d rp) 254) 1 in
  let fcs := crc_step fcs (byte_at d rp) in
  if Z.land (byte_at d rp) 1 =? 0 then
    let '(rp, dc) := gsm0710_buffer_inc rp dc in
    let length := length + byte_at d rp * 128 in
    let fcs := crc_step fcs (byte_at d rp) in
    mkHeader channel control length fcs rp dc (length_needed + length)
  else
    mkHeader channel control length fcs rp dc (length_needed + length).

(** Copy the payload out, in two parts when it wraps, and move the cursor to the
    FCS field. *)
Definition read_payload (d : list Z) (rp dc length : Z) : list Z * Z * Z :=
  if 0 <? length then
    let end_ := GSM0710_BUFFER_SIZE - rp in
    if end_ <? length then
      (ztake end_ (zdrop rp d) ++ ztake (length - end_) d, length - end_, u32 (dc - length))
    else
      let rp' := rp + length in
      (ztake length (zdrop rp d),
       (if rp' =? GSM0710_BUFFER_SIZE then 0 else rp'), u32 (dc - length))
  else ([], rp, dc).

Arguments read_payload : simpl never.

(** [buf->readp = local_readp; buf->datacount -= backup - local_datacount]. *)
Definition commit_cursor (b : GSM0710_Buffer) (rp dc : Z) : GSM0710_Buffer :=
  set_datacount (u32 (datacount b - u32 (datacount b - dc))) (set_readp rp b).

(** [buf->flag_found = 0; buf->dropped_count++; goto update_buffer_dropping_frame]. *)
Definition drop_frame (b : GSM0710_Buffer) (rp dc : Z) : GSM0710_Buffer :=
  commit_cursor (set_dropped_count (u32 (dropped_count b + 1)) (set_flag_found false b)) rp dc.

(** One pass of the function: a frame, [NULL] (with [bufferready_signal] raised or
    not), a dropped frame (the function then calls itself), or an access outside
    [channellist]. *)
Inductive Attempt :=
| AFrame (f : GSM0710_Frame) (b : GSM0710_Buffer)
| ANull (signalled : bool) (b : GSM0710_Buffer)
| ADrop (b : GSM0710_Buffer)
| AUndef.

Section reader.
Context (n1 : Z -> option Z).

(** From the sanity check of the length field to the end of the function. *)
Definition base_body (b : GSM0710_Buffer) (h : Header) : Attempt :=
  match n1 (h_channel h) with
  | None => AUndef
  | Some n =>
      if n <? h_length h then ADrop (drop_frame b (h_readp h) (h_datacount h))
      else if negb (h_needed h <=? h_datacount h) then ANull false b
      else
        let '(rp, dc) := gsm0710_buffer_inc (h_readp h) (h_datacount h) in
        let '(payload, rp, dc) := read_payload (data b) rp dc (h_length h) in
        let fcs := if GSM0710_FRAME_IS GSM0710_TYPE_UI (h_control h)
                   then crc_run (h_fcs h) payload else h_fcs h in
        if negb (fcs_ok fcs (byte_at (data b) rp)) then
          let '(rp, dc) := gsm0710_buffer_inc rp dc in
          ADrop (drop_frame b rp dc)
        else
          let '(rp, dc) := gsm0710_buffer_inc rp dc in
          if negb (byte_at (data b) rp =? GSM0710_FRAME_FLAG) then
            ADrop (drop_frame b rp dc)
          else
            let b := set_received_count (u32 (received_count b + 1)) b in
            let '(rp, dc) := gsm0710_buffer_inc rp dc in
            AFrame (mkFrame (h_channel h) (h_control h) (h_length h) payload)
                   (set_flag_found false (commit_cursor b rp dc))
  end.

(** The header and the rest, on a buffer whose start flag has been consumed. *)
Definition base_parse (b : GSM0710_Buffer) : Attempt :=
  if 5 <=? datacount b
  then base_body b (parse_header (data b) (readp b) (datacount b))
  else ANull false b.

Definition base_attempt (b : GSM0710_Buffer) : Attempt :=
  let b := find_start_flag (Z.to_nat (datacount b)) b in
  if negb (flag_found b) then ANull (input_sleeping b) b
  else base_parse (skip_flags (Z.to_nat (datacount b)) GSM0710_FRAME_FLAG b).

(** The outcome of the whole function.  [asserted] tells that
    [Gsm0710Muxd_Assert(13)] was executed on the way (the production build
    carries on after it); [GFatal] is the abort of the other build, [GUndef] an
    access outside [channellist], or the use of [depth_level], left unassigned
    after the assertion, when yet another frame is dropped. *)
Inductive GetFrame :=
| GFrame (f : GSM0710_Frame) (b : GSM0710_Buffer) (asserted : bool)
| GNull (signalled : bool) (b : GSM0710_Buffer) (asserted : bool)
| GFatal (b : GSM0710_Buffer)
| GUndef.

(** [left_] is [MAX_RESYNC_GET_FRAME_COUNT - passed_depth_level]. *)
Fixpoint base_get_frame_from (production : bool) (left_ : nat) (b : GSM0710_Buffer)
    : GetFrame :=
  match left_ with
  | S left_ =>
      match base_attempt b with
      | AFrame f b => GFrame f b false
      | ANull s b => GNull s b false
      | ADrop b => base_get_frame_from production left_ b
      | AUndef => GUndef
      end
  | O =>
      if production then
        match base_attempt b with
        | AFrame f b => GFrame f b true
        | ANull s b => GNull s b true
        | ADrop _ => GUndef
        | AUndef => GUndef
        end
      else GFatal b
  end.

Definition gsm0710_base_buffer_get_frame (production : bool) (b : GSM0710_Buffer)
    : GetFrame :=
  base_get_frame_from production MAX_RESYNC_GET_FRAME_COUNT b.

(** ** Abstract specification on the list of waiting bytes *)

Inductive SpecRes :=
| SFrame (f : GSM0710_Frame) (rest : list Z)
| SNeedMore
| SDrop (rest : list Z)
| SUndef.

(** [hdr]: the bytes under the FCS; [unread]: what remains from the last length
    byte on; [r]: what follows it. *)
Definition spec_body (ch ctl : Z) (hdr unread r : list Z) (len : Z) : SpecRes :=
  match n1 ch with
  | None => SUndef
  | Some n =>
      if n <? len then SDrop unread
      else if zlen r <? len + 2 then SNeedMore
      else
        let payload := ztake len r in
        let fcs := crc_run 0xFF
          (hdr ++ if GSM0710_FRAME_IS GSM0710_TYPE_UI ctl then payload else []) in
        if fcs_ok fcs (byte_at r len) && (byte_at r (len + 1) =? GSM0710_FRAME_FLAG)
        then SFrame (mkFrame ch ctl len payload) (zdrop (len + 2) r)
        else SDrop (zdrop (len + 1) r)
  end.

Definition spec_parse (l : list Z) : SpecRes :=
  if zlen l <? 5 then SNeedMore
  else match l with
  | a :: c :: x :: r =>
      let len := Z.shiftr (Z.land x 254) 1 in
      if Z.land x 1 =? 0 then
        match r with
        | y :: r' => spec_body (GSM0710_DECODE_ADDRESS a) c [a; c; x; y] r r' (len + y * 128)
        | [] => SNeedMore
        end
      else spec_body (GSM0710_DECODE_ADDRESS a) c [a; c; x] (x :: r) r len
  | _ => SNeedMore
  end.

End reader.

(** ** Cursors into the ring *)

Section cursors.
Context (d : list Z) (Hd : zlen d = GSM0710_BUFFER_SIZE) (w : Z).

(** The cursor [(rp, dc)] has the bytes [l] in front of it; [w] is the write
    pointer it ends at. *)
Definition cursor (rp dc : Z) (l : list Z) : Prop :=
  0 <= rp < GSM0710_BUFFER_SIZE /\ 0 <= dc <= GSM0710_BUFFER_SIZE /\
  (rp + dc) mod GSM0710_BUFFER_SIZE = w /\ window d rp dc = l.

Lemma cursor_len rp dc l : cursor rp dc l -> zlen l = dc.
Proof using Hd. intros (? & ? & ? & <-). by apply window_len. Qed.

Lemma cursor_inc rp dc x l rp' dc' :
  cursor rp dc (x :: l) -> gsm0710_buffer_inc rp dc = (rp', dc') ->
  byte_at d rp = x /\ cursor rp' dc' l.
Proof using Hd.
  intros C E. pose proof (cursor_len _ _ _ C) as L. rewrite zlen_cons in L.
  pose proof (zlen_nonneg l). destruct C as (Hr & Hc & Hw & HW).
  pose proof (window_inc d Hd rp dc Hr ltac:(lia)) as H1. rewrite E in H1.
  destruct H1 as (H1 & H2 & H3). rewrite H1 in HW. injection HW as -> HW.
  split; [done|]. split_and!; try lia; [|done].
  rewrite <- Hw. unfold gsm0710_buffer_inc in E. injection E as <- _.
  unfold GSM0710_BUFFER_SIZE in *. case_if; lia.
Qed.

Lemma cursor_payload rp dc l len p rp' dc' :
  cursor rp dc l -> 0 <= len < zlen l -> read_payload d rp dc len = (p, rp', dc') ->
  p = ztake len l /\ cursor rp' dc' (zdrop len l).
Proof using Hd.
  intros C Hl E. pose proof (cursor_len _ _ _ C) as L. destruct C as (Hr & Hc & Hw & HW).
  unfold read_payload in E. destruct (Z.ltb_spec 0 len).
  2: { injection E as <- <- <-. replace len with 0 by lia. done. }
  pose proof (window_app d Hd rp dc len Hr ltac:(lia) ltac:(lia)) as S.
  rewrite HW in S.
  assert (zlen (window d rp len) = len) as Lw by (apply window_len; lia).
  assert (ztake len l = window d rp len) as T by (rewrite S, <- Lw at 1; apply ztake_app_length).
  assert (zdrop len l = window d ((rp + len) mod GSM0710_BUFFER_SIZE) (dc - len)) as D
    by (rewrite S, <- Lw at 1; apply zdrop_app_length).
  rewrite (u32_id (dc - len)) in E by (unfold GSM0710_BUFFER_SIZE in *; lia).
  rewrite T. unfold cursor. rewrite D.
  destruct (Z.ltb_spec (GSM0710_BUFFER_SIZE - rp) len); injection E as <- <- <-.
  - split; [symmetry; apply window_split; lia|].
    unfold GSM0710_BUFFER_SIZE in *. split_and!; [lia..|]. f_equal. lia.
  - split; [symmetry; apply window_straight; lia|].
    unfold GSM0710_BUFFER_SIZE in *. split_and!; [try case_if; lia..|]. f_equal. case_if; lia.
Qed.

End cursors.

Arguments cursor : simpl never.

Lemma buffer_cursor b : wf_buffer b -> cursor (data b) (writep b) (readp b) (datacount b) (contents b).
Proof. intros []. split_and!; auto; lia. Qed.

Lemma commit_cursor_spec b rp dc l :
  wf_buffer b -> cursor (data b) (writep b) rp dc l ->
  wf_buffer (commit_cursor b rp dc) /\ contents (commit_cursor b rp dc) = l.
Proof.
  intros W C. destruct W, C as (Hr & Hc & Hw & HW). unfold commit_cursor, contents. simpl.
  assert (u32 (datacount b - u32 (datacount b - dc)) = dc) as ->
    by (unfold u32, GSM0710_BUFFER_SIZE in *; lia).
  split; [|done]. constructor; simpl; auto.
Qed.

(** Counters and flags do not matter to the representation. *)
Lemma wf_flag_found v b : wf_buffer b -> wf_buffer (set_flag_found v b).
Proof. intros []; constructor; done. Qed.
Lemma wf_dropped v b : wf_buffer b -> wf_buffer (set_dropped_count v b).
Proof. intros []; constructor; done. Qed.
Lemma wf_received v b : wf_buffer b -> wf_buffer (set_received_count v b).
Proof. intros []; constructor; done. Qed.
#[export] Hint Resolve wf_flag_found wf_dropped wf_received : mux.

Lemma drop_frame_spec b rp dc l :
  wf_buffer b -> cursor (data b) (writep b) rp dc l ->
  wf_buffer (drop_frame b rp dc) /\ contents (drop_frame b rp dc) = l.
Proof. intros W C. apply commit_cursor_spec; auto with mux. Qed.

(** ** The parser refines the specification *)

Lemma parse_header_short d w rp dc a c x r :
  zlen d = GSM0710_BUFFER_SIZE -> cursor d w rp dc (a :: c :: x :: r) ->
  Z.land x 1 <> 0 ->
  let h := parse_header d rp dc in
  h_channel h = GSM0710_DECODE_ADDRESS a /\ h_control h = c /\
  h_length h = Z.shiftr (Z.land x 254) 1 /\ h_fcs h = crc_run 0xFF [a; c; x] /\
  h_needed h = 3 + h_length h /\ cursor d w (h_readp h) (h_datacount h) (x :: r).
Proof.
  intros Hd C0 Hx. unfold parse_header.
  destruct (gsm0710_buffer_inc rp dc) as [rp1 dc1] eqn:E1.
  destruct (cursor_inc d Hd w _ _ _ _ _ _ C0 E1) as [B0 C1].
  destruct (gsm0710_buffer_inc rp1 dc1) as [rp2 dc2] eqn:E2.
  destruct (cursor_inc d Hd w _ _ _ _ _ _ C1 E2) as [B1 C2].
  assert (byte_at d rp2 = x) as B2.
  { destruct (gsm0710_buffer_inc rp2 dc2) eqn:E3.
    by destruct (cursor_inc d Hd w _ _ _ _ _ _ C2 E3). }
  rewrite B0, B1, B2. destruct (Z.eqb_spec (Z.land x 1) 0); [done|]. simpl.
  split_and!; try done; lia.
Qed.

Lemma parse_header_long d w rp dc a c x y r :
  zlen d = GSM0710_BUFFER_SIZE -> cursor d w rp dc (a :: c :: x :: y :: r) ->
  Z.land x 1 = 0 ->
  let h := parse_header d rp dc in
  h_channel h = GSM0710_DECODE_ADDRESS a /\ h_control h = c /\
  h_length h = Z.shiftr (Z.land x 254) 1 + y * 128 /\
  h_fcs h = crc_run 0xFF [a; c; x; y] /\
  h_needed h = 3 + h_length h /\ cursor d w (h_readp h) (h_datacount h) (y :: r).
Proof.
  intros Hd C0 Hx. unfold parse_header.
  destruct (gsm0710_buffer_inc rp dc) as [rp1 dc1] eqn:E1.
  destruct (cursor_inc d Hd w _ _ _ _ _ _ C0 E1) as [B0 C1].
  destruct (gsm0710_buffer_inc rp1 dc1) as [rp2 dc2] eqn:E2.
  destruct (cursor_inc d Hd w _ _ _ _ _ _ C1 E2) as [B1 C2].
  destruct (gsm0710_buffer_inc rp2 dc2) as [rp3 dc3] eqn:E3.
  destruct (cursor_inc d Hd w _ _ _ _ _ _ C2 E3) as [B2 C3].
  assert (byte_at d rp3 = y) as B3.
  { destruct (gsm0710_buffer_inc rp3 dc3) eqn:E4.
    by destruct (cursor_inc d Hd w _ _ _ _ _ _ C3 E4). }
  rewrite B0, B1, B2, B3, Hx. simpl. split_and!; try done; lia.
Qed.

(** How an attempt on the ring relates to the result on the list. *)
Definition refines (b : GSM0710_Buffer) (r : Attempt) (s : SpecRes) : Prop :=
  match r, s with
  | AFrame f b', SFrame f' rest =>
      f = f' /\ wf_buffer b' /\ contents b' = rest /\ flag_found b' = false
  | ANull sig b', SNeedMore => b' = b /\ sig = false
  | ADrop b', SDrop rest => wf_buffer b' /\ contents b' = rest /\ flag_found b' = false
  | AUndef, SUndef => True
  | _, _ => False
  end.

Lemma base_body_refines n1 b h ch ctl hdr z r len :
  wf_buffer b ->
  h_channel h = ch -> h_control h = ctl -> h_length h = len ->
  h_fcs h = crc_run 0xFF hdr -> h_needed h = 3 + len -> 0 <= len ->
  cursor (data b) (writep b) (h_readp h) (h_datacount h) (z :: r) ->
  refines b (base_body n1 b h) (spec_body n1 ch ctl hdr (z :: r) r len).
Proof.
  intros W <- <- <- Hf Hn Hl C. unfold base_body, spec_body.
  set (len := h_length h) in *.
  destruct (n1 (h_channel h)) as [n|]; [|done].
  destruct (Z.ltb_spec n len).
  { destruct (drop_frame_spec b _ _ _ W C). done. }
  pose proof (wf_data_len b W) as Hd.
  pose proof (cursor_len _ Hd _ _ _ _ C) as L. rewrite zlen_cons in L. rewrite Hn.
  destruct (Z.leb_spec (3 + len) (h_datacount h)); destruct (Z.ltb_spec (zlen r) (len + 2));
    try lia; [|done]. cbn [negb].
  destruct (gsm0710_buffer_inc (h_readp h) (h_datacount h)) as [rp1 dc1] eqn:E1.
  destruct (cursor_inc _ Hd _ _ _ _ _ _ _ C E1) as [_ C1].
  destruct (read_payload (data b) rp1 dc1 len) as [[p rp2] dc2] eqn:E2.
  assert (0 <= len < zlen r) as Hlr by lia.
  destruct (cursor_payload _ Hd _ _ _ _ _ _ _ _ C1 Hlr E2) as [-> C2].
  rewrite (zdrop_cons r len), (zdrop_cons r (len + 1)) in C2 by lia.
  replace (len + 1 + 1) with (len + 2) in C2 by lia.
  assert (zdrop (len + 1) r = byte_at r (len + 1) :: zdrop (len + 2) r) as ->
    by (rewrite zdrop_cons by lia; do 2 f_equal; lia).
  destruct (gsm0710_buffer_inc rp2 dc2) as [rp3 dc3] eqn:E3.
  destruct (cursor_inc _ Hd _ _ _ _ _ _ _ C2 E3) as [-> C3].
  destruct (gsm0710_buffer_inc rp3 dc3) as [rp4 dc4] eqn:E4.
  destruct (cursor_inc _ Hd _ _ _ _ _ _ _ C3 E4) as [-> C4].
  assert ((if GSM0710_FRAME_IS GSM0710_TYPE_UI (h_control h)
           then crc_run (h_fcs h) (ztake len r) else h_fcs h) =
          crc_run 0xFF (hdr ++ if GSM0710_FRAME_IS GSM0710_TYPE_UI (h_control h)
                               then ztake len r else [])) as ->.
  { rewrite Hf. unfold crc_run. rewrite foldl_app. by case_if. }
  destruct (fcs_ok _ (byte_at r len)); simpl; [|by destruct (drop_frame_spec b _ _ _ W C3)].
  destruct (byte_at r (len + 1) =? GSM0710_FRAME_FLAG); simpl; [|by destruct (drop_frame_spec b _ _ _ W C3)].
  destruct (commit_cursor_spec (set_received_count (u32 (received_count b + 1)) b) rp4 dc4 (zdrop (len + 2) r))
    as [W' C']; auto with mux.
Qed.

Lemma base_parse_refines n1 b :
  wf_buffer b -> refines b (base_parse n1 b) (spec_parse n1 (contents b)).
Proof.
  intros W. unfold base_parse, spec_parse. rewrite contents_len by done.
  pose proof (buffer_cursor b W) as C. pose proof (contents_len b W) as L.
  pose proof (contents_bytes b W) as B. pose proof (wf_data_len b W) as Hd.
  rewrite Z.ltb_antisym. destruct (Z.leb_spec 5 (datacount b)); simpl; [|done].
  destruct (contents b) as [|a [|c [|x [|y r]]]]; rewrite ?zlen_cons, ?zlen_nil in L; [lia..|].
  assert (forall z, is_byte z -> 0 <= Z.shiftr (Z.land z 254) 1) as P.
  { intros z Hz. apply Z.shiftr_nonneg, Z.land_nonneg. lia. }
  inversion B as [|? ? _ B1]; inversion B1 as [|? ? _ B2]; inversion B2 as [|? ? Bx B3];
    inversion B3 as [|? ? By _]; subst. specialize (P x Bx).
  destruct (Z.eqb_spec (Z.land x 1) 0) as [Ex|Ex].
  - destruct (parse_header_long _ _ _ _ _ _ _ _ _ Hd C Ex) as (H1 & H2 & H3 & H4 & H5 & H6).
    apply base_body_refines; try done; [lia|]. unfold is_byte in By. lia.
  - destruct (parse_header_short _ _ _ _ _ _ _ _ Hd C Ex) as (H1 & H2 & H3 & H4 & H5 & H6).
    apply base_body_refines; try done; lia.
Qed.

(** ** Flag search on lists *)

(** What follows the first flag. *)
Fixpoint after_flag (flag : Z) (l : list Z) : option (list Z) :=
  match l with
  | [] => None
  | x :: r => if x =? flag then Some r else after_flag flag r
  end.

Fixpoint strip_flags (flag : Z) (l : list Z) : list Z :=
  match l with
  | [] => []
  | x :: r => if x =? flag then strip_flags flag r else l
  end.

Lemma strip_flags_suffix flag l : exists k, l = k ++ strip_flags flag l.
Proof.
  induction l as [|x l [k IH]]; simpl; [by exists []|].
  case_if; [exists (x :: k); simpl; by f_equal|by exists []].
Qed.

Lemma after_flag_app flag k l :
  Forall (fun x => x <> flag) k -> after_flag flag (k ++ flag :: l) = Some l.
Proof.
  induction 1 as [|x k Hx Hk IH]; simpl; [by rewrite Z.eqb_refl|].
  by rewrite (proj2 (Z.eqb_neq _ _) Hx).
Qed.

Lemma find_start_flag_spec fuel b :
  wf_buffer b -> (Z.to_nat (datacount b) <= fuel)%nat ->
  let b' := find_start_flag fuel b in
  wf_buffer b' /\
  if flag_found b then b' = b
  else match after_flag GSM0710_FRAME_FLAG (contents b) with
       | Some r => flag_found b' = true /\ contents b' = r
       | None => flag_found b' = false /\ contents b' = []
       end.
Proof.
  revert b. induction fuel as [|fuel IH]; intros b W Hf; simpl.
  - pose proof (wf_datacount b W). rewrite contents_nil by (done || lia). simpl.
    destruct (flag_found b); done.
  - unfold gsm0710_buffer_length.
    destruct (flag_found b) eqn:F; simpl; [by destruct fuel|].
    destruct (Z.ltb_spec 0 (datacount b)) as [Hd|Hd].
    2: { pose proof (wf_datacount b W). rewrite contents_nil by (done || lia). done. }
    set (b1 := if byte_at (data b) (readp b) =? GSM0710_FRAME_FLAG
               then set_flag_found true b else b).
    assert (wf_buffer b1 /\ contents b1 = contents b /\ datacount b1 = datacount b /\
      byte_at (data b1) (readp b1) = byte_at (data b) (readp b) /\
      flag_found b1 = (byte_at (data b) (readp b) =? GSM0710_FRAME_FLAG)) as (W1 & C1 & D1 & B1 & F1)
      by (subst b1; case_if; auto using wf_flag_found).
    destruct (buffer_advance_spec b1 W1 ltac:(lia)) as (W2 & C2 & D2).
    destruct (IH (buffer_advance b1) W2 ltac:(lia)) as [W3 H3].
    split; [done|]. rewrite <- C1, C2, B1. simpl.
    assert (flag_found (buffer_advance b1) = flag_found b1) as F2
      by (unfold buffer_advance; by destruct (gsm0710_buffer_inc _ _)).
    rewrite F2, F1 in H3. destruct (byte_at (data b) (readp b) =? GSM0710_FRAME_FLAG); [|done].
    rewrite H3. by rewrite F2, F1.
Qed.

Lemma skip_flags_spec fuel flag b :
  wf_buffer b -> (Z.to_nat (datacount b) <= fuel)%nat ->
  let b' := skip_flags fuel flag b in
  wf_buffer b' /\ contents b' = strip_flags flag (contents b) /\ flag_found b' = flag_found b.
Proof.
  revert b. induction fuel as [|fuel IH]; intros b W Hf; simpl.
  - pose proof (wf_datacount b W). by rewrite contents_nil by (done || lia).
  - unfold gsm0710_buffer_length. destruct (Z.ltb_spec 0 (datacount b)) as [Hd|Hd]; simpl.
    2: { pose proof (wf_datacount b W). by rewrite contents_nil by (done || lia). }
    destruct (buffer_advance_spec b W Hd) as (W2 & C2 & D2).
    rewrite C2. simpl. case_if; [|by rewrite <- C2].
    destruct (IH (buffer_advance b) W2 ltac:(lia)) as (W3 & C3 & F3).
    done.
Qed.

(** ** The whole function against its specification *)

Inductive SpecGet :=
| SGFrame (f : GSM0710_Frame) (rest : list Z) (asserted : bool)
| SGNull (found : bool) (rest : list Z) (asserted : bool)
| SGFatal (rest : list Z)
| SGUndef.

(** One pass on the waiting bytes [l]; [found]: a start flag was consumed
    before. *)
Definition spec_attempt (n1 : Z -> option Z) (found : bool) (l : list Z)
    : option (list Z * SpecRes) :=
  match (if found then Some l else after_flag GSM0710_FRAME_FLAG l) with
  | None => None
  | Some r => let r := strip_flags GSM0710_FRAME_FLAG r in Some (r, spec_parse n1 r)
  end.

Fixpoint spec_get (n1 : Z -> option Z) (production : bool) (left_ : nat)
    (found : bool) (l : list Z) : SpecGet :=
  match left_ with
  | S left_ =>
      match spec_attempt n1 found l with
      | None => SGNull false [] false
      | Some (_, SFrame f rest) => SGFrame f rest false
      | Some (r, SNeedMore) => SGNull true r false
      | Some (_, SDrop rest) => spec_get n1 production left_ false rest
      | Some (_, SUndef) => SGUndef
      end
  | O =>
      if production then
        match spec_attempt n1 found l with
        | None => SGNull false [] true
        | Some (_, SFrame f rest) => SGFrame f rest true
        | Some (r, SNeedMore) => SGNull true r true
        | Some (_, SDrop _) => SGUndef
        | Some (_, SUndef) => SGUndef
        end
      else SGFatal l
  end.

Definition spec_get_frame n1 production := spec_get n1 production MAX_RESYNC_GET_FRAME_COUNT.

Definition refines_get (g : GetFrame) (s : SpecGet) : Prop :=
  match g, s with
  | GFrame f b a, SGFrame f' rest a' =>
      f = f' /\ a = a' /\ wf_buffer b /\ contents b = rest /\ flag_found b = false
  | GNull sig b a, SGNull found rest a' =>
      a = a' /\ wf_buffer b /\ contents b = rest /\ flag_found b = found /\
      sig = input_sleeping b && negb found
  | GFatal b, SGFatal rest => wf_buffer b /\ contents b = rest
  | GUndef, SGUndef => True
  | _, _ => False
  end.

Lemma base_attempt_refines n1 b :
  wf_buffer b ->
  match base_attempt n1 b, spec_attempt n1 (flag_found b) (contents b) with
  | ANull sig b', None =>
      wf_buffer b' /\ contents b' = [] /\ flag_found b' = false /\ sig = input_sleeping b'
  | ANull sig b', Some (r, SNeedMore) =>
      wf_buffer b' /\ contents b' = r /\ flag_found b' = true /\ sig = false
  | AFrame f b', Some (_, SFrame f' rest) =>
      f = f' /\ wf_buffer b' /\ contents b' = rest /\ flag_found b' = false
  | ADrop b', Some (_, SDrop rest) => wf_buffer b' /\ contents b' = rest /\ flag_found b' = false
  | AUndef, Some (_, SUndef) => True
  | _, _ => False
  end.
Proof.
  intros W. unfold base_attempt, spec_attempt.
  destruct (find_start_flag_spec (Z.to_nat (datacount b)) b W) as [W1 H1]; [lia|].
  set (b1 := find_start_flag (Z.to_nat (datacount b)) b) in *.
  assert (match (if flag_found b then Some (contents b)
                 else after_flag GSM0710_FRAME_FLAG (contents b)) with
          | None => flag_found b1 = false /\ contents b1 = []
          | Some r => flag_found b1 = true /\ contents b1 = r
          end) as H2.
  { destruct (flag_found b) eqn:F; [|by destruct (after_flag _ _)]. by rewrite H1, F. }
  destruct (if flag_found b then _ else _) as [r|]; destruct H2 as [F1 C1]; rewrite F1; simpl.
  2: done.
  destruct (skip_flags_spec (Z.to_nat (datacount b1)) GSM0710_FRAME_FLAG b1 W1)
    as (W2 & C2 & F2); [lia|].
  set (b2 := skip_flags _ _ b1) in *.
  pose proof (base_parse_refines n1 b2 W2) as R. rewrite C2, C1 in R.
  destruct (base_parse n1 b2), (spec_parse n1 _); simpl in R; try done.
  destruct R as [-> ->]. rewrite C2, C1, F2. done.
Qed.

Lemma base_get_frame_from_refines n1 production k b :
  wf_buffer b ->
  refines_get (base_get_frame_from n1 production k b)
              (spec_get n1 production k (flag_found b) (contents b)).
Proof.
  revert b. induction k as [|k IH]; intros b W; simpl.
  - destruct production; [|done].
    pose proof (base_attempt_refines n1 b W) as R.
    destruct (base_attempt n1 b), (spec_attempt n1 _ _) as [[? []]|]; try done; simpl;
      destruct_and? R; subst; by rewrite ?andb_true_r, ?andb_false_r.
  - pose proof (base_attempt_refines n1 b W) as R.
    destruct (base_attempt n1 b) as [f b'|sg b'|b'|],
      (spec_attempt n1 (flag_found b) (contents b)) as [[? []]|]; try done; simpl.
    all: try (destruct_and? R; subst; by rewrite ?andb_true_r, ?andb_false_r).
    destruct R as (W' & <- & F'). rewrite <- F'. by apply IH.
Qed.

(** ** Encoding and decoding *)

(** The FCS [write_frame] computes covers the payload for no frame type, while
    the reader includes the payload of UI frames: the two agree on every type
    but UI, and on UI frames with no payload. *)
Definition fcs_agrees (type : Z) (input : list Z) : Prop :=
  GSM0710_FRAME_IS GSM0710_TYPE_UI type = false \/ input = [].

Lemma spec_body_frame n1 n ch ty hdr unread input rest :
  n1 ch = Some n -> zlen input <= n -> Forall is_byte hdr -> fcs_agrees ty input ->
  spec_body n1 ch ty hdr unread
    (input ++ [frame_calc_crc hdr (zlen hdr); GSM0710_FRAME_FLAG] ++ rest) (zlen input)
  = SFrame (mkFrame ch ty (zlen input) input) rest.
Proof.
  intros Hn Hle Hh Ha. unfold spec_body. rewrite Hn.
  pose proof (zlen_nonneg input). pose proof (zlen_nonneg rest).
  destruct (Z.ltb_spec n (zlen input)); [lia|].
  rewrite !zlen_app, !zlen_cons, zlen_nil.
  destruct (Z.ltb_spec (zlen input + (1 + (1 + 0) + zlen rest)) (zlen input + 2)); [lia|].
  rewrite ztake_app_length.
  replace (if GSM0710_FRAME_IS GSM0710_TYPE_UI ty then input else []) with (@nil Z)
    by (destruct Ha as [->| ->]; [done|by case_if]).
  rewrite app_nil_r. simpl app. rewrite byte_at_app_length.
  pose proof (calc_crc_accepted hdr (zlen hdr) Hh) as Hok.
  rewrite ztake_all in Hok by lia. rewrite Hok.
  assert (byte_at (input ++ frame_calc_crc hdr (zlen hdr) :: GSM0710_FRAME_FLAG :: rest)
            (zlen input + 1) = GSM0710_FRAME_FLAG) as ->.
  { rewrite <- byte_at_zdrop, zdrop_app_length by lia. reflexivity. }
  rewrite Z.eqb_refl. simpl. f_equal.
  rewrite <- zdrop_zdrop, zdrop_app_length by lia. reflexivity.
Qed.

Lemma length_bits_short len :
  0 <= len <= 127 ->
  Z.land (2 * len + 1) 1 <> 0 /\ Z.shiftr (Z.land (2 * len + 1) 254) 1 = len.
Proof.
  intros H.
  enough (forall c, is_byte c -> c <= 127 ->
    Z.land (2 * c + 1) 1 <> 0 /\ Z.shiftr (Z.land (2 * c + 1) 254) 1 = c) as E
    by (apply E; unfold is_byte; lia).
  clear. intros c B. byte_cases c.
Qed.

Lemma length_bits_long m :
  0 <= m <= 127 -> Z.land (2 * m) 1 = 0 /\ Z.shiftr (Z.land (2 * m) 254) 1 = m.
Proof.
  intros H.
  enough (forall c, is_byte c -> c <= 127 ->
    Z.land (2 * c) 1 = 0 /\ Z.shiftr (Z.land (2 * c) 254) 1 = c) as E
    by (apply E; unfold is_byte; lia).
  clear. intros c B. byte_cases c.
Qed.

(** The parser reads back the header that [write_frame] wrote, one-byte and
    two-byte length fields alike. *)
Lemma spec_parse_frame n1 n ch ty input rest :
  0 <= ch < 64 -> is_byte ty -> n1 ch = Some n -> zlen input <= n -> zlen input <= 32767 ->
  fcs_agrees ty input ->
  spec_parse n1 (basic_header ch ty (zlen input) ++ input ++
                 basic_postfix ch ty (zlen input) ++ rest)
  = SFrame (mkFrame ch ty (zlen input) input) rest.
Proof.
  intros Hch Hty Hn Hle Hmax Ha.
  pose proof (zlen_nonneg input). pose proof (zlen_nonneg rest).
  pose proof (basic_header_bytes ch ty (zlen input) Hty ltac:(lia)) as HB.
  unfold spec_parse, basic_postfix in *. unfold basic_header in HB |- *.
  destruct (decide (zlen input <= 127)).
  - rewrite length_field_short in HB |- * by lia. simpl app.
    rewrite !zlen_cons, zlen_app, !zlen_cons.
    destruct (Z.ltb_spec (1 + (1 + (1 + (zlen input + (1 + (1 + zlen rest)))))) 5); [lia|].
    destruct (length_bits_short (zlen input)) as [E1 E2]; [lia|].
    rewrite (proj2 (Z.eqb_neq _ _) E1), E2, address_decode by lia.
    by apply (spec_body_frame n1 n ch ty [_; _; _] _ input rest).
  - rewrite length_field_long in HB |- * by lia. simpl app.
    rewrite !zlen_cons, zlen_app, !zlen_cons.
    destruct (Z.ltb_spec (1 + (1 + (1 + (1 + (zlen input + (1 + (1 + zlen rest))))))) 5); [lia|].
    destruct (length_bits_long (zlen input mod 128)) as [E1 E2]; [lia|].
    rewrite (proj2 (Z.eqb_eq _ _) E1), E2, address_decode by lia.
    replace (zlen input mod 128 + zlen input / 128 * 128) with (zlen input) by lia.
    by apply (spec_body_frame n1 n ch ty [_; _; _; _] _ input rest).
Qed.

Lemma strip_flags_header ch ty len r :
  0 <= ch < 64 ->
  strip_flags GSM0710_FRAME_FLAG (basic_header ch ty len ++ r) = basic_header ch ty len ++ r.
Proof.
  intros H. unfold basic_header. simpl. rewrite (proj2 (Z.eqb_neq _ _)); [done|].
  apply address_not_flag. unfold is_byte. lia.
Qed.

(** Conditions under which [write_frame] and the reader understand each other. *)
Record sendable (n1 : Z -> option Z) (ch ty : Z) (input : list Z) : Prop := {
  snd_ch : 0 <= ch < 64;
  snd_ty : is_byte ty;
  snd_n1 : exists n, n1 ch = Some n /\ zlen input <= n;
  snd_max : zlen input <= 32767;
  snd_fcs : fcs_agrees ty input
}.

Lemma spec_get_basic_frame n1 production k garbage ch ty input rest :
  sendable n1 ch ty input -> Forall (fun x => x <> GSM0710_FRAME_FLAG) garbage ->
  spec_get n1 production (S k) false (garbage ++ basic_frame ch ty input ++ rest)
  = SGFrame (mkFrame ch ty (zlen input) input) rest false.
Proof.
  intros [Hch Hty [n [Hn Hle]] Hmax Hf] Hg. cbn [spec_get]. unfold spec_attempt.
  rewrite basic_frame_cons, after_flag_app, strip_flags_header by done.
  rewrite (spec_parse_frame n1 n) by done. done.
Qed.

Lemma base_get_basic_frame n1 production b garbage ch ty input rest :
  wf_buffer b -> flag_found b = false -> sendable n1 ch ty input ->
  Forall (fun x => x <> GSM0710_FRAME_FLAG) garbage ->
  contents b = garbage ++ basic_frame ch ty input ++ rest ->
  exists b', gsm0710_base_buffer_get_frame n1 production b
    = GFrame (mkFrame ch ty (zlen input) input) b' false /\
    wf_buffer b' /\ contents b' = rest /\ flag_found b' = false.
Proof.
  intros W F S G C.
  pose proof (base_get_frame_from_refines n1 production MAX_RESYNC_GET_FRAME_COUNT b W) as R.
  rewrite F, C in R. unfold MAX_RESYNC_GET_FRAME_COUNT in R.
  rewrite spec_get_basic_frame in R by done.
  unfold gsm0710_base_buffer_get_frame, MAX_RESYNC_GET_FRAME_COUNT.
  destruct (base_get_frame_from n1 production 3 b) as [f b' a| | |]; try done.
  destruct R as (-> & -> & W' & C' & F'). by exists b'.
Qed.

(** ** Several frames *)

Section stream.
Context (n1 : Z -> option Z) (production : bool).

(** What the extraction loop does with a buffer: frames until [NULL]. *)
Fixpoint read_frames (fuel : nat) (b : GSM0710_Buffer) : list GSM0710_Frame * GetFrame :=
  match fuel with
  | O => ([], GUndef)
  | S fuel =>
      match gsm0710_base_buffer_get_frame n1 production b with
      | GFrame f b _ => let '(fs, r) := read_frames fuel b in (f :: fs, r)
      | r => ([], r)
      end
  end.

(** What was given to [write_frame], as a frame. *)
Definition sent_frame (x : Z * Z * list Z) : GSM0710_Frame :=
  let '(ch, ty, input) := x in mkFrame ch ty (zlen input) input.
Definition sent_bytes (x : Z * Z * list Z) : list Z :=
  let '(ch, ty, input) := x in basic_frame ch ty input.
Definition sendable_all (xs : list (Z * Z * list Z)) : Prop :=
  Forall (fun '(ch, ty, input) => sendable n1 ch ty input) xs.

Lemma base_get_empty b :
  wf_buffer b -> flag_found b = false -> contents b = [] ->
  exists b', gsm0710_base_buffer_get_frame n1 production b = GNull (input_sleeping b') b' false /\
    wf_buffer b' /\ contents b' = [] /\ flag_found b' = false.
Proof.
  intros W F C.
  pose proof (base_get_frame_from_refines n1 production MAX_RESYNC_GET_FRAME_COUNT b W) as R.
  rewrite F, C in R. unfold gsm0710_base_buffer_get_frame.
  change (spec_get n1 production MAX_RESYNC_GET_FRAME_COUNT false []) with (SGNull false [] false) in R.
  destruct (base_get_frame_from n1 production MAX_RESYNC_GET_FRAME_COUNT b) as [|sg b' a| |]; try done.
  destruct R as (-> & W' & C' & F' & ->). exists b'. by rewrite andb_true_r.
Qed.

Lemma read_frames_stream xs fuel b :
  wf_buffer b -> flag_found b = false -> sendable_all xs ->
  contents b = concat (map sent_bytes xs) -> (length xs < fuel)%nat ->
  exists sig b', read_frames fuel b = (map sent_frame xs, GNull sig b' false) /\
    wf_buffer b' /\ contents b' = [] /\ flag_found b' = false.
Proof.
  revert fuel b. induction xs as [|[[ch ty] input] xs IH]; intros fuel b W F S C Hf;
    (destruct fuel as [|fuel]; [simpl in Hf; lia|]); cbn [read_frames].
  - destruct (base_get_empty b W F C) as (b' & -> & ? & ? & ?). by exists (input_sleeping b'), b'.
  - apply Forall_cons in S as [S1 S]. simpl in C.
    destruct (base_get_basic_frame n1 production b [] ch ty input (concat (map sent_bytes xs)))
      as (b1 & -> & W1 & C1 & F1); [done..|].
    destruct (IH fuel b1) as (sig & b' & -> & R); [done..|simpl in Hf; lia|].
    by exists sig, b'.
Qed.

End stream.

(** ** Delivery in pieces *)

(** What the parser decides on a prefix it does not change its mind about. *)
Definition extend (r : SpecRes) (q : list Z) : SpecRes :=
  match r with
  | SFrame f rest => SFrame f (rest ++ q)
  | SDrop rest => SDrop (rest ++ q)
  | r => r
  end.

Lemma byte_at_app (l q : list Z) i : 0 <= i < zlen l -> byte_at (l ++ q) i = byte_at l i.
Proof. intros H. unfold byte_at, zlen in *. apply app_nth1. lia. Qed.

Lemma zdrop_app (l q : list Z) n : 0 <= n <= zlen l -> zdrop n (l ++ q) = zdrop n l ++ q.
Proof. intros H. unfold zdrop, zlen in *. rewrite drop_app_le by lia. done. Qed.

Lemma ztake_app (l q : list Z) n : 0 <= n <= zlen l -> ztake n (l ++ q) = ztake n l.
Proof. intros H. unfold ztake, zlen in *. rewrite take_app_le by lia. done. Qed.

Lemma spec_body_app n1 ch ctl hdr unread r len q :
  0 <= len -> spec_body n1 ch ctl hdr unread r len <> SNeedMore ->
  spec_body n1 ch ctl hdr (unread ++ q) (r ++ q) len
  = extend (spec_body n1 ch ctl hdr unread r len) q.
Proof.
  intros Hl. unfold spec_body. destruct (n1 ch) as [n|]; [|done].
  destruct (n <? len); [done|]. pose proof (zlen_nonneg q). rewrite zlen_app.
  destruct (Z.ltb_spec (zlen r) (len + 2)); [done|]. intros _.
  destruct (Z.ltb_spec (zlen r + zlen q) (len + 2)); [lia|].
  rewrite ztake_app, !byte_at_app by lia.
  destruct (_ && _); simpl; rewrite zdrop_app by lia; done.
Qed.

Lemma length_byte_nonneg x : is_byte x -> 0 <= Z.shiftr (Z.land x 254) 1.
Proof. intros [? _]. apply Z.shiftr_nonneg, Z.land_nonneg. lia. Qed.

Lemma spec_parse_app n1 l q :
  Forall is_byte l -> spec_parse n1 l <> SNeedMore ->
  spec_parse n1 (l ++ q) = extend (spec_parse n1 l) q.
Proof.
  intros B. unfold spec_parse. pose proof (zlen_nonneg q). rewrite zlen_app.
  destruct (Z.ltb_spec (zlen l) 5); [done|].
  destruct (Z.ltb_spec (zlen l + zlen q) 5); [lia|].
  destruct l as [|a [|c [|x r]]]; try done.
  apply Forall_cons in B as [_ B]. apply Forall_cons in B as [_ B]. apply Forall_cons in B as [Bx B].
  pose proof (length_byte_nonneg x Bx). cbn [app].
  destruct (_ =? 0).
  - destruct r as [|y r]; [done|]. cbn [app]. apply Forall_cons in B as [By B].
    intros HN. change (y :: r ++ q) with ((y :: r) ++ q). apply spec_body_app; [unfold is_byte in By; lia|done].
  - intros HN. change (x :: r ++ q) with ((x :: r) ++ q). by apply spec_body_app.
Qed.

(** The frame without its start flag. *)
Definition frame_tail (ch ty : Z) (input : list Z) : list Z :=
  basic_header ch ty (zlen input) ++ input ++ basic_postfix ch ty (zlen input).

Lemma spec_parse_strict_prefix n1 ch ty input p q :
  sendable n1 ch ty input -> Forall is_byte input ->
  frame_tail ch ty input = p ++ q -> q <> [] -> spec_parse n1 p = SNeedMore.
Proof.
  intros [Hch Hty [n [Hn Hle]] Hmax Hf] Hb E Hq.
  pose proof (spec_parse_frame n1 n ch ty input [] Hch Hty Hn Hle Hmax Hf) as P.
  rewrite app_nil_r in P. unfold frame_tail in E. rewrite E in P.
  assert (spec_parse n1 p = SNeedMore \/ spec_parse n1 p <> SNeedMore) as [|N]
    by (destruct (spec_parse n1 p); auto); [done|].
  assert (Forall is_byte p) as Bp.
  { assert (Forall is_byte (p ++ q)) as BB; [|by apply Forall_app in BB as [? _]].
    rewrite <- E. pose proof (zlen_nonneg input).
    pose proof (basic_header_bytes ch ty (zlen input) Hty ltac:(lia)) as HB.
    repeat apply Forall_app_2; try done. unfold basic_postfix.
    apply Forall_cons; split; [by apply frame_calc_crc_byte|decide_closed]. }
  rewrite (spec_parse_app n1 p q Bp N) in P.
  destruct (spec_parse n1 p); try done. simpl in P. injection P as _ P.
  apply app_nil in P as [_ ->]. done.
Qed.


(** The second piece of a frame completes it. *)
Lemma spec_get_second n1 production k ch ty input p q rest :
  sendable n1 ch ty input -> frame_tail ch ty input = p ++ q ->
  spec_get n1 production (S k) true (p ++ q ++ rest)
  = SGFrame (mkFrame ch ty (zlen input) input) rest false.
Proof.
  intros [Hch Hty [n [Hn Hle]] Hmax Hf] E. cbn [spec_get]. unfold spec_attempt.
  rewrite app_assoc, <- E. unfold frame_tail.
  rewrite <- !app_assoc, strip_flags_header, (spec_parse_frame n1 n) by done. done.
Qed.

(** A strict prefix of a frame is kept for later. *)
Lemma spec_get_prefix n1 production k ch ty input p q :
  sendable n1 ch ty input -> Forall is_byte input ->
  basic_frame ch ty input = p ++ q -> q <> [] ->
  exists found p', spec_get n1 production (S k) false p = SGNull found p' false /\
    (if found then frame_tail ch ty input = p' ++ q else p' = [] /\ p = []).
Proof.
  intros S Hb E Hq. cbn [spec_get]. unfold spec_attempt.
  destruct p as [|x p]; [by exists false, []|].
  pose proof (basic_frame_cons ch ty input []) as B. rewrite !app_nil_r, E in B.
  injection B as -> B. cbn [after_flag]. rewrite Z.eqb_refl.
  assert (strip_flags GSM0710_FRAME_FLAG p = p) as ->.
  { unfold basic_header in B. cbn [app] in B. destruct p as [|y p]; [done|].
    injection B as -> _. simpl. rewrite (proj2 (Z.eqb_neq _ _)); [done|].
    apply address_not_flag. destruct S. unfold is_byte. lia. }
  rewrite (spec_parse_strict_prefix n1 ch ty input p q S Hb) by done. by exists true, p.
Qed.

(** ** Room for the rest of a frame *)

Lemma spec_body_more n1 ch ctl hdr unread r len :
  (forall c n, n1 c = Some n -> n <= GSM0710_BUFFER_SIZE - 6) ->
  spec_body n1 ch ctl hdr unread r len = SNeedMore -> zlen r < GSM0710_BUFFER_SIZE - 4.
Proof.
  intros Hn. unfold spec_body. destruct (n1 ch) as [n|] eqn:E; [|done].
  specialize (Hn ch n E). destruct (Z.ltb_spec n len); [done|].
  destruct (Z.ltb_spec (zlen r) (len + 2)); [intros _; lia|]. by destruct (_ && _).
Qed.

Lemma spec_parse_more n1 l :
  (forall c n, n1 c = Some n -> n <= GSM0710_BUFFER_SIZE - 6) ->
  spec_parse n1 l = SNeedMore -> zlen l < GSM0710_BUFFER_SIZE.
Proof.
  intros Hn. unfold spec_parse. unfold GSM0710_BUFFER_SIZE.
  destruct (Z.ltb_spec (zlen l) 5); [intros _; lia|].
  destruct l as [|a [|c [|x r]]]; rewrite ?zlen_cons, ?zlen_nil in *; try (intros _; lia).
  destruct (_ =? 0).
  - destruct r as [|y r]; rewrite ?zlen_cons, ?zlen_nil in *; [intros _; lia|].
    intros E%spec_body_more; [|done]. unfold GSM0710_BUFFER_SIZE in E. lia.
  - intros E%spec_body_more; [|done]. unfold GSM0710_BUFFER_SIZE in E. lia.
Qed.

Lemma spec_get_room n1 production k found l found' rest a :
  (forall c n, n1 c = Some n -> n <= GSM0710_BUFFER_SIZE - 6) ->
  spec_get n1 production k found l = SGNull found' rest a -> zlen rest < GSM0710_BUFFER_SIZE.
Proof.
  intros Hn. revert found l. induction k as [|k IH]; intros found l; cbn [spec_get].
  - destruct production; [|done]. unfold spec_attempt.
    destruct (if found then _ else _) as [r|]; [|intros [= _ <- _]; done].
    destruct (spec_parse n1 _) eqn:E; try done. intros [= _ <- _]. by apply (spec_parse_more n1).
  - unfold spec_attempt.
    destruct (if found then _ else _) as [r|]; [|intros [= _ <- _]; done].
    destruct (spec_parse n1 _) eqn:E; try done.
    + intros [= _ <- _]. by apply (spec_parse_more n1).
    + apply IH.
Qed.

(** ** Properties *)

(** C5: The basic-option reader, which works with wrapping pointers and unsigned
    counters on the ring, computes exactly what the parser of the list specification
    computes on the bytes waiting in the buffer: the same frame, the same bytes left,
    the same flag state and signal, the same failed assertion, and the same accesses
    outside [channellist]; and the buffer invariant holds afterwards. *)
Theorem base_reader_refines_spec n1 production b :
  wf_buffer b ->
  refines_get (gsm0710_base_buffer_get_frame n1 production b)
              (spec_get_frame n1 production (flag_found b) (contents b)).
Proof. apply base_get_frame_from_refines. Qed.

Lemma base_reader_refines_spec_witness :
  wf_buffer gsm0710_buffer_init /\
  refines_get (gsm0710_base_buffer_get_frame (fun _ => Some 512) true gsm0710_buffer_init)
              (SGNull false [] false).
Proof.
  split; [apply buffer_init_wf|].
  exact (base_reader_refines_spec (fun _ => Some 512) true _ buffer_init_wf).
Defined.

(** A buffer that holds the given bytes. *)
Definition buffer_with (bs : list Z) : GSM0710_Buffer :=
  snd (gsm0710_buffer_write gsm0710_buffer_init bs (zlen bs)).

Lemma buffer_with_spec bs :
  Forall is_byte bs -> zlen bs <= GSM0710_BUFFER_SIZE ->
  wf_buffer (buffer_with bs) /\ flag_found (buffer_with bs) = false /\ contents (buffer_with bs) = bs.
Proof.
  intros Hb Hl. unfold buffer_with.
  pose proof (buffer_write_spec gsm0710_buffer_init bs (zlen bs) buffer_init_wf Hb
                ltac:(pose proof (zlen_nonneg bs); lia)) as S.
  destruct (gsm0710_buffer_write _ _ _) as [n b]. destruct S as (Hn & W & C & _ & F & _).
  cbn [snd]. split_and!; [done|done|]. rewrite C.
  change (contents gsm0710_buffer_init) with (@nil Z).
  change (datacount gsm0710_buffer_init) with 0 in Hn. rewrite ztake_all by lia. done.
Qed.

(** Round trip of the basic option.  A frame that [write_frame] puts on the wire,
    with any bytes but the flag in front of it and anything behind it, is returned by
    the reader with its channel, type and payload, and exactly the bytes behind it are
    left in the buffer; one- and two-byte length fields alike. *)
Theorem basic_frame_roundtrip n1 production b garbage ch ty input rest :
  wf_buffer b -> flag_found b = false -> sendable n1 ch ty input ->
  Forall (fun x => x <> GSM0710_FRAME_FLAG) garbage ->
  contents b = garbage ++ basic_frame ch ty input ++ rest ->
  exists b', gsm0710_base_buffer_get_frame n1 production b
    = GFrame (mkFrame ch ty (zlen input) input) b' false /\
    wf_buffer b' /\ contents b' = rest /\ flag_found b' = false.
Proof. apply base_get_basic_frame. Qed.

Lemma basic_frame_roundtrip_witness :
  exists b', gsm0710_base_buffer_get_frame (fun _ => Some 512) true
               (buffer_with ([1; 2] ++ basic_frame 3 GSM0710_TYPE_UIH [65; 84] ++ [7]))
    = GFrame (mkFrame 3 GSM0710_TYPE_UIH 2 [65; 84]) b' false /\ contents b' = [7].
Proof.
  set (bs := [1; 2] ++ basic_frame 3 GSM0710_TYPE_UIH [65; 84] ++ [7]).
  assert (Forall is_byte bs) as Hb by decide_closed.
  assert (zlen bs <= GSM0710_BUFFER_SIZE) as Hl by (vm_compute; discriminate).
  destruct (buffer_with_spec bs Hb Hl) as (W & F & C).
  assert (sendable (fun _ => Some 512) 3 GSM0710_TYPE_UIH [65; 84]) as S.
  { split; [lia|decide_closed|exists 512; split; [done|vm_compute; discriminate]
           |vm_compute; discriminate|left; reflexivity]. }
  destruct (basic_frame_roundtrip (fun _ => Some 512) true (buffer_with bs) [1; 2] 3
              GSM0710_TYPE_UIH [65; 84] [7] W F S ltac:(decide_closed) C) as (b' & E & _ & C' & _).
  exists b'. split; [exact E|exact C'].
Defined.

(** A stream of frames sent one after the other (by any mixture of channels and
    types) is extracted completely and in order, no frame being lost, invented or
    merged, and the reader then reports that there is none left. *)
Theorem basic_stream_roundtrip n1 production xs fuel b :
  wf_buffer b -> flag_found b = false -> sendable_all n1 xs ->
  contents b = concat (map sent_bytes xs) -> (length xs < fuel)%nat ->
  exists sig b', read_frames n1 production fuel b = (map sent_frame xs, GNull sig b' false) /\
    wf_buffer b' /\ contents b' = [] /\ flag_found b' = false.
Proof. apply read_frames_stream. Qed.

Lemma basic_stream_roundtrip_witness :
  exists sig b', read_frames (fun _ => Some 512) true 3
     (buffer_with (concat (map sent_bytes [(1, GSM0710_TYPE_UIH, [65]); (0, GSM0710_TYPE_UA, [])])))
   = (map sent_frame [(1, GSM0710_TYPE_UIH, [65]); (0, GSM0710_TYPE_UA, [])], GNull sig b' false).
Proof.
  set (xs := [(1, GSM0710_TYPE_UIH, [65]); (0, GSM0710_TYPE_UA, [])]).
  assert (Forall is_byte (concat (map sent_bytes xs))) as Hb by decide_closed.
  assert (zlen (concat (map sent_bytes xs)) <= GSM0710_BUFFER_SIZE) as Hl by (vm_compute; discriminate).
  destruct (buffer_with_spec _ Hb Hl) as (W & F & C).
  assert (sendable_all (fun _ => Some 512) xs) as S.
  { repeat (apply Forall_cons; split); try done;
      (split; [lia|decide_closed|exists 512; split; [done|vm_compute; discriminate]
              |vm_compute; discriminate|left; reflexivity]). }
  destruct (basic_stream_roundtrip (fun _ => Some 512) true xs 3 _ W F S C)
    as (sig & b' & E & _); [simpl; lia|].
  exists sig, b'. exact E.
Defined.

(** A buffer left by the reader in the middle of the first frame of the stream. *)
Lemma read_frames_resume n1 production ch ty input xs p q fuel b :
  wf_buffer b -> flag_found b = true -> sendable_all n1 ((ch, ty, input) :: xs) ->
  frame_tail ch ty input = p ++ q ->
  contents b = p ++ q ++ concat (map sent_bytes xs) -> (S (length xs) < fuel)%nat ->
  exists sig b', read_frames n1 production fuel b
    = (map sent_frame ((ch, ty, input) :: xs), GNull sig b' false) /\ contents b' = [].
Proof.
  intros W F S E C Hf. destruct fuel as [|fuel]; [lia|]. apply Forall_cons in S as [S1 S].
  pose proof (base_get_frame_from_refines n1 production MAX_RESYNC_GET_FRAME_COUNT b W) as R.
  rewrite F, C in R. unfold MAX_RESYNC_GET_FRAME_COUNT in R.
  rewrite (spec_get_second n1 production 2 ch ty input) in R by done.
  cbn [read_frames]. unfold gsm0710_base_buffer_get_frame, MAX_RESYNC_GET_FRAME_COUNT.
  destruct (base_get_frame_from n1 production 3 b) as [f b1 a| | |]; try done.
  destruct R as (-> & -> & W1 & C1 & F1).
  destruct (read_frames_stream n1 production xs fuel b1) as (sig & b' & -> & _ & C' & _); try done; [lia|].
  by exists sig, b'.
Qed.

(** The frames when the stream arrives in two pieces, cut anywhere. *)
Lemma read_frames_split n1 production xs p q fuel b :
  wf_buffer b -> flag_found b = false -> sendable_all n1 xs ->
  Forall (fun '(_, _, input) => Forall is_byte input) xs ->
  concat (map sent_bytes xs) = p ++ q -> contents b = p -> (length xs < fuel)%nat ->
  exists xs1 xs2 sig b1, xs = xs1 ++ xs2 /\
    read_frames n1 production fuel b = (map sent_frame xs1, GNull sig b1 false) /\ wf_buffer b1 /\
    forall b2 fuel2, wf_buffer b2 -> contents b2 = contents b1 ++ q ->
      flag_found b2 = flag_found b1 -> (length xs < fuel2)%nat ->
      exists sig' b3, read_frames n1 production fuel2 b2 = (map sent_frame xs2, GNull sig' b3 false) /\
        contents b3 = [].
Proof.
  revert p fuel b.
  induction xs as [|[[ch ty] input] xs IH]; intros p fuel b W F S Hb E C Hf.
  { simpl in E. symmetry in E. apply app_nil in E as [-> ->].
    destruct (read_frames_stream n1 production [] fuel b) as (sig & b1 & R & W1 & C1 & F1); try done.
    exists [], [], sig, b1. split_and!; try done. intros b2 fuel2 W2 C2 F2 Hf2.
    destruct (read_frames_stream n1 production [] fuel2 b2) as (sig' & b3 & R3 & _ & C3 & _); try done;
      [congruence|rewrite C2, C1; done|]. eauto. }
  pose proof S as S0. apply Forall_cons in S as [S1 S]. apply Forall_cons in Hb as [Hb1 Hb].
  simpl in E, Hf. destruct fuel as [|fuel]; [lia|].
  destruct (decide (zlen p < zlen (basic_frame ch ty input))) as [Hp|Hp].
  - (* the cut is inside the first frame *)
    destruct (app_eq_inv (basic_frame ch ty input) (concat (map sent_bytes xs)) p q E)
      as [(k & Ep & Eq)|(k & Ep & Eq)].
    2: { rewrite Ep, zlen_app in Hp. pose proof (zlen_nonneg k). lia. }
    assert (k <> []) as Hk by (intros ->; rewrite app_nil_r in Ep; rewrite Ep in Hp; lia).
    pose proof (base_get_frame_from_refines n1 production MAX_RESYNC_GET_FRAME_COUNT b W) as R.
    unfold MAX_RESYNC_GET_FRAME_COUNT in R. rewrite F, C in R.
    destruct (spec_get_prefix n1 production 2 ch ty input p k S1 Hb1 Ep Hk) as (found & p' & G & H).
    rewrite G in R. cbn [read_frames]. unfold gsm0710_base_buffer_get_frame, MAX_RESYNC_GET_FRAME_COUNT.
    destruct (base_get_frame_from n1 production 3 b) as [|sig b1 a| |]; try done.
    destruct R as (-> & W1 & C1 & F1 & _).
    exists [], ((ch, ty, input) :: xs), sig, b1. split_and!; try done.
    intros b2 fuel2 W2 C2 F2 Hf2. rewrite C1, Eq in C2. rewrite F1 in F2. destruct found.
    + by apply (read_frames_resume n1 production ch ty input xs p' k).
    + destruct H as [-> ->]. simpl in C2, Ep. subst k.
      destruct (read_frames_stream n1 production ((ch, ty, input) :: xs) fuel2 b2)
        as (sig' & b3 & R3 & _ & C3 & _); try done. eauto.
  - (* the first frame is in the first piece *)
    assert (exists k, p = basic_frame ch ty input ++ k /\ concat (map sent_bytes xs) = k ++ q)
      as (k & Ep & Eq).
    { destruct (app_eq_inv (basic_frame ch ty input) (concat (map sent_bytes xs)) p q E)
        as [(k & Ep & Eq)|(k & Ep & Eq)]; [|by exists k].
      destruct k as [|z k]; [exists []; rewrite app_nil_r in *; done|].
      rewrite Ep, zlen_app, zlen_cons in Hp. pose proof (zlen_nonneg k). lia. }
    destruct (base_get_basic_frame n1 production b [] ch ty input k) as (b0 & G & W0 & C0 & F0);
      try done; [by rewrite C|].
    destruct (IH k fuel b0) as (xs1 & xs2 & sig & b1 & -> & R & W1 & H2); try done; [lia|].
    exists ((ch, ty, input) :: xs1), xs2, sig, b1. split_and!; try done.
    + cbn [read_frames]. rewrite G, R. done.
    + intros b2 fuel2 W2 C2 F2 Hf2. apply H2; try done. simpl in Hf2. lia.
Qed.


(** The receive buffer cannot fill up with an incomplete frame: as long as no
    channel's maximum frame size exceeds 4090, the reader returns [NULL] only with
    free space in the buffer, even when the buffer was full.  (The header of the
    daemon asks for a buffer larger than every N1; six bytes more are needed.) *)
Theorem base_reader_leaves_room n1 production b sig b' a :
  wf_buffer b -> (forall c n, n1 c = Some n -> n <= GSM0710_BUFFER_SIZE - 6) ->
  gsm0710_base_buffer_get_frame n1 production b = GNull sig b' a ->
  0 < gsm0710_buffer_free b'.
Proof.
  intros W Hn E.
  pose proof (base_get_frame_from_refines n1 production MAX_RESYNC_GET_FRAME_COUNT b W) as R.
  unfold gsm0710_base_buffer_get_frame in E. rewrite E in R.
  destruct (spec_get _ _ _ _ _) as [|found rest a'| |] eqn:G; try done.
  apply spec_get_room in G; [|done]. destruct R as (_ & W' & C' & _).
  rewrite <- C', contents_len in G by done. pose proof (wf_datacount b' W').
  unfold gsm0710_buffer_free, GSM0710_BUFFER_SIZE in *. rewrite u32_id; lia.
Qed.

Lemma base_reader_leaves_room_witness :
  exists sig b' a, gsm0710_base_buffer_get_frame (fun _ => Some 512) true
    (buffer_with [0xF9; 0x07; 0xEF; 0x09]) = GNull sig b' a /\ 0 < gsm0710_buffer_free b'.
Proof.
  assert (Forall is_byte [0xF9; 0x07; 0xEF; 0x09]) as Hb by decide_closed.
  assert (zlen [0xF9; 0x07; 0xEF; 0x09] <= GSM0710_BUFFER_SIZE) as Hl by (vm_compute; discriminate).
  destruct (buffer_with_spec _ Hb Hl) as (W & F & C).
  destruct (gsm0710_base_buffer_get_frame (fun _ => Some 512) true
    (buffer_with [0xF9; 0x07; 0xEF; 0x09])) as [? ? ?|sig b' a|?|] eqn:E;
    [vm_compute in E; discriminate| |vm_compute in E; discriminate|vm_compute in E; discriminate].
  exists sig, b', a. split; [reflexivity|].
  apply (base_reader_leaves_room (fun _ => Some 512) true _ sig b' a W); [|exact E].
  intros c n [= <-]. vm_compute. discriminate.
Defined.

(** C29: Frames survive any fragmentation by the serial device.  When a stream of
    frames arrives cut in two at an arbitrary byte (inside a header, a payload or a
    trailer), extracting after the first read and again after the second one yields
    together exactly the frames sent, in order. *)
Theorem basic_stream_in_pieces n1 production xs p q fuel b :
  wf_buffer b -> flag_found b = false -> sendable_all n1 xs ->
  Forall (fun '(_, _, input) => Forall is_byte input) xs ->
  concat (map sent_bytes xs) = p ++ q -> contents b = p -> (length xs < fuel)%nat ->
  exists fs1 fs2 sig b1, read_frames n1 production fuel b = (fs1, GNull sig b1 false) /\
    fs1 ++ fs2 = map sent_frame xs /\
    (Forall is_byte q -> zlen q <= GSM0710_BUFFER_SIZE - datacount b1 ->
     exists sig' b3, read_frames n1 production fuel (snd (gsm0710_buffer_write b1 q (zlen q)))
       = (fs2, GNull sig' b3 false) /\ contents b3 = []).
Proof.
  intros W F S Hb E C Hf.
  destruct (read_frames_split n1 production xs p q fuel b W F S Hb E C Hf)
    as (xs1 & xs2 & sig & b1 & -> & R & W1 & H).
  exists (map sent_frame xs1), (map sent_frame xs2), sig, b1.
  split_and!; [done|by rewrite map_app|]. intros Bq Lq.
  pose proof (buffer_write_spec b1 q (zlen q) W1 Bq ltac:(pose proof (zlen_nonneg q); lia)) as X.
  destruct (gsm0710_buffer_write b1 q (zlen q)) as [n b2]. destruct X as (Hn & W2 & C2 & _ & F2 & _).
  rewrite ztake_all in C2 by lia. by apply H.
Qed.

Lemma basic_stream_in_pieces_witness :
  exists fs1 fs2 sig b1, read_frames (fun _ => Some 512) true 2
      (buffer_with (ztake 4 (basic_frame 1 GSM0710_TYPE_UIH [65; 66]))) = (fs1, GNull sig b1 false) /\
    fs1 ++ fs2 = [mkFrame 1 GSM0710_TYPE_UIH 2 [65; 66]].
Proof.
  set (xs := [(1, GSM0710_TYPE_UIH, [65; 66])]).
  set (p := ztake 4 (basic_frame 1 GSM0710_TYPE_UIH [65; 66])).
  assert (Forall is_byte p) as Hb by decide_closed.
  assert (zlen p <= GSM0710_BUFFER_SIZE) as Hl by (vm_compute; discriminate).
  destruct (buffer_with_spec p Hb Hl) as (W & F & C).
  assert (sendable_all (fun _ => Some 512) xs) as S.
  { apply Forall_cons; split; [|apply Forall_nil; done].
    split; [lia|decide_closed|exists 512; split; [done|vm_compute; discriminate]
           |vm_compute; discriminate|left; reflexivity]. }
  destruct (basic_stream_in_pieces (fun _ => Some 512) true xs p
              (zdrop 4 (basic_frame 1 GSM0710_TYPE_UIH [65; 66])) 2 _ W F S)
    as (fs1 & fs2 & sig & b1 & R & E & _); [|reflexivity|exact C|simpl; lia|].
  { apply Forall_cons; split; [decide_closed|apply Forall_nil; done]. }
  exists fs1, fs2, sig, b1. split; [exact R|exact E].
Defined.
