(* ===== verification/AdvFrame.v ===== *)
(** * Advanced-option framing ([fill_adv_frame_buf],
    [gsm0710_advanced_buffer_get_frame])

    The transparent framing of GSM 07.10: 0x7E flags, 0x7D escapes.  The reader
    accumulates the unescaped bytes in [adv_data] across calls, so its state
    spans [adv_length], [adv_found_esc] and [flag_found].

    The abstract specification [adv_spec] runs the same automaton on the list
    of waiting bytes with an explicit accumulator. *)
From S2P Require Import Prelude Crc Ring Frame BasicFrame.

(** ** Writing *)

Definition is_escaped (x : Z) : bool := existsb (Z.eqb x) GSM0710_FRAME_ADV_ESCAPED_SYMS.

(** The bytes [fill_adv_frame_buf] stores for [data]; its result is their
    number. *)
Fixpoint fill_adv_frame_buf (data : list Z) : list Z :=
  match data with
  | [] => []
  | x :: r =>
      (if is_escaped x then [GSM0710_FRAME_ADV_ESC; Z.lxor x GSM0710_FRAME_ADV_ESC_COPML]
       else [x]) ++ fill_adv_frame_buf r
  end.

(** [adv_frame_buf] as [write_frame] fills it. *)
Definition adv_frame (channel type : Z) (input : list Z) : list Z :=
  let h := [address_field channel; type] in
  [GSM0710_FRAME_ADV_FLAG] ++ fill_adv_frame_buf h ++ fill_adv_frame_buf input
  ++ fill_adv_frame_buf [frame_calc_crc h 2] ++ [GSM0710_FRAME_ADV_FLAG].

(** ** Reading *)

Fixpoint adv_find_flag (fuel : nat) (b : GSM0710_Buffer) : GSM0710_Buffer :=
  match fuel with
  | O => b
  | S fuel =>
      if negb (flag_found b) && (0 <? gsm0710_buffer_length b) then
        let b := if byte_at (data b) (readp b) =? GSM0710_FRAME_ADV_FLAG
                 then set_adv_found_esc false (set_adv_length 0 (set_flag_found true b))
                 else b in
        adv_find_flag fuel (buffer_advance b)
      else b
  end.

Inductive AdvStep :=
| AdvFrame (f : GSM0710_Frame) (b : GSM0710_Buffer)
| AdvNull (b : GSM0710_Buffer)
| AdvAgain (b : GSM0710_Buffer). (* goto l_begin *)

(** The closing flag was found: check what was accumulated. *)
Definition adv_finish (b : GSM0710_Buffer) : AdvStep :=
  if adv_length b <? 3 then AdvAgain (set_flag_found false b)
  else
    let d := adv_data b in
    let ch := Z.shiftr (Z.land (byte_at d 0) 252) 2 in
    let fcs := crc_step 0xFF (byte_at d 0) in
    let ctl := byte_at d 1 in
    let fcs := crc_step fcs (byte_at d 1) in
    let len := adv_length b - 3 in
    let payload := ztake len (zdrop 2 d) in
    let fcs := if GSM0710_FRAME_IS GSM0710_TYPE_UI ctl then crc_run fcs payload else fcs in
    if negb (fcs_ok fcs (byte_at d (adv_length b - 1))) then
      AdvAgain (set_dropped_count (u32 (dropped_count b + 1)) (set_flag_found false b))
    else
      AdvFrame (mkFrame ch ctl len payload)
        (set_flag_found false (set_received_count (u32 (received_count b + 1)) b)).

(** [buf->adv_data[buf->adv_length] = x; buf->adv_length++]. *)
Definition adv_store (x : Z) (b : GSM0710_Buffer) : GSM0710_Buffer :=
  set_adv_length (adv_length b + 1) (set_adv_data (memcpy_at (adv_data b) (adv_length b) [x]) b).

(** The loop that filters escape characters. *)
Fixpoint adv_scan (fuel : nat) (b : GSM0710_Buffer) : AdvStep :=
  match fuel with
  | O => AdvNull b
  | S fuel =>
      if 0 <? gsm0710_buffer_length b then
        let x := byte_at (data b) (readp b) in
        if negb (adv_found_esc b) && (GSM0710_FRAME_ADV_FLAG =? x) then
          adv_finish (buffer_advance b)
        else if GSM0710_BUFFER_SIZE <=? adv_length b then
          AdvAgain (set_dropped_count (u32 (dropped_count b + 1)) (set_flag_found false b))
        else
          let b :=
            if adv_found_esc b then
              set_adv_found_esc false (adv_store (Z.lxor x GSM0710_FRAME_ADV_ESC_COPML) b)
            else if GSM0710_FRAME_ADV_ESC =? x then set_adv_found_esc true b
            else adv_store x b in
          adv_scan fuel (buffer_advance b)
      else AdvNull b
  end.

(** One pass from the label [l_begin]. *)
Definition adv_pass (b : GSM0710_Buffer) : AdvStep :=
  let b := adv_find_flag (Z.to_nat (datacount b)) b in
  if negb (flag_found b) then AdvNull b
  else
    let b := if adv_length b =? 0
             then skip_flags (Z.to_nat (datacount b)) GSM0710_FRAME_ADV_FLAG b else b in
    adv_scan (Z.to_nat (datacount b)) b.

Inductive AdvGet :=
| AGFrame (f : GSM0710_Frame) (b : GSM0710_Buffer)
| AGNull (b : GSM0710_Buffer)
| AGNoFuel.

Fixpoint adv_get_loop (fuel : nat) (b : GSM0710_Buffer) : AdvGet :=
  match fuel with
  | O => AGNoFuel
  | S fuel =>
      match adv_pass b with
      | AdvFrame f b => AGFrame f b
      | AdvNull b => AGNull b
      | AdvAgain b => adv_get_loop fuel b
      end
  end.

(** Every pass after the first starts with no flag found, so it consumes a
    byte or ends: [datacount + 2] passes are enough ([adv_get_total]). *)
Definition gsm0710_advanced_buffer_get_frame (b : GSM0710_Buffer) : AdvGet :=
  adv_get_loop (S (S (Z.to_nat (datacount b)))) b.

(** ** Specification on lists *)

Inductive AdvRes :=
| RFrame (f : GSM0710_Frame) (rest : list Z)
| RNeed (acc : list Z) (esc : bool)      (* all bytes consumed, frame still open *)
| RAgain (rest : list Z).

Definition adv_spec_finish (acc : list Z) (rest : list Z) : AdvRes :=
  if zlen acc <? 3 then RAgain rest
  else
    let ctl := byte_at acc 1 in
    let payload := ztake (zlen acc - 3) (zdrop 2 acc) in
    let fcs := crc_run 0xFF (byte_at acc 0 :: ctl ::
                 if GSM0710_FRAME_IS GSM0710_TYPE_UI ctl then payload else []) in
    if fcs_ok fcs (byte_at acc (zlen acc - 1))
    then RFrame (mkFrame (GSM0710_DECODE_ADDRESS (byte_at acc 0)) ctl (zlen acc - 3) payload) rest
    else RAgain rest.

Fixpoint adv_spec_scan (acc : list Z) (esc : bool) (l : list Z) : AdvRes :=
  match l with
  | [] => RNeed acc esc
  | x :: r =>
      if negb esc && (x =? GSM0710_FRAME_ADV_FLAG) then adv_spec_finish acc r
      else if GSM0710_BUFFER_SIZE <=? zlen acc then RAgain l
      else if esc then adv_spec_scan (acc ++ [Z.lxor x GSM0710_FRAME_ADV_ESC_COPML]) false r
      else if x =? GSM0710_FRAME_ADV_ESC then adv_spec_scan acc true r
      else adv_spec_scan (acc ++ [x]) false r
  end.

(** The accumulated bytes. *)
Definition adv_acc (b : GSM0710_Buffer) : list Z := ztake (adv_length b) (adv_data b).

(** ** Accumulator lemmas *)

Lemma adv_acc_len b : wf_buffer b -> zlen (adv_acc b) = adv_length b.
Proof. intros []. unfold adv_acc. apply zlen_ztake. lia. Qed.

Lemma wf_adv_found_esc v b : wf_buffer b -> wf_buffer (set_adv_found_esc v b).
Proof. intros []; constructor; done. Qed.

Lemma adv_store_spec x b :
  wf_buffer b -> is_byte x -> adv_length b < GSM0710_BUFFER_SIZE ->
  wf_buffer (adv_store x b) /\ adv_acc (adv_store x b) = adv_acc b ++ [x].
Proof.
  intros W Hx Hl. destruct W as [W1 W2 W3 W4 W5 Wa Wab Wal].
  assert (zlen [x] = 1) as Lx by reflexivity. split.
  - constructor; simpl; auto.
    + rewrite zlen_memcpy_at; lia.
    + apply memcpy_bytes; auto.
    + lia.
  - unfold adv_acc, adv_store, memcpy_at. simpl.
    rewrite cons_middle, app_assoc. apply ztake_app_eq.
    rewrite zlen_app, Lx, zlen_ztake; lia.
Qed.

(** Fields [buffer_advance] leaves alone. *)
Lemma buffer_advance_fields b :
  flag_found (buffer_advance b) = flag_found b /\
  adv_length (buffer_advance b) = adv_length b /\
  adv_data (buffer_advance b) = adv_data b /\
  adv_found_esc (buffer_advance b) = adv_found_esc b.
Proof. unfold buffer_advance. by destruct (gsm0710_buffer_inc _ _). Qed.

Lemma buffer_advance_acc b : adv_acc (buffer_advance b) = adv_acc b.
Proof. unfold adv_acc. destruct (buffer_advance_fields b) as (_ & -> & -> & _). done. Qed.

(** The relation between a step on the ring and a step on the list. *)
Definition adv_refines (r : AdvStep) (s : AdvRes) : Prop :=
  match r, s with
  | AdvFrame f b, RFrame f' rest =>
      f = f' /\ wf_buffer b /\ contents b = rest /\ flag_found b = false
  | AdvNull b, RNeed acc esc =>
      wf_buffer b /\ contents b = [] /\ adv_acc b = acc /\ adv_found_esc b = esc /\
      flag_found b = true
  | AdvAgain b, RAgain rest => wf_buffer b /\ contents b = rest /\ flag_found b = false
  | _, _ => False
  end.

Lemma byte_at_ztake l n i : 0 <= i < n -> byte_at (ztake n l) i = byte_at l i.
Proof.
  intros. unfold byte_at, ztake. rewrite !nth_lookup, lookup_take_lt by lia. done.
Qed.

Lemma adv_finish_refines b :
  wf_buffer b -> adv_refines (adv_finish b) (adv_spec_finish (adv_acc b) (contents b)).
Proof.
  intros W. unfold adv_finish, adv_spec_finish. pose proof (wf_adv_length b W) as HL.
  pose proof (wf_adv_len b W) as HA.
  rewrite adv_acc_len by done. destruct (Z.ltb_spec (adv_length b) 3).
  { simpl. auto with mux. }
  unfold adv_acc. rewrite !byte_at_ztake by lia.
  assert (ztake (adv_length b - 3) (zdrop 2 (ztake (adv_length b) (adv_data b)))
          = ztake (adv_length b - 3) (zdrop 2 (adv_data b))) as ->.
  { unfold ztake, zdrop. rewrite skipn_firstn_comm, take_take. f_equal. lia. }
  fold (GSM0710_DECODE_ADDRESS (byte_at (adv_data b) 0)).
  assert ((if GSM0710_FRAME_IS GSM0710_TYPE_UI (byte_at (adv_data b) 1)
     then crc_run (crc_step (crc_step 255 (byte_at (adv_data b) 0)) (byte_at (adv_data b) 1))
            (ztake (adv_length b - 3) (zdrop 2 (adv_data b)))
     else crc_step (crc_step 255 (byte_at (adv_data b) 0)) (byte_at (adv_data b) 1))
    = crc_run 255 (byte_at (adv_data b) 0 :: byte_at (adv_data b) 1 ::
        if GSM0710_FRAME_IS GSM0710_TYPE_UI (byte_at (adv_data b) 1)
        then ztake (adv_length b - 3) (zdrop 2 (adv_data b)) else [])) as ->
    by (unfold crc_run; simpl; by case_if).
  destruct (fcs_ok _ _); simpl; auto with mux.
Qed.

Lemma adv_scan_refines fuel b :
  wf_buffer b -> flag_found b = true -> (Z.to_nat (datacount b) <= fuel)%nat ->
  adv_refines (adv_scan fuel b) (adv_spec_scan (adv_acc b) (adv_found_esc b) (contents b)).
Proof.
  revert b. induction fuel as [|fuel IH]; intros b W F Hf; cbn [adv_scan].
  { pose proof (wf_datacount b W).
    assert (contents b = []) as Cn by (apply contents_nil; [done|lia]). by rewrite Cn. }
  unfold gsm0710_buffer_length. destruct (Z.ltb_spec 0 (datacount b)) as [Hd|Hd].
  2: { pose proof (wf_datacount b W).
       assert (contents b = []) as Cn by (apply contents_nil; [done|lia]). by rewrite Cn. }
  destruct (buffer_advance_spec b W Hd) as (W1 & C1 & D1).
  set (x := byte_at (data b) (readp b)) in *.
  assert (is_byte x) as Bx by (apply byte_at_Forall, W).
  rewrite C1. cbn [adv_spec_scan]. rewrite (Z.eqb_sym GSM0710_FRAME_ADV_FLAG x).
  rewrite adv_acc_len by done. rewrite (Z.eqb_sym GSM0710_FRAME_ADV_ESC x).
  destruct (negb (adv_found_esc b) && (x =? GSM0710_FRAME_ADV_FLAG)).
  { rewrite <- buffer_advance_acc. by apply adv_finish_refines. }
  destruct (Z.leb_spec GSM0710_BUFFER_SIZE (adv_length b)).
  { simpl. split_and!; auto with mux. }
  set (b2 := if adv_found_esc b then _ else _).
  assert (wf_buffer b2 /\ contents b2 = contents b /\ datacount b2 = datacount b /\
    flag_found b2 = true /\
    byte_at (data b2) (readp b2) = x /\
    (if adv_found_esc b then adv_acc b2 = adv_acc b ++ [Z.lxor x GSM0710_FRAME_ADV_ESC_COPML]
        /\ adv_found_esc b2 = false
     else if x =? GSM0710_FRAME_ADV_ESC then adv_acc b2 = adv_acc b /\ adv_found_esc b2 = true
     else adv_acc b2 = adv_acc b ++ [x] /\ adv_found_esc b2 = false))
    as (W2 & C2 & D2 & F2 & B2 & S2).
  { subst b2. assert (is_byte (Z.lxor x GSM0710_FRAME_ADV_ESC_COPML))
      by (apply lxor_byte; [done|unfold is_byte, GSM0710_FRAME_ADV_ESC_COPML; lia]).
    destruct (adv_found_esc b) eqn:Ee.
    - destruct (adv_store_spec (Z.lxor x GSM0710_FRAME_ADV_ESC_COPML) b); auto.
      split_and!; auto using wf_adv_found_esc.
    - destruct (x =? GSM0710_FRAME_ADV_ESC).
      + split_and!; auto using wf_adv_found_esc.
      + destruct (adv_store_spec x b); auto. split_and!; auto. }
  destruct (buffer_advance_spec b2 W2 ltac:(lia)) as (W3 & C3 & D3).
  destruct (buffer_advance_fields b2) as (F3 & _ & _ & E3).
  assert (contents (buffer_advance b2) = contents (buffer_advance b)) as C4.
  { rewrite C2, C1, B2 in C3. by injection C3. }
  specialize (IH (buffer_advance b2) W3 ltac:(by rewrite F3) ltac:(lia)).
  rewrite C4, buffer_advance_acc, E3 in IH.
  destruct (adv_found_esc b); [|destruct (x =? GSM0710_FRAME_ADV_ESC)];
    destruct S2 as [S2 S3]; by rewrite S2, S3 in IH.
Qed.

Lemma adv_find_flag_spec fuel b :
  wf_buffer b -> (Z.to_nat (datacount b) <= fuel)%nat ->
  let b' := adv_find_flag fuel b in
  wf_buffer b' /\
  if flag_found b then b' = b
  else match after_flag GSM0710_FRAME_ADV_FLAG (contents b) with
       | Some r => flag_found b' = true /\ contents b' = r /\ adv_length b' = 0 /\
                   adv_found_esc b' = false
       | None => flag_found b' = false /\ contents b' = []
       end.
Proof.
  revert b. induction fuel as [|fuel IH]; intros b W Hf; cbn [adv_find_flag].
  { pose proof (wf_datacount b W).
    assert (contents b = []) as Cn by (apply contents_nil; [done|lia]). rewrite Cn.
    by destruct (flag_found b). }
  unfold gsm0710_buffer_length.
  destruct (flag_found b) eqn:F; cbn [negb andb]; [done|].
  destruct (Z.ltb_spec 0 (datacount b)) as [Hd|Hd].
  2: { pose proof (wf_datacount b W).
       assert (contents b = []) as Cn by (apply contents_nil; [done|lia]). by rewrite Cn. }
  set (b1 := if byte_at (data b) (readp b) =? GSM0710_FRAME_ADV_FLAG then _ else b).
  assert (wf_buffer b1 /\ contents b1 = contents b /\ datacount b1 = datacount b /\
    byte_at (data b1) (readp b1) = byte_at (data b) (readp b) /\
    flag_found b1 = (byte_at (data b) (readp b) =? GSM0710_FRAME_ADV_FLAG) /\
    (flag_found b1 = true -> adv_length b1 = 0 /\ adv_found_esc b1 = false))
    as (W1 & C1 & D1 & B1 & F1 & A1).
  { subst b1. destruct (_ =? GSM0710_FRAME_ADV_FLAG); [|by rewrite F; split_and!; auto].
    split_and!; auto. destruct W. constructor; simpl; auto.
    unfold GSM0710_BUFFER_SIZE. lia. }
  destruct (buffer_advance_spec b1 W1 ltac:(lia)) as (W2 & C2 & D2).
  destruct (IH (buffer_advance b1) W2 ltac:(lia)) as [W3 H3].
  destruct (buffer_advance_fields b1) as (F2 & L2 & _ & E2).
  split; [done|]. rewrite <- C1, C2, B1. cbn [after_flag].
  rewrite F2, F1 in H3. destruct (_ =? GSM0710_FRAME_ADV_FLAG); [|done].
  rewrite H3, F2, F1, L2, E2. destruct (A1 F1) as [-> ->]. done.
Qed.

(** One pass on the list; [None]: no frame started. *)
Definition adv_spec_pass (found : bool) (acc : list Z) (esc : bool) (l : list Z)
    : option AdvRes :=
  match (if found then Some (acc, esc, l)
         else (fun r => ([], false, r)) <$> after_flag GSM0710_FRAME_ADV_FLAG l) with
  | None => None
  | Some (acc, esc, l) =>
      let l := if zlen acc =? 0 then strip_flags GSM0710_FRAME_ADV_FLAG l else l in
      Some (adv_spec_scan acc esc l)
  end.

Lemma skip_flags_adv_fields fuel flag b :
  adv_length (skip_flags fuel flag b) = adv_length b /\
  adv_data (skip_flags fuel flag b) = adv_data b /\
  adv_found_esc (skip_flags fuel flag b) = adv_found_esc b.
Proof.
  revert b. induction fuel as [|fuel IH]; intros b; [done|]. cbn [skip_flags].
  destruct (_ && _); [|done]. destruct (IH (buffer_advance b)) as (-> & -> & ->).
  destruct (buffer_advance_fields b) as (_ & -> & -> & ->). done.
Qed.

Lemma adv_pass_refines b :
  wf_buffer b ->
  match adv_spec_pass (flag_found b) (adv_acc b) (adv_found_esc b) (contents b) with
  | None => exists b', adv_pass b = AdvNull b' /\ wf_buffer b' /\ contents b' = [] /\
                       flag_found b' = false
  | Some s => adv_refines (adv_pass b) s
  end.
Proof.
  intros W. unfold adv_pass, adv_spec_pass.
  destruct (adv_find_flag_spec (Z.to_nat (datacount b)) b W) as [W1 H1]; [lia|].
  set (b1 := adv_find_flag _ b) in *.
  assert (match (if flag_found b then Some (adv_acc b, adv_found_esc b, contents b)
         else (fun r => ([], false, r)) <$> after_flag GSM0710_FRAME_ADV_FLAG (contents b)) with
    | None => flag_found b1 = false /\ contents b1 = []
    | Some (acc, esc, l) => flag_found b1 = true /\ contents b1 = l /\ adv_acc b1 = acc /\
                            adv_found_esc b1 = esc
    end) as H2.
  { destruct (flag_found b) eqn:F; [by rewrite H1|].
    destruct (after_flag _ _); simpl; [|done].
    destruct H1 as (? & ? & L & ?). split_and!; try done. unfold adv_acc. by rewrite L. }
  destruct (if flag_found b then _ else _) as [[[acc esc] l]|].
  2: { destruct H2 as [F1 C1]. exists b1. by rewrite F1. }
  destruct H2 as (F1 & C1 & A1 & E1). rewrite F1. cbn [negb].
  assert (adv_length b1 = zlen acc) as L1 by (rewrite <- A1, adv_acc_len; done).
  rewrite L1. destruct (zlen acc =? 0).
  - destruct (skip_flags_spec (Z.to_nat (datacount b1)) GSM0710_FRAME_ADV_FLAG b1 W1)
      as (W2 & C2 & F2); [lia|].
    destruct (skip_flags_adv_fields (Z.to_nat (datacount b1)) GSM0710_FRAME_ADV_FLAG b1)
      as (L2 & D2 & E2).
    set (b2 := skip_flags _ _ b1) in *.
    rewrite <- C1, <- C2, <- E1, <- E2.
    assert (acc = adv_acc b2) as -> by (rewrite <- A1; unfold adv_acc; by rewrite L2, D2).
    apply adv_scan_refines; [done|by rewrite F2|lia].
  - subst. apply adv_scan_refines; [done|done|lia].
Qed.

(** ** Termination *)

Lemma adv_spec_scan_again acc esc l rest :
  adv_spec_scan acc esc l = RAgain rest -> zlen rest <= zlen l.
Proof.
  revert acc esc. induction l as [|x l IH]; intros acc esc; cbn [adv_spec_scan]; [done|].
  rewrite zlen_cons. pose proof (zlen_nonneg l). intros E.
  destruct (negb esc && _).
  { unfold adv_spec_finish in E. do 2 try case_match; simplify_eq; lia. }
  destruct (GSM0710_BUFFER_SIZE <=? zlen acc); [simplify_eq; rewrite zlen_cons; lia|].
  destruct esc; [|destruct (x =? _)]; apply IH in E; lia.
Qed.

Lemma after_flag_shorter flag l r : after_flag flag l = Some r -> zlen r < zlen l.
Proof.
  induction l as [|x l IH]; simpl; [done|]. rewrite zlen_cons.
  case_if; intros E'; [simplify_eq; lia|]. apply IH in E'. lia.
Qed.

Lemma strip_flags_shorter flag l : zlen (strip_flags flag l) <= zlen l.
Proof.
  destruct (strip_flags_suffix flag l) as [k E]. rewrite E at 2. rewrite zlen_app.
  pose proof (zlen_nonneg k). lia.
Qed.

Lemma adv_spec_pass_again found acc esc l rest :
  adv_spec_pass found acc esc l = Some (RAgain rest) ->
  zlen rest <= zlen l /\ (found = false -> zlen rest < zlen l).
Proof.
  unfold adv_spec_pass. intros E.
  assert (exists acc' esc' l', zlen l' <= zlen l /\ (found = false -> zlen l' < zlen l) /\
            adv_spec_scan acc' esc' l' = RAgain rest) as (acc' & esc' & l' & H1 & H2 & H3).
  { destruct found.
    - injection E as E. eexists _, _, _. split_and!; [|done|exact E].
      case_if; [apply strip_flags_shorter|lia].
    - destruct (after_flag _ l) as [r|] eqn:A; [|done]. injection E as E.
      apply after_flag_shorter in A.
      pose proof (strip_flags_shorter GSM0710_FRAME_ADV_FLAG r).
      eexists _, _, _. split_and!; [| |exact E]; lia. }
  apply adv_spec_scan_again in H3. split; [lia|]. intros F. specialize (H2 F). lia.
Qed.

Lemma adv_get_loop_total fuel b :
  wf_buffer b ->
  (Z.to_nat (datacount b) + (if flag_found b then 2 else 1) <= fuel)%nat ->
  adv_get_loop fuel b <> AGNoFuel.
Proof.
  revert b. induction fuel as [|fuel IH]; intros b W Hf; [destruct (flag_found b); lia|].
  cbn [adv_get_loop]. pose proof (adv_pass_refines b W) as R.
  destruct (adv_spec_pass _ _ _ _) as [s|] eqn:S.
  2: { destruct R as (b' & -> & _). done. }
  destruct (adv_pass b) as [|b'|b'], s; try done.
  destruct R as (W' & C' & F'). apply adv_spec_pass_again in S as [S1 S2].
  rewrite <- C', !contents_len in S1, S2 by done. pose proof (wf_datacount b' W').
  apply IH; [done|]. rewrite F'. destruct (flag_found b); [lia|]. specialize (S2 eq_refl). lia.
Qed.

(** ** Encoding and decoding *)

Lemma escape_involutive x :
  is_byte x -> Z.lxor (Z.lxor x GSM0710_FRAME_ADV_ESC_COPML) GSM0710_FRAME_ADV_ESC_COPML = x.
Proof. intros _. by rewrite Z.lxor_assoc, Z.lxor_nilpotent, Z.lxor_0_r. Qed.

Lemma not_escaped x :
  is_escaped x = false -> x <> GSM0710_FRAME_ADV_FLAG /\ x <> GSM0710_FRAME_ADV_ESC.
Proof. intros H. split; intros ->; vm_compute in H; done. Qed.

(** The automaton undoes [fill_adv_frame_buf]. *)
Lemma adv_scan_fill acc p l :
  Forall is_byte p -> zlen acc + zlen p <= GSM0710_BUFFER_SIZE ->
  adv_spec_scan acc false (fill_adv_frame_buf p ++ l) = adv_spec_scan (acc ++ p) false l.
Proof.
  intros Hp. revert acc. induction Hp as [|x p Hx Hp IH]; intros acc Hl.
  { by rewrite app_nil_r. }
  rewrite zlen_cons in Hl. pose proof (zlen_nonneg p). cbn [fill_adv_frame_buf].
  assert (adv_spec_scan (acc ++ [x]) false (fill_adv_frame_buf p ++ l) =
          adv_spec_scan (acc ++ x :: p) false l) as IH'.
  { rewrite IH; [by rewrite <- app_assoc|].
    rewrite zlen_app, zlen_cons, zlen_nil. lia. }
  rewrite <- IH'. destruct (is_escaped x) eqn:E.
  - change (([?a; ?b] ++ ?k) ++ l) with (a :: b :: k ++ l).
    cbn [adv_spec_scan negb andb]. rewrite (proj2 (Z.leb_gt _ _)) by lia.
    change (GSM0710_FRAME_ADV_ESC =? GSM0710_FRAME_ADV_FLAG) with false.
    rewrite Z.eqb_refl. by rewrite escape_involutive.
  - change (([?a] ++ ?k) ++ l) with (a :: k ++ l).
    destruct (not_escaped x E) as [N1 N2]. cbn [adv_spec_scan negb andb].
    rewrite (proj2 (Z.eqb_neq _ _) N1), (proj2 (Z.eqb_neq _ _) N2).
    rewrite (proj2 (Z.leb_gt _ _)) by lia. done.
Qed.

Lemma adv_header_bytes ch ty : is_byte ty -> Forall is_byte [address_field ch; ty].
Proof. intros. constructor; [apply u8_byte|]. by constructor. Qed.

Lemma adv_finish_frame ch ty input rest :
  0 <= ch < 64 -> is_byte ty -> Forall is_byte input -> fcs_agrees ty input ->
  adv_spec_finish (([address_field ch; ty] ++ input) ++ [frame_calc_crc [address_field ch; ty] 2]) rest
  = RFrame (mkFrame ch ty (zlen input) input) rest.
Proof.
  intros Hch Hty Hin Ha. unfold adv_spec_finish.
  set (h := [address_field ch; ty]). set (c := frame_calc_crc h 2).
  pose proof (zlen_nonneg input).
  assert (zlen ((h ++ input) ++ [c]) = zlen input + 3) as ->
    by (rewrite !zlen_app; change (zlen h) with 2; change (zlen [c]) with 1; lia).
  destruct (Z.ltb_spec (zlen input + 3) 3); [lia|].
  change (byte_at ((h ++ input) ++ [c]) 0) with (address_field ch).
  change (byte_at ((h ++ input) ++ [c]) 1) with ty.
  change (zdrop 2 ((h ++ input) ++ [c])) with (input ++ [c]).
  replace (zlen input + 3 - 3) with (zlen input) by lia. rewrite ztake_app_length.
  replace (if GSM0710_FRAME_IS GSM0710_TYPE_UI ty then input else []) with (@nil Z)
    by (destruct Ha as [->| ->]; [done|by destruct (GSM0710_FRAME_IS _ _)]).
  assert (byte_at ((h ++ input) ++ [c]) (zlen input + 3 - 1) = c) as ->.
  { replace (zlen input + 3 - 1) with (zlen (h ++ input))
      by (rewrite zlen_app; change (zlen h) with 2; lia).
    apply byte_at_app_length. }
  assert (Forall is_byte h) as Hh by (by apply adv_header_bytes).
  pose proof (calc_crc_accepted h 2 Hh) as Hok. change (ztake 2 h) with h in Hok.
  fold c in Hok. change (crc_run 0xFF h) with (crc_run 0xFF [address_field ch; ty]) in Hok.
  rewrite Hok, address_decode by done. done.
Qed.

Lemma strip_flags_fill p r :
  strip_flags GSM0710_FRAME_ADV_FLAG (fill_adv_frame_buf p ++ r) =
  match p with [] => strip_flags GSM0710_FRAME_ADV_FLAG r | _ => fill_adv_frame_buf p ++ r end.
Proof.
  destruct p as [|x p]; [done|]. cbn [fill_adv_frame_buf].
  destruct (is_escaped x) eqn:E; [done|]. destruct (not_escaped x E) as [N _]. simpl.
  by rewrite (proj2 (Z.eqb_neq _ _) N).
Qed.

Lemma adv_spec_pass_frame acc esc garbage ch ty input rest :
  0 <= ch < 64 -> is_byte ty -> Forall is_byte input -> fcs_agrees ty input ->
  zlen input + 3 <= GSM0710_BUFFER_SIZE ->
  Forall (fun x => x <> GSM0710_FRAME_ADV_FLAG) garbage ->
  adv_spec_pass false acc esc (garbage ++ adv_frame ch ty input ++ rest)
  = Some (RFrame (mkFrame ch ty (zlen input) input) rest).
Proof.
  intros Hch Hty Hin Ha Hl Hg. unfold adv_spec_pass, adv_frame.
  set (h := [address_field ch; ty]). set (c := frame_calc_crc h 2).
  pose proof (zlen_nonneg input).
  assert (Forall is_byte h) as Hh by (by apply adv_header_bytes).
  assert (is_byte c) as Hc by (apply frame_calc_crc_byte; done).
  rewrite <- !app_assoc. change ([GSM0710_FRAME_ADV_FLAG] ++ ?k) with (GSM0710_FRAME_ADV_FLAG :: k) at 1.
  rewrite after_flag_app by done. cbn [fmap option_fmap option_map].
  change (zlen [] =? 0) with true. cbn iota.
  rewrite strip_flags_fill. subst h. cbn iota beta.
  rewrite !adv_scan_fill; try done.
  - change ([GSM0710_FRAME_ADV_FLAG] ++ rest) with (GSM0710_FRAME_ADV_FLAG :: rest).
    cbn [adv_spec_scan negb andb]. rewrite Z.eqb_refl.
    f_equal. by apply adv_finish_frame.
  - by constructor.
  - rewrite !zlen_app. change (zlen [c]) with 1. change (zlen [address_field ch; ty]) with 2.
    rewrite zlen_nil. lia.
  - rewrite zlen_app. change (zlen [address_field ch; ty]) with 2. rewrite zlen_nil. lia.
Qed.

Lemma adv_get_adv_frame b garbage ch ty input rest :
  wf_buffer b -> flag_found b = false ->
  0 <= ch < 64 -> is_byte ty -> Forall is_byte input -> fcs_agrees ty input ->
  zlen input + 3 <= GSM0710_BUFFER_SIZE ->
  Forall (fun x => x <> GSM0710_FRAME_ADV_FLAG) garbage ->
  contents b = garbage ++ adv_frame ch ty input ++ rest ->
  exists b', gsm0710_advanced_buffer_get_frame b = AGFrame (mkFrame ch ty (zlen input) input) b' /\
    wf_buffer b' /\ contents b' = rest /\ flag_found b' = false.
Proof.
  intros W F ? ? ? ? ? ? C. pose proof (adv_pass_refines b W) as R.
  rewrite F, C, adv_spec_pass_frame in R by done.
  unfold gsm0710_advanced_buffer_get_frame. cbn [adv_get_loop].
  destruct (adv_pass b) as [f b'| |]; try done.
  destruct R as (-> & W' & C' & F'). by exists b'.
Qed.

(** ** The size of an escaped frame *)

Lemma fill_len l : zlen l <= zlen (fill_adv_frame_buf l) <= 2 * zlen l.
Proof.
  induction l as [|x l IH]; [done|]. simpl. rewrite zlen_app, zlen_cons.
  destruct (is_escaped x); rewrite ?zlen_cons, zlen_nil; lia.
Qed.

Lemma fill_len_escaped l :
  Forall (fun x => is_escaped x = true) l -> zlen (fill_adv_frame_buf l) = 2 * zlen l.
Proof.
  induction 1 as [|x l H _ IH]; [done|]. simpl. rewrite H, zlen_app, !zlen_cons, zlen_nil. lia.
Qed.

(** ** Properties *)



(** Round trip of the advanced option.  An escaped frame that [write_frame] puts
    on the wire, after any bytes but the flag and before anything, is unescaped and
    returned with its channel, type and payload, whatever bytes (flags, escapes, XON,
    XOFF) the payload contains. *)
Theorem adv_frame_roundtrip b garbage ch ty input rest :
  wf_buffer b -> flag_found b = false ->
  0 <= ch < 64 -> is_byte ty -> Forall is_byte input -> fcs_agrees ty input ->
  zlen input + 3 <= GSM0710_BUFFER_SIZE ->
  Forall (fun x => x <> GSM0710_FRAME_ADV_FLAG) garbage ->
  contents b = garbage ++ adv_frame ch ty input ++ rest ->
  exists b', gsm0710_advanced_buffer_get_frame b = AGFrame (mkFrame ch ty (zlen input) input) b' /\
    wf_buffer b' /\ contents b' = rest /\ flag_found b' = false.
Proof. apply adv_get_adv_frame. Qed.

Lemma adv_frame_roundtrip_witness :
  exists b', gsm0710_advanced_buffer_get_frame
      (buffer_with ([9] ++ adv_frame 2 GSM0710_TYPE_UIH [0x7E; 0x7D; 0x11; 5] ++ [1; 2]))
    = AGFrame (mkFrame 2 GSM0710_TYPE_UIH 4 [0x7E; 0x7D; 0x11; 5]) b' /\ contents b' = [1; 2].
Proof.
  set (bs := [9] ++ adv_frame 2 GSM0710_TYPE_UIH [0x7E; 0x7D; 0x11; 5] ++ [1; 2]).
  assert (Forall is_byte bs) as Hb by decide_closed.
  assert (zlen bs <= GSM0710_BUFFER_SIZE) as Hl by (vm_compute; discriminate).
  destruct (buffer_with_spec bs Hb Hl) as (W & F & C).
  destruct (adv_frame_roundtrip (buffer_with bs) [9] 2 GSM0710_TYPE_UIH [0x7E; 0x7D; 0x11; 5] [1; 2] W F)
    as (b' & E & _ & C' & _);
    [lia|decide_closed|decide_closed|left; reflexivity|vm_compute; discriminate|decide_closed|exact C|].
  exists b'. split; [exact E|exact C'].
Defined.

(** The buffer [main] allocates for escaped frames, [(N1 + 3) * 2 + 2] bytes, holds
    every frame whose payload has at most [N1] bytes, even when every byte of header,
    payload and check sequence has to be escaped. *)
Theorem adv_frame_fits channel type input n :
  zlen input <= n -> zlen (adv_frame channel type input) <= (n + 3) * 2 + 2.
Proof.
  intros H. unfold adv_frame. set (c := frame_calc_crc _ 2).
  pose proof (fill_len [address_field channel; type]) as Hh.
  pose proof (fill_len [c]) as Hc. pose proof (fill_len input) as Hi.
  change (zlen [address_field channel; type]) with 2 in Hh. change (zlen [c]) with 1 in Hc.
  rewrite !zlen_app. change (zlen [GSM0710_FRAME_ADV_FLAG]) with 1. lia.
Qed.

Lemma adv_frame_fits_witness :
  zlen [0x7E; 0x7D] <= 2 /\ zlen (adv_frame 31 GSM0710_TYPE_UIH [0x7E; 0x7D]) <= 12.
Proof.
  assert (zlen [0x7E; 0x7D] <= 2) as H by (vm_compute; discriminate).
  split; [exact H|]. exact (adv_frame_fits 31 GSM0710_TYPE_UIH [0x7E; 0x7D] 2 H).
Defined.

(** The bytes an all-escaped payload takes. *)
Lemma adv_frame_escaped_len channel type input :
  Forall (fun x => is_escaped x = true) input ->
  2 * zlen input + 5 <= zlen (adv_frame channel type input).
Proof.
  intros E%fill_len_escaped. unfold adv_frame. set (c := frame_calc_crc _ 2).
  pose proof (fill_len [address_field channel; type]) as Hh. pose proof (fill_len [c]) as Hc.
  change (zlen [address_field channel; type]) with 2 in Hh. change (zlen [c]) with 1 in Hc.
  rewrite !zlen_app. change (zlen [GSM0710_FRAME_ADV_FLAG]) with 1. lia.
Qed.
