(* ===== verification/MuxState.v ===== *)
(** * State, effects and the environment of the multiplexer daemon

    The records of src/mtk/gsm0710muxd/src/gsm0710muxd.h ([Channel], [Serial]), the
    file-scope variables of gsm0710muxd.c, the heap of the flow-control frame
    lists, and the monad the handlers are written in.

    What is not part of the daemon is a parameter: the operating system
    ([Os]), and what the other threads do while a thread is blocked on a
    condition variable ([Others]).  Every system call, condition-variable signal
    and failed assertion is recorded in the trace of the state. *)
From S2P Require Import Prelude Ring Frame.

(** ** Build configuration

    The macros of Android.mk that change the code: [__PRODUCTION_RELEASE__],
    [__ANDROID_VT_SUPPORT__] and [SIM_COUNT], for the build for modem 1
    ([MTK_RIL_MD1]) with [MUX_ANDROID] and [__MUXD_FLOWCONTROL__]. *)
Class Config := {
  production_release : bool;
  vt_support : bool;
  sim_count : Z
}.

(** BoardConfigCommon.mk: [MTK_SHARE_MODEM_SUPPORT := 2],
    [MTK_VT3G324M_SUPPORT := no], and [MTK_INTERNAL] unset. *)
Definition arale_config : Config :=
  {| production_release := true; vt_support := false; sim_count := 2 |}.

Definition GSM0710_MAX_CHANNELS : Z := 32.
Definition MUXD_VT_CH_NUM : Z := 24.
Definition RX_FLOW_CTRL_HIGH_WATERMARK : Z := 4096.
Definition GSM0710_WRITE_RETRIES : Z := 5.
Definition MUXD_PTY_READ_ROUND : Z := 4.

(** [MUXD_CH_NUM_ALL]: the control channel, five RIL channels and one ATCI
    channel per SIM, and the video-telephony channel. *)
Definition MUXD_CH_NUM_ALL {cfg : Config} : Z :=
  1 + (5 + 0 + 1) * (if 4 <=? sim_count then 4 else if 3 <=? sim_count then 3
                     else if 2 <=? sim_count then 2 else 1)
  + (if vt_support then 1 else 0).

Record Channel_Config := mkChannelConfig { pn_dlci : Z; pn_n1 : Z; s_path : option string }.

Definition sim_channels (first : Z) (sim : string) : list Channel_Config :=
  let p (s : string) := Some ("/dev/radio/" +:+ sim +:+ s)%string in
  [ mkChannelConfig first 512 (p "cmd4"%string);
    mkChannelConfig (first + 1) 512 (p "noti"%string);
    mkChannelConfig (first + 2) 512 (p "cmd1"%string);
    mkChannelConfig (first + 3) 512 (p "cmd2"%string);
    mkChannelConfig (first + 4) 512 (p "cmd3"%string) ].

Definition ch_cfg {cfg : Config} : list Channel_Config :=
  [mkChannelConfig 0 512 None]
  ++ sim_channels 1 "ptty" ++ [mkChannelConfig 26 512 (Some "/dev/radio/atci1"%string)]
  ++ (if 2 <=? sim_count then
        sim_channels 6 "ptty2" ++ [mkChannelConfig 27 512 (Some "/dev/radio/atci2"%string)]
      else [])
  ++ (if 3 <=? sim_count then
        sim_channels 11 "ptty3" ++ [mkChannelConfig 28 512 (Some "/dev/radio/atci3"%string)]
      else [])
  ++ (if 4 <=? sim_count then
        sim_channels 16 "ptty4" ++ [mkChannelConfig 29 512 (Some "/dev/radio/atci4"%string)]
      else [])
  ++ (if vt_support then [mkChannelConfig 24 512 (Some "/dev/radio/pttyvt"%string)] else []).

(** ** The data *)

Inductive MuxerStates :=
| MUX_STATE_OPENING | MUX_STATE_INITILIZING | MUX_STATE_PARM_NEG | MUX_STATE_SABM_CHNL
| MUX_STATE_MUXING | MUX_STATE_CLOSING | MUX_STATE_PEER_CLOSING | MUX_STATE_OFF.

#[global] Instance MuxerStates_eq_dec : EqDecision MuxerStates.
Proof. solve_decision. Defined.

(** A node of [GSM0710_FrameList]: addresses of the frame and of the next node,
    0 for [NULL]. *)
Record FrameNode := mkNode { n_frame : Z; n_next : Z }.

#[global] Instance FrameNode_eq_dec : EqDecision FrameNode.
Proof. solve_decision. Defined.

(** Addresses are never reused; a freed object is absent from its map. *)
Record Heap := mkHeap {
  h_nodes : gmap Z FrameNode;
  h_frames : gmap Z GSM0710_Frame;
  h_next : Z
}.

(** [struct Channel]; [ch_rx_fl] is the address of the list head, 0 for [NULL]. *)
Record Channel := mkChannel {
  ch_id : Z;
  ch_fd : Z;
  ch_devicename : option string;
  ch_ptsname : option string;
  ch_ptslink : option string;
  ch_opened : bool;
  ch_reopen : bool;
  ch_sabm_ua_pending : bool;
  ch_disc_ua_pending : bool;
  ch_negotiated_N1 : Z;
  ch_v24_signals : Z;
  ch_tx_fc_off : bool;
  ch_rx_fc_off : bool;
  ch_rx_thread : bool;
  ch_rx_fl : Z;
  ch_rx_fl_total : Z (* unsigned int *);
  ch_rx_fl_written : Z (* unsigned int *)
}.

Definition set_ch_id (v : Z) (c : Channel) : Channel :=
  mkChannel v (ch_fd c) (ch_devicename c) (ch_ptsname c) (ch_ptslink c) (ch_opened c) (ch_reopen c) (ch_sabm_ua_pending c) (ch_disc_ua_pending c) (ch_negotiated_N1 c) (ch_v24_signals c) (ch_tx_fc_off c) (ch_rx_fc_off c) (ch_rx_thread c) (ch_rx_fl c) (ch_rx_fl_total c) (ch_rx_fl_written c).
Definition set_ch_fd (v : Z) (c : Channel) : Channel :=
  mkChannel (ch_id c) v (ch_devicename c) (ch_ptsname c) (ch_ptslink c) (ch_opened c) (ch_reopen c) (ch_sabm_ua_pending c) (ch_disc_ua_pending c) (ch_negotiated_N1 c) (ch_v24_signals c) (ch_tx_fc_off c) (ch_rx_fc_off c) (ch_rx_thread c) (ch_rx_fl c) (ch_rx_fl_total c) (ch_rx_fl_written c).
Definition set_ch_devicename (v : option string) (c : Channel) : Channel :=
  mkChannel (ch_id c) (ch_fd c) v (ch_ptsname c) (ch_ptslink c) (ch_opened c) (ch_reopen c) (ch_sabm_ua_pending c) (ch_disc_ua_pending c) (ch_negotiated_N1 c) (ch_v24_signals c) (ch_tx_fc_off c) (ch_rx_fc_off c) (ch_rx_thread c) (ch_rx_fl c) (ch_rx_fl_total c) (ch_rx_fl_written c).
Definition set_ch_ptsname (v : option string) (c : Channel) : Channel :=
  mkChannel (ch_id c) (ch_fd c) (ch_devicename c) v (ch_ptslink c) (ch_opened c) (ch_reopen c) (ch_sabm_ua_pending c) (ch_disc_ua_pending c) (ch_negotiated_N1 c) (ch_v24_signals c) (ch_tx_fc_off c) (ch_rx_fc_off c) (ch_rx_thread c) (ch_rx_fl c) (ch_rx_fl_total c) (ch_rx_fl_written c).
Definition set_ch_ptslink (v : option string) (c : Channel) : Channel :=
  mkChannel (ch_id c) (ch_fd c) (ch_devicename c) (ch_ptsname c) v (ch_opened c) (ch_reopen c) (ch_sabm_ua_pending c) (ch_disc_ua_pending c) (ch_negotiated_N1 c) (ch_v24_signals c) (ch_tx_fc_off c) (ch_rx_fc_off c) (ch_rx_thread c) (ch_rx_fl c) (ch_rx_fl_total c) (ch_rx_fl_written c).
Definition set_ch_opened (v : bool) (c : Channel) : Channel :=
  mkChannel (ch_id c) (ch_fd c) (ch_devicename c) (ch_ptsname c) (ch_ptslink c) v (ch_reopen c) (ch_sabm_ua_pending c) (ch_disc_ua_pending c) (ch_negotiated_N1 c) (ch_v24_signals c) (ch_tx_fc_off c) (ch_rx_fc_off c) (ch_rx_thread c) (ch_rx_fl c) (ch_rx_fl_total c) (ch_rx_fl_written c).
Definition set_ch_reopen (v : bool) (c : Channel) : Channel :=
  mkChannel (ch_id c) (ch_fd c) (ch_devicename c) (ch_ptsname c) (ch_ptslink c) (ch_opened c) v (ch_sabm_ua_pending c) (ch_disc_ua_pending c) (ch_negotiated_N1 c) (ch_v24_signals c) (ch_tx_fc_off c) (ch_rx_fc_off c) (ch_rx_thread c) (ch_rx_fl c) (ch_rx_fl_total c) (ch_rx_fl_written c).
Definition set_ch_sabm_ua_pending (v : bool) (c : Channel) : Channel :=
  mkChannel (ch_id c) (ch_fd c) (ch_devicename c) (ch_ptsname c) (ch_ptslink c) (ch_opened c) (ch_reopen c) v (ch_disc_ua_pending c) (ch_negotiated_N1 c) (ch_v24_signals c) (ch_tx_fc_off c) (ch_rx_fc_off c) (ch_rx_thread c) (ch_rx_fl c) (ch_rx_fl_total c) (ch_rx_fl_written c).
Definition set_ch_disc_ua_pending (v : bool) (c : Channel) : Channel :=
  mkChannel (ch_id c) (ch_fd c) (ch_devicename c) (ch_ptsname c) (ch_ptslink c) (ch_opened c) (ch_reopen c) (ch_sabm_ua_pending c) v (ch_negotiated_N1 c) (ch_v24_signals c) (ch_tx_fc_off c) (ch_rx_fc_off c) (ch_rx_thread c) (ch_rx_fl c) (ch_rx_fl_total c) (ch_rx_fl_written c).
Definition set_ch_negotiated_N1 (v : Z) (c : Channel) : Channel :=
  mkChannel (ch_id c) (ch_fd c) (ch_devicename c) (ch_ptsname c) (ch_ptslink c) (ch_opened c) (ch_reopen c) (ch_sabm_ua_pending c) (ch_disc_ua_pending c) v (ch_v24_signals c) (ch_tx_fc_off c) (ch_rx_fc_off c) (ch_rx_thread c) (ch_rx_fl c) (ch_rx_fl_total c) (ch_rx_fl_written c).
Definition set_ch_v24_signals (v : Z) (c : Channel) : Channel :=
  mkChannel (ch_id c) (ch_fd c) (ch_devicename c) (ch_ptsname c) (ch_ptslink c) (ch_opened c) (ch_reopen c) (ch_sabm_ua_pending c) (ch_disc_ua_pending c) (ch_negotiated_N1 c) v (ch_tx_fc_off c) (ch_rx_fc_off c) (ch_rx_thread c) (ch_rx_fl c) (ch_rx_fl_total c) (ch_rx_fl_written c).
Definition set_ch_tx_fc_off (v : bool) (c : Channel) : Channel :=
  mkChannel (ch_id c) (ch_fd c) (ch_devicename c) (ch_ptsname c) (ch_ptslink c) (ch_opened c) (ch_reopen c) (ch_sabm_ua_pending c) (ch_disc_ua_pending c) (ch_negotiated_N1 c) (ch_v24_signals c) v (ch_rx_fc_off c) (ch_rx_thread c) (ch_rx_fl c) (ch_rx_fl_total c) (ch_rx_fl_written c).
Definition set_ch_rx_fc_off (v : bool) (c : Channel) : Channel :=
  mkChannel (ch_id c) (ch_fd c) (ch_devicename c) (ch_ptsname c) (ch_ptslink c) (ch_opened c) (ch_reopen c) (ch_sabm_ua_pending c) (ch_disc_ua_pending c) (ch_negotiated_N1 c) (ch_v24_signals c) (ch_tx_fc_off c) v (ch_rx_thread c) (ch_rx_fl c) (ch_rx_fl_total c) (ch_rx_fl_written c).
Definition set_ch_rx_thread (v : bool) (c : Channel) : Channel :=
  mkChannel (ch_id c) (ch_fd c) (ch_devicename c) (ch_ptsname c) (ch_ptslink c) (ch_opened c) (ch_reopen c) (ch_sabm_ua_pending c) (ch_disc_ua_pending c) (ch_negotiated_N1 c) (ch_v24_signals c) (ch_tx_fc_off c) (ch_rx_fc_off c) v (ch_rx_fl c) (ch_rx_fl_total c) (ch_rx_fl_written c).
Definition set_ch_rx_fl (v : Z) (c : Channel) : Channel :=
  mkChannel (ch_id c) (ch_fd c) (ch_devicename c) (ch_ptsname c) (ch_ptslink c) (ch_opened c) (ch_reopen c) (ch_sabm_ua_pending c) (ch_disc_ua_pending c) (ch_negotiated_N1 c) (ch_v24_signals c) (ch_tx_fc_off c) (ch_rx_fc_off c) (ch_rx_thread c) v (ch_rx_fl_total c) (ch_rx_fl_written c).
Definition set_ch_rx_fl_total (v : Z) (c : Channel) : Channel :=
  mkChannel (ch_id c) (ch_fd c) (ch_devicename c) (ch_ptsname c) (ch_ptslink c) (ch_opened c) (ch_reopen c) (ch_sabm_ua_pending c) (ch_disc_ua_pending c) (ch_negotiated_N1 c) (ch_v24_signals c) (ch_tx_fc_off c) (ch_rx_fc_off c) (ch_rx_thread c) (ch_rx_fl c) v (ch_rx_fl_written c).
Definition set_ch_rx_fl_written (v : Z) (c : Channel) : Channel :=
  mkChannel (ch_id c) (ch_fd c) (ch_devicename c) (ch_ptsname c) (ch_ptslink c) (ch_opened c) (ch_reopen c) (ch_sabm_ua_pending c) (ch_disc_ua_pending c) (ch_negotiated_N1 c) (ch_v24_signals c) (ch_tx_fc_off c) (ch_rx_fc_off c) (ch_rx_thread c) (ch_rx_fl c) (ch_rx_fl_total c) v.

(** [struct Serial].  [s_in_buf_for_bootup] is [None] once freed; [s_adv_frame_buf] is
    the size of the allocation, [None] when there is none. *)
Record Serial := mkSerial {
  s_devicename : string;
  s_fd : Z;
  s_state : MuxerStates;
  s_in_buf : GSM0710_Buffer;
  s_in_buf_for_bootup : option GSM0710_Buffer;
  s_adv_frame_buf : option Z;
  s_frame_receive_time : Z;
  s_ping_number : Z;
  s_is_socket : bool
}.

Definition set_s_devicename (v : string) (c : Serial) : Serial :=
  mkSerial v (s_fd c) (s_state c) (s_in_buf c) (s_in_buf_for_bootup c) (s_adv_frame_buf c) (s_frame_receive_time c) (s_ping_number c) (s_is_socket c).
Definition set_s_fd (v : Z) (c : Serial) : Serial :=
  mkSerial (s_devicename c) v (s_state c) (s_in_buf c) (s_in_buf_for_bootup c) (s_adv_frame_buf c) (s_frame_receive_time c) (s_ping_number c) (s_is_socket c).
Definition set_s_state (v : MuxerStates) (c : Serial) : Serial :=
  mkSerial (s_devicename c) (s_fd c) v (s_in_buf c) (s_in_buf_for_bootup c) (s_adv_frame_buf c) (s_frame_receive_time c) (s_ping_number c) (s_is_socket c).
Definition set_s_in_buf (v : GSM0710_Buffer) (c : Serial) : Serial :=
  mkSerial (s_devicename c) (s_fd c) (s_state c) v (s_in_buf_for_bootup c) (s_adv_frame_buf c) (s_frame_receive_time c) (s_ping_number c) (s_is_socket c).
Definition set_s_in_buf_for_bootup (v : option GSM0710_Buffer) (c : Serial) : Serial :=
  mkSerial (s_devicename c) (s_fd c) (s_state c) (s_in_buf c) v (s_adv_frame_buf c) (s_frame_receive_time c) (s_ping_number c) (s_is_socket c).
Definition set_s_adv_frame_buf (v : option Z) (c : Serial) : Serial :=
  mkSerial (s_devicename c) (s_fd c) (s_state c) (s_in_buf c) (s_in_buf_for_bootup c) v (s_frame_receive_time c) (s_ping_number c) (s_is_socket c).
Definition set_s_frame_receive_time (v : Z) (c : Serial) : Serial :=
  mkSerial (s_devicename c) (s_fd c) (s_state c) (s_in_buf c) (s_in_buf_for_bootup c) (s_adv_frame_buf c) v (s_ping_number c) (s_is_socket c).
Definition set_s_ping_number (v : Z) (c : Serial) : Serial :=
  mkSerial (s_devicename c) (s_fd c) (s_state c) (s_in_buf c) (s_in_buf_for_bootup c) (s_adv_frame_buf c) (s_frame_receive_time c) v (s_is_socket c).
Definition set_s_is_socket (v : bool) (c : Serial) : Serial :=
  mkSerial (s_devicename c) (s_fd c) (s_state c) (s_in_buf c) (s_in_buf_for_bootup c) (s_adv_frame_buf c) (s_frame_receive_time c) (s_ping_number c) v.

(** Options of [main], set before the daemon starts. *)
Record Options := mkOptions {
  o_no_daemon : bool;
  o_pin_code : Z;
  o_use_ping : Z;
  o_use_timeout : Z;
  o_vir_ports : Z;
  o_syslog_level : Z;
  o_logtofile : bool;
  o_cmux_mode : bool (* true: advanced *);
  o_cmux_subset : Z;
  o_cmux_port_speed : Z;
  o_cmux_N1 : Z
}.

Definition set_o_no_daemon (v : bool) (c : Options) : Options :=
  mkOptions v (o_pin_code c) (o_use_ping c) (o_use_timeout c) (o_vir_ports c) (o_syslog_level c) (o_logtofile c) (o_cmux_mode c) (o_cmux_subset c) (o_cmux_port_speed c) (o_cmux_N1 c).
Definition set_o_pin_code (v : Z) (c : Options) : Options :=
  mkOptions (o_no_daemon c) v (o_use_ping c) (o_use_timeout c) (o_vir_ports c) (o_syslog_level c) (o_logtofile c) (o_cmux_mode c) (o_cmux_subset c) (o_cmux_port_speed c) (o_cmux_N1 c).
Definition set_o_use_ping (v : Z) (c : Options) : Options :=
  mkOptions (o_no_daemon c) (o_pin_code c) v (o_use_timeout c) (o_vir_ports c) (o_syslog_level c) (o_logtofile c) (o_cmux_mode c) (o_cmux_subset c) (o_cmux_port_speed c) (o_cmux_N1 c).
Definition set_o_use_timeout (v : Z) (c : Options) : Options :=
  mkOptions (o_no_daemon c) (o_pin_code c) (o_use_ping c) v (o_vir_ports c) (o_syslog_level c) (o_logtofile c) (o_cmux_mode c) (o_cmux_subset c) (o_cmux_port_speed c) (o_cmux_N1 c).
Definition set_o_vir_ports (v : Z) (c : Options) : Options :=
  mkOptions (o_no_daemon c) (o_pin_code c) (o_use_ping c) (o_use_timeout c) v (o_syslog_level c) (o_logtofile c) (o_cmux_mode c) (o_cmux_subset c) (o_cmux_port_speed c) (o_cmux_N1 c).
Definition set_o_syslog_level (v : Z) (c : Options) : Options :=
  mkOptions (o_no_daemon c) (o_pin_code c) (o_use_ping c) (o_use_timeout c) (o_vir_ports c) v (o_logtofile c) (o_cmux_mode c) (o_cmux_subset c) (o_cmux_port_speed c) (o_cmux_N1 c).
Definition set_o_logtofile (v : bool) (c : Options) : Options :=
  mkOptions (o_no_daemon c) (o_pin_code c) (o_use_ping c) (o_use_timeout c) (o_vir_ports c) (o_syslog_level c) v (o_cmux_mode c) (o_cmux_subset c) (o_cmux_port_speed c) (o_cmux_N1 c).
Definition set_o_cmux_mode (v : bool) (c : Options) : Options :=
  mkOptions (o_no_daemon c) (o_pin_code c) (o_use_ping c) (o_use_timeout c) (o_vir_ports c) (o_syslog_level c) (o_logtofile c) v (o_cmux_subset c) (o_cmux_port_speed c) (o_cmux_N1 c).
Definition set_o_cmux_subset (v : Z) (c : Options) : Options :=
  mkOptions (o_no_daemon c) (o_pin_code c) (o_use_ping c) (o_use_timeout c) (o_vir_ports c) (o_syslog_level c) (o_logtofile c) (o_cmux_mode c) v (o_cmux_port_speed c) (o_cmux_N1 c).
Definition set_o_cmux_port_speed (v : Z) (c : Options) : Options :=
  mkOptions (o_no_daemon c) (o_pin_code c) (o_use_ping c) (o_use_timeout c) (o_vir_ports c) (o_syslog_level c) (o_logtofile c) (o_cmux_mode c) (o_cmux_subset c) v (o_cmux_N1 c).
Definition set_o_cmux_N1 (v : Z) (c : Options) : Options :=
  mkOptions (o_no_daemon c) (o_pin_code c) (o_use_ping c) (o_use_timeout c) (o_vir_ports c) (o_syslog_level c) (o_logtofile c) (o_cmux_mode c) (o_cmux_subset c) (o_cmux_port_speed c) v.

(** File-scope variables.  [g_set_force_assert_flag] is a [static] of the header, so
    each of the two source files has its own copy: [g_force_assert] is the one of
    gsm0710muxd.c, [g_fc_force_assert] the one of gsm0710muxd_fc.c. *)
Record Globals := mkGlobals {
  g_main_exit_signal : Z;
  g_uih_pf_bit_received : bool;
  g_pts_reopen : bool;
  g_close_down_send_disc : bool (* close_down_send_disc_for_all_chnl *);
  g_setup_complete : bool (* mux_setup_chnl_complete *);
  g_stop_muxd : bool;
  g_lackof_atci : bool;
  g_sabm_ua_received : Z (* static of extract_frames *);
  g_rild_started : Z;
  g_force_assert : bool;
  g_fc_force_assert : bool;
  g_alarm : bool (* g_set_alarm_flag *)
}.

Definition set_g_main_exit_signal (v : Z) (c : Globals) : Globals :=
  mkGlobals v (g_uih_pf_bit_received c) (g_pts_reopen c) (g_close_down_send_disc c) (g_setup_complete c) (g_stop_muxd c) (g_lackof_atci c) (g_sabm_ua_received c) (g_rild_started c) (g_force_assert c) (g_fc_force_assert c) (g_alarm c).
Definition set_g_uih_pf_bit_received (v : bool) (c : Globals) : Globals :=
  mkGlobals (g_main_exit_signal c) v (g_pts_reopen c) (g_close_down_send_disc c) (g_setup_complete c) (g_stop_muxd c) (g_lackof_atci c) (g_sabm_ua_received c) (g_rild_started c) (g_force_assert c) (g_fc_force_assert c) (g_alarm c).
Definition set_g_pts_reopen (v : bool) (c : Globals) : Globals :=
  mkGlobals (g_main_exit_signal c) (g_uih_pf_bit_received c) v (g_close_down_send_disc c) (g_setup_complete c) (g_stop_muxd c) (g_lackof_atci c) (g_sabm_ua_received c) (g_rild_started c) (g_force_assert c) (g_fc_force_assert c) (g_alarm c).
Definition set_g_close_down_send_disc (v : bool) (c : Globals) : Globals :=
  mkGlobals (g_main_exit_signal c) (g_uih_pf_bit_received c) (g_pts_reopen c) v (g_setup_complete c) (g_stop_muxd c) (g_lackof_atci c) (g_sabm_ua_received c) (g_rild_started c) (g_force_assert c) (g_fc_force_assert c) (g_alarm c).
Definition set_g_setup_complete (v : bool) (c : Globals) : Globals :=
  mkGlobals (g_main_exit_signal c) (g_uih_pf_bit_received c) (g_pts_reopen c) (g_close_down_send_disc c) v (g_stop_muxd c) (g_lackof_atci c) (g_sabm_ua_received c) (g_rild_started c) (g_force_assert c) (g_fc_force_assert c) (g_alarm c).
Definition set_g_stop_muxd (v : bool) (c : Globals) : Globals :=
  mkGlobals (g_main_exit_signal c) (g_uih_pf_bit_received c) (g_pts_reopen c) (g_close_down_send_disc c) (g_setup_complete c) v (g_lackof_atci c) (g_sabm_ua_received c) (g_rild_started c) (g_force_assert c) (g_fc_force_assert c) (g_alarm c).
Definition set_g_lackof_atci (v : bool) (c : Globals) : Globals :=
  mkGlobals (g_main_exit_signal c) (g_uih_pf_bit_received c) (g_pts_reopen c) (g_close_down_send_disc c) (g_setup_complete c) (g_stop_muxd c) v (g_sabm_ua_received c) (g_rild_started c) (g_force_assert c) (g_fc_force_assert c) (g_alarm c).
Definition set_g_sabm_ua_received (v : Z) (c : Globals) : Globals :=
  mkGlobals (g_main_exit_signal c) (g_uih_pf_bit_received c) (g_pts_reopen c) (g_close_down_send_disc c) (g_setup_complete c) (g_stop_muxd c) (g_lackof_atci c) v (g_rild_started c) (g_force_assert c) (g_fc_force_assert c) (g_alarm c).
Definition set_g_rild_started (v : Z) (c : Globals) : Globals :=
  mkGlobals (g_main_exit_signal c) (g_uih_pf_bit_received c) (g_pts_reopen c) (g_close_down_send_disc c) (g_setup_complete c) (g_stop_muxd c) (g_lackof_atci c) (g_sabm_ua_received c) v (g_force_assert c) (g_fc_force_assert c) (g_alarm c).
Definition set_g_force_assert (v : bool) (c : Globals) : Globals :=
  mkGlobals (g_main_exit_signal c) (g_uih_pf_bit_received c) (g_pts_reopen c) (g_close_down_send_disc c) (g_setup_complete c) (g_stop_muxd c) (g_lackof_atci c) (g_sabm_ua_received c) (g_rild_started c) v (g_fc_force_assert c) (g_alarm c).
Definition set_g_fc_force_assert (v : bool) (c : Globals) : Globals :=
  mkGlobals (g_main_exit_signal c) (g_uih_pf_bit_received c) (g_pts_reopen c) (g_close_down_send_disc c) (g_setup_complete c) (g_stop_muxd c) (g_lackof_atci c) (g_sabm_ua_received c) (g_rild_started c) (g_force_assert c) v (g_alarm c).
Definition set_g_alarm (v : bool) (c : Globals) : Globals :=
  mkGlobals (g_main_exit_signal c) (g_uih_pf_bit_received c) (g_pts_reopen c) (g_close_down_send_disc c) (g_setup_complete c) (g_stop_muxd c) (g_lackof_atci c) (g_sabm_ua_received c) (g_rild_started c) (g_force_assert c) (g_fc_force_assert c) v.

(** ** The environment *)

(** A thread with the argument it is started on: the descriptor and the channel of
    a [Poll_Thread_Arg]. *)
Inductive ThreadFn := T_poll_thread (fd ch : Z) | T_retry_write (ch : Z)
| T_assemble_frame | T_poll_serial (fd : Z).

Inductive Syscall :=
| SysOpen (path : string)
| SysClose (fd : Z)
| SysRead (fd count : Z)
| SysWrite (fd : Z) (bs : list Z)
| SysSelect (fd : Z) (timeout : option Z)
| SysTcxonc (fd : Z) (on : bool)          (* ioctl(fd, TCXONC, TCION / TCIOFF) *)
| SysFsync (fd : Z)
| SysFcntl (fd : Z)
| SysPtsname (fd : Z)
| SysPtyConfig (fd : Z) (step : string)   (* tcflush, tcsetattr, grantpt, unlockpt *)
| SysSocket (name : string)               (* socket_local_client *)
| SysUnlink (path : string)
| SysChown (path : string)
| SysSetuid                               (* prctl(PR_SET_KEEPCAPS), setuid(AID_RADIO) *)
| SysChmod (path : string)
| SysSymlink (target link : string)
| SysSleep (usec : Z)
| SysThreadCreate (t : ThreadFn)
| SysPropertySet (key value : string)
| SysPropertyGet (key : string)
| SysTime
| SysAlarm (seconds : Z)
| SysPause.

(** What a call returns: its value, [errno], and the bytes or the string it
    delivers. *)
Record SysRet := mkRet { ret : Z; err : Z; rbytes : list Z; rstr : option string }.

(** The operating system, with its own state [W]. *)
Class Os (W : Type) := os_call : Syscall -> W -> SysRet * W.

(** The condition variables.  [C_rx_fc_lock] and [C_sleep] are not condition
    variables but the points where a thread takes the lock of a channel's frame list,
    and where the main thread sleeps: other threads may have run. *)
Inductive Cond :=
| C_bufferready | C_newdataready | C_tx_fc_on (ch : Z) | C_rx_fc_on (ch : Z)
| C_setup_complete | C_ua_rsp_for_disc | C_rx_fc_lock (ch : Z) | C_sleep.

Inductive Event :=
| EvSys (c : Syscall) (r : Z)
| EvSignal (c : Cond)
| EvAssert (code : Z).

(** The state of the process. *)
Record Mux (W : Type) := mkMux {
  m_serial : Serial;
  m_channellist : list Channel;
  m_options : Options;
  m_globals : Globals;
  m_heap : Heap;
  m_errno : Z;
  m_trace : list Event (* oldest first *);
  m_world : W
}.
Arguments mkMux {_}.
Arguments m_serial {_}.
Arguments m_channellist {_}.
Arguments m_options {_}.
Arguments m_globals {_}.
Arguments m_heap {_}.
Arguments m_errno {_}.
Arguments m_trace {_}.
Arguments m_world {_}.

Definition set_m_serial {W} (v : Serial) (s : Mux W) : Mux W :=
  mkMux v (m_channellist s) (m_options s) (m_globals s) (m_heap s) (m_errno s) (m_trace s) (m_world s).
Definition set_m_channellist {W} (v : list Channel) (s : Mux W) : Mux W :=
  mkMux (m_serial s) v (m_options s) (m_globals s) (m_heap s) (m_errno s) (m_trace s) (m_world s).
Definition set_m_options {W} (v : Options) (s : Mux W) : Mux W :=
  mkMux (m_serial s) (m_channellist s) v (m_globals s) (m_heap s) (m_errno s) (m_trace s) (m_world s).
Definition set_m_globals {W} (v : Globals) (s : Mux W) : Mux W :=
  mkMux (m_serial s) (m_channellist s) (m_options s) v (m_heap s) (m_errno s) (m_trace s) (m_world s).
Definition set_m_heap {W} (v : Heap) (s : Mux W) : Mux W :=
  mkMux (m_serial s) (m_channellist s) (m_options s) (m_globals s) v (m_errno s) (m_trace s) (m_world s).
Definition set_m_errno {W} (v : Z) (s : Mux W) : Mux W :=
  mkMux (m_serial s) (m_channellist s) (m_options s) (m_globals s) (m_heap s) v (m_trace s) (m_world s).
Definition set_m_trace {W} (v : list Event) (s : Mux W) : Mux W :=
  mkMux (m_serial s) (m_channellist s) (m_options s) (m_globals s) (m_heap s) (m_errno s) v (m_world s).
Definition set_m_world {W} (v : W) (s : Mux W) : Mux W :=
  mkMux (m_serial s) (m_channellist s) (m_options s) (m_globals s) (m_heap s) (m_errno s) (m_trace s) v.

(** What the other threads do to the process while this one waits on a condition
    variable. *)
Class Others (W : Type) := others_run : Cond -> Mux W -> Mux W.

(** ** The monad *)

(** [Fatal]: LOG_ALWAYS_FATAL; [Exit]: exit(); [Undef]: behaviour the language leaves
    undefined (an access outside an array, to a freed object or through [NULL]);
    [NoFuel]: the bound given to a loop was used up. *)
Inductive Res (W A : Type) :=
| Ok (a : A) (s : Mux W)
| Fatal (code : Z) (s : Mux W)
| Exit (code : Z) (s : Mux W)
| Undef (s : Mux W)
| NoFuel (s : Mux W).
Arguments Ok {W A}.
Arguments Fatal {W A}.
Arguments Exit {W A}.
Arguments Undef {W A}.
Arguments NoFuel {W A}.

Definition M (W A : Type) : Type := Mux W -> Res W A.

Definition mreturn {W A} (a : A) : M W A := fun s => Ok a s.

Definition mthen {W A B} (c : M W A) (k : A -> M W B) : M W B := fun s =>
  match c s with
  | Ok a s => k a s
  | Fatal n s => Fatal n s
  | Exit n s => Exit n s
  | Undef s => Undef s
  | NoFuel s => NoFuel s
  end.

Declare Scope mux_scope.
Delimit Scope mux_scope with mux.
Bind Scope mux_scope with M.
Notation "'do' x <- c ; k" := (mthen c (fun x => k))
  (at level 10, x name, c at level 100, k at level 200, only parsing) : mux_scope.
Notation "'do' ' p <- c ; k" := (mthen c (fun p => k))
  (at level 10, p pattern, c at level 100, k at level 200, only parsing) : mux_scope.
Notation "c ;;; k" := (mthen c (fun _ => k)) (at level 199, right associativity) : mux_scope.
#[global] Open Scope mux_scope.

Section primitives.
Context {W : Type}.

Definition gets {A} (f : Mux W -> A) : M W A := fun s => Ok (f s) s.
Definition modify (f : Mux W -> Mux W) : M W unit := fun s => Ok tt (f s).
Definition undefined {A} : M W A := fun s => Undef s.
Definition out_of_fuel {A} : M W A := fun s => NoFuel s.
Definition mwhen (b : bool) (c : M W unit) : M W unit := if b then c else mreturn tt.

Definition emit (e : Event) : M W unit := modify (fun s => set_m_trace (m_trace s ++ [e]) s).
Definition cond_signal (c : Cond) : M W unit := emit (EvSignal c).

Definition modify_serial (f : Serial -> Serial) : M W unit :=
  modify (fun s => set_m_serial (f (m_serial s)) s).
Definition modify_globals (f : Globals -> Globals) : M W unit :=
  modify (fun s => set_m_globals (f (m_globals s)) s).

(** [channellist[i]]; outside the array the behaviour is undefined. *)
Definition get_channel (i : Z) : M W Channel := fun s =>
  match (if 0 <=? i then m_channellist s !! Z.to_nat i else None) with
  | Some c => Ok c s
  | None => Undef s
  end.

Definition modify_channel (i : Z) (f : Channel -> Channel) : M W unit := fun s =>
  match (if 0 <=? i then m_channellist s !! Z.to_nat i else None) with
  | Some c => Ok tt (set_m_channellist (<[Z.to_nat i := f c]> (m_channellist s)) s)
  | None => Undef s
  end.

(** A system call: [errno] is set when the call fails. *)
Definition syscall `{!Os W} (c : Syscall) : M W SysRet := fun s =>
  let '(r, w) := os_call c (m_world s) in
  let s := set_m_world w (set_m_trace (m_trace s ++ [EvSys c (ret r)]) s) in
  Ok r (if ret r <? 0 then set_m_errno (err r) s else s).

(** [SYSCHECK(c)]: -1 is returned at once when the call fails. *)
Definition syscheck `{!Os W} (c : Syscall) (k : SysRet -> M W Z) : M W Z :=
  mthen (syscall c) (fun r => if ret r <? 0 then mreturn (-1) else k r).

(** [SYSCHECK(f(...))] on one of the daemon's own functions. *)
Definition check_call (c : M W Z) (k : M W Z) : M W Z :=
  mthen c (fun r => if r <? 0 then mreturn (-1) else k).

(** What [read] has put in the caller's buffer. *)
Definition read_bytes (r : SysRet) : list Z := ztake (ret r) (rbytes r).

(** [pthread_cond_wait]: the other threads run. *)
Definition cond_wait `{!Others W} (c : Cond) : M W unit := modify (others_run c).

End primitives.

Definition SIGHUP : Z := 1.
Definition SIGINT : Z := 2.
Definition SIGKILL : Z := 9.
Definition SIGUSR1 : Z := 10.
Definition SIGUSR2 : Z := 12.
Definition SIGPIPE : Z := 13.
Definition SIGALRM : Z := 14.
Definition SIGTERM : Z := 15.

Definition EINTR : Z := 4.
Definition EIO : Z := 5.
Definition EBADF : Z := 9.
Definition EAGAIN : Z := 11.
Definition ENODEV : Z := 19.
Definition EINVAL : Z := 22.
Definition ETXTBSY : Z := 26.

Definition GSM0710MUXD_SUCCESS : Z := 0.
Definition GSM0710MUXD_EXCEED_SUPPORTED_VP_NUM : Z := 1.
Definition GSM0710MUXD_CREATE_THREAD_ERR : Z := 2.
Definition GSM0710MUXD_PTY_READ_ERR : Z := 3.
Definition GSM0710MUXD_PTY_WRITE_ERR : Z := 4.
Definition GSM0710MUXD_GET_CWD_ERR : Z := 5.
Definition GSM0710MUXD_OPEN_SERIAL_DEV_ERR : Z := 6.
Definition GSM0710MUXD_START_MUXER_ERR : Z := 8.
Definition GSM0710MUXD_ALLOC_CHANNEL_ERR : Z := 11.
Definition GSM0710MUXD_FRAMELIST_INIT_ERR : Z := 12.
Definition GSM0710MUXD_RXTHREAD_ERR : Z := 13.
Definition GSM0710MUXD_TXTHREAD_ERR : Z := 14.
Definition GSM0710MUXD_SERIAL_WRITE_ERR : Z := 16.
Definition GSM0710MUXD_SETUP_PTY_ERR : Z := 17.
Definition GSM0710MUXD_RESTART_PTY_ERR : Z := 18.
Definition GSM0710MUXD_TXTHREAD_SELECT_ERR : Z := 19.

Section assertions.
Context {W : Type} {cfg : Config}.

(** [set_main_exit_signal(signal)] *)
Definition set_main_exit_signal (signal : Z) : M W unit :=
  do g <- gets m_globals;
  if (g_main_exit_signal g =? SIGTERM) && (signal =? SIGUSR2) then
    mwhen production_release (modify_globals (set_g_force_assert false))
  else modify_globals (set_g_main_exit_signal signal).

(** [Gsm0710Muxd_Assert(index)] in gsm0710muxd.c. *)
Definition Gsm0710Muxd_Assert (index : Z) : M W unit :=
  emit (EvAssert index);;;
  if production_release then
    modify_globals (set_g_force_assert true);;;
    set_main_exit_signal SIGUSR2
  else fun s => Fatal index s.

(** The same macro in gsm0710muxd_fc.c sets that file's copy of the flag. *)
Definition Gsm0710Muxd_Assert_fc (index : Z) : M W unit :=
  emit (EvAssert index);;;
  if production_release then
    modify_globals (set_g_fc_force_assert true);;;
    set_main_exit_signal SIGUSR2
  else fun s => Fatal index s.

End assertions.
