(* ===== verification/Logic.v ===== *)
(** * Reasoning about the handlers

    A weakest precondition for the monad of [MuxState]: [wp E c Q s] holds when
    running [c] from [s] ends normally in a result and state that satisfy [Q], or
    stops in one of the ways [E] allows.  [wp never c Q s] is total correctness. *)
From S2P Require Import Prelude Ring Frame MuxState.

Inductive Stop := StopFatal (code : Z) | StopExit (code : Z) | StopUndef | StopNoFuel.

Section wp.
Context {W : Type}.
Implicit Types s : Mux W.

Definition wp {A} (E : Stop -> Mux W -> Prop) (c : M W A) (Q : A -> Mux W -> Prop)
  (s : Mux W) : Prop :=
  match c s with
  | Ok a s => Q a s
  | Fatal n s => E (StopFatal n) s
  | Exit n s => E (StopExit n) s
  | Undef s => E StopUndef s
  | NoFuel s => E StopNoFuel s
  end.

Definition never : Stop -> Mux W -> Prop := fun _ _ => False.

Lemma wp_never_ok {A} (c : M W A) Q s :
  wp never c Q s <-> exists a s', c s = Ok a s' /\ Q a s'.
Proof.
  unfold wp, never. split.
  - destruct (c s); try done. eauto.
  - by intros (a & s' & -> & ?).
Qed.

Lemma wp_ok {A} E (c : M W A) (Q : A -> Mux W -> Prop) a s s' :
  c s = Ok a s' -> Q a s' -> wp E c Q s.
Proof. unfold wp. by intros ->. Qed.

Lemma wp_mono {A} E (c : M W A) (Q Q' : A -> Mux W -> Prop) s :
  wp E c Q s -> (forall a s', Q a s' -> Q' a s') -> wp E c Q' s.
Proof. unfold wp. destruct (c s); eauto. Qed.

Lemma wp_weaken {A} (E E' : Stop -> Mux W -> Prop) (c : M W A) Q s :
  wp E c Q s -> (forall k s', E k s' -> E' k s') -> wp E' c Q s.
Proof. unfold wp. destruct (c s); eauto. Qed.

Lemma wp_mthen {A B} E (c : M W A) (k : A -> M W B) Q s :
  wp E c (fun a s => wp E (k a) Q s) s -> wp E (mthen c k) Q s.
Proof. unfold wp, mthen. by destruct (c s). Qed.

Lemma wp_mreturn {A} E (a : A) (Q : A -> Mux W -> Prop) s : Q a s -> wp E (mreturn a) Q s.
Proof. done. Qed.

Lemma wp_gets {A} E (f : Mux W -> A) (Q : A -> Mux W -> Prop) s :
  Q (f s) s -> wp E (gets f) Q s.
Proof. done. Qed.

Lemma wp_modify E f (Q : unit -> Mux W -> Prop) s : Q tt (f s) -> wp E (modify f) Q s.
Proof. done. Qed.

Lemma wp_mwhen E b (c : M W unit) (Q : unit -> Mux W -> Prop) s :
  (b = true -> wp E c Q s) -> (b = false -> Q tt s) -> wp E (mwhen b c) Q s.
Proof. intros H1 H2. destruct b; [by apply H1|by apply H2]. Qed.

Lemma wp_if {A} E (b : bool) (c d : M W A) Q s :
  (b = true -> wp E c Q s) -> (b = false -> wp E d Q s) -> wp E (if b then c else d) Q s.
Proof. destruct b; auto. Qed.

Lemma wp_emit E e (Q : unit -> Mux W -> Prop) s :
  Q tt (set_m_trace (m_trace s ++ [e]) s) -> wp E (emit e) Q s.
Proof. done. Qed.

Lemma wp_get_channel E i c (Q : Channel -> Mux W -> Prop) s :
  0 <= i -> m_channellist s !! Z.to_nat i = Some c -> Q c s -> wp E (get_channel i) Q s.
Proof. intros Hi Hc HQ. unfold wp, get_channel. by rewrite (proj2 (Z.leb_le _ _) Hi), Hc. Qed.

Lemma wp_modify_channel E i c f (Q : unit -> Mux W -> Prop) s :
  0 <= i -> m_channellist s !! Z.to_nat i = Some c ->
  Q tt (set_m_channellist (<[Z.to_nat i := f c]> (m_channellist s)) s) ->
  wp E (modify_channel i f) Q s.
Proof. intros Hi Hc HQ. unfold wp, modify_channel. by rewrite (proj2 (Z.leb_le _ _) Hi), Hc. Qed.

(** The state after a system call: its world, trace and perhaps [errno] change. *)
Definition after_call `{!Os W} (c : Syscall) (s : Mux W) : Mux W :=
  let '(r, w) := os_call c (m_world s) in
  let s := set_m_world w (set_m_trace (m_trace s ++ [EvSys c (ret r)]) s) in
  if ret r <? 0 then set_m_errno (err r) s else s.

Lemma wp_syscall `{!Os W} E c (Q : SysRet -> Mux W -> Prop) s :
  Q (fst (os_call c (m_world s))) (after_call c s) -> wp E (syscall c) Q s.
Proof. unfold wp, syscall, after_call. by destruct (os_call c (m_world s)). Qed.

Lemma wp_syscheck `{!Os W} E c k (Q : Z -> Mux W -> Prop) s :
  (ret (fst (os_call c (m_world s))) < 0 -> Q (-1) (after_call c s)) ->
  (0 <= ret (fst (os_call c (m_world s))) ->
     wp E (k (fst (os_call c (m_world s)))) Q (after_call c s)) ->
  wp E (syscheck c k) Q s.
Proof.
  intros H1 H2. unfold syscheck. apply wp_mthen, wp_syscall. apply wp_if; intros B; reflect_bools.
  - by apply wp_mreturn, H1.
  - auto.
Qed.

(** Everything but [errno], the trace and the world survives a call. *)
Lemma after_call_frame `{!Os W} c s :
  m_serial (after_call c s) = m_serial s /\ m_channellist (after_call c s) = m_channellist s /\
  m_options (after_call c s) = m_options s /\ m_globals (after_call c s) = m_globals s /\
  m_heap (after_call c s) = m_heap s /\
  m_trace (after_call c s) = m_trace s ++ [EvSys c (ret (fst (os_call c (m_world s))))].
Proof. unfold after_call. destruct (os_call c (m_world s)) as [r w]. simpl. by destruct (_ <? _). Qed.

Lemma after_call_serial `{!Os W} c s : m_serial (after_call c s) = m_serial s.
Proof. apply after_call_frame. Qed.
Lemma after_call_channellist `{!Os W} c s : m_channellist (after_call c s) = m_channellist s.
Proof. apply after_call_frame. Qed.
Lemma after_call_options `{!Os W} c s : m_options (after_call c s) = m_options s.
Proof. apply after_call_frame. Qed.
Lemma after_call_globals `{!Os W} c s : m_globals (after_call c s) = m_globals s.
Proof. apply after_call_frame. Qed.
Lemma after_call_heap `{!Os W} c s : m_heap (after_call c s) = m_heap s.
Proof. apply after_call_frame. Qed.
Lemma after_call_trace `{!Os W} c s :
  m_trace (after_call c s) = m_trace s ++ [EvSys c (ret (fst (os_call c (m_world s))))].
Proof. apply after_call_frame. Qed.

(** ** Invariants

    [keeps R c]: from any state, however [c] stops, the state it stops in is
    related to the first one by [R]. *)
Definition keeps (R : Mux W -> Mux W -> Prop) {A} (c : M W A) : Prop :=
  forall s, wp (fun _ s' => R s s') c (fun _ s' => R s s') s.

Lemma keeps_mthen (R : Mux W -> Mux W -> Prop) `{!PreOrder R} {A B} (c : M W A) (k : A -> M W B) :
  keeps R c -> (forall a, keeps R (k a)) -> keeps R (mthen c k).
Proof.
  intros Hc Hk s. specialize (Hc s). unfold wp, mthen in *. destruct (c s) as [a s'| | | |]; try done.
  specialize (Hk a s'). unfold wp in Hk.
  destruct (k a s'); by (transitivity s').
Qed.

(** Running a prefix that keeps [R]. *)
Lemma wp_keeps (R : Mux W -> Mux W -> Prop) {A B} E (c : M W A) (k : A -> M W B) Q s :
  keeps R c -> (forall x s1, R s s1 -> E x s1) -> (forall a s1, R s s1 -> wp E (k a) Q s1) ->
  wp E (mthen c k) Q s.
Proof.
  intros Hc HE Hk. specialize (Hc s). unfold wp, mthen in *. destruct (c s); auto. by apply Hk.
Qed.

Lemma keeps_wp (R : Mux W -> Mux W -> Prop) {A} (E : Stop -> Mux W -> Prop) (c : M W A) Q s :
  keeps R c -> (forall x s1, R s s1 -> E x s1) -> (forall a s1, R s s1 -> Q a s1) -> wp E c Q s.
Proof. intros Hc HE Hk. specialize (Hc s). unfold wp in *. destruct (c s); auto. Qed.

(** Every way of stopping is allowed. *)
Definition whatever : Stop -> Mux W -> Prop := fun _ _ => True.

Lemma keeps_mreturn (R : Mux W -> Mux W -> Prop) `{!PreOrder R} {A} (a : A) : keeps R (mreturn a).
Proof. intros s. unfold wp. simpl. reflexivity. Qed.
Lemma keeps_gets (R : Mux W -> Mux W -> Prop) `{!PreOrder R} {A} (f : Mux W -> A) : keeps R (gets f).
Proof. intros s. unfold wp. simpl. reflexivity. Qed.
Lemma keeps_undefined (R : Mux W -> Mux W -> Prop) `{!PreOrder R} {A} : keeps R (@undefined W A).
Proof. intros s. unfold wp. simpl. reflexivity. Qed.
Lemma keeps_out_of_fuel (R : Mux W -> Mux W -> Prop) `{!PreOrder R} {A} : keeps R (@out_of_fuel W A).
Proof. intros s. unfold wp. simpl. reflexivity. Qed.
Lemma keeps_fatal (R : Mux W -> Mux W -> Prop) `{!PreOrder R} {A} n : keeps R (fun s : Mux W => Fatal n s : Res W A).
Proof. intros s. unfold wp. simpl. reflexivity. Qed.
Lemma keeps_exit (R : Mux W -> Mux W -> Prop) `{!PreOrder R} {A} n : keeps R (fun s : Mux W => Exit n s : Res W A).
Proof. intros s. unfold wp. simpl. reflexivity. Qed.
Lemma keeps_modify (R : Mux W -> Mux W -> Prop) f : (forall s, R s (f s)) -> keeps R (modify f).
Proof. intros H s. apply H. Qed.
Lemma keeps_if (R : Mux W -> Mux W -> Prop) {A} (b : bool) (c d : M W A) :
  keeps R c -> keeps R d -> keeps R (if b then c else d).
Proof. by destruct b. Qed.
Lemma keeps_mwhen (R : Mux W -> Mux W -> Prop) `{!PreOrder R} b (c : M W unit) : keeps R c -> keeps R (mwhen b c).
Proof. intros H. destruct b; [done|]. by apply keeps_mreturn. Qed.
Lemma keeps_get_channel (R : Mux W -> Mux W -> Prop) `{!PreOrder R} i : keeps R (@get_channel W i).
Proof.
  intros s. unfold wp, get_channel. destruct (0 <=? i); [|reflexivity].
  destruct (m_channellist s !! _); reflexivity.
Qed.
Lemma keeps_modify_channel (R : Mux W -> Mux W -> Prop) `{!PreOrder R} i f :
  (forall s c, m_channellist s !! Z.to_nat i = Some c ->
     R s (set_m_channellist (<[Z.to_nat i := f c]> (m_channellist s)) s)) ->
  keeps R (modify_channel i f).
Proof.
  intros H s. unfold wp, modify_channel. destruct (0 <=? i); [|reflexivity].
  destruct (m_channellist s !! Z.to_nat i) eqn:E; [by apply H|reflexivity].
Qed.
Lemma keeps_syscall `{!Os W} (R : Mux W -> Mux W -> Prop) c :
  (forall s, R s (after_call c s)) -> keeps R (syscall c).
Proof. intros H s. apply wp_syscall, H. Qed.
Lemma keeps_syscheck `{!Os W} (R : Mux W -> Mux W -> Prop) `{!PreOrder R} c k :
  (forall s, R s (after_call c s)) -> (forall r, keeps R (k r)) -> keeps R (syscheck c k).
Proof.
  intros H Hk. apply keeps_mthen; [done|by apply keeps_syscall|]. intros r.
  apply keeps_if; [by apply keeps_mreturn|apply Hk].
Qed.

End wp.

Create Rewrite HintDb mux_frame.
#[export] Hint Rewrite @after_call_serial @after_call_channellist @after_call_options
  @after_call_globals @after_call_heap @after_call_trace : mux_frame.

(** Projections of a state built by the primitives. *)
Ltac frame_simpl :=
  repeat progress (autorewrite with mux_frame;
    cbn [m_serial m_channellist m_options m_globals m_heap m_errno m_trace m_world
         set_m_serial set_m_channellist set_m_options set_m_globals set_m_heap set_m_errno
         set_m_trace set_m_world]).

(** Symbolic execution of one step of a handler. *)
Ltac wp_step :=
  lazymatch goal with
  | |- wp _ (mthen _ _) _ _ => apply wp_mthen
  | |- wp _ (mreturn _) _ _ => apply wp_mreturn
  | |- wp _ (gets _) _ _ => apply wp_gets
  | |- wp _ (modify _) _ _ => apply wp_modify
  | |- wp _ (emit _) _ _ => apply wp_emit
  | |- wp _ (cond_signal _) _ _ => apply wp_emit
  | |- wp _ (modify_serial _) _ _ => apply wp_modify
  | |- wp _ (modify_globals _) _ _ => apply wp_modify
  | |- wp _ (syscall _) _ _ => apply wp_syscall
  | |- wp _ (syscheck _ _) _ _ => apply wp_syscheck; intros ?
  | |- wp _ (mwhen _ _) _ _ => apply wp_mwhen; intros ?
  | |- wp _ (if _ then _ else _) _ _ => apply wp_if; intros ?
  end.
Ltac wp_steps := repeat (wp_step; cbn beta).

(** Discharge [keeps] goals of a handler from the relation's own facts, found in
    the database [keeps]. *)
Create HintDb keeps discriminated.
#[export] Hint Resolve keeps_mreturn keeps_gets keeps_undefined keeps_out_of_fuel keeps_fatal
  keeps_exit keeps_get_channel : keeps.
Ltac keeps_tac :=
  repeat (cbv zeta;
    lazymatch goal with
    | |- keeps _ (mthen _ _) => apply keeps_mthen; [typeclasses eauto| |intros ?]
    | |- keeps _ (mwhen _ _) => apply keeps_mwhen; [typeclasses eauto|]
    | |- keeps _ (match ?x with _ => _ end) => destruct x
    | |- keeps _ _ => solve [eauto with keeps typeclass_instances]
    end).
