(* ===== verification/WriteFrame.v ===== *)
(** * Sending frames ([write_frame], [handle_channel_data])

    [write_frame] of src/mtk/gsm0710muxd/src/gsm0710muxd.c: header, payload and
    trailer in three writes for the basic option, one write of the escaped
    frame for the advanced option; and the retry loop that cuts the data of an
    application into frames.  The mutex [write_frame_lock] makes each call
    atomic with respect to the other writers. *)
From S2P Require Import Prelude Crc Ring Frame BasicFrame AdvFrame MuxState.

Definition PROPERTY_MODEM_EE : string := "ril.mux.ee.md1".

Section code.
Context {W : Type} `{!Os W}.

(** What a failed write of a basic-option part returns: the data is given up
    silently when the modem is gone. *)
Definition write_failed (length : Z) : M W Z :=
  do e <- gets m_errno;
  if (e =? ETXTBSY) || (e =? ENODEV) then
    syscall (SysPropertySet PROPERTY_MODEM_EE "1");;;
    mreturn length
  else mreturn 0.

Definition write_frame_basic (channel : Z) (input : list Z) (length type : Z) : M W Z :=
  do fd <- gets (fun s => s_fd (m_serial s));
  let prefix := basic_prefix channel type length in
  do c <- syscall (SysWrite fd prefix);
  if negb (ret c =? zlen prefix) then
    if ret c <? 0 then write_failed length else mreturn 0
  else
    do r <- (if 0 <? length then
               do c <- syscall (SysWrite fd (ztake length input));
               if negb (length =? ret c) then
                 do v <- (if ret c <? 0 then write_failed length else mreturn 0);
                 mreturn (Some v)
               else mreturn None
             else mreturn None);
    match r with
    | Some v => mreturn v
    | None =>
        do c <- syscall (SysWrite fd (basic_postfix channel type length));
        if negb (ret c =? 2) then write_failed length
        else mreturn length
    end.

(** [serial.adv_frame_buf] must hold the whole escaped frame. *)
Definition write_frame_adv (channel : Z) (input : list Z) (length type : Z) : M W Z :=
  do cap <- gets (fun s => s_adv_frame_buf (m_serial s));
  let frame := adv_frame channel type (ztake length input) in
  if (match cap with Some n => zlen frame <=? n | None => false end) then
    do fd <- gets (fun s => s_fd (m_serial s));
    do c <- syscall (SysWrite fd frame);
    if negb (ret c =? zlen frame) then mreturn 0 else mreturn length
  else undefined.

(** [write_frame(channel, input, length, type)] with [length] the number of bytes
    of [input] ([NULL] and 0: the empty list). *)
Definition write_frame (channel : Z) (input : list Z) (type : Z) : M W Z :=
  do g <- gets m_globals;
  if g_stop_muxd g then mreturn 1
  else
    do pf <- (if ((type =? GSM0710_TYPE_UIH) || (type =? GSM0710_TYPE_UI))
                 && g_uih_pf_bit_received g then
                match input with
                | [] => undefined
                | x :: _ => mreturn (GSM0710_COMMAND_IS x GSM0710_CONTROL_MSC)
                end
              else mreturn false);
    mwhen pf (modify_globals (set_g_uih_pf_bit_received false));;;
    let type := if pf then Z.lor type GSM0710_PF else type in
    do c <- get_channel channel;
    let length := if ch_negotiated_N1 c <? zlen input then ch_negotiated_N1 c else zlen input in
    do adv <- gets (fun s => o_cmux_mode (m_options s));
    if adv then write_frame_adv channel input length type
    else write_frame_basic channel input length type.

(** The receiving thread sends with the same blocking call. *)
Definition rx_thread_write_frame (channel : Z) (input : list Z) (type : Z) : M W Z :=
  write_frame channel input type;;;
  mreturn (zlen input).

Fixpoint channel_data_loop (fuel : nat) (buf : list Z) (channel written i : Z) : M W Z :=
  match fuel with
  | O => out_of_fuel
  | S fuel =>
      if negb (written =? zlen buf) && (i <? GSM0710_WRITE_RETRIES) then
        do last <- write_frame channel (zdrop written buf) GSM0710_TYPE_UIH;
        channel_data_loop fuel buf channel (written + last) (if last =? 0 then i + 1 else i)
      else mreturn written
  end.

(** [handle_channel_data(buf, len, channel)] on the [len] bytes [buf]; the number of
    iterations is bounded by the bytes plus the retries
    ([channel_data_terminates]). *)
Definition handle_channel_data (buf : list Z) (channel : Z) : M W Z :=
  do written <- channel_data_loop (S (Z.to_nat (zlen buf + GSM0710_WRITE_RETRIES)))
                  buf channel 0 0;
  mreturn (zlen buf - written).

End code.

(** ** Observations *)

(** The bytes a file descriptor has accepted. *)
Fixpoint wire (fd : Z) (tr : list Event) : list Z :=
  match tr with
  | [] => []
  | EvSys (SysWrite fd' bs) r :: tr => (if fd' =? fd then ztake r bs else []) ++ wire fd tr
  | _ :: tr => wire fd tr
  end.

Lemma wire_app fd t1 t2 : wire fd (t1 ++ t2) = wire fd t1 ++ wire fd t2.
Proof.
  induction t1 as [|e t1 IH]; [done|]. simpl. destruct e as [c r| |]; [|done..].
  destruct c; try done. by rewrite IH, app_assoc.
Qed.

(** A serial device that takes every write in full. *)
Class AcceptingOs (W : Type) `{!Os W} :=
  accepting : forall fd bs w, ret (fst (os_call (SysWrite fd bs) w)) = zlen bs.

(** The part of the state a writer does not touch. *)
Definition same_setup {W} (s s' : Mux W) : Prop :=
  m_channellist s' = m_channellist s /\ m_options s' = m_options s /\
  m_serial s' = m_serial s /\ m_heap s' = m_heap s /\
  g_stop_muxd (m_globals s') = g_stop_muxd (m_globals s).

#[global] Instance same_setup_preorder {W} : PreOrder (@same_setup W).
Proof. split; [done|]. intros ? ? ? (?&?&?&?&?) (?&?&?&?&?). unfold same_setup. intuition congruence. Qed.

Section facts.
Context {W : Type} `{!Os W}.
Implicit Types s : Mux W.

Lemma syscall_ok c s :
  exists r s', syscall c s = Ok r s' /\ same_setup s s' /\
    r = fst (os_call c (m_world s)) /\
    m_trace s' = m_trace s ++ [EvSys c (ret r)] /\ m_globals s' = m_globals s.
Proof.
  unfold syscall. destruct (os_call c (m_world s)) as [r w].
  eexists r, _. split; [reflexivity|]. by destruct (ret r <? 0).
Qed.

Lemma write_failed_ok len s :
  exists n s', write_failed len s = Ok n s' /\ same_setup s s' /\ (n = 0 \/ n = len).
Proof.
  unfold write_failed, gets, mthen, mreturn. destruct (_ || _).
  - destruct (syscall_ok (SysPropertySet PROPERTY_MODEM_EE "1") s) as (r & s' & -> & ? & _).
    eauto 10.
  - exists 0, s. split_and!; auto. reflexivity.
Qed.

(** Whatever the device does, a basic-option send reports all of the frame's
    payload or nothing. *)
Lemma write_frame_basic_ok ch input len ty s :
  exists n s', write_frame_basic ch input len ty s = Ok n s' /\ same_setup s s' /\
    (n = 0 \/ n = len).
Proof.
  unfold write_frame_basic, mthen at 1, gets at 1. unfold mthen at 1.
  set (fd := s_fd _).
  destruct (syscall_ok (SysWrite fd (basic_prefix ch ty len)) s) as (r & s1 & -> & S1 & _).
  destruct (negb _).
  { destruct (_ <? 0); [|exists 0, s1; auto].
    destruct (write_failed_ok len s1) as (n & s2 & -> & S2 & ?). exists n, s2. split_and!; auto.
    by transitivity s1. }
  unfold mthen at 1.
  assert (exists v s2, (if 0 <? len
     then mthen (syscall (SysWrite fd (ztake len input))) (fun c =>
            if negb (len =? ret c)
            then mthen (if ret c <? 0 then write_failed len else mreturn 0)
                   (fun v => mreturn (Some v))
            else mreturn None)
     else mreturn None) s1 = Ok v s2 /\ same_setup s s2 /\
     match v with Some n => n = 0 \/ n = len | None => True end) as (v & s2 & -> & S2 & V).
  { destruct (0 <? len); [|exists None, s1; auto]. unfold mthen at 1.
    destruct (syscall_ok (SysWrite fd (ztake len input)) s1) as (r' & s2 & -> & S2 & _).
    assert (same_setup s s2) by (by transitivity s1).
    destruct (negb _); [|exists None, s2; auto]. unfold mthen.
    destruct (_ <? 0).
    - destruct (write_failed_ok len s2) as (n & s3 & -> & S3 & ?). exists (Some n), s3.
      split_and!; auto. by transitivity s2.
    - exists (Some 0), s2. auto. }
  destruct v as [n|]; [exists n, s2; auto|]. unfold mthen at 1.
  destruct (syscall_ok (SysWrite fd (basic_postfix ch ty len)) s2) as (r' & s3 & -> & S3 & _).
  assert (same_setup s s3) by (by transitivity s2).
  destruct (negb _); [|exists len, s3; auto].
  destruct (write_failed_ok len s3) as (n & s4 & -> & S4 & ?). exists n, s4.
  split_and!; auto. by transitivity s3.
Qed.

(** ** Sends on a live channel *)

(** The daemon runs in the basic option, is not stopping, and [channel] is a slot
    of [channellist] with the given maximum frame size. *)
Definition basic_channel (s : Mux W) (channel n : Z) : Prop :=
  o_cmux_mode (m_options s) = false /\ g_stop_muxd (m_globals s) = false /\
  0 <= channel /\
  exists c, m_channellist s !! Z.to_nat channel = Some c /\ ch_negotiated_N1 c = n.

Lemma basic_channel_same s s' channel n :
  same_setup s s' -> basic_channel s channel n -> basic_channel s' channel n.
Proof.
  intros (E1 & E2 & E3 & E4 & E5) (H1 & H2 & H3 & H4). unfold basic_channel.
  by rewrite E1, E2, E5.
Qed.

(** The control byte of the frame: the P/F bit answers a pending one. *)
Definition sent_type (s : Mux W) (input : list Z) (type : Z) : Z :=
  if ((type =? GSM0710_TYPE_UIH) || (type =? GSM0710_TYPE_UI))
     && g_uih_pf_bit_received (m_globals s)
     && GSM0710_COMMAND_IS (byte_at input 0) GSM0710_CONTROL_MSC
  then Z.lor type GSM0710_PF else type.

Lemma write_frame_basic_eq channel n input type s :
  basic_channel s channel n -> input <> [] ->
  exists s1, same_setup s s1 /\ m_trace s1 = m_trace s /\
    write_frame channel input type s =
    write_frame_basic channel input (Z.min n (zlen input)) (sent_type s input type) s1.
Proof.
  intros (Hm & Hs & Hc & c & Hl & Hn) Hi. unfold write_frame, sent_type.
  destruct input as [|x input]; [done|]. unfold mthen at 1, gets at 1. rewrite Hs.
  change (byte_at (x :: input) 0) with x.
  set (b := ((type =? GSM0710_TYPE_UIH) || (type =? GSM0710_TYPE_UI)) && g_uih_pf_bit_received _).
  set (q := GSM0710_COMMAND_IS x GSM0710_CONTROL_MSC).
  set (s1 := if b && q then set_m_globals (set_g_uih_pf_bit_received false (m_globals s)) s else s).
  exists s1. assert (same_setup s s1 /\ m_trace s1 = m_trace s) as [S T]
    by (subst s1; by destruct (b && q)).
  split_and!; [done|done|].
  transitivity ((do c <- get_channel channel;
    let length := if ch_negotiated_N1 c <? zlen (x :: input) then ch_negotiated_N1 c
                  else zlen (x :: input) in
    do adv <- gets (fun s => o_cmux_mode (m_options s));
    if adv then write_frame_adv channel (x :: input) length
                  (if b && q then Z.lor type GSM0710_PF else type)
    else write_frame_basic channel (x :: input) length
                  (if b && q then Z.lor type GSM0710_PF else type)) s1).
  { subst s1. by destruct b; [destruct q|]. }
  destruct S as (E1 & E2 & E3 & E4 & E5).
  unfold mthen at 1, get_channel. rewrite E1, (proj2 (Z.leb_le _ _) Hc), Hl.
  unfold mthen, gets. rewrite E2, Hm, Hn.
  replace (if n <? zlen (x :: input) then n else zlen (x :: input))
    with (Z.min n (zlen (x :: input))) by (destruct (Z.ltb_spec n (zlen (x :: input))); lia).
  done.
Qed.

(** ** Termination of [handle_channel_data] *)

Lemma channel_data_loop_ok fuel buf channel n written i s :
  basic_channel s channel n -> 0 <= n -> 0 <= written <= zlen buf -> 0 <= i ->
  zlen buf - written + Z.max 0 (GSM0710_WRITE_RETRIES - i) < Z.of_nat fuel ->
  exists w s', channel_data_loop fuel buf channel written i s = Ok w s' /\
    0 <= w <= zlen buf /\ same_setup s s'.
Proof.
  revert written i s. induction fuel as [|fuel IH]; intros written i s B Hn Hw Hi Hf; [lia|].
  cbn [channel_data_loop].
  destruct (negb (written =? zlen buf) && (i <? GSM0710_WRITE_RETRIES)) eqn:E.
  2: { exists written, s. split_and!; try done; lia. }
  reflect_bools.
  assert (zlen (zdrop written buf) = zlen buf - written) as Lz by (apply zlen_zdrop; lia).
  assert (zdrop written buf <> []) as Hne by (intros X; rewrite X, zlen_nil in Lz; lia).
  destruct (write_frame_basic_eq channel n (zdrop written buf) GSM0710_TYPE_UIH s B Hne)
    as (s1 & S1 & _ & Eq). unfold mthen at 1. rewrite Eq.
  match goal with |- context [write_frame_basic ?a ?b ?c ?d ?e] =>
    destruct (write_frame_basic_ok a b c d e) as (last & s2 & -> & S2 & Hlast) end.
  assert (same_setup s s2) as S by (by transitivity s1).
  destruct (IH (written + last) (if last =? 0 then i + 1 else i) s2) as (w & s3 & E3 & H3 & S3).
  - by apply basic_channel_same with s.
  - done.
  - lia.
  - destruct (last =? 0); lia.
  - destruct (Z.eqb_spec last 0); lia.
  - exists w, s3. split_and!; try done; try lia. by transitivity s2.
Qed.

(** ** What reaches the wire *)

Section accepting.
Context `{!AcceptingOs W}.

Lemma sys_write_accept fd bs s :
  exists r s', syscall (SysWrite fd bs) s = Ok r s' /\ ret r = zlen bs /\ same_setup s s' /\
    wire fd (m_trace s') = wire fd (m_trace s) ++ bs /\ m_globals s' = m_globals s.
Proof.
  destruct (syscall_ok (SysWrite fd bs) s) as (r & s' & E & S & R & T & G).
  exists r, s'. assert (ret r = zlen bs) as Hr by (rewrite R; apply accepting).
  split_and!; try done. rewrite T, wire_app, Hr. simpl.
  rewrite Z.eqb_refl, app_nil_r, ztake_all by lia. done.
Qed.

Lemma write_payload_accept fd len input s :
  0 <= len <= zlen input ->
  exists s', (if 0 <? len
     then mthen (syscall (SysWrite fd (ztake len input))) (fun c =>
            if negb (len =? ret c)
            then mthen (if ret c <? 0 then write_failed len else mreturn 0)
                   (fun v => mreturn (Some v))
            else mreturn None)
     else mreturn None) s = Ok None s' /\ same_setup s s' /\ m_globals s' = m_globals s /\
     wire fd (m_trace s') = wire fd (m_trace s) ++ ztake len input.
Proof.
  intros Hl. destruct (Z.ltb_spec 0 len).
  - unfold mthen at 1.
    destruct (sys_write_accept fd (ztake len input) s) as (r' & s2 & -> & R & S2 & W2 & G2).
    exists s2. rewrite R, zlen_ztake, Z.eqb_refl by lia. done.
  - exists s. replace len with 0 by lia. by rewrite app_nil_r.
Qed.

Lemma write_frame_basic_accept ch input len ty s :
  0 <= len <= zlen input ->
  let fd := s_fd (m_serial s) in
  exists s', write_frame_basic ch input len ty s = Ok len s' /\ same_setup s s' /\
    m_globals s' = m_globals s /\
    wire fd (m_trace s') = wire fd (m_trace s) ++ basic_frame ch ty (ztake len input).
Proof.
  intros Hl fd. unfold write_frame_basic, mthen at 1, gets at 1. fold fd. unfold mthen at 1.
  destruct (sys_write_accept fd (basic_prefix ch ty len) s) as (r & s1 & -> & -> & S1 & W1 & G1).
  rewrite Z.eqb_refl. cbn [negb]. unfold mthen at 1.
  destruct (write_payload_accept fd len input s1 Hl) as (s2 & -> & S2 & G2 & W2).
  unfold mthen at 1.
  destruct (sys_write_accept fd (basic_postfix ch ty len) s2) as (r3 & s3 & -> & -> & S3 & W3 & G3).
  change (negb (zlen (basic_postfix ch ty len) =? 2)) with false.
  exists s3. split_and!; [done|by transitivity s1; [|transitivity s2]|congruence|].
  rewrite W3, W2, W1, <- !app_assoc. unfold basic_frame. by rewrite zlen_ztake by lia.
Qed.

(** A frame with no payload that is not an information frame. *)
Lemma write_empty_accept channel n type s :
  basic_channel s channel n -> 0 <= n -> type <> GSM0710_TYPE_UIH -> type <> GSM0710_TYPE_UI ->
  exists s', write_frame channel [] type s = Ok 0 s' /\ same_setup s s' /\ m_globals s' = m_globals s /\
    wire (s_fd (m_serial s)) (m_trace s') =
    wire (s_fd (m_serial s)) (m_trace s) ++ basic_frame channel type [].
Proof.
  intros (Hm & Hs & Hc & c & Hl & Hn) H0 H1 H2. unfold write_frame, mthen at 1, gets at 1. rewrite Hs.
  rewrite (proj2 (Z.eqb_neq _ _) H1), (proj2 (Z.eqb_neq _ _) H2). cbn [orb andb].
  unfold mthen at 1, mreturn at 1. unfold mthen at 1. cbn [mwhen mreturn].
  unfold mthen at 1, get_channel. rewrite (proj2 (Z.leb_le _ _) Hc), Hl.
  unfold mthen, gets. rewrite Hm, Hn, zlen_nil, (proj2 (Z.ltb_ge n 0)) by done.
  apply (write_frame_basic_accept channel [] 0 type s). done.
Qed.

(** A payload that fits in one frame. *)
Lemma write_small_accept channel n input type s :
  basic_channel s channel n -> input <> [] -> zlen input <= n ->
  exists s', write_frame channel input type s = Ok (zlen input) s' /\ same_setup s s' /\
    wire (s_fd (m_serial s)) (m_trace s') =
    wire (s_fd (m_serial s)) (m_trace s) ++ basic_frame channel (sent_type s input type) input.
Proof.
  intros B Hi Hn. destruct (write_frame_basic_eq channel n input type s B Hi) as (s1 & S1 & T1 & ->).
  pose proof (zlen_nonneg input). rewrite Z.min_r by lia.
  destruct (write_frame_basic_accept channel input (zlen input) (sent_type s input type) s1)
    as (s2 & -> & S2 & _ & W2); [lia|].
  assert (s_fd (m_serial s1) = s_fd (m_serial s)) as F by (by destruct S1 as (_ & _ & -> & _)).
  rewrite ztake_all in W2 by lia. rewrite F, T1 in W2. exists s2. split_and!; try done. by transitivity s1.
Qed.

(** The frames [handle_channel_data] sends: consecutive pieces of the data, none
    empty or above the maximum frame size. *)
Inductive chunked (n : Z) : list Z -> list (Z * list Z) -> Prop :=
| chunked_nil : chunked n [] []
| chunked_cons ty p buf frames :
    ty = GSM0710_TYPE_UIH \/ ty = Z.lor GSM0710_TYPE_UIH GSM0710_PF ->
    1 <= zlen p <= n -> chunked n buf frames -> chunked n (p ++ buf) ((ty, p) :: frames).

(** The bytes of a list of frames on one channel. *)
Definition frames_bytes (ch : Z) (frames : list (Z * list Z)) : list Z :=
  concat (map (fun '(ty, p) => basic_frame ch ty p) frames).

Lemma sent_type_uih s input :
  sent_type s input GSM0710_TYPE_UIH = GSM0710_TYPE_UIH \/
  sent_type s input GSM0710_TYPE_UIH = Z.lor GSM0710_TYPE_UIH GSM0710_PF.
Proof. unfold sent_type. destruct (_ && _ && _); auto. Qed.

Lemma channel_data_loop_accept fuel buf channel n written i s :
  basic_channel s channel n -> 1 <= n -> 0 <= written <= zlen buf -> i = 0 ->
  zlen buf - written < Z.of_nat fuel ->
  exists s' frames, channel_data_loop fuel buf channel written i s = Ok (zlen buf) s' /\
    same_setup s s' /\ chunked n (zdrop written buf) frames /\
    wire (s_fd (m_serial s)) (m_trace s') =
      wire (s_fd (m_serial s)) (m_trace s) ++ frames_bytes channel frames.
Proof.
  revert written s. induction fuel as [|fuel IH]; intros written s B Hn Hw -> Hf; [lia|].
  cbn [channel_data_loop]. destruct (Z.eqb_spec written (zlen buf)) as [->|Hne]; cbn [negb andb].
  { exists s, []. split_and!; [done|done| |by rewrite app_nil_r].
    replace (zdrop (zlen buf) buf) with (@nil Z); [constructor|].
    rewrite <- (app_nil_r buf) at 2. by rewrite zdrop_app_length. }
  change (0 <? GSM0710_WRITE_RETRIES) with true. cbn iota.
  assert (zlen (zdrop written buf) = zlen buf - written) as Lz by (apply zlen_zdrop; lia).
  assert (zdrop written buf <> []) as Hne' by (intros X; rewrite X, zlen_nil in Lz; lia).
  destruct (write_frame_basic_eq channel n (zdrop written buf) GSM0710_TYPE_UIH s B Hne')
    as (s1 & S1 & T1 & Eq). unfold mthen at 1. rewrite Eq.
  set (len := Z.min n (zlen (zdrop written buf))) in *.
  set (ty := sent_type s (zdrop written buf) GSM0710_TYPE_UIH) in *.
  destruct (write_frame_basic_accept channel (zdrop written buf) len ty s1)
    as (s2 & -> & S2 & _ & W2); [lia|].
  assert (same_setup s s2) as S by (by transitivity s1).
  assert (s_fd (m_serial s1) = s_fd (m_serial s) /\ s_fd (m_serial s2) = s_fd (m_serial s)) as [F1 F2].
  { destruct S1 as (_ & _ & -> & _), S as (_ & _ & -> & _). done. }
  rewrite (proj2 (Z.eqb_neq len 0)) by lia.
  destruct (IH (written + len) s2) as (s3 & frames & E3 & S3 & C3 & W3); try lia.
  { by apply basic_channel_same with s. }
  rewrite F2 in W3. rewrite F1, T1 in W2.
  exists s3, ((ty, ztake len (zdrop written buf)) :: frames).
  split_and!; [done|by transitivity s2| |].
  - rewrite <- (ztake_zdrop len (zdrop written buf)) at 1. rewrite zdrop_zdrop by lia.
    constructor; [apply sent_type_uih|rewrite zlen_ztake; lia|done].
  - rewrite W3, W2, <- app_assoc. done.
Qed.

End accepting.

End facts.

(** ** Concrete states *)

(** The state of a fresh process: the static variables. *)
Definition zero_channel : Channel :=
  mkChannel 0 0 None None None false false false false 0 0 false false false 0 0 0.
Definition initial_channels : list Channel :=
  replicate (Z.to_nat GSM0710_MAX_CHANNELS) zero_channel.
Definition initial_globals : Globals :=
  mkGlobals 0 false false false false false false 0 0 false false false.
Definition initial_serial : Serial :=
  mkSerial "/dev/ttyC0" 0 MUX_STATE_OPENING gsm0710_buffer_init None None 0 0 false.
Definition empty_heap : Heap := mkHeap ∅ ∅ 1.

(** The options init gives the daemon on this device: -f 512 -n 8 -m basic. *)
Definition arale_options : Options := mkOptions false (-1) 0 0 12 6 false false 0 5 512.

(** A system that succeeds in everything and takes every byte written. *)
Definition accepting_os : Os unit := fun c w =>
  (match c with
   | SysWrite _ bs => mkRet (zlen bs) 0 [] None
   | _ => mkRet 0 0 [] None
   end, w).

Definition demo_channel : Channel := set_ch_negotiated_N1 4 (set_ch_id 1 zero_channel).
Definition demo_state : Mux unit :=
  mkMux initial_serial (<[1%nat := demo_channel]> initial_channels) arale_options initial_globals
    empty_heap 0 [] tt.

Lemma demo_basic_channel : basic_channel demo_state 1 4.
Proof. repeat split; try done. by exists demo_channel. Qed.

(** ** From the application's bytes to the peer's frames *)

Lemma chunked_payloads n buf frames :
  chunked n buf frames ->
  concat (map snd frames) = buf /\ (length frames <= length buf)%nat /\
  Forall (fun '(ty, p) => is_byte ty /\ GSM0710_FRAME_IS GSM0710_TYPE_UI ty = false /\ zlen p <= n) frames.
Proof.
  induction 1 as [|ty p buf frames Ht Hp _ (IH1 & IH2 & IH3)]; [done|]. simpl.
  rewrite IH1, length_app. split_and!; [done|unfold zlen in Hp; lia|].
  apply Forall_cons. split; [|done]. split_and!; [| |lia]; destruct Ht as [->| ->]; done.
Qed.

(** The frames of one channel as [read_frames] returns them. *)
Definition on_channel (ch : Z) (frames : list (Z * list Z)) : list (Z * Z * list Z) :=
  map (fun '(ty, p) => (ch, ty, p)) frames.

Lemma on_channel_bytes ch frames :
  concat (map sent_bytes (on_channel ch frames)) = frames_bytes ch frames.
Proof. unfold frames_bytes, on_channel. induction frames as [|[ty p] frames IH]; [done|]. simpl. by rewrite IH. Qed.

Lemma on_channel_frames ch frames :
  concat (map fdata (map sent_frame (on_channel ch frames))) = concat (map snd frames) /\
  Forall (fun f => channel f = ch) (map sent_frame (on_channel ch frames)).
Proof.
  unfold on_channel. induction frames as [|[ty p] frames [IH1 IH2]]; [done|]. simpl.
  rewrite IH1. split; [done|]. by constructor.
Qed.

(** All data is sent, in frames the peer's reader takes apart again. *)
Lemma channel_data_sent {W} `{!Os W} `{!AcceptingOs W} buf ch n (s : Mux W) n1 production :
  basic_channel s ch n -> 1 <= n <= 32767 -> ch < 64 ->
  (exists m, n1 ch = Some m /\ n <= m) ->
  exists s' sent, handle_channel_data buf ch s = Ok 0 s' /\ same_setup s s' /\
    wire (s_fd (m_serial s)) (m_trace s') = wire (s_fd (m_serial s)) (m_trace s) ++ sent /\
    forall b, wf_buffer b -> flag_found b = false -> contents b = sent ->
      exists frames sig b', read_frames n1 production (S (length buf)) b = (frames, GNull sig b' false) /\
        concat (map fdata frames) = buf /\
        Forall (fun f => channel f = ch) frames /\ contents b' = [].
Proof.
  intros B Hn Hc (m & Hm & Hnm). pose proof (zlen_nonneg buf).
  destruct (channel_data_loop_accept (S (Z.to_nat (zlen buf + GSM0710_WRITE_RETRIES))) buf ch n 0 0 s)
    as (s' & frames & E & SS & C & Hw); try done; try lia.
  { unfold GSM0710_WRITE_RETRIES. lia. }
  exists s', (frames_bytes ch frames). split_and!; [|done|done|].
  { unfold handle_channel_data, mthen. rewrite E. unfold mreturn. f_equal. lia. }
  intros b W0 F Cb. change (zdrop 0 buf) with buf in C.
  destruct (chunked_payloads n buf frames C) as (P1 & P2 & P3).
  destruct (on_channel_frames ch frames) as [Q1 Q2].
  destruct (read_frames_stream n1 production (on_channel ch frames) (S (length buf)) b)
    as (sig & b' & R & _ & C' & _); try done.
  - destruct B as (_ & _ & Hc0 & _). unfold sendable_all, on_channel. apply Forall_map.
    eapply Forall_impl; [exact P3|]. intros [ty p] (Ht & Hu & Hp).
    split; [lia|done|exists m; split; [done|lia]|lia|by left].
  - by rewrite on_channel_bytes.
  - unfold on_channel. rewrite length_map. lia.
  - exists (map sent_frame (on_channel ch frames)), sig, b'. split_and!; try done. congruence.
Qed.

(** ** Properties *)

(** [handle_channel_data] always terminates: whatever the serial device does
    (short writes, errors, a dead modem), the retry loop ends with a number of
    remaining bytes between 0 and the length of the data, and changes no channel,
    option, buffer or heap object. *)
Theorem channel_data_terminates {W} `{!Os W} buf channel n (s : Mux W) :
  basic_channel s channel n -> 0 <= n ->
  exists remaining s', handle_channel_data buf channel s = Ok remaining s' /\
    0 <= remaining <= zlen buf /\ same_setup s s'.
Proof.
  intros B Hn. pose proof (zlen_nonneg buf). unfold handle_channel_data.
  destruct (channel_data_loop_ok (S (Z.to_nat (zlen buf + GSM0710_WRITE_RETRIES))) buf channel n 0 0 s)
    as (w & s' & E & Hw & S); try done; try lia.
  { unfold GSM0710_WRITE_RETRIES. lia. }
  exists (zlen buf - w), s'. unfold mthen. rewrite E. split_and!; try done; lia.
Qed.

Lemma channel_data_terminates_witness :
  exists remaining s', @handle_channel_data unit accepting_os [65; 84; 13] 1 demo_state = Ok remaining s' /\
    0 <= remaining <= 3.
Proof.
  destruct (@channel_data_terminates unit accepting_os [65; 84; 13] 1 4 demo_state demo_basic_channel)
    as (r & s' & E & H & _); [lia|].
  exists r, s'. split; [exact E|exact H].
Defined.

(** C6: End to end.  What an application writes to a channel reaches the peer intact:
    when the device takes the bytes, [handle_channel_data] reports nothing left, and
    the peer's reader, run on what went over the wire, returns frames of that channel
    whose payloads, none longer than the negotiated size, concatenate to the data. *)
Theorem channel_data_end_to_end {W} `{!Os W} `{!AcceptingOs W} buf ch n (s : Mux W) n1 production :
  basic_channel s ch n -> 1 <= n <= 32767 -> ch < 64 ->
  (exists m, n1 ch = Some m /\ n <= m) ->
  exists s' sent, handle_channel_data buf ch s = Ok 0 s' /\ same_setup s s' /\
    wire (s_fd (m_serial s)) (m_trace s') = wire (s_fd (m_serial s)) (m_trace s) ++ sent /\
    forall b, wf_buffer b -> flag_found b = false -> contents b = sent ->
      exists frames sig b', read_frames n1 production (S (length buf)) b = (frames, GNull sig b' false) /\
        concat (map fdata frames) = buf /\
        Forall (fun f => channel f = ch) frames /\ contents b' = [].
Proof. apply channel_data_sent. Qed.

#[local] Instance accepting_os_accepts : @AcceptingOs unit accepting_os.
Proof. intros fd bs w. reflexivity. Qed.

Lemma channel_data_end_to_end_witness :
  exists s' sent, @handle_channel_data unit accepting_os [65; 84; 68; 49; 50; 13] 1 demo_state = Ok 0 s' /\
    wire 0 (m_trace s') = wire 0 (m_trace demo_state) ++ sent.
Proof.
  destruct (@channel_data_end_to_end unit accepting_os _ [65; 84; 68; 49; 50; 13] 1 4 demo_state
              (fun _ => Some 512) true demo_basic_channel) as (s' & sent & E & _ & Hw & _);
    [lia|lia|exists 512; split; [done|lia]|].
  exists s', sent. split; [exact E|exact Hw].
Defined.

(** In advanced mode the buffer for escaped frames is sized from the option [-f]
    while the payload of a frame is limited by the channel's own maximum (512 in
    [ch_cfg]): with a smaller [-f], a payload of flag characters longer than [-f] plus
    three overflows the heap buffer. *)
Theorem adv_buffer_overflow {W} `{!Os W} (s : Mux W) ch c x k :
  0 <= ch -> m_channellist s !! Z.to_nat ch = Some c ->
  o_cmux_mode (m_options s) = true -> g_stop_muxd (m_globals s) = false ->
  g_uih_pf_bit_received (m_globals s) = false ->
  s_adv_frame_buf (m_serial s) = Some ((o_cmux_N1 (m_options s) + 3) * 2 + 2) ->
  is_escaped x = true -> o_cmux_N1 (m_options s) + 3 < Z.of_nat k -> Z.of_nat k <= ch_negotiated_N1 c ->
  write_frame ch (replicate k x) GSM0710_TYPE_UIH s = Undef s.
Proof.
  intros Hc Hl Hm Hs Hp Ha Hx Hk Hn. unfold write_frame, mthen at 1, gets at 1. rewrite Hs.
  unfold mthen at 1. rewrite Hp, andb_false_r. unfold mreturn at 1. unfold mthen at 1.
  cbn [mwhen mreturn]. unfold mthen at 1, get_channel. rewrite (proj2 (Z.leb_le _ _) Hc), Hl.
  assert (zlen (replicate k x) = Z.of_nat k) as Lk by (unfold zlen; by rewrite length_replicate).
  rewrite Lk, (proj2 (Z.ltb_ge _ _) Hn). unfold mthen, gets. rewrite Hm.
  unfold write_frame_adv, mthen at 1, gets at 1. rewrite Ha, ztake_all by lia.
  pose proof (adv_frame_escaped_len ch GSM0710_TYPE_UIH (replicate k x)) as L.
  rewrite Lk in L. rewrite (proj2 (Z.leb_gt _ _)); [done|].
  enough (2 * Z.of_nat k + 5 <= zlen (adv_frame ch GSM0710_TYPE_UIH (replicate k x))) by lia.
  apply L. by apply Forall_replicate.
Qed.

Lemma adv_buffer_overflow_witness :
  let s := mkMux (set_s_adv_frame_buf (Some ((100 + 3) * 2 + 2)) initial_serial)
             (<[1%nat := set_ch_negotiated_N1 512 demo_channel]> initial_channels)
             (set_o_cmux_mode true (set_o_cmux_N1 100 arale_options)) initial_globals
             empty_heap 0 [] tt in
  @write_frame unit accepting_os 1 (replicate 200 0x7E) GSM0710_TYPE_UIH s = Undef s.
Proof.
  intros s.
  exact (@adv_buffer_overflow unit accepting_os s 1 (set_ch_negotiated_N1 512 demo_channel) 0x7E 200
           ltac:(lia) eq_refl eq_refl eq_refl eq_refl eq_refl eq_refl ltac:(simpl; lia) ltac:(simpl; lia)).
Defined.
