(* ===== verification/FrameList.v ===== *)
(** * The pending-frame list of a channel ([GSM0710_FrameList])

    The circular linked list of src/mtk/gsm0710muxd/src/gsm0710muxd_fc.c with its
    head used as a sentinel: [_fl_pushFrame] turns the old sentinel into the
    last node and returns a fresh one.  The operations work on an explicit
    heap and return [None] where the C code would touch [NULL] or a freed
    object.

    The abstract specification is a FIFO queue of frame addresses; the list
    representation is [is_queue]. *)
From S2P Require Import Prelude Frame MuxState.

Definition set_nodes (n : gmap Z FrameNode) (h : Heap) : Heap := mkHeap n (h_frames h) (h_next h).
Definition set_frames (f : gmap Z GSM0710_Frame) (h : Heap) : Heap := mkHeap (h_nodes h) f (h_next h).

(** [calloc] of a node, of a frame. *)
Definition alloc_node (n : FrameNode) (h : Heap) : Z * Heap :=
  (h_next h, mkHeap (<[h_next h := n]> (h_nodes h)) (h_frames h) (h_next h + 1)).
Definition alloc_frame (f : GSM0710_Frame) (h : Heap) : Z * Heap :=
  (h_next h, mkHeap (h_nodes h) (<[h_next h := f]> (h_frames h)) (h_next h + 1)).

(** [destroy_frame(frame)]: reads [frame->length], so the frame must be live. *)
Definition destroy_frame (frame : Z) (h : Heap) : option Heap :=
  _ ← h_frames h !! frame;
  Some (set_frames (delete frame (h_frames h)) h).

Definition fl_isEmpty (h : Heap) (list : Z) : option bool :=
  if list =? 0 then Some true
  else n ← h_nodes h !! list; Some (n_next n =? list).

Definition fl_pushFrame (h : Heap) (list frame : Z) : option (Z * Heap) :=
  n ← h_nodes h !! list;
  let '(head, h) := alloc_node (mkNode (n_frame n) (n_next n)) h in
  Some (head, set_nodes (<[list := mkNode frame head]> (h_nodes h)) h).

(** The frame address, 0 for [NULL]. *)
Definition fl_popFrame (h : Heap) (list : Z) : option (Z * Heap) :=
  e ← fl_isEmpty h list;
  if (e : bool) then Some (0, h)
  else
    l ← h_nodes h !! list;
    let node := n_next l in
    n ← h_nodes h !! node;
    let nodes := <[list := mkNode (n_frame l) (n_next n)]> (h_nodes h) in
    Some (n_frame n, set_nodes (delete node nodes) h).

(** The loop of [_fl_cleanNodes]; each round frees a node, so their number is
    enough fuel. *)
Fixpoint clean_loop (fuel : nat) (h : Heap) (list : Z) : option Heap :=
  e ← fl_isEmpty h list;
  if (e : bool) then Some h
  else match fuel with
  | O => None
  | S fuel =>
      '(frame, h) ← fl_popFrame h list;
      h ← destroy_frame frame h;
      clean_loop fuel h list
  end.

Definition fl_cleanNodes (h : Heap) (list : Z) : option Heap :=
  clean_loop (size (h_nodes h)) h list.

Definition fl_init (h : Heap) (list : Z) : option (Z * Heap) :=
  if list =? 0 then
    let '(head, h) := alloc_node (mkNode 0 0) h in
    Some (head, set_nodes (<[head := mkNode 0 head]> (h_nodes h)) h)
  else
    e ← fl_isEmpty h list;
    if negb e then h ← fl_cleanNodes h list; Some (list, h) else Some (list, h).

Definition fl_destroy (h : Heap) (list : Z) : option Heap :=
  if negb (list =? 0) then
    e ← fl_isEmpty h list;
    h ← (if negb e then fl_cleanNodes h list else Some h);
    _ ← h_nodes h !! list;
    Some (set_nodes (delete list (h_nodes h)) h)
  else Some h.

(** ** Representation *)

(** Live addresses are positive and below the next fresh one. *)
Definition heap_wf (h : Heap) : Prop :=
  0 < h_next h /\ forall a, is_Some (h_nodes h !! a) -> 0 < a < h_next h.

(** The cells (node address, frame address) from [start] up to [stop]. *)
Fixpoint segment (nodes : gmap Z FrameNode) (start stop : Z) (cells : list (Z * Z)) : Prop :=
  match cells with
  | [] => start = stop
  | (a, f) :: r => start = a /\ exists nx, nodes !! a = Some (mkNode f nx) /\ segment nodes nx stop r
  end.

Definition is_queue (h : Heap) (l : Z) (cells : list (Z * Z)) : Prop :=
  heap_wf h /\ NoDup (l :: cells.*1) /\
  exists f nx, h_nodes h !! l = Some (mkNode f nx) /\ segment (h_nodes h) nx l cells.

Lemma segment_ext nodes nodes' start stop cells :
  (forall a, a ∈ cells.*1 -> nodes' !! a = nodes !! a) ->
  segment nodes start stop cells -> segment nodes' start stop cells.
Proof.
  revert start. induction cells as [|[a f] r IH]; intros start H; simpl; [done|].
  intros [-> (nx & Hn & Hr)]. split; [done|]. exists nx. split.
  - rewrite H; [done|]. simpl. left.
  - apply IH; [|done]. intros b Hb. apply H. simpl. by right.
Qed.

Lemma segment_app nodes start mid stop c1 c2 :
  segment nodes start mid c1 -> segment nodes mid stop c2 ->
  segment nodes start stop (c1 ++ c2).
Proof.
  revert start. induction c1 as [|[a f] r IH]; intros start; simpl.
  - by intros ->.
  - intros [-> (nx & Hn & Hr)] H2. split; [done|]. exists nx. auto.
Qed.

Lemma segment_live nodes start stop cells a :
  segment nodes start stop cells -> a ∈ cells.*1 -> is_Some (nodes !! a).
Proof.
  revert start. induction cells as [|[b f] r IH]; intros start; simpl.
  - intros _ H. by apply not_elem_of_nil in H.
  - intros [-> (nx & Hn & Hr)] [->|H]%elem_of_cons; eauto.
Qed.

Section queue.
Context (h : Heap) (l : Z) (cells : list (Z * Z)) (Q : is_queue h l cells).

Lemma queue_pos : 0 < l.
Proof using Q. destruct Q as ((_ & H) & _ & f & nx & Hl & _). apply (H l). eauto. Qed.

Lemma isEmpty_spec : fl_isEmpty h l = Some (match cells with [] => true | _ => false end).
Proof using Q.
  pose proof queue_pos. destruct Q as (_ & N & f & nx & Hl & S). unfold fl_isEmpty.
  rewrite (proj2 (Z.eqb_neq l 0)) by lia. rewrite Hl. simpl. f_equal.
  destruct cells as [|[a g] r]; simpl in *.
  - subst nx. by rewrite Z.eqb_refl.
  - destruct S as [-> _].
    apply Z.eqb_neq. intros ->. apply NoDup_cons in N as [N _]. apply N. left.
Qed.

(** Pushing enqueues at the back, under a new list address. *)
Lemma pushFrame_spec frame :
  exists l' h', fl_pushFrame h l frame = Some (l', h') /\
    is_queue h' l' (cells ++ [(l, frame)]) /\ h_frames h' = h_frames h.
Proof using Q.
  destruct Q as ((Hp & Hw) & N & f & nx & Hl & S). unfold fl_pushFrame. rewrite Hl. simpl.
  assert (h_next h <> l) as Hne by (intros E; destruct (Hw l); [eauto|lia]).
  assert (h_nodes h !! h_next h = None) as Hfresh.
  { apply eq_None_not_Some. intros Hs. apply Hw in Hs. lia. }
  eexists _, _. split; [reflexivity|]. split; [|done].
  assert (forall a, a ∈ cells.*1 -> a <> h_next h /\ a <> l) as Hc.
  { intros a Ha. apply NoDup_cons in N as [N _]. split.
    - intros ->. destruct (segment_live _ _ _ _ _ S Ha) as [? Hs]. congruence.
    - by intros ->. }
  split_and!.
  - split; simpl; [lia|]. intros a Ha.
    destruct (decide (a = h_next h)) as [->|]; [lia|].
    assert (is_Some (h_nodes h !! a)) as Ha'.
    { destruct (decide (a = l)) as [->|]; [eauto|]. by rewrite !lookup_insert_ne in Ha by done. }
    apply Hw in Ha'. lia.
  - rewrite fmap_app. simpl. apply NoDup_cons in N as [N1 N2].
    apply NoDup_cons. split; [|apply NoDup_app; split_and!; [done| |apply NoDup_singleton]].
    + rewrite elem_of_app, list_elem_of_singleton. intros [Ha|Ha]; [|done].
      by destruct (Hc _ Ha).
    + intros a Ha ->%list_elem_of_singleton. done.
  - exists f, nx. simpl. split.
    { rewrite lookup_insert_ne by done. by rewrite lookup_insert_eq. }
    apply segment_app with l.
    + eapply segment_ext; [|exact S]. intros a Ha. destruct (Hc a Ha).
      by rewrite !lookup_insert_ne by done.
    + simpl. split; [done|]. exists (h_next h). by rewrite lookup_insert_eq.
Qed.

(** Popping dequeues at the front. *)
Lemma popFrame_spec :
  match cells with
  | [] => fl_popFrame h l = Some (0, h)
  | (a, f) :: r => exists h', fl_popFrame h l = Some (f, h') /\ is_queue h' l r /\
                              h_frames h' = h_frames h /\ h_nodes h' !! a = None /\
                              forall b, b <> l -> b <> a -> h_nodes h' !! b = h_nodes h !! b
  end.
Proof using Q.
  unfold fl_popFrame. rewrite isEmpty_spec. pose proof Q as Q'.
  destruct Q' as ((Hp & Hw) & N & f & nx & Hl & S).
  destruct cells as [|[a g] r]; [done|].
  simpl. rewrite Hl. simpl.
  simpl in S. destruct S as [-> (n2 & Ha & S)]. rewrite Ha. simpl.
  eexists. split; [reflexivity|].
  simpl in N. apply NoDup_cons in N as [N1 N2]. apply NoDup_cons in N2 as [N2 N3].
  assert (a <> l) as Hal by (intros ->; apply N1; left).
  split; [|split; [done|split; [apply lookup_delete_eq|]]]; cycle 1.
  { intros b Hbl Hba. simpl. by rewrite lookup_delete_ne, lookup_insert_ne by done. }
  split_and!.
  - split; simpl; [done|]. intros b Hb. apply Hw.
    destruct (decide (b = a)) as [->|]; [by rewrite lookup_delete_eq in Hb; destruct Hb|].
    rewrite lookup_delete_ne in Hb by done.
    destruct (decide (b = l)) as [->|]; [eauto|]. by rewrite lookup_insert_ne in Hb.
  - apply NoDup_cons. split; [|done]. intros H. apply N1. by right.
  - exists f, n2. simpl. rewrite lookup_delete_ne, lookup_insert_eq by done. split; [done|].
    eapply segment_ext; [|exact S]. intros b Hb.
    assert (b <> a) by (by intros ->). assert (b <> l) by (intros ->; apply N1; by right).
    by rewrite lookup_delete_ne, lookup_insert_ne by done.
Qed.

End queue.

(** [_fl_init(NULL)] makes an empty queue. *)
Lemma init_null_spec h :
  heap_wf h -> exists l h', fl_init h 0 = Some (l, h') /\ is_queue h' l [] /\
    h_frames h' = h_frames h.
Proof.
  intros [Hp Hw]. eexists _, _. split; [reflexivity|]. split; [|done]. split_and!; simpl.
  - split; simpl; [lia|]. intros a Ha. destruct (decide (a = h_next h)) as [->|]; [lia|].
    rewrite !lookup_insert_ne in Ha by done. apply Hw in Ha. lia.
  - apply NoDup_singleton.
  - exists 0, (h_next h). by rewrite lookup_insert_eq.
Qed.

(** ** Sequences of operations *)

Inductive QOp := QPush (frame : Z) | QPop.

(** The code, and the queue it implements; the results are what the pops
    return. *)
Fixpoint run_list (h : Heap) (l : Z) (ops : list QOp) : option (list Z * Heap * Z) :=
  match ops with
  | [] => Some ([], h, l)
  | QPush f :: ops => '(l, h) ← fl_pushFrame h l f; run_list h l ops
  | QPop :: ops =>
      '(f, h) ← fl_popFrame h l; '(out, h, l) ← run_list h l ops; Some (f :: out, h, l)
  end.

Fixpoint run_queue (q : list Z) (ops : list QOp) : list Z * list Z :=
  match ops with
  | [] => ([], q)
  | QPush f :: ops => run_queue (q ++ [f]) ops
  | QPop :: ops =>
      match q with
      | [] => let '(out, q) := run_queue [] ops in (0 :: out, q)
      | f :: q => let '(out, q) := run_queue q ops in (f :: out, q)
      end
  end.

Lemma run_list_refines ops h l cells :
  is_queue h l cells ->
  let '(out, q) := run_queue cells.*2 ops in
  exists h' l' cells', run_list h l ops = Some (out, h', l') /\
    is_queue h' l' cells' /\ cells'.*2 = q.
Proof.
  revert h l cells. induction ops as [|[f|] ops IH]; intros h l cells Q; simpl.
  - exists h, l, cells. done.
  - destruct (pushFrame_spec h l cells Q f) as (l1 & h1 & -> & Q1 & _). simpl.
    specialize (IH h1 l1 _ Q1). by rewrite fmap_app in IH.
  - pose proof (popFrame_spec h l cells Q) as P.
    destruct cells as [|[a f] r]; simpl.
    + rewrite P. specialize (IH h l [] Q). simpl in *.
      destruct (run_queue [] ops) as [out q]. destruct IH as (h' & l' & c' & -> & Q' & E).
      exists h', l', c'. done.
    + destruct P as (h1 & -> & Q1 & _). specialize (IH h1 l r Q1). simpl in *.
      change (list_fmap (Z * Z)%type Z snd r) with r.*2.
      destruct (run_queue r.*2 ops) as [out q]. destruct IH as (h' & l' & c' & -> & Q' & E).
      exists h', l', c'. done.
Qed.

(** ** Clearing and destroying a list *)

Lemma queue_size h l cells : is_queue h l cells -> (length cells <= size (h_nodes h))%nat.
Proof.
  intros (_ & N & f & nx & Hl & S). apply NoDup_cons in N as [_ N].
  rewrite <- (length_fmap fst cells), <- (size_list_to_set (C := gset Z)) by done.
  rewrite <- size_dom. apply subseteq_size. intros a Ha.
  apply elem_of_list_to_set in Ha. apply elem_of_dom. by eapply segment_live.
Qed.

(** What is left of the heap when the cells of a list and their frames are freed. *)
Record cleared (h h' : Heap) (l : Z) (cells : list (Z * Z)) : Prop := {
  cl_frames_gone : forall f, f ∈ cells.*2 -> h_frames h' !! f = None;
  cl_frames_kept : forall f, f ∉ cells.*2 -> h_frames h' !! f = h_frames h !! f;
  cl_nodes_gone : forall a, a ∈ cells.*1 -> h_nodes h' !! a = None;
  cl_nodes_kept : forall a, a <> l -> a ∉ cells.*1 -> h_nodes h' !! a = h_nodes h !! a
}.

Lemma cleared_nil h l : cleared h h l [].
Proof. split; try done; intros ? []%elem_of_nil. Qed.

Lemma clean_loop_spec fuel h l cells :
  is_queue h l cells -> NoDup cells.*2 ->
  (forall f, f ∈ cells.*2 -> is_Some (h_frames h !! f)) -> (length cells <= fuel)%nat ->
  exists h', clean_loop fuel h l = Some h' /\ is_queue h' l [] /\ cleared h h' l cells.
Proof.
  revert fuel h. induction cells as [|[a f] r IH]; intros fuel h Q N L Hf.
  - exists h. destruct fuel; simpl; rewrite (isEmpty_spec _ _ _ Q);
      (split_and!; [done|done|apply cleared_nil]).
  - destruct fuel as [|fuel]; simpl in Hf; [lia|]. cbn [clean_loop].
    rewrite (isEmpty_spec _ _ _ Q). cbn [mbind option_bind].
    destruct (popFrame_spec _ _ _ Q) as (h1 & -> & Q1 & F1 & G1 & K1). cbn [mbind option_bind].
    simpl in N, L. apply NoDup_cons in N as [N1 N].
    destruct (L f) as [x Hx]; [left|]. unfold destroy_frame. rewrite F1, Hx. cbn [mbind option_bind].
    set (h2 := set_frames _ h1). assert (is_queue h2 l r) as Q2 by exact Q1.
    assert ((a ∉ r.*1) /\ a <> l) as [Har Hal].
    { destruct Q as (_ & Nd & _). simpl in Nd. apply NoDup_cons in Nd as [Nl Nd].
      apply NoDup_cons in Nd as [Na _]. split; [done|]. intros ->. apply Nl. left. }
    destruct (IH fuel h2 Q2 N) as (h' & E & Q' & [C1 C2 C3 C4]); [|lia|].
    { intros g Hg. simpl. rewrite lookup_delete_ne by (intros ->; done). apply L. by right. }
    exists h'. split; [done|]. split; [done|]. simpl in C2, C4. split; simpl.
    + intros g [->|Hg]%elem_of_cons; [|by apply C1]. rewrite C2 by done. apply lookup_delete_eq.
    + intros g Hg. apply not_elem_of_cons in Hg as [Hg1 Hg2].
      rewrite C2 by done. by rewrite lookup_delete_ne, <- F1 by done.
    + intros b [->|Hb]%elem_of_cons; [|by apply C3]. by rewrite C4.
    + intros b Hb1 Hb2. apply not_elem_of_cons in Hb2 as [Hb2 Hb3]. rewrite C4 by done. by apply K1.
Qed.

(** ** Properties *)

(** The circular list with its moving sentinel is a FIFO queue: after any sequence
    of pushes and pops, starting from a list that holds some frames, the pops have
    returned the frames in the order they were pushed ([NULL] when there was none), no
    operation touched freed memory, and the list holds the frames not yet popped. *)
Theorem framelist_is_fifo ops h l cells :
  is_queue h l cells ->
  let '(out, q) := run_queue cells.*2 ops in
  exists h' l' cells', run_list h l ops = Some (out, h', l') /\
    is_queue h' l' cells' /\ cells'.*2 = q.
Proof. apply run_list_refines. Qed.

Definition fresh_list : Z * Heap :=
  match fl_init (mkHeap ∅ ∅ 1) 0 with Some p => p | None => (0, mkHeap ∅ ∅ 1) end.

Lemma fresh_list_queue : is_queue (snd fresh_list) (fst fresh_list) [].
Proof.
  destruct (init_null_spec (mkHeap ∅ ∅ 1)) as (l & h & E & Q & _).
  { split; [done|]. intros a [x Hx]. simpl in Hx. by rewrite lookup_empty in Hx. }
  unfold fresh_list. by rewrite E.
Qed.

Lemma framelist_is_fifo_witness :
  exists h' l', run_list (snd fresh_list) (fst fresh_list) [QPush 7; QPush 8; QPop; QPush 9; QPop; QPop; QPop]
                = Some ([7; 8; 9; 0], h', l').
Proof.
  destruct (framelist_is_fifo [QPush 7; QPush 8; QPop; QPush 9; QPop; QPop; QPop]
              (snd fresh_list) (fst fresh_list) [] fresh_list_queue) as (h' & l' & c' & E & _).
  exists h', l'. exact E.
Defined.

(** [_fl_destroy] frees exactly what belongs to the list: on a list whose frames
    are live and pairwise distinct it succeeds (no double free), every node, every
    frame and the sentinel are freed, and no other object of the heap is touched. *)
Lemma framelist_destroy_frees_all h l cells :
  is_queue h l cells -> NoDup cells.*2 ->
  (forall f, f ∈ cells.*2 -> is_Some (h_frames h !! f)) ->
  exists h', fl_destroy h l = Some h' /\ cleared h h' l cells /\ h_nodes h' !! l = None.
Proof.
  intros Q N L. unfold fl_destroy. pose proof (queue_pos _ _ _ Q).
  rewrite (proj2 (Z.eqb_neq l 0)) by lia. cbn [negb]. rewrite (isEmpty_spec _ _ _ Q).
  cbn [mbind option_bind].
  destruct (clean_loop_spec (size (h_nodes h)) h l cells Q N L (queue_size _ _ _ Q))
    as (h' & E & Q' & [C1 C2 C3 C4]).
  assert ((if negb (match cells with [] => true | _ => false end)
           then fl_cleanNodes h l else Some h) = Some h') as Ec.
  { destruct cells as [|c cells]; [|exact E]. simpl. f_equal.
    destruct (size (h_nodes h)); simpl in E; rewrite (isEmpty_spec _ _ _ Q) in E; simpl in E; congruence. }
  match goal with |- context [if negb ?b then _ else _] =>
    replace (if negb b then fl_cleanNodes h l else Some h) with (Some h') end.
  cbn [mbind option_bind]. destruct Q' as (_ & N' & f & nx & Hl & S). rewrite Hl. cbn [mbind option_bind].
  eexists. split; [reflexivity|]. split; [|apply lookup_delete_eq].
  split; simpl; try done.
  - intros a Ha. rewrite lookup_delete_ne; [by apply C3|]. intros ->.
    destruct Q as (_ & Nd & _). apply NoDup_cons in Nd as [Nd _]. done.
  - intros a Ha1 Ha2. rewrite lookup_delete_ne by done. by apply C4.
Qed.
