(* ===== verification/FlowControl.v ===== *)
(** * Flow control of a channel ([_fc_*])

    The functions of src/mtk/gsm0710muxd/src/gsm0710muxd_fc.c that keep the
    flow-control state of a channel and its list of frames not yet written to
    the pseudo terminal.  A [Channel *] argument is the index of the channel in
    [channellist]; a [GSM0710_Frame *] is an address of the heap. *)
From S2P Require Import Prelude Ring Frame MuxState FrameList.

(** [MSC] with the DLCI 0 and the V.24 signals DV, RTR, RTC. *)
Definition msc_channel_cmd : list Z :=
  [Z.lor GSM0710_CONTROL_MSC GSM0710_CR; Z.lor GSM0710_EA (Z.shiftl 2 1); 0x03; 0x8D].

(** The command both retry functions build: [msc_cmd[2] |= id << 2], and the FC
    bit when the peer must stop sending. *)
Definition msc_cmd (id : Z) (fc_off : bool) : list Z :=
  [byte_at msc_channel_cmd 0; byte_at msc_channel_cmd 1;
   u8 (Z.lor (byte_at msc_channel_cmd 2) (Z.shiftl id 2));
   if fc_off then Z.lor (byte_at msc_channel_cmd 3) 0x02 else byte_at msc_channel_cmd 3].

Section code.
Context {W : Type} `{!Os W} {cfg : Config}.

(** A heap operation; what it cannot do is undefined behaviour. *)
Definition with_heap {A} (f : Heap -> option (A * Heap)) : M W A := fun s =>
  match f (m_heap s) with
  | Some (a, h) => Ok a (set_m_heap h s)
  | None => Undef s
  end.

(** [*frame] *)
Definition load_frame (frame : Z) : M W GSM0710_Frame :=
  with_heap (fun h => f ← h_frames h !! frame; Some (f, h)).

Definition free_frame (frame : Z) : M W unit :=
  with_heap (fun h => h ← destroy_frame frame h; Some (tt, h)).

Definition _fc_chokePty (channel : Z) : M W unit :=
  do c <- get_channel channel;
  syscall (SysTcxonc (ch_fd c) false);;;
  mreturn tt.

Definition _fc_releasePty (channel : Z) : M W unit :=
  do c <- get_channel channel;
  syscall (SysTcxonc (ch_fd c) true);;;
  mreturn tt.

Definition _fc_initContext (channel : Z) : M W unit :=
  modify_channel channel (fun c =>
    set_ch_rx_fl_written 0 (set_ch_rx_fl_total 0 (set_ch_rx_fl 0
      (set_ch_rx_thread false (set_ch_rx_fc_off false (set_ch_tx_fc_off false c)))))).

Definition _fc_closeContext (channel : Z) : M W unit :=
  modify_channel channel (fun c =>
    set_ch_rx_fl_written 0 (set_ch_rx_fl_total 0
      (set_ch_rx_thread false (set_ch_rx_fc_off false (set_ch_tx_fc_off false c)))));;;
  do c <- get_channel channel;
  with_heap (fun h => h ← fl_destroy h (ch_rx_fl c); Some (tt, h)).

Definition _fc_cacheFrameData (channel frame : Z) : M W unit :=
  do c <- get_channel channel;
  do f <- load_frame frame;
  (if RX_FLOW_CTRL_HIGH_WATERMARK <? u32 (ch_rx_fl_total c + flength f) then
     modify_serial (fun x =>
       set_s_in_buf (set_dropped_count (u32 (dropped_count (s_in_buf x) + 1)) (s_in_buf x)) x)
   else
     do l <- with_heap (fun h => fl_pushFrame h (ch_rx_fl c) frame);
     modify_channel channel (fun c =>
       set_ch_rx_fl l (set_ch_rx_fl_total (u32 (ch_rx_fl_total c + flength f)) c)));;;
  free_frame frame.

Definition _fc_cacheRemainingFrameData (channel frame written : Z) : M W unit :=
  do c <- get_channel channel;
  do e <- with_heap (fun h => b ← fl_isEmpty h (ch_rx_fl c); Some (b, h));
  mwhen (negb e) (Gsm0710Muxd_Assert_fc GSM0710MUXD_FRAMELIST_INIT_ERR);;;
  do l <- with_heap (fun h => fl_init h (ch_rx_fl c));
  modify_channel channel (set_ch_rx_fl l);;;
  do f <- load_frame frame;
  modify_channel channel (set_ch_rx_fl_total (u32 (flength f - written)));;;
  do l <- with_heap (fun h => fl_pushFrame h l frame);
  modify_channel channel (fun c => set_ch_rx_fl_written (u32 written) (set_ch_rx_fl l c)).

End code.

(** ** The state of a channel's list *)

(** Channel [ch] is a slot of the array whose list holds the frames at [q], oldest
    first; an absent list is empty. *)
Definition pending {W} (s : Mux W) (ch : Z) (q : list Z) : Prop :=
  0 <= ch /\ exists c, m_channellist s !! Z.to_nat ch = Some c /\
    ((ch_rx_fl c = 0 /\ q = [] /\ heap_wf (m_heap s)) \/
     exists cells, is_queue (m_heap s) (ch_rx_fl c) cells /\ cells.*2 = q).

Section facts.
Context {W : Type} `{!Os W} {cfg : Config}.
Implicit Types s : Mux W.

Lemma get_channel_eq s ch c :
  0 <= ch -> m_channellist s !! Z.to_nat ch = Some c -> get_channel ch s = Ok c s.
Proof. intros H E. unfold get_channel. by rewrite (proj2 (Z.leb_le _ _) H), E. Qed.

Lemma modify_channel_eq s ch c f :
  0 <= ch -> m_channellist s !! Z.to_nat ch = Some c ->
  modify_channel ch f s = Ok tt (set_m_channellist (<[Z.to_nat ch := f c]> (m_channellist s)) s).
Proof. intros H E. unfold modify_channel. by rewrite (proj2 (Z.leb_le _ _) H), E. Qed.

Lemma insert_channel_eq s ch c c' :
  m_channellist s !! Z.to_nat ch = Some c ->
  (<[Z.to_nat ch := c']> (m_channellist s)) !! Z.to_nat ch = Some c'.
Proof. intros E. apply list_lookup_insert_eq. apply lookup_lt_Some in E. lia. Qed.

(** With a live frame and a list, [_fc_cacheFrameData] never fails; the frame goes to
    the back of the list unless the watermark would be passed, and whatever was done
    with it, it is freed afterwards. *)
Lemma cacheFrameData_cases s ch c cells frame f :
  0 <= ch -> m_channellist s !! Z.to_nat ch = Some c ->
  is_queue (m_heap s) (ch_rx_fl c) cells -> h_frames (m_heap s) !! frame = Some f ->
  let over := RX_FLOW_CTRL_HIGH_WATERMARK <? u32 (ch_rx_fl_total c + flength f) in
  exists s' c', _fc_cacheFrameData ch frame s = Ok tt s' /\
    h_frames (m_heap s') = delete frame (h_frames (m_heap s)) /\
    m_channellist s' !! Z.to_nat ch = Some c' /\
    (exists cells', is_queue (m_heap s') (ch_rx_fl c') cells' /\
       cells'.*2 = cells.*2 ++ if over then [] else [frame]) /\
    ch_rx_fl_total c' = (if over then ch_rx_fl_total c else u32 (ch_rx_fl_total c + flength f)) /\
    dropped_count (s_in_buf (m_serial s')) =
      (if over then u32 (dropped_count (s_in_buf (m_serial s)) + 1)
       else dropped_count (s_in_buf (m_serial s))).
Proof.
  intros Hc Hl Q Hf over. unfold _fc_cacheFrameData, mthen at 1. rewrite (get_channel_eq _ _ _ Hc Hl).
  unfold mthen at 1, load_frame, with_heap at 1. rewrite Hf. cbn [mbind option_bind].
  replace (set_m_heap (m_heap s) s) with s by (by destruct s).
  unfold mthen at 1. fold over. destruct over.
  - unfold modify_serial, modify, free_frame, with_heap, destroy_frame. simpl. rewrite Hf. simpl.
    eexists _, c. split; [reflexivity|]. cbn. split_and!; [done|done| |done|done].
    exists cells. by rewrite app_nil_r.
  - destruct (pushFrame_spec _ _ _ Q frame) as (l' & h' & E & Q' & Fr).
    unfold mthen, with_heap at 1. rewrite E.
    rewrite modify_channel_eq with (c := c) by done.
    unfold free_frame, with_heap, destroy_frame. simpl. rewrite Fr, Hf. simpl.
    eexists _, _. split; [reflexivity|].
    cbn [m_heap m_channellist m_serial set_m_heap set_m_channellist h_frames set_frames h_nodes].
    split_and!; [done|by eapply insert_channel_eq| |done|done].
    exists (cells ++ [(ch_rx_fl c, frame)]). split; [done|]. by rewrite fmap_app.
Qed.

(** The first frame of a stalled channel stays allocated and is the only one of
    the list. *)
Lemma cacheRemaining_spec s ch c frame f written :
  0 <= ch -> m_channellist s !! Z.to_nat ch = Some c ->
  (ch_rx_fl c = 0 /\ heap_wf (m_heap s)) \/ is_queue (m_heap s) (ch_rx_fl c) [] ->
  h_frames (m_heap s) !! frame = Some f ->
  exists s' c', _fc_cacheRemainingFrameData ch frame written s = Ok tt s' /\
    h_frames (m_heap s') !! frame = Some f /\ pending s' ch [frame] /\
    m_channellist s' !! Z.to_nat ch = Some c' /\
    ch_rx_fl_total c' = u32 (flength f - written) /\ ch_rx_fl_written c' = u32 written /\
    m_globals s' = m_globals s.
Proof.
  intros Hc Hl Hq Hf. unfold _fc_cacheRemainingFrameData, mthen at 1.
  rewrite (get_channel_eq _ _ _ Hc Hl).
  assert (fl_isEmpty (m_heap s) (ch_rx_fl c) = Some true /\
          exists l h, fl_init (m_heap s) (ch_rx_fl c) = Some (l, h) /\ is_queue h l [] /\
            h_frames h = h_frames (m_heap s)) as (He & l & h & Ei & Q & Fr).
  { destruct Hq as [[-> Hw]|Q].
    - split; [done|]. destruct (init_null_spec _ Hw) as (l & h & ? & ? & ?). eauto.
    - pose proof (isEmpty_spec _ _ _ Q) as He. split; [done|].
      exists (ch_rx_fl c), (m_heap s). unfold fl_init.
      pose proof (queue_pos _ _ _ Q). rewrite (proj2 (Z.eqb_neq _ 0)) by lia. by rewrite He. }
  unfold mthen at 1, with_heap at 1. rewrite He. cbn [mbind option_bind].
  replace (set_m_heap (m_heap s) s) with s by (by destruct s).
  unfold mthen at 1. cbn [negb mwhen mreturn]. unfold mthen at 1, with_heap at 1. rewrite Ei.
  unfold mthen at 1. rewrite modify_channel_eq with (c := c) by done. cbn [m_channellist set_m_heap].
  unfold mthen at 1, load_frame, with_heap at 1. cbn [m_heap set_m_channellist set_m_heap].
  rewrite Fr, Hf. cbn [mbind option_bind].
  unfold mthen at 1. erewrite modify_channel_eq; [|done|simpl; by eapply insert_channel_eq].
  destruct (pushFrame_spec _ _ _ Q frame) as (l' & h' & E & Q' & Fr').
  unfold mthen at 1, with_heap at 1. simpl. rewrite E.
  erewrite modify_channel_eq; [|done|]; cycle 1.
  { simpl. rewrite list_lookup_insert_eq; [done|]. rewrite length_insert.
    apply lookup_lt_Some in Hl. lia. }
  eexists _, _. split; [reflexivity|]. simpl. rewrite Fr', Fr. split; [done|].
  assert (forall (x y z : Channel), (<[Z.to_nat ch:=z]> (<[Z.to_nat ch:=y]>
     (<[Z.to_nat ch:=x]> (m_channellist s)))) !! Z.to_nat ch = Some z) as Hz.
  { intros x y z. apply list_lookup_insert_eq. rewrite !length_insert. apply lookup_lt_Some in Hl. lia. }
  split_and!; [|apply Hz|done..].
  split; [done|]. eexists. split; [apply Hz|]. right. eexists. split; [exact Q'|done].
Qed.

(** [_fc_closeContext] on a channel whose list is empty frees the sentinel and keeps
    its address in the channel. *)
Lemma closeContext_empty s ch c :
  0 <= ch -> m_channellist s !! Z.to_nat ch = Some c -> is_queue (m_heap s) (ch_rx_fl c) [] ->
  exists s' c', _fc_closeContext ch s = Ok tt s' /\ m_channellist s' !! Z.to_nat ch = Some c' /\
    ch_rx_fl c' = ch_rx_fl c /\ h_nodes (m_heap s') !! ch_rx_fl c = None.
Proof.
  intros Hc Hl Q. unfold _fc_closeContext, mthen at 1. rewrite modify_channel_eq with (c := c) by done.
  unfold mthen at 1. erewrite get_channel_eq; [|done|simpl; by eapply insert_channel_eq].
  unfold with_heap. simpl. unfold fl_destroy. pose proof (queue_pos _ _ _ Q).
  rewrite (proj2 (Z.eqb_neq _ 0)) by lia. simpl. rewrite (isEmpty_spec _ _ _ Q). simpl.
  destruct Q as (_ & _ & f & nx & Hn & _). rewrite Hn. simpl.
  eexists _, _. split; [reflexivity|]. simpl. split; [by eapply insert_channel_eq|].
  split; [done|]. apply lookup_delete_eq.
Qed.

Lemma closeContext_freed s ch c :
  0 <= ch -> m_channellist s !! Z.to_nat ch = Some c -> ch_rx_fl c <> 0 ->
  h_nodes (m_heap s) !! ch_rx_fl c = None ->
  exists s', _fc_closeContext ch s = Undef s'.
Proof.
  intros Hc Hl Hz Hn. unfold _fc_closeContext, mthen at 1. rewrite modify_channel_eq with (c := c) by done.
  unfold mthen at 1. erewrite get_channel_eq; [|done|simpl; by eapply insert_channel_eq].
  unfold with_heap. simpl. unfold fl_destroy, fl_isEmpty.
  rewrite (proj2 (Z.eqb_neq _ 0)) by done. simpl. rewrite Hn. simpl. eauto.
Qed.

End facts.

(** ** Properties *)

(** The cache of a stalled channel never exceeds the high watermark: a frame that
    would take the pending bytes above 4096 is dropped and counted, any other goes to
    the back of the list and is accounted for; the order of the pending frames is
    kept. *)
Theorem cache_respects_watermark {W} (s : Mux W) ch c cells frame f :
  0 <= ch -> m_channellist s !! Z.to_nat ch = Some c ->
  is_queue (m_heap s) (ch_rx_fl c) cells -> h_frames (m_heap s) !! frame = Some f ->
  0 <= ch_rx_fl_total c <= RX_FLOW_CTRL_HIGH_WATERMARK -> 0 <= flength f <= 65535 ->
  let over := RX_FLOW_CTRL_HIGH_WATERMARK <? ch_rx_fl_total c + flength f in
  exists s' c', _fc_cacheFrameData ch frame s = Ok tt s' /\
    m_channellist s' !! Z.to_nat ch = Some c' /\
    0 <= ch_rx_fl_total c' <= RX_FLOW_CTRL_HIGH_WATERMARK /\
    ch_rx_fl_total c' = (if over then ch_rx_fl_total c else ch_rx_fl_total c + flength f) /\
    (exists cells', is_queue (m_heap s') (ch_rx_fl c') cells' /\
       cells'.*2 = cells.*2 ++ if over then [] else [frame]) /\
    dropped_count (s_in_buf (m_serial s')) =
      (if over then u32 (dropped_count (s_in_buf (m_serial s)) + 1)
       else dropped_count (s_in_buf (m_serial s))).
Proof.
  intros Hc Hl Q Hf Ht Hlen over.
  destruct (cacheFrameData_cases s ch c cells frame f Hc Hl Q Hf) as (s' & c' & E & _ & Hl' & Q' & T & D).
  unfold RX_FLOW_CTRL_HIGH_WATERMARK in *. rewrite u32_id in Q', T, D by lia. fold over in Q', T, D.
  exists s', c'. split_and!; try done.
  - destruct over; lia.
  - rewrite T. subst over. destruct (Z.ltb_spec 4096 (ch_rx_fl_total c + flength f)); lia.
Qed.

(** A channel with an empty list, and one frame of two bytes. *)
Definition stalled_heap : Heap :=
  mkHeap (h_nodes (snd fresh_list)) {[ 2 := mkFrame 1 GSM0710_TYPE_UIH 2 [65; 66] ]} 3.
Definition stalled_state : Mux unit :=
  mkMux (mkSerial "/dev/ttyC0" 3 MUX_STATE_MUXING gsm0710_buffer_init None None 0 0 false)
    (replicate 32 (mkChannel 1 5 None None None true false false false 512 0 false true false 1 0 0))
    (mkOptions false (-1) 0 0 12 6 false false 0 5 512)
    (mkGlobals 0 false false false true false false 13 1 false false false)
    stalled_heap 0 [] tt.

Lemma stalled_queue : is_queue stalled_heap 1 [].
Proof.
  destruct fresh_list_queue as ([H1 H2] & N & f & nx & Hl & S). split_and!; [|done|].
  - split; [done|]. intros a Ha. specialize (H2 a Ha). change (h_next (snd fresh_list)) with 2 in H2.
    simpl. lia.
  - exists f, nx. done.
Qed.

Lemma cache_respects_watermark_witness :
  exists s' c', @_fc_cacheFrameData unit 1 2 stalled_state = Ok tt s' /\
    m_channellist s' !! 1%nat = Some c' /\ ch_rx_fl_total c' = 2.
Proof.
  destruct (cache_respects_watermark stalled_state 1
              (mkChannel 1 5 None None None true false false false 512 0 false true false 1 0 0)
              [] 2 (mkFrame 1 GSM0710_TYPE_UIH 2 [65; 66]))
    as (s' & c' & E & Hl & _ & T & _);
    [lia|reflexivity|exact stalled_queue|reflexivity|vm_compute; split; discriminate
    |vm_compute; split; discriminate|].
  exists s', c'. split; [exact E|]. split; [exact Hl|exact T].
Defined.

(** The frame on which a pseudo terminal stalls is not lost: it stays allocated,
    becomes the only pending frame, and the bytes already written and still to be
    written are recorded, whether or not the channel had a list before. *)
Theorem stalled_frame_is_kept {W} {cfg : Config} (s : Mux W) ch c frame f written :
  0 <= ch -> m_channellist s !! Z.to_nat ch = Some c ->
  (ch_rx_fl c = 0 /\ heap_wf (m_heap s)) \/ is_queue (m_heap s) (ch_rx_fl c) [] ->
  h_frames (m_heap s) !! frame = Some f -> 0 <= written <= flength f -> flength f <= 65535 ->
  exists s' c', _fc_cacheRemainingFrameData ch frame written s = Ok tt s' /\
    h_frames (m_heap s') !! frame = Some f /\ pending s' ch [frame] /\
    m_channellist s' !! Z.to_nat ch = Some c' /\
    ch_rx_fl_total c' = flength f - written /\ ch_rx_fl_written c' = written /\
    m_globals s' = m_globals s.
Proof.
  intros Hc Hl Hq Hf Hw Hm.
  destruct (cacheRemaining_spec s ch c frame f written Hc Hl Hq Hf)
    as (s' & c' & E & F & P & L & T & Wr & G).
  rewrite u32_id in T, Wr by lia. by exists s', c'.
Qed.

Lemma stalled_frame_is_kept_witness :
  exists s' c', @_fc_cacheRemainingFrameData unit arale_config 1 2 1 stalled_state = Ok tt s' /\
    m_channellist s' !! 1%nat = Some c' /\ ch_rx_fl_total c' = 1.
Proof.
  destruct (@stalled_frame_is_kept unit arale_config stalled_state 1
              (mkChannel 1 5 None None None true false false false 512 0 false true false 1 0 0)
              2 (mkFrame 1 GSM0710_TYPE_UIH 2 [65; 66]) 1)
    as (s' & c' & E & _ & _ & L & T & _);
    [lia|reflexivity|right; exact stalled_queue|reflexivity|vm_compute; split; discriminate
    |vm_compute; discriminate|].
  exists s', c'. split; [exact E|]. split; [exact L|exact T].
Defined.

(** [_fc_closeContext] frees the list but leaves its address in the channel: closing
    the context of a channel a second time without initialising it in between (as
    [shutdown_devices] followed by [open_serial_device] does) is a use of freed
    memory. *)
Theorem close_context_twice {W} (s : Mux W) ch c :
  0 <= ch -> m_channellist s !! Z.to_nat ch = Some c -> is_queue (m_heap s) (ch_rx_fl c) [] ->
  exists s1 s2, _fc_closeContext ch s = Ok tt s1 /\ _fc_closeContext ch s1 = Undef s2.
Proof.
  intros Hc Hl Q. destruct (closeContext_empty s ch c Hc Hl Q) as (s1 & c1 & E & L1 & F1 & N1).
  pose proof (queue_pos _ _ _ Q).
  destruct (closeContext_freed s1 ch c1 Hc L1) as (s2 & E2); [lia|by rewrite F1|].
  by exists s1, s2.
Qed.

Lemma close_context_twice_witness :
  exists s1 s2, @_fc_closeContext unit 1 stalled_state = Ok tt s1 /\ _fc_closeContext 1 s1 = Undef s2.
Proof.
  exact (close_context_twice stalled_state 1
           (mkChannel 1 5 None None None true false false false 512 0 false true false 1 0 0)
           ltac:(lia) eq_refl stalled_queue).
Defined.
