(* ===== verification/Channel.v ===== *)
(** * Logical channels and their pseudo terminals

    Opening, resetting and allocating the entries of [channellist]:
    [create_thread], [logical_channel_close], [logical_channel_init],
    [setup_pty_interface], [logical_channel_establish] and [c_alloc_channel] of
    src/mtk/gsm0710muxd/src/gsm0710muxd.c. *)
From S2P Require Import Prelude Ring Frame MuxState Logic WriteFrame FrameList FlowControl.

Section code.
Context {W : Type} `{!Os W} {cfg : Config}.

(** [create_thread]: 0, or 1 after a failed assertion. *)
Definition create_thread (t : ThreadFn) : M W Z :=
  do r <- syscall (SysThreadCreate t);
  if negb (ret r =? 0) then Gsm0710Muxd_Assert 4;;; mreturn 1
  else mreturn 0.

Definition logical_channel_close (channel : Z) : M W Z :=
  do c <- get_channel channel;
  mwhen (0 <=? ch_fd c)
    (match ch_ptslink c with
     | Some link => syscall (SysUnlink link);;; mreturn tt
     | None => mreturn tt
     end;;;
     syscall (SysClose (ch_fd c));;;
     modify_channel channel (set_ch_fd (-1)));;;
  modify_channel channel (fun c =>
    set_ch_negotiated_N1 0 (set_ch_disc_ua_pending false (set_ch_sabm_ua_pending false
      (set_ch_v24_signals 0 (set_ch_opened false (set_ch_ptsname None c))))));;;
  _fc_closeContext channel;;;
  mreturn 0.

(** The entry of [ch_cfg] for a DLCI, among the first [MUXD_CH_NUM_ALL]. *)
Definition find_cfg (id : Z) : option Channel_Config :=
  List.find (fun e => id =? pn_dlci e) (ztake MUXD_CH_NUM_ALL ch_cfg).

Definition logical_channel_init (channel id : Z) : M W Z :=
  logical_channel_close channel;;;
  do n1 <- gets (fun s => o_cmux_N1 (m_options s));
  modify_channel channel (fun c =>
    let c := set_ch_reopen false
               (set_ch_devicename (if negb (id =? 0) then Some "/dev/ptmx"%string else None)
                  (set_ch_id id c)) in
    match find_cfg id with
    | Some e => set_ch_negotiated_N1 (pn_n1 e) (set_ch_ptslink (s_path e) c)
    | None => set_ch_negotiated_N1 n1 (set_ch_ptslink None c)
    end);;;
  _fc_initContext channel;;;
  mreturn 0.

(** The part of [setup_pty_interface] that publishes the slave side. *)
Definition publish_pts (channel : Z) (k : M W Z) : M W Z :=
  do c <- get_channel channel;
  match ch_ptslink c, ch_ptsname c with
  | Some link, Some pts =>
      syscall (SysChown pts);;;
      syscall (SysUnlink link);;;
      syscheck (SysChmod pts) (fun _ =>
      syscheck (SysSymlink pts link) (fun _ => k))
  | Some _, None => undefined
  | None, _ => k
  end.

Definition setup_pty_interface (channel : Z) : M W Z :=
  do c <- get_channel channel;
  match ch_devicename c with
  | None => undefined
  | Some devicename =>
      do r <- syscall (SysOpen devicename);
      let fd := ret r in
      modify_channel channel (set_ch_fd fd);;;
      if fd <? 0 then mreturn (-1)
      else
        do p <- syscall (SysPtsname fd);
        match rstr p with
        | None => mreturn (-1)
        | Some pts =>
            modify_channel channel (set_ch_ptsname (Some pts));;;
            syscall (SysPtyConfig fd "tcgetattr");;;
            syscheck (SysPtyConfig fd "tcflush") (fun _ =>
            syscheck (SysPtyConfig fd "tcsetattr") (fun _ =>
            let start :=
              do t <- create_thread (T_poll_thread fd channel);
              if negb (t =? 0) then mreturn GSM0710MUXD_CREATE_THREAD_ERR
              else mreturn GSM0710MUXD_SUCCESS in
            if String.eqb devicename "/dev/ptmx" then
              syscheck (SysPtyConfig fd "grantpt") (fun _ =>
              syscheck (SysPtyConfig fd "unlockpt") (fun _ =>
              publish_pts channel start))
            else start))
        end
  end.

Definition logical_channel_establish (channel : Z) : M W Z :=
  do r <- setup_pty_interface channel;
  (if negb (r =? 0) then Gsm0710Muxd_Assert GSM0710MUXD_SETUP_PTY_ERR
   else
     modify_channel channel (fun c =>
       set_ch_sabm_ua_pending true
         (set_ch_v24_signals (Z.lor (Z.lor (Z.lor GSM0710_SIGNAL_DV GSM0710_SIGNAL_RTR)
                                GSM0710_SIGNAL_RTC) GSM0710_EA) c));;;
     do c <- get_channel channel;
     write_frame (ch_id c) [] (Z.lor GSM0710_TYPE_SABM GSM0710_PF);;;
     mreturn tt);;;
  mreturn GSM0710MUXD_SUCCESS.

(** The first of the slots [slots] whose descriptor is closed. *)
Fixpoint first_closed (slots : list Z) : M W (option Z) :=
  match slots with
  | [] => mreturn None
  | i :: r =>
      do c <- get_channel i;
      if ch_fd c <? 0 then mreturn (Some i) else first_closed r
  end.

(** The DLCIs of [ch_cfg[1]] up to [ch_cfg[MUXD_CH_NUM_ALL - 1]], in order. *)
Definition cfg_slots : list Z := map pn_dlci (zdrop 1 (ztake MUXD_CH_NUM_ALL ch_cfg)).

(** The second loop establishes [channellist[id]], [id] being the last DLCI the
    first loop looked at. *)
Definition c_alloc_channel : M W Z :=
  do st <- gets (fun s => s_state (m_serial s));
  if bool_decide (st = MUX_STATE_MUXING) then
    do f <- first_closed cfg_slots;
    match f with
    | Some id => logical_channel_establish id
    | None =>
        do f <- first_closed (seqZ 1 (GSM0710_MAX_CHANNELS - 1));
        match f with
        | Some _ => logical_channel_establish (List.last cfg_slots 0)
        | None => mreturn GSM0710MUXD_ALLOC_CHANNEL_ERR
        end
    end
  else mreturn GSM0710MUXD_ALLOC_CHANNEL_ERR.

End code.

(** ** The channel table *)

Lemma ch_cfg_table {cfg : Config} :
  zlen ch_cfg = MUXD_CH_NUM_ALL /\ NoDup (map pn_dlci ch_cfg) /\
  Forall (fun e => 0 <= pn_dlci e < GSM0710_MAX_CHANNELS /\ pn_n1 e = 512) ch_cfg.
Proof.
  unfold MUXD_CH_NUM_ALL, ch_cfg.
  destruct (Z.leb_spec 4 sim_count), (Z.leb_spec 3 sim_count), (Z.leb_spec 2 sim_count);
    try lia; destruct vt_support;
    (split; [reflexivity|]; split; apply (bool_decide_unpack _); vm_compute; exact I).
Qed.

(** The state of a slot after [logical_channel_init]. *)
Record fresh_channel {cfg : Config} (n1 id : Z) (c : Channel) : Prop := {
  fr_id : ch_id c = id;
  fr_fd : ch_fd c < 0;
  fr_device : ch_devicename c = if negb (id =? 0) then Some "/dev/ptmx"%string else None;
  fr_ptsname : ch_ptsname c = None;
  fr_cfg : match find_cfg id with
           | Some e => ch_ptslink c = s_path e /\ ch_negotiated_N1 c = pn_n1 e
           | None => ch_ptslink c = None /\ ch_negotiated_N1 c = n1
           end;
  fr_flags : ch_opened c = false /\ ch_reopen c = false /\ ch_sabm_ua_pending c = false /\
             ch_disc_ua_pending c = false /\ ch_tx_fc_off c = false /\ ch_rx_fc_off c = false /\
             ch_rx_thread c = false;
  fr_fl : ch_rx_fl c = 0 /\ ch_rx_fl_total c = 0 /\ ch_rx_fl_written c = 0 /\ ch_v24_signals c = 0
}.

Section facts.
Context {W : Type} `{!Os W} {cfg : Config}.
Implicit Types s : Mux W.

(** A handler that only concerns slot [i]: it may change that slot, the heap, [errno],
    the trace and the world. *)
Definition only_slot (i : Z) (s s' : Mux W) : Prop :=
  m_serial s' = m_serial s /\ m_options s' = m_options s /\ m_globals s' = m_globals s /\
  exists c', m_channellist s' = <[Z.to_nat i := c']> (m_channellist s).

Lemma insert_twice (l : list Channel) n (x y : Channel) : <[n := y]> (<[n := x]> l) = <[n := y]> l.
Proof. apply list_insert_insert_eq. Qed.

(** What [logical_channel_close] leaves in a slot. *)
Definition closed_channel (c : Channel) : Channel :=
  set_ch_rx_fl_written 0 (set_ch_rx_fl_total 0 (set_ch_rx_thread false
    (set_ch_rx_fc_off false (set_ch_tx_fc_off false (set_ch_negotiated_N1 0
      (set_ch_disc_ua_pending false (set_ch_sabm_ua_pending false (set_ch_v24_signals 0
        (set_ch_opened false (set_ch_ptsname None
          (if 0 <=? ch_fd c then set_ch_fd (-1) c else c))))))))))).

(** The outcome of a handler on slot [i]: the new slot and heap; serial device,
    options and globals are as before. *)
Definition slot_outcome (i : Z) (s s' : Mux W) (c' : Channel) (h' : Heap) : Prop :=
  m_serial s' = m_serial s /\ m_options s' = m_options s /\ m_globals s' = m_globals s /\
  m_heap s' = h' /\ m_channellist s' = <[Z.to_nat i := c']> (m_channellist s).

Lemma wp_with_heap {A} E (f : Heap -> option (A * Heap)) a h (Q : A -> Mux W -> Prop) s :
  f (m_heap s) = Some (a, h) -> Q a (set_m_heap h s) -> wp E (with_heap f) Q s.
Proof. intros Hf HQ. unfold wp, with_heap. by rewrite Hf. Qed.

Lemma lookup_insert_slot (l : list Channel) i c c' :
  l !! Z.to_nat i = Some c -> <[Z.to_nat i := c']> l !! Z.to_nat i = Some c'.
Proof. intros H. apply list_lookup_insert_eq. by apply lookup_lt_Some in H. Qed.

Lemma wp_closeContext E i c h' (Q : unit -> Mux W -> Prop) s :
  0 <= i -> m_channellist s !! Z.to_nat i = Some c -> fl_destroy (m_heap s) (ch_rx_fl c) = Some h' ->
  Q tt (set_m_heap h' (set_m_channellist (<[Z.to_nat i :=
     set_ch_rx_fl_written 0 (set_ch_rx_fl_total 0
      (set_ch_rx_thread false (set_ch_rx_fc_off false (set_ch_tx_fc_off false c))))]>
     (m_channellist s)) s)) ->
  wp E (_fc_closeContext i) Q s.
Proof.
  intros Hi Hl Hd HQ. unfold _fc_closeContext. wp_step. eapply wp_modify_channel; [done..|].
  wp_step. eapply wp_get_channel; [done|simpl; by eapply lookup_insert_slot|].
  eapply wp_with_heap; [simpl; by rewrite Hd|]. done.
Qed.

Lemma channel_close_spec i c h' s :
  0 <= i -> m_channellist s !! Z.to_nat i = Some c -> fl_destroy (m_heap s) (ch_rx_fl c) = Some h' ->
  wp never (logical_channel_close i)
    (fun r s' => r = 0 /\ slot_outcome i s s' (closed_channel c) h') s.
Proof.
  intros Hi Hl Hd. unfold logical_channel_close. wp_step. eapply wp_get_channel; [done..|].
  set (c1 := if 0 <=? ch_fd c then set_ch_fd (-1) c else c).
  wp_step. apply wp_mono with (Q := fun _ s1 => m_serial s1 = m_serial s /\ m_options s1 = m_options s /\
    m_globals s1 = m_globals s /\ m_heap s1 = m_heap s /\
    m_channellist s1 = <[Z.to_nat i := c1]> (m_channellist s)).
  { subst c1. wp_step; [|rewrite H; split_and!; try done; by rewrite list_insert_id].
    rewrite H. wp_step. apply wp_mono with (Q := fun _ s1 => m_serial s1 = m_serial s /\
      m_options s1 = m_options s /\ m_globals s1 = m_globals s /\ m_heap s1 = m_heap s /\
      m_channellist s1 = m_channellist s).
    { destruct (ch_ptslink c); wp_steps; by frame_simpl. }
    intros _ s1 (S1 & S2 & S3 & S4 & S5). wp_steps.
    eapply wp_modify_channel; [done|frame_simpl; by rewrite S5|]. frame_simpl. by rewrite S5. }
  intros _ s1 (S1 & S2 & S3 & S4 & S5).
  assert (ch_rx_fl c1 = ch_rx_fl c) as F1 by (subst c1; by destruct (0 <=? ch_fd c)).
  wp_step. eapply wp_modify_channel; [done|rewrite S5; by eapply lookup_insert_slot|].
  wp_step. eapply wp_closeContext; [done| | |].
  { frame_simpl. rewrite S5, list_insert_insert_eq. by eapply lookup_insert_slot. }
  { frame_simpl. rewrite S4. simpl. rewrite F1. exact Hd. }
  wp_step. split; [done|]. unfold slot_outcome. frame_simpl.
  rewrite S5, !list_insert_insert_eq. split_and!; done.
Qed.

Lemma channel_init_spec i c h' s :
  0 <= i -> m_channellist s !! Z.to_nat i = Some c -> fl_destroy (m_heap s) (ch_rx_fl c) = Some h' ->
  wp never (logical_channel_init i i)
    (fun r s' => r = 0 /\ exists c', slot_outcome i s s' c' h' /\
       fresh_channel (o_cmux_N1 (m_options s)) i c') s.
Proof.
  intros Hi Hl Hd. unfold logical_channel_init. wp_step.
  eapply wp_mono; [by apply channel_close_spec|]. intros r s1 [-> (S1 & S2 & S3 & S4 & S5)].
  wp_steps. eapply wp_modify_channel; [done|rewrite S5; by eapply lookup_insert_slot|].
  wp_step. unfold _fc_initContext. eapply wp_modify_channel; [done| |].
  { frame_simpl. rewrite S5, list_insert_insert_eq. by eapply lookup_insert_slot. }
  wp_step. split; [done|]. eexists. split.
  - unfold slot_outcome. frame_simpl. rewrite S5, !list_insert_insert_eq. split_and!; done.
  - rewrite S2. unfold closed_channel.
    destruct (Z.leb_spec 0 (ch_fd c)); (split; simpl; destruct (find_cfg i); simpl; try done; try lia).
Qed.

(** ** Opening a channel *)

(** A system in which opening and publishing pseudo terminals, creating threads and
    writing succeed. *)
Class WorkingOs `{!Os W} : Prop := {
  wo_open : forall p w, 0 <= ret (fst (os_call (SysOpen p) w));
  wo_ptsname : forall fd w, exists p, rstr (fst (os_call (SysPtsname fd) w)) = Some p;
  wo_config : forall fd x w, 0 <= ret (fst (os_call (SysPtyConfig fd x) w));
  wo_chmod : forall p w, 0 <= ret (fst (os_call (SysChmod p) w));
  wo_symlink : forall p q w, 0 <= ret (fst (os_call (SysSymlink p q) w));
  wo_thread : forall t w, ret (fst (os_call (SysThreadCreate t) w)) = 0;
  wo_write : forall fd bs w, ret (fst (os_call (SysWrite fd bs) w)) = zlen bs
}.

#[export] Instance working_accepts `{!WorkingOs} : AcceptingOs W.
Proof. intros fd bs w. apply wo_write. Qed.

(** Nothing is written to the modem. *)
Definition quiet (s s' : Mux W) : Prop := forall fd, wire fd (m_trace s') = wire fd (m_trace s).

Lemma quiet_call c s : (forall fd bs, c <> SysWrite fd bs) -> quiet s (after_call c s).
Proof.
  intros H fd. frame_simpl. rewrite wire_app. destruct c; simpl; rewrite ?app_nil_r; try done.
  by destruct (H fd0 bs).
Qed.

#[local] Instance quiet_preorder : PreOrder quiet.
Proof. split; [by intros ? ?|]. intros ? ? ? H1 H2 fd. by rewrite H2, H1. Qed.

(** The outcome of [setup_pty_interface] on slot [i]. *)
Definition pty_ready (i : Z) (s s' : Mux W) : Prop :=
  exists c c', m_channellist s !! Z.to_nat i = Some c /\ slot_outcome i s s' c' (m_heap s) /\
    quiet s s' /\ 0 <= ch_fd c' /\
    exists fd pts, c' = set_ch_ptsname (Some pts) (set_ch_fd fd c).

Lemma setup_pty_working `{!WorkingOs} i c s :
  0 <= i -> m_channellist s !! Z.to_nat i = Some c -> ch_devicename c = Some "/dev/ptmx"%string ->
  wp never (setup_pty_interface i) (fun r s' => r = GSM0710MUXD_SUCCESS /\ pty_ready i s s') s.
Proof.
  intros Hi Hl Hdev. unfold setup_pty_interface. wp_step. eapply wp_get_channel; [done..|].
  rewrite Hdev. wp_steps. set (r := fst _). assert (0 <= ret r) as Hr by apply wo_open.
  eapply wp_modify_channel; [done|by frame_simpl|]. rewrite (proj2 (Z.ltb_ge _ _) Hr). wp_steps.
  match goal with |- context [rstr ?x] => assert (exists p, rstr x = Some p) as [pts ->] by apply wo_ptsname end.
  wp_steps. eapply wp_modify_channel; [done|frame_simpl; by eapply lookup_insert_slot|].
  set (c1 := set_ch_ptsname (Some pts) (set_ch_fd (ret r) c)).
  set (rel := fun s1 : Mux W => m_serial s1 = m_serial s /\ m_options s1 = m_options s /\
    m_globals s1 = m_globals s /\ m_heap s1 = m_heap s /\
    m_channellist s1 = <[Z.to_nat i := c1]> (m_channellist s) /\ quiet s s1).
  assert (forall x s1, (forall fd bs, x <> SysWrite fd bs) -> rel s1 -> rel (after_call x s1)) as Hcall.
  { intros x s1 Hx (S1 & S2 & S3 & S4 & S5 & S6). unfold rel. frame_simpl. split_and!; try done.
    transitivity s1; [done|]. by apply quiet_call. }
  assert (forall s1, rel s1 ->
    wp never (do t <- create_thread (T_poll_thread (ret r) i);
      if negb (t =? 0) then mreturn GSM0710MUXD_CREATE_THREAD_ERR else mreturn GSM0710MUXD_SUCCESS)
      (fun r s' => r = GSM0710MUXD_SUCCESS /\ pty_ready i s s') s1) as Hstart.
  { intros s1 (S1 & S2 & S3 & S4 & S5 & S6). unfold create_thread. wp_steps; cbn beta in *;
      rewrite wo_thread in *; try done. split; [done|].
    exists c, c1. unfold slot_outcome. frame_simpl. split_and!; try done.
    - transitivity s1; [done|]. by apply quiet_call.
    - by exists (ret r), pts. }
  match goal with |- context [wp _ _ _ ?s0] => assert (rel s0) as Hs0; [|generalize dependent s0] end.
  { unfold rel. frame_simpl. rewrite list_insert_insert_eq. split_and!; try done.
    intros fd. frame_simpl. rewrite !wire_app. simpl. by rewrite !app_nil_r. }
  intros s0 Hs0. cbn beta zeta. wp_step. wp_step.
  apply (Hcall (SysPtyConfig (ret r) "tcgetattr")) in Hs0; [|done].
  revert Hs0. generalize (after_call (SysPtyConfig (ret r) "tcgetattr") s0). clear s0. intros s0 Hs0.
  assert (forall x k s1, (forall fd bs, x <> SysWrite fd bs) -> rel s1 ->
    0 <= ret (fst (os_call x (m_world s1))) ->
    (forall y s2, rel s2 -> wp never (k y) (fun r s' => r = GSM0710MUXD_SUCCESS /\ pty_ready i s s') s2) ->
    wp never (syscheck x k) (fun r s' => r = GSM0710MUXD_SUCCESS /\ pty_ready i s s') s1) as Hcheck.
  { intros x k s1 Hx R1 Hok Hk. apply wp_syscheck; [intros; lia|]. intros _. apply Hk. by apply Hcall. }
  apply Hcheck; [done|done|apply wo_config|]. intros _ s1 R1.
  apply Hcheck; [done|done|apply wo_config|]. intros _ s2 R2.
  apply Hcheck; [done|done|apply wo_config|]. intros _ s3 R3.
  apply Hcheck; [done|done|apply wo_config|]. intros _ s4 R4.
  unfold publish_pts. wp_step.
  eapply wp_get_channel; [done|destruct R4 as (_ & _ & _ & _ & -> & _); by eapply lookup_insert_slot|].
  subst c1. simpl. destruct (ch_ptslink c) as [link|]; [|by apply Hstart].
  wp_step. wp_step. wp_step. wp_step.
  apply Hcheck; [done|by apply Hcall, Hcall|apply wo_chmod|]. intros _ s5 R5.
  apply Hcheck; [done|done|apply wo_symlink|]. intros _ s6 R6. by apply Hstart.
Qed.

(** The slot after a successful [logical_channel_establish]. *)
Definition established (c c' : Channel) : Prop :=
  exists fd pts, 0 <= fd /\
    c' = set_ch_sabm_ua_pending true (set_ch_v24_signals 0x8D
           (set_ch_ptsname (Some pts) (set_ch_fd fd c))).

Definition sabm (ch : Z) : list Z := basic_frame ch (Z.lor GSM0710_TYPE_SABM GSM0710_PF) [].

Lemma establish_working `{!WorkingOs} i c s :
  0 <= i -> m_channellist s !! Z.to_nat i = Some c -> ch_devicename c = Some "/dev/ptmx"%string ->
  ch_id c = i -> 0 <= ch_negotiated_N1 c -> o_cmux_mode (m_options s) = false ->
  g_stop_muxd (m_globals s) = false ->
  wp never (logical_channel_establish i) (fun r s' => r = GSM0710MUXD_SUCCESS /\
    exists c', slot_outcome i s s' c' (m_heap s) /\ established c c' /\
      wire (s_fd (m_serial s)) (m_trace s') = wire (s_fd (m_serial s)) (m_trace s) ++ sabm i) s.
Proof.
  intros Hi Hl Hdev Hid Hn Hm Hs. unfold logical_channel_establish. wp_step.
  eapply wp_mono; [by eapply setup_pty_working|].
  intros r s1 [-> (c0 & c1 & E0 & (S1 & S2 & S3 & S4 & S5) & Qt & Hfd & fd & pts & E1)].
  rewrite Hl in E0. injection E0 as <-. simpl in Hfd.
  change (negb (GSM0710MUXD_SUCCESS =? 0)) with false. cbn iota.
  wp_step. wp_step. eapply wp_modify_channel; [done|rewrite S5; by eapply lookup_insert_slot|].
  set (c2 := set_ch_sabm_ua_pending true _). wp_step.
  eapply wp_get_channel; [done|frame_simpl; rewrite S5, list_insert_insert_eq; by eapply lookup_insert_slot|].
  wp_step. set (s2 := set_m_channellist _ s1).
  assert (ch_id c2 = i) as -> by (subst c2 c1; done).
  destruct (write_empty_accept i (ch_negotiated_N1 c) (Z.lor GSM0710_TYPE_SABM GSM0710_PF) s2)
    as (s3 & Ew & (W1 & W2 & W3 & W4 & _) & G3 & Wi); try done.
  { split_and!; [by rewrite <- S2 in Hm|by rewrite <- S3 in Hs|done|].
    exists c2. subst s2. frame_simpl. rewrite S5, list_insert_insert_eq. split; [by eapply lookup_insert_slot|].
    by subst c2 c1. }
  eapply wp_ok; [exact Ew|]. wp_steps. split; [done|]. exists c2.
  unfold slot_outcome. rewrite W1, W2, W3, W4, G3. subst s2. frame_simpl.
  rewrite S5, list_insert_insert_eq. split_and!; try done.
  - subst c1 c2. simpl in Hfd. by exists fd, pts.
  - revert Wi. frame_simpl. rewrite S1. intros ->. by rewrite Qt.
Qed.

(** ** Allocating the ports *)

Lemma first_closed_spec slots s :
  Forall (fun i => 0 <= i /\ exists c, m_channellist s !! Z.to_nat i = Some c) slots ->
  wp never (first_closed slots) (fun f s' => s' = s /\
    match f with
    | None => Forall (fun i => exists c, m_channellist s !! Z.to_nat i = Some c /\ 0 <= ch_fd c) slots
    | Some i => exists before after c, slots = before ++ i :: after /\
        m_channellist s !! Z.to_nat i = Some c /\ ch_fd c < 0 /\
        Forall (fun i => exists c, m_channellist s !! Z.to_nat i = Some c /\ 0 <= ch_fd c) before
    end) s.
Proof.
  induction 1 as [|i slots [Hi (c & Hc)] H IH]; cbn [first_closed]; wp_steps; [by split|].
  eapply wp_get_channel; [done..|]. wp_steps; reflect_bools.
  - split; [done|]. by exists [], slots, c.
  - eapply wp_mono; [exact IH|]. intros f s' [-> Hf]. split; [done|]. destruct f as [j|].
    + destruct Hf as (before & after & c' & -> & Hc' & Hfd & Hb).
      exists (i :: before), after, c'. split_and!; try done. constructor; [by exists c|done].
    + constructor; [by exists c|done].
Qed.

(** The first [k] configured channels are open, the others closed and ready. *)
Definition ports_state (k : nat) (s : Mux W) : Prop :=
  o_cmux_mode (m_options s) = false /\ g_stop_muxd (m_globals s) = false /\
  s_state (m_serial s) = MUX_STATE_MUXING /\
  forall j slot, cfg_slots !! j = Some slot ->
    exists c, m_channellist s !! Z.to_nat slot = Some c /\ ch_id c = slot /\
      ch_devicename c = Some "/dev/ptmx"%string /\ 0 <= ch_negotiated_N1 c /\
      if bool_decide (j < k)%nat then 0 <= ch_fd c /\ ch_sabm_ua_pending c = true else ch_fd c < 0.

Lemma cfg_slots_nodup : NoDup cfg_slots /\ Forall (fun i => 1 <= i < GSM0710_MAX_CHANNELS) cfg_slots.
Proof.
  destruct ch_cfg_table as (L & N & F). unfold cfg_slots. rewrite <- L, ztake_all by lia.
  assert (exists e r, ch_cfg = e :: r /\ pn_dlci e = 0) as (e & r & E & E0) by (eexists _, _; split; reflexivity).
  rewrite E in N, F |- *. change (zdrop 1 (e :: r)) with r. simpl in N. rewrite E0 in N.
  apply NoDup_cons in N as [N0 N]. split; [done|]. apply Forall_cons in F as [_ F]. apply Forall_map.
  apply Forall_forall. intros x Hx. rewrite Forall_forall in F. destruct (F x Hx) as [Hb _].
  assert (pn_dlci x <> 0); [|lia]. intros Z. apply N0. rewrite <- Z. by apply list_elem_of_fmap_2.
Qed.

Lemma alloc_one `{!WorkingOs} k slot s :
  ports_state k s -> cfg_slots !! k = Some slot ->
  wp never c_alloc_channel (fun r s' => r = GSM0710MUXD_SUCCESS /\ ports_state (S k) s' /\
    m_serial s' = m_serial s /\
    wire (s_fd (m_serial s)) (m_trace s') = wire (s_fd (m_serial s)) (m_trace s) ++ sabm slot) s.
Proof.
  intros (Hm & Hs & Hst & P) Hk. destruct cfg_slots_nodup as [N F]. rewrite Forall_forall in F.
  unfold c_alloc_channel. wp_step. wp_step. rewrite Hst. cbn [bool_decide].
  rewrite bool_decide_eq_true_2 by done. wp_step. eapply wp_mono; [apply first_closed_spec|].
  { apply Forall_forall. intros i Hi. specialize (F i Hi). apply list_elem_of_lookup in Hi as [j Hj].
    destruct (P j i Hj) as (c & Hc & _). split; [lia|eauto]. }
  intros f s' [-> Hf]. destruct f as [i|]; cycle 1.
  { rewrite Forall_forall in Hf. destruct (Hf slot) as (c & Hc & Hfd); [by apply list_elem_of_lookup_2 with k|].
    destruct (P k slot Hk) as (c' & Hc' & _ & _ & _ & X). rewrite bool_decide_eq_false_2 in X by lia.
    rewrite Hc in Hc'. injection Hc' as <-. lia. }
  destruct Hf as (before & after & c & E & Hc & Hfd & Hb).
  assert (cfg_slots !! length before = Some i) as Hi by (rewrite E; by apply list_lookup_middle).
  assert (length before = k) as Lk.
  { destruct (P _ i Hi) as (c' & Hc' & _ & _ & _ & X). rewrite Hc in Hc'. injection Hc' as <-.
    destruct (lt_eq_lt_dec (length before) k) as [[Hlt|]|Hgt]; [|done|].
    - rewrite bool_decide_eq_true_2 in X by lia. lia.
    - assert (before !! k = Some slot) as Hbk by (rewrite E, lookup_app_l in Hk by lia; done).
      rewrite Forall_lookup in Hb. destruct (Hb k slot Hbk) as (c' & Hc' & Hfd').
      destruct (P k slot Hk) as (c'' & Hc'' & _ & _ & _ & X'').
      rewrite bool_decide_eq_false_2 in X'' by lia. rewrite Hc' in Hc''. injection Hc'' as <-. lia. }
  rewrite Lk, Hk in Hi. injection Hi as <-.
  destruct (P k slot Hk) as (c' & Hc' & Hid & Hdev & Hn & _). rewrite Hc in Hc'. injection Hc' as <-.
  assert (1 <= slot < GSM0710_MAX_CHANNELS) as Hr by (apply F; by apply list_elem_of_lookup_2 with k).
  eapply wp_mono; [apply establish_working; try done; lia|].
  intros r s' [-> (c1 & (S1 & S2 & S3 & S4 & S5) & (fd & pts & Hfd1 & ->) & Hw)].
  split_and!; try done. split_and!; try congruence. intros j sl Hj.
  destruct (P j sl Hj) as (c2 & Hc2 & X2 & X3 & X4 & X5). rewrite S5.
  destruct (decide (j = k)) as [->|Hjk].
  - rewrite Hk in Hj. injection Hj as <-. eexists. split; [by eapply lookup_insert_slot|].
    rewrite Hc in Hc2. injection Hc2 as <-. split_and!; try done.
    rewrite bool_decide_eq_true_2 by lia. done.
  - exists c2. assert (sl <> slot) as Hne by (intros ->; apply Hjk; by eapply NoDup_lookup).
    assert (1 <= sl) as Hsl by (apply (F sl); by apply list_elem_of_lookup_2 with j).
    rewrite list_lookup_insert_ne by lia. split_and!; try done.
    destruct (decide (j < k)%nat); [rewrite bool_decide_eq_true_2 in X5 |- * by lia; done|].
    rewrite bool_decide_eq_false_2 in X5 |- * by lia. done.
Qed.

End facts.

(** ** A concrete system *)

(** Every call succeeds; descriptors are 5, pseudo terminals /dev/pts/0. *)
Definition working_os : Os unit := fun c w =>
  (match c with
   | SysOpen _ => mkRet 5 0 [] None
   | SysPtsname _ => mkRet 0 0 [] (Some "/dev/pts/0"%string)
   | SysWrite _ bs => mkRet (zlen bs) 0 [] None
   | _ => mkRet 0 0 [] None
   end, w).

Lemma working_os_works : @WorkingOs unit working_os.
Proof. split; intros; simpl; try done. by exists "/dev/pts/0"%string. Qed.

(** ** Properties *)

(** The channel table is consistent for every number of SIMs, with and without video
    telephony: [MUXD_CH_NUM_ALL], the bound of the loops over [ch_cfg], is its exact
    size, its DLCIs are pairwise distinct and inside [channellist], and every frame
    size is 512. *)
Theorem channel_table_consistent {cfg : Config} :
  zlen ch_cfg = MUXD_CH_NUM_ALL /\ NoDup (map pn_dlci ch_cfg) /\
  Forall (fun e => 0 <= pn_dlci e < GSM0710_MAX_CHANNELS /\ pn_n1 e = 512) ch_cfg.
Proof. apply ch_cfg_table. Qed.

(** [logical_channel_init] puts a slot in its initial state whatever it was before
    and whatever the calls it makes return: descriptor closed, all flags, counters and
    flow-control state cleared, link and frame size taken from [ch_cfg] or from the
    option [-f]; and it touches no other slot, nor the serial device, the options or
    the global flags. *)
Theorem channel_init_resets {W} `{!Os W} {cfg : Config} (s : Mux W) i c h' :
  0 <= i -> m_channellist s !! Z.to_nat i = Some c ->
  fl_destroy (m_heap s) (ch_rx_fl c) = Some h' ->
  exists s' c', logical_channel_init i i s = Ok 0 s' /\
    fresh_channel (o_cmux_N1 (m_options s)) i c' /\
    m_channellist s' = <[Z.to_nat i := c']> (m_channellist s) /\
    m_serial s' = m_serial s /\ m_options s' = m_options s /\ m_globals s' = m_globals s.
Proof.
  intros Hi Hl Hd. destruct (proj1 (wp_never_ok _ _ _) (channel_init_spec i c h' s Hi Hl Hd))
    as (r & s' & E & -> & c' & (S1 & S2 & S3 & _ & S5) & Fr). by exists s', c'.
Qed.

Lemma channel_init_resets_witness :
  exists s' c', @logical_channel_init unit working_os arale_config 26 26 demo_state = Ok 0 s' /\
    @fresh_channel arale_config 512 26 c'.
Proof.
  destruct (@channel_init_resets unit working_os arale_config demo_state 26 zero_channel empty_heap)
    as (s' & c' & E & Fr & _); [lia|reflexivity|reflexivity|].
  exists s', c'. split; [exact E|exact Fr].
Defined.

(** When every configured channel is open, [c_alloc_channel] finds a free slot and
    then establishes another one: its second loop tests [channellist[i]] but opens
    [channellist[id]], the last configured channel, which is already open; its
    descriptor is overwritten and the free slot stays closed. *)
Theorem c_alloc_reopens_last {W} `{!Os W} {cfg : Config} (s : Mux W) :
  s_state (m_serial s) = MUX_STATE_MUXING -> zlen (m_channellist s) = GSM0710_MAX_CHANNELS ->
  Forall (fun i => exists c, m_channellist s !! Z.to_nat i = Some c /\ 0 <= ch_fd c) cfg_slots ->
  Exists (fun i => exists c, m_channellist s !! Z.to_nat i = Some c /\ ch_fd c < 0)
    (seqZ 1 (GSM0710_MAX_CHANNELS - 1)) ->
  c_alloc_channel s = logical_channel_establish (List.last cfg_slots 0) s.
Proof.
  intros Hst Hlen Hopen Hfree.
  assert (forall i, 0 <= i < GSM0710_MAX_CHANNELS -> exists c, m_channellist s !! Z.to_nat i = Some c) as Hin.
  { intros i Hi. apply lookup_lt_is_Some_2. unfold zlen in Hlen.
    change GSM0710_MAX_CHANNELS with 32 in *. lia. }
  unfold c_alloc_channel, mthen at 1, gets at 1. rewrite Hst, bool_decide_eq_true_2 by done.
  unfold mthen at 1.
  assert (forall l, Forall (fun i => 1 <= i < GSM0710_MAX_CHANNELS) l ->
    Forall (fun i => 0 <= i /\ exists c, m_channellist s !! Z.to_nat i = Some c) l) as Hall.
  { intros l Hl. eapply Forall_impl; [exact Hl|]. intros i Hi. cbn beta in Hi. split; [lia|apply Hin; lia]. }
  destruct (proj1 (wp_never_ok _ _ _) (first_closed_spec cfg_slots s (Hall _ (proj2 cfg_slots_nodup))))
    as (f & s1 & -> & -> & Hf).
  destruct f as [i|].
  { destruct Hf as (before & after & c & E & Hc & Hfd & _). rewrite E in Hopen.
    apply Forall_app in Hopen as [_ Hopen]. apply Forall_cons in Hopen as [(c' & Hc' & Hfd') _].
    rewrite Hc in Hc'. injection Hc' as <-. lia. }
  unfold mthen at 1.
  assert (Forall (fun i => 1 <= i < GSM0710_MAX_CHANNELS) (seqZ 1 (GSM0710_MAX_CHANNELS - 1))) as Hseq.
  { apply Forall_forall. intros i Hi. apply elem_of_seqZ in Hi. lia. }
  destruct (proj1 (wp_never_ok _ _ _) (first_closed_spec _ s (Hall _ Hseq))) as (f & s1 & -> & -> & Hg).
  destruct f as [i|]; [done|]. exfalso. apply Exists_exists in Hfree as (i & Hi & c & Hc & Hfd).
  rewrite Forall_forall in Hg. destruct (Hg i Hi) as (c' & Hc' & Hfd').
  rewrite Hc in Hc'. injection Hc' as <-. lia.
Qed.

(** All channels of the device open but slot 30. *)
Definition full_state : Mux unit :=
  mkMux (set_s_state MUX_STATE_MUXING initial_serial)
    (<[30%nat := set_ch_fd (-1) zero_channel]> initial_channels) arale_options initial_globals
    empty_heap 0 [] tt.

Lemma c_alloc_reopens_last_witness :
  @c_alloc_channel unit working_os arale_config full_state
  = @logical_channel_establish unit working_os arale_config 27 full_state.
Proof.
  apply (@c_alloc_reopens_last unit working_os arale_config full_state).
  - reflexivity.
  - reflexivity.
  - repeat (apply Forall_cons; split; [eexists; split; [reflexivity|vm_compute; discriminate]|]).
    apply Forall_nil; done.
  - apply Exists_exists. exists 30. split; [apply elem_of_seqZ; vm_compute; split; [discriminate|reflexivity]|].
    eexists. split; reflexivity.
Defined.
