(* ===== verification/Boot.v ===== *)
(** * Starting the multiplexer

    The conversation with the modem before multiplexed operation, of
    src/mtk/gsm0710muxd/src/gsm0710muxd.c: [memstr], [poll_modem_ready], [chat],
    [chatCmux], [open_serial_device] and [start_muxer].

    The loops run as long as the modem makes them; they take a bound [fuel] on the
    number of rounds, and [NoFuel] means that the bound was reached. *)
From stdpp Require Import pretty.
From Stdlib Require Import String Ascii.
From S2P Require Import Prelude CString Ring Frame MuxState Logic WriteFrame FrameList FlowControl.
From S2P Require Import Channel.

(** [memstr]'s loop: [j] bytes of the needle are matched so far; a mismatch starts
    again at the next byte of the haystack. *)
Fixpoint memstr_loop (needle : list Z) (j : Z) (haystack : list Z) : bool :=
  match haystack with
  | [] => false
  | x :: haystack =>
      if byte_at needle j =? x then
        if j + 1 =? zlen needle then true else memstr_loop needle (j + 1) haystack
      else memstr_loop needle 0 haystack
  end.

Definition memstr (haystack : list Z) (length : Z) (needle : list Z) : bool :=
  match needle with
  | [] => true
  | _ => memstr_loop needle 0 (ztake length haystack)
  end.

(** [%04d] for a number that is not negative. *)
Definition pad4 (n : Z) : string :=
  let s := pretty n in
  if (n <? 10)%Z then ("000" ++ s)%string
  else if (n <? 100)%Z then ("00" ++ s)%string
  else if (n <? 1000)%Z then ("0" ++ s)%string
  else s.

(** The buffer emptied by hand after a recognised answer. *)
Definition reset_bootup (b : GSM0710_Buffer) : GSM0710_Buffer :=
  set_data zero_data (set_datacount 0 (set_writep 0 (set_readp 0 b))).

Section code.
Context {W : Type} `{!Os W} {cfg : Config}.

(** [*serial.in_buf_for_bootup] *)
Definition get_bootup : M W GSM0710_Buffer :=
  do b <- gets (fun s => s_in_buf_for_bootup (m_serial s));
  match b with Some b => mreturn b | None => undefined end.

Definition set_bootup (b : GSM0710_Buffer) : M W unit :=
  modify_serial (set_s_in_buf_for_bootup (Some b)).

(** A [read] of at most 1024 bytes put in the boot-up buffer; [None] when it fails. *)
Definition read_bootup (fd : Z) : M W (option Z) :=
  do r <- syscall (SysRead fd 1024);
  if ret r <? 0 then mreturn None
  else
    do b <- get_bootup;
    set_bootup (snd (gsm0710_buffer_write b (read_bytes r) (ret r)));;;
    mreturn (Some (ret r)).

Fixpoint poll_modem_ready (fuel : nat) (serial_device_fd to : Z) : M W Z :=
  match fuel with
  | O => out_of_fuel
  | S fuel =>
      do sel <- syscall (SysSelect serial_device_fd (Some to));
      do e <- gets m_errno;
      if ret sel <? 0 then
        if e =? EINTR then poll_modem_ready fuel serial_device_fd to else mreturn (-1)
      else if ret sel =? 0 then mreturn (-1)
      else
        do len <- read_bootup serial_device_fd;
        match len with
        | None => mreturn (-1)
        | Some _ =>
            modify (set_m_errno 0);;;
            do b <- get_bootup;
            if memstr (data b) (datacount b) (bytes_of "+EIND: 128") then
              set_bootup (reset_bootup b);;; mreturn 0
            else poll_modem_ready fuel serial_device_fd to
        end
  end.

(** [do { wrote = write(...); } while (wrote < 0 && errno == EINTR)] *)
Fixpoint write_eintr (fuel : nat) (fd : Z) (bs : list Z) : M W Z :=
  match fuel with
  | O => out_of_fuel
  | S fuel =>
      do r <- syscall (SysWrite fd bs);
      do e <- gets m_errno;
      if (ret r <? 0) && (e =? EINTR) then write_eintr fuel fd bs else mreturn (ret r)
  end.

(** The main string, from offset [cur]: [None] after a failed write. *)
Fixpoint write_all (fuel : nat) (fd : Z) (cmd : list Z) (cur : Z) : M W (option unit) :=
  match fuel with
  | O => out_of_fuel
  | S fuel' =>
      if cur <? zlen cmd then
        do wrote <- write_eintr fuel fd (zdrop cur cmd);
        if wrote <? 0 then mreturn None else write_all fuel' fd cmd (cur + wrote)
      else mreturn (Some tt)
  end.

(** The carriage return: written again after [EINTR] and after an empty write. *)
Fixpoint write_cr (fuel : nat) (fd : Z) : M W Z :=
  match fuel with
  | O => out_of_fuel
  | S fuel =>
      do r <- syscall (SysWrite fd [13]);
      do e <- gets m_errno;
      if ((ret r <? 0) && (e =? EINTR)) || (ret r =? 0) then write_cr fuel fd
      else mreturn (ret r)
  end.

Definition send_command (fuel : nat) (fd : Z) (cmd : list Z) : M W Z :=
  do r <- write_all fuel fd cmd 0;
  match r with
  | None => mreturn (-1)
  | Some _ => do w <- write_cr fuel fd; if w <? 0 then mreturn (-1) else mreturn 0
  end.

Fixpoint chat_wait (fuel : nat) (fd : Z) : M W Z :=
  match fuel with
  | O => out_of_fuel
  | S fuel =>
      do sel <- syscall (SysSelect fd (Some 5));
      do e <- gets m_errno;
      if ret sel <? 0 then if e =? EINTR then chat_wait fuel fd else mreturn (-1)
      else if ret sel =? 0 then mreturn (-1)
      else
        do len <- read_bootup fd;
        match len with
        | None => mreturn (-1)
        | Some _ =>
            do b <- get_bootup;
            if memstr (data b) (datacount b) (bytes_of "OK") then
              set_bootup (reset_bootup b);;; mreturn 0
            else if memstr (data b) (datacount b) (bytes_of "ERROR") then
              set_bootup (reset_bootup b);;; mreturn (-1)
            else chat_wait fuel fd
        end
  end.

(** [chat(fd, cmd, to)]; the argument [to] is not used. *)
Definition chat (fuel : nat) (fd : Z) (cmd : string) : M W Z :=
  do r <- send_command fuel fd (bytes_of cmd);
  if r <? 0 then mreturn (-1) else chat_wait fuel fd.

(** The answer to AT+CMUX.  "OK" is looked for in the first [len] bytes of the
    buffer, [len] being the size of the last read. *)
Fixpoint chatCmux_wait (fuel : nat) (fd : Z) (checkMuxFlag : bool) : M W Z :=
  match fuel with
  | O => out_of_fuel
  | S fuel =>
      do sel <- syscall (SysSelect fd (Some 5));
      do e <- gets m_errno;
      if ret sel <? 0 then if e =? EINTR then chatCmux_wait fuel fd checkMuxFlag else mreturn (-1)
      else if ret sel =? 0 then mreturn (-1)
      else
        do len <- read_bootup fd;
        match len with
        | None => mreturn (-1)
        | Some len =>
            do b <- get_bootup;
            if memstr (data b) len (bytes_of "OK") then
              (if checkMuxFlag then mreturn tt
               else syscall (SysSleep 1000000);;; mreturn tt);;;
              mreturn 0
            else if memstr (data b) (datacount b) (bytes_of "+CMUX: READY") then
              set_bootup (reset_bootup b);;; chatCmux_wait fuel fd true
            else if memstr (data b) (datacount b) (bytes_of "ERROR") then mreturn (-1)
            else chatCmux_wait fuel fd checkMuxFlag
        end
  end.

Definition chatCmux (fuel : nat) (fd : Z) (cmd : string) : M W Z :=
  do r <- send_command fuel fd (bytes_of cmd);
  if r <? 0 then mreturn (-1) else chatCmux_wait fuel fd false.

(** The loop over [channellist] of [open_serial_device]. *)
Fixpoint init_channels (ids : list Z) : M W unit :=
  match ids with
  | [] => mreturn tt
  | i :: ids => logical_channel_init i i;;; init_channels ids
  end.

(** The handshake with the emulator's control socket. *)
Definition qemud_handshake (fd : Z) : M W bool :=
  do w <- syscall (SysWrite fd (bytes_of "gsm"));
  if negb (ret w =? 3) then mreturn false
  else
    do r <- syscall (SysRead fd 2);
    mreturn ((ret r =? 2) && bool_decide (read_bytes r = bytes_of "OK")).

(** The end of [open_serial_device]. *)
Definition serial_opened : M W Z :=
  modify_serial (set_s_ping_number 0);;;
  do t <- syscall SysTime;
  modify_serial (set_s_frame_receive_time (ret t));;;
  modify_serial (set_s_state MUX_STATE_INITILIZING);;;
  mreturn 0.

Definition open_serial_device : M W Z :=
  init_channels (seqZ 0 GSM0710_MAX_CHANNELS);;;
  modify_serial (set_s_is_socket false);;;
  do dev <- gets (fun s => s_devicename (m_serial s));
  if String.eqb dev "/dev/socket/qemud" then
    do r <- syscall (SysSocket "qemud");
    modify_serial (set_s_fd (ret r));;;
    if ret r <? 0 then mreturn (-1)
    else
      do ok <- qemud_handshake (ret r);
      mwhen (negb ok) (syscall (SysClose (ret r));;; modify_serial (set_s_fd (-1)));;;
      modify_serial (set_s_is_socket true);;;
      serial_opened
  else
    do r <- syscall (SysOpen dev);
    modify_serial (set_s_fd (ret r));;;
    if ret r <? 0 then mreturn (-1)
    else
      syscheck (SysFcntl (ret r)) (fun _ =>
      syscheck (SysFcntl (ret r)) (fun _ =>
      serial_opened)).

(** The AT+CMUX command for the configured mode. *)
Definition cmux_command (o : Options) : string :=
  if o_cmux_mode o then "AT+CMUX=1"
  else ("AT+CMUX=0," ++ pretty (o_cmux_subset o) ++ "," ++ pretty (o_cmux_port_speed o) ++ ","
        ++ pretty (o_cmux_N1 o))%string.

Definition start_muxer (fuel : nat) : M W Z :=
  do fd <- gets (fun s => s_fd (m_serial s));
  poll_modem_ready fuel fd 10;;;
  do r <- chat fuel fd "AT";
  let go :=
    check_call (chat fuel fd "ATZ") (check_call (chat fuel fd "ATE0") (
      do o <- gets m_options;
      let mux :=
        check_call (chatCmux fuel fd (cmux_command o)) (
          modify_serial (set_s_in_buf_for_bootup None);;;
          modify_serial (set_s_state MUX_STATE_MUXING);;;
          mreturn 0) in
      if 0 <=? o_pin_code o then
        check_call (chat fuel fd ("AT+CPIN=" ++ pad4 (o_pin_code o))%string) mux
      else mux)) in
  if r <? 0 then check_call (chat fuel fd "AT") go else go.

End code.

(** ** What [memstr] finds *)

Lemma memstr_loop_sound needle j hay :
  0 <= j < zlen needle -> memstr_loop needle j hay = true ->
  exists pre post, ztake j needle ++ hay = pre ++ needle ++ post.
Proof.
  revert j. induction hay as [|x hay IH]; intros j Hj; simpl; [done|].
  destruct (Z.eqb_spec (byte_at needle j) x) as [E|E].
  - assert (ztake (j + 1) needle = ztake j needle ++ [x]) as Ht.
    { rewrite (ztake_split j (j + 1)) by lia. f_equal. rewrite zdrop_cons by lia.
      replace (j + 1 - j) with 1 by lia. rewrite E. done. }
    destruct (Z.eqb_spec (j + 1) (zlen needle)) as [El|El].
    + intros _. exists [], hay. rewrite (cons_middle x), app_assoc, <- Ht, El, ztake_all by lia. done.
    + intros H. destruct (IH (j + 1)) as (pre & post & Hp); [lia|done|].
      exists pre, post. by rewrite (cons_middle x), app_assoc, <- Ht.
  - intros H. destruct (IH 0) as (pre & post & Hp); [lia|done|]. simpl in Hp.
    change (ztake 0 needle ++ hay) with hay in Hp.
    exists (ztake j needle ++ x :: pre), post. rewrite <- app_assoc. simpl. by rewrite <- Hp.
Qed.

Lemma memstr_loop_step needle j x hay :
  memstr_loop needle j (x :: hay) =
  if byte_at needle j =? x then
    if j + 1 =? zlen needle then true else memstr_loop needle (j + 1) hay
  else memstr_loop needle 0 hay.
Proof. reflexivity. Qed.

Lemma memstr_loop_skip needle pre hay :
  Forall (fun x => x <> byte_at needle 0) pre ->
  memstr_loop needle 0 (pre ++ hay) = memstr_loop needle 0 hay.
Proof.
  induction 1 as [|x pre Hx _ IH]; [done|]. simpl. rewrite (proj2 (Z.eqb_neq _ _)) by done. exact IH.
Qed.

Lemma memstr_loop_match needle j post :
  0 <= j < zlen needle -> memstr_loop needle j (zdrop j needle ++ post) = true.
Proof.
  intros Hj. remember (Z.to_nat (zlen needle - j)) as k eqn:Hk. revert j Hj Hk.
  induction k as [|k IH]; intros j Hj Hk; [lia|].
  rewrite zdrop_cons by lia. simpl. rewrite Z.eqb_refl.
  destruct (Z.eqb_spec (j + 1) (zlen needle)); [done|]. apply IH; lia.
Qed.

(** ** Sending commands *)

(** A device that takes at least one byte of every write. *)
Class ProgressOs (W : Type) `{!Os W} :=
  progress_write : forall fd bs w, bs <> [] -> 1 <= ret (fst (os_call (SysWrite fd bs) w)) <= zlen bs.

Section facts.
Context {W : Type} `{!Os W} {cfg : Config}.
Implicit Types s : Mux W.

Section progress.
Context `{!ProgressOs W}.

Lemma write_eintr_progress fuel fd bs s :
  bs <> [] ->
  wp never (write_eintr (S fuel) fd bs) (fun r s' => 1 <= r <= zlen bs /\
    wire fd (m_trace s') = wire fd (m_trace s) ++ ztake r bs) s.
Proof.
  intros Hb. cbn [write_eintr]. wp_steps; pose proof (progress_write fd bs (m_world s) Hb); reflect_bools.
  - lia.
  - split; [done|]. frame_simpl. rewrite wire_app. simpl. by rewrite Z.eqb_refl, app_nil_r.
Qed.

Lemma write_all_progress fuel fd cmd cur s :
  0 <= cur <= zlen cmd -> zlen cmd - cur < Z.of_nat fuel ->
  wp never (write_all fuel fd cmd cur) (fun r s' => r = Some tt /\
    wire fd (m_trace s') = wire fd (m_trace s) ++ zdrop cur cmd) s.
Proof.
  revert cur s. induction fuel as [|fuel IH]; intros cur s Hc Hf; [lia|]. cbn [write_all].
  destruct (Z.ltb_spec cur (zlen cmd)) as [Hlt|Hge].
  - assert (zlen (zdrop cur cmd) = zlen cmd - cur) as Lz by (apply zlen_zdrop; lia).
    wp_step. eapply wp_mono.
    { apply (write_eintr_progress fuel). intros E. rewrite E, zlen_nil in Lz. lia. }
    intros r s1 [Hr Hw]. rewrite (proj2 (Z.ltb_ge r 0)) by lia.
    eapply wp_mono; [apply IH; lia|]. intros o s2 [-> Hw2]. split; [done|].
    rewrite Hw2, Hw, <- app_assoc, <- (zdrop_zdrop r cur), ztake_zdrop by lia. done.
  - wp_step. split; [done|]. replace cur with (zlen cmd) by lia.
    replace (zdrop (zlen cmd) cmd) with (@nil Z); [by rewrite app_nil_r|].
    rewrite <- (app_nil_r cmd) at 2. by rewrite zdrop_app_length.
Qed.

Lemma send_command_progress fuel fd cmd s :
  zlen cmd < Z.of_nat fuel ->
  wp never (send_command fuel fd cmd) (fun r s' => r = 0 /\
    wire fd (m_trace s') = wire fd (m_trace s) ++ cmd ++ [13]) s.
Proof.
  intros Hf. pose proof (zlen_nonneg cmd). unfold send_command. wp_step.
  eapply wp_mono; [apply write_all_progress; lia|]. intros o s1 [-> Hw]. wp_step.
  destruct fuel as [|fuel]; [lia|]. cbn [write_cr]. wp_steps;
    pose proof (progress_write fd [13] (m_world s1)) as P; change (zlen [13]) with 1 in P;
    assert (ret (fst (os_call (SysWrite fd [13]) (m_world s1))) = 1) as E by (destruct P; [done|lia]).
  - exfalso. rewrite E in *. done.
  - exfalso. rewrite E in *. done.
  - split; [done|]. frame_simpl. rewrite wire_app, E, Hw. simpl.
    rewrite Z.eqb_refl, app_nil_r, <- app_assoc. done.
Qed.

End progress.

(** ** A start without the boot-up buffer *)

(** The boot-up buffer has been freed. *)
Definition no_bootup (s : Mux W) : Prop := s_in_buf_for_bootup (m_serial s) = None.

Lemma no_bootup_call c s : no_bootup s -> no_bootup (after_call c s).
Proof. unfold no_bootup. by frame_simpl. Qed.

Lemma read_bootup_freed fd s :
  no_bootup s -> wp whatever (read_bootup fd) (fun r s' => r = None /\ no_bootup s') s.
Proof.
  intros H. unfold read_bootup. wp_steps; [split; [done|by apply no_bootup_call]|].
  unfold get_bootup. wp_steps. unfold no_bootup in H. frame_simpl. rewrite H. done.
Qed.

Lemma write_eintr_freed fuel fd bs s :
  no_bootup s -> wp whatever (write_eintr fuel fd bs) (fun _ s' => no_bootup s') s.
Proof.
  revert s. induction fuel as [|fuel IH]; intros s H; [done|]. cbn [write_eintr].
  wp_steps; [apply IH|]; by apply no_bootup_call.
Qed.

Lemma send_command_freed fuel fd cmd s :
  no_bootup s -> wp whatever (send_command fuel fd cmd) (fun _ s' => no_bootup s') s.
Proof.
  intros H. unfold send_command. wp_step.
  assert (forall n cur s, no_bootup s ->
    wp whatever (write_all n fd cmd cur) (fun _ s' => no_bootup s') s) as Ha.
  { induction n as [|n IH]; intros cur s0 H0; [done|]. cbn [write_all]. wp_steps; [|done].
    eapply wp_mono; [by apply write_eintr_freed|]. intros r s1 Hs1. cbn beta. wp_steps; [done|by apply IH]. }
  assert (forall n s, no_bootup s -> wp whatever (write_cr n fd) (fun _ s' => no_bootup s') s) as Hcr.
  { induction n as [|n IH]; intros s0 H0; [done|]. cbn [write_cr].
    wp_steps; [apply IH|]; by apply no_bootup_call. }
  eapply wp_mono; [by apply Ha|]. intros [u|] s1 H1; [|done]. wp_step.
  eapply wp_mono; [by apply Hcr|]. intros w s2 H2. cbn beta. wp_steps; done.
Qed.

Lemma poll_modem_ready_freed fuel fd to s :
  no_bootup s -> wp whatever (poll_modem_ready fuel fd to) (fun _ s' => no_bootup s') s.
Proof.
  revert s. induction fuel as [|fuel IH]; intros s H; [done|]. cbn [poll_modem_ready].
  wp_steps; try (by apply no_bootup_call); [by apply IH, no_bootup_call|].
  eapply wp_mono; [by apply read_bootup_freed, no_bootup_call|]. by intros r s' [-> ?].
Qed.

Lemma chat_freed fuel fd cmd s :
  no_bootup s -> wp whatever (chat fuel fd cmd) (fun r s' => r < 0 /\ no_bootup s') s.
Proof.
  intros H. unfold chat. wp_step. eapply wp_mono; [by apply send_command_freed|].
  intros r s1 H1. cbn beta. wp_step; [wp_step; by split|]. clear H0.
  revert s1 H1. induction fuel as [|n IH]; intros s1 H1; [done|]. cbn [chat_wait].
  wp_steps; try (split; [lia|by apply no_bootup_call]); [by apply IH, no_bootup_call|].
  eapply wp_mono; [by apply read_bootup_freed, no_bootup_call|]. by intros o s' [-> ?].
Qed.

Lemma check_call_fails c k s :
  (forall s, no_bootup s -> wp whatever c (fun r s' => r < 0 /\ no_bootup s') s) -> no_bootup s ->
  wp whatever (check_call c k) (fun r s' => r < 0 /\ no_bootup s') s.
Proof.
  intros Hc H. unfold check_call. wp_step. eapply wp_mono; [by apply Hc|].
  intros r s' [Hr H']. cbn beta. rewrite (proj2 (Z.ltb_lt _ _) Hr). wp_step. by split.
Qed.

Lemma start_muxer_freed fuel s :
  no_bootup s -> wp whatever (start_muxer fuel) (fun r s' => r < 0 /\ no_bootup s') s.
Proof.
  intros H. unfold start_muxer. wp_steps. eapply wp_mono; [by apply poll_modem_ready_freed|].
  intros ? s1 H1. cbn beta. wp_step. eapply wp_mono; [by apply chat_freed|]. intros r s2 [Hr H2]. cbn beta.
  rewrite (proj2 (Z.ltb_lt _ _) Hr). apply check_call_fails; [|done]. intros; by apply chat_freed.
Qed.

(** ** Opening the serial device *)

Lemma init_channels_spec k s :
  (k <= 32)%nat -> zlen (m_channellist s) = GSM0710_MAX_CHANNELS ->
  Forall (fun c => ch_rx_fl c = 0) (m_channellist s) ->
  (forall i c, 0 <= i < 32 - Z.of_nat k -> m_channellist s !! Z.to_nat i = Some c ->
     fresh_channel (o_cmux_N1 (m_options s)) i c) ->
  wp never (init_channels (seqZ (32 - Z.of_nat k) (Z.of_nat k))) (fun _ s' =>
    m_serial s' = m_serial s /\ m_options s' = m_options s /\ m_globals s' = m_globals s /\
    zlen (m_channellist s') = GSM0710_MAX_CHANNELS /\
    forall i c, 0 <= i -> m_channellist s' !! Z.to_nat i = Some c ->
      fresh_channel (o_cmux_N1 (m_options s)) i c) s.
Proof.
  revert s. induction k as [|k IH]; intros s Hk Hlen Hz Hfr.
  { rewrite seqZ_nil by lia. cbn [init_channels]. wp_step.
    split_and!; try done. intros i c Hi Hl. apply Hfr; [|done].
    apply lookup_lt_Some in Hl. unfold zlen in Hlen. change GSM0710_MAX_CHANNELS with 32 in *. lia. }
  rewrite seqZ_cons by lia. cbn [init_channels].
  replace (Z.succ (32 - Z.of_nat (S k))) with (32 - Z.of_nat k) by lia.
  replace (Z.pred (Z.of_nat (S k))) with (Z.of_nat k) by lia.
  set (i := 32 - Z.of_nat (S k)).
  assert (is_Some (m_channellist s !! Z.to_nat i)) as [c Hc].
  { apply lookup_lt_is_Some_2. unfold zlen in Hlen. change GSM0710_MAX_CHANNELS with 32 in *. lia. }
  assert (ch_rx_fl c = 0) as Hc0 by (by eapply Forall_lookup_1 in Hz).
  wp_step. eapply wp_mono.
  { apply (channel_init_spec i c (m_heap s)); [lia|done|]. unfold fl_destroy. by rewrite Hc0. }
  intros r s1 [-> (c' & (S1 & S2 & S3 & _ & S5) & Fr)]. cbn beta.
  assert (i < zlen (m_channellist s)) as Hil by (apply lookup_lt_Some in Hc; unfold zlen; lia).
  eapply wp_mono; [apply IH; [lia|by rewrite S5, zlen_insert| |]|].
  - rewrite S5. apply Forall_insert; [done|]. by destruct Fr as [_ _ _ _ _ _ [? _]].
  - rewrite S2, S5. intros j d Hj Hd. destruct (decide (j = i)) as [->|Hne].
    + rewrite list_lookup_insert_eq in Hd by (apply lookup_lt_Some in Hc; lia). by injection Hd as <-.
    + rewrite list_lookup_insert_ne in Hd by lia. apply Hfr; [lia|done].
  - intros [] s2 (T1 & T2 & T3 & T4 & T5). rewrite S2 in T5. split_and!; congruence || done.
Qed.

End facts.

Section outcome.
Context {W : Type} `{!Os W} {cfg : Config}.
Implicit Types s : Mux W.

(** A handler that leaves the state of the multiplexer alone. *)
Definition same_mux_state (s s' : Mux W) : Prop :=
  s_state (m_serial s') = s_state (m_serial s) /\ s_fd (m_serial s') = s_fd (m_serial s) /\
  s_in_buf (m_serial s') = s_in_buf (m_serial s) /\
  m_channellist s' = m_channellist s /\ m_options s' = m_options s /\ m_globals s' = m_globals s /\
  m_heap s' = m_heap s.

#[local] Instance same_mux_state_preorder : PreOrder same_mux_state.
Proof.
  split; [done|]. intros ? ? ? (?&?&?&?&?&?&?) (?&?&?&?&?&?&?). unfold same_mux_state.
  intuition congruence.
Qed.

Lemma same_mux_call c s : same_mux_state s (after_call c s).
Proof. unfold same_mux_state. by frame_simpl. Qed.

Lemma keeps_call c : keeps same_mux_state (syscall c).
Proof. apply keeps_syscall. apply same_mux_call. Qed.
Lemma keeps_set_bootup b : keeps same_mux_state (set_bootup b).
Proof. by apply keeps_modify. Qed.
Lemma keeps_errno n : keeps same_mux_state (modify (set_m_errno n)).
Proof. by apply keeps_modify. Qed.
#[local] Hint Resolve keeps_call keeps_set_bootup keeps_errno : keeps.

Lemma keeps_get_bootup : keeps same_mux_state get_bootup.
Proof. unfold get_bootup. keeps_tac. Qed.
#[local] Hint Resolve keeps_get_bootup : keeps.
Lemma keeps_read_bootup fd : keeps same_mux_state (read_bootup fd).
Proof. unfold read_bootup. keeps_tac. Qed.
#[local] Hint Resolve keeps_read_bootup : keeps.
Lemma keeps_poll_modem_ready fuel fd to : keeps same_mux_state (poll_modem_ready fuel fd to).
Proof. induction fuel; cbn [poll_modem_ready]; keeps_tac. Qed.
Lemma keeps_write_eintr fuel fd bs : keeps same_mux_state (write_eintr fuel fd bs).
Proof. induction fuel; cbn [write_eintr]; keeps_tac. Qed.
#[local] Hint Resolve keeps_poll_modem_ready keeps_write_eintr : keeps.
Lemma keeps_write_all fuel fd cmd cur : keeps same_mux_state (write_all fuel fd cmd cur).
Proof. revert cur. induction fuel; intros cur; cbn [write_all]; keeps_tac. Qed.
Lemma keeps_write_cr fuel fd : keeps same_mux_state (write_cr fuel fd).
Proof. induction fuel; cbn [write_cr]; keeps_tac. Qed.
#[local] Hint Resolve keeps_write_all keeps_write_cr : keeps.
Lemma keeps_send_command fuel fd cmd : keeps same_mux_state (send_command fuel fd cmd).
Proof. unfold send_command. keeps_tac. Qed.
Lemma keeps_chat_wait fuel fd : keeps same_mux_state (chat_wait fuel fd).
Proof. induction fuel; cbn [chat_wait]; keeps_tac. Qed.
Lemma keeps_chatCmux_wait fuel fd flag : keeps same_mux_state (chatCmux_wait fuel fd flag).
Proof. revert flag. induction fuel; intros flag; cbn [chatCmux_wait]; keeps_tac. Qed.
#[local] Hint Resolve keeps_send_command keeps_chat_wait keeps_chatCmux_wait : keeps.
Lemma keeps_chat fuel fd cmd : keeps same_mux_state (chat fuel fd cmd).
Proof. unfold chat. keeps_tac. Qed.
Lemma keeps_chatCmux fuel fd cmd : keeps same_mux_state (chatCmux fuel fd cmd).
Proof. unfold chatCmux. keeps_tac. Qed.

(** Two ways for [start_muxer] to return. *)
Definition start_outcome (s : Mux W) (r : Z) (s' : Mux W) : Prop :=
  if r <? 0 then same_mux_state s s'
  else s_state (m_serial s') = MUX_STATE_MUXING /\ s_in_buf_for_bootup (m_serial s') = None /\
       s_fd (m_serial s') = s_fd (m_serial s) /\ s_in_buf (m_serial s') = s_in_buf (m_serial s) /\
       m_channellist s' = m_channellist s /\ m_options s' = m_options s /\
       m_globals s' = m_globals s /\ m_heap s' = m_heap s.

Lemma check_call_outcome c k s0 s :
  keeps same_mux_state c -> same_mux_state s0 s ->
  (forall s1, same_mux_state s0 s1 -> wp (fun _ s' => same_mux_state s0 s') k (start_outcome s0) s1) ->
  wp (fun _ s' => same_mux_state s0 s') (check_call c k) (start_outcome s0) s.
Proof.
  intros Hc H Hk. unfold check_call. wp_step. specialize (Hc s). unfold wp in Hc |- *.
  destruct (c s) as [r s1|? s1|? s1|s1|s1]; try (by transitivity s).
  assert (same_mux_state s0 s1) as H1 by (by transitivity s).
  destruct (r <? 0); [|by apply Hk]. exact H1.
Qed.

Lemma start_muxer_spec fuel s :
  wp (fun _ s' => same_mux_state s s') (start_muxer fuel) (start_outcome s) s.
Proof.
  unfold start_muxer. wp_step. wp_step. set (fd := s_fd (m_serial s)).
  apply (wp_keeps same_mux_state); [apply keeps_poll_modem_ready|done|]. intros _ s1 H1.
  apply (wp_keeps same_mux_state); [apply keeps_chat|intros; by transitivity s1|]. intros r s2 H12.
  assert (same_mux_state s s2) as H2 by (by transitivity s1). cbv zeta.
  match goal with |- wp _ (if _ then check_call _ ?g else _) _ _ =>
    assert (forall s1, same_mux_state s s1 ->
      wp (fun _ s' => same_mux_state s s') g (start_outcome s) s1) as Hgo end.
  { intros s3 H3. apply check_call_outcome; [apply keeps_chat|done|]. intros s4 H4.
    apply check_call_outcome; [apply keeps_chat|done|]. intros s5 H5. wp_steps.
    - apply check_call_outcome; [apply keeps_chat|done|]. intros s6 H6.
      apply check_call_outcome; [apply keeps_chatCmux|done|]. intros s7 H7. wp_steps.
      unfold same_mux_state in H7. unfold start_outcome. simpl. intuition.
    - apply check_call_outcome; [apply keeps_chatCmux|done|]. intros s7 H7. wp_steps.
      unfold same_mux_state in H7. unfold start_outcome. simpl. intuition. }
  destruct (r <? 0); [|by apply Hgo]. apply check_call_outcome; [apply keeps_chat|done|exact Hgo].
Qed.

End outcome.

(** ** A scripted modem *)

(** The world is the list of what the next reads deliver; [select] times out when
    there is nothing left.  Writes are taken in pieces of at most three bytes. *)
Definition scripted_os : Os (list (list Z)) := fun c w =>
  match c with
  | SysSelect _ _ => (mkRet (match w with [] => 0 | _ => 1 end) 0 [] None, w)
  | SysRead _ _ => match w with
                   | [] => (mkRet (-1) EAGAIN [] None, w)
                   | bs :: w => (mkRet (zlen bs) 0 bs None, w)
                   end
  | SysWrite _ bs => (mkRet (Z.min 3 (zlen bs)) 0 [] None, w)
  | SysOpen _ => (mkRet 5 0 [] None, w)
  | _ => (mkRet 0 0 [] None, w)
  end.

Definition scripted_state (script : list (list Z)) : Mux (list (list Z)) :=
  mkMux (set_s_fd 5 (set_s_in_buf_for_bootup (Some gsm0710_buffer_init)
           (set_s_state MUX_STATE_INITILIZING initial_serial)))
    initial_channels arale_options initial_globals empty_heap 0 [] script.

Definition ok_answer : list Z := bytes_of (String (ascii_of_nat 13) (String (ascii_of_nat 10) "OK")).

(** ** Properties *)

(** [memstr] recognises the modem's answers: it reports a match only when the needle
    occurs as a whole in the bytes looked at, and it does report one when the needle comes
    after a prefix without its first character (as in [<CR><LF>OK]), whatever follows. *)
Theorem memstr_correct haystack x needle :
  (memstr haystack (zlen haystack) (x :: needle) = true ->
     exists pre post, haystack = pre ++ (x :: needle) ++ post) /\
  (forall pre post, haystack = pre ++ (x :: needle) ++ post -> Forall (fun y => y <> x) pre ->
     memstr haystack (zlen haystack) (x :: needle) = true).
Proof.
  pose proof (zlen_nonneg needle). unfold memstr. rewrite ztake_all by lia. split.
  - intros H0. apply memstr_loop_sound in H0 as (pre & post & E); [by exists pre, post|].
    rewrite zlen_cons. lia.
  - intros pre post -> Hpre. rewrite memstr_loop_skip by exact Hpre.
    apply (memstr_loop_match (x :: needle) 0 post). rewrite zlen_cons. lia.
Qed.

Lemma memstr_correct_witness :
  (exists pre post, ok_answer = pre ++ [79; 75] ++ post) /\
  memstr ok_answer (zlen ok_answer) [79; 75] = true.
Proof.
  split.
  - exact (proj1 (memstr_correct ok_answer 79 [75]) eq_refl).
  - exact (proj2 (memstr_correct ok_answer 79 [75]) [13; 10] [] eq_refl ltac:(decide_closed)).
Defined.

(** [memstr] is not a substring search, as its comment says: after a partial match it
    does not look at the mismatching character again, so that every needle of at least
    two characters whose first one does not recur is missed right after one more copy of
    that character ("OK" in "OOK"). *)
Theorem memstr_misses_after_partial_match x y needle :
  x ∉ (y :: needle) ->
  memstr (x :: x :: y :: needle) (zlen (x :: x :: y :: needle)) (x :: y :: needle) = false.
Proof.
  intros Hx. pose proof (zlen_nonneg needle). unfold memstr. rewrite ztake_all by lia.
  rewrite memstr_loop_step. change (byte_at (x :: y :: needle) 0) with x.
  rewrite Z.eqb_refl, !zlen_cons, (proj2 (Z.eqb_neq (0 + 1) _)) by lia.
  rewrite memstr_loop_step. change (byte_at (x :: y :: needle) (0 + 1)) with y.
  rewrite (proj2 (Z.eqb_neq y x)) by (intros ->; apply Hx; left).
  rewrite <- (app_nil_r (y :: needle)) at 2. rewrite memstr_loop_skip; [done|].
  apply Forall_forall. intros z Hz ->. by apply Hx.
Qed.

Lemma memstr_misses_after_partial_match_witness :
  (79 ∉ [75]) /\ memstr (bytes_of "OOK") 3 (bytes_of "OK") = false.
Proof.
  assert (79 ∉ [75]) as H by decide_closed.
  split; [exact H|exact (memstr_misses_after_partial_match 79 75 [] H)].
Defined.

(** A command reaches the modem complete however the device splits the writes: as
    long as each write takes at least one byte, [chat] and [chatCmux] have sent exactly
    the characters of the command and a carriage return when they start waiting for
    the answer. *)
Theorem command_sent_completely {W} `{!Os W} `{!ProgressOs W} fuel fd cmd (s : Mux W) :
  zlen (bytes_of cmd) < Z.of_nat fuel ->
  exists s', send_command fuel fd (bytes_of cmd) s = Ok 0 s' /\
    wire fd (m_trace s') = wire fd (m_trace s) ++ bytes_of cmd ++ [13].
Proof.
  intros H. destruct (proj1 (wp_never_ok _ _ _) (send_command_progress fuel fd (bytes_of cmd) s H))
    as (r & s' & E & -> & Hw). by exists s'.
Qed.

#[local] Instance scripted_progress : @ProgressOs _ scripted_os.
Proof.
  intros fd bs w H. simpl. assert (1 <= zlen bs).
  { destruct bs; [done|]. rewrite zlen_cons. pose proof (zlen_nonneg bs). lia. }
  lia.
Qed.

Lemma command_sent_completely_witness :
  exists s', @send_command _ scripted_os 30 5 (bytes_of "AT+CMUX=1") (scripted_state []) = Ok 0 s' /\
    wire 5 (m_trace s') = wire 5 (m_trace (scripted_state [])) ++ bytes_of "AT+CMUX=1" ++ [13].
Proof.
  apply (@command_sent_completely _ scripted_os _ 30 5 "AT+CMUX=1" (scripted_state [])).
  vm_compute. reflexivity.
Defined.

(** The two outcomes of [start_muxer].  When it returns 0 the daemon is in the state
    MUXING and the boot-up buffer has been freed; when it returns an
    error, the state machine, the channels, the receive buffer and the flags are
    untouched, so that the caller sees a failed start as no start. *)
Theorem start_muxer_outcomes {W} `{!Os W} {cfg : Config} fuel (s : Mux W) r s' :
  start_muxer fuel s = Ok r s' ->
  (r < 0 /\ same_mux_state s s') \/
  (0 <= r /\ s_state (m_serial s') = MUX_STATE_MUXING /\ s_in_buf_for_bootup (m_serial s') = None /\
   m_channellist s' = m_channellist s /\ m_globals s' = m_globals s).
Proof.
  intros E. pose proof (start_muxer_spec fuel s) as H. unfold wp in H. rewrite E in H.
  unfold start_outcome in H. destruct (Z.ltb_spec r 0); [by left|]. right. tauto.
Qed.

Lemma start_muxer_outcomes_witness :
  exists s', @start_muxer _ scripted_os 40 (scripted_state
      [bytes_of "+EIND: 128"; ok_answer; ok_answer; ok_answer; bytes_of "+CMUX: READY"; ok_answer]) = Ok 0 s' /\
    s_state (m_serial s') = MUX_STATE_MUXING /\
    wire 5 (m_trace s') = bytes_of "AT" ++ [13] ++ bytes_of "ATZ" ++ [13] ++ bytes_of "ATE0" ++ [13]
                          ++ bytes_of "AT+CMUX=0,0,5,512" ++ [13].
Proof.
  set (s0 := scripted_state _).
  assert (match @start_muxer _ scripted_os 40 s0 with
          | Ok r s' => r = 0 /\ wire 5 (m_trace s') =
              bytes_of "AT" ++ [13] ++ bytes_of "ATZ" ++ [13] ++ bytes_of "ATE0" ++ [13]
              ++ bytes_of "AT+CMUX=0,0,5,512" ++ [13]
          | _ => False end) as H by (vm_compute; split; reflexivity).
  destruct (@start_muxer _ scripted_os 40 s0) as [r s'|? ?|? ?|?|?] eqn:E; [|destruct H..].
  destruct H as [-> Hw]. exists s'.
  destruct (@start_muxer_outcomes _ scripted_os arale_config 40 s0 0 s' E) as [[H _]|(_ & H & _)];
    [exfalso; lia|].
  split; [reflexivity|]. split; [exact H|exact Hw].
Defined.

(** The multiplexer can be started only once in the life of the process: after the
    boot-up buffer was freed by a successful start (it is never allocated again), no
    later [start_muxer] returns success, whatever the modem answers: it fails, or it
    uses the freed buffer as soon as the modem sends something. *)
Theorem second_start_never_succeeds {W} `{!Os W} {cfg : Config} fuel (s : Mux W) r s' :
  s_in_buf_for_bootup (m_serial s) = None -> start_muxer fuel s = Ok r s' -> r < 0.
Proof.
  intros H E. pose proof (start_muxer_freed fuel s H) as X. unfold wp in X. rewrite E in X. apply X.
Qed.

Lemma second_start_never_succeeds_witness :
  let s0 := set_m_serial (set_s_in_buf_for_bootup None (m_serial (scripted_state []))) (scripted_state []) in
  (exists s', @start_muxer _ scripted_os 40 s0 = Ok (-1) s' /\ -1 < 0) /\
  exists s', @start_muxer _ scripted_os 40 (set_m_world [ok_answer] s0) = Undef s'.
Proof.
  intros s0. split.
  - destruct (@start_muxer _ scripted_os 40 s0) as [r s'|? ?|? ?|?|?] eqn:E;
      try (vm_compute in E; discriminate).
    pose proof (@second_start_never_succeeds _ scripted_os arale_config 40 s0 r s' eq_refl E) as Hr.
    assert (r = -1) as -> by (vm_compute in E; congruence).
    exists s'. split; [reflexivity|exact Hr].
  - eexists. vm_compute. reflexivity.
Defined.

(** [chatCmux] looks for "OK" only in as many bytes as the last read returned: an
    answer cut between the two letters by the device is missed and the start fails,
    where [chat], which looks at all the bytes received, accepts the same answer. *)
Theorem chatCmux_misses_split_answer :
  let script := [ztake 3 ok_answer; zdrop 3 ok_answer] in
  (exists s', @chatCmux _ scripted_os 40 5 "AT+CMUX=1" (scripted_state script) = Ok (-1) s') /\
  (exists s', @chat _ scripted_os 40 5 "AT" (scripted_state script) = Ok 0 s').
Proof. split; eexists; vm_compute; reflexivity. Qed.

(** [open_serial_device] on a device that opens puts the whole daemon in its initial
    state: all 32 slots fresh (closed, with the table's link and frame size), the ping
    counter cleared, the descriptor recorded, state INITILIZING; the receive buffer and
    the flags are left alone. *)
Theorem open_serial_initialises {W} `{!Os W} {cfg : Config} (s : Mux W) :
  zlen (m_channellist s) = GSM0710_MAX_CHANNELS -> Forall (fun c => ch_rx_fl c = 0) (m_channellist s) ->
  s_devicename (m_serial s) <> "/dev/socket/qemud"%string ->
  (forall p w, 0 <= ret (fst (os_call (SysOpen p) w))) ->
  (forall fd w, 0 <= ret (fst (os_call (SysFcntl fd) w))) ->
  exists s', open_serial_device s = Ok 0 s' /\ s_state (m_serial s') = MUX_STATE_INITILIZING /\
    0 <= s_fd (m_serial s') /\ s_ping_number (m_serial s') = 0 /\ m_globals s' = m_globals s /\
    s_in_buf (m_serial s') = s_in_buf (m_serial s) /\
    zlen (m_channellist s') = GSM0710_MAX_CHANNELS /\
    forall i c, 0 <= i -> m_channellist s' !! Z.to_nat i = Some c ->
      fresh_channel (o_cmux_N1 (m_options s)) i c.
Proof.
  intros Hlen Hz Hdev Hopen Hfcntl.
  assert (wp never open_serial_device (fun r s' => r = 0 /\
    s_state (m_serial s') = MUX_STATE_INITILIZING /\
    0 <= s_fd (m_serial s') /\ s_ping_number (m_serial s') = 0 /\ m_globals s' = m_globals s /\
    s_in_buf (m_serial s') = s_in_buf (m_serial s) /\
    zlen (m_channellist s') = GSM0710_MAX_CHANNELS /\
    forall i c, 0 <= i -> m_channellist s' !! Z.to_nat i = Some c ->
      fresh_channel (o_cmux_N1 (m_options s)) i c) s) as H.
  { unfold open_serial_device. wp_step. eapply wp_mono.
    { apply (init_channels_spec 32 s); [lia|done|done|]. intros i c Hi. lia. }
    intros [] s1 (S1 & S2 & S3 & S4 & S5). cbn beta. wp_step. wp_step. wp_step. wp_step. frame_simpl.
    rewrite S1. simpl. rewrite (proj2 (String.eqb_neq _ _) Hdev). do 4 wp_step.
    rewrite (proj2 (Z.ltb_ge _ _) (Hopen _ _)).
    do 2 (apply wp_syscheck; [intros X; exfalso; eapply Z.lt_irrefl, Z.le_lt_trans; [apply Hfcntl|exact X]|intros _]).
    unfold serial_opened. wp_steps. split; [done|]. frame_simpl. simpl. split_and!; try done.
    all: by (apply Hopen || rewrite S1). }
  destruct (proj1 (wp_never_ok _ _ _) H) as (r & s' & E & -> & R). by exists s'.
Qed.

Lemma open_serial_initialises_witness :
  exists s', @open_serial_device _ scripted_os arale_config (scripted_state []) = Ok 0 s' /\
    s_state (m_serial s') = MUX_STATE_INITILIZING.
Proof.
  destruct (@open_serial_initialises _ scripted_os arale_config (scripted_state []))
    as (s' & E & H & _).
  - reflexivity.
  - apply (bool_decide_unpack _). vm_compute. exact I.
  - discriminate.
  - intros p w. simpl. lia.
  - intros fd w. simpl. lia.
  - exists s'. split; [exact E|exact H].
Defined.
