(* ===== verification/Watchdog.v ===== *)
(** * The state machine of the daemon

    [close_devices], [shutdown_devices], [signal_treatment] and [watchdog] of
    src/mtk/gsm0710muxd/src/gsm0710muxd.c.  [watchdog] holds [watch_lock] from
    beginning to end, so its runs do not interleave with each other. *)
From S2P Require Import Prelude Ring Frame MuxState Logic WriteFrame FrameList FlowControl.
From S2P Require Import Channel Boot.

(** CLD command and TEST ("PING\r\n") command. *)
Definition close_channel_cmd : list Z :=
  [Z.lor GSM0710_CONTROL_CLD GSM0710_CR; Z.lor GSM0710_EA (Z.shiftl 0 1)].
Definition test_channel_cmd : list Z :=
  [Z.lor GSM0710_CONTROL_TEST GSM0710_CR; Z.lor GSM0710_EA (Z.shiftl 6 1);
   0x50; 0x49; 0x4E; 0x47; 13; 10].

Inductive SHUTDOWN_DEV_TYPE :=
| SHUTDOWN_DEV_WO_ACTIVE_FINALIZED | SHUTDOWN_DEV_W_ACTIVE_FINALIZED.

#[global] Instance shutdown_type_eq_dec : EqDecision SHUTDOWN_DEV_TYPE.
Proof. solve_decision. Defined.

(** The indices 1 to [GSM0710_MAX_CHANNELS - 1] the loops run over. *)
Definition data_channels : list Z := seqZ 1 (GSM0710_MAX_CHANNELS - 1).

Section code.
Context {W : Type} `{!Os W} `{!Others W} {cfg : Config}.

(** The loop of [close_devices]; the number of DISC frames sent. *)
Fixpoint disconnect_channels (ids : list Z) (num_disc_sent : Z) : M W Z :=
  match ids with
  | [] => mreturn num_disc_sent
  | i :: ids =>
      do c <- get_channel i;
      if (0 <=? ch_fd c) && ch_opened c then
        do adv <- gets (fun s => o_cmux_mode (m_options s));
        if adv then
          write_frame i [] (Z.lor GSM0710_CONTROL_CLD GSM0710_CR);;;
          disconnect_channels ids num_disc_sent
        else
          modify_channel i (set_ch_disc_ua_pending true);;;
          write_frame i [] (Z.lor GSM0710_TYPE_DISC GSM0710_PF);;;
          disconnect_channels ids (num_disc_sent + 1)
      else disconnect_channels ids num_disc_sent
  end.

Definition close_devices : M W Z :=
  modify_globals (set_g_close_down_send_disc true);;;
  do num_disc_sent <- disconnect_channels data_channels 0;
  do fd <- gets (fun s => s_fd (m_serial s));
  if 0 <=? fd then
    mwhen (0 <? num_disc_sent)
      (syscall SysTime;;;
       cond_wait C_ua_rsp_for_disc;;;
       modify_globals (set_g_close_down_send_disc false));;;
    do adv <- gets (fun s => o_cmux_mode (m_options s));
    (if adv then write_frame 0 [] (Z.lor GSM0710_CONTROL_CLD GSM0710_CR)
     else write_frame 0 close_channel_cmd GSM0710_TYPE_UIH);;;
    do fd <- gets (fun s => s_fd (m_serial s));
    syscheck (SysClose fd) (fun _ =>
      modify_serial (set_s_fd (-1));;;
      modify_serial (set_s_state MUX_STATE_OFF);;;
      mreturn 0)
  else
    modify_serial (set_s_state MUX_STATE_OFF);;;
    mreturn 0.

(** The loop of [shutdown_devices]. *)
Fixpoint close_opened (ids : list Z) : M W unit :=
  match ids with
  | [] => mreturn tt
  | i :: ids =>
      do c <- get_channel i;
      mwhen ((0 <=? ch_fd c) && ch_opened c) (logical_channel_close i;;; mreturn tt);;;
      close_opened ids
  end.

Definition shutdown_devices (shutdown_type : SHUTDOWN_DEV_TYPE) : M W Z :=
  close_opened data_channels;;;
  do fd <- gets (fun s => s_fd (m_serial s));
  if 0 <=? fd then
    mwhen (bool_decide (shutdown_type = SHUTDOWN_DEV_WO_ACTIVE_FINALIZED))
      (write_frame 0 [clear_bits (byte_at close_channel_cmd 0) GSM0710_CR;
                      byte_at close_channel_cmd 1] GSM0710_TYPE_UIH;;;
       mreturn tt);;;
    syscheck (SysClose fd) (fun _ =>
      modify_serial (set_s_fd (-1));;;
      modify_serial (set_s_state MUX_STATE_OFF);;;
      mreturn 0)
  else
    modify_serial (set_s_state MUX_STATE_OFF);;;
    mreturn 0.

Definition mexit {A} (code : Z) : M W A := fun s => Exit code s.

(** [signal_treatment(param)] *)
Definition signal_treatment (param : Z) : M W unit :=
  if param =? SIGPIPE then mexit 0
  else if param =? SIGHUP then mreturn tt
  else if param =? SIGINT then set_main_exit_signal param
  else if param =? SIGTERM then
    do g <- gets m_globals;
    if production_release && g_force_assert g && g_alarm g then
      syscall (SysAlarm 0);;;
      modify_globals (fun g => set_g_alarm false (set_g_force_assert false g));;;
      mexit 0
    else if production_release && g_force_assert g && negb (g_alarm g) then
      modify_globals (set_g_force_assert false);;;
      mexit 0
    else set_main_exit_signal param
  else if param =? SIGUSR1 then set_main_exit_signal 1
  else if param =? SIGUSR2 then
    do g <- gets m_globals;
    mwhen (negb (g_stop_muxd g))
      (modify_globals (set_g_stop_muxd true);;;
       shutdown_devices SHUTDOWN_DEV_W_ACTIVE_FINALIZED;;;
       mreturn tt)
  else if production_release && (param =? SIGALRM) then
    do g <- gets m_globals;
    mwhen (g_force_assert g)
      (modify_globals (fun g => set_g_alarm false (set_g_force_assert false g));;;
       syscall (SysPropertySet "ril.mux.report.case" "2");;;
       syscall (SysPropertySet "ril.muxreport" "1");;;
       mreturn tt)
  else
    do g <- gets m_globals;
    if negb (g_stop_muxd g) then
      modify_globals (set_g_stop_muxd true);;;
      do r <- shutdown_devices SHUTDOWN_DEV_W_ACTIVE_FINALIZED;
      if r <? 0 then mreturn tt else mexit 0
    else mexit 0.

(** The loop that allocates the virtual ports: the error code, or 0. *)
Fixpoint alloc_ports (n : nat) : M W Z :=
  match n with
  | O => mreturn 0
  | S n => do rc <- c_alloc_channel; if 0 <? rc then mreturn rc else alloc_ports n
  end.

(** The case [MUX_STATE_INITILIZING]. *)
Definition watchdog_init (fuel : nat) : M W Z :=
  do r <- start_muxer fuel;
  if r <? 0 then
    Gsm0710Muxd_Assert GSM0710MUXD_START_MUXER_ERR;;;
    mreturn GSM0710MUXD_START_MUXER_ERR
  else
    do t <- create_thread T_assemble_frame;
    if negb (t =? 0) then mreturn GSM0710MUXD_CREATE_THREAD_ERR
    else
      do fd <- gets (fun s => s_fd (m_serial s));
      do t <- create_thread (T_poll_serial fd);
      if negb (t =? 0) then mreturn GSM0710MUXD_CREATE_THREAD_ERR
      else
        modify_channel 0 (set_ch_sabm_ua_pending true);;;
        write_frame 0 [] (Z.lor GSM0710_TYPE_SABM GSM0710_PF);;;
        do ports <- gets (fun s => o_vir_ports (m_options s));
        do rc <- alloc_ports (Z.to_nat ports);
        if 0 <? rc then mreturn rc
        else
          do done <- gets (fun s => g_setup_complete (m_globals s));
          mwhen (negb done) (cond_wait C_setup_complete);;;
          do started <- gets (fun s => g_rild_started (m_globals s));
          mwhen (started =? 0)
            (modify_globals (set_g_rild_started (started + 1));;;
             syscall (SysPropertySet "ctl.stop" "ril-daemon");;;
             syscall (SysPropertySet "ctl.start" "ril-daemon-mtk");;;
             syscall SysSetuid;;;
             mreturn tt);;;
          mreturn 0.

(** The pseudo terminals to set up again; [err] is the last failure. *)
Fixpoint reopen_channels (ids : list Z) (err : Z) : M W Z :=
  match ids with
  | [] => mreturn err
  | i :: ids =>
      do c <- get_channel i;
      if ch_reopen c then
        do r <- setup_pty_interface i;
        if negb (r =? GSM0710MUXD_SUCCESS) then reopen_channels ids GSM0710MUXD_RESTART_PTY_ERR
        else
          modify_channel i (set_ch_reopen false);;;
          reopen_channels ids err
      else reopen_channels ids err
  end.

(** The case [MUX_STATE_MUXING]; [pts_reopen] is always set by its first loop. *)
Definition watchdog_muxing : M W Z :=
  modify_globals (set_g_pts_reopen true);;;
  do err <- reopen_channels data_channels GSM0710MUXD_SUCCESS;
  mwhen (negb (err =? GSM0710MUXD_SUCCESS)) (Gsm0710Muxd_Assert err);;;
  do o <- gets m_options;
  mwhen (negb (o_use_ping o =? 0))
    (do n <- gets (fun s => s_ping_number (m_serial s));
     if o_use_ping o <? n then modify_serial (set_s_state MUX_STATE_CLOSING)
     else
       write_frame 0 test_channel_cmd GSM0710_TYPE_UI;;;
       modify_serial (fun x => set_s_ping_number (s_ping_number x + 1) x));;;
  mwhen (negb (o_use_timeout o =? 0))
    (do t <- syscall SysTime;
     do last <- gets (fun s => s_frame_receive_time (m_serial s));
     mwhen (o_use_timeout o <? ret t - last)
       (modify_serial (set_s_state MUX_STATE_CLOSING)));;;
  mreturn 0.

Definition watchdog (fuel : nat) : M W Z :=
  do st <- gets (fun s => s_state (m_serial s));
  match st with
  | MUX_STATE_OPENING =>
      do r <- open_serial_device;
      if negb (r =? 0) then mreturn GSM0710MUXD_OPEN_SERIAL_DEV_ERR
      else watchdog_init fuel
  | MUX_STATE_INITILIZING => watchdog_init fuel
  | MUX_STATE_MUXING => watchdog_muxing
  | MUX_STATE_CLOSING =>
      close_devices;;; modify_serial (set_s_state MUX_STATE_OPENING);;; mreturn 0
  | MUX_STATE_PEER_CLOSING =>
      shutdown_devices SHUTDOWN_DEV_WO_ACTIVE_FINALIZED;;;
      modify_serial (set_s_state MUX_STATE_OPENING);;; mreturn 0
  | _ => mreturn 0
  end.

End code.

(** ** The state of the multiplexer *)

Section state.
Context {W : Type} `{!Os W} {cfg : Config}.
Implicit Types s : Mux W.

Definition same_state (s s' : Mux W) : Prop := s_state (m_serial s') = s_state (m_serial s).

#[global] Instance same_state_preorder : PreOrder same_state.
Proof. split; [done|]. unfold same_state. intros ? ? ? ? ?. congruence. Qed.

Lemma st_call c : keeps same_state (syscall c).
Proof. apply keeps_syscall. intros s. unfold same_state. by frame_simpl. Qed.
Lemma st_modify_channel i f : keeps same_state (modify_channel i f).
Proof. by apply keeps_modify_channel; [apply _|]. Qed.
Lemma st_emit e : keeps same_state (emit e).
Proof. by apply keeps_modify. Qed.
Lemma st_signal c : keeps same_state (cond_signal c).
Proof. apply st_emit. Qed.
Lemma st_globals f : keeps same_state (modify_globals f).
Proof. by apply keeps_modify. Qed.
Lemma st_with_heap {A} (f : Heap -> option (A * Heap)) : keeps same_state (with_heap f).
Proof. intros s. unfold wp, with_heap. by destruct (f (m_heap s)) as [[? ?]|]. Qed.
Lemma st_errno n : keeps same_state (modify (set_m_errno n)).
Proof. by apply keeps_modify. Qed.
#[local] Hint Resolve st_call st_modify_channel st_emit st_signal st_globals st_with_heap st_errno : keeps.

Lemma st_syscheck c k : (forall r, keeps same_state (k r)) -> keeps same_state (syscheck c k).
Proof. apply keeps_syscheck; [apply _|]. intros s. unfold same_state. by frame_simpl. Qed.

Lemma st_set_main_exit_signal n : keeps same_state (set_main_exit_signal n).
Proof. unfold set_main_exit_signal. keeps_tac. Qed.
#[local] Hint Resolve st_set_main_exit_signal : keeps.
Lemma st_assert n : keeps same_state (Gsm0710Muxd_Assert n).
Proof. unfold Gsm0710Muxd_Assert. keeps_tac. Qed.
Lemma st_assert_fc n : keeps same_state (Gsm0710Muxd_Assert_fc n).
Proof. unfold Gsm0710Muxd_Assert_fc. keeps_tac. Qed.
Lemma st_write_failed n : keeps same_state (write_failed n).
Proof. unfold write_failed. keeps_tac. Qed.
#[local] Hint Resolve st_assert st_assert_fc st_write_failed : keeps.
Lemma st_write_frame ch input ty : keeps same_state (write_frame ch input ty).
Proof. unfold write_frame, write_frame_adv, write_frame_basic. keeps_tac. Qed.
#[local] Hint Resolve st_write_frame : keeps.
Lemma st_closeContext ch : keeps same_state (_fc_closeContext ch).
Proof. unfold _fc_closeContext. keeps_tac. Qed.
#[local] Hint Resolve st_closeContext : keeps.
Lemma st_channel_close ch : keeps same_state (logical_channel_close ch).
Proof. unfold logical_channel_close. keeps_tac. Qed.
#[local] Hint Resolve st_channel_close : keeps.
Lemma st_channel_init ch id : keeps same_state (logical_channel_init ch id).
Proof. unfold logical_channel_init, _fc_initContext. keeps_tac. Qed.
Lemma st_create_thread t : keeps same_state (create_thread t).
Proof. unfold create_thread. keeps_tac. Qed.
#[local] Hint Resolve st_channel_init st_create_thread : keeps.
Lemma st_setup_pty ch : keeps same_state (setup_pty_interface ch).
Proof.
  unfold setup_pty_interface, publish_pts.
  repeat first [progress keeps_tac | apply st_syscheck; intros ?].
Qed.
#[local] Hint Resolve st_setup_pty : keeps.
Lemma st_establish ch : keeps same_state (logical_channel_establish ch).
Proof. unfold logical_channel_establish. keeps_tac. Qed.
#[local] Hint Resolve st_establish : keeps.
Lemma st_first_closed l : keeps same_state (first_closed l).
Proof. induction l; cbn [first_closed]; keeps_tac. Qed.
#[local] Hint Resolve st_first_closed : keeps.
Lemma st_c_alloc : keeps same_state c_alloc_channel.
Proof. unfold c_alloc_channel. keeps_tac. Qed.
#[local] Hint Resolve st_c_alloc : keeps.
Lemma st_alloc_ports n : keeps same_state (alloc_ports n).
Proof. induction n; cbn [alloc_ports]; keeps_tac. Qed.
Lemma st_reopen l e : keeps same_state (reopen_channels l e).
Proof. revert e. induction l; intros e; cbn [reopen_channels]; keeps_tac. Qed.
Lemma st_init_channels l : keeps same_state (init_channels l).
Proof. induction l; cbn [init_channels]; keeps_tac. Qed.
#[local] Hint Resolve st_alloc_ports st_reopen st_init_channels : keeps.

End state.

#[export] Hint Resolve st_call st_modify_channel st_emit st_signal st_globals st_with_heap st_errno
  st_assert st_assert_fc st_write_frame st_channel_close st_create_thread st_setup_pty st_alloc_ports
  st_reopen st_init_channels : keeps.

(** The changes of state one call of [watchdog] may make. *)
Inductive mux_edge : MuxerStates -> MuxerStates -> Prop :=
| edge_stay st : mux_edge st st
| edge_opened : mux_edge MUX_STATE_OPENING MUX_STATE_INITILIZING
| edge_started st : st = MUX_STATE_OPENING \/ st = MUX_STATE_INITILIZING -> mux_edge st MUX_STATE_MUXING
| edge_give_up : mux_edge MUX_STATE_MUXING MUX_STATE_CLOSING
| edge_closed st : st = MUX_STATE_CLOSING \/ st = MUX_STATE_PEER_CLOSING -> mux_edge st MUX_STATE_OPENING.

(** The other threads do not touch the state while the watchdog waits for them. *)
Class SteadyOthers (W : Type) `{!Others W} :=
  others_steady : forall c s, s_state (m_serial (others_run c s)) = s_state (m_serial s).

Section transitions.
Context {W : Type} `{!Os W} `{!Others W} `{!SteadyOthers W} {cfg : Config}.
Implicit Types s : Mux W.

Lemma st_cond_wait c : keeps same_state (cond_wait c).
Proof. apply keeps_modify. intros s. apply others_steady. Qed.
#[local] Hint Resolve st_cond_wait : keeps.

Lemma open_serial_states s :
  wp whatever open_serial_device (fun r s' =>
    s_state (m_serial s') = if r =? 0 then MUX_STATE_INITILIZING else s_state (m_serial s)) s.
Proof.
  unfold open_serial_device. apply (wp_keeps same_state); [apply st_init_channels|done|].
  intros _ s1 H1. unfold same_state in H1.
  assert (forall s2, wp whatever serial_opened (fun r s' =>
    s_state (m_serial s') = if r =? 0 then MUX_STATE_INITILIZING else s_state (m_serial s)) s2) as Hopen.
  { intros s2. unfold serial_opened. wp_steps. frame_simpl. done. }
  wp_steps; try (frame_simpl; simpl; exact H1); try apply Hopen.
  all: try (by unfold qemud_handshake; wp_steps; try apply Hopen; frame_simpl).
Qed.

Lemma watchdog_init_states fuel s :
  wp whatever (watchdog_init fuel) (fun _ s' =>
    s_state (m_serial s') = s_state (m_serial s) \/ s_state (m_serial s') = MUX_STATE_MUXING) s.
Proof.
  unfold watchdog_init. wp_step. eapply wp_mono.
  { eapply wp_weaken; [apply start_muxer_spec|done]. }
  intros r s1 Ho. cbn beta. unfold start_outcome in Ho. destruct (r <? 0).
  - destruct Ho as [Hs _]. apply (keeps_wp same_state); [keeps_tac|done|].
    intros _ s2 H2. left. unfold same_state in H2. congruence.
  - destruct Ho as [Hs _]. apply (keeps_wp same_state); [keeps_tac|done|].
    intros _ s2 H2. right. unfold same_state in H2. congruence.
Qed.

Lemma watchdog_muxing_states s :
  s_state (m_serial s) = MUX_STATE_MUXING ->
  wp whatever watchdog_muxing (fun _ s' =>
    s_state (m_serial s') = MUX_STATE_MUXING \/ s_state (m_serial s') = MUX_STATE_CLOSING) s.
Proof.
  intros Hs. unfold watchdog_muxing.
  assert (forall s1 o, (s_state (m_serial s1) = MUX_STATE_MUXING \/ s_state (m_serial s1) = MUX_STATE_CLOSING) ->
    wp whatever (mwhen (negb (o_use_timeout o =? 0))
      (do t <- syscall SysTime;
       do last <- gets (fun s => s_frame_receive_time (m_serial s));
       mwhen (o_use_timeout o <? ret t - last) (modify_serial (set_s_state MUX_STATE_CLOSING)));;;
      mreturn 0)
    (fun _ s' => s_state (m_serial s') = MUX_STATE_MUXING \/ s_state (m_serial s') = MUX_STATE_CLOSING) s1) as Ht.
  { intros s1 o H1. wp_steps; frame_simpl; auto. }
  apply (wp_keeps same_state); [keeps_tac|done|]. intros _ s1 H1.
  apply (wp_keeps same_state); [keeps_tac|done|]. intros e s2 H2.
  apply (wp_keeps same_state); [keeps_tac|done|]. intros _ s3 H3.
  assert (s_state (m_serial s3) = MUX_STATE_MUXING) as E3 by (unfold same_state in *; congruence).
  wp_step. wp_step. wp_step. wp_step; [|by apply Ht; left]. wp_step. wp_step. wp_step.
  - wp_step. apply Ht. by right.
  - apply (wp_keeps same_state); [apply st_write_frame|done|]. intros _ s4 H4. wp_step.
    apply Ht. left. simpl. unfold same_state in H4. congruence.
Qed.

Lemma watchdog_edges fuel s :
  wp whatever (watchdog fuel) (fun _ s' => mux_edge (s_state (m_serial s)) (s_state (m_serial s'))) s.
Proof.
  unfold watchdog. wp_step. wp_step. destruct (s_state (m_serial s)) eqn:Hs.
  - wp_step. eapply wp_mono; [apply open_serial_states|]. intros r s1 H1. cbn beta in H1 |- *.
    wp_step; reflect_bools.
    + rewrite (proj2 (Z.eqb_neq _ _)) in H1 by done. wp_step. rewrite H1, Hs. constructor.
    + subst r. simpl in H1. eapply wp_mono; [apply watchdog_init_states|].
      intros _ s2 [->| ->]; [rewrite H1; constructor|]. constructor. by left.
  - eapply wp_mono; [apply watchdog_init_states|].
    intros _ s2 [->| ->]; [rewrite Hs; constructor|]. constructor. by right.
  - wp_step. rewrite Hs. constructor.
  - wp_step. rewrite Hs. constructor.
  - eapply wp_mono; [by apply watchdog_muxing_states|]. intros _ s2 [->| ->]; constructor.
  - wp_step. apply wp_mono with (fun _ _ => True); [|intros; wp_steps; constructor; by left].
    unfold wp, whatever. by destruct (close_devices s).
  - wp_step. apply wp_mono with (fun _ _ => True); [|intros; wp_steps; constructor; by right].
    unfold wp, whatever. by destruct (shutdown_devices _ s).
  - wp_step. rewrite Hs. constructor.
Qed.

End transitions.

(** ** Closing everything *)

(** A slot with a descriptor and an acknowledged SABM. *)
Definition active (c : Channel) : bool := (0 <=? ch_fd c) && ch_opened c.

Lemma closed_inactive c : active (closed_channel c) = false.
Proof. unfold active, closed_channel. simpl. apply andb_false_r. Qed.

(** Slot by slot, the second list is the first with some channels closed. *)
Definition some_closed (l l' : list Channel) : Prop :=
  Forall2 (fun c c' => c' = c \/ c' = closed_channel c) l l'.

Section closing.
Context {W : Type} `{!Os W} {cfg : Config}.
Implicit Types s : Mux W.

Definition no_lists (s : Mux W) : Prop :=
  zlen (m_channellist s) = GSM0710_MAX_CHANNELS /\ Forall (fun c => ch_rx_fl c = 0) (m_channellist s).

Lemma some_closed_refl l : some_closed l l.
Proof. apply Forall2_same_length_lookup. split; [done|]. intros i x y ? ?. left. congruence. Qed.

Lemma some_closed_insert l i c :
  l !! i = Some c -> some_closed l (<[i := closed_channel c]> l).
Proof.
  intros H. apply Forall2_same_length_lookup. split; [by rewrite length_insert|].
  intros j x y Hx Hy. destruct (decide (j = i)) as [->|Hne].
  - rewrite list_lookup_insert_eq in Hy by (by apply lookup_lt_Some in H). right. congruence.
  - rewrite list_lookup_insert_ne in Hy by done. left. congruence.
Qed.

Lemma closed_twice c : closed_channel (closed_channel c) = closed_channel c.
Proof.
  unfold closed_channel at 2 3. destruct (0 <=? ch_fd c) eqn:E; [destruct c; vm_compute; reflexivity|].
  unfold closed_channel.
  match goal with |- context [0 <=? ch_fd ?d] => replace (0 <=? ch_fd d) with false by (by destruct c) end.
  destruct c. vm_compute. reflexivity.
Qed.

Lemma some_closed_trans l1 l2 l3 : some_closed l1 l2 -> some_closed l2 l3 -> some_closed l1 l3.
Proof.
  intros H12. revert l3. induction H12 as [|x y l1 l2 Hxy _ IH]; intros l3 H23;
    inversion_clear H23 as [|? z ? l3' Hyz Hl]; constructor; [|by apply IH].
  destruct Hxy as [->| ->], Hyz as [->| ->]; auto. right. apply closed_twice.
Qed.

Lemma close_opened_spec ids s :
  Forall (fun i => 0 <= i < GSM0710_MAX_CHANNELS) ids -> no_lists s ->
  wp never (close_opened ids) (fun _ s' => no_lists s' /\
    m_serial s' = m_serial s /\ m_options s' = m_options s /\ m_globals s' = m_globals s /\
    some_closed (m_channellist s) (m_channellist s') /\
    forall i c, i ∈ ids -> m_channellist s' !! Z.to_nat i = Some c -> active c = false) s.
Proof.
  revert s. induction ids as [|i ids IH]; intros s Hids Hn; cbn [close_opened].
  { wp_step. split_and!; try done; [apply some_closed_refl|]. intros i c []%elem_of_nil. }
  apply Forall_cons in Hids as [Hi Hids]. destruct Hn as [Hlen Hz].
  assert (is_Some (m_channellist s !! Z.to_nat i)) as [c Hc].
  { apply lookup_lt_is_Some_2. unfold zlen in Hlen. change GSM0710_MAX_CHANNELS with 32 in *. lia. }
  wp_step. eapply wp_get_channel; [lia|done|]. wp_step.
  apply wp_mono with (Q := fun _ s1 => no_lists s1 /\
    m_serial s1 = m_serial s /\ m_options s1 = m_options s /\ m_globals s1 = m_globals s /\
    exists c1, m_channellist s1 = <[Z.to_nat i := c1]> (m_channellist s) /\
      (c1 = c \/ c1 = closed_channel c) /\ active c1 = false).
  { fold (active c). wp_step; [|split_and!; try done; exists c; rewrite list_insert_id; auto].
    wp_step. eapply wp_mono; [apply (channel_close_spec i c (m_heap s)); [lia|done|]|].
    { unfold fl_destroy. by rewrite (Forall_lookup_1 _ _ _ _ Hz Hc). }
    intros r s1 [-> (S1 & S2 & S3 & S4 & S5)]. cbn beta. wp_step. split; [split|].
    - by rewrite S5, zlen_insert.
    - rewrite S5. apply Forall_insert; [done|]. unfold closed_channel. simpl.
      destruct (0 <=? ch_fd c); by apply (Forall_lookup_1 _ _ _ _ Hz Hc).
    - split_and!; try done. exists (closed_channel c). split_and!; auto using closed_inactive. }
  intros [] s1 (Hn1 & S1 & S2 & S3 & c1 & S5 & Hc1 & Ha).
  eapply wp_mono; [by apply IH|]. intros [] s2 (Hn2 & T1 & T2 & T3 & T4 & T5).
  assert (some_closed (m_channellist s) (m_channellist s1)) as H01.
  { rewrite S5. destruct Hc1 as [->| ->]; [rewrite list_insert_id by done; apply some_closed_refl|].
    by apply some_closed_insert. }
  split_and!; try congruence; [by eapply some_closed_trans|].
  intros j d [->|Hj]%elem_of_cons Hd; [|by eapply T5].
  unfold some_closed in T4. rewrite S5 in T4.
  destruct (Forall2_lookup_r _ _ _ _ _ T4 Hd) as (c1' & Hc1' & Hor).
  rewrite list_lookup_insert_eq in Hc1' by (by apply lookup_lt_Some in Hc). injection Hc1' as <-.
  destruct Hor as [->| ->]; [done|apply closed_inactive].
Qed.

End closing.

Section ports.
Context {W : Type} `{!Os W} {cfg : Config} `{!WorkingOs}.
Implicit Types s : Mux W.

Lemma alloc_ports_spec n k s :
  ports_state k s -> (k + n <= length cfg_slots)%nat ->
  wp never (alloc_ports n) (fun r s' => r = 0 /\ ports_state (k + n) s' /\
    wire (s_fd (m_serial s)) (m_trace s') =
    wire (s_fd (m_serial s)) (m_trace s) ++ concat (map sabm (take n (drop k cfg_slots)))) s.
Proof.
  revert k s. induction n as [|n IH]; intros k s P Hk; cbn [alloc_ports].
  { wp_step. rewrite Nat.add_0_r, app_nil_r. done. }
  destruct (lookup_lt_is_Some_2 cfg_slots k) as [slot Hs]; [lia|].
  wp_step. eapply wp_mono; [by eapply alloc_one|]. intros r s1 (-> & P1 & S1 & W1).
  change (0 <? GSM0710MUXD_SUCCESS) with false. cbn iota.
  eapply wp_mono; [apply IH; [done|lia]|]. intros r s2 (-> & P2 & W2).
  rewrite S1, W1 in W2. replace (k + S n)%nat with (S k + n)%nat by lia. split_and!; try done.
  rewrite W2, <- app_assoc. f_equal. rewrite (drop_S cfg_slots slot k Hs). done.
Qed.

End ports.

(** ** Properties *)

(** Starting the daemon opens exactly the configured channels, in the order of
    [ch_cfg]: on a working system the allocation loop succeeds, every configured
    channel ends with an open pseudo terminal and a pending SABM, and what goes to the
    modem is one SABM frame per channel, in that order. *)
Theorem all_ports_opened {W} `{!Os W} {cfg : Config} `{!WorkingOs} (s : Mux W) :
  ports_state 0 s ->
  exists s', alloc_ports (Z.to_nat (MUXD_CH_NUM_ALL - 1)) s = Ok 0 s' /\
    ports_state (length cfg_slots) s' /\
    wire (s_fd (m_serial s)) (m_trace s') =
    wire (s_fd (m_serial s)) (m_trace s) ++ concat (map sabm cfg_slots).
Proof.
  intros P.
  assert (length cfg_slots = Z.to_nat (MUXD_CH_NUM_ALL - 1)) as L.
  { destruct ch_cfg_table as (Hl & _). unfold cfg_slots. rewrite length_map, <- Hl, ztake_all by lia.
    unfold zdrop, zlen. rewrite length_drop. lia. }
  rewrite <- L.
  destruct (proj1 (wp_never_ok _ _ _) (alloc_ports_spec (length cfg_slots) 0 s P ltac:(lia)))
    as (r & s' & E & -> & P' & Hw).
  exists s'. split_and!; try done. by rewrite Hw, drop_0, firstn_all.
Qed.

(** A device just initialised: every slot closed. *)
Definition ready_channels : list Channel :=
  map (fun i => mkChannel i (-1) (Some "/dev/ptmx"%string) None None false false false false 512 0
                 false false false 0 0 0) (seqZ 0 32).
Definition ready_state : Mux unit :=
  mkMux (set_s_fd 3 (set_s_state MUX_STATE_MUXING initial_serial)) ready_channels arale_options
    initial_globals empty_heap 0 [] tt.

Lemma ready_ports : @ports_state unit arale_config 0 ready_state.
Proof.
  split_and!; try done. intros j slot H.
  assert (slot ∈ @cfg_slots arale_config) as Hin by (by apply list_elem_of_lookup_2 with j).
  rewrite bool_decide_eq_false_2 by lia.
  assert (Forall (fun x => exists c, ready_channels !! Z.to_nat x = Some c /\ ch_id c = x /\
    ch_devicename c = Some "/dev/ptmx"%string /\ 0 <= ch_negotiated_N1 c /\ ch_fd c < 0)
    (@cfg_slots arale_config)) as F.
  { repeat (apply Forall_cons; split; [eexists; split_and!; [reflexivity|done|done|vm_compute; discriminate|done]|]).
    by apply Forall_nil. }
  rewrite Forall_forall in F. exact (F slot Hin).
Qed.

Lemma all_ports_opened_witness :
  exists s', @alloc_ports unit working_os arale_config 12 ready_state = Ok 0 s' /\
    wire 3 (m_trace s') = concat (map sabm [1; 2; 3; 4; 5; 26; 6; 7; 8; 9; 10; 27]).
Proof.
  destruct (@all_ports_opened unit working_os arale_config working_os_works ready_state ready_ports)
    as (s' & E & _ & Hw).
  exists s'. split; [exact E|exact Hw].
Defined.


Definition no_others {W} : Others W := fun _ s => s.
#[local] Instance no_others_steady {W} : @SteadyOthers W no_others.
Proof. by intros c s. Qed.


(** [shutdown_devices] leaves no channel in use: for every system (whose [close] of
    the serial device succeeds) it ends in state OFF with the serial descriptor closed,
    no data channel is both open and acknowledged any more, each slot is either
    untouched or reset by [logical_channel_close], and no option changes. *)
Theorem shutdown_closes_all {W} `{!Os W} {cfg : Config} (s : Mux W) :
  no_lists s -> (forall fd w, 0 <= ret (fst (os_call (SysClose fd) w))) ->
  exists s', shutdown_devices SHUTDOWN_DEV_W_ACTIVE_FINALIZED s = Ok 0 s' /\
    s_state (m_serial s') = MUX_STATE_OFF /\ s_fd (m_serial s') < 0 /\
    some_closed (m_channellist s) (m_channellist s') /\ m_options s' = m_options s /\
    forall i c, 1 <= i < GSM0710_MAX_CHANNELS -> m_channellist s' !! Z.to_nat i = Some c ->
      active c = false.
Proof.
  intros Hn Hclose.
  assert (wp never (shutdown_devices SHUTDOWN_DEV_W_ACTIVE_FINALIZED) (fun r s' => r = 0 /\
    s_state (m_serial s') = MUX_STATE_OFF /\ s_fd (m_serial s') < 0 /\
    some_closed (m_channellist s) (m_channellist s') /\ m_options s' = m_options s /\
    forall i c, 1 <= i < GSM0710_MAX_CHANNELS -> m_channellist s' !! Z.to_nat i = Some c ->
      active c = false) s) as H.
  { unfold shutdown_devices. wp_step. eapply wp_mono.
    { apply close_opened_spec; [|done]. apply Forall_forall. intros i Hi.
      apply elem_of_seqZ in Hi. change GSM0710_MAX_CHANNELS with 32 in *. lia. }
    intros [] s1 (Hn1 & S1 & S2 & S3 & S4 & S5).
    assert (forall i c, 1 <= i < GSM0710_MAX_CHANNELS -> m_channellist s1 !! Z.to_nat i = Some c ->
      active c = false) as Hact.
    { intros i c Hi. apply S5. apply elem_of_seqZ. lia. }
    wp_step. wp_step. wp_step.
    - rewrite bool_decide_eq_false_2 by done. wp_step. wp_step; [done|].
      apply wp_syscheck; [intros X; exfalso; eapply Z.lt_irrefl, Z.le_lt_trans; [apply Hclose|exact X]|].
      intros _. wp_steps. frame_simpl. simpl. split_and!; try done; lia.
    - wp_steps. frame_simpl. reflect_bools. split_and!; try done. }
  destruct (proj1 (wp_never_ok _ _ _) H) as (r & s' & E & -> & R). by exists s'.
Qed.

Lemma shutdown_closes_all_witness :
  exists s', @shutdown_devices unit working_os SHUTDOWN_DEV_W_ACTIVE_FINALIZED
      (set_m_channellist (<[4%nat := set_ch_opened true (set_ch_fd 9 zero_channel)]> ready_channels) ready_state)
    = Ok 0 s' /\ s_state (m_serial s') = MUX_STATE_OFF.
Proof.
  destruct (@shutdown_closes_all unit working_os arale_config
    (set_m_channellist (<[4%nat := set_ch_opened true (set_ch_fd 9 zero_channel)]> ready_channels) ready_state))
    as (s' & E & H & _).
  - split; [reflexivity|]. apply (bool_decide_unpack _). vm_compute. exact I.
  - intros fd w. simpl. lia.
  - exists s'. split; [exact E|exact H].
Defined.

(** A failed assertion cannot override a termination request: once SIGTERM has been
    received, [Gsm0710Muxd_Assert] in the production build leaves the exit signal at
    SIGTERM and clears the report flag, so that [main] shuts down without starting the
    crash report. *)
Theorem sigterm_wins {W} {cfg : Config} (s : Mux W) index :
  production_release = true -> g_main_exit_signal (m_globals s) = SIGTERM ->
  exists s', Gsm0710Muxd_Assert index s = Ok tt s' /\
    g_main_exit_signal (m_globals s') = SIGTERM /\ g_force_assert (m_globals s') = false.
Proof.
  intros Hp Hs. unfold Gsm0710Muxd_Assert, mthen at 1, emit, modify. rewrite Hp.
  unfold mthen, modify_globals, modify, set_main_exit_signal, mthen, gets. simpl. rewrite Hs. simpl.
  rewrite Hp. simpl. eauto.
Qed.

Lemma sigterm_wins_witness :
  let s := set_m_globals (set_g_main_exit_signal SIGTERM initial_globals) ready_state in
  exists s', @Gsm0710Muxd_Assert unit arale_config 9 s = Ok tt s' /\
    g_main_exit_signal (m_globals s') = SIGTERM.
Proof.
  intros s. destruct (@sigterm_wins unit arale_config s 9 eq_refl eq_refl) as (s' & E & H & _).
  exists s'. split; [exact E|exact H].
Defined.

(** A restart after the modem closed the multiplexer is fatal for a channel that had
    pending frames: from PEER_CLOSING, with one open channel whose frame list was
    created before, the watchdog closes the channel and frees the list, and its next
    call destroys the same list again while it re-initialises the channels. *)
Theorem restart_frees_list_twice :
  let s0 := set_m_serial (set_s_state MUX_STATE_PEER_CLOSING (m_serial stalled_state))
              (set_m_channellist (<[1%nat := mkChannel 1 5 None None None true false false false 512 0
                 false false false 1 0 0]> ready_channels) stalled_state) in
  exists s1 s2, @watchdog unit working_os no_others arale_config 10 s0 = Ok 0 s1 /\
    s_state (m_serial s1) = MUX_STATE_OPENING /\
    @watchdog unit working_os no_others arale_config 10 s1 = Undef s2.
Proof.
  intros s0.
  assert (match @watchdog unit working_os no_others arale_config 10 s0 with
          | Ok 0 s1 => s_state (m_serial s1) = MUX_STATE_OPENING /\
              match @watchdog unit working_os no_others arale_config 10 s1 with Undef _ => True | _ => False end
          | _ => False end) as H by (vm_compute; auto).
  clearbody s0. destruct (watchdog 10 s0) as [[| |] s1|? ?|? ?|?|?]; try done. destruct H as [H1 H2].
  exists s1. destruct (watchdog 10 s1) as [? ?|? ?|? ?|s2|?]; try done. by exists s2.
Qed.
