(* ===== verification/Receive.v ===== *)
(** * The receiving side

    What happens to a frame taken out of the receive buffer: [handle_command],
    [extract_frames] and [assemble_frame_thread] of
    src/mtk/gsm0710muxd/src/gsm0710muxd.c, and the retry thread of
    gsm0710muxd_fc.c that writes the frames a full pseudo terminal did not take.

    A frame is an object of the heap, referred to by its address. *)
From S2P Require Import Prelude Crc Ring Frame BasicFrame AdvFrame MuxState WriteFrame.
From S2P Require Import FrameList FlowControl Logic Channel Boot Watchdog.

Section code.
Context {W : Type} `{!Os W} `{!Others W} {cfg : Config}.

(** ** The retry thread *)

(** The inner [while (1)]: write the rest of one frame. *)
Fixpoint retry_write_frame (fuel : nat) (channel frame written waiting : Z) : M W unit :=
  match fuel with
  | O => out_of_fuel
  | S fuel =>
      do c <- get_channel channel;
      do f <- load_frame frame;
      do r <- syscall (SysWrite (ch_fd c) (zdrop written (fdata f)));
      do e <- gets m_errno;
      if 0 <=? ret r then
        let written := written + ret r in
        if written <? flength f then
          syscall (SysSleep 1000);;;
          retry_write_frame fuel channel frame written 1
        else mreturn tt
      else if e =? EINTR then retry_write_frame fuel channel frame written waiting
      else if e =? EAGAIN then
        syscall (SysSleep (1000 * waiting));;;
        retry_write_frame fuel channel frame written
          (if 10 <=? waiting then waiting else waiting + 1)
      else
        do c <- get_channel channel;
        (if ch_reopen c then watchdog fuel;;; mreturn tt
         else Gsm0710Muxd_Assert_fc GSM0710MUXD_PTY_WRITE_ERR);;;
        retry_write_frame fuel channel frame written waiting
  end.

Definition pop_frame (channel : Z) : M W Z :=
  do c <- get_channel channel;
  with_heap (fun h => fl_popFrame h (ch_rx_fl c)).

(** The outer [do ... while (frame != NULL)]. *)
Fixpoint retry_frames (fuel : nat) (channel frame written : Z) : M W unit :=
  match fuel with
  | O => out_of_fuel
  | S fuel' =>
      retry_write_frame fuel channel frame written 0;;;
      cond_wait (C_rx_fc_lock channel);;;
      do frame <- pop_frame channel;
      if frame =? 0 then modify_channel channel (set_ch_rx_fc_off false)
      else retry_frames fuel' channel frame 0
  end.

Definition retry_write_pty_thread (fuel : nat) (channel : Z) : M W unit :=
  cond_wait (C_rx_fc_lock channel);;;
  modify_channel channel (set_ch_rx_thread true);;;
  do frame <- pop_frame channel;
  do c <- get_channel channel;
  let written := ch_rx_fl_written c in
  modify_channel channel (set_ch_rx_fl_written 0);;;
  mwhen (frame =? 0) (Gsm0710Muxd_Assert_fc GSM0710MUXD_RXTHREAD_ERR);;;
  retry_frames fuel channel frame written;;;
  do c <- get_channel channel;
  write_frame 0 (msc_cmd (ch_id c) false) (Z.lor GSM0710_TYPE_UIH GSM0710_PF);;;
  cond_wait (C_rx_fc_lock channel);;;
  modify_channel channel (set_ch_rx_thread false);;;
  cond_signal (C_rx_fc_on channel).

Definition start_retry_write_thread (channel : Z) : M W unit :=
  do c <- get_channel channel;
  write_frame 0 (msc_cmd (ch_id c) true) (Z.lor GSM0710_TYPE_UIH GSM0710_PF);;;
  cond_wait (C_rx_fc_lock channel);;;
  do c <- get_channel channel;
  mwhen (ch_rx_thread c) (cond_wait (C_rx_fc_on channel));;;
  modify_channel channel (set_ch_rx_fc_off true);;;
  create_thread (T_retry_write channel);;;
  mreturn tt.

(** ** Commands on the control channel *)

(** The bytes of the message-type field: up to and with the first one whose EA bit
    is set; one more than there are when none has it. *)
Fixpoint type_field_length (d : list Z) : Z :=
  match d with
  | [] => 1
  | x :: d => if Z.land x GSM0710_EA =? 0 then 1 + type_field_length d else 1
  end.

(** The index of the first value byte, from the index [i] of the length field. *)
Fixpoint value_index (d : list Z) (i : Z) : Z :=
  match d with
  | [] => i + 1
  | x :: d => if Z.land x 1 =? 1 then i + 1 else value_index d (i + 1)
  end.

(** The MSC command: flow control from the modem for the channel [id]. *)
Definition handle_msc (id signals : Z) : M W unit :=
  do c <- get_channel id;
  if negb (ch_opened c) then mreturn tt
  else if Z.land signals GSM0710_SIGNAL_FC =? GSM0710_SIGNAL_FC then
    mwhen (negb (ch_tx_fc_off c))
      (modify_channel id (set_ch_tx_fc_off true);;; _fc_chokePty id)
  else
    mwhen (ch_tx_fc_off c)
      (modify_channel id (set_ch_tx_fc_off false);;;
       cond_signal (C_tx_fc_on id);;;
       _fc_releasePty id).

(** The answer to a command that is not supported: the type field is copied from
    the frame. *)
Definition nsc_response (d : list Z) (type_length : Z) : M W (list Z) :=
  let n := Z.land type_length 127 in
  if n <=? zlen d then
    mreturn ([GSM0710_CONTROL_NSC; u8 (Z.lor GSM0710_EA (Z.shiftl n 1))] ++ ztake n d)
  else undefined.

Definition handle_command (frame : Z) : M W Z :=
  do f <- load_frame frame;
  match fdata f with
  | [] => mreturn 0
  | type :: _ =>
      let d := fdata f in
      if Z.land type GSM0710_CR =? GSM0710_CR then
        let type_length := type_field_length d in
        let i := value_index (zdrop type_length d) type_length in
        let t := clear_bits type GSM0710_CR in
        do supported <-
          (if t =? GSM0710_CONTROL_CLD then
             modify_serial (set_s_state MUX_STATE_PEER_CLOSING);;; mreturn true
           else if (t =? GSM0710_CONTROL_PSC) || (t =? GSM0710_CONTROL_TEST)
                   || (t =? GSM0710_CONTROL_PN) then mreturn true
           else if t =? GSM0710_CONTROL_MSC then
             mwhen (i + 1 <? flength f)
               (handle_msc (GSM0710_DECODE_ADDRESS (byte_at d i)) (byte_at d (i + 1)));;;
             mreturn true
           else
             do response <- nsc_response d type_length;
             rx_thread_write_frame 0 response GSM0710_TYPE_UIH;;;
             mreturn false);
        mwhen supported
          (let d' := clear_bits type GSM0710_CR :: zdrop 1 d in
           with_heap (fun h => Some (tt, set_frames
             (<[frame := mkFrame (channel f) (control f) (flength f) d']> (h_frames h)) h));;;
           rx_thread_write_frame 0 d' GSM0710_TYPE_UIH;;;
           mreturn tt);;;
        mreturn 0
      else mreturn 0
  end.

(** ** Frames by type *)

(** The [while (1)] that writes a data frame to the pseudo terminal; the result
    tells whether the frame is still owned by the caller. *)
Fixpoint deliver_frame (fuel : nat) (ch frame : Z) : M W bool :=
  match fuel with
  | O => out_of_fuel
  | S fuel =>
      do c <- get_channel ch;
      do f <- load_frame frame;
      do r <- syscall (SysWrite (ch_fd c) (fdata f));
      do e <- gets m_errno;
      if 0 <=? ret r then
        syscall (SysFsync (ch_fd c));;;
        if 0 <? flength f - ret r then
          _fc_cacheRemainingFrameData ch frame (ret r);;;
          start_retry_write_thread ch;;;
          mreturn false
        else mreturn true
      else if e =? EINTR then deliver_frame fuel ch frame
      else if e =? EAGAIN then
        mwhen (negb (channel f =? MUXD_VT_CH_NUM))
          (_fc_cacheRemainingFrameData ch frame 0;;;
           start_retry_write_thread ch);;;
        mreturn false
      else if e =? EIO then
        syscall (SysSleep 1000000);;;
        deliver_frame fuel ch frame
      else
        do c <- get_channel ch;
        (if ch_reopen c then syscall (SysSleep 1000000);;; watchdog fuel;;; mreturn tt
         else Gsm0710Muxd_Assert 9);;;
        deliver_frame fuel ch frame
  end.

(** UI and UIH. *)
Definition information_frame (fuel : nat) (frame : Z) : M W bool :=
  do f <- load_frame frame;
  mwhen (negb (Z.land (control f) GSM0710_PF =? 0))
    (modify_globals (set_g_uih_pf_bit_received true));;;
  let ch := channel f in
  if 0 <? ch then
    get_channel ch;;;
    cond_wait (C_rx_fc_lock ch);;;
    do c <- get_channel ch;
    if ch_rx_fc_off c then
      _fc_cacheFrameData ch frame;;;
      mreturn false
    else deliver_frame fuel ch frame
  else
    handle_command frame;;;
    mreturn true.

(** Is a DISC still unanswered? *)
Definition disc_pending (cs : list Channel) : bool :=
  existsb ch_disc_ua_pending (zdrop 1 cs).

Definition setup_complete : M W unit :=
  modify_globals (set_g_setup_complete true);;;
  cond_signal C_setup_complete.

Definition ua_frame (ch : Z) : M W unit :=
  do c <- get_channel ch;
  if ch_opened c then
    mwhen (ch_disc_ua_pending c)
      (mwhen (ch =? 0) (Gsm0710Muxd_Assert 22);;;
       logical_channel_close ch;;;
       modify_channel ch (set_ch_disc_ua_pending false));;;
    do g <- gets m_globals;
    mwhen (g_close_down_send_disc g)
      (do cs <- gets m_channellist;
       mwhen (negb (disc_pending cs)) (cond_signal C_ua_rsp_for_disc))
  else if ch_sabm_ua_pending c then
    modify_channel ch (fun c => set_ch_sabm_ua_pending false (set_ch_opened true c));;;
    modify_globals (fun g => set_g_sabm_ua_received (u32 (g_sabm_ua_received g + 1)) g);;;
    do g <- gets m_globals;
    mwhen (g_sabm_ua_received g =? (if vt_support then MUXD_CH_NUM_ALL - 1 else MUXD_CH_NUM_ALL))
      setup_complete
  else mwhen (ch_disc_ua_pending c) (modify_channel ch (set_ch_disc_ua_pending false)).

Definition dm_frame (ch : Z) : M W unit :=
  do c <- get_channel ch;
  if ch_opened c then logical_channel_close ch;;; mreturn tt
  else if ch =? 0 then modify_serial (set_s_state MUX_STATE_CLOSING)
  else mwhen (ch =? 26)
    (setup_complete;;;
     syscall (SysPropertySet "lackof.atci.channel" "1");;;
     modify_globals (set_g_lackof_atci true)).

Definition disc_frame (ch : Z) : M W unit :=
  do c <- get_channel ch;
  if ch_opened c then
    modify_channel ch (set_ch_opened false);;;
    rx_thread_write_frame ch [] (Z.lor GSM0710_TYPE_UA GSM0710_PF);;;
    if ch =? 0 then modify_serial (set_s_state MUX_STATE_PEER_CLOSING)
    else logical_channel_close ch;;; mreturn tt
  else
    rx_thread_write_frame ch [] (Z.lor GSM0710_TYPE_DM GSM0710_PF);;;
    mreturn tt.

Definition sabm_frame (ch : Z) : M W unit :=
  get_channel ch;;;
  modify_channel ch (set_ch_opened true);;;
  rx_thread_write_frame ch [] (Z.lor GSM0710_TYPE_UA GSM0710_PF);;;
  mreturn tt.

(** The dispatch on the control field; the result tells whether the frame is still
    owned by the caller. *)
Definition dispatch_frame (fuel : nat) (frame : Z) : M W bool :=
  do f <- load_frame frame;
  if GSM0710_FRAME_IS GSM0710_TYPE_UI (control f)
     || GSM0710_FRAME_IS GSM0710_TYPE_UIH (control f) then information_frame fuel frame
  else
    let t := clear_bits (control f) GSM0710_PF in
    (if t =? GSM0710_TYPE_UA then ua_frame (channel f)
     else if t =? GSM0710_TYPE_DM then dm_frame (channel f)
     else if t =? GSM0710_TYPE_DISC then disc_frame (channel f)
     else if t =? GSM0710_TYPE_SABM then sabm_frame (channel f)
     else mreturn tt);;;
    mreturn true.

(** ** The extraction loop *)

Definition channel_n1 (cs : list Channel) (ch : Z) : option Z :=
  if 0 <=? ch then c ← cs !! Z.to_nat ch; Some (ch_negotiated_N1 c) else None.

Definition set_in_buf (b : GSM0710_Buffer) : M W unit := modify_serial (set_s_in_buf b).

(** The reader of the configured mode on [serial.in_buf]; the address of the
    frame, [None] for [NULL]. *)
Definition next_frame : M W (option Z) :=
  do b <- gets (fun s => s_in_buf (m_serial s));
  do cs <- gets m_channellist;
  do adv <- gets (fun s => o_cmux_mode (m_options s));
  let alloc f := do a <- with_heap (fun h => Some (alloc_frame f h)); mreturn (Some a) in
  if adv then
    match gsm0710_advanced_buffer_get_frame b with
    | AGFrame f b => set_in_buf b;;; alloc f
    | AGNull b => set_in_buf b;;; mreturn None
    | AGNoFuel => out_of_fuel
    end
  else
    match gsm0710_base_buffer_get_frame (channel_n1 cs) production_release b with
    | GFrame f b a => mwhen a (Gsm0710Muxd_Assert 13);;; set_in_buf b;;; alloc f
    | GNull sig b a =>
        mwhen a (Gsm0710Muxd_Assert 13);;;
        set_in_buf b;;;
        mwhen sig (cond_signal C_bufferready);;;
        mreturn None
    | GFatal b => set_in_buf b;;; Gsm0710Muxd_Assert 13;;; mreturn None
    | GUndef => undefined
    end.

Fixpoint extract_loop (fuel : nat) (frames_extracted : Z) : M W Z :=
  match fuel with
  | O => out_of_fuel
  | S fuel' =>
      do frame <- next_frame;
      match frame with
      | None => mreturn frames_extracted
      | Some frame =>
          do b <- gets (fun s => s_in_buf (m_serial s));
          mwhen (input_sleeping b) (cond_signal C_bufferready);;;
          do owned <- dispatch_frame fuel frame;
          mwhen owned (free_frame frame);;;
          extract_loop fuel' (frames_extracted + 1)
      end
  end.

Definition extract_frames (fuel : nat) : M W Z := extract_loop fuel 0.

(** [assemble_frame_thread] waits for new data... *)
Fixpoint wait_new_data (fuel : nat) : M W unit :=
  match fuel with
  | O => out_of_fuel
  | S fuel =>
      do b <- gets (fun s => s_in_buf (m_serial s));
      if negb (0 <? datacount b) || negb (newdataready b) then
        if negb (input_sleeping b) then cond_wait C_newdataready;;; wait_new_data fuel
        else mreturn tt
      else mreturn tt
  end.

(** ...and extracts the frames, for ever: [rounds] times round its loop. *)
Fixpoint assemble_frame_thread (fuel rounds : nat) : M W unit :=
  match rounds with
  | O => mreturn tt
  | S rounds =>
      wait_new_data fuel;;;
      modify_serial (fun x => set_s_in_buf (set_newdataready false (s_in_buf x)) x);;;
      extract_frames fuel;;;
      assemble_frame_thread fuel rounds
  end.

End code.

(** ** Delivery *)

(** Nothing else runs when this thread takes a lock or waits. *)
Class IdleOthers (W : Type) `{!Others W} :=
  others_idle : forall c (s : Mux W), others_run c s = s.

#[export] Instance no_others_idle {W} : @IdleOthers W no_others.
Proof. by intros c s. Qed.

(** Frames are allocated at fresh addresses. *)
Definition frames_wf (h : Heap) : Prop := forall a, is_Some (h_frames h !! a) -> a < h_next h.

(** A data frame for a channel that takes data. *)
Definition live_data (cs : list Channel) (x : Z * Z * list Z) : Prop :=
  let '(ch, ty, _) := x in
  0 < ch /\ (ty = GSM0710_TYPE_UIH \/ ty = Z.lor GSM0710_TYPE_UIH GSM0710_PF) /\
  exists c, cs !! Z.to_nat ch = Some c /\ ch_rx_fc_off c = false.

(** What a stream of data frames means for a descriptor: the payloads of its
    channels, in order. *)
Definition payload_for (cs : list Channel) (fd : Z) (x : Z * Z * list Z) : list Z :=
  let '(ch, _, input) := x in
  match cs !! Z.to_nat ch with
  | Some c => if ch_fd c =? fd then input else []
  | None => []
  end.

Section delivery.
Context {W : Type} `{!Os W} `{!Others W} {cfg : Config}.
Implicit Types s : Mux W.

Lemma wp_load_frame E a f (Q : GSM0710_Frame -> Mux W -> Prop) s :
  h_frames (m_heap s) !! a = Some f -> Q f s -> wp E (load_frame a) Q s.
Proof.
  intros Hf HQ. unfold load_frame. eapply wp_with_heap; [by rewrite Hf|]. by destruct s.
Qed.

Lemma wp_cond_wait `{!IdleOthers W} E c (Q : unit -> Mux W -> Prop) s :
  Q tt s -> wp E (cond_wait c) Q s.
Proof. intros H. unfold cond_wait. apply wp_modify. by rewrite others_idle. Qed.

(** The state of the program is as before, the trace, [errno] and the P/F note of
    [write_frame] apart. *)
Definition observed (s s' : Mux W) : Prop :=
  m_serial s' = m_serial s /\ m_channellist s' = m_channellist s /\ m_options s' = m_options s /\
  m_heap s' = m_heap s.

Lemma deliver_frame_accept `{!AcceptingOs W} fuel ch c a f s :
  0 <= ch -> m_channellist s !! Z.to_nat ch = Some c ->
  h_frames (m_heap s) !! a = Some f -> flength f = zlen (fdata f) ->
  wp never (deliver_frame (S fuel) ch a) (fun owned s' => owned = true /\ observed s s' /\
    forall fd, wire fd (m_trace s') = wire fd (m_trace s) ++ if ch_fd c =? fd then fdata f else []) s.
Proof.
  intros Hch Hc Hf Hlen. cbn [deliver_frame]. wp_step. eapply wp_get_channel; [done..|].
  wp_step. eapply wp_load_frame; [done|]. do 4 wp_step.
  rewrite accepting, (proj2 (Z.leb_le 0 _)) by apply zlen_nonneg. do 2 wp_step.
  rewrite (proj2 (Z.ltb_ge 0 _)) by lia. wp_step. split; [done|].
  split; [unfold observed; by frame_simpl|]. intros fd. frame_simpl. rewrite !wire_app. cbn [wire].
  by rewrite accepting, !app_nil_r, ztake_all by lia.
Qed.

Lemma dispatch_data `{!AcceptingOs W} `{!IdleOthers W} fuel ch ty input a s :
  live_data (m_channellist s) (ch, ty, input) ->
  h_frames (m_heap s) !! a = Some (mkFrame ch ty (zlen input) input) ->
  wp never (dispatch_frame (S fuel) a) (fun owned s' => owned = true /\ observed s s' /\
    forall fd, wire fd (m_trace s') =
      wire fd (m_trace s) ++ payload_for (m_channellist s) fd (ch, ty, input)) s.
Proof.
  intros (Hch & Hty & c & Hc & Hoff) Hf. unfold dispatch_frame, payload_for. rewrite Hc.
  wp_step. eapply wp_load_frame; [done|]. cbn [control channel].
  assert (GSM0710_FRAME_IS GSM0710_TYPE_UI ty || GSM0710_FRAME_IS GSM0710_TYPE_UIH ty = true) as ->
    by (destruct Hty as [->| ->]; reflexivity).
  unfold information_frame. wp_step. eapply wp_load_frame; [done|]. cbn [control channel]. wp_step.
  apply wp_mono with (Q := fun _ s1 => observed s s1 /\ m_trace s1 = m_trace s);
    [by wp_step; [wp_step|]|].
  intros _ s1 ((S1 & S2 & S3 & S4) & T1). rewrite (proj2 (Z.ltb_lt 0 ch)) by done.
  wp_step. eapply wp_get_channel; [lia|by rewrite S2|]. wp_step. apply wp_cond_wait.
  wp_step. eapply wp_get_channel; [lia|by rewrite S2|]. rewrite Hoff.
  eapply wp_mono; [eapply deliver_frame_accept; [lia|by rewrite S2|by rewrite S4|done]|].
  intros owned s2 (-> & (O1 & O2 & O3 & O4) & Hw). split; [done|]. split; [unfold observed; intuition congruence|].
  intros fd. by rewrite Hw, T1.
Qed.

Lemma next_frame_data ch ty input rest s :
  o_cmux_mode (m_options s) = false -> wf_buffer (s_in_buf (m_serial s)) ->
  flag_found (s_in_buf (m_serial s)) = false ->
  sendable (channel_n1 (m_channellist s)) ch ty input ->
  contents (s_in_buf (m_serial s)) = basic_frame ch ty input ++ rest ->
  exists b', wf_buffer b' /\ flag_found b' = false /\ contents b' = rest /\
    next_frame s = Ok (Some (h_next (m_heap s)))
      (set_m_heap (snd (alloc_frame (mkFrame ch ty (zlen input) input) (m_heap s)))
         (set_m_serial (set_s_in_buf b' (m_serial s)) s)).
Proof.
  intros Hm Wf F S C.
  destruct (base_get_basic_frame (channel_n1 (m_channellist s)) production_release
              (s_in_buf (m_serial s)) [] ch ty input rest) as (b' & G & W' & C' & F'); try done.
  exists b'. split_and!; try done. unfold next_frame, gets, mthen at 1 2 3. rewrite Hm, G. done.
Qed.

Lemma next_frame_none s :
  o_cmux_mode (m_options s) = false -> wf_buffer (s_in_buf (m_serial s)) ->
  flag_found (s_in_buf (m_serial s)) = false -> contents (s_in_buf (m_serial s)) = [] ->
  wp never next_frame (fun r s' => r = None /\ m_channellist s' = m_channellist s /\
    m_options s' = m_options s /\ m_heap s' = m_heap s /\
    contents (s_in_buf (m_serial s')) = [] /\ wf_buffer (s_in_buf (m_serial s')) /\
    forall fd, wire fd (m_trace s') = wire fd (m_trace s)) s.
Proof.
  intros Hm Wf F C. unfold next_frame. do 6 wp_step. rewrite Hm. cbv zeta.
  destruct (base_get_empty (channel_n1 (m_channellist s)) production_release _ Wf F C)
    as (b' & -> & W' & C' & F').
  unfold set_in_buf. wp_steps; try done. split_and!; try done. intros fd. frame_simpl.
  rewrite wire_app. by rewrite app_nil_r.
Qed.

(** The extraction loop on a stream of data frames. *)
Lemma extract_loop_data `{!AcceptingOs W} `{!IdleOthers W} xs fuel n s :
  o_cmux_mode (m_options s) = false -> wf_buffer (s_in_buf (m_serial s)) ->
  flag_found (s_in_buf (m_serial s)) = false -> frames_wf (m_heap s) ->
  sendable_all (channel_n1 (m_channellist s)) xs -> Forall (live_data (m_channellist s)) xs ->
  contents (s_in_buf (m_serial s)) = concat (map sent_bytes xs) -> (length xs < fuel)%nat ->
  wp never (extract_loop fuel n) (fun r s' => r = n + Z.of_nat (length xs) /\
    m_channellist s' = m_channellist s /\ h_frames (m_heap s') = h_frames (m_heap s) /\
    contents (s_in_buf (m_serial s')) = [] /\ wf_buffer (s_in_buf (m_serial s')) /\
    forall fd, wire fd (m_trace s') =
      wire fd (m_trace s) ++ concat (map (payload_for (m_channellist s) fd) xs)) s.
Proof.
  revert fuel n s.
  induction xs as [|[[ch ty] input] xs IH]; intros fuel n s Hm Wf F Hh S L C Hf;
    (destruct fuel as [|fuel]; [simpl in Hf; lia|]); cbn [extract_loop]; wp_step.
  { eapply wp_mono; [by apply next_frame_none|]. intros r s1 (-> & S1 & S2 & S3 & S4 & S5 & S6).
    wp_step. split_and!; try done; [simpl; lia|by rewrite S3|]. intros fd. by rewrite S6, app_nil_r. }
  apply Forall_cons in S as [S1 S]. apply Forall_cons in L as [L1 L].
  destruct (next_frame_data ch ty input (concat (map sent_bytes xs)) s) as (b' & W' & F' & C' & E); try done.
  eapply wp_ok; [exact E|]. cbn beta iota. do 3 wp_step.
  set (s1 := set_m_heap _ _).
  apply wp_mono with (Q := fun _ s2 => observed s1 s2 /\ forall fd, wire fd (m_trace s2) = wire fd (m_trace s)).
  { wp_step; [wp_step|split; [done|by intros]]. split; [done|]. intros fd. frame_simpl. rewrite wire_app. by rewrite app_nil_r. }
  intros _ s2 ((O1 & O2 & O3 & O4) & T2). wp_step.
  eapply wp_mono; [apply (dispatch_data fuel ch ty input); [by rewrite O2|rewrite O4; apply lookup_insert_eq]|].
  intros owned s3 (-> & (P1 & P2 & P3 & P4) & T3). wp_step. unfold mwhen, free_frame.
  assert (h_frames (m_heap s) !! h_next (m_heap s) = None) as Hfresh.
  { apply eq_None_not_Some. intros X%Hh. lia. }
  eapply wp_with_heap.
  { rewrite P4, O4. unfold destroy_frame. simpl. rewrite lookup_insert_eq. reflexivity. }
  eapply wp_mono; [apply IH|]; frame_simpl; rewrite ?P1, ?P2, ?P3, ?O1, ?O2, ?O3; try done; [|simpl in Hf; lia|].
  - intros a. simpl. rewrite delete_insert_id by done. intros X%Hh. lia.
  - intros r s4 (-> & Q1 & Q2 & Q3 & Q4 & Q5). split_and!; try done; [simpl; lia| |].
    + rewrite Q2. simpl. by rewrite delete_insert_id.
    + intros fd. rewrite Q5, T3, T2, <- app_assoc, O2. done.
Qed.

(** ** Channel setup *)

(** The number of UA frames that complete the setup. *)
Definition expected_uas : Z := if vt_support then MUXD_CH_NUM_ALL - 1 else MUXD_CH_NUM_ALL.

Lemma expected_uas_bound : 0 < expected_uas < 32.
Proof.
  unfold expected_uas, MUXD_CH_NUM_ALL.
  repeat match goal with |- context [if ?b then _ else _] => destruct b end; lia.
Qed.

(** A slot whose SABM is not answered yet. *)
Definition awaiting (s : Mux W) (ch : Z) : Prop :=
  0 <= ch /\ exists c, m_channellist s !! Z.to_nat ch = Some c /\
    ch_opened c = false /\ ch_sabm_ua_pending c = true.

Definition answered (c : Channel) : Channel := set_ch_sabm_ua_pending false (set_ch_opened true c).

Lemma ua_frame_awaiting ch c s :
  0 <= ch -> m_channellist s !! Z.to_nat ch = Some c -> ch_opened c = false ->
  ch_sabm_ua_pending c = true -> 0 <= g_sabm_ua_received (m_globals s) < 32 ->
  wp never (ua_frame ch) (fun _ s' =>
    m_channellist s' = <[Z.to_nat ch := answered c]> (m_channellist s) /\
    g_sabm_ua_received (m_globals s') = g_sabm_ua_received (m_globals s) + 1 /\
    g_setup_complete (m_globals s') = (g_sabm_ua_received (m_globals s) + 1 =? expected_uas)
                                      || g_setup_complete (m_globals s)) s.
Proof.
  intros Hch Hc Ho Hp Hn. unfold ua_frame. wp_step. eapply wp_get_channel; [done..|].
  rewrite Ho, Hp. wp_step. eapply wp_modify_channel; [done..|]. do 4 wp_step. cbn beta.
  fold expected_uas. frame_simpl. cbn [g_sabm_ua_received set_g_sabm_ua_received].
  rewrite u32_id by lia. unfold setup_complete.
  wp_steps; frame_simpl; match goal with H : (_ =? _) = _ |- _ => rewrite ?H end; done.
Qed.

Fixpoint ua_frames (chs : list Z) : M W unit :=
  match chs with
  | [] => mreturn tt
  | ch :: chs => ua_frame ch;;; ua_frames chs
  end.

Lemma ua_frames_spec chs s :
  NoDup chs -> Forall (awaiting s) chs -> 0 <= g_sabm_ua_received (m_globals s) ->
  g_sabm_ua_received (m_globals s) + Z.of_nat (length chs) <= expected_uas ->
  wp never (ua_frames chs) (fun _ s' =>
    g_sabm_ua_received (m_globals s') = g_sabm_ua_received (m_globals s) + Z.of_nat (length chs) /\
    g_setup_complete (m_globals s') =
      (negb (bool_decide (chs = [])) &&
       (g_sabm_ua_received (m_globals s) + Z.of_nat (length chs) =? expected_uas))
      || g_setup_complete (m_globals s) /\
    (forall ch c, ch ∈ chs -> m_channellist s !! Z.to_nat ch = Some c ->
       m_channellist s' !! Z.to_nat ch = Some (answered c)) /\
    (forall i, (forall ch, ch ∈ chs -> i <> Z.to_nat ch) -> m_channellist s' !! i = m_channellist s !! i)) s.
Proof.
  pose proof expected_uas_bound as Hexp.
  revert s. induction chs as [|ch chs IH]; intros s N Aw Hr Hl; cbn [ua_frames].
  { wp_step. split_and!; try done; [simpl; lia|by intros ? ? []%not_elem_of_nil]. }
  apply NoDup_cons in N as [Hni N]. apply Forall_cons in Aw as [(Hch & c & Hc & Ho & Hp) Aw].
  cbn [length] in Hl. wp_step. eapply wp_mono; [apply (ua_frame_awaiting ch c); try done; lia|].
  intros _ s1 (L1 & R1 & C1).
  assert (forall ch', ch' ∈ chs -> 0 <= ch' /\ Z.to_nat ch <> Z.to_nat ch') as Hne.
  { intros ch' Hin. rewrite Forall_forall in Aw. destruct (Aw ch' Hin) as (H0 & _).
    split; [done|]. intros E. apply Hni. replace ch with ch' by lia. done. }
  eapply wp_mono; [apply IH; [done| |lia|lia]|].
  { apply Forall_forall. intros ch' Hin. rewrite Forall_forall in Aw.
    destruct (Aw ch' Hin) as (H0 & c' & Hc' & ?). split; [done|]. exists c'.
    rewrite L1, list_lookup_insert_ne by (by apply Hne). done. }
  intros _ s2 (R2 & C2 & A2 & O2). split_and!.
  - rewrite R2, R1. cbn [length]. lia.
  - rewrite C2, C1, R1. cbn [length]. destruct chs as [|ch' chs].
    + cbn [length]. repeat rewrite bool_decide_eq_true_2, bool_decide_eq_false_2 by done. simpl.
      replace (Z.of_nat 1) with 1 by lia. done.
    + cbn [length]. rewrite !bool_decide_eq_false_2 by done. simpl. cbn [length] in Hl.
      rewrite (proj2 (Z.eqb_neq (g_sabm_ua_received _ + 1) _)) by lia. simpl.
      f_equal. f_equal. lia.
  - intros ch' c' [->|Hin]%elem_of_cons Hc'.
    + rewrite O2, L1; [|intros ch' Hin; by apply Hne]. rewrite Hc in Hc'. injection Hc' as <-.
      by eapply lookup_insert_slot.
    + apply A2; [done|]. rewrite L1, list_lookup_insert_ne by (by apply Hne). done.
  - intros i Hi. rewrite O2; [|intros ch' Hin; apply Hi; by right].
    rewrite L1, list_lookup_insert_ne; [done|]. intros <-. eapply Hi; [left|done].
Qed.

(** ** Sending touches no pseudo terminal *)

Lemma wire_call fd c s :
  (forall bs, c <> SysWrite fd bs) -> wire fd (m_trace (after_call c s)) = wire fd (m_trace s).
Proof.
  intros H. frame_simpl. rewrite wire_app. destruct c; simpl; rewrite ?app_nil_r; try done.
  destruct (Z.eqb_spec fd0 fd) as [->|]; [by destruct (H bs)|]. by rewrite app_nil_r.
Qed.

Lemma write_failed_silent fd len s :
  wp whatever (write_failed len) (fun _ s' => wire fd (m_trace s') = wire fd (m_trace s)) s.
Proof. unfold write_failed. wp_steps; [by rewrite wire_call|done]. Qed.

Lemma write_frame_silent fd ch input ty s :
  fd <> s_fd (m_serial s) ->
  wp whatever (write_frame ch input ty) (fun _ s' => wire fd (m_trace s') = wire fd (m_trace s)) s.
Proof.
  intros Hfd. unfold write_frame. do 2 wp_step. wp_step; [by wp_step|].
  wp_step. apply wp_mono with (Q := fun _ s1 => s1 = s).
  { wp_step; [|by wp_step]. destruct input; [done|by wp_step]. }
  intros pf s1 ->. wp_step.
  apply wp_mono with (Q := fun _ s1 => m_serial s1 = m_serial s /\ m_trace s1 = m_trace s);
    [by wp_step; [wp_step|]|].
  intros _ s1 [S1 <-]. cbv zeta. apply (wp_keeps eq); [apply keeps_get_channel; split; [by intros ?|by intros ? ? ? -> ->]|done|].
  intros c s2 <-. rewrite <- S1 in Hfd. clear H S1 s. rename s1 into s. do 2 wp_step. wp_step.
  - unfold write_frame_adv. wp_steps; rewrite ?wire_call; try done; congruence.
  - unfold write_frame_basic. do 3 wp_step. wp_step. wp_step.
    { wp_step; [|wp_step; rewrite wire_call; [done|congruence]].
      eapply wp_mono; [apply (write_failed_silent fd)|]. intros _ s1 ->. rewrite wire_call; [done|congruence]. }
    wp_step. eapply wp_mono with (Q := fun _ s1 => wire fd (m_trace s1) = wire fd (m_trace s)).
    { wp_step; [|wp_step; rewrite wire_call; [done|congruence]].
      wp_step. wp_step. wp_step; [|wp_step; rewrite !wire_call by congruence; done].
      wp_step. wp_step; [|wp_steps; rewrite !wire_call by congruence; done].
      eapply wp_mono; [apply (write_failed_silent fd)|]. intros v s1 Hv. wp_step. rewrite Hv, !wire_call by congruence. done. }
    intros [v|] s1 H1; [by wp_step|]. wp_step. wp_step. wp_step.
    + eapply wp_mono; [apply (write_failed_silent fd)|]. intros v s2 ->. rewrite wire_call by congruence. done.
    + wp_step. rewrite wire_call by congruence. done.
Qed.

(** ** The retry thread *)

(** The frames at the addresses [q] are allocated and hold the data [ds]. *)
Definition live_frames (h : Heap) : list Z -> list (list Z) -> Prop :=
  Forall2 (fun a d => a <> 0 /\ exists f, h_frames h !! a = Some f /\ flength f = zlen (fdata f) /\
    fdata f = d).

Lemma retry_write_accept `{!AcceptingOs W} fuel ch c a f written waiting s :
  0 <= ch -> m_channellist s !! Z.to_nat ch = Some c ->
  h_frames (m_heap s) !! a = Some f -> flength f = zlen (fdata f) -> 0 <= written <= zlen (fdata f) ->
  wp never (retry_write_frame (S fuel) ch a written waiting) (fun _ s' =>
    observed s s' /\ m_globals s' = m_globals s /\
    forall fd, wire fd (m_trace s') =
      wire fd (m_trace s) ++ if ch_fd c =? fd then zdrop written (fdata f) else []) s.
Proof.
  intros Hch Hc Hf Hlen Hw. cbn [retry_write_frame]. wp_step. eapply wp_get_channel; [done..|].
  wp_step. eapply wp_load_frame; [done|]. do 4 wp_step. cbv zeta.
  rewrite accepting, (proj2 (Z.leb_le 0 _)) by apply zlen_nonneg.
  rewrite zlen_zdrop, (proj2 (Z.ltb_ge _ _)) by lia. wp_step. split; [unfold observed; by frame_simpl|].
  split; [by frame_simpl|]. intros fd. frame_simpl. rewrite wire_app. cbn [wire].
  by rewrite accepting, app_nil_r, ztake_all by lia.
Qed.

Lemma pop_frame_spec ch c cells s :
  0 <= ch -> m_channellist s !! Z.to_nat ch = Some c -> is_queue (m_heap s) (ch_rx_fl c) cells ->
  exists h', pop_frame ch s = Ok (match cells with [] => 0 | (_, a) :: _ => a end) (set_m_heap h' s) /\
    is_queue h' (ch_rx_fl c) (tail cells) /\ h_frames h' = h_frames (m_heap s).
Proof.
  intros Hch Hc Q. unfold pop_frame, mthen. rewrite (get_channel_eq _ _ _ Hch Hc). unfold with_heap.
  pose proof (popFrame_spec _ _ _ Q) as P. destruct cells as [|[b a] cells].
  - rewrite P. by exists (m_heap s).
  - destruct P as (h' & -> & Q' & F & _). by exists h'.
Qed.

(** The outcome of the outer loop. *)
Lemma retry_frames_accept `{!AcceptingOs W} `{!IdleOthers W} cells fuel ch c a d ds written s :
  0 <= ch -> m_channellist s !! Z.to_nat ch = Some c -> is_queue (m_heap s) (ch_rx_fl c) cells ->
  live_frames (m_heap s) (a :: cells.*2) (d :: ds) -> 0 <= written <= zlen d ->
  (length cells < fuel)%nat ->
  wp never (retry_frames fuel ch a written) (fun _ s' =>
    m_serial s' = m_serial s /\ m_options s' = m_options s /\ m_globals s' = m_globals s /\
    m_channellist s' = <[Z.to_nat ch := set_ch_rx_fc_off false c]> (m_channellist s) /\
    is_queue (m_heap s') (ch_rx_fl c) [] /\ h_frames (m_heap s') = h_frames (m_heap s) /\
    forall fd, wire fd (m_trace s') =
      wire fd (m_trace s) ++ if ch_fd c =? fd then zdrop written d ++ concat ds else []) s.
Proof.
  revert fuel a d ds written s. induction cells as [|[b a'] cells IH];
    intros fuel a d ds written s Hch Hc Q L Hw Hf;
    (destruct fuel as [|fuel]; [simpl in Hf; lia|]); cbn [retry_frames];
    apply Forall2_cons in L as [(Ha & f & Hfr & Hlen & Hd) L]; wp_step; subst d;
    (eapply wp_mono; [apply (retry_write_accept fuel ch c a f); done|]);
    intros _ s1 ((S1 & S2 & S3 & S4) & G1 & W1); wp_step; apply wp_cond_wait; wp_step.
  - destruct (pop_frame_spec ch c [] s1) as (h' & E & Q' & F'); [done|by rewrite S2|by rewrite S4|].
    eapply wp_ok; [exact E|]. simpl. eapply wp_modify_channel; [done|frame_simpl; by rewrite S2|].
    apply Forall2_nil_inv_l in L as ->. frame_simpl. rewrite S2. split_and!; try done; [by rewrite F', S4|].
    intros fd. by rewrite W1, app_nil_r.
  - destruct (pop_frame_spec ch c ((b, a') :: cells) s1) as (h' & E & Q' & F'); [done|by rewrite S2|by rewrite S4|].
    cbn [fmap list_fmap snd] in L. apply Forall2_cons_inv_l in L as (d' & ds' & L1 & L & ->).
    eapply wp_ok; [exact E|]. cbn beta iota. rewrite (proj2 (Z.eqb_neq a' 0)) by apply L1.
    rewrite S4 in F'.
    eapply wp_mono; [apply (IH fuel a' d' ds' 0); frame_simpl; try done|].
    + by rewrite S2.
    + unfold live_frames. rewrite F'. by apply Forall2_cons.
    + pose proof (zlen_nonneg d'). lia.
    + simpl in Hf. lia.
    + intros _ s2 (T1 & T2 & T3 & T4 & T5 & T6 & T7). cbn [m_serial m_options m_globals set_m_heap] in T1, T2, T3.
      split_and!; try done; try congruence.
      * rewrite T4. frame_simpl. by rewrite S2.
      * rewrite T6. frame_simpl. done.
      * intros fd. rewrite T7. frame_simpl. rewrite W1, <- app_assoc.
        destruct (ch_fd c =? fd); [|done]. reflexivity.
Qed.

(** The slot after the retry thread. *)
Definition resumed (c : Channel) : Channel :=
  set_ch_rx_thread false (set_ch_rx_fc_off false (set_ch_rx_fl_written 0 (set_ch_rx_thread true c))).

Lemma basic_channel_insert (s s' : Mux W) ch c' n :
  basic_channel s 0 n -> 0 < ch -> m_options s' = m_options s -> m_globals s' = m_globals s ->
  m_channellist s' = <[Z.to_nat ch := c']> (m_channellist s) -> basic_channel s' 0 n.
Proof.
  intros (H1 & H2 & H3 & c & Hc & Hn) Hch Ho Hg Hl. unfold basic_channel. rewrite Ho, Hg, Hl.
  split_and!; try done. exists c. by rewrite list_lookup_insert_ne by lia.
Qed.

Lemma retry_thread_spec `{!AcceptingOs W} `{!IdleOthers W} fuel ch c b a cells d ds n s :
  0 < ch -> m_channellist s !! Z.to_nat ch = Some c ->
  is_queue (m_heap s) (ch_rx_fl c) ((b, a) :: cells) ->
  live_frames (m_heap s) (a :: cells.*2) (d :: ds) -> 0 <= ch_rx_fl_written c <= zlen d ->
  basic_channel s 0 n -> 4 <= n -> ch_fd c <> s_fd (m_serial s) -> (length cells < fuel)%nat ->
  wp never (retry_write_pty_thread fuel ch) (fun _ s' =>
    m_channellist s' = <[Z.to_nat ch := resumed c]> (m_channellist s) /\
    is_queue (m_heap s') (ch_rx_fl c) [] /\ h_frames (m_heap s') = h_frames (m_heap s) /\
    wire (ch_fd c) (m_trace s') =
      wire (ch_fd c) (m_trace s) ++ zdrop (ch_rx_fl_written c) d ++ concat ds /\
    wire (s_fd (m_serial s)) (m_trace s') =
      wire (s_fd (m_serial s)) (m_trace s) ++
      basic_frame 0 (Z.lor GSM0710_TYPE_UIH GSM0710_PF) (msc_cmd (ch_id c) false)) s.
Proof.
  intros Hch Hc Q L Hw B Hn Hfd Hf. unfold retry_write_pty_thread. wp_step. apply wp_cond_wait. wp_step.
  eapply wp_modify_channel; [lia|done|]. wp_step. set (s1 := set_m_channellist _ s).
  assert (m_channellist s1 !! Z.to_nat ch = Some (set_ch_rx_thread true c)) as Hc1
    by (by eapply lookup_insert_slot).
  destruct (pop_frame_spec ch (set_ch_rx_thread true c) ((b, a) :: cells) s1) as (h' & E & Q' & F');
    [lia|done|done|].
  eapply wp_ok; [exact E|]. cbn beta iota. wp_step. eapply wp_get_channel; [lia|exact Hc1|].
  cbv zeta. wp_step. eapply wp_modify_channel; [lia|exact Hc1|]. wp_step.
  pose proof (proj1 (proj1 (Forall2_cons _ _ _ _ _) L)) as [Ha _]. rewrite (proj2 (Z.eqb_neq a 0)) by done.
  cbn [mwhen mreturn]. wp_step. wp_step. set (s2 := set_m_channellist _ _).
  assert (m_channellist s2 = <[Z.to_nat ch := set_ch_rx_fl_written 0 (set_ch_rx_thread true c)]>
            (m_channellist s)) as L2 by (subst s2 s1; frame_simpl; apply list_insert_insert_eq).
  eapply wp_mono; [apply (retry_frames_accept cells fuel ch
    (set_ch_rx_fl_written 0 (set_ch_rx_thread true c)) a d ds (ch_rx_fl_written c)); try done; [lia| |]|].
  { rewrite L2. by eapply lookup_insert_slot. }
  { change (m_heap s2) with h'. change (m_heap s1) with (m_heap s) in F'. unfold live_frames. by rewrite F'. }
  intros _ s3 (T1 & T2 & T3 & T4 & T5 & T6 & T7). rewrite L2, list_insert_insert_eq in T4.
  wp_step. eapply wp_get_channel; [lia|rewrite T4; by eapply lookup_insert_slot|].
  wp_step. cbn [ch_id set_ch_rx_fc_off set_ch_rx_fl_written set_ch_rx_thread].
  assert (basic_channel s3 0 n) as B3 by (by eapply basic_channel_insert).
  destruct (write_small_accept 0 n (msc_cmd (ch_id c) false) (Z.lor GSM0710_TYPE_UIH GSM0710_PF) s3 B3)
    as (s4 & E4 & (U1 & U2 & U3 & U4 & U5) & W4); [done|done|].
  pose proof (write_frame_silent (ch_fd c) 0 (msc_cmd (ch_id c) false)
                (Z.lor GSM0710_TYPE_UIH GSM0710_PF) s3) as Sil.
  rewrite T1 in Sil. specialize (Sil Hfd). unfold wp in Sil. rewrite E4 in Sil.
  eapply wp_ok; [exact E4|]. wp_step. apply wp_cond_wait. wp_step.
  eapply wp_modify_channel; [lia|rewrite U1, T4; by eapply lookup_insert_slot|]. wp_step. frame_simpl.
  split_and!.
  - rewrite U1, T4. apply list_insert_insert_eq.
  - rewrite U4. done.
  - by rewrite U4, T6.
  - rewrite wire_app, app_nil_r, Sil, T7. cbn [ch_fd set_ch_rx_fl_written set_ch_rx_thread].
    by rewrite Z.eqb_refl.
  - rewrite wire_app, app_nil_r. rewrite T1 in W4. change (m_serial s2) with (m_serial s) in W4.
    rewrite W4, T7. cbn [ch_fd set_ch_rx_fl_written set_ch_rx_thread].
    rewrite (proj2 (Z.eqb_neq _ _)) by done. by rewrite app_nil_r.
Qed.

(** ** Flow control from the modem *)

(** The flow-control requests made to pseudo terminals. *)
Fixpoint ioctls (tr : list Event) : list (Z * bool) :=
  match tr with
  | [] => []
  | EvSys (SysTcxonc fd on) _ :: tr => (fd, on) :: ioctls tr
  | _ :: tr => ioctls tr
  end.

Lemma ioctls_app t1 t2 : ioctls (t1 ++ t2) = ioctls t1 ++ ioctls t2.
Proof.
  induction t1 as [|e t1 IH]; [done|]. destruct e as [c r| |]; [|exact IH..].
  destruct c; try exact IH. cbn [ioctls app]. by rewrite IH.
Qed.

(** [handle_msc] on an open channel sets the transmit switch to the FC bit, and tells
    the pseudo terminal when the switch changes. *)
Lemma handle_msc_spec id signals c s :
  0 <= id -> m_channellist s !! Z.to_nat id = Some c -> ch_opened c = true ->
  let off := Z.land signals GSM0710_SIGNAL_FC =? GSM0710_SIGNAL_FC in
  wp never (handle_msc id signals) (fun _ s' =>
    m_serial s' = m_serial s /\ m_options s' = m_options s /\ m_globals s' = m_globals s /\
    m_heap s' = m_heap s /\
    m_channellist s' = <[Z.to_nat id := set_ch_tx_fc_off off c]> (m_channellist s) /\
    (forall fd, wire fd (m_trace s') = wire fd (m_trace s)) /\
    ioctls (m_trace s') = ioctls (m_trace s) ++
      if Bool.eqb off (ch_tx_fc_off c) then [] else [(ch_fd c, negb off)]) s.
Proof.
  intros Hid Hc Ho off. unfold handle_msc. wp_step. eapply wp_get_channel; [done..|]. rewrite Ho.
  cbn [negb]. fold off.
  assert (forall o, ch_tx_fc_off c = o -> <[Z.to_nat id := set_ch_tx_fc_off o c]> (m_channellist s) = m_channellist s)
    as Hid2 by (intros o <-; rewrite list_insert_id; [done|]; rewrite Hc; by destruct c).
  destruct off; destruct (ch_tx_fc_off c) eqn:Et; cbn [negb mwhen Bool.eqb].
  - wp_step. rewrite Hid2, app_nil_r by done. done.
  - wp_step. eapply wp_modify_channel; [done..|]. unfold _fc_chokePty. wp_step.
    eapply wp_get_channel; [done|by eapply lookup_insert_slot|]. wp_steps. frame_simpl. split_and!; try done.
    + intros fd. rewrite wire_app. by rewrite app_nil_r.
    + by rewrite ioctls_app.
  - wp_step. eapply wp_modify_channel; [done..|]. do 2 wp_step. unfold _fc_releasePty. wp_step.
    eapply wp_get_channel; [done|by eapply lookup_insert_slot|]. wp_steps. frame_simpl. split_and!; try done.
    + intros fd. rewrite !wire_app. by rewrite !app_nil_r.
    + by rewrite !ioctls_app, <- app_assoc.
  - wp_step. rewrite Hid2, app_nil_r by done. done.
Qed.

(** Sending makes no such request. *)
Definition same_ioctls (s s' : Mux W) : Prop := ioctls (m_trace s') = ioctls (m_trace s).

#[local] Instance same_ioctls_preorder : PreOrder same_ioctls.
Proof. split; [by intros s|]. intros s1 s2 s3 H1 H2. unfold same_ioctls in *. congruence. Qed.

Lemma io_write fd bs : keeps same_ioctls (syscall (SysWrite fd bs)).
Proof. apply keeps_syscall. intros s. unfold same_ioctls. frame_simpl. by rewrite ioctls_app, app_nil_r. Qed.
Lemma io_prop k v : keeps same_ioctls (syscall (SysPropertySet k v)).
Proof. apply keeps_syscall. intros s. unfold same_ioctls. frame_simpl. by rewrite ioctls_app, app_nil_r. Qed.
Lemma io_globals f : keeps same_ioctls (modify_globals f).
Proof. by apply keeps_modify. Qed.
#[local] Hint Resolve io_write io_prop io_globals : keeps.

Lemma io_write_frame ch input ty : keeps same_ioctls (write_frame ch input ty).
Proof.
  unfold write_frame, write_frame_basic, write_frame_adv, write_failed. keeps_tac.
Qed.

(** A modem status command for channel [id] with one octet of signals. *)
Definition msc_command (a signals : Z) : list Z :=
  [Z.lor GSM0710_CONTROL_MSC GSM0710_CR; Z.lor GSM0710_EA (Z.shiftl 2 1); a; signals].
Definition msc_answer (a signals : Z) : list Z :=
  [GSM0710_CONTROL_MSC; Z.lor GSM0710_EA (Z.shiftl 2 1); a; signals].

Lemma handle_command_msc `{!AcceptingOs W} frame ctl a signals c n s :
  let id := GSM0710_DECODE_ADDRESS a in
  let off := Z.land signals GSM0710_SIGNAL_FC =? GSM0710_SIGNAL_FC in
  h_frames (m_heap s) !! frame = Some (mkFrame 0 ctl 4 (msc_command a signals)) ->
  0 < id -> m_channellist s !! Z.to_nat id = Some c -> ch_opened c = true ->
  basic_channel s 0 n -> 4 <= n ->
  wp never (handle_command frame) (fun r s' => r = 0 /\
    m_channellist s' = <[Z.to_nat id := set_ch_tx_fc_off off c]> (m_channellist s) /\
    ioctls (m_trace s') = ioctls (m_trace s) ++
      (if Bool.eqb off (ch_tx_fc_off c) then [] else [(ch_fd c, negb off)]) /\
    wire (s_fd (m_serial s)) (m_trace s') = wire (s_fd (m_serial s)) (m_trace s) ++
      basic_frame 0 (sent_type s (msc_answer a signals) GSM0710_TYPE_UIH) (msc_answer a signals)) s.
Proof.
  intros id off Hf Hid Hc Ho B Hn. unfold handle_command. wp_step. eapply wp_load_frame; [done|].
  cbn [fdata msc_command flength channel control].
  change (Z.land (Z.lor GSM0710_CONTROL_MSC GSM0710_CR) GSM0710_CR =? GSM0710_CR) with true. cbv zeta.
  change (clear_bits (Z.lor GSM0710_CONTROL_MSC GSM0710_CR) GSM0710_CR) with GSM0710_CONTROL_MSC.
  cbn [type_field_length].
  change (Z.land (Z.lor GSM0710_CONTROL_MSC GSM0710_CR) GSM0710_EA =? 0) with false. cbn iota.
  change (GSM0710_CONTROL_MSC =? GSM0710_CONTROL_CLD) with false.
  change ((GSM0710_CONTROL_MSC =? GSM0710_CONTROL_PSC) || (GSM0710_CONTROL_MSC =? GSM0710_CONTROL_TEST)
          || (GSM0710_CONTROL_MSC =? GSM0710_CONTROL_PN)) with false.
  change (GSM0710_CONTROL_MSC =? GSM0710_CONTROL_MSC) with true. cbn iota.
  match goal with |- context [value_index ?l ?k] => change (value_index l k) with 2 end.
  change (2 + 1 <? 4) with true. cbn [mwhen]. do 2 wp_step.
  match goal with |- context [byte_at ?l 2] => change (byte_at l 2) with a end.
  match goal with |- context [byte_at ?l (2 + 1)] => change (byte_at l (2 + 1)) with signals end.
  fold id. eapply wp_mono; [apply (handle_msc_spec id signals c s); [lia|done..]|].
  fold off. intros _ s1 (S1 & S2 & S3 & S4 & S5 & S6 & S7). do 3 wp_step; [|done].
  wp_step. eapply wp_with_heap; [reflexivity|]. set (s2 := set_m_heap _ s1). wp_step.
  match goal with |- context [rx_thread_write_frame 0 ?l _] => change l with (msc_answer a signals) end.
  unfold rx_thread_write_frame. wp_step.
  assert (basic_channel s2 0 n) as B2 by (by eapply (basic_channel_insert s s2)).
  destruct (write_small_accept 0 n (msc_answer a signals) GSM0710_TYPE_UIH s2 B2)
    as (s3 & E3 & (U1 & U2 & U3 & U4 & U5) & W3); [done|done|].
  pose proof (io_write_frame 0 (msc_answer a signals) GSM0710_TYPE_UIH s2) as Io.
  unfold wp, same_ioctls in Io. rewrite E3 in Io.
  eapply wp_ok; [exact E3|]. wp_steps. split; [done|]. split; [by rewrite U1|]. split; [by rewrite Io|].
  change (m_serial s2) with (m_serial s1) in W3. rewrite S1 in W3. rewrite W3.
  change (m_trace s2) with (m_trace s1). rewrite S6. f_equal. f_equal.
  unfold sent_type. change (m_globals s2) with (m_globals s1). by rewrite S3.
Qed.

End delivery.

(** ** Properties *)

(** C2: Data from the modem reaches the right application, complete and in order.  When
    the receive buffer holds a stream of data frames for channels that take data,
    [extract_frames] handles all of them: each pseudo terminal gets exactly the
    concatenation of its payloads, the buffer is empty afterwards, every frame is freed,
    and no channel changes.  The pseudo terminals take what is written to them, and no
    other thread interferes. *)
Theorem data_stream_delivered {W} `{!Os W} `{!AcceptingOs W} `{!Others W} `{!IdleOthers W}
    {cfg : Config} xs fuel (s : Mux W) :
  o_cmux_mode (m_options s) = false -> wf_buffer (s_in_buf (m_serial s)) ->
  flag_found (s_in_buf (m_serial s)) = false -> frames_wf (m_heap s) ->
  sendable_all (channel_n1 (m_channellist s)) xs -> Forall (live_data (m_channellist s)) xs ->
  contents (s_in_buf (m_serial s)) = concat (map sent_bytes xs) -> (length xs < fuel)%nat ->
  exists s', extract_frames fuel s = Ok (Z.of_nat (length xs)) s' /\
    m_channellist s' = m_channellist s /\ h_frames (m_heap s') = h_frames (m_heap s) /\
    contents (s_in_buf (m_serial s')) = [] /\ wf_buffer (s_in_buf (m_serial s')) /\
    forall fd, wire fd (m_trace s') =
      wire fd (m_trace s) ++ concat (map (payload_for (m_channellist s) fd) xs).
Proof.
  intros Hm Wf F Hh S L C Hf.
  destruct (proj1 (wp_never_ok _ _ _) (extract_loop_data xs fuel 0 s Hm Wf F Hh S L C Hf))
    as (r & s' & E & -> & R). by exists s'.
Qed.

(** Two open channels with data for both in the receive buffer. *)
Definition two_channels : list Channel :=
  <[4%nat := set_ch_opened true (set_ch_fd 9 (set_ch_negotiated_N1 512 (set_ch_id 4 zero_channel)))]>
  (<[1%nat := set_ch_opened true (set_ch_fd 8 (set_ch_negotiated_N1 512 (set_ch_id 1 zero_channel)))]>
     ready_channels).
Definition data_frames : list (Z * Z * list Z) :=
  [(4, GSM0710_TYPE_UIH, [65; 84]); (1, 0xFF, [82]); (4, GSM0710_TYPE_UIH, [13])].
Definition data_state : Mux unit :=
  set_m_channellist two_channels
    (set_m_serial (set_s_in_buf (buffer_with (concat (map sent_bytes data_frames))) (m_serial ready_state))
       ready_state).

Lemma data_sendable : sendable_all (channel_n1 two_channels) data_frames.
Proof.
  repeat (apply Forall_cons; split); try done;
    (split; [lia|decide_closed|exists 512; split; [reflexivity|vm_compute; discriminate]
            |vm_compute; discriminate|left; reflexivity]).
Qed.
Lemma data_live : Forall (live_data two_channels) data_frames.
Proof.
  repeat (apply Forall_cons; split); try done;
    (split; [lia|split; [first [by left|by right]|eexists; split; reflexivity]]).
Qed.

Lemma data_stream_delivered_witness :
  exists s', @extract_frames unit working_os no_others arale_config 4 data_state = Ok 3 s' /\
    wire 9 (m_trace s') = [65; 84; 13] /\ wire 8 (m_trace s') = [82].
Proof.
  assert (Forall is_byte (concat (map sent_bytes data_frames))) as Hb by decide_closed.
  assert (zlen (concat (map sent_bytes data_frames)) <= GSM0710_BUFFER_SIZE) as Hl
    by (vm_compute; discriminate).
  destruct (buffer_with_spec _ Hb Hl) as (Wf & F & C).
  assert (frames_wf (m_heap data_state)) as Hh 
    by (intros a [f X]; change ((∅ : gmap Z GSM0710_Frame) !! a = Some f) in X; by rewrite lookup_empty in X).
  destruct (@data_stream_delivered unit working_os (@working_accepts unit working_os working_os_works)
    no_others no_others_idle arale_config data_frames 4 data_state eq_refl Wf F Hh data_sendable data_live C)
    as (s' & E & _ & _ & _ & _ & Hw); [simpl; lia|].
  exists s'. split; [exact E|]. split; [exact (Hw 9)|exact (Hw 8)].
Defined.

(** The channel setup completes exactly with the last answer.  When the modem answers
    the pending SABMs of distinct channels, in any order, each of these channels and no
    other becomes open, the answers are counted, and the flag that lets applications send
    is set by the UA that makes the count [expected_uas] (13 on this device, control
    channel included) and by none before. *)
Theorem setup_completes_with_last_ua {W} `{!Os W} {cfg : Config} chs (s : Mux W) :
  NoDup chs -> Forall (awaiting s) chs -> chs <> [] -> g_setup_complete (m_globals s) = false ->
  0 <= g_sabm_ua_received (m_globals s) ->
  g_sabm_ua_received (m_globals s) + Z.of_nat (length chs) <= expected_uas ->
  exists s', ua_frames chs s = Ok tt s' /\
    g_sabm_ua_received (m_globals s') = g_sabm_ua_received (m_globals s) + Z.of_nat (length chs) /\
    g_setup_complete (m_globals s') =
      (g_sabm_ua_received (m_globals s) + Z.of_nat (length chs) =? expected_uas) /\
    (forall ch c, ch ∈ chs -> m_channellist s !! Z.to_nat ch = Some c ->
       m_channellist s' !! Z.to_nat ch = Some (answered c)) /\
    (forall i, (forall ch, ch ∈ chs -> i <> Z.to_nat ch) -> m_channellist s' !! i = m_channellist s !! i).
Proof.
  intros N A Hne Hs Hr Hl.
  destruct (proj1 (wp_never_ok _ _ _) (ua_frames_spec chs s N A Hr Hl)) as ([] & s' & E & R & C & X).
  exists s'. split; [done|]. split; [done|]. rewrite C, Hs, orb_false_r, bool_decide_eq_false_2 by done. done.
Qed.

Definition all_dlcis : list Z := [0; 2; 1; 3; 4; 5; 26; 6; 7; 8; 9; 10; 27].
Definition awaiting_state : Mux unit :=
  set_m_globals (set_g_setup_complete false (set_g_sabm_ua_received 0 initial_globals))
    (set_m_channellist (map (set_ch_sabm_ua_pending true) ready_channels) ready_state).

Lemma setup_completes_with_last_ua_witness :
  exists s', @ua_frames unit working_os arale_config all_dlcis awaiting_state = Ok tt s' /\
    g_setup_complete (m_globals s') = true.
Proof.
  assert (Forall (awaiting awaiting_state) all_dlcis) as A.
  { repeat (apply Forall_cons; split; [split; [lia|eexists; split_and!; reflexivity]|]). by apply Forall_nil. }
  destruct (@setup_completes_with_last_ua unit working_os arale_config all_dlcis awaiting_state)
    as (s' & E & _ & H & _);
    [decide_closed|exact A|discriminate|reflexivity|vm_compute; discriminate|vm_compute; discriminate|].
  exists s'. split; [exact E|exact H].
Defined.

(** The modem can stop and restart an application.  A modem status command for an open
    channel sets the transmit switch of that channel, and of no other, to the FC bit of
    its signals; the pseudo terminal is choked or released exactly when the switch
    changes; and the command is answered on channel 0 with its C/R bit cleared. *)
Theorem msc_switches_flow {W} `{!Os W} `{!AcceptingOs W}
    (s : Mux W) frame ctl a signals c n :
  let id := GSM0710_DECODE_ADDRESS a in
  let off := Z.land signals GSM0710_SIGNAL_FC =? GSM0710_SIGNAL_FC in
  h_frames (m_heap s) !! frame = Some (mkFrame 0 ctl 4 (msc_command a signals)) ->
  0 < id -> m_channellist s !! Z.to_nat id = Some c -> ch_opened c = true ->
  basic_channel s 0 n -> 4 <= n ->
  exists s', handle_command frame s = Ok 0 s' /\
    m_channellist s' = <[Z.to_nat id := set_ch_tx_fc_off off c]> (m_channellist s) /\
    ioctls (m_trace s') = ioctls (m_trace s) ++
      (if Bool.eqb off (ch_tx_fc_off c) then [] else [(ch_fd c, negb off)]) /\
    wire (s_fd (m_serial s)) (m_trace s') = wire (s_fd (m_serial s)) (m_trace s) ++
      basic_frame 0 (sent_type s (msc_answer a signals) GSM0710_TYPE_UIH) (msc_answer a signals).
Proof.
  intros id off Hf Hid Hc Ho B Hn.
  destruct (proj1 (wp_never_ok _ _ _) (handle_command_msc frame ctl a signals c n s Hf Hid Hc Ho B Hn))
    as (r & s' & E & -> & R). by exists s'.
Qed.

Definition msc_state : Mux unit :=
  set_m_heap (mkHeap ∅ {[ 1 := mkFrame 0 GSM0710_TYPE_UIH 4 (msc_command 0x13 0x8F) ]} 2) data_state.

Lemma msc_switches_flow_witness :
  exists s', @handle_command unit working_os 1 msc_state = Ok 0 s' /\
    ioctls (m_trace s') = [(9, false)].
Proof.
  destruct (@msc_switches_flow unit working_os (@working_accepts unit working_os working_os_works)
    msc_state 1 GSM0710_TYPE_UIH 0x13 0x8F
    (set_ch_opened true (set_ch_fd 9 (set_ch_negotiated_N1 512 (set_ch_id 4 zero_channel)))) 512)
    as (s' & E & _ & H & _);
    [reflexivity|reflexivity|reflexivity|reflexivity| |lia|].
  - split_and!; try reflexivity. eexists. split; reflexivity.
  - exists s'. split; [exact E|exact H].
Defined.

(** The retry thread finishes what a full pseudo terminal left over.  It writes the
    unwritten rest of the first pending frame and then all other pending frames, in
    order, empties the list, ends the stall of the channel, and tells the modem (with a
    status command on channel 0) to go on.  The frames must still be allocated; none of
    them is freed. *)
Theorem retry_thread_flushes {W} `{!Os W} `{!AcceptingOs W} `{!Others W} `{!IdleOthers W}
    {cfg : Config} fuel ch c b a cells d ds n (s : Mux W) :
  0 < ch -> m_channellist s !! Z.to_nat ch = Some c ->
  is_queue (m_heap s) (ch_rx_fl c) ((b, a) :: cells) ->
  live_frames (m_heap s) (a :: cells.*2) (d :: ds) -> 0 <= ch_rx_fl_written c <= zlen d ->
  basic_channel s 0 n -> 4 <= n -> ch_fd c <> s_fd (m_serial s) -> (length cells < fuel)%nat ->
  exists s', retry_write_pty_thread fuel ch s = Ok tt s' /\
    m_channellist s' = <[Z.to_nat ch := resumed c]> (m_channellist s) /\
    is_queue (m_heap s') (ch_rx_fl c) [] /\ h_frames (m_heap s') = h_frames (m_heap s) /\
    wire (ch_fd c) (m_trace s') =
      wire (ch_fd c) (m_trace s) ++ zdrop (ch_rx_fl_written c) d ++ concat ds /\
    wire (s_fd (m_serial s)) (m_trace s') =
      wire (s_fd (m_serial s)) (m_trace s) ++
      basic_frame 0 (Z.lor GSM0710_TYPE_UIH GSM0710_PF) (msc_cmd (ch_id c) false).
Proof.
  intros Hch Hc Q L Hw B Hn Hfd Hf.
  destruct (proj1 (wp_never_ok _ _ _)
              (retry_thread_spec fuel ch c b a cells d ds n s Hch Hc Q L Hw B Hn Hfd Hf))
    as ([] & s' & E & R). by exists s'.
Qed.

(** Channel 1 stalled on a frame of which one byte is written. *)
Definition pushed_heap : Heap :=
  match fl_pushFrame stalled_heap 1 2 with Some (_, h) => h | None => stalled_heap end.
Definition stalled_channel : Channel :=
  mkChannel 1 5 None None None true false false false 512 0 false true false 3 1 1.
Definition retry_state : Mux unit :=
  set_m_heap pushed_heap (set_m_channellist (<[1%nat := stalled_channel]> (m_channellist stalled_state))
    (set_m_globals initial_globals stalled_state)).

Lemma pushed_queue : is_queue pushed_heap 3 [(1, 2)].
Proof.
  destruct (pushFrame_spec stalled_heap 1 [] stalled_queue 2) as (l & h & E & Q & _).
  unfold pushed_heap. rewrite E. vm_compute in E. injection E as <- _. exact Q.
Qed.

Lemma retry_thread_flushes_witness :
  exists s', @retry_write_pty_thread unit working_os no_others arale_config 1 1 retry_state = Ok tt s' /\
    wire 5 (m_trace s') = [66].
Proof.
  destruct (@retry_thread_flushes unit working_os (@working_accepts unit working_os working_os_works)
    no_others no_others_idle arale_config 1 1 stalled_channel 1 2 [] [65; 66] [] 512 retry_state)
    as (s' & E & _ & _ & _ & H & _);
    [lia|reflexivity|exact pushed_queue| |vm_compute; split; discriminate| |lia|discriminate|simpl; lia|].
  - apply Forall2_cons. split; [|by apply Forall2_nil]. split; [discriminate|].
    exists (mkFrame 1 GSM0710_TYPE_UIH 2 [65; 66]). split_and!; reflexivity.
  - split_and!; try reflexivity. eexists. split; reflexivity.
  - exists s'. split; [exact E|exact H].
Defined.

(** A frame that arrives while its channel is stalled is used after it was freed:
    [extract_frames] has [_fc_cacheFrameData] put it on the channel's list, which frees it
    as well, and the retry thread that takes it from the list reads it.  This holds for
    every frame that fits below the high watermark, on any channel whose list is empty. *)
Theorem cached_frame_is_dangling {W} `{!Os W} `{!Others W} `{!IdleOthers W} {cfg : Config}
    fuel waiting frame f c (s : Mux W) :
  h_frames (m_heap s) !! frame = Some f -> 0 < channel f ->
  m_channellist s !! Z.to_nat (channel f) = Some c -> ch_rx_fc_off c = true ->
  is_queue (m_heap s) (ch_rx_fl c) [] ->
  0 <= ch_rx_fl_total c + flength f <= RX_FLOW_CTRL_HIGH_WATERMARK ->
  exists s1 s2 s3, information_frame fuel frame s = Ok false s1 /\
    pop_frame (channel f) s1 = Ok frame s2 /\
    retry_write_frame (S fuel) (channel f) frame 0 waiting s2 = Undef s3.
Proof.
  intros Hf Hch Hc Hoff Q Ht.
  set (s0 := if negb (Z.land (control f) GSM0710_PF =? 0)
             then set_m_globals (set_g_uih_pf_bit_received true (m_globals s)) s else s).
  assert (m_heap s0 = m_heap s /\ m_channellist s0 = m_channellist s) as [E1 E2]
    by (subst s0; by destruct (negb _)).
  destruct (cacheFrameData_cases s0 (channel f) c [] frame f) as (s1 & c1 & E & F1 & C1 & (cells & Q1 & Eq) & _);
    [lia|by rewrite E2|by rewrite E1|by rewrite E1|].
  assert ((RX_FLOW_CTRL_HIGH_WATERMARK <? u32 (ch_rx_fl_total c + flength f)) = false) as Hno.
  { unfold RX_FLOW_CTRL_HIGH_WATERMARK in *. rewrite u32_id by lia. apply Z.ltb_ge. lia. }
  rewrite Hno in Eq. destruct cells as [|[b x] [|]]; try done. injection Eq as ->.
  destruct (pop_frame_spec (channel f) c1 [(b, frame)] s1) as (h' & P & _ & F2); [lia|done|done|].
  exists s1, (set_m_heap h' s1), (set_m_heap h' s1). split_and!.
  - unfold information_frame, load_frame, with_heap, mthen at 1. rewrite Hf. cbn [mbind option_bind].
    replace (set_m_heap (m_heap s) s) with s by (by destruct s). unfold mthen at 1.
    assert (mwhen (negb (Z.land (control f) GSM0710_PF =? 0))
              (modify_globals (set_g_uih_pf_bit_received true)) s = Ok tt s0) as ->
      by (subst s0; by destruct (negb _)).
    rewrite (proj2 (Z.ltb_lt 0 _) Hch). unfold mthen at 1.
    rewrite (get_channel_eq s0 (channel f) c) by (rewrite ?E2; lia || done).
    unfold mthen at 1, cond_wait, modify. rewrite others_idle. unfold mthen at 1.
    rewrite (get_channel_eq s0 (channel f) c) by (rewrite ?E2; lia || done). rewrite Hoff.
    unfold mthen. by rewrite E.
  - exact P.
  - cbn [retry_write_frame]. unfold mthen at 1.
    rewrite (get_channel_eq _ (channel f) c1) by (done || lia). unfold mthen at 1, load_frame, with_heap.
    cbn [m_heap set_m_heap]. by rewrite F2, F1, lookup_delete_eq.
Qed.

Lemma cached_frame_is_dangling_witness :
  exists s1 s2 s3, @information_frame unit working_os no_others arale_config 1 2 stalled_state = Ok false s1 /\
    pop_frame 1 s1 = Ok 2 s2 /\
    @retry_write_frame unit working_os no_others arale_config 2 1 2 0 0 s2 = Undef s3.
Proof.
  exact (@cached_frame_is_dangling unit working_os no_others no_others_idle arale_config 1 0 2
    (mkFrame 1 GSM0710_TYPE_UIH 2 [65; 66])
    (mkChannel 1 5 None None None true false false false 512 0 false true false 1 0 0)
    stalled_state eq_refl eq_refl eq_refl eq_refl stalled_queue
    ltac:(vm_compute; split; discriminate)).
Defined.
