(* ===== verification/Threads.v ===== *)
(** * The reading threads

    [pseudo_device_read] and [poll_thread] (from an application's pseudo terminal to
    the modem), [thread_serial_device_read] and [poll_thread_serial] (from the modem
    to the receive buffer), of src/mtk/gsm0710muxd/src/gsm0710muxd.c.

    The threads run until an error ends them; [fuel] bounds their rounds. *)
From S2P Require Import Prelude Ring Frame BasicFrame MuxState Logic WriteFrame FrameList.
From S2P Require Import FlowControl Channel Boot Watchdog.

Section code.
Context {W : Type} `{!Os W} `{!Others W} {cfg : Config}.

(** The label [close_pty_channel]. *)
Definition close_pty_channel (channel : Z) : M W Z :=
  do c <- get_channel channel;
  match ch_ptslink c with
  | Some link => syscall (SysUnlink link);;; mreturn tt
  | None => mreturn tt
  end;;;
  syscall (SysClose (ch_fd c));;;
  modify_channel channel (fun c =>
    set_ch_reopen true (set_ch_ptsname None (set_ch_fd (-1) c)));;;
  mreturn GSM0710MUXD_PTY_READ_ERR.

(** The [for] loop, from [read_action_count]. *)
Fixpoint pty_read_loop (fuel : nat) (channel read_action_count : Z) : M W Z :=
  match fuel with
  | O => out_of_fuel
  | S fuel =>
      if read_action_count <? MUXD_PTY_READ_ROUND then
        do c <- get_channel channel;
        mwhen (ch_tx_fc_off c) (cond_wait (C_tx_fc_on channel));;;
        do c <- get_channel channel;
        do r <- syscall (SysRead (ch_fd c) 1024);
        do e <- gets m_errno;
        if 0 <=? ret r then
          do remaining <- (if 0 <? ret r then handle_channel_data (read_bytes r) (ch_id c)
                           else mreturn 0);
          mwhen (0 <? u32 remaining) (Gsm0710Muxd_Assert GSM0710MUXD_SERIAL_WRITE_ERR);;;
          mreturn 0
        else if e =? EINTR then pty_read_loop fuel channel read_action_count
        else if e =? EAGAIN then
          if read_action_count =? 0 then
            Gsm0710Muxd_Assert GSM0710MUXD_PTY_READ_ERR;;;
            pty_read_loop fuel channel (read_action_count + 1)
          else pty_read_loop fuel channel MUXD_PTY_READ_ROUND
        else close_pty_channel channel
      else
        mwhen (negb (read_action_count =? MUXD_PTY_READ_ROUND))
          (Gsm0710Muxd_Assert GSM0710MUXD_PTY_READ_ERR);;;
        mreturn 0
  end.

Definition pseudo_device_read (fuel : nat) (channel : Z) : M W Z :=
  do g <- gets m_globals;
  if negb (g_setup_complete g) then mreturn GSM0710MUXD_PTY_READ_ERR
  else
    do c <- get_channel channel;
    mwhen (negb (ch_opened c) && negb (g_lackof_atci g))
      (Gsm0710Muxd_Assert GSM0710MUXD_TXTHREAD_ERR);;;
    pty_read_loop fuel channel 0.

(** The [while (1)] of [poll_thread]. *)
Fixpoint poll_loop (fuel : nat) (fd channel : Z) : M W unit :=
  match fuel with
  | O => out_of_fuel
  | S fuel' =>
      do r <- syscall (SysSelect fd None);
      do e <- gets m_errno;
      if 0 <? ret r then
        do n <- pseudo_device_read fuel channel;
        if negb (n =? 0) then mreturn tt else poll_loop fuel' fd channel
      else if (e =? EINTR) || (e =? EAGAIN) then poll_loop fuel' fd channel
      else
        do stop <- gets (fun s => g_stop_muxd (m_globals s));
        if (e =? EBADF) && stop then mreturn tt
        else
          Gsm0710Muxd_Assert GSM0710MUXD_TXTHREAD_SELECT_ERR;;;
          poll_loop fuel' fd channel
  end.

Definition poll_thread (fuel : nat) (fd channel : Z) : M W unit :=
  (if fd =? -1 then mreturn tt else poll_loop fuel fd channel);;;
  watchdog fuel;;;
  mreturn tt.

(** The reader sleeps until the assembly thread has made room. *)
Fixpoint wait_buffer_ready (fuel : nat) : M W unit :=
  match fuel with
  | O => out_of_fuel
  | S fuel =>
      do b <- gets (fun s => s_in_buf (m_serial s));
      if gsm0710_buffer_free b =? 0 then cond_wait C_bufferready;;; wait_buffer_ready fuel
      else mreturn tt
  end.

Definition modify_in_buf (f : GSM0710_Buffer -> GSM0710_Buffer) : M W unit :=
  modify_serial (fun x => set_s_in_buf (f (s_in_buf x)) x).

Definition thread_serial_device_read (fuel : nat) : M W Z :=
  do stop <- gets (fun s => g_stop_muxd (m_globals s));
  if stop then mreturn 1
  else
    do st <- gets (fun s => s_state (m_serial s));
    if bool_decide (st = MUX_STATE_MUXING) then
      do b <- gets (fun s => s_in_buf (m_serial s));
      let length := gsm0710_buffer_free b in
      if 0 <? length then
        do fd <- gets (fun s => s_fd (m_serial s));
        do r <- syscall (SysRead fd (Z.min length 4096));
        do e <- gets m_errno;
        (if 0 <? ret r then
           modify_in_buf (fun b => snd (gsm0710_buffer_write b (read_bytes r) (ret r)));;;
           cond_signal C_newdataready
         else if ret r =? 0 then mreturn tt
         else if (e =? EINTR) || (e =? EAGAIN) then mreturn tt
         else Gsm0710Muxd_Assert 1);;;
        mreturn 0
      else
        modify_in_buf (set_input_sleeping true);;;
        wait_buffer_ready fuel;;;
        modify_in_buf (set_input_sleeping false);;;
        mreturn 0
    else mreturn 1.

(** Round its loop until the read function fails. *)
Fixpoint serial_loop (fuel : nat) : M W unit :=
  match fuel with
  | O => out_of_fuel
  | S fuel' =>
      do r <- thread_serial_device_read fuel;
      if negb (r =? 0) then mreturn tt else serial_loop fuel'
  end.

Definition poll_thread_serial (fuel : nat) (fd : Z) : M W unit :=
  if fd =? -1 then mreturn tt else serial_loop fuel.

End code.

(** ** Reading from the modem *)

(** [read] delivers at most the number of bytes asked for. *)
Class ReadingOs (W : Type) `{!Os W} : Prop := {
  ro_count : forall fd n w, ret (fst (os_call (SysRead fd n) w)) <= Z.max 0 n;
  ro_bytes : forall fd n w, 0 <= ret (fst (os_call (SysRead fd n) w)) ->
    ret (fst (os_call (SysRead fd n) w)) <= zlen (rbytes (fst (os_call (SysRead fd n) w)));
  ro_octets : forall fd n w, Forall is_byte (rbytes (fst (os_call (SysRead fd n) w)))
}.

(** The state in which the serial thread reads. *)
Definition reading {W} (s : Mux W) : Prop :=
  g_stop_muxd (m_globals s) = false /\ s_state (m_serial s) = MUX_STATE_MUXING /\
  wf_buffer (s_in_buf (m_serial s)) /\ datacount (s_in_buf (m_serial s)) < GSM0710_BUFFER_SIZE.

Section serial.
Context {W : Type} `{!Os W} `{!ReadingOs W} `{!Others W} {cfg : Config}.
Implicit Types s : Mux W.

Lemma serial_read_spec fuel s :
  production_release = true -> reading s ->
  let b := s_in_buf (m_serial s) in
  let r := fst (os_call (SysRead (s_fd (m_serial s)) (Z.min (gsm0710_buffer_free b) 4096)) (m_world s)) in
  wp never (thread_serial_device_read fuel) (fun v s' => v = 0 /\
    wf_buffer (s_in_buf (m_serial s')) /\
    contents (s_in_buf (m_serial s')) = contents b ++ (if 0 <? ret r then read_bytes r else []) /\
    newdataready (s_in_buf (m_serial s')) = (0 <? ret r) || newdataready b /\
    flag_found (s_in_buf (m_serial s')) = flag_found b /\
    m_channellist s' = m_channellist s) s.
Proof.
  intros Hp (Hstop & Hst & Wf & Hroom) b r. pose proof (wf_datacount b Wf) as Hdc. fold b in Hroom.
  assert (gsm0710_buffer_free b = GSM0710_BUFFER_SIZE - datacount b) as Hfree.
  { unfold gsm0710_buffer_free, GSM0710_BUFFER_SIZE in *. rewrite u32_id; lia. }
  unfold thread_serial_device_read. do 2 wp_step. rewrite Hstop. do 2 wp_step. rewrite Hst.
  rewrite bool_decide_eq_true_2 by done. do 2 wp_step. fold b. cbv zeta.
  rewrite (proj2 (Z.ltb_lt 0 _)) by lia. do 2 wp_step. do 2 wp_step. fold r. do 2 wp_step. wp_step.
  assert (ret r <= GSM0710_BUFFER_SIZE - datacount b) as Hle.
  { pose proof (ro_count (s_fd (m_serial s)) (Z.min (gsm0710_buffer_free b) 4096) (m_world s)) as H.
    fold r in H. lia. }
  wp_step.
  - wp_step. unfold modify_in_buf. wp_step. reflect_bools.
    assert (Forall is_byte (read_bytes r)) as Hb.
    { unfold read_bytes. pose proof (ro_octets (s_fd (m_serial s)) (Z.min (gsm0710_buffer_free b) 4096) (m_world s)).
      fold r in H0. auto with mux. }
    assert (zlen (read_bytes r) = ret r) as Hlen.
    { unfold read_bytes. apply zlen_ztake.
      pose proof (ro_bytes (s_fd (m_serial s)) (Z.min (gsm0710_buffer_free b) 4096) (m_world s)) as X.
      fold r in X. lia. }
    pose proof (buffer_write_spec b (read_bytes r) (ret r) Wf Hb ltac:(lia)) as S.
    do 2 wp_step. frame_simpl. cbn [s_in_buf set_s_in_buf]. fold b.
    destruct (gsm0710_buffer_write b (read_bytes r) (ret r)) as [n b']. destruct S as (Hn & W' & C & _ & F & N).
    cbn [snd]. rewrite (proj2 (Z.ltb_lt 0 _)) by done. split_and!; try done.
    rewrite C, ztake_all by lia. done.
  - rewrite H, app_nil_r. cbn [orb]. wp_step; [do 2 wp_step; by frame_simpl|].
    wp_step; [do 2 wp_step; by frame_simpl|].
    unfold Gsm0710Muxd_Assert, set_main_exit_signal. rewrite Hp.
    wp_steps; unfold mwhen; frame_simpl; split_and!; try done.
Qed.

End serial.

(** ** Properties *)

(** The serial thread loses and invents nothing.  When it reads with room in the
    receive buffer, the buffer afterwards holds the old bytes followed by exactly the
    bytes [read] delivered (it never asks for more than fits), its invariant holds, the
    assembly thread finds [newdataready] set, and end of file, [EINTR], [EAGAIN] or an
    error leave the buffer as it was. *)
Theorem serial_read_appends {W} `{!Os W} `{!ReadingOs W} `{!Others W} {cfg : Config} fuel (s : Mux W) :
  production_release = true -> reading s ->
  let b := s_in_buf (m_serial s) in
  let r := fst (os_call (SysRead (s_fd (m_serial s)) (Z.min (gsm0710_buffer_free b) 4096)) (m_world s)) in
  exists s', thread_serial_device_read fuel s = Ok 0 s' /\
    wf_buffer (s_in_buf (m_serial s')) /\
    contents (s_in_buf (m_serial s')) = contents b ++ (if 0 <? ret r then read_bytes r else []) /\
    newdataready (s_in_buf (m_serial s')) = (0 <? ret r) || newdataready b /\
    flag_found (s_in_buf (m_serial s')) = flag_found b /\
    m_channellist s' = m_channellist s.
Proof.
  intros Hp R b r.
  destruct (proj1 (wp_never_ok _ _ _) (serial_read_spec fuel s Hp R)) as (v & s' & E & -> & X).
  by exists s'.
Qed.

(** A modem that delivers [OK] on every read of at least two bytes. *)
Definition ok_os : Os unit := fun c w =>
  match c with
  | SysRead _ n => (mkRet (if 2 <=? n then 2 else 0) 0 [79; 75] None, w)
  | _ => (mkRet 0 0 [] None, w)
  end.

Lemma serial_read_appends_witness :
  exists s', @thread_serial_device_read unit ok_os no_others arale_config 1 ready_state = Ok 0 s' /\
    contents (s_in_buf (m_serial s')) = [79; 75].
Proof.
  assert (@ReadingOs unit ok_os) as RO.
  { split; intros fd n w; simpl; [destruct (Z.leb_spec 2 n); simpl; lia
      |destruct (2 <=? n); simpl; intros _; vm_compute; discriminate|decide_closed]. }
  assert (reading ready_state) as R.
  { split_and!; [reflexivity|reflexivity|exact buffer_init_wf|vm_compute; reflexivity]. }
  destruct (@serial_read_appends unit ok_os RO no_others arale_config 1 ready_state eq_refl R)
    as (s' & E & _ & C & _).
  exists s'. split; [exact E|exact C].
Defined.
