(* ===== verification/Main.v ===== *)
(** * The main program

    Option handling and the main loop of src/mtk/gsm0710muxd/src/gsm0710muxd.c:
    [baud_rate_index], [getTelephonyMode], [isDualTalkSupport] and [main].

    [getopt] is the C library's: the model takes the list of (option, argument)
    pairs it returns.  The device node that [ccci_get_node_name] gives is a
    parameter of [main]. *)
From Stdlib Require Import String Ascii.
From S2P Require Import Prelude CString Ring Frame BasicFrame MuxState Logic WriteFrame FrameList.
From S2P Require Import FlowControl Channel Boot Watchdog.

Definition baud_rates : list Z := [0; 9600; 19200; 38400; 57600; 115200; 230400; 460800; 921600].

Fixpoint rate_index_from (rates : list Z) (i baud_rate : Z) : Z :=
  match rates with
  | [] => -1
  | r :: rates => if r =? baud_rate then i else rate_index_from rates (i + 1) baud_rate
  end.
Definition baud_rate_index (baud_rate : Z) : Z := rate_index_from baud_rates 0 baud_rate.

(** [atoi]: white space, a sign, digits; what follows is ignored. *)
Fixpoint atoi_digits (l : list Z) (acc : Z) : Z :=
  match l with
  | x :: l => if (48 <=? x) && (x <=? 57) then atoi_digits l (acc * 10 + (x - 48)) else acc
  | [] => acc
  end.
Fixpoint skip_space (l : list Z) : list Z :=
  match l with
  | x :: r => if (x =? 32) || ((9 <=? x) && (x <=? 13)) then skip_space r else l
  | [] => []
  end.
Definition atoi (s : string) : Z :=
  match skip_space (bytes_of s) with
  | 45 :: l => - atoi_digits l 0
  | 43 :: l => atoi_digits l 0
  | l => atoi_digits l 0
  end.

(** Options before [getopt], and a copy of the string into [dev_node[32]]. *)
Definition default_options : Options :=
  mkOptions false (-1) 0 0 2 6 false true 0 5 1509.
Definition LOG_NOTICE : Z := 5.
Definition LOG_INFO : Z := 6.
Definition LOG_DEBUG : Z := 7.
Definition dev_node (s : string) : string := String.substring 0 31 s.

Section code.
Context {W : Type} `{!Os W} `{!Others W} {cfg : Config}.

Definition modify_options (f : Options -> Options) : M W unit :=
  modify (fun s => set_m_options (f (m_options s)) s).

Definition mexit0 {A} : M W A := mexit 0.

(** [property_get(key, value, default)] *)
Definition property_get (key dflt : string) : M W string :=
  do r <- syscall (SysPropertyGet key);
  mreturn (match rstr r with Some v => v | None => dflt end).

Definition getTelephonyMode : M W Z :=
  do mode <- property_get "ril.telephony.mode" "0";
  mreturn (if Nat.eqb (String.length mode) 0 then 0 else atoi mode).

Definition isDualTalkSupport : M W Z :=
  do telephonyMode <- getTelephonyMode;
  if telephonyMode =? 0 then
    do v <- property_get "ro.mtk_dt_support" "0"; mreturn (atoi v)
  else mreturn (if 5 <=? telephonyMode then 1 else 0).

(** One option of [getopt] with its argument. *)
Definition handle_option (opt : ascii) (optarg : string) : M W unit :=
  match opt with
  | "v"%char =>
      modify_options (set_o_syslog_level (atoi optarg));;;
      if (LOG_DEBUG <? atoi optarg) || (atoi optarg <? 0) then mexit0 else mreturn tt
  | "o"%char =>
      modify_options (set_o_logtofile true);;;
      do r <- syscall (SysOpen "/tmp/gsm0710muxd.log");
      if ret r <? 0 then mexit0 else mreturn tt
  | "d"%char => modify_options (fun o => set_o_no_daemon (negb (o_no_daemon o)) o)
  | "s"%char => modify_serial (set_s_devicename (dev_node optarg))
  | "t"%char => modify_options (set_o_use_timeout (atoi optarg))
  | "p"%char => modify_options (set_o_use_ping (atoi optarg))
  | "P"%char => modify_options (set_o_pin_code (atoi optarg))
  | "f"%char => modify_options (set_o_cmux_N1 (atoi optarg))
  | "n"%char =>
      let vir_ports := MUXD_CH_NUM_ALL - 1 in
      modify_options (set_o_vir_ports vir_ports);;;
      if (GSM0710_MAX_CHANNELS - 1 <? vir_ports) || (vir_ports <? 1) then mexit0 else mreturn tt
  | "m"%char =>
      modify_options (set_o_cmux_mode
        (if String.eqb optarg "basic" then false
         else if String.eqb optarg "advanced" then true else false))
  | "b"%char => modify_options (set_o_cmux_port_speed (baud_rate_index (atoi optarg)))
  | _ => mexit0
  end.

Fixpoint handle_options (opts : list (ascii * string)) : M W unit :=
  match opts with
  | [] => mreturn tt
  | (opt, optarg) :: opts => handle_option opt optarg;;; handle_options opts
  end.

(** The buffers; the escaped-frame buffer only exists in advanced mode. *)
Definition alloc_buffers : M W unit :=
  do o <- gets m_options;
  modify_serial (fun x =>
    set_s_in_buf_for_bootup (Some gsm0710_buffer_init) (set_s_in_buf gsm0710_buffer_init
      (if o_cmux_mode o then set_s_adv_frame_buf (Some ((o_cmux_N1 o + 3) * 2 + 2)) x else x))).

(** The log of the options reads [baud_rates[cmux_port_speed]]. *)
Definition log_options : M W unit :=
  do o <- gets m_options;
  mwhen (LOG_NOTICE <=? o_syslog_level o)
    (if (0 <=? o_cmux_port_speed o) && (o_cmux_port_speed o <? zlen baud_rates) then mreturn tt
     else undefined).

Fixpoint main_loop (fuel : nat) (rc : Z) : M W Z :=
  match fuel with
  | O => out_of_fuel
  | S fuel' =>
      do sig <- gets (fun s => g_main_exit_signal (m_globals s));
      if sig =? 0 then
        do rc <- watchdog fuel;
        if rc =? 0 then
          syscall (SysSleep 5000000);;;
          cond_wait C_sleep;;;
          main_loop fuel' rc
        else mreturn rc
      else mreturn rc
  end.

(** After the loop: close the devices, free the buffers, report an assertion.  The
    statistics are logged from [serial.in_buf] after it was freed. *)
Definition main_finish : M W Z :=
  do o <- gets m_options;
  if LOG_INFO <=? o_syslog_level o then undefined
  else
    do g <- gets m_globals;
    mwhen (production_release && g_force_assert g)
      (syscall (SysPropertySet "ril.mux.report.case" "1");;;
       syscall (SysPropertySet "ril.muxreport" "1");;;
       modify_globals (set_g_alarm true);;;
       syscall (SysAlarm 5);;;
       syscall SysPause;;;
       mreturn tt);;;
    mreturn 0.

Definition main (fuel : nat) (node : string) (opts : list (ascii * string)) : M W Z :=
  do v <- property_get "ril.mux.debuglog.enable" "";
  mwhen (match v with String c _ => Ascii.eqb c "1"%char | EmptyString => false end)
    (modify_options (set_o_syslog_level LOG_DEBUG));;;
  syscall (SysPropertySet PROPERTY_MODEM_EE "0");;;
  isDualTalkSupport;;;
  modify_serial (set_s_devicename (dev_node node));;;
  handle_options opts;;;
  alloc_buffers;;;
  modify_serial (set_s_state MUX_STATE_OPENING);;;
  log_options;;;
  do rc <- main_loop fuel (-1);
  do g <- gets m_globals;
  if negb (g_main_exit_signal g =? 0)
     || (rc =? GSM0710MUXD_OPEN_SERIAL_DEV_ERR) || (rc =? GSM0710MUXD_CREATE_THREAD_ERR)
  then check_call (shutdown_devices SHUTDOWN_DEV_W_ACTIVE_FINALIZED) main_finish
  else main_finish.

End code.

(** ** Checked options *)

(** What [main] relies on after option handling.  [baud_rate_index] answers -1 for a
    rate it does not know. *)
Definition options_ok {cfg : Config} (o : Options) : Prop :=
  0 <= o_syslog_level o <= LOG_DEBUG /\ 1 <= o_vir_ports o <= GSM0710_MAX_CHANNELS - 1 /\
  -1 <= o_cmux_port_speed o < zlen baud_rates.

Lemma rate_index_range rates i rate :
  0 <= i -> rate_index_from rates i rate = -1 \/
            i <= rate_index_from rates i rate < i + zlen rates.
Proof.
  revert i. induction rates as [|r rates IH]; intros i Hi; cbn [rate_index_from]; [by left|].
  rewrite zlen_cons. pose proof (zlen_nonneg rates). destruct (r =? rate); [right; lia|].
  destruct (IH (i + 1)) as [->|]; [lia|by left|right; lia].
Qed.

Lemma baud_rate_index_range rate : -1 <= baud_rate_index rate < zlen baud_rates.
Proof.
  unfold baud_rate_index. pose proof (zlen_nonneg baud_rates).
  destruct (rate_index_range baud_rates 0 rate) as [->|]; lia.
Qed.

Lemma baud_rate_index_known rate :
  baud_rate_index rate <> -1 <-> rate ∈ baud_rates.
Proof.
  unfold baud_rate_index. assert (forall rates i, 0 <= i ->
    rate_index_from rates i rate <> -1 <-> rate ∈ rates) as H; [|by apply H].
  intros rates. induction rates as [|r rates IH]; intros i Hi; cbn [rate_index_from].
  - rewrite elem_of_nil. lia.
  - rewrite elem_of_cons. destruct (Z.eqb_spec r rate) as [->|]; [split; [by left|lia]|].
    rewrite (IH (i + 1)) by lia. split; [by right|]. intros [->|]; done.
Qed.

Section options.
Context {W : Type} `{!Os W} {cfg : Config}.
Implicit Types s : Mux W.

(** Option handling changes options and the device name only. *)
Definition options_step (s s' : Mux W) : Prop :=
  options_ok (m_options s) -> options_ok (m_options s') /\ m_globals s' = m_globals s /\
    m_channellist s' = m_channellist s /\ s_fd (m_serial s') = s_fd (m_serial s).

Lemma handle_option_ok opt arg s :
  wp whatever (handle_option opt arg) (fun _ s' => options_step s s') s.
Proof.
  unfold handle_option, modify_options, mexit0.
  assert (forall (A : Type) (Q : A -> Mux W -> Prop), wp whatever (mexit 0) Q s) as Hexit by done.
  destruct opt as [[] [] [] [] [] [] [] []]; try apply Hexit; wp_steps; try done;
    unfold options_step, options_ok; frame_simpl;
    cbn [o_syslog_level o_vir_ports o_cmux_port_speed set_o_syslog_level set_o_logtofile set_o_no_daemon
         set_o_use_timeout set_o_use_ping set_o_pin_code set_o_cmux_N1 set_o_vir_ports set_o_cmux_mode
         set_o_cmux_port_speed s_fd set_s_devicename]; intros (H1 & H2 & H3); split_and!; try done;
    try apply baud_rate_index_range;
    reflect_bools; unfold LOG_DEBUG, GSM0710_MAX_CHANNELS in *; try lia.
Qed.

Lemma handle_options_ok opts s :
  wp whatever (handle_options opts) (fun _ s' => options_step s s') s.
Proof.
  revert s. induction opts as [|[opt arg] opts IH]; intros s; cbn [handle_options].
  - wp_step. intros H. done.
  - wp_step. eapply wp_mono; [apply handle_option_ok|]. intros u1 s1 H1. cbn beta in H1 |- *.
    eapply wp_mono; [apply IH|]. intros u2 s2 H2 Ho. destruct (H1 Ho) as (O1 & G1 & C1 & F1).
    destruct (H2 O1) as (O2 & G2 & C2 & F2). split_and!; try done; congruence.
Qed.

(** Logging the options reads outside [baud_rates] exactly for an unknown rate. *)
Lemma log_options_undef s :
  options_ok (m_options s) ->
  (exists s', log_options s = Undef s') <->
  LOG_NOTICE <= o_syslog_level (m_options s) /\ o_cmux_port_speed (m_options s) = -1.
Proof.
  intros (_ & _ & Hr). unfold log_options, mthen, gets, mwhen.
  destruct (Z.leb_spec LOG_NOTICE (o_syslog_level (m_options s))); [|split; [by intros [? ?]|lia]].
  destruct (Z.leb_spec 0 (o_cmux_port_speed (m_options s))); cbn [andb].
  - rewrite (proj2 (Z.ltb_lt _ _)) by lia. split; [by intros [? ?]|lia].
  - split; [lia|]. intros _. by exists s.
Qed.

(** The option [-b] with a rate that is not in the table. *)
Lemma unknown_rate_reads_outside arg s :
  LOG_NOTICE <= o_syslog_level (m_options s) -> atoi arg ∉ baud_rates ->
  exists s', (handle_options [("b"%char, arg)];;; log_options) s = Undef s'.
Proof.
  intros Hl Ha. assert (baud_rate_index (atoi arg) = -1) as E.
  { destruct (decide (baud_rate_index (atoi arg) = -1)) as [|H]; [done|].
    by apply baud_rate_index_known in H. }
  unfold mthen at 1. change (handle_options [("b"%char, arg)] s) with
    (Ok tt (set_m_options (set_o_cmux_port_speed (baud_rate_index (atoi arg)) (m_options s)) s) : Res W unit).
  rewrite E. unfold log_options, mthen, gets, mwhen.
  cbn [m_options set_m_options o_syslog_level o_cmux_port_speed set_o_cmux_port_speed].
  rewrite (proj2 (Z.leb_le _ _) Hl). eauto.
Qed.

End options.

(** ** Properties *)

(** Options are checked before they are used.  However the daemon is called, when
    option handling ends normally the log level is one of syslog's, the number of virtual
    ports fits the channel array, the line-speed index is an index of [baud_rates] or -1
    for a rate that is not known, and neither the run-time state nor the channels have
    changed; the log of the options that follows is outside the array exactly in the
    unknown case. *)
Theorem options_checked {W} `{!Os W} {cfg : Config} opts (s : Mux W) u s' :
  options_ok (m_options s) -> handle_options opts s = Ok u s' ->
  options_ok (m_options s') /\ m_globals s' = m_globals s /\ m_channellist s' = m_channellist s /\
  ((exists s2, log_options s' = Undef s2) <->
   LOG_NOTICE <= o_syslog_level (m_options s') /\ o_cmux_port_speed (m_options s') = -1).
Proof.
  intros Ho E. pose proof (handle_options_ok opts s) as H. unfold wp in H. rewrite E in H.
  destruct (H Ho) as (O & G & C & _). split_and!; try done. by apply log_options_undef.
Qed.

(** The process before [getopt], and the command line of the device's init script. *)
Definition start_state : Mux unit :=
  mkMux initial_serial initial_channels default_options initial_globals empty_heap 0 [] tt.
Definition init_command_line : list (ascii * string) :=
  [("s"%char, "/dev/ttyC0"%string); ("f"%char, "512"%string); ("n"%char, "8"%string);
   ("m"%char, "basic"%string)].

Lemma options_checked_witness :
  exists s', @handle_options unit working_os arale_config init_command_line start_state = Ok tt s' /\
    @options_ok arale_config (m_options s') /\
    o_cmux_mode (m_options s') = false /\ o_cmux_N1 (m_options s') = 512 /\ o_vir_ports (m_options s') = 12.
Proof.
  destruct (@handle_options unit working_os arale_config init_command_line start_state) as [[] s'|? ?|? ?|?|?] eqn:E;
    try (vm_compute in E; discriminate).
  exists s'. split; [reflexivity|]. split.
  - apply (@options_checked unit working_os arale_config init_command_line start_state tt s'); [|exact E].
    vm_compute. repeat split; discriminate.
  - vm_compute in E. injection E as <-. split_and!; reflexivity.
Defined.
