(* ===== verification/System.v ===== *)
(** The two daemons together: an AT command of the RIL daemon (AtChannel, AtLine, AtTok) sent
    over a channel of the multiplexer (WriteFrame, Receive), and the modem's answer on the
    way back.

    The RIL daemon has the slave side of the channel's pseudo terminal open: the bytes it
    writes are what [handle_channel_data] gets, and the bytes the multiplexer writes to the
    channel's descriptor are what its [read] delivers, in pieces of any size, interrupted
    any number of times. *)
From S2P Require Import Prelude CString AtTok AtLine AtChannel.
From S2P Require Import Crc Ring Frame BasicFrame AdvFrame MuxState Logic WriteFrame FrameList.
From S2P Require Import FlowControl Channel Boot Watchdog Receive.

(** The multiplexer with other bytes in its receive buffer. *)
Definition with_input {W} (b : GSM0710_Buffer) (s : Mux W) : Mux W :=
  set_m_serial (set_s_in_buf b (m_serial s)) s.

(** The multiplexer can carry the channel [ch], whose pseudo terminal has descriptor [pty]
    on its side, in frames of up to [n] bytes, and the frames [xs] wait in [b]. *)
Record carries {W} (s : Mux W) (ch pty n : Z) (b : GSM0710_Buffer) (xs : list (Z * Z * list Z)) : Prop := {
  car_channel : basic_channel s ch n;
  car_n : 1 <= n <= 32767;
  car_id : ch < 64;
  car_pty : exists c, m_channellist s !! Z.to_nat ch = Some c /\ ch_fd c = pty;
  car_heap : frames_wf (m_heap s);
  car_sendable : sendable_all (channel_n1 (m_channellist s)) xs;
  car_live : Forall (live_data (m_channellist s)) xs;
  car_buf : wf_buffer b;
  car_flag : flag_found b = false;
  car_contents : contents b = concat (map sent_bytes xs)
}.

(** The whole receive buffer is delivered. *)
Lemma extract_delivers {W} `{!Os W} `{!AcceptingOs W} `{!Others W} `{!IdleOthers W}
    {cfg : Config} s s1 ch pty n b xs fuel :
  carries s ch pty n b xs -> same_setup s s1 -> (length xs < fuel)%nat ->
  exists s2, extract_frames fuel (with_input b s1) = Ok (Z.of_nat (length xs)) s2 /\
    wire pty (m_trace s2) = wire pty (m_trace s1) ++ concat (map (payload_for (m_channellist s) pty) xs).
Proof.
  intros [(Hm & _) _ _ _ Hh Hs Hl Hb Hf Hc] (E1 & E2 & E3 & E4 & _) Hx.
  destruct (proj1 (wp_never_ok _ _ _) (extract_loop_data xs fuel 0 (with_input b s1)
    ltac:(cbn; by rewrite E2) Hb Hf ltac:(cbn; by rewrite E4) ltac:(cbn; by rewrite E1)
    ltac:(cbn; by rewrite E1) Hc Hx)) as (r & s2 & E & -> & _ & _ & _ & _ & Hw).
  exists s2. split; [done|]. rewrite Hw. cbn. by rewrite E1.
Qed.

(** C1: An AT command over the multiplexer, there and back.  What the RIL daemon writes for
    a command is cut into frames from which the modem's reader gets exactly the command
    and its carriage return; and when the modem's answer - other lines, the response
    [name: fields], [OK] - comes back in data frames mixed with those of other channels,
    the multiplexer delivers it to the pseudo terminal so that, however [read] cuts it,
    [at_send_command_singleline] returns success with the response line, the other lines
    go to the handler of unsolicited lines in order, the channel is idle again, and the
    tokenizer reads exactly the fields the modem sent. *)
Theorem at_command_over_mux {W} `{!Os W} `{!AcceptingOs W} `{!Others W} `{!IdleOthers W} {cfg : Config}
    (env : RilEnv) (st : AtState) (command name : list Z) (fs : list field) (pre : list wire_line)
    (resp fin : wire_line) (sep part : list Z) (s : Mux W) (ch pty n : Z) (b : GSM0710_Buffer)
    (xs : list (Z * Z * list Z)) (n1 : Z -> option Z) (production : bool) (fuel : nat) :
  answer env st name fs pre resp fin sep part -> carries s ch pty n b xs ->
  concat (map (payload_for (m_channellist s) pty) xs) = stream (pre ++ [resp; fin]) sep part ->
  (exists m, n1 ch = Some m /\ n <= m) -> (length xs < fuel)%nat ->
  exists s1 sent s2,
    handle_channel_data (command ++ [CR]) ch s = Ok 0 s1 /\
    wire (s_fd (m_serial s)) (m_trace s1) = wire (s_fd (m_serial s)) (m_trace s) ++ sent /\
    (forall b0, wf_buffer b0 -> flag_found b0 = false -> contents b0 = sent ->
       exists frames sig b', read_frames n1 production (S (length (command ++ [CR]))) b0
           = (frames, GNull sig b' false) /\
         concat (map fdata frames) = command ++ [CR] /\ Forall (fun f => channel f = ch) frames) /\
    extract_frames fuel (with_input b s1) = Ok (Z.of_nat (length xs)) s2 /\
    forall rx, rx_ok rx -> wire pty (m_trace s2) = wire pty (m_trace s1) ++ rx_data rx ->
      let '(evs, _, _) := reader_events (length (pre ++ [resp; fin])) init_buf rx in
      exists w p0 p,
        at_send_command_singleline env command (name ++ [COLON]) true (evs ++ [WaitWake]) st
        = FReturn 0 (Some (mkResponse 1 (Some (bytes_of "OK")) [w_text resp]))
            (mkAt (idle_channel SINGLELINE (chan st)) w (tx st ++ command ++ [CR])
               (unsol st ++ map (fun l => (w_text l, None)) pre) (props st)) /\
        at_tok_start (Some (w_text resp)) = (0, p0) /\ read_fields fs p0 = Some (fs, p) /\
        at_tok_hasmore p = false.
Proof.
  intros Ha Hc Hd Hn1 Hf. pose proof Hc as [Hch Hn Hid _ _ _ _ _ _ _].
  destruct (channel_data_sent (command ++ [CR]) ch n s n1 production Hch Hn Hid Hn1)
    as (s1 & sent & E1 & Hsame & Hw1 & Hread).
  destruct (extract_delivers s s1 ch pty n b xs fuel Hc Hsame Hf) as (s2 & E2 & Hw2).
  exists s1, sent, s2. split; [done|]. split; [done|]. split.
  { intros b0 H1 H2 H3. destruct (Hread b0 H1 H2 H3) as (frames & sig & b' & ? & ? & ? & _).
    by exists frames, sig, b'. }
  split; [done|]. intros rx Hrx Hdata. rewrite Hw2, Hd in Hdata. apply app_inv_head in Hdata.
  by apply (modem_stream_to_fields env command name fs pre resp fin sep part).
Qed.

(** The answer to [AT+CSQ] in two frames of channel 4, with a frame of channel 1 between. *)
Definition csq_stream : list Z := stream (stream_lines ++ [csq_line; ok_line]) [LF] [].

Definition csq_frames : list (Z * Z * list Z) :=
  [(4, GSM0710_TYPE_UIH, ztake 20 csq_stream); (1, 0xFF, [82]);
   (4, GSM0710_TYPE_UIH, zdrop 20 csq_stream)].

Definition csq_mux : Mux unit := set_m_channellist two_channels ready_state.

Lemma csq_carries : carries csq_mux 4 9 512 (buffer_with (concat (map sent_bytes csq_frames))) csq_frames.
Proof.
  assert (Forall is_byte (concat (map sent_bytes csq_frames))) as Hb by decide_closed.
  assert (zlen (concat (map sent_bytes csq_frames)) <= GSM0710_BUFFER_SIZE) as Hl
    by (vm_compute; discriminate).
  destruct (buffer_with_spec _ Hb Hl) as (Wf & F & C).
  split; try done.
  - repeat split; try done. eexists. split; reflexivity.
  - eexists. split; reflexivity.
  - intros a [f X]. change ((∅ : gmap Z GSM0710_Frame) !! a = Some f) in X. by rewrite lookup_empty in X.
  - repeat (apply Forall_cons; split); try done;
      (split; [lia|decide_closed|exists 512; split; [reflexivity|vm_compute; discriminate]
              |vm_compute; discriminate|left; reflexivity]).
  - repeat (apply Forall_cons; split); try done;
      (split; [lia|split; [first [by left|by right]|eexists; split; reflexivity]]).
Qed.

Lemma at_command_over_mux_witness :
  exists s1 sent s2,
    @handle_channel_data unit working_os (bytes_of "AT+CSQ" ++ [CR]) 4 csq_mux = Ok 0 s1 /\
    wire 3 (m_trace s1) = wire 3 (m_trace csq_mux) ++ sent /\
    @extract_frames unit working_os no_others arale_config 4
      (with_input (buffer_with (concat (map sent_bytes csq_frames))) s1) = Ok 3 s2 /\
    (wire 9 (m_trace s2) = wire 9 (m_trace s1) ++ rx_data stream_rx ->
      let '(evs, _, _) := reader_events 3 init_buf stream_rx in
      exists w,
        at_send_command_singleline example_env (bytes_of "AT+CSQ") (bytes_of "+CSQ" ++ [COLON]) true
          (evs ++ [WaitWake]) example_state
        = FReturn 0 (Some (mkResponse 1 (Some (bytes_of "OK")) [bytes_of "+CSQ: 23,99"]))
            (mkAt (idle_channel SINGLELINE example_channel) w (bytes_of "AT+CSQ" ++ [CR])
               [(bytes_of "+CIEV: 4,1", None)] [])).
Proof.
  destruct (@at_command_over_mux unit working_os (@working_accepts unit working_os working_os_works)
    no_others no_others_idle arale_config example_env example_state (bytes_of "AT+CSQ")
    (bytes_of "+CSQ") csq_fields stream_lines csq_line ok_line [LF] [] csq_mux 4 9 512
    (buffer_with (concat (map sent_bytes csq_frames))) csq_frames (fun _ => Some 512) true 4
    csq_answer csq_carries eq_refl)
    as (s1 & sent & s2 & E1 & Hw & _ & E2 & H); [exists 512; split; [done|lia]|simpl; lia|].
  exists s1, sent, s2. split; [exact E1|]. split; [exact Hw|]. split; [exact E2|].
  intros Hd. specialize (H stream_rx).
  assert (rx_ok stream_rx) as Hrx by (repeat constructor; vm_compute; done).
  specialize (H Hrx Hd). change (length (stream_lines ++ [csq_line; ok_line])) with 3%nat in H.
  destruct (reader_events 3 init_buf stream_rx) as [[evs b'] rx'].
  destruct H as (w & p0 & p & E & _). exists w. exact E.
Defined.
