(* ===== verification/ThreadQueue.v ===== *)
(** * The message queue of the vibrator daemon (src/immvibe/threadqueue.c)

    A singly linked list of messages with pointers to its first and last node, and a pool
    of unused nodes.  The nodes live on an explicit heap: an operation is [None] where the C
    code would use [NULL] or a freed node.  Every operation runs with the mutex held from
    its first to its last access, but for the wait of [thread_queue_get]; threads that add,
    wait, wake up, time out and take messages are the transition system [step].

    The abstract specification is a FIFO queue of messages: [tq_rep] relates it to the heap,
    and it also says that the queue owns exactly the nodes of its two lists. *)
From S2P Require Import Prelude.

(** * Data and operations *)

Definition MSGPOOL_SIZE : Z := 256.
Definition ENOMEM : Z := 12.
Definition ETIMEDOUT : Z := 110.

Record threadmsg := ThreadMsg { data : Z; msgtype : Z; qlength : Z }.

(** Only the fields [data] and [msgtype] of the embedded message are used in a node. *)
Record msglist := MsgList { n_data : Z; n_msgtype : Z; n_next : Z }.

(** The queue, the nodes, the next address [malloc] returns, and the data pointers given to
    [free]. *)
Record Tq := mkTq {
  q_length : Z;
  q_first : Z;
  q_last : Z;
  q_msgpool : Z;
  q_msgpool_length : Z;
  q_nodes : gmap Z msglist;
  q_brk : Z;
  q_freed : list Z
}.

Definition set_nodes (n : gmap Z msglist) (s : Tq) : Tq :=
  mkTq (q_length s) (q_first s) (q_last s) (q_msgpool s) (q_msgpool_length s) n (q_brk s) (q_freed s).

Definition set_pool (p len : Z) (s : Tq) : Tq :=
  mkTq (q_length s) (q_first s) (q_last s) p len (q_nodes s) (q_brk s) (q_freed s).

Definition set_list (len first last : Z) (s : Tq) : Tq :=
  mkTq len first last (q_msgpool s) (q_msgpool_length s) (q_nodes s) (q_brk s) (q_freed s).

Definition malloc_node (s : Tq) : Z * Tq :=
  (q_brk s,
   mkTq (q_length s) (q_first s) (q_last s) (q_msgpool s) (q_msgpool_length s)
     (<[q_brk s := MsgList 0 0 0]> (q_nodes s)) (q_brk s + 1) (q_freed s)).

(** [free] of a node, and of the data of a message. *)
Definition free_node (a : Z) (s : Tq) : option Tq :=
  _ ← q_nodes s !! a; Some (set_nodes (delete a (q_nodes s)) s).

Definition free_data (p : Z) (s : Tq) : Tq :=
  mkTq (q_length s) (q_first s) (q_last s) (q_msgpool s) (q_msgpool_length s) (q_nodes s) (q_brk s)
    (q_freed s ++ if p =? 0 then [] else [p]).

Definition store_node (a : Z) (n : msglist) (s : Tq) : option Tq :=
  _ ← q_nodes s !! a; Some (set_nodes (<[a := n]> (q_nodes s)) s).

(** A node from the pool or, if it is empty, from [malloc], which may fail. *)
Definition get_msglist (malloc_ok : bool) (s : Tq) : option (Z * Tq) :=
  if negb (q_msgpool s =? 0) then
    tmp ← q_nodes s !! q_msgpool s;
    Some (q_msgpool s, set_pool (n_next tmp) (q_msgpool_length s - 1) s)
  else if malloc_ok then Some (malloc_node s)
  else Some (0, s).

Definition release_msglist (node : Z) (s : Tq) : option Tq :=
  s ← (if q_length s ÷ 8 + MSGPOOL_SIZE <? q_msgpool_length s then free_node node s
       else
         s ← store_node node (MsgList 0 0 (q_msgpool s)) s;
         Some (set_pool node (q_msgpool_length s + 1) s));
  if q_length s ÷ 4 + MSGPOOL_SIZE * 10 <? q_msgpool_length s then
    tmp ← q_nodes s !! q_msgpool s;
    s' ← free_node (q_msgpool s) s;
    Some (set_pool (n_next tmp) (q_msgpool_length s - 1) s')
  else Some s.

(** [cond_ret] and [mutex_ret] are the results of the two pthread functions. *)
Definition thread_queue_init (cond_ret mutex_ret : Z) (s : Tq) : Z * Tq :=
  let s := mkTq 0 0 0 0 0 (q_nodes s) (q_brk s) (q_freed s) in
  if negb (cond_ret =? 0) then (cond_ret, s)
  else if negb (mutex_ret =? 0) then (mutex_ret, s)
  else (0, s).

(** The result, whether the waiting threads are woken, and the queue. *)
Definition thread_queue_add (malloc_ok : bool) (data msgtype : Z) (s : Tq) : option (Z * bool * Tq) :=
  '(newmsg, s) ← get_msglist malloc_ok s;
  if newmsg =? 0 then Some (ENOMEM, false, s)
  else
    s ← store_node newmsg (MsgList data msgtype 0) s;
    s ← (if q_last s =? 0 then Some (set_list (q_length s) newmsg newmsg s)
         else
           l ← q_nodes s !! q_last s;
           s ← store_node (q_last s) (MsgList (n_data l) (n_msgtype l) newmsg) s;
           Some (set_list (q_length s) (q_first s) newmsg s));
    Some (0, q_length s =? 0, set_list (q_length s + 1) (q_first s) (q_last s) s).

(** The absolute time of [thread_queue_get], from the current time. *)
Definition abstimeout (now_sec now_usec sec nsec : Z) : Z * Z :=
  let tv_sec := now_sec + sec in
  let tv_nsec := now_usec * 1000 + nsec in
  if 1000000000 <=? tv_nsec then (tv_sec + 1, tv_nsec - 1000000000) else (tv_sec, tv_nsec).

(** Taking the first message, after the wait. *)
Definition take_first (s : Tq) : option (threadmsg * Tq) :=
  let firstrec := q_first s in
  n ← q_nodes s !! firstrec;
  let s := set_list (q_length s - 1) (n_next n) (q_last s) s in
  let s := if q_first s =? 0 then set_list 0 0 0 s else s in
  let msg := ThreadMsg (n_data n) (n_msgtype n) (q_length s) in
  s ← release_msglist firstrec s;
  Some (msg, s).

(** The loop condition of [thread_queue_get] and what follows, with the mutex held;
    [expired] is [ret == ETIMEDOUT]. *)
Inductive get_outcome :=
| GSleep                                  (* wait again *)
| GTimeout                                (* return ETIMEDOUT *)
| GMessage (m : threadmsg) (s : Tq).      (* return 0 *)

Definition get_locked (expired : bool) (s : Tq) : option get_outcome :=
  if (q_first s =? 0) && negb expired then Some GSleep
  else if expired then Some GTimeout
  else '(m, s) ← take_first s; Some (GMessage m s).

(** One of the two loops of [thread_queue_cleanup]; each round frees a node. *)
Fixpoint free_list (fuel : nat) (freedata : bool) (rec : Z) (s : Tq) : option Tq :=
  if rec =? 0 then Some s
  else match fuel with
  | O => None
  | S fuel =>
      n ← q_nodes s !! rec;
      let s := if freedata then free_data (n_data n) s else s in
      s ← free_node rec s;
      free_list fuel freedata (n_next n) s
  end.

Definition thread_queue_cleanup (freedata : bool) (s : Tq) : option Tq :=
  let recs0 := q_first s in
  let recs1 := q_msgpool s in
  let fuel := size (q_nodes s) in
  s ← free_list fuel freedata recs0 s;
  free_list fuel freedata recs1 s.

Definition thread_queue_length (s : Tq) : Z := q_length s.

(** * Representation *)

(** A node with its address, data and message type. *)
Abbreviation cell := (Z * (Z * Z))%type.

Fixpoint seg (nodes : gmap Z msglist) (start stop : Z) (cells : list cell) : Prop :=
  match cells with
  | [] => start = stop
  | (a, (d, t)) :: r => start = a /\ exists nx, nodes !! a = Some (MsgList d t nx) /\ seg nodes nx stop r
  end.

Definition last_addr (cells : list cell) : Z := default 0 (last cells.*1).

(** The queue holds [cells], the pool [pool], and [det] are nodes in use by the running
    operation; these are all the nodes there are. *)
Record tq_rep (s : Tq) (cells pool : list cell) (det : list Z) : Prop := {
  rep_first : seg (q_nodes s) (q_first s) 0 cells;
  rep_last : q_last s = last_addr cells;
  rep_pool : seg (q_nodes s) (q_msgpool s) 0 pool;
  rep_zero : Forall (fun c => c.2.1 = 0) pool;
  rep_nodup : NoDup (cells.*1 ++ pool.*1 ++ det);
  rep_dom : forall a, is_Some (q_nodes s !! a) <-> a ∈ cells.*1 ++ pool.*1 ++ det;
  rep_pos : 0 < q_brk s /\ forall a, is_Some (q_nodes s !! a) -> 0 < a < q_brk s;
  rep_length : q_length s = zlen cells;
  rep_pool_length : q_msgpool_length s = zlen pool
}.

(** The size of the pool after an operation. *)
Definition pool_ok (cells pool : list cell) : Prop :=
  zlen pool <= zlen cells / 4 + MSGPOOL_SIZE * 10.

Lemma seg_ext nodes nodes' start stop cells :
  (forall a, a ∈ cells.*1 -> nodes' !! a = nodes !! a) ->
  seg nodes start stop cells -> seg nodes' start stop cells.
Proof.
  revert start. induction cells as [|[a [d t]] r IH]; intros start H; simpl; [done|].
  intros [-> (nx & Hn & Hr)]. split; [done|]. exists nx. split.
  - rewrite H; [done|]. left.
  - apply IH; [|done]. intros b Hb. apply H. by right.
Qed.

Lemma seg_insert nodes start stop cells a n :
  (a ∉ cells.*1) -> seg nodes start stop cells -> seg (<[a := n]> nodes) start stop cells.
Proof.
  intros Ha. apply seg_ext. intros b Hb. apply lookup_insert_ne. by intros ->.
Qed.

Lemma seg_delete nodes start stop cells a :
  (a ∉ cells.*1) -> seg nodes start stop cells -> seg (delete a nodes) start stop cells.
Proof.
  intros Ha. apply seg_ext. intros b Hb. apply lookup_delete_ne. by intros ->.
Qed.

(** The last node of a list, and the list without it. *)
Lemma seg_snoc nodes start stop cells a d t :
  seg nodes start stop (cells ++ [(a, (d, t))]) <->
  seg nodes start a cells /\ nodes !! a = Some (MsgList d t stop).
Proof.
  revert start. induction cells as [|[b [e u]] r IH]; intros start; simpl.
  - split; [intros [-> (nx & H & ->)]; done|]. intros [-> H]. eauto.
  - split.
    + intros [-> (nx & Hb & H)]. apply IH in H as [H1 H2]. eauto.
    + intros [[-> (nx & Hb & H)] Ha]. split; [done|]. exists nx. split; [done|]. by apply IH.
Qed.

Lemma seg_head nodes start cells :
  seg nodes start 0 cells -> (forall a, a ∈ cells.*1 -> 0 < a) ->
  start = 0 <-> cells = [].
Proof.
  destruct cells as [|[a [d t]] r]; simpl; [done|]. intros [-> _] H.
  assert (0 < a) by (apply H; left). split; [lia|done].
Qed.

(** ** Bookkeeping of the nodes *)

(** The nodes of a queue are those of a list up to order. *)
Definition owns (nodes : gmap Z msglist) (own : list Z) : Prop :=
  NoDup own /\ forall a, is_Some (nodes !! a) <-> a ∈ own.

Lemma owns_perm nodes own own' : own ≡ₚ own' -> owns nodes own -> owns nodes own'.
Proof. intros P [N D]. split; [by rewrite <-P|]. intros a. by rewrite D, P. Qed.

Lemma owns_store nodes own a n : a ∈ own -> owns nodes own -> owns (<[a := n]> nodes) own.
Proof.
  intros Ha [N D]. split; [done|]. intros b. rewrite lookup_insert_is_Some', D. split; [by intros [->|?]|by right].
Qed.

Lemma owns_alloc nodes own a n :
  nodes !! a = None -> owns nodes own -> owns (<[a := n]> nodes) (a :: own).
Proof.
  intros Ha [N D]. split.
  - apply NoDup_cons. split; [|done]. rewrite <-D, Ha. by intros [? ?].
  - intros b. rewrite lookup_insert_is_Some', D, elem_of_cons. intuition congruence.
Qed.

Lemma owns_free nodes own a : owns nodes (a :: own) -> owns (delete a nodes) own.
Proof.
  intros [N D]. apply NoDup_cons in N as [Ha N]. split; [done|]. intros b.
  rewrite lookup_delete_is_Some, D, elem_of_cons. split; [intros [? [->|?]]; done|].
  intros Hb. split; [by intros ->|by right].
Qed.

Section steps.
Context (s : Tq) (cells pool : list cell).

Lemma rep_owns det : tq_rep s cells pool det -> owns (q_nodes s) (cells.*1 ++ pool.*1 ++ det).
Proof. intros []. by split. Qed.

Lemma rep_addr_pos det a : tq_rep s cells pool det -> a ∈ cells.*1 ++ pool.*1 ++ det -> 0 < a.
Proof. intros [] Ha. apply rep_pos0. by apply rep_dom0. Qed.

(** The node in use is in neither list. *)
Lemma rep_det_fresh a : tq_rep s cells pool [a] -> (a ∉ cells.*1) /\ (a ∉ pool.*1).
Proof.
  intros [_ _ _ _ N _ _ _ _]. rewrite app_assoc in N. apply NoDup_app in N as (_ & N & _).
  split; intros Ha; apply (N a); try (apply elem_of_app; tauto); left.
Qed.

(** A node is taken from the pool or allocated. *)
Lemma get_msglist_spec ok :
  tq_rep s cells pool [] ->
  (get_msglist ok s = Some (0, s) /\ ok = false /\ pool = []) \/
  exists a s' pool', get_msglist ok s = Some (a, s') /\ 0 < a /\ tq_rep s' cells pool' [a] /\
    zlen pool' <= zlen pool.
Proof.
  intros R. pose proof (rep_owns _ R) as O. pose proof (rep_addr_pos [] ) as P.
  pose proof R as [H1 H2 H3 H4 H5 H6 [H7 H7'] H8 H9]. unfold get_msglist.
  destruct pool as [|[a [d t]] r] eqn:Ep; simpl in H3.
  - rewrite H3. simpl. destruct ok; [|by left]. right.
    assert (Hf : q_nodes s !! q_brk s = None).
    { apply eq_None_not_Some. intros Hs. apply H7' in Hs. lia. }
    assert (Hb : q_brk s ∉ cells.*1).
    { intros Hb. assert (is_Some (q_nodes s !! q_brk s)) as [? ?]; [|congruence].
      apply H6. rewrite elem_of_app. by left. }
    eexists (q_brk s), _, []. split; [reflexivity|]. split; [done|]. split; [|done].
    pose proof (owns_alloc _ _ (q_brk s) (MsgList 0 0 0) Hf O) as O'. simpl in O'.
    eapply owns_perm in O' as [N D]; [|by rewrite Permutation_cons_append].
    split; simpl; try done.
    + by apply seg_insert.
    + by rewrite app_nil_r in N.
    + intros b. rewrite D, app_nil_r. done.
    + split; [lia|]. intros b. rewrite lookup_insert_is_Some'. intros [<-|Hs]; [lia|].
      apply H7' in Hs. lia.
  - destruct H3 as [-> (nx & Ha & Hr)].
    assert (0 < a) by (apply (P a); [done|]; rewrite elem_of_app; right; rewrite elem_of_app; left; left).
    destruct (a =? 0) eqn:E0; reflect_bools; [lia|]. simpl. rewrite Ha. simpl. right.
    eexists _, _, r. split; [reflexivity|]. split; [done|]. split; [|rewrite zlen_cons; lia].
    eapply owns_perm with (own' := cells.*1 ++ r.*1 ++ [a]) in O as [N D].
    2: { simpl. rewrite app_nil_r. by rewrite (Permutation_app_comm r.*1). }
    split; simpl; try done.
    + by apply Forall_cons in H4 as [_ ?].
    + rewrite H9, zlen_cons. lia.
Qed.
End steps.

Lemma store_node_live s a n n0 :
  q_nodes s !! a = Some n0 -> store_node a n s = Some (set_nodes (<[a := n]> (q_nodes s)) s).
Proof. intros H. unfold store_node. by rewrite H. Qed.

Lemma free_node_live s a n0 :
  q_nodes s !! a = Some n0 -> free_node a s = Some (set_nodes (delete a (q_nodes s)) s).
Proof. intros H. unfold free_node. by rewrite H. Qed.

Lemma last_addr_snoc cells a x : last_addr (cells ++ [(a, x)]) = a.
Proof. unfold last_addr. rewrite fmap_app. simpl. by rewrite last_snoc. Qed.

Lemma rep_det_live s cells pool a :
  tq_rep s cells pool [a] -> exists n, q_nodes s !! a = Some n.
Proof.
  intros R. apply (rep_dom _ _ _ _ R). rewrite !elem_of_app. right. right. left.
Qed.

(** A message is filled in and put at the end of the list. *)
Lemma attach_spec s cells pool a d t :
  tq_rep s cells pool [a] ->
  exists s', (s ← store_node a (MsgList d t 0) s;
     s ← (if q_last s =? 0 then Some (set_list (q_length s) a a s)
          else
            l ← q_nodes s !! q_last s;
            s ← store_node (q_last s) (MsgList (n_data l) (n_msgtype l) a) s;
            Some (set_list (q_length s) (q_first s) a s));
     Some (0, q_length s =? 0, set_list (q_length s + 1) (q_first s) (q_last s) s))
    = Some (0, bool_decide (cells = []), s') /\
    tq_rep s' (cells ++ [(a, (d, t))]) pool [].
Proof.
  intros R. destruct (rep_det_live _ _ _ _ R) as [n0 Hn0].
  destruct (rep_det_fresh _ _ _ _ R) as [Hc Hp]. pose proof (rep_owns _ _ _ _ R) as O.
  assert (Hpos : forall b, b ∈ cells.*1 ++ pool.*1 ++ [a] -> 0 < b)
    by (intros b; by eapply rep_addr_pos).
  destruct R as [H1 H2 H3 H4 _ _ [H7 H7'] H8 H9].
  rewrite (store_node_live _ _ _ _ Hn0). cbn [mbind option_bind].
  apply (owns_store _ _ a (MsgList d t 0)) in O; [|rewrite !elem_of_app; right; right; left].
  assert (Hbrk : forall b, b ∈ cells.*1 ++ pool.*1 ++ [a] -> 0 < b < q_brk s).
  { intros b Hb. apply H7'. apply (proj2 O) in Hb. rewrite lookup_insert_is_Some' in Hb.
    destruct Hb as [E|Hb]; [subst b; by eexists|done]. }
  assert (Hperm : cells.*1 ++ pool.*1 ++ [a] ≡ₚ (cells ++ [(a, (d, t))]).*1 ++ pool.*1 ++ []).
  { rewrite fmap_app, app_nil_r, <-app_assoc. simpl. by rewrite <-Permutation_cons_append. }
  destruct cells as [|[l [e u]] cs _] using rev_ind.
  - unfold last_addr in H2. simpl in H1, H2 |- *. rewrite H2. simpl.
    eexists. split; [by rewrite H8|]. apply (owns_perm _ _ _ Hperm) in O as [N D].
    split; simpl; try done.
    + split; [done|]. exists 0. by rewrite lookup_insert_eq.
    + by apply seg_insert.
    + split; [done|]. intros b Hb. apply D in Hb. apply Hbrk. by rewrite Hperm.
  - rewrite last_addr_snoc in H2. apply seg_snoc in H1 as [H1 Hl].
    rewrite fmap_app, not_elem_of_app in Hc. destruct Hc as [Hc Hla].
    assert (l <> a) by (intros ->; apply Hla; left).
    assert (0 < l) by (apply Hpos; rewrite fmap_app, !elem_of_app; left; right; left).
    cbn [set_nodes q_last q_nodes]. rewrite H2. destruct (l =? 0) eqn:El; reflect_bools; [lia|].
    rewrite lookup_insert_ne, Hl by done. cbn [mbind option_bind n_data n_msgtype].
    erewrite store_node_live by (cbn; by rewrite lookup_insert_ne). cbn [mbind option_bind]. eexists. split.
    { f_equal. f_equal. f_equal. simpl. rewrite H8, zlen_app.
      pose proof (zlen_nonneg cs). rewrite bool_decide_eq_false_2 by (by destruct cs).
      apply Z.eqb_neq. change (zlen [(l, (e, u))]) with 1. lia. }
    apply (owns_store _ _ l (MsgList e u a)) in O;
      [|rewrite fmap_app, !elem_of_app; left; right; left].
    apply (owns_perm _ _ _ Hperm) in O as [N D].
    assert (Hlc : (l ∉ cs.*1) /\ (l ∉ pool.*1)).
    { revert N. rewrite !fmap_app, <-!app_assoc. simpl. rewrite app_nil_r. intros N.
      apply NoDup_app in N as (_ & N1 & N2). split.
      - intros Hx. apply (N1 l Hx). left.
      - apply NoDup_cons in N2 as [N2 _]. intros Hx. apply N2. by right. }
    destruct Hlc as [Hl1 Hl2].
    split; simpl; try done.
    + apply seg_snoc. split.
      * apply seg_snoc. split; [|by rewrite lookup_insert_eq].
        apply seg_insert; [done|]. by apply seg_insert.
      * by rewrite lookup_insert_ne, lookup_insert_eq by done.
    + by rewrite last_addr_snoc.
    + apply seg_insert; [done|]. by apply seg_insert.
    + split; [done|]. intros b Hb. apply D in Hb. apply Hbrk. by rewrite Hperm.
    + rewrite H8, !zlen_app. done.
Qed.

(** Adding a message: it becomes the last one, and waiting threads are woken exactly when
    the queue was empty. *)
Lemma add_spec s cells pool ok d t :
  tq_rep s cells pool [] -> pool_ok cells pool ->
  (thread_queue_add ok d t s = Some (ENOMEM, false, s) /\ ok = false /\ pool = []) \/
  exists a s' pool', thread_queue_add ok d t s = Some (0, bool_decide (cells = []), s') /\
    tq_rep s' (cells ++ [(a, (d, t))]) pool' [] /\ pool_ok (cells ++ [(a, (d, t))]) pool'.
Proof.
  intros R P. unfold thread_queue_add.
  destruct (get_msglist_spec s cells pool ok R)
    as [(-> & -> & ->) | (a & s1 & pool' & -> & Ha & R1 & Hle)]; [by left|right].
  cbn [mbind option_bind]. destruct (a =? 0) eqn:E; reflect_bools; [lia|].
  destruct (attach_spec s1 cells pool' a d t R1) as (s' & E' & R'). rewrite E'.
  exists a, s', pool'. split; [done|]. split; [done|]. unfold pool_ok in *.
  rewrite zlen_app. change (zlen [(a, (d, t))]) with 1.
  assert (zlen cells / 4 <= (zlen cells + 1) / 4) by (apply Z.div_le_mono; lia). lia.
Qed.

(** The first node is taken out of the list. *)
Lemma detach_spec s cells pool a d t nx :
  tq_rep s ((a, (d, t)) :: cells) pool [] -> q_nodes s !! a = Some (MsgList d t nx) ->
  let s1 := set_list (q_length s - 1) nx (q_last s) s in
  tq_rep (if q_first s1 =? 0 then set_list 0 0 0 s1 else s1) cells pool [a].
Proof.
  intros R Ha s1. pose proof (rep_owns _ _ _ _ R) as O. simpl in O. rewrite app_nil_r in O.
  assert (Hperm : a :: cells.*1 ++ pool.*1 ≡ₚ cells.*1 ++ pool.*1 ++ [a])
    by (rewrite app_assoc; apply Permutation_cons_append).
  apply (owns_perm _ _ _ Hperm) in O as [N D].
  assert (Hpos : forall b, b ∈ cells.*1 -> 0 < b).
  { intros b Hb. apply (rep_addr_pos _ _ _ _ b R). simpl. right. rewrite elem_of_app. by left. }
  destruct R as [H1 H2 H3 H4 _ _ H7 H8 H9]. simpl in H1. destruct H1 as [Hf (nx' & Ha' & Hs)].
  rewrite Ha in Ha'. injection Ha' as <-. rewrite zlen_cons in H8.
  pose proof (seg_head _ _ _ Hs Hpos) as Hnil. cbn [s1 set_list q_first].
  destruct (nx =? 0) eqn:E; reflect_bools.
  - assert (cells = []) as -> by (by apply Hnil). split; try done.
  - split; try done.
    + simpl. rewrite H2. destruct cells as [|c cells _] using rev_ind.
      * exfalso. apply E. by apply Hnil.
      * destruct c as [b x]. by rewrite (app_comm_cons cells), !last_addr_snoc.
    + simpl. lia.
Qed.

Lemma quarter_nonneg (cells : list cell) : 0 <= zlen cells / 4 /\ zlen cells / 8 <= zlen cells / 4.
Proof.
  pose proof (zlen_nonneg cells). split; [apply Z.div_pos; lia|apply Z.div_le_compat_l; lia].
Qed.

(** The node goes to the pool or is freed. *)
Lemma release_node_spec s cells pool a :
  tq_rep s cells pool [a] -> zlen pool <= zlen cells / 4 + 1 + MSGPOOL_SIZE * 10 ->
  exists s1 pool1, (if q_length s ÷ 8 + MSGPOOL_SIZE <? q_msgpool_length s then free_node a s
       else s ← store_node a (MsgList 0 0 (q_msgpool s)) s;
            Some (set_pool a (q_msgpool_length s + 1) s)) = Some s1 /\
    tq_rep s1 cells pool1 [] /\ zlen pool1 <= zlen cells / 4 + 1 + MSGPOOL_SIZE * 10.
Proof.
  intros R P. destruct (rep_det_live _ _ _ _ R) as [n Hn].
  destruct (rep_det_fresh _ _ _ _ R) as [Hc Hp].
  pose proof (rep_owns _ _ _ _ R) as O. destruct R as [H1 H2 H3 H4 _ _ [H7 H7'] H8 H9].
  pose proof (zlen_nonneg cells). pose proof (quarter_nonneg cells). unfold MSGPOOL_SIZE in *.
  rewrite H8, Z.quot_div_nonneg by lia. destruct (_ <? _) eqn:E; reflect_bools.
  - rewrite (free_node_live _ _ _ Hn). eexists _, pool. split; [done|]. split; [|done].
    assert (Hperm : cells.*1 ++ pool.*1 ++ [a] ≡ₚ a :: cells.*1 ++ pool.*1 ++ []).
    { rewrite app_nil_r, app_assoc. symmetry. apply Permutation_cons_append. }
    apply (owns_perm _ _ _ Hperm), owns_free in O as [N D].
    split; simpl; try done; try (by apply seg_delete).
    split; [done|]. intros b Hb. apply H7'. apply lookup_delete_is_Some in Hb. tauto.
  - rewrite (store_node_live _ _ _ _ Hn). cbn [mbind option_bind].
    eexists _, ((a, (0, 0)) :: pool). split; [done|].
    apply (owns_store _ _ a (MsgList 0 0 (q_msgpool s))) in O;
      [|rewrite !elem_of_app; right; right; left].
    assert (Hperm : cells.*1 ++ pool.*1 ++ [a] ≡ₚ cells.*1 ++ ((a, (0, 0)) :: pool).*1 ++ []).
    { simpl. rewrite app_nil_r. by rewrite <-Permutation_cons_append. }
    apply (owns_perm _ _ _ Hperm) in O as [N D]. rewrite zlen_cons.
    split; [split; simpl; try done; try (by apply seg_insert)|lia].
    + split; [done|]. eexists. rewrite lookup_insert_eq. split; [done|]. by apply seg_insert.
    + by constructor.
    + split; [done|]. intros b. rewrite lookup_insert_is_Some'. intros [E'|?]; [|by apply H7'].
      subst b. apply H7'. by eexists.
    + rewrite zlen_cons, H9. lia.
Qed.

(** A node of a large pool is freed. *)
Lemma pool_drop_spec s cells pool b x :
  tq_rep s cells ((b, x) :: pool) [] ->
  exists nx, q_nodes s !! q_msgpool s = Some nx /\ q_msgpool s = b /\
    tq_rep (set_pool (n_next nx) (q_msgpool_length s - 1) (set_nodes (delete b (q_nodes s)) s))
      cells pool [].
Proof.
  intros R. pose proof (rep_owns _ _ _ _ R) as O.
  destruct R as [H1 H2 H3 H4 H5 H6 [H7 H7'] H8 H9]. destruct x as [d t]. simpl in H3.
  destruct H3 as [Hb (nx & Hn & Hr)]. exists (MsgList d t nx). rewrite Hb. do 2 (split; [done|]).
  rewrite zlen_cons in H9.
  assert (Hperm : cells.*1 ++ (b :: pool.*1) ++ [] ≡ₚ b :: cells.*1 ++ pool.*1 ++ []).
  { rewrite !app_nil_r. by rewrite Permutation_middle. }
  apply (owns_perm _ _ _ Hperm) in O. pose proof O as [Hbn _]. apply NoDup_cons in Hbn as [Hbn _].
  rewrite app_nil_r, not_elem_of_app in Hbn. destruct Hbn as [Hb1 Hb2]. apply owns_free in O as [N D].
  split; simpl; try done; try (by apply seg_delete).
  - by apply Forall_cons in H4 as [_ ?].
  - split; [done|]. intros y Hy. apply H7'. apply lookup_delete_is_Some in Hy. tauto.
  - lia.
Qed.

Lemma release_spec s cells pool a :
  tq_rep s cells pool [a] -> zlen pool <= zlen cells / 4 + 1 + MSGPOOL_SIZE * 10 ->
  exists s' pool', release_msglist a s = Some s' /\ tq_rep s' cells pool' [] /\ pool_ok cells pool'.
Proof.
  intros R P. unfold release_msglist, pool_ok.
  destruct (release_node_spec s cells pool a R P) as (s1 & pool1 & -> & R1 & P1).
  cbn [mbind option_bind]. pose proof (zlen_nonneg cells). pose proof (quarter_nonneg cells).
  rewrite (rep_length _ _ _ _ R1), (rep_pool_length _ _ _ _ R1), Z.quot_div_nonneg by lia.
  destruct (_ <? _) eqn:E; reflect_bools.
  2: { exists s1, pool1. split; [done|]. split; [done|]. lia. }
  destruct pool1 as [|[b x] r].
  { exfalso. unfold MSGPOOL_SIZE in E. change (zlen []) with 0 in E. lia. }
  destruct (pool_drop_spec _ _ _ _ _ R1) as (nx & Hn & Hb & R2).
  rewrite Hn. cbn [mbind option_bind]. rewrite (free_node_live _ _ _ Hn). cbn [mbind option_bind].
  rewrite Hb. rewrite (rep_pool_length _ _ _ _ R1) in R2.
  eexists _, r. split; [done|]. split; [done|]. rewrite zlen_cons in P1. lia.
Qed.

(** Getting a message: the first one, with the number of those left. *)
Lemma take_first_spec s cells pool a d t :
  tq_rep s ((a, (d, t)) :: cells) pool [] -> pool_ok ((a, (d, t)) :: cells) pool ->
  exists s' pool', take_first s = Some (ThreadMsg d t (zlen cells), s') /\
    tq_rep s' cells pool' [] /\ pool_ok cells pool'.
Proof.
  intros R P. unfold take_first. pose proof (rep_first _ _ _ _ R) as [Hf (nx & Hn & _)].
  rewrite Hf, Hn. cbn [mbind option_bind n_next n_data n_msgtype].
  pose proof (detach_spec _ _ _ _ _ _ _ R Hn) as R1. cbv zeta in R1.
  set (s1 := if _ =? 0 then _ else _) in *.
  destruct (release_spec s1 cells pool a R1) as (s' & pool' & -> & R' & P').
  { unfold pool_ok in P. rewrite zlen_cons in P.
    assert ((1 + zlen cells) / 4 <= zlen cells / 4 + 1); [|lia].
    pose proof (Z.div_add (zlen cells) 1 4). rewrite <-H by lia. apply Z.div_le_mono; lia. }
  cbn [mbind option_bind]. exists s', pool'. by rewrite (rep_length _ _ _ _ R1).
Qed.

(** ** Clean-up *)

Lemma owns_size nodes own : owns nodes own -> length own = size nodes.
Proof.
  intros [N D]. rewrite <-size_dom, <-(size_list_to_set (C := gset Z) own N). f_equal.
  apply leibniz_equiv. intros a. by rewrite elem_of_list_to_set, elem_of_dom, D.
Qed.

(** What [free] gets: the data pointers that are not NULL. *)
Definition pointers (cells : list cell) : list Z :=
  List.filter (fun p => negb (p =? 0)) (map (fun c => c.2.1) cells).

Lemma pointers_zero cells : Forall (fun c => c.2.1 = 0) cells -> pointers cells = [].
Proof.
  unfold pointers. induction 1 as [|c r Hc _ IH]; [done|]. simpl. rewrite Hc. exact IH.
Qed.

Lemma free_list_spec fuel freedata cells rest p s :
  seg (q_nodes s) p 0 cells -> owns (q_nodes s) (cells.*1 ++ rest) ->
  (forall a, a ∈ cells.*1 -> a <> 0) -> (length cells <= fuel)%nat ->
  exists s', free_list fuel freedata p s = Some s' /\ owns (q_nodes s') rest /\
    (forall b, (b ∉ cells.*1) -> q_nodes s' !! b = q_nodes s !! b) /\
    q_freed s' = q_freed s ++ (if freedata then pointers cells else []).
Proof.
  revert fuel p s. induction cells as [|[a [d t]] r IH]; intros fuel p s S O Hpos Hf; simpl in S.
  { subst p. exists s. destruct fuel; simpl; (split; [done|]; split; [done|]; split; [done|]);
      by destruct freedata; rewrite app_nil_r. }
  destruct S as [-> (nx & Hn & S)]. destruct fuel as [|fuel]; [simpl in Hf; lia|].
  simpl free_list. assert (a <> 0) by (apply Hpos; left).
  destruct (a =? 0) eqn:E; reflect_bools; [done|]. rewrite Hn. cbn [mbind option_bind n_data n_next].
  set (s1 := if freedata then free_data d s else s).
  assert (Hs1 : q_nodes s1 = q_nodes s) by (unfold s1; by destruct freedata).
  rewrite (free_node_live s1 a (MsgList d t nx)) by (by rewrite Hs1). cbn [mbind option_bind].
  pose proof O as [N _]. simpl in N. apply NoDup_cons in N as [Ha _].
  rewrite not_elem_of_app in Ha. destruct Ha as [Ha _].
  destruct (IH fuel nx (set_nodes (delete a (q_nodes s1)) s1)) as (s' & -> & O' & Hb & Hfr).
  - simpl. rewrite Hs1. by apply seg_delete.
  - simpl. rewrite Hs1. by apply owns_free.
  - intros b Hb. apply Hpos. by right.
  - simpl in Hf. lia.
  - exists s'. split; [done|]. split; [done|]. split.
    + intros b Hnb. simpl in Hnb. apply not_elem_of_cons in Hnb as [Hab Hnb].
      rewrite Hb by done. simpl. rewrite Hs1. by apply lookup_delete_ne.
    + rewrite Hfr. simpl. unfold s1. destruct freedata; simpl; [|done].
      rewrite <-app_assoc. f_equal. unfold pointers. simpl. by destruct (d =? 0).
Qed.

Lemma cleanup_spec freedata s cells pool :
  tq_rep s cells pool [] ->
  exists s', thread_queue_cleanup freedata s = Some s' /\ q_nodes s' = ∅ /\
    q_freed s' = q_freed s ++ (if freedata then pointers cells else []).
Proof.
  intros R. pose proof (rep_owns _ _ _ _ R) as O. rewrite app_nil_r in O.
  pose proof (owns_size _ _ O) as Hsz. rewrite length_app, !length_fmap in Hsz.
  assert (Hpos : forall a, a ∈ cells.*1 ++ pool.*1 -> a <> 0).
  { intros a Ha. assert (0 < a); [|lia]. apply (rep_addr_pos _ _ _ _ a R). by rewrite app_nil_r. }
  unfold thread_queue_cleanup.
  destruct (free_list_spec (size (q_nodes s)) freedata cells pool.*1 (q_first s) s)
    as (s1 & -> & O1 & Hb & Hf1);
    [apply R|done|intros; apply Hpos; apply elem_of_app; by left|lia|]. cbn [mbind option_bind].
  assert (Hdis : forall a, a ∈ pool.*1 -> a ∉ cells.*1).
  { destruct O as [N _]. apply NoDup_app in N as (_ & N & _). intros a Hp Hc. by apply (N a). }
  destruct (free_list_spec (size (q_nodes s)) freedata pool [] (q_msgpool s) s1)
    as (s2 & -> & [_ D2] & _ & Hf2).
  - eapply seg_ext; [|apply R]. intros a Ha. apply Hb. by apply Hdis.
  - by rewrite app_nil_r.
  - intros; apply Hpos; apply elem_of_app; by right.
  - lia.
  - exists s2. split; [done|]. split.
    { apply map_eq. intros a. rewrite lookup_empty. apply eq_None_not_Some. rewrite D2.
      apply not_elem_of_nil. }
    rewrite Hf2, Hf1, <-app_assoc. f_equal. destruct freedata; [|done].
    enough (pointers pool = []) as -> by (by rewrite app_nil_r).
    apply pointers_zero, R.
Qed.

(** * Threads *)

(** A thread that uses the queue: outside of it, asleep on the condition variable, or woken
    and about to take the mutex again, with the result of the wait. *)
Inductive tstate :=
| Outside
| Waiting (timed : bool)
| Woken (timed expired : bool).

(** [added] and [taken] record what [thread_queue_add] accepted and [thread_queue_get]
    returned. *)
Record Sys := mkSys {
  sq : Tq;
  threads : nat -> tstate;
  added : list (Z * Z);
  taken : list (Z * Z)
}.

Definition set_thread (i : nat) (t : tstate) (f : nat -> tstate) : nat -> tstate :=
  fun j => if (j =? i)%nat then t else f j.

(** [pthread_cond_broadcast]. *)
Definition wake_all (f : nat -> tstate) : nat -> tstate :=
  fun j => match f j with Waiting timed => Woken timed false | t => t end.

Definition after_get (i : nat) (timed : bool) (o : get_outcome) (S : Sys) : Sys :=
  match o with
  | GSleep => mkSys (sq S) (set_thread i (Waiting timed) (threads S)) (added S) (taken S)
  | GTimeout => mkSys (sq S) (set_thread i Outside (threads S)) (added S) (taken S)
  | GMessage m q =>
      mkSys q (set_thread i Outside (threads S)) (added S) (taken S ++ [(data m, msgtype m)])
  end.

(** Each step runs with the mutex held from beginning to end. *)
Inductive step (S : Sys) : Sys -> Prop :=
| step_add i ok d t rc wake q :
    threads S i = Outside -> thread_queue_add ok d t (sq S) = Some (rc, wake, q) ->
    step S (mkSys q (if (wake : bool) then wake_all (threads S) else threads S)
              (if rc =? 0 then added S ++ [(d, t)] else added S) (taken S))
| step_get i timed o :
    threads S i = Outside -> get_locked false (sq S) = Some o -> step S (after_get i timed o S)
| step_spurious i timed :
    threads S i = Waiting timed ->
    step S (mkSys (sq S) (set_thread i (Woken timed false) (threads S)) (added S) (taken S))
| step_expire i :
    threads S i = Waiting true ->
    step S (mkSys (sq S) (set_thread i (Woken true true) (threads S)) (added S) (taken S))
| step_resume i timed expired o :
    threads S i = Woken timed expired -> get_locked expired (sq S) = Some o ->
    step S (after_get i timed o S).

(** A new queue, with all threads outside. *)
Definition empty_tq : Tq := mkTq 0 0 0 0 0 ∅ 1 [].
Definition start (q : Tq) : Sys := mkSys (thread_queue_init 0 0 q).2 (fun _ => Outside) [] [].

Definition sys_inv (S : Sys) (cells pool : list cell) : Prop :=
  tq_rep (sq S) cells pool [] /\ pool_ok cells pool /\
  added S = taken S ++ cells.*2 /\
  (cells <> [] -> forall i timed, threads S i <> Waiting timed).

Lemma start_inv : sys_inv (start empty_tq) [] [].
Proof.
  split; [|split; [vm_compute; discriminate|done]]. split; try done.
  - constructor.
  - intros a. cbn. rewrite lookup_empty. split; [by intros [? ?]|by intros ?%not_elem_of_nil].
  - split; [done|]. intros a. cbn. rewrite lookup_empty. by intros [? ?].
Qed.

(** With a message waiting, a thread without time-out gets the first one; without one it
    waits. *)
Lemma get_locked_spec S cells pool expired :
  sys_inv S cells pool ->
  match cells with
  | [] => get_locked expired (sq S) = Some (if expired then GTimeout else GSleep)
  | (a, (d, t)) :: r =>
      if (expired : bool) then get_locked expired (sq S) = Some GTimeout
      else exists q pool', get_locked expired (sq S) = Some (GMessage (ThreadMsg d t (zlen r)) q) /\
        tq_rep q r pool' [] /\ pool_ok r pool'
  end.
Proof.
  intros (R & P & _). unfold get_locked.
  pose proof (rep_first _ _ _ _ R) as Hf. destruct cells as [|[a [d t]] r].
  - simpl in Hf. rewrite Hf. simpl. by destruct expired.
  - assert (0 < q_first (sq S)).
    { destruct Hf as [-> _]. apply (rep_addr_pos _ _ _ _ a R). left. }
    destruct (q_first (sq S) =? 0) eqn:E; reflect_bools; [lia|]. simpl. destruct expired; [done|].
    destruct (take_first_spec _ _ _ _ _ _ R P) as (q & pool' & -> & R' & P'). by exists q, pool'.
Qed.

Lemma set_thread_waiting i t f j timed :
  set_thread i t f j = Waiting timed -> t = Waiting timed \/ f j = Waiting timed.
Proof. unfold set_thread. case_match; tauto. Qed.

Lemma after_get_inv S cells pool i timed expired o :
  sys_inv S cells pool -> get_locked expired (sq S) = Some o ->
  exists cells' pool', sys_inv (after_get i timed o S) cells' pool'.
Proof.
  intros I E. pose proof (get_locked_spec S cells pool expired I) as G.
  destruct I as (R & P & A & Wt). destruct cells as [|[a [d t]] r].
  - rewrite G in E. injection E as <-. exists [], pool. by destruct expired.
  - destruct expired.
    + rewrite G in E. injection E as <-. exists ((a, (d, t)) :: r), pool. split_and!; try done.
      intros _ j tm [?|?]%set_thread_waiting; [done|]. by apply (Wt ltac:(done) j tm).
    + destruct G as (q & pool' & G & R' & P'). rewrite G in E. injection E as <-.
      exists r, pool'. split_and!; try done.
      * cbn. rewrite A. by rewrite <-app_assoc.
      * intros _ j tm [?|?]%set_thread_waiting; [done|]. by apply (Wt ltac:(done) j tm).
Qed.

Lemma step_inv S S' cells pool :
  sys_inv S cells pool -> step S S' -> exists cells' pool', sys_inv S' cells' pool'.
Proof.
  intros I H. pose proof I as (R & P & A & Wt).
  destruct H as [i ok d t rc wake q Hi E|i timed o Hi E|i timed Hi|i Hi|i timed expired o Hi E].
  - destruct (add_spec _ _ _ ok d t R P) as [(E' & _) | (a & q' & pool' & E' & R' & P')];
      rewrite E in E'; injection E' as -> -> ->.
    + exists cells, pool. done.
    + exists (cells ++ [(a, (d, t))]), pool'. split_and!; try done.
      * cbn. rewrite A, fmap_app, app_assoc. done.
      * intros _ j tm. cbn. destruct (decide (cells = [])) as [->|Hne].
        { rewrite bool_decide_eq_true_2 by done. unfold wake_all. by case_match. }
        rewrite bool_decide_eq_false_2 by done. by apply Wt.
  - by eapply after_get_inv.
  - exists cells, pool. split_and!; try done.
    intros Hc j tm [?|?]%set_thread_waiting; [done|]. by apply (Wt Hc j tm).
  - exists cells, pool. split_and!; try done.
    intros Hc j tm [?|?]%set_thread_waiting; [done|]. by apply (Wt Hc j tm).
  - by eapply after_get_inv.
Qed.

Lemma reachable_inv S : rtc step (start empty_tq) S -> exists cells pool, sys_inv S cells pool.
Proof.
  intros H. assert (exists cells pool, sys_inv (start empty_tq) cells pool) as I
    by (exists [], []; apply start_inv).
  induction H as [|S1 S2 S3 H _ IH]; [done|]. apply IH. destruct I as (cells & pool & I).
  by eapply step_inv.
Qed.

(** * Theorems *)

(** C3: The queue delivers every message exactly once and in order: however threads that
    add, wait, wake up spuriously, time out and take messages are interleaved, the
    messages accepted by [thread_queue_add] are those returned by [thread_queue_get]
    followed by those still waiting; the length is right, the pool stays below a quarter
    of it plus 2560, every node is in the queue or in the pool, and no operation uses NULL
    or a freed node. *)
Theorem thread_queue_fifo (S : Sys) :
  rtc step (start empty_tq) S ->
  exists msgs, added S = taken S ++ msgs /\ thread_queue_length (sq S) = zlen msgs /\
    q_msgpool_length (sq S) <= zlen msgs / 4 + MSGPOOL_SIZE * 10 /\
    Z.of_nat (size (q_nodes (sq S))) = zlen msgs + q_msgpool_length (sq S) /\
    (forall ok d t, is_Some (thread_queue_add ok d t (sq S))) /\
    (forall expired, is_Some (get_locked expired (sq S))).
Proof.
  intros H. destruct (reachable_inv S H) as (cells & pool & I). pose proof I as (R & P & A & _).
  assert (Hz : zlen cells.*2 = zlen cells) by (unfold zlen; by rewrite length_fmap).
  exists cells.*2. rewrite Hz. split; [done|]. split; [apply R|].
  rewrite (rep_pool_length _ _ _ _ R). split; [done|]. split; [|split].
  - rewrite <-(owns_size _ _ (rep_owns _ _ _ _ R)), !length_app, !length_fmap. unfold zlen.
    simpl. lia.
  - intros ok d t. destruct (add_spec _ _ _ ok d t R P) as [(-> & _) | (? & ? & ? & -> & _)]; eauto.
  - intros e. pose proof (get_locked_spec S cells pool e I) as G.
    destruct cells as [|[a [d t]] r]; [by rewrite G; eauto|].
    destruct e; [by rewrite G; eauto|]. destruct G as (? & ? & -> & _). eauto.
Qed.

Definition one_message : Sys :=
  mkSys (default empty_tq (snd <$> thread_queue_add true 500 1 (sq (start empty_tq))))
    (wake_all (threads (start empty_tq))) [(500, 1)] [].

Lemma thread_queue_fifo_witness :
  exists msgs, [(500, 1)] = [] ++ msgs /\ thread_queue_length (sq one_message) = zlen msgs /\
    q_msgpool_length (sq one_message) <= zlen msgs / 4 + MSGPOOL_SIZE * 10 /\
    Z.of_nat (size (q_nodes (sq one_message))) = zlen msgs + q_msgpool_length (sq one_message) /\
    (forall ok d t, is_Some (thread_queue_add ok d t (sq one_message))) /\
    (forall expired, is_Some (get_locked expired (sq one_message))).
Proof.
  apply (thread_queue_fifo one_message). apply rtc_once.
  exact (step_add (start empty_tq) 0 true 500 1 0 true (sq one_message) eq_refl eq_refl).
Defined.

(** C28: No wake-up is lost although [thread_queue_add] signals only when the queue was
    empty: whenever a message waits, no thread is asleep in [thread_queue_get]; every
    thread inside it whose time-out has not expired is awake, and its next step returns
    the oldest message. *)
Theorem no_lost_wakeup (S : Sys) (i : nat) (m : Z * Z) (rest : list (Z * Z)) :
  rtc step (start empty_tq) S -> added S = taken S ++ m :: rest ->
  (forall timed, threads S i <> Waiting timed) /\
  forall timed, threads S i = Woken timed false ->
    exists S', step S S' /\ threads S' i = Outside /\ taken S' = taken S ++ [m].
Proof.
  intros H Hm. destruct (reachable_inv S H) as (cells & pool & I). pose proof I as (R & P & A & Wt).
  rewrite Hm in A. apply app_inv_head in A.
  pose proof (get_locked_spec S cells pool false I) as G.
  destruct cells as [|[a [d t]] r]; [done|]. injection A as -> ->.
  split; [by apply Wt|]. intros timed Hi. destruct G as (q & pool' & G & _).
  eexists. split; [by eapply step_resume|]. cbn. unfold set_thread. by rewrite Nat.eqb_refl.
Qed.

Definition one_waiting : Sys :=
  mkSys (sq (start empty_tq)) (set_thread 1 (Waiting false) (fun _ => Outside)) [] [].

Definition one_woken : Sys :=
  mkSys (sq one_message) (wake_all (threads one_waiting)) [(500, 1)] [].

Lemma no_lost_wakeup_witness :
  exists S', step one_woken S' /\ threads S' 1%nat = Outside /\ taken S' = [(500, 1)].
Proof.
  apply (no_lost_wakeup one_woken 1 (500, 1) []) with (timed := false); [|done|done].
  apply rtc_l with one_waiting.
  - exact (step_get (start empty_tq) 1 false GSleep eq_refl eq_refl).
  - apply rtc_once.
    exact (step_add one_waiting 0 true 500 1 0 true (sq one_message) eq_refl eq_refl).
Defined.

(** [thread_queue_cleanup] frees every node of the queue and of the pool exactly once
    and leaves none, and with [freedata] it frees the data of exactly the messages that
    were not delivered, in order. *)
Theorem cleanup_frees_all (S : Sys) (freedata : bool) (msgs : list (Z * Z)) :
  rtc step (start empty_tq) S -> added S = taken S ++ msgs ->
  exists q, thread_queue_cleanup freedata (sq S) = Some q /\ q_nodes q = ∅ /\
    q_freed q = q_freed (sq S) ++
      if freedata then List.filter (fun p => negb (p =? 0)) (map fst msgs) else [].
Proof.
  intros H Hm. destruct (reachable_inv S H) as (cells & pool & R & P & A & Wt).
  rewrite Hm in A. apply app_inv_head in A. subst msgs.
  destruct (cleanup_spec freedata (sq S) cells pool R) as (q & Hq & Hn & Hf).
  exists q. split; [done|]. split; [done|]. rewrite Hf. destruct freedata; [|done].
  unfold pointers. by rewrite <-list_fmap_compose.
Qed.

Lemma cleanup_frees_all_witness :
  exists q, thread_queue_cleanup true (sq one_message) = Some q /\ q_nodes q = ∅ /\
    q_freed q = [500].
Proof.
  apply (cleanup_frees_all one_message true [(500, 1)]); [|done].
  apply rtc_once.
  exact (step_add (start empty_tq) 0 true 500 1 0 true (sq one_message) eq_refl eq_refl).
Defined.

(** The time-out of [thread_queue_get] is a valid absolute time, and its computation does not
    overflow a 32-bit [long], as long as the sum of the seconds does not. *)
Lemma abstimeout_valid now_sec now_usec sec nsec :
  0 <= now_sec -> 0 <= now_usec < 1000000 -> 0 <= sec -> 0 <= nsec < 1000000000 ->
  now_sec + sec < 2147483647 ->
  now_usec * 1000 + nsec <= 2147483647 /\
  let '(s, n) := abstimeout now_sec now_usec sec nsec in
  0 <= s <= 2147483647 /\ 0 <= n < 1000000000 /\
  s * 1000000000 + n = (now_sec + sec) * 1000000000 + now_usec * 1000 + nsec.
Proof. intros. split; [lia|]. unfold abstimeout. case_if; reflect_bools; lia. Qed.
