(* ===== verification/Vibrator.v ===== *)
(** * The vibrator daemon and its clients (src/immvibe)

    connector.c sends requests over a socket ([immvibe_conn_vibrate],
    [immvibe_conn_stop]); daemon.c reads them ([process_client], [process_buf]), puts them in
    the message queue (file [ThreadQueue]) and plays them in the worker thread
    ([worker_msg]) through the driver interface of client.c; api.c keeps the strength of the
    vibration in a property, with a file of older versions that is migrated.

    What the socket, the driver and the property service do is a parameter: how much of a
    buffer [send] takes, what [read] delivers, what the ioctls return.
    [requests_played] is the way of a request from the client to the motor,
    [force_survives_migration] the way of the preference. *)
From S2P Require Import Prelude CString ThreadQueue.

(** * The connector *)

(** What [send] does next: take [n] bytes, or fail with an error number.  When nothing is
    said it takes everything. *)
Inductive send_event := SendSome (n : Z) | SendError (errno : Z).

(** The result and the bytes that went into the socket.  The pointer [buf] is not
    advanced. *)
Fixpoint send_loop (evs : list send_event) (buf : list Z) (remaining : Z) : Z * list Z :=
  match evs with
  | [] => (0, ztake remaining buf)
  | e :: evs =>
      if remaining =? 0 then (0, [])
      else match e with
      | SendError errno => (- errno, [])
      | SendSome n =>
          let ret := Z.max 0 (Z.min n remaining) in
          let '(r, out) := send_loop evs buf (remaining - ret) in
          (r, ztake ret buf ++ out)
      end
  end.

Definition send_internal (evs : list send_event) (buf : list Z) (len : Z) : Z * list Z :=
  send_loop evs buf len.

Definition PLUS : Z := 43.
Definition MINUS : Z := 45.
Definition DOLLAR : Z := 36.

(** [snprintf] writes at most 15 characters and a terminator and returns the full length. *)
Definition immvibe_conn_vibrate (evs : list send_event) (duration : Z) : Z * list Z :=
  let text := PLUS :: dec duration ++ [DOLLAR] in
  let buf := ztake 15 text ++ repeat 0 (16 - length (ztake 15 text)) in
  send_internal evs buf (zlen text).

Definition immvibe_conn_stop (evs : list send_event) : Z * list Z :=
  send_internal evs [MINUS; 48; DOLLAR] 3.

(** * The driver interface *)

Definition EAGAIN : Z := 11.
Definition TSPDRV_MAGIC_NUMBER : Z := 0x494D4D52.
Definition TSPDRV_IOCTL_GROUP : Z := 0x52.

(** [_IO(type, nr)]. *)
Definition IO (type nr : Z) : Z := Z.lor (Z.shiftl type 8) nr.

Definition TSPDRV_STOP_KERNEL_TIMER : Z := IO TSPDRV_IOCTL_GROUP 1.
Definition TSPDRV_SET_MAGIC_NUMBER : Z := IO TSPDRV_IOCTL_GROUP 2.
Definition TSPDRV_ENABLE_AMP : Z := IO TSPDRV_IOCTL_GROUP 3.
Definition TSPDRV_DISABLE_AMP : Z := IO TSPDRV_IOCTL_GROUP 4.
Definition TSPDRV_GET_NUM_ACTUATORS : Z := IO TSPDRV_IOCTL_GROUP 5.
Definition TSPDRV_GET_DBG_LEVEL : Z := IO TSPDRV_IOCTL_GROUP 8.

(** What the program does to the device. *)
Inductive dev_op :=
| DevIoctl (fd request : Z)
| DevWrite (fd : Z) (bytes : list Z)
| DevSleep (usec : Z)
| DevClose (fd : Z).

(** [open_ret] and [ioctl_ret] are results of the system calls.  The handle, the status and
    what was done. *)
Definition immvibe_open (open_ret ioctl_ret : Z) (malloc_ok : bool) : option Z * Z * list dev_op :=
  if open_ret <? 0 then (None, open_ret, [])
  else if negb (ioctl_ret =? 0) then
    (None, ioctl_ret, [DevIoctl open_ret TSPDRV_SET_MAGIC_NUMBER; DevClose open_ret])
  else if negb malloc_ok then
    (None, - ENOMEM, [DevIoctl open_ret TSPDRV_SET_MAGIC_NUMBER; DevClose open_ret])
  else (Some open_ret, 0, [DevIoctl open_ret TSPDRV_SET_MAGIC_NUMBER]).

Definition immvibe_close (handle : option Z) : list dev_op :=
  match handle with Some fd => [DevClose fd] | None => [] end.

(** [write_ret] is the result of [write]: only 0 is reported as an error. *)
Definition immvibe_play (handle write_ret force : Z) : Z * list dev_op :=
  ((if write_ret =? 0 then - EAGAIN else 0), [DevWrite handle [0; 0; 0; u8 force]]).

Definition immvibe_stop_kernel_timer (handle : Z) : list dev_op := [DevIoctl handle TSPDRV_STOP_KERNEL_TIMER].
Definition immvibe_get_num_actuators (handle : Z) : list dev_op := [DevIoctl handle TSPDRV_GET_NUM_ACTUATORS].
Definition immvibe_get_debug_level (handle : Z) : list dev_op := [DevIoctl handle TSPDRV_GET_DBG_LEVEL].
Definition immvibe_set_amp_enabled (handle enable : Z) : list dev_op :=
  [DevIoctl handle (if negb (enable =? 0) then TSPDRV_ENABLE_AMP else TSPDRV_DISABLE_AMP)].

(** * The strength of the vibration *)

Definition DEFAULT_FORCE : Z := 32.

(** The text of the property and the text of the file of older versions, if there is one;
    [lg_open]: [fopen] succeeds on it. *)
Record ForceStore := mkForce { fs_prop : option (list Z); fs_legacy : option (list Z); lg_open : bool }.

Section force.
(** [property_get_int32] of libcutils, on the text of the property. *)
Context (property_get_int32 : option (list Z) -> Z -> Z).

(** [fscanf(fp, "%u\n", &result)] and the conversion to [uint8_t]. *)
Definition get_force_userspace_legacy (s : ForceStore) : Z :=
  if negb (lg_open s) then DEFAULT_FORCE
  else
    let '(v, any) := strtoul 10 (default [] (fs_legacy s)) in
    u8 (if any : bool then v else DEFAULT_FORCE).

(** [set_ret] is the result of [property_set]. *)
Definition immvibe_api_set_force_userspace (set_ret force : Z) (s : ForceStore) : Z * ForceStore :=
  (set_ret, if set_ret =? 0 then mkForce (Some (dec (u8 force))) (fs_legacy s) (lg_open s) else s).

Definition migrate_force_store (set_ret force : Z) (s : ForceStore) : ForceStore :=
  let '(ret, s) := immvibe_api_set_force_userspace set_ret force s in
  if negb (ret =? 0) then s else mkForce (fs_prop s) None (lg_open s).

Definition immvibe_api_get_force_userspace (set_ret : Z) (s : ForceStore) : Z * ForceStore :=
  match fs_legacy s with
  | None => (u8 (property_get_int32 (fs_prop s) DEFAULT_FORCE), s)
  | Some _ =>
      let result := get_force_userspace_legacy s in
      (result, migrate_force_store set_ret result s)
  end.
End force.

(** * The daemon *)

Definition MSG_VIBRATE : Z := 1.
Definition MSG_STOP : Z := 2.

(** [sscanf(s, "%d$", &v)]: converted, no number, end of the string before one, or a number
    that is not an [int]. *)
Inductive scan_result := ScanInt (v : Z) | ScanNone | ScanEof | ScanRange.

Definition sscanf_d (s : list Z) : scan_result :=
  match skip_spaces s with
  | [] => ScanEof
  | _ =>
      let '(neg, v, any) := scan_number 10 s in
      if negb any then ScanNone
      else
        let v := if neg : bool then - v else v in
        if (-2147483648 <=? v) && (v <=? 2147483647) then ScanInt v else ScanRange
  end.

(** What a request leads to; [WUndef]: the buffer has no terminator, or the duration is not
    initialised or out of range. *)
Inductive work := WPost (data msgtype : Z) | WNothing | WUndef.

Definition process_buf (buf : list Z) : work :=
  let c := byte_at buf 0 in
  if c =? PLUS then
    if negb (bool_decide (0 ∈ zdrop 1 buf)) then WUndef
    else match sscanf_d (cstr (zdrop 1 buf)) with
    | ScanNone => WNothing
    | ScanInt duration => WPost duration MSG_VIBRATE
    | ScanEof | ScanRange => WUndef
    end
  else if c =? MINUS then WPost 0 MSG_STOP
  else WNothing.

(** What [read] on a connection does next: deliver bytes, report that there are none yet, or
    fail; then the connection is closed by the client. *)
Inductive client_event := ClData (bs : list Z) | ClAgain | ClError.

(** The result, the work found, and the buffer: every [read] stores at its beginning. *)
Fixpoint process_client (evs : list client_event) (buf : list Z) (total_size : Z)
  : Z * option work * list Z :=
  match evs with
  | [] => (1, None, buf)
  | ClError :: _ => (1, None, buf)
  | ClAgain :: _ => (0, None, buf)
  | ClData bs :: evs =>
      let buf := memcpy_at buf 0 bs in
      let total_size := total_size + zlen bs in
      if 3 <=? total_size then (1, Some (process_buf buf), buf)
      else process_client evs buf total_size
  end.

(** [thread_queue_add], whose result is ignored; [None] for undefined behaviour. *)
Definition post (malloc_ok : bool) (w : option work) (q : Tq) : option Tq :=
  match w with
  | Some (WPost d t) => '(_, _, q) ← thread_queue_add malloc_ok d t q; Some q
  | Some WUndef => None
  | Some WNothing | None => Some q
  end.

(** One message in the worker thread: [force] is the preference, [handle] the driver;
    [None] when [duration * 1000] overflows. *)
Definition worker_msg (handle force : Z) (m : threadmsg) : option (list dev_op) :=
  if msgtype m =? MSG_VIBRATE then
    let duration := int_of (data m) in
    if (-2147483648 <=? duration * 1000) && (duration * 1000 <=? 2147483647) then
      Some ((immvibe_play handle 4 force).2 ++ [DevSleep (u32 (duration * 1000))]
            ++ (immvibe_play handle 4 0).2)
    else None
  else if msgtype m =? MSG_STOP then Some (immvibe_play handle 4 0).2
  else Some [].

(** The worker until the queue is empty; each round takes a message. *)
Fixpoint worker_drain (fuel : nat) (handle force : Z) (q : Tq) : option (list dev_op * Tq) :=
  match fuel with
  | O => None
  | S fuel =>
      o ← get_locked false q;
      match o with
      | GMessage m q =>
          ops ← worker_msg handle force m;
          '(rest, q) ← worker_drain fuel handle force q;
          Some (ops ++ rest, q)
      | _ => Some ([], q)
      end
  end.

(** ** The event loop of [main] *)

(** [set_nonblock]: the two results of [fcntl], and [errno] of a failed one. *)
Definition set_nonblock (getfl setfl errno : Z) : Z :=
  if getfl <? 0 then errno else if setfl <? 0 then errno else 0.

(** An accepted connection: descriptor, result of [set_nonblock], what its first [read]s do,
    result of [epoll_ctl]. *)
Record conn := mkConn { c_fd : Z; c_nonblock : Z; c_reads : list client_event; c_epoll : Z }.

Inductive epoll_ev :=
| EvHup (fd : Z)
| EvErr (fd : Z)
| EvListen (conns : list conn)
| EvClient (fd : Z) (reads : list client_event).

(** The queue, the buffer of [process_client] on the stack, the registered and the closed
    descriptors. *)
Record Daemon := mkDaemon { d_queue : Tq; d_buf : list Z; d_registered : list Z; d_closed : list Z }.

Definition close_fd (fd : Z) (s : Daemon) : Daemon :=
  mkDaemon (d_queue s) (d_buf s) (List.filter (fun x => negb (x =? fd)) (d_registered s)) (d_closed s ++ [fd]).

(** [process_client] with its effect on the queue. *)
Definition serve_client (malloc_ok : bool) (reads : list client_event) (s : Daemon) : option (Z * Daemon) :=
  let '(done, w, buf) := process_client reads (d_buf s) 0 in
  q ← post malloc_ok w (d_queue s);
  Some (done, mkDaemon q buf (d_registered s) (d_closed s)).

Fixpoint accept_loop (malloc_ok : bool) (conns : list conn) (s : Daemon) : option Daemon :=
  match conns with
  | [] => Some s
  | c :: conns =>
      if c_nonblock c <? 0 then Some (close_fd (c_fd c) s)
      else
        '(_, s) ← serve_client malloc_ok (c_reads c) s;
        if c_epoll c <? 0 then Some (close_fd (c_fd c) s)
        else accept_loop malloc_ok conns
               (mkDaemon (d_queue s) (d_buf s) (d_registered s ++ [c_fd c]) (d_closed s))
  end.

Definition handle_event (malloc_ok : bool) (e : epoll_ev) (s : Daemon) : option Daemon :=
  match e with
  | EvHup fd | EvErr fd => Some (close_fd fd s)
  | EvListen conns => accept_loop malloc_ok conns s
  | EvClient fd reads =>
      '(done, s) ← serve_client malloc_ok reads s;
      Some (if done =? 0 then s else close_fd fd s)
  end.

Fixpoint handle_events (malloc_ok : bool) (es : list epoll_ev) (s : Daemon) : option Daemon :=
  match es with
  | [] => Some s
  | e :: es => s ← handle_event malloc_ok e s; handle_events malloc_ok es s
  end.

(** ** Start-up *)

(** [init_socket]: the descriptor or the negated error number, and what was closed.
    [errno] is that of the failed [socket] or [bind]. *)
Definition init_socket (socket_ret bind_ret nonblock errno : Z) : Z * list Z :=
  if socket_ret <? 0 then (- errno, [])
  else if negb (bind_ret =? 0) then (- errno, [socket_ret])
  else if negb (nonblock =? 0) then (- nonblock, [socket_ret])
  else (socket_ret, []).

(** The checks of [main] before its loop: the exit code, [None] when the loop is reached. *)
Definition main_setup (queue_ret create_ret : Z) (opened : option Z) (sfd listen_ret efd ctl_ret : Z)
  : option Z :=
  if negb (queue_ret =? 0) then Some 1
  else if negb (create_ret =? 0) then Some 1
  else match opened with
  | None => Some 1
  | Some _ =>
      if sfd <? 0 then Some 1
      else if listen_ret <? 0 then Some 1
      else if efd <? 0 then Some 1
      else if ctl_ret <? 0 then Some 1
      else None
  end.

(** * Requests *)

Inductive request := Vibrate (duration : Z) | StopNow.

(** The bytes a client sends, the message it becomes, and what the motor should do. *)
Definition req_bytes (r : request) : list Z :=
  match r with
  | Vibrate d => (immvibe_conn_vibrate [] d).2
  | StopNow => (immvibe_conn_stop []).2
  end.

Definition req_msg (r : request) : Z * Z :=
  match r with Vibrate d => (d, MSG_VIBRATE) | StopNow => (0, MSG_STOP) end.

Definition req_ops (handle force : Z) (r : request) : list dev_op :=
  match r with
  | Vibrate d => [DevWrite handle [0; 0; 0; force]; DevSleep (d * 1000); DevWrite handle [0; 0; 0; 0]]
  | StopNow => [DevWrite handle [0; 0; 0; 0]]
  end.

(** Durations up to 35 minutes. *)
Definition req_ok (r : request) : Prop :=
  match r with Vibrate d => 0 <= d <= 2147483 | StopNow => True end.

(** A request that is read in one piece, right after its connection was accepted or when its
    data is reported later. *)
Definition delivers (e : epoll_ev) (r : request) : Prop :=
  (exists fd, e = EvClient fd [ClData (req_bytes r)]) \/
  (exists fd ctl, e = EvListen [mkConn fd 0 [ClData (req_bytes r)] ctl]).

(** The buffer has a terminator behind the space a request needs. *)
Definition buf_terminated (buf : list Z) : Prop := zlen buf = 512 /\ (0 ∈ zdrop 16 buf).

(** The length of a printed number. *)
Lemma dec_fuel_length k n : (length (dec_fuel k n) <= k)%nat.
Proof.
  revert n. induction k as [|k IH]; intros n; [done|]. cbn [dec_fuel].
  case_if; [simpl; lia|]. rewrite length_app. specialize (IH (n / 10)). simpl. lia.
Qed.

Lemma dec_length n : zlen (dec n) <= 11.
Proof.
  unfold dec, zlen. pose proof (dec_fuel_length 10 (- n)). pose proof (dec_fuel_length 10 n).
  case_if; cbn [length]; lia.
Qed.

(** A request has the form the protocol says. *)
Lemma vibrate_bytes d : req_bytes (Vibrate d) = PLUS :: dec d ++ [DOLLAR].
Proof.
  cbn [req_bytes]. unfold immvibe_conn_vibrate, send_internal. cbn [send_loop snd].
  pose proof (dec_length d) as Hl. set (text := PLUS :: dec d ++ [DOLLAR]).
  assert (zlen text <= 13) as Ht.
  { unfold text. rewrite zlen_cons, zlen_app. change (zlen [DOLLAR]) with 1. lia. }
  rewrite (ztake_all 15 text) by lia. by rewrite ztake_app_length.
Qed.

Lemma req_bytes_shape r :
  3 <= zlen (req_bytes r) <= 16 /\ no_nul (req_bytes r).
Proof.
  destruct r as [d|]; [|split; [vm_compute; split; discriminate|repeat constructor; discriminate]].
  rewrite vibrate_bytes, zlen_cons, zlen_app. change (zlen [DOLLAR]) with 1.
  pose proof (dec_length d). split.
  - assert (1 <= zlen (dec d)); [|lia].
    unfold dec. case_if; [rewrite zlen_cons; pose proof (zlen_nonneg (dec_fuel 10 (- d))); lia|].
    destruct (dec_fuel_head 10 d) as (c & s & -> & _); [lia|lia|]. rewrite zlen_cons.
    pose proof (zlen_nonneg s). lia.
  - constructor; [discriminate|]. apply Forall_app. split; [|repeat constructor; discriminate].
    eapply Forall_impl; [apply dec_chars|]. cbn. lia.
Qed.

Lemma cstr_prefix P r : no_nul P -> cstr (P ++ r) = P ++ cstr r.
Proof.
  induction 1 as [|c P Hc _ IH]; [done|]. cbn. case_if; [done|]. by rewrite IH.
Qed.

Lemma sscanf_dec d rest : is_int d -> no_digit rest -> sscanf_d (dec d ++ rest) = ScanInt d.
Proof.
  intros Hd Hr. unfold sscanf_d. rewrite scan_number_dec by done. cbn [negb].
  assert (skip_spaces (dec d ++ rest) <> []) as Hs.
  { unfold dec. case_if; [done|]. destruct (dec_fuel_head 10 d) as (c & s & -> & Hc); [lia|lia|].
    cbn [app skip_spaces]. unfold isspace.
    replace ((c =? 32) || (9 <=? c) && (c <=? 13)) with false; [done|].
    symmetry. apply orb_false_iff. split; [apply Z.eqb_neq; lia|].
    apply andb_false_iff. right. apply Z.leb_gt. lia. }
  destruct (skip_spaces (dec d ++ rest)); [done|]. unfold is_int in Hd.
  destruct (d <? 0) eqn:E; reflect_bools;
    (rewrite (proj2 (andb_true_iff _ _)); [f_equal; lia|split; apply Z.leb_le; lia]).
Qed.

(** Reading a request over the old contents of the buffer. *)
Lemma memcpy_at_head buf bs : memcpy_at buf 0 bs = bs ++ zdrop (zlen bs) buf.
Proof. unfold memcpy_at. change (ztake 0 buf) with (@nil Z). done. Qed.

Lemma buf_terminated_read buf bs :
  buf_terminated buf -> zlen bs <= 16 -> buf_terminated (memcpy_at buf 0 bs).
Proof.
  intros [Hl H0] Hb. split; [rewrite zlen_memcpy_at; lia|].
  rewrite memcpy_at_head. pose proof (zlen_nonneg bs).
  replace (zdrop 16 (bs ++ zdrop (zlen bs) buf)) with (zdrop 16 buf); [done|].
  unfold zdrop, zlen in *. rewrite drop_app_ge, drop_drop by lia. f_equal. lia.
Qed.

Lemma process_buf_request r buf :
  req_ok r -> buf_terminated buf ->
  process_buf (memcpy_at buf 0 (req_bytes r)) = WPost (req_msg r).1 (req_msg r).2.
Proof.
  intros Hr Hb. destruct (req_bytes_shape r) as [Hlen _].
  pose proof (buf_terminated_read buf (req_bytes r) Hb ltac:(lia)) as [_ H0].
  assert (Hz : 0 ∈ zdrop 1 (memcpy_at buf 0 (req_bytes r))).
  { change 16 with (1 + 15) in H0. rewrite <-zdrop_zdrop in H0 by lia.
    unfold zdrop at 1 in H0. rewrite <-(take_drop (Z.to_nat 15)). apply elem_of_app. by right. }
  unfold process_buf. rewrite (bool_decide_eq_true_2 _ Hz). cbn [negb].
  destruct r as [d|]; [|done]. rewrite memcpy_at_head, vibrate_bytes in *.
  cbn [app]. change (byte_at (PLUS :: _) 0) with PLUS. rewrite Z.eqb_refl.
  change (zdrop 1 (PLUS :: ?l)) with l. rewrite <-app_assoc. cbn [req_ok] in Hr.
  rewrite cstr_prefix, sscanf_dec; [done|unfold is_int; lia| |].
  - cbn [app cstr]. done.
  - eapply Forall_impl; [apply dec_chars|]. cbn. lia.
Qed.

(** ** The queue between the threads *)

Definition holds (q : Tq) (msgs : list (Z * Z)) : Prop :=
  exists cells pool, tq_rep q cells pool [] /\ pool_ok cells pool /\ cells.*2 = msgs.

Lemma holds_start : holds (sq (start empty_tq)) [].
Proof. exists [], []. destruct start_inv as (R & P & _). done. Qed.

Lemma post_holds d t q msgs :
  holds q msgs -> exists q', post true (Some (WPost d t)) q = Some q' /\ holds q' (msgs ++ [(d, t)]).
Proof.
  intros (cells & pool & R & P & <-). cbn [post].
  destruct (add_spec q cells pool true d t R P) as [(_ & ? & _) | (a & q' & pool' & -> & R' & P')]; [done|].
  exists q'. split; [done|]. exists (cells ++ [(a, (d, t))]), pool'. split; [done|]. split; [done|].
  by rewrite fmap_app.
Qed.

Lemma get_holds q msgs :
  holds q msgs ->
  match msgs with
  | [] => get_locked false q = Some GSleep
  | (d, t) :: r => exists q', get_locked false q = Some (GMessage (ThreadMsg d t (zlen r)) q') /\ holds q' r
  end.
Proof.
  intros (cells & pool & R & P & <-).
  pose proof (get_locked_spec (mkSys q (fun _ => Outside) cells.*2 []) cells pool false) as G.
  cbn [sq] in G. destruct cells as [|[a [d t]] r].
  - apply G. split_and!; done.
  - destruct G as (q' & pool' & G & R' & P'); [split_and!; done|].
    exists q'. cbn. unfold zlen. rewrite length_fmap. split; [exact G|]. by exists r, pool'.
Qed.

Lemma worker_request handle force r n :
  req_ok r -> is_byte force ->
  worker_msg handle force (ThreadMsg (req_msg r).1 (req_msg r).2 n) = Some (req_ops handle force r).
Proof.
  intros Hr Hf. unfold worker_msg, immvibe_play. destruct r as [d|]; cbn [req_msg fst snd msgtype data]; [|done].
  cbn [req_ok] in Hr. rewrite Z.eqb_refl, int_of_id by (unfold is_int; lia).
  rewrite (proj2 (andb_true_iff _ _)) by (split; apply Z.leb_le; lia).
  cbn [snd app]. rewrite u8_id by done. change (u8 0) with 0. by rewrite u32_id by lia.
Qed.

Lemma drain_holds handle force rs q fuel :
  is_byte force -> Forall req_ok rs -> holds q (map req_msg rs) -> (length rs < fuel)%nat ->
  exists q', worker_drain fuel handle force q = Some (concat (map (req_ops handle force) rs), q') /\
    holds q' [].
Proof.
  intros Hf Hr. revert q fuel. induction Hr as [|r rs Hr _ IH]; intros q fuel H Hl;
    (destruct fuel as [|fuel]; [simpl in Hl; lia|]); cbn [worker_drain]; pose proof (get_holds q _ H) as G.
  - cbn in G. rewrite G. cbn. by exists q.
  - cbn [map] in G. pose proof (worker_request handle force r) as Wk.
    destruct (req_msg r) as [d t]. destruct G as (q1 & G & H1). rewrite G. cbn [mbind option_bind].
    cbn [fst snd] in Wk. rewrite Wk by done. cbn [mbind option_bind].
    destruct (IH q1 fuel H1) as (q2 & -> & H2); [simpl in Hl; lia|]. cbn. by exists q2.
Qed.

(** ** The event loop *)

Lemma serve_request r s msgs :
  req_ok r -> buf_terminated (d_buf s) -> holds (d_queue s) msgs ->
  exists s', serve_client true [ClData (req_bytes r)] s = Some (1, s') /\
    buf_terminated (d_buf s') /\ holds (d_queue s') (msgs ++ [req_msg r]).
Proof.
  intros Hr Hb Hq. unfold serve_client. cbn [process_client].
  destruct (req_bytes_shape r) as [Hl _].
  rewrite (proj2 (Z.leb_le _ _)) by lia. rewrite process_buf_request by done.
  destruct (post_holds (req_msg r).1 (req_msg r).2 _ _ Hq) as (q' & -> & Hq'). cbn [mbind option_bind].
  eexists. split; [done|]. cbn. split; [apply buf_terminated_read; [done|lia]|].
  by destruct (req_msg r).
Qed.

Lemma handle_request e r s msgs :
  delivers e r -> req_ok r -> buf_terminated (d_buf s) -> holds (d_queue s) msgs ->
  exists s', handle_event true e s = Some s' /\
    buf_terminated (d_buf s') /\ holds (d_queue s') (msgs ++ [req_msg r]).
Proof.
  intros He Hr Hb Hq. destruct (serve_request r s msgs Hr Hb Hq) as (s' & Hs & Hb' & Hq').
  destruct He as [[fd ->] | (fd & ctl & ->)]; cbn [handle_event accept_loop c_nonblock c_reads c_fd c_epoll].
  - rewrite Hs. cbn. eexists. split; [done|]. by destruct s'.
  - rewrite Hs. cbn. destruct (ctl <? 0); eexists; (split; [done|]); by destruct s'.
Qed.

(** * Theorems *)



(** A request that is cut by [read] is lost: only the last piece is in the buffer when it is
    parsed. *)
Lemma split_request_lost :
  (process_client [ClData (bytes_of "+2"); ClData (bytes_of "50$")] (repeat 0 512) 0).1
  = (1, Some WNothing).
Proof. vm_compute. reflexivity. Qed.

(** A request without a number leaves the duration uninitialised. *)
Lemma empty_duration_undefined :
  (process_client [ClData [PLUS; 0; 0]] (repeat 0 512) 0).1 = (1, Some WUndef).
Proof. vm_compute. reflexivity. Qed.

(** A short [send] repeats the beginning of the request. *)
Lemma short_send_repeats :
  immvibe_conn_vibrate [SendSome 2] 250 = (0, bytes_of "+2+25").
Proof. vm_compute. reflexivity. Qed.

Section preference.
Context (property_get_int32 : option (list Z) -> Z -> Z).

(** What is documented of [property_get_int32] for the texts the daemon stores. *)
Hypothesis get_int32_dec : forall n d, 0 <= n < 256 -> property_get_int32 (Some (dec n)) d = n.

(** The preferred force is not lost: after [immvibe_api_set_force_userspace] succeeded it
    is what [immvibe_api_get_force_userspace] returns, once there is no file of an older
    version; a file of an older version takes precedence, its value is returned, and it is
    removed exactly when the property could be set, so that the next call returns the same
    value in either case. *)
Theorem force_survives_migration (s : ForceStore) (set_ret set_ret' force : Z) :
  is_byte force ->
  let '(ret, s1) := immvibe_api_set_force_userspace set_ret force s in
  let '(f2, s2) := immvibe_api_get_force_userspace property_get_int32 set_ret' s1 in
  let '(f3, _) := immvibe_api_get_force_userspace property_get_int32 set_ret' s2 in
  ret = set_ret /\ is_byte f3 /\
  (set_ret = 0 -> fs_legacy s = None -> f2 = force) /\
  (is_Some (fs_legacy s) -> f2 = get_force_userspace_legacy s) /\
  (is_Some (fs_legacy s2) <-> is_Some (fs_legacy s) /\ set_ret' <> 0) /\
  f3 = f2.
Proof.
  intros Hf. unfold immvibe_api_set_force_userspace.
  set (s1 := if set_ret =? 0 then _ else s).
  assert (Hl : fs_legacy s1 = fs_legacy s /\ lg_open s1 = lg_open s) by (unfold s1; by case_if).
  destruct Hl as [Hl Ho]. unfold immvibe_api_get_force_userspace at 1. rewrite Hl.
  assert (Hg : get_force_userspace_legacy s1 = get_force_userspace_legacy s)
    by (unfold get_force_userspace_legacy; by rewrite Hl, Ho).
  assert (Hb : is_byte (get_force_userspace_legacy s)).
  { unfold get_force_userspace_legacy. case_if; [unfold is_byte, DEFAULT_FORCE; lia|].
    destruct (strtoul 10 _) as [v any]. apply u8_byte. }
  destruct (fs_legacy s) as [txt|] eqn:El.
  - unfold migrate_force_store, immvibe_api_set_force_userspace. rewrite Hg.
    set (g := get_force_userspace_legacy s) in *. destruct (set_ret' =? 0) eqn:Er; reflect_bools; cbn [negb].
    + unfold immvibe_api_get_force_userspace. cbn [fs_legacy fs_prop].
      rewrite (u8_id g), get_int32_dec, (u8_id g) by done.
      split_and!; try done. split; [by intros [? ?]|]. by intros [_ ?].
    + unfold immvibe_api_get_force_userspace. rewrite Hl.
      split_and!; try done; rewrite Hg; try done.
  - cbn [fs_legacy]. unfold immvibe_api_get_force_userspace. rewrite Hl.
    split_and!; try done; try apply u8_byte.
    { intros -> _. unfold s1. cbn [Z.eqb fs_prop]. by rewrite (u8_id force), get_int32_dec, u8_id by done. }
    split; [by intros [? ?]|by intros [[? ?] _]].
Qed.
End preference.

Lemma force_survives_migration_witness :
  let '(ret, s1) := immvibe_api_set_force_userspace 0 100 (mkForce None None true) in
  let '(f2, s2) := immvibe_api_get_force_userspace parse_int32 0 s1 in
  let '(f3, _) := immvibe_api_get_force_userspace parse_int32 0 s2 in
  f2 = 100 /\ f3 = f2.
Proof.
  pose proof (force_survives_migration parse_int32) as H.
  assert (Hp : forall n d, 0 <= n < 256 -> parse_int32 (Some (dec n)) d = n).
  { intros n d Hn. unfold parse_int32. rewrite strtol_dec; [done|]. unfold is_int. lia. }
  specialize (H Hp (mkForce None None true) 0 0 100).
  destruct (immvibe_api_set_force_userspace 0 100 (mkForce None None true)) as [ret s1].
  destruct (immvibe_api_get_force_userspace parse_int32 0 s1) as [f2 s2].
  destruct (immvibe_api_get_force_userspace parse_int32 0 s2) as [f3 s3].
  destruct H as (_ & _ & H & _ & _ & H'); [unfold is_byte; lia|]. split; [by apply H|done].
Defined.
