(* ===== verification/Lights.v ===== *)
(** * The lights HAL (src/liblights/lights.c)

    The state is the file-scope variables of lights.c, the static variable of
    [blink_mx_led], and the files under /sys/class the program writes: for each path the
    text of the last successful write.  [l_io] says what the next writes return (0 or a
    negated error number; 0 when it is used up), [l_access] whether the files of the LED
    timer are there each time they are looked for.

    Every setter runs under one mutex, but for the check of [g_buttons] at the end of
    [set_light_backlight]; a sequence of calls is a list of [light_call]s. *)
From S2P Require Import Prelude CString.

(** * Data *)

Definition LIGHT_FLASH_NONE : Z := 0.
Definition LIGHT_FLASH_TIMED : Z := 1.
Definition LIGHT_FLASH_HARDWARE : Z := 2.

Record light_state_t := LightState { color : Z; flashMode : Z; flashOnMS : Z; flashOffMS : Z }.

Definition TRACKBALL_FILE : string := "/sys/class/leds/jogball-backlight/brightness".
Definition MX_LED_FILE : string := "/sys/class/leds/mx-led/brightness".
Definition MX_TRIGGER_FILE : string := "/sys/class/leds/mx-led/trigger".
Definition MX_DELAY_ON_FILE : string := "/sys/class/leds/mx-led/delay_on".
Definition MX_DELAY_OFF_FILE : string := "/sys/class/leds/mx-led/delay_off".
Definition LCD_FILE : string := "/sys/class/backlight/lm3697_bled/brightness".
Definition KEYBOARD_FILE : string := "/sys/class/leds/keyboard-backlight/brightness".
Definition BUTTON_FILE : string := "/sys/class/leds/mx-led/brightness".

Record Lights := mkLights {
  g_haveTrackballLight : bool;
  g_notification : light_state_t;
  g_battery : light_state_t;
  g_backlight : Z;
  g_trackball : Z;
  g_buttons : Z;
  g_attention : Z;
  preStatus : Z;
  l_files : gmap string (list Z);
  l_io : list Z;
  l_access : list bool;
  l_delays : Z                      (* calls of [led_wait_delay] *)
}.

Definition BRIGHTNESS_MAP : list Z :=
  [
   416; 422; 428; 435; 441; 448; 454; 460; 467; 473; 480; 486; 492; 499; 505; 512;
   518; 524; 531; 537; 544; 550; 556; 563; 569; 576; 582; 588; 595; 601; 608; 614;
   620; 627; 633; 640; 646; 652; 659; 665; 672; 678; 684; 691; 697; 704; 710; 716;
   723; 729; 736; 742; 748; 755; 761; 768; 774; 780; 787; 793; 800; 806; 812; 819;
   825; 832; 838; 844; 851; 857; 864; 870; 876; 883; 889; 896; 902; 908; 915; 921;
   928; 934; 940; 947; 953; 960; 966; 972; 979; 985; 992; 998; 1004; 1011; 1017; 1024;
   1030; 1036; 1043; 1049; 1056; 1062; 1068; 1075; 1081; 1088; 1094; 1100; 1107; 1113; 1120; 1126;
   1132; 1139; 1145; 1152; 1158; 1164; 1171; 1177; 1184; 1190; 1196; 1203; 1209; 1216; 1222; 1228;
   1235; 1241; 1248; 1254; 1260; 1267; 1273; 1280; 1286; 1292; 1299; 1305; 1312; 1318; 1324; 1331;
   1337; 1344; 1350; 1356; 1363; 1369; 1376; 1382; 1388; 1395; 1401; 1408; 1414; 1420; 1427; 1433;
   1440; 1446; 1452; 1459; 1465; 1472; 1478; 1484; 1491; 1497; 1504; 1510; 1516; 1523; 1529; 1536;
   1542; 1548; 1555; 1561; 1568; 1574; 1580; 1587; 1593; 1600; 1606; 1612; 1619; 1625; 1632; 1638;
   1644; 1651; 1657; 1664; 1670; 1676; 1683; 1689; 1696; 1702; 1708; 1715; 1721; 1728; 1734; 1740;
   1747; 1753; 1760; 1766; 1772; 1779; 1785; 1792; 1798; 1804; 1811; 1817; 1824; 1830; 1836; 1843;
   1849; 1856; 1862; 1868; 1875; 1881; 1888; 1894; 1900; 1907; 1913; 1920; 1926; 1932; 1939; 1945;
   1952; 1958; 1964; 1971; 1977; 1984; 1990; 1996; 2003; 2009; 2016; 2022; 2028; 2035; 2041; 2047
  ].

(** * Access to the files *)

Definition set_files (f : gmap string (list Z)) (io : list Z) (s : Lights) : Lights :=
  mkLights (g_haveTrackballLight s) (g_notification s) (g_battery s) (g_backlight s) (g_trackball s)
    (g_buttons s) (g_attention s) (preStatus s) f io (l_access s) (l_delays s).

(** Opening and writing a file. *)
Definition write_text (path : string) (text : list Z) (s : Lights) : Z * Lights :=
  match l_io s with
  | [] => (0, set_files (<[path := text]> (l_files s)) [] s)
  | r :: io => (r, set_files (if r =? 0 then <[path := text]> (l_files s) else l_files s) io s)
  end.

Definition write_int (path : string) (value : Z) (s : Lights) : Z * Lights :=
  write_text path (dec value ++ [10]) s.

Definition write_str (path : string) (str : string) (s : Lights) : Z * Lights :=
  write_text path (bytes_of str) s.

(** The results of [nanosleep]: done, interrupted with a remaining time, or an error. *)
Inductive sleep_event := SleepIntr (rem : Z) | SleepError (errno : Z).

(** The time slept for, and the result. *)
Fixpoint sleep_loop (req : Z) (evs : list sleep_event) : Z * Z :=
  match evs with
  | [] => (req, 0)
  | SleepError errno :: _ => (0, errno)
  | SleepIntr rem :: evs => let '(t, r) := sleep_loop rem evs in (req - rem + t, r)
  end.

Definition led_wait_delay (ms : Z) (evs : list sleep_event) : Z * Z := sleep_loop (ms * 1000000) evs.

(** * The LED *)

Definition is_lit (state : light_state_t) : Z := Z.land (color state) 0x00ffffff.

(** The loop that waits for the files of the timer, at most ten times. *)
Fixpoint wait_nodes (n : nat) (s : Lights) : Lights :=
  match n with
  | O => s
  | S n =>
      match l_access s with
      | false :: acc =>
          wait_nodes n
            (mkLights (g_haveTrackballLight s) (g_notification s) (g_battery s) (g_backlight s)
               (g_trackball s) (g_buttons s) (g_attention s) (preStatus s) (l_files s) (l_io s) acc
               (l_delays s + 1))
      | true :: acc =>
          mkLights (g_haveTrackballLight s) (g_notification s) (g_battery s) (g_backlight s)
            (g_trackball s) (g_buttons s) (g_attention s) (preStatus s) (l_files s) (l_io s) acc
            (l_delays s)
      | [] => s
      end
  end.

Definition set_status (p : Z) (s : Lights) : Lights :=
  mkLights (g_haveTrackballLight s) (g_notification s) (g_battery s) (g_backlight s) (g_trackball s)
    (g_buttons s) (g_attention s) p (l_files s) (l_io s) (l_access s) (l_delays s).

(** 0: off, 1: blink, 2: no blink. *)
Definition led_status (level onMS offMS : Z) : Z :=
  if level =? 0 then 0
  else if negb (onMS =? 0) && negb (offMS =? 0) then 1
  else 2.

Definition blink_mx_led (level onMS offMS : Z) (s : Lights) : Z * Lights :=
  let nowStatus := led_status level onMS offMS in
  if preStatus s =? nowStatus then (-1, s)
  else
    let s :=
      if nowStatus =? 0 then
        let s := (write_str MX_TRIGGER_FILE "none" s).2 in
        (write_int MX_LED_FILE 0 s).2
      else if nowStatus =? 1 then
        let s := (write_str MX_TRIGGER_FILE "timer" s).2 in
        let s := wait_nodes 10 s in
        let s := (write_int MX_DELAY_OFF_FILE offMS s).2 in
        (write_int MX_DELAY_ON_FILE onMS s).2
      else
        let s := (write_str MX_TRIGGER_FILE "none" s).2 in
        (write_int MX_LED_FILE 255 s).2 in
    (0, set_status nowStatus s).

Definition handle_trackball_light_locked (s : Lights) : Z * Lights :=
  let mode := g_attention s in
  let mode := if (mode =? 7) && negb (g_backlight s =? 0) then 0 else mode in
  if g_trackball s =? mode then (0, s) else write_int TRACKBALL_FILE mode s.

Definition set_speaker_light_locked (state : light_state_t) (s : Lights) : Lights :=
  let '(onMS, offMS) :=
    if flashMode state =? LIGHT_FLASH_TIMED then (flashOnMS state, flashOffMS state) else (0, 0) in
  let colorRGB := color state in
  let alpha := Z.land (Z.shiftr colorRGB 24) 0xFF in
  let '(red, green, blue) :=
    if negb (alpha =? 0) then
      (Z.land (Z.shiftr colorRGB 16) 0xFF, Z.land (Z.shiftr colorRGB 8) 0xFF, Z.land colorRGB 0xFF)
    else (0, 0, 0) in
  if negb (red =? 0) || negb (green =? 0) || negb (blue =? 0) then (blink_mx_led 255 onMS offMS s).2
  else (blink_mx_led 0 0 0 s).2.

Definition handle_speaker_battery_locked (s : Lights) : Lights :=
  if negb (is_lit (g_battery s) =? 0) then set_speaker_light_locked (g_battery s) s
  else
    let s := set_speaker_light_locked (g_battery s) s in
    set_speaker_light_locked (g_notification s) s.

(** * The setters *)

Definition rgb_to_brightness (state : light_state_t) : Z :=
  let color := Z.land (color state) 0x00ffffff in
  Z.shiftr (77 * Z.land (Z.shiftr color 16) 0x00ff + 150 * Z.land (Z.shiftr color 8) 0x00ff
            + 29 * Z.land color 0x00ff) 8.

Definition to_mx4_brightness (brightness : Z) : Z :=
  if brightness <=? 0 then 0
  else if 256 <=? brightness then 2047
  else byte_at BRIGHTNESS_MAP brightness.

Definition set_vars (notification battery : light_state_t) (backlight buttons attention : Z) (s : Lights)
  : Lights :=
  mkLights (g_haveTrackballLight s) notification battery backlight (g_trackball s) buttons attention
    (preStatus s) (l_files s) (l_io s) (l_access s) (l_delays s).

Definition do_set_light_buttons (on : Z) (s : Lights) : Z * Lights :=
  let s := set_vars (g_notification s) (g_battery s) (g_backlight s) on (g_attention s) s in
  let s := (write_str MX_TRIGGER_FILE "none" s).2 in
  write_int BUTTON_FILE (if negb (on =? 0) then g_backlight s else 0) s.

Definition set_light_backlight (state : light_state_t) (s : Lights) : Z * Lights :=
  let brightness := rgb_to_brightness state in
  let s := set_vars (g_notification s) (g_battery s) brightness (g_buttons s) (g_attention s) s in
  let '(err, s) := write_int LCD_FILE (to_mx4_brightness brightness) s in
  let s := if g_haveTrackballLight s then (handle_trackball_light_locked s).2 else s in
  let s := if negb (g_buttons s =? 0) then (do_set_light_buttons 1 s).2 else s in
  (err, s).

Definition set_light_keyboard (state : light_state_t) (s : Lights) : Z * Lights :=
  write_int KEYBOARD_FILE (if negb (is_lit state =? 0) then 255 else 0) s.

Definition set_light_buttons (state : light_state_t) (s : Lights) : Z * Lights :=
  do_set_light_buttons (is_lit state) s.

Definition set_light_battery (state : light_state_t) (s : Lights) : Z * Lights :=
  let s := set_vars (g_notification s) state (g_backlight s) (g_buttons s) (g_attention s) s in
  let s := if g_haveTrackballLight s then set_speaker_light_locked state s else s in
  (0, handle_speaker_battery_locked s).

Definition set_light_notifications (state : light_state_t) (s : Lights) : Z * Lights :=
  let s := set_vars state (g_battery s) (g_backlight s) (g_buttons s) (g_attention s) s in
  let s := if g_haveTrackballLight s then (handle_trackball_light_locked s).2 else s in
  (0, handle_speaker_battery_locked s).

Definition set_light_attention (state : light_state_t) (s : Lights) : Z * Lights :=
  let attention :=
    if flashMode state =? LIGHT_FLASH_HARDWARE then flashOnMS state
    else if flashMode state =? LIGHT_FLASH_NONE then 0
    else g_attention s in
  let s := set_vars (g_notification s) (g_battery s) (g_backlight s) (g_buttons s) attention s in
  (0, if g_haveTrackballLight s then (handle_trackball_light_locked s).2 else s).

(** ** Opening a light *)

Inductive setter := SetBacklight | SetKeyboard | SetButtons | SetNotifications | SetAttention.

Definition ENODEV : Z := 19.
Definition EINVAL : Z := 22.

(** The setter of the new device, or the negated error. *)
Definition open_lights (name : string) : setter + Z :=
  if bool_decide (name = "backlight"%string) then inl SetBacklight
  else if bool_decide (name = "keyboard"%string) then inl SetKeyboard
  else if bool_decide (name = "buttons"%string) then inl SetButtons
  else if bool_decide (name = "battery"%string) then inr (- ENODEV)
  else if bool_decide (name = "notifications"%string) then inl SetNotifications
  else if bool_decide (name = "attention"%string) then inl SetAttention
  else inr (- EINVAL).

(** [init_globals]: [access_ret] is the result of [access] on the trackball file. *)
Definition init_globals (access_ret : Z) (s : Lights) : Lights :=
  mkLights (access_ret =? 0) (g_notification s) (g_battery s) (g_backlight s) (g_trackball s)
    (g_buttons s) (g_attention s) (preStatus s) (l_files s) (l_io s) (l_access s) (l_delays s).

(** The variables as they are initialised. *)
Definition initial_lights (io : list Z) (acc : list bool) : Lights :=
  mkLights false (LightState 0 0 0 0) (LightState 0 0 0 0) 255 (-1) 0 0 0 ∅ io acc 0.

(** A call of [set_light] on an opened device. *)
Record light_call := LightCall { lc_setter : setter; lc_state : light_state_t }.

Definition set_light (c : light_call) (s : Lights) : Z * Lights :=
  match lc_setter c with
  | SetBacklight => set_light_backlight (lc_state c) s
  | SetKeyboard => set_light_keyboard (lc_state c) s
  | SetButtons => set_light_buttons (lc_state c) s
  | SetNotifications => set_light_notifications (lc_state c) s
  | SetAttention => set_light_attention (lc_state c) s
  end.

Definition run_calls (cs : list light_call) (s : Lights) : Lights :=
  fold_left (fun s c => (set_light c s).2) cs s.

(** * Brightness *)

Lemma land_ff x : 0 <= Z.land x 255 <= 255.
Proof.
  assert (Z.land x 255 = x mod 256) as -> by (apply (Z.land_ones x 8); lia).
  pose proof (Z.mod_pos_bound x 256). lia.
Qed.

Lemma rgb_to_brightness_range state : 0 <= rgb_to_brightness state <= 255.
Proof.
  unfold rgb_to_brightness. set (c := Z.land (color state) 16777215).
  pose proof (land_ff (Z.shiftr c 16)). pose proof (land_ff (Z.shiftr c 8)). pose proof (land_ff c).
  rewrite Z.shiftr_div_pow2 by lia. change (2 ^ 8) with 256.
  split; [apply Z.div_pos; lia|].
  assert ((77 * Z.land (Z.shiftr c 16) 255 + 150 * Z.land (Z.shiftr c 8) 255 + 29 * Z.land c 255) / 256
          <= 65280 / 256) by (apply Z.div_le_mono; lia). done.
Qed.

(** The curve of the brightness table: from 422 to 2047 in steps of 6.4. *)
Definition lcd_curve (b : Z) : Z := if b =? 0 then 0 else Z.min 2047 (416 + 64 * b / 10).

Lemma to_mx4_curve b : 0 <= b <= 255 -> to_mx4_brightness b = lcd_curve b.
Proof.
  intros H. assert (Hb : is_byte b) by (unfold is_byte; lia).
  apply Z.eqb_eq. refine (byte_forall (fun b => to_mx4_brightness b =? lcd_curve b) _ b Hb).
  vm_compute. reflexivity.
Qed.

Lemma lcd_curve_mono b b' : 0 <= b < b' -> b' <= 255 -> lcd_curve b < lcd_curve b'.
Proof.
  intros H H'. unfold lcd_curve.
  assert (64 * b / 10 + 6 <= 64 * b' / 10).
  { transitivity ((64 * b + 6 * 10) / 10); [rewrite Z.div_add by lia; lia|apply Z.div_le_mono; lia]. }
  assert (64 * b / 10 <= 1625).
  { transitivity (64 * 254 / 10); [apply Z.div_le_mono; lia|done]. }
  assert (0 <= 64 * b / 10) by (apply Z.div_pos; lia).
  destruct (b =? 0) eqn:E; destruct (b' =? 0) eqn:E'; reflect_bools; lia.
Qed.

(** * The files *)

Ltac files := repeat first [rewrite lookup_insert_eq | rewrite lookup_insert_ne by decide_closed].

(** A state in which no write fails. *)
Definition io_ok (s : Lights) : Prop := l_io s = [].

Lemma write_text_ok path text s :
  io_ok s -> write_text path text s = (0, set_files (<[path := text]> (l_files s)) [] s).
Proof. unfold io_ok, write_text. by intros ->. Qed.

(** The same variables; waiting for the timer files changes nothing else. *)
Definition same_vars (s s' : Lights) : Prop :=
  g_haveTrackballLight s' = g_haveTrackballLight s /\ g_notification s' = g_notification s /\
  g_battery s' = g_battery s /\ g_backlight s' = g_backlight s /\ g_trackball s' = g_trackball s /\
  g_buttons s' = g_buttons s /\ g_attention s' = g_attention s.

#[global] Instance same_vars_preorder : PreOrder same_vars.
Proof.
  split; [done|]. intros s1 s2 s3 (? & ? & ? & ? & ? & ? & ?) (? & ? & ? & ? & ? & ? & ?).
  unfold same_vars. intuition congruence.
Qed.

Lemma wait_nodes_same n s :
  same_vars s (wait_nodes n s) /\ preStatus (wait_nodes n s) = preStatus s /\
  l_files (wait_nodes n s) = l_files s /\ l_io (wait_nodes n s) = l_io s.
Proof.
  revert s. induction n as [|n IH]; intros s; [done|]. cbn [wait_nodes].
  destruct (l_access s) as [|[] acc]; try done.
  match goal with |- context [wait_nodes n ?x] => destruct (IH x) as (V & P & F & I) end.
  split; [|done]. by etransitivity; [|exact V].
Qed.

Definition led_paths : list string := [MX_LED_FILE; MX_TRIGGER_FILE; MX_DELAY_ON_FILE; MX_DELAY_OFF_FILE].

(** What the files of the LED say for a status. *)
Definition led_at (f : gmap string (list Z)) (status onMS offMS : Z) : Prop :=
  if status =? 0 then
    (f !! MX_TRIGGER_FILE = None /\ f !! MX_LED_FILE = None) \/
    (f !! MX_TRIGGER_FILE = Some (bytes_of "none") /\ f !! MX_LED_FILE = Some (dec 0 ++ [10]))
  else if status =? 1 then
    f !! MX_TRIGGER_FILE = Some (bytes_of "timer") /\
    f !! MX_DELAY_ON_FILE = Some (dec onMS ++ [10]) /\
    f !! MX_DELAY_OFF_FILE = Some (dec offMS ++ [10])
  else
    f !! MX_TRIGGER_FILE = Some (bytes_of "none") /\ f !! MX_LED_FILE = Some (dec 255 ++ [10]).

Lemma blink_spec level onMS offMS s :
  io_ok s ->
  let st := led_status level onMS offMS in
  let s' := (blink_mx_led level onMS offMS s).2 in
  io_ok s' /\ same_vars s s' /\ preStatus s' = st /\
  (forall p, (p ∉ led_paths) -> l_files s' !! p = l_files s !! p) /\
  if preStatus s =? st then l_files s' = l_files s else led_at (l_files s') st onMS offMS.
Proof.
  intros Hio st s'. unfold s', blink_mx_led. fold st.
  destruct (preStatus s =? st) eqn:E; reflect_bools; [done|]. unfold write_str, write_int.
  assert (Hne : forall p q t f, (p ∉ led_paths) -> q ∈ led_paths ->
    (<[q := t]> f : gmap string (list Z)) !! p = f !! p).
  { intros p q t f Hp Hq. apply lookup_insert_ne. by intros ->. }
  assert (Hin : MX_LED_FILE ∈ led_paths /\ MX_TRIGGER_FILE ∈ led_paths /\
    MX_DELAY_ON_FILE ∈ led_paths /\ MX_DELAY_OFF_FILE ∈ led_paths) by decide_closed.
  destruct Hin as (I1 & I2 & I3 & I4). unfold led_at. clearbody st.
  destruct (st =? 0) eqn:E0; reflect_bools; [|destruct (st =? 1) eqn:E1; reflect_bools];
    rewrite (write_text_ok MX_TRIGGER_FILE _ s Hio); cbn [snd].
  - rewrite write_text_ok by done. cbn [snd set_status set_files l_files preStatus].
    do 3 (split; [done|]). split.
    + intros p Hp. by rewrite !Hne by done.
    + right. split; by files.
  - pose proof (wait_nodes_same 10 (set_files (<[MX_TRIGGER_FILE:=bytes_of "timer"]> (l_files s)) [] s)) as W.
    revert W. generalize (wait_nodes 10 (set_files (<[MX_TRIGGER_FILE:=bytes_of "timer"]> (l_files s)) [] s)).
    intros s2 (V & P & F & I). cbn [set_files l_io l_files] in F, I. rewrite (write_text_ok MX_DELAY_OFF_FILE _ s2 I). cbn [snd].
    rewrite write_text_ok by done. cbn [snd set_status set_files l_files preStatus]. rewrite F.
    do 3 (split; [done|]). split.
    + intros p Hp. by rewrite !Hne by done.
    + split_and!; by files.
  - rewrite write_text_ok by done. cbn [snd set_status set_files l_files preStatus].
    do 3 (split; [done|]). split.
    + intros p Hp. by rewrite !Hne by done.
    + split; by files.
Qed.

(** What a light state asks of the LED. *)
Definition led_lit (state : light_state_t) : bool :=
  negb (Z.land (Z.shiftr (color state) 24) 0xFF =? 0) &&
  (negb (Z.land (Z.shiftr (color state) 16) 0xFF =? 0) || negb (Z.land (Z.shiftr (color state) 8) 0xFF =? 0)
   || negb (Z.land (color state) 0xFF =? 0)).

Definition on_ms (state : light_state_t) : Z :=
  if flashMode state =? LIGHT_FLASH_TIMED then flashOnMS state else 0.
Definition off_ms (state : light_state_t) : Z :=
  if flashMode state =? LIGHT_FLASH_TIMED then flashOffMS state else 0.

Definition led_wanted (state : light_state_t) : Z :=
  if led_lit state then led_status 255 (on_ms state) (off_ms state) else 0.

Definition led_shows (f : gmap string (list Z)) (state : light_state_t) : Prop :=
  led_at f (led_wanted state) (on_ms state) (off_ms state).

Lemma led_at_off f on off on' off' : led_at f 0 on off -> led_at f 0 on' off'.
Proof. done. Qed.

Lemma led_at_ext f f' st on off :
  (forall p, p ∈ led_paths -> f' !! p = f !! p) -> led_at f st on off -> led_at f' st on off.
Proof.
  intros H. unfold led_at.
  rewrite (H MX_LED_FILE), (H MX_TRIGGER_FILE), (H MX_DELAY_ON_FILE), (H MX_DELAY_OFF_FILE)
    by decide_closed. done.
Qed.

(** [set_speaker_light_locked] sets the LED to what the state asks. *)
Lemma speaker_spec state s :
  io_ok s ->
  let s' := set_speaker_light_locked state s in
  io_ok s' /\ same_vars s s' /\ preStatus s' = led_wanted state /\
  (forall p, (p ∉ led_paths) -> l_files s' !! p = l_files s !! p) /\
  if preStatus s =? led_wanted state then l_files s' = l_files s else led_shows (l_files s') state.
Proof.
  intros Hio s'.
  assert (Hs : s' = (blink_mx_led (if led_lit state then 255 else 0)
    (if led_lit state then on_ms state else 0) (if led_lit state then off_ms state else 0) s).2).
  { unfold s', set_speaker_light_locked, led_lit, on_ms, off_ms.
    destruct (flashMode state =? LIGHT_FLASH_TIMED), (Z.land (Z.shiftr (color state) 24) 255 =? 0); cbn [negb andb];
      try done; by destruct (negb (Z.land (Z.shiftr (color state) 16) 255 =? 0)
        || negb (Z.land (Z.shiftr (color state) 8) 255 =? 0) || negb (Z.land (color state) 255 =? 0)). }
  rewrite Hs. unfold led_shows, led_wanted. destruct (led_lit state); [by apply blink_spec|].
  destruct (blink_spec 0 0 0 s Hio) as (H1 & H2 & H3 & H4 & H5). split_and!; done.
Qed.

Definition dark : light_state_t := LightState 0 0 0 0.

(** The battery light, dark, switches the LED off, and the notification light then sets it. *)
Lemma battery_notification_spec s :
  io_ok s -> g_battery s = dark ->
  let s' := handle_speaker_battery_locked s in
  let n := g_notification s in
  io_ok s' /\ same_vars s s' /\ preStatus s' = led_wanted n /\
  (forall p, (p ∉ led_paths) -> l_files s' !! p = l_files s !! p) /\
  (led_wanted n <> 0 \/ preStatus s <> 0 -> led_shows (l_files s') n) /\
  (led_wanted n = 0 -> preStatus s = 0 -> l_files s' = l_files s).
Proof.
  intros Hio Hb s' n. unfold s', handle_speaker_battery_locked. rewrite Hb.
  change (is_lit dark =? 0) with true. cbn [negb].
  pose proof (speaker_spec dark s Hio) as (I1 & V1 & P1 & F1 & L1).
  set (s1 := set_speaker_light_locked dark s) in *. clearbody s1.
  unfold led_shows in L1. change (led_wanted dark) with 0 in *.
  assert (Hn : g_notification s1 = n) by apply V1. rewrite Hn.
  pose proof (speaker_spec n s1 I1) as (I2 & V2 & P2 & F2 & L2).
  set (s2 := set_speaker_light_locked n s1) in *. clearbody s2. rewrite P1 in L2.
  split; [done|]. split; [by etransitivity|]. split; [done|]. split.
  { intros p Hp. by rewrite F2, F1. }
  destruct (0 =? led_wanted n) eqn:E; reflect_bools.
  - rewrite L2. unfold led_shows. rewrite <-E. destruct (preStatus s =? 0) eqn:E'; reflect_bools.
    + rewrite L1. split; [|done]. intros [?|?]; lia.
    + split; [|lia]. intros _. by apply (led_at_off _ (on_ms dark) (off_ms dark)).
  - split; [intros _; exact L2|intros E'; destruct (E (eq_sym E'))].
Qed.

Lemma trackball_spec s :
  io_ok s ->
  let s' := (handle_trackball_light_locked s).2 in
  io_ok s' /\ same_vars s s' /\ preStatus s' = preStatus s /\
  (forall p, p <> TRACKBALL_FILE -> l_files s' !! p = l_files s !! p).
Proof.
  intros Hio s'. unfold s', handle_trackball_light_locked.
  destruct (g_trackball s =? _); [done|]. unfold write_int. rewrite write_text_ok by done.
  cbn [snd set_files l_files]. do 3 (split; [done|]). intros p Hp. by apply lookup_insert_ne.
Qed.

(** The trackball light only when there is one. *)
Lemma trackball_if_spec s :
  io_ok s ->
  let s' := if g_haveTrackballLight s then (handle_trackball_light_locked s).2 else s in
  io_ok s' /\ same_vars s s' /\ preStatus s' = preStatus s /\
  (forall p, p <> TRACKBALL_FILE -> l_files s' !! p = l_files s !! p).
Proof. intros Hio. destruct (g_haveTrackballLight s); [by apply trackball_spec|done]. Qed.

(** ** The setters *)

Lemma do_buttons_spec on s :
  io_ok s ->
  let s' := (do_set_light_buttons on s).2 in
  io_ok s' /\ g_backlight s' = g_backlight s /\ g_buttons s' = on /\
  l_files s' !! MX_TRIGGER_FILE = Some (bytes_of "none") /\
  l_files s' !! BUTTON_FILE = Some (dec (if on =? 0 then 0 else g_backlight s) ++ [10]) /\
  (forall p, (p ∉ led_paths) -> l_files s' !! p = l_files s !! p).
Proof.
  intros Hio s'. unfold s', do_set_light_buttons, write_str, write_int.
  set (s0 := set_vars _ _ _ _ _ s).
  rewrite (write_text_ok MX_TRIGGER_FILE _ s0 Hio). cbn [snd]. rewrite write_text_ok by done.
  cbn [snd set_files l_files g_backlight g_buttons s0 set_vars].
  do 3 (split; [done|]). split; [by files|]. split.
  - rewrite lookup_insert_eq. by destruct (on =? 0).
  - intros p Hp. rewrite !lookup_insert_ne; [done| |]; intros <-; apply Hp; decide_closed.
Qed.

(** The text of the LCD file for a state. *)
Definition lcd_text (state : light_state_t) : list Z := dec (lcd_curve (rgb_to_brightness state)) ++ [10].

(** [set_light_backlight] up to the buttons. *)
Definition backlight_first (state : light_state_t) (s : Lights) : Lights :=
  let b := rgb_to_brightness state in
  let s := set_vars (g_notification s) (g_battery s) b (g_buttons s) (g_attention s) s in
  let s := (write_int LCD_FILE (to_mx4_brightness b) s).2 in
  if g_haveTrackballLight s then (handle_trackball_light_locked s).2 else s.

Lemma backlight_split state s :
  io_ok s ->
  set_light_backlight state s
  = (0, let s1 := backlight_first state s in
        if negb (g_buttons s1 =? 0) then (do_set_light_buttons 1 s1).2 else s1).
Proof.
  intros Hio. unfold set_light_backlight, backlight_first, write_int.
  set (s0 := set_vars _ _ _ _ _ s). by rewrite (write_text_ok LCD_FILE _ s0 Hio).
Qed.

Lemma backlight_first_spec state s :
  io_ok s ->
  let s' := backlight_first state s in
  io_ok s' /\ g_notification s' = g_notification s /\ g_battery s' = g_battery s /\
  g_backlight s' = rgb_to_brightness state /\ g_buttons s' = g_buttons s /\ preStatus s' = preStatus s /\
  l_files s' !! LCD_FILE = Some (lcd_text state) /\
  (forall p, p ∈ led_paths -> l_files s' !! p = l_files s !! p).
Proof.
  intros Hio s'. unfold s', backlight_first, write_int.
  set (s0 := set_vars _ _ _ _ _ s). rewrite (write_text_ok LCD_FILE _ s0 Hio). cbn [snd].
  set (s1 := set_files _ [] s0). pose proof (trackball_if_spec s1 eq_refl) as T.
  set (s2 := if g_haveTrackballLight s1 then _ else _) in *. clearbody s2.
  destruct T as (I & (V1 & V2 & V3 & V4 & V5 & V6 & V7) & P & F). split; [done|]. split; [by rewrite V2|].
  split; [by rewrite V3|]. split; [by rewrite V4|]. split; [by rewrite V6|]. split; [done|]. split.
  - rewrite F by decide_closed. cbn [s1 set_files l_files]. rewrite lookup_insert_eq. unfold lcd_text.
    rewrite to_mx4_curve by apply rgb_to_brightness_range. done.
  - intros p Hp. rewrite F; [|intros ->; revert Hp; decide_closed]. cbn [s1 set_files l_files].
    rewrite lookup_insert_ne; [done|]. intros <-. revert Hp. decide_closed.
Qed.

Lemma keyboard_spec state s :
  io_ok s ->
  let s' := (set_light_keyboard state s).2 in
  io_ok s' /\ same_vars s s' /\ preStatus s' = preStatus s /\
  (forall p, p <> KEYBOARD_FILE -> l_files s' !! p = l_files s !! p).
Proof.
  intros Hio s'. unfold s', set_light_keyboard, write_int. rewrite write_text_ok by done.
  cbn [snd set_files l_files]. do 3 (split; [done|]). intros p Hp. by apply lookup_insert_ne.
Qed.

Lemma attention_spec state s :
  io_ok s ->
  let s' := (set_light_attention state s).2 in
  io_ok s' /\ g_notification s' = g_notification s /\ g_battery s' = g_battery s /\
  g_backlight s' = g_backlight s /\ g_buttons s' = g_buttons s /\ preStatus s' = preStatus s /\
  (forall p, p <> TRACKBALL_FILE -> l_files s' !! p = l_files s !! p).
Proof.
  intros Hio s'. unfold s', set_light_attention. cbn [snd].
  set (s0 := set_vars _ _ _ _ _ s).
  destruct (trackball_if_spec s0 Hio) as (I & (V1 & V2 & V3 & V4 & V5 & V6 & V7) & P & F).
  by rewrite V2, V3, V4, V6.
Qed.

(** * Sequences of calls *)

#[global] Instance setter_eq_dec : EqDecision setter.
Proof. solve_decision. Defined.

(** The state given by the last call of a setter. *)
Definition last_call (k : setter) (cs : list light_call) : option light_state_t :=
  fold_left (fun a c => if decide (lc_setter c = k) then Some (lc_state c) else a) cs None.

Lemma last_call_snoc k cs c :
  last_call k (cs ++ [c]) = if decide (lc_setter c = k) then Some (lc_state c) else last_call k cs.
Proof. unfold last_call. by rewrite fold_left_app. Qed.

Lemma run_calls_snoc cs c s : run_calls (cs ++ [c]) s = (set_light c (run_calls cs s)).2.
Proof. unfold run_calls. by rewrite fold_left_app. Qed.

(** Without calls for the buttons, LED and LCD show what was asked last. *)
Record led_inv (notification backlight : option light_state_t) (s : Lights) : Prop := {
  li_io : io_ok s;
  li_battery : g_battery s = dark;
  li_buttons : g_buttons s = 0;
  li_notification : g_notification s = default dark notification;
  li_status : preStatus s = led_wanted (default dark notification);
  li_led : led_shows (l_files s) (default dark notification);
  li_lcd : l_files s !! LCD_FILE = lcd_text <$> backlight
}.

(** A call that leaves LED, LCD and the variables alone. *)
Lemma led_inv_frame n b s s' :
  led_inv n b s -> io_ok s' -> g_battery s' = g_battery s -> g_buttons s' = g_buttons s ->
  g_notification s' = g_notification s -> preStatus s' = preStatus s ->
  (forall p, p ∈ LCD_FILE :: led_paths -> l_files s' !! p = l_files s !! p) -> led_inv n b s'.
Proof.
  intros [I Hb Hbt Hn Hs Hl Hc] I' E1 E2 E3 E4 F. split.
  - done.
  - by rewrite E1.
  - by rewrite E2.
  - by rewrite E3.
  - by rewrite E4.
  - eapply led_at_ext; [|exact Hl]. intros p Hp. apply F. by right.
  - rewrite F; [done|]. by left.
Qed.

Lemma not_led_path p q : (p ∈ led_paths) -> (q ∉ led_paths) -> p <> q.
Proof. by intros Hp Hq ->. Qed.

Lemma led_inv_step n b c s :
  led_inv n b s -> lc_setter c <> SetButtons ->
  led_inv (if decide (lc_setter c = SetNotifications) then Some (lc_state c) else n)
          (if decide (lc_setter c = SetBacklight) then Some (lc_state c) else b) (set_light c s).2.
Proof.
  intros Inv Hc. pose proof Inv as [I Hb Hbt Hn Hs Hl Hcd].
  destruct c as [k st]. cbn [lc_setter lc_state] in *. unfold set_light. cbn [lc_setter lc_state].
  destruct k; [| |destruct (Hc eq_refl)| |];
    repeat first [rewrite decide_True by reflexivity | rewrite decide_False by discriminate].
  - rewrite backlight_split by exact I. cbn [snd]. cbv zeta.
    pose proof (backlight_first_spec st s I) as (I1 & N1 & B1 & L1 & U1 & P1 & F1 & F2).
    set (s1 := backlight_first st s) in *. clearbody s1.
    rewrite U1, Hbt. cbn [Z.eqb negb]. split; [exact I1|congruence|congruence|congruence|congruence| |exact F1].
    eapply led_at_ext; [|exact Hl]. exact F2.
  - pose proof (keyboard_spec st s I) as (I1 & (V1 & V2 & V3 & V4 & V5 & V6 & V7) & P1 & F1).
    apply (led_inv_frame n b s); try assumption. intros p Hp. apply F1. intros ->. revert Hp. decide_closed.
  - unfold set_light_notifications. cbn [snd].
    set (s0 := set_vars _ _ _ _ _ s).
    pose proof (trackball_if_spec s0 I) as (I1 & (V1 & V2 & V3 & V4 & V5 & V6 & V7) & P1 & F1).
    set (s1 := if g_haveTrackballLight s0 then _ else _) in *. clearbody s1.
    assert (Hb1 : g_battery s1 = dark) by (rewrite V3; exact Hb).
    pose proof (battery_notification_spec s1 I1 Hb1) as (I2 & W & P2 & F2 & L2 & L3).
    set (s2 := handle_speaker_battery_locked s1) in *. clearbody s2.
    destruct W as (W1 & W2 & W3 & W4 & W5 & W6 & W7). rewrite V2 in *.
    change (g_notification s0) with st in *. split.
    + exact I2.
    + by rewrite W3.
    + rewrite W6, V6. exact Hbt.
    + exact W2.
    + exact P2.
    + change (default dark (Some st)) with st.
      destruct (decide (led_wanted st = 0)) as [E0|E0]; [|apply L2; by left].
      destruct (decide (preStatus s1 = 0)) as [E1|E1]; [|apply L2; by right].
      rewrite (L3 E0 E1). unfold led_shows. rewrite E0.
      apply (led_at_ext (l_files s)).
      * intros p Hp. apply F1. apply (not_led_path p); [done|]. decide_closed.
      * assert (preStatus s = 0) as Hs0 by (rewrite <-E1, P1; reflexivity). rewrite Hs in Hs0.
        unfold led_shows in Hl. rewrite Hs0 in Hl. eapply led_at_off. exact Hl.
    + rewrite F2 by decide_closed. rewrite F1 by decide_closed. exact Hcd.
  - pose proof (attention_spec st s I) as (I1 & N1 & B1 & L1 & U1 & P1 & F1).
    apply (led_inv_frame n b s); try assumption. intros p Hp. apply F1. intros ->. revert Hp. decide_closed.
Qed.

(** Without notifications, the button light follows the backlight while it is on. *)
Record button_inv (buttons backlight : option light_state_t) (s : Lights) : Prop := {
  bi_io : io_ok s;
  bi_level : g_backlight s = from_option rgb_to_brightness 255 backlight;
  bi_buttons : match buttons with
               | None => g_buttons s = 0
               | Some st =>
                   (g_buttons s = 0 <-> is_lit st = 0) /\
                   l_files s !! MX_TRIGGER_FILE = Some (bytes_of "none") /\
                   l_files s !! BUTTON_FILE
                   = Some (dec (if is_lit st =? 0 then 0 else g_backlight s) ++ [10])
               end;
  bi_lcd : l_files s !! LCD_FILE = lcd_text <$> backlight
}.

Lemma button_inv_frame u b s s' :
  button_inv u b s -> io_ok s' -> g_backlight s' = g_backlight s -> g_buttons s' = g_buttons s ->
  (forall p, p ∈ LCD_FILE :: led_paths -> l_files s' !! p = l_files s !! p) -> button_inv u b s'.
Proof.
  intros [I Hl Hb Hc] I' E1 E2 F. split.
  - exact I'.
  - by rewrite E1.
  - rewrite E1, E2. destruct u as [st|]; [|exact Hb]. rewrite !F by decide_closed. exact Hb.
  - rewrite F; [exact Hc|]. by left.
Qed.

Lemma button_inv_step u b c s :
  button_inv u b s -> lc_setter c <> SetNotifications ->
  button_inv (if decide (lc_setter c = SetButtons) then Some (lc_state c) else u)
             (if decide (lc_setter c = SetBacklight) then Some (lc_state c) else b) (set_light c s).2.
Proof.
  intros Inv Hc. pose proof Inv as [I Hl Hb Hcd].
  destruct c as [k st]. cbn [lc_setter lc_state] in *. unfold set_light. cbn [lc_setter lc_state].
  destruct k; [| | |destruct (Hc eq_refl)|];
    repeat first [rewrite decide_True by reflexivity | rewrite decide_False by discriminate].
  - rewrite backlight_split by exact I. cbn [snd]. cbv zeta.
    pose proof (backlight_first_spec st s I) as (I1 & N1 & B1 & L1 & U1 & P1 & F1 & F2).
    set (s1 := backlight_first st s) in *. clearbody s1. rewrite U1.
    destruct (g_buttons s =? 0) eqn:E; reflect_bools; cbn [negb].
    + split; [exact I1|exact L1| |exact F1]. destruct u as [st'|]; [|congruence].
      destruct Hb as (Hb1 & Hb2 & Hb3). rewrite U1, !F2 by decide_closed.
      split; [exact Hb1|]. split; [exact Hb2|]. rewrite Hb3.
      by rewrite (proj2 (Z.eqb_eq _ _) (proj1 Hb1 E)).
    + pose proof (do_buttons_spec 1 s1 I1) as (I2 & L2 & U2 & T2 & B2 & F3).
      set (s2 := (do_set_light_buttons 1 s1).2) in *. clearbody s2.
      split; [exact I2|rewrite L2; exact L1| |rewrite F3 by decide_closed; exact F1].
      destruct u as [st'|]; [|destruct (E Hb)]. destruct Hb as (Hb1 & _ & _).
      assert (is_lit st' <> 0) by (intros Hz; apply E, Hb1, Hz).
      split; [rewrite U2; split; [discriminate|intros Hz; contradiction]|].
      split; [exact T2|]. rewrite B2, L2. cbn [Z.eqb]. by rewrite (proj2 (Z.eqb_neq _ _) H).
  - pose proof (keyboard_spec st s I) as (I1 & (V1 & V2 & V3 & V4 & V5 & V6 & V7) & P1 & F1).
    apply (button_inv_frame u b s); try assumption. intros p Hp. apply F1. intros ->. revert Hp. decide_closed.
  - unfold set_light_buttons.
    pose proof (do_buttons_spec (is_lit st) s I) as (I2 & L2 & U2 & T2 & B2 & F3).
    set (s2 := (do_set_light_buttons (is_lit st) s).2) in *. clearbody s2.
    split; [exact I2|rewrite L2; exact Hl| |rewrite F3 by decide_closed; exact Hcd].
    split; [by rewrite U2|]. split; [exact T2|]. by rewrite B2, L2.
  - pose proof (attention_spec st s I) as (I1 & N1 & B1 & L1 & U1 & P1 & F1).
    apply (button_inv_frame u b s); try assumption. intros p Hp. apply F1. intros ->. revert Hp. decide_closed.
Qed.

(** The program as it starts, with files that can be written. *)
Definition start_lights (trackball : Z) (acc : list bool) : Lights :=
  init_globals trackball (initial_lights [] acc).

(** * Theorems *)

(** The backlight: whatever the colour, its brightness is between 0 and 255; black
    switches the LCD off and every other brightness [b] is written as the value
    [min 2047 (416 + 6.4 b)] of the table, so that a brighter colour always gives a
    strictly larger value and the driver's range is never left. *)
Theorem backlight_level (state state' : light_state_t) (s : Lights) :
  io_ok s ->
  let b := rgb_to_brightness state in
  let b' := rgb_to_brightness state' in
  let '(err, s') := set_light_backlight state s in
  err = 0 /\ 0 <= b <= 255 /\ to_mx4_brightness b = lcd_curve b /\ 0 <= lcd_curve b <= 2047 /\
  (b < b' -> to_mx4_brightness b < to_mx4_brightness b') /\
  g_backlight s' = b /\ l_files s' !! LCD_FILE = Some (dec (lcd_curve b) ++ [10]).
Proof.
  intros Hio b b'. rewrite backlight_split by exact Hio. cbv zeta.
  pose proof (rgb_to_brightness_range state) as Hb. pose proof (rgb_to_brightness_range state') as Hb'.
  fold b in Hb. fold b' in Hb'. split; [reflexivity|]. split; [exact Hb|].
  rewrite !to_mx4_curve by assumption. split; [reflexivity|]. split.
  { unfold lcd_curve. assert (0 <= 64 * b / 10) by (apply Z.div_pos; lia). case_if; lia. }
  split; [intros; apply lcd_curve_mono; lia|].
  pose proof (backlight_first_spec state s Hio) as (I1 & _ & _ & L1 & U1 & _ & F1 & _).
  set (s1 := backlight_first state s) in *. clearbody s1.
  destruct (negb (g_buttons s1 =? 0)); [|split; [exact L1|exact F1]].
  pose proof (do_buttons_spec 1 s1 I1) as (_ & L2 & _ & _ & _ & F2).
  set (s2 := (do_set_light_buttons 1 s1).2) in *. clearbody s2.
  split; [by rewrite L2|]. rewrite F2 by decide_closed. exact F1.
Qed.

Lemma backlight_level_witness :
  let '(err, s') := set_light_backlight (LightState 0xFF808080 0 0 0) (start_lights (-1) []) in
  err = 0 /\ g_backlight s' = 128 /\ l_files s' !! LCD_FILE = Some (bytes_of "1235" ++ [10]).
Proof.
  pose proof (backlight_level (LightState 0xFF808080 0 0 0) dark (start_lights (-1) []) eq_refl) as H.
  destruct (set_light_backlight (LightState 0xFF808080 0 0 0) (start_lights (-1) [])) as [err s'].
  destruct H as (H1 & _ & _ & _ & _ & H2 & H3). split; [exact H1|]. split; [exact H2|exact H3].
Defined.

(** C25: After any sequence of calls on the opened lights other than the buttons, in any order,
    the LED shows what the last notification asked for - off, blinking with its times, or
    on - and the LCD has the level of the last backlight call; the battery light, which
    cannot be opened, never takes the LED. *)
Theorem lights_follow_requests (cs : list light_call) (trackball : Z) (acc : list bool) :
  Forall (fun c => lc_setter c <> SetButtons) cs ->
  let s := run_calls cs (start_lights trackball acc) in
  led_shows (l_files s) (default dark (last_call SetNotifications cs)) /\
  preStatus s = led_wanted (default dark (last_call SetNotifications cs)) /\
  l_files s !! LCD_FILE = lcd_text <$> last_call SetBacklight cs /\
  open_lights "battery" = inr (- ENODEV).
Proof.
  intros H s.
  enough (led_inv (last_call SetNotifications cs) (last_call SetBacklight cs) s) as [I _ _ _ Hs Hl Hc]
    by (split; [exact Hl|]; split; [exact Hs|]; split; [exact Hc|reflexivity]).
  unfold s. clear s. revert H. induction cs as [|c cs IH] using rev_ind; intros H.
  - split; try reflexivity. left. split; reflexivity.
  - apply Forall_app in H as [H1 H2]. apply Forall_cons in H2 as [Hc _].
    rewrite run_calls_snoc, !last_call_snoc. apply led_inv_step; [by apply IH|exact Hc].
Qed.

Definition blue_blink : light_state_t := LightState 0xFF0000FF LIGHT_FLASH_TIMED 500 2000.

Lemma lights_follow_requests_witness :
  let s := run_calls [LightCall SetNotifications blue_blink; LightCall SetBacklight (LightState 0xFFFFFFFF 0 0 0)]
             (start_lights 0 [false; true]) in
  led_shows (l_files s) blue_blink /\ preStatus s = 1 /\
  l_files s !! LCD_FILE = Some (lcd_text (LightState 0xFFFFFFFF 0 0 0)).
Proof.
  pose proof (lights_follow_requests
    [LightCall SetNotifications blue_blink; LightCall SetBacklight (LightState 0xFFFFFFFF 0 0 0)] 0 [false; true])
    as H.
  destruct H as (H1 & H2 & H3 & _); [repeat constructor; discriminate|].
  split; [exact H1|]. split; [exact H2|exact H3].
Defined.

(** The light of the buttons: after any sequence of calls on the opened lights other than
    the notifications, once the buttons were set, their light is off if they were last set
    to black and otherwise has the current brightness of the backlight, also when the
    backlight changed later, and no timer drives it. *)
Theorem buttons_follow_backlight (cs : list light_call) (trackball : Z) (acc : list bool)
    (state : light_state_t) :
  Forall (fun c => lc_setter c <> SetNotifications) cs -> last_call SetButtons cs = Some state ->
  let s := run_calls cs (start_lights trackball acc) in
  let level := from_option rgb_to_brightness 255 (last_call SetBacklight cs) in
  l_files s !! BUTTON_FILE = Some (dec (if is_lit state =? 0 then 0 else level) ++ [10]) /\
  l_files s !! MX_TRIGGER_FILE = Some (bytes_of "none") /\ g_backlight s = level.
Proof.
  intros H Hst s level.
  enough (button_inv (last_call SetButtons cs) (last_call SetBacklight cs) s) as [_ Hl Hb _].
  { rewrite Hst in Hb. destruct Hb as (_ & Hb1 & Hb2). rewrite Hl in Hb2.
    split; [exact Hb2|]. split; [exact Hb1|exact Hl]. }
  unfold s. clear s level Hst. revert H. induction cs as [|c cs IH] using rev_ind; intros H.
  - split; reflexivity.
  - apply Forall_app in H as [H1 H2]. apply Forall_cons in H2 as [Hc _].
    rewrite run_calls_snoc, !last_call_snoc. apply button_inv_step; [by apply IH|exact Hc].
Qed.

Lemma buttons_follow_backlight_witness :
  let s := run_calls [LightCall SetButtons (LightState 0xFFFFFFFF 0 0 0);
                      LightCall SetBacklight (LightState 0xFF404040 0 0 0)] (start_lights (-1) []) in
  l_files s !! BUTTON_FILE = Some (dec 64 ++ [10]) /\
  l_files s !! MX_TRIGGER_FILE = Some (bytes_of "none") /\ g_backlight s = 64.
Proof.
  apply (buttons_follow_backlight [LightCall SetButtons (LightState 0xFFFFFFFF 0 0 0);
    LightCall SetBacklight (LightState 0xFF404040 0 0 0)] (-1) [] (LightState 0xFFFFFFFF 0 0 0)).
  - repeat constructor; discriminate.
  - reflexivity.
Defined.

(** Both lights share one LED: the end of a notification switches off the light of the
    buttons although they are on. *)
Lemma notification_end_darkens_buttons :
  let s := run_calls [LightCall SetNotifications blue_blink; LightCall SetButtons (LightState 0xFFFFFFFF 0 0 0);
                      LightCall SetNotifications dark] (start_lights (-1) []) in
  g_buttons s <> 0 /\ l_files s !! BUTTON_FILE = Some (dec 0 ++ [10]).
Proof. vm_compute. split; [discriminate|reflexivity]. Qed.

(** The trackball light is written each time although its value does not change. *)
Lemma trackball_always_written (s : Lights) :
  g_trackball s = -1 -> 0 <= g_attention s -> io_ok s ->
  l_files (handle_trackball_light_locked s).2
  = <[TRACKBALL_FILE := dec (if (g_attention s =? 7) && negb (g_backlight s =? 0) then 0 else g_attention s)
                          ++ [10]]> (l_files s) /\
  g_trackball (handle_trackball_light_locked s).2 = -1.
Proof.
  intros Ht Ha Hio. unfold handle_trackball_light_locked, write_int. rewrite Ht.
  rewrite (proj2 (Z.eqb_neq _ _)) by (case_if; lia). by rewrite write_text_ok by exact Hio.
Qed.
