(* ===== verification/Power.v ===== *)
(** * The power HAL (src/power)

    metadata-parser.c splits the data of a hint, a string of attributes such as
    [hint_id=2560;state=1], into attributes and values; power-feature-arale.c switches the
    double-tap gesture of the touch screen and keeps the choice in a property; power.c
    dispatches hints and features to them, and hint-data.c compares hints.

    [metadata_parsed] is the correctness of the parser, [taptowake_survives_reboot] that of
    the gesture.  The build is that of the device: no [TAP_TO_WAKE_NODE], no
    [SET_INTERACTIVE_EXT], the weak overrides, the feature library of the device. *)
From S2P Require Import Prelude CString.

(** * The metadata parser *)

Definition ATTRIBUTE_VALUE_DELIM : Z := 61.     (* = *)
Definition ATTRIBUTE_STRING_DELIM : Z := 59.    (* ; *)
Definition METADATA_PARSING_CONTINUE : Z := 0.
Definition METADATA_PARSING_DONE : Z := 1.
Definition METADATA_SIZE : Z := 1024.           (* the arrays of the callers *)

Fixpoint skip_delims (s : list Z) : list Z :=
  match s with
  | c :: s' => if c =? ATTRIBUTE_STRING_DELIM then skip_delims s' else s
  | [] => []
  end.

(** [strtok_r] with the delimiter [;]: the token and the saved pointer, [None] for NULL. *)
Definition strtok_r (s : option (list Z)) : option (list Z) * option (list Z) :=
  match s with
  | None => (None, None)
  | Some s =>
      match skip_delims s with
      | [] => (None, None)
      | s' => let '(tok, rest) := strsep s' ATTRIBUTE_STRING_DELIM in (Some tok, rest)
      end
  end.

(** [strncpy(dst, src, n); dst[n] = '\0';] into an array: the string it then holds, [None]
    when [n] is outside. *)
Definition copy_string (size n : Z) (src : list Z) : option (list Z) :=
  if n <? size then Some (ztake n src) else None.

(** The result, attribute and value, and the saved pointer. *)
Definition parse_metadata (metadata : option (list Z)) (attribute_size value_size : Z)
  : option (Z * list Z * list Z * option (list Z)) :=
  let '(attribute_string, saveptr) := strtok_r metadata in
  match attribute_string with
  | None => Some (METADATA_PARSING_DONE, [], [], saveptr)
  | Some str =>
      match strchr str ATTRIBUTE_VALUE_DELIM with
      | None => Some (METADATA_PARSING_CONTINUE, [], [], saveptr)
      | Some delim =>
          let n := Z.min (zlen str - zlen delim) (attribute_size - 1) in
          attribute ← copy_string attribute_size n str;
          let n := Z.min (u32 (zlen str - zlen attribute - 1)) (value_size - 1) in
          value ← copy_string value_size n (drop 1 delim);
          Some (METADATA_PARSING_CONTINUE, attribute, value, saveptr)
      end
  end.

(** The four structs of metadata-defs.h have these fields. *)
Record metadata_t := Metadata { hint_id : Z; state : Z }.

Definition atoi (s : list Z) : Z := int_of (strtol 10 s).1.

(** The body of the loop. *)
Definition store_attribute (attribute value : list Z) (m : metadata_t) : metadata_t :=
  let m := if bool_decide (attribute = bytes_of "hint_id") && (0 <? zlen value)
           then Metadata (atoi value) (state m) else m in
  if bool_decide (attribute = bytes_of "state") && (0 <? zlen value)
  then Metadata (hint_id m) (atoi value) else m.

(** The loop: [None] without fuel or when a buffer overflows. *)
Fixpoint parse_loop (fuel : nat) (metadata : option (list Z)) (m : metadata_t) : option (Z * metadata_t) :=
  match fuel with
  | O => None
  | S fuel =>
      '(status, attribute, value, saveptr) ← parse_metadata metadata METADATA_SIZE METADATA_SIZE;
      if status =? METADATA_PARSING_CONTINUE
      then parse_loop fuel saveptr (store_attribute attribute value m)
      else Some (status, m)
  end.

(** The result and the struct; every round consumes a character. *)
Definition parse_cam_preview_metadata (metadata : list Z) (m : metadata_t) : option (Z * metadata_t) :=
  '(status, m) ← parse_loop (S (length metadata)) (Some metadata) m;
  Some ((if status =? -1 then -1 else 0), m).

Definition parse_video_encode_metadata (metadata : list Z) (m : metadata_t) : option (Z * metadata_t) :=
  '(status, m) ← parse_loop (S (length metadata)) (Some metadata) m;
  Some ((if status =? -1 then -1 else 0), m).

Definition parse_video_decode_metadata (metadata : list Z) (m : metadata_t) : option (Z * metadata_t) :=
  '(status, m) ← parse_loop (S (length metadata)) (Some metadata) m;
  Some ((if status =? -1 then -1 else 0), m).

Definition parse_audio_metadata (metadata : list Z) (m : metadata_t) : option (Z * metadata_t) :=
  '(status, m) ← parse_loop (S (length metadata)) (Some metadata) m;
  Some ((if status =? -1 then -1 else 0), m).

(** * Hints *)

(** A hint as its address and key; [None] is NULL. *)
Definition hint_compare (first_hint other_hint : option (Z * Z)) : Z :=
  match first_hint, other_hint with
  | None, None => 0
  | Some (a, id), Some (b, id') => if (a =? b) || (id =? id') then 0 else 1
  | _, _ => 1
  end.

(** * Double tap to wake *)

Definition DOUBLE_TAP_TO_WAKE_ENABLE_VALUE : list Z := bytes_of "00020001".
Definition DOUBLE_TAP_TO_WAKE_DISABLE_VALUE : list Z := bytes_of "00010000".
Definition DOUBLE_TAP_TO_WAKE_STORE_DEFAULT : Z := 0.

Inductive feature_t := POWER_FEATURE_DOUBLE_TAP_TO_WAKE | POWER_FEATURE_SUPPORTED_PROFILES | OtherFeature.

(** The last text written to the control file, and the property. *)
Record Power := mkPower { gesture : option (list Z); stored : option (list Z) }.

(** What the system calls return: [open], [write], [property_set]. *)
Record Calls := mkCalls { open_ret : Z; write_ret : Z; set_ret : Z }.

Definition _taptowake_write_control_file (k : Calls) (enabled : Z) (s : Power) : Z * Power :=
  if open_ret k <? 0 then (-1, s)
  else
    let buf := if negb (enabled =? 0) then DOUBLE_TAP_TO_WAKE_ENABLE_VALUE
               else DOUBLE_TAP_TO_WAKE_DISABLE_VALUE in
    if write_ret k <? 0 then (write_ret k, s)
    else (0, mkPower (Some (ztake (write_ret k) buf)) (stored s)).

Definition _taptowake_write_preference (k : Calls) (enabled : Z) (s : Power) : Power :=
  if set_ret k <? 0 then s
  else mkPower (gesture s) (Some (if negb (enabled =? 0) then bytes_of "1" else bytes_of "0")).

Definition _taptowake_set_state (k : Calls) (enabled : Z) (s : Power) : Power :=
  let '(ret, s) := _taptowake_write_control_file k enabled s in
  if ret =? 0 then _taptowake_write_preference k enabled s else s.

Definition set_device_specific_feature (k : Calls) (feature : feature_t) (state : Z) (s : Power) : Power :=
  match feature with
  | POWER_FEATURE_DOUBLE_TAP_TO_WAKE => _taptowake_set_state k state s
  | _ => s
  end.

Section onload.
(** [property_get_int32] of libcutils, on the text of the property. *)
Context (property_get_int32 : option (list Z) -> Z -> Z).

Definition _taptowake_read_preference (s : Power) : Z :=
  property_get_int32 (stored s) DOUBLE_TAP_TO_WAKE_STORE_DEFAULT.

(** Runs when the library is loaded. *)
Definition _taptowake_onload (k : Calls) (s : Power) : Power :=
  (_taptowake_write_control_file k (_taptowake_read_preference s) s).2.
End onload.

(** * The module *)

Definition HINT_HANDLED : Z := 0.
Definition HINT_NONE : Z := -1.

Inductive power_hint_t :=
| POWER_HINT_VSYNC | POWER_HINT_INTERACTION | POWER_HINT_CPU_BOOST | POWER_HINT_LAUNCH_BOOST
| POWER_HINT_AUDIO | POWER_HINT_SET_PROFILE | POWER_HINT_LOW_POWER | POWER_HINT_VIDEO_ENCODE
| POWER_HINT_VIDEO_DECODE | OtherHint.

Definition power_hint_override (hint : power_hint_t) : Z := HINT_NONE.
Definition set_interactive_override (on : Z) : Z := HINT_NONE.
Definition get_number_of_profiles : Z := 0.
Definition process_video_encode_hint (s : Power) : Power := s.
Definition process_video_decode_hint (s : Power) : Power := s.

Definition power_hint (hint : power_hint_t) (s : Power) : Power :=
  if power_hint_override hint =? HINT_HANDLED then s
  else match hint with
  | POWER_HINT_VIDEO_ENCODE => process_video_encode_hint s
  | POWER_HINT_VIDEO_DECODE => process_video_decode_hint s
  | _ => s
  end.

Definition set_interactive (on : Z) (s : Power) : Power :=
  if set_interactive_override on =? HINT_HANDLED then s else s.

Definition set_feature (k : Calls) (feature : feature_t) (state : Z) (s : Power) : Power :=
  set_device_specific_feature k feature state s.

Definition get_feature (feature : feature_t) : Z :=
  match feature with
  | POWER_FEATURE_SUPPORTED_PROFILES => get_number_of_profiles
  | _ => -1
  end.

(** * The parser on well-formed metadata *)

(** An attribute with its value, or a word without a delimiter. *)
Inductive item := Attr (key value : list Z) | Word (text : list Z).

Definition item_ok (i : item) : Prop :=
  match i with
  | Attr k v =>
      (ATTRIBUTE_VALUE_DELIM ∉ k) /\ (ATTRIBUTE_STRING_DELIM ∉ k) /\ (ATTRIBUTE_STRING_DELIM ∉ v) /\
      zlen k < METADATA_SIZE /\ zlen v < METADATA_SIZE
  | Word t => t <> [] /\ (ATTRIBUTE_VALUE_DELIM ∉ t) /\ (ATTRIBUTE_STRING_DELIM ∉ t)
  end.

#[global] Instance item_ok_dec i : Decision (item_ok i).
Proof. destruct i; cbn; apply _. Defined.

Definition print_item (i : item) : list Z :=
  match i with
  | Attr k v => k ++ ATTRIBUTE_VALUE_DELIM :: v
  | Word t => t
  end.

(** Every item is followed by one or more delimiters. *)
Definition print_items (items : list (item * nat)) : list Z :=
  concat (map (fun '(i, n) => print_item i ++ repeat ATTRIBUTE_STRING_DELIM (S n)) items).

(** What an item means: a known attribute with a value sets its field. *)
Definition item_meaning (m : metadata_t) (i : item) : metadata_t :=
  match i with
  | Attr k v =>
      if bool_decide (v = []) then m
      else if bool_decide (k = bytes_of "hint_id") then Metadata (atoi v) (state m)
      else if bool_decide (k = bytes_of "state") then Metadata (hint_id m) (atoi v)
      else m
  | Word _ => m
  end.

Lemma store_attribute_meaning k v m : store_attribute k v m = item_meaning m (Attr k v).
Proof.
  unfold store_attribute, item_meaning.
  destruct (decide (v = [])) as [->|Hv].
  - rewrite (bool_decide_eq_true_2 (@nil Z = []) eq_refl), !andb_false_r. done.
  - rewrite (bool_decide_eq_false_2 (v = []) Hv).
    assert ((0 <? zlen v) = true) as ->.
    { apply Z.ltb_lt. destruct v; [done|]. rewrite zlen_cons. pose proof (zlen_nonneg v). lia. }
    rewrite !andb_true_r. destruct (decide (k = bytes_of "hint_id")) as [->|Hk].
    + rewrite (bool_decide_eq_true_2 _ eq_refl). done.
    + rewrite (bool_decide_eq_false_2 _ Hk). done.
Qed.

Lemma skip_delims_repeat n s : skip_delims (repeat ATTRIBUTE_STRING_DELIM n ++ s) = skip_delims s.
Proof. induction n as [|n IH]; [done|]. cbn. exact IH. Qed.

(** The first token of a text. *)
Lemma strtok_r_token t n rest :
  t <> [] -> (ATTRIBUTE_STRING_DELIM ∉ t) ->
  strtok_r (Some (repeat ATTRIBUTE_STRING_DELIM n ++ t ++ ATTRIBUTE_STRING_DELIM :: rest))
  = (Some t, Some rest).
Proof.
  intros Hne Hd. unfold strtok_r. rewrite skip_delims_repeat. destruct t as [|c t]; [done|].
  assert (Hc : (c =? ATTRIBUTE_STRING_DELIM) = false).
  { apply Z.eqb_neq. intros ->. apply Hd. left. }
  cbn [app skip_delims]. rewrite Hc. rewrite (app_comm_cons t). by rewrite strsep_app.
Qed.

Lemma parse_metadata_item i n rest :
  item_ok i ->
  exists attribute value,
    parse_metadata (Some (repeat ATTRIBUTE_STRING_DELIM n ++ print_item i ++ ATTRIBUTE_STRING_DELIM :: rest))
      METADATA_SIZE METADATA_SIZE = Some (METADATA_PARSING_CONTINUE, attribute, value, Some rest) /\
    forall m, store_attribute attribute value m = item_meaning m i.
Proof.
  intros Hok. unfold parse_metadata. destruct i as [k v|t]; cbn [print_item item_ok] in *.
  - destruct Hok as (H1 & H2 & H3 & H4 & H5). rewrite strtok_r_token.
    2: { by destruct k. }
    2: { rewrite not_elem_of_app, not_elem_of_cons. done. }
    rewrite strchr_app by done.
    rewrite zlen_app, zlen_cons. pose proof (zlen_nonneg k). pose proof (zlen_nonneg v).
    unfold copy_string. unfold METADATA_SIZE in *.
    replace (zlen k + (1 + zlen v) - (1 + zlen v)) with (zlen k) by lia.
    rewrite Z.min_l by lia. rewrite (proj2 (Z.ltb_lt _ _)) by lia. cbn [mbind option_bind].
    rewrite ztake_app_length. rewrite u32_id by lia.
    replace (zlen k + (1 + zlen v) - zlen k - 1) with (zlen v) by lia.
    rewrite Z.min_l by lia. rewrite (proj2 (Z.ltb_lt _ _)) by lia. cbn [mbind option_bind drop].
    change (drop 0 v) with v. rewrite ztake_all by lia. exists k, v. split; [done|]. intros m. apply store_attribute_meaning.
  - destruct Hok as (H1 & H2 & H3). rewrite strtok_r_token by done.
    rewrite (proj1 (strchr_none t ATTRIBUTE_VALUE_DELIM)) by done.
    exists [], []. split; [done|]. done.
Qed.

(** The whole loop. *)
Lemma parse_loop_items items n fuel m :
  Forall (fun x => item_ok x.1) items -> (length items < fuel)%nat ->
  parse_loop fuel (Some (repeat ATTRIBUTE_STRING_DELIM n ++ print_items items)) m
  = Some (METADATA_PARSING_DONE, fold_left item_meaning (map fst items) m).
Proof.
  intros H. revert n fuel m. induction H as [|[i k] items Hi _ IH]; intros n fuel m Hf;
    (destruct fuel as [|fuel]; [cbn in Hf; lia|]); cbn [parse_loop].
  - unfold parse_metadata, strtok_r, print_items. cbn [map concat]. rewrite skip_delims_repeat. done.
  - unfold print_items. cbn [map concat]. fold (print_items items). cbn [repeat]. rewrite <-app_assoc. cbn [app].
    destruct (parse_metadata_item i n (repeat ATTRIBUTE_STRING_DELIM k ++ print_items items) Hi)
      as (a & v & -> & Hm).
    cbn [mbind option_bind]. rewrite Z.eqb_refl. rewrite Hm, IH by (cbn in Hf; lia). done.
Qed.

(** Every call of [parse_metadata] that goes on shortens the text. *)
Definition rest_size (s : option (list Z)) : nat := match s with Some l => length l | None => 0 end.

Lemma skip_delims_length s : (length (skip_delims s) <= length s)%nat.
Proof. induction s as [|c s IH]; [done|]. cbn. case_if; [lia|done]. Qed.

Lemma strtok_r_shorter s t r : strtok_r s = (Some t, r) -> t <> [] /\ (rest_size r + length t <= rest_size s)%nat.
Proof.
  unfold strtok_r. destruct s as [s|]; [|done]. pose proof (skip_delims_length s) as Hl.
  destruct (skip_delims s) as [|c s'] eqn:E; [done|].
  destruct (strsep (c :: s') ATTRIBUTE_STRING_DELIM) as [tok rest] eqn:Es.
  intros [= <- <-]. pose proof (strsep_split _ _ _ _ Es) as [Hn Hs].
  split.
  - intros ->. assert (Hc : c = ATTRIBUTE_STRING_DELIM) by (destruct rest; cbn in Hs; congruence).
    clear -E Hc. subst c. induction s as [|x s IH]; [done|]. cbn in E.
    destruct (x =? ATTRIBUTE_STRING_DELIM) eqn:Ex; [by apply IH|]. injection E as -> _.
    by rewrite Z.eqb_refl in Ex.
  - destruct rest as [r|]; rewrite Hs in Hl; cbn [rest_size]; [rewrite length_app in Hl; cbn in Hl|]; lia.
Qed.

Lemma copy_string_fits n src : 0 <= n -> exists t, copy_string METADATA_SIZE (Z.min n (METADATA_SIZE - 1)) src = Some t.
Proof. intros Hn. unfold copy_string. rewrite (proj2 (Z.ltb_lt _ _)) by lia. by eexists. Qed.

(** [parse_metadata] never writes outside the arrays of its callers. *)
Lemma parse_metadata_fits s :
  exists status a v r, parse_metadata s METADATA_SIZE METADATA_SIZE = Some (status, a, v, r) /\
    (status = METADATA_PARSING_DONE \/ status = METADATA_PARSING_CONTINUE /\ (rest_size r < rest_size s)%nat).
Proof.
  unfold parse_metadata. destruct (strtok_r s) as [[t|] r] eqn:E.
  2: { eexists _, _, _, _. split; [done|]. by left. }
  destruct (strtok_r_shorter _ _ _ E) as [Hne Hl].
  assert (rest_size r < rest_size s)%nat by (destruct t; [done|cbn in Hl; lia]).
  destruct (strchr t ATTRIBUTE_VALUE_DELIM) as [delim|] eqn:Ed.
  2: { eexists _, _, _, _. split; [done|]. by right. }
  assert (0 <= zlen t - zlen delim).
  { clear -Ed. revert Ed. induction t as [|x t IH]; [done|]. cbn. case_if.
    - intros [= <-]. lia.
    - intros Ed. apply IH in Ed. rewrite zlen_cons. lia. }
  destruct (copy_string_fits (zlen t - zlen delim) t) as [a ->]; [lia|]. cbn [mbind option_bind].
  destruct (copy_string_fits (u32 (zlen t - zlen a - 1)) (drop 1 delim)) as [v ->].
  { unfold u32. apply Z.mod_pos_bound. lia. }
  cbn [mbind option_bind]. eexists _, _, _, _. split; [done|]. by right.
Qed.

Lemma parse_loop_total fuel s m :
  (rest_size s < fuel)%nat -> exists m', parse_loop fuel s m = Some (METADATA_PARSING_DONE, m').
Proof.
  revert s m. induction fuel as [|fuel IH]; intros s m Hf; [lia|]. cbn [parse_loop].
  destruct (parse_metadata_fits s) as (st & a & v & r & -> & [->|[-> Hr]]); cbn [mbind option_bind].
  - by eexists.
  - rewrite Z.eqb_refl. apply IH. lia.
Qed.

(** * Theorems *)

(** The parser on well-formed data: on any sequence of attributes (known ones, unknown
    ones, without value, repeated) and words, each followed by one or more delimiters and
    possibly preceded by some, all four parse functions return 0 and the struct in which
    the last non-empty [hint_id] and [state] are stored as integers and everything else is
    as it was. *)
Theorem metadata_parsed (items : list (item * nat)) (n : nat) (m : metadata_t) :
  Forall (fun x => item_ok x.1) items ->
  let text := repeat ATTRIBUTE_STRING_DELIM n ++ print_items items in
  let result := Some (0, fold_left item_meaning (map fst items) m) in
  parse_video_encode_metadata text m = result /\ parse_video_decode_metadata text m = result /\
  parse_audio_metadata text m = result /\ parse_cam_preview_metadata text m = result.
Proof.
  intros Hok text result.
  assert (H : parse_loop (S (length text)) (Some text) m
              = Some (METADATA_PARSING_DONE, fold_left item_meaning (map fst items) m)).
  { apply parse_loop_items; [done|]. unfold text, print_items. rewrite length_app.
    enough (length items <= length (concat (map (fun '(i, n) =>
      print_item i ++ repeat ATTRIBUTE_STRING_DELIM (S n)) items)))%nat by lia.
    clear. induction items as [|[i k] items IH]; [done|]. cbn [map concat length].
    rewrite !length_app, repeat_length. lia. }
  unfold parse_video_encode_metadata, parse_video_decode_metadata, parse_audio_metadata,
    parse_cam_preview_metadata. by rewrite H.
Qed.

Lemma metadata_parsed_witness :
  parse_video_encode_metadata (bytes_of ";hint_id=2560;;colour;state=7;state=1;state=;") (Metadata 0 0)
  = Some (0, Metadata 2560 1).
Proof.
  pose proof (metadata_parsed
    [(Attr (bytes_of "hint_id") (bytes_of "2560"), 1%nat); (Word (bytes_of "colour"), 0%nat);
     (Attr (bytes_of "state") (bytes_of "7"), 0%nat); (Attr (bytes_of "state") (bytes_of "1"), 0%nat);
     (Attr (bytes_of "state") [], 0%nat)] 1 (Metadata 0 0)) as H.
  destruct H as (H & _); [|exact H]. decide_closed.
Defined.

(** On every string whatsoever the parse functions return 0 after a number of rounds below
    the length of the string, and no attribute or value, however long, is written outside
    the arrays of 1024 characters. *)
Theorem metadata_total (text : list Z) (m : metadata_t) :
  exists m', parse_video_encode_metadata text m = Some (0, m') /\
    parse_video_decode_metadata text m = Some (0, m') /\ parse_audio_metadata text m = Some (0, m') /\
    parse_cam_preview_metadata text m = Some (0, m').
Proof.
  destruct (parse_loop_total (S (length text)) (Some text) m) as [m' H]; [cbn; lia|].
  exists m'. unfold parse_video_encode_metadata, parse_video_decode_metadata, parse_audio_metadata,
    parse_cam_preview_metadata. by rewrite H.
Qed.

(** [hint_compare] is 0 for an equivalence on hints that live at distinct addresses. *)
Lemma hint_compare_refl h : hint_compare h h = 0.
Proof. destruct h as [[a id]|]; [|done]. cbn. by rewrite Z.eqb_refl. Qed.

Lemma hint_compare_sym h h' : hint_compare h h' = hint_compare h' h.
Proof. destruct h as [[a id]|], h' as [[b id']|]; try done. cbn. by rewrite (Z.eqb_sym a), (Z.eqb_sym id). Qed.

(** What a property value is read as at the next start. *)
Section reboot.
Context (property_get_int32 : option (list Z) -> Z -> Z).
Hypothesis get_int32_one : forall d, property_get_int32 (Some (bytes_of "1")) d = 1.
Hypothesis get_int32_zero : forall d, property_get_int32 (Some (bytes_of "0")) d = 0.

(** The gesture survives a restart: when [set_feature] could write the control file and
    the property, the control file then holds the code of the requested state, and after
    a restart, whatever the file held then, loading the library writes the same code
    again; when the control file could not be written, the property keeps its value, so
    that a state that never worked is not restored; other features and all hints change
    nothing. *)
Theorem taptowake_survives_reboot (k k' : Calls) (enabled : Z) (s : Power) (old : option (list Z))
    (hint : power_hint_t) (on : Z) :
  let code := if enabled =? 0 then DOUBLE_TAP_TO_WAKE_DISABLE_VALUE else DOUBLE_TAP_TO_WAKE_ENABLE_VALUE in
  let s' := set_feature k POWER_FEATURE_DOUBLE_TAP_TO_WAKE enabled s in
  let booted := _taptowake_onload property_get_int32 k' (mkPower old (stored s')) in
  (open_ret k < 0 \/ write_ret k < 0 -> s' = s) /\
  (0 <= open_ret k -> 8 <= write_ret k -> gesture s' = Some code) /\
  (0 <= open_ret k -> 0 <= write_ret k -> 0 <= set_ret k -> 0 <= open_ret k' -> 8 <= write_ret k' ->
   gesture booted = Some code) /\
  set_feature k OtherFeature enabled s = s /\ power_hint hint s = s /\ set_interactive on s = s.
Proof.
  intros code s' booted. unfold s', set_feature, set_device_specific_feature, _taptowake_set_state,
    _taptowake_write_control_file, _taptowake_write_preference.
  split; [|split; [|split; [|split_and!; [done|by destruct hint|done]]]].
  - intros Hf. destruct (open_ret k <? 0) eqn:Eo; reflect_bools; [done|].
    destruct (write_ret k <? 0) eqn:Ew; reflect_bools; [|lia].
    by rewrite (proj2 (Z.eqb_neq (write_ret k) 0)) by lia.
  - intros Ho Hw. rewrite (proj2 (Z.ltb_ge (open_ret k) 0)), (proj2 (Z.ltb_ge (write_ret k) 0)) by lia.
    rewrite Z.eqb_refl.
    unfold code. destruct (enabled =? 0), (set_ret k <? 0); cbn [negb gesture];
      (rewrite ztake_all; [done|vm_compute zlen; lia]).
  - intros Ho Hw Hs Ho' Hw'. unfold booted, _taptowake_onload, _taptowake_read_preference, s', set_feature,
      set_device_specific_feature, _taptowake_set_state, _taptowake_write_control_file,
      _taptowake_write_preference. cbn [stored].
    rewrite (proj2 (Z.ltb_ge (open_ret k) 0)), (proj2 (Z.ltb_ge (write_ret k) 0)),
      (proj2 (Z.ltb_ge (set_ret k) 0)), (proj2 (Z.ltb_ge (open_ret k') 0)),
      (proj2 (Z.ltb_ge (write_ret k') 0)) by lia.
    rewrite Z.eqb_refl. cbn [stored snd gesture].
    unfold code. destruct (enabled =? 0); cbn [negb]; rewrite ?get_int32_zero, ?get_int32_one; cbn [Z.eqb negb];
      (rewrite ztake_all; [done|vm_compute zlen; lia]).
Qed.
End reboot.

Lemma taptowake_survives_reboot_witness :
  gesture (_taptowake_onload parse_int32 (mkCalls 5 8 0)
    (mkPower None (stored (set_feature (mkCalls 3 8 0) POWER_FEATURE_DOUBLE_TAP_TO_WAKE 1 (mkPower None None)))))
  = Some (bytes_of "00020001").
Proof.
  apply (taptowake_survives_reboot parse_int32 (fun _ => eq_refl) (fun _ => eq_refl) (mkCalls 3 8 0)
           (mkCalls 5 8 0) 1 (mkPower None None) None OtherHint 0); cbn; lia.
Defined.
