(* ===== verification/CFloat.v ===== *)
(** Floating-point numbers as src/mtk/gps/hal/gps_mtk_aosp.c uses them: [double] and
    [float] are the IEEE formats of the Standard Library's [SpecFloat] (precision 53 and
    24), the operators round to nearest even, and [strtod] returns the double nearest to
    the number written, as the C library of the device does.

    A conversion to [int] that does not fit saturates and a NaN becomes 0, which is what
    the conversion instruction of the target does. *)
From Stdlib Require Import Floats.SpecFloat.
From S2P Require Import Prelude CString.

Definition double := spec_float.
Definition float := spec_float.

Definition dprec : Z := 53.
Definition demax : Z := 1024.
Definition fprec : Z := 24.
Definition femax : Z := 128.

(** * Operators *)

Definition dadd (x y : double) : double := SFadd dprec demax x y.
Definition dsub (x y : double) : double := SFsub dprec demax x y.
Definition dmul (x y : double) : double := SFmul dprec demax x y.
Definition ddiv (x y : double) : double := SFdiv dprec demax x y.
Definition dneg (x : double) : double := SFopp x.

Definition double_of_int (n : Z) : double := binary_normalize dprec demax n 0 false.
Definition float_of_int (n : Z) : float := binary_normalize fprec femax n 0 false.

Definition signed (s : bool) (m : Z) : Z := if s then - m else m.

(** The conversion a [double] undergoes when it is stored in a [float]. *)
Definition float_of_double (x : double) : float :=
  match x with
  | S754_finite s m e => binary_normalize fprec femax (signed s (Z.pos m)) e s
  | _ => x
  end.

Definition dfloor (x : double) : double :=
  match x with
  | S754_finite s m e =>
      if 0 <=? e then x else double_of_int (signed s (Z.pos m) / 2 ^ (- e))
  | _ => x
  end.

Definition saturate_int (n : Z) : Z := Z.max (-2147483648) (Z.min 2147483647 n).

(** [(int) x]. *)
Definition int_of_double (x : double) : Z :=
  match x with
  | S754_zero _ | S754_nan => 0
  | S754_infinity s => if s then -2147483648 else 2147483647
  | S754_finite s m e =>
      saturate_int (if 0 <=? e then signed s (Z.pos m) * 2 ^ e
                    else Z.quot (signed s (Z.pos m)) (2 ^ (- e)))
  end.

(** * [strtod] *)

(** The digits of [s] in a base, with their count, and the rest. *)
Fixpoint scan_mantissa (base acc cnt : Z) (s : list Z) : Z * Z * list Z :=
  match s with
  | c :: s' =>
      match digit_of base c with
      | Some d => scan_mantissa base (acc * base + d) (cnt + 1) s'
      | None => (acc, cnt, s)
      end
  | [] => (acc, cnt, s)
  end.

(** Digits with an optional point: the integer they form, the number of digits, the
    number of digits after the point, the rest. *)
Definition scan_point (base : Z) (s : list Z) : Z * Z * Z * list Z :=
  let '(m, n, s1) := scan_mantissa base 0 0 s in
  match s1 with
  | 46 :: s2 =>
      let '(m', n', s3) := scan_mantissa base m 0 s2 in (m', n + n', n', s3)
  | _ => (m, n, 0, s1)
  end.

(** An exponent introduced by [mark] (lower case), or 0. *)
Definition scan_exponent (mark : Z) (s : list Z) : Z :=
  match s with
  | c :: s1 =>
      if (c =? mark) || (c =? mark - 32) then
        let '(neg, s2) := scan_sign s1 in
        let '(e, n, _) := scan_mantissa 10 0 0 s2 in
        if n =? 0 then 0 else signed neg e
      else 0
  | [] => 0
  end.

(** The exponent beyond which fifteen digits overflow or vanish in every case. *)
Definition EXP_LIMIT : Z := 5000.

(** The double nearest to [m * 10 ^ e]. *)
Definition double_of_decimal (s : bool) (m e : Z) : double :=
  match m with
  | Z.pos p =>
      if EXP_LIMIT <? e then S754_infinity s
      else if e <? - EXP_LIMIT then S754_zero s
      else if 0 <=? e then binary_normalize dprec demax (signed s (m * 10 ^ e)) 0 s
      else ddiv (S754_finite s p 0) (S754_finite false (Z.to_pos (10 ^ (- e))) 0)
  | _ => S754_zero s
  end.

(** The double nearest to [m * 2 ^ e]. *)
Definition double_of_binary (s : bool) (m e : Z) : double :=
  match m with
  | Z.pos p =>
      if EXP_LIMIT <? e then S754_infinity s
      else if e <? - EXP_LIMIT then S754_zero s
      else binary_normalize dprec demax (signed s m) e s
  | _ => S754_zero s
  end.

Definition lower (c : Z) : Z := if (65 <=? c) && (c <=? 90) then c + 32 else c.

Definition strtod (str : list Z) : double :=
  let '(neg, s) := scan_sign (skip_spaces (cstr str)) in
  if strStartsWith (map lower s) (bytes_of "inf") then S754_infinity neg
  else if strStartsWith (map lower s) (bytes_of "nan") then S754_nan
  else
    let '(hm, hn, hf, hrest) := scan_point 16 (drop 2 s) in
    if strStartsWith (map lower s) (bytes_of "0x") && (0 <? hn) then
      double_of_binary neg hm (scan_exponent 112 hrest - 4 * hf)
    else
      let '(m, n, f, rest) := scan_point 10 s in
      if n =? 0 then S754_zero false
      else double_of_decimal neg m (scan_exponent 101 rest - f).

Example strtod_half : strtod (bytes_of "0.5") = S754_finite false (2 ^ 52) (-53).
Proof. vm_compute. reflexivity. Qed.

Example strtod_lat : strtod (bytes_of "4807.038") = S754_finite false 5285394176161087 (-40).
Proof. vm_compute. reflexivity. Qed.

Example strtod_none : strtod (bytes_of "-x") = S754_zero false.
Proof. vm_compute. reflexivity. Qed.

(** What is stored in an [int] is one, whatever the text was. *)
Lemma int_of_double_range x : is_int (int_of_double x).
Proof.
  unfold is_int, int_of_double, saturate_int.
  destruct x as [|[]| |s m e]; [lia..|]. case_if; lia.
Qed.

(** A text without a number is zero. *)
Lemma strtod_empty : strtod [] = S754_zero false.
Proof. vm_compute. reflexivity. Qed.
