(* ===== verification/Nmea.v ===== *)
(** The NMEA tokenizer and the numbers of a sentence (src/mtk/gps/hal/gps_mtk_aosp.c).

    A pointer into the sentence is the memory from it on, a list; [Token.p] and
    [Token.end] are such a suffix and the distance of [end] from [p].  So a read through
    [p] past [end], which the parser does, reads what the program reads: the separator, or
    an older sentence.

    [nmea_fields_read] shows that the fields of a sentence are read back. *)
From S2P Require Import Prelude CString CFloat.

Definition MAX_NMEA_TOKENS : Z := 24.

Record Token := mkToken {
  tok_p : list Z;
  tok_len : Z
}.

(** The characters of a token. *)
Definition tok_text (t : Token) : list Z := ztake (tok_len t) (tok_p t).

(** The empty string a missing token points to. *)
Definition dummy : Token := mkToken [0] 0.

(** [memchr(p, c, n)] over the [n] bytes given, as a distance. *)
Fixpoint memchr (s : list Z) (c : Z) : option Z :=
  match s with
  | [] => None
  | x :: s' => if x =? c then Some 0 else Z.succ <$> memchr s' c
  end.

(** The loop over the fields, [n] bytes left; an iteration consumes at least one byte. *)
Fixpoint tokenize (fuel : nat) (count : Z) (p : list Z) (n : Z) : list Token :=
  match fuel with
  | O => []
  | S f =>
      if n <=? 0 then []
      else
        let q := default n (memchr (ztake n p) 44) in
        let tail count' := if q <? n then tokenize f count' (zdrop (q + 1) p) (n - q - 1)
                           else [] in
        if count <? MAX_NMEA_TOKENS then mkToken p q :: tail (count + 1) else tail count
  end.

(** The initial ['$'] is optional. *)
Definition skip_dollar (p : list Z) (n : Z) : list Z * Z :=
  if (0 <? n) && (byte_at p 0 =? 36) then (zdrop 1 p, n - 1) else (p, n).

(** The length without the newline, and without the carriage return before it. *)
Definition drop_newline (p : list Z) (n : Z) : Z :=
  if (0 <? n) && (byte_at p (n - 1) =? 10)
  then if (0 <? n - 1) && (byte_at p (n - 2) =? 13) then n - 2 else n - 1
  else n.

(** The length without the checksum. *)
Definition drop_checksum (p : list Z) (n : Z) : Z :=
  if (3 <=? n) && (byte_at p (n - 3) =? 42) then n - 3 else n.

(** [nmea_tokenizer_init(t, p, p + n)]: the tokens. *)
Definition nmea_tokenizer_init (p : list Z) (n : Z) : list Token :=
  let '(p1, n1) := skip_dollar p n in
  let n2 := drop_checksum p1 (drop_newline p1 n1) in
  tokenize (Z.to_nat n2) 0 p1 n2.

Definition nmea_tokenizer_get (t : list Token) (index : Z) : Token :=
  if (index <? 0) || (zlen t <=? index) then dummy
  else nth (Z.to_nat index) t dummy.

(** The digits of [str2int]; [None] is its [Fail] label. *)
Fixpoint str2int_loop (s : list Z) (result : Z) : option Z :=
  match s with
  | [] => Some result
  | c :: s' =>
      if 10 <=? u32 (c - 48) then None
      else str2int_loop s' (int_of (result * 10 + (c - 48)))
  end.

(** [str2int(p, p + len)]. *)
Definition str2int (p : list Z) (len : Z) : Z :=
  let '(sign, p1, len1) :=
    if byte_at p 0 =? 45 then (-1, zdrop 1 p, len - 1) else (1, p, len) in
  match str2int_loop (ztake len1 p1) 0 with
  | Some result => int_of (sign * result)
  | None => -1
  end.

(** [str2float(p, p + len)]. *)
Definition str2float (p : list Z) (len : Z) : double :=
  if 16 <=? len then double_of_int 0 else strtod (ztake len p).

Definition tok_int (t : Token) : Z := str2int (tok_p t) (tok_len t).
Definition tok_float (t : Token) : double := str2float (tok_p t) (tok_len t).

(** * Reading the tokens of a sentence *)

(** A sentence as the receiver writes it: fields separated by commas. *)
Fixpoint commas (fs : list (list Z)) : list Z :=
  match fs with
  | [] => []
  | [f] => f
  | f :: fs' => f ++ 44 :: commas fs'
  end.

Definition sentence (fs : list (list Z)) (ck : list Z) : list Z :=
  36 :: commas fs ++ 42 :: ck ++ [13; 10].

Definition is_field (f : list Z) : Prop := (44 ∉ f).

Lemma memchr_app f c s : (c ∉ f) -> memchr (f ++ c :: s) c = Some (zlen f).
Proof.
  induction f as [|x f IH]; intros Hn; cbn.
  - by rewrite Z.eqb_refl.
  - apply not_elem_of_cons in Hn as [Hx Hf]. rewrite IH by done.
    rewrite (proj2 (Z.eqb_neq x c)) by congruence. cbn. by rewrite zlen_cons, Z.add_comm.
Qed.

Lemma memchr_none f c : (c ∉ f) -> memchr f c = None.
Proof.
  induction f as [|x f IH]; intros Hn; cbn; [done|].
  apply not_elem_of_cons in Hn as [Hx Hf].
  rewrite (proj2 (Z.eqb_neq x c)) by congruence. by rewrite IH.
Qed.

Lemma memchr_bound s c i : memchr s c = Some i -> 0 <= i < zlen s.
Proof.
  revert i; induction s as [|x s IH]; intros i; cbn; [done|]. rewrite zlen_cons.
  case_if; intros H; simplify_eq.
  - pose proof (zlen_nonneg s); lia.
  - apply fmap_Some in H as (j & Hj & ->). apply IH in Hj. lia.
Qed.

(** The texts of the tokens of a run of fields: a last field that is empty leaves none,
    and a field beyond the 24th is not recorded. *)
Fixpoint drop_last_empty (fs : list (list Z)) : list (list Z) :=
  match fs with
  | [] => []
  | [[]] => []
  | f :: fs' => f :: drop_last_empty fs'
  end.

(** A token whose text is the field [f]; the character after it is no sign. *)
Definition is_tok (f : list Z) (t : Token) : Prop :=
  tok_len t = zlen f /\ exists c r, tok_p t = f ++ c :: r /\ c <> 45.

Lemma is_tok_text f t : is_tok f t -> tok_text t = f.
Proof.
  intros (Hl & c & r & Hp & _). unfold tok_text. rewrite Hl, Hp. apply ztake_app_length.
Qed.

Lemma dummy_is_tok : is_tok [] dummy.
Proof. split; [done|]. by exists 0, []. Qed.

Lemma tokenize_nil fuel count p n : n <= 0 -> tokenize fuel count p n = [].
Proof. destruct fuel; cbn; [done|]. intros. by rewrite (proj2 (Z.leb_le n 0)). Qed.

(** One field, followed by a comma, is one token and the loop goes on behind it. *)
Lemma tokenize_field fuel count f s n :
  is_field f -> 0 <= n - zlen f - 1 ->
  tokenize (S fuel) count (f ++ 44 :: s) n =
  if count <? MAX_NMEA_TOKENS
  then mkToken (f ++ 44 :: s) (zlen f) :: tokenize fuel (count + 1) s (n - zlen f - 1)
  else tokenize fuel count s (n - zlen f - 1).
Proof.
  intros Hf Hn. pose proof (zlen_nonneg f). cbn [tokenize].
  rewrite (proj2 (Z.leb_gt n 0)) by lia.
  assert (memchr (ztake n (f ++ 44 :: s)) 44 = Some (zlen f)) as ->.
  { replace (ztake n (f ++ 44 :: s)) with (f ++ 44 :: ztake (n - zlen f - 1) s).
    - by apply memchr_app.
    - unfold ztake, zlen in *. rewrite take_app. f_equal.
      + by rewrite take_ge by lia.
      + replace (Z.to_nat n - length f)%nat with (S (Z.to_nat (n - Z.of_nat (length f) - 1))) by lia.
        done. }
  unfold from_option, id. rewrite (proj2 (Z.ltb_lt (zlen f) n)) by lia.
  assert (zdrop (zlen f + 1) (f ++ 44 :: s) = s) as ->.
  { change (f ++ 44 :: s) with (f ++ [44] ++ s). rewrite app_assoc.
    replace (zlen f + 1) with (zlen (f ++ [44])) by (by rewrite zlen_app).
    apply zdrop_app_length. }
  done.
Qed.

(** The last field ends where the text does. *)
Lemma tokenize_last fuel count f s :
  is_field f -> f <> [] ->
  tokenize (S fuel) count (f ++ s) (zlen f) =
  if count <? MAX_NMEA_TOKENS then [mkToken (f ++ s) (zlen f)] else [].
Proof.
  intros Hf Hne. cbn [tokenize].
  assert (0 < zlen f) by (destruct f; [done|rewrite zlen_cons; pose proof (zlen_nonneg f); lia]).
  rewrite (proj2 (Z.leb_gt (zlen f) 0)) by lia. rewrite ztake_app_length, memchr_none by done.
  unfold from_option, id. by rewrite Z.ltb_irrefl.
Qed.

Lemma commas_cons f g fs : commas (f :: g :: fs) = f ++ 44 :: commas (g :: fs).
Proof. done. Qed.

Lemma drop_last_empty_cons f g fs :
  drop_last_empty (f :: g :: fs) = f :: drop_last_empty (g :: fs).
Proof. by destruct f. Qed.

(** Once 24 tokens are recorded no other is. *)
Lemma tokenize_full fuel count p n : MAX_NMEA_TOKENS <= count -> tokenize fuel count p n = [].
Proof.
  intros Hc. revert p n. induction fuel as [|fuel IH]; intros p n; cbn [tokenize]; [done|].
  case_if; [done|]. rewrite (proj2 (Z.ltb_ge count _)) by done. by case_if.
Qed.

(** The tokens of a run of fields. *)
Lemma tokenize_fields fs fuel count c r :
  Forall is_field fs -> c <> 45 -> zlen (commas fs) <= Z.of_nat fuel -> 0 <= count ->
  Forall2 is_tok (ztake (MAX_NMEA_TOKENS - count) (drop_last_empty fs))
          (tokenize fuel count (commas fs ++ c :: r) (zlen (commas fs))).
Proof.
  intros HF Hc. revert fuel count.
  induction fs as [|f [|g fs] IH]; intros fuel count Hfuel Hcount.
  - rewrite tokenize_nil by done. unfold ztake; cbn. rewrite take_nil. constructor.
  - cbn [commas] in *. destruct f as [|x f].
    { rewrite tokenize_nil by done. unfold ztake; cbn. rewrite take_nil. constructor. }
    destruct fuel as [|fuel]; [rewrite zlen_cons in Hfuel; pose proof (zlen_nonneg f); lia|].
    rewrite tokenize_last by (by inversion HF). cbn [drop_last_empty]. case_if.
    + replace (ztake _ _) with [x :: f]
        by (symmetry; apply ztake_all; change (zlen [x :: f]) with 1; lia).
      constructor; [|constructor]. split; [done|]. by exists c, r.
    + unfold ztake. replace (Z.to_nat _) with 0%nat by lia.
      constructor.
  - rewrite commas_cons, drop_last_empty_cons in *. apply Forall_cons in HF as [Hf HF].
    rewrite zlen_app, zlen_cons in *.
    pose proof (zlen_nonneg f). pose proof (zlen_nonneg (commas (g :: fs))).
    destruct fuel as [|fuel]; [lia|].
    rewrite <- app_assoc, <- app_comm_cons, tokenize_field by (done || lia).
    replace (zlen f + (1 + zlen (commas (g :: fs))) - zlen f - 1)
      with (zlen (commas (g :: fs))) by lia.
    case_if.
    + replace (ztake (MAX_NMEA_TOKENS - count) (f :: drop_last_empty (g :: fs)))
        with (f :: ztake (MAX_NMEA_TOKENS - (count + 1)) (drop_last_empty (g :: fs))).
      2: { unfold ztake. replace (Z.to_nat (MAX_NMEA_TOKENS - count))
             with (S (Z.to_nat (MAX_NMEA_TOKENS - (count + 1)))) by lia. done. }
      constructor; [|apply IH; (done || lia)].
      split; [done|]. by eexists _, _.
    + rewrite tokenize_full by lia. unfold ztake. replace (Z.to_nat _) with 0%nat by lia.
      constructor.
Qed.

Lemma byte_at_at l x k i : i = zlen l -> byte_at (l ++ x :: k) i = x.
Proof. intros ->. apply byte_at_app_length. Qed.

(** What is cut off a sentence: the dollar, the newline and the checksum. *)
Lemma tokenizer_init_sentence fs ck junk :
  zlen ck = 2 ->
  nmea_tokenizer_init (sentence fs ck ++ junk) (zlen (sentence fs ck)) =
  tokenize (Z.to_nat (zlen (commas fs))) 0
           (commas fs ++ 42 :: ck ++ [13; 10] ++ junk) (zlen (commas fs)).
Proof.
  intros Hck. unfold nmea_tokenizer_init, sentence. set (s := commas fs).
  pose proof (zlen_nonneg s).
  assert (zlen (36 :: s ++ 42 :: ck ++ [13; 10]) = zlen s + 6) as ->.
  { rewrite zlen_cons, zlen_app, zlen_cons, zlen_app, Hck. change (zlen [13; 10]) with 2. lia. }
  unfold skip_dollar. rewrite (proj2 (Z.ltb_lt 0 _)) by lia. cbn [andb].
  change (byte_at ((36 :: s ++ 42 :: ck ++ [13; 10]) ++ junk) 0) with 36. cbn [Z.eqb Pos.eqb].
  change (zdrop 1 ((36 :: s ++ 42 :: ck ++ [13; 10]) ++ junk))
    with ((s ++ 42 :: ck ++ [13; 10]) ++ junk).
  replace (zlen s + 6 - 1) with (zlen s + 5) by lia.
  assert (zlen (s ++ 42 :: ck) = zlen s + 3) as HL by (rewrite zlen_app, zlen_cons; lia).
  assert (((s ++ 42 :: ck ++ [13; 10]) ++ junk) = (s ++ 42 :: ck) ++ 13 :: 10 :: junk) as ->.
  { by rewrite <- !app_assoc; cbn; rewrite <- !app_assoc. }
  assert (drop_newline ((s ++ 42 :: ck) ++ 13 :: 10 :: junk) (zlen s + 5) = zlen s + 3) as ->.
  { unfold drop_newline. rewrite (proj2 (Z.ltb_lt 0 _)) by lia.
    replace (byte_at _ (zlen s + 5 - 1)) with 10
      by (change (13 :: 10 :: junk) with ([13] ++ 10 :: junk); rewrite app_assoc;
          symmetry; apply byte_at_at; rewrite zlen_app; change (zlen [13]) with 1; lia).
    rewrite (byte_at_at _ 13) by lia. cbn [andb Z.eqb Pos.eqb].
    rewrite (proj2 (Z.ltb_lt 0 _)) by lia. cbn [andb]. lia. }
  assert (drop_checksum ((s ++ 42 :: ck) ++ 13 :: 10 :: junk) (zlen s + 3) = zlen s) as ->.
  { unfold drop_checksum. rewrite (proj2 (Z.leb_le 3 _)) by lia.
    rewrite <- app_assoc, <- app_comm_cons, byte_at_at by lia. cbn. lia. }
  by rewrite <- app_assoc.
Qed.

Lemma sentence_tokens fs ck junk :
  Forall is_field fs -> zlen ck = 2 ->
  Forall2 is_tok (ztake MAX_NMEA_TOKENS (drop_last_empty fs))
          (nmea_tokenizer_init (sentence fs ck ++ junk) (zlen (sentence fs ck))).
Proof.
  intros HF Hck. rewrite tokenizer_init_sentence by done. pose proof (zlen_nonneg (commas fs)).
  apply (tokenize_fields fs _ 0); (done || lia).
Qed.

Lemma nth_drop_last_empty fs i : nth i (drop_last_empty fs) [] = nth i fs [].
Proof.
  revert i. induction fs as [|f [|g fs] IH]; intros i; [done| |].
  - by destruct f; destruct i as [|[]].
  - rewrite drop_last_empty_cons. destruct i as [|i]; [done|]. apply IH.
Qed.

(** The token a client asks for is the field of that number. *)
Lemma sentence_field fs ck junk i :
  Forall is_field fs -> zlen ck = 2 -> 0 <= i < MAX_NMEA_TOKENS ->
  is_tok (nth (Z.to_nat i) fs [])
    (nmea_tokenizer_get
       (nmea_tokenizer_init (sentence fs ck ++ junk) (zlen (sentence fs ck))) i).
Proof.
  intros HF Hck Hi. pose proof (sentence_tokens fs ck junk HF Hck) as H2.
  set (ts := nmea_tokenizer_init _ _) in *. rewrite <- nth_drop_last_empty.
  set (gs := drop_last_empty fs) in *.
  assert (nth (Z.to_nat i) gs [] = nth (Z.to_nat i) (ztake MAX_NMEA_TOKENS gs) []) as ->.
  { rewrite <- (firstn_skipn 24 gs) at 1. change (ztake MAX_NMEA_TOKENS gs) with (take 24 gs).
    destruct (decide (Z.to_nat i < length (take 24 gs))%nat) as [Hl|Hl].
    - by rewrite app_nth1.
    - rewrite length_take in Hl. rewrite drop_ge, app_nil_r by (unfold MAX_NMEA_TOKENS in Hi; lia).
      done. }
  unfold nmea_tokenizer_get. rewrite (proj2 (Z.ltb_ge i 0)) by lia. cbn [orb].
  pose proof (Forall2_length _ _ _ H2) as HL. case_if.
  - rewrite nth_overflow by (unfold zlen in *; lia). apply dummy_is_tok.
  - destruct (lookup_lt_is_Some_2 ts (Z.to_nat i)) as [t Ht]; [unfold zlen in *; lia|].
    destruct (Forall2_lookup_r _ _ _ _ _ H2 Ht) as (f & Hf & Hft).
    rewrite (nth_lookup_Some _ _ _ _ Ht), (nth_lookup_Some _ _ _ _ Hf). done.
Qed.

(** The tokenizer reads back the fields of a sentence: of [$f0,f1,...*ck\r\n], whatever
    the buffer holds behind it, token [i] has the text of field [i] for the first 24
    fields, and every other index (a missing field, a negative one) gives the empty
    string. *)
Theorem nmea_fields_read fs ck junk i :
  Forall is_field fs -> zlen ck = 2 ->
  tok_text (nmea_tokenizer_get
              (nmea_tokenizer_init (sentence fs ck ++ junk) (zlen (sentence fs ck))) i) =
  if (0 <=? i) && (i <? MAX_NMEA_TOKENS) then nth (Z.to_nat i) fs [] else [].
Proof.
  intros HF Hck. case_if.
  - apply is_tok_text, sentence_field; (done || lia).
  - unfold nmea_tokenizer_get. case_if; [done|].
    pose proof (Forall2_length _ _ _ (sentence_tokens fs ck junk HF Hck)) as HL.
    set (ts := nmea_tokenizer_init _ _) in *.
    assert (length ts <= 24)%nat.
    { rewrite <- HL. unfold ztake. rewrite length_take. apply Nat.le_min_l. }
    apply andb_false_iff in E. unfold zlen, MAX_NMEA_TOKENS in *. lia.
Qed.

Lemma nmea_fields_read_witness :
  tok_text (nmea_tokenizer_get
     (nmea_tokenizer_init (bytes_of "$GPGSV,2,,8*7A" ++ [13; 10]) 16) 3) = bytes_of "8".
Proof.
  exact (nmea_fields_read (map bytes_of ["GPGSV"; "2"; ""; "8"]) (bytes_of "7A") [] 3
           ltac:(apply (bool_decide_unpack _); vm_compute; exact I) eq_refl).
Defined.

(** * Numbers in fields *)

Definition is_digit (c : Z) : Prop := 48 <= c <= 57.

(** The number a string of digits denotes. *)
Fixpoint dec_value (acc : Z) (s : list Z) : Z :=
  match s with [] => acc | c :: s' => dec_value (acc * 10 + (c - 48)) s' end.

Lemma dec_value_mono s acc : Forall is_digit s -> 0 <= acc -> acc <= dec_value acc s.
Proof.
  intros HF. revert acc. induction HF as [|c s Hc _ IH]; intros acc Ha; cbn; [lia|].
  unfold is_digit in Hc. specialize (IH (acc * 10 + (c - 48))). lia.
Qed.

Lemma str2int_loop_value s acc :
  Forall is_digit s -> 0 <= acc -> dec_value acc s <= 2147483647 ->
  str2int_loop s acc = Some (dec_value acc s).
Proof.
  intros HF. revert acc. induction HF as [|c s Hc HF IH]; intros acc Ha Hv; cbn; [done|].
  unfold is_digit in Hc. rewrite u32_id by lia. rewrite (proj2 (Z.leb_gt 10 _)) by lia.
  cbn in Hv. pose proof (dec_value_mono s (acc * 10 + (c - 48)) HF).
  rewrite int_of_id by (unfold is_int; lia). apply IH; lia.
Qed.

(** A field of digits that fits an [int] is read as its number. *)
Lemma str2int_value f c r :
  Forall is_digit f -> dec_value 0 f <= 2147483647 -> c <> 45 ->
  str2int (f ++ c :: r) (zlen f) = dec_value 0 f.
Proof.
  intros HF Hv Hc. unfold str2int.
  assert ((byte_at (f ++ c :: r) 0 =? 45) = false) as ->.
  { apply Z.eqb_neq. destruct HF as [|d s Hd _]; unfold is_digit in *; [done|].
    change (byte_at ((d :: s) ++ c :: r) 0) with d. lia. }
  rewrite ztake_app_length, str2int_loop_value by (done || lia).
  rewrite Z.mul_1_l. apply int_of_id. pose proof (dec_value_mono f 0 HF).
  unfold is_int. lia.
Qed.

Lemma tok_int_value f t :
  is_tok f t -> Forall is_digit f -> dec_value 0 f <= 2147483647 -> tok_int t = dec_value 0 f.
Proof.
  intros (Hl & c & r & Hp & Hc) HF Hv. unfold tok_int. rewrite Hl, Hp. by apply str2int_value.
Qed.

(** A decimal field is converted as the text it is, when it has at most 15 characters. *)
Lemma tok_float_value f t : is_tok f t -> zlen f < 16 -> tok_float t = strtod f.
Proof.
  intros (Hl & c & r & Hp & Hc) Hf. unfold tok_float, str2float. rewrite Hl, Hp.
  rewrite (proj2 (Z.leb_gt 16 _)) by lia. by rewrite ztake_app_length.
Qed.

Lemma is_tok_char f t c s : is_tok f t -> f = c :: s -> byte_at (tok_p t) 0 = c.
Proof. intros (_ & d & r & Hp & _) ->. by rewrite Hp. Qed.

(** [str2int] returns an [int] whatever it reads. *)
Lemma str2int_range p len : is_int (str2int p len).
Proof.
  unfold str2int. destruct (if byte_at p 0 =? 45 then _ else _) as [[sign p1] len1].
  destruct (str2int_loop _ _); [apply int_of_range|unfold is_int; lia].
Qed.

Lemma dec_value_app acc s t : dec_value acc (s ++ t) = dec_value (dec_value acc s) t.
Proof. revert acc. induction s as [|c s IH]; intros acc; cbn; [done|apply IH]. Qed.

Lemma dec_value_dec_fuel k n :
  0 <= n < 10 ^ Z.of_nat k -> (0 < k)%nat -> dec_value 0 (dec_fuel k n) = n.
Proof.
  revert n. induction k as [|k IH]; intros n Hn Hk; [lia|]. cbn [dec_fuel].
  case_if; [cbn; lia|]. rewrite Nat2Z.inj_succ, Z.pow_succ_r in Hn by lia.
  destruct k as [|k]; [cbn in Hn; lia|].
  rewrite dec_value_app, IH; [|split; [apply Z.div_pos; lia|apply Z.div_lt_upper_bound; lia]|lia].
  cbn [dec_value]. pose proof (Z.div_mod n 10). lia.
Qed.

(** A printed number is a field of digits that reads back. *)
Lemma dec_int_text n :
  0 <= n < 2147483648 -> Forall is_digit (dec n) /\ dec_value 0 (dec n) = n.
Proof.
  intros Hn. unfold dec. rewrite (proj2 (Z.ltb_ge n 0)) by lia. split.
  - apply dec_fuel_digits. lia.
  - apply dec_value_dec_fuel; cbn; lia.
Qed.
