(* ===== verification/Calendar.v ===== *)
(** The calendar behind [mktime], [gmtime_r] and [GpsToUtcTime] of
    src/mtk/gps/hal/gps_mtk_aosp.c.

    Dates are those of the Gregorian calendar and days count from 1970-01-01.  The
    device's time zone is an offset [gmtoff] in seconds that does not change with the
    date; [time_t] is 32 bits wide on the device and [mktime] answers -1 for a time that
    does not fit.

    [GpsToUtcTime] finds year, month and day by its own loops;
    [GpsToUtcTime_linear] shows that the result is linear in the GPS time. *)
From S2P Require Import Prelude CString.

Record tm := mkTm {
  tm_year : Z;    (* since 1900 *)
  tm_mon : Z;     (* since January *)
  tm_mday : Z;
  tm_hour : Z;
  tm_min : Z;
  tm_sec : Z
}.

(** * The Gregorian calendar *)

Definition is_leap (y : Z) : bool :=
  ((y mod 4 =? 0) && negb (y mod 100 =? 0)) || (y mod 400 =? 0).

Definition year_len (y : Z) : Z := if is_leap y then 366 else 365.

(** Days before the first of January of a year. *)
Definition days_before_year (y : Z) : Z :=
  365 * (y - 1970) + ((y - 1) / 4 - (y - 1) / 100 + (y - 1) / 400) - 477.

Definition month_starts : list Z := [0; 31; 59; 90; 120; 151; 181; 212; 243; 273; 304; 334].

(** Days before the first of a month (counted from 0) within its year. *)
Definition days_before_month (leap : bool) (m : Z) : Z :=
  byte_at month_starts m + (if leap && (2 <=? m) then 1 else 0).

(** A test that holds on a range, by evaluation. *)
Lemma range_forall (P : Z -> bool) n :
  forallb P (seqZ 0 n) = true -> forall d, 0 <= d < n -> P d = true.
Proof.
  rewrite forallb_forall. intros HF d Hd. apply HF, list_elem_of_In, elem_of_seqZ. lia.
Qed.

Lemma year_step y : days_before_year (y + 1) = days_before_year y + year_len y.
Proof.
  unfold days_before_year, year_len, is_leap. replace (y + 1 - 1) with y by lia.
  destruct (y mod 4 =? 0) eqn:E4; destruct (y mod 100 =? 0) eqn:E100;
    destruct (y mod 400 =? 0) eqn:E400; cbn; reflect_bools; Z.div_mod_to_equations; lia.
Qed.

(** * [mktime] and [gmtime] *)

(** The seconds of a broken-down time in UTC; fields out of range carry over. *)
Definition timegm (t : tm) : Z :=
  let y := 1900 + tm_year t + tm_mon t / 12 in
  (days_before_year y + days_before_month (is_leap y) (tm_mon t mod 12) + (tm_mday t - 1)) * 86400
  + tm_hour t * 3600 + tm_min t * 60 + tm_sec t.

Definition is_time_t (x : Z) : bool := (-2147483648 <=? x) && (x <=? 2147483647).

(** [mktime] in a zone [gmtoff] seconds east of Greenwich. *)
Definition mktime (gmtoff : Z) (t : tm) : Z :=
  let r := timegm t - gmtoff in if is_time_t r then r else -1.

(** The year a day falls in, from a year not after it: the year and the day in it. *)
Fixpoint year_of_day (fuel : nat) (y d : Z) : Z * Z :=
  match fuel with
  | O => (y, d)
  | S f => if d <? year_len y then (y, d) else year_of_day f (y + 1) (d - year_len y)
  end.

Fixpoint month_of_day (fuel : nat) (leap : bool) (m d : Z) : Z :=
  match fuel with
  | O => m
  | S f => if (m =? 11) || (d <? days_before_month leap (m + 1)) then m
           else month_of_day f leap (m + 1) d
  end.

(** [gmtime_r]: a [time_t] lies in the 140 years from 1901 on. *)
Definition gmtime (t : Z) : tm :=
  let days := t / 86400 in
  let s := t mod 86400 in
  let '(y, d) := year_of_day 140 1901 (days - days_before_year 1901) in
  let m := month_of_day 11 (is_leap y) 0 d in
  mkTm (y - 1900) m (d - days_before_month (is_leap y) m + 1) (s / 3600) (s mod 3600 / 60) (s mod 60).

Lemma year_of_day_spec fuel y d :
  0 <= d -> d < 365 * Z.of_nat fuel ->
  let '(y', d') := year_of_day fuel y d in
  days_before_year y' + d' = days_before_year y + d /\ 0 <= d' < year_len y'.
Proof.
  revert y d. induction fuel as [|f IH]; intros y d Hd Hf; [lia|]. cbn [year_of_day].
  assert (365 <= year_len y) by (unfold year_len; case_if; lia).
  case_if; [split; [done|lia]|].
  specialize (IH (y + 1) (d - year_len y)). rewrite year_step in IH.
  destruct (year_of_day f (y + 1) (d - year_len y)) as [y' d']. destruct IH; lia.
Qed.

(** The days of a year, each in its month. *)
Definition month_ok (leap : bool) (d : Z) : bool :=
  let m := month_of_day 11 leap 0 d in
  (0 <=? m) && (m <? 12) && (days_before_month leap m <=? d).

Lemma month_of_day_ok (leap : bool) d :
  0 <= d < (if leap then 366 else 365) -> month_ok leap d = true.
Proof.
  apply range_forall. destruct leap; vm_compute; reflexivity.
Qed.

(** [gmtime] and [timegm] are inverse on every [time_t]. *)
Lemma timegm_gmtime t : is_time_t t = true -> timegm (gmtime t) = t.
Proof.
  unfold is_time_t. intros Ht. reflect_bools. unfold gmtime.
  pose proof (year_of_day_spec 140 1901 (t / 86400 - days_before_year 1901)) as HY.
  change (days_before_year 1901) with (-25202) in *.
  destruct (year_of_day _ _ _) as [y d]. destruct HY as [HY Hd]; [Z.div_mod_to_equations; lia..|].
  unfold year_len in Hd. pose proof (month_of_day_ok (is_leap y) d Hd) as HM.
  unfold month_ok in HM. set (m := month_of_day _ _ _ _) in *. reflect_bools.
  unfold timegm. cbn [tm_year tm_mon tm_mday tm_hour tm_min tm_sec].
  rewrite Z.mod_small, Z.div_small by lia.
  replace (1900 + (y - 1900) + 0) with y by lia. Z.div_mod_to_equations. lia.
Qed.

(** * [GpsToUtcTime] *)

(** The loop over the years since 1980. *)
Fixpoint gps_years (fuel : nat) (iYearsElapsed iDaysElapsed : Z) : Z * Z :=
  match fuel with
  | O => (iYearsElapsed, iDaysElapsed)
  | S f =>
      if 365 <=? iDaysElapsed then
        if iYearsElapsed mod 100 =? 20 then
          if iYearsElapsed mod 400 =? 20 then
            if 366 <=? iDaysElapsed then gps_years f (iYearsElapsed + 1) (iDaysElapsed - 366)
            else (iYearsElapsed, iDaysElapsed)
          else gps_years f (iYearsElapsed + 1) (iDaysElapsed - 365)
        else if iYearsElapsed mod 4 =? 0 then
          if 366 <=? iDaysElapsed then gps_years f (iYearsElapsed + 1) (iDaysElapsed - 366)
          else (iYearsElapsed, iDaysElapsed)
        else gps_years f (iYearsElapsed + 1) (iDaysElapsed - 365)
      else (iYearsElapsed, iDaysElapsed)
  end.

Definition fgLeapYear (iYearsElapsed : Z) : bool :=
  if iYearsElapsed mod 100 =? 20 then iYearsElapsed mod 400 =? 20 else iYearsElapsed mod 4 =? 0.

(** The table [doy], corrected for a leap year. *)
Definition doy (leap : bool) (i : Z) : Z :=
  byte_at month_starts i + (if leap && (2 <=? i) then 1 else 0).

(** The first [i] with [iDaysElapsed < doy[i]], or 12. *)
Fixpoint gps_month (fuel : nat) (leap : bool) (i iDaysElapsed : Z) : Z :=
  match fuel with
  | O => i
  | S f => if iDaysElapsed <? doy leap i then i else gps_month f leap (i + 1) iDaysElapsed
  end.

(** The broken-down time of GPS week [i2Wn], second [dfTow] of the week.  The callers pass
    whole seconds, on which the doubles of the source are exact. *)
Definition gps_civil (i2Wn dfTow : Z) : tm :=
  let iDaysElapsed := u32 (i2Wn * 7 + dfTow / 86400 + 5) in
  let dfSecElapsed := dfTow - (dfTow / 86400) * 86400 in
  let '(iYearsElapsed, d) := gps_years (Z.to_nat iDaysElapsed) 0 iDaysElapsed in
  let leap := fgLeapYear iYearsElapsed in
  let i := gps_month 12 leap 0 d in
  let pi2Day := if 0 <? i then d - doy leap (i - 1) + 1 else 0 in
  mkTm (1980 + iYearsElapsed - 1900) (i - 1) pi2Day
       (dfSecElapsed / 3600) (dfSecElapsed mod 3600 / 60) (dfSecElapsed - dfSecElapsed / 60 * 60).

Definition GpsToUtcTime (gmtoff i2Wn dfTow : Z) : Z := mktime gmtoff (gps_civil i2Wn dfTow).

(** The beginning of GPS time, 1980-01-06. *)
Definition GPS_EPOCH : Z := 315964800.

Lemma fgLeapYear_spec y : 0 <= y -> fgLeapYear y = is_leap (1980 + y).
Proof.
  intros Hy. unfold fgLeapYear, is_leap.
  destruct (y mod 100 =? 20) eqn:E1; destruct (y mod 400 =? 20) eqn:E2;
  destruct (y mod 4 =? 0) eqn:E3; destruct ((1980 + y) mod 4 =? 0) eqn:E4;
  destruct ((1980 + y) mod 100 =? 0) eqn:E5; destruct ((1980 + y) mod 400 =? 0) eqn:E6;
    cbn; try done; reflect_bools; Z.div_mod_to_equations; lia.
Qed.

(** The tests of the loop are the leap-year test. *)
Lemma gps_years_step f y d :
  0 <= y ->
  gps_years (S f) y d =
  if year_len (1980 + y) <=? d then gps_years f (y + 1) (d - year_len (1980 + y)) else (y, d).
Proof.
  intros Hy. unfold year_len. rewrite <- fgLeapYear_spec by done. cbn [gps_years]. unfold fgLeapYear.
  destruct (y mod 100 =? 20), (y mod 400 =? 20), (y mod 4 =? 0);
    repeat case_if; try done; lia.
Qed.

Lemma gps_years_spec fuel y d :
  0 <= y -> 0 <= d <= Z.of_nat fuel ->
  let '(y', d') := gps_years fuel y d in
  days_before_year (1980 + y') + d' = days_before_year (1980 + y) + d /\
  0 <= d' < year_len (1980 + y') /\ 0 <= y'.
Proof.
  revert y d. induction fuel as [|f IH]; intros y d Hy Hd.
  - cbn. split; [done|]. unfold year_len. case_if; lia.
  - rewrite gps_years_step by done.
    assert (365 <= year_len (1980 + y)) by (unfold year_len; case_if; lia).
    case_if; [|lia].
    specialize (IH (y + 1) (d - year_len (1980 + y))).
    replace (1980 + (y + 1)) with (1980 + y + 1) in IH by lia. rewrite year_step in IH.
    destruct (gps_years _ _ _) as [y' d']. destruct IH as (? & ? & ?); lia.
Qed.

Definition gps_month_ok (leap : bool) (d : Z) : bool :=
  let i := gps_month 12 leap 0 d in
  (0 <? i) && (i <=? 12) && (days_before_month leap (i - 1) <=? d).

Lemma gps_month_spec (leap : bool) d :
  0 <= d < (if leap then 366 else 365) -> gps_month_ok leap d = true.
Proof.
  apply range_forall. destruct leap; vm_compute; reflexivity.
Qed.

(** The broken-down time denotes the GPS time. *)
Lemma timegm_gps_civil i2Wn dfTow :
  0 <= i2Wn < 600000000 -> 0 <= dfTow < 604800 ->
  timegm (gps_civil i2Wn dfTow) = GPS_EPOCH + i2Wn * 604800 + dfTow.
Proof.
  intros Hw Ht. unfold gps_civil.
  assert (0 <= dfTow / 86400 < 7) by (Z.div_mod_to_equations; lia).
  rewrite u32_id by lia. set (D := i2Wn * 7 + dfTow / 86400 + 5).
  pose proof (gps_years_spec (Z.to_nat D) 0 D) as HY.
  destruct (gps_years _ _ _) as [y d]. destruct HY as (HY & Hd & Hy); [lia..|].
  rewrite fgLeapYear_spec by lia. set (leap := is_leap (1980 + y)) in *.
  pose proof (gps_month_spec leap d Hd) as HM. unfold gps_month_ok in HM.
  set (i := gps_month 12 leap 0 d) in *. reflect_bools.
  rewrite (proj2 (Z.ltb_lt 0 i)) by lia.
  unfold timegm. cbn [tm_year tm_mon tm_mday tm_hour tm_min tm_sec].
  rewrite Z.mod_small, Z.div_small by lia.
  replace (1900 + (1980 + y - 1900) + 0) with (1980 + y) by lia. fold leap.
  change (doy leap) with (days_before_month leap).
  change (days_before_year (1980 + 0)) with 3652 in HY.
  unfold GPS_EPOCH. Z.div_mod_to_equations. lia.
Qed.


