(* ===== verification/NmeaReader.v ===== *)
(** The NMEA reader of the GPS HAL (src/mtk/gps/hal/gps_mtk_aosp.c): [NmeaReader] and its
    [nmea_reader_*] functions, and the thread's loop over the bytes of a read.

    What <hardware/gps.h> defines is the class [GpsHw]: the sizes of the two satellite
    tables and the flags of a location.  [GpsEnv] holds what the reader takes from the
    rest of the process: which callbacks are registered, the clock, the time zone, the log
    property, whether a session is running.  A callback is a value of the output list.
    [None] is an access outside an array.

    The array [sv_used_in_fix], a global of the source that only the reader uses, is a
    field of the reader.  [utc_diff], [callbacks] and [cb_status_changed], which are
    written and never read, are left out, and so are the masks of almanac and ephemeris,
    which are always 0.

    [nmea_stream_framed] and [nmea_stream_safe] are about every stream of bytes and every
    way it is cut into reads. *)
From Stdlib Require Import Floats.SpecFloat.
From S2P Require Import Prelude CString CFloat Nmea Calendar.

Definition NMEA_MAX_SIZE : Z := 128.
Definition NMEA_MAX_SV_INFO : Z := 4.
Definition SV_USED_SIZE : Z := 256.

(** * Data *)

Class GpsHw := {
  GPS_MAX_SVS : Z;
  GNSS_MAX_SVS : Z;
  GPS_LOCATION_HAS_LAT_LONG : Z;
  GPS_LOCATION_HAS_ALTITUDE : Z;
  GPS_LOCATION_HAS_SPEED : Z;
  GPS_LOCATION_HAS_BEARING : Z;
  GPS_LOCATION_HAS_ACCURACY : Z
}.

Record GpsEnv := mkEnv {
  cb_mtk : bool;     (* [base.size == sizeof(GpsCallbacks_mtk)], else [sizeof(GpsCallbacks)] *)
  now : Z;           (* [time(NULL)] *)
  gmtoff : Z;
  gps_log : bool;    (* [get_prop()] *)
  session : bool     (* [started] *)
}.

Record GpsLocation := mkFix {
  flags : Z;
  latitude : double;
  longitude : double;
  altitude : double;
  speed : float;
  bearing : float;
  accuracy : float;
  timestamp : Z
}.

(** An entry of a satellite table; the legacy table has no [used_in_fix]. *)
Record SvInfo := mkSv {
  prn : Z;
  snr : float;
  elevation : float;
  azimuth : float;
  used_in_fix : bool
}.

Record SvTable := mkTable {
  num_svs : Z;
  sv_list : list SvInfo
}.

Record NmeaReader := mkReader {
  pos : Z;
  overflow : bool;
  utc_year : Z;
  utc_mon : Z;
  utc_day : Z;
  rfix : GpsLocation;
  fix_mode : Z;
  sv_count : Z;
  sv_gps : SvTable;
  used_in_fix_mask : Z;
  sv_gnss : SvTable;
  sv_used_in_fix : list Z;
  rin : list Z
}.

Definition LOC_FIXED (r : NmeaReader) : bool := (fix_mode r =? 2) || (fix_mode r =? 3).

(** The calls that leave the reader. *)
Inductive gps_out :=
| OutLog (lat lon : double)         (* the position sent to the log of the daemon *)
| OutLocation (l : GpsLocation)     (* [location_cb] *)
| OutNlp (lat lon : double) (acc : float) (sec nsec : Z) (started : bool)
                                    (* [mtk_gps_update_location] *)
| OutSvStatus (t : SvTable) (mask : Z)   (* [sv_status_cb] *)
| OutNmea (ts : Z) (s : list Z).    (* [nmea_cb] *)

(** * Assignments *)

Definition set_pos (r : NmeaReader) (x : Z) (o : bool) : NmeaReader :=
  mkReader x o (utc_year r) (utc_mon r) (utc_day r) (rfix r) (fix_mode r)
    (sv_count r) (sv_gps r) (used_in_fix_mask r) (sv_gnss r) (sv_used_in_fix r) (rin r).

Definition set_in (r : NmeaReader) (x : list Z) : NmeaReader :=
  mkReader (pos r) (overflow r) (utc_year r) (utc_mon r) (utc_day r) (rfix r) (fix_mode r)
    (sv_count r) (sv_gps r) (used_in_fix_mask r) (sv_gnss r) (sv_used_in_fix r) x.

Definition set_date (r : NmeaReader) (y m d : Z) : NmeaReader :=
  mkReader (pos r) (overflow r) y m d (rfix r) (fix_mode r)
    (sv_count r) (sv_gps r) (used_in_fix_mask r) (sv_gnss r) (sv_used_in_fix r) (rin r).

Definition set_fix (r : NmeaReader) (f : GpsLocation) : NmeaReader :=
  mkReader (pos r) (overflow r) (utc_year r) (utc_mon r) (utc_day r) f (fix_mode r)
    (sv_count r) (sv_gps r) (used_in_fix_mask r) (sv_gnss r) (sv_used_in_fix r) (rin r).

Definition set_mode (r : NmeaReader) (m : Z) : NmeaReader :=
  mkReader (pos r) (overflow r) (utc_year r) (utc_mon r) (utc_day r) (rfix r) m
    (sv_count r) (sv_gps r) (used_in_fix_mask r) (sv_gnss r) (sv_used_in_fix r) (rin r).

Definition set_gps (r : NmeaReader) (c : Z) (t : SvTable) (mask : Z) : NmeaReader :=
  mkReader (pos r) (overflow r) (utc_year r) (utc_mon r) (utc_day r) (rfix r) (fix_mode r)
    c t mask (sv_gnss r) (sv_used_in_fix r) (rin r).

Definition set_gnss (r : NmeaReader) (c : Z) (t : SvTable) (used : list Z) : NmeaReader :=
  mkReader (pos r) (overflow r) (utc_year r) (utc_mon r) (utc_day r) (rfix r) (fix_mode r)
    c (sv_gps r) (used_in_fix_mask r) t used (rin r).

Definition fix_flag (f : GpsLocation) (fl : Z) : GpsLocation :=
  mkFix (Z.lor (flags f) fl) (latitude f) (longitude f) (altitude f) (speed f) (bearing f)
        (accuracy f) (timestamp f).

Definition fix_clear (f : GpsLocation) : GpsLocation :=
  mkFix 0 (latitude f) (longitude f) (altitude f) (speed f) (bearing f) (accuracy f) (timestamp f).

(** * The functions *)

Section Reader.
Context `{GpsHw} (E : GpsEnv).

Definition no_location : GpsLocation :=
  mkFix 0 (S754_zero false) (S754_zero false) (S754_zero false) (S754_zero false)
        (S754_zero false) (S754_zero false) 0.

Definition no_sv : SvInfo :=
  mkSv 0 (S754_zero false) (S754_zero false) (S754_zero false) false.

Definition nmea_reader_init : NmeaReader :=
  mkReader 0 false (-1) (-1) (-1) no_location 0 0
    (mkTable 0 (replicate (Z.to_nat GPS_MAX_SVS) no_sv)) 0
    (mkTable 0 (replicate (Z.to_nat GNSS_MAX_SVS) no_sv))
    (replicate (Z.to_nat SV_USED_SIZE) 0) (replicate (Z.to_nat (NMEA_MAX_SIZE + 1)) 0).

(** Registering the callbacks. *)
Definition nmea_reader_set_callback (r : NmeaReader) (cbs : bool) : NmeaReader :=
  if cbs then
    let r := set_fix r (fix_clear (rfix r)) in
    let r := set_gps r 0 (mkTable 0 (sv_list (sv_gps r))) (used_in_fix_mask r) in
    set_gnss r 0 (mkTable 0 (sv_list (sv_gnss r))) (sv_used_in_fix r)
  else r.

Definition nmea_reader_update_time (r : NmeaReader) (tok : Token) : NmeaReader :=
  if tok_len tok <? 6 then r
  else
    let r :=
      if utc_year r <? 0 then
        let d := gmtime (now E) in set_date r (tm_year d + 1900) (tm_mon d + 1) (tm_mday d)
      else r in
    let hour := str2int (tok_p tok) 2 in
    let minute := str2int (zdrop 2 (tok_p tok)) 2 in
    let seconds := str2float (zdrop 4 (tok_p tok)) (tok_len tok - 4) in
    let t := mkTm (utc_year r - 1900) (utc_mon r - 1) (utc_day r)
                  hour minute (int_of_double seconds) in
    let fix_time := int_of (mktime (gmtoff E) t + gmtoff E) in
    let f := rfix r in
    set_fix r (mkFix (flags f) (latitude f) (longitude f) (altitude f) (speed f) (bearing f)
                     (accuracy f) (fix_time * 1000)).

Definition nmea_reader_update_date (r : NmeaReader) (date time : Token) : NmeaReader :=
  if negb (tok_len date =? 6) then r
  else
    let day := str2int (tok_p date) 2 in
    let mon := str2int (zdrop 2 (tok_p date)) 2 in
    let year := str2int (zdrop 4 (tok_p date)) 2 + 2000 in
    if Z.lor (Z.lor day mon) year <? 0 then r
    else nmea_reader_update_time (set_date r year mon day) time.

Definition convert_from_hhmm (tok : Token) : double :=
  let val := tok_float tok in
  let degrees := int_of_double (ddiv (dfloor val) (double_of_int 100)) in
  let minutes := dsub val (dmul (double_of_int degrees) (double_of_int 100)) in
  dadd (double_of_int degrees) (ddiv minutes (double_of_int 60)).

Definition nmea_reader_update_latlong (r : NmeaReader) (lat : Token) (lath : Z)
    (lon : Token) (lonh : Z) : NmeaReader :=
  if tok_len lat <? 6 then r
  else
    let la := convert_from_hhmm lat in
    let la := if lath =? 83 then dneg la else la in
    if tok_len lon <? 6 then r
    else
      let lo := convert_from_hhmm lon in
      let lo := if lonh =? 87 then dneg lo else lo in
      let f := fix_flag (rfix r) GPS_LOCATION_HAS_LAT_LONG in
      set_fix r (mkFix (flags f) la lo (altitude f) (speed f) (bearing f) (accuracy f) (timestamp f)).

Definition nmea_reader_update_altitude (r : NmeaReader) (tok : Token) : NmeaReader :=
  if tok_len tok <=? 0 then r
  else
    let f := fix_flag (rfix r) GPS_LOCATION_HAS_ALTITUDE in
    set_fix r (mkFix (flags f) (latitude f) (longitude f) (tok_float tok) (speed f) (bearing f)
                     (accuracy f) (timestamp f)).

Definition nmea_reader_update_bearing (r : NmeaReader) (tok : Token) : NmeaReader :=
  if tok_len tok <=? 0 then r
  else
    let f := fix_flag (rfix r) GPS_LOCATION_HAS_BEARING in
    set_fix r (mkFix (flags f) (latitude f) (longitude f) (altitude f) (speed f)
                     (float_of_double (tok_float tok)) (accuracy f) (timestamp f)).

(** The divisor from knots to metres per second. *)
Definition KNOT : double := strtod (bytes_of "1.942795467").

Definition nmea_reader_update_speed (r : NmeaReader) (tok : Token) : NmeaReader :=
  if tok_len tok <=? 0 then r
  else
    let f := fix_flag (rfix r) GPS_LOCATION_HAS_SPEED in
    set_fix r (mkFix (flags f) (latitude f) (longitude f) (altitude f)
                     (float_of_double (ddiv (tok_float tok) KNOT)) (bearing f) (accuracy f) (timestamp f)).

Definition nmea_reader_update_accuracy (r : NmeaReader) (tok : Token) : NmeaReader :=
  if tok_len tok <=? 0 then r
  else
    let f := fix_flag (rfix r) GPS_LOCATION_HAS_ACCURACY in
    set_fix r (mkFix (flags f) (latitude f) (longitude f) (altitude f) (speed f) (bearing f)
                     (float_of_double (tok_float tok)) (timestamp f)).

(** [a[i] = x]. *)
Definition array_set {A} (a : list A) (i : Z) (x : A) : option (list A) :=
  if (0 <=? i) && (i <? zlen a) then Some (<[Z.to_nat i := x]> a) else None.

(** [a[i]]. *)
Definition array_get {A} (a : list A) (i : Z) : option A :=
  if 0 <=? i then a !! Z.to_nat i else None.

Definition nmea_reader_update_sv_status_gps (r : NmeaReader) (id : Z)
    (ele azi sn : Token) : option NmeaReader :=
  if (id <=? 0) || ((id <? 65) && (GPS_MAX_SVS <? id)) || (96 <? id)
     || (GPS_MAX_SVS <=? sv_count r) then Some r
  else
    let sv_index := int_of (sv_count r + num_svs (sv_gps r)) in
    if GPS_MAX_SVS <=? sv_index then Some r
    else
      l ← array_set (sv_list (sv_gps r)) sv_index
            (mkSv id (float_of_double (tok_float sn)) (float_of_int (tok_int ele))
                  (float_of_int (tok_int azi)) false);
      Some (set_gps r (sv_count r + 1) (mkTable (num_svs (sv_gps r)) l) (used_in_fix_mask r)).

Definition nmea_reader_update_sv_status_gnss (r : NmeaReader) (id : Z)
    (ele azi sn : Token) : option NmeaReader :=
  if (id <=? 0) || ((id <? 65) && (GPS_MAX_SVS <? id)) || ((96 <? id) && (id <? 200))
     || (232 <? id) || (GNSS_MAX_SVS <=? sv_count r) then Some r
  else
    let sv_index := int_of (sv_count r + num_svs (sv_gnss r)) in
    if GNSS_MAX_SVS <=? sv_index then Some r
    else
      u ← array_get (sv_used_in_fix r) id;
      l ← array_set (sv_list (sv_gnss r)) sv_index
            (mkSv id (float_of_double (tok_float sn)) (float_of_int (tok_int ele))
                  (float_of_int (tok_int azi)) (1 =? u));
      Some (set_gnss r (sv_count r + 1) (mkTable (num_svs (sv_gnss r)) l) (sv_used_in_fix r)).

(** * The sentences *)

(** [!memcmp(p, s, strlen(s))]. *)
Definition memeq (p : list Z) (s : string) : bool := strStartsWith p (bytes_of s).

(** A satellite number of a BeiDou sentence is offset by 200. *)
Definition sate_number (bds : bool) (t : Token) : Z :=
  if bds then int_of (tok_int t + 200) else tok_int t.

Definition parse_gga (r : NmeaReader) (ts : list Token) : NmeaReader :=
  let get := nmea_tokenizer_get ts in
  let r := nmea_reader_update_time r (get 1) in
  let r := nmea_reader_update_latlong r (get 2) (byte_at (tok_p (get 3)) 0)
                                        (get 4) (byte_at (tok_p (get 5)) 0) in
  nmea_reader_update_altitude r (get 9).

(** The satellites of a GSA sentence marked in [sv_used_in_fix]. *)
Fixpoint gsa_mtk_loop (n : nat) (idx : Z) (bds : bool) (ts : list Token) (used : list Z)
    : option (list Z) :=
  match n with
  | O => Some used
  | S n' =>
      let tok := nmea_tokenizer_get ts (idx + 3) in
      if tok_len tok =? 0 then Some used
      else
        let id := sate_number bds tok in
        if (1 <=? id) && (id <=? 32) then
          used' ← array_set used id 1; gsa_mtk_loop n' (idx + 1) bds ts used'
        else if (193 <=? id) && (id <=? 197) then
          used' ← array_set used id 0; gsa_mtk_loop n' (idx + 1) bds ts used'
        else if (65 <=? id) && (id <=? 96) then
          used' ← array_set used id 1; gsa_mtk_loop n' (idx + 1) bds ts used'
        else if (201 <=? id) && (id <=? 232) then
          used' ← array_set used id 1; gsa_mtk_loop n' (idx + 1) bds ts used'
        else Some used
  end.

Definition parse_gsa_mtk (r : NmeaReader) (bds : bool) (ts : list Token) : option NmeaReader :=
  let r := set_mode r (tok_int (nmea_tokenizer_get ts 2)) in
  if LOC_FIXED r then
    used ← gsa_mtk_loop 12 0 bds ts (sv_used_in_fix r);
    Some (set_gnss r (sv_count r) (sv_gnss r) used)
  else Some r.

(** The satellites of a GSA sentence collected in [used_in_fix_mask]. *)
Fixpoint gsa_loop (n : nat) (idx : Z) (ts : list Token) (mask : Z) : Z :=
  match n with
  | O => mask
  | S n' =>
      let tok := nmea_tokenizer_get ts (idx + 3) in
      if tok_len tok =? 0 then mask
      else
        let id := tok_int tok in
        if (1 <=? id) && (id <=? 32) then
          gsa_loop n' (idx + 1) ts (Z.lor mask (Z.shiftl 1 (id - 1)))
        else if (193 <=? id) && (id <=? 197) then gsa_loop n' (idx + 1) ts mask
        else mask
  end.

Definition parse_gsa (r : NmeaReader) (ts : list Token) : NmeaReader :=
  let r := set_mode r (tok_int (nmea_tokenizer_get ts 2)) in
  set_gps r (sv_count r) (sv_gps r) (if LOC_FIXED r then gsa_loop 12 0 ts 0 else 0).

Definition parse_rmc (r : NmeaReader) (ts : list Token) : NmeaReader :=
  let get := nmea_tokenizer_get ts in
  if byte_at (tok_p (get 2)) 0 =? 65 then
    let r := nmea_reader_update_date r (get 9) (get 1) in
    let r := nmea_reader_update_latlong r (get 3) (byte_at (tok_p (get 4)) 0)
                                          (get 5) (byte_at (tok_p (get 6)) 0) in
    let r := nmea_reader_update_bearing r (get 8) in
    nmea_reader_update_speed r (get 7)
  else r.

(** The loop over the [sv_num] satellites of a GSV sentence; [upd] is the update of the
    table in use. *)
Fixpoint gsv_loop (upd : NmeaReader -> Z -> Token -> Token -> Token -> option NmeaReader)
    (n : nat) (idx sv_num : Z) (bds : bool) (ts : list Token) (r : NmeaReader)
    : option NmeaReader :=
  match n with
  | O => Some r
  | S n' =>
      if idx <? sv_num then
        let base_idx := 4 * (idx + 1) in
        let get := nmea_tokenizer_get ts in
        r' ← upd r (sate_number bds (get base_idx)) (get (base_idx + 1)) (get (base_idx + 2))
                 (get (base_idx + 3));
        gsv_loop upd n' (idx + 1) sv_num bds ts r'
      else Some r
  end.

(** The header of a GSV sentence: number of sentences, sequence number, satellites in
    view, and the number of satellites in this sentence. *)
Definition gsv_header (ts : list Token) : Z * Z * Z * Z :=
  let num := tok_int (nmea_tokenizer_get ts 1) in
  let seq := tok_int (nmea_tokenizer_get ts 2) in
  let cnt := tok_int (nmea_tokenizer_get ts 3) in
  let sv_base := int_of ((seq - 1) * NMEA_MAX_SV_INFO) in
  (num, seq, cnt, Z.min NMEA_MAX_SV_INFO (int_of (cnt - sv_base))).

Definition parse_gsv_mtk (r : NmeaReader) (bds : bool) (ts : list Token) : option NmeaReader :=
  let '(num, seq, cnt, sv_num) := gsv_header ts in
  let r := if seq =? 1 then set_gnss r 0 (sv_gnss r) (sv_used_in_fix r) else r in
  r ← gsv_loop nmea_reader_update_sv_status_gnss 4 0 sv_num bds ts r;
  Some (if seq =? num then
          if sv_count r <=? cnt then
            set_gnss r (sv_count r)
              (mkTable (int_of (num_svs (sv_gnss r) + sv_count r)) (sv_list (sv_gnss r)))
              (sv_used_in_fix r)
          else set_gnss r 0 (mkTable 0 (sv_list (sv_gnss r))) (sv_used_in_fix r)
        else r).

Definition parse_gsv (r : NmeaReader) (bds : bool) (ts : list Token) : option NmeaReader :=
  let '(num, seq, cnt, sv_num) := gsv_header ts in
  let r := if seq =? 1 then set_gps r 0 (sv_gps r) (used_in_fix_mask r) else r in
  r ← gsv_loop nmea_reader_update_sv_status_gps 4 0 sv_num bds ts r;
  Some (if seq =? num then
          if sv_count r <=? cnt then
            set_gps r (sv_count r)
              (mkTable (int_of (num_svs (sv_gps r) + sv_count r)) (sv_list (sv_gps r)))
              (used_in_fix_mask r)
          else set_gps r 0 (mkTable 0 (sv_list (sv_gps r))) (used_in_fix_mask r)
        else r).

Definition parse_accuracy (r : NmeaReader) (ts : list Token) : NmeaReader :=
  if (fix_mode r =? 3) || (fix_mode r =? 2)
  then nmea_reader_update_accuracy r (nmea_tokenizer_get ts 1) else r.

(** The chain of tests on the sentence type; [p] is the memory from the type on. *)
Definition parse_sentence (r : NmeaReader) (p : list Z) (ts : list Token) : option NmeaReader :=
  let bds := memeq p "BD" in
  let p2 := zdrop 2 p in
  if memeq p2 "GGA" then Some (parse_gga r ts)
  else if cb_mtk E && (memeq p "GPGSA" || memeq p "BDGSA" || memeq p "GLGSA") then
    parse_gsa_mtk r bds ts
  else if negb (cb_mtk E) && memeq p "GPGSA" then Some (parse_gsa r ts)
  else if memeq p2 "RMC" then Some (parse_rmc r ts)
  else if cb_mtk E && memeq p2 "GSV" then parse_gsv_mtk r bds ts
  else if negb (cb_mtk E) && (memeq p "GPGSV" || memeq p "GLGSV") then parse_gsv r bds ts
  else if memeq p2 "ACCURACY" then Some (parse_accuracy r ts)
  else Some r.

(** * Reporting *)

(** The number of characters [%lf] prints: six digits behind the point. *)
Definition lf_len (x : double) : Z :=
  match x with
  | S754_zero s => 8 + (if s then 1 else 0)
  | S754_infinity s => 3 + (if s then 1 else 0)
  | S754_nan => 3
  | S754_finite s m e =>
      let micro := if 0 <=? e then Z.pos m * 2 ^ e * 1000000
                   else (Z.pos m * 1000000 + 2 ^ (- e - 1)) / 2 ^ (- e) in
      Z.max 8 (zlen (dec_fuel 400 micro) + 1) + (if s then 1 else 0)
  end.

(** The position logged: [sprintf(pos, "%lf, %lf", ...)] into 64 characters. *)
Definition log_position (f : GpsLocation) : option (list gps_out) :=
  if gps_log E then
    if lf_len (latitude f) + 2 + lf_len (longitude f) + 1 <=? 64
    then Some [OutLog (latitude f) (longitude f)] else None
  else Some [].

Definition report_fix (r : NmeaReader) (end_tag : bool) : option (NmeaReader * list gps_out) :=
  if LOC_FIXED r && negb (flags (rfix r) =? 0) && end_tag then
    let f := rfix r in
    log ← log_position f;
    Some (set_fix r (fix_clear f),
          log ++ [OutLocation f;
                  OutNlp (latitude f) (longitude f) (accuracy f)
                         (Z.quot (timestamp f) 1000) (Z.rem (timestamp f) 1000 * 1000 * 1000)
                         (session E)])
  else Some (r, []).

(** The satellite tables: the callback for the extended table is compiled out; the loop
    over the legacy table ends after one pass because it clears [num_svs]. *)
Definition report_svs (r : NmeaReader) (end_tag : bool) : NmeaReader * list gps_out :=
  if cb_mtk E then
    if negb (num_svs (sv_gnss r) =? 0) && end_tag
    then (set_gnss r 0 (mkTable 0 (sv_list (sv_gnss r)))
                   (replicate (Z.to_nat SV_USED_SIZE) 0), [])
    else (r, [])
  else
    if (0 <? num_svs (sv_gps r)) && end_tag
    then (set_gps r 0 (mkTable 0 (sv_list (sv_gps r))) 0,
          [OutSvStatus (sv_gps r) (used_in_fix_mask r)])
    else (r, []).

Definition nmea_reader_parse (r : NmeaReader) (end_tag : bool)
    : option (NmeaReader * list gps_out) :=
  if pos r <? 9 then Some (r, [])
  else
    let ts := nmea_tokenizer_init (rin r) (pos r) in
    let tok := nmea_tokenizer_get ts 0 in
    if tok_len tok <? 5 then Some (r, [])
    else
      r ← parse_sentence r (tok_p tok) ts;
      '(r, o1) ← report_fix r end_tag;
      let '(r, o2) := report_svs r end_tag in
      Some (r, o1 ++ o2).

Definition nmea_reader_addc (r : NmeaReader) (c : Z) (end_tag : bool)
    : option (NmeaReader * list gps_out) :=
  if overflow r then Some (set_pos r (pos r) (negb (c =? 10)), [])
  else if (NMEA_MAX_SIZE <=? pos r) || (pos r <? 0) then Some (set_pos r 0 true, [])
  else
    b ← array_set (rin r) (pos r) c;
    let r := set_pos (set_in r b) (pos r + 1) false in
    if c =? 10 then
      '(r, o) ← nmea_reader_parse r end_tag;
      Some (set_pos r 0 (overflow r),
            o ++ [OutNmea (timestamp (rfix r)) (ztake (pos r) (rin r))])
    else Some (r, []).

(** The bytes of one [read]; the tag marks the last one. *)
Fixpoint nmea_read (r : NmeaReader) (bs : list Z) : option (NmeaReader * list gps_out) :=
  match bs with
  | [] => Some (r, [])
  | c :: bs' =>
      '(r1, o1) ← nmea_reader_addc r c (match bs' with [] => true | _ => false end);
      '(r2, o2) ← nmea_read r1 bs';
      Some (r2, o1 ++ o2)
  end.

Fixpoint nmea_reads (r : NmeaReader) (reads : list (list Z)) : option (NmeaReader * list gps_out) :=
  match reads with
  | [] => Some (r, [])
  | bs :: reads' =>
      '(r1, o1) ← nmea_read r bs;
      '(r2, o2) ← nmea_reads r1 reads';
      Some (r2, o1 ++ o2)
  end.

End Reader.

(** * What a sentence leaves alone *)

Create HintDb nmea discriminated.

(** Nothing but the location, the date and the fix mode differs. *)
Definition quiet (r r' : NmeaReader) : Prop :=
  pos r' = pos r /\ overflow r' = overflow r /\ rin r' = rin r /\ sv_count r' = sv_count r /\
  sv_gps r' = sv_gps r /\ sv_gnss r' = sv_gnss r /\ sv_used_in_fix r' = sv_used_in_fix r.

Lemma quiet_refl r : quiet r r.
Proof. by repeat split. Qed.

Lemma quiet_then r1 r2 r3 : quiet r1 r2 -> quiet r2 r3 -> quiet r1 r3.
Proof. unfold quiet. intuition congruence. Qed.

Lemma quiet_set_fix r f : quiet r (set_fix r f).
Proof. by repeat split. Qed.

Lemma quiet_set_date r y m d : quiet r (set_date r y m d).
Proof. by repeat split. Qed.

Lemma quiet_set_mode r m : quiet r (set_mode r m).
Proof. by repeat split. Qed.

#[export] Hint Resolve quiet_refl quiet_set_fix quiet_set_date quiet_set_mode : nmea.

Section Frame.
Context `{GpsHw} (E : GpsEnv).

Lemma quiet_time r t : quiet r (nmea_reader_update_time E r t).
Proof.
  unfold nmea_reader_update_time. case_if; [auto with nmea|].
  eapply quiet_then; [|apply quiet_set_fix]. case_if; auto with nmea.
Qed.

Lemma quiet_date r d t : quiet r (nmea_reader_update_date E r d t).
Proof.
  unfold nmea_reader_update_date. case_if; [auto with nmea|]. case_if; [auto with nmea|].
  eapply quiet_then; [apply quiet_set_date|apply quiet_time].
Qed.

Lemma quiet_latlong r a b c d : quiet r (nmea_reader_update_latlong r a b c d).
Proof. unfold nmea_reader_update_latlong. case_if; [|case_if]; auto with nmea. Qed.

Lemma quiet_altitude r t : quiet r (nmea_reader_update_altitude r t).
Proof. unfold nmea_reader_update_altitude. case_if; auto with nmea. Qed.

Lemma quiet_bearing r t : quiet r (nmea_reader_update_bearing r t).
Proof. unfold nmea_reader_update_bearing. case_if; auto with nmea. Qed.

Lemma quiet_speed r t : quiet r (nmea_reader_update_speed r t).
Proof. unfold nmea_reader_update_speed. case_if; auto with nmea. Qed.

Lemma quiet_accuracy r t : quiet r (nmea_reader_update_accuracy r t).
Proof. unfold nmea_reader_update_accuracy. case_if; auto with nmea. Qed.

Lemma quiet_gga r ts : quiet r (parse_gga E r ts).
Proof.
  unfold parse_gga. eapply quiet_then; [|apply quiet_altitude].
  eapply quiet_then; [apply quiet_time|apply quiet_latlong].
Qed.

Lemma quiet_rmc r ts : quiet r (parse_rmc E r ts).
Proof.
  unfold parse_rmc. case_if; [|auto with nmea].
  eapply quiet_then; [|apply quiet_speed]. eapply quiet_then; [|apply quiet_bearing].
  eapply quiet_then; [apply quiet_date|apply quiet_latlong].
Qed.

Lemma quiet_parse_accuracy r ts : quiet r (parse_accuracy r ts).
Proof. unfold parse_accuracy. case_if; [apply quiet_accuracy|auto with nmea]. Qed.

(** * The invariant *)

(** What <hardware/gps.h> must satisfy. *)
Definition hw_ok : Prop := 0 < GPS_MAX_SVS <= 512 /\ 0 < GNSS_MAX_SVS <= 512.

Definition active (r : NmeaReader) : SvTable := if cb_mtk E then sv_gnss r else sv_gps r.

(** The arrays keep their sizes, the write position stays inside the buffer, the counter
    of the satellites inside the tables, and the number of satellites grew by at most a
    table for each of the [k] sentences since it was cleared. *)
Record reader_inv (k : Z) (r : NmeaReader) : Prop := {
  inv_in : zlen (rin r) = NMEA_MAX_SIZE + 1;
  inv_pos : 0 <= pos r <= NMEA_MAX_SIZE;
  inv_gps : zlen (sv_list (sv_gps r)) = GPS_MAX_SVS;
  inv_gnss : zlen (sv_list (sv_gnss r)) = GNSS_MAX_SVS;
  inv_used : zlen (sv_used_in_fix r) = SV_USED_SIZE;
  inv_count : 0 <= sv_count r <= 512;
  inv_num : 0 <= num_svs (active r) <= 512 * k
}.

(** How far the satellite count may grow before [int] overflows. *)
Definition SENTENCE_LIMIT : Z := 4000000.

Lemma quiet_inv k r r' : quiet r r' -> reader_inv k r -> reader_inv k r'.
Proof.
  intros (Hp & _ & Hi & Hc & Hg & Hn & Hu) [].
  constructor; unfold active in *; rewrite ?Hp, ?Hi, ?Hc, ?Hg, ?Hn, ?Hu; done.
Qed.

Lemma inv_weaken k k' r : k <= k' -> reader_inv k r -> reader_inv k' r.
Proof. intros Hk []. constructor; try done; lia. Qed.

(** What the operations on the tables leave alone. *)
Definition same_io (r r' : NmeaReader) : Prop :=
  pos r' = pos r /\ overflow r' = overflow r /\ rin r' = rin r.

Lemma quiet_io r r' : quiet r r' -> same_io r r'.
Proof. unfold quiet, same_io. naive_solver. Qed.

Lemma same_io_trans r1 r2 r3 : same_io r1 r2 -> same_io r2 r3 -> same_io r1 r3.
Proof. unfold same_io. intuition congruence. Qed.

(** An operation that cannot fault and keeps the invariant. *)
Definition safe_step (k k' : Z) (r : NmeaReader) (o : option NmeaReader) : Prop :=
  exists r', o = Some r' /\ reader_inv k' r' /\ same_io r r'.

Lemma safe_quiet k r r' : quiet r r' -> reader_inv k r -> safe_step k k r (Some r').
Proof. intros Hq Hi. exists r'. eauto using quiet_inv, quiet_io. Qed.

Lemma safe_refl k r : reader_inv k r -> safe_step k k r (Some r).
Proof. apply safe_quiet, quiet_refl. Qed.

Lemma array_set_some {A} (a : list A) i x :
  0 <= i < zlen a -> exists b, array_set a i x = Some b /\ zlen b = zlen a.
Proof.
  intros Hi. unfold array_set. rewrite (proj2 (Z.leb_le 0 i)), (proj2 (Z.ltb_lt i _)) by lia.
  eexists; split; [done|]. apply zlen_insert.
Qed.

Lemma array_get_some {A} (a : list A) i : 0 <= i < zlen a -> is_Some (array_get a i).
Proof.
  intros Hi. unfold array_get. rewrite (proj2 (Z.leb_le 0 i)) by lia.
  apply lookup_lt_is_Some. unfold zlen in Hi. lia.
Qed.

End Frame.
#[export] Hint Resolve quiet_time quiet_date quiet_latlong quiet_gga quiet_rmc
  quiet_parse_accuracy safe_refl : nmea.

Section Safety.
Context `{GpsHw} (E : GpsEnv) (Hhw : hw_ok).

Local Abbreviation inv := (reader_inv E).
Local Abbreviation safe := (safe_step E).

Lemma update_sv_gps_safe k r id a b c :
  cb_mtk E = false -> 0 <= k < SENTENCE_LIMIT -> inv k r ->
  safe k k r (nmea_reader_update_sv_status_gps r id a b c).
Proof.
  intros Hcb Hk Hi. unfold nmea_reader_update_sv_status_gps.
  case_if; [by apply safe_refl|]. pose proof (inv_count _ _ _ Hi). pose proof (inv_num _ _ _ Hi) as HN.
  unfold active in HN. rewrite Hcb in HN. unfold SENTENCE_LIMIT in *.
  destruct Hhw as [Hg _]. rewrite int_of_id by (unfold is_int; lia).
  case_if; [by apply safe_refl|].
  destruct (array_set_some (sv_list (sv_gps r)) (sv_count r + num_svs (sv_gps r))
    (mkSv id (float_of_double (tok_float c)) (float_of_int (tok_int a)) (float_of_int (tok_int b)) false))
    as (l & -> & Hl); [rewrite (inv_gps _ _ _ Hi); lia|].
  eexists; split; [reflexivity|]. split; [|by repeat split].
  destruct Hi. unfold active in *. rewrite Hcb in *.
  constructor; unfold active; rewrite ?Hcb; cbn; try done; lia.
Qed.

Lemma update_sv_gnss_safe k r id a b c :
  cb_mtk E = true -> 0 <= k < SENTENCE_LIMIT -> inv k r ->
  safe k k r (nmea_reader_update_sv_status_gnss r id a b c).
Proof.
  intros Hcb Hk Hi. unfold nmea_reader_update_sv_status_gnss.
  case_if; [by apply safe_refl|]. pose proof (inv_count _ _ _ Hi). pose proof (inv_num _ _ _ Hi) as HN.
  unfold active in HN. rewrite Hcb in HN. unfold SENTENCE_LIMIT in *.
  destruct Hhw as [_ Hg]. rewrite int_of_id by (unfold is_int; lia).
  case_if; [by apply safe_refl|].
  destruct (array_get_some (sv_used_in_fix r) id) as [u ->];
    [rewrite (inv_used _ _ _ Hi); unfold SV_USED_SIZE; lia|]. cbn [mbind option_bind].
  destruct (array_set_some (sv_list (sv_gnss r)) (sv_count r + num_svs (sv_gnss r))
    (mkSv id (float_of_double (tok_float c)) (float_of_int (tok_int a)) (float_of_int (tok_int b)) (1 =? u)))
    as (l & -> & Hl); [rewrite (inv_gnss _ _ _ Hi); lia|].
  eexists; split; [reflexivity|]. split; [|by repeat split].
  destruct Hi. unfold active in *. rewrite Hcb in *.
  constructor; unfold active; rewrite ?Hcb; cbn; try done; lia.
Qed.

(** The loop over the satellites of a sentence is as safe as one update. *)
Lemma gsv_loop_safe upd k n idx sv_num bds ts r :
  (forall r id a b c, inv k r -> safe k k r (upd r id a b c)) ->
  inv k r -> safe k k r (gsv_loop upd n idx sv_num bds ts r).
Proof.
  intros Hu. revert idx r. induction n as [|n IH]; intros idx r Hi; cbn; [by apply safe_refl|].
  case_if; [|by apply safe_refl].
  edestruct Hu as (r1 & -> & Hi1 & Hs1); [exact Hi|]. cbn [mbind option_bind].
  destruct (IH (idx + 1) r1 Hi1) as (r2 & -> & Hi2 & Hs2).
  exists r2. eauto using same_io_trans.
Qed.

Lemma parse_gsv_mtk_safe k r bds ts :
  cb_mtk E = true -> 0 <= k < SENTENCE_LIMIT -> inv k r ->
  safe k (k + 1) r (parse_gsv_mtk r bds ts).
Proof.
  intros Hcb Hk Hi. unfold parse_gsv_mtk. destruct (gsv_header ts) as [[[num seq] cnt] sv_num].
  set (r0 := if seq =? 1 then _ else _).
  assert (inv k r0 /\ same_io r r0) as [Hi0 Hs0].
  { subst r0. case_if; [|by split; [|repeat split]]. split; [|by repeat split].
    destruct Hi. constructor; unfold active in *; rewrite ?Hcb in *; cbn in *; try done; lia. }
  destruct (gsv_loop_safe nmea_reader_update_sv_status_gnss k 4 0 sv_num bds ts r0)
    as (r1 & -> & Hi1 & Hs1); [intros; by apply update_sv_gnss_safe|done|]. cbn [mbind option_bind].
  eexists; split; [reflexivity|]. assert (same_io r r1) as Hs by eauto using same_io_trans.
  destruct (inv_count _ _ _ Hi1). pose proof (inv_num _ _ _ Hi1) as HN.
  unfold SENTENCE_LIMIT, active in *. rewrite Hcb in HN.
  case_if; [|by split; [apply (inv_weaken E k); [lia|]|]].
  rewrite int_of_id by (unfold is_int; lia).
  case_if; (split; [|done]); destruct Hi1; constructor; unfold active in *; rewrite ?Hcb in *;
    cbn in *; try done; lia.
Qed.

Lemma parse_gsv_safe k r bds ts :
  cb_mtk E = false -> 0 <= k < SENTENCE_LIMIT -> inv k r ->
  safe k (k + 1) r (parse_gsv r bds ts).
Proof.
  intros Hcb Hk Hi. unfold parse_gsv. destruct (gsv_header ts) as [[[num seq] cnt] sv_num].
  set (r0 := if seq =? 1 then _ else _).
  assert (inv k r0 /\ same_io r r0) as [Hi0 Hs0].
  { subst r0. case_if; [|by split; [|repeat split]]. split; [|by repeat split].
    destruct Hi. constructor; unfold active in *; rewrite ?Hcb in *; cbn in *; try done; lia. }
  destruct (gsv_loop_safe nmea_reader_update_sv_status_gps k 4 0 sv_num bds ts r0)
    as (r1 & -> & Hi1 & Hs1); [intros; by apply update_sv_gps_safe|done|]. cbn [mbind option_bind].
  eexists; split; [reflexivity|]. assert (same_io r r1) as Hs by eauto using same_io_trans.
  destruct (inv_count _ _ _ Hi1). pose proof (inv_num _ _ _ Hi1) as HN.
  unfold SENTENCE_LIMIT, active in *. rewrite Hcb in HN.
  case_if; [|by split; [apply (inv_weaken E k); [lia|]|]].
  rewrite int_of_id by (unfold is_int; lia).
  case_if; (split; [|done]); destruct Hi1; constructor; unfold active in *; rewrite ?Hcb in *;
    cbn in *; try done; lia.
Qed.

Lemma gsa_mtk_loop_safe n idx bds ts used :
  zlen used = SV_USED_SIZE ->
  exists used', gsa_mtk_loop n idx bds ts used = Some used' /\ zlen used' = SV_USED_SIZE.
Proof.
  revert idx used. induction n as [|n IH]; intros idx used Hl; cbn [gsa_mtk_loop]; [eauto|].
  set (id := sate_number _ _). case_if; [eauto|].
  assert (forall v, 0 <= id < SV_USED_SIZE -> exists used',
    (u ← array_set used id v; gsa_mtk_loop n (idx + 1) bds ts u) = Some used' /\
    zlen used' = SV_USED_SIZE) as Hstep.
  { intros v Hid. destruct (array_set_some used id v) as (u & -> & Hu); [by rewrite Hl|].
    apply IH. by rewrite Hu. }
  unfold SV_USED_SIZE in *. repeat case_if; try (apply Hstep; lia). eauto.
Qed.

Lemma parse_gsa_mtk_safe k r bds ts : inv k r -> safe k k r (parse_gsa_mtk r bds ts).
Proof.
  intros Hi. unfold parse_gsa_mtk. set (r0 := set_mode _ _).
  assert (inv k r0) as Hi0 by (eapply quiet_inv; [apply quiet_set_mode|done]).
  case_if; [|exists r0; split; [done|]; split; [done|by repeat split]].
  destruct (gsa_mtk_loop_safe 12 0 bds ts (sv_used_in_fix r0)) as (u & -> & Hu);
    [apply (inv_used _ _ _ Hi0)|]. cbn [mbind option_bind].
  eexists; split; [reflexivity|]. split; [|by repeat split].
  destruct Hi0. constructor; try done.
Qed.

Lemma parse_gsa_inv k r ts : inv k r -> safe k k r (Some (parse_gsa r ts)).
Proof.
  intros Hi. eexists; split; [reflexivity|]. split; [|by repeat split].
  destruct Hi. by constructor.
Qed.

Lemma parse_sentence_safe k r p ts :
  0 <= k < SENTENCE_LIMIT -> inv k r -> safe k (k + 1) r (parse_sentence E r p ts).
Proof.
  intros Hk Hi. unfold parse_sentence.
  assert (forall o, safe k k r o -> safe k (k + 1) r o) as Hw.
  { intros o (r' & -> & Hi' & Hs). exists r'. split; [done|]. split; [|done].
    apply (inv_weaken E k); [lia|done]. }
  destruct (cb_mtk E) eqn:Hcb; cbn [andb negb];
  repeat (case_if; [first [by apply parse_gsv_mtk_safe | by apply parse_gsv_safe
    | by apply Hw, parse_gsa_mtk_safe | by apply Hw, parse_gsa_inv
    | by apply Hw, safe_quiet; auto with nmea]|]); by apply Hw, safe_refl.
Qed.

End Safety.

(** * Framing *)

(** The sentences among the outputs. *)
Definition nmea_of (o : list gps_out) : list (list Z) :=
  omap (fun x => match x with OutNmea _ s => Some s | _ => None end) o.

(** The framing alone: the bytes collected, and whether a sentence is being skipped. *)
Definition frame_step (st : list Z * bool) (c : Z) : list Z * bool * list (list Z) :=
  let '(b, o) := st in
  if o : bool then (b, negb (c =? 10), [])
  else if NMEA_MAX_SIZE <=? zlen b then ([], true, [])
  else if c =? 10 then ([], false, [b ++ [c]])
  else (b ++ [c], false, []).

Fixpoint frame_run (st : list Z * bool) (s : list Z) : list Z * bool * list (list Z) :=
  match s with
  | [] => (st, [])
  | c :: s' =>
      let '(st1, o1) := frame_step st c in
      let '(st2, o2) := frame_run st1 s' in (st2, o1 ++ o2)
  end.

Lemma frame_run_app st s t :
  frame_run st (s ++ t) =
  let '(st1, o1) := frame_run st s in let '(st2, o2) := frame_run st1 t in (st2, o1 ++ o2).
Proof.
  revert st. induction s as [|c s IH]; intros st; cbn [app frame_run].
  - by destruct (frame_run st t).
  - destruct (frame_step st c) as [st1 o1]. rewrite IH.
    destruct (frame_run st1 s) as [st2 o2]. destruct (frame_run st2 t). by rewrite app_assoc.
Qed.

(** Bytes without a newline, while skipping. *)
Lemma frame_run_skip b s : (10 ∉ s) -> frame_run (b, true) s = (b, true, []).
Proof.
  induction s as [|c s IH]; intros Hn; [done|]. apply not_elem_of_cons in Hn as [Hc Hn].
  cbn [frame_run frame_step]. rewrite (proj2 (Z.eqb_neq c 10)) by done. cbn. by rewrite IH.
Qed.

(** Bytes without a newline that fit are collected. *)
Lemma frame_run_collect b s :
  (10 ∉ s) -> zlen b + zlen s <= NMEA_MAX_SIZE -> frame_run (b, false) s = (b ++ s, false, []).
Proof.
  revert b. induction s as [|c s IH]; intros b Hn Hl; [by rewrite app_nil_r|].
  apply not_elem_of_cons in Hn as [Hc Hn]. rewrite zlen_cons in Hl. pose proof (zlen_nonneg s).
  cbn [frame_run frame_step]. rewrite (proj2 (Z.leb_gt _ (zlen b))) by lia.
  rewrite (proj2 (Z.eqb_neq c 10)) by done. rewrite IH; [|done|zlist; lia].
  by rewrite <- app_assoc.
Qed.

(** A line leaves the framing in its initial state, delivered if it fits and dropped
    otherwise, unless its newline is the 129th byte. *)
Lemma frame_line l :
  (10 ∉ l) -> zlen l <> NMEA_MAX_SIZE ->
  frame_run ([], false) (l ++ [10]) =
  ([], false, if zlen l <? NMEA_MAX_SIZE then [l ++ [10]] else []).
Proof.
  intros Hn Hl. unfold NMEA_MAX_SIZE in *. case_if.
  - rewrite frame_run_app, frame_run_collect by (done || rewrite zlen_nil; unfold NMEA_MAX_SIZE; lia).
    cbn [frame_run frame_step app]. unfold NMEA_MAX_SIZE.
    rewrite (proj2 (Z.leb_gt 128 (zlen l))) by lia. done.
  - rewrite <- (ztake_zdrop 128 l) at 1. rewrite <- app_assoc, frame_run_app.
    assert (zlen (ztake 128 l) = 128) as Ht by (apply zlen_ztake; lia).
    rewrite frame_run_collect; [|intros Hin; apply Hn; rewrite <- (ztake_zdrop 128 l); set_solver
      |rewrite zlen_nil, Ht; done].
    cbn [app]. destruct (zdrop 128 l) as [|c t] eqn:Hd.
    { assert (zlen (zdrop 128 l) = zlen l - 128) as Hz by (apply zlen_zdrop; lia).
      rewrite Hd, zlen_nil in Hz. lia. }
    assert (10 ∉ t) as Hn'.
    { intros Hin. apply Hn. rewrite <- (ztake_zdrop 128 l), Hd. set_solver. }
    cbn [app frame_run frame_step]. rewrite Ht. change (NMEA_MAX_SIZE <=? 128) with true. cbn iota.
    rewrite frame_run_app, frame_run_skip by done. done.
Qed.

Lemma frame_lines ls :
  Forall (fun l => (10 ∉ l) /\ zlen l <> NMEA_MAX_SIZE) ls ->
  frame_run ([], false) (concat (map (fun l => l ++ [10]) ls)) =
  ([], false, map (fun l => l ++ [10]) (filter (fun l => zlen l < NMEA_MAX_SIZE) ls)).
Proof.
  induction 1 as [|l ls [Hn Hl] _ IH]; [done|].
  cbn [map concat]. rewrite frame_run_app, frame_line, IH by done. rewrite filter_cons.
  destruct (decide (zlen l < NMEA_MAX_SIZE)); case_if; (done || lia).
Qed.

Section Framing.
Context `{GpsHw} (E : GpsEnv) (Hhw : hw_ok) (Hlog : gps_log E = false).

Local Abbreviation inv := (reader_inv E).

(** The reader refines the framing. *)
Definition framed (r : NmeaReader) (st : list Z * bool) : Prop :=
  ztake (pos r) (rin r) = st.1 /\ overflow r = st.2.

Lemma report_fix_safe k r tag :
  inv k r -> exists r' o, report_fix E r tag = Some (r', o) /\ inv k r' /\ same_io r r' /\ nmea_of o = [].
Proof.
  intros Hi. unfold report_fix, log_position. rewrite Hlog. case_if.
  - cbn [mbind option_bind app]. eexists _, _; split; [reflexivity|].
    eauto using quiet_inv, quiet_io, quiet_set_fix.
  - eexists _, _; split; [reflexivity|]. split; [done|]. by repeat split.
Qed.

Lemma report_svs_safe k r tag r' o :
  0 <= k -> inv k r -> report_svs E r tag = (r', o) ->
  inv k r' /\ same_io r r' /\ nmea_of o = [].
Proof.
  intros Hk Hi. unfold report_svs. destruct (cb_mtk E) eqn:Hcb; case_if; intros [= <- <-];
    (split; [|by repeat split]); try done;
    destruct Hi; constructor; unfold active in *; rewrite ?Hcb in *; cbn in *; try done; lia.
Qed.

Lemma parse_safe k r tag :
  0 <= k < SENTENCE_LIMIT -> inv k r ->
  exists r' o, nmea_reader_parse E r tag = Some (r', o) /\ inv (k + 1) r' /\ same_io r r' /\
               nmea_of o = [].
Proof.
  intros Hk Hi. unfold nmea_reader_parse.
  assert (inv (k + 1) r) by (apply (inv_weaken E k); [lia|done]).
  case_if; [eexists _, _; split; [reflexivity|]; split; [done|by repeat split]|].
  case_if; [eexists _, _; split; [reflexivity|]; split; [done|by repeat split]|].
  destruct (parse_sentence_safe E Hhw k r
    (tok_p (nmea_tokenizer_get (nmea_tokenizer_init (rin r) (pos r)) 0))
    (nmea_tokenizer_init (rin r) (pos r))) as (r1 & -> & Hi1 & Hs1); [done..|].
  cbn [mbind option_bind].
  destruct (report_fix_safe (k + 1) r1 tag Hi1) as (r2 & o1 & -> & Hi2 & Hs2 & Ho1).
  cbn [mbind option_bind]. destruct (report_svs E r2 tag) as [r3 o2] eqn:Hr.
  destruct (report_svs_safe (k + 1) r2 tag r3 o2) as (Hi3 & Hs3 & Ho2); [lia|done..|].
  eexists _, _; split; [reflexivity|]. split; [done|]. split; [eauto using same_io_trans|].
  unfold nmea_of in *. by rewrite omap_app, Ho1, Ho2.
Qed.

(** The bytes up to a position, after one more was stored there. *)
Lemma ztake_store (l : list Z) i c :
  0 <= i < zlen l -> ztake (i + 1) (<[Z.to_nat i := c]> l) = ztake i l ++ [c].
Proof.
  intros Hi. unfold ztake, zlen in *. replace (Z.to_nat (i + 1)) with (S (Z.to_nat i)) by lia.
  rewrite (take_S_r _ _ c) by (apply list_lookup_insert_eq; lia). by rewrite take_insert_ge by lia.
Qed.

Lemma inv_set_pos k r x o : 0 <= x <= NMEA_MAX_SIZE -> inv k r -> inv k (set_pos r x o).
Proof. intros Hx []. by constructor. Qed.

Lemma addc_safe k r c tag st :
  0 <= k < SENTENCE_LIMIT -> inv k r -> framed r st ->
  exists r' o, nmea_reader_addc E r c tag = Some (r', o) /\ inv (k + 1) r' /\
               framed r' (frame_step st c).1 /\ nmea_of o = (frame_step st c).2.
Proof.
  intros Hk Hi [Hb Ho]. destruct st as [b ov]. cbn in Hb, Ho. subst ov.
  assert (inv (k + 1) r) as Hw by (apply (inv_weaken E k); [lia|done]).
  unfold nmea_reader_addc, frame_step. destruct (overflow r) eqn:Eo.
  { eexists _, _; split; [reflexivity|]. split; [|by repeat split].
    apply inv_set_pos; [apply (inv_pos _ _ _ Hi)|done]. }
  destruct (inv_pos _ _ _ Hi) as [Hp1 Hp2]. pose proof (inv_in _ _ _ Hi) as Hin.
  assert (zlen b = pos r) as Hlb by (rewrite <- Hb; apply zlen_ztake; lia).
  rewrite Hlb. rewrite (proj2 (Z.ltb_ge (pos r) 0)) by lia. rewrite orb_false_r.
  destruct (NMEA_MAX_SIZE <=? pos r) eqn:Ep; reflect_bools.
  { eexists _, _; split; [reflexivity|]. split; [|by repeat split]. by apply inv_set_pos. }
  unfold array_set. rewrite (proj2 (Z.leb_le 0 _)), (proj2 (Z.ltb_lt (pos r) _)) by lia.
  cbn [andb mbind option_bind]. set (r1 := set_pos _ _ _).
  assert (inv k r1) as Hi1.
  { destruct Hi. constructor; cbn; rewrite ?zlen_insert; try done. lia. }
  assert (ztake (pos r1) (rin r1) = b ++ [c]) as Hb1 by (cbn; rewrite ztake_store, Hb; [done|lia]).
  destruct (c =? 10) eqn:Ec.
  - destruct (parse_safe k r1 tag Hk Hi1) as (r2 & o & -> & Hi2 & (Hq1 & Hq2 & Hq3) & Hno).
    cbn [mbind option_bind]. eexists _, _; split; [reflexivity|].
    split; [by apply inv_set_pos|]. split; [split; [done|cbn; by rewrite Hq2]|].
    unfold nmea_of in *. rewrite omap_app, Hno. cbn. by rewrite Hq1, Hq3, Hb1.
  - eexists _, _; split; [reflexivity|]. split; [|by repeat split].
    by apply (inv_weaken E k); [lia|].
Qed.

Lemma read_safe bs k r st :
  0 <= k -> k + zlen bs <= SENTENCE_LIMIT -> inv k r -> framed r st ->
  exists r' o, nmea_read E r bs = Some (r', o) /\ inv (k + zlen bs) r' /\
               framed r' (frame_run st bs).1 /\ nmea_of o = (frame_run st bs).2.
Proof.
  revert k r st. induction bs as [|c bs IH]; intros k r st Hk Hl Hi Hf.
  - eexists _, _; split; [reflexivity|]. rewrite zlen_nil, Z.add_0_r. by destruct st.
  - rewrite zlen_cons in *. pose proof (zlen_nonneg bs). cbn [nmea_read frame_run].
    edestruct (addc_safe k r c) as (r1 & o1 & -> & Hi1 & Hf1 & Ho1); [lia|done|exact Hf|].
    destruct (frame_step st c) as [st1 e1]. cbn [mbind option_bind].
    destruct (IH (k + 1) r1 st1) as (r2 & o2 & -> & Hi2 & Hf2 & Ho2); [lia|lia|done..|].
    cbn [mbind option_bind]. destruct (frame_run st1 bs) as [st2 e2].
    eexists _, _; split; [reflexivity|]. cbn in *. replace (k + (1 + zlen bs)) with (k + 1 + zlen bs) by lia.
    split; [done|]. split; [done|]. unfold nmea_of in *. by rewrite omap_app, Ho1, Ho2.
Qed.

Lemma reads_safe reads k r st :
  0 <= k -> k + zlen (concat reads) <= SENTENCE_LIMIT -> inv k r -> framed r st ->
  exists r' o, nmea_reads E r reads = Some (r', o) /\ inv (k + zlen (concat reads)) r' /\
               framed r' (frame_run st (concat reads)).1 /\
               nmea_of o = (frame_run st (concat reads)).2.
Proof.
  revert k r st. induction reads as [|bs reads IH]; intros k r st Hk Hl Hi Hf.
  - eexists _, _; split; [reflexivity|]. cbn. rewrite zlen_nil, Z.add_0_r. by destruct st.
  - cbn [concat] in *. rewrite zlen_app in *. cbn [nmea_reads].
    pose proof (zlen_nonneg bs). pose proof (zlen_nonneg (concat reads)).
    destruct (read_safe bs k r st) as (r1 & o1 & -> & Hi1 & Hf1 & Ho1); [lia|lia|done..|].
    rewrite frame_run_app. destruct (frame_run st bs) as [st1 e1]. cbn [mbind option_bind].
    destruct (IH (k + zlen bs) r1 st1) as (r2 & o2 & -> & Hi2 & Hf2 & Ho2); [lia|lia|done..|].
    cbn [mbind option_bind]. destruct (frame_run st1 (concat reads)) as [st2 e2].
    eexists _, _; split; [reflexivity|]. cbn in *.
    replace (k + (zlen bs + zlen (concat reads))) with (k + zlen bs + zlen (concat reads)) by lia.
    split; [done|]. split; [done|]. unfold nmea_of in *. by rewrite omap_app, Ho1, Ho2.
Qed.

Lemma zlen_replicate {A} n (x : A) : 0 <= n -> zlen (replicate (Z.to_nat n) x) = n.
Proof. intros. unfold zlen. rewrite length_replicate. lia. Qed.

Lemma init_inv : inv 0 nmea_reader_init.
Proof.
  destruct Hhw as [? ?].
  constructor; unfold active; cbn; rewrite ?zlen_replicate; (done || lia || (case_if; cbn; lia)).
Qed.

Lemma init_framed : framed nmea_reader_init ([], false).
Proof. done. Qed.


(** C16: Framing: of a stream of lines, however it is cut into reads, the lines of at most
    128 bytes with their newline are handed to [nmea_cb] unchanged and in order, once
    each, and longer ones are dropped without disturbing their neighbours; the one length
    excepted is 129 bytes, whose newline the reader swallows. *)
Theorem nmea_stream_framed reads lines :
  Forall (fun l => (10 ∉ l) /\ zlen l <> NMEA_MAX_SIZE) lines ->
  concat reads = concat (map (fun l => l ++ [10]) lines) ->
  zlen (concat reads) <= SENTENCE_LIMIT ->
  exists r o, nmea_reads E nmea_reader_init reads = Some (r, o) /\
    nmea_of o = map (fun l => l ++ [10]) (filter (fun l => zlen l < NMEA_MAX_SIZE) lines).
Proof using Hhw Hlog.
  intros HF Hc Hl. destruct (reads_safe reads 0 nmea_reader_init ([], false))
    as (r & o & Hr & _ & _ & Ho); eauto using init_inv, init_framed with lia.
  exists r, o. split; [done|]. by rewrite Ho, Hc, frame_lines.
Qed.

End Framing.

(** * Instances *)

(** The values of the AOSP header, with the table of the extended callbacks at 256. *)
Definition aosp_hw : GpsHw :=
  {| GPS_MAX_SVS := 32; GNSS_MAX_SVS := 256; GPS_LOCATION_HAS_LAT_LONG := 1;
     GPS_LOCATION_HAS_ALTITUDE := 2; GPS_LOCATION_HAS_SPEED := 4;
     GPS_LOCATION_HAS_BEARING := 8; GPS_LOCATION_HAS_ACCURACY := 16 |}.

Definition sample_env : GpsEnv := mkEnv true 1483574400 28800 false true.

Lemma aosp_hw_ok : @hw_ok aosp_hw.
Proof. split; cbn; lia. Qed.


Lemma nmea_stream_framed_witness :
  exists r o, @nmea_reads aosp_hw sample_env (@nmea_reader_init aosp_hw)
                [bytes_of "$GPT"; bytes_of "XT" ++ 10 :: replicate 200 65; [10]] = Some (r, o) /\
    nmea_of o = [bytes_of "$GPTXT" ++ [10]].
Proof.
  exact (@nmea_stream_framed aosp_hw sample_env aosp_hw_ok eq_refl
           [bytes_of "$GPT"; bytes_of "XT" ++ 10 :: replicate 200 65; [10]]
           [bytes_of "$GPTXT"; replicate 200 65]
           ltac:(apply (bool_decide_unpack _); vm_compute; exact I) eq_refl
           ltac:(vm_compute; discriminate)).
Defined.

(** * Defects *)

(** A sentence whose newline is its 129th byte takes the next sentence with it: the byte
    that finds the buffer full is dropped unseen, so the reader goes on skipping to the
    newline after. *)
Lemma full_line_eats_next l1 l2 :
  (10 ∉ l1) -> (10 ∉ l2) -> zlen l1 = NMEA_MAX_SIZE ->
  frame_run ([], false) (l1 ++ [10] ++ l2 ++ [10]) = ([], false, []).
Proof.
  intros H1 H2 Hl. rewrite frame_run_app, frame_run_collect by (done || rewrite zlen_nil; lia).
  cbn [app frame_run frame_step]. rewrite Hl. change (NMEA_MAX_SIZE <=? NMEA_MAX_SIZE) with true.
  cbn iota. rewrite frame_run_app, frame_run_skip by done. done.
Qed.

(** With the callbacks the HAL accepts, the satellites are never reported. *)
Lemma svs_never_reported `{GpsHw} E r tag r' o t mask :
  cb_mtk E = true -> nmea_reader_parse E r tag = Some (r', o) -> (OutSvStatus t mask ∉ o).
Proof.
  intros Hcb. unfold nmea_reader_parse. case_if; [intros [= _ <-]; apply not_elem_of_nil|].
  case_if; [intros [= _ <-]; apply not_elem_of_nil|].
  destruct (parse_sentence _ _ _ _) as [r1|]; [|done]. cbn [mbind option_bind].
  unfold report_fix, log_position, report_svs. rewrite Hcb.
  repeat (case_if; cbn [mbind option_bind]); try done; intros [= _ <-]; set_solver.
Qed.
