(* ===== verification/NmeaSentences.v ===== *)
(** The sentences of a receiver, from the bytes to the callbacks: what the reader of
    [NmeaReader] makes of a set of GSV sentences and of an RMC sentence.

    A sentence that arrives from the first byte on fills the buffer ([bytes_sentence],
    [read_sentence]); its tokens are its fields ([sentence_field]), so that the parser is
    run on the fields.  The numbers of a sentence are decimal texts; degrees, speed and
    course go through [strtod]. *)
From Stdlib Require Import Floats.SpecFloat.
From S2P Require Import Prelude CString CFloat Nmea Calendar NmeaReader.

(** * Whole sentences *)

(** Bytes of which none is the last of its read. *)
Fixpoint nmea_bytes `{GpsHw} (E : GpsEnv) (r : NmeaReader) (s : list Z)
    : option (NmeaReader * list gps_out) :=
  match s with
  | [] => Some (r, [])
  | c :: s' =>
      '(r1, o1) ← nmea_reader_addc E r c false;
      '(r2, o2) ← nmea_bytes E r1 s';
      Some (r2, o1 ++ o2)
  end.

(** A sentence in the buffer, over what was there. *)
Definition load (r : NmeaReader) (s : list Z) : NmeaReader :=
  set_pos (set_in r (s ++ zdrop (zlen s) (rin r))) (zlen s) false.

(** The reader before a sentence. *)
Definition idle (r : NmeaReader) : Prop := pos r = 0 /\ overflow r = false.

Section Sentences.
Context `{GpsHw} (E : GpsEnv).

Lemma nmea_read_app r s t :
  t <> [] ->
  nmea_read E r (s ++ t) =
  '(r1, o1) ← nmea_bytes E r s; '(r2, o2) ← nmea_read E r1 t; Some (r2, o1 ++ o2).
Proof.
  intros Ht. revert r. induction s as [|c s IH]; intros r.
  - cbn. destruct (nmea_read E r t) as [[r2 o2]|]; done.
  - cbn [app nmea_read nmea_bytes].
    replace (match s ++ t with [] => true | _ :: _ => false end) with false
      by (by destruct s; destruct t).
    destruct (nmea_reader_addc E r c false) as [[r1 o1]|]; [|done]. cbn [mbind option_bind].
    rewrite IH. destruct (nmea_bytes E r1 s) as [[r2 o2]|]; [|done]. cbn [mbind option_bind].
    destruct (nmea_read E r2 t) as [[r3 o3]|]; [|done]. cbn. by rewrite app_assoc.
Qed.

Lemma nmea_bytes_app r s t :
  nmea_bytes E r (s ++ t) =
  '(r1, o1) ← nmea_bytes E r s; '(r2, o2) ← nmea_bytes E r1 t; Some (r2, o1 ++ o2).
Proof.
  revert r. induction s as [|c s IH]; intros r.
  - cbn. by destruct (nmea_bytes E r t) as [[r2 o2]|].
  - cbn [app nmea_bytes]. destruct (nmea_reader_addc E r c false) as [[r1 o1]|]; [|done].
    cbn [mbind option_bind]. rewrite IH. destruct (nmea_bytes E r1 s) as [[r2 o2]|]; [|done].
    cbn [mbind option_bind]. destruct (nmea_bytes E r2 t) as [[r3 o3]|]; [|done].
    cbn. by rewrite app_assoc.
Qed.

Lemma insert_past (b : list Z) c (l : list Z) :
  zlen b < zlen l ->
  <[Z.to_nat (zlen b) := c]> (b ++ zdrop (zlen b) l) = (b ++ [c]) ++ zdrop (zlen (b ++ [c])) l.
Proof.
  intros Hl. pose proof (zlen_nonneg b). rewrite zdrop_cons, <- app_assoc, zlen_app by lia.
  change (zlen [c]) with 1. unfold zlen. rewrite Nat2Z.id.
  rewrite insert_app_r_alt by lia. by rewrite Nat.sub_diag.
Qed.

(** The characters before the newline fill the buffer. *)
Lemma nmea_bytes_collect b s r r0 :
  (10 ∉ s) -> r = load r0 b -> zlen (rin r0) = NMEA_MAX_SIZE + 1 ->
  zlen b + zlen s <= NMEA_MAX_SIZE -> nmea_bytes E r s = Some (load r0 (b ++ s), []).
Proof.
  revert b r. induction s as [|c s IH]; intros b r Hn -> Hr Hl.
  - cbn. by rewrite app_nil_r.
  - apply not_elem_of_cons in Hn as [Hc Hn]. rewrite zlen_cons in Hl. pose proof (zlen_nonneg s).
    pose proof (zlen_nonneg b). cbn [nmea_bytes]. unfold nmea_reader_addc.
    cbn [load set_pos overflow pos rin set_in]. rewrite (proj2 (Z.leb_gt _ (zlen b))) by lia.
    rewrite (proj2 (Z.ltb_ge (zlen b) 0)) by lia. cbn [orb].
    unfold array_set. rewrite (proj2 (Z.leb_le 0 _)) by lia.
    rewrite (proj2 (Z.ltb_lt _ _)) by (rewrite zlen_app, zlen_zdrop; lia).
    cbn [andb mbind option_bind]. rewrite (proj2 (Z.eqb_neq c 10)) by done.
    rewrite insert_past by lia. cbn [mbind option_bind].
    rewrite (IH (b ++ [c]) _ Hn); [by rewrite <- app_assoc| |done|zlist; lia].
    unfold load, set_pos, set_in. cbn. by rewrite zlen_app.
Qed.

Lemma load_nil r : idle r -> load r [] = r.
Proof. destruct r. intros [Hp Ho]. cbn in *. by subst. Qed.

(** What follows the parsing of a sentence. *)
Definition deliver (p : option (NmeaReader * list gps_out)) : option (NmeaReader * list gps_out) :=
  '(r, o) ← p;
  Some (set_pos r 0 (overflow r), o ++ [OutNmea (timestamp (rfix r)) (ztake (pos r) (rin r))]).

Lemma addc_newline r0 l tag :
  zlen (rin r0) = NMEA_MAX_SIZE + 1 -> zlen l < NMEA_MAX_SIZE ->
  nmea_reader_addc E (load r0 l) 10 tag = deliver (nmea_reader_parse E (load r0 (l ++ [10])) tag).
Proof.
  intros Hr Hl. pose proof (zlen_nonneg l). unfold nmea_reader_addc.
  cbn [load set_pos overflow pos rin set_in]. rewrite (proj2 (Z.leb_gt _ (zlen l))) by lia.
  rewrite (proj2 (Z.ltb_ge (zlen l) 0)) by lia. cbn [orb].
  unfold array_set. rewrite (proj2 (Z.leb_le 0 _)) by lia.
  rewrite (proj2 (Z.ltb_lt _ _)) by (rewrite zlen_app, zlen_zdrop; lia).
  cbn [andb]. rewrite insert_past by lia. cbn [mbind option_bind Z.eqb Pos.eqb].
  change (zlen l + 1) with (zlen l + zlen [10]). by rewrite <- zlen_app.
Qed.

Lemma bytes_sentence r l :
  idle r -> zlen (rin r) = NMEA_MAX_SIZE + 1 -> (10 ∉ l) -> zlen l < NMEA_MAX_SIZE ->
  nmea_bytes E r (l ++ [10]) = deliver (nmea_reader_parse E (load r (l ++ [10])) false).
Proof.
  intros Hi Hr Hn Hl. rewrite nmea_bytes_app, (nmea_bytes_collect [] l r r);
    [|done|by rewrite load_nil|done|rewrite zlen_nil; lia].
  cbn [mbind option_bind app nmea_bytes]. rewrite addc_newline by done.
  destruct (deliver _) as [[r1 o1]|]; [|done]. cbn. by rewrite app_nil_r.
Qed.

Lemma read_sentence r l :
  idle r -> zlen (rin r) = NMEA_MAX_SIZE + 1 -> (10 ∉ l) -> zlen l < NMEA_MAX_SIZE ->
  nmea_read E r (l ++ [10]) = deliver (nmea_reader_parse E (load r (l ++ [10])) true).
Proof.
  intros Hi Hr Hn Hl. rewrite nmea_read_app, (nmea_bytes_collect [] l r r);
    [|done|by rewrite load_nil|done|rewrite zlen_nil; lia|done].
  cbn [mbind option_bind app nmea_read]. rewrite addc_newline by done.
  destruct (deliver _) as [[r1 o1]|]; [|done]. cbn. by rewrite app_nil_r.
Qed.

(** * A sentence in the buffer *)

(** A field without comma and newline. *)
Definition clean (f : list Z) : Prop := (44 ∉ f) /\ (10 ∉ f).

Lemma clean_fields fs : Forall clean fs -> Forall is_field fs.
Proof. intros HF. eapply Forall_impl; [done|]. by intros f [? _]. Qed.

Lemma clean_commas fs : Forall clean fs -> (10 ∉ commas fs).
Proof.
  induction 1 as [|f [|g fs] [_ Hf] _ IH]; [set_solver|done|].
  rewrite commas_cons. set_solver.
Qed.

(** A sentence without its newline. *)
Definition sentence_body (fs : list (list Z)) (ck : list Z) : list Z :=
  36 :: commas fs ++ 42 :: ck ++ [13].

Lemma sentence_split fs ck : sentence fs ck = sentence_body fs ck ++ [10].
Proof. unfold sentence, sentence_body. cbn. rewrite <- !app_assoc. cbn. by rewrite <- app_assoc. Qed.

Lemma body_newline fs ck : Forall clean fs -> (10 ∉ ck) -> (10 ∉ sentence_body fs ck).
Proof.
  intros HF Hc. pose proof (clean_commas fs HF). unfold sentence_body. set_solver.
Qed.

(** The tokens of a sentence in the buffer. *)
Definition tokens_of (fs : list (list Z)) (ck junk : list Z) : list Token :=
  nmea_tokenizer_init (sentence fs ck ++ junk) (zlen (sentence fs ck)).

(** Parsing a sentence in the buffer dispatches on its type, five letters [ty]. *)
Lemma parse_loaded r ty fs ck tag :
  zlen ty = 5 -> Forall clean (ty :: fs) -> zlen ck = 2 ->
  exists x, let ts := tokens_of (ty :: fs) ck (zdrop (zlen (sentence (ty :: fs) ck)) (rin r)) in
  nmea_reader_parse E (load r (sentence (ty :: fs) ck)) tag =
  (r1 ← parse_sentence E (load r (sentence (ty :: fs) ck)) (ty ++ x) ts;
   '(r2, o1) ← report_fix E r1 tag;
   let '(r3, o2) := report_svs E r2 tag in Some (r3, o1 ++ o2)).
Proof.
  intros Hty HF Hck. pose proof (clean_fields _ HF) as HF'.
  pose proof (sentence_field (ty :: fs) ck (zdrop (zlen (sentence (ty :: fs) ck)) (rin r)) 0 HF' Hck)
    as (Hl & c & x & Hp & _); [unfold MAX_NMEA_TOKENS; lia|].
  exists (c :: x). unfold nmea_reader_parse. cbn [load set_pos set_in pos rin].
  assert (9 <= zlen (sentence (ty :: fs) ck)).
  { unfold sentence. rewrite zlen_cons, zlen_app, zlen_cons, zlen_app, Hck. change (zlen [13; 10]) with 2.
    destruct fs as [|f fs]; [cbn [commas]; lia|]. rewrite commas_cons, zlen_app, zlen_cons.
    pose proof (zlen_nonneg (commas (f :: fs))). lia. }
  rewrite (proj2 (Z.ltb_ge _ 9)) by lia. change (nth (Z.to_nat 0) (ty :: fs) []) with ty in Hl, Hp.
  rewrite Hl, Hp.
  rewrite (proj2 (Z.ltb_ge (zlen ty) 5)) by lia. done.
Qed.

(** * Satellites in view *)

(** A satellite as a GSV sentence lists it. *)
Record SvText := mkSvText {
  t_id : list Z;
  t_ele : list Z;
  t_azi : list Z;
  t_snr : list Z
}.

Definition sv_fields (s : SvText) : list (list Z) := [t_id s; t_ele s; t_azi s; t_snr s].

Definition is_int_text (f : list Z) : Prop := Forall is_digit f /\ dec_value 0 f <= 2147483647 - 200.

Definition sv_text_ok (s : SvText) : Prop :=
  is_int_text (t_id s) /\ is_int_text (t_ele s) /\ is_int_text (t_azi s) /\
  clean (t_snr s) /\ zlen (t_snr s) < 16.

(** The number the reader gives a satellite. *)
Definition sv_number (bds : bool) (s : SvText) : Z :=
  if bds then dec_value 0 (t_id s) + 200 else dec_value 0 (t_id s).

(** The satellites that have a number of a known constellation. *)
Definition sv_accepted (id : Z) : bool :=
  negb ((id <=? 0) || ((id <? 65) && (GPS_MAX_SVS <? id)) || ((96 <? id) && (id <? 200))
        || (232 <? id)).

(** The table entry of a satellite. *)
Definition sv_entry (used : list Z) (bds : bool) (s : SvText) : SvInfo :=
  mkSv (sv_number bds s) (float_of_double (strtod (t_snr s)))
       (float_of_int (dec_value 0 (t_ele s))) (float_of_int (dec_value 0 (t_azi s)))
       (1 =? nth (Z.to_nat (sv_number bds s)) used 0).

Definition sv_entries (used : list Z) (bds : bool) (ss : list SvText) : list SvInfo :=
  map (sv_entry used bds) (List.filter (fun s => sv_accepted (sv_number bds s)) ss).

(** The list [es] written over [l] from index [n] on. *)
Definition splice {A} (n : Z) (es l : list A) : list A :=
  ztake n l ++ es ++ zdrop (n + zlen es) l.

Lemma splice_nil {A} n (l : list A) : splice n [] l = l.
Proof. unfold splice. rewrite zlen_nil, Z.add_0_r. apply ztake_zdrop. Qed.

Lemma splice_store {A} n (es l : list A) e :
  0 <= n -> n + zlen es < zlen l ->
  <[Z.to_nat (n + zlen es) := e]> (splice n es l) = splice n (es ++ [e]) l.
Proof.
  intros Hn Hl. pose proof (zlen_nonneg es). unfold splice, ztake, zdrop, zlen in *.
  rewrite insert_app_r_alt by (rewrite length_take; lia). rewrite length_take. f_equal.
  rewrite insert_app_r_alt by lia.
  destruct (lookup_lt_is_Some_2 l (Z.to_nat (n + Z.of_nat (length es)))) as [y Hy]; [lia|].
  rewrite (drop_S _ _ _ Hy), <- app_assoc. f_equal.
  replace (Z.to_nat (n + Z.of_nat (length es)) - Z.to_nat n `min` length l - length es)%nat
    with 0%nat by lia.
  cbn. rewrite length_app. do 2 f_equal. cbn. lia.
Qed.

Lemma zlen_splice {A} n (es l : list A) :
  0 <= n -> n + zlen es <= zlen l -> zlen (splice n es l) = zlen l.
Proof.
  intros Hn Hl. pose proof (zlen_nonneg es). unfold splice.
  rewrite !zlen_app, zlen_ztake, zlen_zdrop by lia. lia.
Qed.

(** The reader with the satellites [es] collected behind the first [n]. *)
Definition collected (r : NmeaReader) (es : list SvInfo) : NmeaReader :=
  set_gnss r (zlen es)
    (mkTable (num_svs (sv_gnss r)) (splice (num_svs (sv_gnss r)) es (sv_list (sv_gnss r))))
    (sv_used_in_fix r).

(** The tables have room and their sizes. *)
Definition room (r : NmeaReader) (n : Z) : Prop :=
  hw_ok /\ zlen (sv_list (sv_gnss r)) = GNSS_MAX_SVS /\ zlen (sv_used_in_fix r) = SV_USED_SIZE /\
  0 <= num_svs (sv_gnss r) /\ num_svs (sv_gnss r) + n <= GNSS_MAX_SVS.

Lemma room_weaken r m n : m <= n -> room r n -> room r m.
Proof. intros Hm (? & ? & ? & ? & ?). by repeat split; try lia; apply H0. Qed.

Lemma update_collected r es s bds a b c :
  sv_text_ok s -> is_tok (t_ele s) a -> is_tok (t_azi s) b -> is_tok (t_snr s) c ->
  room r (zlen es + 1) ->
  nmea_reader_update_sv_status_gnss (collected r es) (sv_number bds s) a b c =
  Some (collected r (es ++ sv_entries (sv_used_in_fix r) bds [s])).
Proof.
  intros (_ & [He1 He2] & [Ha1 Ha2] & _ & Hs) Hta Htb Htc ([_ Hhw] & Hll & Hu & Hn & Hr).
  pose proof (zlen_nonneg es). unfold nmea_reader_update_sv_status_gnss, sv_entries.
  cbn [List.filter]. unfold sv_accepted. cbn [collected set_gnss sv_count sv_gnss num_svs sv_list sv_used_in_fix].
  rewrite (proj2 (Z.leb_gt GNSS_MAX_SVS (zlen es))) by lia. rewrite orb_false_r.
  set (id := sv_number bds s). set (g := orb (orb (orb _ _) _) _).
  destruct g eqn:Eg; cbn [negb map]; [by rewrite app_nil_r|]. subst g. reflect_bools.
  rewrite int_of_id by (unfold is_int; lia).
  rewrite (proj2 (Z.leb_gt GNSS_MAX_SVS _)) by lia.
  assert (array_get (sv_used_in_fix r) id = Some (nth (Z.to_nat id) (sv_used_in_fix r) 0)) as ->.
  { unfold array_get. rewrite (proj2 (Z.leb_le 0 id)) by lia. apply byte_at_lookup.
    unfold SV_USED_SIZE in Hu. lia. }
  cbn [mbind option_bind]. unfold array_set. rewrite zlen_splice by lia.
  rewrite (proj2 (Z.leb_le 0 _)), (proj2 (Z.ltb_lt _ (zlen (sv_list _)))) by lia. cbn [andb option_bind].
  rewrite (Z.add_comm (zlen es) (num_svs (sv_gnss r))), splice_store by lia.
  unfold collected, set_gnss; cbn. rewrite zlen_app. unfold sv_entry. fold id.
  rewrite (tok_int_value _ _ Hta He1), (tok_int_value _ _ Htb Ha1), (tok_float_value _ _ Htc Hs) by lia.
  done.
Qed.

Lemma sv_entries_app used bds ss ts :
  sv_entries used bds (ss ++ ts) = sv_entries used bds ss ++ sv_entries used bds ts.
Proof. unfold sv_entries. by rewrite List.filter_app, map_app. Qed.

Lemma zlen_sv_entries used bds ss : zlen (sv_entries used bds ss) <= zlen ss.
Proof.
  unfold sv_entries, zlen. rewrite length_map. apply inj_le, List.filter_length_le.
Qed.

Lemma sate_number_value bds s t :
  is_int_text (t_id s) -> is_tok (t_id s) t -> sate_number bds t = sv_number bds s.
Proof.
  intros [Hd Hv] Ht. unfold sate_number, sv_number. rewrite (tok_int_value _ _ Ht Hd) by lia.
  destruct bds; [|done]. apply int_of_id. pose proof (dec_value_mono _ 0 Hd). unfold is_int. lia.
Qed.

(** The loop over the satellites of a sentence. *)
Lemma gsv_loop_collected r bds ts ss n idx es :
  Forall sv_text_ok ss -> zlen ss <= Z.of_nat n -> 0 <= idx ->
  (forall j, 0 <= j < 4 * zlen ss ->
     is_tok (nth (Z.to_nat j) (concat (map sv_fields ss)) []) (nmea_tokenizer_get ts (4 * (idx + 1) + j))) ->
  room r (zlen es + zlen ss) ->
  gsv_loop nmea_reader_update_sv_status_gnss n idx (idx + zlen ss) bds ts (collected r es) =
  Some (collected r (es ++ sv_entries (sv_used_in_fix r) bds ss)).
Proof.
  intros HF. revert n idx es. induction HF as [|s ss Hs HF IH]; intros n idx es Hn Hidx Ht Hr.
  - rewrite zlen_nil, Z.add_0_r. destruct n; cbn [gsv_loop]; rewrite ?Z.ltb_irrefl;
      unfold sv_entries; cbn; by rewrite app_nil_r.
  - rewrite zlen_cons in *. pose proof (zlen_nonneg ss). destruct n as [|n]; [lia|].
    cbn [gsv_loop]. rewrite (proj2 (Z.ltb_lt idx _)) by lia.
    pose proof (Ht 0 ltac:(lia)) as T0. pose proof (Ht 1 ltac:(lia)) as T1.
    pose proof (Ht 2 ltac:(lia)) as T2. pose proof (Ht 3 ltac:(lia)) as T3.
    rewrite Z.add_0_r in T0. cbn in T0, T1, T2, T3.
    rewrite (sate_number_value bds s) by (done || apply Hs).
    rewrite (update_collected r es s) by (done || (eapply room_weaken; [|done]; lia)).
    cbn [mbind option_bind]. change (s :: ss) with ([s] ++ ss). rewrite sv_entries_app, app_assoc.
    replace (idx + (1 + zlen ss)) with (idx + 1 + zlen ss) by lia.
    pose proof (zlen_sv_entries (sv_used_in_fix r) bds [s]) as Hl. change (zlen [s]) with 1 in Hl.
    apply IH; [lia|lia| |].
    + intros j Hj. specialize (Ht (j + 4) ltac:(lia)).
      replace (4 * (idx + 1) + (j + 4)) with (4 * (idx + 1 + 1) + j) in Ht by lia.
      replace (Z.to_nat (j + 4)) with (4 + Z.to_nat j)%nat in Ht by lia. exact Ht.
    + eapply room_weaken; [|done]. rewrite zlen_app. lia.
Qed.

(** The constellations that send GSV sentences. *)
Inductive talker := TGps | TGlonass | TBeidou.

Definition gsv_type (t : talker) : list Z :=
  match t with
  | TGps => bytes_of "GPGSV"
  | TGlonass => bytes_of "GLGSV"
  | TBeidou => bytes_of "BDGSV"
  end.

Definition is_bds (t : talker) : bool := match t with TBeidou => true | _ => false end.

Definition gsv_fields (num seq cnt : Z) (ss : list SvText) : list (list Z) :=
  [dec num; dec seq; dec cnt] ++ concat (map sv_fields ss).

Definition gsv_sentence (t : talker) (num seq cnt : Z) (ss : list SvText) (ck : list Z) : list Z :=
  sentence (gsv_type t :: gsv_fields num seq cnt ss) ck.

Lemma clean_digits f : Forall is_digit f -> clean f.
Proof.
  rewrite Forall_forall. unfold is_digit. intros HF. split; intros Hin; specialize (HF _ Hin); lia.
Qed.

Lemma clean_sv_fields ss : Forall sv_text_ok ss -> Forall clean (concat (map sv_fields ss)).
Proof.
  induction 1 as [|s ss ((H1 & _) & (H2 & _) & (H3 & _) & H4 & _) _ IH]; [done|].
  cbn. rewrite !Forall_cons. auto using clean_digits.
Qed.

Lemma clean_gsv t num seq cnt ss :
  0 <= num < 2147483648 -> 0 <= seq < 2147483648 -> 0 <= cnt < 2147483648 -> Forall sv_text_ok ss ->
  Forall clean (gsv_type t :: gsv_fields num seq cnt ss).
Proof.
  intros Hn Hs Hc HF. unfold gsv_fields. cbn [app].
  rewrite !Forall_cons. split; [by destruct t; split; apply (bool_decide_unpack _); vm_compute|].
  do 3 (split; [by apply clean_digits, dec_int_text|]). by apply clean_sv_fields.
Qed.

(** Evaluate the comparisons of a known sentence type. *)
Ltac eval_type :=
  repeat match goal with
  | |- context [memeq ?p ?s] =>
      let v := eval vm_compute in (memeq p s) in change (memeq p s) with v
  end; cbn [andb orb negb].

(** The dispatch on the type of a GSV sentence. *)
Lemma parse_sentence_gsv r t x ts :
  cb_mtk E = true -> parse_sentence E r (gsv_type t ++ x) ts = parse_gsv_mtk r (is_bds t) ts.
Proof. intros Hcb. unfold parse_sentence. rewrite Hcb. destruct t, x; by eval_type. Qed.

Lemma zlen_sv_fields ss : zlen (concat (map sv_fields ss)) = 4 * zlen ss.
Proof. induction ss as [|s ss IH]; [done|]. cbn. rewrite !zlen_cons, IH. lia. Qed.

Lemma gsv_header_value t num seq cnt ss ck junk :
  1 <= num < 1000 -> 1 <= seq < 1000 -> 0 <= cnt < 1000 -> Forall sv_text_ok ss -> zlen ck = 2 ->
  gsv_header (tokens_of (gsv_type t :: gsv_fields num seq cnt ss) ck junk) =
  (num, seq, cnt, Z.min 4 (cnt - (seq - 1) * 4)).
Proof.
  intros Hn Hs Hc HF Hck. unfold gsv_header, tokens_of, NMEA_MAX_SV_INFO.
  assert (Forall is_field (gsv_type t :: gsv_fields num seq cnt ss)) as HF'
    by (apply clean_fields, clean_gsv; (done || lia)).
  set (fs := gsv_type t :: gsv_fields num seq cnt ss) in *.
  assert (forall i v, 0 <= i < MAX_NMEA_TOKENS -> nth (Z.to_nat i) fs [] = dec v -> 0 <= v < 2147483648 ->
    tok_int (nmea_tokenizer_get (nmea_tokenizer_init (sentence fs ck ++ junk) (zlen (sentence fs ck))) i) = v)
    as Hf.
  { intros i v Hi Hnth Hv. destruct (dec_int_text v Hv) as [Hd Hval].
    rewrite (tok_int_value (dec v)); [done| |done|lia]. rewrite <- Hnth. by apply sentence_field. }
  unfold MAX_NMEA_TOKENS in Hf.
  rewrite (Hf 1 num), (Hf 2 seq), (Hf 3 cnt) by (done || lia).
  rewrite !int_of_id by (rewrite ?int_of_id; unfold is_int; lia). done.
Qed.

(** The satellites of a sentence are where the loop looks for them. *)
Lemma gsv_tokens t num seq cnt ss ck junk j :
  1 <= num < 1000 -> 1 <= seq < 1000 -> 0 <= cnt < 1000 -> Forall sv_text_ok ss -> zlen ck = 2 ->
  zlen ss <= 4 -> 0 <= j < 4 * zlen ss ->
  is_tok (nth (Z.to_nat j) (concat (map sv_fields ss)) [])
    (nmea_tokenizer_get (tokens_of (gsv_type t :: gsv_fields num seq cnt ss) ck junk) (4 * (0 + 1) + j)).
Proof.
  intros Hn Hs Hc HF Hck Hss Hj.
  assert (Forall is_field (gsv_type t :: gsv_fields num seq cnt ss)) as HF'
    by (apply clean_fields, clean_gsv; (done || lia)).
  pose proof (sentence_field _ ck junk (4 * (0 + 1) + j) HF' Hck) as HT.
  replace (Z.to_nat (4 * (0 + 1) + j)) with (4 + Z.to_nat j)%nat in HT by lia.
  apply HT. unfold MAX_NMEA_TOKENS. lia.
Qed.

(** Between sentences: the satellites [es] stand behind the first [n] of the table [l]. *)
Record gathered (n : Z) (l : list SvInfo) (used : list Z) (es : list SvInfo) (r : NmeaReader)
    : Prop := {
  g_idle : idle r;
  g_in : zlen (rin r) = NMEA_MAX_SIZE + 1;
  g_table : sv_gnss r = mkTable n (splice n es l);
  g_used : sv_used_in_fix r = used
}.

(** Where no read ends, nothing but the sentence itself is reported. *)
Lemma deliver_quiet r :
  deliver ('(r2, o1) ← report_fix E r false; let '(r3, o2) := report_svs E r2 false in Some (r3, o1 ++ o2)) =
  Some (set_pos r 0 (overflow r), [OutNmea (timestamp (rfix r)) (ztake (pos r) (rin r))]).
Proof.
  unfold report_fix. rewrite andb_false_r. cbn [mbind option_bind]. unfold report_svs.
  rewrite !andb_false_r. by destruct (cb_mtk E).
Qed.

(** The table after a sentence of the set. *)
Definition gsv_done (num seq n : Z) (es : list SvInfo) : Z := if seq =? num then n + zlen es else n.

Lemma parse_gsv_gathered r n l used es t num seq cnt ss ck junk :
  sv_gnss r = mkTable n (splice n es l) -> sv_used_in_fix r = used ->
  hw_ok -> zlen l = GNSS_MAX_SVS -> zlen used = SV_USED_SIZE -> 0 <= n ->
  n + zlen es + zlen ss <= GNSS_MAX_SVS -> zlen es + zlen ss <= cnt ->
  1 <= num < 1000 -> 1 <= seq < 1000 -> 0 <= cnt < 1000 -> Forall sv_text_ok ss -> zlen ck = 2 ->
  zlen ss = Z.min 4 (cnt - (seq - 1) * 4) ->
  (if seq =? 1 then es = [] else sv_count r = zlen es) ->
  let es' := es ++ sv_entries used (is_bds t) ss in
  parse_gsv_mtk r (is_bds t) (tokens_of (gsv_type t :: gsv_fields num seq cnt ss) ck junk) =
  Some (set_gnss r (zlen es') (mkTable (gsv_done num seq n es') (splice n es' l)) used).
Proof.
  intros Ht Hu Hhw Hl Hlu Hn Hroom Hcnt Hnum Hseq Hc HF Hck Hss Hes es'.
  pose proof (zlen_nonneg es). pose proof (zlen_nonneg ss).
  unfold parse_gsv_mtk. rewrite gsv_header_value by done. rewrite <- Hss.
  set (base := set_gnss r 0 (mkTable n l) used).
  assert ((if seq =? 1 then set_gnss r 0 (sv_gnss r) (sv_used_in_fix r) else r) = collected base es) as ->.
  { unfold collected, base, set_gnss. cbn. rewrite Ht, Hu. case_if; [by subst es|].
    rewrite <- Hes, <- Hu, <- Ht. by destruct r. }
  change (zlen ss) with (0 + zlen ss) at 1.
  rewrite (gsv_loop_collected base (is_bds t)); [|done|lia|lia|intros j Hj; apply gsv_tokens; (done || lia)
    |unfold room; cbn; split; [done|lia]].
  change (sv_used_in_fix base) with used. fold es'. cbn [mbind option_bind].
  assert (zlen es' <= zlen es + zlen ss).
  { unfold es'. rewrite zlen_app. pose proof (zlen_sv_entries used (is_bds t) ss). lia. }
  unfold collected, base, gsv_done. cbn. destruct Hhw as [_ Hmax]. pose proof (zlen_nonneg es').
  case_if; [|done]. rewrite (proj2 (Z.leb_le _ cnt)) by lia. by rewrite int_of_id by (unfold is_int; lia).
Qed.

Lemma gsv_sentence_step r n l used es t num seq cnt ss ck :
  cb_mtk E = true -> gathered n l used es r ->
  hw_ok -> zlen l = GNSS_MAX_SVS -> zlen used = SV_USED_SIZE -> 0 <= n ->
  n + zlen es + zlen ss <= GNSS_MAX_SVS -> zlen es + zlen ss <= cnt ->
  1 <= num < 1000 -> 1 <= seq < 1000 -> 0 <= cnt < 1000 -> Forall sv_text_ok ss ->
  zlen ck = 2 -> (10 ∉ ck) ->
  zlen ss = Z.min 4 (cnt - (seq - 1) * 4) ->
  zlen (gsv_sentence t num seq cnt ss ck) <= NMEA_MAX_SIZE ->
  (if seq =? 1 then es = [] else sv_count r = zlen es) ->
  let es' := es ++ sv_entries used (is_bds t) ss in
  exists r', nmea_bytes E r (gsv_sentence t num seq cnt ss ck) =
    Some (r', [OutNmea (timestamp (rfix r)) (gsv_sentence t num seq cnt ss ck)]) /\
  idle r' /\ zlen (rin r') = NMEA_MAX_SIZE + 1 /\ sv_count r' = zlen es' /\
  sv_used_in_fix r' = used /\ rfix r' = rfix r /\
  sv_gnss r' = mkTable (gsv_done num seq n es') (splice n es' l).
Proof.
  intros Hcb [Hidle Hin Ht Hu] Hhw Hl Hlu Hn Hroom Hcnt Hnum Hseq Hc HF Hck Hck' Hss Hlen Hes es'.
  assert (Forall clean (gsv_type t :: gsv_fields num seq cnt ss)) as Hclean
    by (apply clean_gsv; (done || lia)).
  unfold gsv_sentence in *. rewrite sentence_split in Hlen |- *. rewrite zlen_app in Hlen.
  change (zlen [10]) with 1 in Hlen. rewrite bytes_sentence; [|done..|by apply body_newline|lia].
  rewrite <- sentence_split.
  destruct (parse_loaded r (gsv_type t) (gsv_fields num seq cnt ss) ck false) as (x & ->);
    [by destruct t|done..|].
  rewrite parse_sentence_gsv by done.
  rewrite (parse_gsv_gathered _ n l used es) by done.
  cbn [mbind option_bind]. fold es'. rewrite deliver_quiet.
  cbn [load set_gnss set_pos set_in pos rin rfix overflow]. rewrite ztake_app_length. eexists. split; [reflexivity|].
  split; [done|]. split; [|done]. cbn [rin set_pos set_gnss load set_in]. rewrite zlen_app, zlen_zdrop; [lia|].
  rewrite sentence_split, zlen_app. change (zlen [10]) with 1.
  pose proof (zlen_nonneg (sentence_body (gsv_type t :: gsv_fields num seq cnt ss) ck)). lia.
Qed.

(** The set of GSV sentences for groups of satellites, each with its checksum. *)
Fixpoint gsv_set (t : talker) (num seq cnt : Z) (gs : list (list SvText * list Z)) : list (list Z) :=
  match gs with
  | [] => []
  | (ss, ck) :: gs' => gsv_sentence t num seq cnt ss ck :: gsv_set t num (seq + 1) cnt gs'
  end.

(** Four satellites in every sentence but the last. *)
Fixpoint grouped (gs : list (list SvText * list Z)) : Prop :=
  match gs with
  | [] => False
  | [(ss, _)] => zlen ss <= 4
  | (ss, _) :: gs' => zlen ss = 4 /\ grouped gs'
  end.

Definition group_ok (g : list SvText * list Z) : Prop :=
  Forall sv_text_ok g.1 /\ zlen g.2 = 2 /\ (10 ∉ g.2).

Lemma gsv_set_run gs t num seq cnt n l used es r :
  cb_mtk E = true -> hw_ok -> zlen l = GNSS_MAX_SVS -> zlen used = SV_USED_SIZE -> 0 <= n ->
  Forall group_ok gs -> grouped gs -> 1 <= seq -> num = seq - 1 + zlen gs -> num < 1000 ->
  cnt = 4 * (seq - 1) + zlen (concat (map fst gs)) -> cnt < 1000 ->
  zlen es <= 4 * (seq - 1) -> n + cnt <= GNSS_MAX_SVS ->
  Forall (fun s => zlen s <= NMEA_MAX_SIZE) (gsv_set t num seq cnt gs) ->
  gathered n l used es r -> (if seq =? 1 then es = [] else sv_count r = zlen es) ->
  let es' := es ++ sv_entries used (is_bds t) (concat (map fst gs)) in
  exists r' o, nmea_bytes E r (concat (gsv_set t num seq cnt gs)) = Some (r', o) /\
    nmea_of o = gsv_set t num seq cnt gs /\ sv_gnss r' = mkTable (n + zlen es') (splice n es' l).
Proof.
  intros Hcb Hhw Hl Hlu Hn. revert seq es r.
  induction gs as [|[ss ck] gs IH];
    intros seq es r HF Hg Hseq Hnum Hnum' Hcnt Hcnt' Hes Hroom Hlen Hgath Hes1; [done|].
  apply Forall_cons in HF as [(Hss & Hck & Hck') HF]. cbn [fst snd] in *. cbn [gsv_set] in *.
  apply Forall_cons in Hlen as [Hlen1 Hlen].
  cbn [map concat fst] in *. rewrite zlen_app in Hcnt. rewrite zlen_cons in Hnum.
  pose proof (zlen_nonneg gs). pose proof (zlen_nonneg ss). pose proof (zlen_nonneg es).
  pose proof (zlen_nonneg (concat (map fst gs))).
  assert (zlen ss = Z.min 4 (cnt - (seq - 1) * 4)) as Hmin.
  { cbn [grouped] in Hg. destruct gs as [|g gs]; [|destruct Hg; lia].
    change (zlen (concat (map fst []))) with 0 in *. lia. }
  destruct (gsv_sentence_step r n l used es t num seq cnt ss ck)
    as (r1 & Hb & Hidle & Hin & Hc & Hu & Hfx & Ht); try done; try lia.
  rewrite nmea_bytes_app, Hb. cbn [mbind option_bind]. rewrite sv_entries_app, app_assoc.
  set (es1 := es ++ sv_entries used (is_bds t) ss) in *.
  assert (zlen es1 <= zlen es + zlen ss).
  { unfold es1. rewrite zlen_app. pose proof (zlen_sv_entries used (is_bds t) ss). lia. }
  unfold gsv_done in Ht. destruct gs as [|g gs].
  - rewrite zlen_nil in Hnum. rewrite (proj2 (Z.eqb_eq seq num)) in Ht by lia.
    eexists _, _; split; [reflexivity|]. cbn. by rewrite app_nil_r.
  - rewrite (zlen_cons g gs) in Hnum. pose proof (zlen_nonneg gs).
    rewrite (proj2 (Z.eqb_neq seq num)) in Ht by lia. destruct Hg as [Hs4 Hg].
    destruct (IH (seq + 1) es1 r1) as (r2 & o & Hb2 & Ho & Ht2); try done; try lia.
    { rewrite zlen_cons. lia. }
    { case_if; [lia|done]. }
    rewrite Hb2. cbn [mbind option_bind]. eexists _, _; split; [reflexivity|].
    split; [|done]. cbn [nmea_of omap list_omap app]. by f_equal.
Qed.

(** C18: A set of GSV sentences, four satellites in each but the last, leaves in the
    satellite table exactly the satellites it lists that have the number of a known
    constellation: their number (plus 200 for BeiDou), signal, elevation and azimuth as
    printed and whether the fix uses them, in order, behind those of the sets before, with
    the count to match; and every sentence is handed on. *)
Theorem gsv_set_listed gs t r :
  cb_mtk E = true -> hw_ok -> reader_inv E 1 r -> idle r ->
  Forall group_ok gs -> grouped gs -> zlen (concat (map fst gs)) < 1000 -> zlen gs < 1000 ->
  num_svs (sv_gnss r) + zlen (concat (map fst gs)) <= GNSS_MAX_SVS ->
  let sentences := gsv_set t (zlen gs) 1 (zlen (concat (map fst gs))) gs in
  Forall (fun s => zlen s <= NMEA_MAX_SIZE) sentences ->
  let es := sv_entries (sv_used_in_fix r) (is_bds t) (concat (map fst gs)) in
  exists r' o, nmea_bytes E r (concat sentences) = Some (r', o) /\ nmea_of o = sentences /\
    sv_gnss r' = mkTable (num_svs (sv_gnss r) + zlen es)
                         (splice (num_svs (sv_gnss r)) es (sv_list (sv_gnss r))).
Proof.
  intros Hcb Hhw Hi Hidle HF Hg Hc1 Hc2 Hroom sentences Hlen es.
  pose proof (inv_num _ _ _ Hi) as HN. unfold active in HN. rewrite Hcb in HN.
  apply (gsv_set_run gs t (zlen gs) 1 _ (num_svs (sv_gnss r)) (sv_list (sv_gnss r))
           (sv_used_in_fix r) [] r); try done; try lia; try apply Hi.
  constructor; [done|apply Hi| |done]. rewrite splice_nil. by destruct (sv_gnss r).
Qed.

(** * A position *)

(** A number of two digits. *)
Definition digits2 (n : Z) : list Z := [48 + n / 10; 48 + n mod 10].

Lemma zlen_digits2 n : zlen (digits2 n) = 2.
Proof. done. Qed.

Lemma digits2_ok n :
  0 <= n < 100 -> Forall is_digit (digits2 n) /\ dec_value 0 (digits2 n) = n.
Proof.
  intros Hn. unfold digits2, is_digit. cbn [dec_value].
  split; [repeat constructor|]; Z.div_mod_to_equations; lia.
Qed.

Lemma str2int_digits2 n c x : 0 <= n < 100 -> c <> 45 -> str2int (digits2 n ++ c :: x) 2 = n.
Proof.
  intros Hn Hc. destruct (digits2_ok n Hn) as [Hd Hv]. rewrite <- Hv at 2.
  change 2 with (zlen (digits2 n)). apply str2int_value; (done || lia).
Qed.

(** The fraction of a second: none, or tenths printed with three digits (a receiver reports
    at most ten times a second). *)
Definition frac_text (tenths : option Z) : list Z :=
  match tenths with None => [] | Some x => [46; 48 + x; 48; 48] end.

Definition frac_ok (tenths : option Z) : Prop :=
  match tenths with None => True | Some x => 0 <= x < 10 end.

(** The conversion to [double] and back to [int] keeps the whole seconds. *)
Lemma seconds_whole s ms :
  0 <= s < 61 -> frac_ok ms -> int_of_double (strtod (digits2 s ++ frac_text ms)) = s.
Proof.
  intros Hs Hms. apply Z.eqb_eq. destruct ms as [x|].
  - assert (forallb (fun s => forallb (fun x =>
      int_of_double (strtod (digits2 s ++ frac_text (Some x))) =? s) (seqZ 0 10)) (seqZ 0 61) = true) as HT
      by (vm_compute; reflexivity).
    pose proof (range_forall _ _ HT s Hs) as HT'. exact (range_forall _ _ HT' x Hms).
  - revert s Hs. apply (range_forall (fun s => int_of_double (strtod (digits2 s ++ frac_text None)) =? s)).
    vm_compute. reflexivity.
Qed.

(** What an RMC sentence says. *)
Record RmcText := mkRmc {
  m_hour : Z; m_min : Z; m_sec : Z; m_tenths : option Z;
  m_lat : list Z; m_lath : Z;
  m_lon : list Z; m_lonh : Z;
  m_speed : list Z; m_course : list Z;
  m_day : Z; m_mon : Z; m_year : Z    (* since 2000 *)
}.

Definition rmc_time (m : RmcText) : list Z :=
  digits2 (m_hour m) ++ digits2 (m_min m) ++ digits2 (m_sec m) ++ frac_text (m_tenths m).

Definition rmc_date (m : RmcText) : list Z :=
  digits2 (m_day m) ++ digits2 (m_mon m) ++ digits2 (m_year m).

Definition rmc_fields (m : RmcText) (extra : list (list Z)) : list (list Z) :=
  [rmc_time m; [65]; m_lat m; [m_lath m]; m_lon m; [m_lonh m]; m_speed m; m_course m; rmc_date m]
  ++ extra.

(** The time of the fix, in seconds. *)
Definition rmc_seconds (m : RmcText) : Z :=
  timegm (mkTm (m_year m + 2000 - 1900) (m_mon m - 1) (m_day m) (m_hour m) (m_min m) (m_sec m)).

Record rmc_ok (m : RmcText) : Prop := {
  rmc_hms : 0 <= m_hour m < 24 /\ 0 <= m_min m < 60 /\ 0 <= m_sec m < 61 /\ frac_ok (m_tenths m);
  rmc_dmy : 0 <= m_day m < 100 /\ 0 <= m_mon m < 100 /\ 0 <= m_year m < 100;
  rmc_lat : clean (m_lat m) /\ 6 <= zlen (m_lat m) < 16;
  rmc_lon : clean (m_lon m) /\ 6 <= zlen (m_lon m) < 16;
  rmc_hemi : clean [m_lath m] /\ clean [m_lonh m];
  rmc_speed : clean (m_speed m) /\ 1 <= zlen (m_speed m) < 16;
  rmc_course : clean (m_course m) /\ 1 <= zlen (m_course m) < 16
}.

(** Degrees and minutes as a coordinate, negative on the hemisphere [neg]. *)
Definition coordinate (f : list Z) (hemi neg : Z) : double :=
  let val := strtod f in
  let degrees := int_of_double (ddiv (dfloor val) (double_of_int 100)) in
  let x := dadd (double_of_int degrees)
             (ddiv (dsub val (dmul (double_of_int degrees) (double_of_int 100))) (double_of_int 60)) in
  if hemi =? neg then dneg x else x.

(** The location an RMC sentence makes of the one before. *)
Definition rmc_location (f : GpsLocation) (m : RmcText) : GpsLocation :=
  mkFix (Z.lor (Z.lor (Z.lor (flags f) GPS_LOCATION_HAS_LAT_LONG) GPS_LOCATION_HAS_BEARING)
               GPS_LOCATION_HAS_SPEED)
        (coordinate (m_lat m) (m_lath m) 83) (coordinate (m_lon m) (m_lonh m) 87)
        (altitude f) (float_of_double (ddiv (strtod (m_speed m)) KNOT))
        (float_of_double (strtod (m_course m))) (accuracy f) (rmc_seconds m * 1000).

Lemma tens_digit n : 0 <= n < 100 -> 48 + n / 10 <> 45.
Proof. intros Hn. Z.div_mod_to_equations. lia. Qed.

Lemma str2int_date a b c d x :
  0 <= a < 100 -> 0 <= b < 100 -> 0 <= c < 100 -> d <> 45 ->
  let p := (digits2 a ++ digits2 b ++ digits2 c) ++ d :: x in
  str2int p 2 = a /\ str2int (zdrop 2 p) 2 = b /\ str2int (zdrop 4 p) 2 = c.
Proof.
  intros Ha Hb Hc Hd p. split; [|split].
  - apply (str2int_digits2 a (48 + b / 10)); auto using tens_digit.
  - apply (str2int_digits2 b (48 + c / 10)); auto using tens_digit.
  - by apply str2int_digits2.
Qed.

Lemma update_time_rmc r m t :
  0 <= m_hour m < 24 /\ 0 <= m_min m < 60 /\ 0 <= m_sec m < 61 /\ frac_ok (m_tenths m) ->
  is_tok (rmc_time m) t -> 0 <= utc_year r ->
  let ts := timegm (mkTm (utc_year r - 1900) (utc_mon r - 1) (utc_day r) (m_hour m) (m_min m) (m_sec m)) in
  is_time_t (ts - gmtoff E) = true -> is_time_t ts = true ->
  let f := rfix r in
  nmea_reader_update_time E r t =
  set_fix r (mkFix (flags f) (latitude f) (longitude f) (altitude f) (speed f) (bearing f)
                   (accuracy f) (ts * 1000)).
Proof.
  intros (Hh & Hm & Hs & Hf) (Hl & c & x & Hp & Hc) Hy ts Hr1 Hr2 f. unfold nmea_reader_update_time.
  set (fr := frac_text (m_tenths m)) in *.
  assert (0 <= zlen fr <= 4) as Hfr by (clear; unfold fr, zlen; destruct (m_tenths m); cbn; lia).
  assert (zlen (rmc_time m) = 6 + zlen fr) as HL by (unfold rmc_time; rewrite !zlen_app, !zlen_digits2; fold fr; lia).
  rewrite Hl, HL, (proj2 (Z.ltb_ge (6 + zlen fr) 6)), (proj2 (Z.ltb_ge (utc_year r) 0)) by lia.
  assert (str2int (tok_p t) 2 = m_hour m) as ->.
  { rewrite Hp. apply (str2int_digits2 _ (48 + m_min m / 10)); [lia|apply tens_digit; lia]. }
  assert (str2int (zdrop 2 (tok_p t)) 2 = m_min m) as ->.
  { rewrite Hp. apply (str2int_digits2 _ (48 + m_sec m / 10)); [lia|apply tens_digit; lia]. }
  assert (str2float (zdrop 4 (tok_p t)) (6 + zlen fr - 4) = strtod (digits2 (m_sec m) ++ fr)) as ->.
  { rewrite Hp. unfold str2float. rewrite (proj2 (Z.leb_gt 16 _)) by lia. f_equal.
    change (zdrop 4 (rmc_time m ++ c :: x)) with ((digits2 (m_sec m) ++ fr) ++ c :: x).
    apply ztake_app_eq. rewrite zlen_app. change (zlen (digits2 (m_sec m))) with 2. lia. }
  unfold fr. rewrite seconds_whole by done. fold ts. unfold mktime. fold ts. rewrite Hr1.
  replace (ts - gmtoff E + gmtoff E) with ts by lia.
  unfold is_time_t in Hr2. reflect_bools. rewrite int_of_id by (unfold is_int; lia). done.
Qed.

Lemma update_date_rmc r m td tt :
  rmc_ok m -> is_tok (rmc_date m) td -> is_tok (rmc_time m) tt ->
  is_time_t (rmc_seconds m - gmtoff E) = true -> is_time_t (rmc_seconds m) = true ->
  let f := rfix r in
  nmea_reader_update_date E r td tt =
  set_fix (set_date r (m_year m + 2000) (m_mon m) (m_day m))
          (mkFix (flags f) (latitude f) (longitude f) (altitude f) (speed f) (bearing f)
                 (accuracy f) (rmc_seconds m * 1000)).
Proof.
  intros Hm (Hl & c & x & Hp & Hc) Ht Hr1 Hr2 f. destruct (rmc_dmy _ Hm) as (Hd & Hmo & Hy).
  unfold nmea_reader_update_date. rewrite Hl. change (zlen (rmc_date m) =? 6) with true. cbn [negb].
  destruct (str2int_date (m_day m) (m_mon m) (m_year m) c x) as (H1 & H2 & H3); [done..|].
  rewrite Hp. unfold rmc_date. rewrite H1, H2, H3.
  assert (0 <= Z.lor (Z.lor (m_day m) (m_mon m)) (m_year m + 2000)) by (rewrite !Z.lor_nonneg; lia).
  rewrite (proj2 (Z.ltb_ge _ 0)) by lia.
  pose proof (update_time_rmc (set_date r (m_year m + 2000) (m_mon m) (m_day m)) m tt (rmc_hms _ Hm) Ht) as HU.
  cbn [utc_year utc_mon utc_day set_date rfix] in HU.
  unfold rmc_seconds in *. cbv zeta in HU. apply HU; [lia|done..].
Qed.

Lemma convert_coordinate f t hemi neg :
  is_tok f t -> zlen f < 16 ->
  (if hemi =? neg then dneg (convert_from_hhmm t) else convert_from_hhmm t) = coordinate f hemi neg.
Proof.
  intros Ht Hf. unfold convert_from_hhmm, coordinate. by rewrite (tok_float_value f t Ht Hf).
Qed.

Definition rmc_type : list Z := bytes_of "GPRMC".

Lemma parse_sentence_rmc r x ts : parse_sentence E r (rmc_type ++ x) ts = Some (parse_rmc E r ts).
Proof. unfold parse_sentence. destruct (cb_mtk E), x; by eval_type. Qed.

Lemma clean_digits2 n : 0 <= n < 100 -> clean (digits2 n).
Proof. intros Hn. by apply clean_digits, digits2_ok. Qed.

Lemma clean_app f g : clean f -> clean g -> clean (f ++ g).
Proof. unfold clean. intros [? ?] [? ?]. split; rewrite elem_of_app; tauto. Qed.

Lemma clean_rmc m extra : rmc_ok m -> Forall clean extra -> Forall clean (rmc_type :: rmc_fields m extra).
Proof.
  intros [(Hh & Hm & Hs & Hf) (Hd & Hmo & Hy) Hla Hlo [Hh1 Hh2] Hsp Hco] He.
  assert (clean (frac_text (m_tenths m))) as Hfr.
  { destruct (m_tenths m) as [x|]; cbn in Hf |- *; split; set_unfold; lia. }
  unfold rmc_fields. cbn [app]. rewrite !Forall_cons.
  split; [split; apply (bool_decide_unpack _); by vm_compute|].
  split; [unfold rmc_time; repeat apply clean_app; try (apply clean_digits2; lia); done|].
  split; [split; set_unfold; lia|].
  do 6 (split; [tauto|]). split; [|done].
  unfold rmc_date. repeat apply clean_app; apply clean_digits2; lia.
Qed.

(** The fields of an RMC sentence, applied one by one. *)
Lemma parse_rmc_value r m extra ck junk :
  rmc_ok m -> Forall clean extra -> zlen ck = 2 ->
  is_time_t (rmc_seconds m - gmtoff E) = true -> is_time_t (rmc_seconds m) = true ->
  parse_rmc E r (tokens_of (rmc_type :: rmc_fields m extra) ck junk) =
  set_fix (set_date r (m_year m + 2000) (m_mon m) (m_day m)) (rmc_location (rfix r) m).
Proof.
  intros Hm He Hck Hr1 Hr2. pose proof (clean_fields _ (clean_rmc m extra Hm He)) as HF.
  unfold parse_rmc, tokens_of. set (get := nmea_tokenizer_get _).
  assert (forall i, 0 <= i < 24 -> is_tok (nth (Z.to_nat i) (rmc_type :: rmc_fields m extra) []) (get i))
    as Ht by (intros; by apply sentence_field).
  pose proof (Ht 1 ltac:(lia)) as T1. pose proof (Ht 2 ltac:(lia)) as T2. pose proof (Ht 3 ltac:(lia)) as T3.
  pose proof (Ht 4 ltac:(lia)) as T4. pose proof (Ht 5 ltac:(lia)) as T5. pose proof (Ht 6 ltac:(lia)) as T6.
  pose proof (Ht 7 ltac:(lia)) as T7. pose proof (Ht 8 ltac:(lia)) as T8. pose proof (Ht 9 ltac:(lia)) as T9.
  change (is_tok (rmc_time m) (get 1)) in T1. change (is_tok [65] (get 2)) in T2.
  change (is_tok (m_lat m) (get 3)) in T3. change (is_tok [m_lath m] (get 4)) in T4.
  change (is_tok (m_lon m) (get 5)) in T5. change (is_tok [m_lonh m] (get 6)) in T6.
  change (is_tok (m_speed m) (get 7)) in T7. change (is_tok (m_course m) (get 8)) in T8.
  change (is_tok (rmc_date m) (get 9)) in T9. clear Ht.
  rewrite (is_tok_char _ _ 65 [] T2), (is_tok_char _ _ (m_lath m) [] T4), (is_tok_char _ _ (m_lonh m) [] T6) by done.
  cbn [Z.eqb Pos.eqb]. rewrite (update_date_rmc r m) by done.
  destruct Hm as [_ _ [_ Hla] [_ Hlo] _ [_ Hsp] [_ Hco]].
  unfold nmea_reader_update_latlong. destruct T3 as [L3 T3'] eqn:E3, T5 as [L5 T5'] eqn:E5.
  rewrite L3, L5, (proj2 (Z.ltb_ge (zlen (m_lat m)) 6)), (proj2 (Z.ltb_ge (zlen (m_lon m)) 6)) by lia.
  rewrite (convert_coordinate (m_lat m)), (convert_coordinate (m_lon m)) by (done || lia).
  unfold nmea_reader_update_bearing, nmea_reader_update_speed.
  rewrite (tok_float_value _ _ T7), (tok_float_value _ _ T8) by lia.
  destruct T7 as [L7 _], T8 as [L8 _].
  rewrite L7, L8, (proj2 (Z.leb_gt (zlen (m_course m)) 0)), (proj2 (Z.leb_gt (zlen (m_speed m)) 0)) by lia.
  reflexivity.
Qed.

End Sentences.

(** * Instances *)

Definition sample_reader : NmeaReader := set_mode (@nmea_reader_init aosp_hw) 3.

Lemma sample_inv : @reader_inv aosp_hw sample_env 1 sample_reader.
Proof. constructor; vm_compute; split; discriminate || reflexivity. Qed.

(** One GPS satellite and one whose number is no satellite's. *)
Definition sample_svs : list (list SvText * list Z) :=
  [([mkSvText (bytes_of "07") (bytes_of "45") (bytes_of "120") (bytes_of "38");
     mkSvText (bytes_of "99") (bytes_of "10") (bytes_of "20") []], bytes_of "7A")].

Lemma gsv_set_listed_witness :
  exists r' o, @nmea_bytes aosp_hw sample_env sample_reader
     (bytes_of "$GPGSV,1,1,2,07,45,120,38,99,10,20,*7A" ++ [13; 10]) = Some (r', o) /\
    nmea_of o = [bytes_of "$GPGSV,1,1,2,07,45,120,38,99,10,20,*7A" ++ [13; 10]] /\
    sv_gnss r' = mkTable 1
      (mkSv 7 (float_of_int 38) (float_of_int 45) (float_of_int 120) false
       :: replicate 255 no_sv).
Proof.
  exact (@gsv_set_listed aosp_hw sample_env sample_svs TGps sample_reader eq_refl aosp_hw_ok
           sample_inv (conj eq_refl eq_refl)
           ltac:(apply (bool_decide_unpack _); vm_compute; exact I)
           ltac:(vm_compute; discriminate) eq_refl eq_refl ltac:(vm_compute; discriminate)
           ltac:(apply (bool_decide_unpack _); vm_compute; exact I)).
Defined.

Definition sample_rmc : RmcText :=
  mkRmc 12 35 19 (Some 0) (bytes_of "4807.038") 78 (bytes_of "01131.000") 69
        (bytes_of "022.4") (bytes_of "084.4") 23 3 17.


(** * Defects *)

(** With the log of positions switched on, a sentence with a large exponent overflows the
    64 characters the position is printed into. *)
Lemma log_overflows :
  @nmea_read aosp_hw (mkEnv true 0 0 true true) sample_reader
    (bytes_of "$GPRMC,123519,A,1.0e99,N,01131.000,E,022.4,084.4,230317*6A" ++ [13; 10]) = None.
Proof. vm_compute. reflexivity. Qed.

(** A last sentence repeated with no satellite in it counts the set again: the count
    passes the size of the table. *)
Lemma gsv_counted_again :
  match @nmea_bytes aosp_hw (mkEnv false 0 0 false true) (@nmea_reader_init aosp_hw)
     (concat (bytes_of "$GPGSV,1,1,4,01,1,1,1,02,1,1,1,03,1,1,1,04,1,1,1*7A" :: [13; 10]
        :: concat (replicate 8 [bytes_of "$GPGSV,2,2,4*7A"; [13; 10]]))) with
  | Some (r, _) => num_svs (sv_gps r)
  | None => 0
  end = 36.
Proof. vm_compute. reflexivity. Qed.
