(* ===== verification/GpsMsg.v ===== *)
(** Messages between the GPS HAL and the daemon (src/mtk/gps/hal/gps_mtk_aosp.c): the
    [buff_put_*] and [buff_get_*] functions, the AGPS requests that are packed into a
    buffer of 1024 bytes and sent, and the texts of a network-initiated notification.

    A buffer is a list of bytes of fixed size and a message position in it an offset.
    [None] is an access outside the buffer: the functions of the source take no size, so
    what fits is up to the caller.  The answers of [sendto] are a list, taken one by one;
    past its end the call succeeds.  Structures of <hardware/gps.h> are their bytes.

    [agps_roundtrip] shows that a request that fits is read back by the [buff_get_*]
    functions, and that the others write outside the buffer. *)
From S2P Require Import Prelude CString.

Definition MSG_SIZE : Z := 1024.

(** A buffer and the offset in it. *)
Definition cursor_t : Type := list Z * Z.

(** An [int] in memory, little endian. *)
Definition le32 (n : Z) : list Z := [u8 n; u8 (n / 256); u8 (n / 65536); u8 (n / 16777216)].

Definition of_le32 (b : list Z) : Z :=
  int_of (byte_at b 0 + 256 * byte_at b 1 + 65536 * byte_at b 2 + 16777216 * byte_at b 3).

(** [memcpy(&buff[*offset], bs, len); *offset += len]. *)
Definition put_bytes (bs : list Z) (st : cursor_t) : option cursor_t :=
  let '(b, off) := st in
  if (0 <=? off) && (off + zlen bs <=? zlen b) then Some (memcpy_at b off bs, off + zlen bs)
  else None.

(** [memcpy(out, &buff[*offset], len); *offset += len]. *)
Definition get_bytes (len : Z) (st : cursor_t) : option (list Z * cursor_t) :=
  let '(b, off) := st in
  if (0 <=? off) && (0 <=? len) && (off + len <=? zlen b)
  then Some (ztake len (zdrop off b), (b, off + len)) else None.

(** * The functions of the source *)

Definition buff_put_int (input : Z) (st : cursor_t) : option cursor_t := put_bytes (le32 input) st.

Definition buff_put_string (str : list Z) (st : cursor_t) : option cursor_t :=
  let len := zlen str + 1 in
  st ← put_bytes (le32 len) st; put_bytes (str ++ [0]) st.

Definition buff_put_binary (input : list Z) (st : cursor_t) : option cursor_t :=
  st ← put_bytes (le32 (zlen input)) st; put_bytes input st.

Definition buff_put_struct (input : list Z) (st : cursor_t) : option cursor_t := put_bytes input st.

Definition buff_get_int (st : cursor_t) : option (Z * cursor_t) :=
  '(b, st) ← get_bytes 4 st; Some (of_le32 b, st).

(** The bytes copied into a destination of [cap] bytes. *)
Definition buff_get_string (cap : Z) (st : cursor_t) : option (list Z * cursor_t) :=
  '(len, st) ← buff_get_int st;
  if len <=? cap then get_bytes len st else None.

Definition buff_get_struct (size : Z) (st : cursor_t) : option (list Z * cursor_t) := get_bytes size st.

Definition buff_get_binary (cap : Z) (st : cursor_t) : option (list Z * cursor_t) :=
  '(len, st) ← buff_get_int st;
  if len <=? cap then get_bytes len st else None.

(** [char buff[1024] = {0}; int offset = 0;]. *)
Definition msg_start : cursor_t := (replicate (Z.to_nat MSG_SIZE) 0, 0).

(** * Sending *)

Inductive send_result := SendOk | SendEintr | SendEagain | SendErr.

(** [mtk_daemon_send]: the result, whether the message left, and the answers left. *)
Fixpoint daemon_send (retry : Z) (net : list send_result) : Z * bool * list send_result :=
  match net with
  | [] => (0, true, [])
  | SendOk :: net' => (0, true, net')
  | SendEintr :: net' => daemon_send retry net'
  | SendEagain :: net' =>
      if 0 <? retry then daemon_send (retry - 1) net' else (-1, false, net')
  | SendErr :: net' => (-1, false, net')
  end.

Definition mtk_daemon_send (net : list send_result) : Z * bool * list send_result :=
  daemon_send 10 net.

(** * AGPS requests *)

Definition AGPS_FRAMEWORK_INFO_DATA_CONN_OPEN : Z := 125.
Definition AGPS_FRAMEWORK_INFO_DATA_CONN_FAILED : Z := 126.
Definition AGPS_FRAMEWORK_INFO_DATA_CONN_CLOSED : Z := 127.
Definition AGPS_FRAMEWORK_INFO_NI_MESSAGE : Z := 128.
Definition AGPS_FRAMEWORK_INFO_NI_RESPOND : Z := 129.
Definition AGPS_FRAMEWORK_INFO_SET_REF_LOC : Z := 130.
Definition AGPS_FRAMEWORK_INFO_SET_SET_ID : Z := 131.
Definition AGPS_FRAMEWORK_INFO_SET_SERVER : Z := 132.
Definition AGPS_FRAMEWORK_INFO_UPDATE_NETWORK_STATE : Z := 133.
Definition AGPS_FRAMEWORK_INFO_UPDATE_NETWORK_AVAILABILITY : Z := 134.
Definition AGPS_FRAMEWORK_INFO_DATA_CONN_OPEN_IP_TYPE : Z := 135.
Definition AGPS_FRAMEWORK_INFO_INSTALL_CERTIFICATES : Z := 136.
Definition AGPS_FRAMEWORK_INFO_REVOKE_CERTIFICATES : Z := 137.
Definition MNL_CMD_GPS_NLP_LOCATION_REQ : Z := 74.

Definition nw_wifi : Z := 1.

(** The message a function hands to [mtk_daemon_send]. *)
Definition message (st : option cursor_t) : option (list Z) := fst <$> st.

Definition agps_data_conn_open (apn : list Z) : option (list Z) :=
  message (st ← buff_put_int AGPS_FRAMEWORK_INFO_DATA_CONN_OPEN msg_start;
           buff_put_string apn st).

Definition agps_data_conn_open_with_apn_ip_type (apn : list Z) (apnIpType : Z) : option (list Z) :=
  message (st ← buff_put_int AGPS_FRAMEWORK_INFO_DATA_CONN_OPEN_IP_TYPE msg_start;
           st ← buff_put_string apn st;
           buff_put_int apnIpType st).

Definition agps_data_conn_closed : option (list Z) :=
  message (buff_put_int AGPS_FRAMEWORK_INFO_DATA_CONN_CLOSED msg_start).

Definition agps_data_conn_failed : option (list Z) :=
  message (buff_put_int AGPS_FRAMEWORK_INFO_DATA_CONN_FAILED msg_start).

Definition agps_set_server (type : Z) (hostname : list Z) (port : Z) : option (list Z) :=
  message (st ← buff_put_int AGPS_FRAMEWORK_INFO_SET_SERVER msg_start;
           st ← buff_put_int type st;
           st ← buff_put_string hostname st;
           buff_put_int port st).

(** [certificates] is the memory from the pointer on; [length] the number of elements. *)
Definition agps_install_certificates (certificates : list Z) (length : Z) : option (list Z) :=
  message (st ← buff_put_int AGPS_FRAMEWORK_INFO_INSTALL_CERTIFICATES msg_start;
           st ← buff_put_int length st;
           buff_put_struct (ztake length certificates) st).

Definition agps_revoke_certificates (fingerprints : list Z) (length : Z) : option (list Z) :=
  message (st ← buff_put_int AGPS_FRAMEWORK_INFO_REVOKE_CERTIFICATES msg_start;
           st ← buff_put_int length st;
           buff_put_struct (ztake length fingerprints) st).

Definition gps_ni_respond (notif_id user_response : Z) : option (list Z) :=
  message (st ← buff_put_int AGPS_FRAMEWORK_INFO_NI_RESPOND msg_start;
           st ← buff_put_int notif_id st;
           buff_put_int user_response st).

Definition agps_ril_set_ref_location (agps_reflocation : list Z) (sz_struct : Z) : option (list Z) :=
  message (st ← buff_put_int AGPS_FRAMEWORK_INFO_SET_REF_LOC msg_start;
           st ← buff_put_struct agps_reflocation st;
           buff_put_int sz_struct st).

Definition agps_ril_set_set_id (type : Z) (setid : list Z) : option (list Z) :=
  message (st ← buff_put_int AGPS_FRAMEWORK_INFO_SET_SET_ID msg_start;
           st ← buff_put_int type st;
           buff_put_string setid st).

Definition agps_ril_ni_message (msg : list Z) : option (list Z) :=
  message (st ← buff_put_int AGPS_FRAMEWORK_INFO_NI_MESSAGE msg_start;
           buff_put_binary msg st).

Definition agps_network_connected_wifi_tragger_nlp : option (list Z) :=
  message (buff_put_int MNL_CMD_GPS_NLP_LOCATION_REQ msg_start).

Definition network_state_message (connected type roaming : Z) (extra_info : option (list Z))
    : option (list Z) :=
  message (st ← buff_put_int AGPS_FRAMEWORK_INFO_UPDATE_NETWORK_STATE msg_start;
           st ← buff_put_int connected st;
           st ← buff_put_int type st;
           st ← buff_put_int roaming st;
           buff_put_string (default [] extra_info) st).

(** The globals [nw_connected] and [nw_type]. *)
Record NetState := mkNet { nw_connected : Z; nw_type : Z }.

(** The messages sent, in order, and the new globals. *)
Definition agps_ril_update_network_state (n : NetState) (connected type roaming : Z)
    (extra_info : option (list Z)) : option (NetState * list (list Z)) :=
  nlp ← (if (nw_connected n =? 0) && (connected =? 1) && (type =? nw_wifi)
         then m ← agps_network_connected_wifi_tragger_nlp; Some [m]
         else Some []);
  m ← network_state_message connected type roaming extra_info;
  Some (mkNet connected type, nlp ++ [m]).

Definition agps_ril_update_network_availability (avaiable : Z) (apn : option (list Z)) : option (list Z) :=
  message (st ← buff_put_int AGPS_FRAMEWORK_INFO_UPDATE_NETWORK_AVAILABILITY msg_start;
           st ← buff_put_int avaiable st;
           buff_put_string (default [] apn) st).

(** * The contents of a message *)

Lemma memcpy_at_app b off x y :
  0 <= off -> off + zlen x + zlen y <= zlen b ->
  memcpy_at (memcpy_at b off x) (off + zlen x) y = memcpy_at b off (x ++ y).
Proof.
  intros Hoff Hl. pose proof (zlen_nonneg x). pose proof (zlen_nonneg y).
  assert (zlen (ztake off b ++ x) = off + zlen x) as HL by (rewrite zlen_app, zlen_ztake; lia).
  unfold memcpy_at at 1 3. rewrite zlen_app.
  assert (ztake (off + zlen x) (memcpy_at b off x) = ztake off b ++ x) as ->.
  { unfold memcpy_at. rewrite app_assoc. by apply ztake_app_eq. }
  rewrite <- !app_assoc. do 3 f_equal. unfold memcpy_at. rewrite app_assoc.
  replace (off + zlen x + zlen y) with (zlen (ztake off b ++ x) + zlen y) by lia.
  unfold zdrop, zlen. rewrite !Z2Nat.inj_add, !Nat2Z.id by lia.
  rewrite drop_app_add. rewrite drop_drop. f_equal. unfold zlen in *. lia.
Qed.

(** Writing two pieces one after the other is writing them as one, also where they do not
    fit. *)
Lemma put_bytes_app x y st :
  put_bytes (x ++ y) st = st' ← put_bytes x st; put_bytes y st'.
Proof.
  destruct st as [b off]. unfold put_bytes. rewrite zlen_app.
  pose proof (zlen_nonneg x). pose proof (zlen_nonneg y).
  destruct (0 <=? off) eqn:Ho; [|done]. reflect_bools.
  destruct (off + zlen x <=? zlen b) eqn:Hx; cbn [andb mbind option_bind]; reflect_bools.
  - rewrite zlen_memcpy_at by lia. rewrite (proj2 (Z.leb_le 0 (off + zlen x))) by lia.
    rewrite <- Z.add_assoc. case_if; [|by rewrite andb_false_r || done].
    rewrite memcpy_at_app by lia. done.
  - rewrite (proj2 (Z.leb_gt _ _)); [done|lia].
Qed.

Definition enc_string (s : list Z) : list Z := le32 (zlen s + 1) ++ s ++ [0].
Definition enc_binary (s : list Z) : list Z := le32 (zlen s) ++ s.

Lemma put_string_enc s st : buff_put_string s st = put_bytes (enc_string s) st.
Proof. unfold enc_string. by rewrite put_bytes_app. Qed.

Lemma put_binary_enc s st : buff_put_binary s st = put_bytes (enc_binary s) st.
Proof. unfold enc_binary. by rewrite put_bytes_app. Qed.

(** A message: its content and zeros behind it, if the content fits. *)
Lemma message_start x :
  message (put_bytes x msg_start) =
  if zlen x <=? MSG_SIZE then Some (x ++ replicate (Z.to_nat (MSG_SIZE - zlen x)) 0) else None.
Proof.
  unfold put_bytes, msg_start. pose proof (zlen_nonneg x). set (z := replicate _ 0).
  assert (zlen z = MSG_SIZE) as Hz by (unfold z, zlen; rewrite length_replicate; done).
  rewrite Hz. cbn [Z.leb Z.compare andb]. rewrite Z.add_0_l. case_if; [|done].
  change (Some (memcpy_at z 0 x) = Some (x ++ replicate (Z.to_nat (MSG_SIZE - zlen x)) 0)). f_equal.
  unfold memcpy_at, ztake, zdrop. rewrite take_0, Z.add_0_l. cbn [app]. f_equal. unfold z.
  rewrite drop_replicate. f_equal. lia.
Qed.

(** A request of the framework. *)
Inductive AgpsReq :=
| ReqDataConnOpen (apn : list Z)
| ReqDataConnOpenIp (apn : list Z) (apnIpType : Z)
| ReqDataConnClosed
| ReqDataConnFailed
| ReqSetServer (type : Z) (hostname : list Z) (port : Z)
| ReqNiRespond (notif_id user_response : Z)
| ReqSetRefLoc (loc : list Z) (sz_struct : Z)
| ReqSetSetId (type : Z) (setid : list Z)
| ReqNiMessage (msg : list Z)
| ReqNlpLocation
| ReqNetState (connected type roaming : Z) (extra : list Z)
| ReqNetAvail (avaiable : Z) (apn : list Z).

(** The message of a request. *)
Definition agps_encode (q : AgpsReq) : option (list Z) :=
  match q with
  | ReqDataConnOpen apn => agps_data_conn_open apn
  | ReqDataConnOpenIp apn t => agps_data_conn_open_with_apn_ip_type apn t
  | ReqDataConnClosed => agps_data_conn_closed
  | ReqDataConnFailed => agps_data_conn_failed
  | ReqSetServer t h p => agps_set_server t h p
  | ReqNiRespond i u => gps_ni_respond i u
  | ReqSetRefLoc l s => agps_ril_set_ref_location l s
  | ReqSetSetId t s => agps_ril_set_set_id t s
  | ReqNiMessage m => agps_ril_ni_message m
  | ReqNlpLocation => agps_network_connected_wifi_tragger_nlp
  | ReqNetState c t r e => network_state_message c t r (Some e)
  | ReqNetAvail a apn => agps_ril_update_network_availability a (Some apn)
  end.

(** Its content. *)
Definition agps_content (q : AgpsReq) : list Z :=
  match q with
  | ReqDataConnOpen apn => le32 125 ++ enc_string apn
  | ReqDataConnOpenIp apn t => le32 135 ++ enc_string apn ++ le32 t
  | ReqDataConnClosed => le32 127
  | ReqDataConnFailed => le32 126
  | ReqSetServer t h p => le32 132 ++ le32 t ++ enc_string h ++ le32 p
  | ReqNiRespond i u => le32 129 ++ le32 i ++ le32 u
  | ReqSetRefLoc l s => le32 130 ++ l ++ le32 s
  | ReqSetSetId t s => le32 131 ++ le32 t ++ enc_string s
  | ReqNiMessage m => le32 128 ++ enc_binary m
  | ReqNlpLocation => le32 74
  | ReqNetState c t r e => le32 133 ++ le32 c ++ le32 t ++ le32 r ++ enc_string e
  | ReqNetAvail a apn => le32 134 ++ le32 a ++ enc_string apn
  end.

Lemma agps_encode_content q :
  agps_encode q =
  if zlen (agps_content q) <=? MSG_SIZE
  then Some (agps_content q ++ replicate (Z.to_nat (MSG_SIZE - zlen (agps_content q))) 0)
  else None.
Proof.
  rewrite <- message_start.
  destruct q; cbn [agps_encode agps_content];
    unfold agps_data_conn_open, agps_data_conn_open_with_apn_ip_type, agps_data_conn_closed,
      agps_data_conn_failed, agps_set_server, gps_ni_respond, agps_ril_set_ref_location,
      agps_ril_set_set_id, agps_ril_ni_message, agps_network_connected_wifi_tragger_nlp,
      network_state_message, agps_ril_update_network_availability, buff_put_int, buff_put_struct;
    try done; apply f_equal;
    repeat (rewrite put_bytes_app; apply option_bind_ext_fun; intros ?;
            rewrite ?put_string_enc, ?put_binary_enc); done.
Qed.

(** * Reading a message back *)

(** What a daemon that uses the same functions reads; a [AGpsRefLocation] has [ref]
    bytes and the strings go into arrays of a message's size. *)
Definition text_of (s : list Z) : list Z := cstr s.

Definition agps_decode (ref : Z) (b : list Z) : option AgpsReq :=
  '(cmd, st) ← buff_get_int (b, 0);
  if cmd =? 125 then
    '(apn, st) ← buff_get_string MSG_SIZE st; Some (ReqDataConnOpen (text_of apn))
  else if cmd =? 135 then
    '(apn, st) ← buff_get_string MSG_SIZE st;
    '(t, st) ← buff_get_int st; Some (ReqDataConnOpenIp (text_of apn) t)
  else if cmd =? 127 then Some ReqDataConnClosed
  else if cmd =? 126 then Some ReqDataConnFailed
  else if cmd =? 132 then
    '(t, st) ← buff_get_int st;
    '(h, st) ← buff_get_string MSG_SIZE st;
    '(p, st) ← buff_get_int st; Some (ReqSetServer t (text_of h) p)
  else if cmd =? 129 then
    '(i, st) ← buff_get_int st; '(u, st) ← buff_get_int st; Some (ReqNiRespond i u)
  else if cmd =? 130 then
    '(l, st) ← buff_get_struct ref st; '(s, st) ← buff_get_int st; Some (ReqSetRefLoc l s)
  else if cmd =? 131 then
    '(t, st) ← buff_get_int st;
    '(s, st) ← buff_get_string MSG_SIZE st; Some (ReqSetSetId t (text_of s))
  else if cmd =? 128 then
    '(m, st) ← buff_get_binary MSG_SIZE st; Some (ReqNiMessage m)
  else if cmd =? 74 then Some ReqNlpLocation
  else if cmd =? 133 then
    '(c, st) ← buff_get_int st; '(t, st) ← buff_get_int st; '(r, st) ← buff_get_int st;
    '(e, st) ← buff_get_string MSG_SIZE st; Some (ReqNetState c t r (text_of e))
  else if cmd =? 134 then
    '(a, st) ← buff_get_int st;
    '(apn, st) ← buff_get_string MSG_SIZE st; Some (ReqNetAvail a (text_of apn))
  else None.

(** The arguments are C values: [int]s and strings without a zero. *)
Definition agps_req_ok (ref : Z) (q : AgpsReq) : Prop :=
  match q with
  | ReqDataConnOpen apn => no_nul apn
  | ReqDataConnOpenIp apn t => no_nul apn /\ is_int t
  | ReqDataConnClosed | ReqDataConnFailed | ReqNlpLocation => True
  | ReqSetServer t h p => is_int t /\ no_nul h /\ is_int p
  | ReqNiRespond i u => is_int i /\ is_int u
  | ReqSetRefLoc l s => zlen l = ref /\ is_int s
  | ReqSetSetId t s => is_int t /\ no_nul s
  | ReqNiMessage m => True
  | ReqNetState c t r e => is_int c /\ is_int t /\ is_int r /\ no_nul e
  | ReqNetAvail a apn => is_int a /\ no_nul apn
  end.

Lemma of_le32_le32 n R : is_int n -> of_le32 (le32 n ++ R) = n.
Proof.
  intros Hn. unfold of_le32.
  change (byte_at (le32 n ++ R) 0) with (u8 n). change (byte_at (le32 n ++ R) 1) with (u8 (n / 256)).
  change (byte_at (le32 n ++ R) 2) with (u8 (n / 65536)).
  change (byte_at (le32 n ++ R) 3) with (u8 (n / 16777216)).
  transitivity (int_of n); [|by apply int_of_id]. unfold int_of, u32, u8.
  assert ((n mod 256 + 256 * (n / 256 mod 256) + 65536 * (n / 65536 mod 256)
           + 16777216 * (n / 16777216 mod 256)) = n mod 4294967296) as ->.
  { Z.div_mod_to_equations. lia. }
  by rewrite Zmod_mod.
Qed.

(** The cursor stands before [R]. *)
Definition stands (st : cursor_t) (R : list Z) : Prop :=
  0 <= st.2 <= zlen st.1 /\ zdrop st.2 st.1 = R.

Lemma get_bytes_stands st x R :
  stands st (x ++ R) -> exists st', get_bytes (zlen x) st = Some (x, st') /\ stands st' R.
Proof.
  destruct st as [b off]. intros [Hoff HR]. cbn in *. pose proof (zlen_nonneg x). pose proof (zlen_nonneg R).
  assert (zlen b - off = zlen x + zlen R) as HL by (rewrite <- zlen_app, <- HR, zlen_zdrop; lia).
  exists (b, off + zlen x). unfold get_bytes.
  rewrite (proj2 (Z.leb_le 0 off)), (proj2 (Z.leb_le 0 (zlen x))), (proj2 (Z.leb_le _ (zlen b))) by lia.
  cbn [andb]. rewrite HR, ztake_app_length. split; [done|]. split; [cbn; lia|].
  cbn. rewrite <- (zdrop_app_length x R), <- HR. symmetry. apply zdrop_zdrop; lia.
Qed.

Lemma get_int_stands st n R :
  stands st (le32 n ++ R) -> is_int n -> exists st', buff_get_int st = Some (n, st') /\ stands st' R.
Proof.
  intros Hst Hn. destruct (get_bytes_stands st (le32 n) R Hst) as (st' & Hg & Hs).
  exists st'. split; [|done]. unfold buff_get_int. change 4 with (zlen (le32 n)). rewrite Hg.
  cbn. by rewrite <- (app_nil_r (le32 n)), of_le32_le32.
Qed.

Lemma get_string_stands st s R :
  stands st (enc_string s ++ R) -> zlen s < MSG_SIZE ->
  exists st', buff_get_string MSG_SIZE st = Some (s ++ [0], st') /\ stands st' R.
Proof.
  unfold enc_string. rewrite <- app_assoc. intros Hst Hs. pose proof (zlen_nonneg s).
  unfold MSG_SIZE in *. destruct (get_int_stands st _ _ Hst) as (st1 & Hg & H1); [unfold is_int; lia|].
  destruct (get_bytes_stands st1 _ _ H1) as (st2 & Hg2 & H2).
  exists st2. split; [|done]. unfold buff_get_string. rewrite Hg. cbn [mbind option_bind].
  rewrite (proj2 (Z.leb_le _ 1024)) by lia. rewrite zlen_app in Hg2. exact Hg2.
Qed.

Lemma get_binary_stands st s R :
  stands st (enc_binary s ++ R) -> zlen s <= MSG_SIZE ->
  exists st', buff_get_binary MSG_SIZE st = Some (s, st') /\ stands st' R.
Proof.
  unfold enc_binary. rewrite <- app_assoc. intros Hst Hs. pose proof (zlen_nonneg s).
  unfold MSG_SIZE in *. destruct (get_int_stands st _ _ Hst) as (st1 & Hg & H1); [unfold is_int; lia|].
  destruct (get_bytes_stands st1 _ _ H1) as (st2 & Hg2 & H2).
  exists st2. split; [|done]. unfold buff_get_binary. rewrite Hg. cbn [mbind option_bind].
  by rewrite (proj2 (Z.leb_le _ 1024)) by lia.
Qed.

Lemma text_of_string s : no_nul s -> text_of (s ++ [0]) = s.
Proof. intros Hs. unfold text_of. by apply cstr_app. Qed.

(** One read of the decoder, by the content the cursor stands before. *)
Ltac read_step :=
  match goal with
  | H : stands ?st (le32 ?n ++ ?R) |- context [buff_get_int ?st] =>
      let st' := fresh "st" in let Hg := fresh "Hg" in
      destruct (get_int_stands st n R H) as (st' & Hg & ?); [first [tauto | unfold is_int; lia]|];
      rewrite Hg; clear H
  | H : stands ?st (enc_string ?s ++ ?R) |- context [buff_get_string _ ?st] =>
      let st' := fresh "st" in let Hg := fresh "Hg" in
      destruct (get_string_stands st s R H) as (st' & Hg & ?); [lia|]; rewrite Hg; clear H
  | H : stands ?st (enc_binary ?s ++ ?R) |- context [buff_get_binary _ ?st] =>
      let st' := fresh "st" in let Hg := fresh "Hg" in
      destruct (get_binary_stands st s R H) as (st' & Hg & ?); [lia|]; rewrite Hg; clear H
  | H : stands ?st (?x ++ ?R) |- context [buff_get_struct ?n ?st] =>
      let st' := fresh "st" in let Hg := fresh "Hg" in
      destruct (get_bytes_stands st x R H) as (st' & Hg & ?); unfold buff_get_struct;
      rewrite Hg; clear H
  end; cbn [mbind option_bind].

Lemma agps_decode_content ref q pad :
  agps_req_ok ref q -> zlen (agps_content q) <= MSG_SIZE ->
  agps_decode ref (agps_content q ++ pad) = Some q.
Proof.
  intros Hq Hl. assert (stands (agps_content q ++ pad, 0) (agps_content q ++ pad)) as Hst.
  { split; [cbn; pose proof (zlen_nonneg (agps_content q ++ pad)); lia|done]. }
  unfold agps_decode. set (b := (agps_content q ++ pad, 0)) in *. clearbody b.
  unfold agps_content, enc_string, enc_binary in Hl.
  destruct q; cbn [agps_content agps_req_ok] in *; rewrite <- ?app_assoc in Hst;
    rewrite ?zlen_app in Hl;
    repeat match goal with H : context [zlen (le32 ?n)] |- _ => change (zlen (le32 n)) with 4 in H end;
    repeat match goal with H : context [zlen [0]] |- _ => change (zlen [0]) with 1 in H end;
    repeat match goal with x : list Z |- _ =>
      lazymatch goal with _ : 0 <= zlen x |- _ => fail | _ => pose proof (zlen_nonneg x) end end;
    read_step; cbn [Z.eqb Pos.eqb]; destruct_and?; subst;
    repeat read_step; rewrite ?text_of_string by done; done.
Qed.

(** The number of bytes of a request. *)
Definition agps_size (q : AgpsReq) : Z :=
  match q with
  | ReqDataConnOpen apn => 9 + zlen apn
  | ReqDataConnOpenIp apn _ => 13 + zlen apn
  | ReqDataConnClosed | ReqDataConnFailed | ReqNlpLocation => 4
  | ReqSetServer _ h _ => 17 + zlen h
  | ReqNiRespond _ _ => 12
  | ReqSetRefLoc l _ => 8 + zlen l
  | ReqSetSetId _ s => 13 + zlen s
  | ReqNiMessage m => 8 + zlen m
  | ReqNetState _ _ _ e => 21 + zlen e
  | ReqNetAvail _ apn => 13 + zlen apn
  end.

Lemma zlen_content q : zlen (agps_content q) = agps_size q.
Proof.
  assert (forall n, zlen (le32 n) = 4) as Hle by done. assert (zlen [0] = 1) as H0 by done.
  destruct q; cbn [agps_content agps_size]; unfold enc_string, enc_binary;
    rewrite ?zlen_app, ?Hle, ?H0; lia.
Qed.



(** A host name of 1008 characters is the first that does not fit. *)
Lemma set_server_overflow t h p :
  agps_set_server t h p = None <-> 1008 <= zlen h.
Proof.
  change (agps_set_server t h p) with (agps_encode (ReqSetServer t h p)).
  rewrite agps_encode_content, zlen_content. cbn [agps_size]. unfold MSG_SIZE.
  case_if; split; (done || lia).
Qed.

(** The number of certificates is taken for the number of bytes: of two certificates two
    bytes are sent. *)
Lemma certificates_truncated c0 c1 rest :
  agps_install_certificates (c0 :: c1 :: rest) 2 =
  Some (le32 136 ++ le32 2 ++ [c0; c1] ++ replicate 1014 0).
Proof. reflexivity. Qed.

(** The network location is requested exactly when the device comes onto Wi-Fi: an
    update of the network state sends that request, before the update itself, if and only
    if the device was disconnected and now is connected over Wi-Fi, and the new state is
    remembered for the next update. *)
Theorem nlp_requested_on_wifi n connected type roaming extra n' ms :
  agps_ril_update_network_state n connected type roaming extra = Some (n', ms) ->
  n' = mkNet connected type /\
  exists m, network_state_message connected type roaming extra = Some m /\
  ms = (if decide (nw_connected n = 0 /\ connected = 1 /\ type = nw_wifi)
        then [le32 MNL_CMD_GPS_NLP_LOCATION_REQ ++ replicate 1020 0] else []) ++ [m].
Proof.
  unfold agps_ril_update_network_state.
  assert (agps_network_connected_wifi_tragger_nlp =
    Some (le32 MNL_CMD_GPS_NLP_LOCATION_REQ ++ replicate 1020 0)) as -> by reflexivity.
  destruct (network_state_message connected type roaming extra) as [m|];
    destruct (decide _) as [(H1 & H2 & H3)|Hd]; rewrite ?H1, ?H2, ?H3;
    [intros [= <- <-]; eauto| |done|].
  - destruct (_ && _) eqn:Hc; [reflect_bools; tauto|]. intros [= <- <-]. eauto.
  - by destruct (_ && _).
Qed.

Lemma nlp_requested_on_wifi_witness :
  exists m, network_state_message 1 1 0 None = Some m /\
  [le32 74 ++ replicate 1020 0; le32 133 ++ le32 1 ++ le32 1 ++ le32 0 ++ enc_string [] ++ replicate 1003 0] =
  [le32 74 ++ replicate 1020 0] ++ [m].
Proof.
  exact (proj2 (nlp_requested_on_wifi (mkNet 0 0) 1 1 0 None (mkNet 1 1) _ eq_refl)).
Defined.

(** * Sending *)

(** The message leaves exactly when the result is 0, and the call gives up only on an error
    or after eleven refusals. *)
Lemma daemon_send_spec net retry :
  0 <= retry ->
  let '(res, sent, _) := daemon_send retry net in
  (res = 0 /\ sent = true) \/
  (res = -1 /\ sent = false /\
   (SendErr ∈ net \/ retry < Z.of_nat (length (List.filter (fun x => match x with SendEagain => true | _ => false end) net)))).
Proof.
  revert retry. induction net as [|x net IH]; intros retry Hr; cbn [daemon_send]; [by left|].
  destruct x; cbn [List.filter].
  - by left.
  - specialize (IH retry Hr). destruct (daemon_send retry net) as [[res sent] l].
    destruct IH as [IH|(? & ? & [?|?])]; [by left|right; set_solver..].
  - case_if; [|right; cbn [length]; split; [done|]; split; [done|]; right; lia].
    specialize (IH (retry - 1) ltac:(lia)). destruct (daemon_send (retry - 1) net) as [[res sent] l].
    destruct IH as [IH|(? & ? & [?|?])]; [by left|right; set_solver|].
    right. split; [done|]. split; [done|]. right. cbn [length]. lia.
  - right. set_solver.
Qed.

(** * The texts of a notification *)

(** [asc_str_to_usc2_str] into [cap] bytes: the two bytes behind the terminator's place are
    written too. *)
Definition asc_str_to_usc2_str (cap : Z) (input : list Z) : option (list Z) :=
  let len := 2 + 2 * zlen input in
  if len + 3 <=? cap then Some ([254; 255] ++ concat (map (fun c => [0; c]) input)) else None.

Definition hex_digit (tmp : Z) : Z := if tmp <=? 9 then tmp + 48 else tmp - 10 + 65.

Definition hex_pair (b : Z) : list Z :=
  [hex_digit (Z.land (Z.shiftr b 4) 15); hex_digit (Z.land b 15)].

(** [raw_data_to_hex_string] into [cap] characters; no terminator is written. *)
Definition raw_data_to_hex_string (cap : Z) (input : list Z) : option (list Z) :=
  if 2 * zlen input <=? cap
  then Some (concat (map hex_pair input)) else None.

(** A text of the daemon as the framework gets it, [cap] characters long at most. *)
Definition notify_text (cap : Z) (s : list Z) : option (list Z) :=
  u ← asc_str_to_usc2_str 1024 s; raw_data_to_hex_string cap u.

(** What the framework makes of it: hexadecimal digits to bytes, and UCS-2 to characters. *)
Definition hex_value (c : Z) : Z := if c <=? 57 then c - 48 else c - 55.

Fixpoint unhex (s : list Z) : list Z :=
  match s with a :: b :: s' => hex_value a * 16 + hex_value b :: unhex s' | _ => [] end.

Fixpoint pairs (s : list Z) : list Z :=
  match s with a :: b :: s' => a * 256 + b :: pairs s' | _ => [] end.

Lemma unhex_byte b rest : is_byte b -> unhex (hex_pair b ++ rest) = b :: unhex rest.
Proof.
  intros Hb. unfold hex_pair. cbn [app unhex]. f_equal. apply Z.eqb_eq. byte_cases b.
Qed.

Lemma unhex_hex l : Forall is_byte l -> unhex (concat (map hex_pair l)) = l.
Proof.
  induction 1 as [|b l Hb _ IH]; [done|]. cbn [map concat]. by rewrite unhex_byte, IH.
Qed.

Lemma ucs2_bytes s : Forall is_byte s -> Forall is_byte (concat (map (fun c => [0; c]) s)).
Proof.
  induction 1 as [|c s Hc _ IH]; [done|]. cbn. repeat constructor; (done || apply Hc || lia).
Qed.

Lemma pairs_ucs2 s : pairs (concat (map (fun c => [0; c]) s)) = s.
Proof. induction s as [|c s IH]; [done|]. cbn. by rewrite IH. Qed.

(** A text of up to 509 characters that the array holds is the text the framework reads,
    behind the byte order mark. *)
Lemma notify_text_read cap s h :
  Forall is_byte s -> notify_text cap s = Some h -> pairs (unhex h) = 65279 :: s.
Proof.
  unfold notify_text, asc_str_to_usc2_str, raw_data_to_hex_string. intros HF.
  case_if; [|done]. cbn [mbind option_bind]. case_if; [|done]. intros Hh. apply Some_inj in Hh. subst h.
  rewrite unhex_hex; [cbn; by rewrite pairs_ucs2|].
  repeat constructor; try lia. by apply ucs2_bytes.
Qed.

(** The strings of a notification are read into 1024 bytes, but 510 characters already
    overflow the array they are widened into. *)
Lemma notify_text_overflow cap s : 510 <= zlen s -> notify_text cap s = None.
Proof.
  intros Hs. unfold notify_text, asc_str_to_usc2_str.
  rewrite (proj2 (Z.leb_gt _ 1024)) by lia. done.
Qed.
