(* ===== verification/Epo.v ===== *)
(** The orbit prediction (EPO) files of the GPS HAL (src/mtk/gps/hal/gps_mtk_aosp.c): the
    configuration in gps.conf, the period a file covers and when it expires, and the
    thread that downloads the pieces of a prediction and joins them in EPOHAL.DAT.

    The directory /data/misc/gps is a finite map from names to contents; it never fails.
    What the network delivers is a list of results, one for each [curl_easy_download].
    [getEpoUrl], a library function, is a parameter that says whether there is a URL for a
    file; the checksum in the URL and the retry counter have no other use and are left
    out.  The time zone is a fixed offset, as in [Calendar].

    [epo_expiry_exact] shows that a file expires at the time that is meant, and
    [epo_pieces_joined] that a download of all pieces leaves their concatenation. *)
From S2P Require Import Prelude CString Nmea Calendar.

Definition EPO_FILE : string := "EPO.DAT".
Definition EPO_FILE_HAL : string := "EPOHAL.DAT".
Definition MTK_EPO_ONE_SV_SIZE : Z := 72.
Definition GPS_CONF_FILE_SIZE : Z := 100.
Definition DAY : Z := 86400.

(** * Configuration *)

Record EpoCfg := mkCfg {
  gps_epo_enable : Z;
  gps_epo_download_days : Z;
  gps_epo_period : Z;
  wifi_epo_period : Z;
  gps_epo_wifi_trigger : Z
}.

Definition default_cfg : EpoCfg := mkCfg 1 30 3 1 0.

Definition IS_SPACE (c : Z) : bool := (c =? 32) || (c =? 9) || (c =? 10).

Fixpoint drop_while (p : Z -> bool) (s : list Z) : list Z :=
  match s with c :: s' => if p c then drop_while p s' else s | [] => [] end.

Fixpoint take_while (p : Z -> bool) (s : list Z) : list Z :=
  match s with c :: s' => if p c then c :: take_while p s' else [] | [] => [] end.

Inductive conf_line :=
| LineError
| LineComment
| LineKey (key val : list Z).

(** [get_val] on the string in the line buffer. *)
Definition get_val (s : list Z) : conf_line :=
  match s with
  | [] => LineError
  | c :: _ =>
      if c =? 35 then LineComment
      else if negb (byte_at s (zlen s - 1) =? 10) && (GPS_CONF_FILE_SIZE - 1 <=? zlen s) then LineError
      else
        match strsep s 61 with
        | (key, Some rest) =>
            LineKey key (take_while (fun c => negb (IS_SPACE c)) (drop_while IS_SPACE rest))
        | (_, None) => LineError
        end
  end.

(** [fgets] into the line buffer: the lines, at most 99 characters each. *)
Fixpoint fgets_lines (fuel : nat) (s : list Z) : list (list Z) :=
  match fuel, s with
  | S f, _ :: _ =>
      let chunk := ztake (GPS_CONF_FILE_SIZE - 1) s in
      let line := match memchr chunk 10 with Some i => ztake (i + 1) chunk | None => chunk end in
      line :: fgets_lines f (zdrop (zlen line) s)
  | _, _ => []
  end.

(** The number of a value: [str2int(val, val + strlen(val) - 1)]. *)
Definition conf_int (val : list Z) : Z := str2int (val ++ [0]) (zlen val - 1).

Definition bool_or (x d : Z) : Z := if (x =? 1) || (x =? 0) then x else d.

Definition period_or (x d : Z) : Z := if (x =? 30) || (x =? 3) || (x =? 15) then x else d.

Definition apply_key (c : EpoCfg) (key val : list Z) : EpoCfg :=
  let v := conf_int val in
  if decide (key = bytes_of "EPO_ENABLE") then
    mkCfg (bool_or v 1) (gps_epo_download_days c) (gps_epo_period c) (wifi_epo_period c) (gps_epo_wifi_trigger c)
  else if decide (key = bytes_of "DW_DAYS") then
    mkCfg (gps_epo_enable c) (if (30 <? v) || (v <? 0) then 30 else v) (gps_epo_period c) (wifi_epo_period c)
          (gps_epo_wifi_trigger c)
  else if decide (key = bytes_of "GPS_EPO_PERIOD") then
    mkCfg (gps_epo_enable c) (gps_epo_download_days c) (period_or v 3) (wifi_epo_period c) (gps_epo_wifi_trigger c)
  else if decide (key = bytes_of "WIFI_EPO_PERIOD") then
    mkCfg (gps_epo_enable c) (gps_epo_download_days c) (gps_epo_period c) (period_or v 1) (gps_epo_wifi_trigger c)
  else if decide (key = bytes_of "EPO_WIFI_TRIGGER") then
    mkCfg (gps_epo_enable c) (gps_epo_download_days c) (gps_epo_period c) (wifi_epo_period c) (bool_or v 1)
  else c.

(** The loop over the lines; an error ends it. *)
Fixpoint conf_loop (c : EpoCfg) (ls : list (list Z)) : EpoCfg :=
  match ls with
  | [] => c
  | l :: ls' =>
      match get_val (cstr l) with
      | LineError => c
      | LineComment => conf_loop c ls'
      | LineKey key val => conf_loop (apply_key c key val) ls'
      end
  end.

(** [gps_download_epo_enable]; [None] is a missing file. *)
Definition gps_download_epo_enable (c : EpoCfg) (conf : option (list Z)) : EpoCfg :=
  match conf with None => c | Some s => conf_loop c (fgets_lines (length s) s) end.

(** The values the rest of the program relies on. *)
Definition cfg_ok (c : EpoCfg) : Prop :=
  (gps_epo_enable c = 0 \/ gps_epo_enable c = 1) /\ 0 <= gps_epo_download_days c <= 30 /\
  (gps_epo_period c = 3 \/ gps_epo_period c = 15 \/ gps_epo_period c = 30) /\
  (wifi_epo_period c = 1 \/ wifi_epo_period c = 3 \/ wifi_epo_period c = 15 \/ wifi_epo_period c = 30) /\
  (gps_epo_wifi_trigger c = 0 \/ gps_epo_wifi_trigger c = 1).

Lemma bool_or_ok x d : d = 0 \/ d = 1 -> bool_or x d = 0 \/ bool_or x d = 1.
Proof. unfold bool_or. destruct (x =? 1) eqn:?, (x =? 0) eqn:?; cbn; reflect_bools; lia. Qed.

Lemma period_or_ok x d : period_or x d = d \/ period_or x d = 3 \/ period_or x d = 15 \/ period_or x d = 30.
Proof.
  unfold period_or. destruct (x =? 30) eqn:?, (x =? 3) eqn:?, (x =? 15) eqn:?; cbn; reflect_bools; lia.
Qed.

Lemma apply_key_ok c key val : cfg_ok c -> cfg_ok (apply_key c key val).
Proof.
  intros (H1 & H2 & H3 & H4 & H5). unfold apply_key, cfg_ok.
  pose proof (bool_or_ok (conf_int val) 1). pose proof (period_or_ok (conf_int val) 3).
  pose proof (period_or_ok (conf_int val) 1).
  repeat case_decide; cbn [gps_epo_enable gps_epo_download_days gps_epo_period wifi_epo_period
    gps_epo_wifi_trigger]; (split_and!; try done; try lia);
    destruct (30 <? conf_int val) eqn:?, (conf_int val <? 0) eqn:?; cbn; reflect_bools; lia.
Qed.

(** Whatever the file says, the settings are valid. *)
Lemma conf_settings_ok c conf : cfg_ok c -> cfg_ok (gps_download_epo_enable c conf).
Proof.
  intros Hc. unfold gps_download_epo_enable. destruct conf as [s|]; [|done].
  generalize (fgets_lines (length s) s). intros ls. revert c Hc.
  induction ls as [|l ls IH]; intros c Hc; cbn; [done|].
  destruct (get_val (cstr l)); auto using apply_key_ok.
Qed.

(** The last character of a value is dropped, so that a value is read as written only in a
    file with carriage returns: without, [EPO_ENABLE=1] switches the download off and
    [DW_DAYS=15] asks for one day. *)
Lemma conf_value_truncated :
  gps_download_epo_enable default_cfg
    (Some (bytes_of "EPO_ENABLE=1" ++ 10 :: bytes_of "DW_DAYS=15" ++ [10])) = mkCfg 0 1 3 1 0 /\
  gps_download_epo_enable default_cfg
    (Some (bytes_of "EPO_ENABLE=1" ++ [13; 10] ++ bytes_of "DW_DAYS=15" ++ [13; 10])) = mkCfg 1 15 3 1 0.
Proof. split; vm_compute; reflexivity. Qed.

(** An empty line ends the reading of the file. *)
Lemma conf_empty_line_stops :
  gps_download_epo_enable default_cfg
    (Some (10 :: bytes_of "DW_DAYS=15" ++ [13; 10])) = default_cfg.
Proof. vm_compute. reflexivity. Qed.

(** * The period of a file *)

(** The [unsigned int] at the beginning. *)
Definition first_word (b : list Z) : Z :=
  byte_at b 0 + 256 * byte_at b 1 + 65536 * byte_at b 2 + 16777216 * byte_at b 3.

(** The GPS seconds of a record: hours in its first three bytes. *)
Definition record_secs (b : list Z) : Z := u32 (Z.land (first_word b) 16777215 * 3600).

Definition utc_of_secs (gmtoff secs : Z) : Z := GpsToUtcTime gmtoff (secs / 604800) (secs mod 604800).

(** [mtk_gps_sys_epo_period_start] (and [mtk_gps_epo_piece_data_start]) on an open file. *)
Definition epo_period_start (gmtoff : Z) (b : list Z) : option Z :=
  if zlen b <? MTK_EPO_ONE_SV_SIZE then None else Some (utc_of_secs gmtoff (record_secs b)).

(** [mtk_gps_sys_epo_period_end] (and [mtk_gps_epo_piece_data_end]): six hours behind the
    last record. *)
Definition epo_period_end (gmtoff : Z) (b : list Z) : option Z :=
  if zlen b <? MTK_EPO_ONE_SV_SIZE then None
  else Some (utc_of_secs gmtoff
               (u32 (record_secs (zdrop (zlen b - MTK_EPO_ONE_SV_SIZE) b) + 21600))).

Abbreviation dir := (gmap string (list Z)).

(** The prediction in use: EPOHAL.DAT, else EPO.DAT. *)
Definition epo_file (d : dir) : option (list Z) :=
  match d !! EPO_FILE_HAL with Some b => Some b | None => d !! EPO_FILE end.

(** [mtk_gps_epo_file_time_hal]: [uTime[0]] and [uTime[2]], zero where not set. *)
Definition mtk_gps_epo_file_time_hal (gmtoff : Z) (d : dir) : Z * Z :=
  match epo_file d with
  | None => (0, 0)
  | Some b =>
      match epo_period_start gmtoff b with
      | None => (0, 0)
      | Some t0 => match epo_period_end gmtoff b with None => (t0, 0) | Some t2 => (t0, t2) end
      end
  end.

(** How long after its beginning a prediction is used. *)
Definition expired_set (c : EpoCfg) (wifi_tragger : bool) (t0 t2 : Z) : Z :=
  let etime := gps_epo_period c * DAY in
  if wifi_tragger then wifi_epo_period c * DAY
  else if t2 - t0 <? etime then
    let download_day := Z.quot (t2 - t0) DAY in
    if download_day <? 3 then 0
    else if download_day <? 6 then 2 * DAY
    else if download_day <? 9 then 5 * DAY
    else 7 * DAY
  else etime.

(** [mtk_epo_is_expired]; the clock is turned into a broken-down UTC time and back as a
    local one. *)
Definition mtk_epo_is_expired (c : EpoCfg) (gmtoff now : Z) (d : dir) (wifi_tragger : bool) : bool :=
  let time_utc := u32 (mktime gmtoff (gmtime now)) in
  let '(t0, t2) := mtk_gps_epo_file_time_hal gmtoff d in
  expired_set c wifi_tragger t0 t2 + t0 <=? time_utc.

(** The UTC time a record stands for, and the period of a file. *)
Definition epo_begin (b : list Z) : Z := GPS_EPOCH + record_secs b.
Definition epo_end (b : list Z) : Z :=
  GPS_EPOCH + u32 (record_secs (zdrop (zlen b - MTK_EPO_ONE_SV_SIZE) b) + 21600).

Lemma record_secs_range b : 0 <= record_secs b < 4294967296.
Proof. unfold record_secs, u32. apply Z.mod_pos_bound. lia. Qed.

Lemma utc_of_secs_linear gmtoff secs :
  0 <= secs < 4294967296 -> is_time_t (GPS_EPOCH + secs - gmtoff) = true ->
  utc_of_secs gmtoff secs = GPS_EPOCH + secs - gmtoff.
Proof.
  intros Hs Ht. unfold utc_of_secs, GpsToUtcTime, mktime.
  rewrite timegm_gps_civil by (Z.div_mod_to_equations; lia).
  replace (GPS_EPOCH + secs / 604800 * 604800 + secs mod 604800 - gmtoff)
    with (GPS_EPOCH + secs - gmtoff) by (Z.div_mod_to_equations; lia).
  by rewrite Ht.
Qed.

(** Times the device can represent in its zone. *)
Definition zone_ok (gmtoff : Z) (b : list Z) : Prop :=
  is_time_t (epo_begin b - gmtoff) = true /\ is_time_t (epo_end b - gmtoff) = true.

Lemma file_time_linear gmtoff d b :
  epo_file d = Some b -> MTK_EPO_ONE_SV_SIZE <= zlen b -> zone_ok gmtoff b ->
  mtk_gps_epo_file_time_hal gmtoff d = (epo_begin b - gmtoff, epo_end b - gmtoff).
Proof.
  intros Hf Hl [H1 H2]. unfold mtk_gps_epo_file_time_hal, epo_period_start, epo_period_end.
  rewrite Hf, (proj2 (Z.ltb_ge _ _)) by done.
  rewrite !utc_of_secs_linear; [done| |done|apply record_secs_range|done].
  apply Z.mod_pos_bound. lia.
Qed.


(** One record, hour 324,000 of GPS time (December 2016). *)
Definition sample_epo : list Z := [160; 241; 4; 0] ++ replicate 68 0.


(** * The download *)

Record EpoState := mkEpo {
  files : dir;
  gps_epo_file_name : string;
  gps_epo_md_file_name : string;
  gps_epo_file_count : Z;
  epo_download_failed : bool;
  epo_data_updated : bool;
  net : list (bool * list Z)      (* success and the bytes received, for each download *)
}.

Definition set_files (s : EpoState) (d : dir) : EpoState :=
  mkEpo d (gps_epo_file_name s) (gps_epo_md_file_name s) (gps_epo_file_count s)
        (epo_download_failed s) (epo_data_updated s) (net s).
Definition set_names (s : EpoState) (n m : string) : EpoState :=
  mkEpo (files s) n m (gps_epo_file_count s) (epo_download_failed s) (epo_data_updated s) (net s).
Definition set_count (s : EpoState) (c : Z) : EpoState :=
  mkEpo (files s) (gps_epo_file_name s) (gps_epo_md_file_name s) c
        (epo_download_failed s) (epo_data_updated s) (net s).
Definition set_failed (s : EpoState) (f : bool) : EpoState :=
  mkEpo (files s) (gps_epo_file_name s) (gps_epo_md_file_name s) (gps_epo_file_count s)
        f (epo_data_updated s) (net s).
Definition set_updated (s : EpoState) (u : bool) : EpoState :=
  mkEpo (files s) (gps_epo_file_name s) (gps_epo_md_file_name s) (gps_epo_file_count s)
        (epo_download_failed s) u (net s).
Definition set_net (s : EpoState) (n : list (bool * list Z)) : EpoState :=
  mkEpo (files s) (gps_epo_file_name s) (gps_epo_md_file_name s) (gps_epo_file_count s)
        (epo_download_failed s) (epo_data_updated s) n.

Definition unlink (s : EpoState) (name : string) : EpoState := set_files s (delete name (files s)).

(** The names of piece [count] for the type of prediction: 1 is GPS only, 0 with GLONASS. *)
Definition piece_stem (gps_epo_type : Z) : option string :=
  if gps_epo_type =? 1 then Some "EPO_GPS_3_" else if gps_epo_type =? 0 then Some "EPO_GR_3_" else None.

Definition piece_number (count : Z) : option string :=
  if count <? 0 then None
  else ["1"; "2"; "3"; "4"; "5"; "6"; "7"; "8"; "9"; "10"] !! Z.to_nat count.

Definition gps_download_epo_file_name (gps_epo_type count : Z) (s : EpoState) : EpoState :=
  match piece_stem gps_epo_type, piece_number count with
  | Some st, Some n => set_names s (st +:+ n +:+ ".DAT") (st +:+ n +:+ ".MD5")
  | _, _ => s
  end.

(** The request for a download. *)
Definition gps_download_epo (s : EpoState) : EpoState := set_count (set_updated s true) 0.

Section Download.
Context (getEpoUrl : string -> bool) (gps_epo_type gmtoff : Z).

(** [curl_easy_download]: the file is created, and what arrives is in it. *)
Definition curl_easy_download (name : string) (s : EpoState) : bool * EpoState :=
  match net s with
  | [] => (false, set_files s (<[name := []]> (files s)))
  | (ok, data) :: net' => (ok, set_net (set_files s (<[name := data]> (files s))) net')
  end.

(** [curl_easy_download_epo]: the checksum file, then the piece, appended to EPOHAL.DAT. *)
Definition curl_easy_download_epo (s : EpoState) : bool * EpoState :=
  if negb (getEpoUrl (gps_epo_md_file_name s)) then (false, s)
  else
    let '(ok, s) := curl_easy_download (gps_epo_md_file_name s) s in
    let s := if ok : bool then unlink s (gps_epo_md_file_name s) else s in
    if negb (getEpoUrl (gps_epo_file_name s)) then (false, s)
    else
      let '(ok, s) := curl_easy_download (gps_epo_file_name s) s in
      if ok : bool then
        let s := if gps_epo_file_count s =? 0 then unlink s EPO_FILE_HAL else s in
        let old := default [] (files s !! EPO_FILE_HAL) in
        let data := default [] (files s !! gps_epo_file_name s) in
        (true, set_files s (<[EPO_FILE_HAL := old ++ data]> (files s)))
      else (false, unlink s (gps_epo_file_name s)).

Definition mtk_gps_epo_file_update_hal (s : EpoState) : Z * EpoState :=
  let '(ok, s) := curl_easy_download_epo s in
  if ok : bool then (0, s) else (-1, set_failed s true).

(** A time read from a piece: the time (0 without a file) and whether the file is short. *)
Definition piece_time (f : list Z -> option Z) (s : EpoState) : Z * bool :=
  match files s !! gps_epo_file_name s with
  | None => (0, false)
  | Some b => match f b with Some t => (t, false) | None => (0, true) end
  end.

(** The pieces [n] down to 0 are removed. *)
Fixpoint unlink_pieces (n : nat) (s : EpoState) : EpoState :=
  let s := gps_download_epo_file_name gps_epo_type (Z.of_nat n) s in
  let s := unlink s (gps_epo_file_name s) in
  match n with O => s | S n' => unlink_pieces n' s end.

(** [mtk_gps_epo_server_data_is_changed]: 1 when the piece does not follow the one before,
    or one of them cannot be read. *)
Definition mtk_gps_epo_server_data_is_changed (s : EpoState) : Z * EpoState :=
  let '(t_start, bad1) := piece_time (epo_period_start gmtoff) s in
  let s := if bad1 : bool then set_failed s true else s in
  let '(t_end, bad2, s) :=
    if 0 <? gps_epo_file_count s then
      let s := gps_download_epo_file_name gps_epo_type (gps_epo_file_count s - 1) s in
      let '(t, bad) := piece_time (epo_period_end gmtoff) s in
      (t, bad, if bad : bool then set_failed s true else s)
    else if gps_epo_file_count s =? 0 then (t_start, false, s) else (0, false, s) in
  if DAY <=? t_start - t_end then
    let s := if 0 <=? gps_epo_file_count s
             then unlink_pieces (Z.to_nat (gps_epo_file_count s)) s else s in
    (1, set_count (unlink s EPO_FILE_HAL) 0)
  else (if bad1 || bad2 then 1 else 0, s).

(** The pieces below [n] are removed, from 0 on. *)
Fixpoint remove_pieces (n : nat) (i : Z) (s : EpoState) : EpoState :=
  match n with
  | O => s
  | S n' =>
      let s := gps_download_epo_file_name gps_epo_type i s in
      remove_pieces n' (i + 1) (unlink s (gps_epo_file_name s))
  end.

(** The number of pieces for the days configured. *)
Definition piece_total (days : Z) : Z := days / 3 + (if 0 <? days mod 3 then 1 else 0).

(** [mtk_gps_epo_file_update]: the state, and whether the daemon is told to use the new
    prediction. *)
Definition mtk_gps_epo_file_update (days : Z) (started : bool) (s : EpoState) : bool * EpoState :=
  let '(ret, s) := mtk_gps_epo_file_update_hal s in
  if ret <? 0 then (false, s)
  else
    let '(is_changed, s) := mtk_gps_epo_server_data_is_changed s in
    if is_changed =? 1 then (false, s)
    else
      let s := set_count s (gps_epo_file_count s + 1) in
      let count_temp := piece_total days in
      if (gps_epo_file_count s <? 10) && (gps_epo_file_count s <? count_temp) then (false, s)
      else
        let s := remove_pieces (Z.to_nat count_temp) 0 s in
        let s := set_failed (set_count (set_updated s false) 0) false in
        if started then (true, unlink s EPO_FILE) else (false, s).

(** The part of the EPO thread's round that downloads: one piece if a download is wanted. *)
Definition epo_round (days : Z) (started : bool) (s : EpoState) : bool * EpoState :=
  if epo_data_updated s then
    let s := gps_download_epo_file_name gps_epo_type (gps_epo_file_count s) (set_failed s false) in
    let '(told, s) := mtk_gps_epo_file_update days started s in
    (told, if epo_download_failed s then set_updated s false else s)
  else (false, s).

Fixpoint epo_rounds (n : nat) (days : Z) (started : bool) (s : EpoState) : list bool * EpoState :=
  match n with
  | O => ([], s)
  | S n' =>
      let '(t, s1) := epo_round days started s in
      let '(ts, s2) := epo_rounds n' days started s1 in (t :: ts, s2)
  end.

End Download.

(** * A complete download *)

(** The name of piece [i], and of its checksum. *)
Definition dat_name (t i : Z) : string :=
  (default "" (piece_stem t)) +:+ (default "" (piece_number i)) +:+ ".DAT".
Definition md_name (t i : Z) : string :=
  (default "" (piece_stem t)) +:+ (default "" (piece_number i)) +:+ ".MD5".

Definition type_ok (t : Z) : Prop := t = 0 \/ t = 1.

(** No two files of a download have the same name. *)
Definition names_apart (t i j : Z) : bool :=
  bool_decide (dat_name t i <> EPO_FILE_HAL) && bool_decide (md_name t i <> EPO_FILE_HAL) &&
  bool_decide (dat_name t i <> EPO_FILE) && bool_decide (md_name t i <> dat_name t j) &&
  ((i =? j) || bool_decide (dat_name t i <> dat_name t j)).

Lemma names_apart_ok t i j : type_ok t -> 0 <= i < 10 -> 0 <= j < 10 -> names_apart t i j = true.
Proof.
  intros Ht Hi Hj.
  assert (forallb (fun t => forallb (fun i => forallb (names_apart t i) (seqZ 0 10)) (seqZ 0 10)) (seqZ 0 2)
          = true) as HT by (vm_compute; reflexivity).
  assert (0 <= t < 2) as Ht2 by (destruct Ht; lia).
  pose proof (range_forall _ _ (range_forall _ _ HT t Ht2) i Hi) as HT'.
  exact (range_forall _ _ HT' j Hj).
Qed.

Lemma dat_not_hal t i : type_ok t -> 0 <= i < 10 -> dat_name t i <> EPO_FILE_HAL.
Proof. intros Ht Hi. pose proof (names_apart_ok t i i Ht Hi Hi) as HN. unfold names_apart in HN. by reflect_bools. Qed.

Lemma md_not_hal t i : type_ok t -> 0 <= i < 10 -> md_name t i <> EPO_FILE_HAL.
Proof. intros Ht Hi. pose proof (names_apart_ok t i i Ht Hi Hi) as HN. unfold names_apart in HN. by reflect_bools. Qed.

Lemma dat_not_epo t i : type_ok t -> 0 <= i < 10 -> dat_name t i <> EPO_FILE.
Proof. intros Ht Hi. pose proof (names_apart_ok t i i Ht Hi Hi) as HN. unfold names_apart in HN. by reflect_bools. Qed.

Lemma md_not_dat t i j : type_ok t -> 0 <= i < 10 -> 0 <= j < 10 -> md_name t i <> dat_name t j.
Proof. intros Ht Hi Hj. pose proof (names_apart_ok t i j Ht Hi Hj) as HN. unfold names_apart in HN. by reflect_bools. Qed.

Lemma dat_inj t i j : type_ok t -> 0 <= i < 10 -> 0 <= j < 10 -> i <> j -> dat_name t i <> dat_name t j.
Proof.
  intros Ht Hi Hj Hne. pose proof (names_apart_ok t i j Ht Hi Hj) as HN. unfold names_apart in HN.
  reflect_bools. rewrite (proj2 (Z.eqb_neq i j)) in * by done. cbn in *. by reflect_bools.
Qed.

Create HintDb epo discriminated.
#[local] Hint Resolve dat_not_hal md_not_hal dat_not_epo md_not_dat dat_inj : epo.

Section Complete.
Context (getEpoUrl : string -> bool) (t gmtoff : Z).
Hypothesis Ht : type_ok t.
Hypothesis Hurl : forall n, getEpoUrl n = true.

Lemma file_name_piece i s :
  0 <= i < 10 -> gps_download_epo_file_name t i s = set_names s (dat_name t i) (md_name t i).
Proof.
  intros Hi. unfold gps_download_epo_file_name, dat_name, md_name.
  assert (is_Some (piece_stem t)) as [st ->] by (destruct Ht; subst; eauto).
  assert (is_Some (piece_number i)) as [n ->]; [|done].
  unfold piece_number. rewrite (proj2 (Z.ltb_ge i 0)) by lia. apply lookup_lt_is_Some. cbn. lia.
Qed.

(** Removing the pieces leaves the other files. *)
Lemma remove_pieces_spec n i s :
  0 <= i -> i + Z.of_nat n <= 10 ->
  let s' := remove_pieces t n i s in
  net s' = net s /\
  (forall j, i <= j < i + Z.of_nat n -> files s' !! dat_name t j = None) /\
  (forall k, (forall j, 0 <= j < 10 -> k <> dat_name t j) -> files s' !! k = files s !! k) /\
  (forall k, files s !! k = None -> files s' !! k = None).
Proof.
  revert i s. induction n as [|n IH]; intros i s Hi Hn; cbn [remove_pieces].
  { split_and!; try done. intros j Hj. lia. }
  rewrite file_name_piece by lia. set (s1 := unlink _ _).
  destruct (IH (i + 1) s1) as (H1 & H2 & H3 & H4); [lia|lia|]. cbn zeta in *.
  split; [by rewrite H1|]. split; [|split].
  - intros j Hj. destruct (decide (j = i)) as [->|Hne]; [|apply H2; lia].
    apply H4. cbn. apply lookup_delete_eq.
  - intros k Hk. rewrite H3 by done. cbn. rewrite lookup_delete_ne; [done|]. apply not_eq_sym, Hk. lia.
  - intros k Hk. apply H4. cbn. destruct (decide (dat_name t i = k)) as [->|Hne].
    + apply lookup_delete_eq.
    + by rewrite lookup_delete_ne.
Qed.

(** The download of one piece. *)
Lemma download_piece s i m d net' :
  0 <= i < 10 -> gps_epo_file_name s = dat_name t i -> gps_epo_md_file_name s = md_name t i ->
  gps_epo_file_count s = i -> net s = (true, m) :: (true, d) :: net' ->
  let old := if i =? 0 then [] else default [] (files s !! EPO_FILE_HAL) in
  exists fs, mtk_gps_epo_file_update_hal getEpoUrl s =
    (0, mkEpo fs (dat_name t i) (md_name t i) i (epo_download_failed s) (epo_data_updated s) net') /\
  fs !! EPO_FILE_HAL = Some (old ++ d) /\ fs !! dat_name t i = Some d /\
  (forall j, 0 <= j < 10 -> j <> i -> fs !! dat_name t j = files s !! dat_name t j).
Proof.
  intros Hi Hn Hm Hc Hnet old. destruct s as [fs0 n0 m0 c0 f0 u0 net0]. cbn in *. subst n0 m0 c0 net0.
  unfold mtk_gps_epo_file_update_hal, curl_easy_download_epo. cbn [gps_epo_md_file_name].
  rewrite !Hurl. cbn. rewrite Hurl. cbn.
  set (fs1 := <[dat_name t i := d]> (delete (md_name t i) (<[md_name t i := m]> fs0))).
  set (fs2 := if i =? 0 then delete EPO_FILE_HAL fs1 else fs1).
  assert (fs2 !! dat_name t i = Some d) as Hd.
  { unfold fs2, fs1. case_if; [rewrite lookup_delete_ne by (apply not_eq_sym; auto with epo)|];
      apply lookup_insert_eq. }
  assert (default [] (fs2 !! EPO_FILE_HAL) = old) as Hold.
  { unfold fs2, fs1, old. case_if; [by rewrite lookup_delete_eq|].
    rewrite lookup_insert_ne, lookup_delete_ne, lookup_insert_ne by auto with epo. done. }
  exists (<[EPO_FILE_HAL := old ++ d]> fs2). split.
  - fold fs1. rewrite <- Hold. unfold fs2 in *. case_if; cbn; by rewrite Hd.
  - split; [apply lookup_insert_eq|]. split; [by rewrite lookup_insert_ne by (apply not_eq_sym; auto with epo)|].
    intros j Hj Hne. rewrite lookup_insert_ne by (apply not_eq_sym; auto with epo).
    unfold fs2, fs1. case_if; [rewrite lookup_delete_ne by (apply not_eq_sym; auto with epo)|];
      rewrite lookup_insert_ne, lookup_delete_ne, lookup_insert_ne by auto with epo; done.
Qed.

(** What the check of a new piece asks of the one before. *)
Definition follows (s : EpoState) (i : Z) (d : list Z) : Prop :=
  i = 0 \/ 0 < i /\ exists p, files s !! dat_name t (i - 1) = Some p /\ MTK_EPO_ONE_SV_SIZE <= zlen p /\
                    zone_ok gmtoff p /\ epo_begin d - epo_end p < DAY.

(** A piece that follows the one before passes. *)
Lemma piece_accepted s i d :
  0 <= i < 10 -> gps_epo_file_name s = dat_name t i -> gps_epo_file_count s = i ->
  files s !! dat_name t i = Some d -> MTK_EPO_ONE_SV_SIZE <= zlen d -> zone_ok gmtoff d ->
  follows s i d ->
  exists n m, mtk_gps_epo_server_data_is_changed t gmtoff s = (0, set_names s n m).
Proof.
  intros Hi Hn Hc Hf Hl Hz Hfol. destruct s as [fs n0 m0 c0 f0 u0 net0]. cbn in *. subst n0 c0.
  assert (forall b, MTK_EPO_ONE_SV_SIZE <= zlen b -> zone_ok gmtoff b ->
     epo_period_start gmtoff b = Some (epo_begin b - gmtoff) /\
     epo_period_end gmtoff b = Some (epo_end b - gmtoff)) as HP.
  { intros b Hb [Hz1 Hz2]. unfold epo_period_start, epo_period_end.
    rewrite (proj2 (Z.ltb_ge _ _)) by done.
    rewrite !utc_of_secs_linear; [done| |done|apply record_secs_range|done].
    apply Z.mod_pos_bound. lia. }
  destruct (HP d Hl Hz) as [Hs _].
  unfold mtk_gps_epo_server_data_is_changed, piece_time. cbn. rewrite Hf, Hs. cbn.
  destruct Hfol as [->|(Hpos & p & Hp & Hlp & Hzp & Hd)].
  - cbn. rewrite Z.sub_diag. cbn. by eexists _, _.
  - rewrite (proj2 (Z.ltb_lt 0 i)) by done. rewrite file_name_piece by lia. cbn in Hp |- *.
    rewrite Hp. destruct (HP p Hlp Hzp) as [_ ->]. cbn.
    rewrite (proj2 (Z.leb_gt DAY _)) by lia. cbn. by eexists _, _.
Qed.

(** One round of a download that goes well. *)
Lemma round_piece s i m d net' days started :
  0 <= i < piece_total days -> piece_total days <= 10 -> epo_data_updated s = true ->
  gps_epo_file_count s = i -> net s = (true, m) :: (true, d) :: net' ->
  MTK_EPO_ONE_SV_SIZE <= zlen d -> zone_ok gmtoff d -> follows s i d ->
  let old := if i =? 0 then [] else default [] (files s !! EPO_FILE_HAL) in
  let '(told, s') := epo_round getEpoUrl t gmtoff days started s in
  net s' = net' /\ epo_download_failed s' = false /\ files s' !! EPO_FILE_HAL = Some (old ++ d) /\
  if i + 1 <? piece_total days then
    told = false /\ epo_data_updated s' = true /\ gps_epo_file_count s' = i + 1 /\
    files s' !! dat_name t i = Some d
  else
    told = started /\ epo_data_updated s' = false /\ gps_epo_file_count s' = 0 /\
    forall j, 0 <= j < piece_total days -> files s' !! dat_name t j = None.
Proof.
  intros Hi Hn Hu Hc Hnet Hl Hz Hfol old. unfold epo_round. rewrite Hu, Hc, file_name_piece by lia.
  set (s0 := set_names _ _ _).
  destruct (download_piece s0 i m d net') as (fs & Hdl & Hhal & Hd & Hother); [lia|done..|].
  unfold mtk_gps_epo_file_update. rewrite Hdl. cbn [Z.ltb Z.compare].
  set (s1 := mkEpo fs _ _ _ _ _ _) in *.
  destruct (piece_accepted s1 i d) as (n & mm & Hck); [lia|done..| |].
  { destruct Hfol as [->|(Hpos & p & Hp & Hrest)]; [by left|right]. split; [done|]. exists p. split; [|done].
    cbn. rewrite Hother by lia. exact Hp. }
  rewrite Hck. cbn [Z.eqb set_names set_count gps_epo_file_count s1 files gps_epo_file_name
    gps_epo_md_file_name epo_download_failed epo_data_updated net].
  destruct (i + 1 <? piece_total days) eqn:Ei; reflect_bools.
  - rewrite (proj2 (Z.ltb_lt (i + 1) 10)) by lia. cbn. by rewrite Hu.
  - rewrite andb_false_r. match goal with |- context [remove_pieces t _ 0 ?x] => set (s2 := x) end.
    destruct (remove_pieces_spec (Z.to_nat (piece_total days)) 0 s2) as (R1 & R2 & R3 & R4); [lia|lia|].
    cbn zeta in *. set (s3 := remove_pieces t _ 0 s2) in *.
    assert (files s3 !! EPO_FILE_HAL = Some (old ++ d)) as H3.
    { rewrite R3; [exact Hhal|]. intros j Hj. apply not_eq_sym. auto with epo. }
    assert (forall j, 0 <= j < piece_total days -> files s3 !! dat_name t j = None) as HN.
    { intros j Hj. apply R2. lia. }
    destruct started; cbn; split_and!; try done.
    + by rewrite lookup_delete_ne.
    + intros j Hj. rewrite lookup_delete_ne by (apply not_eq_sym, dat_not_epo; (done || lia)). by apply HN.
Qed.

(** The results of the network for the pieces, each with its checksum file. *)
Definition deliveries (ds : list (list Z * list Z)) : list (bool * list Z) :=
  concat (map (fun p => [(true, p.1); (true, p.2)]) ds).

(** Each piece is complete and begins within a day of the end of the one before. *)
Fixpoint chained (prev : option (list Z)) (ds : list (list Z * list Z)) : Prop :=
  match ds with
  | [] => True
  | (_, d) :: ds' =>
      MTK_EPO_ONE_SV_SIZE <= zlen d /\ zone_ok gmtoff d /\
      match prev with None => True | Some p => epo_begin d - epo_end p < DAY end /\ chained (Some d) ds'
  end.

Lemma rounds_pieces ds days started i s rest :
  ds <> [] -> 0 <= i -> i + zlen ds = piece_total days -> piece_total days <= 10 ->
  epo_data_updated s = true -> gps_epo_file_count s = i -> net s = deliveries ds ++ rest ->
  (if i =? 0 then chained None ds
   else exists p, files s !! dat_name t (i - 1) = Some p /\ MTK_EPO_ONE_SV_SIZE <= zlen p /\
                  zone_ok gmtoff p /\ chained (Some p) ds) ->
  let old := if i =? 0 then [] else default [] (files s !! EPO_FILE_HAL) in
  let '(told, s') := epo_rounds getEpoUrl t gmtoff (length ds) days started s in
  told = replicate (length ds - 1) false ++ [started] /\
  files s' !! EPO_FILE_HAL = Some (old ++ concat (map snd ds)) /\
  (forall j, 0 <= j < piece_total days -> files s' !! dat_name t j = None) /\
  gps_epo_file_count s' = 0 /\ epo_data_updated s' = false /\ epo_download_failed s' = false /\
  net s' = rest.
Proof.
  revert i s. induction ds as [|[m d] ds IH]; intros i s Hne Hi Htot Hmax Hu Hc Hnet Hch; [done|].
  rewrite zlen_cons in Htot. pose proof (zlen_nonneg ds). intros old.
  assert (MTK_EPO_ONE_SV_SIZE <= zlen d /\ zone_ok gmtoff d /\ chained (Some d) ds /\ follows s i d)
    as (Hl & Hz & Hch' & Hfol).
  { destruct (i =? 0) eqn:Ei; reflect_bools.
    - destruct Hch as (? & ? & _ & ?). split_and!; try done. by left.
    - destruct Hch as (p & ? & ? & ? & ? & ? & ? & ?). split_and!; try done. right. split; [lia|]. eauto. }
  cbn [length epo_rounds].
  pose proof (round_piece s i m d (deliveries ds ++ rest) days started) as HR.
  destruct (epo_round getEpoUrl t gmtoff days started s) as [told s1].
  destruct HR as (Hn1 & Hf1 & Hh1 & HR); [lia|done..|].
  destruct (i + 1 <? piece_total days) eqn:Ei; reflect_bools.
  - destruct HR as (-> & Hu1 & Hc1 & Hd1).
    assert (ds <> []) as Hne' by (intros ->; rewrite zlen_nil in Htot; lia).
    specialize (IH (i + 1) s1 Hne'). destruct (epo_rounds getEpoUrl t gmtoff (length ds) days started s1) as [tolds s2].
    destruct IH as (IH1 & IH2 & IH3); [lia|lia|done..| |].
    { rewrite (proj2 (Z.eqb_neq (i + 1) 0)) by lia. replace (i + 1 - 1) with i by lia. eauto. }
    rewrite (proj2 (Z.eqb_neq (i + 1) 0)), Hh1 in IH2 by lia.
    split; [rewrite IH1; destruct ds; [done|cbn; by rewrite Nat.sub_0_r]|].
    split; [|done]. rewrite IH2. cbn. by rewrite <- app_assoc.
  - assert (ds = []) as -> by (destruct ds; [done|rewrite zlen_cons in Htot; pose proof (zlen_nonneg ds); lia]).
    destruct HR as (-> & Hu1 & Hc1 & HN). cbn. split_and!; try done. by rewrite Hh1, app_nil_r.
Qed.

(** C20: A download of all pieces leaves their concatenation: with the request made and the
    network delivering every piece and checksum, complete and each within a day of the
    one before, the rounds of the EPO thread take one piece each, and after the last one
    EPOHAL.DAT holds exactly the pieces in order whatever it held before, the piece files
    are gone, the request is done, and the daemon is told once, after the last piece, if
    a session is running. *)
Theorem epo_pieces_joined ds days started s rest :
  0 < piece_total days -> zlen ds = piece_total days -> piece_total days <= 10 ->
  net s = deliveries ds ++ rest -> chained None ds ->
  let '(told, s') := epo_rounds getEpoUrl t gmtoff (length ds) days started (gps_download_epo s) in
  told = replicate (length ds - 1) false ++ [started] /\
  files s' !! EPO_FILE_HAL = Some (concat (map snd ds)) /\
  (forall j, 0 <= j < piece_total days -> files s' !! dat_name t j = None) /\
  gps_epo_file_count s' = 0 /\ epo_data_updated s' = false /\ epo_download_failed s' = false /\
  net s' = rest.
Proof using Ht Hurl.
  intros H0 Hl Hmax Hnet Hch.
  apply (rounds_pieces ds days started 0 (gps_download_epo s) rest); try done; try lia.
  intros ->. rewrite zlen_nil in Hl. lia.
Qed.
End Complete.

Lemma epo_pieces_joined_witness :
  let s0 := mkEpo {[ EPO_FILE_HAL := [1; 2; 3] ]} "" "" 4 true false
              [(true, []); (true, sample_epo); (true, [7]); (true, sample_epo)] in
  let '(told, s') := epo_rounds (fun _ => true) 1 28800 2 6 true (gps_download_epo s0) in
  told = [false; true] /\ files s' !! EPO_FILE_HAL = Some (sample_epo ++ sample_epo) /\
  (forall j, 0 <= j < 2 -> files s' !! dat_name 1 j = None) /\
  gps_epo_file_count s' = 0 /\ epo_data_updated s' = false /\ epo_download_failed s' = false /\ net s' = [].
Proof.
  exact (epo_pieces_joined (fun _ => true) 1 28800 (or_intror eq_refl) (fun _ => eq_refl)
           [([], sample_epo); ([7], sample_epo)] 6 true
           (mkEpo {[ EPO_FILE_HAL := [1; 2; 3] ]} "" "" 4 true false
              [(true, []); (true, sample_epo); (true, [7]); (true, sample_epo)]) []
           ltac:(vm_compute; reflexivity) eq_refl ltac:(vm_compute; discriminate) eq_refl
           ltac:(repeat split; vm_compute; (discriminate || reflexivity))).
Defined.
